(* ===== verification/_CoqProject ===== *)
-Q . S2P
Prelude.v
JsString.v
Uri.v
JsValue.v
Json.v
JsonSpec.v
QueryKey.v
UrlBuilder.v
UrlSpec.v
Params.v
BodySerializer.v
BodySpec.v
Headers.v
Sse.v
SseSpec.v
Interceptors.v
Client.v
ClientSpec.v
ApiEnums.v
Zod.v
ApiTypes.v
ApiSchemas.v
SchemaSpec.v
SchemaStable.v
Faker.v
ApiFakes.v
FakeSpec.v
Sdk.v
SdkSpec.v
Queries.v
QueriesSpec.v
ApiErrors.v
ApiErrorsSpec.v
Startup.v
Stream.v
Execution.v
ExecutionSpec.v
Editor.v
CodeEditor.v
Session.v
Shell.v
Formatters.v
Validation.v
Forms.v
FormsSpec.v
Workbench.v
WorkbenchSpec.v
EventFilters.v
Html.v
Output.v
EventsPage.v
Notifications.v
NotificationCenter.v
Pager.v
CommonView.v
CommonSpec.v
EditorView.v
EditorPage.v
UsersView.v
ExecutionsView.v
AdminView.v
SettingsView.v
PagesView.v
NotificationsView.v
EventsView.v
UsersSpec.v
UsersPage.v
EventsSpec.v
EventsAdmin.v
NotificationsSpec.v
ExecutionsPage.v
SettingsPages.v
