(* ===== verification/Prelude.v ===== *)
(** * Verification of the Integr8sCode web client

    Integr8sCode runs scripts that users submit.  This development models the
    TypeScript of its web client ([src/frontend/src]): the generated API client
    with its schemas and types, and the application's own modules on top of it.

    ** The program and its parts

    A page calls a function of the SDK, directly or through a query or mutation
    of TanStack Query.  The SDK function adds its URL template and body
    serializer to the options and calls the HTTP client, which merges headers,
    serializes path, query and body, runs the request interceptors (one adds the
    CSRF token), fetches, runs the response interceptors, and parses the answer
    or runs the error interceptors (one turns any failure into an
    [ErrorResponse]).  Event streams (the events of an execution, notifications)
    go through the server-sent events client, which parses and reconnects.  The
    editor runs scripts through a state machine over a mutation and such a
    stream; guards decide who sees a page; formatters and forms show data.

    ** Files

    Foundations of the language and the platform:
    - [Prelude]: outcomes and effects, automation, lists.
    - [JsString], [Uri]: strings of UTF-16 code units, percent encoding with its
      reference decoder.
    - [JsValue], [Json], [JsonSpec]: dynamically typed values and their
      coercions; [JSON.stringify] and [JSON.parse], and their round trip.

    The API client ([lib/api]):
    - [QueryKey]: [core/queryKeySerializer.gen.ts].
    - [UrlBuilder], [UrlSpec]: [core/pathSerializer.gen.ts], [core/utils.gen.ts],
      [buildUrl] and [createQuerySerializer] of [client/utils.gen.ts].
    - [BodySerializer], [BodySpec]: [core/bodySerializer.gen.ts].
    - [Headers]: [mergeHeaders] and the credentials of [client/utils.gen.ts] and
      [core/auth.gen.ts].  [Interceptors]: the class of that name.
    - [Sse], [SseSpec]: [core/serverSentEvents.gen.ts].  [createSseClient] gives
      the list of what the generator does (connect, yield, call back, sleep,
      reject) against a network that answers each attempt as it likes.
    - [Client], [ClientSpec]: [client/client.gen.ts] and the configuration part of
      [client/utils.gen.ts].  A call is a computation in the monad [M] over the
      world (what [fetch], interceptors and callbacks see).
    - [ApiEnums], [ApiTypes]: [types.gen.ts], every type.  [Zod]: the languages of
      schemas and types, with what zod does as the laws of the class [Zod] and a
      reference instance.  [ApiSchemas]: [zod.gen.ts], every schema.
      [SchemaSpec]: each schema against its type.  [SchemaStable]: parsing again
      what a schema answered.
    - [Faker], [ApiFakes], [FakeSpec]: [@faker-js/faker.gen.ts], every function, as
      programs over the class [Faker] of random draws; their types and schemas.
    - [Params]: [core/params.gen.ts].
    - [Sdk], [SdkSpec]: [sdk.gen.ts], every function, and [client.gen.ts].
    - [Stream]: [makeSseFn] of [client/client.gen.ts] and the functions of the SDK
      that are streams: the generator of [Sse] over the requests of [Client].
    - [Queries], [QueriesSpec]: [@tanstack/svelte-query.gen.ts], every query and
      mutation.

    The application:
    - [ApiErrors], [ApiErrorsSpec]: [lib/api-interceptors.ts], [lib/query-client.ts].
    - [Startup]: [hooks.client.ts].
    - [Execution], [ExecutionSpec]: [lib/editor/execution.svelte.ts], as a step
      relation on interleaved calls; TanStack's mutation is the class [Mutation].
    - [Editor]: [lib/editor/runtime.ts], [draft.svelte.ts], [languages.ts].
    - [Session]: the loads of [routes/+layout.ts], [(auth)] and [admin].
    - [Shell]: where a sign-in leads ([routes/login]), theme, menu and sign-out
      ([components/Header.svelte]), the links of [routes/admin].
    - [Forms], [FormsSpec]: every form that saves through the API, [lib/forms.ts]
      with the scripts of [routes/login], [routes/register], [(auth)/settings],
      [admin/settings] and of the dialogs under [components/admin/users];
      superforms is the class [Superforms].
    - [CodeEditor]: [components/editor/CodeMirrorEditor.svelte], as a step relation.
    - [Output]: [components/editor/OutputPanel.svelte], [components/ErrorDisplay.svelte]
      with [routes/+error.svelte], the values of [SettingsHistoryTable.svelte].
    - [Workbench], [WorkbenchSpec]: the components of the editor page (scripts that
      are saved, opened, uploaded), as a step relation.
    - [NotificationCenter]: the dropdown and the page of notifications.
    - [EventsPage]: [routes/admin/events], its dialogs and components.
    - [Pager]: [lib/data-table.ts], [components/Pagination.svelte] and the paged
      lists of the administration.
    - [Notifications]: [lib/notifications/stream.svelte.ts], as a step relation.
    - [Formatters], [EventFilters], [Validation]: [lib/formatters.ts],
      [lib/admin/events/eventTypes.ts] with the tables of colours and icons,
      [lib/validation.ts] and the fields of [lib/forms.ts].

    The pages, as they are shown and operated:
    - [Html]: trees of elements with their handlers, and what a user can do with
      one ([offers]): the events of the controls that are there, enabled, in an
      open popup, and the submission of a form that has an enabled button for it;
      and the texts it shows ([visible]).
    - [CommonView], [CommonSpec]: [components/] that pages share.
    - [EditorView], [EditorPage]: [routes/(auth)/editor] with [components/editor];
      the page with its drafts ([Workbench]) and runs ([Execution]) as one step
      relation whose user acts through the controls that are offered.
    - [UsersView], [UsersSpec], [UsersPage]: [routes/admin/users] with its dialogs,
      likewise, with saves that are answered in any order.
    - [EventsView], [EventsSpec], [EventsAdmin]: [routes/admin/events], each control
      with the step of [EventsPage] that it asks for.
    - [AdminView], [SettingsPages]: [routes/admin/settings] with its query and form
      as a step relation, and the frame of [routes/admin].
    - [NotificationsView], [NotificationsSpec]: the dropdown and the page.
    - [ExecutionsView], [ExecutionsPage]: [routes/admin/executions].
    - [SettingsView], [PagesView]: [(auth)/settings]; the header and frame, the home
      page, the privacy page, the forms for signing in and registering, the error
      pages.

    A [View] is the markup of its components, element by element: a component is a
    function of its properties, [{#if}] and [{#each}] are conditionals and [each],
    a handler is the event it stands for.  A file [XSpec] states what the definitions
    of [X] promise; a file without one holds both.

    ** What the theorems show

    - Calls reach their endpoints: options of an SDK function's type give a URL
      that the endpoint reads back exactly ([typed_call_reaches_endpoint],
      [buildUrl_roundtrip]); a form body is read back field by field
      ([urlSearchParams_roundtrip]); a query sends what the direct call sends
      ([query_is_call]); so does each request of a stream, with the last event's
      id ([stream_reaches_endpoint]); flat parameters are sorted exactly
      ([flat_params_sorted]).
    - Answers are what they seem: data a schema lets through has its type
      ([parsed_data_typed]) and parses again to itself ([answers_parse_again]); a
      query or mutation returns only the data of an ok response
      ([queries_answer_ok]); keys hash alike exactly for equal calls, for a hash
      that does what TanStack Query's documentation says ([query_key_identifies];
      [sorted_hash] is one, and [headers_share_keys] why no [Headers] object may be
      in a key); a serialized key is its value's JSON data
      ([serializeQueryKeyValue_normal]); the fixtures are such data
      ([fakes_conform]).
    - Requests settle, once: [request_settles], [request_fetches_once]; ejected
      interceptors leave no trace ([ejected_never_runs]).
    - Streams: the parser refines a specification of event streams
      ([sse_parser_refines_stream]), however the network cuts the text
      ([sse_chunking_irrelevant], and its exception
      [sse_split_crlf_cuts_event]); reconnection resumes, is bounded, backs off
      and stops ([sse_resumes_from_last_id] and where it does not,
      [rejected_event_is_skipped], [sse_attempts_bounded],
      [sse_backoff_schedule], [sse_stops]); one notification stream at a time
      ([one_notification_stream]).
    - Errors and sessions: every failure is an [ErrorResponse], made of what went
      wrong ([failure_is_ErrorResponse]), retried only when that can help
      ([retries_bounded]); changes carry the CSRF token ([csrf_on_every_request]);
      the start installs what does that ([init_installs]); guards admit whom they
      should ([guards_admit]), an expired session goes to the login page with its
      place ([session_expiry_returns]), and the sign-in back to it
      ([login_returns]).
    - The editor: a run shows its outcome ([run_shows_outcome], in the panel
      [panel_shows_run]), is shown as running exactly while it is, and for good
      when its stream raises ([executing_iff_live]), and gives way to the next
      ([rerun_aborts_previous]); two ways in which [reset] leaves a run behind
      ([reset_leaves_stream], [reset_while_starting_overlaps]); the code editor
      holds the document ([editor_follows_page]); scripts keep theirs while saves
      are waited for before another is opened ([scripts_keep_their_document], and
      else [late_create_misfiles]), and are saved as they are ([save_stores],
      [upload_reads_download]).
    - Forms: what they send is what the API takes ([forms_send_accepted]), and
      what was entered ([user_saved_as_entered], [settings_save_what_changed],
      [added_rule_needs_pattern]).
    - Lists, notifications, events: [pages_cut_the_list], [dropdown_marks_shown],
      [replay_is_followed], [export_follows_filters], with the ways they go wrong
      ([shrinking_list_strands], [late_replay_is_lost]); the theme
      ([theme_settles], [early_answer_undoes]).
    - Pages: what each offers in each state, no more and no less
      ([editor_page_offers], [users_page_offers], [events_page_offers],
      [executions_page_offers], [offers_system], [notifications_page_acts],
      [dropdown_clicks]); and what runs of the whole page then keep: one run at a
      time as long as no script is replaced while one runs ([page_runs_one_at_a_time],
      and else [page_lets_runs_overlap]), one save at a time that closes its own
      dialog ([saves_close_their_dialog], [late_save_closes_other_dialog]),
      settings that are sent as they were loaded or entered ([system_settings_sent], [failed_load_saves_defaults]).
    - Display: [filter_summary_faithful], [text_fields], [fieldTitle_roundtrip],
      [truncate_fits], and the duration that reads wrong ([almost_a_minute]).

    ** Fuel and bounds

    [split] recurses on its text's length, which every separator shortens.
    [JSON_parse] has twice the length of its text as fuel, which [JSON_parse_text]
    shows to be enough for every text [JSON.stringify] writes; [normalize_dec] has
    the number of digits.  The generator of events takes the number of connections
    it may make: with a maximum of attempts, that number is enough
    ([sse_attempts_bounded]); without one the run is cut there, as a browser that
    closes the page cuts it.  [subtype] has a fuel of 20, deeper than any type of
    the API ([FormsSpec] uses 10 for its shallower ones), and the shapes of
    fixtures in [FakeSpec] one of 24.  The reference parser of schemas recurses on
    their depth, and every parser with the laws of [Zod] is that one
    ([safeParse_reference]).

    ** What is not modelled

    Of the markup: white space, transitions, styles, how libraries' elements look,
    and what a bound input shows before it is used; a dialog that covers the page is
    taken into account in [UsersPage] only.  The back end, another program.  Of a
    request, what only [fetch] sees (its signal, cache, mode): an aborted request is
    one whose [fetch] or body rejects; a stream's signal is modelled ([aborted]).
    Numbers are exact decimals outside [Formatters], where they are IEEE doubles.
    Libraries (CodeMirror, TanStack Query and Table, zod, superforms, date-fns, SvelteKit, the
    random draws of faker, the browser's [fetch]) are parameters or classes with
    the laws the code relies on. *)

From Stdlib Require Export ZArith NArith Lia ZifyBool ZifyN ZifyNat.
From stdpp Require Export base list option strings numbers gmap.

(** ** Outcomes and effects

    A JavaScript computation returns or throws.  [outcome E A] is the result
    of a call; [M W E A] threads a world [W] (what the call can observe and
    change) through it, the way an [async] function of the source does between
    two [await]s. *)

Inductive outcome (E A : Type) : Type :=
| Return (a : A)
| Throw (e : E).
Arguments Return {E A} a.
Arguments Throw {E A} e.

#[export] Instance outcome_ret E : MRet (outcome E) := λ A a, Return a.
#[export] Instance outcome_bind E : MBind (outcome E) := λ A B f m,
  match m with Return a => f a | Throw e => Throw e end.
#[export] Instance outcome_fmap E : FMap (outcome E) := λ A B f m,
  match m with Return a => Return (f a) | Throw e => Throw e end.

Lemma obind_Return {E A B} (m : outcome E A) (f : A → outcome E B) b :
  m ≫= f = Return b ↔ ∃ a, m = Return a ∧ f a = Return b.
Proof. destruct m; simpl; split; [eauto|intros (? & [= ->] & ?); done|done|intros (? & ? & ?); done]. Qed.

Lemma ofmap_Return {E A B} (f : A → B) (m : outcome E A) b :
  f <$> m = Return b ↔ ∃ a, m = Return a ∧ b = f a.
Proof. destruct m; simpl; split; [intros [= <-]; eauto|intros (? & [= ->] & ->); done|done|intros (? & ? & ?); done]. Qed.

(** A list of calls that may throw, in order: all return, or the first throw ends it. *)
Lemma omapM_Return {E A B} (f : A → outcome E B) l k :
  mapM f l = Return k ↔ Forall2 (λ x y, f x = Return y) l k.
Proof.
  split.
  - revert k. induction l as [|x l IH]; intros k; [intros [= <-]; constructor|].
    change (mapM f (x :: l)) with (y ← f x; k ← mapM f l; Return (y :: k)).
    rewrite obind_Return. intros (y & Hy & H). apply obind_Return in H as (r & Hr & [= <-]).
    constructor; auto.
  - induction 1 as [|x y l k Hx H IH]; [done|].
    change (mapM f (x :: l)) with (y ← f x; k ← mapM f l; Return (y :: k)).
    rewrite Hx. cbn [mbind outcome_bind]. by rewrite IH.
Qed.

Definition M (W E A : Type) : Type := W → W * outcome E A.

Definition ret {W E A} (a : A) : M W E A := fun w => (w, Return a).
Definition throw {W E A} (e : E) : M W E A := fun w => (w, Throw e).
Definition bind {W E A B} (m : M W E A) (f : A → M W E B) : M W E B :=
  fun w => match m w with
           | (w', Return a) => f a w'
           | (w', Throw e) => (w', Throw e)
           end.
(** [try m catch h]. *)
Definition catch {W E E' A} (m : M W E A) (h : E → M W E' A) : M W E' A :=
  fun w => match m w with
           | (w', Return a) => (w', Return a)
           | (w', Throw e) => h e w'
           end.
Definition modify {W E} (f : W → W) : M W E unit := fun w => (f w, Return tt).

Declare Scope js_monad_scope.
Delimit Scope js_monad_scope with jsm.
Notation "'let!' x ':=' m 'in' k" := (bind m (fun x => k))
  (at level 10, x name, m at level 100, k at level 200) : js_monad_scope.
Notation "'do!' m 'in' k" := (bind m (fun _ => k))
  (at level 10, m at level 100, k at level 200) : js_monad_scope.

Lemma bind_ret_l {W E A B} (a : A) (f : A → M W E B) w : bind (ret a) f w = f a w.
Proof. done. Qed.
Lemma bind_throw_l {W E A B} (e : E) (f : A → M W E B) w : bind (throw e) f w = (w, Throw e).
Proof. done. Qed.
Lemma catch_ret {W E E' A} (a : A) (h : E → M W E' A) w : catch (ret a) h w = (w, Return a).
Proof. done. Qed.
Lemma catch_throw {W E E' A} (e : E) (h : E → M W E' A) w : catch (throw e) h w = h e w.
Proof. done. Qed.

Create HintDb js discriminated.
Create Rewrite HintDb js.
#[export] Hint Rewrite @bind_ret_l @bind_throw_l @catch_ret @catch_throw : js.

(** ** Automation *)

(** Case analysis on every [match] of the goal, discarding the impossible cases. *)
Ltac cases := repeat (case_match; simplify_eq/=; try done).

(** Rewrites a [bool_decide] or [decide] whose proposition is decided by the context. *)
Ltac decide_true := rewrite decide_True by (done || lia || eauto).
Ltac decide_false := rewrite decide_False by (done || lia || eauto).

(** Evaluates a closed goal. *)
Ltac by_computation := solve [vm_compute; repeat split; reflexivity | vm_compute; repeat split; congruence].

(** ** Lists *)

(** The first element a predicate picks ([Array.prototype.find]). *)
Fixpoint find_first {A} (p : A → bool) (l : list A) : option A :=
  match l with
  | [] => None
  | x :: r => if p x then Some x else find_first p r
  end.

Lemma find_first_Some {A} (p : A → bool) l x :
  find_first p l = Some x → p x = true ∧ x ∈ l.
Proof.
  induction l as [|y r IH]; simpl; [done|].
  destruct (p y) eqn:Hy; intros H; simplify_eq.
  - split; [done | left].
  - destruct (IH H). split; [done | by right].
Qed.

Lemma find_first_None {A} (p : A → bool) l x :
  find_first p l = None → x ∈ l → p x = false.
Proof.
  induction l as [|y r IH]; simpl; intros H Hx; [by apply not_elem_of_nil in Hx|].
  destruct (p y) eqn:Hy; [done|].
  apply elem_of_cons in Hx as [->|Hx]; auto.
Qed.

Lemma Forall_flat_map {A B} (P : B → Prop) (f : A → list B) l :
  (∀ x, x ∈ l → Forall P (f x)) → Forall P (flat_map f l).
Proof.
  induction l as [|x r IH]; simpl; intros H; [constructor|].
  apply Forall_app; split; [apply H; left | apply IH; intros y Hy; apply H; by right].
Qed.

Lemma last_app_cons {A} (l : list A) x r : last (l ++ x :: r) = last (x :: r).
Proof. by rewrite last_app_cons. Qed.
