(* ===== verification/JsString.v ===== *)
(** * JavaScript strings

    A JavaScript string is its list of UTF-16 code units.  This file holds the
    operations of [String.prototype] and the global functions the client calls
    ([startsWith], [includes], [split], [join], [slice], [replace], [trim],
    [encodeURIComponent], number formatting), with the lemmas the components
    share. *)

From S2P Require Import Prelude.

(** ** Code units and literals *)

Abbreviation jstr := (list N).

(** Literals: the string notation of [js_scope] reads a literal as its code units. *)
Inductive jslit := JSnil | JScons (c : N) (r : jslit).

Fixpoint jslit_parse (l : list Byte.byte) : jslit :=
  match l with [] => JSnil | b :: r => JScons (Byte.to_N b) (jslit_parse r) end.

Fixpoint jslit_print (l : jslit) : option (list Byte.byte) :=
  match l with
  | JSnil => Some []
  | JScons c r =>
      match Byte.of_N c, jslit_print r with
      | Some b, Some r => Some (b :: r)
      | _, _ => None
      end
  end.

Declare Scope js_scope.
Delimit Scope js_scope with js.
#[warnings="-via-type-remapping,-via-type-mismatch"]
String Notation list jslit_parse jslit_print (via jslit mapping [[nil] => JSnil, [cons] => JScons]) : js_scope.
Open Scope js_scope.

(** Two-unit induction, for functions that look at two units at once. *)
Lemma jstr_pair_ind (P : jstr → Prop) :
  P [] → (∀ c, P [c]) → (∀ c d s, P s → P (d :: s) → P (c :: d :: s)) → ∀ s, P s.
Proof.
  intros H0 H1 H2. assert (∀ s, P s ∧ ∀ c, P (c :: s)) as H; [|intros s; apply H].
  induction s as [|d s [IH IH']]; split; auto.
Qed.

Definition LF : N := 10.
Definition CR : N := 13.
Definition DOLLAR : N := 36.
Definition QUOTE : N := 34.
Definition BACKSLASH : N := 92.

(** The code units that [\s] matches and [trim] removes. *)
Definition is_space (c : N) : bool :=
  ((9 <=? c) && (c <=? 13) || (c =? 32) || (c =? 160) || (c =? 5760)
   || (8192 <=? c) && (c <=? 8202) || (c =? 8232) || (c =? 8233) || (c =? 8239)
   || (c =? 8287) || (c =? 12288) || (c =? 65279))%N.

Definition is_digit (c : N) : bool := ((48 <=? c) && (c <=? 57))%N.
Definition is_upper (c : N) : bool := ((65 <=? c) && (c <=? 90))%N.
Definition is_lower (c : N) : bool := ((97 <=? c) && (c <=? 122))%N.
Definition is_letter (c : N) : bool := is_upper c || is_lower c.
Definition upper_ascii (c : N) : N := if is_lower c then (c - 32)%N else c.
Definition lower_ascii (c : N) : N := if is_upper c then (c + 32)%N else c.

(** ** Equality, prefixes, substrings *)

Definition jeqb (a b : jstr) : bool := bool_decide (a = b).
Notation "a '=js' b" := (jeqb a b) (at level 70).

Lemma jeqb_eq a b : (a =js b) = true ↔ a = b.
Proof. apply bool_decide_eq_true. Qed.
Lemma jeqb_neq a b : (a =js b) = false ↔ a ≠ b.
Proof. apply bool_decide_eq_false. Qed.
Lemma jeqb_refl a : (a =js a) = true.
Proof. by apply jeqb_eq. Qed.
#[export] Hint Rewrite jeqb_refl : js.

Fixpoint startsWith (p s : jstr) : bool :=
  match p, s with
  | [], _ => true
  | a :: p', c :: s' => (a =? c)%N && startsWith p' s'
  | _ :: _, [] => false
  end.

Definition endsWith (p s : jstr) : bool := startsWith (rev p) (rev s).

(** [find_sub p s] is the text before and after the first occurrence of [p]. *)
Fixpoint find_sub (p s : jstr) : option (jstr * jstr) :=
  if startsWith p s then Some ([], drop (length p) s)
  else match s with
       | [] => None
       | c :: s' => match find_sub p s' with
                    | Some (a, b) => Some (c :: a, b)
                    | None => None
                    end
       end.

Definition includes (p s : jstr) : bool :=
  match find_sub p s with Some _ => true | None => false end.

(** [toLowerCase], exact where its result is ASCII: two letters outside ASCII have ASCII in their lower
    case. *)
Definition toLowerCase (s : jstr) : jstr :=
  flat_map (λ c, if (c =? 8490)%N then [107%N] else if (c =? 304)%N then [105; 775]%N else [lower_ascii c]) s.

Lemma startsWith_iff p s : startsWith p s = true ↔ ∃ r, s = p ++ r.
Proof.
  revert s; induction p as [|a p IH]; intros [|c s]; simpl.
  - split; eauto.
  - split; eauto.
  - split; [done | intros [r ?]; done].
  - rewrite andb_true_iff, N.eqb_eq, IH. split.
    + intros [-> [r ->]]; eauto.
    + intros [r ?]; simplify_eq; eauto.
Qed.

Lemma startsWith_app p s : startsWith p (p ++ s) = true.
Proof. apply startsWith_iff; eauto. Qed.
#[export] Hint Rewrite startsWith_app : js.

Lemma startsWith_app_l p s t : startsWith p s = true → startsWith p (s ++ t) = true.
Proof. rewrite !startsWith_iff. intros [r ->]. exists (r ++ t). by rewrite app_assoc. Qed.

Lemma endsWith_iff p s : endsWith p s = true ↔ ∃ r, s = r ++ p.
Proof.
  unfold endsWith. rewrite startsWith_iff. split; intros [r H].
  - exists (rev r). apply (f_equal (@rev N)) in H. by rewrite rev_app_distr, !rev_involutive in H.
  - exists (rev r). by rewrite H, rev_app_distr.
Qed.

Lemma find_sub_Some p s a b : find_sub p s = Some (a, b) → s = a ++ p ++ b.
Proof.
  revert a b; induction s as [|c s IH]; intros a b; cbn [find_sub].
  - destruct (startsWith p []) eqn:Hp; intros; simplify_eq/=.
    apply startsWith_iff in Hp as [r Hr].
    symmetry in Hr; apply app_nil in Hr as [-> ->]. done.
  - destruct (startsWith p (c :: s)) eqn:Hp.
    + intros; simplify_eq/=. apply startsWith_iff in Hp as [r ->]. by rewrite drop_app_length.
    + destruct (find_sub p s) as [[a' b']|] eqn:Hf; intros; simplify_eq/=.
      by rewrite (IH _ _ eq_refl).
Qed.

Lemma find_sub_cons p c s :
  startsWith p (c :: s) = false →
  find_sub p (c :: s) = match find_sub p s with Some (a, b) => Some (c :: a, b) | None => None end.
Proof. intros H. cbn [find_sub]. by rewrite H. Qed.

Lemma startsWith_long p s t :
  length p ≤ length s → startsWith p (s ++ t) = startsWith p s.
Proof.
  revert s; induction p as [|a p IH]; intros [|c s] H; simpl in *; try (done || lia).
  by rewrite IH by lia.
Qed.

(** An occurrence stays the first one when text is appended. *)
Lemma find_sub_app p s t a b :
  find_sub p s = Some (a, b) → find_sub p (s ++ t) = Some (a, b ++ t).
Proof.
  revert a b; induction s as [|c s IH]; intros a b Hfind;
    pose proof (find_sub_Some _ _ _ _ Hfind) as Hs.
  - symmetry in Hs. apply app_nil in Hs as [-> Hs]. apply app_nil in Hs as [-> ->].
    simpl. by destruct t.
  - cbn [find_sub] in Hfind. change ((c :: s) ++ t) with (c :: (s ++ t)). cbn [find_sub].
    change (c :: (s ++ t)) with ((c :: s) ++ t).
    rewrite startsWith_long by (rewrite Hs, !length_app; lia).
    destruct (startsWith p (c :: s)) eqn:Hp.
    + simplify_eq. rewrite drop_app_le; [done|].
      apply startsWith_iff in Hp as [r Hr]. rewrite Hr, length_app. lia.
    + destruct (find_sub p s) as [[a' b']|] eqn:Hf; simplify_eq/=.
      by rewrite (IH _ _ eq_refl).
Qed.

(** ** [split] and [join] *)

(** [s.split(p)] for a non-empty separator; the fuel bounds the number of pieces. *)
Fixpoint split_fuel (n : nat) (p s : jstr) : list jstr :=
  match n with
  | O => [s]
  | S n' => match find_sub p s with
            | Some (a, b) => a :: split_fuel n' p b
            | None => [s]
            end
  end.

Definition js_split (p s : jstr) : list jstr := split_fuel (length s) p s.

Fixpoint js_join (sep : jstr) (l : list jstr) : jstr :=
  match l with
  | [] => []
  | [x] => x
  | x :: r => x ++ sep ++ js_join sep r
  end.

Lemma js_join_cons sep x y r : js_join sep (x :: y :: r) = x ++ sep ++ js_join sep (y :: r).
Proof. done. Qed.

Lemma find_sub_shorter p s a b :
  p ≠ [] → find_sub p s = Some (a, b) → length b < length s.
Proof.
  intros Hp H. rewrite (find_sub_Some _ _ _ _ H), !length_app.
  destruct p; [done | simpl; lia].
Qed.

Lemma split_fuel_enough p n m s :
  p ≠ [] → length s ≤ n → length s ≤ m → split_fuel n p s = split_fuel m p s.
Proof.
  intros Hp. revert m s; induction n as [|n IH]; intros [|m] s Hn Hm; simpl; try done.
  - destruct (find_sub p s) as [[a b]|] eqn:H; [|done].
    apply find_sub_shorter in H; [lia | done].
  - destruct (find_sub p s) as [[a b]|] eqn:H; [|done].
    apply find_sub_shorter in H; [lia | done].
  - destruct (find_sub p s) as [[a b]|] eqn:H; [|done].
    apply find_sub_shorter in H as ?; [|done]. f_equal. apply IH; lia.
Qed.

(** The recursion equation of [split]: cut at the first separator. *)
Lemma js_split_eq p s :
  p ≠ [] →
  js_split p s = match find_sub p s with
                 | Some (a, b) => a :: js_split p b
                 | None => [s]
                 end.
Proof.
  intros Hp. unfold js_split. destruct (length s) as [|n] eqn:Hn; simpl.
  - destruct (find_sub p s) as [[a b]|] eqn:H; [|done].
    apply find_sub_shorter in H; [lia | done].
  - destruct (find_sub p s) as [[a b]|] eqn:H; [|done].
    apply find_sub_shorter in H; [|done]. f_equal. apply split_fuel_enough; [done|lia..].
Qed.

Lemma js_split_nonempty p s : js_split p s ≠ [].
Proof. unfold js_split. destruct (length s); simpl; [done|]. by case_match; [case_match|]. Qed.

(** [split] then [join] by the same separator is the identity. *)
Lemma js_join_split p s : p ≠ [] → js_join p (js_split p s) = s.
Proof.
  intros Hp. remember (length s) as n eqn:Hn. revert s Hn.
  induction n as [n IH] using lt_wf_ind; intros s ->.
  rewrite js_split_eq by done. destruct (find_sub p s) as [[a b]|] eqn:H; [|done].
  apply find_sub_shorter in H as ?; [|done].
  apply find_sub_Some in H as ->.
  destruct (js_split p b) as [|x r] eqn:Hsp; [by apply js_split_nonempty in Hsp|].
  rewrite js_join_cons, <-Hsp, (IH (length b)); done.
Qed.

(** What [split] finds in a prefix of a text it finds in the text: only the last piece can grow. *)
Lemma js_split_app p s t :
  p ≠ [] →
  ∃ cs rest, js_split p s = cs ++ [rest] ∧ js_split p rest = [rest]
             ∧ js_split p (s ++ t) = cs ++ js_split p (rest ++ t).
Proof.
  intros Hp. remember (length s) as n eqn:Hn. revert s Hn.
  induction n as [n IH] using lt_wf_ind; intros s ->.
  rewrite (js_split_eq p s) by done. destruct (find_sub p s) as [[a b]|] eqn:H.
  - apply find_sub_shorter in H as ?; [|done].
    destruct (IH (length b) ltac:(done) b eq_refl) as (cs & rest & Hb & Hr & Hbt).
    exists (a :: cs), rest. rewrite Hb. split; [done|]. split; [done|].
    rewrite (js_split_eq p (s ++ t)), (find_sub_app _ _ t _ _ H), Hbt by done. done.
  - exists [], s. rewrite (js_split_eq p s), H by done. done.
Qed.

(** *** A separator of one code unit *)

Lemma find_sub_skip (p x s : jstr) c :
  c ∉ x → head p = Some c →
  find_sub p (x ++ s) = match find_sub p s with Some (a, b) => Some (x ++ a, b) | None => None end.
Proof.
  intros Hx Hp. destruct p as [|c' p]; [done|]. simplify_eq/=.
  induction x as [|d x IH]; [simpl; by destruct (find_sub _ s) as [[? ?]|]|].
  apply not_elem_of_cons in Hx as [Hd Hx]. cbn [app find_sub startsWith].
  replace (c =? d)%N with false by (symmetry; by apply N.eqb_neq). simpl andb.
  rewrite IH by done. by destruct (find_sub _ s) as [[? ?]|].
Qed.

Lemma find_sub_none c s : find_sub [c] s = None → c ∉ s.
Proof.
  induction s as [|d s IH]; [intros _; apply not_elem_of_nil|]. cbn [find_sub startsWith].
  destruct (c =? d)%N eqn:E; [by destruct s|]. cbn [andb]. destruct (find_sub [c] s) as [[? ?]|]; [done|].
  intros _. apply not_elem_of_cons. split; [by apply N.eqb_neq|auto].
Qed.

Lemma js_split_absent c s : c ∉ s → js_split [c] s = [s].
Proof.
  intros H. rewrite js_split_eq by done. pose proof (find_sub_skip [c] s [] c H eq_refl) as Hf.
  rewrite app_nil_r in Hf. by rewrite Hf.
Qed.

Lemma js_split_join c ls :
  ls ≠ [] → Forall (λ l, c ∉ l) ls → js_split [c] (js_join [c] ls) = ls.
Proof.
  intros Hne H. induction H as [|x ls Hx Hls IH]; [done|]. destruct ls as [|y ls]; [by apply js_split_absent|].
  rewrite js_join_cons, js_split_eq by done. rewrite (find_sub_skip [c] x _ c) by done.
  assert (find_sub [c] ([c] ++ js_join [c] (y :: ls)) = Some ([], js_join [c] (y :: ls))) as ->.
  { cbn [find_sub app startsWith]. rewrite N.eqb_refl. cbn [andb length drop]. done. }
  rewrite app_nil_r. f_equal. by apply IH.
Qed.

(** The last separator cuts off what follows it. *)
Lemma js_split_snoc c s t : c ∉ t → js_split [c] (s ++ c :: t) = js_split [c] s ++ [t].
Proof.
  intros Ht. destruct (js_split_app [c] s (c :: t)) as (cs & rest & -> & Hr & ->); [done|].
  rewrite <-app_assoc. f_equal. rewrite js_split_eq in Hr by done.
  destruct (find_sub [c] rest) as [[a b]|] eqn:Hf.
  { injection Hr as _ Hr. by apply js_split_nonempty in Hr. }
  apply find_sub_none in Hf. rewrite js_split_eq, (find_sub_skip [c] rest _ c) by done.
  cbn [find_sub startsWith]. rewrite N.eqb_refl. cbn [andb length drop]. by rewrite app_nil_r, js_split_absent.
Qed.

(** ** [slice], [trim], [replace] *)

(** [s.slice(from, to)]; a negative index counts from the end. *)
Definition slice_index (len i : Z) : Z := if (i <? 0)%Z then Z.max (len + i) 0 else Z.min i len.

Definition js_slice (from to : Z) (s : jstr) : jstr :=
  let len := Z.of_nat (length s) in
  let f := slice_index len from in
  let t := slice_index len to in
  if (f <? t)%Z then take (Z.to_nat (t - f)) (drop (Z.to_nat f) s) else [].

(** [s.slice(from)]. *)
Definition js_slice_from (from : Z) (s : jstr) : jstr :=
  js_slice from (Z.of_nat (length s)) s.

Lemma js_slice_length from to s : length (js_slice from to s) ≤ length s.
Proof. unfold js_slice. case_match; [rewrite length_take, length_drop|simpl]; lia. Qed.

Fixpoint drop_while (p : N → bool) (s : jstr) : jstr :=
  match s with
  | [] => []
  | c :: r => if p c then drop_while p r else s
  end.

Definition trim_start (s : jstr) : jstr := drop_while is_space s.
Definition js_trim (s : jstr) : jstr := rev (trim_start (rev (trim_start s))).

Lemma drop_while_id p c s : p c = false → drop_while p (c :: s) = c :: s.
Proof. simpl. by intros ->. Qed.

Definition not_space_head (s : jstr) : Prop := match s with [] => True | c :: _ => is_space c = false end.

Lemma trim_start_id s : not_space_head s → trim_start s = s.
Proof. destruct s; [done|]. apply drop_while_id. Qed.

(** The replacement text of [s.replace(pattern, text)]: the pattern is a plain string, so only
    [$$], [$&], [$`] and [$'] are special. *)
Fixpoint expand_replacement (text matched before after : jstr) : jstr :=
  match text with
  | [] => []
  | c :: r =>
      if (c =? DOLLAR)%N then
        match r with
        | d :: r' =>
            if (d =? DOLLAR)%N then DOLLAR :: expand_replacement r' matched before after
            else if (d =? 38)%N then matched ++ expand_replacement r' matched before after
            else if (d =? 96)%N then before ++ expand_replacement r' matched before after
            else if (d =? 39)%N then after ++ expand_replacement r' matched before after
            else c :: expand_replacement r matched before after
        | [] => [c]
        end
      else c :: expand_replacement r matched before after
  end.

(** [s.replace(pattern, text)] with string arguments: the first occurrence only. *)
Definition js_replace (pattern text s : jstr) : jstr :=
  match find_sub pattern s with
  | Some (before, after) => before ++ expand_replacement text pattern before after ++ after
  | None => s
  end.

Lemma expand_replacement_plain text m b a :
  Forall (λ c, c ≠ DOLLAR) text → expand_replacement text m b a = text.
Proof.
  induction text as [|c r IH]; intros H; [done|].
  apply Forall_cons in H as [Hc Hr]. cbn [expand_replacement].
  apply N.eqb_neq in Hc as ->. by rewrite IH.
Qed.

(** ** [encodeURIComponent] *)

Definition uri_unreserved (c : N) : bool :=
  is_letter c || is_digit c
  || existsb (N.eqb c) [45; 95; 46; 33; 126; 42; 39; 40; 41]%N.

Definition hex_digit (d : N) : N := (if d <? 10 then 48 + d else 55 + d)%N.
Definition percent (b : N) : jstr := [37%N; hex_digit (b / 16); hex_digit (b mod 16)].

(** UTF-8 of a code point. *)
Definition utf8 (cp : N) : list N :=
  (if cp <? 128 then [cp]
   else if cp <? 2048 then [192 + cp / 64; 128 + cp mod 64]
   else if cp <? 65536 then [224 + cp / 4096; 128 + cp / 64 mod 64; 128 + cp mod 64]
   else [240 + cp / 262144; 128 + cp / 4096 mod 64; 128 + cp / 64 mod 64; 128 + cp mod 64])%N.

Definition is_lead (c : N) : bool := ((55296 <=? c) && (c <=? 56319))%N.
Definition is_trail (c : N) : bool := ((56320 <=? c) && (c <=? 57343))%N.
Definition surrogate_cp (c d : N) : N := (65536 + (c - 55296) * 1024 + (d - 56320))%N.

Definition encode_cp (cp : N) : jstr := flat_map percent (utf8 cp).

(** [None] is the [URIError] of a lone surrogate. *)
Fixpoint encodeURIComponent (s : jstr) : option jstr :=
  match s with
  | [] => Some []
  | c :: r =>
      if uri_unreserved c then (c ::.) <$> encodeURIComponent r
      else if is_lead c then
        match r with
        | d :: r' => if is_trail d then (encode_cp (surrogate_cp c d) ++.) <$> encodeURIComponent r'
                     else None
        | [] => None
        end
      else if is_trail c then None
      else (encode_cp c ++.) <$> encodeURIComponent r
  end.

Definition uri_component_char (c : N) : Prop := uri_unreserved c = true ∨ c = 37%N.

(** ** Numbers in text *)

Fixpoint digits_fuel (n : nat) (z : N) (acc : jstr) : jstr :=
  match n with
  | O => acc
  | S n' => let acc := (48 + z mod 10)%N :: acc in
            if (z <? 10)%N then acc else digits_fuel n' (z / 10)%N acc
  end.

(** Decimal digits, most significant first: a number has at most as many digits as bits. *)
Definition digits_of_N (z : N) : jstr := digits_fuel (S (N.size_nat z)) z [].

(** [String(z)] for an integer below 10^21 in absolute value. *)
Definition string_of_Z (z : Z) : jstr :=
  if (z <? 0)%Z then 45%N :: digits_of_N (Z.abs_N z) else digits_of_N (Z.abs_N z).

Fixpoint take_while (p : N → bool) (s : jstr) : jstr :=
  match s with
  | [] => []
  | c :: r => if p c then c :: take_while p r else []
  end.

Definition N_of_digits (s : jstr) : N := foldl (λ a c, 10 * a + (c - 48))%N 0%N s.

(** An optional leading sign: whether it is a minus, and the text after it. *)
Definition split_sign (s : jstr) : bool * jstr :=
  match s with
  | c :: r => if (c =? 45)%N then (true, r) else if (c =? 43)%N then (false, r) else (false, s)
  | [] => (false, [])
  end.

(** The double nearest to an integer below 2^1024, the even one of two as near. *)
Definition double_of_Z (z : Z) : Z :=
  (let b := Z.log2 (Z.abs z) in
   if b <? 53 then z
   else
     let u := 2 ^ (b - 52) in
     let q := z / u in
     let r := 2 * (z mod u) in
     u * (if r <? u then q else if u <? r then q + 1 else if Z.even q then q else q + 1))%Z.

(** [Number.parseInt(s, 10)]; [None] is [NaN]. (A number of 309 digits or more would be infinite.) *)
Definition parseInt10 (s : jstr) : option Z :=
  let '(neg, r) := split_sign (trim_start s) in
  match take_while is_digit r with
  | [] => None
  | ds => Some (double_of_Z (if neg then - Z.of_N (N_of_digits ds) else Z.of_N (N_of_digits ds)))%Z
  end.

Example encode_example : encodeURIComponent "a b/c$" = Some "a%20b%2Fc%24".
Proof. reflexivity. Qed.
Example encode_astral : encodeURIComponent [55357; 56832]%N = Some "%F0%9F%98%80".
Proof. reflexivity. Qed.
Example parseInt_example : parseInt10 " -12px" = Some (-12)%Z.
Proof. reflexivity. Qed.
Example parseInt_rounds : parseInt10 "9007199254740993" = Some 9007199254740992%Z.
Proof. reflexivity. Qed.
Example string_of_Z_example : string_of_Z (-120) = "-120".
Proof. reflexivity. Qed.

(** ** Reading back printed numbers *)

Lemma foldl_digits ds a : 
  foldl (λ a c, 10 * a + (c - 48))%N a ds = (a * 10 ^ N.of_nat (length ds) + N_of_digits ds)%N.
Proof.
  unfold N_of_digits. revert a. induction ds as [|d ds IH]; intros a; cbn [foldl length].
  - change (N.of_nat 0) with 0%N. rewrite N.pow_0_r. lia.
  - rewrite IH, (IH (10 * 0 + (d - 48))%N), Nat2N.inj_succ, N.pow_succ_r'. lia.
Qed.

Lemma N_of_digits_cons d ds :
  N_of_digits (d :: ds) = ((d - 48) * 10 ^ N.of_nat (length ds) + N_of_digits ds)%N.
Proof. unfold N_of_digits at 1. cbn [foldl]. rewrite foldl_digits. lia. Qed.

Lemma N_of_digits_app a b :
  N_of_digits (a ++ b) = (N_of_digits a * 10 ^ N.of_nat (length b) + N_of_digits b)%N.
Proof. unfold N_of_digits at 1. rewrite foldl_app, foldl_digits. done. Qed.

Lemma digits_fuel_spec n z acc :
  (z < 2 ^ N.of_nat n)%N → n ≠ 0 →
  ∃ ds, digits_fuel n z acc = ds ++ acc ∧ Forall (λ c, is_digit c = true) ds
        ∧ N_of_digits ds = z ∧ ds ≠ [] ∧ (head ds = Some 48%N → ds = [48%N]).
Proof.
  assert (∀ d, (d < 10)%N → is_digit (48 + d) = true) as Hdig by (unfold is_digit; lia).
  revert z acc. induction n as [|n IH]; intros z acc Hz Hn; [done|].
  cbn [digits_fuel]. destruct (z <? 10)%N eqn:E.
  - exists [(48 + z mod 10)%N]. rewrite N.mod_small by lia. split; [done|].
    split; [repeat constructor; apply Hdig; lia|]. split; [unfold N_of_digits; simpl foldl; lia|].
    split; [done|]. simpl. congruence.
  - rewrite Nat2N.inj_succ, N.pow_succ_r' in Hz.
    destruct (IH (z / 10)%N ((48 + z mod 10)%N :: acc)) as (ds & Hds & Hall & Hval & Hne & Hhd).
    + apply N.Div0.div_lt_upper_bound. lia.
    + intros ->. change (N.of_nat 0) with 0%N in Hz. rewrite N.pow_0_r in Hz. lia.
    + exists (ds ++ [(48 + z mod 10)%N]). rewrite <-app_assoc. split; [done|].
      split; [apply Forall_app; split; [done|]; repeat constructor; apply Hdig, N.mod_lt; lia|].
      split.
      * rewrite N_of_digits_app, Hval. unfold N_of_digits. simpl.
        pose proof (N.div_mod z 10). lia.
      * split; [by destruct ds|]. intros Hh. destruct ds as [|d ds]; [done|].
        specialize (Hhd Hh). simplify_eq.
        assert (z / 10 = 0)%N as H0 by (rewrite <-Hval; done).
        apply N.div_small_iff in H0; lia.
Qed.

Lemma N_size_nat_bound z : (z < 2 ^ N.of_nat (N.size_nat z))%N.
Proof.
  destruct z as [|p]; [done|]. simpl. induction p as [p IH|p IH|]; cbn [Pos.size_nat]; try done;
    rewrite Nat2N.inj_succ, N.pow_succ_r'; lia.
Qed.

Lemma digits_of_N_spec z :
  Forall (λ c, is_digit c = true) (digits_of_N z) ∧ N_of_digits (digits_of_N z) = z
  ∧ digits_of_N z ≠ [] ∧ (head (digits_of_N z) = Some 48%N → digits_of_N z = [48%N]).
Proof.
  destruct (digits_fuel_spec (S (N.size_nat z)) z []) as (ds & Hds & H); [|done|].
  - pose proof (N_size_nat_bound z). rewrite Nat2N.inj_succ, N.pow_succ_r'. lia.
  - rewrite app_nil_r in Hds. unfold digits_of_N. by rewrite Hds.
Qed.

Lemma take_while_digits ds r :
  Forall (λ c, is_digit c = true) ds →
  match r with [] => True | c :: _ => is_digit c = false end →
  take_while is_digit (ds ++ r) = ds.
Proof.
  induction 1 as [|d ds Hd Hds IH]; intros Hr; simpl.
  - destruct r as [|c r]; [done|]. simpl. by rewrite Hr.
  - by rewrite Hd, IH.
Qed.

Lemma double_of_Z_exact z : (Z.abs z < 2 ^ 53)%Z → double_of_Z z = z.
Proof.
  intros H. unfold double_of_Z. destruct (Z.eq_dec z 0%Z) as [->|Hz]; [done|].
  assert (Z.log2 (Z.abs z) < 53)%Z as Hl by (apply Z.log2_lt_pow2; lia).
  by rewrite (proj2 (Z.ltb_lt _ _) Hl).
Qed.

Lemma parseInt10_digits z : parseInt10 (digits_of_N z) = Some (double_of_Z (Z.of_N z)).
Proof.
  destruct (digits_of_N_spec z) as (Hd & Hv & Hne & _). unfold parseInt10.
  destruct (digits_of_N z) as [|d ds] eqn:E; [done|].
  apply Forall_cons in Hd as Hd'. destruct Hd' as [Hd0 _].
  rewrite trim_start_id by (simpl; unfold is_digit, is_space in *; lia).
  unfold split_sign.
  replace (d =? 45)%N with false by (unfold is_digit in *; lia).
  replace (d =? 43)%N with false by (unfold is_digit in *; lia).
  pose proof (take_while_digits (d :: ds) [] Hd I) as Ht. rewrite app_nil_r in Ht. rewrite Ht.
  by rewrite Hv.
Qed.
