(* ===== verification/Uri.v ===== *)
(** * Percent encoding

    [encodeURIComponent] is what stands between a value and the URL it is put
    in.  A reference decoder (percent decoding to bytes, then UTF-8, then
    UTF-16: what a server does with a component) shows that nothing is lost,
    and a character bound shows that an encoded value cannot end the path
    segment or the query pair it stands in. *)

From S2P Require Import Prelude JsString.

(** ** The reference decoder *)

Definition hex_value (c : N) : option N :=
  (if is_digit c then Some (c - 48)
   else if (65 <=? c) && (c <=? 70) then Some (c - 55)
   else if (97 <=? c) && (c <=? 102) then Some (c - 87)
   else None)%N.

(** The bytes of a percent-encoded ASCII text. *)
Fixpoint unquote (s : jstr) : option (list N) :=
  match s with
  | [] => Some []
  | c :: r =>
      if (c =? 37)%N then
        match r with
        | a :: b :: r' =>
            match hex_value a, hex_value b with
            | Some x, Some y => ((16 * x + y)%N ::.) <$> unquote r'
            | _, _ => None
            end
        | _ => None
        end
      else (c ::.) <$> unquote r
  end.

Definition cont (b : N) : option N := (if (128 <=? b) && (b <? 192) then Some (b - 128) else None)%N.

Fixpoint utf8_decode (l : list N) : option (list N) :=
  match l with
  | [] => Some []
  | b :: r =>
      (if b <? 128 then (b ::.) <$> utf8_decode r
       else if b <? 224 then
         match r with
         | c :: r' => x ← cont c; (((b - 192) * 64 + x) ::.) <$> utf8_decode r'
         | _ => None
         end
       else if b <? 240 then
         match r with
         | c :: d :: r' =>
             x ← cont c; y ← cont d;
             (((b - 224) * 4096 + x * 64 + y) ::.) <$> utf8_decode r'
         | _ => None
         end
       else
         match r with
         | c :: d :: e :: r' =>
             x ← cont c; y ← cont d; z ← cont e;
             (((b - 240) * 262144 + x * 4096 + y * 64 + z) ::.) <$> utf8_decode r'
         | _ => None
         end)%N
  end.

Definition utf16_of_cp (cp : N) : jstr :=
  (if cp <? 65536 then [cp] else [55296 + (cp - 65536) / 1024; 56320 + (cp - 65536) mod 1024])%N.

Definition decode_component (s : jstr) : option jstr :=
  bytes ← unquote s; cps ← utf8_decode bytes; Some (flat_map utf16_of_cp cps).

(** ** Code points of a string *)

(** [None] for a lone surrogate. *)
Fixpoint code_points (s : jstr) : option (list N) :=
  match s with
  | [] => Some []
  | c :: r =>
      if is_lead c then
        match r with
        | d :: r' => if is_trail d then (surrogate_cp c d ::.) <$> code_points r' else None
        | [] => None
        end
      else if is_trail c then None
      else (c ::.) <$> code_points r
  end.

(** A list of 16-bit code units. *)
Definition wf_jstr (s : jstr) : Prop := Forall (λ c, c < 65536)%N s.

Definition well_formed (s : jstr) : Prop := wf_jstr s ∧ is_Some (code_points s).

(** ASCII text is well formed. *)
Lemma ascii_well_formed s : Forall (λ c, c < 128)%N s → well_formed s.
Proof.
  intros Hs. split; [eapply Forall_impl; [exact Hs|]; simpl; lia|].
  induction Hs as [|c s Hc Hs [cps IH]]; [by exists []|]. exists (c :: cps). cbn [code_points].
  replace (is_lead c) with false by (unfold is_lead; lia).
  replace (is_trail c) with false by (unfold is_trail; lia). by rewrite IH.
Qed.

Lemma ascii_text s : forallb (λ c, c <? 128)%N s = true → well_formed s.
Proof.
  intros Hs. apply ascii_well_formed, Forall_forall. intros c Hc. rewrite forallb_forall in Hs.
  apply N.ltb_lt, Hs. by apply list_elem_of_In.
Qed.

(** ** Arithmetic of the encoding *)

Lemma hex_value_digit d : (d < 16)%N → hex_value (hex_digit d) = Some d.
Proof.
  intros Hd. unfold hex_value, hex_digit, is_digit.
  destruct (d <? 10)%N eqn:H.
  - apply N.ltb_lt in H.
    replace ((48 <=? 48 + d) && (48 + d <=? 57))%N with true by lia. f_equal; lia.
  - apply N.ltb_ge in H.
    replace ((48 <=? 55 + d) && (55 + d <=? 57))%N with false by lia.
    replace ((65 <=? 55 + d) && (55 + d <=? 70))%N with true by lia. f_equal; lia.
Qed.

Lemma unquote_percent b r : (b < 256)%N → unquote (percent b ++ r) = (b ::.) <$> unquote r.
Proof.
  intros Hb. unfold percent. simpl app. cbn [unquote].
  replace (37 =? 37)%N with true by done.
  rewrite !hex_value_digit by (apply N.Div0.div_lt_upper_bound || apply N.mod_lt; lia).
  replace (16 * (b / 16) + b mod 16)%N with b by (pose proof (N.div_mod b 16); lia). done.
Qed.

Lemma unquote_percents l r :
  Forall (λ b, b < 256)%N l → unquote (flat_map percent l ++ r) = (l ++.) <$> unquote r.
Proof.
  induction l as [|b l IH]; intros H; [simpl; by destruct (unquote r)|].
  apply Forall_cons in H as [Hb Hl]. cbn [flat_map]. rewrite <-app_assoc, unquote_percent by done.
  rewrite IH by done. by destruct (unquote r).
Qed.

Lemma utf8_bytes cp : (cp < 1114112)%N → Forall (λ b, b < 256)%N (utf8 cp).
Proof.
  intros H. unfold utf8.
  repeat case_match; repeat constructor; try apply Forall_nil_2; zify; Z.div_mod_to_equations; lia.
Qed.

Lemma cont_byte x : (x < 64)%N → cont (128 + x) = Some x.
Proof. intros H. unfold cont. case_match; [f_equal|exfalso]; lia. Qed.

Lemma utf8_decode_utf8 cp r :
  (cp < 1114112)%N → utf8_decode (utf8 cp ++ r) = (cp ::.) <$> utf8_decode r.
Proof.
  intros H. unfold utf8.
  repeat case_match; simpl app; cbn [utf8_decode].
  all: repeat match goal with |- context[(?a <? ?b)%N] =>
         first [ replace (a <? b)%N with true by (zify; Z.div_mod_to_equations; lia)
               | replace (a <? b)%N with false by (zify; Z.div_mod_to_equations; lia) ] end.
  all: rewrite ?cont_byte by (zify; Z.div_mod_to_equations; lia); simpl.
  all: repeat f_equal; zify; Z.div_mod_to_equations; lia.
Qed.

(** ** The encoder through code points *)

Definition encode_unit (cp : N) : jstr := if uri_unreserved cp then [cp] else encode_cp cp.

Lemma unreserved_ascii c : uri_unreserved c = true → (c < 128)%N.
Proof.
  unfold uri_unreserved, is_letter, is_upper, is_lower, is_digit, existsb. lia.
Qed.

Lemma unreserved_not_surrogate c : uri_unreserved c = true → is_lead c = false ∧ is_trail c = false.
Proof. intros H%unreserved_ascii. unfold is_lead, is_trail. lia. Qed.

Lemma surrogate_cp_range c d :
  is_lead c = true → is_trail d = true → (65536 <= surrogate_cp c d < 1114112)%N.
Proof. unfold is_lead, is_trail, surrogate_cp. lia. Qed.

Lemma encode_unit_surrogate c d :
  is_lead c = true → is_trail d = true → encode_unit (surrogate_cp c d) = encode_cp (surrogate_cp c d).
Proof.
  intros Hc Hd. pose proof (surrogate_cp_range c d Hc Hd). unfold encode_unit.
  destruct (uri_unreserved _) eqn:H'; [apply unreserved_ascii in H'; lia | done].
Qed.

Lemma encode_code_points s :
  encodeURIComponent s = flat_map encode_unit <$> code_points s.
Proof.
  induction s as [|c|c d s IH IH'] using jstr_pair_ind; [done|..].
  - simpl. destruct (uri_unreserved c) eqn:Hu.
    + apply unreserved_not_surrogate in Hu as Hs. destruct Hs as [-> ->]. simpl.
      by unfold encode_unit; rewrite Hu.
    + destruct (is_lead c), (is_trail c); simpl; try done.
      by unfold encode_unit; rewrite Hu.
  - cbn [encodeURIComponent code_points] in IH' |- *.
    destruct (uri_unreserved c) eqn:Hu.
    + apply unreserved_not_surrogate in Hu as Hs. destruct Hs as [-> ->].
      rewrite IH'. destruct (code_points (d :: s)) eqn:E; cbn [code_points] in E; rewrite E; simpl;
        [|done]. by unfold encode_unit at 2; rewrite Hu.
    + destruct (is_lead c) eqn:Hc.
      * destruct (is_trail d) eqn:Hd; [|done]. rewrite IH.
        destruct (code_points s); simpl; [|done]. by rewrite encode_unit_surrogate.
      * destruct (is_trail c) eqn:Ht; [done|]. rewrite IH'.
        destruct (code_points (d :: s)) eqn:E; cbn [code_points] in E; rewrite E; simpl;
          [|done]. by unfold encode_unit at 2; rewrite Hu.
Qed.

Lemma code_points_range s cps :
  wf_jstr s → code_points s = Some cps → Forall (λ c, c < 1114112)%N cps.
Proof.
  revert cps. induction s as [|c|c d s IH IH'] using jstr_pair_ind; intros cps Hwf H.
  - simplify_eq/=. constructor.
  - apply Forall_cons in Hwf as [? _]. simpl in H. repeat case_match; simplify_eq/=.
    repeat constructor; lia.
  - cbn [code_points] in H, IH'. apply Forall_cons in Hwf as [Hc Hwf].
    apply Forall_cons in Hwf as Hwf'. destruct Hwf' as [Hd Hwf'].
    destruct (is_lead c) eqn:El.
    + destruct (is_trail d) eqn:Et; [|done].
      destruct (code_points s) as [l|]; simplify_eq/=.
      constructor; [pose proof (surrogate_cp_range c d El Et); lia | by apply IH].
    + destruct (is_trail c); [done|].
      destruct (if is_lead d then _ else _) as [l|]; simplify_eq/=.
      constructor; [lia | by apply IH'].
Qed.

(** Rebuilding the code units from the code points gives the string back. *)
Lemma utf16_code_points s cps :
  wf_jstr s → code_points s = Some cps → flat_map utf16_of_cp cps = s.
Proof.
  assert (∀ c, (c < 65536)%N → utf16_of_cp c = [c]) as Hbmp.
  { intros c H. unfold utf16_of_cp. by replace (c <? 65536)%N with true by lia. }
  revert cps. induction s as [|c|c d s IH IH'] using jstr_pair_ind; intros cps Hwf H.
  - by simplify_eq/=.
  - apply Forall_cons in Hwf as [? _]. simpl in H. repeat case_match; simplify_eq/=.
    by rewrite Hbmp.
  - cbn [code_points] in H, IH'. apply Forall_cons in Hwf as [Hc Hwf].
    apply Forall_cons in Hwf as Hwf'. destruct Hwf' as [Hd Hwf'].
    destruct (is_lead c) eqn:El.
    + destruct (is_trail d) eqn:Et; [|done].
      destruct (code_points s) as [l|]; simplify_eq/=. rewrite (IH l) by done.
      unfold utf16_of_cp, surrogate_cp, is_lead, is_trail in *.
      replace (_ <? 65536)%N with false by lia. simpl.
      repeat f_equal; zify; Z.div_mod_to_equations; lia.
    + destruct (is_trail c); [done|].
      destruct (if is_lead d then _ else _) as [l|] eqn:E; simplify_eq/=.
      by rewrite Hbmp, (IH' l) by done.
Qed.

Lemma unquote_encode_unit cp r :
  (cp < 1114112)%N → unquote (encode_unit cp ++ r) = (utf8 cp ++.) <$> unquote r.
Proof.
  intros H. unfold encode_unit. destruct (uri_unreserved cp) eqn:Hu.
  - apply unreserved_ascii in Hu as Ha. cbn [app unquote].
    replace (cp =? 37)%N with false.
    + unfold utf8. by replace (cp <? 128)%N with true by lia.
    + symmetry. apply N.eqb_neq. intros ->. done.
  - by apply unquote_percents, utf8_bytes.
Qed.

Lemma unquote_encode_units cps :
  Forall (λ c, c < 1114112)%N cps → unquote (flat_map encode_unit cps) = Some (flat_map utf8 cps).
Proof.
  induction 1 as [|c l Hc Hl IH]; [done|]. cbn [flat_map].
  by rewrite unquote_encode_unit, IH.
Qed.

Lemma utf8_decode_all cps :
  Forall (λ c, c < 1114112)%N cps → utf8_decode (flat_map utf8 cps) = Some cps.
Proof.
  induction 1 as [|c l Hc Hl IH]; [done|]. cbn [flat_map].
  by rewrite utf8_decode_utf8, IH.
Qed.

(** Decoding an encoded value gives it back. *)
Lemma decode_encode s e :
  wf_jstr s → encodeURIComponent s = Some e → decode_component e = Some s.
Proof.
  intros Hwf. rewrite encode_code_points. destruct (code_points s) as [cps|] eqn:E; [|done].
  intros [= <-]. pose proof (code_points_range _ _ Hwf E).
  unfold decode_component. rewrite unquote_encode_units by done. simpl.
  rewrite utf8_decode_all by done. simpl. by rewrite (utf16_code_points s).
Qed.

(** ** The characters of an encoded value *)

Lemma hex_digit_unreserved d : (d < 16)%N → uri_unreserved (hex_digit d) = true.
Proof.
  intros H. unfold hex_digit, uri_unreserved, is_letter, is_upper, is_lower, is_digit.
  destruct (d <? 10)%N eqn:E; lia.
Qed.

Lemma percent_chars b : (b < 256)%N → Forall uri_component_char (percent b).
Proof.
  intros H. unfold percent, uri_component_char.
  apply Forall_cons; split; [by right|].
  apply Forall_cons; split; [|apply Forall_cons; split; [|constructor]];
    left; apply hex_digit_unreserved.
  - apply N.Div0.div_lt_upper_bound; lia.
  - apply N.mod_lt; lia.
Qed.

Lemma encode_unit_chars cp : (cp < 1114112)%N → Forall uri_component_char (encode_unit cp).
Proof.
  intros H. unfold encode_unit. destruct (uri_unreserved cp) eqn:Hu.
  - apply Forall_cons; split; [by left | constructor].
  - apply Forall_flat_map. intros b Hb. apply percent_chars.
    by apply (proj1 (Forall_forall _ _) (utf8_bytes cp H)).
Qed.

Lemma encodeURIComponent_chars s e :
  wf_jstr s → encodeURIComponent s = Some e → Forall uri_component_char e.
Proof.
  intros Hwf. rewrite encode_code_points. destruct (code_points s) as [cps|] eqn:E; [|done].
  intros [= <-]. pose proof (code_points_range _ _ Hwf E) as Hr.
  apply Forall_flat_map. intros c Hc. apply encode_unit_chars.
  by apply (proj1 (Forall_forall _ _) Hr).
Qed.

(** The delimiters of a URL: [/ ? # & = { } $ ; ,] and blanks. *)
Definition url_delimiters : list N := [47; 63; 35; 38; 61; 123; 125; 36; 59; 44; 32; 10; 13]%N.

Lemma component_char_not_delimiter c : uri_component_char c → c ∉ url_delimiters.
Proof.
  intros Hc Hin. unfold url_delimiters in Hin.
  repeat (apply elem_of_cons in Hin as [->|Hin]; [by destruct Hc|]).
  by apply not_elem_of_nil in Hin.
Qed.

Lemma encode_no_delimiter s e c :
  wf_jstr s → encodeURIComponent s = Some e → c ∈ url_delimiters → c ∉ e.
Proof.
  intros Hwf He Hd Hc. pose proof (encodeURIComponent_chars _ _ Hwf He) as H.
  rewrite Forall_forall in H. by apply (component_char_not_delimiter c (H c Hc)).
Qed.

#[export] Hint Resolve encodeURIComponent_chars component_char_not_delimiter : js.
