(* ===== verification/JsValue.v ===== *)
(** * JavaScript values

    The dynamically typed values the client handles ([unknown] in the source),
    with the coercions it applies to them: truthiness, conversion to a string,
    reading and writing properties.

    A finite number is the decimal [m * 10^e] that prints it (the shortest
    decimal that reads back to it); a number read from text has no trailing zero
    in [m], one written with [VInt] may, and numbers are compared by value; -0 is
    0.  An
    object lists its own enumerable properties in enumeration order. *)

From S2P Require Import Prelude JsString.

Inductive jsnum :=
| NaN
| Infinity (negative : bool)
| Dec (m e : Z).

Inductive jsval :=
| VUndefined
| VNull
| VBool (b : bool)
| VNum (n : jsnum)
| VBigInt (z : Z)
| VStr (s : jstr)
| VSymbol
| VFun (src : jstr)
| VDate (iso : option jstr) (text : jstr) (* [toISOString()], [None] for an invalid date; [String(d)] *)
| VSearchParams (entries : list (jstr * jstr))
| VBlob (name : jstr)
| VArr (items : list jsval)
| VObj (props : list (jstr * jsval))     (* prototype [Object.prototype] or [null] *)
| VInstance (props : list (jstr * jsval)). (* an object of any other class *)

#[export] Instance jsnum_eq_dec : EqDecision jsnum.
Proof. solve_decision. Defined.

Definition VInt (z : Z) : jsval := VNum (Dec z 0).

(** Induction that reaches the items of arrays and the properties of objects. *)
Section jsval_nested_ind.
Variable P : jsval → Prop.
Hypothesis HUndefined : P VUndefined.
Hypothesis HNull : P VNull.
Hypothesis HBool : ∀ b, P (VBool b).
Hypothesis HNum : ∀ n, P (VNum n).
Hypothesis HBigInt : ∀ z, P (VBigInt z).
Hypothesis HStr : ∀ s, P (VStr s).
Hypothesis HSymbol : P VSymbol.
Hypothesis HFun : ∀ s, P (VFun s).
Hypothesis HDate : ∀ d s, P (VDate d s).
Hypothesis HSearchParams : ∀ l, P (VSearchParams l).
Hypothesis HBlob : ∀ s, P (VBlob s).
Hypothesis HArr : ∀ l, Forall P l → P (VArr l).
Hypothesis HObj : ∀ l, Forall (λ kv, P kv.2) l → P (VObj l).
Hypothesis HInstance : ∀ l, Forall (λ kv, P kv.2) l → P (VInstance l).

Fixpoint jsval_nested_ind (v : jsval) : P v :=
  let props := fix go (l : list (jstr * jsval)) : Forall (λ kv, P kv.2) l :=
    match l with
    | [] => Forall_nil_2 _
    | kv :: r => Forall_cons_2 _ kv r (jsval_nested_ind kv.2) (go r)
    end in
  match v with
  | VUndefined => HUndefined
  | VNull => HNull
  | VBool b => HBool b
  | VNum n => HNum n
  | VBigInt z => HBigInt z
  | VStr s => HStr s
  | VSymbol => HSymbol
  | VFun s => HFun s
  | VDate d s => HDate d s
  | VSearchParams l => HSearchParams l
  | VBlob s => HBlob s
  | VArr l => HArr l
      ((fix go (l : list jsval) : Forall P l :=
          match l with
          | [] => Forall_nil_2 _
          | x :: r => Forall_cons_2 _ x r (jsval_nested_ind x) (go r)
          end) l)
  | VObj l => HObj l (props l)
  | VInstance l => HInstance l (props l)
  end.
End jsval_nested_ind.

(** ** Coercions *)

(** ToBoolean. *)
Definition truthy (v : jsval) : bool :=
  match v with
  | VUndefined | VNull => false
  | VBool b => b
  | VNum NaN => false
  | VNum (Infinity _) => true
  | VNum (Dec m _) => negb (m =? 0)%Z
  | VBigInt z => negb (z =? 0)%Z
  | VStr s => negb (s =js "")
  | _ => true
  end.

(** [v === undefined || v === null]. *)
Definition nullish (v : jsval) : bool :=
  match v with VUndefined | VNull => true | _ => false end.

Definition is_undefined (v : jsval) : bool :=
  match v with VUndefined => true | _ => false end.

(** [typeof v === 'object']. *)
Definition typeof_object (v : jsval) : bool :=
  match v with
  | VNull | VDate _ _ | VSearchParams _ | VBlob _ | VArr _ | VObj _ | VInstance _ => true
  | _ => false
  end.

Definition zeros (n : nat) : jstr := replicate n 48%N.

(** Number::toString, radix 10. *)
Definition string_of_dec (m e : Z) : jstr :=
  let ds := digits_of_N (Z.abs_N m) in
  let k := Z.of_nat (length ds) in
  let n := (k + e)%Z in
  let body :=
    if (m =? 0)%Z then "0"
    else if ((k <=? n) && (n <=? 21))%Z then ds ++ zeros (Z.to_nat e)
    else if ((0 <? n) && (n <=? 21))%Z then take (Z.to_nat n) ds ++ "." ++ drop (Z.to_nat n) ds
    else if ((-6 <? n) && (n <=? 0))%Z then "0." ++ zeros (Z.to_nat (- n)) ++ ds
    else
      let x := (n - 1)%Z in
      let ex := "e" ++ (if (x <? 0)%Z then "-" else "+") ++ digits_of_N (Z.abs_N x) in
      match ds with
      | [] => []
      | [d] => d :: ex
      | d :: r => d :: "." ++ r ++ ex
      end in
  if (m <? 0)%Z then "-" ++ body else body.

Definition string_of_num (n : jsnum) : jstr :=
  match n with
  | NaN => "NaN"
  | Infinity true => "-Infinity"
  | Infinity false => "Infinity"
  | Dec m e => string_of_dec m e
  end.

(** ToString; [None] is the [TypeError] of a symbol. An array joins its items with commas and
    writes [null] and [undefined] as nothing. *)
Fixpoint to_js_string (v : jsval) : option jstr :=
  match v with
  | VUndefined => Some "undefined"
  | VNull => Some "null"
  | VBool b => Some (if b then "true" else "false")
  | VNum n => Some (string_of_num n)
  | VBigInt z => Some (string_of_Z z)
  | VStr s => Some s
  | VSymbol => None
  | VFun src => Some src
  | VDate _ text => Some text
  | VSearchParams _ => Some "[object URLSearchParams]"
  | VBlob _ => Some "[object Blob]"
  | VArr l =>
      let fix go l :=
        match l with
        | [] => Some []
        | x :: r => s ← (if nullish x then Some [] else to_js_string x); (s ::.) <$> go r
        end in
      js_join "," <$> go l
  | VObj _ | VInstance _ => Some "[object Object]"
  end.

(** ** Objects *)

Fixpoint obj_get {A} (k : jstr) (l : list (jstr * A)) : option A :=
  match l with
  | [] => None
  | (k', v) :: r => if k =js k' then Some v else obj_get k r
  end.

(** [o[k] = v]: an existing property keeps its place, a new one goes last (a key that is an
    array index would enumerate before the others, which no key here is). *)
Fixpoint obj_set {A} (k : jstr) (v : A) (l : list (jstr * A)) : list (jstr * A) :=
  match l with
  | [] => [(k, v)]
  | (k', w) :: r => if k =js k' then (k', v) :: r else (k', w) :: obj_set k v r
  end.

Definition obj_has {A} (k : jstr) (l : list (jstr * A)) : bool :=
  match obj_get k l with Some _ => true | None => false end.

(** [{...a, ...b}]. *)
Definition obj_spread {A} (a b : list (jstr * A)) : list (jstr * A) :=
  foldl (λ o kv, obj_set kv.1 kv.2 o) a b.

Definition obj_delete {A} (k : jstr) (l : list (jstr * A)) : list (jstr * A) :=
  List.filter (λ kv, negb (k =js kv.1)) l.

Definition prop (k : jstr) (v : jsval) : jsval :=
  match v with
  | VObj l | VInstance l => default VUndefined (obj_get k l)
  | _ => VUndefined
  end.

Lemma obj_get_set_eq {A} k (v : A) l : obj_get k (obj_set k v l) = Some v.
Proof.
  induction l as [|[k' w] r IH]; simpl; [by rewrite jeqb_refl|].
  destruct (k =js k') eqn:E; simpl; rewrite E; auto.
Qed.

Lemma obj_get_set_ne {A} k k' (v : A) l : k ≠ k' → obj_get k (obj_set k' v l) = obj_get k l.
Proof.
  intros H%jeqb_neq. induction l as [|[k'' w] r IH]; simpl; [by rewrite H|].
  destruct (k' =js k'') eqn:E; simpl.
  - apply jeqb_eq in E as <-. by rewrite H.
  - by rewrite IH.
Qed.

Lemma obj_get_set {A} k k' (v : A) l :
  obj_get k (obj_set k' v l) = if k =js k' then Some v else obj_get k l.
Proof.
  destruct (k =js k') eqn:E.
  - apply jeqb_eq in E as <-. apply obj_get_set_eq.
  - apply jeqb_neq in E. by apply obj_get_set_ne.
Qed.
#[export] Hint Rewrite @obj_get_set_eq : js.

Lemma obj_get_delete {A} k k' (l : list (jstr * A)) :
  obj_get k (obj_delete k' l) = if k =js k' then None else obj_get k l.
Proof.
  induction l as [|[k'' w] r IH]; simpl; [by case_match|].
  destruct (k' =js k'') eqn:E; simpl.
  - apply jeqb_eq in E as <-. rewrite IH. by destruct (k =js k').
  - destruct (k =js k'') eqn:E'; [|done].
    apply jeqb_eq in E' as <-. apply jeqb_neq in E. by destruct (k =js k') eqn:?; [apply jeqb_eq in Heqb; subst|].
Qed.

Lemma obj_get_spread {A} k (a b : list (jstr * A)) :
  NoDup (map fst b) →
  obj_get k (obj_spread a b) = match obj_get k b with Some v => Some v | None => obj_get k a end.
Proof.
  revert a. induction b as [|[k' w] r IH]; intros a H; [done|].
  apply NoDup_cons in H as [Hk Hr]. unfold obj_spread in *. simpl. rewrite IH by done.
  rewrite obj_get_set. destruct (k =js k') eqn:E; [|done].
  apply jeqb_eq in E as ->. destruct (obj_get k' r) as [x|] eqn:E; [|done].
  exfalso. apply Hk. clear -E. induction r as [|[k'' y] r IH]; simpl in *; [done|].
  destruct (k' =js k'') eqn:E'; [apply jeqb_eq in E' as ->; left | right; auto].
Qed.

Example to_js_string_example :
  to_js_string (VArr [VInt 1; VNull; VNum (Dec 15 (-1)); VBool true]) = Some "1,,1.5,true".
Proof. reflexivity. Qed.
