(* ===== verification/Json.v ===== *)
(** * [JSON.stringify] and [JSON.parse]

    Both as the language defines them for the values of [JsValue], with the
    replacers the client passes.  The round trip [parse (stringify v) = v] on
    JSON data is proved in [JsonSpec].  A number is read exactly as it is
    written: the rounding of a text with more digits than a double has is not
    modelled. *)

From S2P Require Import Prelude JsString JsValue.

(** ** Printing *)

(** What a replacer does with the value it is given: keeps it, writes a string instead, answers
    [undefined], or throws. *)
Inductive replacement := RKeep | RString (s : jstr) | RUndefined | RThrow (e : jsval).

Definition hex_lower (d : N) : N := (if d <? 10 then 48 + d else 87 + d)%N.
Definition unicode_escape (c : N) : jstr :=
  [BACKSLASH; 117; hex_lower (c / 4096); hex_lower (c / 256 mod 16);
   hex_lower (c / 16 mod 16); hex_lower (c mod 16)]%N.

(** The escape of a code unit inside a JSON string; a surrogate that is not part of a pair is
    escaped, which [quote_units] decides. *)
Definition escape_unit (c : N) : jstr :=
  (if c =? 8 then [BACKSLASH; 98] else if c =? 9 then [BACKSLASH; 116]
   else if c =? 10 then [BACKSLASH; 110] else if c =? 12 then [BACKSLASH; 102]
   else if c =? 13 then [BACKSLASH; 114] else if c =? QUOTE then [BACKSLASH; QUOTE]
   else if c =? BACKSLASH then [BACKSLASH; BACKSLASH]
   else if c <? 32 then unicode_escape c else [c])%N.

Fixpoint quote_units (s : jstr) : jstr :=
  match s with
  | [] => []
  | c :: r =>
      if is_lead c then
        match r with
        | d :: r' => if is_trail d then c :: d :: quote_units r' else unicode_escape c ++ quote_units r
        | [] => unicode_escape c
        end
      else if is_trail c then unicode_escape c ++ quote_units r
      else escape_unit c ++ quote_units r
  end.

Definition json_quote (s : jstr) : jstr := QUOTE :: quote_units s ++ [QUOTE].

Definition js_type_error : jsval := VInstance [("name"%js, VStr "TypeError")].
Definition js_range_error : jsval := VInstance [("name"%js, VStr "RangeError")].

(** [JSON.stringify(v, replacer)]: [Return None] is [undefined], [Throw] the [TypeError] of a
    bigint. A date is turned into its ISO string before the replacer sees it, as [toJSON] does. *)
Fixpoint stringify_with (rep : jsval → replacement) (v : jsval) : outcome jsval (option jstr) :=
  let v' := match v with
            | VDate (Some iso) _ => VStr iso
            | VDate None _ => VNull
            | _ => v
            end in
  match rep v' with
  | RString s => Return (Some (json_quote s))
  | RUndefined => Return None
  | RThrow e => Throw e
  | RKeep =>
      let members := fix go (l : list (jstr * jsval)) : outcome jsval (list jstr) :=
        match l with
        | [] => Return []
        | (k, x) :: r =>
            match stringify_with rep x with
            | Throw e => Throw e
            | Return o =>
                match go r with
                | Throw e => Throw e
                | Return ss => Return (match o with
                                       | Some s => (json_quote k ++ ":" ++ s) :: ss
                                       | None => ss
                                       end)
                end
            end
        end in
      match v with
      | VUndefined | VSymbol | VFun _ => Return None
      | VNull | VDate None _ => Return (Some "null")
      | VBool b => Return (Some (if b then "true" else "false"))
      | VNum (Dec m e) => Return (Some (string_of_dec m e))
      | VNum _ => Return (Some "null")
      | VBigInt _ => Throw js_type_error
      | VStr s | VDate (Some s) _ => Return (Some (json_quote s))
      | VArr l =>
          let fix go (l : list jsval) : outcome jsval (list jstr) :=
            match l with
            | [] => Return []
            | x :: r =>
                match stringify_with rep x with
                | Throw e => Throw e
                | Return o =>
                    match go r with
                    | Throw e => Throw e
                    | Return ss => Return (default "null" o :: ss)
                    end
                end
            end in
          match go l with
          | Throw e => Throw e
          | Return ss => Return (Some ("[" ++ js_join "," ss ++ "]"))
          end
      | VObj l | VInstance l =>
          match members l with
          | Throw e => Throw e
          | Return ss => Return (Some ("{" ++ js_join "," ss ++ "}"))
          end
      | VSearchParams _ | VBlob _ => Return (Some "{}")
      end
  end.

Definition JSON_stringify (v : jsval) : outcome jsval (option jstr) :=
  stringify_with (λ _, RKeep) v.

(** ** Parsing *)

Definition json_space (c : N) : bool := ((c =? 32) || (c =? 9) || (c =? 10) || (c =? 13))%N.
Definition skip_ws (s : jstr) : jstr := drop_while json_space s.

(** The decimal with no trailing zero in its digits; the fuel bounds the zeros. *)
Fixpoint normalize_dec (n : nat) (m e : Z) : jsnum :=
  match n with
  | O => Dec m e
  | S n' => if (m =? 0)%Z then Dec 0 0
            else if (m mod 10 =? 0)%Z then normalize_dec n' (m / 10) (e + 1) else Dec m e
  end.

Definition hex_digit_value (c : N) : option N :=
  (if is_digit c then Some (c - 48)
   else if (65 <=? c) && (c <=? 70) then Some (c - 55)
   else if (97 <=? c) && (c <=? 102) then Some (c - 87)
   else None)%N.

(** The characters of a string up to its closing quote. *)
Fixpoint parse_string (s : jstr) : option (jstr * jstr) :=
  match s with
  | [] => None
  | c :: r =>
      if (c =? QUOTE)%N then Some ([], r)
      else if (c <? 32)%N then None
      else if (c =? BACKSLASH)%N then
        match r with
        | [] => None
        | d :: r' =>
            if (d =? 117)%N then
              match r' with
              | a1 :: a2 :: a3 :: a4 :: r'' =>
                  x1 ← hex_digit_value a1; x2 ← hex_digit_value a2;
                  x3 ← hex_digit_value a3; x4 ← hex_digit_value a4;
                  '(t, rest) ← parse_string r'';
                  Some ((x1 * 4096 + x2 * 256 + x3 * 16 + x4)%N :: t, rest)
              | _ => None
              end
            else
              x ← (if (d =? 98)%N then Some 8%N else if (d =? 116)%N then Some 9%N
                   else if (d =? 110)%N then Some 10%N else if (d =? 102)%N then Some 12%N
                   else if (d =? 114)%N then Some 13%N
                   else if ((d =? QUOTE) || (d =? BACKSLASH) || (d =? 47))%N then Some d
                   else None);
              '(t, rest) ← parse_string r'; Some (x :: t, rest)
        end
      else '(t, rest) ← parse_string r; Some (c :: t, rest)
  end.

(** The exponent of a number, if there is one. *)
Definition parse_exponent (s : jstr) : option (Z * jstr) :=
  match s with
  | c :: r =>
      if ((c =? 101) || (c =? 69))%N then
        let '(xneg, r) := split_sign r in
        match take_while is_digit r with
        | [] => None
        | x => Some ((if xneg then - Z.of_N (N_of_digits x) else Z.of_N (N_of_digits x))%Z,
                     drop (length x) r)
        end
      else Some (0%Z, s)
  | [] => Some (0%Z, s)
  end.

(** A number: an integer part with no leading zero, then a fraction and an exponent, both
    optional. *)
Definition parse_number (s : jstr) : option (jsnum * jstr) :=
  let '(neg, s) := if startsWith "-" s then (true, drop 1 s) else (false, s) in
  let ip := take_while is_digit s in
  let s := drop (length ip) s in
  match ip with
  | [] => None
  | d0 :: ip' =>
      if ((d0 =? 48)%N && match ip' with [] => false | _ => true end)%bool then None else
      let frac := if startsWith "." s then
                    match take_while is_digit (drop 1 s) with
                    | [] => None
                    | f => Some (f, drop (length f) (drop 1 s))
                    end
                  else Some ([], s) in
      match frac with
      | None => None
      | Some (f, s) =>
          match parse_exponent s with
          | None => None
          | Some (x, s) =>
              let ds := ip ++ f in
              let m := Z.of_N (N_of_digits ds) in
              Some (normalize_dec (S (length ds)) (if neg then - m else m)%Z
                      (x - Z.of_nat (length f))%Z, s)
          end
      end
  end.

(** The fuel bounds the nesting and the number of items; the length of the text is enough. *)
Fixpoint parse_value (n : nat) (s : jstr) : option (jsval * jstr) :=
  match n with
  | O => None
  | S n' =>
      match s with
      | [] => None
      | c :: r =>
          if startsWith "null" s then Some (VNull, drop 4 s)
          else if startsWith "true" s then Some (VBool true, drop 4 s)
          else if startsWith "false" s then Some (VBool false, drop 5 s)
          else if (c =? QUOTE)%N then '(t, rest) ← parse_string r; Some (VStr t, rest)
          else if (c =? 91)%N then
            let r := skip_ws r in
            if startsWith "]" r then Some (VArr [], drop 1 r) else parse_items n' [] r
          else if (c =? 123)%N then
            let r := skip_ws r in
            if startsWith "}" r then Some (VObj [], drop 1 r) else parse_members n' [] r
          else '(x, rest) ← parse_number s; Some (VNum x, rest)
      end
  end
with parse_items (n : nat) (acc : list jsval) (s : jstr) : option (jsval * jstr) :=
  match n with
  | O => None
  | S n' =>
      '(v, r) ← parse_value n' s;
      let r := skip_ws r in
      if startsWith "," r then parse_items n' (acc ++ [v]) (skip_ws (drop 1 r))
      else if startsWith "]" r then Some (VArr (acc ++ [v]), drop 1 r)
      else None
  end
with parse_members (n : nat) (acc : list (jstr * jsval)) (s : jstr) : option (jsval * jstr) :=
  match n with
  | O => None
  | S n' =>
      match s with
      | q :: r =>
          if (q =? QUOTE)%N then
            '(k, r) ← parse_string r;
            let r := skip_ws r in
            if startsWith ":" r then
              '(v, r) ← parse_value n' (skip_ws (drop 1 r));
              let r := skip_ws r in
              if startsWith "," r then parse_members n' (obj_set k v acc) (skip_ws (drop 1 r))
              else if startsWith "}" r then Some (VObj (obj_set k v acc), drop 1 r)
              else None
            else None
          else None
      | [] => None
      end
  end.

(** [JSON.parse(s)]; [None] is the [SyntaxError]. *)
Definition JSON_parse (s : jstr) : option jsval :=
  match parse_value (2 * S (length s)) (skip_ws s) with
  | Some (v, r) => if skip_ws r =js [] then Some v else None
  | None => None
  end.

Definition js_quoted (s : jstr) : jstr := [QUOTE] ++ s ++ [QUOTE].

Example json_parse_example :
  JSON_parse (" { " ++ js_quoted "a" ++ ": [1, -2.50e1 , null,true], " ++ js_quoted "b" ++ " : {} } ")
  = Some (VObj [("a"%js, VArr [VInt 1; VInt (-25); VNull; VBool true]); ("b"%js, VObj [])]).
Proof. vm_compute. reflexivity. Qed.

Example json_stringify_example :
  JSON_stringify (VObj [("a"%js, VArr [VInt 1; VUndefined]); ("b"%js, VUndefined); ("c"%js, VStr "x")])
  = Return (Some ("{" ++ js_quoted "a" ++ ":[1,null]," ++ js_quoted "c" ++ ":" ++ js_quoted "x" ++ "}")).
Proof. vm_compute. reflexivity. Qed.

Example json_parse_broken : JSON_parse "{broken" = None.
Proof. vm_compute. reflexivity. Qed.
