(* ===== verification/JsonSpec.v ===== *)
(** * JSON round trip

    [JSON.parse] gives back what [JSON.stringify] wrote, for the values JSON
    has.  The lemmas are stated for any text that follows, as the recursion of
    the parser needs. *)

From S2P Require Import Prelude JsString JsValue Json.

(** ** JSON data *)

Definition wf_text (s : jstr) : Prop := Forall (λ c, c < 65536)%N s.

(** A decimal with no trailing zero in its digits. *)
Definition canonical (m e : Z) : Prop := (m = 0 ∧ e = 0)%Z ∨ (m mod 10 ≠ 0)%Z.

Fixpoint json_data (v : jsval) : Prop :=
  match v with
  | VNull | VBool _ => True
  | VNum (Dec m e) => canonical m e
  | VStr s => wf_text s
  | VArr l => (fix all l := match l with [] => True | x :: r => json_data x ∧ all r end) l
  | VObj l =>
      NoDup (map fst l)
      ∧ (fix all (l : list (jstr * jsval)) :=
           match l with [] => True | (k, x) :: r => wf_text k ∧ json_data x ∧ all r end) l
  | _ => False
  end.

Definition json_list (l : list jsval) : Prop := Forall json_data l.
Definition json_members (l : list (jstr * jsval)) : Prop := Forall (λ kv, wf_text kv.1 ∧ json_data kv.2) l.

Lemma json_data_arr l : json_data (VArr l) ↔ json_list l.
Proof.
  unfold json_list. simpl. induction l as [|x r IH]; [split; [constructor|done]|].
  rewrite Forall_cons, IH. done.
Qed.

Lemma json_data_obj l : json_data (VObj l) ↔ NoDup (map fst l) ∧ json_members l.
Proof.
  unfold json_members. simpl. f_equiv. induction l as [|[k x] r IH]; [split; [constructor|done]|].
  rewrite Forall_cons, IH. simpl. tauto.
Qed.

(** The text of JSON data. *)
Fixpoint json_text (v : jsval) : jstr :=
  match v with
  | VNull => "null"
  | VBool b => if b then "true" else "false"
  | VNum (Dec m e) => string_of_dec m e
  | VStr s => json_quote s
  | VArr l => "[" ++ js_join "," (map json_text l) ++ "]"
  | VObj l => "{" ++ js_join "," (map (λ kv, json_quote kv.1 ++ ":" ++ json_text kv.2) l) ++ "}"
  | _ => []
  end.

(** A replacer that keeps JSON data does not matter. *)
Lemma stringify_json rep v :
  (∀ v, json_data v → rep v = RKeep) → json_data v → stringify_with rep v = Return (Some (json_text v)).
Proof.
  intros Hrep. induction v using jsval_nested_ind; intros Hv; try done.
  - simpl. by rewrite Hrep.
  - simpl. by rewrite Hrep.
  - destruct n; try done. simpl. by rewrite Hrep.
  - simpl. by rewrite Hrep.
  - assert (rep (VArr l) = RKeep) as Hr by (by apply Hrep). apply json_data_arr in Hv.
    simpl. rewrite Hr.
    match goal with |- match ?go l with _ => _ end = _ => set (g := go) end.
    assert (g l = Return (map json_text l)) as ->; [|done]. clear Hr.
    induction l as [|x r IH]; [done|]. apply Forall_cons in H as [Hx Hr], Hv as [Jx Jr].
    unfold g. simpl. rewrite (Hx Jx). fold g. by rewrite IH.
  - assert (rep (VObj l) = RKeep) as Hr by (by apply Hrep). apply json_data_obj in Hv as [_ Hv].
    simpl. rewrite Hr.
    match goal with |- match ?go l with _ => _ end = _ => set (g := go) end.
    assert (g l = Return (map (λ kv, json_quote kv.1 ++ ":" ++ json_text kv.2) l)) as ->; [|done]. clear Hr.
    induction l as [|[k x] r IH]; [done|]. apply Forall_cons in H as [Hx Hr], Hv as [[_ Jx] Jr].
    simpl in Hx, Jx. unfold g. simpl. rewrite (Hx Jx). fold g. by rewrite IH.
Qed.

(** ** Strings *)

Lemma hex_lower_value d : (d < 16)%N → hex_digit_value (hex_lower d) = Some d.
Proof.
  intros H. unfold hex_lower, hex_digit_value, is_digit.
  destruct (d <? 10)%N eqn:E.
  - replace ((48 <=? 48 + d) && (48 + d <=? 57))%N with true by lia. f_equal. lia.
  - replace ((48 <=? 87 + d) && (87 + d <=? 57))%N with false by lia.
    replace ((65 <=? 87 + d) && (87 + d <=? 70))%N with false by lia.
    replace ((97 <=? 87 + d) && (87 + d <=? 102))%N with true by lia. f_equal. lia.
Qed.

Lemma parse_unicode c r t rest :
  (c < 65536)%N → parse_string r = Some (t, rest) →
  parse_string (unicode_escape c ++ r) = Some (c :: t, rest).
Proof.
  intros Hc Hr. unfold unicode_escape. cbn [app parse_string].
  change (BACKSLASH =? QUOTE)%N with false. change (BACKSLASH <? 32)%N with false.
  change (BACKSLASH =? BACKSLASH)%N with true. change (117 =? 117)%N with true. cbn iota.
  assert (c / 4096 < 16)%N by (apply N.Div0.div_lt_upper_bound; lia).
  rewrite !hex_lower_value by (done || (apply N.mod_lt; lia)).
  cbn [mbind option_bind]. rewrite Hr. cbn [mbind option_bind]. do 3 f_equal.
  pose proof (N.div_mod c 16). pose proof (N.div_mod (c / 16) 16). pose proof (N.div_mod (c / 256) 16).
  rewrite !N.Div0.div_div in *. change (16 * 16)%N with 256%N in *. change (256 * 16)%N with 4096%N in *. lia.
Qed.

Lemma parse_escape c r t rest :
  (c < 65536)%N → parse_string r = Some (t, rest) →
  parse_string (escape_unit c ++ r) = Some (c :: t, rest).
Proof.
  intros Hc Hr. unfold escape_unit.
  repeat match goal with |- context [if (c =? ?k)%N then _ else _] => destruct (N.eqb_spec c k) as [->|?] end;
    try (vm_compute (_ =? _)%N; cbn; rewrite Hr; reflexivity).
  destruct (c <? 32)%N eqn:E; [by apply parse_unicode|].
  cbn [app parse_string]. rewrite (proj2 (N.eqb_neq c QUOTE)), E, (proj2 (N.eqb_neq c BACKSLASH)) by done.
  rewrite Hr. done.
Qed.

Lemma parse_plain c r t rest :
  is_lead c || is_trail c = true → parse_string r = Some (t, rest) →
  parse_string (c :: r) = Some (c :: t, rest).
Proof.
  intros Hc Hr. cbn [parse_string]. unfold is_lead, is_trail in Hc.
  replace (c =? QUOTE)%N with false by (unfold QUOTE; lia).
  replace (c <? 32)%N with false by lia.
  replace (c =? BACKSLASH)%N with false by (unfold BACKSLASH; lia). by rewrite Hr.
Qed.

Lemma parse_string_quoted s r :
  wf_text s → parse_string (quote_units s ++ QUOTE :: r) = Some (s, r).
Proof.
  intros Hs. induction s as [|c|c d s IH IH'] using jstr_pair_ind.
  - done.
  - apply Forall_cons in Hs as [Hc _]. cbn [quote_units].
    assert (parse_string (QUOTE :: r) = Some ([], r)) as H0 by done.
    destruct (is_lead c); [by apply parse_unicode|].
    destruct (is_trail c); rewrite app_nil_r; [by apply parse_unicode|by apply parse_escape].
  - apply Forall_cons in Hs as [Hc Hds]. apply Forall_cons in Hds as Hds'. destruct Hds' as [Hd Hs].
    specialize (IH Hs). specialize (IH' Hds). change (quote_units (c :: d :: s)) with
      (if is_lead c then if is_trail d then c :: d :: quote_units s else unicode_escape c ++ quote_units (d :: s)
       else if is_trail c then unicode_escape c ++ quote_units (d :: s) else escape_unit c ++ quote_units (d :: s)).
    destruct (is_lead c) eqn:El.
    + destruct (is_trail d) eqn:Et.
      * cbn [app]. apply parse_plain; [by rewrite El|]. apply parse_plain; [by rewrite Et, orb_true_r|done].
      * rewrite <-app_assoc. by apply parse_unicode.
    + destruct (is_trail c); rewrite <-app_assoc; [by apply parse_unicode|by apply parse_escape].
Qed.

(** ** Numbers *)

(** The text after a number does not go on with the number. *)
Definition number_end (r : jstr) : Prop :=
  match r with [] => True | c :: _ => is_digit c = false ∧ c ≠ 46%N ∧ c ≠ 101%N ∧ c ≠ 69%N end.

Lemma normalize_dec_scale j n m e :
  (m mod 10 ≠ 0)%Z → j < n → normalize_dec n (m * 10 ^ Z.of_nat j) e = Dec m (e + Z.of_nat j).
Proof.
  revert n e. induction j as [|j IH]; intros [|n] e Hm Hn; try lia; cbn [normalize_dec].
  - change (10 ^ Z.of_nat 0)%Z with 1%Z. rewrite Z.mul_1_r.
    destruct (m =? 0)%Z eqn:E; [apply Z.eqb_eq in E as ->; done|].
    destruct (m mod 10 =? 0)%Z eqn:E'; [lia|]. f_equal. lia.
  - assert (m * 10 ^ Z.of_nat (S j) = m * 10 ^ Z.of_nat j * 10)%Z as ->
      by (rewrite Nat2Z.inj_succ, Z.pow_succ_r by lia; lia).
    assert (m ≠ 0)%Z by (by intros ->).
    assert (0 < 10 ^ Z.of_nat j)%Z by (apply Z.pow_pos_nonneg; lia).
    destruct (m * 10 ^ Z.of_nat j * 10 =? 0)%Z eqn:E; [nia|].
    rewrite Z.mod_mul by lia. simpl. rewrite Z.div_mul by lia. rewrite IH by (done || lia). f_equal. lia.
Qed.

Lemma normalize_dec_canonical n m e : canonical m e → n ≠ 0 → normalize_dec n m e = Dec m e.
Proof.
  intros [[-> ->]|Hm] Hn; [by destruct n|].
  pose proof (normalize_dec_scale 0 n m e Hm) as H. change (10 ^ Z.of_nat 0)%Z with 1%Z in H.
  rewrite Z.mul_1_r, Z.add_0_r in H. apply H. lia.
Qed.

Definition digits (l : jstr) : Prop := Forall (λ c, is_digit c = true) l.

Lemma digits_zeros n : digits (zeros n).
Proof. apply Forall_replicate. done. Qed.

Lemma N_of_zeros n l : N_of_digits (zeros n ++ l) = N_of_digits l.
Proof.
  induction n as [|n IH]; [done|]. cbn [zeros replicate app]. rewrite N_of_digits_cons.
  change (replicate n 48%N ++ l) with (zeros n ++ l). rewrite IH. lia.
Qed.

Lemma N_of_digits_zeros l n : N_of_digits (l ++ zeros n) = (N_of_digits l * 10 ^ N.of_nat n)%N.
Proof.
  rewrite N_of_digits_app. unfold zeros. rewrite length_replicate.
  pose proof (N_of_zeros n []) as H. rewrite app_nil_r in H. unfold zeros in H. rewrite H.
  change (N_of_digits []) with 0%N. lia.
Qed.

Lemma not_digit_head c : is_digit c = false → match (c :: [] : jstr) with [] => True | d :: _ => is_digit d = false end.
Proof. done. Qed.

(** The shape every number is written in: an integer part, maybe a fraction, maybe an exponent. *)
Definition exponent_text (x : option Z) : jstr :=
  match x with
  | None => []
  | Some x => "e" ++ (if (x <? 0)%Z then "-" else "+") ++ digits_of_N (Z.abs_N x)
  end.
Definition number_text (neg : bool) (ip f : jstr) (x : option Z) : jstr :=
  (if neg then "-" else []) ++ ip ++ (match f with [] => [] | _ => "." ++ f end) ++ exponent_text x.

Lemma take_while_app_digits l r :
  digits l → match r with [] => True | c :: _ => is_digit c = false end →
  take_while is_digit (l ++ r) = l ∧ drop (length l) (l ++ r) = r.
Proof. intros Hl Hr. split; [by apply take_while_digits|apply drop_app_length]. Qed.

Lemma parse_exponent_text x r :
  number_end r → parse_exponent (exponent_text x ++ r) = Some (default 0%Z x, r).
Proof.
  intros Hr. unfold parse_exponent. destruct x as [x|]; cbn [exponent_text].
  - change (("e" ++ ?a ++ ?b) ++ r) with (101%N :: ((a ++ b) ++ r)). cbn [orb N.eqb Pos.eqb].
    destruct (digits_of_N_spec (Z.abs_N x)) as (Hd & Hv & Hne & _).
    assert (split_sign (((if (x <? 0)%Z then "-" else "+") ++ digits_of_N (Z.abs_N x)) ++ r)
            = ((x <? 0)%Z, digits_of_N (Z.abs_N x) ++ r)) as -> by (by destruct (x <? 0)%Z).
    destruct (take_while_app_digits (digits_of_N (Z.abs_N x)) r) as [Ht Hdr];
      [done|destruct r; [done|by destruct Hr]|].
    rewrite Ht. destruct (digits_of_N (Z.abs_N x)) as [|d ds] eqn:E; [done|]. rewrite <-E in *.
    rewrite Hv, Hdr. do 2 f_equal. cbn [from_option id]. destruct (x <? 0)%Z eqn:?; lia.
  - cbn [app from_option id]. destruct r as [|c r]; [done|]. destruct Hr as (_ & _ & H1 & H2).
    by rewrite (proj2 (N.eqb_neq c 101) H1), (proj2 (N.eqb_neq c 69) H2).
Qed.

Lemma parse_number_text neg ip f x r :
  digits ip → ip ≠ [] → (head ip = Some 48%N → ip = [48%N]) → digits f → number_end r →
  parse_number (number_text neg ip f x ++ r)
  = Some (normalize_dec (S (length (ip ++ f)))
            (if neg then - Z.of_N (N_of_digits (ip ++ f)) else Z.of_N (N_of_digits (ip ++ f)))%Z
            (default 0%Z x - Z.of_nat (length f))%Z, r).
Proof.
  intros Hip Hne Hz Hf Hr. unfold number_text, parse_number. rewrite <-!app_assoc.
  assert (∀ s, (if startsWith "-" ((if neg then "-" else []) ++ ip ++ s)
                then (true, drop 1 ((if neg then "-" else []) ++ ip ++ s))
                else (false, (if neg then "-" else []) ++ ip ++ s)) = (neg, ip ++ s)) as Hsign.
  { intros s. destruct neg; [done|]. destruct ip as [|d ip]; [done|].
    apply Forall_cons in Hip as [Hd _]. cbn [app startsWith].
    assert ((45 =? d)%N = false) as -> by (unfold is_digit in Hd; lia). done. }
  rewrite Hsign. clear Hsign.
  assert (∀ a, a = (match f with [] => [] | _ => "." ++ f end) ++ exponent_text x ++ r →
    match a with [] => True | c :: _ => is_digit c = false end) as Hend.
  { intros a ->. destruct f; [|done]. destruct x; [done|]. destruct r; [done|by destruct Hr]. }
  destruct (take_while_app_digits ip _ Hip (Hend _ eq_refl)) as [Ht Hd]. rewrite Ht, Hd. clear Ht Hd Hend.
  destruct ip as [|d0 ip]; [done|].
  assert (((d0 =? 48)%N && match ip with [] => false | _ => true end)%bool = false) as ->.
  { destruct (N.eqb_spec d0 48) as [->|]; [|done]. specialize (Hz eq_refl). by injection Hz as ->. }
  pose proof (parse_exponent_text x r Hr) as Hx.
  destruct f as [|f0 f].
  - cbn [app]. assert (startsWith "." (exponent_text x ++ r) = false) as ->.
    { destruct x as [x|]; [done|]. destruct r as [|c r]; [done|]. destruct Hr as (_ & Hc & _).
      cbn [app exponent_text startsWith]. by rewrite (proj2 (N.eqb_neq 46 c)) by congruence. }
    rewrite Hx. done.
  - assert (startsWith "." (("." ++ f0 :: f) ++ exponent_text x ++ r) = true) as -> by reflexivity.
    change (drop 1 (("." ++ f0 :: f) ++ exponent_text x ++ r)) with ((f0 :: f) ++ exponent_text x ++ r).
    destruct (take_while_app_digits (f0 :: f) (exponent_text x ++ r)) as [Ht Hd]; [done| |].
    { destruct x; [done|]. destruct r; [done|by destruct Hr]. }
    rewrite Ht, Hd, Hx. done.
Qed.

(** The sign, given back to the digits. *)
Definition signed (m : Z) (n : N) : Z := if (m <? 0)%Z then - Z.of_N n else Z.of_N n.

Lemma signed_abs m : signed m (Z.abs_N m) = m.
Proof. unfold signed. destruct (m <? 0)%Z eqn:E; lia. Qed.

Lemma signed_scale m n k : signed m (n * 10 ^ N.of_nat k) = (signed m n * 10 ^ Z.of_nat k)%Z.
Proof.
  unfold signed. rewrite N2Z.inj_mul, N2Z.inj_pow, nat_N_Z. change (Z.of_N 10) with 10%Z.
  destruct (m <? 0)%Z; lia.
Qed.

(** Reading the parts of a number back. *)
Definition reads_as (m e : Z) (ip f : jstr) (x : option Z) : Prop :=
  digits ip ∧ ip ≠ [] ∧ (head ip = Some 48%N → ip = [48%N]) ∧ digits f
  ∧ normalize_dec (S (length (ip ++ f))) (signed m (N_of_digits (ip ++ f)))
      (default 0%Z x - Z.of_nat (length f)) = Dec m e.

Lemma head_app_digits (ds l : jstr) : ds ≠ [] → head (ds ++ l) = head ds.
Proof. by destruct ds. Qed.

Section dec_text.
Context (m e : Z) (Hm : (m mod 10 ≠ 0)%Z).
Context (ds : jstr) (Hds : digits_of_N (Z.abs_N m) = ds) (k : Z) (Hk : Z.of_nat (length ds) = k).

Lemma dec_digits : digits ds ∧ N_of_digits ds = Z.abs_N m ∧ ds ≠ [] ∧ head ds ≠ Some 48%N.
Proof.
  destruct (digits_of_N_spec (Z.abs_N m)) as (H1 & H2 & H3 & H4).
  rewrite Hds in *. split; [done|]. split; [done|].
  split; [done|]. intros H. specialize (H4 H). rewrite H4 in H2.
  assert (Z.abs_N m = 0%N) as H0 by (rewrite <-H2; done). assert (m = 0)%Z as -> by lia. done.
Qed.

Lemma reads_integer : (0 <= e)%Z → reads_as m e (ds ++ zeros (Z.to_nat e)) [] None.
Proof.
  intros He. destruct dec_digits as (Hd & Hv & Hne & Hh). split; [by apply Forall_app; split; [|apply digits_zeros]|].
  split; [by destruct ds|]. split; [rewrite head_app_digits by done; done|]. split; [constructor|].
  rewrite app_nil_r, N_of_digits_zeros, Hv, signed_scale, signed_abs. cbn [length from_option id].
  rewrite normalize_dec_scale; [f_equal; lia|done|]. rewrite length_app. unfold zeros. rewrite length_replicate. lia.
Qed.

Lemma reads_fraction n :
  n ≠ 0 → n < length ds → e = (Z.of_nat n - k)%Z → reads_as m e (take n ds) (drop n ds) None.
Proof.
  intros Hn Hlt He. destruct dec_digits as (Hd & Hv & Hne & Hh).
  split; [by apply Forall_take|]. split; [destruct ds; [done|by destruct n]|].
  split; [destruct ds; [done|]; destruct n; [done|]; done|]. split; [by apply Forall_drop|].
  rewrite take_drop, Hv, signed_abs, length_drop. cbn [from_option id].
  rewrite normalize_dec_canonical; [f_equal; lia|by right|done].
Qed.

Lemma reads_small n :
  (Z.of_nat n = - (k + e))%Z → reads_as m e "0" (zeros n ++ ds) None.
Proof.
  intros Hn. destruct dec_digits as (Hd & Hv & Hne & Hh).
  split; [by repeat constructor|]. split; [done|]. split; [done|].
  split; [apply Forall_app; split; [apply digits_zeros|done]|].
  assert (N_of_digits ("0" ++ zeros n ++ ds) = Z.abs_N m) as ->.
  { change ("0" ++ zeros n ++ ds) with (zeros (S n) ++ ds). by rewrite N_of_zeros. }
  rewrite signed_abs, length_app. rewrite (length_app (zeros n)). unfold zeros. rewrite length_replicate. cbn [from_option id].
  rewrite normalize_dec_canonical; [f_equal; lia|by right|done].
Qed.

Lemma reads_exponent d r :
  ds = d :: r → reads_as m e [d] r (Some (k + e - 1)%Z).
Proof.
  intros E. destruct dec_digits as (Hd & Hv & Hne & Hh). rewrite E in *.
  apply Forall_cons in Hd as Hd'. destruct Hd' as [Hd0 Hr].
  split; [by repeat constructor|]. split; [done|]. split; [done|]. split; [done|].
  change ([d] ++ r) with (d :: r). rewrite Hv, signed_abs. cbn [from_option id].
  rewrite normalize_dec_canonical; [f_equal; cbn [length] in Hk; lia|by right|done].
Qed.

Lemma string_of_dec_reads :
  ∃ ip f x, string_of_dec m e = number_text (m <? 0)%Z ip f x ∧ reads_as m e ip f x.
Proof.
  destruct dec_digits as (Hd & Hv & Hne & Hh). unfold string_of_dec. rewrite !Hds, !Hk.
  assert ((m =? 0)%Z = false) as -> by (destruct (Z.eqb_spec m 0) as [->|]; done).
  assert (∀ body ip f x, body = ip ++ (match f with [] => [] | _ => "." ++ f end) ++ exponent_text x →
    (if (m <? 0)%Z then "-" ++ body else body) = number_text (m <? 0)%Z ip f x) as Hbody
    by (intros body ip f x ->; unfold number_text; by destruct (m <? 0)%Z).
  destruct ((k <=? k + e)%Z && (k + e <=? 21)%Z) eqn:E1.
  { exists (ds ++ zeros (Z.to_nat e)), [], None. split; [apply Hbody; by rewrite !app_nil_r|].
    apply reads_integer. lia. }
  destruct ((0 <? k + e)%Z && (k + e <=? 21)%Z) eqn:E2.
  { exists (take (Z.to_nat (k + e)) ds), (drop (Z.to_nat (k + e)) ds), None.
    assert (Z.to_nat (k + e) < length ds) as Hlt by lia.
    split; [|apply reads_fraction; lia]. apply Hbody.
    destruct (drop (Z.to_nat (k + e)) ds) eqn:Ed; [|by rewrite app_nil_r].
    apply (f_equal length) in Ed. rewrite length_drop in Ed. simpl in Ed. lia. }
  destruct ((-6 <? k + e)%Z && (k + e <=? 0)%Z) eqn:E3.
  { exists "0", (zeros (Z.to_nat (- (k + e))) ++ ds), None. split; [|apply reads_small; lia].
    apply Hbody. rewrite app_nil_r. destruct (zeros _ ++ ds) eqn:E; [|done].
    apply app_nil in E as [_ E]. done. }
  assert (∃ d r, ds = d :: r) as (d & r & E) by (destruct ds; [done|eauto]).
  exists [d], r, (Some (k + e - 1)%Z). split; [|by apply reads_exponent].
  rewrite E. destruct r; by apply Hbody.
Qed.
End dec_text.

Lemma parse_number_dec m e r :
  canonical m e → number_end r → parse_number (string_of_dec m e ++ r) = Some (Dec m e, r).
Proof.
  intros [[-> ->]|Hm] Hr.
  - change (string_of_dec 0 0) with (number_text false "0" [] None).
    rewrite parse_number_text; try done; repeat constructor.
  - destruct (string_of_dec_reads m e Hm _ eq_refl _ eq_refl) as (ip & f & x & -> & H1 & H2 & H3 & H4 & H5).
    rewrite parse_number_text by done. unfold signed in H5. by rewrite H5.
Qed.

(** How the text of a number starts. *)
Lemma string_of_dec_head m e :
  canonical m e → ∃ c s, string_of_dec m e = c :: s ∧ (is_digit c = true ∨ c = 45%N).
Proof.
  intros [[-> ->]|Hm]; [by eexists _, _; split; [reflexivity|left]|].
  destruct (string_of_dec_reads m e Hm _ eq_refl _ eq_refl) as (ip & f & x & -> & H1 & H2 & _).
  unfold number_text. destruct (m <? 0)%Z; [by eexists _, _; split; [reflexivity|right]|].
  destruct ip as [|c ip]; [done|]. apply Forall_cons in H1 as [Hc _]. by eexists c, _; split; [reflexivity|left].
Qed.

(** ** Values *)

Lemma obj_set_fresh {A} k (v : A) l : k ∉ map fst l → obj_set k v l = l ++ [(k, v)].
Proof.
  induction l as [|[k' w] r IH]; intros H; [done|]. apply not_elem_of_cons in H as [Hk H].
  cbn [obj_set app]. rewrite (proj2 (jeqb_neq k k') Hk). by rewrite IH.
Qed.

(** How the text of a value starts: with none of the characters the parser skips or ends on. *)
Definition starts_value (s : jstr) : Prop :=
  match s with [] => False | c :: _ => json_space c = false ∧ c ≠ 93%N ∧ c ≠ 125%N end.

Lemma starts_value_skip s r : starts_value s → skip_ws (s ++ r) = s ++ r.
Proof. destruct s as [|c s]; [done|]. intros [Hc _]. by apply drop_while_id. Qed.

Lemma starts_value_not s r : starts_value s → startsWith "]" (s ++ r) = false ∧ startsWith "}" (s ++ r) = false.
Proof.
  destruct s as [|c s]; [done|]. intros (_ & H1 & H2). cbn [app startsWith].
  by rewrite (proj2 (N.eqb_neq 93 c)), (proj2 (N.eqb_neq 125 c)) by congruence.
Qed.

Lemma number_head_ok c : is_digit c = true ∨ c = 45%N →
  json_space c = false ∧ (c =? QUOTE)%N = false ∧ (48 <= c)%N ∧ (c < 58)%N ∨ c = 45%N.
Proof. unfold json_space, QUOTE, is_digit. intros [H| ->]; [left|by right]. lia. Qed.

Lemma json_text_starts v : json_data v → starts_value (json_text v).
Proof.
  destruct v; try done; cbn [json_text].
  - by destruct b.
  - destruct n; try done. intros Hv. destruct (string_of_dec_head m e Hv) as (c & s & -> & Hc).
    destruct (number_head_ok c Hc) as [(H1 & H2 & H3 & H4)| ->]; [|done]. split; [done|lia].
Qed.

Lemma json_quote_app s r : json_quote s ++ r = QUOTE :: (quote_units s ++ QUOTE :: r).
Proof. unfold json_quote. cbn [app]. by rewrite <-app_assoc. Qed.

Lemma number_end_punct c r : c = 44%N ∨ c = 93%N ∨ c = 125%N → number_end (c :: r).
Proof. intros [->|[->| ->]]; done. Qed.

(** The fuel that reading the text of a value takes. *)
Definition reads (v : jsval) : Prop :=
  ∀ n r, json_data v → 2 * length (json_text v) ≤ n → number_end r →
    parse_value n (json_text v ++ r) = Some (v, r).

Lemma parse_items_text l acc n r :
  l ≠ [] → Forall reads l → json_list l → 2 * length (js_join "," (map json_text l)) < n →
  parse_items n acc (js_join "," (map json_text l) ++ "]" ++ r) = Some (VArr (acc ++ l), r).
Proof.
  intros Hne HR HJ. revert acc n. induction l as [|x l IH]; [done|]. intros acc n Hn.
  apply Forall_cons in HR as [Hx HR], HJ as [Jx HJ]. destruct n as [|n]; [lia|]. cbn [parse_items].
  destruct l as [|y l].
  - cbn [map js_join] in *. rewrite (Hx n) by (done || lia). cbn [mbind option_bind app skip_ws]. done.
  - cbn [map] in *. rewrite js_join_cons in *. rewrite !length_app in Hn. cbn [length] in Hn.
    rewrite <-!app_assoc. change (("," : jstr) ++ ?t) with (44%N :: t).
    rewrite (Hx n) by (try done; lia). cbn [mbind option_bind].
    change (skip_ws (44%N :: ?t)) with (44%N :: t). change (startsWith "," (44%N :: _)) with true. cbn iota.
    change (drop 1 (44%N :: ?t)) with t.
    assert (starts_value (js_join "," (json_text y :: map json_text l))) as Hs.
    { apply Forall_cons in HJ as [Jy _]. pose proof (json_text_starts y Jy) as H.
      destruct l; [done|]. cbn [map js_join]. by destruct (json_text y). }
    rewrite starts_value_skip by done. rewrite (IH ltac:(done) HR HJ) by lia. by rewrite <-app_assoc.
Qed.

Definition member_text (kv : jstr * jsval) : jstr := json_quote kv.1 ++ ":" ++ json_text kv.2.

Lemma member_text_length k x : length (json_text x) < length (member_text (k, x)).
Proof. unfold member_text, json_quote. rewrite !length_app. simpl. lia. Qed.

(** Reading one member, up to what comes after its value. *)
Lemma parse_member k x acc n t :
  wf_text k → json_data x →
  parse_members (S n) acc (member_text (k, x) ++ t) =
    ('(v, r) ← parse_value n (json_text x ++ t);
     let r := skip_ws r in
     if startsWith "," r then parse_members n (obj_set k v acc) (skip_ws (drop 1 r))
     else if startsWith "}" r then Some (VObj (obj_set k v acc), drop 1 r) else None).
Proof.
  intros Jk Jx. unfold member_text. cbn [fst snd]. rewrite <-!app_assoc, json_quote_app. cbn [parse_members].
  rewrite N.eqb_refl, parse_string_quoted by done. cbn [mbind option_bind].
  change ((":" : jstr) ++ ?t) with (58%N :: t). change (skip_ws (58%N :: ?t)) with (58%N :: t).
  change (startsWith ":" (58%N :: _)) with true. cbn iota. change (drop 1 (58%N :: ?t)) with t.
  by rewrite starts_value_skip by (by apply json_text_starts).
Qed.

Lemma parse_members_text l acc n r :
  l ≠ [] → Forall (λ kv, reads kv.2) l → json_members l → NoDup (map fst (acc ++ l)) →
  2 * length (js_join "," (map member_text l)) < n →
  parse_members n acc (js_join "," (map member_text l) ++ "}" ++ r) = Some (VObj (acc ++ l), r).
Proof.
  intros Hne HR HJ. revert acc n. induction l as [|[k x] l IH]; [done|]. intros acc n Hnd Hn.
  apply Forall_cons in HR as [Hx HR], HJ as [[Jk Jx] HJ]. cbn [fst snd] in *. destruct n as [|n]; [lia|].
  assert (k ∉ map fst acc) as Hk.
  { intros Hk. rewrite map_app in Hnd. apply NoDup_app in Hnd as (_ & Hnd & _). apply (Hnd k Hk). left. }
  pose proof (member_text_length k x) as Hl. pose proof (parse_member k x acc n) as Hm.
  destruct l as [|y l].
  - cbn [map js_join] in *. rewrite Hm, (Hx n) by (done || lia). cbn [mbind option_bind app skip_ws].
    by rewrite obj_set_fresh.
  - cbn [map] in *. rewrite js_join_cons in *. rewrite !length_app in Hn. cbn [length] in Hn.
    rewrite <-!app_assoc, Hm by done. change (("," : jstr) ++ ?t) with (44%N :: t).
    rewrite (Hx n) by (try done; lia). cbn [mbind option_bind].
    change (skip_ws (44%N :: ?t)) with (44%N :: t). change (startsWith "," (44%N :: _)) with true. cbn iota.
    change (drop 1 (44%N :: ?t)) with t.
    assert (starts_value (js_join "," (member_text y :: map member_text l))) as Hs
      by (destruct l; done).
    rewrite starts_value_skip by done. rewrite obj_set_fresh by done.
    rewrite (IH ltac:(done) HR HJ); [by rewrite <-app_assoc| |lia].
    by rewrite <-app_assoc.
Qed.

Lemma parse_value_number s c r n :
  is_digit c = true ∨ c = 45%N → parse_value (S n) ((c :: s) ++ r) =
    ('(x, rest) ← parse_number ((c :: s) ++ r); Some (VNum x, rest)).
Proof.
  intros Hc. apply number_head_ok in Hc. cbn [parse_value app startsWith].
  rewrite (proj2 (N.eqb_neq 110 c)), (proj2 (N.eqb_neq 116 c)), (proj2 (N.eqb_neq 102 c)) by lia.
  rewrite (proj2 (N.eqb_neq c 91)), (proj2 (N.eqb_neq c 123)) by lia. cbn [andb].
  by rewrite (proj2 (N.eqb_neq c QUOTE)) by (unfold QUOTE; lia).
Qed.

(** A composite value: its bracket, its items, and the bracket that closes it. *)
Lemma parse_array n s r :
  starts_value s → parse_value (S n) (("[" ++ s) ++ r) = parse_items n [] (s ++ r).
Proof.
  intros Hs. change (("[" ++ s) ++ r) with (91%N :: (s ++ r)). cbn [parse_value].
  change (startsWith "null" (91%N :: _)) with false. change (startsWith "true" (91%N :: _)) with false. change (startsWith "false" (91%N :: _)) with false. change (91 =? QUOTE)%N with false. change (91 =? 91)%N with true.
  cbn iota zeta. rewrite starts_value_skip by done. by rewrite (proj1 (starts_value_not s r Hs)).
Qed.

Lemma parse_object n s r :
  starts_value s → parse_value (S n) (("{" ++ s) ++ r) = parse_members n [] (s ++ r).
Proof.
  intros Hs. change (("{" ++ s) ++ r) with (123%N :: (s ++ r)). cbn [parse_value].
  change (startsWith "null" (123%N :: _)) with false. change (startsWith "true" (123%N :: _)) with false. change (startsWith "false" (123%N :: _)) with false. change (123 =? QUOTE)%N with false.
  change (123 =? 91)%N with false. change (123 =? 123)%N with true.
  cbn iota zeta. rewrite starts_value_skip by done. by rewrite (proj2 (starts_value_not s r Hs)).
Qed.

Lemma join_starts x l t : starts_value x → starts_value (js_join "," (x :: l) ++ t).
Proof. destruct x; [done|]. by destruct l. Qed.

Lemma json_text_reads v : reads v.
Proof.
  induction v using jsval_nested_ind; intros k r Hv Hk Hr; try done; cbn [json_text] in *.
  - by destruct k; [simpl in Hk; lia|].
  - destruct b; destruct k; [simpl in Hk; lia|done|simpl in Hk; lia|done].
  - destruct n; try done. destruct (string_of_dec_head m e Hv) as (c & s & E & Hc).
    destruct k as [|k]; [rewrite E in Hk; simpl in Hk; lia|].
    rewrite E, parse_value_number, <-E, parse_number_dec by done. done.
  - destruct k as [|k]; [unfold json_quote in Hk; simpl in Hk; lia|].
    rewrite json_quote_app. cbn [parse_value].
    change (startsWith "null" (QUOTE :: _)) with false. change (startsWith "true" (QUOTE :: _)) with false.
    change (startsWith "false" (QUOTE :: _)) with false. rewrite N.eqb_refl.
    by rewrite parse_string_quoted.
  - apply json_data_arr in Hv. destruct k as [|k]; [simpl in Hk; lia|]. destruct l as [|x l]; [done|].
    rewrite !length_app in Hk. change (length "[") with 1 in Hk. rewrite parse_array, <-app_assoc.
    + apply parse_items_text; try done. lia.
    + apply join_starts, json_text_starts. by apply Forall_cons in Hv as [Hv _].
  - apply json_data_obj in Hv as [Hnd Hv]. destruct k as [|k]; [simpl in Hk; lia|]. destruct l as [|x l]; [done|].
    change (λ kv, json_quote kv.1 ++ ":" ++ json_text kv.2) with member_text in *.
    rewrite !length_app in Hk. change (length "{") with 1 in Hk. rewrite parse_object, <-app_assoc.
    + apply parse_members_text; try done. lia.
    + by apply join_starts.
Qed.

(** What [JSON.stringify] writes for JSON data, [JSON.parse] reads back. *)
Lemma JSON_parse_text v : json_data v → JSON_parse (json_text v) = Some v.
Proof.
  intros Hv. unfold JSON_parse. pose proof (starts_value_skip (json_text v) [] (json_text_starts v Hv)) as H.
  rewrite app_nil_r in H. rewrite H. pose proof (json_text_reads v (2 * S (length (json_text v))) [] Hv) as Hp.
  rewrite app_nil_r in Hp. rewrite Hp by (done || lia). done.
Qed.

Lemma JSON_roundtrip v : json_data v → ∃ s, JSON_stringify v = Return (Some s) ∧ JSON_parse s = Some v.
Proof. intros Hv. exists (json_text v). split; [by apply stringify_json|by apply JSON_parse_text]. Qed.
