(* ===== verification/QueryKey.v ===== *)
(** * Query keys

    Models [lib/api/core/queryKeySerializer.gen.ts]: how any value becomes JSON
    data that identifies a query.  [localeCompare] is the platform's. *)

From S2P Require Import Prelude JsString JsValue Json JsonSpec.

(** ** The source *)

(** The language calls [toJSON] before the replacer, so the replacer itself sees no date that
    [JSON.stringify] hands it. *)
Definition queryKeyJsonReplacer (value : jsval) : replacement :=
  match value with
  | VUndefined | VFun _ | VSymbol => RUndefined
  | VBigInt z => RString (string_of_Z z)
  | VDate (Some iso) _ => RString iso
  | VDate None _ => RThrow js_range_error
  | _ => RKeep
  end.

(** [None] is [undefined]; whatever throws is caught. *)
Definition stringifyToJsonValue (input : jsval) : option jsval :=
  match stringify_with queryKeyJsonReplacer input with
  | Throw _ => None
  | Return None => None
  | Return (Some json) => JSON_parse json
  end.

Definition isPlainObject (value : jsval) : bool :=
  match value with VObj _ => true | _ => false end.

Section serializer.
Context (localeCompare : jstr → jstr → comparison).

(** [entries.sort(([a], [b]) => a.localeCompare(b))], which is stable. *)
Fixpoint insert_entry (e : jstr * jstr) (l : list (jstr * jstr)) : list (jstr * jstr) :=
  match l with
  | [] => [e]
  | x :: r => match localeCompare e.1 x.1 with Gt => x :: insert_entry e r | _ => e :: l end
  end.

Fixpoint sort_entries (l : list (jstr * jstr)) : list (jstr * jstr) :=
  match l with [] => [] | e :: r => insert_entry e (sort_entries r) end.

(** What [{}] inherits: [result[key]] is not [undefined] for these names. ([__proto__], whose
    assignment changes the prototype, is left out.) *)
Definition object_prototype : list jstr :=
  ["constructor"; "hasOwnProperty"; "isPrototypeOf"; "propertyIsEnumerable"; "toLocaleString";
   "toString"; "valueOf"; "__defineGetter__"; "__defineSetter__"; "__lookupGetter__"; "__lookupSetter__"].

Definition result_get (key : jstr) (result : list (jstr * jsval)) : jsval :=
  match obj_get key result with
  | Some v => v
  | None => if existsb (jeqb key) object_prototype then VFun key else VUndefined
  end.

Definition add_entry (result : list (jstr * jsval)) (e : jstr * jstr) : list (jstr * jsval) :=
  match result_get e.1 result with
  | VUndefined => obj_set e.1 (VStr e.2) result
  | VArr existing => obj_set e.1 (VArr (existing ++ [VStr e.2])) result
  | existing => obj_set e.1 (VArr [existing; VStr e.2]) result
  end.

Definition serializeSearchParams (params : list (jstr * jstr)) : jsval :=
  VObj (foldl add_entry [] (sort_entries params)).

Definition serializeQueryKeyValue (value : jsval) : outcome jsval (option jsval) :=
  match value with
  | VNull => Return (Some VNull)
  | VStr _ | VNum _ | VBool _ => Return (Some value)
  | VUndefined | VFun _ | VSymbol => Return None
  | VBigInt z => Return (Some (VStr (string_of_Z z)))
  | VDate (Some iso) _ => Return (Some (VStr iso))
  | VDate None _ => Throw js_range_error
  | VArr _ => Return (stringifyToJsonValue value)
  | VSearchParams params => Return (Some (serializeSearchParams params))
  | _ => if isPlainObject value then Return (stringifyToJsonValue value) else Return None
  end.
End serializer.

(** ** What a key is *)

(** The JSON data a value stands for: bigints and dates as strings, no [undefined], function or
    symbol (an item of an array becomes [null], a property is left out), no [NaN] or infinity, any
    other object by its properties. *)
Fixpoint json_of (v : jsval) : option jsval :=
  match v with
  | VUndefined | VFun _ | VSymbol => None
  | VNum (Dec _ _) | VNull | VBool _ | VStr _ => Some v
  | VNum _ | VDate None _ => Some VNull
  | VBigInt z => Some (VStr (string_of_Z z))
  | VDate (Some iso) _ => Some (VStr iso)
  | VArr l => Some (VArr (map (λ x, default VNull (json_of x)) l))
  | VObj l | VInstance l =>
      Some (VObj (flat_map (λ kv, match json_of kv.2 with Some x => [(kv.1, x)] | None => [] end) l))
  | VSearchParams _ | VBlob _ => Some (VObj [])
  end.

(** ** Facts *)

(** The members of an object, printed one by one. *)
Lemma members_text (l : list (jstr * jsval)) :
  Forall (λ kv, stringify_with queryKeyJsonReplacer kv.2 = Return (json_text <$> json_of kv.2)) l →
  (fix go (l : list (jstr * jsval)) : outcome jsval (list jstr) :=
     match l with
     | [] => Return []
     | (k, x) :: r =>
         match stringify_with queryKeyJsonReplacer x with
         | Throw e => Throw e
         | Return o =>
             match go r with
             | Throw e => Throw e
             | Return ss => Return (match o with
                                    | Some s => (json_quote k ++ ":" ++ s) :: ss
                                    | None => ss
                                    end)
             end
         end
     end) l
  = Return (map (λ kv, json_quote kv.1 ++ ":" ++ json_text kv.2)
      (flat_map (λ kv, match json_of kv.2 with Some x => [(kv.1, x)] | None => [] end) l)).
Proof.
  induction 1 as [|[k x] r Hx Hr IH]; [done|]. simpl in *. rewrite Hx, IH. by destruct (json_of x).
Qed.

Lemma stringify_json_of v :
  stringify_with queryKeyJsonReplacer v = Return (json_text <$> json_of v).
Proof.
  induction v using jsval_nested_ind; try done; try (by destruct n); try (by destruct d); simpl.
  - match goal with |- match ?go l with _ => _ end = _ => set (g := go) end.
    assert (g l = Return (map (λ x, json_text (default VNull (json_of x))) l)) as ->; [|by rewrite map_map].
    induction H as [|x r Hx Hr IH]; [done|]. unfold g. simpl. rewrite Hx. fold g. rewrite IH.
    by destruct (json_of x).
  - by rewrite members_text.
  - by rewrite members_text.
Qed.

Lemma json_of_data v : json_data v → json_of v = Some v.
Proof.
  induction v using jsval_nested_ind; intros Hv; try done.
  - by destruct n.
  - apply json_data_arr in Hv. cbn [json_of]. do 2 f_equal. induction H as [|x r Hx Hr IH]; [done|].
    apply Forall_cons in Hv as [Jx Jr]. cbn [map]. by rewrite (Hx Jx), IH.
  - apply json_data_obj in Hv as [_ Hv]. cbn [json_of]. do 2 f_equal. induction H as [|[k x] r Hx Hr IH]; [done|].
    apply Forall_cons in Hv as [[_ Jx] Jr]. cbn [flat_map fst snd] in *. by rewrite (Hx Jx), IH.
Qed.

Lemma stringifyToJsonValue_json_of v :
  (∀ c, json_of v = Some c → json_data c) → stringifyToJsonValue v = json_of v.
Proof.
  intros Hv. unfold stringifyToJsonValue. rewrite stringify_json_of.
  destruct (json_of v) as [c|]; [|done]. cbn [fmap option_fmap option_map]. by apply JSON_parse_text, Hv.
Qed.

(** The values whose key is their JSON data: all but search parameters, instances of a class,
    numbers JSON has not and invalid dates. *)
Definition keyable (v : jsval) : bool :=
  match v with
  | VSearchParams _ | VBlob _ | VInstance _ | VDate None _ | VNum NaN | VNum (Infinity _) => false
  | _ => true
  end.

Lemma json_data_keyable c : json_data c → keyable c = true.
Proof. destruct c; try done. by destruct n. Qed.

Lemma serialize_json_of cmp v :
  keyable v = true → (∀ c, json_of v = Some c → json_data c) →
  serializeQueryKeyValue cmp v = Return (json_of v).
Proof.
  intros Hk Hv. destruct v; try done; cbn [serializeQueryKeyValue isPlainObject].
  - by destruct n.
  - by destruct iso.
  - by rewrite stringifyToJsonValue_json_of.
  - by rewrite stringifyToJsonValue_json_of.
Qed.

(** A query key is the JSON data of its value, and JSON data is its own key: bigints and dates
    become strings, what JSON has no notation for is dropped the same way at every depth, and
    nothing is lost or changed by printing and reading the value back. *)
Theorem serializeQueryKeyValue_normal cmp v :
  keyable v = true → (∀ c, json_of v = Some c → json_data c) →
  serializeQueryKeyValue cmp v = Return (json_of v)
  ∧ ∀ c, json_of v = Some c → serializeQueryKeyValue cmp c = Return (Some c).
Proof.
  intros Hk Hv. split; [by apply serialize_json_of|]. intros c Hc. specialize (Hv c Hc).
  rewrite serialize_json_of; rewrite ?(json_of_data c Hv); [done|by apply json_data_keyable|by intros ? [= <-]].
Qed.

Definition example_key : jsval :=
  VArr [VObj [("id"%js, VBigInt 12); ("skip"%js, VUndefined);
              ("q"%js, VArr [VNum (Dec (-15) (-1)); VFun "f"; VStr [34; 55357]%N])]].
Definition example_json : jsval :=
  VArr [VObj [("id"%js, VStr "12"); ("q"%js, VArr [VNum (Dec (-15) (-1)); VNull; VStr [34; 55357]%N])]].

Lemma serializeQueryKeyValue_normal_witness :
  serializeQueryKeyValue (λ _ _, Eq) example_key = Return (Some example_json)
  ∧ ∀ c, json_of example_key = Some c → serializeQueryKeyValue (λ _ _, Eq) c = Return (Some c).
Proof.
  apply (serializeQueryKeyValue_normal (λ _ _, Eq) example_key); [done|].
  intros c [= <-]. cbn. repeat split; try (repeat constructor; done).
  apply NoDup_cons. split; [|apply NoDup_singleton]. apply (bool_decide_unpack _). by vm_compute.
Defined.

Example search_params_key :
  serializeSearchParams (λ a b, match a, b with x :: _, y :: _ => N.compare x y | _, _ => Eq end)
    [("b"%js, "1"%js); ("a"%js, "2"%js); ("b"%js, "3"%js)]
  = VObj [("a"%js, VStr "2"); ("b"%js, VArr [VStr "1"; VStr "3"])].
Proof. reflexivity. Qed.
