(* ===== verification/UrlBuilder.v ===== *)
(** * URLs of requests

    Models [lib/api/core/pathSerializer.gen.ts] (how a parameter becomes text),
    [lib/api/core/utils.gen.ts] ([defaultPathSerializer], [getUrl],
    [getValidRequestBody]) and, of [lib/api/client/utils.gen.ts],
    [createQuerySerializer] and [buildUrl].

    A dynamically typed parameter is a [jsval]; an object read as a map is the
    list of its own properties (no URL of the API names a property of
    [Object.prototype]).  What throws in the source throws the same way here. *)

From S2P Require Import Prelude JsString JsValue Json.

(** ** Styles and separators *)

(** [ArrayStyle], [ObjectStyle] and [MatrixStyle] together. *)
Inductive ParamStyle := form | spaceDelimited | pipeDelimited | deepObject | label | matrix | simple.

#[export] Instance ParamStyle_eq_dec : EqDecision ParamStyle.
Proof. solve_decision. Defined.

Definition separatorArrayExplode (style : ParamStyle) : jstr :=
  match style with label => "." | matrix => ";" | simple => "," | _ => "&" end.

Definition separatorArrayNoExplode (style : ParamStyle) : jstr :=
  match style with form => "," | pipeDelimited => "|" | spaceDelimited => "%20" | _ => "," end.

Definition separatorObjectExplode (style : ParamStyle) : jstr :=
  match style with label => "." | matrix => ";" | simple => "," | _ => "&" end.

(** ** Values as text *)

Definition js_uri_error : jsval := VInstance [("name"%js, VStr "URIError")].

(** [encodeURIComponent(v)]: the string conversion throws for a symbol, the encoding for a lone
    surrogate. *)
Definition encode_value (v : jsval) : outcome jsval jstr :=
  match to_js_string v with
  | None => Throw js_type_error
  | Some s => match encodeURIComponent s with
              | None => Throw js_uri_error
              | Some e => Return e
              end
  end.

(** [`${v}`]. *)
Definition template_value (v : jsval) : outcome jsval jstr :=
  match to_js_string v with None => Throw js_type_error | Some s => Return s end.

(** [values.join(sep)]: [null] and [undefined] are written as nothing. *)
Definition join_values (sep : jstr) (l : list jsval) : outcome jsval jstr :=
  js_join sep <$> mapM (λ v, if nullish v then Return [] else template_value v) l.

(** [allowReserved ? v : encodeURIComponent(v)], as a value for [join]. *)
Definition reserved_value (allowReserved : bool) (v : jsval) : outcome jsval jsval :=
  if allowReserved then Return v else VStr <$> encode_value v.

Definition nested_message : jstr :=
  "Deeply-nested arrays/objects aren" ++ [8217%N]
  ++ "t supported. Provide your own `querySerializer()` to handle these.".

Definition js_error (message : jstr) : jsval :=
  VInstance [("name"%js, VStr "Error"); ("message"%js, VStr message)].

Definition serializePrimitiveParam (allowReserved : bool) (name : jstr) (value : jsval)
  : outcome jsval jstr :=
  if nullish value then Return []
  else if typeof_object value then Throw (js_error nested_message)
  else (λ s, name ++ "=" ++ s) <$> (if allowReserved then template_value value else encode_value value).

Definition label_or_matrix (style : ParamStyle) : bool :=
  match style with label | matrix => true | _ => false end.

Definition serializeArrayParam (allowReserved explode : bool) (name : jstr) (style : ParamStyle)
    (value : list jsval) : outcome jsval jstr :=
  if negb explode then
    items ← mapM (reserved_value allowReserved) value;
    joinedValues ← join_values (separatorArrayNoExplode style) items;
    Return (match style with
            | label => "." ++ joinedValues
            | matrix => ";" ++ name ++ "=" ++ joinedValues
            | simple => joinedValues
            | _ => name ++ "=" ++ joinedValues
            end)
  else
    let separator := separatorArrayExplode style in
    items ← mapM (λ v, match style with
                       | label | simple => reserved_value allowReserved v
                       | _ => VStr <$> serializePrimitiveParam allowReserved name v
                       end) value;
    joinedValues ← join_values separator items;
    Return (if label_or_matrix style then separator ++ joinedValues else joinedValues).

(** [Object.entries(v)] of a value that is not a string. *)
Definition object_entries (v : jsval) : list (jstr * jsval) :=
  match v with
  | VObj l | VInstance l => l
  | VArr l => imap (λ i x, (digits_of_N (N.of_nat i), x)) l
  | _ => []
  end.

(** The arguments [style] and [explode] matter for an object that is not a date. *)
Definition serializeObjectParam (allowReserved explode : bool) (name : jstr) (style : ParamStyle)
    (value : jsval) (valueOnly : bool) : outcome jsval jstr :=
  match value with
  | VDate iso _ =>
      match iso with
      | None => Throw js_range_error
      | Some iso => Return (if valueOnly then iso else name ++ "=" ++ iso)
      end
  | _ =>
      if bool_decide (style ≠ deepObject) && negb explode then
        values ← mapM (λ kv, v ← reserved_value allowReserved kv.2; Return [VStr kv.1; v])
                      (object_entries value);
        joinedValues ← join_values "," (concat values);
        Return (match style with
                | form => name ++ "=" ++ joinedValues
                | label => "." ++ joinedValues
                | matrix => ";" ++ name ++ "=" ++ joinedValues
                | _ => joinedValues
                end)
      else
        let separator := separatorObjectExplode style in
        items ← mapM (λ kv,
                  serializePrimitiveParam allowReserved
                    (if bool_decide (style = deepObject) then name ++ "[" ++ kv.1 ++ "]" else kv.1) kv.2)
                  (object_entries value);
        let joinedValues := js_join separator items in
        Return (if label_or_matrix style then separator ++ joinedValues else joinedValues)
  end.

(** ** Path parameters *)

Definition LBRACE : N := 123.
Definition RBRACE : N := 125.

(** [url.match(PATH_PARAM_RE)], [/\{[^{}]+\}/g]: [open] is the text since the last brace, when
    that brace opened. *)
Fixpoint scan_params (open : option jstr) (s : jstr) : list jstr :=
  match s with
  | [] => []
  | c :: r =>
      if (c =? LBRACE)%N then scan_params (Some []) r
      else if (c =? RBRACE)%N then
        match open with
        | Some (x :: w) => (LBRACE :: (x :: w) ++ [RBRACE]) :: scan_params None r
        | _ => scan_params None r
        end
      else scan_params (option_map (λ w, w ++ [c]) open) r
  end.

Definition PATH_PARAM_RE (url : jstr) : list jstr := scan_params None url.

(** The name, style and [explode] flag a placeholder declares. *)
Definition param_spec (name : jstr) : bool * jstr * ParamStyle :=
  let '(explode, name) :=
    if endsWith "*" name then (true, removelast name) else (false, name) in
  if startsWith "." name then (explode, drop 1 name, label)
  else if startsWith ";" name then (explode, drop 1 name, matrix)
  else (explode, name, simple).

(** One turn of the loop over the matches. *)
Definition replace_param (path : list (jstr * jsval)) (url matched : jstr) : outcome jsval jstr :=
  let '(explode, name, style) := param_spec (js_slice 1 (Z.of_nat (length matched) - 1) matched) in
  let value := default VUndefined (obj_get name path) in
  if nullish value then Return url else
  match value with
  | VArr l => s ← serializeArrayParam false explode name style l; Return (js_replace matched s url)
  | _ =>
      if typeof_object value then
        s ← serializeObjectParam false explode name style value true; Return (js_replace matched s url)
      else if bool_decide (style = matrix) then
        s ← serializePrimitiveParam false name value; Return (js_replace matched (";" ++ s) url)
      else
        s ← (if bool_decide (style = label)
             then t ← template_value value; encode_value (VStr ("." ++ t))
             else encode_value value);
        Return (js_replace matched s url)
  end.

Fixpoint replace_params (path : list (jstr * jsval)) (url : jstr) (matches : list jstr)
  : outcome jsval jstr :=
  match matches with
  | [] => Return url
  | m :: r => url ← replace_param path url m; replace_params path url r
  end.

Definition defaultPathSerializer (path : list (jstr * jsval)) (url : jstr) : outcome jsval jstr :=
  replace_params path url (PATH_PARAM_RE url).

(** ** The query *)

(** [QuerySerializerOptionsObject]; an absent setting is [None]. *)
Record QuerySerializerOptionsObject := QueryOptions {
  allowReserved : bool;
  array_explode : option bool;
  array_style : option ParamStyle;
  object_explode : option bool;
  object_style : option ParamStyle;
}.

Record QuerySerializerOptions := QuerySettings {
  args : QuerySerializerOptionsObject;
  parameters : list (jstr * QuerySerializerOptionsObject);
}.

Definition query_part (o : QuerySerializerOptions) (name : jstr) (value : jsval)
  : outcome jsval jstr :=
  let options := default (args o) (obj_get name (parameters o)) in
  match value with
  | VArr l => serializeArrayParam (allowReserved options) (default true (array_explode options)) name
                (default form (array_style options)) l
  | _ =>
      if typeof_object value
      then serializeObjectParam (allowReserved options) (default true (object_explode options)) name
             (default deepObject (object_style options)) value false
      else serializePrimitiveParam (allowReserved options) name value
  end.

(** The loop over the parameters: the parts that are not empty. *)
Fixpoint query_parts (o : QuerySerializerOptions) (query : list (jstr * jsval))
  : outcome jsval (list jstr) :=
  match query with
  | [] => Return []
  | (name, value) :: r =>
      if nullish value then query_parts o r else
      part ← query_part o name value;
      rest ← query_parts o r;
      Return (match part with [] => rest | _ => part :: rest end)
  end.

Definition createQuerySerializer (o : QuerySerializerOptions) (queryParams : list (jstr * jsval))
  : outcome jsval jstr :=
  js_join "&" <$> query_parts o queryParams.

(** [createQuerySerializer()] with no settings. *)
Definition default_settings : QuerySerializerOptions :=
  QuerySettings (QueryOptions false None None None None) [].

Definition defaultQuerySerializer : list (jstr * jsval) → outcome jsval jstr :=
  createQuerySerializer
    (QuerySettings (QueryOptions false (Some true) (Some form) (Some true) (Some deepObject)) []).

(** ** The URL *)

Record UrlOptions := mkUrlOptions {
  url_baseUrl : option jstr;
  url_path : option (list (jstr * jsval));
  url_query : option (list (jstr * jsval));
  url_querySerializer : list (jstr * jsval) → outcome jsval jstr;
  url_url : jstr;
}.

Definition getUrl (o : UrlOptions) : outcome jsval jstr :=
  let pathUrl := if startsWith "/" (url_url o) then url_url o else "/" ++ url_url o in
  let url := default [] (url_baseUrl o) ++ pathUrl in
  url ← match url_path o with Some path => defaultPathSerializer path url | None => Return url end;
  search ← match url_query o with Some query => url_querySerializer o query | None => Return [] end;
  let search := if startsWith "?" search then drop 1 search else search in
  Return (match search with [] => url | _ => url ++ "?" ++ search end).

(** [options.querySerializer] of [buildUrl]: a function, or the settings of one. *)
Inductive query_serializer_option :=
| SerializerFunction (f : list (jstr * jsval) → outcome jsval jstr)
| SerializerSettings (o : QuerySerializerOptions).

Definition buildUrl (baseUrl : option jstr) (path query : option (list (jstr * jsval)))
    (serializer : query_serializer_option) (url : jstr) : outcome jsval jstr :=
  getUrl (mkUrlOptions baseUrl path query
            match serializer with
            | SerializerFunction f => f
            | SerializerSettings o => createQuerySerializer o
            end url).

(** ** The body *)

(** [serializedBody] is [None] when the options have no such property. *)
Definition getValidRequestBody (body : jsval) (has_bodySerializer : bool)
    (serializedBody : option jsval) : jsval :=
  let hasBody := negb (is_undefined body) in
  let empty v := match v with VStr s => s =js "" | _ => false end in
  if hasBody && has_bodySerializer then
    match serializedBody with
    | Some s => if is_undefined s || empty s then VNull else s
    | None => if empty body then VNull else body
    end
  else if hasBody then body
  else VUndefined.

Example path_example :
  defaultPathSerializer [("execution_id"%js, VStr "a/b$&")] "/api/v1/executions/{execution_id}/result"
  = Return "/api/v1/executions/a%2Fb%24%26/result".
Proof. vm_compute. reflexivity. Qed.
Example query_example :
  defaultQuerySerializer [("limit"%js, VInt 20); ("types"%js, VArr [VStr "a b"; VNull; VStr "c"]);
                          ("none"%js, VNull); ("f"%js, VObj [("x"%js, VBool true)])]
  = Return "limit=20&types=a%20b&&types=c&f[x]=true".
Proof. vm_compute. reflexivity. Qed.
