(* ===== verification/UrlSpec.v ===== *)
(** * URLs: what the server reads back

    A server's reading of a request URL (match the path against the route,
    decode its parameters, split and decode the query) and the theorem that it
    recovers from the URL [buildUrl] writes exactly the parameters of the call:
    no value can add a path segment, a parameter or a fragment. *)

From S2P Require Import Prelude JsString Uri JsValue UrlBuilder.

(** ** The server's side *)

Inductive segment := Lit (s : jstr) | Param (name : jstr).

Definition render_segment (s : segment) : jstr :=
  match s with Lit s => s | Param n => LBRACE :: n ++ [RBRACE] end.
(** The URL template of a route, as the SDK writes it: [/api/v1/executions/{execution_id}]. *)
Definition render_route (segs : list segment) : jstr :=
  concat (map (λ s, "/" ++ render_segment s) segs).

Fixpoint match_pieces (segs : list segment) (pieces : list jstr) : option (list (jstr * jstr)) :=
  match segs, pieces with
  | [], [] => Some []
  | Lit s :: segs, p :: ps => if s =js p then match_pieces segs ps else None
  | Param n :: segs, p :: ps =>
      if p =js "" then None
      else text ← decode_component p; rest ← match_pieces segs ps; Some ((n, text) :: rest)
  | _, _ => None
  end.

Definition match_route (segs : list segment) (path : jstr) : option (list (jstr * jstr)) :=
  match js_split "/" path with
  | p :: pieces => if p =js "" then match_pieces segs pieces else None
  | [] => None
  end.

(** The text before the first [c], and the text after it when there is one. *)
Definition cut (c : N) (s : jstr) : jstr * option jstr :=
  match find_sub [c] s with Some (a, b) => (a, Some b) | None => (s, None) end.

Definition parse_pair (p : jstr) : option (list (jstr * jstr)) :=
  match p with
  | [] => Some []
  | _ => let '(n, v) := cut 61 p in
         n ← decode_component n; v ← decode_component (default [] v); Some [(n, v)]
  end.

Definition parse_query (s : jstr) : option (list (jstr * jstr)) :=
  @concat _ <$> mapM parse_pair (js_split "&" s).

(** A request URL (after the origin): the fragment is not sent, then the path and the query. *)
Definition read_request (segs : list segment) (url : jstr)
  : option (list (jstr * jstr) * list (jstr * jstr)) :=
  let '(target, _) := cut 35 url in
  let '(path, query) := cut 63 target in
  params ← match_route segs path; args ← parse_query (default [] query); Some (params, args).

(** ** Parameters the API has *)

(** A string, number, boolean or bigint, and its text. *)
Definition scalar_text (v : jsval) : option jstr :=
  match v with VStr _ | VNum _ | VBool _ | VBigInt _ => to_js_string v | _ => None end.

Definition text_ok (s : jstr) : Prop := well_formed s.
Definition scalar_ok (v : jsval) : Prop := ∃ s, scalar_text v = Some s ∧ text_ok s.

Definition no_braces (s : jstr) : Prop := (LBRACE ∉ s) ∧ (RBRACE ∉ s).
Definition in_path (s : jstr) : Prop := no_braces s ∧ (47%N ∉ s) ∧ (63%N ∉ s) ∧ (35%N ∉ s).

(** A placeholder [{name}] with no style marker, a literal with no delimiter. *)
Definition segment_ok (s : segment) : Prop :=
  match s with
  | Lit s => in_path s
  | Param n => no_braces n ∧ n ≠ [] ∧ param_spec n = (false, n, simple)
  end.

(** The values of a path's placeholders: scalars that are not empty. *)
Definition path_values (segs : list segment) (path : list (jstr * jsval)) : option (list (jstr * jstr)) :=
  @concat _ <$> mapM (λ s, match s with
                        | Lit _ => Some []
                        | Param n => v ← obj_get n path; t ← scalar_text v; Some [(n, t)]
                        end) segs.

Definition name_char (c : N) : Prop := uri_unreserved c = true ∨ c = 91%N ∨ c = 93%N.
Definition query_name (n : jstr) : Prop := Forall name_char n.

Definition query_value_ok (v : jsval) : Prop :=
  match v with
  | VArr l => Forall (λ x, nullish x = true ∨ scalar_ok x) l
  | VObj l => Forall (λ kv, query_name kv.1 ∧ (nullish kv.2 = true ∨ scalar_ok kv.2)) l
  | _ => nullish v = true ∨ scalar_ok v
  end.

Definition query_ok (q : list (jstr * jsval)) : Prop :=
  Forall (λ kv, query_name kv.1 ∧ query_value_ok kv.2) q.

(** The pairs a query stands for: an array repeats its name, an object has a name per property,
    [null] and [undefined] are left out. *)
Definition scalar_pair (n : jstr) (v : jsval) : list (jstr * jstr) :=
  match scalar_text v with Some t => [(n, t)] | None => [] end.
Definition value_pairs (n : jstr) (v : jsval) : list (jstr * jstr) :=
  match v with
  | VArr l => flat_map (scalar_pair n) l
  | VObj l => flat_map (λ kv, scalar_pair (n ++ "[" ++ kv.1 ++ "]") kv.2) l
  | _ => scalar_pair n v
  end.
Definition query_pairs (q : list (jstr * jsval)) : list (jstr * jstr) :=
  flat_map (λ kv, value_pairs kv.1 kv.2) q.

(** ** Searching for one character *)

Lemma find_sub_first c p s t : c ∉ s → find_sub (c :: p) (s ++ (c :: p) ++ t) = Some (s, t).
Proof.
  induction s as [|d s IH]; intros H.
  - change ([] ++ (c :: p) ++ t) with ((c :: p) ++ t).
    destruct ((c :: p) ++ t) eqn:E; [done|]. rewrite <-E. cbn [find_sub]. rewrite E.
    cbn [find_sub]. rewrite <-E, startsWith_app, drop_app_length. done.
  - apply not_elem_of_cons in H as [Hd Hs].
    change ((d :: s) ++ (c :: p) ++ t) with (d :: (s ++ (c :: p) ++ t)).
    rewrite find_sub_cons, IH; [done|done|]. cbn [startsWith]. by rewrite (proj2 (N.eqb_neq c d) Hd).
Qed.

Lemma find_sub_absent c s : c ∉ s → find_sub [c] s = None.
Proof.
  induction s as [|d s IH]; intros H; [done|]. apply not_elem_of_cons in H as [Hd Hs].
  rewrite find_sub_cons, IH; [done|done|]. cbn [startsWith]. by rewrite (proj2 (N.eqb_neq c d) Hd).
Qed.

Lemma find_sub_one_None c s : find_sub [c] s = None → c ∉ s.
Proof.
  induction s as [|d s IH]; intros H; [apply not_elem_of_nil|].
  cbn [find_sub startsWith] in H. destruct (c =? d)%N eqn:E; [done|]. apply N.eqb_neq in E.
  destruct (find_sub [c] s) as [[? ?]|] eqn:F; [done|]. apply not_elem_of_cons; auto.
Qed.

Lemma find_sub_char c s t : c ∉ s → find_sub [c] (s ++ c :: t) = Some (s, t).
Proof. exact (find_sub_first c [] s t). Qed.

Lemma cut_at c s t : c ∉ s → cut c (s ++ c :: t) = (s, Some t).
Proof. intros H. unfold cut. by rewrite find_sub_char. Qed.

Lemma cut_none c s : c ∉ s → cut c s = (s, None).
Proof. intros H. unfold cut. by rewrite find_sub_absent. Qed.

(** Splitting at a character distributes over text joined by it. *)
Lemma js_split_char_app c s t : js_split [c] (s ++ c :: t) = js_split [c] s ++ js_split [c] t.
Proof.
  remember (length s) as n eqn:Hn. revert s Hn. induction n as [n IH] using lt_wf_ind; intros s ->.
  rewrite (js_split_eq [c] s) by done. destruct (find_sub [c] s) as [[a b]|] eqn:E.
  - rewrite js_split_eq by done. rewrite (find_sub_app _ _ (c :: t) _ _ E).
    apply find_sub_shorter in E; [|done]. by rewrite (IH (length b) E b eq_refl).
  - apply find_sub_one_None in E. rewrite js_split_eq by done.
    by rewrite find_sub_char.
Qed.

Lemma js_split_char_id c s : c ∉ s → js_split [c] s = [s].
Proof. intros H. rewrite js_split_eq by done. by rewrite find_sub_absent. Qed.

(** ** The path *)

Lemma no_braces_app s t : no_braces s → no_braces t → no_braces (s ++ t).
Proof. intros [Hl Hr] [Hl' Hr']. split; rewrite elem_of_app; intros []; done. Qed.

Lemma no_braces_slash : no_braces "/".
Proof. split; apply (bool_decide_unpack _); vm_compute; done. Qed.

#[local] Hint Resolve no_braces_app no_braces_slash : core.

Lemma scan_plain o s r : no_braces s → scan_params o (s ++ r) = scan_params (option_map (λ w, w ++ s) o) r.
Proof.
  revert o. induction s as [|c s IH]; intros o [Hl Hr].
  - destruct o; simpl; by rewrite ?app_nil_r.
  - apply not_elem_of_cons in Hl as [Hl Hls], Hr as [Hr Hrs].
    cbn [app scan_params]. rewrite (proj2 (N.eqb_neq c LBRACE)), (proj2 (N.eqb_neq c RBRACE)) by congruence.
    rewrite IH by done. destruct o; simpl; [by rewrite <-app_assoc|done].
Qed.

Definition placeholder (s : segment) : list jstr :=
  match s with Lit _ => [] | Param n => [LBRACE :: n ++ [RBRACE]] end.

Lemma scan_route s segs :
  no_braces s → Forall segment_ok segs →
  PATH_PARAM_RE (s ++ render_route segs) = flat_map placeholder segs.
Proof.
  unfold PATH_PARAM_RE. intros Hs Hsegs. rewrite scan_plain by done. simpl option_map. clear Hs.
  induction Hsegs as [|x segs Hx Hsegs IH]; [done|].
  unfold render_route. cbn [map concat flat_map]. fold (render_route segs).
  rewrite <-app_assoc, scan_plain by auto.
  destruct x as [l|n]; cbn [render_segment placeholder option_map] in *.
  - rewrite scan_plain by apply Hx. done.
  - destruct Hx as (Hb & Hne & _). rewrite <-app_comm_cons, <-app_assoc. cbn [scan_params].
    rewrite N.eqb_refl, scan_plain by done. cbn [option_map app scan_params].
    change (RBRACE =? LBRACE)%N with false. rewrite N.eqb_refl.
    destruct n as [|c n]; [done|]. by rewrite IH.
Qed.

Lemma placeholder_name (n : jstr) :
  js_slice 1 (Z.of_nat (length (LBRACE :: n ++ [RBRACE])) - 1) (LBRACE :: n ++ [RBRACE]) = n.
Proof.
  unfold js_slice. cbn [length]. rewrite length_app. cbn [length].
  assert (∀ i l, (0 <= i <= l)%Z → slice_index l i = i) as Hi
    by (intros i l H; unfold slice_index; case_match; lia).
  rewrite !Hi by lia. destruct (1 <? _)%Z eqn:E.
  - change (drop (Z.to_nat 1) (LBRACE :: n ++ [RBRACE])) with (n ++ [RBRACE]).
    replace (Z.to_nat _) with (length n) by lia. apply take_app_length.
  - assert (length n = 0) as H by lia. by apply nil_length_inv in H as ->.
Qed.

Lemma scalar_text_inv v t :
  scalar_text v = Some t →
  nullish v = false ∧ typeof_object v = false ∧ to_js_string v = Some t ∧ ∀ l, v ≠ VArr l.
Proof. destruct v; simpl; intros; try done; simplify_eq; done. Qed.

Lemma encode_wf t : text_ok t → ∃ e, encodeURIComponent t = Some e.
Proof. intros [_ [cps H]]. rewrite encode_code_points, H. simpl. eauto. Qed.

Lemma encoded_plain t e : text_ok t → encodeURIComponent t = Some e → in_path e ∧ Forall (λ c, c ≠ DOLLAR) e.
Proof.
  intros [Hwf _] He. assert (∀ c, c ∈ url_delimiters → c ∉ e) as H
    by (intros c; by apply (encode_no_delimiter t)).
  split; [repeat split; apply H; apply (bool_decide_unpack _); vm_compute; done|].
  apply Forall_forall. intros c Hc ->. by apply (H DOLLAR); [apply (bool_decide_unpack _); vm_compute|].
Qed.

Lemma encode_nonempty t e : text_ok t → encodeURIComponent t = Some e → t ≠ [] → e ≠ [].
Proof.
  intros [Hwf _] He Ht ->. apply decode_encode in He; [|done]. vm_compute in He. congruence.
Qed.

(** One placeholder is filled in with the encoded value, wherever it first is. *)
Lemma replace_scalar path s n v t e rest :
  no_braces s → segment_ok (Param n) → obj_get n path = Some v → scalar_text v = Some t →
  text_ok t → encodeURIComponent t = Some e →
  replace_param path (s ++ (LBRACE :: n ++ [RBRACE]) ++ rest) (LBRACE :: n ++ [RBRACE])
  = Return (s ++ e ++ rest).
Proof.
  intros Hs (Hn & Hne & Hspec) Hget Ht Hok He.
  destruct (scalar_text_inv _ _ Ht) as (Hnull & Hobj & Hstr & Harr).
  unfold replace_param. rewrite placeholder_name, Hspec, Hget. cbn [from_option id].
  rewrite Hnull, Hobj. rewrite bool_decide_eq_false_2 by done.
  assert (encode_value v = Return e) as Henc by (unfold encode_value; by rewrite Hstr, He).
  assert (∀ m, m = LBRACE :: n ++ [RBRACE] → js_replace m e (s ++ m ++ rest) = s ++ e ++ rest) as Hrep.
  { intros m ->. unfold js_replace. rewrite find_sub_first by apply Hs.
    by rewrite expand_replacement_plain by apply (encoded_plain t e Hok He). }
  destruct v; try done; cbn [bool_decide mbind outcome_bind];
    (rewrite bool_decide_eq_false_2 by done); rewrite Henc; cbn [mbind outcome_bind]; by rewrite Hrep.
Qed.

(** The path with its placeholders filled in. *)
Fixpoint fill_route (segs : list segment) (values : list (jstr * jstr)) : jstr :=
  match segs, values with
  | Lit s :: segs, _ => "/" ++ s ++ fill_route segs values
  | Param _ :: segs, (_, t) :: values => "/" ++ default [] (encodeURIComponent t) ++ fill_route segs values
  | _, _ => []
  end.

Definition values_ok (values : list (jstr * jstr)) : Prop := Forall (λ nt, text_ok nt.2 ∧ nt.2 ≠ []) values.

Lemma path_values_cons x segs path vs :
  path_values (x :: segs) path = Some vs →
  ∃ ws, path_values segs path = Some ws ∧
    match x with
    | Lit _ => vs = ws
    | Param n => ∃ v t, obj_get n path = Some v ∧ scalar_text v = Some t ∧ vs = (n, t) :: ws
    end.
Proof.
  unfold path_values. cbn [mapM]. destruct x as [s|n]; cbn [mbind option_bind].
  - destruct (mapM _ segs) as [l|]; [|done]. intros [= <-]. eexists. done.
  - destruct (obj_get n path) as [v|]; [|done]. cbn [mbind option_bind].
    destruct (scalar_text v) as [t|] eqn:Ht; [|done]. cbn [mbind option_bind].
    destruct (mapM _ segs) as [l|]; [|done]. intros [= <-]. eexists. split; [done|]. eauto.
Qed.

Lemma replace_route path segs vs s :
  no_braces s → Forall segment_ok segs → path_values segs path = Some vs → values_ok vs →
  replace_params path (s ++ render_route segs) (flat_map placeholder segs)
  = Return (s ++ fill_route segs vs).
Proof.
  intros Hs Hsegs. revert s vs Hs. induction Hsegs as [|x segs Hx Hsegs IH]; intros s vs Hs Hvs Hok; [done|].
  apply path_values_cons in Hvs as (ws & Hws & Hvs).
  unfold render_route. cbn [map concat flat_map]. fold (render_route segs).
  destruct x as [l|n]; cbn [render_segment placeholder].
  - subst ws. specialize (IH (s ++ "/" ++ l) vs). rewrite <-!app_assoc in IH. rewrite <-app_assoc.
    apply IH; [|done..]. destruct Hx as [Hl _]. auto.
  - destruct Hvs as (v & t & Hget & Ht & ->). apply Forall_cons in Hok as [[Hwf Hne] Hok]. simpl in Hwf, Hne.
    destruct (encode_wf t Hwf) as [e He]. destruct (encoded_plain t e Hwf He) as [[Hbr _] _].
    cbn [app replace_params fill_route]. rewrite He. simpl default.
    change (s ++ 47%N :: LBRACE :: (n ++ [RBRACE]) ++ render_route segs)
      with (s ++ "/" ++ (LBRACE :: n ++ [RBRACE]) ++ render_route segs).
    rewrite (app_assoc s), (replace_scalar path (s ++ "/") n v t e);
      [|by auto|done..].
    cbn [mbind outcome_bind]. rewrite <-!app_assoc.
    specialize (IH (s ++ "/" ++ e) ws). rewrite <-!app_assoc in IH. apply IH; [|done..]. auto.
Qed.

(** The pieces of a filled path. *)
Fixpoint route_pieces (segs : list segment) (values : list (jstr * jstr)) : list jstr :=
  match segs, values with
  | Lit s :: segs, _ => s :: route_pieces segs values
  | Param _ :: segs, (_, t) :: values => default [] (encodeURIComponent t) :: route_pieces segs values
  | _, _ => []
  end.

Lemma route_pieces_ok segs path vs :
  Forall segment_ok segs → path_values segs path = Some vs → values_ok vs →
  fill_route segs vs = concat (map (λ p, "/" ++ p) (route_pieces segs vs))
  ∧ Forall in_path (route_pieces segs vs)
  ∧ match_pieces segs (route_pieces segs vs) = Some vs.
Proof.
  intros Hsegs. revert vs. induction Hsegs as [|x segs Hx Hsegs IH]; intros vs Hvs Hok.
  - by injection Hvs as <-.
  - apply path_values_cons in Hvs as (ws & Hws & Hvs). destruct x as [l|n].
    + subst ws. destruct (IH vs Hws Hok) as (Hf & Hp & Hm).
      cbn [fill_route route_pieces map concat match_pieces]. rewrite Hf, jeqb_refl. split; [done|].
      split; [by constructor|done].
    + destruct Hvs as (v & t & Hget & Ht & ->). apply Forall_cons in Hok as [[Hwf Hne] Hok]. simpl in Hwf, Hne.
      destruct (encode_wf t Hwf) as [e He]. destruct (IH ws Hws Hok) as (Hf & Hp & Hm).
      cbn [fill_route route_pieces map concat match_pieces]. rewrite He. simpl default. rewrite Hf.
      split; [done|]. split; [constructor; [by apply (encoded_plain t)|done]|].
      rewrite (proj2 (jeqb_neq e []) (encode_nonempty t e Hwf He Hne)).
      rewrite (decode_encode t e (proj1 Hwf) He). cbn [mbind option_bind]. by rewrite Hm.
Qed.

Lemma match_route_pieces segs ps :
  Forall in_path ps → ps ≠ [] → match_route segs (concat (map (λ p, "/" ++ p) ps)) = match_pieces segs ps.
Proof.
  intros Hps Hne. unfold match_route.
  assert (js_split "/" (concat (map (λ p, "/" ++ p) ps)) = [] :: ps) as ->; [|done].
  clear Hne. induction ps as [|p ps IH] using rev_ind; [done|].
  apply Forall_app in Hps as [Hps Hp]. apply Forall_cons in Hp as [(_ & Hp & _) _].
  rewrite map_app, concat_app. cbn [map concat]. rewrite app_nil_r.
  change ("/" ++ p) with (47%N :: p).
  by rewrite js_split_char_app, (js_split_char_id 47 p), IH.
Qed.

(** ** The query *)

Lemma option_concat_app {A} (a b : option (list (list A))) :
  @concat A <$> (x ← a; y ← b; Some (x ++ y))
  = (x ← @concat A <$> a; y ← @concat A <$> b; Some (x ++ y)).
Proof. destruct a, b; csimpl; try done. by rewrite concat_app. Qed.

Lemma mapM_app_option {A B} (f : A → option B) l k :
  mapM f (l ++ k) = (x ← mapM f l; y ← mapM f k; Some (x ++ y)).
Proof.
  induction l as [|a l IH].
  - simpl. by destruct (mapM f k).
  - change ((a :: l) ++ k) with (a :: (l ++ k)).
    change (mapM f (a :: (l ++ k))) with (y ← f a; r ← mapM f (l ++ k); Some (y :: r)).
    change (mapM f (a :: l)) with (y ← f a; r ← mapM f l; Some (y :: r)).
    destruct (f a); [|done]. cbn [mbind option_bind]. rewrite IH.
    destruct (mapM f l), (mapM f k); done.
Qed.

(** The server reads the text around an ampersand independently. *)
Lemma parse_query_app s t :
  parse_query (s ++ "&" ++ t) = (x ← parse_query s; y ← parse_query t; Some (x ++ y)).
Proof.
  unfold parse_query. change (s ++ "&" ++ t) with (s ++ 38%N :: t).
  by rewrite js_split_char_app, mapM_app_option, option_concat_app.
Qed.

Lemma parse_query_nil : parse_query [] = Some [].
Proof. done. Qed.

(** Each part read on its own, the parts joined by ampersands are read as all their pairs. *)
Lemma parse_query_join parts pairs :
  Forall2 (λ p w, parse_query p = Some w) parts pairs →
  parse_query (js_join "&" parts) = Some (concat pairs).
Proof.
  induction 1 as [|p w ps ws Hp Hps IH]; [done|].
  destruct ps as [|q ps]; [inversion Hps; subst; simpl; by rewrite app_nil_r|].
  rewrite js_join_cons, parse_query_app, Hp, IH. done.
Qed.

Lemma name_char_plain c : name_char c → (c < 128)%N ∧ c ≠ 37%N ∧ c ∉ ([38; 61; 63; 35]%N : list N).
Proof.
  intros Hc. split; [|split].
  - destruct Hc as [H%unreserved_ascii|[-> | ->]]; lia.
  - intros ->. destruct Hc as [H|[H|H]]; done.
  - intros Hin. repeat (apply elem_of_cons in Hin as [->|Hin]; [by destruct Hc as [|[|]]|]).
    by apply not_elem_of_nil in Hin.
Qed.

Lemma query_name_plain n c : query_name n → c ∈ ([38; 61; 63; 35]%N : list N) → c ∉ n.
Proof.
  intros Hn Hc Hin. apply (proj1 (Forall_forall _ _) Hn) in Hin.
  by destruct (name_char_plain _ Hin) as (_ & _ & ?).
Qed.

Lemma unquote_name n : query_name n → unquote n = Some n.
Proof.
  induction 1 as [|c n Hc Hn IH]; [done|].
  destruct (name_char_plain c Hc) as (Hlt & H37 & _).
  cbn [unquote]. rewrite (proj2 (N.eqb_neq c 37) H37), IH. done.
Qed.

Lemma decode_name n : query_name n → decode_component n = Some n.
Proof.
  intros Hn. unfold decode_component. rewrite unquote_name by done. cbn [mbind option_bind].
  assert (utf8_decode n = Some n ∧ flat_map utf16_of_cp n = n) as [-> Hf]; [|by rewrite <-Hf at 2].
  induction Hn as [|c n Hc Hn IH]; [done|]. destruct IH as [IH1 IH2].
  destruct (name_char_plain c Hc) as (Hlt & _ & _). split.
  - cbn [utf8_decode]. rewrite (proj2 (N.ltb_lt c 128) Hlt), IH1. done.
  - cbn [flat_map]. rewrite IH2. unfold utf16_of_cp. by rewrite (proj2 (N.ltb_lt c 65536)) by lia.
Qed.

Lemma query_name_nested n k : query_name n → query_name k → query_name (n ++ "[" ++ k ++ "]").
Proof.
  intros Hn Hk. unfold query_name in *. rewrite !Forall_app. repeat split; try done.
  all: apply Forall_singleton; unfold name_char; auto.
Qed.

(** One [name=value] part: it is read back, and it does not contain what ends the query. *)
Lemma scalar_part n v :
  query_name n → nullish v = true ∨ scalar_ok v →
  ∃ p, serializePrimitiveParam false n v = Return p ∧ parse_query p = Some (scalar_pair n v)
       ∧ (35%N ∉ p) ∧ (head p ≠ Some 63%N).
Proof.
  intros Hn [Hv|(t & Ht & Hok)].
  - exists []. unfold serializePrimitiveParam, scalar_pair. rewrite Hv.
    destruct v; try done; repeat split; try done; apply not_elem_of_nil.
  - destruct (scalar_text_inv _ _ Ht) as (Hnull & Hobj & Hstr & _).
    destruct (encode_wf t Hok) as [e He]. destruct (encoded_plain t e Hok He) as [(_ & _ & _ & H35) _].
    exists (n ++ "=" ++ e). unfold serializePrimitiveParam, scalar_pair, encode_value.
    rewrite Hnull, Hobj, Hstr, He, Ht. split; [done|].
    assert (38%N ∉ e) as H38 by (apply (encode_no_delimiter t); [apply Hok|done|];
      apply (bool_decide_unpack _); vm_compute; done).
    assert (∀ c, c ∈ ([38; 61; 63; 35]%N : list N) → c ∉ n) as Hc by (intros c; by apply query_name_plain).
    split; [|split].
    + unfold parse_query. rewrite js_split_char_id.
      2: { rewrite !elem_of_app, list_elem_of_singleton. intros [Hin|[Hin|Hin]]; [|done..].
           revert Hin. apply Hc. left. }
      cbn [mapM mbind option_bind]. unfold parse_pair.
      change (n ++ "=" ++ e) with (n ++ 61%N :: e). rewrite cut_at by (apply Hc; right; left).
      cbn [from_option id]. rewrite (decode_name n Hn), (decode_encode t e (proj1 Hok) He).
      destruct n; done.
    + rewrite !elem_of_app, list_elem_of_singleton. intros [Hin|[Hin|Hin]]; [|done..].
      revert Hin. apply Hc. do 3 right. left.
    + destruct n as [|c n]; [done|]. intros [= ->]. apply (Hc 63%N); [do 2 right; left|left].
Qed.

(** The properties of a part of the query that its reader relies on. *)
Definition part_reads (p : jstr) (pairs : list (jstr * jstr)) : Prop :=
  parse_query p = Some pairs ∧ (35%N ∉ p) ∧ (head p ≠ Some 63%N).

Lemma join_no_char c sep l : c ∉ sep → Forall (λ p, c ∉ p) l → c ∉ js_join sep l.
Proof.
  intros Hs. induction 1 as [|p l Hp Hl IH]; [apply not_elem_of_nil|].
  destruct l; [done|]. rewrite js_join_cons, !elem_of_app. intros [?|[?|?]]; done.
Qed.

Lemma part_reads_join parts pairs :
  Forall2 part_reads parts pairs → part_reads (js_join "&" parts) (concat pairs).
Proof.
  intros H. split; [|split].
  - apply parse_query_join. eapply Forall2_impl; [exact H|]. by intros ?? [].
  - apply join_no_char; [apply (bool_decide_unpack _); vm_compute; done|].
    clear -H. induction H as [|p w ps ws (_ & Hp & _) Hps IH]; by constructor.
  - destruct H as [|p w ps ws (_ & _ & Hp) Hps]; [done|].
    destruct ps as [|q ps]; [done|]. rewrite js_join_cons. by destruct p.
Qed.

Lemma mapM_scalar_parts {A} (name : A → jstr) (value : A → jsval) l :
  Forall (λ x, query_name (name x) ∧ (nullish (value x) = true ∨ scalar_ok (value x))) l →
  ∃ parts, mapM (λ x, serializePrimitiveParam false (name x) (value x)) l = Return parts
           ∧ Forall2 part_reads parts (map (λ x, scalar_pair (name x) (value x)) l).
Proof.
  induction 1 as [|x l [Hn Hx] Hl (parts & Hm & Hp)]; [by exists []|].
  destruct (scalar_part _ _ Hn Hx) as (p & Hs & Hr).
  exists (p :: parts). split; [|by constructor].
  apply omapM_Return. apply omapM_Return in Hm. by constructor.
Qed.

Lemma join_values_strings sep (l : list jstr) : join_values sep (map VStr l) = Return (js_join sep l).
Proof.
  unfold join_values. assert (mapM (λ v, if nullish v then Return [] else template_value v) (map VStr l)
                              = (Return l : outcome jsval _)) as ->; [|done].
  apply omapM_Return. induction l; constructor; done.
Qed.

Lemma mapM_fmap_strings {A} (f : A → outcome jsval jstr) l parts :
  mapM f l = Return parts → mapM (λ x, VStr <$> f x) l = Return (map VStr parts).
Proof.
  rewrite !omapM_Return. induction 1 as [|x p l ps H Hs IH]; constructor; [by rewrite H|done].
Qed.

Definition default_options : QuerySerializerOptions :=
  QuerySettings (QueryOptions false (Some true) (Some form) (Some true) (Some deepObject)) [].

(** Each parameter's part is read back as the pairs of the parameter. *)
Lemma query_part_reads n v :
  query_name n → query_value_ok v →
  ∃ p, query_part default_options n v = Return p ∧ part_reads p (value_pairs n v).
Proof.
  intros Hn Hv. unfold query_part.
  change (default (args default_options) _) with (args default_options).
  destruct v as [| |b|m|z|s| |src|iso t|es|b|l|l|l]; cbn [typeof_object];
    try (destruct (scalar_part n _ Hn Hv) as (p & Hp & Hr); exists p; split; [exact Hp|exact Hr]);
    try (by destruct Hv as [|(? & ? & _)]).
  - destruct (mapM_scalar_parts (λ _ : jsval, n) (λ x, x) l) as (parts & Hm & Hr).
    { eapply Forall_impl; [exact Hv|]. auto. }
    exists (js_join "&" parts). split; [|cbn [value_pairs]; rewrite flat_map_concat_map; by apply part_reads_join].
    unfold serializeArrayParam. cbn [negb from_option id allowReserved array_explode array_style args default_options].
    rewrite (mapM_fmap_strings _ _ _ Hm). cbn [mbind outcome_bind].
    by rewrite join_values_strings.
  - destruct (mapM_scalar_parts (λ kv : jstr * jsval, n ++ "[" ++ kv.1 ++ "]") snd l) as (parts & Hm & Hr).
    { eapply Forall_impl; [exact Hv|]. intros [k x] [Hk Hx]. split; [by apply query_name_nested|done]. }
    exists (js_join "&" parts). split; [|cbn [value_pairs]; rewrite flat_map_concat_map; by apply part_reads_join].
    trans (items ← mapM (λ kv, serializePrimitiveParam false (n ++ "[" ++ kv.1 ++ "]") kv.2) l;
           Return (js_join "&" items) : outcome jsval jstr); [reflexivity|]. by rewrite Hm.
Qed.

Lemma query_parts_read q :
  query_ok q →
  ∃ parts, query_parts default_options q = Return parts
           ∧ Forall (λ p, (35%N ∉ p) ∧ head p ≠ Some 63%N) parts
           ∧ parse_query (js_join "&" parts) = Some (query_pairs q).
Proof.
  induction 1 as [|[n v] q [Hn Hv] Hq (parts & Hm & Hall & Hr)]; [by exists []|]. simpl in Hn, Hv.
  unfold query_pairs. cbn [query_parts flat_map fst snd]. fold (query_pairs q).
  destruct (nullish v) eqn:Hnull.
  - exists parts. split; [done|]. split; [done|]. by destruct v.
  - destruct (query_part_reads n v Hn Hv) as (p & Hp & Hpr & Hp35 & Hp63).
    rewrite Hp, Hm. cbn [mbind outcome_bind]. destruct p as [|c p].
    + exists parts. split; [done|]. split; [done|]. rewrite parse_query_nil in Hpr. injection Hpr as <-. done.
    + exists ((c :: p) :: parts). split; [done|]. split; [by constructor|].
      destruct parts as [|p' parts].
      * simpl js_join in *. rewrite Hpr. rewrite parse_query_nil in Hr. injection Hr as <-.
        by rewrite app_nil_r.
      * rewrite js_join_cons, parse_query_app, Hpr, Hr. done.
Qed.

Lemma serializer_reads q :
  query_ok q →
  ∃ s, defaultQuerySerializer q = Return s ∧ part_reads s (query_pairs q).
Proof.
  intros Hq. destruct (query_parts_read q Hq) as (parts & Hm & Hall & Hr).
  exists (js_join "&" parts). unfold defaultQuerySerializer, createQuerySerializer.
  change (QuerySettings _ _) with default_options. rewrite Hm. split; [done|].
  split; [done|]. split.
  - apply join_no_char; [apply (bool_decide_unpack _); vm_compute; done|].
    eapply Forall_impl; [exact Hall|]. by intros ? [].
  - destruct Hall as [|p ps [_ Hp] _]; [done|]. destruct ps; [done|]. rewrite js_join_cons.
    by destruct p.
Qed.

(** ** The whole URL *)

Lemma fill_route_path segs path vs :
  Forall segment_ok segs → path_values segs path = Some vs → values_ok vs →
  (35%N ∉ fill_route segs vs) ∧ (63%N ∉ fill_route segs vs).
Proof.
  intros Hsegs Hvs Hok. destruct (route_pieces_ok segs path vs Hsegs Hvs Hok) as (-> & Hp & _).
  induction Hp as [|p ps (_ & _ & H63 & H35) Hps [IH1 IH2]]; [split; apply not_elem_of_nil|].
  cbn [map concat]. split; rewrite !elem_of_app, !list_elem_of_singleton; intros [[?|?]|?]; done.
Qed.

Definition route_of_call (base : jstr) (segs : list segment) (path query : list (jstr * jsval)) (url : jstr)
  : Prop :=
  ∃ target, url = base ++ target
            ∧ read_request segs target = vs ← path_values segs path; Some (vs, query_pairs query).

Lemma buildUrl_reads base segs path query vs :
  no_braces base → segs ≠ [] → Forall segment_ok segs →
  path_values segs path = Some vs → values_ok vs → query_ok query →
  ∃ url, buildUrl (Some base) (Some path) (Some query) (SerializerFunction defaultQuerySerializer)
           (render_route segs) = Return url
         ∧ route_of_call base segs path query url.
Proof.
  intros Hb Hne Hsegs Hvs Hok Hq.
  destruct (serializer_reads query Hq) as (s & Hs & Hread & H35 & H63).
  destruct (route_pieces_ok segs path vs Hsegs Hvs Hok) as (Hfill & Hp & Hm).
  destruct (fill_route_path segs path vs Hsegs Hvs Hok) as [F35 F63].
  unfold buildUrl, getUrl. cbn [url_url url_baseUrl url_path url_query url_querySerializer from_option id].
  assert (startsWith "/" (render_route segs) = true) as -> by (destruct segs; [done|reflexivity]).
  unfold defaultPathSerializer. rewrite scan_route, (replace_route path segs vs), Hs by done.
  cbn [mbind outcome_bind]. assert (startsWith "?" s = false) as ->.
  { destruct s as [|c s]; [done|]. cbn [startsWith]. destruct (63 =? c)%N eqn:E; [|done].
    apply N.eqb_eq in E as <-. done. }
  assert (match_route segs (fill_route segs vs) = Some vs) as Hroute.
  { rewrite Hfill, match_route_pieces; [done|done|]. destruct segs as [|[l|n] segs]; [done..|].
    apply path_values_cons in Hvs as (ws & _ & v & t & _ & _ & ->). done. }
  eexists. split; [done|]. destruct s as [|c s].
  - exists (fill_route segs vs). split; [done|]. unfold read_request. rewrite !cut_none by done.
    cbn [from_option id]. rewrite Hroute, Hread, Hvs. done.
  - exists (fill_route segs vs ++ "?" ++ c :: s). split; [by rewrite <-app_assoc|].
    unfold read_request. rewrite cut_none by (rewrite !elem_of_app, list_elem_of_singleton; intros [?|[?|?]]; done).
    change (fill_route segs vs ++ "?" ++ c :: s) with (fill_route segs vs ++ 63%N :: (c :: s)).
    rewrite cut_at by done. cbn [from_option id]. rewrite Hroute, Hread, Hvs. done.
Qed.

Lemma replace_params_empty url ms : replace_params [] url ms = Return url.
Proof.
  induction ms as [|m ms IH]; [done|]. cbn [replace_params]. unfold replace_param.
  destruct (param_spec _) as [[e n] st]. cbn [obj_get from_option nullish mbind outcome_bind]. done.
Qed.

(** An absent path or query is an empty one. *)
Lemma buildUrl_default base path query url :
  buildUrl base path query (SerializerFunction defaultQuerySerializer) url
  = buildUrl base (Some (default [] path)) (Some (default [] query)) (SerializerFunction defaultQuerySerializer) url.
Proof.
  unfold buildUrl, getUrl. cbn [url_path url_query url_querySerializer url_url url_baseUrl].
  destruct path as [path|]; cbn [from_option id].
  - by destruct query.
  - unfold defaultPathSerializer at 1. rewrite replace_params_empty. by destruct query.
Qed.

(** C5. The URL of a call reaches its route with its parameters intact: for a URL template of the
    SDK, scalar path parameters and query parameters (scalars, arrays, objects, left out when null),
    [buildUrl] succeeds, and a server that matches the path against the route and decodes path and
    query reads exactly the parameters of the call, whatever characters they contain. *)
Theorem buildUrl_roundtrip base segs path query vs :
  no_braces base → segs ≠ [] → Forall segment_ok segs →
  path_values segs path = Some vs → values_ok vs → query_ok query →
  ∃ url, buildUrl (Some base) (Some path) (Some query) (SerializerFunction defaultQuerySerializer)
           (render_route segs) = Return url
         ∧ route_of_call base segs path query url.
Proof. apply buildUrl_reads. Qed.

Lemma buildUrl_roundtrip_witness :
  ∃ url, buildUrl (Some "http://h"%js) (Some [("id"%js, VStr "a/b?{id}$&")])
           (Some [("q"%js, VStr "x&y=1#"); ("n"%js, VArr [VInt 1; VNull; VBool true])])
           (SerializerFunction defaultQuerySerializer)
           (render_route [Lit "api"; Param "id"; Lit "events"]) = Return url
         ∧ route_of_call "http://h" [Lit "api"; Param "id"; Lit "events"]
             [("id"%js, VStr "a/b?{id}$&")]
             [("q"%js, VStr "x&y=1#"); ("n"%js, VArr [VInt 1; VNull; VBool true])] url.
Proof.
  apply (buildUrl_roundtrip _ _ _ _ [("id"%js, "a/b?{id}$&"%js)]).
  - split; apply (bool_decide_unpack _); vm_compute; done.
  - done.
  - repeat constructor; try (apply (bool_decide_unpack _); vm_compute; done); done.
  - reflexivity.
  - apply Forall_cons_2; [|apply Forall_nil_2]. split; [apply ascii_text; reflexivity|done].
  - repeat apply Forall_cons_2; [| |apply Forall_nil_2].
    + split; [repeat constructor|right; eexists; split; [reflexivity|apply ascii_text; reflexivity]].
    + split; [repeat constructor|]. simpl.
      repeat apply Forall_cons_2; apply Forall_nil_2 || (left; reflexivity) || (right; eexists; split; [reflexivity|apply ascii_text; reflexivity]).
Defined.
