(* ===== verification/Params.v ===== *)
(** * The parameter builder

    Models [lib/api/core/params.gen.ts]: [buildClientParams] sorts flat arguments into
    the body, headers, path and query of a call, by a table of fields.

    An argument may be put into a slot as it is, and a later parameter is then written
    into the caller's own object: [Given] keeps the object with the properties that
    were assigned to it, in order.  Arguments are taken to be different objects. *)

From S2P Require Import Prelude JsString Uri JsValue Json UrlBuilder.

(** ** The table *)

Inductive Slot := SlotBody | SlotHeaders | SlotPath | SlotQuery.

#[export] Instance Slot_eq_dec : EqDecision Slot.
Proof. solve_decision. Defined.

Inductive Field :=
| InField (slot : Slot) (key map : option jstr)
| AliasField (key : jstr) (map : Slot).

Inductive FieldConfig :=
| OneField (f : Field)
| Fields (allowExtra : option (list (Slot * bool))) (args : option (list Field)).

(** What is known of a key: [{ in, map }] or [{ map }]. *)
Inductive key_entry := ToSlot (slot : Slot) (map : option jstr) | WholeSlot (slot : Slot).

Definition extraPrefixes : list (jstr * Slot) :=
  [("$body_"%js, SlotBody); ("$headers_"%js, SlotHeaders); ("$path_"%js, SlotPath); ("$query_"%js, SlotQuery)].

(** [a || b] of a text that may be missing. *)
Definition or_text (a : option jstr) (b : jstr) : jstr := match a with Some ((_ :: _) as t) => t | _ => b end.

Definition add_key (map : list (jstr * key_entry)) (f : Field) : list (jstr * key_entry) :=
  match f with
  | InField slot (Some ((_ :: _) as key)) m => obj_set key (ToSlot slot m) map
  | InField _ _ _ => map
  | AliasField key slot => obj_set key (WholeSlot slot) map
  end.

Definition buildKeyMap (fields : list FieldConfig) (map : list (jstr * key_entry)) : list (jstr * key_entry) :=
  foldl (λ map config, match config with
                       | OneField f => add_key map f
                       | Fields _ (Some args) => foldl add_key map args
                       | Fields _ None => map
                       end) map fields.

(** ** The slots *)

Inductive slot_value :=
| Fresh (props : list (jstr * jsval))
| Given (v : jsval) (written : list (jstr * jsval)).

Record Params := mkParams {
  p_body : option slot_value;
  p_headers : option slot_value;
  p_path : option slot_value;
  p_query : option slot_value;
}.

Definition slot_of (s : Slot) (p : Params) : option slot_value :=
  match s with SlotBody => p_body p | SlotHeaders => p_headers p | SlotPath => p_path p | SlotQuery => p_query p end.

Definition set_slot (s : Slot) (v : option slot_value) (p : Params) : Params :=
  match s with
  | SlotBody => mkParams v (p_headers p) (p_path p) (p_query p)
  | SlotHeaders => mkParams (p_body p) v (p_path p) (p_query p)
  | SlotPath => mkParams (p_body p) (p_headers p) v (p_query p)
  | SlotQuery => mkParams (p_body p) (p_headers p) (p_path p) v
  end.

(** Assigning a property of a primitive value throws. *)
Definition takes_properties (v : jsval) : bool :=
  match v with
  | VUndefined | VNull | VBool _ | VNum _ | VBigInt _ | VStr _ | VSymbol => false
  | _ => true
  end.

Definition writeSlot (slot : Slot) (key : jstr) (value : jsval) (p : Params) : outcome jsval Params :=
  match slot_of slot p with
  | None | Some (Given VUndefined _) => Return (set_slot slot (Some (Fresh [(key, value)])) p)
  | Some (Fresh props) => Return (set_slot slot (Some (Fresh (obj_set key value props))) p)
  | Some (Given v written) =>
      if takes_properties v then Return (set_slot slot (Some (Given v (written ++ [(key, value)]))) p)
      else Throw js_type_error
  end.

(** [value && typeof value === 'object' && !Array.isArray(value) && !Object.keys(value).length] *)
Definition is_empty_object (v : slot_value) : bool :=
  match v with
  | Fresh props => bool_decide (props = [])
  | Given (VObj props) written | Given (VInstance props) written => bool_decide (props = []) && bool_decide (written = [])
  | Given (VDate _ _) written | Given (VSearchParams _) written | Given (VBlob _) written => bool_decide (written = [])
  | Given _ _ => false
  end.

Definition strip (v : option slot_value) : option slot_value :=
  match v with Some x => if is_empty_object x then None else Some x | None => None end.

Definition stripEmptySlots (p : Params) : Params :=
  mkParams (p_body p) (strip (p_headers p)) (strip (p_path p)) (strip (p_query p)).

(** ** [buildClientParams] *)

(** [Object.entries(arg ?? {})] *)
Definition arg_entries (arg : jsval) : list (jstr * jsval) :=
  match arg with
  | VStr s => imap (λ i c, (digits_of_N (N.of_nat i), VStr [c])) s
  | v => object_entries v
  end.

Definition allowed_extra (config : FieldConfig) : option Slot :=
  match config with
  | Fields (Some allowExtra) _ => fst <$> find_first (λ sa : Slot * bool, sa.2) allowExtra
  | _ => None
  end.

Fixpoint strip_prefix (prefix s : jstr) : option jstr :=
  match prefix, s with
  | [], s => Some s
  | c :: prefix, d :: s => if (c =? d)%N then strip_prefix prefix s else None
  | _ :: _, [] => None
  end.

Fixpoint find_extra (prefixes : list (jstr * Slot)) (key : jstr) : option (Slot * jstr) :=
  match prefixes with
  | [] => None
  | (prefix, slot) :: r => match strip_prefix prefix key with Some name => Some (slot, name) | None => find_extra r key end
  end.

Definition write_entry (map : list (jstr * key_entry)) (config : FieldConfig) (p : Params) (kv : jstr * jsval)
  : outcome jsval Params :=
  let '(key, value) := kv in
  match obj_get key map with
  | Some (ToSlot slot m) => writeSlot slot (or_text m key) value p
  | Some (WholeSlot slot) => Return (set_slot slot (Some (Given value [])) p)
  | None =>
      match find_extra extraPrefixes key with
      | Some (slot, name) => writeSlot slot name value p
      | None => match allowed_extra config with Some slot => writeSlot slot key value p | None => Return p end
      end
  end.

Fixpoint write_entries (map : list (jstr * key_entry)) (config : FieldConfig) (p : Params) (entries : list (jstr * jsval))
  : outcome jsval Params :=
  match entries with
  | [] => Return p
  | kv :: r => p ← write_entry map config p kv; write_entries map config p r
  end.

Definition write_arg (map : list (jstr * key_entry)) (config : FieldConfig) (arg : jsval) (p : Params) : outcome jsval Params :=
  match config with
  | OneField (InField _ (Some ((_ :: _) as key)) _) =>
      match obj_get key map with
      | Some (ToSlot slot m) => writeSlot slot (or_text m key) arg p
      | _ => Return p
      end
  | OneField (InField _ _ _) => Return (set_slot SlotBody (Some (Given arg [])) p)
  | config => write_entries map config p (arg_entries arg)
  end.

(** The configuration of an argument is the one at its place, or else the last one before it. *)
Fixpoint write_args (map : list (jstr * key_entry)) (fields : list FieldConfig) (config : option FieldConfig)
    (args : list jsval) (p : Params) : outcome jsval Params :=
  match args with
  | [] => Return p
  | arg :: args =>
      let config := match fields with c :: _ => Some c | [] => config end in
      p ← match config with Some c => write_arg map c arg p | None => Return p end;
      write_args map (tail fields) config args p
  end.

Definition buildClientParams (args : list jsval) (fields : list FieldConfig) : outcome jsval Params :=
  stripEmptySlots <$>
    write_args (buildKeyMap fields []) fields None args (mkParams None (Some (Fresh [])) (Some (Fresh [])) (Some (Fresh []))).

(** ** Flat parameters are sorted exactly *)

Section sorted.
Context (map : list (jstr * key_entry)) (config : FieldConfig).

(** Where a parameter goes. *)
Definition target (key : jstr) : option (Slot * jstr) :=
  match obj_get key map with
  | Some (ToSlot slot m) => Some (slot, or_text m key)
  | Some (WholeSlot _) => None
  | None => match find_extra extraPrefixes key with
            | Some t => Some t
            | None => (λ slot, (slot, key)) <$> allowed_extra config
            end
  end.

Definition whole (key : jstr) : bool := match obj_get key map with Some (WholeSlot _) => true | _ => false end.

(** Slots of our own making. *)
Definition own (v : option slot_value) : bool := match v with Some (Given _ _) => false | _ => true end.
Definition props_of (v : option slot_value) : list (jstr * jsval) := match v with Some (Fresh l) => l | _ => [] end.
Definition own_slots (p : Params) : Prop := (∀ s, own (slot_of s p) = true) ∧ p_body p ≠ Some (Fresh []).

Lemma obj_set_not_nil {A} k (v : A) l : obj_set k v l ≠ [].
Proof. destruct l as [|[j x] l]; cbn; [done|]. by destruct (k =js j). Qed.

Lemma slot_set s s' v p : slot_of s (set_slot s' v p) = if decide (s = s') then v else slot_of s p.
Proof. by destruct s, s'. Qed.

Lemma writeSlot_own s k v p :
  own_slots p →
  ∃ p', writeSlot s k v p = Return p' ∧ own_slots p'
    ∧ ∀ s', props_of (slot_of s' p') = if decide (s' = s) then obj_set k v (props_of (slot_of s p)) else props_of (slot_of s' p).
Proof.
  intros [Hown Hbody]. unfold writeSlot. pose proof (Hown s) as Hs.
  assert (∀ l, l ≠ [] → own_slots (set_slot s (Some (Fresh l)) p)) as Hset.
  { intros l Hl. split; [intros s'; rewrite slot_set; by destruct (decide (s' = s))|]. destruct s; cbn; congruence. }
  destruct (slot_of s p) as [[l|? ?]|] eqn:E; try discriminate Hs; (eexists; split; [reflexivity|]; split;
    [apply Hset; first [apply obj_set_not_nil|done]|]; intros s'; rewrite slot_set; by destruct (decide (s' = s))).
Qed.

(** The value that was written last under a name of a slot. *)
Definition written (s : Slot) (n : jstr) (entries : list (jstr * jsval)) (before : option jsval) : option jsval :=
  foldl (λ v kv, if bool_decide (target kv.1 = Some (s, n)) then Some kv.2 else v) before entries.

Lemma write_entry_own p kv :
  own_slots p → whole kv.1 = false →
  ∃ p', write_entry map config p kv = Return p' ∧ own_slots p'
    ∧ ∀ s n, obj_get n (props_of (slot_of s p')) = written s n [kv] (obj_get n (props_of (slot_of s p))).
Proof.
  destruct kv as [k v]. intros Hown Hw. unfold write_entry, written. cbn [foldl fst snd].
  assert (∀ t, target k = Some t →
    ∃ p', writeSlot t.1 t.2 v p = Return p' ∧ own_slots p'
    ∧ ∀ s n, obj_get n (props_of (slot_of s p'))
             = if bool_decide (target k = Some (s, n)) then Some v else obj_get n (props_of (slot_of s p))) as Hwrite.
  { intros [s0 n0] Ht. destruct (writeSlot_own s0 n0 v p Hown) as (p' & Hp' & Hown' & Hprops). exists p'.
    split; [done|]. split; [done|]. intros s n. rewrite Hprops, Ht. destruct (decide (s = s0)) as [->|Hs].
    - rewrite obj_get_set. destruct (n =js n0) eqn:E.
      + apply jeqb_eq in E as ->. by rewrite bool_decide_eq_true_2.
      + apply jeqb_neq in E. rewrite bool_decide_eq_false_2 by congruence. done.
    - rewrite bool_decide_eq_false_2 by congruence. done. }
  unfold target, whole in *. cbn [fst] in Hw. destruct (obj_get k map) as [[s m|s]|]; [by apply (Hwrite _ eq_refl)|done|].
  destruct (find_extra extraPrefixes k) as [[s n]|]; [by apply (Hwrite _ eq_refl)|].
  destruct (allowed_extra config) as [s|]; [by apply (Hwrite _ eq_refl)|]. exists p. split; [done|]. split; [done|].
  intros s n. by rewrite bool_decide_eq_false_2.
Qed.

Lemma write_entries_own entries p :
  own_slots p → (∀ kv, kv ∈ entries → whole kv.1 = false) →
  ∃ p', write_entries map config p entries = Return p' ∧ own_slots p'
    ∧ ∀ s n, obj_get n (props_of (slot_of s p')) = written s n entries (obj_get n (props_of (slot_of s p))).
Proof.
  revert p. induction entries as [|kv entries IH]; intros p Hown Hw; [by exists p|]. cbn [write_entries].
  destruct (write_entry_own p kv Hown (Hw kv ltac:(left))) as (p1 & Hp1 & Hown1 & H1). rewrite Hp1. cbn [mbind outcome_bind].
  destruct (IH p1 Hown1 (λ kv' Hin, Hw kv' ltac:(by right))) as (p' & Hp' & Hown' & H'). exists p'.
  split; [done|]. split; [done|]. intros s n. by rewrite H', H1.
Qed.

(** With different targets there is one entry for a place. *)
Lemma written_spec s n entries before :
  NoDup (omap (λ kv, target kv.1) entries) →
  ∀ v, written s n entries before = Some v
       ↔ (∃ k, (k, v) ∈ entries ∧ target k = Some (s, n)) ∨ before = Some v ∧ ∀ kv, kv ∈ entries → target kv.1 ≠ Some (s, n).
Proof.
  revert before. induction entries as [|[k x] entries IH]; intros before Hnd v; cbn [written foldl].
  { split; [intros ->; right; split; [done|]; intros kv H; by apply not_elem_of_nil in H|].
    intros [(k & H & _)|[H _]]; [by apply not_elem_of_nil in H|done]. }
  fold (written s n entries (if bool_decide (target (k, x).1 = Some (s, n)) then Some (k, x).2 else before)). cbn [fst snd].
  cbn [omap list_omap fst] in Hnd. assert (NoDup (omap (λ kv : jstr * jsval, target kv.1) entries)) as Hnd'.
  { destruct (target k); [by apply NoDup_cons in Hnd as [_ Hnd]|done]. }
  rewrite (IH _ Hnd'). destruct (decide (target k = Some (s, n))) as [Hk|Hk].
  - rewrite bool_decide_eq_true_2 by done.
    assert (∀ kv, kv ∈ entries → target kv.1 ≠ Some (s, n)) as Hne.
    { intros kv Hin Ht. rewrite Hk in Hnd. apply NoDup_cons in Hnd as [Hn _]. apply Hn. apply list_elem_of_omap.
      by exists kv. }
    split.
    + intros [(j & Hin & Hj)|[[= <-] _]]; [by destruct (Hne (j, v) Hin)|]. left. exists k. split; [left|done].
    + intros [(j & Hin & Hj)|[_ Hno]]; [|by destruct (Hno (k, x) ltac:(left))].
      apply elem_of_cons in Hin as [[= -> ->]|Hin]; [by right|by destruct (Hne (j, v) Hin)].
  - rewrite bool_decide_eq_false_2 by done. split.
    + intros [(j & Hin & Hj)|[-> Hno]]; [left; exists j; split; [by right|done]|]. right. split; [done|].
      intros kv [->|Hin]%elem_of_cons; [done|by apply Hno].
    + intros [(j & Hin & Hj)|[-> Hno]].
      * left. exists j. split; [|done]. apply elem_of_cons in Hin as [[= -> ->]|Hin]; done.
      * right. split; [done|]. intros kv Hin. apply Hno. by right.
Qed.
End sorted.

Definition empty_params : Params := mkParams None (Some (Fresh [])) (Some (Fresh [])) (Some (Fresh [])).

Lemma strip_own v : own v = true → strip v = match props_of v with [] => None | l => Some (Fresh l) end.
Proof. by destruct v as [[[|]|]|]. Qed.

Lemma stripped p s :
  own_slots p → slot_of s (stripEmptySlots p) = match props_of (slot_of s p) with [] => None | l => Some (Fresh l) end.
Proof.
  intros [Hown Hbody]. destruct s; cbn [slot_of stripEmptySlots p_body p_headers p_path p_query];
    [|apply (strip_own _ (Hown SlotHeaders))|apply (strip_own _ (Hown SlotPath))|apply (strip_own _ (Hown SlotQuery))].
  specialize (Hown SlotBody). cbn in Hown. by destruct (p_body p) as [[[|]|]|].
Qed.

(** Flat parameters are sorted exactly: for an argument with parameters whose places differ, and
    none of which stands for a whole slot, the slots hold every parameter that has a place, by its
    table entry, its prefix or the slot for extra ones, under its name there, and nothing else; and a
    slot is there exactly when a parameter goes into it. *)
Theorem flat_params_sorted allowExtra args props :
  let config := Fields allowExtra args in
  let map := buildKeyMap [config] [] in
  (∀ kv, kv ∈ props → whole map kv.1 = false) → NoDup (omap (λ kv, target map config kv.1) props) →
  ∃ p, buildClientParams [VObj props] [config] = Return p
    ∧ (∀ s n v, obj_get n (props_of (slot_of s p)) = Some v ↔ ∃ k, (k, v) ∈ props ∧ target map config k = Some (s, n))
    ∧ ∀ s, slot_of s p = None ↔ ∀ kv n, kv ∈ props → target map config kv.1 ≠ Some (s, n).
Proof.
  intros config map Hw Hnd.
  assert (own_slots empty_params) as Hown by (split; [by intros []|done]).
  destruct (write_entries_own map config props empty_params Hown Hw) as (p & Hp & Hownp & Hget).
  assert (∀ s n v, obj_get n (props_of (slot_of s p)) = Some v ↔ ∃ k, (k, v) ∈ props ∧ target map config k = Some (s, n)) as Hspec.
  { intros s n v. rewrite Hget, (written_spec map config s n props _ Hnd).
    assert (obj_get n (props_of (slot_of s empty_params)) = None) as -> by (by destruct s).
    split; [by intros [H|[H _]]|by left]. }
  exists (stripEmptySlots p). split; [|split].
  - unfold buildClientParams. cbn [write_args tail].
    change (write_arg (buildKeyMap [config] []) config (VObj props) (mkParams None (Some (Fresh [])) (Some (Fresh [])) (Some (Fresh []))))
      with (write_entries map config empty_params props). by rewrite Hp.
  - intros s n v. rewrite <-Hspec, stripped by done. by destruct (props_of (slot_of s p)).
  - intros s. rewrite stripped by done. split.
    + intros Hnone [k x] n Hin Ht. pose proof (proj2 (Hspec s n x) (ex_intro _ k (conj Hin Ht))) as H.
      destruct (props_of (slot_of s p)); [discriminate H|discriminate Hnone].
    + intros Hno. destruct (props_of (slot_of s p)) as [|[n x] l] eqn:E; [done|].
      destruct (proj1 (Hspec s n x)) as (k & Hin & Ht); [rewrite E; cbn; by rewrite jeqb_refl|].
      by destruct (Hno (k, x) n Hin).
Qed.

(** A body that is given whole is not copied: a later parameter for the body is assigned to the
    caller's own object, and when the body is a text, a number or null it throws. *)
Theorem given_body_is_written v key x :
  let fields := [OneField (InField SlotBody None None); Fields None None] in
  buildClientParams [v; VObj [("$body_"%js ++ key, x)]] fields
  = match v with
    | VUndefined => Return (mkParams (Some (Fresh [(key, x)])) None None None)
    | _ => if takes_properties v then Return (mkParams (Some (Given v [(key, x)])) None None None) else Throw js_type_error
    end.
Proof. by destruct v. Qed.

(** ** The theorem, concretely *)

Definition example_config : FieldConfig :=
  Fields None (Some [InField SlotPath (Some "execution_id"%js) None; InField SlotQuery (Some "max"%js) (Some "limit"%js)]).

Lemma flat_params_sorted_witness :
  let props := [("execution_id"%js, VStr "e"); ("max"%js, VInt 5); ("$headers_X-Id"%js, VStr "h"); ("other"%js, VNull)] in
  let map := buildKeyMap [example_config] [] in
  ∃ p, buildClientParams [VObj props] [example_config] = Return p
    ∧ (∀ s n v, obj_get n (props_of (slot_of s p)) = Some v ↔ ∃ k, (k, v) ∈ props ∧ target map example_config k = Some (s, n))
    ∧ ∀ s, slot_of s p = None ↔ ∀ kv n, kv ∈ props → target map example_config kv.1 ≠ Some (s, n).
Proof.
  apply (flat_params_sorted None
           (Some [InField SlotPath (Some "execution_id"%js) None; InField SlotQuery (Some "max"%js) (Some "limit"%js)])).
  - intros kv Hin. repeat (apply elem_of_cons in Hin as [->|Hin]; [reflexivity|]). by apply not_elem_of_nil in Hin.
  - apply (bool_decide_unpack _). vm_compute. exact I.
Defined.

Example flat_params_example :
  buildClientParams [VObj [("execution_id"%js, VStr "e"); ("max"%js, VInt 5); ("$headers_X-Id"%js, VStr "h"); ("other"%js, VNull)]]
    [example_config]
  = Return (mkParams None (Some (Fresh [("X-Id"%js, VStr "h")])) (Some (Fresh [("execution_id"%js, VStr "e")]))
              (Some (Fresh [("limit"%js, VInt 5)]))).
Proof. vm_compute. reflexivity. Qed.
