(* ===== verification/BodySerializer.v ===== *)
(** * Body serializers

    Models [lib/api/core/bodySerializer.gen.ts]: the form-data and the
    URL-encoded serializers ([jsonBodySerializer], the default, is with the
    client in [Client]).  [FormData] and [URLSearchParams] are the platform's,
    written out here: lists of entries, and the [application/x-www-form-urlencoded]
    text of one. *)

From S2P Require Import Prelude JsString Uri JsValue Json UrlBuilder.

(** ** The platform *)

(** The Unicode scalar values of a string: a lone surrogate becomes U+FFFD. *)
Fixpoint scalar_values (s : jstr) : list N :=
  match s with
  | [] => []
  | c :: r =>
      if is_lead c then
        match r with
        | d :: r' => if is_trail d then surrogate_cp c d :: scalar_values r' else 65533%N :: scalar_values r
        | [] => [65533%N]
        end
      else if is_trail c then 65533%N :: scalar_values r
      else c :: scalar_values r
  end.

(** Conversion to a [USVString]. *)
Definition to_usv (s : jstr) : jstr := flat_map utf16_of_cp (scalar_values s).

(** The bytes a form leaves as they are: letters, digits and [* - . _]. *)
Definition form_unreserved (b : N) : bool :=
  is_letter b || is_digit b || existsb (N.eqb b) [42; 45; 46; 95]%N.

Definition form_byte (b : N) : jstr :=
  if (b =? 32)%N then [43%N] else if form_unreserved b then [b] else percent b.

Definition form_encode (s : jstr) : jstr := flat_map (λ cp, flat_map form_byte (utf8 cp)) (scalar_values s).

Definition form_pair (e : jstr * jstr) : jstr := form_encode e.1 ++ "=" ++ form_encode e.2.

(** [URLSearchParams.prototype.toString]. *)
Definition search_params_text (entries : list (jstr * jstr)) : jstr := js_join "&" (map form_pair entries).

(** [Object.entries(v)]. *)
Definition Object_entries (v : jsval) : outcome jsval (list (jstr * jsval)) :=
  match v with
  | VUndefined | VNull => Throw js_type_error
  | VStr s => Return (imap (λ i c, (digits_of_N (N.of_nat i), VStr [c])) s)
  | _ => Return (object_entries v)
  end.

(** [data.append(key, JSON.stringify(value))]: [undefined] is appended as text. *)
Definition json_field (value : jsval) : outcome jsval jstr :=
  s ← JSON_stringify value; Return (default "undefined"%js s).

(** ** Form data *)

Definition serializeFormDataPair (data : list (jstr * jsval)) (key : jstr) (value : jsval)
  : outcome jsval (list (jstr * jsval)) :=
  match value with
  | VBlob _ => Return (data ++ [(to_usv key, value)])
  | VStr s => Return (data ++ [(to_usv key, VStr (to_usv s))])
  | VDate (Some iso) _ => Return (data ++ [(to_usv key, VStr iso)])
  | VDate None _ => Throw js_range_error
  | _ => s ← json_field value; Return (data ++ [(to_usv key, VStr (to_usv s))])
  end.

Definition serializeUrlSearchParamsPair (data : list (jstr * jstr)) (key : jstr) (value : jsval)
  : outcome jsval (list (jstr * jstr)) :=
  match value with
  | VStr s => Return (data ++ [(to_usv key, to_usv s)])
  | _ => s ← json_field value; Return (data ++ [(to_usv key, to_usv s)])
  end.

Section each.
Context {A : Type} (pair : list A → jstr → jsval → outcome jsval (list A)).

Fixpoint each_item (data : list A) (key : jstr) (values : list jsval) : outcome jsval (list A) :=
  match values with
  | [] => Return data
  | v :: r => data ← pair data key v; each_item data key r
  end.

(** The body of both [forEach] loops over the entries of the body. *)
Fixpoint each_entry (data : list A) (entries : list (jstr * jsval)) : outcome jsval (list A) :=
  match entries with
  | [] => Return data
  | (key, value) :: r =>
      data ← match value with
             | VUndefined | VNull => Return data
             | VArr l => each_item data key l
             | _ => pair data key value
             end;
      each_entry data r
  end.
End each.

(** [formDataBodySerializer.bodySerializer]: the entries of the form. *)
Definition formDataBodySerializer (body : jsval) : outcome jsval (list (jstr * jsval)) :=
  entries ← Object_entries body; each_entry serializeFormDataPair [] entries.

(** [urlSearchParamsBodySerializer.bodySerializer]. *)
Definition urlSearchParamsBodySerializer (body : jsval) : outcome jsval jsval :=
  entries ← Object_entries body;
  data ← each_entry serializeUrlSearchParamsPair [] entries;
  Return (VStr (search_params_text data)).

Example login_body :
  urlSearchParamsBodySerializer (VObj [("username"%js, VStr "a b"); ("password"%js, VStr "p&=+%");
                                       ("scope"%js, VNull); ("n"%js, VArr [VInt 1; VStr "x"])])
  = Return (VStr "username=a+b&password=p%26%3D%2B%25&n=1&n=x").
Proof. vm_compute. reflexivity. Qed.
