(* ===== verification/BodySpec.v ===== *)
(** * The URL-encoded body, read back

    The parser of [application/x-www-form-urlencoded] bodies that servers use,
    and the theorem that it reads the fields the client serialized (the body
    of the login request). *)

From S2P Require Import Prelude JsString Uri JsValue Json UrlBuilder UrlSpec BodySerializer.

(** ** The reference parser *)

Definition plus_to_space (c : N) : N := if (c =? 43)%N then 32%N else c.
Definition form_decode (s : jstr) : option jstr := decode_component (map plus_to_space s).

Definition parse_form_pair (p : jstr) : option (jstr * jstr) :=
  let '(n, v) := cut 61 p in
  n ← form_decode n; v ← form_decode (default [] v); Some (n, v).

Definition nonempty (s : jstr) : bool := match s with [] => false | _ => true end.

Definition parse_form (s : jstr) : option (list (jstr * jstr)) :=
  mapM parse_form_pair (List.filter nonempty (js_split "&" s)).

(** ** The fields of a body *)

(** The text of a value that is not an array: a string is itself, anything else its JSON. *)
Definition field_text (v : jsval) : outcome jsval jstr :=
  match v with VStr s => Return s | _ => json_field v end.

(** The fields, in order: an absent value gives none, an array one each. *)
Definition body_fields (props : list (jstr * jsval)) : outcome jsval (list (jstr * jstr)) :=
  @concat _ <$> mapM (λ kv,
    match kv.2 with
    | VUndefined | VNull => Return []
    | VArr l => mapM (λ v, t ← field_text v; Return (kv.1, t)) l
    | v => t ← field_text v; Return [(kv.1, t)]
    end) props.

(** ** Encoding *)

Lemma scalar_values_code_points s cps : code_points s = Some cps → scalar_values s = cps.
Proof.
  revert cps. induction s as [|c|c d s IH IH'] using jstr_pair_ind; intros cps H.
  - by simplify_eq/=.
  - simpl in H |- *. destruct (is_lead c); [done|]. destruct (is_trail c); by simplify_eq/=.
  - cbn [code_points] in H, IH'. cbn [scalar_values] in IH' |- *. destruct (is_lead c).
    + destruct (is_trail d); [|done]. destruct (code_points s) as [l|]; simplify_eq/=. by rewrite (IH l).
    + destruct (is_trail c); [done|].
      destruct (if is_lead d then _ else _) as [l|]; simplify_eq/=. by rewrite (IH' l).
Qed.

Lemma to_usv_id s : well_formed s → to_usv s = s.
Proof.
  intros [Hwf [cps Hc]]. unfold to_usv. rewrite (scalar_values_code_points s cps) by done.
  by apply utf16_code_points.
Qed.

(** A character of an encoded field. *)
Definition form_char (c : N) : Prop := form_unreserved c = true ∨ c = 37%N ∨ c = 43%N.

Lemma hex_digit_form d : (d < 16)%N → form_unreserved (hex_digit d) = true.
Proof.
  intros H. unfold form_unreserved, hex_digit, is_letter, is_upper, is_lower, is_digit.
  destruct (d <? 10)%N eqn:E; lia.
Qed.

Lemma form_unreserved_plain c : form_unreserved c = true → c ≠ 37%N ∧ c ≠ 43%N ∧ c ≠ 38%N ∧ c ≠ 61%N.
Proof. repeat split; intros ->; done. Qed.

Lemma form_char_plain c : form_char c → c ≠ 38%N ∧ c ≠ 61%N.
Proof. intros [H|[->| ->]]; [apply form_unreserved_plain in H; tauto|by split..]. Qed.

Lemma percent_digits b : (b < 256)%N → (b / 16 < 16)%N ∧ (b mod 16 < 16)%N.
Proof. split; [apply N.Div0.div_lt_upper_bound; lia|apply N.mod_lt; lia]. Qed.

Lemma form_byte_chars b : (b < 256)%N → Forall form_char (form_byte b).
Proof.
  intros Hb. unfold form_byte, form_char. destruct (b =? 32)%N; [repeat constructor; tauto|].
  destruct (form_unreserved b) eqn:E; [repeat constructor; tauto|].
  destruct (percent_digits b Hb). unfold percent.
  apply Forall_cons_2; [tauto|]. repeat (apply Forall_cons_2; [left; by apply hex_digit_form|]). apply Forall_nil_2.
Qed.

Lemma map_plus_id c : form_unreserved c = true → plus_to_space c = c.
Proof. intros (_ & H & _)%form_unreserved_plain. unfold plus_to_space. by rewrite (proj2 (N.eqb_neq c 43)). Qed.

Lemma unquote_form_byte b r :
  (b < 256)%N → unquote (map plus_to_space (form_byte b) ++ r) = (b ::.) <$> unquote r.
Proof.
  intros Hb. unfold form_byte. destruct (N.eqb_spec b 32) as [->|_]; [done|].
  destruct (form_unreserved b) eqn:E.
  - cbn [map app unquote]. rewrite map_plus_id by done.
    by rewrite (proj2 (N.eqb_neq b 37)) by (apply form_unreserved_plain in E; tauto).
  - destruct (percent_digits b Hb). rewrite <-unquote_percent by done. f_equal. unfold percent. cbn [map].
    change (plus_to_space 37) with 37%N. by rewrite !map_plus_id by (by apply hex_digit_form).
Qed.

Lemma unquote_form_bytes l :
  Forall (λ b, b < 256)%N l → unquote (map plus_to_space (flat_map form_byte l)) = Some l.
Proof.
  induction 1 as [|b l Hb Hl IH]; [done|]. cbn [flat_map]. rewrite map_app, unquote_form_byte by done.
  by rewrite IH.
Qed.

Lemma well_formed_values s :
  well_formed s → Forall (λ c, c < 1114112)%N (scalar_values s) ∧ flat_map utf16_of_cp (scalar_values s) = s.
Proof.
  intros [Hwf [cps Hc]]. rewrite (scalar_values_code_points s cps) by done.
  split; [by eapply code_points_range|by apply utf16_code_points].
Qed.

Lemma form_encode_bytes s : form_encode s = flat_map form_byte (flat_map utf8 (scalar_values s)).
Proof.
  unfold form_encode. induction (scalar_values s) as [|c l IH]; [done|]. cbn [flat_map]. rewrite flat_map_app. by f_equal.
Qed.

Lemma values_bytes l : Forall (λ c, c < 1114112)%N l → Forall (λ b, b < 256)%N (flat_map utf8 l).
Proof. intros H. apply Forall_flat_map. intros c Hc. rewrite Forall_forall in H. by apply utf8_bytes, H. Qed.

Lemma form_decode_encode s : well_formed s → form_decode (form_encode s) = Some s.
Proof.
  intros Hs. destruct (well_formed_values s Hs) as [Hr Hu]. unfold form_decode, decode_component.
  rewrite form_encode_bytes, unquote_form_bytes by (by apply values_bytes). cbn [mbind option_bind].
  rewrite utf8_decode_all by done. cbn [mbind option_bind]. by rewrite Hu.
Qed.

Lemma form_encode_chars s : well_formed s → Forall form_char (form_encode s).
Proof.
  intros Hs. destruct (well_formed_values s Hs) as [Hr _]. rewrite form_encode_bytes. apply Forall_flat_map.
  intros b Hb. pose proof (values_bytes _ Hr) as H. rewrite Forall_forall in H. by apply form_byte_chars, H.
Qed.

Lemma form_encode_no c s : well_formed s → c = 38%N ∨ c = 61%N → c ∉ form_encode s.
Proof.
  intros Hs Hc Hin. pose proof (form_encode_chars s Hs) as H. rewrite Forall_forall in H.
  specialize (H c Hin). apply form_char_plain in H. destruct Hc; tauto.
Qed.

(** ** The text of the fields *)

Lemma js_split_join_char c parts :
  parts ≠ [] → Forall (λ p, c ∉ p) parts → js_split [c] (js_join [c] parts) = parts.
Proof.
  intros Hne H. induction H as [|p ps Hp Hps IH]; [done|]. destruct ps as [|q ps]; [by apply js_split_char_id|].
  rewrite js_join_cons. change (p ++ [c] ++ ?t) with (p ++ c :: t).
  rewrite js_split_char_app, js_split_char_id, IH by done. done.
Qed.

Definition field_ok (e : jstr * jstr) : Prop := well_formed e.1 ∧ well_formed e.2.

Lemma parse_form_pair_text e : field_ok e → parse_form_pair (form_pair e) = Some e.
Proof.
  intros [H1 H2]. unfold parse_form_pair, form_pair. change (form_encode e.1 ++ "=" ++ ?t) with (form_encode e.1 ++ 61%N :: t).
  rewrite cut_at by (apply form_encode_no; tauto). cbn [from_option id].
  rewrite form_decode_encode by done. cbn [mbind option_bind]. rewrite form_decode_encode by done. by destruct e.
Qed.

Lemma form_pair_no e : field_ok e → 38%N ∉ form_pair e.
Proof.
  intros [H1 H2]. unfold form_pair. rewrite !elem_of_app, list_elem_of_singleton.
  intros [H|[H|H]]; [|done|]; by apply form_encode_no in H; [| |left].
Qed.

Lemma parse_form_text l : Forall field_ok l → parse_form (search_params_text l) = Some l.
Proof.
  intros Hl. unfold parse_form, search_params_text. destruct l as [|e l]; [done|].
  assert (Forall (λ p, 38%N ∉ p) (map form_pair (e :: l))) as Hno.
  { apply Forall_map. eapply Forall_impl; [exact Hl|]. apply form_pair_no. }
  rewrite (js_split_join_char 38) by done. clear Hno.
  induction Hl as [|x r Hx Hr IH]; [done|]. cbn [map List.filter].
  assert (nonempty (form_pair x) = true) as ->.
  { unfold form_pair. by destruct (form_encode x.1). }
  change (mapM parse_form_pair (form_pair x :: ?t)) with (y ← parse_form_pair (form_pair x); k ← mapM parse_form_pair t; Some (y :: k)).
  rewrite parse_form_pair_text by done. cbn [mbind option_bind]. rewrite IH. done.
Qed.

(** ** The loops *)

Definition pair_of (key : jstr) (t : jstr) : jstr * jstr := (to_usv key, to_usv t).

Lemma pair_text data key v :
  serializeUrlSearchParamsPair data key v = (t ← field_text v; Return (data ++ [pair_of key t])).
Proof. by destruct v. Qed.

Lemma each_item_text data key l ts :
  mapM field_text l = Return ts →
  each_item serializeUrlSearchParamsPair data key l = Return (data ++ map (pair_of key) ts).
Proof.
  rewrite omapM_Return. intros H. revert data. induction H as [|v t l ts Hv H IH]; intros data.
  - by rewrite app_nil_r.
  - cbn [each_item]. rewrite pair_text, Hv. cbn [mbind outcome_bind]. rewrite IH. by rewrite <-app_assoc.
Qed.

Lemma mapM_pairs (key : jstr) l (es : list (jstr * jstr)) :
  mapM (λ v, t ← field_text v; Return (key, t)) l = Return es →
  ∃ ts, mapM field_text l = Return ts ∧ es = map (λ t, (key, t)) ts.
Proof.
  rewrite omapM_Return. induction 1 as [|v e l es Hv H (ts & Hts & ->)]; [by exists []|].
  apply obind_Return in Hv as (t & Ht & [= <-]). exists (t :: ts). split; [|done].
  rewrite omapM_Return in *. by constructor.
Qed.

Lemma each_entry_text props fields data :
  body_fields props = Return fields →
  each_entry serializeUrlSearchParamsPair data props = Return (data ++ map (λ e, pair_of e.1 e.2) fields).
Proof.
  unfold body_fields. rewrite ofmap_Return. intros (ls & H & ->). apply omapM_Return in H. revert data.
  induction H as [|[k v] es props ls Hv H IH]; intros data; [by rewrite app_nil_r|].
  cbn [each_entry concat]. rewrite map_app, app_assoc. cbn [fst snd] in Hv.
  assert (match v with
          | VUndefined | VNull => Return data
          | VArr l => each_item serializeUrlSearchParamsPair data k l
          | _ => serializeUrlSearchParamsPair data k v
          end = Return (data ++ map (λ e, pair_of e.1 e.2) es)) as ->; [|by apply IH].
  destruct v; try (injection Hv as <-; by rewrite app_nil_r);
    try (rewrite pair_text; apply obind_Return in Hv as (t & -> & [= <-]); done).
  apply mapM_pairs in Hv as (ts & Hts & ->). rewrite (each_item_text _ _ _ ts) by done. by rewrite map_map.
Qed.

(** C18. The form the client posts says what the body said: the text of
    [urlSearchParamsBodySerializer], parsed the way a server parses a form, gives the fields of the
    body, names and values with any character in them, absent ones left out and arrays repeated. *)
Theorem urlSearchParams_roundtrip props fields :
  body_fields props = Return fields → Forall field_ok fields →
  ∃ s, urlSearchParamsBodySerializer (VObj props) = Return (VStr s) ∧ parse_form s = Some fields.
Proof.
  intros Hf Hok. exists (search_params_text fields). split; [|by apply parse_form_text].
  unfold urlSearchParamsBodySerializer. cbn [Object_entries object_entries mbind outcome_bind].
  rewrite (each_entry_text _ fields) by done. cbn [mbind outcome_bind app]. do 3 f_equal.
  rewrite <-(map_id fields) at 2. apply map_ext_in. intros [k t] Hin. apply list_elem_of_In in Hin.
  rewrite Forall_forall in Hok. destruct (Hok _ Hin) as [H1 H2]. unfold pair_of. cbn [fst snd] in *.
  by rewrite !to_usv_id.
Qed.

Lemma urlSearchParams_roundtrip_witness :
  ∃ s, urlSearchParamsBodySerializer
         (VObj [("username"%js, VStr "a b+c"); ("password"%js, VStr "p&=%"); ("scope"%js, VNull)]) = Return (VStr s)
       ∧ parse_form s = Some [("username"%js, "a b+c"%js); ("password"%js, "p&=%"%js)].
Proof.
  apply urlSearchParams_roundtrip; [reflexivity|].
  repeat apply Forall_cons_2; try apply Forall_nil_2; split; apply ascii_text; reflexivity.
Defined.
