(* ===== verification/Headers.v ===== *)
(** * Headers and authentication

    Models [mergeHeaders], [checkForExistence] and
    [setAuthParams] of [lib/api/client/utils.gen.ts] and [getAuthToken] of
    [lib/api/core/auth.gen.ts].

    A [Headers] object of the platform is a map from lower-case names to the
    combined value.  [headersEntries] enumerates it; the order does not matter to what is
    built from it ([merge_entries_headers]). *)

From S2P Require Import Prelude JsString JsValue Json UrlBuilder.

Abbreviation headers := (gmap jstr jstr).

(** ** The platform's [Headers] *)

(** A token of HTTP: the names a header may have. *)
Definition token_char (c : N) : bool :=
  is_letter c || is_digit c
  || existsb (N.eqb c) [33; 35; 36; 37; 38; 39; 42; 43; 45; 46; 94; 95; 96; 124; 126]%N.
Definition header_name (name : jstr) : option jstr :=
  match name with
  | [] => None
  | _ => if forallb token_char name then Some (map lower_ascii name) else None
  end.

Definition header_blank (c : N) : bool := ((c =? 9) || (c =? 10) || (c =? 13) || (c =? 32))%N.
Definition strip_blanks (s : jstr) : jstr :=
  rev (drop_while header_blank (rev (drop_while header_blank s))).
(** The value without its surrounding blanks, when it has no character a header cannot carry. *)
Definition header_value (v : jstr) : option jstr :=
  let s := strip_blanks v in
  if forallb (λ c, negb ((c =? 0) || (c =? 10) || (c =? 13) || (255 <? c))%N) s then Some s else None.

Definition headers_set (name value : jstr) (h : headers) : outcome jsval headers :=
  match header_name name, header_value value with
  | Some n, Some v => Return (<[n := v]> h)
  | _, _ => Throw js_type_error
  end.
Definition headers_append (name value : jstr) (h : headers) : outcome jsval headers :=
  match header_name name, header_value value with
  | Some n, Some v => Return (<[n := match h !! n with Some w => w ++ ", " ++ v | None => v end]> h)
  | _, _ => Throw js_type_error
  end.
Definition headers_delete (name : jstr) (h : headers) : outcome jsval headers :=
  match header_name name with Some n => Return (delete n h) | None => Throw js_type_error end.
Definition headers_get (name : jstr) (h : headers) : outcome jsval (option jstr) :=
  match header_name name with Some n => Return (h !! n) | None => Throw js_type_error end.
Definition headers_has (name : jstr) (h : headers) : outcome jsval bool :=
  match header_name name with Some n => Return (bool_decide (is_Some (h !! n))) | None => Throw js_type_error end.

(** ** [mergeHeaders] *)

Inductive headers_init :=
| HHeaders (h : headers)  (* an instance of [Headers] *)
| HObject (v : jsval).    (* anything else: its entries are read *)

Fixpoint append_all (key : jstr) (values : list jsval) (h : headers) : outcome jsval headers :=
  match values with
  | [] => Return h
  | v :: r => s ← template_value v; h ← headers_append key s h; append_all key r h
  end.

(** One entry: [null] deletes, an array appends each of its items, an object is written as JSON. *)
Definition merge_entry (key : jstr) (value : jsval) (h : headers) : outcome jsval headers :=
  match value with
  | VNull => headers_delete key h
  | VArr l => append_all key l h
  | VUndefined => Return h
  | _ =>
      s ← (if typeof_object value
           then o ← JSON_stringify value; Return (default "undefined" o)
           else template_value value);
      headers_set key s h
  end.

Fixpoint merge_entries (entries : list (jstr * jsval)) (h : headers) : outcome jsval headers :=
  match entries with
  | [] => Return h
  | (k, v) :: r => h ← merge_entry k v h; merge_entries r h
  end.

Definition headersEntries (h : headers) : list (jstr * jstr) := map_to_list h.

Definition init_entries (i : headers_init) : list (jstr * jsval) :=
  match i with
  | HHeaders h => map (λ kv, (kv.1, VStr kv.2)) (headersEntries h)
  | HObject v => object_entries v
  end.

Fixpoint merge_inits (l : list (option headers_init)) (h : headers) : outcome jsval headers :=
  match l with
  | [] => Return h
  | None :: r => merge_inits r h
  | Some i :: r => h ← merge_entries (init_entries i) h; merge_inits r h
  end.

Definition mergeHeaders (l : list (option headers_init)) : outcome jsval headers := merge_inits l ∅.

(** ** Authentication *)

Inductive auth_in := InHeader | InQuery | InCookie.
Inductive auth_scheme := Basic | Bearer.
Record Auth := mkAuth {
  auth_where : option auth_in;
  auth_name : option jstr;
  auth_scheme_of : option auth_scheme;
}.

(** The callback of [auth] may be asynchronous and may reject; a plain token is a constant one. *)
Definition auth_callback : Type := Auth → outcome jsval (option jstr).

Section auth.
(** [btoa], which the platform provides; [None] is its [InvalidCharacterError]. *)
Context (btoa : jstr → option jstr).

Definition getAuthToken (auth : Auth) (callback : auth_callback) : outcome jsval (option jstr) :=
  token ← callback auth;
  match token with
  | None | Some [] => Return None
  | Some token =>
      match auth_scheme_of auth with
      | Some Bearer => Return (Some ("Bearer " ++ token))
      | Some Basic => match btoa token with
                      | Some b => Return (Some ("Basic " ++ b))
                      | None => Throw (js_error "InvalidCharacterError")
                      end
      | None => Return (Some token)
      end
  end.

Definition query_params : Type := option (list (jstr * jsval)).

Definition checkForExistence (h : headers) (query : query_params) (name : option jstr)
  : outcome jsval bool :=
  match name with
  | None | Some [] => Return false
  | Some name =>
      has ← headers_has name h;
      if has : bool then Return true
      else if truthy (default VUndefined (q ← query; obj_get name q)) then Return true
      else cookie ← headers_get "Cookie" h;
           Return (match cookie with Some c => includes (name ++ "=") c | None => false end)
  end.

(** One security scheme: a credential the request already has is left alone. *)
Definition set_auth (auth : Auth) (callback : auth_callback) (st : headers * query_params)
  : outcome jsval (headers * query_params) :=
  let '(h, query) := st in
  exists_ ← checkForExistence h query (auth_name auth);
  if exists_ : bool then Return st else
  token ← getAuthToken auth callback;
  match token with
  | None => Return st
  | Some token =>
      let name := default "Authorization" (auth_name auth) in
      match auth_where auth with
      | Some InQuery => Return (h, Some (obj_set name (VStr token) (default [] query)))
      | Some InCookie => h ← headers_append "Cookie" (name ++ "=" ++ token) h; Return (h, query)
      | Some InHeader | None => h ← headers_set name token h; Return (h, query)
      end
  end.

Fixpoint setAuthParams (security : list Auth) (callback : auth_callback) (st : headers * query_params)
  : outcome jsval (headers * query_params) :=
  match security with
  | [] => Return st
  | auth :: r => st ← set_auth auth callback st; setAuthParams r callback st
  end.
End auth.

(** ** What [mergeHeaders] builds *)

(** A stored header: a lower-case token and a value with no blanks around it. *)
Definition stored (n v : jstr) : Prop := header_name n = Some n ∧ header_value v = Some v.
Definition headers_ok (h : headers) : Prop := map_Forall stored h.

Lemma headers_set_stored n v h : stored n v → headers_set n v h = Return (<[n := v]> h).
Proof. intros [Hn Hv]. unfold headers_set. by rewrite Hn, Hv. Qed.

Lemma merge_entries_app l k h :
  merge_entries (l ++ k) h = (h ← merge_entries l h; merge_entries k h).
Proof.
  revert h. induction l as [|[n v] l IH]; intros h; [done|].
  cbn [app merge_entries]. destruct (merge_entry n v h); [|done]. apply IH.
Qed.

Lemma merge_entries_list (l : list (jstr * jstr)) h :
  Forall (λ kv, stored kv.1 kv.2) l → NoDup (l.*1) →
  merge_entries (map (λ kv, (kv.1, VStr kv.2)) l) h = Return (list_to_map l ∪ h).
Proof.
  intros Hl Hnd. revert h. induction Hl as [|[n v] l Hs Hl IH]; intros h; [simpl; by rewrite map_empty_union|].
  apply NoDup_cons in Hnd as [Hn Hnd]. simpl in Hs, Hn.
  cbn [map merge_entries merge_entry typeof_object template_value to_js_string mbind outcome_bind fst snd].
  rewrite headers_set_stored by done. cbn [mbind outcome_bind]. rewrite IH by done.
  cbn [list_to_map foldr fst snd]. f_equal. rewrite <-insert_union_r, insert_union_l; [done|].
  by apply not_elem_of_list_to_map_1.
Qed.

(** Enumerating a [Headers] object and setting each entry adds all its headers: later ones win. *)
Lemma merge_entries_headers h h' :
  headers_ok h → merge_entries (init_entries (HHeaders h)) h' = Return (h ∪ h').
Proof.
  intros Hok. unfold init_entries, headersEntries.
  rewrite merge_entries_list, list_to_map_to_list; [done| |apply NoDup_fst_map_to_list].
  apply Forall_forall. intros [n v] Hin%elem_of_map_to_list. by apply Hok.
Qed.

Lemma drop_while_head p s c r : drop_while p s = c :: r → p c = false.
Proof. induction s as [|d s IH]; simpl; [done|]. destruct (p d) eqn:E; [auto|]. congruence. Qed.

Lemma drop_while_idem p s : drop_while p (drop_while p s) = drop_while p s.
Proof.
  destruct (drop_while p s) as [|c r] eqn:E; [done|]. apply drop_while_id. by eapply drop_while_head.
Qed.

Lemma drop_while_suffix p s : ∃ a, s = a ++ drop_while p s ∧ Forall (λ c, p c = true) a.
Proof.
  induction s as [|c s (a & Ha & Hp)]; [by exists []|]. simpl. destruct (p c) eqn:E.
  - exists (c :: a). simpl. split; [by f_equal|by constructor].
  - by exists [].
Qed.

Lemma strip_blanks_idem s : strip_blanks (strip_blanks s) = strip_blanks s.
Proof.
  unfold strip_blanks. set (t := drop_while header_blank s).
  assert (drop_while header_blank (rev (drop_while header_blank (rev t)))
          = rev (drop_while header_blank (rev t))) as ->; [|by rewrite rev_involutive, drop_while_idem].
  destruct (drop_while_suffix header_blank (rev t)) as (a & Ha & _).
  apply (f_equal (@rev N)) in Ha. rewrite rev_involutive, rev_app_distr in Ha.
  destruct (rev (drop_while header_blank (rev t))) as [|c r]; [done|].
  apply drop_while_id. apply (drop_while_head _ s c (r ++ rev a)). exact Ha.
Qed.

Lemma header_value_idem v w : header_value v = Some w → header_value w = Some w.
Proof.
  unfold header_value. destruct (forallb _ (strip_blanks v)) eqn:E; [|done].
  intros [= <-]. by rewrite strip_blanks_idem, E.
Qed.

Lemma lower_token c : token_char c = true → token_char (lower_ascii c) = true ∧ lower_ascii (lower_ascii c) = lower_ascii c.
Proof.
  unfold lower_ascii. destruct (is_upper c) eqn:E; [|by rewrite E].
  intros _. assert (is_upper (c + 32) = false) as -> by (unfold is_upper in *; lia).
  split; [|done]. unfold token_char, is_letter, is_lower, is_upper in *. lia.
Qed.

Lemma header_name_idem n m : header_name n = Some m → header_name m = Some m.
Proof.
  unfold header_name. destruct n as [|c n]; [done|].
  destruct (forallb token_char (c :: n)) eqn:E; [|done]. intros [= <-].
  assert (∀ l, forallb token_char l = true →
               forallb token_char (map lower_ascii l) = true ∧ map lower_ascii (map lower_ascii l) = map lower_ascii l) as H.
  { clear. induction l as [|c l IH]; [done|]. simpl. intros [Hc Hl]%andb_prop.
    destruct (lower_token c Hc) as [-> ->]. destruct (IH Hl) as [-> ->]. done. }
  destruct (H (c :: n) E) as [H1 H2]. simpl in *. rewrite H1. by rewrite H2.
Qed.

Lemma headers_set_ok n v h h' : headers_ok h → headers_set n v h = Return h' → headers_ok h'.
Proof.
  unfold headers_set. destruct (header_name n) eqn:En, (header_value v) eqn:Ev; try done.
  intros Hok [= <-]. apply map_Forall_insert_2; [|done].
  split; [by eapply header_name_idem|by eapply header_value_idem].
Qed.

Lemma headers_set_get n v h h' :
  headers_set n v h = Return h' → headers_get n h' = Return (header_value v).
Proof.
  unfold headers_set, headers_get. destruct (header_name n), (header_value v); try done.
  intros [= <-]. by rewrite lookup_insert_eq.
Qed.

(** Headers given as a list of pairs, which the type of the option allows, are misread: the
    list is enumerated like an object, so that its name and value become the values of a header
    named by the position, and the header itself is not sent. *)
Theorem pairs_headers_misread :
  mergeHeaders [Some (HObject (VArr [VArr [VStr "X-Tag"; VStr "a"]]))]
  = Return {["0"%js := "X-Tag, a"%js]}
  ∧ mergeHeaders [Some (HObject (VObj [("X-Tag"%js, VStr "a")]))]
  = Return {["x-tag"%js := "a"%js]}.
Proof. split; vm_compute; reflexivity. Qed.
