(* ===== verification/Sse.v ===== *)
(** * Server-sent events client

    Models [createSseClient] of [lib/api/core/serverSentEvents.gen.ts]: the
    parser that turns the text chunks of a response body into events, and the
    loop that reconnects with exponential backoff.

    The network is a parameter: [connection] says how one request ends, and a
    run of the stream is the list of the [action]s it takes, in order.  The
    headers of the options are a [Headers] object that every attempt shares and
    changes, or a record from which every attempt makes a new one. *)

From S2P Require Import Prelude JsString JsValue Json UrlBuilder Headers.

(** ** Parsing the body *)

(** [buffer.replace(/\r\n?/g, '\n')]. *)
Fixpoint normalize_newlines (s : jstr) : jstr :=
  match s with
  | [] => []
  | c :: r =>
      if (c =? CR)%N then
        LF :: match r with
              | d :: r' => if (d =? LF)%N then normalize_newlines r' else normalize_newlines r
              | [] => []
              end
      else c :: normalize_newlines r
  end.

(** What survives from one connection to the next. *)
Record stream_vars := StreamVars {
  lastEventId : option jstr;
  retryDelay : Z;
  attempt : nat;
}.

Record StreamEvent := mkStreamEvent {
  ev_data : jsval;
  ev_event : option jstr;
  ev_id : option jstr;
  ev_retry : Z;
}.

(** The variables of one chunk's line loop. *)
Record line_vars := LineVars {
  dataLines : list jstr;
  eventName : option jstr;
  line_id : option jstr;
  line_retry : Z;
}.

(** [line.replace(/^name\s*/, '')] for a line that starts with [name]. *)
Definition field_value (name line : jstr) : jstr := trim_start (drop (length name) line).

Definition process_line (a : line_vars) (line : jstr) : line_vars :=
  if startsWith "data:" line then
    LineVars (dataLines a ++ [field_value "data:" line]) (eventName a) (line_id a) (line_retry a)
  else if startsWith "event:" line then
    LineVars (dataLines a) (Some (field_value "event:" line)) (line_id a) (line_retry a)
  else if startsWith "id:" line then
    LineVars (dataLines a) (eventName a) (Some (field_value "id:" line)) (line_retry a)
  else if startsWith "retry:" line then
    LineVars (dataLines a) (eventName a) (line_id a)
      (default (line_retry a) (parseInt10 (field_value "retry:" line)))
  else a.

Record ServerSentEventsOptions := SseOptions {
  responseValidator : option (jsval → option jsval);      (* [Some e]: rejects with [e] *)
  responseTransformer : option (jsval → outcome jsval jsval);
  sseDefaultRetryDelay : option Z;
  sseMaxRetryAttempts : option Z;
  sseMaxRetryDelay : option Z;
}.

(** The data of a chunk: its JSON value, validated and transformed, or its raw text. *)
Definition chunk_data (o : ServerSentEventsOptions) (lines : list jstr) : outcome jsval jsval :=
  match lines with
  | [] => Return VUndefined
  | _ =>
      let rawData := js_join [LF] lines in
      match JSON_parse rawData with
      | None => Return (VStr rawData)
      | Some data =>
          match (validate ← responseValidator o; validate data) with
          | Some e => Throw e
          | None => match responseTransformer o with
                    | Some transform => transform data
                    | None => Return data
                    end
          end
      end
  end.

Inductive action :=
| Connect (h : headers)                     (* an attempt, with the headers of its request *)
| OnEvent (e : StreamEvent)                 (* [onSseEvent] *)
| Yield (data : jsval)                      (* the consumer receives [data] *)
| OnError (e : jsval)                       (* [onSseError] *)
| Sleep (ms : Z)
| Reject (e : jsval).                       (* the generator rejects *)

Definition set_line_vars (v : stream_vars) (a : line_vars) : stream_vars :=
  StreamVars (line_id a) (line_retry a) (attempt v).

(** One chunk: its lines, then [onSseEvent], then the data is yielded when it has any.  The
    result says what was done and the error that ended it. *)
Definition process_chunk (o : ServerSentEventsOptions) (v : stream_vars) (chunk : jstr)
  : stream_vars * list action * option jsval :=
  let a := foldl process_line (LineVars [] None (lastEventId v) (retryDelay v)) (js_split [LF] chunk) in
  let v' := set_line_vars v a in
  match chunk_data o (dataLines a) with
  | Throw e => (v', [], Some e)
  | Return data =>
      (v', OnEvent (mkStreamEvent data (eventName a) (lastEventId v') (retryDelay v'))
             :: match dataLines a with [] => [] | _ => [Yield data] end,
       None)
  end.

Fixpoint process_chunks (o : ServerSentEventsOptions) (v : stream_vars) (chunks : list jstr)
  : stream_vars * list action * option jsval :=
  match chunks with
  | [] => (v, [], None)
  | c :: r =>
      match process_chunk o v c with
      | (v', acts, Some e) => (v', acts, Some e)
      | (v', acts, None) =>
          let '(v'', acts', e) := process_chunks o v' r in (v'', acts ++ acts', e)
      end
  end.

(** [chunks.pop()]: the complete chunks and the unfinished one. *)
Definition pop_last (l : list jstr) : list jstr * jstr := (removelast l, List.last l []).

(** One [reader.read()] that returns [value]. *)
Definition feed (o : ServerSentEventsOptions) (v : stream_vars) (buffer value : jstr)
  : stream_vars * jstr * list action * option jsval :=
  let '(chunks, rest) := pop_last (js_split [LF; LF] (normalize_newlines (buffer ++ value))) in
  let '(v', acts, e) := process_chunks o v chunks in
  (v', rest, acts, e).

(** The read loop over the values of a body. *)
Fixpoint read_body (o : ServerSentEventsOptions) (v : stream_vars) (buffer : jstr) (values : list jstr)
  : stream_vars * jstr * list action * option jsval :=
  match values with
  | [] => (v, buffer, [], None)
  | x :: r =>
      match feed o v buffer x with
      | (v', b, acts, Some e) => (v', b, acts, Some e)
      | (v', b, acts, None) =>
          let '(v'', b', acts', e) := read_body o v' b r in (v'', b', acts ++ acts', e)
      end
  end.

(** ** Reconnecting *)

(** How one request ends. *)
Inductive connection :=
| RequestFails (e : jsval)                          (* [onRequest] or [fetch] rejects *)
| NotOk (status : Z) (statusText : jstr)
| NoBody
| Body (values : list jstr) (broken : option jsval). (* the values read, then done or an error *)

Definition error_with (message : jstr) : jsval :=
  VInstance [("name"%js, VStr "Error"); ("message"%js, VStr message)].

(** The body of the [try]: [None] is the normal completion. *)
Definition run_connection (o : ServerSentEventsOptions) (v : stream_vars) (c : connection)
  : stream_vars * list action * option jsval :=
  match c with
  | RequestFails e => (v, [], Some e)
  | NotOk status text =>
      (v, [], Some (error_with ("SSE failed: " ++ string_of_Z status ++ " " ++ text)))
  | NoBody => (v, [], Some (error_with "No body in SSE response"))
  | Body values broken =>
      let '(v', _, acts, e) := read_body o v [] values in
      (v', acts, match e with Some e => Some e | None => broken end)
  end.

Definition max_reached (o : ServerSentEventsOptions) (attempt : nat) : bool :=
  match sseMaxRetryAttempts o with Some m => (m <=? Z.of_nat attempt)%Z | None => false end.

Definition backoff (o : ServerSentEventsOptions) (v : stream_vars) : Z :=
  Z.min (retryDelay v * 2 ^ (Z.of_nat (attempt v) - 1)) (default 30000%Z (sseMaxRetryDelay o)).

(** [options.headers]: a [Headers] object, or the entries of a record, none when there is none. *)
Inductive sse_headers :=
| HeadersObject (h : headers)
| HeadersRecord (entries : list (jstr * jstr)).

(** [new Headers(record)]. *)
Fixpoint new_Headers (entries : list (jstr * jstr)) (h : headers) : outcome jsval headers :=
  match entries with
  | [] => Return h
  | (name, value) :: r => h ← headers_append name value h; new_Headers r h
  end.

Definition base_headers (hs : sse_headers) : outcome jsval headers :=
  match hs with HeadersObject h => Return h | HeadersRecord l => new_Headers l ∅ end.

(** The headers of one attempt: [set] throws when the id is not a value a header can have. *)
Definition attempt_headers (hs : sse_headers) (id : option jstr) : outcome jsval headers :=
  h ← base_headers hs;
  match id with Some id => headers_set "Last-Event-ID" id h | None => Return h end.

(** The options after an attempt: the object it was given has been changed. *)
Definition after_attempt (hs : sse_headers) (h : headers) : sse_headers :=
  match hs with HeadersObject _ => HeadersObject h | HeadersRecord l => HeadersRecord l end.

Section stream.
Context (o : ServerSentEventsOptions).
(** How the request of each attempt ends, from attempt 1, and whether the signal is aborted when
    the loop comes to it. *)
Context (network : nat → headers → connection) (aborted : nat → bool).

(** The generator from the head of its loop; [None] when the fuel runs out.  The headers are made
    before the [try]: an error there is not retried. *)
Fixpoint createStream (fuel : nat) (hs : sse_headers) (v : stream_vars) : option (list action) :=
  match fuel with
  | O => None
  | S fuel' =>
      let n := S (attempt v) in
      if aborted n then Some [] else
      let v := StreamVars (lastEventId v) (retryDelay v) n in
      match attempt_headers hs (lastEventId v) with
      | Throw e => Some [Reject e]
      | Return h =>
          let '(v', acts, e) := run_connection o v (network n h) in
          match e with
          | None => Some (Connect h :: acts)
          | Some e =>
              if max_reached o n then Some (Connect h :: acts ++ [OnError e])
              else rest ← createStream fuel' (after_attempt hs h) v';
                   Some (Connect h :: acts ++ [OnError e; Sleep (backoff o v')] ++ rest)
          end
      end
  end.

Definition initial_vars : stream_vars :=
  StreamVars None (default 3000%Z (sseDefaultRetryDelay o)) 0.

Definition createSseClient (fuel : nat) (hs : sse_headers) : option (list action) :=
  createStream fuel hs initial_vars.
End stream.

Definition yields (l : list action) : list jsval :=
  omap (λ a, match a with Yield d => Some d | _ => None end) l.
Definition connects (l : list action) : list headers :=
  omap (λ a, match a with Connect h => Some h | _ => None end) l.
Definition sleeps (l : list action) : list Z :=
  omap (λ a, match a with Sleep ms => Some ms | _ => None end) l.

Definition no_options : ServerSentEventsOptions := SseOptions None None None (Some 3)%Z None.

Example sse_example :
  createSseClient no_options
    (λ n _, if (n =? 1)%nat
            then Body ["id: 7" ++ [LF] ++ "data: 1" ++ [LF]; [LF] ++ "data: x"] (Some VNull)
            else Body ["data: y" ++ [LF; LF]] None)
    (λ _, false) 3 (HeadersRecord [("X-Tag"%js, "a"%js)])
  = Some [Connect {["x-tag"%js := "a"%js]};
          OnEvent (mkStreamEvent (VInt 1) None (Some "7"%js) 3000); Yield (VInt 1);
          OnError VNull; Sleep 3000;
          Connect {["last-event-id"%js := "7"%js; "x-tag"%js := "a"%js]};
          OnEvent (mkStreamEvent (VStr "y") None (Some "7"%js) 3000); Yield (VStr "y")].
Proof. vm_compute. reflexivity. Qed.

(** ** The text of the body, chunk by chunk *)

Lemma normalize_newlines_app (a b : jstr) :
  (last a = Some CR → head b ≠ Some LF) →
  normalize_newlines (a ++ b) = normalize_newlines a ++ normalize_newlines b.
Proof.
  revert b. induction a as [|c|c d a IH IH'] using jstr_pair_ind; intros b H; [done|..].
  - simpl in *. destruct (c =? CR)%N eqn:E; [|done]. apply N.eqb_eq in E as ->.
    destruct b as [|d b]; [done|]. destruct (d =? LF)%N eqn:E; [|done].
    apply N.eqb_eq in E as ->. by destruct (H eq_refl).
  - assert (normalize_newlines ((d :: a) ++ b) = normalize_newlines (d :: a) ++ normalize_newlines b)
      as Hd by (apply IH'; exact H).
    cbn [normalize_newlines app] in Hd |- *. destruct (c =? CR)%N; [|by rewrite Hd].
    destruct (d =? LF)%N eqn:E; [|by rewrite Hd].
    rewrite IH; [done|]. intros Ha. apply H. destruct a; [done | exact Ha].
Qed.

Lemma normalize_newlines_no_cr (s : jstr) : CR ∉ normalize_newlines s.
Proof.
  induction s as [|c|c d s IH IH'] using jstr_pair_ind; simpl.
  - apply not_elem_of_nil.
  - destruct (c =? CR)%N eqn:E; rewrite list_elem_of_singleton; [done|]. by apply N.eqb_neq in E.
  - cbn [normalize_newlines] in IH'. destruct (c =? CR)%N eqn:E.
    + destruct (d =? LF)%N; apply not_elem_of_cons; auto.
    + apply N.eqb_neq in E. apply not_elem_of_cons; auto.
Qed.

Lemma normalize_newlines_id s : CR ∉ s → normalize_newlines s = s.
Proof.
  induction s as [|c r IH]; [done|]. intros [Hc Hr]%not_elem_of_cons. simpl.
  replace (c =? CR)%N with false by (symmetry; apply N.eqb_neq; congruence). by rewrite IH.
Qed.

Lemma last_not_cr s : CR ∉ s → last s ≠ Some CR.
Proof. intros H Hl. apply last_Some_elem_of in Hl. done. Qed.

Lemma buffer_normalize b x :
  CR ∉ b → normalize_newlines (b ++ x) = b ++ normalize_newlines x.
Proof.
  intros H. rewrite normalize_newlines_app by (intros Hl; by apply last_not_cr in Hl).
  by rewrite (normalize_newlines_id b).
Qed.

Lemma js_split_elem p s x c : p ≠ [] → x ∈ js_split p s → c ∈ x → c ∈ s.
Proof.
  intros Hp. remember (length s) as n eqn:Hn. revert s Hn.
  induction n as [n IH] using lt_wf_ind; intros s -> Hx Hc.
  rewrite js_split_eq in Hx by done. destruct (find_sub p s) as [[a b]|] eqn:Hf.
  - apply find_sub_shorter in Hf as Hlt; [|done]. apply find_sub_Some in Hf as ->.
    apply elem_of_cons in Hx as [->|Hx]; apply elem_of_app; [by left|right].
    apply elem_of_app; right. by apply (IH (length b)).
  - by apply list_elem_of_singleton in Hx as ->.
Qed.

Lemma process_chunks_app o v c1 c2 :
  process_chunks o v (c1 ++ c2) =
    match process_chunks o v c1 with
    | (v', acts, Some e) => (v', acts, Some e)
    | (v', acts, None) => let '(v'', acts', e) := process_chunks o v' c2 in (v'', acts ++ acts', e)
    end.
Proof.
  revert v. induction c1 as [|c r IH]; intros v; simpl.
  - by destruct (process_chunks o v c2) as [[? ?] ?].
  - destruct (process_chunk o v c) as [[v' acts] [e|]]; [done|]. rewrite IH.
    destruct (process_chunks o v' r) as [[v'' acts'] [e|]]; [done|].
    destruct (process_chunks o v'' c2) as [[v3 acts3] e3]. by rewrite app_assoc.
Qed.

Lemma pop_last_app cs x : pop_last (cs ++ [x]) = (cs, x).
Proof. unfold pop_last. by rewrite removelast_last, List.last_last. Qed.

(** No CR LF pair straddles two of the values. *)
Fixpoint crlf_unsplit (values : list jstr) : Prop :=
  match values with
  | [] => True
  | x :: r => (last x = Some CR → head (concat r) ≠ Some LF) ∧ crlf_unsplit r
  end.

(** What the whole text of a body, arriving at once, makes the parser do. *)
Definition parse_text (o : ServerSentEventsOptions) (v : stream_vars) (text : jstr)
  : stream_vars * list action * option jsval :=
  process_chunks o v (pop_last (js_split [LF; LF] (normalize_newlines text))).1.

Lemma read_body_buffer o v b values :
  CR ∉ b → js_split [LF; LF] b = [b] → crlf_unsplit values →
  (let '(v', _, acts, e) := read_body o v b values in (v', acts, e)) =
  process_chunks o v (pop_last (js_split [LF; LF] (b ++ normalize_newlines (concat values)))).1.
Proof.
  revert v b. induction values as [|x r IH]; intros v b Hb Hs Hv.
  - simpl. by rewrite app_nil_r, Hs.
  - destruct Hv as [Hx Hv]. cbn [read_body concat]. unfold feed.
    rewrite buffer_normalize, (normalize_newlines_app x), app_assoc by done.
    destruct (js_split_app [LF; LF] (b ++ normalize_newlines x) (normalize_newlines (concat r)))
      as (cs & rest & Hcs & Hrest & Happ); [done|].
    rewrite Hcs, pop_last_app, Happ.
    assert (CR ∉ rest) as Hcr.
    { intros Hin. assert (CR ∈ b ++ normalize_newlines x) as Hin'.
      - apply (js_split_elem [LF; LF] _ rest); [done|rewrite Hcs; set_solver|done].
      - apply elem_of_app in Hin' as [?|?%normalize_newlines_no_cr]; done. }
    specialize (IH (process_chunks o v cs).1.1 rest Hcr Hrest Hv).
    destruct (exists_last (js_split_nonempty [LF; LF] (rest ++ normalize_newlines (concat r))))
      as (ys & y & Hy).
    rewrite Hy, pop_last_app in IH. rewrite Hy, app_assoc, pop_last_app. simpl fst in IH |- *.
    rewrite process_chunks_app.
    destruct (process_chunks o v cs) as [[v' acts] [e|]]; [done|]. simpl in IH.
    destruct (read_body o v' rest r) as [[[v'' b''] acts'] e']. by rewrite <-IH.
Qed.
