(* ===== verification/SseSpec.v ===== *)
(** * Server-sent events: what the client promises

    A specification of the event stream as a server writes it (a list of
    events, each a list of fields), the refinement theorem that the parser of
    [Sse] implements it, and the properties of chunking and reconnecting. *)

From S2P Require Import Prelude JsString JsValue Json UrlBuilder Headers Sse.

(** ** The stream a server writes *)

Inductive field :=
| FData (line : jstr)
| FEvent (name : jstr)
| FId (id : jstr)
| FRetry (ms : N)
| FComment (text : jstr).

Definition render_field (f : field) : jstr :=
  match f with
  | FData d => "data: " ++ d
  | FEvent n => "event: " ++ n
  | FId i => "id: " ++ i
  | FRetry n => "retry: " ++ digits_of_N n
  | FComment t => ":" ++ t
  end.

(** An event ends with an empty line; [nl] is the server's line ending. *)
Definition render_event (nl : jstr) (fs : list field) : jstr :=
  concat (map (λ f, render_field f ++ nl) fs) ++ nl.
Definition render_stream (nl : jstr) (evs : list (list field)) : jstr :=
  concat (map (render_event nl) evs).

(** Text that stays on one line and keeps its first character when leading blanks go. *)
Definition one_line (s : jstr) : Prop := (LF ∉ s) ∧ (CR ∉ s).
Definition field_text (s : jstr) : Prop := one_line s ∧ not_space_head s.
Definition field_ok (f : field) : Prop :=
  match f with
  | FData s | FEvent s | FId s => field_text s
  | FRetry _ => True
  | FComment s => one_line s
  end.
Definition event_ok (fs : list field) : Prop := fs ≠ [] ∧ Forall field_ok fs.

(** ** What an event means *)

Definition field_data (f : field) : option jstr := match f with FData d => Some d | _ => None end.
Definition field_name (f : field) : option jstr := match f with FEvent n => Some n | _ => None end.
Definition field_id (f : field) : option jstr := match f with FId i => Some i | _ => None end.
Definition field_retry (f : field) : option Z := match f with FRetry n => Some (double_of_Z (Z.of_N n)) | _ => None end.

(** The last value a field gives, if any, else what it was before. *)
Definition latest {A} (before : option A) (given : list A) : option A :=
  match last given with Some x => Some x | None => before end.

Definition event_vars (v : stream_vars) (fs : list field) : stream_vars :=
  StreamVars (latest (lastEventId v) (omap field_id fs))
             (default (retryDelay v) (last (omap field_retry fs))) (attempt v).

Definition event_actions (o : ServerSentEventsOptions) (v : stream_vars) (fs : list field)
  : list action * option jsval :=
  match chunk_data o (omap field_data fs) with
  | Throw e => ([], Some e)
  | Return d =>
      let v' := event_vars v fs in
      (OnEvent (mkStreamEvent d (last (omap field_name fs)) (lastEventId v') (retryDelay v'))
         :: match omap field_data fs with [] => [] | _ => [Yield d] end, None)
  end.

Fixpoint stream_actions (o : ServerSentEventsOptions) (v : stream_vars) (evs : list (list field))
  : stream_vars * list action * option jsval :=
  match evs with
  | [] => (v, [], None)
  | fs :: r =>
      match event_actions o v fs with
      | (acts, Some e) => (event_vars v fs, acts, Some e)
      | (acts, None) =>
          let '(v', acts', e) := stream_actions o (event_vars v fs) r in (v', acts ++ acts', e)
      end
  end.

(** ** The parser on one rendered event *)

Lemma field_value_text (name s : jstr) :
  not_space_head s → field_value name (name ++ (32%N :: s)) = s.
Proof.
  intros H. unfold field_value. rewrite drop_app_length. unfold trim_start.
  cbn [drop_while]. replace (is_space 32) with true by done. by apply trim_start_id.
Qed.

Definition step_field (a : line_vars) (f : field) : line_vars :=
  match f with
  | FData d => LineVars (dataLines a ++ [d]) (eventName a) (line_id a) (line_retry a)
  | FEvent n => LineVars (dataLines a) (Some n) (line_id a) (line_retry a)
  | FId i => LineVars (dataLines a) (eventName a) (Some i) (line_retry a)
  | FRetry n => LineVars (dataLines a) (eventName a) (line_id a) (double_of_Z (Z.of_N n))
  | FComment _ => a
  end.

Lemma digits_field_text n : field_text (digits_of_N n).
Proof.
  destruct (digits_of_N_spec n) as (Hd & _ & _ & _).
  assert (∀ c, is_digit c = true → c ≠ LF ∧ c ≠ CR ∧ is_space c = false) as H
    by (unfold is_digit, is_space, LF, CR; lia).
  rewrite Forall_forall in Hd. unfold field_text, one_line, not_space_head.
  repeat split; try (intros Hin; by apply Hd, H in Hin as (? & ? & ?)).
  destruct (digits_of_N n) as [|c r] eqn:E; [done|]. apply H, Hd. by left.
Qed.

Lemma process_field a f : field_ok f → process_line a (render_field f) = step_field a f.
Proof.
  destruct f as [d|n|i|n|t]; intros H; unfold process_line, render_field, step_field.
  - change ("data: " ++ d) with ("data:" ++ (32%N :: d)). rewrite startsWith_app.
    by rewrite field_value_text by apply H.
  - change ("event: " ++ n) with ("event:" ++ (32%N :: n)).
    replace (startsWith "data:" _) with false by done. rewrite startsWith_app.
    by rewrite field_value_text by apply H.
  - change ("id: " ++ i) with ("id:" ++ (32%N :: i)).
    replace (startsWith "data:" _) with false by done.
    replace (startsWith "event:" _) with false by done. rewrite startsWith_app.
    by rewrite field_value_text by apply H.
  - change ("retry: " ++ ?x) with ("retry:" ++ (32%N :: x)).
    replace (startsWith "data:" _) with false by done.
    replace (startsWith "event:" _) with false by done.
    replace (startsWith "id:" _) with false by done. rewrite startsWith_app.
    rewrite field_value_text by apply digits_field_text. by rewrite parseInt10_digits.
  - done.
Qed.

Lemma latest_cons {A} (b : option A) x l : latest b (x :: l) = latest (Some x) l.
Proof. unfold latest. rewrite last_cons. by destruct (last l). Qed.

Lemma default_last_cons {A} (d : A) x l : default d (last (x :: l)) = default x (last l).
Proof. rewrite last_cons. by destruct (last l). Qed.

Lemma step_fields a fs :
  foldl step_field a fs =
    LineVars (dataLines a ++ omap field_data fs) (latest (eventName a) (omap field_name fs))
             (latest (line_id a) (omap field_id fs))
             (default (line_retry a) (last (omap field_retry fs))).
Proof.
  revert a. induction fs as [|f fs IH]; intros a.
  - destruct a; simpl. by rewrite app_nil_r.
  - cbn [foldl]. rewrite IH. destruct f; cbn -[last]; rewrite ?latest_cons, ?default_last_cons, <-?app_assoc; done.
Qed.

Lemma process_fields a fs :
  Forall field_ok fs → foldl process_line a (map render_field fs) = foldl step_field a fs.
Proof.
  intros H. revert a. induction H as [|f fs Hf Hfs IH]; intros a; [done|].
  cbn [map foldl]. by rewrite process_field, IH.
Qed.

(** ** Cutting the text into events and lines *)

Lemma find_sub_blank_line ls r :
  ls ≠ [] → Forall (λ l, (LF ∉ l) ∧ l ≠ []) ls →
  find_sub [LF; LF] (js_join [LF] ls ++ LF :: LF :: r) = Some (js_join [LF] ls, r).
Proof.
  intros Hne H. induction H as [|x ls [Hx Hx'] Hls IH]; [done|]. destruct ls as [|y ls].
  - cbn [js_join]. rewrite (find_sub_skip [LF; LF] x _ LF) by done.
    replace (find_sub [LF; LF] (LF :: LF :: r)) with (Some ([] : jstr, r)) by done.
    by rewrite app_nil_r.
  - rewrite js_join_cons, <-!app_assoc. rewrite (find_sub_skip [LF; LF] x _ LF) by done.
    cbn [app]. rewrite find_sub_cons; [by rewrite IH|].
    apply Forall_cons in Hls as [[Hy Hy'] _]. destruct y as [|c y]; [done|].
    apply not_elem_of_cons in Hy as [Hc _]. apply not_true_iff_false.
    rewrite startsWith_iff. intros [r' Hr]. destruct ls; simpl in Hr; congruence.
Qed.

Lemma render_field_line f : field_ok f → (LF ∉ render_field f) ∧ (CR ∉ render_field f) ∧ render_field f ≠ [].
Proof.
  assert (∀ s, one_line s → ∀ p, LF ∉ p → CR ∉ p → (LF ∉ p ++ s) ∧ (CR ∉ p ++ s)) as Hp.
  { intros s [H1 H2] p H3 H4. rewrite !not_elem_of_app. done. }
  intros H. cut ((LF ∉ render_field f) ∧ (CR ∉ render_field f)).
  { intros [? ?]. split; [done|]. split; [done|]. by destruct f. }
  destruct f; apply Hp; try apply H; try apply digits_field_text; by apply (bool_decide_unpack _).
Qed.

(** The chunk of an event: its lines. *)
Definition event_chunk (fs : list field) : jstr := js_join [LF] (map render_field fs).

Lemma render_event_chunk fs :
  fs ≠ [] → render_event [LF] fs = event_chunk fs ++ [LF; LF].
Proof.
  unfold render_event, event_chunk. induction fs as [|f fs IH]; [done|]; intros _.
  destruct fs as [|g fs]; [simpl; by rewrite app_nil_r, <-app_assoc|].
  cbn [map concat] in IH |- *. rewrite js_join_cons, <-!app_assoc. simpl. do 2 f_equal.
  rewrite <-!app_assoc in IH. apply IH. done.
Qed.

Lemma split_stream evs :
  Forall event_ok evs →
  js_split [LF; LF] (render_stream [LF] evs) = map event_chunk evs ++ [[]].
Proof.
  induction 1 as [|fs evs [Hne Hfs] Hevs IH]; [done|]. unfold render_stream in *. cbn [map concat].
  rewrite render_event_chunk, <-app_assoc, js_split_eq by done. cbn [app].
  unfold event_chunk at 1. rewrite find_sub_blank_line.
  - by rewrite IH.
  - by destruct fs.
  - apply Forall_map. eapply Forall_impl; [exact Hfs|]. intros f Hf.
    by apply render_field_line in Hf as (? & ? & ?).
Qed.

(** ** Line endings *)

Definition newline (nl : jstr) : Prop := nl = [LF] ∨ nl = [CR; LF] ∨ nl = [CR].

Definition unlines (nl : jstr) (ls : list jstr) : jstr := concat (map (λ l, l ++ nl) ls).

Definition event_lines (fs : list field) : list jstr := map render_field fs ++ [[]].

Lemma unlines_app nl a b : unlines nl (a ++ b) = unlines nl a ++ unlines nl b.
Proof. unfold unlines. by rewrite map_app, concat_app. Qed.

Lemma render_stream_lines nl evs :
  render_stream nl evs = unlines nl (concat (map event_lines evs)).
Proof.
  induction evs as [|fs evs IH]; [done|]. unfold render_stream in *. cbn [map concat].
  rewrite IH, unlines_app. unfold event_lines. rewrite unlines_app. unfold render_event, unlines.
  rewrite !map_map. simpl. by rewrite app_nil_r.
Qed.

Lemma normalize_unlines nl ls :
  newline nl → Forall one_line ls → normalize_newlines (unlines nl ls) = unlines [LF] ls.
Proof.
  intros Hnl. induction 1 as [|l ls [Hl1 Hl2] Hls IH]; [done|]. unfold unlines in *.
  cbn [map concat]. rewrite <-!app_assoc, buffer_normalize by done. f_equal.
  destruct Hnl as [->|[->| ->]]; cbn [app]; cbn [normalize_newlines].
  - by rewrite IH.
  - change (CR =? CR)%N with true. change (LF =? LF)%N with true. cbn [normalize_newlines]. by rewrite IH.
  - change (CR =? CR)%N with true. cbv iota. f_equal.
    destruct ls as [|[|c l2] ls]; [done|..]; cbn [map concat app] in IH |- *.
    + change (CR =? LF)%N with false. by rewrite <-IH.
    + apply Forall_cons in Hls as [[Hc _] _]. apply not_elem_of_cons in Hc as [Hc _].
      replace (c =? LF)%N with false by (symmetry; apply N.eqb_neq; congruence). by rewrite <-IH.
Qed.

Lemma event_lines_ok fs : event_ok fs → Forall one_line (event_lines fs).
Proof.
  intros [_ Hfs]. unfold event_lines. apply Forall_app. split.
  - apply Forall_map. eapply Forall_impl; [exact Hfs|]. intros f Hf.
    by apply render_field_line in Hf as (? & ? & ?).
  - repeat constructor; apply not_elem_of_nil.
Qed.

Lemma normalize_stream nl evs :
  newline nl → Forall event_ok evs →
  normalize_newlines (render_stream nl evs) = render_stream [LF] evs.
Proof.
  intros Hnl Hevs. rewrite !render_stream_lines. apply normalize_unlines; [done|].
  apply Forall_concat, Forall_map. eapply Forall_impl; [exact Hevs|]. apply event_lines_ok.
Qed.

Lemma process_event_chunk o v fs :
  event_ok fs →
  process_chunk o v (event_chunk fs) = let '(acts, e) := event_actions o v fs in (event_vars v fs, acts, e).
Proof.
  intros [Hne Hfs]. unfold process_chunk, event_chunk, event_actions.
  rewrite (js_split_join LF), process_fields, step_fields; [|done|by destruct fs|].
  - cbn [dataLines eventName line_id line_retry app]. unfold set_line_vars, event_vars.
    cbn [dataLines eventName line_id line_retry app]. unfold latest at 2.
    destruct (chunk_data o (omap field_data fs)); [|done].
    by destruct (last (omap field_name fs)).
  - apply Forall_map. eapply Forall_impl; [exact Hfs|]. intros f Hf.
    by apply render_field_line in Hf as (? & ? & ?).
Qed.

Lemma process_event_chunks o v evs :
  Forall event_ok evs → process_chunks o v (map event_chunk evs) = stream_actions o v evs.
Proof.
  intros H. revert v. induction H as [|fs evs Hfs Hevs IH]; intros v; [done|].
  cbn [map process_chunks stream_actions]. rewrite process_event_chunk by done.
  destruct (event_actions o v fs) as [acts [e|]]; [done|]. by rewrite IH.
Qed.

Lemma parse_rendered o v nl evs :
  newline nl → Forall event_ok evs → parse_text o v (render_stream nl evs) = stream_actions o v evs.
Proof.
  intros Hnl Hevs. unfold parse_text.
  rewrite normalize_stream, split_stream, pop_last_app by done. by apply process_event_chunks.
Qed.

(** ** Properties of the parser *)

(** C23. The chunks the network cuts a body into do not matter: as long as no CR LF pair is split
    between two of them, reading them one by one takes the same actions, ends with the same
    error and leaves the same variables as parsing the whole text at once. *)
Theorem sse_chunking_irrelevant o v values :
  crlf_unsplit values →
  (let '(v', _, acts, e) := read_body o v [] values in (v', acts, e)) = parse_text o v (concat values).
Proof.
  intros H. rewrite read_body_buffer; [done|apply not_elem_of_nil|done|done].
Qed.

Lemma sse_chunking_irrelevant_witness :
  crlf_unsplit ["data: a"; [LF]; [LF] ++ "da"; "ta: 2" ++ [LF; LF]]
  ∧ (let '(v', _, acts, e) :=
       read_body no_options (StreamVars None 3000 1) [] ["data: a"; [LF]; [LF] ++ "da"; "ta: 2" ++ [LF; LF]]
     in (v', acts, e))
    = parse_text no_options (StreamVars None 3000 1)
        (concat ["data: a"; [LF]; [LF] ++ "da"; "ta: 2" ++ [LF; LF]]).
Proof.
  split; [vm_compute; repeat split; intros H; discriminate H|].
  apply sse_chunking_irrelevant. vm_compute; repeat split; intros H; discriminate H.
Defined.

(** The restriction on CR LF pairs of [sse_chunking_irrelevant] is needed: when a chunk ends between the CR and the LF
    of one line end, the parser sees two line ends, and the data lines of one event arrive as two
    events. *)
Theorem sse_split_crlf_cuts_event :
  let whole := "data: a" ++ [CR; LF] ++ "data: b" ++ [CR; LF; CR; LF] in
  let first := "data: a" ++ [CR] in
  let second := [LF] ++ "data: b" ++ [CR; LF; CR; LF] in
  let v := StreamVars None 3000 1 in
  first ++ second = whole
  ∧ yields (read_body no_options v [] [whole]).1.2 = [VStr ("a" ++ [LF] ++ "b")]
  ∧ yields (read_body no_options v [] [first; second]).1.2 = [VStr "a"; VStr "b"].
Proof. vm_compute. done. Qed.

(** C1. The parser implements the event stream format: whatever fields a server writes, with any of
    the three line endings and cut anywhere but inside a CR LF, the client takes the actions the
    events mean (their data lines joined and parsed as JSON when they are, the last id and retry
    kept, comments ignored), one event after another until a validator or transformer rejects. *)
Theorem sse_parser_refines_stream o v nl evs values :
  newline nl → Forall event_ok evs → concat values = render_stream nl evs → crlf_unsplit values →
  (let '(v', _, acts, e) := read_body o v [] values in (v', acts, e)) = stream_actions o v evs.
Proof.
  intros Hnl Hevs Hval Hcr. rewrite read_body_buffer; [|apply not_elem_of_nil|done|done].
  rewrite Hval. by apply parse_rendered.
Qed.

Lemma sse_parser_refines_stream_witness :
  let evs := [[FId "7"; FData "1"]; [FComment " ping"]; [FEvent "x"; FData "a"; FData "b"; FRetry 50]] in
  let values := ["id: 7" ++ [CR; LF] ++ "data: 1" ++ [CR; LF; CR; LF] ++ ": ping" ++ [CR; LF; CR; LF] ++ "event";
                 ": x" ++ [CR; LF] ++ "data: a" ++ [CR; LF] ++ "data: b" ++ [CR; LF]
                 ++ "retry: 50" ++ [CR; LF; CR; LF]] in
  (let '(v', _, acts, e) := read_body no_options (StreamVars None 3000 1) [] values in (v', acts, e))
  = stream_actions no_options (StreamVars None 3000 1) evs.
Proof.
  apply (sse_parser_refines_stream _ _ [CR; LF]).
  - right; left; reflexivity.
  - assert (∀ s : jstr, forallb (λ c, negb ((c =? LF) || (c =? CR)))%N s = true → one_line s) as H1.
    { intros s Hs. rewrite forallb_forall in Hs. unfold one_line.
      split; intros Hin%list_elem_of_In%Hs; discriminate Hin. }
    repeat (apply Forall_cons; split); try apply Forall_nil_2;
      (split; [discriminate|]); repeat (apply Forall_cons; split); try apply Forall_nil_2;
      repeat split; try (apply H1; reflexivity); reflexivity.
  - vm_compute; reflexivity.
  - vm_compute; repeat split; intros H; discriminate H.
Defined.

(** ** Reconnecting *)

Lemma connects_app a b : connects (a ++ b) = connects a ++ connects b.
Proof. apply omap_app. Qed.
Lemma sleeps_app a b : sleeps (a ++ b) = sleeps a ++ sleeps b.
Proof. apply omap_app. Qed.
#[export] Hint Rewrite connects_app sleeps_app : js.

(** The body of a connection makes no request and does not wait. *)
Definition quiet (a : action) : Prop :=
  match a with OnEvent _ | Yield _ => True | _ => False end.

Lemma process_chunk_quiet o v c : Forall quiet (process_chunk o v c).1.2.
Proof.
  unfold process_chunk. destruct (chunk_data o _); simpl; [|constructor].
  case_match; repeat constructor.
Qed.

Lemma process_chunks_quiet o v cs : Forall quiet (process_chunks o v cs).1.2.
Proof.
  revert v. induction cs as [|c cs IH]; intros v; simpl; [constructor|].
  pose proof (process_chunk_quiet o v c) as Hq. destruct (process_chunk o v c) as [[v' acts] [e|]]; [done|].
  specialize (IH v'). destruct (process_chunks o v' cs) as [[v'' acts'] e']. simpl in *. by apply Forall_app.
Qed.

Lemma read_body_quiet o v b vs : Forall quiet (read_body o v b vs).1.2.
Proof.
  revert v b. induction vs as [|x vs IH]; intros v b; simpl; [constructor|].
  unfold feed. destruct (pop_last _) as [chunks rest].
  pose proof (process_chunks_quiet o v chunks) as Hq.
  destruct (process_chunks o v chunks) as [[v' acts] [e|]]; [done|].
  specialize (IH v' rest). destruct (read_body o v' rest vs) as [[[v'' b''] acts'] e'].
  simpl in *. by apply Forall_app.
Qed.

Lemma process_chunk_attempt o v c : attempt (process_chunk o v c).1.1 = attempt v.
Proof. unfold process_chunk. by destruct (chunk_data o _). Qed.

Lemma process_chunks_attempt o v cs : attempt (process_chunks o v cs).1.1 = attempt v.
Proof.
  revert v. induction cs as [|c cs IH]; intros v; simpl; [done|].
  pose proof (process_chunk_attempt o v c) as Ha. destruct (process_chunk o v c) as [[v' acts] [e|]]; [done|].
  specialize (IH v'). destruct (process_chunks o v' cs) as [[v'' acts'] e']. simpl in *. congruence.
Qed.

Lemma read_body_attempt o v b vs : attempt (read_body o v b vs).1.1.1 = attempt v.
Proof.
  revert v b. induction vs as [|x vs IH]; intros v b; simpl; [done|].
  unfold feed. destruct (pop_last _) as [chunks rest].
  pose proof (process_chunks_attempt o v chunks) as Ha.
  destruct (process_chunks o v chunks) as [[v' acts] [e|]]; [done|].
  specialize (IH v' rest). destruct (read_body o v' rest vs) as [[[v'' b''] acts'] e'].
  simpl in *. congruence.
Qed.

Lemma run_connection_inv o v c :
  Forall quiet (run_connection o v c).1.2 ∧ attempt (run_connection o v c).1.1 = attempt v.
Proof.
  destruct c as [e|st tx| |vs br]; try (split; [constructor | done]). simpl.
  pose proof (read_body_quiet o v [] vs) as Hq. pose proof (read_body_attempt o v [] vs) as Ha.
  by destruct (read_body o v [] vs) as [[[v' b'] acts] e].
Qed.

Lemma quiet_connects l : Forall quiet l → connects l = [].
Proof. induction 1 as [|a l Ha Hl IH]; [done|]. by destruct a. Qed.
Lemma quiet_sleeps l : Forall quiet l → sleeps l = [].
Proof. induction 1 as [|a l Ha Hl IH]; [done|]. by destruct a. Qed.
#[export] Hint Rewrite quiet_connects quiet_sleeps using done : js.

(** The variables an attempt starts with. *)
Definition at_attempt (v : stream_vars) : stream_vars :=
  StreamVars (lastEventId v) (retryDelay v) (S (attempt v)).

(** One turn of the loop, with what it keeps. *)
Lemma createStream_step o network aborted fuel hs v l :
  createStream o network aborted (S fuel) hs v = Some l →
  (aborted (S (attempt v)) = true ∧ l = []) ∨
  aborted (S (attempt v)) = false ∧
  ((∃ e, attempt_headers hs (lastEventId v) = Throw e ∧ l = [Reject e]) ∨
   ∃ h v' acts r,
     attempt_headers hs (lastEventId v) = Return h ∧
     run_connection o (at_attempt v) (network (S (attempt v)) h) = (v', acts, r) ∧
     Forall quiet acts ∧ attempt v' = S (attempt v) ∧
     ((r = None ∧ l = Connect h :: acts) ∨
      ∃ e, r = Some e ∧
        ((max_reached o (S (attempt v)) = true ∧ l = Connect h :: acts ++ [OnError e]) ∨
         ∃ rest, max_reached o (S (attempt v)) = false ∧
                 createStream o network aborted fuel (after_attempt hs h) v' = Some rest ∧
                 l = Connect h :: acts ++ [OnError e; Sleep (backoff o v')] ++ rest))).
Proof.
  cbn [createStream lastEventId]. destruct (aborted (S (attempt v))); [intros; simplify_eq; by left|].
  fold (at_attempt v). destruct (attempt_headers hs (lastEventId v)) as [h|e];
    [|intros; simplify_eq; right; eauto].
  pose proof (run_connection_inv o (at_attempt v) (network (S (attempt v)) h)) as [Hq Ha].
  destruct (run_connection o _ _) as [[v' acts] r] eqn:Hrun; simpl in Hq, Ha; intros H.
  right. split; [done|]. right. exists h, v', acts, r. do 4 (split; [done|]).
  destruct r as [e|]; [|simplify_eq; by left]. right. exists e. split; [done|].
  destruct (max_reached o (S (attempt v))); [simplify_eq; by left|].
  destruct (createStream o network aborted fuel _ v') as [rest|] eqn:Hr; simplify_eq/=.
  right. by exists rest.
Qed.

Lemma createStream_bounded o network aborted m fuel hs v :
  sseMaxRetryAttempts o = Some m → (Z.max 1 (m - Z.of_nat (attempt v)) <= Z.of_nat fuel)%Z →
  ∃ l, createStream o network aborted fuel hs v = Some l
       ∧ (Z.of_nat (length (connects l)) <= Z.max 1 (m - Z.of_nat (attempt v)))%Z.
Proof.
  intros Hm. revert hs v. induction fuel as [|fuel IH]; intros hs v Hf; [lia|]. cbn [createStream].
  destruct (aborted _); [exists []; simpl; split; [done|lia]|]. cbn [lastEventId retryDelay].
  destruct (attempt_headers hs _) as [h|e]; [|eexists; split; [done|]; simpl; lia].
  pose proof (run_connection_inv o (at_attempt v) (network (S (attempt v)) h)) as [Hq Ha].
  unfold at_attempt in Hq, Ha. destruct (run_connection o _ _) as [[v' acts] [e|]]; simpl in Hq, Ha.
  - unfold max_reached. rewrite Hm. destruct (m <=? _)%Z eqn:E.
    + eexists; split; [done|]. simpl. autorewrite with js. simpl. lia.
    + destruct (IH (after_attempt hs h) v') as (rest & -> & Hr); [lia|]. eexists; split; [done|].
      simpl. autorewrite with js. simpl. lia.
  - eexists; split; [done|]. simpl. autorewrite with js. simpl. lia.
Qed.

(** C29. A stream with a maximum of [m] attempts ends after at most [m] requests (one when [m] is
    not positive), whatever the network does; attempts are never counted afresh, not even after a
    connection that delivered events. *)
Theorem sse_attempts_bounded o network aborted m fuel hs :
  sseMaxRetryAttempts o = Some m → (Z.max 1 m <= Z.of_nat fuel)%Z →
  ∃ l, createSseClient o network aborted fuel hs = Some l
       ∧ (Z.of_nat (length (connects l)) <= Z.max 1 m)%Z.
Proof.
  intros Hm Hf. rewrite <-(Z.sub_0_r m) in Hf |- *. by apply (createStream_bounded o).
Qed.

Lemma sse_attempts_bounded_witness :
  ∃ l, createSseClient no_options (λ _ _, RequestFails VNull) (λ _, false) 3 (HeadersObject ∅) = Some l
       ∧ (Z.of_nat (length (connects l)) <= Z.max 1 3)%Z.
Proof. apply sse_attempts_bounded; [reflexivity | reflexivity || lia]. Defined.

(** The delays between the attempts that all fail: the default delay doubled each time, capped. *)
Definition backoff_delays (o : ServerSentEventsOptions) (m : nat) : list Z :=
  map (λ k, Z.min (default 3000 (sseDefaultRetryDelay o) * 2 ^ Z.of_nat k)
                  (default 30000 (sseMaxRetryDelay o)))%Z (seq 0 (m - 1)).

Definition fails_to_open (c : connection) : Prop :=
  match c with RequestFails _ | NotOk _ _ | NoBody => True | Body _ _ => False end.

Lemma fails_to_open_vars o v c :
  fails_to_open c → ∃ e, run_connection o v c = (v, [], Some e).
Proof. destruct c; simpl; intros []; eauto. Qed.

Lemma after_attempt_base hs h : base_headers hs = Return h → after_attempt hs h = hs.
Proof. destruct hs; simpl; [by intros [= <-]|done]. Qed.

Lemma createStream_all_fail o network m fuel hs h v :
  sseMaxRetryAttempts o = Some (Z.of_nat m) → (∀ n h, fails_to_open (network n h)) →
  base_headers hs = Return h → lastEventId v = None →
  attempt v < m → m - attempt v ≤ fuel →
  ∃ l, createStream o network (λ _, false) fuel hs v = Some l
     ∧ connects l = repeat h (m - attempt v) ∧ yields l = []
     ∧ sleeps l = map (λ k, Z.min (retryDelay v * 2 ^ Z.of_nat k) (default 30000 (sseMaxRetryDelay o)))%Z
                      (seq (attempt v) (m - attempt v - 1)).
Proof.
  intros Hm Hnet Hh. revert v. induction fuel as [|fuel IH]; intros v Hid Hv Hf; [lia|].
  cbn [createStream lastEventId]. rewrite Hid. unfold attempt_headers. rewrite Hh.
  cbn [mbind outcome_bind].
  destruct (fails_to_open_vars o (StreamVars None (retryDelay v) (S (attempt v)))
    (network (S (attempt v)) h) (Hnet _ _)) as [e ->].
  unfold max_reached. rewrite Hm. destruct (Z.of_nat m <=? _)%Z eqn:E.
  - eexists; split; [done|]. replace (m - attempt v) with 1 by lia. done.
  - rewrite after_attempt_base by done.
    destruct (IH (StreamVars None (retryDelay v) (S (attempt v)))) as (rest & -> & Hc & Hy & Hs);
      simpl; [done|lia..|].
    simpl in Hc, Hs. eexists; split; [done|]. simpl. rewrite Hs, Hc.
    replace (m - attempt v) with (S (m - S (attempt v))) by lia. split; [done|]. split; [done|].
    replace (S (m - S (attempt v)) - 1) with (S (m - S (attempt v) - 1)) by lia. cbn [seq map].
    unfold backoff. cbn [retryDelay attempt]. do 4 f_equal. lia.
Qed.

(** C30. When no attempt opens a stream, the client makes exactly [m] requests, all with the headers
    of the options, yields nothing, and waits between them for the retry delay, doubled after each
    failure and capped. *)
Theorem sse_backoff_schedule o network m hs h :
  sseMaxRetryAttempts o = Some (Z.of_nat m) → 0 < m → (∀ n h, fails_to_open (network n h)) →
  base_headers hs = Return h →
  ∃ l, createSseClient o network (λ _, false) m hs = Some l
       ∧ connects l = repeat h m ∧ yields l = [] ∧ sleeps l = backoff_delays o m.
Proof.
  intros Hm Hpos Hnet Hh.
  destruct (createStream_all_fail o network m m hs h (initial_vars o)) as (l & Hl & Hc & Hy & Hs);
    simpl; [done|done|done|done|lia|lia|].
  exists l. simpl in Hc, Hs. rewrite Nat.sub_0_r in Hc, Hs. done.
Qed.

Definition notification_options : ServerSentEventsOptions :=
  SseOptions None None (Some 5000)%Z (Some 3)%Z (Some 20000)%Z.

Lemma sse_backoff_schedule_witness :
  ∃ l, createSseClient notification_options (λ _ _, NotOk 503 "x") (λ _, false) 3
         (HeadersRecord [("X-Tag"%js, "a"%js)]) = Some l
       ∧ connects l = repeat {["x-tag"%js := "a"%js]} 3 ∧ yields l = [] ∧ sleeps l = [5000; 10000]%Z.
Proof.
  apply (sse_backoff_schedule notification_options (λ _ _, NotOk 503 "x") 3);
    [reflexivity | lia | intros n h; exact I | vm_compute; reflexivity].
Defined.

(** ** Resuming *)

Definition event_id (a : action) : option (option jstr) :=
  match a with OnEvent e => Some (ev_id e) | _ => None end.

(** The id in force after a run of actions that began with [before]: that of the last event. *)
Definition id_after (before : option jstr) (l : list action) : option jstr :=
  default before (last (omap event_id l)).

Lemma id_after_app b l1 l2 : id_after b (l1 ++ l2) = id_after (id_after b l1) l2.
Proof.
  unfold id_after. rewrite omap_app, last_app. by destruct (last (omap event_id l2)).
Qed.

Definition plain_data (o : ServerSentEventsOptions) : Prop :=
  responseValidator o = None ∧ responseTransformer o = None.

Lemma chunk_data_plain o ls : plain_data o → ∃ d, chunk_data o ls = Return d.
Proof.
  intros [Hv Ht]. unfold chunk_data. rewrite Hv, Ht. destruct ls; [eauto|].
  destruct (JSON_parse _); eauto.
Qed.

Lemma process_chunks_id o v cs :
  plain_data o →
  (process_chunks o v cs).2 = None
  ∧ lastEventId (process_chunks o v cs).1.1 = id_after (lastEventId v) (process_chunks o v cs).1.2.
Proof.
  intros Hp. revert v. induction cs as [|c cs IH]; intros v; simpl; [done|].
  unfold process_chunk. set (a := foldl _ _ _).
  destruct (chunk_data_plain o (dataLines a) Hp) as [d ->].
  specialize (IH (set_line_vars v a)).
  destruct (process_chunks o (set_line_vars v a) cs) as [[v'' acts'] e']. simpl in IH |- *.
  destruct IH as [-> ->]. split; [done|].
  change (?x :: ?y ++ ?z) with ((x :: y) ++ z). rewrite id_after_app. f_equal.
  by destruct (dataLines a).
Qed.

Lemma read_body_id o v b vs :
  plain_data o →
  (read_body o v b vs).2 = None
  ∧ lastEventId (read_body o v b vs).1.1.1 = id_after (lastEventId v) (read_body o v b vs).1.2.
Proof.
  intros Hp. revert v b. induction vs as [|x vs IH]; intros v b; simpl; [done|].
  unfold feed. destruct (pop_last _) as [chunks rest].
  pose proof (process_chunks_id o v chunks Hp) as Hq.
  destruct (process_chunks o v chunks) as [[v' acts] e]. simpl in Hq. destruct Hq as [-> Hid].
  specialize (IH v' rest). destruct (read_body o v' rest vs) as [[[v'' b''] acts'] e'].
  simpl in *. destruct IH as [-> ->]. split; [done|]. by rewrite id_after_app, Hid.
Qed.

Lemma run_connection_id o v c :
  plain_data o → lastEventId (run_connection o v c).1.1 = id_after (lastEventId v) (run_connection o v c).1.2.
Proof.
  intros Hp. destruct c as [e|st tx| |vs br]; try done. simpl.
  pose proof (read_body_id o v [] vs Hp) as [_ H].
  by destruct (read_body o v [] vs) as [[[v' b'] acts] e].
Qed.

(** An id once received is never forgotten. *)
Definition kept (a b : option jstr) : Prop := is_Some a → is_Some b.

Lemma process_lines_kept a ls : kept (line_id a) (line_id (foldl process_line a ls)).
Proof.
  unfold kept. revert a. induction ls as [|l ls IH]; intros a; [done|]. intros Ha. simpl. apply IH.
  unfold process_line.
  destruct (startsWith "data:" l), (startsWith "event:" l), (startsWith "id:" l), (startsWith "retry:" l);
    solve [exact Ha | by eexists].
Qed.

Lemma process_chunk_kept o v c : kept (lastEventId v) (lastEventId (process_chunk o v c).1.1).
Proof.
  unfold kept. unfold process_chunk. pose proof (process_lines_kept
    (LineVars [] None (lastEventId v) (retryDelay v)) (js_split [LF] c)) as H.
  by destruct (chunk_data o _).
Qed.

Lemma process_chunks_kept o v cs : kept (lastEventId v) (lastEventId (process_chunks o v cs).1.1).
Proof.
  unfold kept. revert v. induction cs as [|c cs IH]; intros v; [done|]. intros Hv. simpl.
  apply (process_chunk_kept o v c) in Hv. destruct (process_chunk o v c) as [[v' acts] [e|]]; [done|].
  simpl in Hv. apply IH in Hv. by destruct (process_chunks o v' cs) as [[v'' acts'] e'].
Qed.

Lemma read_body_kept o v b vs : kept (lastEventId v) (lastEventId (read_body o v b vs).1.1.1).
Proof.
  unfold kept. revert v b. induction vs as [|x vs IH]; intros v b; [done|]. intros Hv. simpl.
  unfold feed. destruct (pop_last _) as [chunks rest]. apply (process_chunks_kept o v chunks) in Hv.
  destruct (process_chunks o v chunks) as [[v' acts] [e|]]; [done|].
  simpl in Hv. apply (IH v' rest) in Hv. by destruct (read_body o v' rest vs) as [[[v'' b''] acts'] e'].
Qed.

Lemma run_connection_kept o v c : kept (lastEventId v) (lastEventId (run_connection o v c).1.1).
Proof.
  unfold kept. destruct c as [e|st tx| |vs br]; try done. simpl.
  pose proof (read_body_kept o v [] vs) as H. by destruct (read_body o v [] vs) as [[[v' b'] acts] e].
Qed.

(** The headers of a request are those of the options, with the id in force when there is one. *)
Definition carries (hs : sse_headers) (id : option jstr) (h : headers) : Prop :=
  ∃ h0, base_headers hs = Return h0 ∧
    match id with
    | None => h = h0
    | Some id => ∃ v, header_value id = Some v ∧ h = <["last-event-id"%js := v]> h0
    end.
(** The headers of the options, or the id in force, are not what a request can have. *)
Definition cannot_carry (hs : sse_headers) (id : option jstr) (e : jsval) : Prop :=
  base_headers hs = Throw e ∨ (∃ x, id = Some x ∧ header_value x = None) ∧ e = js_type_error.

(** Every request of a run carries the id in force when it is made; the run rejects when it cannot. *)
Fixpoint resumes (hs : sse_headers) (id : option jstr) (l : list action) : Prop :=
  match l with
  | [] => True
  | Connect h :: r => carries hs id h ∧ resumes hs id r
  | Reject e :: r => cannot_carry hs id e ∧ r = []
  | OnEvent e :: r => resumes hs (ev_id e) r
  | _ :: r => resumes hs id r
  end.

Lemma attempt_headers_spec hs id :
  match attempt_headers hs id with Return h => carries hs id h | Throw e => cannot_carry hs id e end.
Proof.
  unfold attempt_headers, carries, cannot_carry. destruct (base_headers hs) as [h0|e]; simpl; [|by left].
  destruct id as [x|]; simpl; [|by exists h0].
  unfold headers_set. replace (header_name "Last-Event-ID") with (Some "last-event-id"%js) by done.
  destruct (header_value x) as [v|] eqn:E; [exists h0; split; [done|]; by exists v |].
  right. split; [|done]. by exists x.
Qed.

(** [cur] is what attempts that carried ids have made of [hs]. *)
Definition tracks (hs cur : sse_headers) (id : option jstr) : Prop :=
  match id with
  | None => cur = hs
  | Some _ => ∀ x, attempt_headers cur (Some x) = attempt_headers hs (Some x)
  end.

Lemma tracks_attempt hs cur id : tracks hs cur id → attempt_headers cur id = attempt_headers hs id.
Proof. destruct id; simpl; [auto|by intros ->]. Qed.

Lemma after_attempt_again cur id h x :
  attempt_headers cur (Some id) = Return h →
  attempt_headers (after_attempt cur h) (Some x) = attempt_headers cur (Some x).
Proof.
  destruct cur as [h0|l]; [|done]. unfold attempt_headers, headers_set.
  cbn [base_headers after_attempt mbind outcome_bind].
  replace (header_name "Last-Event-ID") with (Some "last-event-id"%js) by done.
  destruct (header_value id), (header_value x); try done. intros [= <-]. by rewrite insert_insert_eq.
Qed.

Lemma tracks_after hs cur id id' h :
  tracks hs cur id → attempt_headers cur id = Return h → kept id id' → tracks hs (after_attempt cur h) id'.
Proof.
  unfold kept. destruct id as [x|]; simpl; intros Ht Ha Hk.
  - destruct (Hk ltac:(eauto)) as [y ->]. simpl. intros z. rewrite <-Ht. by eapply after_attempt_again.
  - subst cur. unfold attempt_headers in Ha. destruct (base_headers hs) as [h0|e] eqn:Hb; simplify_eq/=.
    rewrite after_attempt_base by done. by destruct id'.
Qed.

Lemma resumes_quiet hs b q l : Forall quiet q → resumes hs (id_after b q) l → resumes hs b (q ++ l).
Proof.
  intros H. revert b. induction H as [|a q Ha Hq IH]; intros b Hl; [done|].
  change (a :: q) with ([a] ++ q) in Hl. rewrite id_after_app in Hl.
  destruct a; try done; simpl; by apply IH.
Qed.

Lemma createStream_resumes o network aborted fuel hs cur v l :
  plain_data o → tracks hs cur (lastEventId v) →
  createStream o network aborted fuel cur v = Some l → resumes hs (lastEventId v) l.
Proof.
  intros Hp. revert cur v l. induction fuel as [|fuel IH]; intros cur v l Ht Hl; [done|].
  pose proof (attempt_headers_spec hs (lastEventId v)) as Hspec.
  rewrite <-(tracks_attempt hs cur) in Hspec by done.
  apply createStream_step in Hl as [[_ ->]|[_ [(e & He & ->)|(h & v' & acts & r & Ha & Hrun & Hq & _ & Hl)]]];
    [done|by rewrite He in Hspec|].
  rewrite Ha in Hspec.
  pose proof (run_connection_id o (at_attempt v) (network (S (attempt v)) h) Hp) as Hid.
  pose proof (run_connection_kept o (at_attempt v) (network (S (attempt v)) h)) as Hk.
  rewrite Hrun in Hid, Hk. simpl in Hid, Hk.
  destruct Hl as [[_ ->]|(e & _ & [[_ ->]|(rest & _ & Hrest & ->)])]; (split; [done|]).
  - rewrite <-(app_nil_r acts). by apply resumes_quiet.
  - by apply resumes_quiet.
  - apply resumes_quiet; [done|]. simpl. rewrite <-Hid.
    eapply IH; [|exact Hrest]. by eapply tracks_after.
Qed.

(** C24. Reconnection resumes. For a stream whose options give no validator and no transformer
    (the SDK has neither): every request has the headers of the options and, as its Last-Event-ID,
    the id in force at the last event delivered before it, the first request having none; the stream
    rejects, without [onSseError] and without a further attempt, exactly where that id (or a header
    of the options) is not something a header can carry. With a validator or a transformer that
    rejects it is false, see [rejected_event_is_skipped]. *)
Theorem sse_resumes_from_last_id o network aborted fuel hs l :
  plain_data o → createSseClient o network aborted fuel hs = Some l → resumes hs None l.
Proof. intros Hp Hl. by apply (createStream_resumes o network aborted fuel hs hs (initial_vars o)). Qed.

Lemma sse_resumes_from_last_id_witness :
  resumes (HeadersObject {["x-tag"%js := "a"%js]}) None
    [Connect {["x-tag"%js := "a"%js]};
     OnEvent (mkStreamEvent (VInt 1) None (Some "7"%js) 3000); Yield (VInt 1);
     OnError VNull; Sleep 3000;
     Connect {["last-event-id"%js := "7"%js; "x-tag"%js := "a"%js]};
     OnEvent (mkStreamEvent (VInt 2) None (Some [960%N]) 3000); Yield (VInt 2);
     OnError VNull; Sleep 6000;
     Reject js_type_error].
Proof.
  apply (sse_resumes_from_last_id (SseOptions None None None None None)
    (λ n _, if (n =? 1)%nat then Body ["id: 7" ++ [LF] ++ "data: 1" ++ [LF; LF]] (Some VNull)
            else Body ["id: " ++ [960%N; LF] ++ "data: 2" ++ [LF; LF]] (Some VNull))
    (λ _, false) 3); [split; reflexivity | vm_compute; reflexivity].
Defined.

(** Without the condition of [sse_resumes_from_last_id], the id moves past an event that was never
    delivered: after an event the validator rejects, the next request asks for what follows it. *)
Lemma rejected_event_is_skipped :
  createSseClient (SseOptions (Some (λ _, Some VNull)) None None None None)
    (λ n _, Body [if (n =? 1)%nat then "id: 7" ++ [LF] ++ "data: 1" ++ [LF; LF] else []] None)
    (λ _, false) 2 (HeadersObject ∅)
  = Some [Connect ∅; OnError VNull; Sleep 3000; Connect {["last-event-id"%js := "7"%js]}].
Proof. vm_compute. reflexivity. Qed.

(** The stream stops: no request is made at or after an attempt that finds the signal aborted,
    and none after a body that was read to its end. *)
Theorem sse_stops o network aborted fuel hs l k :
  createSseClient o network aborted fuel hs = Some l →
  (0 < k → aborted k = true → length (connects l) < k) ∧
  (0 < k → plain_data o → (∀ h, ∃ values, network k h = Body values None) → length (connects l) ≤ k).
Proof.
  unfold createSseClient. intros Hl.
  assert (∀ v, createStream o network aborted fuel hs v = Some l →
    (attempt v < k → aborted k = true → attempt v + length (connects l) < k) ∧
    (attempt v < k → plain_data o → (∀ h, ∃ values, network k h = Body values None) →
     attempt v + length (connects l) ≤ k)) as H; [|by apply (H (initial_vars o))].
  clear Hl. revert l hs. induction fuel as [|fuel IH]; intros l hs v Hl; [done|].
  apply createStream_step in Hl as [[_ ->]|[Hab [(e & He & ->)|(h & v' & acts & r & Ha & Hrun & Hq & Hn & Hl)]]];
    [simpl; lia..|].
  assert (attempt v < k → aborted k = true → S (attempt v) < k) as Hk1.
  { intros Hlt Hk. destruct (decide (k = S (attempt v))) as [->|]; [congruence|lia]. }
  assert (connects (Connect h :: acts) = [h]) as Hc1 by (simpl; by autorewrite with js).
  destruct Hl as [[_ ->]|(e & -> & [[_ ->]|(rest & _ & Hrest & ->)])].
  - rewrite Hc1. simpl. split; intros; [specialize (Hk1 ltac:(done) ltac:(done))|]; lia.
  - rewrite app_comm_cons, connects_app, Hc1. simpl. split; intros; [specialize (Hk1 ltac:(done) ltac:(done))|]; lia.
  - destruct (IH rest _ v' Hrest) as [H1 H2]. rewrite Hn in H1, H2.
    rewrite app_comm_cons, connects_app, Hc1, connects_app. simpl. split.
    + intros Hlt Hk. specialize (Hk1 Hlt Hk). specialize (H1 Hk1 Hk). lia.
    + intros Hlt Hp Hb. destruct (decide (k = S (attempt v))) as [->|]; [|specialize (H2 ltac:(lia) Hp Hb); lia].
      destruct (Hb h) as [values Hv]. rewrite Hv in Hrun. simpl in Hrun.
      pose proof (read_body_id o (at_attempt v) [] values Hp) as [He _].
      destruct (read_body o _ [] values) as [[[? ?] ?] e']. simpl in He. subst e'. simplify_eq.
Qed.

Lemma sse_stops_witness :
  (0 < 2 → false = true → length [∅; ∅ : headers] < 2) ∧
  (0 < 2 → plain_data no_options →
   (∀ h : headers, ∃ values, (if (2 =? 1)%nat then NoBody else Body ["data: 1"] None) = Body values None) →
   length [∅; ∅ : headers] ≤ 2).
Proof.
  apply (sse_stops no_options (λ n _, if (n =? 1)%nat then NoBody else Body ["data: 1"] None) (λ _, false) 3
    (HeadersObject ∅)
    [Connect ∅; OnError (error_with "No body in SSE response"); Sleep 3000; Connect ∅]).
  vm_compute; reflexivity.
Defined.
