(* ===== verification/Interceptors.v ===== *)
(** * The interceptor registry

    Models the class [Interceptors] of [lib/api/client/utils.gen.ts]: a list of
    slots, where an ejected interceptor leaves a hole so that the ids of the
    others stay valid.  An interceptor is a function compared by reference; the
    model takes any type with decidable equality for the references. *)

From S2P Require Import Prelude.

Section interceptors.
Context {I : Type} `{EqDecision I}.

(** [fns]; [None] is the [null] of an ejected one. *)
Definition Interceptors : Type := list (option I).

(** The [number | Interceptor] the methods take. *)
Inductive interceptor_id := ById (n : Z) | ByFn (f : I).

(** [this.fns[n]], [undefined] out of range. *)
Definition slot (fns : list (option I)) (n : Z) : option I :=
  if (n <? 0)%Z then None else mjoin (fns !! Z.to_nat n).

(** [fns.indexOf(f)]. *)
Fixpoint index_of (f : I) (fns : list (option I)) : Z :=
  match fns with
  | [] => -1
  | o :: r => if decide (o = Some f) then 0
              else let i := index_of f r in if (i <? 0)%Z then -1 else i + 1
  end%Z.

Definition getInterceptorIndex (fns : list (option I)) (id : interceptor_id) : Z :=
  match id with
  | ById n => if slot fns n is Some _ then n else (-1)%Z
  | ByFn f => index_of f fns
  end.

Definition clear (fns : list (option I)) : list (option I) := [].

Definition eject (fns : list (option I)) (id : interceptor_id) : list (option I) :=
  let index := getInterceptorIndex fns id in
  if slot fns index is Some _ then <[Z.to_nat index := None]> fns else fns.

Definition exists_ (fns : list (option I)) (id : interceptor_id) : bool :=
  if slot fns (getInterceptorIndex fns id) is Some _ then true else false.

(** The id it answers, or [None] for [false]. *)
Definition update (fns : list (option I)) (id : interceptor_id) (f : I) : list (option I) * option interceptor_id :=
  let index := getInterceptorIndex fns id in
  if slot fns index is Some _ then (<[Z.to_nat index := Some f]> fns, Some id) else (fns, None).

Definition use (fns : list (option I)) (f : I) : list (option I) * Z :=
  (fns ++ [Some f], Z.of_nat (length fns)).

(** The interceptors a request runs, in order: [for (const fn of fns) if (fn) ...]. *)
Definition active (fns : list (option I)) : list I := omap id fns.

(** ** Its clients' view *)

(** One call of the registry; what it answers is left aside. *)
Inductive registry_call :=
| CUse (f : I)
| CEject (id : interceptor_id)
| CUpdate (id : interceptor_id) (f : I).

Definition registry_step (fns : list (option I)) (c : registry_call) : list (option I) :=
  match c with
  | CUse f => (use fns f).1
  | CEject id => eject fns id
  | CUpdate id f => (update fns id f).1
  end.

(** The slot a call writes to, if any. *)
Definition touches (fns : list (option I)) (c : registry_call) (n : Z) : bool :=
  match c with
  | CUse _ => false
  | CEject id | CUpdate id _ => (getInterceptorIndex fns id =? n)%Z
  end.

Lemma index_of_spec f fns :
  (index_of f fns = (-1)%Z ∧ Some f ∉ fns)
  ∨ (0 <= index_of f fns)%Z ∧ fns !! Z.to_nat (index_of f fns) = Some (Some f)
    ∧ ∀ m, m < Z.to_nat (index_of f fns) → fns !! m ≠ Some (Some f).
Proof.
  induction fns as [|o fns IH]; simpl; [left; split; [done|apply not_elem_of_nil]|].
  destruct (decide (o = Some f)) as [->|Hne]; [right; split; [done|]; split; [done|]; simpl; lia|].
  destruct IH as [[-> Hin]|(Hle & Hget & Hfirst)].
  - left. split; [done|]. apply not_elem_of_cons; auto.
  - right. rewrite (proj2 (Z.ltb_ge _ 0) Hle). split; [lia|].
    replace (Z.to_nat (index_of f fns + 1)) with (S (Z.to_nat (index_of f fns))) by lia.
    split; [done|]. intros [|m] Hm; simpl; [congruence|]. apply Hfirst. lia.
Qed.

Lemma slot_lookup fns n f : slot fns n = Some f ↔ (0 <= n)%Z ∧ fns !! Z.to_nat n = Some (Some f).
Proof.
  unfold slot. destruct (n <? 0)%Z eqn:E.
  - split; [done|]. lia.
  - destruct (fns !! Z.to_nat n) as [[g|]|]; simpl.
    + split; [intros [= ->]; split; [lia|done]|by intros [_ [= ->]]].
    + split; [done|by intros []].
    + split; [done|by intros []].
Qed.

Lemma slot_insert fns n m o :
  (0 <= n)%Z → n ≠ m → slot (<[Z.to_nat n := o]> fns) m = slot fns m.
Proof.
  intros Hn Hne. unfold slot. destruct (m <? 0)%Z eqn:E; [done|].
  rewrite list_lookup_insert_ne by lia. done.
Qed.

Lemma slot_nonneg fns n f : slot fns n = Some f → (0 <= n)%Z ∧ Z.to_nat n < length fns.
Proof. intros [Hn Hl]%slot_lookup. split; [done|]. by eapply lookup_lt_Some. Qed.

(** A call leaves alone the slots it does not touch; the number of slots never shrinks. *)
Lemma registry_step_slot fns c n f :
  slot fns n = Some f → touches fns c n = false → slot (registry_step fns c) n = Some f.
Proof.
  intros Hs Ht. destruct c as [g|id|id g]; simpl in *.
  - apply slot_lookup in Hs as [Hn Hl]. apply slot_lookup. split; [done|]. by apply lookup_app_l_Some.
  - unfold eject. destruct (slot fns (getInterceptorIndex fns id)) eqn:E; [|done].
    rewrite slot_insert; [done| |lia]. by apply slot_nonneg in E as [? _].
  - unfold update. destruct (slot fns (getInterceptorIndex fns id)) eqn:E; [|done]. simpl.
    rewrite slot_insert; [done| |lia]. by apply slot_nonneg in E as [? _].
Qed.

Lemma registry_step_length fns c : length fns ≤ length (registry_step fns c).
Proof.
  destruct c; simpl; unfold eject, update; cases; simpl; rewrite ?length_app, ?length_insert; lia.
Qed.

(** The slots that any call of the list touches, when the calls are made in order. *)
Fixpoint never_touched (fns : list (option I)) (cs : list registry_call) (n : Z) : bool :=
  match cs with
  | [] => true
  | c :: cs => negb (touches fns c n) && never_touched (registry_step fns c) cs n
  end.

Lemma active_use fns f : active (use fns f).1 = active fns ++ [f].
Proof. unfold active, use. simpl. by rewrite omap_app. Qed.

Lemma active_insert_none fns n f :
  fns !! n = Some (Some f) →
  ∃ a b, active fns = a ++ f :: b ∧ active (<[n := None]> fns) = a ++ b.
Proof.
  revert n. induction fns as [|o fns IH]; intros [|n] H; simplify_eq/=.
  - by exists [], (active fns).
  - destruct (IH n H) as (a & b & Ha & Hb). unfold active in *. destruct o as [g|]; simpl.
    + exists (g :: a), b. simpl. by rewrite Ha, Hb.
    + exists a, b. by rewrite Ha, Hb.
Qed.

(** The id [use] answers names its interceptor for as long as nobody ejects or replaces it:
    whatever other interceptors are registered, ejected or replaced in the meantime, by id or by
    reference, and no later [use] answers the same id. *)
Theorem use_id_stable fns f cs :
  let '(fns', n) := use fns f in
  never_touched fns' cs n = true →
  let fns'' := foldl registry_step fns' cs in
  slot fns'' n = Some f ∧ exists_ fns'' (ById n) = true
  ∧ ∀ g, (n < (use fns'' g).2)%Z.
Proof.
  simpl. assert (slot (fns ++ [Some f]) (Z.of_nat (length fns)) = Some f) as Hs.
  { apply slot_lookup. split; [lia|]. rewrite Nat2Z.id, lookup_app_r by lia. by rewrite Nat.sub_diag. }
  revert Hs. generalize (fns ++ [Some f]) as l. generalize (Z.of_nat (length fns)) as n. clear fns.
  intros n l. revert l. induction cs as [|c cs IH]; intros l Hs Ht; simpl in *.
  - split; [done|]. unfold exists_, getInterceptorIndex. rewrite Hs, Hs. split; [done|].
    intros _. apply slot_nonneg in Hs as [? ?]. lia.
  - apply andb_prop in Ht as [Ht Hts]. apply IH; [|done].
    apply registry_step_slot; [done|by destruct (touches l c n)].
Qed.

(** Ejecting removes exactly one interceptor from the ones a request runs, and keeps the order
    of the others: the one the id names, or the first registration of the given function; an id or
    function that is not registered changes nothing. *)
Theorem eject_one fns id :
  match slot fns (getInterceptorIndex fns id) with
  | None => eject fns id = fns
  | Some f => exists_ fns id = true
              ∧ (∀ g, id = ByFn g →
                   f = g ∧ ∀ m, m < Z.to_nat (getInterceptorIndex fns id) → fns !! m ≠ Some (Some g))
              ∧ (∃ a b, active fns = a ++ f :: b ∧ active (eject fns id) = a ++ b)
              ∧ slot (eject fns id) (getInterceptorIndex fns id) = None
              ∧ length (eject fns id) = length fns
  end.
Proof.
  unfold eject, exists_. destruct (slot fns (getInterceptorIndex fns id)) as [f|] eqn:E; [|done].
  apply slot_lookup in E as Hl. destruct Hl as [Hn Hl]. split; [done|]. split; [|split; [|split]].
  - intros g ->. simpl in *. destruct (index_of_spec g fns) as [[Hx _]|(_ & Hx & Hf)]; [lia|]. split; [congruence|done].
  - by apply active_insert_none.
  - unfold slot. rewrite (proj2 (Z.ltb_ge _ 0) Hn), list_lookup_insert_eq; [done|].
    by eapply lookup_lt_Some.
  - apply length_insert.
Qed.
End interceptors.
Arguments Interceptors : clear implicits.
Arguments interceptor_id : clear implicits.
Arguments registry_call : clear implicits.

Definition registry_calls_example : list (registry_call nat) :=
  [CEject (ByFn 7); CUse 9; CUpdate (ById 3) 8; CEject (ById 1)].

Lemma use_id_stable_witness :
  let '(fns', n) := use [Some 7; None] 9 in
  let fns'' := foldl registry_step fns' registry_calls_example in
  never_touched fns' registry_calls_example n = true
  ∧ slot fns'' n = Some 9 ∧ exists_ fns'' (ById n) = true ∧ ∀ g, (n < (use fns'' g).2)%Z.
Proof.
  split; [reflexivity|].
  apply (use_id_stable [Some 7; None] 9 registry_calls_example). reflexivity.
Defined.
