(* ===== verification/Client.v ===== *)
(** * The HTTP client

    Models [createClient] of [lib/api/client/client.gen.ts] (configuration,
    [beforeRequest], [request], the method functions) and, of
    [lib/api/client/utils.gen.ts], [getParseAs], [mergeConfigs], [createConfig].

    [W] is the world outside the client: what [fetch], interceptors, validators
    and transformers can observe and change.  Each of them is a computation
    [M W jsval _]; an [await] runs it to its end.  A setting that is absent is
    [None] ([{...a, ...b}] lets [b] decide where it has one).  An interceptor is
    referred to by a number, the identity of the function; the tables that give
    the functions are parameters. *)

From S2P Require Import Prelude JsString JsValue Json UrlBuilder Headers Interceptors.

Open Scope js_monad_scope.

(** ** Requests and responses of the platform *)

Inductive parse_as := PAuto | PArrayBuffer | PBlob | PFormData | PJson | PStream | PText.

#[export] Instance parse_as_eq_dec : EqDecision parse_as.
Proof. solve_decision. Defined.

Record Request := mkRequest {
  r_method : jstr;
  r_url : jstr;
  r_headers : headers;
  r_body : jsval;
  r_credentials : jstr;
}.

(** A response whose body has not been read: reading it as text or in another format succeeds or
    rejects. *)
Record Response := mkResponse {
  s_status : Z;
  s_headers : headers;
  s_text : outcome jsval jstr;
  s_read : parse_as → outcome jsval jsval;
  s_body : jsval;
}.

(** [response.ok]. *)
Definition s_ok (r : Response) : bool := ((200 <=? s_status r) && (s_status r <=? 299))%Z.

(** [response[parseAs]()]. *)
Definition read_as (p : parse_as) (r : Response) : outcome jsval jsval :=
  match p with PText => VStr <$> s_text r | _ => s_read r p end.

Definition header_of (name : jstr) (h : headers) : option jstr :=
  match headers_get name h with Return o => o | Throw _ => None end.

(** ** [getParseAs] *)

Definition getParseAs (contentType : option jstr) : option parse_as :=
  match contentType with
  | None | Some [] => Some PStream
  | Some contentType =>
      let cleanContent := js_trim (default [] (head (js_split ";" contentType))) in
      match cleanContent with
      | [] => None
      | _ =>
          if startsWith "application/json" cleanContent || endsWith "+json" cleanContent then Some PJson
          else if cleanContent =js "multipart/form-data" then Some PFormData
          else if existsb (λ type, startsWith type cleanContent)
                    ["application/"; "audio/"; "image/"; "video/"] then Some PBlob
          else if startsWith "text/" cleanContent then Some PText
          else None
      end
  end.

(** ** Options *)

(** The request data a [requestValidator] receives. *)
Record request_data := mkRequestData {
  data_path : option (list (jstr * jsval));
  data_query : option (list (jstr * jsval));
  data_body : jsval;
  data_headers : headers;
}.

(** [Config] and [RequestOptions]; [bodySerializer] may be given as [null] ([Some None]). *)
Record RequestOptions (W : Type) := mkRequestOptions {
  o_baseUrl : option jstr;
  o_url : option jstr;
  o_method : option jstr;
  o_path : option (list (jstr * jsval));
  o_query : option (list (jstr * jsval));
  o_body : option jsval;
  o_headers : option headers_init;
  o_credentials : option jstr;
  o_security : option (list Auth);
  o_auth : option auth_callback;
  o_bodySerializer : option (option (jsval → outcome jsval jsval));
  o_querySerializer : option query_serializer_option;
  o_parseAs : option parse_as;
  o_responseStyle : option bool; (* is it ['data']? *)
  o_throwOnError : option bool;
  o_requestValidator : option (request_data → M W jsval unit);
  o_responseValidator : option (jsval → M W jsval unit);
  o_responseTransformer : option (jsval → M W jsval jsval);
  o_fetch : option (Request → M W jsval Response);
}.
Arguments mkRequestOptions {W}.
Arguments o_baseUrl {W}. Arguments o_url {W}. Arguments o_method {W}. Arguments o_path {W}.
Arguments o_query {W}. Arguments o_body {W}. Arguments o_headers {W}. Arguments o_credentials {W}.
Arguments o_security {W}. Arguments o_auth {W}. Arguments o_bodySerializer {W}.
Arguments o_querySerializer {W}. Arguments o_parseAs {W}. Arguments o_responseStyle {W}.
Arguments o_throwOnError {W}. Arguments o_requestValidator {W}. Arguments o_responseValidator {W}.
Arguments o_responseTransformer {W}. Arguments o_fetch {W}.

Definition no_request_options {W} : RequestOptions W :=
  mkRequestOptions None None None None None None None None None None None None None None None None
    None None None.

Section options.
Context {W : Type}.
Implicit Types a b : RequestOptions W.

(** [b ?? a], a setting at a time. *)
Definition over {A} (a b : option A) : option A := match b with Some x => Some x | None => a end.

(** [{...a, ...b}]. *)
Definition spread a b : RequestOptions W :=
  mkRequestOptions
    (over (o_baseUrl a) (o_baseUrl b)) (over (o_url a) (o_url b)) (over (o_method a) (o_method b))
    (over (o_path a) (o_path b)) (over (o_query a) (o_query b)) (over (o_body a) (o_body b))
    (over (o_headers a) (o_headers b)) (over (o_credentials a) (o_credentials b))
    (over (o_security a) (o_security b)) (over (o_auth a) (o_auth b))
    (over (o_bodySerializer a) (o_bodySerializer b))
    (over (o_querySerializer a) (o_querySerializer b)) (over (o_parseAs a) (o_parseAs b))
    (over (o_responseStyle a) (o_responseStyle b)) (over (o_throwOnError a) (o_throwOnError b))
    (over (o_requestValidator a) (o_requestValidator b))
    (over (o_responseValidator a) (o_responseValidator b))
    (over (o_responseTransformer a) (o_responseTransformer b)) (over (o_fetch a) (o_fetch b)).

(** Two settings that are assigned after the options are made. *)
Definition set_headers (h : headers) a : RequestOptions W :=
  mkRequestOptions (o_baseUrl a) (o_url a) (o_method a) (o_path a) (o_query a) (o_body a)
    (Some (HHeaders h)) (o_credentials a) (o_security a) (o_auth a) (o_bodySerializer a)
    (o_querySerializer a) (o_parseAs a) (o_responseStyle a) (o_throwOnError a)
    (o_requestValidator a) (o_responseValidator a) (o_responseTransformer a) (o_fetch a).
Definition set_query (q : option (list (jstr * jsval))) a : RequestOptions W :=
  mkRequestOptions (o_baseUrl a) (o_url a) (o_method a) (o_path a) q (o_body a)
    (o_headers a) (o_credentials a) (o_security a) (o_auth a) (o_bodySerializer a)
    (o_querySerializer a) (o_parseAs a) (o_responseStyle a) (o_throwOnError a)
    (o_requestValidator a) (o_responseValidator a) (o_responseTransformer a) (o_fetch a).
Definition set_baseUrl (u : option jstr) a : RequestOptions W :=
  mkRequestOptions u (o_url a) (o_method a) (o_path a) (o_query a) (o_body a)
    (o_headers a) (o_credentials a) (o_security a) (o_auth a) (o_bodySerializer a)
    (o_querySerializer a) (o_parseAs a) (o_responseStyle a) (o_throwOnError a)
    (o_requestValidator a) (o_responseValidator a) (o_responseTransformer a) (o_fetch a).
Definition set_method (m : jstr) a : RequestOptions W :=
  mkRequestOptions (o_baseUrl a) (o_url a) (Some m) (o_path a) (o_query a) (o_body a)
    (o_headers a) (o_credentials a) (o_security a) (o_auth a) (o_bodySerializer a)
    (o_querySerializer a) (o_parseAs a) (o_responseStyle a) (o_throwOnError a)
    (o_requestValidator a) (o_responseValidator a) (o_responseTransformer a) (o_fetch a).

Definition strip_slash (u : jstr) : jstr := if endsWith "/" u then removelast u else u.

Definition mergeConfigs a b : outcome jsval (RequestOptions W) :=
  let config := spread a b in
  h ← mergeHeaders [o_headers a; o_headers b];
  Return (set_headers h (set_baseUrl (strip_slash <$> o_baseUrl config) config)).

(** [jsonBodySerializer.bodySerializer]: a bigint is written as a string. *)
Definition jsonBodySerializer (body : jsval) : outcome jsval jsval :=
  match stringify_with (λ v, match v with VBigInt z => RString (string_of_Z z) | _ => RKeep end) body with
  | Return (Some s) => Return (VStr s)
  | Return None => Return VUndefined
  | Throw e => Throw e
  end.

Definition defaultHeaders : headers_init :=
  HObject (VObj [("Content-Type"%js, VStr "application/json")]).

Definition createConfig (override : RequestOptions W) : RequestOptions W :=
  spread (mkRequestOptions None None None None None None (Some defaultHeaders) None None None
            (Some (Some jsonBodySerializer)) (Some (SerializerFunction defaultQuerySerializer))
            (Some PAuto) None None None None None None) override.
End options.

(** ** The client *)

Record client_state (W : Type) := mkClient {
  config : RequestOptions W;
  request_fns : list (option nat);
  response_fns : list (option nat);
  error_fns : list (option nat);
}.
Arguments mkClient {W}. Arguments config {W}. Arguments request_fns {W}.
Arguments response_fns {W}. Arguments error_fns {W}.

(** What [request] answers: the data alone, the data with request and response, nothing, or the
    error. *)
Inductive request_result :=
| RData (data : jsval)
| RFields (data : jsval) (request : Request) (response : Response)
| RUndefinedData
| RError (error : jsval) (request : option Request) (response : option Response).

(** The variables of one call of [request], with the world. *)
Record request_vars (W : Type) := mkVars {
  world : W;
  v_request : option Request;
  v_response : option Response;
}.
Arguments mkVars {W}. Arguments world {W}. Arguments v_request {W}. Arguments v_response {W}.

Section client.
Context {W : Type}.
(** The platform: the [fetch] of the global object, [btoa], which URLs [new Request] accepts. *)
Context (global_fetch : Request → M W jsval Response).
Context (btoa : jstr → option jstr) (valid_url : jstr → bool).
(** The functions the interceptor numbers stand for. *)
Context (request_fn : nat → Request → RequestOptions W → M W jsval Request).
Context (response_fn : nat → Response → Request → RequestOptions W → M W jsval Response).
Context (error_fn : nat → jsval → option Response → option Request → RequestOptions W → M W jsval jsval).

Definition lift_outcome {V A} (o : outcome jsval A) : M V jsval A := fun w => (w, o).

(** The world's computations, run from a call's variables. *)
Definition in_world {A} (m : M W jsval A) : M (request_vars W) jsval A :=
  fun v => let '(w, o) := m (world v) in (mkVars w (v_request v) (v_response v), o).

Definition assign_request (r : Request) : M (request_vars W) jsval unit :=
  modify (fun v => mkVars (world v) (Some r) (v_response v)).
Definition assign_response (r : Response) : M (request_vars W) jsval unit :=
  modify (fun v => mkVars (world v) (v_request v) (Some r)).

(** [new Request(url, init)]: the URL must be valid, the method allowed, and GET and HEAD take no
    body. *)
Definition new_Request (url method : jstr) (h : headers) (body : jsval) (credentials : jstr)
  : outcome jsval Request :=
  if negb (valid_url url) then Throw js_type_error
  else if existsb (jeqb method) ["CONNECT"; "TRACE"; "TRACK"] then Throw js_type_error
  else if existsb (jeqb method) ["GET"; "HEAD"] && negb (nullish body) then Throw js_type_error
  else Return (mkRequest method url h body credentials).

(** The resolved options and the URL. *)
Record resolved := mkResolved {
  opts : RequestOptions W;
  opts_headers : headers;
  opts_query : option (list (jstr * jsval));
  opts_body : jsval;
  serializedBody : jsval;
  resolved_url : jstr;
}.

Definition serializer_of (o : RequestOptions W) : option (jsval → outcome jsval jsval) :=
  mjoin (o_bodySerializer o).

Definition beforeRequest (c : RequestOptions W) (options : RequestOptions W) : M W jsval resolved :=
  let opts := spread c options in
  let! h := lift_outcome (mergeHeaders [o_headers c; o_headers options]) in
  let! hq := lift_outcome
               match o_security opts with
               | Some security =>
                   setAuthParams btoa security (default (λ _, Return None) (o_auth opts)) (h, o_query opts)
               | None => Return (h, o_query opts)
               end in
  let h := hq.1 in
  let query := hq.2 in
  let body := default VUndefined (o_body opts) in
  do! match o_requestValidator opts with
      | Some validate => validate (mkRequestData (o_path opts) query body h)
      | None => ret tt
      end in
  let! serialized := lift_outcome
                       match serializer_of opts with
                       | Some serialize => if is_undefined body then Return VUndefined else serialize body
                       | None => Return VUndefined
                       end in
  let! h := lift_outcome
              (if is_undefined body || match serialized with VStr [] => true | _ => false end
               then headers_delete "Content-Type" h else Return h) in
  let! url := lift_outcome
                (buildUrl (o_baseUrl opts) (o_path opts) query
                   (default (SerializerSettings default_settings) (o_querySerializer opts))
                   (default [] (o_url opts))) in
  ret (mkResolved (set_query query (set_headers h opts)) h query body serialized url).

Fixpoint run_request_fns (fns : list (option nat)) (o : RequestOptions W) (r : Request)
  : M (request_vars W) jsval Request :=
  match fns with
  | [] => ret r
  | None :: fns => run_request_fns fns o r
  | Some f :: fns =>
      let! r := in_world (request_fn f r o) in
      do! assign_request r in run_request_fns fns o r
  end.

Fixpoint run_response_fns (fns : list (option nat)) (o : RequestOptions W) (q : Request) (r : Response)
  : M (request_vars W) jsval Response :=
  match fns with
  | [] => ret r
  | None :: fns => run_response_fns fns o q r
  | Some f :: fns =>
      let! r := in_world (response_fn f r q o) in
      do! assign_response r in run_response_fns fns o q r
  end.

Fixpoint run_error_fns (fns : list (option nat)) (options : RequestOptions W) (e : jsval)
  : M (request_vars W) jsval jsval :=
  match fns with
  | [] => ret e
  | None :: fns => run_error_fns fns options e
  | Some f :: fns =>
      fun v =>
        (let! e := in_world (error_fn f e (v_response v) (v_request v) options) in
         run_error_fns fns options e) v
  end.

Definition js_syntax_error : jsval := VInstance [("name"%js, VStr "SyntaxError")].

(** The text of a JSON response, parsed when there is any. *)
Definition json_data (text : jstr) : outcome jsval jsval :=
  match text with
  | [] => Return (VObj [])
  | _ => match JSON_parse text with Some v => Return v | None => Throw js_syntax_error end
  end.

Definition empty_data (p : parse_as) (r : Response) : outcome jsval jsval :=
  match p with
  | PArrayBuffer | PBlob | PText => read_as p r
  | PFormData => Return (VInstance [])
  | PStream => Return (s_body r)
  | PJson | PAuto => Return (VObj [])
  end.

Definition with_style (o : RequestOptions W) (data : jsval) (q : Request) (r : Response) : request_result :=
  if default false (o_responseStyle o) then RData data else RFields data q r.

Definition resolve_parse_as (o : RequestOptions W) (r : Response) : parse_as :=
  default PJson (match o_parseAs o with
                 | Some PAuto => getParseAs (header_of "Content-Type" (s_headers r))
                 | p => p
                 end).

Definition ok_data (o : RequestOptions W) (r : Response) : M W jsval jsval :=
  let parseAs := resolve_parse_as o r in
  if (s_status r =? 204)%Z || bool_decide (header_of "Content-Length" (s_headers r) = Some "0"%js)
  then lift_outcome (empty_data parseAs r)
  else
    match parseAs with
    | PStream => ret (s_body r)
    | PJson | PAuto =>
        let! text := lift_outcome (s_text r) in
        let! data := lift_outcome (json_data text) in
        do! match o_responseValidator o with Some validate => validate data | None => ret tt end in
        match o_responseTransformer o with Some transform => transform data | None => ret data end
    | _ => lift_outcome (read_as parseAs r)
    end.

(** What a response that is not ok throws: its JSON, else its text. *)
Definition response_error (r : Response) : outcome jsval jsval :=
  text ← s_text r;
  Return (match JSON_parse text with
          | Some v => if nullish v then VStr text else v
          | None => VStr text
          end).

(** The body of the [try] of [request]. *)
Definition attempt_request (c : client_state W) (options : RequestOptions W)
  : M (request_vars W) jsval request_result :=
  let! b := in_world (beforeRequest (config c) options) in
  let! request := lift_outcome
    (new_Request (resolved_url b) (default "GET" (o_method (opts b))) (opts_headers b)
       (getValidRequestBody (opts_body b) (match serializer_of (opts b) with Some _ => true | None => false end)
          (Some (serializedBody b)))
       (default "same-origin" (o_credentials (opts b)))) in
  do! assign_request request in
  let! request := run_request_fns (request_fns c) (opts b) request in
  let! response := in_world (default global_fetch (o_fetch (opts b)) request) in
  do! assign_response response in
  let! response := run_response_fns (response_fns c) (opts b) request response in
  if s_ok response then
    let! data := in_world (ok_data (opts b) response) in
    ret (with_style (opts b) data request response)
  else
    let! e := lift_outcome (response_error response) in throw e.

(** The [catch] of [request]. *)
Definition handle_error (c : client_state W) (options : RequestOptions W) (error : jsval)
  : M (request_vars W) jsval request_result :=
  let! finalError := run_error_fns (error_fns c) options error in
  let finalError := if truthy finalError then finalError else VObj [] in
  if default false (over (o_throwOnError (config c)) (o_throwOnError options)) then throw finalError
  else fun v =>
    (v, Return (if default false (over (o_responseStyle (config c)) (o_responseStyle options))
                then RUndefinedData
                else RError finalError (v_request v) (v_response v))).

Definition request (c : client_state W) (options : RequestOptions W) : M W jsval request_result :=
  fun w =>
    let '(v, o) := catch (attempt_request c options) (handle_error c options) (mkVars w None None) in
    (world v, o).

(** [makeMethodFn]. *)
Definition makeMethodFn (method : jstr) (c : client_state W) (options : RequestOptions W)
  : M W jsval request_result :=
  request c (set_method method options).

(** ** Building and configuring a client *)

Definition createClient (override : RequestOptions W) : outcome jsval (client_state W) :=
  cfg ← mergeConfigs (createConfig no_request_options) override;
  Return (mkClient cfg [] [] []).

Definition getConfig (c : client_state W) : RequestOptions W := config c.

Definition setConfig (c : client_state W) (override : RequestOptions W) : outcome jsval (client_state W) :=
  cfg ← mergeConfigs (config c) override;
  Return (mkClient cfg (request_fns c) (response_fns c) (error_fns c)).

(** [client.buildUrl]. *)
Definition client_buildUrl (c : client_state W) (options : RequestOptions W) : outcome jsval jstr :=
  let o := spread (config c) options in
  buildUrl (o_baseUrl o) (o_path o) (o_query o)
    (default (SerializerSettings default_settings) (o_querySerializer o)) (default [] (o_url o)).
End client.
