(* ===== verification/ClientSpec.v ===== *)
(** * The HTTP client: what its callers rely on

    A request always settles the way [throwOnError] says, fetches at most once,
    and runs exactly the interceptors that are registered, in the order of
    their registration. *)

From S2P Require Import Prelude JsString JsValue Json UrlBuilder Headers Interceptors Client.

Section client_spec.
Context {W : Type}.
Context (global_fetch : Request → M W jsval Response).
Context (btoa : jstr → option jstr) (valid_url : jstr → bool).
Context (request_fn : nat → Request → RequestOptions W → M W jsval Request).
Context (response_fn : nat → Response → Request → RequestOptions W → M W jsval Response).
Context (error_fn : nat → jsval → option Response → option Request → RequestOptions W → M W jsval jsval).

Local Abbreviation request :=
  (request global_fetch btoa valid_url request_fn response_fn error_fn).
Local Abbreviation attempt_request :=
  (attempt_request global_fetch btoa valid_url request_fn response_fn).

(** ** How a request settles *)

Definition throws (c : client_state W) (options : RequestOptions W) : bool :=
  default false (over (o_throwOnError (config c)) (o_throwOnError options)).
Definition data_only (c : client_state W) (options : RequestOptions W) : bool :=
  default false (over (o_responseStyle (config c)) (o_responseStyle options)).

(** A result that carries data, from an attempt that went through. *)
Definition is_data (r : request_result) : Prop :=
  match r with RData _ | RFields _ _ _ => True | _ => False end.

Lemma bind_Return {V E A B} (m : M V E A) (f : A → M V E B) w w' b :
  bind m f w = (w', Return b) → ∃ w1 a, m w = (w1, Return a) ∧ f a w1 = (w', Return b).
Proof. unfold bind. destruct (m w) as [w1 [a|e]]; [eauto|done]. Qed.

Lemma attempt_data c options v v' r :
  attempt_request c options v = (v', Return r) → is_data r.
Proof.
  unfold Client.attempt_request. intros H.
  repeat (apply bind_Return in H as (? & ? & _ & H)).
  destruct (s_ok _).
  - apply bind_Return in H as (? & ? & _ & [= _ <-]). unfold with_style. by case_match.
  - by apply bind_Return in H as (? & ? & _ & ?).
Qed.

Lemma run_error_fns_total fns options e v :
  (∀ f e r q o w, ∃ w' e', error_fn f e r q o w = (w', Return e')) →
  ∃ v' e', run_error_fns error_fn fns options e v = (v', Return e').
Proof.
  intros Htotal. revert e v. induction fns as [|[f|] fns IH]; intros e v; simpl; [by eexists _, _| |auto].
  unfold bind, in_world.
  destruct (Htotal f e (v_response v) (v_request v) options (world v)) as (w' & e' & ->). apply IH.
Qed.

(** C10. A request settles the way [throwOnError] says: as long as the error interceptors return,
    without it the call always answers (data when the attempt went through, else the error, or
    nothing when only data was asked for), and with it a call that answers has data and a failure
    rejects with a truthy error. *)
Theorem request_settles c options w :
  (∀ f e r q o w, ∃ w' e', error_fn f e r q o w = (w', Return e')) →
  ∃ w' out, request c options w = (w', out) ∧
    match out with
    | Return r => is_data r ∨ throws c options = false ∧
                  (if data_only c options then r = RUndefinedData
                   else ∃ e q p, r = RError e q p ∧ truthy e = true)
    | Throw e => throws c options = true ∧ truthy e = true
    end.
Proof.
  intros Htotal. unfold Client.request, catch.
  destruct (attempt_request c options (mkVars w None None)) as [v [r|e]] eqn:E.
  - exists (world v), (Return r). split; [done|]. left. by eapply attempt_data.
  - unfold handle_error, bind.
    destruct (run_error_fns_total (error_fns c) options e v Htotal) as (v' & e' & ->).
    assert (truthy (if truthy e' then e' else VObj []) = true) as Ht by (by destruct (truthy e') eqn:?).
    fold (throws c options). fold (data_only c options).
    destruct (throws c options); [by eexists _, _|].
    eexists _, _. split; [done|]. right. split; [done|].
    destruct (data_only c options); [done|]. by eexists _, _, _.
Qed.

(** ** One fetch *)

(** [adds f k m]: running [m] adds [k] to the measure [f] when it returns, and between 0 and [k]
    when it throws. *)
Definition adds {V A} (f : V → nat) (k : nat) (m : M V jsval A) : Prop :=
  ∀ v v' o, m v = (v', o) →
    match o with Return _ => f v' = f v + k | Throw _ => f v ≤ f v' ≤ f v + k end.

Lemma adds_ret {V A} (f : V → nat) (a : A) : adds f 0 (ret a).
Proof. intros v v' o [= <- <-]. lia. Qed.

Lemma adds_throw {V A} (f : V → nat) k (e : jsval) : adds (A := A) f k (throw e).
Proof. intros v v' o [= <- <-]. lia. Qed.

Lemma adds_lift {V A} (f : V → nat) (o : outcome jsval A) : adds f 0 (lift_outcome o).
Proof. intros v v' o' [= <- <-]. destruct o; lia. Qed.

Lemma adds_bind {V A B} (f : V → nat) j k (m : M V jsval A) (g : A → M V jsval B) :
  adds f j m → (∀ a, adds f k (g a)) → adds f (j + k) (bind m g).
Proof.
  intros Hm Hg v v' o. unfold bind. destruct (m v) as [v1 [a|e]] eqn:E; apply Hm in E.
  - intros H. apply Hg in H. destruct o; lia.
  - intros [= <- <-]. lia.
Qed.

Lemma adds_bind0 {V A B} (f : V → nat) k (m : M V jsval A) (g : A → M V jsval B) :
  adds f 0 m → (∀ a, adds f k (g a)) → adds f k (bind m g).
Proof. apply adds_bind. Qed.

Section one_fetch.
(** How many fetches the world has seen: [fetch] adds one, nothing else the client calls does. *)
Context (fetches : W → nat).
Context (Hfetch : ∀ r, adds fetches 1 (global_fetch r)).
Context (Hrequest : ∀ f r o, adds fetches 0 (request_fn f r o)).
Context (Hresponse : ∀ f r q o, adds fetches 0 (response_fn f r q o)).
Context (Herror : ∀ f e r q o, adds fetches 0 (error_fn f e r q o)).

Definition quiet_options (o : RequestOptions W) : Prop :=
  o_fetch o = None
  ∧ (∀ f d, o_requestValidator o = Some f → adds fetches 0 (f d))
  ∧ (∀ f d, o_responseValidator o = Some f → adds fetches 0 (f d))
  ∧ (∀ f d, o_responseTransformer o = Some f → adds fetches 0 (f d)).

Lemma over_Some {A} (a b : option A) x : over a b = Some x → a = Some x ∨ b = Some x.
Proof. destruct b; simpl; auto. Qed.

Lemma quiet_spread a b : quiet_options a → quiet_options b → quiet_options (spread a b).
Proof.
  intros (Ha & Ha1 & Ha2 & Ha3) (Hb & Hb1 & Hb2 & Hb3). split; [simpl; by rewrite Ha, Hb|].
  repeat split; intros f d [H|H]%over_Some; eauto.
Qed.

Let total (v : request_vars W) : nat := fetches (world v).

Lemma adds_in_world {A} k (m : M W jsval A) : adds fetches k m → adds total k (in_world m).
Proof.
  intros Hm v v' o. unfold in_world. destruct (m (world v)) as [w o'] eqn:E. intros [= <- <-].
  unfold total. simpl. exact (Hm _ _ _ E).
Qed.

Lemma adds_assign {A} k (r : A) (m : request_vars W → A → request_vars W) :
  (∀ v, world (m v r) = world v) → k = 0 → adds total k (modify (fun v => m v r)).
Proof. intros H -> v v' o [= <- <-]. unfold total. rewrite H. lia. Qed.

Lemma adds_request_fns fns o r : adds total 0 (run_request_fns request_fn fns o r).
Proof.
  revert r. induction fns as [|[f|] fns IH]; intros r; simpl; [apply adds_ret| |apply IH].
  apply adds_bind0; [by apply adds_in_world|]. intros a. apply adds_bind0; [|done].
  intros v v' o' [= <- <-]. unfold total. simpl. lia.
Qed.

Lemma adds_response_fns fns o q r : adds total 0 (run_response_fns response_fn fns o q r).
Proof.
  revert r. induction fns as [|[f|] fns IH]; intros r; simpl; [apply adds_ret| |apply IH].
  apply adds_bind0; [by apply adds_in_world|]. intros a. apply adds_bind0; [|done].
  intros v v' o' [= <- <-]. unfold total. simpl. lia.
Qed.

Lemma adds_error_fns fns o e : adds total 0 (run_error_fns error_fn fns o e).
Proof.
  revert e. induction fns as [|[f|] fns IH]; intros e; simpl; [apply adds_ret| |apply IH].
  intros v. eapply (adds_bind0 total 0); [|done]. by apply adds_in_world.
Qed.

Lemma before_quiet c o w w' b :
  quiet_options c → quiet_options o → beforeRequest btoa c o w = (w', Return b) → quiet_options (opts b).
Proof.
  intros Hc Ho H. unfold beforeRequest in H.
  repeat (apply bind_Return in H as (? & ? & _ & H)). injection H as _ <-. simpl.
  by apply (quiet_spread c o).
Qed.

Lemma adds_before c o : quiet_options c → quiet_options o → adds fetches 0 (beforeRequest btoa c o).
Proof.
  intros Hc Ho. destruct (quiet_spread c o Hc Ho) as (_ & Hv & _ & _). unfold beforeRequest.
  apply adds_bind0; [apply adds_lift|]. intros h. apply adds_bind0; [apply adds_lift|]. intros hq.
  apply adds_bind0.
  { destruct (o_requestValidator (spread c o)) eqn:E; [by apply Hv|apply adds_ret]. }
  intros _. apply adds_bind0; [apply adds_lift|]. intros s. apply adds_bind0; [apply adds_lift|].
  intros h'. apply adds_bind0; [apply adds_lift|]. intros u. apply adds_ret.
Qed.

Lemma adds_ok_data o r : quiet_options o → adds fetches 0 (ok_data o r).
Proof.
  intros (_ & _ & Hv & Ht). unfold ok_data. case_match; [apply adds_lift|].
  case_match; try apply adds_lift; try apply adds_ret.
  all: apply adds_bind0; [apply adds_lift|]; intros t; apply adds_bind0; [apply adds_lift|]; intros d.
  all: apply adds_bind0; [case_match; [by apply Hv|apply adds_ret]|]; intros _.
  all: case_match; [by apply Ht|apply adds_ret].
Qed.

Lemma adds_attempt c options :
  quiet_options (config c) → quiet_options options → adds total 1 (attempt_request c options).
Proof.
  intros Hc Ho v v' out. unfold Client.attempt_request. unfold bind at 1.
  destruct (in_world (beforeRequest btoa (config c) options) v) as [v1 [b|e]] eqn:E.
  - assert (quiet_options (opts b)) as Hb.
    { unfold in_world in E. destruct (beforeRequest _ _ _ _) as [w1 o1] eqn:E1. simplify_eq.
      by eapply (before_quiet (config c) options). }
    apply (adds_in_world 0) in E; [|by apply adds_before]. simpl in E. intros H.
    assert (total v = total v1) as -> by lia. clear E v. revert v1 v' out H.
    change (adds total 1 ?m) with (∀ v v' o, m v = (v', o) →
      match o with Return _ => total v' = total v + 1 | Throw _ => total v ≤ total v' ≤ total v + 1 end).
    match goal with |- ∀ v v' o, ?m v = _ → _ => change (adds total 1 m) end.
    apply (adds_bind total 0 1); [apply adds_lift|]. intros q.
    apply (adds_bind total 0 1); [intros ? ? ? [= <- <-]; unfold total; simpl; lia|]. intros _.
    apply (adds_bind total 0 1); [apply adds_request_fns|]. intros q'.
    apply (adds_bind total 1 0); [apply adds_in_world; destruct Hb as [-> _]; apply Hfetch|]. intros s.
    apply adds_bind0; [intros ? ? ? [= <- <-]; unfold total; simpl; lia|]. intros _.
    apply adds_bind0; [apply adds_response_fns|]. intros s'. case_match.
    + apply adds_bind0; [by apply adds_in_world, adds_ok_data|]. intros d. apply adds_ret.
    + apply adds_bind0; [apply adds_lift|]. intros e. apply adds_throw.
  - apply (adds_in_world 0) in E; [|by apply adds_before]. intros [= <- <-]. lia.
Qed.

(** One call is at most one fetch, and a call that answers with data made exactly one: the
    client itself neither retries nor drops a request. *)
Theorem request_fetches_once c options w w' out :
  quiet_options (config c) → quiet_options options →
  request c options w = (w', out) →
  fetches w ≤ fetches w' ≤ fetches w + 1
  ∧ ∀ r, out = Return r → is_data r → fetches w' = fetches w + 1.
Proof.
  intros Hc Ho. unfold Client.request, catch.
  destruct (attempt_request c options (mkVars w None None)) as [v [r|e]] eqn:E;
    apply adds_attempt in E; [|done|done| |done|done]; unfold total in E; simpl in E.
  - intros [= <- <-]. split; [lia|done].
  - destruct (handle_error error_fn c options e v) as [v' o'] eqn:F. intros [= <- <-].
    assert (adds total 0 (handle_error error_fn c options e)) as Hh.
    { unfold handle_error. apply adds_bind0; [apply adds_error_fns|]. intros e'.
      case_match; [apply adds_throw|]. intros ? ? ? [= <- <-]. lia. }
    assert (∀ r, o' = Return r → ¬ is_data r) as Hnd.
    { intros r ->. unfold handle_error in F. apply bind_Return in F as (? & ? & _ & F).
      case_match; [done|]. injection F as _ <-. case_match; auto. }
    apply Hh in F. unfold total in F. split.
    + destruct o'; lia.
    + intros r Hr Hd. by apply Hnd in Hr.
Qed.
End one_fetch.

(** ** The interceptors a request runs *)

Lemma run_request_fns_active fns o r v :
  run_request_fns request_fn fns o r v = run_request_fns request_fn (map Some (active fns)) o r v.
Proof.
  revert r v. induction fns as [|[f|] fns IH]; intros r v; cbn; [done| |apply IH].
  unfold bind. destruct (in_world _ _) as [v' [a|e]]; [apply IH|done].
Qed.

Lemma run_response_fns_active fns o q r v :
  run_response_fns response_fn fns o q r v = run_response_fns response_fn (map Some (active fns)) o q r v.
Proof.
  revert r v. induction fns as [|[f|] fns IH]; intros r v; cbn; [done| |apply IH].
  unfold bind. destruct (in_world _ _) as [v' [a|e]]; [apply IH|done].
Qed.

Lemma run_error_fns_active fns o e v :
  run_error_fns error_fn fns o e v = run_error_fns error_fn (map Some (active fns)) o e v.
Proof.
  revert e v. induction fns as [|[f|] fns IH]; intros e v; cbn; [done| |apply IH].
  unfold bind. destruct (in_world _ _) as [v' [a|e']]; [apply IH|done].
Qed.

Lemma bind_cong {V E A B} (m n : M V E A) (f g : A → M V E B) v :
  m v = n v → (∀ a v, f a v = g a v) → bind m f v = bind n g v.
Proof. intros H Hf. unfold bind. rewrite H. destruct (n v) as [v' [a|e]]; auto. Qed.

Lemma bind_ext {V E A B} (m : M V E A) (f g : A → M V E B) v :
  (∀ a v, f a v = g a v) → bind m f v = bind m g v.
Proof. by apply bind_cong. Qed.

(** Replacing each registry by the list of its registered interceptors. *)
Definition compact (c : client_state W) : client_state W :=
  mkClient (config c) (map Some (active (request_fns c))) (map Some (active (response_fns c)))
    (map Some (active (error_fns c))).

Lemma request_compact c options w : request c options w = request (compact c) options w.
Proof.
  unfold Client.request, catch.
  assert (∀ v, attempt_request c options v = attempt_request (compact c) options v) as ->.
  { intros v. unfold Client.attempt_request, compact. cbn [config request_fns response_fns].
    do 3 (apply bind_ext; intros ? ?). apply bind_cong; [apply run_request_fns_active|intros ? ?].
    do 2 (apply bind_ext; intros ? ?). apply bind_cong; [apply run_response_fns_active|done]. }
  destruct (attempt_request (compact c) options _) as [v [r|e]]; [done|].
  assert (handle_error error_fn c options e v = handle_error error_fn (compact c) options e v) as ->; [|done].
  unfold handle_error, compact. cbn [config error_fns]. apply bind_cong; [apply run_error_fns_active|done].
Qed.

(** The three registries of a client without the interceptors [ids] name. *)
Definition eject_all (c : client_state W) (ids : interceptor_id nat * interceptor_id nat * interceptor_id nat)
  : client_state W :=
  mkClient (config c) (eject (request_fns c) ids.1.1) (eject (response_fns c) ids.1.2)
    (eject (error_fns c) ids.2).

(** An ejected interceptor is as if it had never been registered: registering an interceptor
    of each kind and ejecting it again, by the ids [use] answered, leaves every request as it was,
    whatever was registered before or is registered after. *)
Theorem ejected_never_runs c f g h later_f later_g later_h options w :
  let used fns x later := foldl (λ l y, (use l y).1) (use fns x).1 later in
  let direct fns later := foldl (λ l y, (use l y).1) fns later in
  request (eject_all (mkClient (config c) (used (request_fns c) f later_f) (used (response_fns c) g later_g)
                        (used (error_fns c) h later_h))
             (ById (use (request_fns c) f).2, ById (use (response_fns c) g).2, ById (use (error_fns c) h).2))
          options w
  = request (mkClient (config c) (direct (request_fns c) later_f) (direct (response_fns c) later_g)
               (direct (error_fns c) later_h)) options w.
Proof.
  intros used direct.
  assert (∀ fns x later, active (eject (used fns x later) (ById (use fns x).2)) = active (direct fns later)) as H.
  { intros fns x later. unfold used, direct, use. simpl.
    assert (∀ l : list (option nat), foldl (λ l y, l ++ [Some y]) l later = l ++ map Some later) as Hf.
    { clear. induction later as [|y later IH]; intros l; simpl; [by rewrite app_nil_r|].
      by rewrite IH, <-app_assoc. }
    rewrite !Hf. unfold eject, getInterceptorIndex.
    assert (slot ((fns ++ [Some x]) ++ map Some later) (Z.of_nat (length fns)) = Some x) as Hs.
    { apply slot_lookup. split; [lia|]. rewrite Nat2Z.id, <-app_assoc.
      rewrite lookup_app_r by lia. by rewrite Nat.sub_diag. }
    rewrite !Hs, Nat2Z.id, <-app_assoc. rewrite insert_app_r_alt by lia. rewrite Nat.sub_diag. simpl.
    unfold active. by rewrite !omap_app. }
  rewrite request_compact. symmetry. rewrite request_compact. unfold compact, eject_all.
  cbn [config request_fns response_fns error_fns fst snd]. by rewrite !H.
Qed.
End client_spec.

(** ** Witnesses *)

(** A network that answers every request with the same response and counts them. *)
Definition counting_fetch (r : Response) : Request → M nat jsval Response :=
  fun _ n => (S n, Return r).
Definition json_response (status : Z) (text : jstr) : Response :=
  mkResponse status (<["content-type"%js := "application/json"%js]> ∅) (Return text)
    (λ _, Throw js_type_error) VNull.
Definition no_request_fn {W} : nat → Request → RequestOptions W → M W jsval Request := λ _ r _, ret r.
Definition no_response_fn {W} : nat → Response → Request → RequestOptions W → M W jsval Response :=
  λ _ r _ _, ret r.
Definition no_error_fn {W} : nat → jsval → option Response → option Request → RequestOptions W → M W jsval jsval :=
  λ _ e _ _ _, ret e.

Definition example_client : client_state nat :=
  mkClient (createConfig no_request_options) [Some 0; None] [] [Some 0].
Definition example_options : RequestOptions nat :=
  set_method "GET" (mkRequestOptions (Some "http://h"%js) (Some "/api/{id}"%js) None
    (Some [("id"%js, VInt 7)]) (Some [("q"%js, VStr "a b")]) None None None None None None None None None
    None None None None None).

Definition example_request (r : Response) : M nat jsval request_result :=
  request (counting_fetch r) (λ _, None) (λ _, true) no_request_fn no_response_fn no_error_fn
    example_client example_options.

Example request_example :
  (match example_request (json_response 200 "[1]") 0 with
   | (n, Return (RFields d q _)) => Some (n, d, r_url q, r_method q)
   | _ => None
   end) = Some (1, VArr [VInt 1], "http://h/api/7?q=a%20b"%js, "GET"%js).
Proof. vm_compute. reflexivity. Qed.

Lemma request_settles_witness :
  ∃ w' out, example_request (json_response 500 "oops") 0 = (w', out) ∧
    match out with
    | Return r => is_data r ∨ throws example_client example_options = false ∧
                  (if data_only example_client example_options then r = RUndefinedData
                   else ∃ e q p, r = RError e q p ∧ truthy e = true)
    | Throw e => throws example_client example_options = true ∧ truthy e = true
    end.
Proof. apply request_settles. intros f e r q o w. exists w, e. reflexivity. Defined.

Lemma request_fetches_once_witness :
  (0 ≤ (example_request (json_response 204 []) 0).1 ≤ 0 + 1)
  ∧ ∀ r, (example_request (json_response 204 []) 0).2 = Return r → is_data r →
         (example_request (json_response 204 []) 0).1 = 0 + 1.
Proof.
  apply (request_fetches_once (counting_fetch (json_response 204 [])) (λ _, None) (λ _, true)
           no_request_fn no_response_fn no_error_fn (λ n, n)
           ltac:(intros r v v' o [= <- <-]; lia) ltac:(intros; apply adds_ret)
           ltac:(intros; apply adds_ret) ltac:(intros; apply adds_ret)
           example_client example_options 0 (example_request (json_response 204 []) 0).1
           (example_request (json_response 204 []) 0).2).
  - repeat split; done.
  - repeat split; done.
  - unfold example_request. match goal with |- ?x = _ => generalize x end. by intros [].
Defined.
