(* ===== verification/ApiEnums.v ===== *)
(** * Enumerations of the API

    The constant objects of [lib/api/types.gen.ts], one inductive type each with
    the source's keys, and the value of each key.  The class [ApiEnum] is what
    the other files use of them: the list of the values, and that no two keys
    share a value, so that a value read from a response names one key. *)

From S2P Require Import Prelude JsString JsValue.

Class ApiEnum (A : Type) `{EqDecision A} := {
  enum_all : list A;
  enum_value : A → jstr;
  enum_complete : ∀ a, a ∈ enum_all;
  enum_inj : Inj (=) (=) enum_value;
}.

Section api_enum.
Context `{ApiEnum A}.

(** The key a value stands for. *)
Definition enum_of (s : jstr) : option A := find_first (λ a, enum_value a =js s) enum_all.

Lemma enum_of_value a : enum_of (enum_value a) = Some a.
Proof.
  unfold enum_of. destruct (find_first _ enum_all) as [b|] eqn:E.
  - apply find_first_Some in E as [E%jeqb_eq _]. by apply enum_inj in E as ->.
  - apply (find_first_None _ _ a) in E; [|apply enum_complete]. cbn beta in E. by rewrite jeqb_refl in E.
Qed.

Lemma enum_of_Some s a : enum_of s = Some a ↔ s = enum_value a.
Proof.
  split; [|intros ->; apply enum_of_value].
  by intros [E%jeqb_eq _]%find_first_Some.
Qed.
End api_enum.

(** Closes the obligations of an instance: membership by computation, injectivity by the values. *)
Ltac enum_instance := intros []; (apply (bool_decide_unpack _); vm_compute; done).
Ltac enum_injective := intros a b H; destruct a, b; (reflexivity || (vm_compute in H; discriminate H)).

(** ** [CancelStatus] *)

Inductive CancelStatus :=
| CancelStatus_ALREADY_CANCELLED
| CancelStatus_CANCELLATION_REQUESTED.

#[export] Instance CancelStatus_eq_dec : EqDecision CancelStatus.
Proof. solve_decision. Defined.

Definition CancelStatus_all : list CancelStatus :=
  [CancelStatus_ALREADY_CANCELLED;
   CancelStatus_CANCELLATION_REQUESTED].

Definition CancelStatus_value (x : CancelStatus) : jstr :=
  match x with
  | CancelStatus_ALREADY_CANCELLED => "already_cancelled"
  | CancelStatus_CANCELLATION_REQUESTED => "cancellation_requested"
  end.

#[export, refine] Instance CancelStatus_enum : ApiEnum CancelStatus :=
  {| enum_all := CancelStatus_all; enum_value := CancelStatus_value |}.
Proof.
  - enum_instance.
  - enum_injective.
Defined.

(** ** [EndpointGroup] *)

Inductive EndpointGroup :=
| EndpointGroup_EXECUTION
| EndpointGroup_ADMIN
| EndpointGroup_SSE
| EndpointGroup_WEBSOCKET
| EndpointGroup_AUTH
| EndpointGroup_PUBLIC
| EndpointGroup_API.

#[export] Instance EndpointGroup_eq_dec : EqDecision EndpointGroup.
Proof. solve_decision. Defined.

Definition EndpointGroup_all : list EndpointGroup :=
  [EndpointGroup_EXECUTION;
   EndpointGroup_ADMIN;
   EndpointGroup_SSE;
   EndpointGroup_WEBSOCKET;
   EndpointGroup_AUTH;
   EndpointGroup_PUBLIC;
   EndpointGroup_API].

Definition EndpointGroup_value (x : EndpointGroup) : jstr :=
  match x with
  | EndpointGroup_EXECUTION => "execution"
  | EndpointGroup_ADMIN => "admin"
  | EndpointGroup_SSE => "sse"
  | EndpointGroup_WEBSOCKET => "websocket"
  | EndpointGroup_AUTH => "auth"
  | EndpointGroup_PUBLIC => "public"
  | EndpointGroup_API => "api"
  end.

#[export, refine] Instance EndpointGroup_enum : ApiEnum EndpointGroup :=
  {| enum_all := EndpointGroup_all; enum_value := EndpointGroup_value |}.
Proof.
  - enum_instance.
  - enum_injective.
Defined.

(** ** [Environment] *)

Inductive Environment :=
| Environment_DEVELOPMENT
| Environment_STAGING
| Environment_PRODUCTION
| Environment_TEST.

#[export] Instance Environment_eq_dec : EqDecision Environment.
Proof. solve_decision. Defined.

Definition Environment_all : list Environment :=
  [Environment_DEVELOPMENT;
   Environment_STAGING;
   Environment_PRODUCTION;
   Environment_TEST].

Definition Environment_value (x : Environment) : jstr :=
  match x with
  | Environment_DEVELOPMENT => "development"
  | Environment_STAGING => "staging"
  | Environment_PRODUCTION => "production"
  | Environment_TEST => "test"
  end.

#[export, refine] Instance Environment_enum : ApiEnum Environment :=
  {| enum_all := Environment_all; enum_value := Environment_value |}.
Proof.
  - enum_instance.
  - enum_injective.
Defined.

(** ** [EventType] *)

Inductive EventType :=
| EventType_EXECUTION_REQUESTED
| EventType_EXECUTION_ACCEPTED
| EventType_EXECUTION_QUEUED
| EventType_EXECUTION_STARTED
| EventType_EXECUTION_RUNNING
| EventType_EXECUTION_COMPLETED
| EventType_EXECUTION_FAILED
| EventType_EXECUTION_TIMEOUT
| EventType_EXECUTION_CANCELLED
| EventType_POD_CREATED
| EventType_POD_SCHEDULED
| EventType_POD_RUNNING
| EventType_POD_SUCCEEDED
| EventType_POD_FAILED
| EventType_POD_TERMINATED
| EventType_POD_DELETED
| EventType_USER_REGISTERED
| EventType_USER_LOGIN
| EventType_USER_LOGGED_IN
| EventType_USER_LOGGED_OUT
| EventType_USER_UPDATED
| EventType_USER_DELETED
| EventType_USER_SETTINGS_UPDATED
| EventType_NOTIFICATION_CREATED
| EventType_NOTIFICATION_SENT
| EventType_NOTIFICATION_DELIVERED
| EventType_NOTIFICATION_FAILED
| EventType_NOTIFICATION_READ
| EventType_NOTIFICATION_ALL_READ
| EventType_NOTIFICATION_CLICKED
| EventType_NOTIFICATION_PREFERENCES_UPDATED
| EventType_SCRIPT_SAVED
| EventType_SCRIPT_DELETED
| EventType_SCRIPT_SHARED
| EventType_SECURITY_VIOLATION
| EventType_RATE_LIMIT_EXCEEDED
| EventType_AUTH_FAILED
| EventType_RESOURCE_LIMIT_EXCEEDED
| EventType_QUOTA_EXCEEDED
| EventType_SYSTEM_ERROR
| EventType_SERVICE_UNHEALTHY
| EventType_SERVICE_RECOVERED
| EventType_RESULT_STORED
| EventType_RESULT_FAILED
| EventType_DLQ_MESSAGE_RECEIVED
| EventType_DLQ_MESSAGE_RETRIED
| EventType_DLQ_MESSAGE_DISCARDED.

#[export] Instance EventType_eq_dec : EqDecision EventType.
Proof. solve_decision. Defined.

Definition EventType_all : list EventType :=
  [EventType_EXECUTION_REQUESTED;
   EventType_EXECUTION_ACCEPTED;
   EventType_EXECUTION_QUEUED;
   EventType_EXECUTION_STARTED;
   EventType_EXECUTION_RUNNING;
   EventType_EXECUTION_COMPLETED;
   EventType_EXECUTION_FAILED;
   EventType_EXECUTION_TIMEOUT;
   EventType_EXECUTION_CANCELLED;
   EventType_POD_CREATED;
   EventType_POD_SCHEDULED;
   EventType_POD_RUNNING;
   EventType_POD_SUCCEEDED;
   EventType_POD_FAILED;
   EventType_POD_TERMINATED;
   EventType_POD_DELETED;
   EventType_USER_REGISTERED;
   EventType_USER_LOGIN;
   EventType_USER_LOGGED_IN;
   EventType_USER_LOGGED_OUT;
   EventType_USER_UPDATED;
   EventType_USER_DELETED;
   EventType_USER_SETTINGS_UPDATED;
   EventType_NOTIFICATION_CREATED;
   EventType_NOTIFICATION_SENT;
   EventType_NOTIFICATION_DELIVERED;
   EventType_NOTIFICATION_FAILED;
   EventType_NOTIFICATION_READ;
   EventType_NOTIFICATION_ALL_READ;
   EventType_NOTIFICATION_CLICKED;
   EventType_NOTIFICATION_PREFERENCES_UPDATED;
   EventType_SCRIPT_SAVED;
   EventType_SCRIPT_DELETED;
   EventType_SCRIPT_SHARED;
   EventType_SECURITY_VIOLATION;
   EventType_RATE_LIMIT_EXCEEDED;
   EventType_AUTH_FAILED;
   EventType_RESOURCE_LIMIT_EXCEEDED;
   EventType_QUOTA_EXCEEDED;
   EventType_SYSTEM_ERROR;
   EventType_SERVICE_UNHEALTHY;
   EventType_SERVICE_RECOVERED;
   EventType_RESULT_STORED;
   EventType_RESULT_FAILED;
   EventType_DLQ_MESSAGE_RECEIVED;
   EventType_DLQ_MESSAGE_RETRIED;
   EventType_DLQ_MESSAGE_DISCARDED].

Definition EventType_value (x : EventType) : jstr :=
  match x with
  | EventType_EXECUTION_REQUESTED => "execution_requested"
  | EventType_EXECUTION_ACCEPTED => "execution_accepted"
  | EventType_EXECUTION_QUEUED => "execution_queued"
  | EventType_EXECUTION_STARTED => "execution_started"
  | EventType_EXECUTION_RUNNING => "execution_running"
  | EventType_EXECUTION_COMPLETED => "execution_completed"
  | EventType_EXECUTION_FAILED => "execution_failed"
  | EventType_EXECUTION_TIMEOUT => "execution_timeout"
  | EventType_EXECUTION_CANCELLED => "execution_cancelled"
  | EventType_POD_CREATED => "pod_created"
  | EventType_POD_SCHEDULED => "pod_scheduled"
  | EventType_POD_RUNNING => "pod_running"
  | EventType_POD_SUCCEEDED => "pod_succeeded"
  | EventType_POD_FAILED => "pod_failed"
  | EventType_POD_TERMINATED => "pod_terminated"
  | EventType_POD_DELETED => "pod_deleted"
  | EventType_USER_REGISTERED => "user_registered"
  | EventType_USER_LOGIN => "user_login"
  | EventType_USER_LOGGED_IN => "user_logged_in"
  | EventType_USER_LOGGED_OUT => "user_logged_out"
  | EventType_USER_UPDATED => "user_updated"
  | EventType_USER_DELETED => "user_deleted"
  | EventType_USER_SETTINGS_UPDATED => "user_settings_updated"
  | EventType_NOTIFICATION_CREATED => "notification_created"
  | EventType_NOTIFICATION_SENT => "notification_sent"
  | EventType_NOTIFICATION_DELIVERED => "notification_delivered"
  | EventType_NOTIFICATION_FAILED => "notification_failed"
  | EventType_NOTIFICATION_READ => "notification_read"
  | EventType_NOTIFICATION_ALL_READ => "notification_all_read"
  | EventType_NOTIFICATION_CLICKED => "notification_clicked"
  | EventType_NOTIFICATION_PREFERENCES_UPDATED => "notification_preferences_updated"
  | EventType_SCRIPT_SAVED => "script_saved"
  | EventType_SCRIPT_DELETED => "script_deleted"
  | EventType_SCRIPT_SHARED => "script_shared"
  | EventType_SECURITY_VIOLATION => "security_violation"
  | EventType_RATE_LIMIT_EXCEEDED => "rate_limit_exceeded"
  | EventType_AUTH_FAILED => "auth_failed"
  | EventType_RESOURCE_LIMIT_EXCEEDED => "resource_limit_exceeded"
  | EventType_QUOTA_EXCEEDED => "quota_exceeded"
  | EventType_SYSTEM_ERROR => "system_error"
  | EventType_SERVICE_UNHEALTHY => "service_unhealthy"
  | EventType_SERVICE_RECOVERED => "service_recovered"
  | EventType_RESULT_STORED => "result_stored"
  | EventType_RESULT_FAILED => "result_failed"
  | EventType_DLQ_MESSAGE_RECEIVED => "dlq_message_received"
  | EventType_DLQ_MESSAGE_RETRIED => "dlq_message_retried"
  | EventType_DLQ_MESSAGE_DISCARDED => "dlq_message_discarded"
  end.

#[export, refine] Instance EventType_enum : ApiEnum EventType :=
  {| enum_all := EventType_all; enum_value := EventType_value |}.
Proof.
  - enum_instance.
  - enum_injective.
Defined.

(** ** [ExecutionErrorType] *)

Inductive ExecutionErrorType :=
| ExecutionErrorType_SYSTEM_ERROR
| ExecutionErrorType_TIMEOUT
| ExecutionErrorType_RESOURCE_LIMIT
| ExecutionErrorType_SCRIPT_ERROR
| ExecutionErrorType_PERMISSION_DENIED.

#[export] Instance ExecutionErrorType_eq_dec : EqDecision ExecutionErrorType.
Proof. solve_decision. Defined.

Definition ExecutionErrorType_all : list ExecutionErrorType :=
  [ExecutionErrorType_SYSTEM_ERROR;
   ExecutionErrorType_TIMEOUT;
   ExecutionErrorType_RESOURCE_LIMIT;
   ExecutionErrorType_SCRIPT_ERROR;
   ExecutionErrorType_PERMISSION_DENIED].

Definition ExecutionErrorType_value (x : ExecutionErrorType) : jstr :=
  match x with
  | ExecutionErrorType_SYSTEM_ERROR => "system_error"
  | ExecutionErrorType_TIMEOUT => "timeout"
  | ExecutionErrorType_RESOURCE_LIMIT => "resource_limit"
  | ExecutionErrorType_SCRIPT_ERROR => "script_error"
  | ExecutionErrorType_PERMISSION_DENIED => "permission_denied"
  end.

#[export, refine] Instance ExecutionErrorType_enum : ApiEnum ExecutionErrorType :=
  {| enum_all := ExecutionErrorType_all; enum_value := ExecutionErrorType_value |}.
Proof.
  - enum_instance.
  - enum_injective.
Defined.

(** ** [ExecutionStatus] *)

Inductive ExecutionStatus :=
| ExecutionStatus_QUEUED
| ExecutionStatus_SCHEDULED
| ExecutionStatus_RUNNING
| ExecutionStatus_COMPLETED
| ExecutionStatus_FAILED
| ExecutionStatus_TIMEOUT
| ExecutionStatus_CANCELLED
| ExecutionStatus_ERROR.

#[export] Instance ExecutionStatus_eq_dec : EqDecision ExecutionStatus.
Proof. solve_decision. Defined.

Definition ExecutionStatus_all : list ExecutionStatus :=
  [ExecutionStatus_QUEUED;
   ExecutionStatus_SCHEDULED;
   ExecutionStatus_RUNNING;
   ExecutionStatus_COMPLETED;
   ExecutionStatus_FAILED;
   ExecutionStatus_TIMEOUT;
   ExecutionStatus_CANCELLED;
   ExecutionStatus_ERROR].

Definition ExecutionStatus_value (x : ExecutionStatus) : jstr :=
  match x with
  | ExecutionStatus_QUEUED => "queued"
  | ExecutionStatus_SCHEDULED => "scheduled"
  | ExecutionStatus_RUNNING => "running"
  | ExecutionStatus_COMPLETED => "completed"
  | ExecutionStatus_FAILED => "failed"
  | ExecutionStatus_TIMEOUT => "timeout"
  | ExecutionStatus_CANCELLED => "cancelled"
  | ExecutionStatus_ERROR => "error"
  end.

#[export, refine] Instance ExecutionStatus_enum : ApiEnum ExecutionStatus :=
  {| enum_all := ExecutionStatus_all; enum_value := ExecutionStatus_value |}.
Proof.
  - enum_instance.
  - enum_injective.
Defined.

(** ** [ExportFormat] *)

Inductive ExportFormat :=
| ExportFormat_CSV
| ExportFormat_JSON.

#[export] Instance ExportFormat_eq_dec : EqDecision ExportFormat.
Proof. solve_decision. Defined.

Definition ExportFormat_all : list ExportFormat :=
  [ExportFormat_CSV;
   ExportFormat_JSON].

Definition ExportFormat_value (x : ExportFormat) : jstr :=
  match x with
  | ExportFormat_CSV => "csv"
  | ExportFormat_JSON => "json"
  end.

#[export, refine] Instance ExportFormat_enum : ApiEnum ExportFormat :=
  {| enum_all := ExportFormat_all; enum_value := ExportFormat_value |}.
Proof.
  - enum_instance.
  - enum_injective.
Defined.

(** ** [LoginMethod] *)

Inductive LoginMethod :=
| LoginMethod_PASSWORD
| LoginMethod_OAUTH
| LoginMethod_SSO
| LoginMethod_API_KEY.

#[export] Instance LoginMethod_eq_dec : EqDecision LoginMethod.
Proof. solve_decision. Defined.

Definition LoginMethod_all : list LoginMethod :=
  [LoginMethod_PASSWORD;
   LoginMethod_OAUTH;
   LoginMethod_SSO;
   LoginMethod_API_KEY].

Definition LoginMethod_value (x : LoginMethod) : jstr :=
  match x with
  | LoginMethod_PASSWORD => "password"
  | LoginMethod_OAUTH => "oauth"
  | LoginMethod_SSO => "sso"
  | LoginMethod_API_KEY => "api_key"
  end.

#[export, refine] Instance LoginMethod_enum : ApiEnum LoginMethod :=
  {| enum_all := LoginMethod_all; enum_value := LoginMethod_value |}.
Proof.
  - enum_instance.
  - enum_injective.
Defined.

(** ** [NotificationSeverity] *)

Inductive NotificationSeverity :=
| NotificationSeverity_LOW
| NotificationSeverity_MEDIUM
| NotificationSeverity_HIGH
| NotificationSeverity_URGENT.

#[export] Instance NotificationSeverity_eq_dec : EqDecision NotificationSeverity.
Proof. solve_decision. Defined.

Definition NotificationSeverity_all : list NotificationSeverity :=
  [NotificationSeverity_LOW;
   NotificationSeverity_MEDIUM;
   NotificationSeverity_HIGH;
   NotificationSeverity_URGENT].

Definition NotificationSeverity_value (x : NotificationSeverity) : jstr :=
  match x with
  | NotificationSeverity_LOW => "low"
  | NotificationSeverity_MEDIUM => "medium"
  | NotificationSeverity_HIGH => "high"
  | NotificationSeverity_URGENT => "urgent"
  end.

#[export, refine] Instance NotificationSeverity_enum : ApiEnum NotificationSeverity :=
  {| enum_all := NotificationSeverity_all; enum_value := NotificationSeverity_value |}.
Proof.
  - enum_instance.
  - enum_injective.
Defined.

(** ** [NotificationStatus] *)

Inductive NotificationStatus :=
| NotificationStatus_PENDING
| NotificationStatus_QUEUED
| NotificationStatus_SENDING
| NotificationStatus_DELIVERED
| NotificationStatus_FAILED
| NotificationStatus_READ
| NotificationStatus_CLICKED.

#[export] Instance NotificationStatus_eq_dec : EqDecision NotificationStatus.
Proof. solve_decision. Defined.

Definition NotificationStatus_all : list NotificationStatus :=
  [NotificationStatus_PENDING;
   NotificationStatus_QUEUED;
   NotificationStatus_SENDING;
   NotificationStatus_DELIVERED;
   NotificationStatus_FAILED;
   NotificationStatus_READ;
   NotificationStatus_CLICKED].

Definition NotificationStatus_value (x : NotificationStatus) : jstr :=
  match x with
  | NotificationStatus_PENDING => "pending"
  | NotificationStatus_QUEUED => "queued"
  | NotificationStatus_SENDING => "sending"
  | NotificationStatus_DELIVERED => "delivered"
  | NotificationStatus_FAILED => "failed"
  | NotificationStatus_READ => "read"
  | NotificationStatus_CLICKED => "clicked"
  end.

#[export, refine] Instance NotificationStatus_enum : ApiEnum NotificationStatus :=
  {| enum_all := NotificationStatus_all; enum_value := NotificationStatus_value |}.
Proof.
  - enum_instance.
  - enum_injective.
Defined.

(** ** [QueuePriority] *)

Inductive QueuePriority :=
| QueuePriority_CRITICAL
| QueuePriority_HIGH
| QueuePriority_NORMAL
| QueuePriority_LOW
| QueuePriority_BACKGROUND.

#[export] Instance QueuePriority_eq_dec : EqDecision QueuePriority.
Proof. solve_decision. Defined.

Definition QueuePriority_all : list QueuePriority :=
  [QueuePriority_CRITICAL;
   QueuePriority_HIGH;
   QueuePriority_NORMAL;
   QueuePriority_LOW;
   QueuePriority_BACKGROUND].

Definition QueuePriority_value (x : QueuePriority) : jstr :=
  match x with
  | QueuePriority_CRITICAL => "critical"
  | QueuePriority_HIGH => "high"
  | QueuePriority_NORMAL => "normal"
  | QueuePriority_LOW => "low"
  | QueuePriority_BACKGROUND => "background"
  end.

#[export, refine] Instance QueuePriority_enum : ApiEnum QueuePriority :=
  {| enum_all := QueuePriority_all; enum_value := QueuePriority_value |}.
Proof.
  - enum_instance.
  - enum_injective.
Defined.

(** ** [RateLimitAlgorithm] *)

Inductive RateLimitAlgorithm :=
| RateLimitAlgorithm_SLIDING_WINDOW
| RateLimitAlgorithm_TOKEN_BUCKET
| RateLimitAlgorithm_FIXED_WINDOW
| RateLimitAlgorithm_LEAKY_BUCKET.

#[export] Instance RateLimitAlgorithm_eq_dec : EqDecision RateLimitAlgorithm.
Proof. solve_decision. Defined.

Definition RateLimitAlgorithm_all : list RateLimitAlgorithm :=
  [RateLimitAlgorithm_SLIDING_WINDOW;
   RateLimitAlgorithm_TOKEN_BUCKET;
   RateLimitAlgorithm_FIXED_WINDOW;
   RateLimitAlgorithm_LEAKY_BUCKET].

Definition RateLimitAlgorithm_value (x : RateLimitAlgorithm) : jstr :=
  match x with
  | RateLimitAlgorithm_SLIDING_WINDOW => "sliding_window"
  | RateLimitAlgorithm_TOKEN_BUCKET => "token_bucket"
  | RateLimitAlgorithm_FIXED_WINDOW => "fixed_window"
  | RateLimitAlgorithm_LEAKY_BUCKET => "leaky_bucket"
  end.

#[export, refine] Instance RateLimitAlgorithm_enum : ApiEnum RateLimitAlgorithm :=
  {| enum_all := RateLimitAlgorithm_all; enum_value := RateLimitAlgorithm_value |}.
Proof.
  - enum_instance.
  - enum_injective.
Defined.

(** ** [ReplayStatus] *)

Inductive ReplayStatus :=
| ReplayStatus_PREVIEW
| ReplayStatus_SCHEDULED
| ReplayStatus_RUNNING
| ReplayStatus_COMPLETED
| ReplayStatus_FAILED.

#[export] Instance ReplayStatus_eq_dec : EqDecision ReplayStatus.
Proof. solve_decision. Defined.

Definition ReplayStatus_all : list ReplayStatus :=
  [ReplayStatus_PREVIEW;
   ReplayStatus_SCHEDULED;
   ReplayStatus_RUNNING;
   ReplayStatus_COMPLETED;
   ReplayStatus_FAILED].

Definition ReplayStatus_value (x : ReplayStatus) : jstr :=
  match x with
  | ReplayStatus_PREVIEW => "preview"
  | ReplayStatus_SCHEDULED => "scheduled"
  | ReplayStatus_RUNNING => "running"
  | ReplayStatus_COMPLETED => "completed"
  | ReplayStatus_FAILED => "failed"
  end.

#[export, refine] Instance ReplayStatus_enum : ApiEnum ReplayStatus :=
  {| enum_all := ReplayStatus_all; enum_value := ReplayStatus_value |}.
Proof.
  - enum_instance.
  - enum_injective.
Defined.

(** ** [SseControlEvent] *)

Inductive SseControlEvent :=
| SseControlEvent_STATUS.

#[export] Instance SseControlEvent_eq_dec : EqDecision SseControlEvent.
Proof. solve_decision. Defined.

Definition SseControlEvent_all : list SseControlEvent :=
  [SseControlEvent_STATUS].

Definition SseControlEvent_value (x : SseControlEvent) : jstr :=
  match x with
  | SseControlEvent_STATUS => "status"
  end.

#[export, refine] Instance SseControlEvent_enum : ApiEnum SseControlEvent :=
  {| enum_all := SseControlEvent_all; enum_value := SseControlEvent_value |}.
Proof.
  - enum_instance.
  - enum_injective.
Defined.

(** ** [StorageType] *)

Inductive StorageType :=
| StorageType_DATABASE
| StorageType_S3
| StorageType_FILESYSTEM
| StorageType_REDIS.

#[export] Instance StorageType_eq_dec : EqDecision StorageType.
Proof. solve_decision. Defined.

Definition StorageType_all : list StorageType :=
  [StorageType_DATABASE;
   StorageType_S3;
   StorageType_FILESYSTEM;
   StorageType_REDIS].

Definition StorageType_value (x : StorageType) : jstr :=
  match x with
  | StorageType_DATABASE => "database"
  | StorageType_S3 => "s3"
  | StorageType_FILESYSTEM => "filesystem"
  | StorageType_REDIS => "redis"
  end.

#[export, refine] Instance StorageType_enum : ApiEnum StorageType :=
  {| enum_all := StorageType_all; enum_value := StorageType_value |}.
Proof.
  - enum_instance.
  - enum_injective.
Defined.

(** ** [Theme] *)

Inductive Theme :=
| Theme_LIGHT
| Theme_DARK
| Theme_SYSTEM.

#[export] Instance Theme_eq_dec : EqDecision Theme.
Proof. solve_decision. Defined.

Definition Theme_all : list Theme :=
  [Theme_LIGHT;
   Theme_DARK;
   Theme_SYSTEM].

Definition Theme_value (x : Theme) : jstr :=
  match x with
  | Theme_LIGHT => "light"
  | Theme_DARK => "dark"
  | Theme_SYSTEM => "system"
  end.

#[export, refine] Instance Theme_enum : ApiEnum Theme :=
  {| enum_all := Theme_all; enum_value := Theme_value |}.
Proof.
  - enum_instance.
  - enum_injective.
Defined.

(** ** [UserRole] *)

Inductive UserRole :=
| UserRole_USER
| UserRole_ADMIN
| UserRole_MODERATOR.

#[export] Instance UserRole_eq_dec : EqDecision UserRole.
Proof. solve_decision. Defined.

Definition UserRole_all : list UserRole :=
  [UserRole_USER;
   UserRole_ADMIN;
   UserRole_MODERATOR].

Definition UserRole_value (x : UserRole) : jstr :=
  match x with
  | UserRole_USER => "user"
  | UserRole_ADMIN => "admin"
  | UserRole_MODERATOR => "moderator"
  end.

#[export, refine] Instance UserRole_enum : ApiEnum UserRole :=
  {| enum_all := UserRole_all; enum_value := UserRole_value |}.
Proof.
  - enum_instance.
  - enum_injective.
Defined.
