(* ===== verification/Zod.v ===== *)
(** * Schemas and types

    The language of [lib/api/zod.gen.ts] (the zod expressions that validate the
    data of the API) and of [lib/api/types.gen.ts] (the TypeScript types the
    rest of the client is written against), as data.

    zod itself is not part of the repository: [Zod] is an interface, the
    function [safeParse] with the documented behaviour of each combinator
    ([zod_step]) as its law, the formats of dates and e-mail addresses being
    parameters.  The theorem [safeParse_typed] is what a schema promises to the
    code that uses it: what it lets through has the type [z.infer] gives. *)

From S2P Require Import Prelude JsString JsValue UrlBuilder.

(** ** Schemas *)

Inductive literal := LStr (s : jstr) | LNum (z : Z).

#[export] Instance literal_eq_dec : EqDecision literal.
Proof. solve_decision. Defined.

Inductive string_check := MinLength (n : Z) | MaxLength (n : Z) | RegexExactly (s : jstr).
Inductive number_check := Gte (z : Z) | Lte (z : Z) | Gt (z : Z).

Inductive schema :=
| ZString (checks : list string_check)
| ZInt (checks : list number_check)
| ZNumber (checks : list number_check)
| ZBoolean
| ZNull
| ZVoid
| ZUnknown
| ZLiteral (l : literal)
| ZEnum (values : list jstr)
| ZDatetime                                      (* [z.iso.datetime()] *)
| ZEmail
| ZArray (s : schema)
| ZRecord (key value : schema)
| ZUnion (options : list schema)
| ZDiscriminatedUnion (key : jstr) (options : list schema)
| ZObject (fields : list (jstr * schema))
| ZNullish (s : schema)
| ZNullable (s : schema)
| ZOptional (s : schema)
| ZDefault (s : schema) (value : jsval)
| ZReadonly (s : schema).

Section schema_nested_ind.
Variable P : schema → Prop.
Hypothesis HString : ∀ cs, P (ZString cs).
Hypothesis HInt : ∀ cs, P (ZInt cs).
Hypothesis HNumber : ∀ cs, P (ZNumber cs).
Hypothesis HBoolean : P ZBoolean.
Hypothesis HNull : P ZNull.
Hypothesis HVoid : P ZVoid.
Hypothesis HUnknown : P ZUnknown.
Hypothesis HLiteral : ∀ l, P (ZLiteral l).
Hypothesis HEnum : ∀ vs, P (ZEnum vs).
Hypothesis HDatetime : P ZDatetime.
Hypothesis HEmail : P ZEmail.
Hypothesis HArray : ∀ s, P s → P (ZArray s).
Hypothesis HRecord : ∀ k s, P k → P s → P (ZRecord k s).
Hypothesis HUnion : ∀ l, Forall P l → P (ZUnion l).
Hypothesis HDiscriminated : ∀ k l, Forall P l → P (ZDiscriminatedUnion k l).
Hypothesis HObject : ∀ fs, Forall (λ f, P f.2) fs → P (ZObject fs).
Hypothesis HNullish : ∀ s, P s → P (ZNullish s).
Hypothesis HNullable : ∀ s, P s → P (ZNullable s).
Hypothesis HOptional : ∀ s, P s → P (ZOptional s).
Hypothesis HDefault : ∀ s d, P s → P (ZDefault s d).
Hypothesis HReadonly : ∀ s, P s → P (ZReadonly s).

Fixpoint schema_nested_ind (s : schema) : P s :=
  let all := fix go (l : list schema) : Forall P l :=
    match l with
    | [] => Forall_nil_2 _
    | x :: r => Forall_cons_2 _ x r (schema_nested_ind x) (go r)
    end in
  match s with
  | ZString cs => HString cs
  | ZInt cs => HInt cs
  | ZNumber cs => HNumber cs
  | ZBoolean => HBoolean
  | ZNull => HNull
  | ZVoid => HVoid
  | ZUnknown => HUnknown
  | ZLiteral l => HLiteral l
  | ZEnum vs => HEnum vs
  | ZDatetime => HDatetime
  | ZEmail => HEmail
  | ZArray s => HArray s (schema_nested_ind s)
  | ZRecord k s => HRecord k s (schema_nested_ind k) (schema_nested_ind s)
  | ZUnion l => HUnion l (all l)
  | ZDiscriminatedUnion k l => HDiscriminated k l (all l)
  | ZObject fs => HObject fs
      ((fix go (l : list (jstr * schema)) : Forall (λ f, P f.2) l :=
          match l with
          | [] => Forall_nil_2 _
          | x :: r => Forall_cons_2 _ x r (schema_nested_ind x.2) (go r)
          end) fs)
  | ZNullish s => HNullish s (schema_nested_ind s)
  | ZNullable s => HNullable s (schema_nested_ind s)
  | ZOptional s => HOptional s (schema_nested_ind s)
  | ZDefault s d => HDefault s d (schema_nested_ind s)
  | ZReadonly s => HReadonly s (schema_nested_ind s)
  end.
End schema_nested_ind.

(** ** What zod does with a value *)

(** [m * 10^e] compared with an integer. *)
Definition dec_le (z m e : Z) : bool :=
  if (0 <=? e)%Z then (z <=? m * 10 ^ e)%Z else (z * 10 ^ (- e) <=? m)%Z.
Definition dec_ge (z m e : Z) : bool :=
  if (0 <=? e)%Z then (m * 10 ^ e <=? z)%Z else (m <=? z * 10 ^ (- e))%Z.

Definition number_ok (m e : Z) (c : number_check) : bool :=
  match c with
  | Gte z => dec_le z m e
  | Lte z => dec_ge z m e
  | Gt z => negb (dec_ge z m e)
  end.

(** An integer that a double represents exactly ([Number.isSafeInteger]). *)
Definition safe_integer (m e : Z) : bool :=
  (0 <=? e)%Z && (- (2 ^ 53 - 1) <=? m * 10 ^ e)%Z && (m * 10 ^ e <=? 2 ^ 53 - 1)%Z.

Definition string_ok (s : jstr) (c : string_check) : bool :=
  match c with
  | MinLength n => (n <=? Z.of_nat (length s))%Z
  | MaxLength n => (Z.of_nat (length s) <=? n)%Z
  | RegexExactly t => s =js t
  end.

Definition literal_value (l : literal) : jsval :=
  match l with LStr s => VStr s | LNum z => VInt z end.

Definition is_literal (l : literal) (v : jsval) : bool :=
  match l, v with
  | LStr s, VStr t => s =js t
  | LNum z, VNum (Dec m e) => dec_le z m e && dec_ge z m e
  | _, _ => false
  end.

(** The literal a schema requires of one of its properties. *)
Definition discriminator (key : jstr) (s : schema) : option literal :=
  match s with
  | ZObject fs =>
      match obj_get key fs with
      | Some (ZLiteral l) | Some (ZDefault (ZLiteral l) _) => Some l
      | _ => None
      end
  | _ => None
  end.

Section zod_step.
Context (is_datetime is_email : jstr → bool).
Context (parse : schema → jsval → option jsval).

(** The fields of an object in the schema's order: a property that is not there is read as
    undefined, and stays away when the field's schema leaves it undefined; other properties are
    dropped. *)
Fixpoint parse_fields (fields : list (jstr * schema)) (props : list (jstr * jsval))
  : option (list (jstr * jsval)) :=
  match fields with
  | [] => Some []
  | (k, s) :: r =>
      w ← parse s (default VUndefined (obj_get k props));
      rest ← parse_fields r props;
      Some (if is_undefined w && negb (obj_has k props) then rest else (k, w) :: rest)
  end.

Fixpoint parse_entries (key value : schema) (props : list (jstr * jsval)) : option (list (jstr * jsval)) :=
  match props with
  | [] => Some []
  | (k, v) :: r =>
      k' ← parse key (VStr k); v' ← parse value v; rest ← parse_entries key value r;
      Some ((match k' with VStr k' => k' | _ => k end, v') :: rest)
  end.

Fixpoint parse_options (options : list schema) (v : jsval) : option jsval :=
  match options with
  | [] => None
  | s :: r => match parse s v with Some w => Some w | None => parse_options r v end
  end.

Definition zod_step (s : schema) (v : jsval) : option jsval :=
  let test (b : bool) := if b then Some v else None in
  match s with
  | ZString cs => match v with VStr t => test (forallb (string_ok t) cs) | _ => None end
  | ZInt cs => match v with VNum (Dec m e) => test (safe_integer m e && forallb (number_ok m e) cs) | _ => None end
  | ZNumber cs => match v with VNum (Dec m e) => test (forallb (number_ok m e) cs) | _ => None end
  | ZBoolean => match v with VBool _ => Some v | _ => None end
  | ZNull => match v with VNull => Some v | _ => None end
  | ZVoid => match v with VUndefined => Some v | _ => None end
  | ZUnknown => Some v
  | ZLiteral l => test (is_literal l v)
  | ZEnum vs => match v with VStr t => test (existsb (jeqb t) vs) | _ => None end
  | ZDatetime => match v with VStr t => test (is_datetime t) | _ => None end
  | ZEmail => match v with VStr t => test (is_email t) | _ => None end
  | ZArray s => match v with VArr l => VArr <$> mapM (parse s) l | _ => None end
  | ZRecord k s => match v with VObj l => VObj <$> parse_entries k s l | _ => None end
  | ZUnion l => parse_options l v
  | ZDiscriminatedUnion key l =>
      match v with
      | VObj props =>
          s ← find_first (λ s, match discriminator key s with
                               | Some d => is_literal d (default VUndefined (obj_get key props))
                               | None => false
                               end) l;
          parse s v
      | _ => None
      end
  | ZObject fs => match v with VObj l => VObj <$> parse_fields fs l | _ => None end
  | ZNullish s => if nullish v then Some v else parse s v
  | ZNullable s => match v with VNull => Some v | _ => parse s v end
  | ZOptional s => if is_undefined v then Some v else parse s v
  | ZDefault s d =>
      if is_undefined v then Some d
      else w ← parse s v; Some (if is_undefined w then d else w)
  | ZReadonly s => parse s v
  end.
End zod_step.

(** [safeParse(v)] of JSON data, and of the undefined that a missing property reads as: [Some w]
    is [{success: true, data: w}]. *)
Class Zod := {
  is_datetime : jstr → bool;
  is_email : jstr → bool;
  safeParse : schema → jsval → option jsval;
  safeParse_spec s v : safeParse s v = zod_step is_datetime is_email safeParse s v;
}.

(** ** Types *)

Inductive ts_type :=
| TUnknown
| TNever
| TString
| TNumber
| TBoolean
| TNull
| TUndefined
| TLiteral (l : literal)
| TArray (t : ts_type)
| TRecord (t : ts_type)
| TUnion (l : list ts_type)
| TIntersection (a b : ts_type)
| TObject (fields : list (jstr * ts_type)).

(** An optional property [k?: t]. *)
Definition opt (t : ts_type) : ts_type := TUnion [t; TUndefined].

(** [typeof E[keyof typeof E]] of a constant object. *)
Definition TEnum (values : list jstr) : ts_type := TUnion (map (λ v, TLiteral (LStr v)) values).

(** [T['k']] and [T[keyof T]]. *)
Definition ts_field (k : jstr) (t : ts_type) : ts_type :=
  match t with TObject fs => default TNever (obj_get k fs) | _ => TNever end.
Definition ts_values (t : ts_type) : ts_type :=
  match t with TObject fs => TUnion (map snd fs) | _ => TNever end.

(** [Exclude<T, undefined>]. *)
Definition exclude_undefined (t : ts_type) : ts_type :=
  match t with
  | TUnion l => TUnion (List.filter (λ t, match t with TUndefined => false | _ => true end) l)
  | TUndefined => TNever
  | t => t
  end.

(** Does a value have a type?  A property is read: one that is missing reads as undefined. *)
Fixpoint has_type (t : ts_type) (v : jsval) : bool :=
  match t with
  | TUnknown => true
  | TNever => false
  | TString => match v with VStr _ => true | _ => false end
  | TNumber => match v with VNum _ => true | _ => false end
  | TBoolean => match v with VBool _ => true | _ => false end
  | TNull => match v with VNull => true | _ => false end
  | TUndefined => is_undefined v
  | TLiteral l => is_literal l v
  | TArray t => match v with VArr l => forallb (has_type t) l | _ => false end
  | TRecord t => match v with VObj l => forallb (λ kv, has_type t kv.2) l | _ => false end
  | TUnion l => existsb (λ t, has_type t v) l
  | TIntersection a b => has_type a v && has_type b v
  | TObject fs =>
      match v with
      | VObj l => forallb (λ f, has_type f.2 (default VUndefined (obj_get f.1 l))) fs
      | _ => false
      end
  end.

(** [z.infer]. *)
Fixpoint infer (s : schema) : ts_type :=
  match s with
  | ZString _ | ZDatetime | ZEmail => TString
  | ZInt _ | ZNumber _ => TNumber
  | ZBoolean => TBoolean
  | ZNull => TNull
  | ZVoid => TUndefined
  | ZUnknown => TUnknown
  | ZLiteral l => TLiteral l
  | ZEnum vs => TEnum vs
  | ZArray s => TArray (infer s)
  | ZRecord _ s => TRecord (infer s)
  | ZUnion l | ZDiscriminatedUnion _ l => TUnion (map infer l)
  | ZObject fs => TObject (map (λ f, (f.1, infer f.2)) fs)
  | ZNullish s => TUnion [infer s; TNull; TUndefined]
  | ZNullable s => TUnion [infer s; TNull]
  | ZOptional s => opt (infer s)
  | ZDefault s _ => exclude_undefined (infer s)
  | ZReadonly s => infer s
  end.

(** Every default has the type of the schema it stands in for, and the fields of an object have
    different names. *)
Fixpoint well_formed_schema (s : schema) : bool :=
  match s with
  | ZArray s | ZNullish s | ZNullable s | ZOptional s | ZReadonly s => well_formed_schema s
  | ZRecord _ s => well_formed_schema s
  | ZUnion l | ZDiscriminatedUnion _ l => forallb well_formed_schema l
  | ZObject fs => forallb (λ f, well_formed_schema f.2) fs && bool_decide (NoDup (map fst fs))
  | ZDefault s d => well_formed_schema s && has_type (exclude_undefined (infer s)) d
  | _ => true
  end.

(** ** Subtyping *)

(** The fuel bounds the depth of the two types. *)
Fixpoint subtype (n : nat) (a b : ts_type) : bool :=
  match n with
  | O => false
  | S n =>
      match a, b with
      | _, TUnknown => true
      | TNever, _ => true
      | TUnion l, _ => forallb (λ a, subtype n a b) l
      | _, TIntersection b1 b2 => subtype n a b1 && subtype n a b2
      | _, TUnion l => existsb (subtype n a) l
      | TString, TString | TNumber, TNumber | TBoolean, TBoolean | TNull, TNull
      | TUndefined, TUndefined => true
      | TLiteral (LStr _), TString | TLiteral (LNum _), TNumber => true
      | TLiteral l, TLiteral k => bool_decide (l = k)
      | TArray a, TArray b | TRecord a, TRecord b => subtype n a b
      | TObject fs, TObject gs =>
          forallb (λ g, match obj_get g.1 fs with Some t => subtype n t g.2 | None => false end) gs
      | _, _ => false
      end
  end.

Lemma is_literal_string s v : is_literal (LStr s) v = true → has_type TString v = true.
Proof. by destruct v. Qed.
Lemma is_literal_number z v : is_literal (LNum z) v = true → has_type TNumber v = true.
Proof. by destruct v. Qed.

Lemma existsb_true {A} (f : A → bool) l : existsb f l = true ↔ ∃ x, x ∈ l ∧ f x = true.
Proof. rewrite existsb_exists. by setoid_rewrite list_elem_of_In. Qed.
Lemma forallb_true {A} (f : A → bool) l : forallb f l = true ↔ ∀ x, x ∈ l → f x = true.
Proof. rewrite forallb_forall. by setoid_rewrite list_elem_of_In. Qed.

Lemma obj_get_elem {A} k (l : list (jstr * A)) v : obj_get k l = Some v → (k, v) ∈ l.
Proof.
  induction l as [|[k' w] l IH]; simpl; [done|]. destruct (k =js k') eqn:E.
  - apply jeqb_eq in E as ->. intros [= ->]. left.
  - intros H. right. auto.
Qed.

Lemma subtype_union n l b v :
  (∀ a b, subtype n a b = true → has_type a v = true → has_type b v = true) →
  forallb (λ a, subtype n a b) l = true → has_type (TUnion l) v = true → has_type b v = true.
Proof.
  intros IH Hl Hv. simpl in Hv. apply existsb_true in Hv as (a & Ha & Hv).
  rewrite forallb_true in Hl. by apply (IH a); [apply Hl|].
Qed.

Lemma subtype_sound n a b v : subtype n a b = true → has_type a v = true → has_type b v = true.
Proof.
  revert a b v. induction n as [|n IH]; [done|]. intros a b v Hs Hv. cbn [subtype] in Hs.
  assert (∀ l, existsb (subtype n a) l = true → has_type (TUnion l) v = true) as Hu.
  { intros l (t & Ht & Hts)%existsb_true. simpl. apply existsb_true. eauto. }
  assert (∀ b1 b2, subtype n a b1 && subtype n a b2 = true → has_type (TIntersection b1 b2) v = true) as Hi.
  { intros b1 b2 [H1 H2]%andb_prop. simpl. by rewrite (IH a b1 v H1 Hv), (IH a b2 v H2 Hv). }
  destruct a as [| | | | | | |l|t|t|l|a1 a2|fs];
    try (by (destruct b as [| | | | | | |m|u|u|m|b1 b2|gs]; try done; auto)).
  - destruct b as [| | | | | | |m|u|u|m|b1 b2|gs], l as [s|z]; try done; auto;
      try (apply bool_decide_eq_true in Hs as <-; done);
      (by eapply is_literal_string) || (by eapply is_literal_number).
  - destruct b as [| | | | | | |m|u|u|m|b1 b2|gs]; try done; auto. destruct v as [| | | | | | | | | | |vs| |]; try done.
    simpl in *. rewrite forallb_true in Hv |- *. eauto.
  - destruct b as [| | | | | | |m|u|u|m|b1 b2|gs]; try done; auto. destruct v as [| | | | | | | | | | | |vs|]; try done.
    simpl in *. rewrite forallb_true in Hv |- *. eauto.
  - destruct b as [| | | | | | |m|u|u|m|b1 b2|gs]; try done;
      by eapply (subtype_union n l _ v); [intros ? ?; apply IH|exact Hs|].
  - destruct b as [| | | | | | |m|u|u|m|b1 b2|gs]; try done; auto. destruct v as [| | | | | | | | | | | |vs|]; try done.
    simpl in *. rewrite forallb_true in Hs, Hv |- *. intros [k t] Hg. specialize (Hs _ Hg). simpl in *.
    destruct (obj_get k fs) as [t'|] eqn:E; [|done]. apply (IH t'); [done|].
    apply obj_get_elem in E. apply (Hv _ E).
Qed.

(** ** What a schema lets through *)

Section typed.
Context {zod : Zod}.

Lemma exclude_undefined_type t v :
  has_type t v = true → is_undefined v = false → has_type (exclude_undefined t) v = true.
Proof.
  intros Ht Hv. destruct t as [| | | | | | | | | |l| |]; try done; simpl in *.
  - by rewrite Hv in Ht.
  - apply existsb_true in Ht as (t & Hin & Ht). apply existsb_true. exists t. split; [|done].
    apply list_elem_of_In, filter_In. split; [by apply list_elem_of_In|]. destruct t; try done.
    simpl in Ht. by rewrite Hv in Ht.
Qed.

Definition typed (s : schema) : Prop :=
  ∀ v w, well_formed_schema s = true → safeParse s v = Some w → has_type (infer s) w = true.

Lemma parse_options_typed l v w :
  Forall typed l → forallb well_formed_schema l = true → parse_options safeParse l v = Some w →
  has_type (TUnion (map infer l)) w = true.
Proof.
  induction 1 as [|s l Hs Hl IH]; [done|]. simpl. intros [Hw Hwl]%andb_prop.
  destruct (safeParse s v) eqn:E.
  - intros [= ->]. by rewrite (Hs v w Hw E).
  - intros H. apply orb_true_iff. right. by apply IH.
Qed.

(** A property that no field names is dropped. *)
Lemma parse_fields_none fs l ws k : parse_fields safeParse fs l = Some ws → k ∉ map fst fs → obj_get k ws = None.
Proof.
  revert ws. induction fs as [|[j s] fs IH]; intros ws; simpl; [by intros [= <-]|].
  destruct (safeParse s _) as [w|]; [|done]. simpl.
  destruct (parse_fields safeParse fs l) as [rest|]; [|done]. simpl.
  intros [= <-] [Hj Hin]%not_elem_of_cons. apply jeqb_neq in Hj.
  case_match; [by apply IH|]. simpl. rewrite Hj. by apply IH.
Qed.

Lemma parse_fields_get fs l ws k s :
  NoDup (map fst fs) → parse_fields safeParse fs l = Some ws → (k, s) ∈ fs →
  ∃ w, safeParse s (default VUndefined (obj_get k l)) = Some w ∧ default VUndefined (obj_get k ws) = w.
Proof.
  revert ws. induction fs as [|[j t] fs IH]; intros ws Hnd Hp Hin; [by apply not_elem_of_nil in Hin|].
  simpl in Hp. apply NoDup_cons in Hnd as [Hj Hnd]. simpl in Hj.
  destruct (safeParse t _) as [w|] eqn:Ew; [|done]. simpl in Hp.
  destruct (parse_fields safeParse fs l) as [rest|] eqn:Er; [|done]. simpl in Hp.
  apply elem_of_cons in Hin as [[= -> ->]|Hin].
  - exists w. split; [done|]. injection Hp as <-. case_match eqn:Eu.
    + apply andb_prop in Eu as [Eu _]. destruct w; try done. by rewrite (parse_fields_none fs l rest j Er Hj).
    + simpl. by rewrite jeqb_refl.
  - destruct (IH rest Hnd eq_refl Hin) as (w' & Hw' & Hget). exists w'. split; [done|].
    injection Hp as <-. case_match; [done|]. simpl.
    assert (k ≠ j) as Hne%jeqb_neq; [|by rewrite Hne].
    intros ->. apply Hj. by apply (list_elem_of_fmap_2 fst _ (j, s)).
Qed.

(** What a schema accepts: it lets something through. *)
Definition accepts (s : schema) (v : jsval) : Prop := is_Some (safeParse s v).

Lemma parse_fields_accepts fs l :
  (∀ f, f ∈ fs → accepts f.2 (default VUndefined (obj_get f.1 l))) → is_Some (parse_fields safeParse fs l).
Proof.
  induction fs as [|[k s] fs IH]; intros Hf; [by eexists|]. cbn [parse_fields].
  destruct (Hf (k, s)) as [w Hw]; [left|]. cbn in Hw. rewrite Hw. cbn.
  destruct IH as [rest ->]; [intros f Hin; apply Hf; by right|]. by eexists.
Qed.

Lemma parse_fields_each fs l ws f :
  parse_fields safeParse fs l = Some ws → f ∈ fs → accepts f.2 (default VUndefined (obj_get f.1 l)).
Proof.
  revert ws. induction fs as [|[k s] fs IH]; intros ws Hp Hin; [by apply not_elem_of_nil in Hin|]. cbn [parse_fields] in Hp.
  destruct (safeParse s _) as [w|] eqn:Ew; [|done]. cbn in Hp. destruct (parse_fields _ fs l) as [rest|]; [|done].
  apply elem_of_cons in Hin as [->|Hin]; [by exists w|]. by eapply IH.
Qed.

Lemma parse_fields_app fs gs l :
  parse_fields safeParse (fs ++ gs) l
  = (a ← parse_fields safeParse fs l; b ← parse_fields safeParse gs l; Some (a ++ b)).
Proof.
  induction fs as [|[k s] fs IH]; cbn [app parse_fields].
  { cbn. by destruct (parse_fields _ gs l). }
  destruct (safeParse s _) as [w|]; [|done]. cbn. rewrite IH.
  destruct (parse_fields _ fs l) as [a|]; [|done]. cbn. destruct (parse_fields _ gs l) as [b|]; [|done]. cbn.
  by case_match.
Qed.

Lemma parse_entries_typed k s l ws :
  typed s → well_formed_schema s = true → parse_entries safeParse k s l = Some ws →
  forallb (λ kv, has_type (infer s) kv.2) ws = true.
Proof.
  intros Hs Hwf. revert ws. induction l as [|[j x] l IHl]; intros ws; simpl; [by intros [= <-]|].
  destruct (safeParse k (VStr j)) as [j'|]; [|done]. simpl.
  destruct (safeParse s x) as [x'|] eqn:Ex; [|done]. simpl.
  destruct (parse_entries _ _ _ _) as [rest|]; [|done]. simpl. intros [= <-]. simpl.
  rewrite (Hs x x' Hwf Ex). by apply IHl.
Qed.

Lemma safeParse_typed_all s : typed s.
Proof.
  induction s using schema_nested_ind; intros v w Hwf; rewrite safeParse_spec; simpl in Hwf |- *;
    try (by (intros Hp; repeat case_match; simplify_eq)).
  - (* enum *) destruct v as [| | | | |t| | | | | | | |]; try done. destruct (existsb _ _) eqn:E; [|done].
    intros [= <-]. apply existsb_true in E as (u & Hu & <-%jeqb_eq). simpl. apply existsb_true.
    exists (TLiteral (LStr t)). split; [by apply (list_elem_of_fmap_2 (λ v, TLiteral (LStr v)))|].
    simpl. by rewrite jeqb_refl.
  - (* array *) destruct v as [| | | | | | | | | | |l| |]; try done. destruct (mapM _ _) as [ws|] eqn:E; [|done].
    intros [= <-]. simpl. apply forallb_true. intros x Hx.
    apply mapM_Some_1 in E. apply list_elem_of_lookup_1 in Hx as [i Hx].
    destruct (Forall2_lookup_r _ _ _ _ _ E Hx) as (y & _ & Hy). by apply (IHs y).
  - (* record *) destruct v as [| | | | | | | | | | | |l|]; try done.
    destruct (parse_entries _ _ _ _) as [ws|] eqn:E; [|done]. intros [= <-]. simpl.
    by eapply parse_entries_typed.
  - (* union *) intros Hp. by eapply parse_options_typed.
  - (* discriminated union *) destruct v as [| | | | | | | | | | | |l'|]; try done.
    destruct (find_first _ _) as [s|] eqn:E; [|done]. simpl. intros Hp.
    apply find_first_Some in E as [_ Hin]. apply existsb_true. exists (infer s).
    split; [by apply (list_elem_of_fmap_2 infer)|].
    rewrite Forall_forall in H. rewrite forallb_true in Hwf. eapply H; eauto.
  - (* object *) destruct v as [| | | | | | | | | | | |l|]; try done.
    destruct (parse_fields _ _ _) as [ws|] eqn:E; [|done]. intros [= <-].
    apply andb_prop in Hwf as [Hwf Hnd%bool_decide_eq_true]. simpl. apply forallb_true.
    intros f ([k s] & -> & Hin)%list_elem_of_fmap_1. simpl.
    destruct (parse_fields_get fs l ws k s Hnd E Hin) as (w & Hw & ->).
    rewrite Forall_forall in H. rewrite forallb_true in Hwf. eapply (H _ Hin); [by apply (Hwf _ Hin)|done].
  - (* nullish *) destruct (nullish v) eqn:E.
    + intros [= <-]. destruct v; try done; simpl; by rewrite ?orb_true_r.
    + intros Hp. by rewrite (IHs v w Hwf Hp).
  - (* nullable *) destruct v; try (intros Hp; by rewrite (IHs _ w Hwf Hp)).
    intros [= <-]. simpl. by rewrite orb_true_r.
  - (* optional *) destruct (is_undefined v) eqn:E.
    + intros [= <-]. simpl. by rewrite E, orb_true_r.
    + intros Hp. by rewrite (IHs v w Hwf Hp).
  - (* default *) apply andb_prop in Hwf as [Hwf Hd]. destruct (is_undefined v); [by intros [= <-]|].
    destruct (safeParse s v) as [x|] eqn:E; [|done]. simpl. intros [= <-].
    destruct (is_undefined x) eqn:Ex; [done|]. by eapply exclude_undefined_type; [eapply IHs|].
  - (* readonly *) intros Hp. by apply (IHs v).
Qed.
End typed.

(** ** A parser with this behaviour exists

    The schemas are finite, so the step can be tied to a function, for any formats of dates and
    e-mail addresses. *)

Fixpoint depth (s : schema) : nat :=
  match s with
  | ZArray s | ZNullish s | ZNullable s | ZOptional s | ZDefault s _ | ZReadonly s => S (depth s)
  | ZRecord k s => S (depth k + depth s)
  | ZUnion l | ZDiscriminatedUnion _ l => S (list_max (map depth l))
  | ZObject fs => S (list_max (map (λ f, depth f.2) fs))
  | _ => 1
  end.

Lemma depth_elem (l : list nat) n : n ∈ l → n ≤ list_max l.
Proof.
  intros H. pose proof (proj1 (list_max_le l (list_max l)) (le_n _)) as Hl.
  rewrite List.Forall_forall in Hl. apply Hl. by apply list_elem_of_In.
Qed.

Section tie.
Context (is_datetime is_email : jstr → bool).

Lemma parse_fields_ext p q fs l :
  (∀ f, f ∈ fs → ∀ v, p f.2 v = q f.2 v) → parse_fields p fs l = parse_fields q fs l.
Proof.
  induction fs as [|[k s] fs IH]; intros H; [done|]. cbn [parse_fields].
  rewrite (H (k, s)) by left. simpl. destruct (q s _); [|done]. simpl. rewrite IH; [done|].
  intros f Hf. apply H. by right.
Qed.

Lemma parse_options_ext p q l v :
  (∀ s, s ∈ l → ∀ v, p s v = q s v) → parse_options p l v = parse_options q l v.
Proof.
  induction l as [|s l IH]; intros H; [done|]. cbn [parse_options].
  rewrite (H s) by left. destruct (q s v); [done|]. apply IH. intros t Ht. apply H. by right.
Qed.

Lemma parse_entries_ext p q k s l :
  (∀ v, p k v = q k v) → (∀ v, p s v = q s v) → parse_entries p k s l = parse_entries q k s l.
Proof.
  intros Hk Hs. induction l as [|[j v] l IH]; [done|]. cbn [parse_entries]. by rewrite Hk, Hs, IH.
Qed.

(** The step only uses the parser on smaller schemas. *)
Lemma zod_step_ext p q s v :
  (∀ s', depth s' < depth s → ∀ v, p s' v = q s' v) →
  zod_step is_datetime is_email p s v = zod_step is_datetime is_email q s v.
Proof.
  assert (∀ l t, t ∈ l → depth t < S (list_max (map depth l))) as Hl.
  { intros l t Ht. apply Nat.lt_succ_r, depth_elem. by apply (list_elem_of_fmap_2 depth). }
  intros H. destruct s as [| | | | | | | | | | |s|k s|l|k l|fs|s|s|s|s d|s]; try done; simpl in H |- *.
  - destruct v as [| | | | | | | | | | |l| |]; try done. f_equal. apply mapM_ext. intros x. apply H. lia.
  - destruct v; try done. f_equal. apply parse_entries_ext; apply H; lia.
  - apply parse_options_ext. intros t Ht. by apply H, Hl.
  - destruct v; try done. destruct (find_first _ l) as [t|] eqn:E; [|done]. simpl.
    apply find_first_Some in E as [_ Ht]. by apply H, Hl.
  - destruct v; try done. f_equal. apply parse_fields_ext. intros f Hf. apply H.
    apply Nat.lt_succ_r, depth_elem. by apply (list_elem_of_fmap_2 (λ f, depth f.2)).
  - rewrite H by lia. done.
  - destruct v; try done; apply H; lia.
  - rewrite H by lia. done.
  - rewrite H by lia. done.
  - apply H. lia.
Qed.

Fixpoint parse_depth (n : nat) (s : schema) (v : jsval) : option jsval :=
  match n with
  | O => None
  | S n => zod_step is_datetime is_email (parse_depth n) s v
  end.

Lemma depth_pos s : 0 < depth s.
Proof. destruct s; simpl; lia. Qed.

Lemma parse_depth_enough n m s v : depth s ≤ n → depth s ≤ m → parse_depth n s v = parse_depth m s v.
Proof.
  revert m s v. induction n as [|n IH]; intros m s v Hn Hm; [pose proof (depth_pos s); lia|].
  destruct m as [|m]; [pose proof (depth_pos s); lia|]. cbn [parse_depth].
  apply zod_step_ext. intros s' Hs' v'. apply IH; lia.
Qed.

#[refine] Instance reference_zod : Zod := {
  is_datetime := is_datetime;
  is_email := is_email;
  safeParse s := parse_depth (depth s) s;
}.
Proof.
  intros s v. destruct (depth s) as [|n] eqn:E; [pose proof (depth_pos s); lia|].
  cbn [parse_depth]. apply zod_step_ext. intros s' Hs' v'. apply parse_depth_enough; lia.
Defined.
End tie.

(** The law leaves no choice: every parser that has it is the reference one for its formats. *)
Lemma safeParse_reference {zod : Zod} s v : safeParse s v = parse_depth is_datetime is_email (depth s) s v.
Proof.
  remember (depth s) as n eqn:Hn. revert s v Hn. induction n as [n IH] using lt_wf_ind. intros s v ->.
  rewrite safeParse_spec. destruct (depth s) as [|n] eqn:E; [by destruct s|]. cbn [parse_depth].
  apply zod_step_ext. intros s' Hs' v'. rewrite (IH (depth s')) by lia. apply parse_depth_enough; lia.
Qed.
