(* ===== verification/ApiTypes.v ===== *)
(** * The types of the API

    [lib/api/types.gen.ts], type by type in dependency order: [Definition X] is
    the type [X] of the source.  A property [k?: t] is [opt t]; a map
    [{[key: string]: t}] is [TRecord t] (beside other properties, an index of
    [unknown] values allows any further property, as any object type does). *)

From S2P Require Import Prelude JsString ApiEnums Zod.

Definition ExecutionErrorType : ts_type :=
  TEnum (map ExecutionErrorType_value ExecutionErrorType_all).

Definition ExecutionStatus : ts_type :=
  TEnum (map ExecutionStatus_value ExecutionStatus_all).

Definition QueuePriority : ts_type :=
  TEnum (map QueuePriority_value QueuePriority_all).

Definition AdminExecutionResponse : ts_type :=
  TObject [
    ("execution_id"%js, TString);
    ("script"%js, TString);
    ("status"%js, ExecutionStatus);
    ("lang"%js, TString);
    ("lang_version"%js, TString);
    ("stdout"%js, TUnion [TString; TNull]);
    ("stderr"%js, TUnion [TString; TNull]);
    ("exit_code"%js, TUnion [TNumber; TNull]);
    ("error_type"%js, TUnion [ExecutionErrorType; TNull]);
    ("priority"%js, QueuePriority);
    ("user_id"%js, TUnion [TString; TNull]);
    ("created_at"%js, TString);
    ("updated_at"%js, TString)].

Definition AdminExecutionListResponse : ts_type :=
  TObject [
    ("executions"%js, TArray AdminExecutionResponse);
    ("total"%js, TNumber);
    ("limit"%js, TNumber);
    ("skip"%js, TNumber);
    ("has_more"%js, TBoolean)].

Definition Environment : ts_type :=
  TEnum (map Environment_value Environment_all).

Definition EventMetadata : ts_type :=
  TObject [
    ("service_name"%js, TString);
    ("service_version"%js, TString);
    ("user_id"%js, TString);
    ("environment"%js, opt Environment)].

Definition AuthFailedEvent : ts_type :=
  TObject [
    ("event_id"%js, TString);
    ("event_type"%js, TLiteral (LStr "auth_failed"%js));
    ("event_version"%js, TString);
    ("timestamp"%js, TString);
    ("aggregate_id"%js, opt (TUnion [TString; TNull]));
    ("metadata"%js, EventMetadata);
    ("username"%js, opt (TUnion [TString; TNull]));
    ("reason"%js, opt TString);
    ("ip_address"%js, opt (TUnion [TString; TNull]))].

Definition DerivedCounts : ts_type :=
  TObject [
    ("succeeded"%js, TNumber);
    ("failed"%js, TNumber);
    ("timeout"%js, TNumber);
    ("cancelled"%js, TNumber);
    ("terminal_total"%js, TNumber)].

Definition EventType : ts_type :=
  TEnum (map EventType_value EventType_all).

Definition DlqMessageDiscardedEvent : ts_type :=
  TObject [
    ("event_id"%js, TString);
    ("event_type"%js, TLiteral (LStr "dlq_message_discarded"%js));
    ("event_version"%js, TString);
    ("timestamp"%js, TString);
    ("aggregate_id"%js, opt (TUnion [TString; TNull]));
    ("metadata"%js, EventMetadata);
    ("dlq_event_id"%js, opt TString);
    ("original_topic"%js, opt TString);
    ("original_event_type"%js, opt EventType);
    ("reason"%js, opt TString);
    ("retry_count"%js, opt TNumber)].

Definition DlqMessageReceivedEvent : ts_type :=
  TObject [
    ("event_id"%js, TString);
    ("event_type"%js, TLiteral (LStr "dlq_message_received"%js));
    ("event_version"%js, TString);
    ("timestamp"%js, TString);
    ("aggregate_id"%js, opt (TUnion [TString; TNull]));
    ("metadata"%js, EventMetadata);
    ("dlq_event_id"%js, opt TString);
    ("original_topic"%js, opt TString);
    ("original_event_type"%js, opt EventType);
    ("error"%js, opt TString);
    ("retry_count"%js, opt TNumber);
    ("producer_id"%js, opt TString);
    ("failed_at"%js, opt TString)].

Definition DlqMessageRetriedEvent : ts_type :=
  TObject [
    ("event_id"%js, TString);
    ("event_type"%js, TLiteral (LStr "dlq_message_retried"%js));
    ("event_version"%js, TString);
    ("timestamp"%js, TString);
    ("aggregate_id"%js, opt (TUnion [TString; TNull]));
    ("metadata"%js, EventMetadata);
    ("dlq_event_id"%js, opt TString);
    ("original_topic"%js, opt TString);
    ("original_event_type"%js, opt EventType);
    ("retry_count"%js, opt TNumber);
    ("retry_topic"%js, opt TString)].

Definition EventTypeCount : ts_type :=
  TObject [
    ("event_type"%js, EventType);
    ("count"%js, TNumber)].

Definition HourlyEventCount : ts_type :=
  TObject [
    ("hour"%js, TString);
    ("count"%js, TNumber)].

Definition ServiceEventCount : ts_type :=
  TObject [
    ("service_name"%js, TString);
    ("count"%js, TNumber)].

Definition UserEventCount : ts_type :=
  TObject [
    ("user_id"%js, TString);
    ("event_count"%js, TNumber)].

Definition EventStatistics : ts_type :=
  TObject [
    ("total_events"%js, TNumber);
    ("events_by_type"%js, TArray EventTypeCount);
    ("events_by_service"%js, TArray ServiceEventCount);
    ("events_by_hour"%js, TArray HourlyEventCount);
    ("top_users"%js, TArray UserEventCount);
    ("error_rate"%js, TNumber);
    ("avg_processing_time"%js, TNumber);
    ("start_time"%js, TUnion [TString; TNull]);
    ("end_time"%js, TUnion [TString; TNull])].

Definition ExecutionAcceptedEvent : ts_type :=
  TObject [
    ("event_id"%js, TString);
    ("event_type"%js, TLiteral (LStr "execution_accepted"%js));
    ("event_version"%js, TString);
    ("timestamp"%js, TString);
    ("aggregate_id"%js, opt (TUnion [TString; TNull]));
    ("metadata"%js, EventMetadata);
    ("execution_id"%js, opt TString);
    ("queue_position"%js, opt TNumber);
    ("estimated_wait_seconds"%js, opt (TUnion [TNumber; TNull]));
    ("priority"%js, opt QueuePriority)].

Definition ExecutionCancelledEvent : ts_type :=
  TObject [
    ("event_id"%js, TString);
    ("event_type"%js, TLiteral (LStr "execution_cancelled"%js));
    ("event_version"%js, TString);
    ("timestamp"%js, TString);
    ("aggregate_id"%js, opt (TUnion [TString; TNull]));
    ("metadata"%js, EventMetadata);
    ("execution_id"%js, opt TString);
    ("cancelled_by"%js, opt TString);
    ("force_terminated"%js, opt TBoolean)].

Definition ResourceUsageDomain : ts_type :=
  TObject [
    ("execution_time_wall_seconds"%js, opt TNumber);
    ("cpu_time_jiffies"%js, opt TNumber);
    ("clk_tck_hertz"%js, opt TNumber);
    ("peak_memory_kb"%js, opt TNumber)].

Definition ExecutionCompletedEvent : ts_type :=
  TObject [
    ("event_id"%js, TString);
    ("event_type"%js, TLiteral (LStr "execution_completed"%js));
    ("event_version"%js, TString);
    ("timestamp"%js, TString);
    ("aggregate_id"%js, opt (TUnion [TString; TNull]));
    ("metadata"%js, EventMetadata);
    ("execution_id"%js, opt TString);
    ("exit_code"%js, opt TNumber);
    ("resource_usage"%js, opt ResourceUsageDomain);
    ("stdout"%js, opt TString);
    ("stderr"%js, opt TString)].

Definition ExecutionFailedEvent : ts_type :=
  TObject [
    ("event_id"%js, TString);
    ("event_type"%js, TLiteral (LStr "execution_failed"%js));
    ("event_version"%js, TString);
    ("timestamp"%js, TString);
    ("aggregate_id"%js, opt (TUnion [TString; TNull]));
    ("metadata"%js, EventMetadata);
    ("execution_id"%js, opt TString);
    ("exit_code"%js, opt TNumber);
    ("error_type"%js, opt ExecutionErrorType);
    ("resource_usage"%js, opt (TUnion [ResourceUsageDomain; TNull]));
    ("stdout"%js, opt TString);
    ("stderr"%js, opt TString)].

Definition ExecutionQueuedEvent : ts_type :=
  TObject [
    ("event_id"%js, TString);
    ("event_type"%js, TLiteral (LStr "execution_queued"%js));
    ("event_version"%js, TString);
    ("timestamp"%js, TString);
    ("aggregate_id"%js, opt (TUnion [TString; TNull]));
    ("metadata"%js, EventMetadata);
    ("execution_id"%js, opt TString);
    ("position_in_queue"%js, opt (TUnion [TNumber; TNull]));
    ("estimated_start_time"%js, opt (TUnion [TString; TNull]))].

Definition ExecutionRequestedEvent : ts_type :=
  TObject [
    ("event_id"%js, TString);
    ("event_type"%js, TLiteral (LStr "execution_requested"%js));
    ("event_version"%js, TString);
    ("timestamp"%js, TString);
    ("aggregate_id"%js, opt (TUnion [TString; TNull]));
    ("metadata"%js, EventMetadata);
    ("execution_id"%js, opt TString);
    ("script"%js, opt TString);
    ("language"%js, opt TString);
    ("language_version"%js, opt TString);
    ("runtime_image"%js, opt TString);
    ("runtime_command"%js, opt (TArray TString));
    ("runtime_filename"%js, opt TString);
    ("timeout_seconds"%js, opt TNumber);
    ("cpu_limit"%js, opt TString);
    ("memory_limit"%js, opt TString);
    ("cpu_request"%js, opt TString);
    ("memory_request"%js, opt TString);
    ("priority"%js, opt QueuePriority)].

Definition ExecutionRunningEvent : ts_type :=
  TObject [
    ("event_id"%js, TString);
    ("event_type"%js, TLiteral (LStr "execution_running"%js));
    ("event_version"%js, TString);
    ("timestamp"%js, TString);
    ("aggregate_id"%js, opt (TUnion [TString; TNull]));
    ("metadata"%js, EventMetadata);
    ("execution_id"%js, opt TString);
    ("pod_name"%js, opt TString);
    ("progress_percentage"%js, opt (TUnion [TNumber; TNull]))].

Definition ExecutionStartedEvent : ts_type :=
  TObject [
    ("event_id"%js, TString);
    ("event_type"%js, TLiteral (LStr "execution_started"%js));
    ("event_version"%js, TString);
    ("timestamp"%js, TString);
    ("aggregate_id"%js, opt (TUnion [TString; TNull]));
    ("metadata"%js, EventMetadata);
    ("execution_id"%js, opt TString);
    ("pod_name"%js, opt TString);
    ("node_name"%js, opt (TUnion [TString; TNull]));
    ("container_id"%js, opt (TUnion [TString; TNull]))].

Definition ExecutionTimeoutEvent : ts_type :=
  TObject [
    ("event_id"%js, TString);
    ("event_type"%js, TLiteral (LStr "execution_timeout"%js));
    ("event_version"%js, TString);
    ("timestamp"%js, TString);
    ("aggregate_id"%js, opt (TUnion [TString; TNull]));
    ("metadata"%js, EventMetadata);
    ("execution_id"%js, opt TString);
    ("timeout_seconds"%js, opt TNumber);
    ("resource_usage"%js, opt ResourceUsageDomain);
    ("stdout"%js, opt TString);
    ("stderr"%js, opt TString)].

Definition NotificationAllReadEvent : ts_type :=
  TObject [
    ("event_id"%js, TString);
    ("event_type"%js, TLiteral (LStr "notification_all_read"%js));
    ("event_version"%js, TString);
    ("timestamp"%js, TString);
    ("aggregate_id"%js, opt (TUnion [TString; TNull]));
    ("metadata"%js, EventMetadata);
    ("user_id"%js, opt TString);
    ("count"%js, opt TNumber);
    ("read_at"%js, opt TString)].

Definition NotificationClickedEvent : ts_type :=
  TObject [
    ("event_id"%js, TString);
    ("event_type"%js, TLiteral (LStr "notification_clicked"%js));
    ("event_version"%js, TString);
    ("timestamp"%js, TString);
    ("aggregate_id"%js, opt (TUnion [TString; TNull]));
    ("metadata"%js, EventMetadata);
    ("notification_id"%js, opt TString);
    ("user_id"%js, opt TString);
    ("clicked_at"%js, opt TString);
    ("action"%js, opt (TUnion [TString; TNull]))].

Definition NotificationSeverity : ts_type :=
  TEnum (map NotificationSeverity_value NotificationSeverity_all).

Definition NotificationCreatedEvent : ts_type :=
  TObject [
    ("event_id"%js, TString);
    ("event_type"%js, TLiteral (LStr "notification_created"%js));
    ("event_version"%js, TString);
    ("timestamp"%js, TString);
    ("aggregate_id"%js, opt (TUnion [TString; TNull]));
    ("metadata"%js, EventMetadata);
    ("notification_id"%js, opt TString);
    ("user_id"%js, opt TString);
    ("subject"%js, opt TString);
    ("body"%js, opt TString);
    ("severity"%js, opt NotificationSeverity);
    ("tags"%js, opt (TArray TString))].

Definition NotificationDeliveredEvent : ts_type :=
  TObject [
    ("event_id"%js, TString);
    ("event_type"%js, TLiteral (LStr "notification_delivered"%js));
    ("event_version"%js, TString);
    ("timestamp"%js, TString);
    ("aggregate_id"%js, opt (TUnion [TString; TNull]));
    ("metadata"%js, EventMetadata);
    ("notification_id"%js, opt TString);
    ("user_id"%js, opt TString);
    ("delivered_at"%js, opt TString)].

Definition NotificationFailedEvent : ts_type :=
  TObject [
    ("event_id"%js, TString);
    ("event_type"%js, TLiteral (LStr "notification_failed"%js));
    ("event_version"%js, TString);
    ("timestamp"%js, TString);
    ("aggregate_id"%js, opt (TUnion [TString; TNull]));
    ("metadata"%js, EventMetadata);
    ("notification_id"%js, opt TString);
    ("user_id"%js, opt TString);
    ("error"%js, opt TString);
    ("retry_count"%js, opt TNumber)].

Definition NotificationPreferencesUpdatedEvent : ts_type :=
  TObject [
    ("event_id"%js, TString);
    ("event_type"%js, TLiteral (LStr "notification_preferences_updated"%js));
    ("event_version"%js, TString);
    ("timestamp"%js, TString);
    ("aggregate_id"%js, opt (TUnion [TString; TNull]));
    ("metadata"%js, EventMetadata);
    ("user_id"%js, opt TString);
    ("changed_fields"%js, opt (TArray TString))].

Definition NotificationReadEvent : ts_type :=
  TObject [
    ("event_id"%js, TString);
    ("event_type"%js, TLiteral (LStr "notification_read"%js));
    ("event_version"%js, TString);
    ("timestamp"%js, TString);
    ("aggregate_id"%js, opt (TUnion [TString; TNull]));
    ("metadata"%js, EventMetadata);
    ("notification_id"%js, opt TString);
    ("user_id"%js, opt TString);
    ("read_at"%js, opt TString)].

Definition NotificationSentEvent : ts_type :=
  TObject [
    ("event_id"%js, TString);
    ("event_type"%js, TLiteral (LStr "notification_sent"%js));
    ("event_version"%js, TString);
    ("timestamp"%js, TString);
    ("aggregate_id"%js, opt (TUnion [TString; TNull]));
    ("metadata"%js, EventMetadata);
    ("notification_id"%js, opt TString);
    ("user_id"%js, opt TString);
    ("sent_at"%js, opt TString)].

Definition PodCreatedEvent : ts_type :=
  TObject [
    ("event_id"%js, TString);
    ("event_type"%js, TLiteral (LStr "pod_created"%js));
    ("event_version"%js, TString);
    ("timestamp"%js, TString);
    ("aggregate_id"%js, opt (TUnion [TString; TNull]));
    ("metadata"%js, EventMetadata);
    ("execution_id"%js, opt TString);
    ("pod_name"%js, opt TString);
    ("namespace"%js, opt TString)].

Definition PodDeletedEvent : ts_type :=
  TObject [
    ("event_id"%js, TString);
    ("event_type"%js, TLiteral (LStr "pod_deleted"%js));
    ("event_version"%js, TString);
    ("timestamp"%js, TString);
    ("aggregate_id"%js, opt (TUnion [TString; TNull]));
    ("metadata"%js, EventMetadata);
    ("execution_id"%js, opt TString);
    ("pod_name"%js, opt TString);
    ("reason"%js, opt (TUnion [TString; TNull]))].

Definition PodFailedEvent : ts_type :=
  TObject [
    ("event_id"%js, TString);
    ("event_type"%js, TLiteral (LStr "pod_failed"%js));
    ("event_version"%js, TString);
    ("timestamp"%js, TString);
    ("aggregate_id"%js, opt (TUnion [TString; TNull]));
    ("metadata"%js, EventMetadata);
    ("execution_id"%js, opt TString);
    ("pod_name"%js, opt TString);
    ("exit_code"%js, opt TNumber);
    ("reason"%js, opt (TUnion [TString; TNull]));
    ("message"%js, opt (TUnion [TString; TNull]));
    ("stdout"%js, opt (TUnion [TString; TNull]));
    ("stderr"%js, opt (TUnion [TString; TNull]))].

Definition ContainerStatusInfo : ts_type :=
  TObject [
    ("name"%js, TString);
    ("ready"%js, opt TBoolean);
    ("restart_count"%js, opt TNumber);
    ("state"%js, opt TString)].

Definition PodRunningEvent : ts_type :=
  TObject [
    ("event_id"%js, TString);
    ("event_type"%js, TLiteral (LStr "pod_running"%js));
    ("event_version"%js, TString);
    ("timestamp"%js, TString);
    ("aggregate_id"%js, opt (TUnion [TString; TNull]));
    ("metadata"%js, EventMetadata);
    ("execution_id"%js, opt TString);
    ("pod_name"%js, opt TString);
    ("container_statuses"%js, opt (TArray ContainerStatusInfo))].

Definition PodScheduledEvent : ts_type :=
  TObject [
    ("event_id"%js, TString);
    ("event_type"%js, TLiteral (LStr "pod_scheduled"%js));
    ("event_version"%js, TString);
    ("timestamp"%js, TString);
    ("aggregate_id"%js, opt (TUnion [TString; TNull]));
    ("metadata"%js, EventMetadata);
    ("execution_id"%js, opt TString);
    ("pod_name"%js, opt TString);
    ("node_name"%js, opt TString)].

Definition PodSucceededEvent : ts_type :=
  TObject [
    ("event_id"%js, TString);
    ("event_type"%js, TLiteral (LStr "pod_succeeded"%js));
    ("event_version"%js, TString);
    ("timestamp"%js, TString);
    ("aggregate_id"%js, opt (TUnion [TString; TNull]));
    ("metadata"%js, EventMetadata);
    ("execution_id"%js, opt TString);
    ("pod_name"%js, opt TString);
    ("exit_code"%js, opt TNumber);
    ("stdout"%js, opt (TUnion [TString; TNull]));
    ("stderr"%js, opt (TUnion [TString; TNull]))].

Definition PodTerminatedEvent : ts_type :=
  TObject [
    ("event_id"%js, TString);
    ("event_type"%js, TLiteral (LStr "pod_terminated"%js));
    ("event_version"%js, TString);
    ("timestamp"%js, TString);
    ("aggregate_id"%js, opt (TUnion [TString; TNull]));
    ("metadata"%js, EventMetadata);
    ("execution_id"%js, opt TString);
    ("pod_name"%js, opt TString);
    ("exit_code"%js, opt TNumber);
    ("reason"%js, opt (TUnion [TString; TNull]));
    ("message"%js, opt (TUnion [TString; TNull]))].

Definition QuotaExceededEvent : ts_type :=
  TObject [
    ("event_id"%js, TString);
    ("event_type"%js, TLiteral (LStr "quota_exceeded"%js));
    ("event_version"%js, TString);
    ("timestamp"%js, TString);
    ("aggregate_id"%js, opt (TUnion [TString; TNull]));
    ("metadata"%js, EventMetadata);
    ("quota_type"%js, opt TString);
    ("limit"%js, opt TNumber);
    ("current_usage"%js, opt TNumber);
    ("user_id"%js, opt TString)].

Definition RateLimitExceededEvent : ts_type :=
  TObject [
    ("event_id"%js, TString);
    ("event_type"%js, TLiteral (LStr "rate_limit_exceeded"%js));
    ("event_version"%js, TString);
    ("timestamp"%js, TString);
    ("aggregate_id"%js, opt (TUnion [TString; TNull]));
    ("metadata"%js, EventMetadata);
    ("user_id"%js, opt (TUnion [TString; TNull]));
    ("endpoint"%js, opt TString);
    ("limit"%js, opt TNumber);
    ("window_seconds"%js, opt TNumber)].

Definition RateLimitSummary : ts_type :=
  TObject [
    ("bypass_rate_limit"%js, TBoolean);
    ("global_multiplier"%js, TNumber);
    ("has_custom_limits"%js, TBoolean)].

Definition ResourceLimitExceededEvent : ts_type :=
  TObject [
    ("event_id"%js, TString);
    ("event_type"%js, TLiteral (LStr "resource_limit_exceeded"%js));
    ("event_version"%js, TString);
    ("timestamp"%js, TString);
    ("aggregate_id"%js, opt (TUnion [TString; TNull]));
    ("metadata"%js, EventMetadata);
    ("resource_type"%js, opt TString);
    ("limit"%js, opt TNumber);
    ("requested"%js, opt TNumber);
    ("user_id"%js, opt (TUnion [TString; TNull]))].

Definition StorageType : ts_type :=
  TEnum (map StorageType_value StorageType_all).

Definition ResultFailedEvent : ts_type :=
  TObject [
    ("event_id"%js, TString);
    ("event_type"%js, TLiteral (LStr "result_failed"%js));
    ("event_version"%js, TString);
    ("timestamp"%js, TString);
    ("aggregate_id"%js, opt (TUnion [TString; TNull]));
    ("metadata"%js, EventMetadata);
    ("execution_id"%js, opt TString);
    ("storage_type"%js, opt (TUnion [StorageType; TNull]))].

Definition ResultStoredEvent : ts_type :=
  TObject [
    ("event_id"%js, TString);
    ("event_type"%js, TLiteral (LStr "result_stored"%js));
    ("event_version"%js, TString);
    ("timestamp"%js, TString);
    ("aggregate_id"%js, opt (TUnion [TString; TNull]));
    ("metadata"%js, EventMetadata);
    ("execution_id"%js, opt TString);
    ("storage_type"%js, opt (TUnion [StorageType; TNull]));
    ("storage_path"%js, opt TString);
    ("size_bytes"%js, opt TNumber)].

Definition ScriptDeletedEvent : ts_type :=
  TObject [
    ("event_id"%js, TString);
    ("event_type"%js, TLiteral (LStr "script_deleted"%js));
    ("event_version"%js, TString);
    ("timestamp"%js, TString);
    ("aggregate_id"%js, opt (TUnion [TString; TNull]));
    ("metadata"%js, EventMetadata);
    ("script_id"%js, opt TString);
    ("user_id"%js, opt TString);
    ("deleted_by"%js, opt (TUnion [TString; TNull]))].

Definition ScriptSavedEvent : ts_type :=
  TObject [
    ("event_id"%js, TString);
    ("event_type"%js, TLiteral (LStr "script_saved"%js));
    ("event_version"%js, TString);
    ("timestamp"%js, TString);
    ("aggregate_id"%js, opt (TUnion [TString; TNull]));
    ("metadata"%js, EventMetadata);
    ("script_id"%js, opt TString);
    ("user_id"%js, opt TString);
    ("title"%js, opt TString);
    ("language"%js, opt TString)].

Definition ScriptSharedEvent : ts_type :=
  TObject [
    ("event_id"%js, TString);
    ("event_type"%js, TLiteral (LStr "script_shared"%js));
    ("event_version"%js, TString);
    ("timestamp"%js, TString);
    ("aggregate_id"%js, opt (TUnion [TString; TNull]));
    ("metadata"%js, EventMetadata);
    ("script_id"%js, opt TString);
    ("shared_by"%js, opt TString);
    ("shared_with"%js, opt (TArray TString));
    ("permissions"%js, opt TString)].

Definition SecurityViolationEvent : ts_type :=
  TObject [
    ("event_id"%js, TString);
    ("event_type"%js, TLiteral (LStr "security_violation"%js));
    ("event_version"%js, TString);
    ("timestamp"%js, TString);
    ("aggregate_id"%js, opt (TUnion [TString; TNull]));
    ("metadata"%js, EventMetadata);
    ("user_id"%js, opt (TUnion [TString; TNull]));
    ("violation_type"%js, opt TString);
    ("details"%js, opt TString);
    ("ip_address"%js, opt (TUnion [TString; TNull]))].

Definition ServiceRecoveredEvent : ts_type :=
  TObject [
    ("event_id"%js, TString);
    ("event_type"%js, TLiteral (LStr "service_recovered"%js));
    ("event_version"%js, TString);
    ("timestamp"%js, TString);
    ("aggregate_id"%js, opt (TUnion [TString; TNull]));
    ("metadata"%js, EventMetadata);
    ("service_name"%js, opt TString);
    ("health_check"%js, opt TString);
    ("downtime_seconds"%js, opt TNumber)].

Definition ServiceUnhealthyEvent : ts_type :=
  TObject [
    ("event_id"%js, TString);
    ("event_type"%js, TLiteral (LStr "service_unhealthy"%js));
    ("event_version"%js, TString);
    ("timestamp"%js, TString);
    ("aggregate_id"%js, opt (TUnion [TString; TNull]));
    ("metadata"%js, EventMetadata);
    ("service_name"%js, opt TString);
    ("health_check"%js, opt TString);
    ("reason"%js, opt TString)].

Definition SystemErrorEvent : ts_type :=
  TObject [
    ("event_id"%js, TString);
    ("event_type"%js, TLiteral (LStr "system_error"%js));
    ("event_version"%js, TString);
    ("timestamp"%js, TString);
    ("aggregate_id"%js, opt (TUnion [TString; TNull]));
    ("metadata"%js, EventMetadata);
    ("error_type"%js, opt TString);
    ("message"%js, opt TString);
    ("service_name"%js, opt TString);
    ("stack_trace"%js, opt (TUnion [TString; TNull]))].

Definition UserDeletedEvent : ts_type :=
  TObject [
    ("event_id"%js, TString);
    ("event_type"%js, TLiteral (LStr "user_deleted"%js));
    ("event_version"%js, TString);
    ("timestamp"%js, TString);
    ("aggregate_id"%js, opt (TUnion [TString; TNull]));
    ("metadata"%js, EventMetadata);
    ("user_id"%js, opt TString);
    ("deleted_by"%js, opt (TUnion [TString; TNull]));
    ("reason"%js, opt (TUnion [TString; TNull]))].

Definition LoginMethod : ts_type :=
  TEnum (map LoginMethod_value LoginMethod_all).

Definition UserLoggedInEvent : ts_type :=
  TObject [
    ("event_id"%js, TString);
    ("event_type"%js, TLiteral (LStr "user_logged_in"%js));
    ("event_version"%js, TString);
    ("timestamp"%js, TString);
    ("aggregate_id"%js, opt (TUnion [TString; TNull]));
    ("metadata"%js, EventMetadata);
    ("user_id"%js, opt TString);
    ("login_method"%js, opt LoginMethod);
    ("ip_address"%js, opt (TUnion [TString; TNull]));
    ("user_agent"%js, opt (TUnion [TString; TNull]))].

Definition UserLoggedOutEvent : ts_type :=
  TObject [
    ("event_id"%js, TString);
    ("event_type"%js, TLiteral (LStr "user_logged_out"%js));
    ("event_version"%js, TString);
    ("timestamp"%js, TString);
    ("aggregate_id"%js, opt (TUnion [TString; TNull]));
    ("metadata"%js, EventMetadata);
    ("user_id"%js, opt TString);
    ("logout_reason"%js, opt (TUnion [TString; TNull]))].

Definition UserLoginEvent : ts_type :=
  TObject [
    ("event_id"%js, TString);
    ("event_type"%js, TLiteral (LStr "user_login"%js));
    ("event_version"%js, TString);
    ("timestamp"%js, TString);
    ("aggregate_id"%js, opt (TUnion [TString; TNull]));
    ("metadata"%js, EventMetadata);
    ("user_id"%js, opt TString);
    ("login_method"%js, opt LoginMethod);
    ("ip_address"%js, opt (TUnion [TString; TNull]));
    ("user_agent"%js, opt (TUnion [TString; TNull]))].

Definition UserRegisteredEvent : ts_type :=
  TObject [
    ("event_id"%js, TString);
    ("event_type"%js, TLiteral (LStr "user_registered"%js));
    ("event_version"%js, TString);
    ("timestamp"%js, TString);
    ("aggregate_id"%js, opt (TUnion [TString; TNull]));
    ("metadata"%js, EventMetadata);
    ("user_id"%js, opt TString);
    ("username"%js, opt TString);
    ("email"%js, opt TString)].

Definition UserRole : ts_type :=
  TEnum (map UserRole_value UserRole_all).

Definition UserResponse : ts_type :=
  TObject [
    ("username"%js, TString);
    ("email"%js, TString);
    ("role"%js, UserRole);
    ("is_active"%js, TBoolean);
    ("user_id"%js, TString);
    ("is_superuser"%js, TBoolean);
    ("created_at"%js, TString);
    ("updated_at"%js, TString)].

Definition UserSettingsUpdatedEvent : ts_type :=
  TObject [
    ("event_id"%js, TString);
    ("event_type"%js, TLiteral (LStr "user_settings_updated"%js));
    ("event_version"%js, TString);
    ("timestamp"%js, TString);
    ("aggregate_id"%js, opt (TUnion [TString; TNull]));
    ("metadata"%js, EventMetadata);
    ("user_id"%js, opt TString);
    ("changed_fields"%js, opt (TArray TString));
    ("reason"%js, opt (TUnion [TString; TNull]))].

Definition UserUpdatedEvent : ts_type :=
  TObject [
    ("event_id"%js, TString);
    ("event_type"%js, TLiteral (LStr "user_updated"%js));
    ("event_version"%js, TString);
    ("timestamp"%js, TString);
    ("aggregate_id"%js, opt (TUnion [TString; TNull]));
    ("metadata"%js, EventMetadata);
    ("user_id"%js, opt TString);
    ("updated_fields"%js, opt (TArray TString));
    ("updated_by"%js, opt (TUnion [TString; TNull]))].

Definition AdminUserOverview : ts_type :=
  TObject [
    ("user"%js, UserResponse);
    ("stats"%js, EventStatistics);
    ("derived_counts"%js, DerivedCounts);
    ("rate_limit_summary"%js, RateLimitSummary);
    ("recent_events"%js, TArray (TUnion [ExecutionRequestedEvent; ExecutionAcceptedEvent;
      ExecutionQueuedEvent; ExecutionStartedEvent; ExecutionRunningEvent; ExecutionCompletedEvent;
      ExecutionFailedEvent; ExecutionTimeoutEvent; ExecutionCancelledEvent; PodCreatedEvent;
      PodScheduledEvent; PodRunningEvent; PodSucceededEvent; PodFailedEvent; PodTerminatedEvent;
      PodDeletedEvent; ResultStoredEvent; ResultFailedEvent; UserSettingsUpdatedEvent;
      UserRegisteredEvent; UserLoginEvent; UserLoggedInEvent; UserLoggedOutEvent; UserUpdatedEvent;
      UserDeletedEvent; NotificationCreatedEvent; NotificationSentEvent;
      NotificationDeliveredEvent; NotificationFailedEvent; NotificationReadEvent;
      NotificationAllReadEvent; NotificationClickedEvent; NotificationPreferencesUpdatedEvent;
      ScriptSavedEvent; ScriptDeletedEvent; ScriptSharedEvent; SecurityViolationEvent;
      RateLimitExceededEvent; AuthFailedEvent; ResourceLimitExceededEvent; QuotaExceededEvent;
      SystemErrorEvent; ServiceUnhealthyEvent; ServiceRecoveredEvent; DlqMessageReceivedEvent;
      DlqMessageRetriedEvent; DlqMessageDiscardedEvent]))].

Definition BodyLoginApiV1AuthLoginPost : ts_type :=
  TObject [
    ("grant_type"%js, opt (TUnion [TString; TNull]));
    ("username"%js, TString);
    ("password"%js, TString);
    ("scope"%js, opt TString);
    ("client_id"%js, opt (TUnion [TString; TNull]));
    ("client_secret"%js, opt (TUnion [TString; TNull]))].

Definition CancelStatus : ts_type :=
  TEnum (map CancelStatus_value CancelStatus_all).

Definition CancelResponse : ts_type :=
  TObject [
    ("execution_id"%js, TString);
    ("status"%js, CancelStatus);
    ("message"%js, TString);
    ("event_id"%js, TUnion [TString; TNull])].

Definition DeleteNotificationResponse : ts_type :=
  TObject [
    ("message"%js, TString)].

Definition DeleteResponse : ts_type :=
  TObject [
    ("message"%js, TString);
    ("execution_id"%js, TString)].

Definition DeleteUserResponse : ts_type :=
  TObject [
    ("user_deleted"%js, TBoolean);
    ("executions"%js, TNumber);
    ("saved_scripts"%js, TNumber);
    ("notifications"%js, TNumber);
    ("user_settings"%js, TNumber);
    ("events"%js, TNumber)].

Definition EditorSettingsInput : ts_type :=
  TObject [
    ("font_size"%js, opt TNumber);
    ("tab_size"%js, opt (TUnion [(TLiteral (LNum 2)); (TLiteral (LNum 4)); (TLiteral (LNum 8))]));
    ("use_tabs"%js, opt TBoolean);
    ("word_wrap"%js, opt TBoolean);
    ("show_line_numbers"%js, opt TBoolean)].

Definition EditorSettingsOutput : ts_type :=
  TObject [
    ("font_size"%js, TNumber);
    ("tab_size"%js, TUnion [(TLiteral (LNum 2)); (TLiteral (LNum 4)); (TLiteral (LNum 8))]);
    ("use_tabs"%js, TBoolean);
    ("word_wrap"%js, TBoolean);
    ("show_line_numbers"%js, TBoolean)].

Definition EndpointGroup : ts_type :=
  TEnum (map EndpointGroup_value EndpointGroup_all).

Definition RateLimitAlgorithm : ts_type :=
  TEnum (map RateLimitAlgorithm_value RateLimitAlgorithm_all).

Definition EndpointUsageStats : ts_type :=
  TObject [
    ("algorithm"%js, RateLimitAlgorithm);
    ("remaining"%js, TNumber)].

Definition ErrorResponse : ts_type :=
  TObject [
    ("status"%js, TNumber);
    ("detail"%js, TString)].

Definition EventFilter : ts_type :=
  TObject [
    ("event_types"%js, opt (TUnion [(TArray EventType); TNull]));
    ("aggregate_id"%js, opt (TUnion [TString; TNull]));
    ("user_id"%js, opt (TUnion [TString; TNull]));
    ("start_time"%js, opt (TUnion [TString; TNull]));
    ("end_time"%js, opt (TUnion [TString; TNull]));
    ("service_name"%js, opt (TUnion [TString; TNull]));
    ("search_text"%js, opt (TUnion [TString; TNull]))].

Definition EventBrowseRequest : ts_type :=
  TObject [
    ("filters"%js, EventFilter);
    ("skip"%js, opt TNumber);
    ("limit"%js, opt TNumber)].

Definition EventBrowseResponse : ts_type :=
  TObject [
    ("events"%js, TArray (TUnion [ExecutionRequestedEvent; ExecutionAcceptedEvent;
      ExecutionQueuedEvent; ExecutionStartedEvent; ExecutionRunningEvent; ExecutionCompletedEvent;
      ExecutionFailedEvent; ExecutionTimeoutEvent; ExecutionCancelledEvent; PodCreatedEvent;
      PodScheduledEvent; PodRunningEvent; PodSucceededEvent; PodFailedEvent; PodTerminatedEvent;
      PodDeletedEvent; ResultStoredEvent; ResultFailedEvent; UserSettingsUpdatedEvent;
      UserRegisteredEvent; UserLoginEvent; UserLoggedInEvent; UserLoggedOutEvent; UserUpdatedEvent;
      UserDeletedEvent; NotificationCreatedEvent; NotificationSentEvent;
      NotificationDeliveredEvent; NotificationFailedEvent; NotificationReadEvent;
      NotificationAllReadEvent; NotificationClickedEvent; NotificationPreferencesUpdatedEvent;
      ScriptSavedEvent; ScriptDeletedEvent; ScriptSharedEvent; SecurityViolationEvent;
      RateLimitExceededEvent; AuthFailedEvent; ResourceLimitExceededEvent; QuotaExceededEvent;
      SystemErrorEvent; ServiceUnhealthyEvent; ServiceRecoveredEvent; DlqMessageReceivedEvent;
      DlqMessageRetriedEvent; DlqMessageDiscardedEvent]));
    ("total"%js, TNumber);
    ("skip"%js, TNumber);
    ("limit"%js, TNumber)].

Definition EventDeleteResponse : ts_type :=
  TObject [
    ("message"%js, TString);
    ("event_id"%js, TString)].

Definition EventSummary : ts_type :=
  TObject [
    ("event_id"%js, TString);
    ("event_type"%js, EventType);
    ("timestamp"%js, TString);
    ("aggregate_id"%js, opt (TUnion [TString; TNull]))].

Definition EventDetailResponse : ts_type :=
  TObject [
    ("event"%js, TUnion [(TIntersection (TObject [
    ("event_type"%js, TLiteral (LStr "execution_requested"%js))]) ExecutionRequestedEvent);
      (TIntersection (TObject [
    ("event_type"%js, TLiteral (LStr "execution_accepted"%js))]) ExecutionAcceptedEvent);
      (TIntersection (TObject [
    ("event_type"%js, TLiteral (LStr "execution_queued"%js))]) ExecutionQueuedEvent);
      (TIntersection (TObject [
    ("event_type"%js, TLiteral (LStr "execution_started"%js))]) ExecutionStartedEvent);
      (TIntersection (TObject [
    ("event_type"%js, TLiteral (LStr "execution_running"%js))]) ExecutionRunningEvent);
      (TIntersection (TObject [
    ("event_type"%js, TLiteral (LStr "execution_completed"%js))]) ExecutionCompletedEvent);
      (TIntersection (TObject [
    ("event_type"%js, TLiteral (LStr "execution_failed"%js))]) ExecutionFailedEvent);
      (TIntersection (TObject [
    ("event_type"%js, TLiteral (LStr "execution_timeout"%js))]) ExecutionTimeoutEvent);
      (TIntersection (TObject [
    ("event_type"%js, TLiteral (LStr "execution_cancelled"%js))]) ExecutionCancelledEvent);
      (TIntersection (TObject [
    ("event_type"%js, TLiteral (LStr "pod_created"%js))]) PodCreatedEvent); (TIntersection (TObject [
    ("event_type"%js, TLiteral (LStr "pod_scheduled"%js))]) PodScheduledEvent); (TIntersection (TObject [
    ("event_type"%js, TLiteral (LStr "pod_running"%js))]) PodRunningEvent); (TIntersection (TObject [
    ("event_type"%js, TLiteral (LStr "pod_succeeded"%js))]) PodSucceededEvent); (TIntersection (TObject [
    ("event_type"%js, TLiteral (LStr "pod_failed"%js))]) PodFailedEvent); (TIntersection (TObject [
    ("event_type"%js, TLiteral (LStr "pod_terminated"%js))]) PodTerminatedEvent); (TIntersection
      (TObject [
    ("event_type"%js, TLiteral (LStr "pod_deleted"%js))]) PodDeletedEvent); (TIntersection (TObject [
    ("event_type"%js, TLiteral (LStr "result_stored"%js))]) ResultStoredEvent); (TIntersection (TObject [
    ("event_type"%js, TLiteral (LStr "result_failed"%js))]) ResultFailedEvent); (TIntersection (TObject [
    ("event_type"%js, TLiteral (LStr "user_settings_updated"%js))]) UserSettingsUpdatedEvent);
      (TIntersection (TObject [
    ("event_type"%js, TLiteral (LStr "user_registered"%js))]) UserRegisteredEvent); (TIntersection
      (TObject [
    ("event_type"%js, TLiteral (LStr "user_login"%js))]) UserLoginEvent); (TIntersection (TObject [
    ("event_type"%js, TLiteral (LStr "user_logged_in"%js))]) UserLoggedInEvent); (TIntersection
      (TObject [
    ("event_type"%js, TLiteral (LStr "user_logged_out"%js))]) UserLoggedOutEvent); (TIntersection
      (TObject [
    ("event_type"%js, TLiteral (LStr "user_updated"%js))]) UserUpdatedEvent); (TIntersection (TObject [
    ("event_type"%js, TLiteral (LStr "user_deleted"%js))]) UserDeletedEvent); (TIntersection (TObject [
    ("event_type"%js, TLiteral (LStr "notification_created"%js))]) NotificationCreatedEvent);
      (TIntersection (TObject [
    ("event_type"%js, TLiteral (LStr "notification_sent"%js))]) NotificationSentEvent);
      (TIntersection (TObject [
    ("event_type"%js, TLiteral (LStr "notification_delivered"%js))]) NotificationDeliveredEvent);
      (TIntersection (TObject [
    ("event_type"%js, TLiteral (LStr "notification_failed"%js))]) NotificationFailedEvent);
      (TIntersection (TObject [
    ("event_type"%js, TLiteral (LStr "notification_read"%js))]) NotificationReadEvent);
      (TIntersection (TObject [
    ("event_type"%js, TLiteral (LStr "notification_all_read"%js))]) NotificationAllReadEvent);
      (TIntersection (TObject [
    ("event_type"%js, TLiteral (LStr "notification_clicked"%js))]) NotificationClickedEvent);
      (TIntersection (TObject [
    ("event_type"%js, TLiteral
      (LStr "notification_preferences_updated"%js))]) NotificationPreferencesUpdatedEvent);
      (TIntersection (TObject [
    ("event_type"%js, TLiteral (LStr "script_saved"%js))]) ScriptSavedEvent); (TIntersection (TObject [
    ("event_type"%js, TLiteral (LStr "script_deleted"%js))]) ScriptDeletedEvent); (TIntersection
      (TObject [
    ("event_type"%js, TLiteral (LStr "script_shared"%js))]) ScriptSharedEvent); (TIntersection (TObject [
    ("event_type"%js, TLiteral (LStr "security_violation"%js))]) SecurityViolationEvent);
      (TIntersection (TObject [
    ("event_type"%js, TLiteral (LStr "rate_limit_exceeded"%js))]) RateLimitExceededEvent);
      (TIntersection (TObject [
    ("event_type"%js, TLiteral (LStr "auth_failed"%js))]) AuthFailedEvent); (TIntersection (TObject [
    ("event_type"%js, TLiteral (LStr "resource_limit_exceeded"%js))]) ResourceLimitExceededEvent);
      (TIntersection (TObject [
    ("event_type"%js, TLiteral (LStr "quota_exceeded"%js))]) QuotaExceededEvent); (TIntersection
      (TObject [
    ("event_type"%js, TLiteral (LStr "system_error"%js))]) SystemErrorEvent); (TIntersection (TObject [
    ("event_type"%js, TLiteral (LStr "service_unhealthy"%js))]) ServiceUnhealthyEvent);
      (TIntersection (TObject [
    ("event_type"%js, TLiteral (LStr "service_recovered"%js))]) ServiceRecoveredEvent);
      (TIntersection (TObject [
    ("event_type"%js, TLiteral (LStr "dlq_message_received"%js))]) DlqMessageReceivedEvent);
      (TIntersection (TObject [
    ("event_type"%js, TLiteral (LStr "dlq_message_retried"%js))]) DlqMessageRetriedEvent);
      (TIntersection (TObject [
    ("event_type"%js, TLiteral (LStr "dlq_message_discarded"%js))]) DlqMessageDiscardedEvent)]);
    ("related_events"%js, TArray EventSummary);
    ("timeline"%js, TArray EventSummary)].

Definition EventReplayRequest : ts_type :=
  TObject [
    ("event_ids"%js, opt (TUnion [(TArray TString); TNull]));
    ("aggregate_id"%js, opt (TUnion [TString; TNull]));
    ("start_time"%js, opt (TUnion [TString; TNull]));
    ("end_time"%js, opt (TUnion [TString; TNull]));
    ("dry_run"%js, opt TBoolean)].

Definition ReplayStatus : ts_type :=
  TEnum (map ReplayStatus_value ReplayStatus_all).

Definition EventReplayResponse : ts_type :=
  TObject [
    ("dry_run"%js, TBoolean);
    ("total_events"%js, TNumber);
    ("replay_id"%js, TString);
    ("session_id"%js, TUnion [TString; TNull]);
    ("status"%js, ReplayStatus);
    ("events_preview"%js, TUnion [(TArray EventSummary); TNull])].

Definition ResourceUsage : ts_type :=
  TObject [
    ("execution_time_wall_seconds"%js, TNumber);
    ("cpu_time_jiffies"%js, TNumber);
    ("clk_tck_hertz"%js, TNumber);
    ("peak_memory_kb"%js, TNumber)].

Definition ExecutionResult : ts_type :=
  TObject [
    ("execution_id"%js, TString);
    ("status"%js, ExecutionStatus);
    ("stdout"%js, TUnion [TString; TNull]);
    ("stderr"%js, TUnion [TString; TNull]);
    ("lang"%js, TString);
    ("lang_version"%js, TString);
    ("resource_usage"%js, TUnion [ResourceUsage; TNull]);
    ("exit_code"%js, TUnion [TNumber; TNull]);
    ("error_type"%js, TUnion [ExecutionErrorType; TNull]);
    ("priority"%js, QueuePriority)].

Definition ReplayError : ts_type :=
  TObject [
    ("timestamp"%js, TString);
    ("error"%js, TString);
    ("error_type"%js, TUnion [TString; TNull]);
    ("event_id"%js, TUnion [TString; TNull])].

Definition EventReplayStatusResponse : ts_type :=
  TObject [
    ("session_id"%js, TString);
    ("status"%js, ReplayStatus);
    ("total_events"%js, TNumber);
    ("replayed_events"%js, TNumber);
    ("failed_events"%js, TNumber);
    ("skipped_events"%js, TNumber);
    ("replay_id"%js, TString);
    ("created_at"%js, TString);
    ("started_at"%js, TUnion [TString; TNull]);
    ("completed_at"%js, TUnion [TString; TNull]);
    ("errors"%js, TUnion [(TArray ReplayError); TNull]);
    ("estimated_completion"%js, TUnion [TString; TNull]);
    ("execution_results"%js, TUnion [(TArray ExecutionResult); TNull]);
    ("progress_percentage"%js, TNumber)].

Definition EventStatsResponse : ts_type :=
  TObject [
    ("total_events"%js, TNumber);
    ("events_by_type"%js, TArray EventTypeCount);
    ("events_by_hour"%js, TArray HourlyEventCount);
    ("top_users"%js, TArray UserEventCount);
    ("error_rate"%js, TNumber);
    ("avg_processing_time"%js, TNumber)].

Definition ExampleScripts : ts_type :=
  TObject [
    ("scripts"%js, TRecord TString)].

Definition ExecutionListResponse : ts_type :=
  TObject [
    ("executions"%js, TArray ExecutionResult);
    ("total"%js, TNumber);
    ("limit"%js, TNumber);
    ("skip"%js, TNumber);
    ("has_more"%js, TBoolean)].

Definition ExecutionRequest : ts_type :=
  TObject [
    ("script"%js, TString);
    ("lang"%js, opt TString);
    ("lang_version"%js, opt TString)].

Definition ExecutionResponse : ts_type :=
  TObject [
    ("execution_id"%js, TString);
    ("status"%js, ExecutionStatus)].

Definition ExportFormat : ts_type :=
  TEnum (map ExportFormat_value ExportFormat_all).

Definition LanguageInfo : ts_type :=
  TObject [
    ("versions"%js, TArray TString);
    ("file_ext"%js, TString)].

Definition LanguageLimits : ts_type :=
  TObject [
    ("cpu_limit"%js, TString);
    ("memory_limit"%js, TString);
    ("execution_timeout"%js, TNumber)].

Definition LivenessResponse : ts_type :=
  TObject [
    ("status"%js, TString);
    ("uptime_seconds"%js, TNumber);
    ("timestamp"%js, TString)].

Definition LoginResponse : ts_type :=
  TObject [
    ("message"%js, TString);
    ("username"%js, TString);
    ("role"%js, UserRole);
    ("csrf_token"%js, TString)].

Definition MessageResponse : ts_type :=
  TObject [
    ("message"%js, TString)].

Definition NotificationStatus : ts_type :=
  TEnum (map NotificationStatus_value NotificationStatus_all).

Definition NotificationResponse : ts_type :=
  TObject [
    ("notification_id"%js, TString);
    ("status"%js, NotificationStatus);
    ("subject"%js, TString);
    ("body"%js, TString);
    ("action_url"%js, TString);
    ("created_at"%js, TString);
    ("read_at"%js, TUnion [TString; TNull]);
    ("severity"%js, NotificationSeverity);
    ("tags"%js, TArray TString)].

Definition NotificationListResponse : ts_type :=
  TObject [
    ("notifications"%js, TArray NotificationResponse);
    ("total"%js, TNumber);
    ("unread_count"%js, TNumber)].

Definition NotificationSettingsInput : ts_type :=
  TObject [
    ("execution_completed"%js, opt TBoolean);
    ("execution_failed"%js, opt TBoolean)].

Definition NotificationSettingsOutput : ts_type :=
  TObject [
    ("execution_completed"%js, TBoolean);
    ("execution_failed"%js, TBoolean)].

Definition PasswordResetRequest : ts_type :=
  TObject [
    ("new_password"%js, TString)].

Definition PriorityUpdateRequest : ts_type :=
  TObject [
    ("priority"%js, QueuePriority)].

Definition QueueStatusResponse : ts_type :=
  TObject [
    ("queue_depth"%js, TNumber);
    ("active_count"%js, TNumber);
    ("max_concurrent"%js, TNumber);
    ("by_priority"%js, TRecord TNumber)].

Definition RateLimitRuleRequest : ts_type :=
  TObject [
    ("endpoint_pattern"%js, opt TString);
    ("group"%js, opt EndpointGroup);
    ("requests"%js, opt TNumber);
    ("window_seconds"%js, opt TNumber);
    ("algorithm"%js, opt RateLimitAlgorithm);
    ("burst_multiplier"%js, opt TNumber);
    ("priority"%js, opt TNumber);
    ("enabled"%js, opt TBoolean)].

Definition RateLimitRuleResponse : ts_type :=
  TObject [
    ("endpoint_pattern"%js, TString);
    ("group"%js, EndpointGroup);
    ("requests"%js, TNumber);
    ("window_seconds"%js, TNumber);
    ("algorithm"%js, RateLimitAlgorithm);
    ("burst_multiplier"%js, TNumber);
    ("priority"%js, TNumber);
    ("enabled"%js, TBoolean)].

Definition RateLimitUpdateRequest : ts_type :=
  TObject [
    ("bypass_rate_limit"%js, opt TBoolean);
    ("global_multiplier"%js, opt TNumber);
    ("rules"%js, opt (TArray RateLimitRuleRequest));
    ("notes"%js, opt TString)].

Definition UserRateLimitConfigResponse : ts_type :=
  TObject [
    ("user_id"%js, TString);
    ("bypass_rate_limit"%js, TBoolean);
    ("global_multiplier"%js, TNumber);
    ("rules"%js, TArray RateLimitRuleResponse);
    ("created_at"%js, TString);
    ("updated_at"%js, TString);
    ("notes"%js, TString)].

Definition RateLimitUpdateResponse : ts_type :=
  TObject [
    ("user_id"%js, TString);
    ("updated"%js, TBoolean);
    ("config"%js, UserRateLimitConfigResponse)].

Definition ResourceLimits : ts_type :=
  TObject [
    ("cpu_limit"%js, TString);
    ("memory_limit"%js, TString);
    ("cpu_request"%js, TString);
    ("memory_request"%js, TString);
    ("execution_timeout"%js, TNumber);
    ("supported_runtimes"%js, TRecord LanguageInfo);
    ("language_limits"%js, TRecord LanguageLimits)].

Definition RestoreSettingsRequest : ts_type :=
  TObject [
    ("timestamp"%js, TString);
    ("reason"%js, opt (TUnion [TString; TNull]))].

Definition SseControlEvent : ts_type :=
  TEnum (map SseControlEvent_value SseControlEvent_all).

Definition SseExecutionEventSchema : ts_type :=
  TObject [
    ("event_type"%js, TUnion [EventType; SseControlEvent]);
    ("execution_id"%js, TString);
    ("timestamp"%js, TUnion [TString; TNull]);
    ("event_id"%js, TUnion [TString; TNull]);
    ("status"%js, TUnion [ExecutionStatus; TNull]);
    ("result"%js, TUnion [ExecutionResult; TNull])].

Definition SavedScriptCreateRequest : ts_type :=
  TObject [
    ("name"%js, TString);
    ("script"%js, TString);
    ("lang"%js, opt TString);
    ("lang_version"%js, opt TString);
    ("description"%js, opt (TUnion [TString; TNull]))].

Definition SavedScriptResponse : ts_type :=
  TObject [
    ("script_id"%js, TString);
    ("name"%js, TString);
    ("script"%js, TString);
    ("lang"%js, TString);
    ("lang_version"%js, TString);
    ("description"%js, TUnion [TString; TNull]);
    ("created_at"%js, TString);
    ("updated_at"%js, TString)].

Definition SavedScriptListResponse : ts_type :=
  TObject [
    ("scripts"%js, TArray SavedScriptResponse)].

Definition SavedScriptUpdate : ts_type :=
  TObject [
    ("name"%js, opt (TUnion [TString; TNull]));
    ("script"%js, opt (TUnion [TString; TNull]));
    ("lang"%js, opt (TUnion [TString; TNull]));
    ("lang_version"%js, opt (TUnion [TString; TNull]));
    ("description"%js, opt (TUnion [TString; TNull]));
    ("updated_at"%js, opt TString)].

Definition SettingsHistoryEntry : ts_type :=
  TObject [
    ("timestamp"%js, TString);
    ("event_type"%js, EventType);
    ("field"%js, TString);
    ("old_value"%js, TUnknown);
    ("new_value"%js, TUnknown);
    ("reason"%js, TUnion [TString; TNull])].

Definition SettingsHistoryResponse : ts_type :=
  TObject [
    ("history"%js, TArray SettingsHistoryEntry);
    ("limit"%js, TNumber)].

Definition SystemSettingsSchemaInput : ts_type :=
  TObject [
    ("max_timeout_seconds"%js, opt TNumber);
    ("memory_limit"%js, opt TString);
    ("cpu_limit"%js, opt TString);
    ("max_concurrent_executions"%js, opt TNumber);
    ("max_executions_per_user"%js, opt TNumber);
    ("password_min_length"%js, opt TNumber);
    ("session_timeout_minutes"%js, opt TNumber);
    ("max_login_attempts"%js, opt TNumber);
    ("lockout_duration_minutes"%js, opt TNumber)].

Definition SystemSettingsSchemaOutput : ts_type :=
  TObject [
    ("max_timeout_seconds"%js, TNumber);
    ("memory_limit"%js, TString);
    ("cpu_limit"%js, TString);
    ("max_concurrent_executions"%js, TNumber);
    ("max_executions_per_user"%js, TNumber);
    ("password_min_length"%js, TNumber);
    ("session_timeout_minutes"%js, TNumber);
    ("max_login_attempts"%js, TNumber);
    ("lockout_duration_minutes"%js, TNumber)].

Definition Theme : ts_type :=
  TEnum (map Theme_value Theme_all).

Definition ThemeUpdateRequest : ts_type :=
  TObject [
    ("theme"%js, Theme)].

Definition UnlockResponse : ts_type :=
  TObject [
    ("user_id"%js, TString);
    ("message"%js, TString)].

Definition UnreadCountResponse : ts_type :=
  TObject [
    ("unread_count"%js, TNumber)].

Definition UserCreate : ts_type :=
  TObject [
    ("username"%js, TString);
    ("email"%js, TString);
    ("role"%js, opt UserRole);
    ("is_active"%js, opt TBoolean)].

Definition UserListResponse : ts_type :=
  TObject [
    ("users"%js, TArray UserResponse);
    ("total"%js, TNumber);
    ("offset"%js, TNumber);
    ("limit"%js, TNumber)].

Definition UserRateLimitsResponse : ts_type :=
  TObject [
    ("user_id"%js, TString);
    ("rate_limit_config"%js, UserRateLimitConfigResponse);
    ("current_usage"%js, TRecord EndpointUsageStats)].

Definition UserSettings : ts_type :=
  TObject [
    ("user_id"%js, TString);
    ("theme"%js, Theme);
    ("timezone"%js, TString);
    ("date_format"%js, TString);
    ("time_format"%js, TString);
    ("notifications"%js, NotificationSettingsOutput);
    ("editor"%js, EditorSettingsOutput);
    ("custom_settings"%js, TRecord TUnknown);
    ("version"%js, TNumber);
    ("created_at"%js, TString);
    ("updated_at"%js, TString)].

Definition UserSettingsUpdate : ts_type :=
  TObject [
    ("theme"%js, opt (TUnion [Theme; TNull]));
    ("timezone"%js, opt (TUnion [TString; TNull]));
    ("date_format"%js, opt (TUnion [TString; TNull]));
    ("time_format"%js, opt (TUnion [TString; TNull]));
    ("notifications"%js, opt (TUnion [NotificationSettingsInput; TNull]));
    ("editor"%js, opt (TUnion [EditorSettingsInput; TNull]));
    ("custom_settings"%js, opt (TUnion [(TRecord TUnknown); TNull]))].

Definition UserUpdate : ts_type :=
  TObject [
    ("username"%js, opt (TUnion [TString; TNull]));
    ("email"%js, opt (TUnion [TString; TNull]));
    ("role"%js, opt (TUnion [UserRole; TNull]));
    ("is_active"%js, opt (TUnion [TBoolean; TNull]));
    ("password"%js, opt TNull)].

Definition EventReplayStatusResponseWritable : ts_type :=
  TObject [
    ("session_id"%js, TString);
    ("status"%js, ReplayStatus);
    ("total_events"%js, TNumber);
    ("replayed_events"%js, TNumber);
    ("failed_events"%js, TNumber);
    ("skipped_events"%js, TNumber);
    ("replay_id"%js, TString);
    ("created_at"%js, TString);
    ("started_at"%js, TUnion [TString; TNull]);
    ("completed_at"%js, TUnion [TString; TNull]);
    ("errors"%js, TUnion [(TArray ReplayError); TNull]);
    ("estimated_completion"%js, TUnion [TString; TNull]);
    ("execution_results"%js, TUnion [(TArray ExecutionResult); TNull])].

Definition UserCreateWritable : ts_type :=
  TObject [
    ("username"%js, TString);
    ("email"%js, TString);
    ("role"%js, opt UserRole);
    ("is_active"%js, opt TBoolean);
    ("password"%js, TString)].

Definition UserUpdateWritable : ts_type :=
  TObject [
    ("username"%js, opt (TUnion [TString; TNull]));
    ("email"%js, opt (TUnion [TString; TNull]));
    ("role"%js, opt (TUnion [UserRole; TNull]));
    ("is_active"%js, opt (TUnion [TBoolean; TNull]));
    ("password"%js, opt (TUnion [TString; TNull]))].

Definition LoginApiV1AuthLoginPostData : ts_type :=
  TObject [
    ("body"%js, BodyLoginApiV1AuthLoginPost);
    ("path"%js, opt TNever);
    ("query"%js, opt TNever);
    ("url"%js, TLiteral (LStr "/api/v1/auth/login"%js))].

Definition LoginApiV1AuthLoginPostErrors : ts_type :=
  TObject [
    ("401"%js, ErrorResponse);
    ("403"%js, ErrorResponse);
    ("423"%js, ErrorResponse);
    ("default"%js, ErrorResponse)].

Definition LoginApiV1AuthLoginPostError : ts_type :=
  ts_values LoginApiV1AuthLoginPostErrors.

Definition LoginApiV1AuthLoginPostResponses : ts_type :=
  TObject [
    ("200"%js, LoginResponse)].

Definition LoginApiV1AuthLoginPostResponse : ts_type :=
  ts_values LoginApiV1AuthLoginPostResponses.

Definition RegisterApiV1AuthRegisterPostData : ts_type :=
  TObject [
    ("body"%js, UserCreateWritable);
    ("path"%js, opt TNever);
    ("query"%js, opt TNever);
    ("url"%js, TLiteral (LStr "/api/v1/auth/register"%js))].

Definition RegisterApiV1AuthRegisterPostErrors : ts_type :=
  TObject [
    ("409"%js, ErrorResponse);
    ("422"%js, ErrorResponse);
    ("default"%js, ErrorResponse)].

Definition RegisterApiV1AuthRegisterPostError : ts_type :=
  ts_values RegisterApiV1AuthRegisterPostErrors.

Definition RegisterApiV1AuthRegisterPostResponses : ts_type :=
  TObject [
    ("200"%js, UserResponse)].

Definition RegisterApiV1AuthRegisterPostResponse : ts_type :=
  ts_values RegisterApiV1AuthRegisterPostResponses.

Definition GetCurrentUserProfileApiV1AuthMeGetData : ts_type :=
  TObject [
    ("body"%js, opt TNever);
    ("path"%js, opt TNever);
    ("query"%js, opt TNever);
    ("url"%js, TLiteral (LStr "/api/v1/auth/me"%js))].

Definition GetCurrentUserProfileApiV1AuthMeGetErrors : ts_type :=
  TObject [
    ("401"%js, ErrorResponse);
    ("default"%js, ErrorResponse)].

Definition GetCurrentUserProfileApiV1AuthMeGetError : ts_type :=
  ts_values GetCurrentUserProfileApiV1AuthMeGetErrors.

Definition GetCurrentUserProfileApiV1AuthMeGetResponses : ts_type :=
  TObject [
    ("200"%js, UserResponse)].

Definition GetCurrentUserProfileApiV1AuthMeGetResponse : ts_type :=
  ts_values GetCurrentUserProfileApiV1AuthMeGetResponses.

Definition LogoutApiV1AuthLogoutPostData : ts_type :=
  TObject [
    ("body"%js, opt TNever);
    ("path"%js, opt TNever);
    ("query"%js, opt TNever);
    ("url"%js, TLiteral (LStr "/api/v1/auth/logout"%js))].

Definition LogoutApiV1AuthLogoutPostErrors : ts_type :=
  TObject [
    ("403"%js, ErrorResponse);
    ("default"%js, ErrorResponse)].

Definition LogoutApiV1AuthLogoutPostError : ts_type :=
  ts_values LogoutApiV1AuthLogoutPostErrors.

Definition LogoutApiV1AuthLogoutPostResponses : ts_type :=
  TObject [
    ("200"%js, MessageResponse)].

Definition LogoutApiV1AuthLogoutPostResponse : ts_type :=
  ts_values LogoutApiV1AuthLogoutPostResponses.

Definition CreateExecutionApiV1ExecutePostData : ts_type :=
  TObject [
    ("body"%js, ExecutionRequest);
    ("headers"%js, opt (TObject [
    ("Idempotency-Key"%js, opt (TUnion [TString; TNull]))]));
    ("path"%js, opt TNever);
    ("query"%js, opt TNever);
    ("url"%js, TLiteral (LStr "/api/v1/execute"%js))].

Definition CreateExecutionApiV1ExecutePostErrors : ts_type :=
  TObject [
    ("409"%js, ErrorResponse);
    ("429"%js, ErrorResponse);
    ("500"%js, ErrorResponse);
    ("default"%js, ErrorResponse)].

Definition CreateExecutionApiV1ExecutePostError : ts_type :=
  ts_values CreateExecutionApiV1ExecutePostErrors.

Definition CreateExecutionApiV1ExecutePostResponses : ts_type :=
  TObject [
    ("200"%js, ExecutionResponse)].

Definition CreateExecutionApiV1ExecutePostResponse : ts_type :=
  ts_values CreateExecutionApiV1ExecutePostResponses.

Definition GetResultApiV1ExecutionsExecutionIdResultGetData : ts_type :=
  TObject [
    ("body"%js, opt TNever);
    ("path"%js, TObject [
    ("execution_id"%js, TString)]);
    ("query"%js, opt TNever);
    ("url"%js, TLiteral (LStr "/api/v1/executions/{execution_id}/result"%js))].

Definition GetResultApiV1ExecutionsExecutionIdResultGetErrors : ts_type :=
  TObject [
    ("403"%js, ErrorResponse);
    ("404"%js, ErrorResponse);
    ("default"%js, ErrorResponse)].

Definition GetResultApiV1ExecutionsExecutionIdResultGetError : ts_type :=
  ts_values GetResultApiV1ExecutionsExecutionIdResultGetErrors.

Definition GetResultApiV1ExecutionsExecutionIdResultGetResponses : ts_type :=
  TObject [
    ("200"%js, ExecutionResult)].

Definition GetResultApiV1ExecutionsExecutionIdResultGetResponse : ts_type :=
  ts_values GetResultApiV1ExecutionsExecutionIdResultGetResponses.

Definition CancelExecutionApiV1ExecutionsExecutionIdCancelPostData : ts_type :=
  TObject [
    ("body"%js, opt TNever);
    ("path"%js, TObject [
    ("execution_id"%js, TString)]);
    ("query"%js, opt TNever);
    ("url"%js, TLiteral (LStr "/api/v1/executions/{execution_id}/cancel"%js))].

Definition CancelExecutionApiV1ExecutionsExecutionIdCancelPostErrors : ts_type :=
  TObject [
    ("400"%js, ErrorResponse);
    ("403"%js, ErrorResponse);
    ("404"%js, ErrorResponse);
    ("default"%js, ErrorResponse)].

Definition CancelExecutionApiV1ExecutionsExecutionIdCancelPostError : ts_type :=
  ts_values CancelExecutionApiV1ExecutionsExecutionIdCancelPostErrors.

Definition CancelExecutionApiV1ExecutionsExecutionIdCancelPostResponses : ts_type :=
  TObject [
    ("200"%js, CancelResponse)].

Definition CancelExecutionApiV1ExecutionsExecutionIdCancelPostResponse : ts_type :=
  ts_values CancelExecutionApiV1ExecutionsExecutionIdCancelPostResponses.

Definition RetryExecutionApiV1ExecutionsExecutionIdRetryPostData : ts_type :=
  TObject [
    ("body"%js, opt TNever);
    ("path"%js, TObject [
    ("execution_id"%js, TString)]);
    ("query"%js, opt TNever);
    ("url"%js, TLiteral (LStr "/api/v1/executions/{execution_id}/retry"%js))].

Definition RetryExecutionApiV1ExecutionsExecutionIdRetryPostErrors : ts_type :=
  TObject [
    ("400"%js, ErrorResponse);
    ("403"%js, ErrorResponse);
    ("404"%js, ErrorResponse);
    ("422"%js, ErrorResponse);
    ("429"%js, ErrorResponse);
    ("default"%js, ErrorResponse)].

Definition RetryExecutionApiV1ExecutionsExecutionIdRetryPostError : ts_type :=
  ts_values RetryExecutionApiV1ExecutionsExecutionIdRetryPostErrors.

Definition RetryExecutionApiV1ExecutionsExecutionIdRetryPostResponses : ts_type :=
  TObject [
    ("200"%js, ExecutionResponse)].

Definition RetryExecutionApiV1ExecutionsExecutionIdRetryPostResponse : ts_type :=
  ts_values RetryExecutionApiV1ExecutionsExecutionIdRetryPostResponses.

Definition GetExecutionEventsApiV1ExecutionsExecutionIdEventsGetData : ts_type :=
  TObject [
    ("body"%js, opt TNever);
    ("path"%js, TObject [
    ("execution_id"%js, TString)]);
    ("query"%js, opt (TObject [
    ("event_types"%js, opt (TUnion [(TArray EventType); TNull]));
    ("limit"%js, opt TNumber)]));
    ("url"%js, TLiteral (LStr "/api/v1/executions/{execution_id}/events"%js))].

Definition GetExecutionEventsApiV1ExecutionsExecutionIdEventsGetErrors : ts_type :=
  TObject [
    ("403"%js, ErrorResponse);
    ("404"%js, ErrorResponse);
    ("default"%js, ErrorResponse)].

Definition GetExecutionEventsApiV1ExecutionsExecutionIdEventsGetError : ts_type :=
  ts_values GetExecutionEventsApiV1ExecutionsExecutionIdEventsGetErrors.

Definition GetExecutionEventsApiV1ExecutionsExecutionIdEventsGetResponses : ts_type :=
  TObject [
    ("200"%js, TArray (TUnion [ExecutionRequestedEvent; ExecutionAcceptedEvent;
      ExecutionQueuedEvent; ExecutionStartedEvent; ExecutionRunningEvent; ExecutionCompletedEvent;
      ExecutionFailedEvent; ExecutionTimeoutEvent; ExecutionCancelledEvent; PodCreatedEvent;
      PodScheduledEvent; PodRunningEvent; PodSucceededEvent; PodFailedEvent; PodTerminatedEvent;
      PodDeletedEvent; ResultStoredEvent; ResultFailedEvent; UserSettingsUpdatedEvent;
      UserRegisteredEvent; UserLoginEvent; UserLoggedInEvent; UserLoggedOutEvent; UserUpdatedEvent;
      UserDeletedEvent; NotificationCreatedEvent; NotificationSentEvent;
      NotificationDeliveredEvent; NotificationFailedEvent; NotificationReadEvent;
      NotificationAllReadEvent; NotificationClickedEvent; NotificationPreferencesUpdatedEvent;
      ScriptSavedEvent; ScriptDeletedEvent; ScriptSharedEvent; SecurityViolationEvent;
      RateLimitExceededEvent; AuthFailedEvent; ResourceLimitExceededEvent; QuotaExceededEvent;
      SystemErrorEvent; ServiceUnhealthyEvent; ServiceRecoveredEvent; DlqMessageReceivedEvent;
      DlqMessageRetriedEvent; DlqMessageDiscardedEvent]))].

Definition GetExecutionEventsApiV1ExecutionsExecutionIdEventsGetResponse : ts_type :=
  ts_values GetExecutionEventsApiV1ExecutionsExecutionIdEventsGetResponses.

Definition GetUserExecutionsApiV1UserExecutionsGetData : ts_type :=
  TObject [
    ("body"%js, opt TNever);
    ("path"%js, opt TNever);
    ("query"%js, opt (TObject [
    ("status"%js, opt (TUnion [ExecutionStatus; TNull]));
    ("lang"%js, opt (TUnion [TString; TNull]));
    ("start_time"%js, opt (TUnion [TString; TNull]));
    ("end_time"%js, opt (TUnion [TString; TNull]));
    ("limit"%js, opt TNumber);
    ("skip"%js, opt TNumber)]));
    ("url"%js, TLiteral (LStr "/api/v1/user/executions"%js))].

Definition GetUserExecutionsApiV1UserExecutionsGetErrors : ts_type :=
  TObject [
    ("default"%js, ErrorResponse)].

Definition GetUserExecutionsApiV1UserExecutionsGetError : ts_type :=
  ts_values GetUserExecutionsApiV1UserExecutionsGetErrors.

Definition GetUserExecutionsApiV1UserExecutionsGetResponses : ts_type :=
  TObject [
    ("200"%js, ExecutionListResponse)].

Definition GetUserExecutionsApiV1UserExecutionsGetResponse : ts_type :=
  ts_values GetUserExecutionsApiV1UserExecutionsGetResponses.

Definition GetExampleScriptsApiV1ExampleScriptsGetData : ts_type :=
  TObject [
    ("body"%js, opt TNever);
    ("path"%js, opt TNever);
    ("query"%js, opt TNever);
    ("url"%js, TLiteral (LStr "/api/v1/example-scripts"%js))].

Definition GetExampleScriptsApiV1ExampleScriptsGetErrors : ts_type :=
  TObject [
    ("default"%js, ErrorResponse)].

Definition GetExampleScriptsApiV1ExampleScriptsGetError : ts_type :=
  ts_values GetExampleScriptsApiV1ExampleScriptsGetErrors.

Definition GetExampleScriptsApiV1ExampleScriptsGetResponses : ts_type :=
  TObject [
    ("200"%js, ExampleScripts)].

Definition GetExampleScriptsApiV1ExampleScriptsGetResponse : ts_type :=
  ts_values GetExampleScriptsApiV1ExampleScriptsGetResponses.

Definition GetK8sResourceLimitsApiV1K8sLimitsGetData : ts_type :=
  TObject [
    ("body"%js, opt TNever);
    ("path"%js, opt TNever);
    ("query"%js, opt TNever);
    ("url"%js, TLiteral (LStr "/api/v1/k8s-limits"%js))].

Definition GetK8sResourceLimitsApiV1K8sLimitsGetErrors : ts_type :=
  TObject [
    ("default"%js, ErrorResponse)].

Definition GetK8sResourceLimitsApiV1K8sLimitsGetError : ts_type :=
  ts_values GetK8sResourceLimitsApiV1K8sLimitsGetErrors.

Definition GetK8sResourceLimitsApiV1K8sLimitsGetResponses : ts_type :=
  TObject [
    ("200"%js, ResourceLimits)].

Definition GetK8sResourceLimitsApiV1K8sLimitsGetResponse : ts_type :=
  ts_values GetK8sResourceLimitsApiV1K8sLimitsGetResponses.

Definition DeleteExecutionApiV1ExecutionsExecutionIdDeleteData : ts_type :=
  TObject [
    ("body"%js, opt TNever);
    ("path"%js, TObject [
    ("execution_id"%js, TString)]);
    ("query"%js, opt TNever);
    ("url"%js, TLiteral (LStr "/api/v1/executions/{execution_id}"%js))].

Definition DeleteExecutionApiV1ExecutionsExecutionIdDeleteErrors : ts_type :=
  TObject [
    ("default"%js, ErrorResponse)].

Definition DeleteExecutionApiV1ExecutionsExecutionIdDeleteError : ts_type :=
  ts_values DeleteExecutionApiV1ExecutionsExecutionIdDeleteErrors.

Definition DeleteExecutionApiV1ExecutionsExecutionIdDeleteResponses : ts_type :=
  TObject [
    ("200"%js, DeleteResponse)].

Definition DeleteExecutionApiV1ExecutionsExecutionIdDeleteResponse : ts_type :=
  ts_values DeleteExecutionApiV1ExecutionsExecutionIdDeleteResponses.

Definition ListSavedScriptsApiV1ScriptsGetData : ts_type :=
  TObject [
    ("body"%js, opt TNever);
    ("path"%js, opt TNever);
    ("query"%js, opt TNever);
    ("url"%js, TLiteral (LStr "/api/v1/scripts"%js))].

Definition ListSavedScriptsApiV1ScriptsGetErrors : ts_type :=
  TObject [
    ("default"%js, ErrorResponse)].

Definition ListSavedScriptsApiV1ScriptsGetError : ts_type :=
  ts_values ListSavedScriptsApiV1ScriptsGetErrors.

Definition ListSavedScriptsApiV1ScriptsGetResponses : ts_type :=
  TObject [
    ("200"%js, SavedScriptListResponse)].

Definition ListSavedScriptsApiV1ScriptsGetResponse : ts_type :=
  ts_values ListSavedScriptsApiV1ScriptsGetResponses.

Definition CreateSavedScriptApiV1ScriptsPostData : ts_type :=
  TObject [
    ("body"%js, SavedScriptCreateRequest);
    ("path"%js, opt TNever);
    ("query"%js, opt TNever);
    ("url"%js, TLiteral (LStr "/api/v1/scripts"%js))].

Definition CreateSavedScriptApiV1ScriptsPostErrors : ts_type :=
  TObject [
    ("422"%js, ErrorResponse);
    ("default"%js, ErrorResponse)].

Definition CreateSavedScriptApiV1ScriptsPostError : ts_type :=
  ts_values CreateSavedScriptApiV1ScriptsPostErrors.

Definition CreateSavedScriptApiV1ScriptsPostResponses : ts_type :=
  TObject [
    ("200"%js, SavedScriptResponse)].

Definition CreateSavedScriptApiV1ScriptsPostResponse : ts_type :=
  ts_values CreateSavedScriptApiV1ScriptsPostResponses.

Definition DeleteSavedScriptApiV1ScriptsScriptIdDeleteData : ts_type :=
  TObject [
    ("body"%js, opt TNever);
    ("path"%js, TObject [
    ("script_id"%js, TString)]);
    ("query"%js, opt TNever);
    ("url"%js, TLiteral (LStr "/api/v1/scripts/{script_id}"%js))].

Definition DeleteSavedScriptApiV1ScriptsScriptIdDeleteErrors : ts_type :=
  TObject [
    ("404"%js, ErrorResponse);
    ("default"%js, ErrorResponse)].

Definition DeleteSavedScriptApiV1ScriptsScriptIdDeleteError : ts_type :=
  ts_values DeleteSavedScriptApiV1ScriptsScriptIdDeleteErrors.

Definition DeleteSavedScriptApiV1ScriptsScriptIdDeleteResponses : ts_type :=
  TObject [
    ("204"%js, TUndefined)].

Definition DeleteSavedScriptApiV1ScriptsScriptIdDeleteResponse : ts_type :=
  ts_values DeleteSavedScriptApiV1ScriptsScriptIdDeleteResponses.

Definition GetSavedScriptApiV1ScriptsScriptIdGetData : ts_type :=
  TObject [
    ("body"%js, opt TNever);
    ("path"%js, TObject [
    ("script_id"%js, TString)]);
    ("query"%js, opt TNever);
    ("url"%js, TLiteral (LStr "/api/v1/scripts/{script_id}"%js))].

Definition GetSavedScriptApiV1ScriptsScriptIdGetErrors : ts_type :=
  TObject [
    ("404"%js, ErrorResponse);
    ("default"%js, ErrorResponse)].

Definition GetSavedScriptApiV1ScriptsScriptIdGetError : ts_type :=
  ts_values GetSavedScriptApiV1ScriptsScriptIdGetErrors.

Definition GetSavedScriptApiV1ScriptsScriptIdGetResponses : ts_type :=
  TObject [
    ("200"%js, SavedScriptResponse)].

Definition GetSavedScriptApiV1ScriptsScriptIdGetResponse : ts_type :=
  ts_values GetSavedScriptApiV1ScriptsScriptIdGetResponses.

Definition UpdateSavedScriptApiV1ScriptsScriptIdPutData : ts_type :=
  TObject [
    ("body"%js, SavedScriptUpdate);
    ("path"%js, TObject [
    ("script_id"%js, TString)]);
    ("query"%js, opt TNever);
    ("url"%js, TLiteral (LStr "/api/v1/scripts/{script_id}"%js))].

Definition UpdateSavedScriptApiV1ScriptsScriptIdPutErrors : ts_type :=
  TObject [
    ("404"%js, ErrorResponse);
    ("422"%js, ErrorResponse);
    ("default"%js, ErrorResponse)].

Definition UpdateSavedScriptApiV1ScriptsScriptIdPutError : ts_type :=
  ts_values UpdateSavedScriptApiV1ScriptsScriptIdPutErrors.

Definition UpdateSavedScriptApiV1ScriptsScriptIdPutResponses : ts_type :=
  TObject [
    ("200"%js, SavedScriptResponse)].

Definition UpdateSavedScriptApiV1ScriptsScriptIdPutResponse : ts_type :=
  ts_values UpdateSavedScriptApiV1ScriptsScriptIdPutResponses.

Definition LivenessApiV1HealthLiveGetData : ts_type :=
  TObject [
    ("body"%js, opt TNever);
    ("path"%js, opt TNever);
    ("query"%js, opt TNever);
    ("url"%js, TLiteral (LStr "/api/v1/health/live"%js))].

Definition LivenessApiV1HealthLiveGetErrors : ts_type :=
  TObject [
    ("default"%js, ErrorResponse)].

Definition LivenessApiV1HealthLiveGetError : ts_type :=
  ts_values LivenessApiV1HealthLiveGetErrors.

Definition LivenessApiV1HealthLiveGetResponses : ts_type :=
  TObject [
    ("200"%js, LivenessResponse)].

Definition LivenessApiV1HealthLiveGetResponse : ts_type :=
  ts_values LivenessApiV1HealthLiveGetResponses.

Definition NotificationStreamApiV1EventsNotificationsStreamGetData : ts_type :=
  TObject [
    ("body"%js, opt TNever);
    ("path"%js, opt TNever);
    ("query"%js, opt TNever);
    ("url"%js, TLiteral (LStr "/api/v1/events/notifications/stream"%js))].

Definition NotificationStreamApiV1EventsNotificationsStreamGetErrors : ts_type :=
  TObject [
    ("default"%js, ErrorResponse)].

Definition NotificationStreamApiV1EventsNotificationsStreamGetError : ts_type :=
  ts_values NotificationStreamApiV1EventsNotificationsStreamGetErrors.

Definition NotificationStreamApiV1EventsNotificationsStreamGetResponses : ts_type :=
  TObject [
    ("200"%js, NotificationResponse)].

Definition NotificationStreamApiV1EventsNotificationsStreamGetResponse : ts_type :=
  ts_values NotificationStreamApiV1EventsNotificationsStreamGetResponses.

Definition ExecutionEventsApiV1EventsExecutionsExecutionIdGetData : ts_type :=
  TObject [
    ("body"%js, opt TNever);
    ("path"%js, TObject [
    ("execution_id"%js, TString)]);
    ("query"%js, opt TNever);
    ("url"%js, TLiteral (LStr "/api/v1/events/executions/{execution_id}"%js))].

Definition ExecutionEventsApiV1EventsExecutionsExecutionIdGetErrors : ts_type :=
  TObject [
    ("default"%js, ErrorResponse)].

Definition ExecutionEventsApiV1EventsExecutionsExecutionIdGetError : ts_type :=
  ts_values ExecutionEventsApiV1EventsExecutionsExecutionIdGetErrors.

Definition ExecutionEventsApiV1EventsExecutionsExecutionIdGetResponses : ts_type :=
  TObject [
    ("200"%js, SseExecutionEventSchema)].

Definition ExecutionEventsApiV1EventsExecutionsExecutionIdGetResponse : ts_type :=
  ts_values ExecutionEventsApiV1EventsExecutionsExecutionIdGetResponses.

Definition BrowseEventsApiV1AdminEventsBrowsePostData : ts_type :=
  TObject [
    ("body"%js, EventBrowseRequest);
    ("path"%js, opt TNever);
    ("query"%js, opt TNever);
    ("url"%js, TLiteral (LStr "/api/v1/admin/events/browse"%js))].

Definition BrowseEventsApiV1AdminEventsBrowsePostErrors : ts_type :=
  TObject [
    ("default"%js, ErrorResponse)].

Definition BrowseEventsApiV1AdminEventsBrowsePostError : ts_type :=
  ts_values BrowseEventsApiV1AdminEventsBrowsePostErrors.

Definition BrowseEventsApiV1AdminEventsBrowsePostResponses : ts_type :=
  TObject [
    ("200"%js, EventBrowseResponse)].

Definition BrowseEventsApiV1AdminEventsBrowsePostResponse : ts_type :=
  ts_values BrowseEventsApiV1AdminEventsBrowsePostResponses.

Definition GetEventStatsApiV1AdminEventsStatsGetData : ts_type :=
  TObject [
    ("body"%js, opt TNever);
    ("path"%js, opt TNever);
    ("query"%js, opt (TObject [
    ("hours"%js, opt TNumber)]));
    ("url"%js, TLiteral (LStr "/api/v1/admin/events/stats"%js))].

Definition GetEventStatsApiV1AdminEventsStatsGetErrors : ts_type :=
  TObject [
    ("default"%js, ErrorResponse)].

Definition GetEventStatsApiV1AdminEventsStatsGetError : ts_type :=
  ts_values GetEventStatsApiV1AdminEventsStatsGetErrors.

Definition GetEventStatsApiV1AdminEventsStatsGetResponses : ts_type :=
  TObject [
    ("200"%js, EventStatsResponse)].

Definition GetEventStatsApiV1AdminEventsStatsGetResponse : ts_type :=
  ts_values GetEventStatsApiV1AdminEventsStatsGetResponses.

Definition ExportEventsApiV1AdminEventsExportExportFormatGetData : ts_type :=
  TObject [
    ("body"%js, opt TNever);
    ("path"%js, TObject [
    ("export_format"%js, ExportFormat)]);
    ("query"%js, opt (TObject [
    ("event_types"%js, opt (TUnion [(TArray EventType); TNull]));
    ("aggregate_id"%js, opt (TUnion [TString; TNull]));
    ("user_id"%js, opt (TUnion [TString; TNull]));
    ("service_name"%js, opt (TUnion [TString; TNull]));
    ("start_time"%js, opt (TUnion [TString; TNull]));
    ("end_time"%js, opt (TUnion [TString; TNull]));
    ("limit"%js, opt TNumber)]));
    ("url"%js, TLiteral (LStr "/api/v1/admin/events/export/{export_format}"%js))].

Definition ExportEventsApiV1AdminEventsExportExportFormatGetErrors : ts_type :=
  TObject [
    ("default"%js, ErrorResponse)].

Definition ExportEventsApiV1AdminEventsExportExportFormatGetError : ts_type :=
  ts_values ExportEventsApiV1AdminEventsExportExportFormatGetErrors.

Definition ExportEventsApiV1AdminEventsExportExportFormatGetResponses : ts_type :=
  TObject [
    ("200"%js, TUnknown)].

Definition DeleteEventApiV1AdminEventsEventIdDeleteData : ts_type :=
  TObject [
    ("body"%js, opt TNever);
    ("path"%js, TObject [
    ("event_id"%js, TString)]);
    ("query"%js, opt TNever);
    ("url"%js, TLiteral (LStr "/api/v1/admin/events/{event_id}"%js))].

Definition DeleteEventApiV1AdminEventsEventIdDeleteErrors : ts_type :=
  TObject [
    ("404"%js, ErrorResponse);
    ("default"%js, ErrorResponse)].

Definition DeleteEventApiV1AdminEventsEventIdDeleteError : ts_type :=
  ts_values DeleteEventApiV1AdminEventsEventIdDeleteErrors.

Definition DeleteEventApiV1AdminEventsEventIdDeleteResponses : ts_type :=
  TObject [
    ("200"%js, EventDeleteResponse)].

Definition DeleteEventApiV1AdminEventsEventIdDeleteResponse : ts_type :=
  ts_values DeleteEventApiV1AdminEventsEventIdDeleteResponses.

Definition GetEventDetailApiV1AdminEventsEventIdGetData : ts_type :=
  TObject [
    ("body"%js, opt TNever);
    ("path"%js, TObject [
    ("event_id"%js, TString)]);
    ("query"%js, opt TNever);
    ("url"%js, TLiteral (LStr "/api/v1/admin/events/{event_id}"%js))].

Definition GetEventDetailApiV1AdminEventsEventIdGetErrors : ts_type :=
  TObject [
    ("404"%js, ErrorResponse);
    ("default"%js, ErrorResponse)].

Definition GetEventDetailApiV1AdminEventsEventIdGetError : ts_type :=
  ts_values GetEventDetailApiV1AdminEventsEventIdGetErrors.

Definition GetEventDetailApiV1AdminEventsEventIdGetResponses : ts_type :=
  TObject [
    ("200"%js, EventDetailResponse)].

Definition GetEventDetailApiV1AdminEventsEventIdGetResponse : ts_type :=
  ts_values GetEventDetailApiV1AdminEventsEventIdGetResponses.

Definition ReplayEventsApiV1AdminEventsReplayPostData : ts_type :=
  TObject [
    ("body"%js, EventReplayRequest);
    ("path"%js, opt TNever);
    ("query"%js, opt TNever);
    ("url"%js, TLiteral (LStr "/api/v1/admin/events/replay"%js))].

Definition ReplayEventsApiV1AdminEventsReplayPostErrors : ts_type :=
  TObject [
    ("404"%js, ErrorResponse);
    ("422"%js, ErrorResponse);
    ("default"%js, ErrorResponse)].

Definition ReplayEventsApiV1AdminEventsReplayPostError : ts_type :=
  ts_values ReplayEventsApiV1AdminEventsReplayPostErrors.

Definition ReplayEventsApiV1AdminEventsReplayPostResponses : ts_type :=
  TObject [
    ("200"%js, EventReplayResponse)].

Definition ReplayEventsApiV1AdminEventsReplayPostResponse : ts_type :=
  ts_values ReplayEventsApiV1AdminEventsReplayPostResponses.

Definition StreamReplayStatusApiV1AdminEventsReplaySessionIdStatusGetData : ts_type :=
  TObject [
    ("body"%js, opt TNever);
    ("path"%js, TObject [
    ("session_id"%js, TString)]);
    ("query"%js, opt TNever);
    ("url"%js, TLiteral (LStr "/api/v1/admin/events/replay/{session_id}/status"%js))].

Definition StreamReplayStatusApiV1AdminEventsReplaySessionIdStatusGetErrors : ts_type :=
  TObject [
    ("default"%js, ErrorResponse)].

Definition StreamReplayStatusApiV1AdminEventsReplaySessionIdStatusGetError : ts_type :=
  ts_values StreamReplayStatusApiV1AdminEventsReplaySessionIdStatusGetErrors.

Definition StreamReplayStatusApiV1AdminEventsReplaySessionIdStatusGetResponses : ts_type :=
  TObject [
    ("200"%js, EventReplayStatusResponse)].

Definition StreamReplayStatusApiV1AdminEventsReplaySessionIdStatusGetResponse : ts_type :=
  ts_values StreamReplayStatusApiV1AdminEventsReplaySessionIdStatusGetResponses.

Definition ListExecutionsApiV1AdminExecutionsGetData : ts_type :=
  TObject [
    ("body"%js, opt TNever);
    ("path"%js, opt TNever);
    ("query"%js, opt (TObject [
    ("status"%js, opt (TUnion [ExecutionStatus; TNull]));
    ("priority"%js, opt (TUnion [QueuePriority; TNull]));
    ("user_id"%js, opt (TUnion [TString; TNull]));
    ("limit"%js, opt TNumber);
    ("skip"%js, opt TNumber)]));
    ("url"%js, TLiteral (LStr "/api/v1/admin/executions/"%js))].

Definition ListExecutionsApiV1AdminExecutionsGetErrors : ts_type :=
  TObject [
    ("403"%js, ErrorResponse);
    ("default"%js, ErrorResponse)].

Definition ListExecutionsApiV1AdminExecutionsGetError : ts_type :=
  ts_values ListExecutionsApiV1AdminExecutionsGetErrors.

Definition ListExecutionsApiV1AdminExecutionsGetResponses : ts_type :=
  TObject [
    ("200"%js, AdminExecutionListResponse)].

Definition ListExecutionsApiV1AdminExecutionsGetResponse : ts_type :=
  ts_values ListExecutionsApiV1AdminExecutionsGetResponses.

Definition UpdatePriorityApiV1AdminExecutionsExecutionIdPriorityPutData : ts_type :=
  TObject [
    ("body"%js, PriorityUpdateRequest);
    ("path"%js, TObject [
    ("execution_id"%js, TString)]);
    ("query"%js, opt TNever);
    ("url"%js, TLiteral (LStr "/api/v1/admin/executions/{execution_id}/priority"%js))].

Definition UpdatePriorityApiV1AdminExecutionsExecutionIdPriorityPutErrors : ts_type :=
  TObject [
    ("403"%js, ErrorResponse);
    ("404"%js, ErrorResponse);
    ("default"%js, ErrorResponse)].

Definition UpdatePriorityApiV1AdminExecutionsExecutionIdPriorityPutError : ts_type :=
  ts_values UpdatePriorityApiV1AdminExecutionsExecutionIdPriorityPutErrors.

Definition UpdatePriorityApiV1AdminExecutionsExecutionIdPriorityPutResponses : ts_type :=
  TObject [
    ("200"%js, AdminExecutionResponse)].

Definition UpdatePriorityApiV1AdminExecutionsExecutionIdPriorityPutResponse : ts_type :=
  ts_values UpdatePriorityApiV1AdminExecutionsExecutionIdPriorityPutResponses.

Definition GetQueueStatusApiV1AdminExecutionsQueueGetData : ts_type :=
  TObject [
    ("body"%js, opt TNever);
    ("path"%js, opt TNever);
    ("query"%js, opt TNever);
    ("url"%js, TLiteral (LStr "/api/v1/admin/executions/queue"%js))].

Definition GetQueueStatusApiV1AdminExecutionsQueueGetErrors : ts_type :=
  TObject [
    ("403"%js, ErrorResponse);
    ("default"%js, ErrorResponse)].

Definition GetQueueStatusApiV1AdminExecutionsQueueGetError : ts_type :=
  ts_values GetQueueStatusApiV1AdminExecutionsQueueGetErrors.

Definition GetQueueStatusApiV1AdminExecutionsQueueGetResponses : ts_type :=
  TObject [
    ("200"%js, QueueStatusResponse)].

Definition GetQueueStatusApiV1AdminExecutionsQueueGetResponse : ts_type :=
  ts_values GetQueueStatusApiV1AdminExecutionsQueueGetResponses.

Definition GetDefaultRateLimitRulesApiV1AdminRateLimitsDefaultsGetData : ts_type :=
  TObject [
    ("body"%js, opt TNever);
    ("path"%js, opt TNever);
    ("query"%js, opt TNever);
    ("url"%js, TLiteral (LStr "/api/v1/admin/rate-limits/defaults"%js))].

Definition GetDefaultRateLimitRulesApiV1AdminRateLimitsDefaultsGetErrors : ts_type :=
  TObject [
    ("default"%js, ErrorResponse)].

Definition GetDefaultRateLimitRulesApiV1AdminRateLimitsDefaultsGetError : ts_type :=
  ts_values GetDefaultRateLimitRulesApiV1AdminRateLimitsDefaultsGetErrors.

Definition GetDefaultRateLimitRulesApiV1AdminRateLimitsDefaultsGetResponses : ts_type :=
  TObject [
    ("200"%js, TArray RateLimitRuleResponse)].

Definition GetDefaultRateLimitRulesApiV1AdminRateLimitsDefaultsGetResponse : ts_type :=
  ts_values GetDefaultRateLimitRulesApiV1AdminRateLimitsDefaultsGetResponses.

Definition GetUserRateLimitsApiV1AdminRateLimitsUserIdGetData : ts_type :=
  TObject [
    ("body"%js, opt TNever);
    ("path"%js, TObject [
    ("user_id"%js, TString)]);
    ("query"%js, opt TNever);
    ("url"%js, TLiteral (LStr "/api/v1/admin/rate-limits/{user_id}"%js))].

Definition GetUserRateLimitsApiV1AdminRateLimitsUserIdGetErrors : ts_type :=
  TObject [
    ("default"%js, ErrorResponse)].

Definition GetUserRateLimitsApiV1AdminRateLimitsUserIdGetError : ts_type :=
  ts_values GetUserRateLimitsApiV1AdminRateLimitsUserIdGetErrors.

Definition GetUserRateLimitsApiV1AdminRateLimitsUserIdGetResponses : ts_type :=
  TObject [
    ("200"%js, UserRateLimitsResponse)].

Definition GetUserRateLimitsApiV1AdminRateLimitsUserIdGetResponse : ts_type :=
  ts_values GetUserRateLimitsApiV1AdminRateLimitsUserIdGetResponses.

Definition UpdateUserRateLimitsApiV1AdminRateLimitsUserIdPutData : ts_type :=
  TObject [
    ("body"%js, RateLimitUpdateRequest);
    ("path"%js, TObject [
    ("user_id"%js, TString)]);
    ("query"%js, opt TNever);
    ("url"%js, TLiteral (LStr "/api/v1/admin/rate-limits/{user_id}"%js))].

Definition UpdateUserRateLimitsApiV1AdminRateLimitsUserIdPutErrors : ts_type :=
  TObject [
    ("default"%js, ErrorResponse)].

Definition UpdateUserRateLimitsApiV1AdminRateLimitsUserIdPutError : ts_type :=
  ts_values UpdateUserRateLimitsApiV1AdminRateLimitsUserIdPutErrors.

Definition UpdateUserRateLimitsApiV1AdminRateLimitsUserIdPutResponses : ts_type :=
  TObject [
    ("200"%js, RateLimitUpdateResponse)].

Definition UpdateUserRateLimitsApiV1AdminRateLimitsUserIdPutResponse : ts_type :=
  ts_values UpdateUserRateLimitsApiV1AdminRateLimitsUserIdPutResponses.

Definition ResetUserRateLimitsApiV1AdminRateLimitsUserIdResetPostData : ts_type :=
  TObject [
    ("body"%js, opt TNever);
    ("path"%js, TObject [
    ("user_id"%js, TString)]);
    ("query"%js, opt TNever);
    ("url"%js, TLiteral (LStr "/api/v1/admin/rate-limits/{user_id}/reset"%js))].

Definition ResetUserRateLimitsApiV1AdminRateLimitsUserIdResetPostErrors : ts_type :=
  TObject [
    ("default"%js, ErrorResponse)].

Definition ResetUserRateLimitsApiV1AdminRateLimitsUserIdResetPostError : ts_type :=
  ts_values ResetUserRateLimitsApiV1AdminRateLimitsUserIdResetPostErrors.

Definition ResetUserRateLimitsApiV1AdminRateLimitsUserIdResetPostResponses : ts_type :=
  TObject [
    ("200"%js, MessageResponse)].

Definition ResetUserRateLimitsApiV1AdminRateLimitsUserIdResetPostResponse : ts_type :=
  ts_values ResetUserRateLimitsApiV1AdminRateLimitsUserIdResetPostResponses.

Definition GetSystemSettingsApiV1AdminSettingsGetData : ts_type :=
  TObject [
    ("body"%js, opt TNever);
    ("path"%js, opt TNever);
    ("query"%js, opt TNever);
    ("url"%js, TLiteral (LStr "/api/v1/admin/settings/"%js))].

Definition GetSystemSettingsApiV1AdminSettingsGetErrors : ts_type :=
  TObject [
    ("500"%js, ErrorResponse);
    ("default"%js, ErrorResponse)].

Definition GetSystemSettingsApiV1AdminSettingsGetError : ts_type :=
  ts_values GetSystemSettingsApiV1AdminSettingsGetErrors.

Definition GetSystemSettingsApiV1AdminSettingsGetResponses : ts_type :=
  TObject [
    ("200"%js, SystemSettingsSchemaOutput)].

Definition GetSystemSettingsApiV1AdminSettingsGetResponse : ts_type :=
  ts_values GetSystemSettingsApiV1AdminSettingsGetResponses.

Definition UpdateSystemSettingsApiV1AdminSettingsPutData : ts_type :=
  TObject [
    ("body"%js, SystemSettingsSchemaInput);
    ("path"%js, opt TNever);
    ("query"%js, opt TNever);
    ("url"%js, TLiteral (LStr "/api/v1/admin/settings/"%js))].

Definition UpdateSystemSettingsApiV1AdminSettingsPutErrors : ts_type :=
  TObject [
    ("400"%js, ErrorResponse);
    ("422"%js, ErrorResponse);
    ("500"%js, ErrorResponse);
    ("default"%js, ErrorResponse)].

Definition UpdateSystemSettingsApiV1AdminSettingsPutError : ts_type :=
  ts_values UpdateSystemSettingsApiV1AdminSettingsPutErrors.

Definition UpdateSystemSettingsApiV1AdminSettingsPutResponses : ts_type :=
  TObject [
    ("200"%js, SystemSettingsSchemaOutput)].

Definition UpdateSystemSettingsApiV1AdminSettingsPutResponse : ts_type :=
  ts_values UpdateSystemSettingsApiV1AdminSettingsPutResponses.

Definition ResetSystemSettingsApiV1AdminSettingsResetPostData : ts_type :=
  TObject [
    ("body"%js, opt TNever);
    ("path"%js, opt TNever);
    ("query"%js, opt TNever);
    ("url"%js, TLiteral (LStr "/api/v1/admin/settings/reset"%js))].

Definition ResetSystemSettingsApiV1AdminSettingsResetPostErrors : ts_type :=
  TObject [
    ("500"%js, ErrorResponse);
    ("default"%js, ErrorResponse)].

Definition ResetSystemSettingsApiV1AdminSettingsResetPostError : ts_type :=
  ts_values ResetSystemSettingsApiV1AdminSettingsResetPostErrors.

Definition ResetSystemSettingsApiV1AdminSettingsResetPostResponses : ts_type :=
  TObject [
    ("200"%js, SystemSettingsSchemaOutput)].

Definition ResetSystemSettingsApiV1AdminSettingsResetPostResponse : ts_type :=
  ts_values ResetSystemSettingsApiV1AdminSettingsResetPostResponses.

Definition ListUsersApiV1AdminUsersGetData : ts_type :=
  TObject [
    ("body"%js, opt TNever);
    ("path"%js, opt TNever);
    ("query"%js, opt (TObject [
    ("limit"%js, opt TNumber);
    ("offset"%js, opt TNumber);
    ("search"%js, opt (TUnion [TString; TNull]));
    ("role"%js, opt (TUnion [UserRole; TNull]));
    ("is_active"%js, opt (TUnion [TBoolean; TNull]));
    ("bypass_rate_limit"%js, opt (TUnion [TBoolean; TNull]));
    ("has_custom_limits"%js, opt (TUnion [TBoolean; TNull]));
    ("custom_multiplier"%js, opt (TUnion [TBoolean; TNull]))]));
    ("url"%js, TLiteral (LStr "/api/v1/admin/users/"%js))].

Definition ListUsersApiV1AdminUsersGetErrors : ts_type :=
  TObject [
    ("default"%js, ErrorResponse)].

Definition ListUsersApiV1AdminUsersGetError : ts_type :=
  ts_values ListUsersApiV1AdminUsersGetErrors.

Definition ListUsersApiV1AdminUsersGetResponses : ts_type :=
  TObject [
    ("200"%js, UserListResponse)].

Definition ListUsersApiV1AdminUsersGetResponse : ts_type :=
  ts_values ListUsersApiV1AdminUsersGetResponses.

Definition CreateUserApiV1AdminUsersPostData : ts_type :=
  TObject [
    ("body"%js, UserCreateWritable);
    ("path"%js, opt TNever);
    ("query"%js, opt TNever);
    ("url"%js, TLiteral (LStr "/api/v1/admin/users/"%js))].

Definition CreateUserApiV1AdminUsersPostErrors : ts_type :=
  TObject [
    ("409"%js, ErrorResponse);
    ("default"%js, ErrorResponse)].

Definition CreateUserApiV1AdminUsersPostError : ts_type :=
  ts_values CreateUserApiV1AdminUsersPostErrors.

Definition CreateUserApiV1AdminUsersPostResponses : ts_type :=
  TObject [
    ("200"%js, UserResponse)].

Definition CreateUserApiV1AdminUsersPostResponse : ts_type :=
  ts_values CreateUserApiV1AdminUsersPostResponses.

Definition DeleteUserApiV1AdminUsersUserIdDeleteData : ts_type :=
  TObject [
    ("body"%js, opt TNever);
    ("path"%js, TObject [
    ("user_id"%js, TString)]);
    ("query"%js, opt (TObject [
    ("cascade"%js, opt TBoolean)]));
    ("url"%js, TLiteral (LStr "/api/v1/admin/users/{user_id}"%js))].

Definition DeleteUserApiV1AdminUsersUserIdDeleteErrors : ts_type :=
  TObject [
    ("400"%js, ErrorResponse);
    ("404"%js, ErrorResponse);
    ("default"%js, ErrorResponse)].

Definition DeleteUserApiV1AdminUsersUserIdDeleteError : ts_type :=
  ts_values DeleteUserApiV1AdminUsersUserIdDeleteErrors.

Definition DeleteUserApiV1AdminUsersUserIdDeleteResponses : ts_type :=
  TObject [
    ("200"%js, DeleteUserResponse)].

Definition DeleteUserApiV1AdminUsersUserIdDeleteResponse : ts_type :=
  ts_values DeleteUserApiV1AdminUsersUserIdDeleteResponses.

Definition GetUserApiV1AdminUsersUserIdGetData : ts_type :=
  TObject [
    ("body"%js, opt TNever);
    ("path"%js, TObject [
    ("user_id"%js, TString)]);
    ("query"%js, opt TNever);
    ("url"%js, TLiteral (LStr "/api/v1/admin/users/{user_id}"%js))].

Definition GetUserApiV1AdminUsersUserIdGetErrors : ts_type :=
  TObject [
    ("404"%js, ErrorResponse);
    ("default"%js, ErrorResponse)].

Definition GetUserApiV1AdminUsersUserIdGetError : ts_type :=
  ts_values GetUserApiV1AdminUsersUserIdGetErrors.

Definition GetUserApiV1AdminUsersUserIdGetResponses : ts_type :=
  TObject [
    ("200"%js, UserResponse)].

Definition GetUserApiV1AdminUsersUserIdGetResponse : ts_type :=
  ts_values GetUserApiV1AdminUsersUserIdGetResponses.

Definition UpdateUserApiV1AdminUsersUserIdPutData : ts_type :=
  TObject [
    ("body"%js, UserUpdateWritable);
    ("path"%js, TObject [
    ("user_id"%js, TString)]);
    ("query"%js, opt TNever);
    ("url"%js, TLiteral (LStr "/api/v1/admin/users/{user_id}"%js))].

Definition UpdateUserApiV1AdminUsersUserIdPutErrors : ts_type :=
  TObject [
    ("404"%js, ErrorResponse);
    ("409"%js, ErrorResponse);
    ("default"%js, ErrorResponse)].

Definition UpdateUserApiV1AdminUsersUserIdPutError : ts_type :=
  ts_values UpdateUserApiV1AdminUsersUserIdPutErrors.

Definition UpdateUserApiV1AdminUsersUserIdPutResponses : ts_type :=
  TObject [
    ("200"%js, UserResponse)].

Definition UpdateUserApiV1AdminUsersUserIdPutResponse : ts_type :=
  ts_values UpdateUserApiV1AdminUsersUserIdPutResponses.

Definition GetUserOverviewApiV1AdminUsersUserIdOverviewGetData : ts_type :=
  TObject [
    ("body"%js, opt TNever);
    ("path"%js, TObject [
    ("user_id"%js, TString)]);
    ("query"%js, opt TNever);
    ("url"%js, TLiteral (LStr "/api/v1/admin/users/{user_id}/overview"%js))].

Definition GetUserOverviewApiV1AdminUsersUserIdOverviewGetErrors : ts_type :=
  TObject [
    ("404"%js, ErrorResponse);
    ("default"%js, ErrorResponse)].

Definition GetUserOverviewApiV1AdminUsersUserIdOverviewGetError : ts_type :=
  ts_values GetUserOverviewApiV1AdminUsersUserIdOverviewGetErrors.

Definition GetUserOverviewApiV1AdminUsersUserIdOverviewGetResponses : ts_type :=
  TObject [
    ("200"%js, AdminUserOverview)].

Definition GetUserOverviewApiV1AdminUsersUserIdOverviewGetResponse : ts_type :=
  ts_values GetUserOverviewApiV1AdminUsersUserIdOverviewGetResponses.

Definition ResetUserPasswordApiV1AdminUsersUserIdResetPasswordPostData : ts_type :=
  TObject [
    ("body"%js, PasswordResetRequest);
    ("path"%js, TObject [
    ("user_id"%js, TString)]);
    ("query"%js, opt TNever);
    ("url"%js, TLiteral (LStr "/api/v1/admin/users/{user_id}/reset-password"%js))].

Definition ResetUserPasswordApiV1AdminUsersUserIdResetPasswordPostErrors : ts_type :=
  TObject [
    ("404"%js, ErrorResponse);
    ("default"%js, ErrorResponse)].

Definition ResetUserPasswordApiV1AdminUsersUserIdResetPasswordPostError : ts_type :=
  ts_values ResetUserPasswordApiV1AdminUsersUserIdResetPasswordPostErrors.

Definition ResetUserPasswordApiV1AdminUsersUserIdResetPasswordPostResponses : ts_type :=
  TObject [
    ("200"%js, MessageResponse)].

Definition ResetUserPasswordApiV1AdminUsersUserIdResetPasswordPostResponse : ts_type :=
  ts_values ResetUserPasswordApiV1AdminUsersUserIdResetPasswordPostResponses.

Definition UnlockUserApiV1AdminUsersUserIdUnlockPostData : ts_type :=
  TObject [
    ("body"%js, opt TNever);
    ("path"%js, TObject [
    ("user_id"%js, TString)]);
    ("query"%js, opt TNever);
    ("url"%js, TLiteral (LStr "/api/v1/admin/users/{user_id}/unlock"%js))].

Definition UnlockUserApiV1AdminUsersUserIdUnlockPostErrors : ts_type :=
  TObject [
    ("404"%js, ErrorResponse);
    ("default"%js, ErrorResponse)].

Definition UnlockUserApiV1AdminUsersUserIdUnlockPostError : ts_type :=
  ts_values UnlockUserApiV1AdminUsersUserIdUnlockPostErrors.

Definition UnlockUserApiV1AdminUsersUserIdUnlockPostResponses : ts_type :=
  TObject [
    ("200"%js, UnlockResponse)].

Definition UnlockUserApiV1AdminUsersUserIdUnlockPostResponse : ts_type :=
  ts_values UnlockUserApiV1AdminUsersUserIdUnlockPostResponses.

Definition GetUserSettingsApiV1UserSettingsGetData : ts_type :=
  TObject [
    ("body"%js, opt TNever);
    ("path"%js, opt TNever);
    ("query"%js, opt TNever);
    ("url"%js, TLiteral (LStr "/api/v1/user/settings/"%js))].

Definition GetUserSettingsApiV1UserSettingsGetErrors : ts_type :=
  TObject [
    ("default"%js, ErrorResponse)].

Definition GetUserSettingsApiV1UserSettingsGetError : ts_type :=
  ts_values GetUserSettingsApiV1UserSettingsGetErrors.

Definition GetUserSettingsApiV1UserSettingsGetResponses : ts_type :=
  TObject [
    ("200"%js, UserSettings)].

Definition GetUserSettingsApiV1UserSettingsGetResponse : ts_type :=
  ts_values GetUserSettingsApiV1UserSettingsGetResponses.

Definition UpdateUserSettingsApiV1UserSettingsPutData : ts_type :=
  TObject [
    ("body"%js, UserSettingsUpdate);
    ("path"%js, opt TNever);
    ("query"%js, opt TNever);
    ("url"%js, TLiteral (LStr "/api/v1/user/settings/"%js))].

Definition UpdateUserSettingsApiV1UserSettingsPutErrors : ts_type :=
  TObject [
    ("default"%js, ErrorResponse)].

Definition UpdateUserSettingsApiV1UserSettingsPutError : ts_type :=
  ts_values UpdateUserSettingsApiV1UserSettingsPutErrors.

Definition UpdateUserSettingsApiV1UserSettingsPutResponses : ts_type :=
  TObject [
    ("200"%js, UserSettings)].

Definition UpdateUserSettingsApiV1UserSettingsPutResponse : ts_type :=
  ts_values UpdateUserSettingsApiV1UserSettingsPutResponses.

Definition UpdateThemeApiV1UserSettingsThemePutData : ts_type :=
  TObject [
    ("body"%js, ThemeUpdateRequest);
    ("path"%js, opt TNever);
    ("query"%js, opt TNever);
    ("url"%js, TLiteral (LStr "/api/v1/user/settings/theme"%js))].

Definition UpdateThemeApiV1UserSettingsThemePutErrors : ts_type :=
  TObject [
    ("default"%js, ErrorResponse)].

Definition UpdateThemeApiV1UserSettingsThemePutError : ts_type :=
  ts_values UpdateThemeApiV1UserSettingsThemePutErrors.

Definition UpdateThemeApiV1UserSettingsThemePutResponses : ts_type :=
  TObject [
    ("200"%js, UserSettings)].

Definition UpdateThemeApiV1UserSettingsThemePutResponse : ts_type :=
  ts_values UpdateThemeApiV1UserSettingsThemePutResponses.

Definition UpdateNotificationSettingsApiV1UserSettingsNotificationsPutData : ts_type :=
  TObject [
    ("body"%js, NotificationSettingsInput);
    ("path"%js, opt TNever);
    ("query"%js, opt TNever);
    ("url"%js, TLiteral (LStr "/api/v1/user/settings/notifications"%js))].

Definition UpdateNotificationSettingsApiV1UserSettingsNotificationsPutErrors : ts_type :=
  TObject [
    ("default"%js, ErrorResponse)].

Definition UpdateNotificationSettingsApiV1UserSettingsNotificationsPutError : ts_type :=
  ts_values UpdateNotificationSettingsApiV1UserSettingsNotificationsPutErrors.

Definition UpdateNotificationSettingsApiV1UserSettingsNotificationsPutResponses : ts_type :=
  TObject [
    ("200"%js, UserSettings)].

Definition UpdateNotificationSettingsApiV1UserSettingsNotificationsPutResponse : ts_type :=
  ts_values UpdateNotificationSettingsApiV1UserSettingsNotificationsPutResponses.

Definition UpdateEditorSettingsApiV1UserSettingsEditorPutData : ts_type :=
  TObject [
    ("body"%js, EditorSettingsInput);
    ("path"%js, opt TNever);
    ("query"%js, opt TNever);
    ("url"%js, TLiteral (LStr "/api/v1/user/settings/editor"%js))].

Definition UpdateEditorSettingsApiV1UserSettingsEditorPutErrors : ts_type :=
  TObject [
    ("default"%js, ErrorResponse)].

Definition UpdateEditorSettingsApiV1UserSettingsEditorPutError : ts_type :=
  ts_values UpdateEditorSettingsApiV1UserSettingsEditorPutErrors.

Definition UpdateEditorSettingsApiV1UserSettingsEditorPutResponses : ts_type :=
  TObject [
    ("200"%js, UserSettings)].

Definition UpdateEditorSettingsApiV1UserSettingsEditorPutResponse : ts_type :=
  ts_values UpdateEditorSettingsApiV1UserSettingsEditorPutResponses.

Definition GetSettingsHistoryApiV1UserSettingsHistoryGetData : ts_type :=
  TObject [
    ("body"%js, opt TNever);
    ("path"%js, opt TNever);
    ("query"%js, opt (TObject [
    ("limit"%js, opt TNumber)]));
    ("url"%js, TLiteral (LStr "/api/v1/user/settings/history"%js))].

Definition GetSettingsHistoryApiV1UserSettingsHistoryGetErrors : ts_type :=
  TObject [
    ("default"%js, ErrorResponse)].

Definition GetSettingsHistoryApiV1UserSettingsHistoryGetError : ts_type :=
  ts_values GetSettingsHistoryApiV1UserSettingsHistoryGetErrors.

Definition GetSettingsHistoryApiV1UserSettingsHistoryGetResponses : ts_type :=
  TObject [
    ("200"%js, SettingsHistoryResponse)].

Definition GetSettingsHistoryApiV1UserSettingsHistoryGetResponse : ts_type :=
  ts_values GetSettingsHistoryApiV1UserSettingsHistoryGetResponses.

Definition RestoreSettingsApiV1UserSettingsRestorePostData : ts_type :=
  TObject [
    ("body"%js, RestoreSettingsRequest);
    ("path"%js, opt TNever);
    ("query"%js, opt TNever);
    ("url"%js, TLiteral (LStr "/api/v1/user/settings/restore"%js))].

Definition RestoreSettingsApiV1UserSettingsRestorePostErrors : ts_type :=
  TObject [
    ("default"%js, ErrorResponse)].

Definition RestoreSettingsApiV1UserSettingsRestorePostError : ts_type :=
  ts_values RestoreSettingsApiV1UserSettingsRestorePostErrors.

Definition RestoreSettingsApiV1UserSettingsRestorePostResponses : ts_type :=
  TObject [
    ("200"%js, UserSettings)].

Definition RestoreSettingsApiV1UserSettingsRestorePostResponse : ts_type :=
  ts_values RestoreSettingsApiV1UserSettingsRestorePostResponses.

Definition UpdateCustomSettingApiV1UserSettingsCustomKeyPutData : ts_type :=
  TObject [
    ("body"%js, TRecord TUnknown);
    ("path"%js, TObject [
    ("key"%js, TString)]);
    ("query"%js, opt TNever);
    ("url"%js, TLiteral (LStr "/api/v1/user/settings/custom/{key}"%js))].

Definition UpdateCustomSettingApiV1UserSettingsCustomKeyPutErrors : ts_type :=
  TObject [
    ("default"%js, ErrorResponse)].

Definition UpdateCustomSettingApiV1UserSettingsCustomKeyPutError : ts_type :=
  ts_values UpdateCustomSettingApiV1UserSettingsCustomKeyPutErrors.

Definition UpdateCustomSettingApiV1UserSettingsCustomKeyPutResponses : ts_type :=
  TObject [
    ("200"%js, UserSettings)].

Definition UpdateCustomSettingApiV1UserSettingsCustomKeyPutResponse : ts_type :=
  ts_values UpdateCustomSettingApiV1UserSettingsCustomKeyPutResponses.

Definition GetNotificationsApiV1NotificationsGetData : ts_type :=
  TObject [
    ("body"%js, opt TNever);
    ("path"%js, opt TNever);
    ("query"%js, opt (TObject [
    ("status"%js, opt (TUnion [NotificationStatus; TNull]));
    ("include_tags"%js, opt (TUnion [(TArray TString); TNull]));
    ("exclude_tags"%js, opt (TUnion [(TArray TString); TNull]));
    ("tag_prefix"%js, opt (TUnion [TString; TNull]));
    ("limit"%js, opt TNumber);
    ("offset"%js, opt TNumber)]));
    ("url"%js, TLiteral (LStr "/api/v1/notifications"%js))].

Definition GetNotificationsApiV1NotificationsGetErrors : ts_type :=
  TObject [
    ("default"%js, ErrorResponse)].

Definition GetNotificationsApiV1NotificationsGetError : ts_type :=
  ts_values GetNotificationsApiV1NotificationsGetErrors.

Definition GetNotificationsApiV1NotificationsGetResponses : ts_type :=
  TObject [
    ("200"%js, NotificationListResponse)].

Definition GetNotificationsApiV1NotificationsGetResponse : ts_type :=
  ts_values GetNotificationsApiV1NotificationsGetResponses.

Definition MarkNotificationReadApiV1NotificationsNotificationIdReadPutData : ts_type :=
  TObject [
    ("body"%js, opt TNever);
    ("path"%js, TObject [
    ("notification_id"%js, TString)]);
    ("query"%js, opt TNever);
    ("url"%js, TLiteral (LStr "/api/v1/notifications/{notification_id}/read"%js))].

Definition MarkNotificationReadApiV1NotificationsNotificationIdReadPutErrors : ts_type :=
  TObject [
    ("default"%js, ErrorResponse)].

Definition MarkNotificationReadApiV1NotificationsNotificationIdReadPutError : ts_type :=
  ts_values MarkNotificationReadApiV1NotificationsNotificationIdReadPutErrors.

Definition MarkNotificationReadApiV1NotificationsNotificationIdReadPutResponses : ts_type :=
  TObject [
    ("204"%js, TUndefined)].

Definition MarkNotificationReadApiV1NotificationsNotificationIdReadPutResponse : ts_type :=
  ts_values MarkNotificationReadApiV1NotificationsNotificationIdReadPutResponses.

Definition MarkAllReadApiV1NotificationsMarkAllReadPostData : ts_type :=
  TObject [
    ("body"%js, opt TNever);
    ("path"%js, opt TNever);
    ("query"%js, opt TNever);
    ("url"%js, TLiteral (LStr "/api/v1/notifications/mark-all-read"%js))].

Definition MarkAllReadApiV1NotificationsMarkAllReadPostErrors : ts_type :=
  TObject [
    ("default"%js, ErrorResponse)].

Definition MarkAllReadApiV1NotificationsMarkAllReadPostError : ts_type :=
  ts_values MarkAllReadApiV1NotificationsMarkAllReadPostErrors.

Definition MarkAllReadApiV1NotificationsMarkAllReadPostResponses : ts_type :=
  TObject [
    ("204"%js, TUndefined)].

Definition MarkAllReadApiV1NotificationsMarkAllReadPostResponse : ts_type :=
  ts_values MarkAllReadApiV1NotificationsMarkAllReadPostResponses.

Definition GetUnreadCountApiV1NotificationsUnreadCountGetData : ts_type :=
  TObject [
    ("body"%js, opt TNever);
    ("path"%js, opt TNever);
    ("query"%js, opt TNever);
    ("url"%js, TLiteral (LStr "/api/v1/notifications/unread-count"%js))].

Definition GetUnreadCountApiV1NotificationsUnreadCountGetErrors : ts_type :=
  TObject [
    ("default"%js, ErrorResponse)].

Definition GetUnreadCountApiV1NotificationsUnreadCountGetError : ts_type :=
  ts_values GetUnreadCountApiV1NotificationsUnreadCountGetErrors.

Definition GetUnreadCountApiV1NotificationsUnreadCountGetResponses : ts_type :=
  TObject [
    ("200"%js, UnreadCountResponse)].

Definition GetUnreadCountApiV1NotificationsUnreadCountGetResponse : ts_type :=
  ts_values GetUnreadCountApiV1NotificationsUnreadCountGetResponses.

Definition DeleteNotificationApiV1NotificationsNotificationIdDeleteData : ts_type :=
  TObject [
    ("body"%js, opt TNever);
    ("path"%js, TObject [
    ("notification_id"%js, TString)]);
    ("query"%js, opt TNever);
    ("url"%js, TLiteral (LStr "/api/v1/notifications/{notification_id}"%js))].

Definition DeleteNotificationApiV1NotificationsNotificationIdDeleteErrors : ts_type :=
  TObject [
    ("default"%js, ErrorResponse)].

Definition DeleteNotificationApiV1NotificationsNotificationIdDeleteError : ts_type :=
  ts_values DeleteNotificationApiV1NotificationsNotificationIdDeleteErrors.

Definition DeleteNotificationApiV1NotificationsNotificationIdDeleteResponses : ts_type :=
  TObject [
    ("200"%js, DeleteNotificationResponse)].

Definition DeleteNotificationApiV1NotificationsNotificationIdDeleteResponse : ts_type :=
  ts_values DeleteNotificationApiV1NotificationsNotificationIdDeleteResponses.
