(* ===== verification/ApiSchemas.v ===== *)
(** * The schemas of the API

    [lib/api/zod.gen.ts], schema by schema: [Definition zX] is the constant [zX]
    of the source. *)

From S2P Require Import Prelude JsString JsValue Zod.

Definition zBodyLoginApiV1AuthLoginPost : schema :=
  ZObject [
    ("grant_type"%js, ZNullish (ZString [RegexExactly "password"]));
    ("username"%js, ZString []);
    ("password"%js, ZString []);
    ("scope"%js, ZDefault (ZOptional (ZString [])) (VStr ""%js));
    ("client_id"%js, ZNullish (ZString []));
    ("client_secret"%js, ZNullish (ZString []))].

Definition zCancelStatus : schema :=
  ZEnum ["already_cancelled"%js; "cancellation_requested"%js].

Definition zCancelResponse : schema :=
  ZObject [
    ("execution_id"%js, ZString []);
    ("status"%js, zCancelStatus);
    ("message"%js, ZString []);
    ("event_id"%js, ZNullable (ZString []))].

Definition zContainerStatusInfo : schema :=
  ZObject [
    ("name"%js, ZString []);
    ("ready"%js, ZDefault (ZOptional ZBoolean) (VBool false));
    ("restart_count"%js, ZDefault (ZOptional (ZInt [])) (VInt 0));
    ("state"%js, ZDefault (ZOptional (ZString [])) (VStr "unknown"%js))].

Definition zDeleteNotificationResponse : schema :=
  ZObject [
    ("message"%js, ZString [])].

Definition zDeleteResponse : schema :=
  ZObject [
    ("message"%js, ZString []);
    ("execution_id"%js, ZString [])].

Definition zDeleteUserResponse : schema :=
  ZObject [
    ("user_deleted"%js, ZBoolean);
    ("executions"%js, ZDefault (ZInt []) (VInt 0));
    ("saved_scripts"%js, ZDefault (ZInt []) (VInt 0));
    ("notifications"%js, ZDefault (ZInt []) (VInt 0));
    ("user_settings"%js, ZDefault (ZInt []) (VInt 0));
    ("events"%js, ZDefault (ZInt []) (VInt 0))].

Definition zDerivedCounts : schema :=
  ZObject [
    ("succeeded"%js, ZDefault (ZInt []) (VInt 0));
    ("failed"%js, ZDefault (ZInt []) (VInt 0));
    ("timeout"%js, ZDefault (ZInt []) (VInt 0));
    ("cancelled"%js, ZDefault (ZInt []) (VInt 0));
    ("terminal_total"%js, ZDefault (ZInt []) (VInt 0))].

Definition zEditorSettingsInput : schema :=
  ZObject [
    ("font_size"%js, ZDefault (ZOptional (ZInt [Gte 8; Lte 32])) (VInt 14));
    ("tab_size"%js, ZDefault (ZOptional (ZUnion [(ZLiteral (LNum 2)); (ZLiteral (LNum 4));
      (ZLiteral (LNum 8))])) (VInt 4));
    ("use_tabs"%js, ZDefault (ZOptional ZBoolean) (VBool false));
    ("word_wrap"%js, ZDefault (ZOptional ZBoolean) (VBool true));
    ("show_line_numbers"%js, ZDefault (ZOptional ZBoolean) (VBool true))].

Definition zEditorSettingsOutput : schema :=
  ZObject [
    ("font_size"%js, ZDefault (ZInt [Gte 8; Lte 32]) (VInt 14));
    ("tab_size"%js, ZDefault (ZUnion [(ZLiteral (LNum 2)); (ZLiteral (LNum 4)); (ZLiteral
      (LNum 8))]) (VInt 4));
    ("use_tabs"%js, ZDefault ZBoolean (VBool false));
    ("word_wrap"%js, ZDefault ZBoolean (VBool true));
    ("show_line_numbers"%js, ZDefault ZBoolean (VBool true))].

Definition zEndpointGroup : schema :=
  ZEnum ["execution"%js; "admin"%js; "sse"%js; "websocket"%js; "auth"%js; "public"%js; "api"%js].

Definition zEnvironment : schema :=
  ZEnum ["development"%js; "staging"%js; "production"%js; "test"%js].

Definition zErrorResponse : schema :=
  ZObject [
    ("status"%js, ZInt []);
    ("detail"%js, ZString [])].

Definition zEventDeleteResponse : schema :=
  ZObject [
    ("message"%js, ZString []);
    ("event_id"%js, ZString [])].

Definition zEventMetadata : schema :=
  ZObject [
    ("service_name"%js, ZString []);
    ("service_version"%js, ZString []);
    ("user_id"%js, ZString []);
    ("environment"%js, ZDefault (ZOptional zEnvironment) (VStr "production"%js))].

Definition zAuthFailedEvent : schema :=
  ZObject [
    ("event_id"%js, ZString []);
    ("event_type"%js, ZDefault (ZLiteral (LStr "auth_failed"%js)) (VStr "auth_failed"%js));
    ("event_version"%js, ZDefault (ZString []) (VStr "1.0"%js));
    ("timestamp"%js, ZDatetime);
    ("aggregate_id"%js, ZNullish (ZString []));
    ("metadata"%js, zEventMetadata);
    ("username"%js, ZNullish (ZString []));
    ("reason"%js, ZOptional (ZString []));
    ("ip_address"%js, ZNullish (ZString []))].

Definition zEventReplayRequest : schema :=
  ZObject [
    ("event_ids"%js, ZNullish (ZArray (ZString [])));
    ("aggregate_id"%js, ZNullish (ZString []));
    ("start_time"%js, ZNullish ZDatetime);
    ("end_time"%js, ZNullish ZDatetime);
    ("dry_run"%js, ZDefault (ZOptional ZBoolean) (VBool true))].

Definition zEventType : schema :=
  ZEnum ["execution_requested"%js; "execution_accepted"%js; "execution_queued"%js;
      "execution_started"%js; "execution_running"%js; "execution_completed"%js;
      "execution_failed"%js; "execution_timeout"%js; "execution_cancelled"%js; "pod_created"%js;
      "pod_scheduled"%js; "pod_running"%js; "pod_succeeded"%js; "pod_failed"%js;
      "pod_terminated"%js; "pod_deleted"%js; "user_registered"%js; "user_login"%js;
      "user_logged_in"%js; "user_logged_out"%js; "user_updated"%js; "user_deleted"%js;
      "user_settings_updated"%js; "notification_created"%js; "notification_sent"%js;
      "notification_delivered"%js; "notification_failed"%js; "notification_read"%js;
      "notification_all_read"%js; "notification_clicked"%js; "notification_preferences_updated"%js;
      "script_saved"%js; "script_deleted"%js; "script_shared"%js; "security_violation"%js;
      "rate_limit_exceeded"%js; "auth_failed"%js; "resource_limit_exceeded"%js;
      "quota_exceeded"%js; "system_error"%js; "service_unhealthy"%js; "service_recovered"%js;
      "result_stored"%js; "result_failed"%js; "dlq_message_received"%js; "dlq_message_retried"%js;
      "dlq_message_discarded"%js].

Definition zDlqMessageDiscardedEvent : schema :=
  ZObject [
    ("event_id"%js, ZString []);
    ("event_type"%js, ZDefault (ZLiteral (LStr "dlq_message_discarded"%js))
      (VStr "dlq_message_discarded"%js));
    ("event_version"%js, ZDefault (ZString []) (VStr "1.0"%js));
    ("timestamp"%js, ZDatetime);
    ("aggregate_id"%js, ZNullish (ZString []));
    ("metadata"%js, zEventMetadata);
    ("dlq_event_id"%js, ZOptional (ZString []));
    ("original_topic"%js, ZOptional (ZString []));
    ("original_event_type"%js, ZOptional zEventType);
    ("reason"%js, ZOptional (ZString []));
    ("retry_count"%js, ZOptional (ZInt []))].

Definition zDlqMessageReceivedEvent : schema :=
  ZObject [
    ("event_id"%js, ZString []);
    ("event_type"%js, ZDefault (ZLiteral (LStr "dlq_message_received"%js))
      (VStr "dlq_message_received"%js));
    ("event_version"%js, ZDefault (ZString []) (VStr "1.0"%js));
    ("timestamp"%js, ZDatetime);
    ("aggregate_id"%js, ZNullish (ZString []));
    ("metadata"%js, zEventMetadata);
    ("dlq_event_id"%js, ZOptional (ZString []));
    ("original_topic"%js, ZOptional (ZString []));
    ("original_event_type"%js, ZOptional zEventType);
    ("error"%js, ZOptional (ZString []));
    ("retry_count"%js, ZOptional (ZInt []));
    ("producer_id"%js, ZOptional (ZString []));
    ("failed_at"%js, ZOptional ZDatetime)].

Definition zDlqMessageRetriedEvent : schema :=
  ZObject [
    ("event_id"%js, ZString []);
    ("event_type"%js, ZDefault (ZLiteral (LStr "dlq_message_retried"%js))
      (VStr "dlq_message_retried"%js));
    ("event_version"%js, ZDefault (ZString []) (VStr "1.0"%js));
    ("timestamp"%js, ZDatetime);
    ("aggregate_id"%js, ZNullish (ZString []));
    ("metadata"%js, zEventMetadata);
    ("dlq_event_id"%js, ZOptional (ZString []));
    ("original_topic"%js, ZOptional (ZString []));
    ("original_event_type"%js, ZOptional zEventType);
    ("retry_count"%js, ZOptional (ZInt []));
    ("retry_topic"%js, ZOptional (ZString []))].

Definition zEventFilter : schema :=
  ZObject [
    ("event_types"%js, ZNullish (ZArray zEventType));
    ("aggregate_id"%js, ZNullish (ZString []));
    ("user_id"%js, ZNullish (ZString []));
    ("start_time"%js, ZNullish ZDatetime);
    ("end_time"%js, ZNullish ZDatetime);
    ("service_name"%js, ZNullish (ZString []));
    ("search_text"%js, ZNullish (ZString []))].

Definition zEventBrowseRequest : schema :=
  ZObject [
    ("filters"%js, zEventFilter);
    ("skip"%js, ZDefault (ZOptional (ZInt [])) (VInt 0));
    ("limit"%js, ZDefault (ZOptional (ZInt [Lte 500])) (VInt 50))].

Definition zEventSummary : schema :=
  ZObject [
    ("event_id"%js, ZString []);
    ("event_type"%js, zEventType);
    ("timestamp"%js, ZDatetime);
    ("aggregate_id"%js, ZNullish (ZString []))].

Definition zEventTypeCount : schema :=
  ZObject [
    ("event_type"%js, zEventType);
    ("count"%js, ZInt [])].

Definition zExampleScripts : schema :=
  ZObject [
    ("scripts"%js, ZRecord (ZString []) (ZString []))].

Definition zExecutionCancelledEvent : schema :=
  ZObject [
    ("event_id"%js, ZString []);
    ("event_type"%js, ZDefault (ZLiteral (LStr "execution_cancelled"%js))
      (VStr "execution_cancelled"%js));
    ("event_version"%js, ZDefault (ZString []) (VStr "1.0"%js));
    ("timestamp"%js, ZDatetime);
    ("aggregate_id"%js, ZNullish (ZString []));
    ("metadata"%js, zEventMetadata);
    ("execution_id"%js, ZOptional (ZString []));
    ("cancelled_by"%js, ZOptional (ZString []));
    ("force_terminated"%js, ZDefault (ZOptional ZBoolean) (VBool false))].

Definition zExecutionErrorType : schema :=
  ZEnum ["system_error"%js; "timeout"%js; "resource_limit"%js; "script_error"%js;
      "permission_denied"%js].

Definition zExecutionQueuedEvent : schema :=
  ZObject [
    ("event_id"%js, ZString []);
    ("event_type"%js, ZDefault (ZLiteral (LStr "execution_queued"%js)) (VStr "execution_queued"%js));
    ("event_version"%js, ZDefault (ZString []) (VStr "1.0"%js));
    ("timestamp"%js, ZDatetime);
    ("aggregate_id"%js, ZNullish (ZString []));
    ("metadata"%js, zEventMetadata);
    ("execution_id"%js, ZOptional (ZString []));
    ("position_in_queue"%js, ZNullish (ZInt []));
    ("estimated_start_time"%js, ZNullish ZDatetime)].

Definition zExecutionRequest : schema :=
  ZObject [
    ("script"%js, ZString [MaxLength 50000]);
    ("lang"%js, ZDefault (ZOptional (ZString [])) (VStr "python"%js));
    ("lang_version"%js, ZDefault (ZOptional (ZString [])) (VStr "3.14"%js))].

Definition zExecutionRunningEvent : schema :=
  ZObject [
    ("event_id"%js, ZString []);
    ("event_type"%js, ZDefault (ZLiteral (LStr "execution_running"%js)) (VStr "execution_running"%js));
    ("event_version"%js, ZDefault (ZString []) (VStr "1.0"%js));
    ("timestamp"%js, ZDatetime);
    ("aggregate_id"%js, ZNullish (ZString []));
    ("metadata"%js, zEventMetadata);
    ("execution_id"%js, ZOptional (ZString []));
    ("pod_name"%js, ZOptional (ZString []));
    ("progress_percentage"%js, ZNullish (ZInt []))].

Definition zExecutionStartedEvent : schema :=
  ZObject [
    ("event_id"%js, ZString []);
    ("event_type"%js, ZDefault (ZLiteral (LStr "execution_started"%js)) (VStr "execution_started"%js));
    ("event_version"%js, ZDefault (ZString []) (VStr "1.0"%js));
    ("timestamp"%js, ZDatetime);
    ("aggregate_id"%js, ZNullish (ZString []));
    ("metadata"%js, zEventMetadata);
    ("execution_id"%js, ZOptional (ZString []));
    ("pod_name"%js, ZOptional (ZString []));
    ("node_name"%js, ZNullish (ZString []));
    ("container_id"%js, ZNullish (ZString []))].

Definition zExecutionStatus : schema :=
  ZEnum ["queued"%js; "scheduled"%js; "running"%js; "completed"%js; "failed"%js; "timeout"%js;
      "cancelled"%js; "error"%js].

Definition zExecutionResponse : schema :=
  ZObject [
    ("execution_id"%js, ZString []);
    ("status"%js, zExecutionStatus)].

Definition zExportFormat : schema :=
  ZEnum ["csv"%js; "json"%js].

Definition zHourlyEventCount : schema :=
  ZObject [
    ("hour"%js, ZString []);
    ("count"%js, ZInt [])].

Definition zLanguageInfo : schema :=
  ZObject [
    ("versions"%js, ZArray (ZString []));
    ("file_ext"%js, ZString [])].

Definition zLanguageLimits : schema :=
  ZObject [
    ("cpu_limit"%js, ZString []);
    ("memory_limit"%js, ZString []);
    ("execution_timeout"%js, ZInt [])].

Definition zLivenessResponse : schema :=
  ZObject [
    ("status"%js, ZString []);
    ("uptime_seconds"%js, ZInt []);
    ("timestamp"%js, ZDatetime)].

Definition zLoginMethod : schema :=
  ZEnum ["password"%js; "oauth"%js; "sso"%js; "api_key"%js].

Definition zMessageResponse : schema :=
  ZObject [
    ("message"%js, ZString [])].

Definition zNotificationAllReadEvent : schema :=
  ZObject [
    ("event_id"%js, ZString []);
    ("event_type"%js, ZDefault (ZLiteral (LStr "notification_all_read"%js))
      (VStr "notification_all_read"%js));
    ("event_version"%js, ZDefault (ZString []) (VStr "1.0"%js));
    ("timestamp"%js, ZDatetime);
    ("aggregate_id"%js, ZNullish (ZString []));
    ("metadata"%js, zEventMetadata);
    ("user_id"%js, ZOptional (ZString []));
    ("count"%js, ZOptional (ZInt []));
    ("read_at"%js, ZOptional ZDatetime)].

Definition zNotificationClickedEvent : schema :=
  ZObject [
    ("event_id"%js, ZString []);
    ("event_type"%js, ZDefault (ZLiteral (LStr "notification_clicked"%js))
      (VStr "notification_clicked"%js));
    ("event_version"%js, ZDefault (ZString []) (VStr "1.0"%js));
    ("timestamp"%js, ZDatetime);
    ("aggregate_id"%js, ZNullish (ZString []));
    ("metadata"%js, zEventMetadata);
    ("notification_id"%js, ZOptional (ZString []));
    ("user_id"%js, ZOptional (ZString []));
    ("clicked_at"%js, ZOptional ZDatetime);
    ("action"%js, ZNullish (ZString []))].

Definition zNotificationDeliveredEvent : schema :=
  ZObject [
    ("event_id"%js, ZString []);
    ("event_type"%js, ZDefault (ZLiteral (LStr "notification_delivered"%js))
      (VStr "notification_delivered"%js));
    ("event_version"%js, ZDefault (ZString []) (VStr "1.0"%js));
    ("timestamp"%js, ZDatetime);
    ("aggregate_id"%js, ZNullish (ZString []));
    ("metadata"%js, zEventMetadata);
    ("notification_id"%js, ZOptional (ZString []));
    ("user_id"%js, ZOptional (ZString []));
    ("delivered_at"%js, ZOptional ZDatetime)].

Definition zNotificationFailedEvent : schema :=
  ZObject [
    ("event_id"%js, ZString []);
    ("event_type"%js, ZDefault (ZLiteral (LStr "notification_failed"%js))
      (VStr "notification_failed"%js));
    ("event_version"%js, ZDefault (ZString []) (VStr "1.0"%js));
    ("timestamp"%js, ZDatetime);
    ("aggregate_id"%js, ZNullish (ZString []));
    ("metadata"%js, zEventMetadata);
    ("notification_id"%js, ZOptional (ZString []));
    ("user_id"%js, ZOptional (ZString []));
    ("error"%js, ZOptional (ZString []));
    ("retry_count"%js, ZDefault (ZOptional (ZInt [])) (VInt 0))].

Definition zNotificationPreferencesUpdatedEvent : schema :=
  ZObject [
    ("event_id"%js, ZString []);
    ("event_type"%js, ZDefault (ZLiteral (LStr "notification_preferences_updated"%js))
      (VStr "notification_preferences_updated"%js));
    ("event_version"%js, ZDefault (ZString []) (VStr "1.0"%js));
    ("timestamp"%js, ZDatetime);
    ("aggregate_id"%js, ZNullish (ZString []));
    ("metadata"%js, zEventMetadata);
    ("user_id"%js, ZOptional (ZString []));
    ("changed_fields"%js, ZOptional (ZArray (ZString [])))].

Definition zNotificationReadEvent : schema :=
  ZObject [
    ("event_id"%js, ZString []);
    ("event_type"%js, ZDefault (ZLiteral (LStr "notification_read"%js)) (VStr "notification_read"%js));
    ("event_version"%js, ZDefault (ZString []) (VStr "1.0"%js));
    ("timestamp"%js, ZDatetime);
    ("aggregate_id"%js, ZNullish (ZString []));
    ("metadata"%js, zEventMetadata);
    ("notification_id"%js, ZOptional (ZString []));
    ("user_id"%js, ZOptional (ZString []));
    ("read_at"%js, ZOptional ZDatetime)].

Definition zNotificationSentEvent : schema :=
  ZObject [
    ("event_id"%js, ZString []);
    ("event_type"%js, ZDefault (ZLiteral (LStr "notification_sent"%js)) (VStr "notification_sent"%js));
    ("event_version"%js, ZDefault (ZString []) (VStr "1.0"%js));
    ("timestamp"%js, ZDatetime);
    ("aggregate_id"%js, ZNullish (ZString []));
    ("metadata"%js, zEventMetadata);
    ("notification_id"%js, ZOptional (ZString []));
    ("user_id"%js, ZOptional (ZString []));
    ("sent_at"%js, ZOptional ZDatetime)].

Definition zNotificationSettingsInput : schema :=
  ZObject [
    ("execution_completed"%js, ZDefault (ZOptional ZBoolean) (VBool true));
    ("execution_failed"%js, ZDefault (ZOptional ZBoolean) (VBool true))].

Definition zNotificationSettingsOutput : schema :=
  ZObject [
    ("execution_completed"%js, ZDefault ZBoolean (VBool true));
    ("execution_failed"%js, ZDefault ZBoolean (VBool true))].

Definition zNotificationSeverity : schema :=
  ZEnum ["low"%js; "medium"%js; "high"%js; "urgent"%js].

Definition zNotificationCreatedEvent : schema :=
  ZObject [
    ("event_id"%js, ZString []);
    ("event_type"%js, ZDefault (ZLiteral (LStr "notification_created"%js))
      (VStr "notification_created"%js));
    ("event_version"%js, ZDefault (ZString []) (VStr "1.0"%js));
    ("timestamp"%js, ZDatetime);
    ("aggregate_id"%js, ZNullish (ZString []));
    ("metadata"%js, zEventMetadata);
    ("notification_id"%js, ZOptional (ZString []));
    ("user_id"%js, ZOptional (ZString []));
    ("subject"%js, ZOptional (ZString []));
    ("body"%js, ZOptional (ZString []));
    ("severity"%js, ZOptional zNotificationSeverity);
    ("tags"%js, ZOptional (ZArray (ZString [])))].

Definition zNotificationStatus : schema :=
  ZEnum ["pending"%js; "queued"%js; "sending"%js; "delivered"%js; "failed"%js; "read"%js; "clicked"%js].

Definition zNotificationResponse : schema :=
  ZObject [
    ("notification_id"%js, ZString []);
    ("status"%js, zNotificationStatus);
    ("subject"%js, ZString []);
    ("body"%js, ZString []);
    ("action_url"%js, ZString []);
    ("created_at"%js, ZDatetime);
    ("read_at"%js, ZNullable ZDatetime);
    ("severity"%js, zNotificationSeverity);
    ("tags"%js, ZArray (ZString []))].

Definition zNotificationListResponse : schema :=
  ZObject [
    ("notifications"%js, ZArray zNotificationResponse);
    ("total"%js, ZInt []);
    ("unread_count"%js, ZInt [])].

Definition zPasswordResetRequest : schema :=
  ZObject [
    ("new_password"%js, ZString [MinLength 8])].

Definition zPodCreatedEvent : schema :=
  ZObject [
    ("event_id"%js, ZString []);
    ("event_type"%js, ZDefault (ZLiteral (LStr "pod_created"%js)) (VStr "pod_created"%js));
    ("event_version"%js, ZDefault (ZString []) (VStr "1.0"%js));
    ("timestamp"%js, ZDatetime);
    ("aggregate_id"%js, ZNullish (ZString []));
    ("metadata"%js, zEventMetadata);
    ("execution_id"%js, ZOptional (ZString []));
    ("pod_name"%js, ZOptional (ZString []));
    ("namespace"%js, ZDefault (ZOptional (ZString [])) (VStr "default"%js))].

Definition zPodDeletedEvent : schema :=
  ZObject [
    ("event_id"%js, ZString []);
    ("event_type"%js, ZDefault (ZLiteral (LStr "pod_deleted"%js)) (VStr "pod_deleted"%js));
    ("event_version"%js, ZDefault (ZString []) (VStr "1.0"%js));
    ("timestamp"%js, ZDatetime);
    ("aggregate_id"%js, ZNullish (ZString []));
    ("metadata"%js, zEventMetadata);
    ("execution_id"%js, ZOptional (ZString []));
    ("pod_name"%js, ZOptional (ZString []));
    ("reason"%js, ZNullish (ZString []))].

Definition zPodFailedEvent : schema :=
  ZObject [
    ("event_id"%js, ZString []);
    ("event_type"%js, ZDefault (ZLiteral (LStr "pod_failed"%js)) (VStr "pod_failed"%js));
    ("event_version"%js, ZDefault (ZString []) (VStr "1.0"%js));
    ("timestamp"%js, ZDatetime);
    ("aggregate_id"%js, ZNullish (ZString []));
    ("metadata"%js, zEventMetadata);
    ("execution_id"%js, ZOptional (ZString []));
    ("pod_name"%js, ZOptional (ZString []));
    ("exit_code"%js, ZDefault (ZOptional (ZInt [])) (VInt 1));
    ("reason"%js, ZNullish (ZString []));
    ("message"%js, ZNullish (ZString []));
    ("stdout"%js, ZNullish (ZString []));
    ("stderr"%js, ZNullish (ZString []))].

Definition zPodRunningEvent : schema :=
  ZObject [
    ("event_id"%js, ZString []);
    ("event_type"%js, ZDefault (ZLiteral (LStr "pod_running"%js)) (VStr "pod_running"%js));
    ("event_version"%js, ZDefault (ZString []) (VStr "1.0"%js));
    ("timestamp"%js, ZDatetime);
    ("aggregate_id"%js, ZNullish (ZString []));
    ("metadata"%js, zEventMetadata);
    ("execution_id"%js, ZOptional (ZString []));
    ("pod_name"%js, ZOptional (ZString []));
    ("container_statuses"%js, ZOptional (ZArray zContainerStatusInfo))].

Definition zPodScheduledEvent : schema :=
  ZObject [
    ("event_id"%js, ZString []);
    ("event_type"%js, ZDefault (ZLiteral (LStr "pod_scheduled"%js)) (VStr "pod_scheduled"%js));
    ("event_version"%js, ZDefault (ZString []) (VStr "1.0"%js));
    ("timestamp"%js, ZDatetime);
    ("aggregate_id"%js, ZNullish (ZString []));
    ("metadata"%js, zEventMetadata);
    ("execution_id"%js, ZOptional (ZString []));
    ("pod_name"%js, ZOptional (ZString []));
    ("node_name"%js, ZDefault (ZOptional (ZString [])) (VStr ""%js))].

Definition zPodSucceededEvent : schema :=
  ZObject [
    ("event_id"%js, ZString []);
    ("event_type"%js, ZDefault (ZLiteral (LStr "pod_succeeded"%js)) (VStr "pod_succeeded"%js));
    ("event_version"%js, ZDefault (ZString []) (VStr "1.0"%js));
    ("timestamp"%js, ZDatetime);
    ("aggregate_id"%js, ZNullish (ZString []));
    ("metadata"%js, zEventMetadata);
    ("execution_id"%js, ZOptional (ZString []));
    ("pod_name"%js, ZOptional (ZString []));
    ("exit_code"%js, ZDefault (ZOptional (ZInt [])) (VInt 0));
    ("stdout"%js, ZNullish (ZString []));
    ("stderr"%js, ZNullish (ZString []))].

Definition zPodTerminatedEvent : schema :=
  ZObject [
    ("event_id"%js, ZString []);
    ("event_type"%js, ZDefault (ZLiteral (LStr "pod_terminated"%js)) (VStr "pod_terminated"%js));
    ("event_version"%js, ZDefault (ZString []) (VStr "1.0"%js));
    ("timestamp"%js, ZDatetime);
    ("aggregate_id"%js, ZNullish (ZString []));
    ("metadata"%js, zEventMetadata);
    ("execution_id"%js, ZOptional (ZString []));
    ("pod_name"%js, ZOptional (ZString []));
    ("exit_code"%js, ZDefault (ZOptional (ZInt [])) (VInt 0));
    ("reason"%js, ZNullish (ZString []));
    ("message"%js, ZNullish (ZString []))].

Definition zQueuePriority : schema :=
  ZEnum ["critical"%js; "high"%js; "normal"%js; "low"%js; "background"%js].

Definition zAdminExecutionResponse : schema :=
  ZObject [
    ("execution_id"%js, ZString []);
    ("script"%js, ZString []);
    ("status"%js, zExecutionStatus);
    ("lang"%js, ZString []);
    ("lang_version"%js, ZString []);
    ("stdout"%js, ZNullable (ZString []));
    ("stderr"%js, ZNullable (ZString []));
    ("exit_code"%js, ZNullable (ZInt []));
    ("error_type"%js, ZNullable zExecutionErrorType);
    ("priority"%js, ZDefault zQueuePriority (VStr "normal"%js));
    ("user_id"%js, ZNullable (ZString []));
    ("created_at"%js, ZDatetime);
    ("updated_at"%js, ZDatetime)].

Definition zAdminExecutionListResponse : schema :=
  ZObject [
    ("executions"%js, ZArray zAdminExecutionResponse);
    ("total"%js, ZInt []);
    ("limit"%js, ZInt []);
    ("skip"%js, ZInt []);
    ("has_more"%js, ZBoolean)].

Definition zExecutionAcceptedEvent : schema :=
  ZObject [
    ("event_id"%js, ZString []);
    ("event_type"%js, ZDefault (ZLiteral (LStr "execution_accepted"%js)) (VStr "execution_accepted"%js));
    ("event_version"%js, ZDefault (ZString []) (VStr "1.0"%js));
    ("timestamp"%js, ZDatetime);
    ("aggregate_id"%js, ZNullish (ZString []));
    ("metadata"%js, zEventMetadata);
    ("execution_id"%js, ZOptional (ZString []));
    ("queue_position"%js, ZOptional (ZInt []));
    ("estimated_wait_seconds"%js, ZNullish (ZNumber []));
    ("priority"%js, ZDefault (ZOptional zQueuePriority) (VStr "normal"%js))].

Definition zExecutionRequestedEvent : schema :=
  ZObject [
    ("event_id"%js, ZString []);
    ("event_type"%js, ZDefault (ZLiteral (LStr "execution_requested"%js))
      (VStr "execution_requested"%js));
    ("event_version"%js, ZDefault (ZString []) (VStr "1.0"%js));
    ("timestamp"%js, ZDatetime);
    ("aggregate_id"%js, ZNullish (ZString []));
    ("metadata"%js, zEventMetadata);
    ("execution_id"%js, ZOptional (ZString []));
    ("script"%js, ZOptional (ZString []));
    ("language"%js, ZOptional (ZString []));
    ("language_version"%js, ZOptional (ZString []));
    ("runtime_image"%js, ZOptional (ZString []));
    ("runtime_command"%js, ZOptional (ZArray (ZString [])));
    ("runtime_filename"%js, ZOptional (ZString []));
    ("timeout_seconds"%js, ZOptional (ZInt []));
    ("cpu_limit"%js, ZOptional (ZString []));
    ("memory_limit"%js, ZOptional (ZString []));
    ("cpu_request"%js, ZOptional (ZString []));
    ("memory_request"%js, ZOptional (ZString []));
    ("priority"%js, ZDefault (ZOptional zQueuePriority) (VStr "normal"%js))].

Definition zPriorityUpdateRequest : schema :=
  ZObject [
    ("priority"%js, zQueuePriority)].

Definition zQueueStatusResponse : schema :=
  ZObject [
    ("queue_depth"%js, ZInt []);
    ("active_count"%js, ZInt []);
    ("max_concurrent"%js, ZInt []);
    ("by_priority"%js, ZRecord (ZString []) (ZInt []))].

Definition zQuotaExceededEvent : schema :=
  ZObject [
    ("event_id"%js, ZString []);
    ("event_type"%js, ZDefault (ZLiteral (LStr "quota_exceeded"%js)) (VStr "quota_exceeded"%js));
    ("event_version"%js, ZDefault (ZString []) (VStr "1.0"%js));
    ("timestamp"%js, ZDatetime);
    ("aggregate_id"%js, ZNullish (ZString []));
    ("metadata"%js, zEventMetadata);
    ("quota_type"%js, ZOptional (ZString []));
    ("limit"%js, ZOptional (ZInt []));
    ("current_usage"%js, ZOptional (ZInt []));
    ("user_id"%js, ZOptional (ZString []))].

Definition zRateLimitAlgorithm : schema :=
  ZEnum ["sliding_window"%js; "token_bucket"%js; "fixed_window"%js; "leaky_bucket"%js].

Definition zEndpointUsageStats : schema :=
  ZObject [
    ("algorithm"%js, zRateLimitAlgorithm);
    ("remaining"%js, ZInt [])].

Definition zRateLimitExceededEvent : schema :=
  ZObject [
    ("event_id"%js, ZString []);
    ("event_type"%js, ZDefault (ZLiteral (LStr "rate_limit_exceeded"%js))
      (VStr "rate_limit_exceeded"%js));
    ("event_version"%js, ZDefault (ZString []) (VStr "1.0"%js));
    ("timestamp"%js, ZDatetime);
    ("aggregate_id"%js, ZNullish (ZString []));
    ("metadata"%js, zEventMetadata);
    ("user_id"%js, ZNullish (ZString []));
    ("endpoint"%js, ZOptional (ZString []));
    ("limit"%js, ZOptional (ZInt []));
    ("window_seconds"%js, ZOptional (ZInt []))].

Definition zRateLimitRuleRequest : schema :=
  ZObject [
    ("endpoint_pattern"%js, ZDefault (ZOptional (ZString [MinLength 1])) (VStr ""%js));
    ("group"%js, ZDefault (ZOptional zEndpointGroup) (VStr "api"%js));
    ("requests"%js, ZDefault (ZOptional (ZInt [Gte 1])) (VInt 60));
    ("window_seconds"%js, ZDefault (ZOptional (ZInt [Gte 1])) (VInt 60));
    ("algorithm"%js, ZDefault (ZOptional zRateLimitAlgorithm) (VStr "sliding_window"%js));
    ("burst_multiplier"%js, ZDefault (ZOptional (ZNumber [Gte 1])) (VNum (Dec (15) (-1))));
    ("priority"%js, ZDefault (ZOptional (ZInt [])) (VInt 0));
    ("enabled"%js, ZDefault (ZOptional ZBoolean) (VBool true))].

Definition zRateLimitRuleResponse : schema :=
  ZObject [
    ("endpoint_pattern"%js, ZString []);
    ("group"%js, zEndpointGroup);
    ("requests"%js, ZInt []);
    ("window_seconds"%js, ZInt []);
    ("algorithm"%js, zRateLimitAlgorithm);
    ("burst_multiplier"%js, ZDefault (ZNumber []) (VNum (Dec (15) (-1))));
    ("priority"%js, ZDefault (ZInt []) (VInt 0));
    ("enabled"%js, ZDefault ZBoolean (VBool true))].

Definition zRateLimitSummary : schema :=
  ZObject [
    ("bypass_rate_limit"%js, ZBoolean);
    ("global_multiplier"%js, ZNumber []);
    ("has_custom_limits"%js, ZBoolean)].

Definition zRateLimitUpdateRequest : schema :=
  ZObject [
    ("bypass_rate_limit"%js, ZDefault (ZOptional ZBoolean) (VBool false));
    ("global_multiplier"%js, ZDefault (ZOptional (ZNumber [Gt 0])) (VInt 1));
    ("rules"%js, ZDefault (ZOptional (ZArray zRateLimitRuleRequest)) (VArr []));
    ("notes"%js, ZDefault (ZOptional (ZString [])) (VStr ""%js))].

Definition zReplayError : schema :=
  ZObject [
    ("timestamp"%js, ZDatetime);
    ("error"%js, ZString []);
    ("error_type"%js, ZNullable (ZString []));
    ("event_id"%js, ZNullable (ZString []))].

Definition zReplayStatus : schema :=
  ZEnum ["preview"%js; "scheduled"%js; "running"%js; "completed"%js; "failed"%js].

Definition zEventReplayResponse : schema :=
  ZObject [
    ("dry_run"%js, ZBoolean);
    ("total_events"%js, ZInt []);
    ("replay_id"%js, ZString []);
    ("session_id"%js, ZNullable (ZString []));
    ("status"%js, zReplayStatus);
    ("events_preview"%js, ZNullable (ZArray zEventSummary))].

Definition zResourceLimitExceededEvent : schema :=
  ZObject [
    ("event_id"%js, ZString []);
    ("event_type"%js, ZDefault (ZLiteral (LStr "resource_limit_exceeded"%js))
      (VStr "resource_limit_exceeded"%js));
    ("event_version"%js, ZDefault (ZString []) (VStr "1.0"%js));
    ("timestamp"%js, ZDatetime);
    ("aggregate_id"%js, ZNullish (ZString []));
    ("metadata"%js, zEventMetadata);
    ("resource_type"%js, ZOptional (ZString []));
    ("limit"%js, ZOptional (ZInt []));
    ("requested"%js, ZOptional (ZInt []));
    ("user_id"%js, ZNullish (ZString []))].

Definition zResourceLimits : schema :=
  ZObject [
    ("cpu_limit"%js, ZString []);
    ("memory_limit"%js, ZString []);
    ("cpu_request"%js, ZString []);
    ("memory_request"%js, ZString []);
    ("execution_timeout"%js, ZInt []);
    ("supported_runtimes"%js, ZRecord (ZString []) zLanguageInfo);
    ("language_limits"%js, ZRecord (ZString []) zLanguageLimits)].

Definition zResourceUsage : schema :=
  ZObject [
    ("execution_time_wall_seconds"%js, ZDefault (ZNumber []) (VInt 0));
    ("cpu_time_jiffies"%js, ZDefault (ZInt []) (VInt 0));
    ("clk_tck_hertz"%js, ZDefault (ZInt []) (VInt 0));
    ("peak_memory_kb"%js, ZDefault (ZInt []) (VInt 0))].

Definition zExecutionResult : schema :=
  ZObject [
    ("execution_id"%js, ZString []);
    ("status"%js, zExecutionStatus);
    ("stdout"%js, ZNullable (ZString []));
    ("stderr"%js, ZNullable (ZString []));
    ("lang"%js, ZString []);
    ("lang_version"%js, ZString []);
    ("resource_usage"%js, ZNullable zResourceUsage);
    ("exit_code"%js, ZNullable (ZInt []));
    ("error_type"%js, ZNullable zExecutionErrorType);
    ("priority"%js, ZDefault zQueuePriority (VStr "normal"%js))].

Definition zEventReplayStatusResponse : schema :=
  ZObject [
    ("session_id"%js, ZString []);
    ("status"%js, zReplayStatus);
    ("total_events"%js, ZInt []);
    ("replayed_events"%js, ZInt []);
    ("failed_events"%js, ZInt []);
    ("skipped_events"%js, ZInt []);
    ("replay_id"%js, ZString []);
    ("created_at"%js, ZDatetime);
    ("started_at"%js, ZNullable ZDatetime);
    ("completed_at"%js, ZNullable ZDatetime);
    ("errors"%js, ZNullable (ZArray zReplayError));
    ("estimated_completion"%js, ZNullable ZDatetime);
    ("execution_results"%js, ZNullable (ZArray zExecutionResult));
    ("progress_percentage"%js, ZReadonly (ZNumber []))].

Definition zExecutionListResponse : schema :=
  ZObject [
    ("executions"%js, ZArray zExecutionResult);
    ("total"%js, ZInt []);
    ("limit"%js, ZInt []);
    ("skip"%js, ZInt []);
    ("has_more"%js, ZBoolean)].

Definition zResourceUsageDomain : schema :=
  ZObject [
    ("execution_time_wall_seconds"%js, ZDefault (ZOptional (ZNumber [])) (VInt 0));
    ("cpu_time_jiffies"%js, ZDefault (ZOptional (ZInt [])) (VInt 0));
    ("clk_tck_hertz"%js, ZDefault (ZOptional (ZInt [])) (VInt 0));
    ("peak_memory_kb"%js, ZDefault (ZOptional (ZInt [])) (VInt 0))].

Definition zExecutionCompletedEvent : schema :=
  ZObject [
    ("event_id"%js, ZString []);
    ("event_type"%js, ZDefault (ZLiteral (LStr "execution_completed"%js))
      (VStr "execution_completed"%js));
    ("event_version"%js, ZDefault (ZString []) (VStr "1.0"%js));
    ("timestamp"%js, ZDatetime);
    ("aggregate_id"%js, ZNullish (ZString []));
    ("metadata"%js, zEventMetadata);
    ("execution_id"%js, ZOptional (ZString []));
    ("exit_code"%js, ZOptional (ZInt []));
    ("resource_usage"%js, ZOptional zResourceUsageDomain);
    ("stdout"%js, ZDefault (ZOptional (ZString [])) (VStr ""%js));
    ("stderr"%js, ZDefault (ZOptional (ZString [])) (VStr ""%js))].

Definition zExecutionFailedEvent : schema :=
  ZObject [
    ("event_id"%js, ZString []);
    ("event_type"%js, ZDefault (ZLiteral (LStr "execution_failed"%js)) (VStr "execution_failed"%js));
    ("event_version"%js, ZDefault (ZString []) (VStr "1.0"%js));
    ("timestamp"%js, ZDatetime);
    ("aggregate_id"%js, ZNullish (ZString []));
    ("metadata"%js, zEventMetadata);
    ("execution_id"%js, ZOptional (ZString []));
    ("exit_code"%js, ZDefault (ZOptional (ZInt [])) (VInt 1));
    ("error_type"%js, ZOptional zExecutionErrorType);
    ("resource_usage"%js, ZNullish zResourceUsageDomain);
    ("stdout"%js, ZDefault (ZOptional (ZString [])) (VStr ""%js));
    ("stderr"%js, ZDefault (ZOptional (ZString [])) (VStr ""%js))].

Definition zExecutionTimeoutEvent : schema :=
  ZObject [
    ("event_id"%js, ZString []);
    ("event_type"%js, ZDefault (ZLiteral (LStr "execution_timeout"%js)) (VStr "execution_timeout"%js));
    ("event_version"%js, ZDefault (ZString []) (VStr "1.0"%js));
    ("timestamp"%js, ZDatetime);
    ("aggregate_id"%js, ZNullish (ZString []));
    ("metadata"%js, zEventMetadata);
    ("execution_id"%js, ZOptional (ZString []));
    ("timeout_seconds"%js, ZOptional (ZInt []));
    ("resource_usage"%js, ZOptional zResourceUsageDomain);
    ("stdout"%js, ZDefault (ZOptional (ZString [])) (VStr ""%js));
    ("stderr"%js, ZDefault (ZOptional (ZString [])) (VStr ""%js))].

Definition zRestoreSettingsRequest : schema :=
  ZObject [
    ("timestamp"%js, ZDatetime);
    ("reason"%js, ZNullish (ZString []))].

Definition zSseControlEvent : schema :=
  ZEnum ["status"%js].

Definition zSseExecutionEventSchema : schema :=
  ZObject [
    ("event_type"%js, ZUnion [zEventType; zSseControlEvent]);
    ("execution_id"%js, ZString []);
    ("timestamp"%js, ZNullable ZDatetime);
    ("event_id"%js, ZNullable (ZString []));
    ("status"%js, ZNullable zExecutionStatus);
    ("result"%js, ZNullable zExecutionResult)].

Definition zSavedScriptCreateRequest : schema :=
  ZObject [
    ("name"%js, ZString []);
    ("script"%js, ZString []);
    ("lang"%js, ZDefault (ZOptional (ZString [])) (VStr "python"%js));
    ("lang_version"%js, ZDefault (ZOptional (ZString [])) (VStr "3.14"%js));
    ("description"%js, ZNullish (ZString []))].

Definition zSavedScriptResponse : schema :=
  ZObject [
    ("script_id"%js, ZString []);
    ("name"%js, ZString []);
    ("script"%js, ZString []);
    ("lang"%js, ZString []);
    ("lang_version"%js, ZString []);
    ("description"%js, ZNullable (ZString []));
    ("created_at"%js, ZDatetime);
    ("updated_at"%js, ZDatetime)].

Definition zSavedScriptListResponse : schema :=
  ZObject [
    ("scripts"%js, ZArray zSavedScriptResponse)].

Definition zSavedScriptUpdate : schema :=
  ZObject [
    ("name"%js, ZNullish (ZString []));
    ("script"%js, ZNullish (ZString []));
    ("lang"%js, ZNullish (ZString []));
    ("lang_version"%js, ZNullish (ZString []));
    ("description"%js, ZNullish (ZString []));
    ("updated_at"%js, ZOptional ZDatetime)].

Definition zScriptDeletedEvent : schema :=
  ZObject [
    ("event_id"%js, ZString []);
    ("event_type"%js, ZDefault (ZLiteral (LStr "script_deleted"%js)) (VStr "script_deleted"%js));
    ("event_version"%js, ZDefault (ZString []) (VStr "1.0"%js));
    ("timestamp"%js, ZDatetime);
    ("aggregate_id"%js, ZNullish (ZString []));
    ("metadata"%js, zEventMetadata);
    ("script_id"%js, ZOptional (ZString []));
    ("user_id"%js, ZOptional (ZString []));
    ("deleted_by"%js, ZNullish (ZString []))].

Definition zScriptSavedEvent : schema :=
  ZObject [
    ("event_id"%js, ZString []);
    ("event_type"%js, ZDefault (ZLiteral (LStr "script_saved"%js)) (VStr "script_saved"%js));
    ("event_version"%js, ZDefault (ZString []) (VStr "1.0"%js));
    ("timestamp"%js, ZDatetime);
    ("aggregate_id"%js, ZNullish (ZString []));
    ("metadata"%js, zEventMetadata);
    ("script_id"%js, ZOptional (ZString []));
    ("user_id"%js, ZOptional (ZString []));
    ("title"%js, ZOptional (ZString []));
    ("language"%js, ZOptional (ZString []))].

Definition zScriptSharedEvent : schema :=
  ZObject [
    ("event_id"%js, ZString []);
    ("event_type"%js, ZDefault (ZLiteral (LStr "script_shared"%js)) (VStr "script_shared"%js));
    ("event_version"%js, ZDefault (ZString []) (VStr "1.0"%js));
    ("timestamp"%js, ZDatetime);
    ("aggregate_id"%js, ZNullish (ZString []));
    ("metadata"%js, zEventMetadata);
    ("script_id"%js, ZOptional (ZString []));
    ("shared_by"%js, ZOptional (ZString []));
    ("shared_with"%js, ZOptional (ZArray (ZString [])));
    ("permissions"%js, ZOptional (ZString []))].

Definition zSecurityViolationEvent : schema :=
  ZObject [
    ("event_id"%js, ZString []);
    ("event_type"%js, ZDefault (ZLiteral (LStr "security_violation"%js)) (VStr "security_violation"%js));
    ("event_version"%js, ZDefault (ZString []) (VStr "1.0"%js));
    ("timestamp"%js, ZDatetime);
    ("aggregate_id"%js, ZNullish (ZString []));
    ("metadata"%js, zEventMetadata);
    ("user_id"%js, ZNullish (ZString []));
    ("violation_type"%js, ZOptional (ZString []));
    ("details"%js, ZOptional (ZString []));
    ("ip_address"%js, ZNullish (ZString []))].

Definition zServiceEventCount : schema :=
  ZObject [
    ("service_name"%js, ZString []);
    ("count"%js, ZInt [])].

Definition zServiceRecoveredEvent : schema :=
  ZObject [
    ("event_id"%js, ZString []);
    ("event_type"%js, ZDefault (ZLiteral (LStr "service_recovered"%js)) (VStr "service_recovered"%js));
    ("event_version"%js, ZDefault (ZString []) (VStr "1.0"%js));
    ("timestamp"%js, ZDatetime);
    ("aggregate_id"%js, ZNullish (ZString []));
    ("metadata"%js, zEventMetadata);
    ("service_name"%js, ZOptional (ZString []));
    ("health_check"%js, ZOptional (ZString []));
    ("downtime_seconds"%js, ZOptional (ZInt []))].

Definition zServiceUnhealthyEvent : schema :=
  ZObject [
    ("event_id"%js, ZString []);
    ("event_type"%js, ZDefault (ZLiteral (LStr "service_unhealthy"%js)) (VStr "service_unhealthy"%js));
    ("event_version"%js, ZDefault (ZString []) (VStr "1.0"%js));
    ("timestamp"%js, ZDatetime);
    ("aggregate_id"%js, ZNullish (ZString []));
    ("metadata"%js, zEventMetadata);
    ("service_name"%js, ZOptional (ZString []));
    ("health_check"%js, ZOptional (ZString []));
    ("reason"%js, ZOptional (ZString []))].

Definition zSettingsHistoryEntry : schema :=
  ZObject [
    ("timestamp"%js, ZDatetime);
    ("event_type"%js, zEventType);
    ("field"%js, ZString []);
    ("old_value"%js, ZUnknown);
    ("new_value"%js, ZUnknown);
    ("reason"%js, ZNullable (ZString []))].

Definition zSettingsHistoryResponse : schema :=
  ZObject [
    ("history"%js, ZArray zSettingsHistoryEntry);
    ("limit"%js, ZInt [])].

Definition zStorageType : schema :=
  ZEnum ["database"%js; "s3"%js; "filesystem"%js; "redis"%js].

Definition zResultFailedEvent : schema :=
  ZObject [
    ("event_id"%js, ZString []);
    ("event_type"%js, ZDefault (ZLiteral (LStr "result_failed"%js)) (VStr "result_failed"%js));
    ("event_version"%js, ZDefault (ZString []) (VStr "1.0"%js));
    ("timestamp"%js, ZDatetime);
    ("aggregate_id"%js, ZNullish (ZString []));
    ("metadata"%js, zEventMetadata);
    ("execution_id"%js, ZOptional (ZString []));
    ("storage_type"%js, ZNullish zStorageType)].

Definition zResultStoredEvent : schema :=
  ZObject [
    ("event_id"%js, ZString []);
    ("event_type"%js, ZDefault (ZLiteral (LStr "result_stored"%js)) (VStr "result_stored"%js));
    ("event_version"%js, ZDefault (ZString []) (VStr "1.0"%js));
    ("timestamp"%js, ZDatetime);
    ("aggregate_id"%js, ZNullish (ZString []));
    ("metadata"%js, zEventMetadata);
    ("execution_id"%js, ZOptional (ZString []));
    ("storage_type"%js, ZNullish zStorageType);
    ("storage_path"%js, ZDefault (ZOptional (ZString [])) (VStr ""%js));
    ("size_bytes"%js, ZDefault (ZOptional (ZInt [])) (VInt 0))].

Definition zSystemErrorEvent : schema :=
  ZObject [
    ("event_id"%js, ZString []);
    ("event_type"%js, ZDefault (ZLiteral (LStr "system_error"%js)) (VStr "system_error"%js));
    ("event_version"%js, ZDefault (ZString []) (VStr "1.0"%js));
    ("timestamp"%js, ZDatetime);
    ("aggregate_id"%js, ZNullish (ZString []));
    ("metadata"%js, zEventMetadata);
    ("error_type"%js, ZOptional (ZString []));
    ("message"%js, ZOptional (ZString []));
    ("service_name"%js, ZOptional (ZString []));
    ("stack_trace"%js, ZNullish (ZString []))].

Definition zSystemSettingsSchemaInput : schema :=
  ZObject [
    ("max_timeout_seconds"%js, ZDefault (ZOptional (ZInt [Gte 1; Lte 3600])) (VInt 300));
    ("memory_limit"%js, ZDefault (ZOptional (ZString [])) (VStr "512Mi"%js));
    ("cpu_limit"%js, ZDefault (ZOptional (ZString [])) (VStr "2000m"%js));
    ("max_concurrent_executions"%js, ZDefault (ZOptional (ZInt [Gte 1; Lte 100])) (VInt 10));
    ("max_executions_per_user"%js, ZDefault (ZOptional (ZInt [Gte 1; Lte 1000])) (VInt 100));
    ("password_min_length"%js, ZDefault (ZOptional (ZInt [Gte 8; Lte 32])) (VInt 8));
    ("session_timeout_minutes"%js, ZDefault (ZOptional (ZInt [Gte 5; Lte 1440])) (VInt 60));
    ("max_login_attempts"%js, ZDefault (ZOptional (ZInt [Gte 3; Lte 10])) (VInt 5));
    ("lockout_duration_minutes"%js, ZDefault (ZOptional (ZInt [Gte 5; Lte 60])) (VInt 15))].

Definition zSystemSettingsSchemaOutput : schema :=
  ZObject [
    ("max_timeout_seconds"%js, ZDefault (ZInt [Gte 1; Lte 3600]) (VInt 300));
    ("memory_limit"%js, ZDefault (ZString []) (VStr "512Mi"%js));
    ("cpu_limit"%js, ZDefault (ZString []) (VStr "2000m"%js));
    ("max_concurrent_executions"%js, ZDefault (ZInt [Gte 1; Lte 100]) (VInt 10));
    ("max_executions_per_user"%js, ZDefault (ZInt [Gte 1; Lte 1000]) (VInt 100));
    ("password_min_length"%js, ZDefault (ZInt [Gte 8; Lte 32]) (VInt 8));
    ("session_timeout_minutes"%js, ZDefault (ZInt [Gte 5; Lte 1440]) (VInt 60));
    ("max_login_attempts"%js, ZDefault (ZInt [Gte 3; Lte 10]) (VInt 5));
    ("lockout_duration_minutes"%js, ZDefault (ZInt [Gte 5; Lte 60]) (VInt 15))].

Definition zTheme : schema :=
  ZEnum ["light"%js; "dark"%js; "system"%js].

Definition zThemeUpdateRequest : schema :=
  ZObject [
    ("theme"%js, zTheme)].

Definition zUnlockResponse : schema :=
  ZObject [
    ("user_id"%js, ZString []);
    ("message"%js, ZString [])].

Definition zUnreadCountResponse : schema :=
  ZObject [
    ("unread_count"%js, ZInt [])].

Definition zUserDeletedEvent : schema :=
  ZObject [
    ("event_id"%js, ZString []);
    ("event_type"%js, ZDefault (ZLiteral (LStr "user_deleted"%js)) (VStr "user_deleted"%js));
    ("event_version"%js, ZDefault (ZString []) (VStr "1.0"%js));
    ("timestamp"%js, ZDatetime);
    ("aggregate_id"%js, ZNullish (ZString []));
    ("metadata"%js, zEventMetadata);
    ("user_id"%js, ZOptional (ZString []));
    ("deleted_by"%js, ZNullish (ZString []));
    ("reason"%js, ZNullish (ZString []))].

Definition zUserEventCount : schema :=
  ZObject [
    ("user_id"%js, ZString []);
    ("event_count"%js, ZInt [])].

Definition zEventStatistics : schema :=
  ZObject [
    ("total_events"%js, ZInt []);
    ("events_by_type"%js, ZArray zEventTypeCount);
    ("events_by_service"%js, ZArray zServiceEventCount);
    ("events_by_hour"%js, ZArray zHourlyEventCount);
    ("top_users"%js, ZArray zUserEventCount);
    ("error_rate"%js, ZDefault (ZNumber []) (VInt 0));
    ("avg_processing_time"%js, ZDefault (ZNumber []) (VInt 0));
    ("start_time"%js, ZNullable ZDatetime);
    ("end_time"%js, ZNullable ZDatetime)].

Definition zEventStatsResponse : schema :=
  ZObject [
    ("total_events"%js, ZInt []);
    ("events_by_type"%js, ZArray zEventTypeCount);
    ("events_by_hour"%js, ZArray zHourlyEventCount);
    ("top_users"%js, ZArray zUserEventCount);
    ("error_rate"%js, ZNumber []);
    ("avg_processing_time"%js, ZNumber [])].

Definition zUserLoggedInEvent : schema :=
  ZObject [
    ("event_id"%js, ZString []);
    ("event_type"%js, ZDefault (ZLiteral (LStr "user_logged_in"%js)) (VStr "user_logged_in"%js));
    ("event_version"%js, ZDefault (ZString []) (VStr "1.0"%js));
    ("timestamp"%js, ZDatetime);
    ("aggregate_id"%js, ZNullish (ZString []));
    ("metadata"%js, zEventMetadata);
    ("user_id"%js, ZOptional (ZString []));
    ("login_method"%js, ZOptional zLoginMethod);
    ("ip_address"%js, ZNullish (ZString []));
    ("user_agent"%js, ZNullish (ZString []))].

Definition zUserLoggedOutEvent : schema :=
  ZObject [
    ("event_id"%js, ZString []);
    ("event_type"%js, ZDefault (ZLiteral (LStr "user_logged_out"%js)) (VStr "user_logged_out"%js));
    ("event_version"%js, ZDefault (ZString []) (VStr "1.0"%js));
    ("timestamp"%js, ZDatetime);
    ("aggregate_id"%js, ZNullish (ZString []));
    ("metadata"%js, zEventMetadata);
    ("user_id"%js, ZOptional (ZString []));
    ("logout_reason"%js, ZNullish (ZString []))].

Definition zUserLoginEvent : schema :=
  ZObject [
    ("event_id"%js, ZString []);
    ("event_type"%js, ZDefault (ZLiteral (LStr "user_login"%js)) (VStr "user_login"%js));
    ("event_version"%js, ZDefault (ZString []) (VStr "1.0"%js));
    ("timestamp"%js, ZDatetime);
    ("aggregate_id"%js, ZNullish (ZString []));
    ("metadata"%js, zEventMetadata);
    ("user_id"%js, ZOptional (ZString []));
    ("login_method"%js, ZOptional zLoginMethod);
    ("ip_address"%js, ZNullish (ZString []));
    ("user_agent"%js, ZNullish (ZString []))].

Definition zUserRateLimitConfigResponse : schema :=
  ZObject [
    ("user_id"%js, ZString []);
    ("bypass_rate_limit"%js, ZBoolean);
    ("global_multiplier"%js, ZNumber []);
    ("rules"%js, ZArray zRateLimitRuleResponse);
    ("created_at"%js, ZDatetime);
    ("updated_at"%js, ZDatetime);
    ("notes"%js, ZString [])].

Definition zRateLimitUpdateResponse : schema :=
  ZObject [
    ("user_id"%js, ZString []);
    ("updated"%js, ZBoolean);
    ("config"%js, zUserRateLimitConfigResponse)].

Definition zUserRateLimitsResponse : schema :=
  ZObject [
    ("user_id"%js, ZString []);
    ("rate_limit_config"%js, zUserRateLimitConfigResponse);
    ("current_usage"%js, ZRecord (ZString []) zEndpointUsageStats)].

Definition zUserRegisteredEvent : schema :=
  ZObject [
    ("event_id"%js, ZString []);
    ("event_type"%js, ZDefault (ZLiteral (LStr "user_registered"%js)) (VStr "user_registered"%js));
    ("event_version"%js, ZDefault (ZString []) (VStr "1.0"%js));
    ("timestamp"%js, ZDatetime);
    ("aggregate_id"%js, ZNullish (ZString []));
    ("metadata"%js, zEventMetadata);
    ("user_id"%js, ZOptional (ZString []));
    ("username"%js, ZOptional (ZString []));
    ("email"%js, ZOptional (ZString []))].

Definition zUserRole : schema :=
  ZEnum ["user"%js; "admin"%js; "moderator"%js].

Definition zLoginResponse : schema :=
  ZObject [
    ("message"%js, ZString []);
    ("username"%js, ZString []);
    ("role"%js, zUserRole);
    ("csrf_token"%js, ZString [])].

Definition zUserCreate : schema :=
  ZObject [
    ("username"%js, ZString []);
    ("email"%js, ZEmail);
    ("role"%js, ZDefault (ZOptional zUserRole) (VStr "user"%js));
    ("is_active"%js, ZDefault (ZOptional ZBoolean) (VBool true))].

Definition zUserResponse : schema :=
  ZObject [
    ("username"%js, ZString []);
    ("email"%js, ZEmail);
    ("role"%js, zUserRole);
    ("is_active"%js, ZBoolean);
    ("user_id"%js, ZString []);
    ("is_superuser"%js, ZBoolean);
    ("created_at"%js, ZDatetime);
    ("updated_at"%js, ZDatetime)].

Definition zUserListResponse : schema :=
  ZObject [
    ("users"%js, ZArray zUserResponse);
    ("total"%js, ZInt []);
    ("offset"%js, ZInt []);
    ("limit"%js, ZInt [])].

Definition zUserSettings : schema :=
  ZObject [
    ("user_id"%js, ZString []);
    ("theme"%js, ZDefault zTheme (VStr "system"%js));
    ("timezone"%js, ZDefault (ZString []) (VStr "UTC"%js));
    ("date_format"%js, ZDefault (ZString []) (VStr "YYYY-MM-DD"%js));
    ("time_format"%js, ZDefault (ZString []) (VStr "24h"%js));
    ("notifications"%js, zNotificationSettingsOutput);
    ("editor"%js, zEditorSettingsOutput);
    ("custom_settings"%js, ZRecord (ZString []) ZUnknown);
    ("version"%js, ZDefault (ZInt []) (VInt 1));
    ("created_at"%js, ZDatetime);
    ("updated_at"%js, ZDatetime)].

Definition zUserSettingsUpdate : schema :=
  ZObject [
    ("theme"%js, ZNullish zTheme);
    ("timezone"%js, ZNullish (ZString []));
    ("date_format"%js, ZNullish (ZString []));
    ("time_format"%js, ZNullish (ZString []));
    ("notifications"%js, ZNullish zNotificationSettingsInput);
    ("editor"%js, ZNullish zEditorSettingsInput);
    ("custom_settings"%js, ZNullish (ZRecord (ZString []) ZUnknown))].

Definition zUserSettingsUpdatedEvent : schema :=
  ZObject [
    ("event_id"%js, ZString []);
    ("event_type"%js, ZDefault (ZLiteral (LStr "user_settings_updated"%js))
      (VStr "user_settings_updated"%js));
    ("event_version"%js, ZDefault (ZString []) (VStr "1.0"%js));
    ("timestamp"%js, ZDatetime);
    ("aggregate_id"%js, ZNullish (ZString []));
    ("metadata"%js, zEventMetadata);
    ("user_id"%js, ZOptional (ZString []));
    ("changed_fields"%js, ZOptional (ZArray (ZString [])));
    ("reason"%js, ZNullish (ZString []))].

Definition zUserUpdate : schema :=
  ZObject [
    ("username"%js, ZNullish (ZString []));
    ("email"%js, ZNullish ZEmail);
    ("role"%js, ZNullish zUserRole);
    ("is_active"%js, ZNullish ZBoolean);
    ("password"%js, ZOptional ZNull)].

Definition zUserUpdatedEvent : schema :=
  ZObject [
    ("event_id"%js, ZString []);
    ("event_type"%js, ZDefault (ZLiteral (LStr "user_updated"%js)) (VStr "user_updated"%js));
    ("event_version"%js, ZDefault (ZString []) (VStr "1.0"%js));
    ("timestamp"%js, ZDatetime);
    ("aggregate_id"%js, ZNullish (ZString []));
    ("metadata"%js, zEventMetadata);
    ("user_id"%js, ZOptional (ZString []));
    ("updated_fields"%js, ZOptional (ZArray (ZString [])));
    ("updated_by"%js, ZNullish (ZString []))].

Definition zAdminUserOverview : schema :=
  ZObject [
    ("user"%js, zUserResponse);
    ("stats"%js, zEventStatistics);
    ("derived_counts"%js, zDerivedCounts);
    ("rate_limit_summary"%js, zRateLimitSummary);
    ("recent_events"%js, ZDefault (ZArray (ZUnion [zExecutionRequestedEvent;
      zExecutionAcceptedEvent; zExecutionQueuedEvent; zExecutionStartedEvent;
      zExecutionRunningEvent; zExecutionCompletedEvent; zExecutionFailedEvent;
      zExecutionTimeoutEvent; zExecutionCancelledEvent; zPodCreatedEvent; zPodScheduledEvent;
      zPodRunningEvent; zPodSucceededEvent; zPodFailedEvent; zPodTerminatedEvent; zPodDeletedEvent;
      zResultStoredEvent; zResultFailedEvent; zUserSettingsUpdatedEvent; zUserRegisteredEvent;
      zUserLoginEvent; zUserLoggedInEvent; zUserLoggedOutEvent; zUserUpdatedEvent;
      zUserDeletedEvent; zNotificationCreatedEvent; zNotificationSentEvent;
      zNotificationDeliveredEvent; zNotificationFailedEvent; zNotificationReadEvent;
      zNotificationAllReadEvent; zNotificationClickedEvent; zNotificationPreferencesUpdatedEvent;
      zScriptSavedEvent; zScriptDeletedEvent; zScriptSharedEvent; zSecurityViolationEvent;
      zRateLimitExceededEvent; zAuthFailedEvent; zResourceLimitExceededEvent; zQuotaExceededEvent;
      zSystemErrorEvent; zServiceUnhealthyEvent; zServiceRecoveredEvent; zDlqMessageReceivedEvent;
      zDlqMessageRetriedEvent; zDlqMessageDiscardedEvent])) (VArr []))].

Definition zEventBrowseResponse : schema :=
  ZObject [
    ("events"%js, ZArray (ZUnion [zExecutionRequestedEvent; zExecutionAcceptedEvent;
      zExecutionQueuedEvent; zExecutionStartedEvent; zExecutionRunningEvent;
      zExecutionCompletedEvent; zExecutionFailedEvent; zExecutionTimeoutEvent;
      zExecutionCancelledEvent; zPodCreatedEvent; zPodScheduledEvent; zPodRunningEvent;
      zPodSucceededEvent; zPodFailedEvent; zPodTerminatedEvent; zPodDeletedEvent;
      zResultStoredEvent; zResultFailedEvent; zUserSettingsUpdatedEvent; zUserRegisteredEvent;
      zUserLoginEvent; zUserLoggedInEvent; zUserLoggedOutEvent; zUserUpdatedEvent;
      zUserDeletedEvent; zNotificationCreatedEvent; zNotificationSentEvent;
      zNotificationDeliveredEvent; zNotificationFailedEvent; zNotificationReadEvent;
      zNotificationAllReadEvent; zNotificationClickedEvent; zNotificationPreferencesUpdatedEvent;
      zScriptSavedEvent; zScriptDeletedEvent; zScriptSharedEvent; zSecurityViolationEvent;
      zRateLimitExceededEvent; zAuthFailedEvent; zResourceLimitExceededEvent; zQuotaExceededEvent;
      zSystemErrorEvent; zServiceUnhealthyEvent; zServiceRecoveredEvent; zDlqMessageReceivedEvent;
      zDlqMessageRetriedEvent; zDlqMessageDiscardedEvent]));
    ("total"%js, ZInt []);
    ("skip"%js, ZInt []);
    ("limit"%js, ZInt [])].

Definition zEventDetailResponse : schema :=
  ZObject [
    ("event"%js, ZDiscriminatedUnion "event_type"%js [zExecutionRequestedEvent;
      zExecutionAcceptedEvent; zExecutionQueuedEvent; zExecutionStartedEvent;
      zExecutionRunningEvent; zExecutionCompletedEvent; zExecutionFailedEvent;
      zExecutionTimeoutEvent; zExecutionCancelledEvent; zPodCreatedEvent; zPodScheduledEvent;
      zPodRunningEvent; zPodSucceededEvent; zPodFailedEvent; zPodTerminatedEvent; zPodDeletedEvent;
      zResultStoredEvent; zResultFailedEvent; zUserSettingsUpdatedEvent; zUserRegisteredEvent;
      zUserLoginEvent; zUserLoggedInEvent; zUserLoggedOutEvent; zUserUpdatedEvent;
      zUserDeletedEvent; zNotificationCreatedEvent; zNotificationSentEvent;
      zNotificationDeliveredEvent; zNotificationFailedEvent; zNotificationReadEvent;
      zNotificationAllReadEvent; zNotificationClickedEvent; zNotificationPreferencesUpdatedEvent;
      zScriptSavedEvent; zScriptDeletedEvent; zScriptSharedEvent; zSecurityViolationEvent;
      zRateLimitExceededEvent; zAuthFailedEvent; zResourceLimitExceededEvent; zQuotaExceededEvent;
      zSystemErrorEvent; zServiceUnhealthyEvent; zServiceRecoveredEvent; zDlqMessageReceivedEvent;
      zDlqMessageRetriedEvent; zDlqMessageDiscardedEvent]);
    ("related_events"%js, ZArray zEventSummary);
    ("timeline"%js, ZArray zEventSummary)].

Definition zEventReplayStatusResponseWritable : schema :=
  ZObject [
    ("session_id"%js, ZString []);
    ("status"%js, zReplayStatus);
    ("total_events"%js, ZInt []);
    ("replayed_events"%js, ZInt []);
    ("failed_events"%js, ZInt []);
    ("skipped_events"%js, ZInt []);
    ("replay_id"%js, ZString []);
    ("created_at"%js, ZDatetime);
    ("started_at"%js, ZNullable ZDatetime);
    ("completed_at"%js, ZNullable ZDatetime);
    ("errors"%js, ZNullable (ZArray zReplayError));
    ("estimated_completion"%js, ZNullable ZDatetime);
    ("execution_results"%js, ZNullable (ZArray zExecutionResult))].

Definition zUserCreateWritable : schema :=
  ZObject [
    ("username"%js, ZString []);
    ("email"%js, ZEmail);
    ("role"%js, ZDefault (ZOptional zUserRole) (VStr "user"%js));
    ("is_active"%js, ZDefault (ZOptional ZBoolean) (VBool true));
    ("password"%js, ZString [MinLength 8])].

Definition zUserUpdateWritable : schema :=
  ZObject [
    ("username"%js, ZNullish (ZString []));
    ("email"%js, ZNullish ZEmail);
    ("role"%js, ZNullish zUserRole);
    ("is_active"%js, ZNullish ZBoolean);
    ("password"%js, ZNullish (ZString [MinLength 8]))].

Definition zLoginApiV1AuthLoginPostBody : schema :=
  zBodyLoginApiV1AuthLoginPost.

Definition zLoginApiV1AuthLoginPostResponse : schema :=
  zLoginResponse.

Definition zRegisterApiV1AuthRegisterPostBody : schema :=
  zUserCreateWritable.

Definition zRegisterApiV1AuthRegisterPostResponse : schema :=
  zUserResponse.

Definition zGetCurrentUserProfileApiV1AuthMeGetResponse : schema :=
  zUserResponse.

Definition zLogoutApiV1AuthLogoutPostResponse : schema :=
  zMessageResponse.

Definition zCreateExecutionApiV1ExecutePostBody : schema :=
  zExecutionRequest.

Definition zCreateExecutionApiV1ExecutePostHeaders : schema :=
  ZObject [
    ("Idempotency-Key"%js, ZNullish (ZString []))].

Definition zCreateExecutionApiV1ExecutePostResponse : schema :=
  zExecutionResponse.

Definition zGetResultApiV1ExecutionsExecutionIdResultGetPath : schema :=
  ZObject [
    ("execution_id"%js, ZString [])].

Definition zGetResultApiV1ExecutionsExecutionIdResultGetResponse : schema :=
  zExecutionResult.

Definition zCancelExecutionApiV1ExecutionsExecutionIdCancelPostPath : schema :=
  ZObject [
    ("execution_id"%js, ZString [])].

Definition zCancelExecutionApiV1ExecutionsExecutionIdCancelPostResponse : schema :=
  zCancelResponse.

Definition zRetryExecutionApiV1ExecutionsExecutionIdRetryPostPath : schema :=
  ZObject [
    ("execution_id"%js, ZString [])].

Definition zRetryExecutionApiV1ExecutionsExecutionIdRetryPostResponse : schema :=
  zExecutionResponse.

Definition zGetExecutionEventsApiV1ExecutionsExecutionIdEventsGetPath : schema :=
  ZObject [
    ("execution_id"%js, ZString [])].

Definition zGetExecutionEventsApiV1ExecutionsExecutionIdEventsGetQuery : schema :=
  ZObject [
    ("event_types"%js, ZNullish (ZArray zEventType));
    ("limit"%js, ZDefault (ZOptional (ZInt [Gte 1; Lte 1000])) (VInt 100))].

Definition zGetExecutionEventsApiV1ExecutionsExecutionIdEventsGetResponse : schema :=
  ZArray (ZUnion [zExecutionRequestedEvent; zExecutionAcceptedEvent; zExecutionQueuedEvent;
      zExecutionStartedEvent; zExecutionRunningEvent; zExecutionCompletedEvent;
      zExecutionFailedEvent; zExecutionTimeoutEvent; zExecutionCancelledEvent; zPodCreatedEvent;
      zPodScheduledEvent; zPodRunningEvent; zPodSucceededEvent; zPodFailedEvent;
      zPodTerminatedEvent; zPodDeletedEvent; zResultStoredEvent; zResultFailedEvent;
      zUserSettingsUpdatedEvent; zUserRegisteredEvent; zUserLoginEvent; zUserLoggedInEvent;
      zUserLoggedOutEvent; zUserUpdatedEvent; zUserDeletedEvent; zNotificationCreatedEvent;
      zNotificationSentEvent; zNotificationDeliveredEvent; zNotificationFailedEvent;
      zNotificationReadEvent; zNotificationAllReadEvent; zNotificationClickedEvent;
      zNotificationPreferencesUpdatedEvent; zScriptSavedEvent; zScriptDeletedEvent;
      zScriptSharedEvent; zSecurityViolationEvent; zRateLimitExceededEvent; zAuthFailedEvent;
      zResourceLimitExceededEvent; zQuotaExceededEvent; zSystemErrorEvent; zServiceUnhealthyEvent;
      zServiceRecoveredEvent; zDlqMessageReceivedEvent; zDlqMessageRetriedEvent;
      zDlqMessageDiscardedEvent]).

Definition zGetUserExecutionsApiV1UserExecutionsGetQuery : schema :=
  ZObject [
    ("status"%js, ZNullish zExecutionStatus);
    ("lang"%js, ZNullish (ZString []));
    ("start_time"%js, ZNullish ZDatetime);
    ("end_time"%js, ZNullish ZDatetime);
    ("limit"%js, ZDefault (ZOptional (ZInt [Gte 1; Lte 200])) (VInt 50));
    ("skip"%js, ZDefault (ZOptional (ZInt [Gte 0])) (VInt 0))].

Definition zGetUserExecutionsApiV1UserExecutionsGetResponse : schema :=
  zExecutionListResponse.

Definition zGetExampleScriptsApiV1ExampleScriptsGetResponse : schema :=
  zExampleScripts.

Definition zGetK8sResourceLimitsApiV1K8sLimitsGetResponse : schema :=
  zResourceLimits.

Definition zDeleteExecutionApiV1ExecutionsExecutionIdDeletePath : schema :=
  ZObject [
    ("execution_id"%js, ZString [])].

Definition zDeleteExecutionApiV1ExecutionsExecutionIdDeleteResponse : schema :=
  zDeleteResponse.

Definition zListSavedScriptsApiV1ScriptsGetResponse : schema :=
  zSavedScriptListResponse.

Definition zCreateSavedScriptApiV1ScriptsPostBody : schema :=
  zSavedScriptCreateRequest.

Definition zCreateSavedScriptApiV1ScriptsPostResponse : schema :=
  zSavedScriptResponse.

Definition zDeleteSavedScriptApiV1ScriptsScriptIdDeletePath : schema :=
  ZObject [
    ("script_id"%js, ZString [])].

Definition zDeleteSavedScriptApiV1ScriptsScriptIdDeleteResponse : schema :=
  ZVoid.

Definition zGetSavedScriptApiV1ScriptsScriptIdGetPath : schema :=
  ZObject [
    ("script_id"%js, ZString [])].

Definition zGetSavedScriptApiV1ScriptsScriptIdGetResponse : schema :=
  zSavedScriptResponse.

Definition zUpdateSavedScriptApiV1ScriptsScriptIdPutBody : schema :=
  zSavedScriptUpdate.

Definition zUpdateSavedScriptApiV1ScriptsScriptIdPutPath : schema :=
  ZObject [
    ("script_id"%js, ZString [])].

Definition zUpdateSavedScriptApiV1ScriptsScriptIdPutResponse : schema :=
  zSavedScriptResponse.

Definition zLivenessApiV1HealthLiveGetResponse : schema :=
  zLivenessResponse.

Definition zNotificationStreamApiV1EventsNotificationsStreamGetResponse : schema :=
  zNotificationResponse.

Definition zExecutionEventsApiV1EventsExecutionsExecutionIdGetPath : schema :=
  ZObject [
    ("execution_id"%js, ZString [])].

Definition zExecutionEventsApiV1EventsExecutionsExecutionIdGetResponse : schema :=
  zSseExecutionEventSchema.

Definition zBrowseEventsApiV1AdminEventsBrowsePostBody : schema :=
  zEventBrowseRequest.

Definition zBrowseEventsApiV1AdminEventsBrowsePostResponse : schema :=
  zEventBrowseResponse.

Definition zGetEventStatsApiV1AdminEventsStatsGetQuery : schema :=
  ZObject [
    ("hours"%js, ZDefault (ZOptional (ZInt [Gte 1; Lte 168])) (VInt 24))].

Definition zGetEventStatsApiV1AdminEventsStatsGetResponse : schema :=
  zEventStatsResponse.

Definition zExportEventsApiV1AdminEventsExportExportFormatGetPath : schema :=
  ZObject [
    ("export_format"%js, zExportFormat)].

Definition zExportEventsApiV1AdminEventsExportExportFormatGetQuery : schema :=
  ZObject [
    ("event_types"%js, ZNullish (ZArray zEventType));
    ("aggregate_id"%js, ZNullish (ZString []));
    ("user_id"%js, ZNullish (ZString []));
    ("service_name"%js, ZNullish (ZString []));
    ("start_time"%js, ZNullish ZDatetime);
    ("end_time"%js, ZNullish ZDatetime);
    ("limit"%js, ZDefault (ZOptional (ZInt [Gte 1; Lte 50000])) (VInt 10000))].

Definition zDeleteEventApiV1AdminEventsEventIdDeletePath : schema :=
  ZObject [
    ("event_id"%js, ZString [])].

Definition zDeleteEventApiV1AdminEventsEventIdDeleteResponse : schema :=
  zEventDeleteResponse.

Definition zGetEventDetailApiV1AdminEventsEventIdGetPath : schema :=
  ZObject [
    ("event_id"%js, ZString [])].

Definition zGetEventDetailApiV1AdminEventsEventIdGetResponse : schema :=
  zEventDetailResponse.

Definition zReplayEventsApiV1AdminEventsReplayPostBody : schema :=
  zEventReplayRequest.

Definition zReplayEventsApiV1AdminEventsReplayPostResponse : schema :=
  zEventReplayResponse.

Definition zStreamReplayStatusApiV1AdminEventsReplaySessionIdStatusGetPath : schema :=
  ZObject [
    ("session_id"%js, ZString [])].

Definition zStreamReplayStatusApiV1AdminEventsReplaySessionIdStatusGetResponse : schema :=
  zEventReplayStatusResponse.

Definition zListExecutionsApiV1AdminExecutionsGetQuery : schema :=
  ZObject [
    ("status"%js, ZNullish zExecutionStatus);
    ("priority"%js, ZNullish zQueuePriority);
    ("user_id"%js, ZNullish (ZString []));
    ("limit"%js, ZDefault (ZOptional (ZInt [Gte 1; Lte 200])) (VInt 50));
    ("skip"%js, ZDefault (ZOptional (ZInt [Gte 0])) (VInt 0))].

Definition zListExecutionsApiV1AdminExecutionsGetResponse : schema :=
  zAdminExecutionListResponse.

Definition zUpdatePriorityApiV1AdminExecutionsExecutionIdPriorityPutBody : schema :=
  zPriorityUpdateRequest.

Definition zUpdatePriorityApiV1AdminExecutionsExecutionIdPriorityPutPath : schema :=
  ZObject [
    ("execution_id"%js, ZString [])].

Definition zUpdatePriorityApiV1AdminExecutionsExecutionIdPriorityPutResponse : schema :=
  zAdminExecutionResponse.

Definition zGetQueueStatusApiV1AdminExecutionsQueueGetResponse : schema :=
  zQueueStatusResponse.

Definition zGetDefaultRateLimitRulesApiV1AdminRateLimitsDefaultsGetResponse : schema :=
  ZArray zRateLimitRuleResponse.

Definition zGetUserRateLimitsApiV1AdminRateLimitsUserIdGetPath : schema :=
  ZObject [
    ("user_id"%js, ZString [])].

Definition zGetUserRateLimitsApiV1AdminRateLimitsUserIdGetResponse : schema :=
  zUserRateLimitsResponse.

Definition zUpdateUserRateLimitsApiV1AdminRateLimitsUserIdPutBody : schema :=
  zRateLimitUpdateRequest.

Definition zUpdateUserRateLimitsApiV1AdminRateLimitsUserIdPutPath : schema :=
  ZObject [
    ("user_id"%js, ZString [])].

Definition zUpdateUserRateLimitsApiV1AdminRateLimitsUserIdPutResponse : schema :=
  zRateLimitUpdateResponse.

Definition zResetUserRateLimitsApiV1AdminRateLimitsUserIdResetPostPath : schema :=
  ZObject [
    ("user_id"%js, ZString [])].

Definition zResetUserRateLimitsApiV1AdminRateLimitsUserIdResetPostResponse : schema :=
  zMessageResponse.

Definition zGetSystemSettingsApiV1AdminSettingsGetResponse : schema :=
  zSystemSettingsSchemaOutput.

Definition zUpdateSystemSettingsApiV1AdminSettingsPutBody : schema :=
  zSystemSettingsSchemaInput.

Definition zUpdateSystemSettingsApiV1AdminSettingsPutResponse : schema :=
  zSystemSettingsSchemaOutput.

Definition zResetSystemSettingsApiV1AdminSettingsResetPostResponse : schema :=
  zSystemSettingsSchemaOutput.

Definition zListUsersApiV1AdminUsersGetQuery : schema :=
  ZObject [
    ("limit"%js, ZDefault (ZOptional (ZInt [Gte 1; Lte 1000])) (VInt 100));
    ("offset"%js, ZDefault (ZOptional (ZInt [Gte 0])) (VInt 0));
    ("search"%js, ZNullish (ZString []));
    ("role"%js, ZNullish zUserRole);
    ("is_active"%js, ZNullish ZBoolean);
    ("bypass_rate_limit"%js, ZNullish ZBoolean);
    ("has_custom_limits"%js, ZNullish ZBoolean);
    ("custom_multiplier"%js, ZNullish ZBoolean)].

Definition zListUsersApiV1AdminUsersGetResponse : schema :=
  zUserListResponse.

Definition zCreateUserApiV1AdminUsersPostBody : schema :=
  zUserCreateWritable.

Definition zCreateUserApiV1AdminUsersPostResponse : schema :=
  zUserResponse.

Definition zDeleteUserApiV1AdminUsersUserIdDeletePath : schema :=
  ZObject [
    ("user_id"%js, ZString [])].

Definition zDeleteUserApiV1AdminUsersUserIdDeleteQuery : schema :=
  ZObject [
    ("cascade"%js, ZDefault (ZOptional ZBoolean) (VBool true))].

Definition zDeleteUserApiV1AdminUsersUserIdDeleteResponse : schema :=
  zDeleteUserResponse.

Definition zGetUserApiV1AdminUsersUserIdGetPath : schema :=
  ZObject [
    ("user_id"%js, ZString [])].

Definition zGetUserApiV1AdminUsersUserIdGetResponse : schema :=
  zUserResponse.

Definition zUpdateUserApiV1AdminUsersUserIdPutBody : schema :=
  zUserUpdateWritable.

Definition zUpdateUserApiV1AdminUsersUserIdPutPath : schema :=
  ZObject [
    ("user_id"%js, ZString [])].

Definition zUpdateUserApiV1AdminUsersUserIdPutResponse : schema :=
  zUserResponse.

Definition zGetUserOverviewApiV1AdminUsersUserIdOverviewGetPath : schema :=
  ZObject [
    ("user_id"%js, ZString [])].

Definition zGetUserOverviewApiV1AdminUsersUserIdOverviewGetResponse : schema :=
  zAdminUserOverview.

Definition zResetUserPasswordApiV1AdminUsersUserIdResetPasswordPostBody : schema :=
  zPasswordResetRequest.

Definition zResetUserPasswordApiV1AdminUsersUserIdResetPasswordPostPath : schema :=
  ZObject [
    ("user_id"%js, ZString [])].

Definition zResetUserPasswordApiV1AdminUsersUserIdResetPasswordPostResponse : schema :=
  zMessageResponse.

Definition zUnlockUserApiV1AdminUsersUserIdUnlockPostPath : schema :=
  ZObject [
    ("user_id"%js, ZString [])].

Definition zUnlockUserApiV1AdminUsersUserIdUnlockPostResponse : schema :=
  zUnlockResponse.

Definition zGetUserSettingsApiV1UserSettingsGetResponse : schema :=
  zUserSettings.

Definition zUpdateUserSettingsApiV1UserSettingsPutBody : schema :=
  zUserSettingsUpdate.

Definition zUpdateUserSettingsApiV1UserSettingsPutResponse : schema :=
  zUserSettings.

Definition zUpdateThemeApiV1UserSettingsThemePutBody : schema :=
  zThemeUpdateRequest.

Definition zUpdateThemeApiV1UserSettingsThemePutResponse : schema :=
  zUserSettings.

Definition zUpdateNotificationSettingsApiV1UserSettingsNotificationsPutBody : schema :=
  zNotificationSettingsInput.

Definition zUpdateNotificationSettingsApiV1UserSettingsNotificationsPutResponse : schema :=
  zUserSettings.

Definition zUpdateEditorSettingsApiV1UserSettingsEditorPutBody : schema :=
  zEditorSettingsInput.

Definition zUpdateEditorSettingsApiV1UserSettingsEditorPutResponse : schema :=
  zUserSettings.

Definition zGetSettingsHistoryApiV1UserSettingsHistoryGetQuery : schema :=
  ZObject [
    ("limit"%js, ZDefault (ZOptional (ZInt [Gte 1; Lte 200])) (VInt 50))].

Definition zGetSettingsHistoryApiV1UserSettingsHistoryGetResponse : schema :=
  zSettingsHistoryResponse.

Definition zRestoreSettingsApiV1UserSettingsRestorePostBody : schema :=
  zRestoreSettingsRequest.

Definition zRestoreSettingsApiV1UserSettingsRestorePostResponse : schema :=
  zUserSettings.

Definition zUpdateCustomSettingApiV1UserSettingsCustomKeyPutBody : schema :=
  ZRecord (ZString []) ZUnknown.

Definition zUpdateCustomSettingApiV1UserSettingsCustomKeyPutPath : schema :=
  ZObject [
    ("key"%js, ZString [])].

Definition zUpdateCustomSettingApiV1UserSettingsCustomKeyPutResponse : schema :=
  zUserSettings.

Definition zGetNotificationsApiV1NotificationsGetQuery : schema :=
  ZObject [
    ("status"%js, ZNullish zNotificationStatus);
    ("include_tags"%js, ZNullish (ZArray (ZString [])));
    ("exclude_tags"%js, ZNullish (ZArray (ZString [])));
    ("tag_prefix"%js, ZNullish (ZString []));
    ("limit"%js, ZDefault (ZOptional (ZInt [Gte 1; Lte 100])) (VInt 50));
    ("offset"%js, ZDefault (ZOptional (ZInt [Gte 0])) (VInt 0))].

Definition zGetNotificationsApiV1NotificationsGetResponse : schema :=
  zNotificationListResponse.

Definition zMarkNotificationReadApiV1NotificationsNotificationIdReadPutPath : schema :=
  ZObject [
    ("notification_id"%js, ZString [])].

Definition zMarkNotificationReadApiV1NotificationsNotificationIdReadPutResponse : schema :=
  ZVoid.

Definition zMarkAllReadApiV1NotificationsMarkAllReadPostResponse : schema :=
  ZVoid.

Definition zGetUnreadCountApiV1NotificationsUnreadCountGetResponse : schema :=
  zUnreadCountResponse.

Definition zDeleteNotificationApiV1NotificationsNotificationIdDeletePath : schema :=
  ZObject [
    ("notification_id"%js, ZString [])].

Definition zDeleteNotificationApiV1NotificationsNotificationIdDeleteResponse : schema :=
  zDeleteNotificationResponse.
