(* ===== verification/SchemaSpec.v ===== *)
(** * Schemas and types agree

    Each schema of [ApiSchemas] against the type of [ApiTypes] that describes
    the same data, and what that gives to the code that validates with it. *)

From S2P Require Import Prelude JsString JsValue ApiEnums Zod ApiTypes ApiSchemas.

(** The name of each schema, the schema and its type: that of the same name, or the part of the
    request's [...Data] type it validates. *)
Definition api_schemas : list (jstr * schema * ts_type) := [
  ("BodyLoginApiV1AuthLoginPost"%js, zBodyLoginApiV1AuthLoginPost,
   BodyLoginApiV1AuthLoginPost);
  ("CancelStatus"%js, zCancelStatus,
   CancelStatus);
  ("CancelResponse"%js, zCancelResponse,
   CancelResponse);
  ("ContainerStatusInfo"%js, zContainerStatusInfo,
   ContainerStatusInfo);
  ("DeleteNotificationResponse"%js, zDeleteNotificationResponse,
   DeleteNotificationResponse);
  ("DeleteResponse"%js, zDeleteResponse,
   DeleteResponse);
  ("DeleteUserResponse"%js, zDeleteUserResponse,
   DeleteUserResponse);
  ("DerivedCounts"%js, zDerivedCounts,
   DerivedCounts);
  ("EditorSettingsInput"%js, zEditorSettingsInput,
   EditorSettingsInput);
  ("EditorSettingsOutput"%js, zEditorSettingsOutput,
   EditorSettingsOutput);
  ("EndpointGroup"%js, zEndpointGroup,
   EndpointGroup);
  ("Environment"%js, zEnvironment,
   Environment);
  ("ErrorResponse"%js, zErrorResponse,
   ErrorResponse);
  ("EventDeleteResponse"%js, zEventDeleteResponse,
   EventDeleteResponse);
  ("EventMetadata"%js, zEventMetadata,
   EventMetadata);
  ("AuthFailedEvent"%js, zAuthFailedEvent,
   AuthFailedEvent);
  ("EventReplayRequest"%js, zEventReplayRequest,
   EventReplayRequest);
  ("EventType"%js, zEventType,
   EventType);
  ("DlqMessageDiscardedEvent"%js, zDlqMessageDiscardedEvent,
   DlqMessageDiscardedEvent);
  ("DlqMessageReceivedEvent"%js, zDlqMessageReceivedEvent,
   DlqMessageReceivedEvent);
  ("DlqMessageRetriedEvent"%js, zDlqMessageRetriedEvent,
   DlqMessageRetriedEvent);
  ("EventFilter"%js, zEventFilter,
   EventFilter);
  ("EventBrowseRequest"%js, zEventBrowseRequest,
   EventBrowseRequest);
  ("EventSummary"%js, zEventSummary,
   EventSummary);
  ("EventTypeCount"%js, zEventTypeCount,
   EventTypeCount);
  ("ExampleScripts"%js, zExampleScripts,
   ExampleScripts);
  ("ExecutionCancelledEvent"%js, zExecutionCancelledEvent,
   ExecutionCancelledEvent);
  ("ExecutionErrorType"%js, zExecutionErrorType,
   ExecutionErrorType);
  ("ExecutionQueuedEvent"%js, zExecutionQueuedEvent,
   ExecutionQueuedEvent);
  ("ExecutionRequest"%js, zExecutionRequest,
   ExecutionRequest);
  ("ExecutionRunningEvent"%js, zExecutionRunningEvent,
   ExecutionRunningEvent);
  ("ExecutionStartedEvent"%js, zExecutionStartedEvent,
   ExecutionStartedEvent);
  ("ExecutionStatus"%js, zExecutionStatus,
   ExecutionStatus);
  ("ExecutionResponse"%js, zExecutionResponse,
   ExecutionResponse);
  ("ExportFormat"%js, zExportFormat,
   ExportFormat);
  ("HourlyEventCount"%js, zHourlyEventCount,
   HourlyEventCount);
  ("LanguageInfo"%js, zLanguageInfo,
   LanguageInfo);
  ("LanguageLimits"%js, zLanguageLimits,
   LanguageLimits);
  ("LivenessResponse"%js, zLivenessResponse,
   LivenessResponse);
  ("LoginMethod"%js, zLoginMethod,
   LoginMethod);
  ("MessageResponse"%js, zMessageResponse,
   MessageResponse);
  ("NotificationAllReadEvent"%js, zNotificationAllReadEvent,
   NotificationAllReadEvent);
  ("NotificationClickedEvent"%js, zNotificationClickedEvent,
   NotificationClickedEvent);
  ("NotificationDeliveredEvent"%js, zNotificationDeliveredEvent,
   NotificationDeliveredEvent);
  ("NotificationFailedEvent"%js, zNotificationFailedEvent,
   NotificationFailedEvent);
  ("NotificationPreferencesUpdatedEvent"%js, zNotificationPreferencesUpdatedEvent,
   NotificationPreferencesUpdatedEvent);
  ("NotificationReadEvent"%js, zNotificationReadEvent,
   NotificationReadEvent);
  ("NotificationSentEvent"%js, zNotificationSentEvent,
   NotificationSentEvent);
  ("NotificationSettingsInput"%js, zNotificationSettingsInput,
   NotificationSettingsInput);
  ("NotificationSettingsOutput"%js, zNotificationSettingsOutput,
   NotificationSettingsOutput);
  ("NotificationSeverity"%js, zNotificationSeverity,
   NotificationSeverity);
  ("NotificationCreatedEvent"%js, zNotificationCreatedEvent,
   NotificationCreatedEvent);
  ("NotificationStatus"%js, zNotificationStatus,
   NotificationStatus);
  ("NotificationResponse"%js, zNotificationResponse,
   NotificationResponse);
  ("NotificationListResponse"%js, zNotificationListResponse,
   NotificationListResponse);
  ("PasswordResetRequest"%js, zPasswordResetRequest,
   PasswordResetRequest);
  ("PodCreatedEvent"%js, zPodCreatedEvent,
   PodCreatedEvent);
  ("PodDeletedEvent"%js, zPodDeletedEvent,
   PodDeletedEvent);
  ("PodFailedEvent"%js, zPodFailedEvent,
   PodFailedEvent);
  ("PodRunningEvent"%js, zPodRunningEvent,
   PodRunningEvent);
  ("PodScheduledEvent"%js, zPodScheduledEvent,
   PodScheduledEvent);
  ("PodSucceededEvent"%js, zPodSucceededEvent,
   PodSucceededEvent);
  ("PodTerminatedEvent"%js, zPodTerminatedEvent,
   PodTerminatedEvent);
  ("QueuePriority"%js, zQueuePriority,
   QueuePriority);
  ("AdminExecutionResponse"%js, zAdminExecutionResponse,
   AdminExecutionResponse);
  ("AdminExecutionListResponse"%js, zAdminExecutionListResponse,
   AdminExecutionListResponse);
  ("ExecutionAcceptedEvent"%js, zExecutionAcceptedEvent,
   ExecutionAcceptedEvent);
  ("ExecutionRequestedEvent"%js, zExecutionRequestedEvent,
   ExecutionRequestedEvent);
  ("PriorityUpdateRequest"%js, zPriorityUpdateRequest,
   PriorityUpdateRequest);
  ("QueueStatusResponse"%js, zQueueStatusResponse,
   QueueStatusResponse);
  ("QuotaExceededEvent"%js, zQuotaExceededEvent,
   QuotaExceededEvent);
  ("RateLimitAlgorithm"%js, zRateLimitAlgorithm,
   RateLimitAlgorithm);
  ("EndpointUsageStats"%js, zEndpointUsageStats,
   EndpointUsageStats);
  ("RateLimitExceededEvent"%js, zRateLimitExceededEvent,
   RateLimitExceededEvent);
  ("RateLimitRuleRequest"%js, zRateLimitRuleRequest,
   RateLimitRuleRequest);
  ("RateLimitRuleResponse"%js, zRateLimitRuleResponse,
   RateLimitRuleResponse);
  ("RateLimitSummary"%js, zRateLimitSummary,
   RateLimitSummary);
  ("RateLimitUpdateRequest"%js, zRateLimitUpdateRequest,
   RateLimitUpdateRequest);
  ("ReplayError"%js, zReplayError,
   ReplayError);
  ("ReplayStatus"%js, zReplayStatus,
   ReplayStatus);
  ("EventReplayResponse"%js, zEventReplayResponse,
   EventReplayResponse);
  ("ResourceLimitExceededEvent"%js, zResourceLimitExceededEvent,
   ResourceLimitExceededEvent);
  ("ResourceLimits"%js, zResourceLimits,
   ResourceLimits);
  ("ResourceUsage"%js, zResourceUsage,
   ResourceUsage);
  ("ExecutionResult"%js, zExecutionResult,
   ExecutionResult);
  ("EventReplayStatusResponse"%js, zEventReplayStatusResponse,
   EventReplayStatusResponse);
  ("ExecutionListResponse"%js, zExecutionListResponse,
   ExecutionListResponse);
  ("ResourceUsageDomain"%js, zResourceUsageDomain,
   ResourceUsageDomain);
  ("ExecutionCompletedEvent"%js, zExecutionCompletedEvent,
   ExecutionCompletedEvent);
  ("ExecutionFailedEvent"%js, zExecutionFailedEvent,
   ExecutionFailedEvent);
  ("ExecutionTimeoutEvent"%js, zExecutionTimeoutEvent,
   ExecutionTimeoutEvent);
  ("RestoreSettingsRequest"%js, zRestoreSettingsRequest,
   RestoreSettingsRequest);
  ("SseControlEvent"%js, zSseControlEvent,
   SseControlEvent);
  ("SseExecutionEventSchema"%js, zSseExecutionEventSchema,
   SseExecutionEventSchema);
  ("SavedScriptCreateRequest"%js, zSavedScriptCreateRequest,
   SavedScriptCreateRequest);
  ("SavedScriptResponse"%js, zSavedScriptResponse,
   SavedScriptResponse);
  ("SavedScriptListResponse"%js, zSavedScriptListResponse,
   SavedScriptListResponse);
  ("SavedScriptUpdate"%js, zSavedScriptUpdate,
   SavedScriptUpdate);
  ("ScriptDeletedEvent"%js, zScriptDeletedEvent,
   ScriptDeletedEvent);
  ("ScriptSavedEvent"%js, zScriptSavedEvent,
   ScriptSavedEvent);
  ("ScriptSharedEvent"%js, zScriptSharedEvent,
   ScriptSharedEvent);
  ("SecurityViolationEvent"%js, zSecurityViolationEvent,
   SecurityViolationEvent);
  ("ServiceEventCount"%js, zServiceEventCount,
   ServiceEventCount);
  ("ServiceRecoveredEvent"%js, zServiceRecoveredEvent,
   ServiceRecoveredEvent);
  ("ServiceUnhealthyEvent"%js, zServiceUnhealthyEvent,
   ServiceUnhealthyEvent);
  ("SettingsHistoryEntry"%js, zSettingsHistoryEntry,
   SettingsHistoryEntry);
  ("SettingsHistoryResponse"%js, zSettingsHistoryResponse,
   SettingsHistoryResponse);
  ("StorageType"%js, zStorageType,
   StorageType);
  ("ResultFailedEvent"%js, zResultFailedEvent,
   ResultFailedEvent);
  ("ResultStoredEvent"%js, zResultStoredEvent,
   ResultStoredEvent);
  ("SystemErrorEvent"%js, zSystemErrorEvent,
   SystemErrorEvent);
  ("SystemSettingsSchemaInput"%js, zSystemSettingsSchemaInput,
   SystemSettingsSchemaInput);
  ("SystemSettingsSchemaOutput"%js, zSystemSettingsSchemaOutput,
   SystemSettingsSchemaOutput);
  ("Theme"%js, zTheme,
   Theme);
  ("ThemeUpdateRequest"%js, zThemeUpdateRequest,
   ThemeUpdateRequest);
  ("UnlockResponse"%js, zUnlockResponse,
   UnlockResponse);
  ("UnreadCountResponse"%js, zUnreadCountResponse,
   UnreadCountResponse);
  ("UserDeletedEvent"%js, zUserDeletedEvent,
   UserDeletedEvent);
  ("UserEventCount"%js, zUserEventCount,
   UserEventCount);
  ("EventStatistics"%js, zEventStatistics,
   EventStatistics);
  ("EventStatsResponse"%js, zEventStatsResponse,
   EventStatsResponse);
  ("UserLoggedInEvent"%js, zUserLoggedInEvent,
   UserLoggedInEvent);
  ("UserLoggedOutEvent"%js, zUserLoggedOutEvent,
   UserLoggedOutEvent);
  ("UserLoginEvent"%js, zUserLoginEvent,
   UserLoginEvent);
  ("UserRateLimitConfigResponse"%js, zUserRateLimitConfigResponse,
   UserRateLimitConfigResponse);
  ("RateLimitUpdateResponse"%js, zRateLimitUpdateResponse,
   RateLimitUpdateResponse);
  ("UserRateLimitsResponse"%js, zUserRateLimitsResponse,
   UserRateLimitsResponse);
  ("UserRegisteredEvent"%js, zUserRegisteredEvent,
   UserRegisteredEvent);
  ("UserRole"%js, zUserRole,
   UserRole);
  ("LoginResponse"%js, zLoginResponse,
   LoginResponse);
  ("UserCreate"%js, zUserCreate,
   UserCreate);
  ("UserResponse"%js, zUserResponse,
   UserResponse);
  ("UserListResponse"%js, zUserListResponse,
   UserListResponse);
  ("UserSettings"%js, zUserSettings,
   UserSettings);
  ("UserSettingsUpdate"%js, zUserSettingsUpdate,
   UserSettingsUpdate);
  ("UserSettingsUpdatedEvent"%js, zUserSettingsUpdatedEvent,
   UserSettingsUpdatedEvent);
  ("UserUpdate"%js, zUserUpdate,
   UserUpdate);
  ("UserUpdatedEvent"%js, zUserUpdatedEvent,
   UserUpdatedEvent);
  ("AdminUserOverview"%js, zAdminUserOverview,
   AdminUserOverview);
  ("EventBrowseResponse"%js, zEventBrowseResponse,
   EventBrowseResponse);
  ("EventDetailResponse"%js, zEventDetailResponse,
   EventDetailResponse);
  ("EventReplayStatusResponseWritable"%js, zEventReplayStatusResponseWritable,
   EventReplayStatusResponseWritable);
  ("UserCreateWritable"%js, zUserCreateWritable,
   UserCreateWritable);
  ("UserUpdateWritable"%js, zUserUpdateWritable,
   UserUpdateWritable);
  ("LoginApiV1AuthLoginPostBody"%js, zLoginApiV1AuthLoginPostBody,
   (ts_field "body"%js LoginApiV1AuthLoginPostData));
  ("LoginApiV1AuthLoginPostResponse"%js, zLoginApiV1AuthLoginPostResponse,
   LoginApiV1AuthLoginPostResponse);
  ("RegisterApiV1AuthRegisterPostBody"%js, zRegisterApiV1AuthRegisterPostBody,
   (ts_field "body"%js RegisterApiV1AuthRegisterPostData));
  ("RegisterApiV1AuthRegisterPostResponse"%js, zRegisterApiV1AuthRegisterPostResponse,
   RegisterApiV1AuthRegisterPostResponse);
  ("GetCurrentUserProfileApiV1AuthMeGetResponse"%js, zGetCurrentUserProfileApiV1AuthMeGetResponse,
   GetCurrentUserProfileApiV1AuthMeGetResponse);
  ("LogoutApiV1AuthLogoutPostResponse"%js, zLogoutApiV1AuthLogoutPostResponse,
   LogoutApiV1AuthLogoutPostResponse);
  ("CreateExecutionApiV1ExecutePostBody"%js, zCreateExecutionApiV1ExecutePostBody,
   (ts_field "body"%js CreateExecutionApiV1ExecutePostData));
  ("CreateExecutionApiV1ExecutePostHeaders"%js, zCreateExecutionApiV1ExecutePostHeaders,
   (ts_field "headers"%js CreateExecutionApiV1ExecutePostData));
  ("CreateExecutionApiV1ExecutePostResponse"%js, zCreateExecutionApiV1ExecutePostResponse,
   CreateExecutionApiV1ExecutePostResponse);
  ("GetResultApiV1ExecutionsExecutionIdResultGetPath"%js, zGetResultApiV1ExecutionsExecutionIdResultGetPath,
   (ts_field "path"%js GetResultApiV1ExecutionsExecutionIdResultGetData));
  ("GetResultApiV1ExecutionsExecutionIdResultGetResponse"%js, zGetResultApiV1ExecutionsExecutionIdResultGetResponse,
   GetResultApiV1ExecutionsExecutionIdResultGetResponse);
  ("CancelExecutionApiV1ExecutionsExecutionIdCancelPostPath"%js, zCancelExecutionApiV1ExecutionsExecutionIdCancelPostPath,
   (ts_field "path"%js CancelExecutionApiV1ExecutionsExecutionIdCancelPostData));
  ("CancelExecutionApiV1ExecutionsExecutionIdCancelPostResponse"%js, zCancelExecutionApiV1ExecutionsExecutionIdCancelPostResponse,
   CancelExecutionApiV1ExecutionsExecutionIdCancelPostResponse);
  ("RetryExecutionApiV1ExecutionsExecutionIdRetryPostPath"%js, zRetryExecutionApiV1ExecutionsExecutionIdRetryPostPath,
   (ts_field "path"%js RetryExecutionApiV1ExecutionsExecutionIdRetryPostData));
  ("RetryExecutionApiV1ExecutionsExecutionIdRetryPostResponse"%js, zRetryExecutionApiV1ExecutionsExecutionIdRetryPostResponse,
   RetryExecutionApiV1ExecutionsExecutionIdRetryPostResponse);
  ("GetExecutionEventsApiV1ExecutionsExecutionIdEventsGetPath"%js, zGetExecutionEventsApiV1ExecutionsExecutionIdEventsGetPath,
   (ts_field "path"%js GetExecutionEventsApiV1ExecutionsExecutionIdEventsGetData));
  ("GetExecutionEventsApiV1ExecutionsExecutionIdEventsGetQuery"%js, zGetExecutionEventsApiV1ExecutionsExecutionIdEventsGetQuery,
   (ts_field "query"%js GetExecutionEventsApiV1ExecutionsExecutionIdEventsGetData));
  ("GetExecutionEventsApiV1ExecutionsExecutionIdEventsGetResponse"%js, zGetExecutionEventsApiV1ExecutionsExecutionIdEventsGetResponse,
   GetExecutionEventsApiV1ExecutionsExecutionIdEventsGetResponse);
  ("GetUserExecutionsApiV1UserExecutionsGetQuery"%js, zGetUserExecutionsApiV1UserExecutionsGetQuery,
   (ts_field "query"%js GetUserExecutionsApiV1UserExecutionsGetData));
  ("GetUserExecutionsApiV1UserExecutionsGetResponse"%js, zGetUserExecutionsApiV1UserExecutionsGetResponse,
   GetUserExecutionsApiV1UserExecutionsGetResponse);
  ("GetExampleScriptsApiV1ExampleScriptsGetResponse"%js, zGetExampleScriptsApiV1ExampleScriptsGetResponse,
   GetExampleScriptsApiV1ExampleScriptsGetResponse);
  ("GetK8sResourceLimitsApiV1K8sLimitsGetResponse"%js, zGetK8sResourceLimitsApiV1K8sLimitsGetResponse,
   GetK8sResourceLimitsApiV1K8sLimitsGetResponse);
  ("DeleteExecutionApiV1ExecutionsExecutionIdDeletePath"%js, zDeleteExecutionApiV1ExecutionsExecutionIdDeletePath,
   (ts_field "path"%js DeleteExecutionApiV1ExecutionsExecutionIdDeleteData));
  ("DeleteExecutionApiV1ExecutionsExecutionIdDeleteResponse"%js, zDeleteExecutionApiV1ExecutionsExecutionIdDeleteResponse,
   DeleteExecutionApiV1ExecutionsExecutionIdDeleteResponse);
  ("ListSavedScriptsApiV1ScriptsGetResponse"%js, zListSavedScriptsApiV1ScriptsGetResponse,
   ListSavedScriptsApiV1ScriptsGetResponse);
  ("CreateSavedScriptApiV1ScriptsPostBody"%js, zCreateSavedScriptApiV1ScriptsPostBody,
   (ts_field "body"%js CreateSavedScriptApiV1ScriptsPostData));
  ("CreateSavedScriptApiV1ScriptsPostResponse"%js, zCreateSavedScriptApiV1ScriptsPostResponse,
   CreateSavedScriptApiV1ScriptsPostResponse);
  ("DeleteSavedScriptApiV1ScriptsScriptIdDeletePath"%js, zDeleteSavedScriptApiV1ScriptsScriptIdDeletePath,
   (ts_field "path"%js DeleteSavedScriptApiV1ScriptsScriptIdDeleteData));
  ("DeleteSavedScriptApiV1ScriptsScriptIdDeleteResponse"%js, zDeleteSavedScriptApiV1ScriptsScriptIdDeleteResponse,
   DeleteSavedScriptApiV1ScriptsScriptIdDeleteResponse);
  ("GetSavedScriptApiV1ScriptsScriptIdGetPath"%js, zGetSavedScriptApiV1ScriptsScriptIdGetPath,
   (ts_field "path"%js GetSavedScriptApiV1ScriptsScriptIdGetData));
  ("GetSavedScriptApiV1ScriptsScriptIdGetResponse"%js, zGetSavedScriptApiV1ScriptsScriptIdGetResponse,
   GetSavedScriptApiV1ScriptsScriptIdGetResponse);
  ("UpdateSavedScriptApiV1ScriptsScriptIdPutBody"%js, zUpdateSavedScriptApiV1ScriptsScriptIdPutBody,
   (ts_field "body"%js UpdateSavedScriptApiV1ScriptsScriptIdPutData));
  ("UpdateSavedScriptApiV1ScriptsScriptIdPutPath"%js, zUpdateSavedScriptApiV1ScriptsScriptIdPutPath,
   (ts_field "path"%js UpdateSavedScriptApiV1ScriptsScriptIdPutData));
  ("UpdateSavedScriptApiV1ScriptsScriptIdPutResponse"%js, zUpdateSavedScriptApiV1ScriptsScriptIdPutResponse,
   UpdateSavedScriptApiV1ScriptsScriptIdPutResponse);
  ("LivenessApiV1HealthLiveGetResponse"%js, zLivenessApiV1HealthLiveGetResponse,
   LivenessApiV1HealthLiveGetResponse);
  ("NotificationStreamApiV1EventsNotificationsStreamGetResponse"%js, zNotificationStreamApiV1EventsNotificationsStreamGetResponse,
   NotificationStreamApiV1EventsNotificationsStreamGetResponse);
  ("ExecutionEventsApiV1EventsExecutionsExecutionIdGetPath"%js, zExecutionEventsApiV1EventsExecutionsExecutionIdGetPath,
   (ts_field "path"%js ExecutionEventsApiV1EventsExecutionsExecutionIdGetData));
  ("ExecutionEventsApiV1EventsExecutionsExecutionIdGetResponse"%js, zExecutionEventsApiV1EventsExecutionsExecutionIdGetResponse,
   ExecutionEventsApiV1EventsExecutionsExecutionIdGetResponse);
  ("BrowseEventsApiV1AdminEventsBrowsePostBody"%js, zBrowseEventsApiV1AdminEventsBrowsePostBody,
   (ts_field "body"%js BrowseEventsApiV1AdminEventsBrowsePostData));
  ("BrowseEventsApiV1AdminEventsBrowsePostResponse"%js, zBrowseEventsApiV1AdminEventsBrowsePostResponse,
   BrowseEventsApiV1AdminEventsBrowsePostResponse);
  ("GetEventStatsApiV1AdminEventsStatsGetQuery"%js, zGetEventStatsApiV1AdminEventsStatsGetQuery,
   (ts_field "query"%js GetEventStatsApiV1AdminEventsStatsGetData));
  ("GetEventStatsApiV1AdminEventsStatsGetResponse"%js, zGetEventStatsApiV1AdminEventsStatsGetResponse,
   GetEventStatsApiV1AdminEventsStatsGetResponse);
  ("ExportEventsApiV1AdminEventsExportExportFormatGetPath"%js, zExportEventsApiV1AdminEventsExportExportFormatGetPath,
   (ts_field "path"%js ExportEventsApiV1AdminEventsExportExportFormatGetData));
  ("ExportEventsApiV1AdminEventsExportExportFormatGetQuery"%js, zExportEventsApiV1AdminEventsExportExportFormatGetQuery,
   (ts_field "query"%js ExportEventsApiV1AdminEventsExportExportFormatGetData));
  ("DeleteEventApiV1AdminEventsEventIdDeletePath"%js, zDeleteEventApiV1AdminEventsEventIdDeletePath,
   (ts_field "path"%js DeleteEventApiV1AdminEventsEventIdDeleteData));
  ("DeleteEventApiV1AdminEventsEventIdDeleteResponse"%js, zDeleteEventApiV1AdminEventsEventIdDeleteResponse,
   DeleteEventApiV1AdminEventsEventIdDeleteResponse);
  ("GetEventDetailApiV1AdminEventsEventIdGetPath"%js, zGetEventDetailApiV1AdminEventsEventIdGetPath,
   (ts_field "path"%js GetEventDetailApiV1AdminEventsEventIdGetData));
  ("GetEventDetailApiV1AdminEventsEventIdGetResponse"%js, zGetEventDetailApiV1AdminEventsEventIdGetResponse,
   GetEventDetailApiV1AdminEventsEventIdGetResponse);
  ("ReplayEventsApiV1AdminEventsReplayPostBody"%js, zReplayEventsApiV1AdminEventsReplayPostBody,
   (ts_field "body"%js ReplayEventsApiV1AdminEventsReplayPostData));
  ("ReplayEventsApiV1AdminEventsReplayPostResponse"%js, zReplayEventsApiV1AdminEventsReplayPostResponse,
   ReplayEventsApiV1AdminEventsReplayPostResponse);
  ("StreamReplayStatusApiV1AdminEventsReplaySessionIdStatusGetPath"%js, zStreamReplayStatusApiV1AdminEventsReplaySessionIdStatusGetPath,
   (ts_field "path"%js StreamReplayStatusApiV1AdminEventsReplaySessionIdStatusGetData));
  ("StreamReplayStatusApiV1AdminEventsReplaySessionIdStatusGetResponse"%js, zStreamReplayStatusApiV1AdminEventsReplaySessionIdStatusGetResponse,
   StreamReplayStatusApiV1AdminEventsReplaySessionIdStatusGetResponse);
  ("ListExecutionsApiV1AdminExecutionsGetQuery"%js, zListExecutionsApiV1AdminExecutionsGetQuery,
   (ts_field "query"%js ListExecutionsApiV1AdminExecutionsGetData));
  ("ListExecutionsApiV1AdminExecutionsGetResponse"%js, zListExecutionsApiV1AdminExecutionsGetResponse,
   ListExecutionsApiV1AdminExecutionsGetResponse);
  ("UpdatePriorityApiV1AdminExecutionsExecutionIdPriorityPutBody"%js, zUpdatePriorityApiV1AdminExecutionsExecutionIdPriorityPutBody,
   (ts_field "body"%js UpdatePriorityApiV1AdminExecutionsExecutionIdPriorityPutData));
  ("UpdatePriorityApiV1AdminExecutionsExecutionIdPriorityPutPath"%js, zUpdatePriorityApiV1AdminExecutionsExecutionIdPriorityPutPath,
   (ts_field "path"%js UpdatePriorityApiV1AdminExecutionsExecutionIdPriorityPutData));
  ("UpdatePriorityApiV1AdminExecutionsExecutionIdPriorityPutResponse"%js, zUpdatePriorityApiV1AdminExecutionsExecutionIdPriorityPutResponse,
   UpdatePriorityApiV1AdminExecutionsExecutionIdPriorityPutResponse);
  ("GetQueueStatusApiV1AdminExecutionsQueueGetResponse"%js, zGetQueueStatusApiV1AdminExecutionsQueueGetResponse,
   GetQueueStatusApiV1AdminExecutionsQueueGetResponse);
  ("GetDefaultRateLimitRulesApiV1AdminRateLimitsDefaultsGetResponse"%js, zGetDefaultRateLimitRulesApiV1AdminRateLimitsDefaultsGetResponse,
   GetDefaultRateLimitRulesApiV1AdminRateLimitsDefaultsGetResponse);
  ("GetUserRateLimitsApiV1AdminRateLimitsUserIdGetPath"%js, zGetUserRateLimitsApiV1AdminRateLimitsUserIdGetPath,
   (ts_field "path"%js GetUserRateLimitsApiV1AdminRateLimitsUserIdGetData));
  ("GetUserRateLimitsApiV1AdminRateLimitsUserIdGetResponse"%js, zGetUserRateLimitsApiV1AdminRateLimitsUserIdGetResponse,
   GetUserRateLimitsApiV1AdminRateLimitsUserIdGetResponse);
  ("UpdateUserRateLimitsApiV1AdminRateLimitsUserIdPutBody"%js, zUpdateUserRateLimitsApiV1AdminRateLimitsUserIdPutBody,
   (ts_field "body"%js UpdateUserRateLimitsApiV1AdminRateLimitsUserIdPutData));
  ("UpdateUserRateLimitsApiV1AdminRateLimitsUserIdPutPath"%js, zUpdateUserRateLimitsApiV1AdminRateLimitsUserIdPutPath,
   (ts_field "path"%js UpdateUserRateLimitsApiV1AdminRateLimitsUserIdPutData));
  ("UpdateUserRateLimitsApiV1AdminRateLimitsUserIdPutResponse"%js, zUpdateUserRateLimitsApiV1AdminRateLimitsUserIdPutResponse,
   UpdateUserRateLimitsApiV1AdminRateLimitsUserIdPutResponse);
  ("ResetUserRateLimitsApiV1AdminRateLimitsUserIdResetPostPath"%js, zResetUserRateLimitsApiV1AdminRateLimitsUserIdResetPostPath,
   (ts_field "path"%js ResetUserRateLimitsApiV1AdminRateLimitsUserIdResetPostData));
  ("ResetUserRateLimitsApiV1AdminRateLimitsUserIdResetPostResponse"%js, zResetUserRateLimitsApiV1AdminRateLimitsUserIdResetPostResponse,
   ResetUserRateLimitsApiV1AdminRateLimitsUserIdResetPostResponse);
  ("GetSystemSettingsApiV1AdminSettingsGetResponse"%js, zGetSystemSettingsApiV1AdminSettingsGetResponse,
   GetSystemSettingsApiV1AdminSettingsGetResponse);
  ("UpdateSystemSettingsApiV1AdminSettingsPutBody"%js, zUpdateSystemSettingsApiV1AdminSettingsPutBody,
   (ts_field "body"%js UpdateSystemSettingsApiV1AdminSettingsPutData));
  ("UpdateSystemSettingsApiV1AdminSettingsPutResponse"%js, zUpdateSystemSettingsApiV1AdminSettingsPutResponse,
   UpdateSystemSettingsApiV1AdminSettingsPutResponse);
  ("ResetSystemSettingsApiV1AdminSettingsResetPostResponse"%js, zResetSystemSettingsApiV1AdminSettingsResetPostResponse,
   ResetSystemSettingsApiV1AdminSettingsResetPostResponse);
  ("ListUsersApiV1AdminUsersGetQuery"%js, zListUsersApiV1AdminUsersGetQuery,
   (ts_field "query"%js ListUsersApiV1AdminUsersGetData));
  ("ListUsersApiV1AdminUsersGetResponse"%js, zListUsersApiV1AdminUsersGetResponse,
   ListUsersApiV1AdminUsersGetResponse);
  ("CreateUserApiV1AdminUsersPostBody"%js, zCreateUserApiV1AdminUsersPostBody,
   (ts_field "body"%js CreateUserApiV1AdminUsersPostData));
  ("CreateUserApiV1AdminUsersPostResponse"%js, zCreateUserApiV1AdminUsersPostResponse,
   CreateUserApiV1AdminUsersPostResponse);
  ("DeleteUserApiV1AdminUsersUserIdDeletePath"%js, zDeleteUserApiV1AdminUsersUserIdDeletePath,
   (ts_field "path"%js DeleteUserApiV1AdminUsersUserIdDeleteData));
  ("DeleteUserApiV1AdminUsersUserIdDeleteQuery"%js, zDeleteUserApiV1AdminUsersUserIdDeleteQuery,
   (ts_field "query"%js DeleteUserApiV1AdminUsersUserIdDeleteData));
  ("DeleteUserApiV1AdminUsersUserIdDeleteResponse"%js, zDeleteUserApiV1AdminUsersUserIdDeleteResponse,
   DeleteUserApiV1AdminUsersUserIdDeleteResponse);
  ("GetUserApiV1AdminUsersUserIdGetPath"%js, zGetUserApiV1AdminUsersUserIdGetPath,
   (ts_field "path"%js GetUserApiV1AdminUsersUserIdGetData));
  ("GetUserApiV1AdminUsersUserIdGetResponse"%js, zGetUserApiV1AdminUsersUserIdGetResponse,
   GetUserApiV1AdminUsersUserIdGetResponse);
  ("UpdateUserApiV1AdminUsersUserIdPutBody"%js, zUpdateUserApiV1AdminUsersUserIdPutBody,
   (ts_field "body"%js UpdateUserApiV1AdminUsersUserIdPutData));
  ("UpdateUserApiV1AdminUsersUserIdPutPath"%js, zUpdateUserApiV1AdminUsersUserIdPutPath,
   (ts_field "path"%js UpdateUserApiV1AdminUsersUserIdPutData));
  ("UpdateUserApiV1AdminUsersUserIdPutResponse"%js, zUpdateUserApiV1AdminUsersUserIdPutResponse,
   UpdateUserApiV1AdminUsersUserIdPutResponse);
  ("GetUserOverviewApiV1AdminUsersUserIdOverviewGetPath"%js, zGetUserOverviewApiV1AdminUsersUserIdOverviewGetPath,
   (ts_field "path"%js GetUserOverviewApiV1AdminUsersUserIdOverviewGetData));
  ("GetUserOverviewApiV1AdminUsersUserIdOverviewGetResponse"%js, zGetUserOverviewApiV1AdminUsersUserIdOverviewGetResponse,
   GetUserOverviewApiV1AdminUsersUserIdOverviewGetResponse);
  ("ResetUserPasswordApiV1AdminUsersUserIdResetPasswordPostBody"%js, zResetUserPasswordApiV1AdminUsersUserIdResetPasswordPostBody,
   (ts_field "body"%js ResetUserPasswordApiV1AdminUsersUserIdResetPasswordPostData));
  ("ResetUserPasswordApiV1AdminUsersUserIdResetPasswordPostPath"%js, zResetUserPasswordApiV1AdminUsersUserIdResetPasswordPostPath,
   (ts_field "path"%js ResetUserPasswordApiV1AdminUsersUserIdResetPasswordPostData));
  ("ResetUserPasswordApiV1AdminUsersUserIdResetPasswordPostResponse"%js, zResetUserPasswordApiV1AdminUsersUserIdResetPasswordPostResponse,
   ResetUserPasswordApiV1AdminUsersUserIdResetPasswordPostResponse);
  ("UnlockUserApiV1AdminUsersUserIdUnlockPostPath"%js, zUnlockUserApiV1AdminUsersUserIdUnlockPostPath,
   (ts_field "path"%js UnlockUserApiV1AdminUsersUserIdUnlockPostData));
  ("UnlockUserApiV1AdminUsersUserIdUnlockPostResponse"%js, zUnlockUserApiV1AdminUsersUserIdUnlockPostResponse,
   UnlockUserApiV1AdminUsersUserIdUnlockPostResponse);
  ("GetUserSettingsApiV1UserSettingsGetResponse"%js, zGetUserSettingsApiV1UserSettingsGetResponse,
   GetUserSettingsApiV1UserSettingsGetResponse);
  ("UpdateUserSettingsApiV1UserSettingsPutBody"%js, zUpdateUserSettingsApiV1UserSettingsPutBody,
   (ts_field "body"%js UpdateUserSettingsApiV1UserSettingsPutData));
  ("UpdateUserSettingsApiV1UserSettingsPutResponse"%js, zUpdateUserSettingsApiV1UserSettingsPutResponse,
   UpdateUserSettingsApiV1UserSettingsPutResponse);
  ("UpdateThemeApiV1UserSettingsThemePutBody"%js, zUpdateThemeApiV1UserSettingsThemePutBody,
   (ts_field "body"%js UpdateThemeApiV1UserSettingsThemePutData));
  ("UpdateThemeApiV1UserSettingsThemePutResponse"%js, zUpdateThemeApiV1UserSettingsThemePutResponse,
   UpdateThemeApiV1UserSettingsThemePutResponse);
  ("UpdateNotificationSettingsApiV1UserSettingsNotificationsPutBody"%js, zUpdateNotificationSettingsApiV1UserSettingsNotificationsPutBody,
   (ts_field "body"%js UpdateNotificationSettingsApiV1UserSettingsNotificationsPutData));
  ("UpdateNotificationSettingsApiV1UserSettingsNotificationsPutResponse"%js, zUpdateNotificationSettingsApiV1UserSettingsNotificationsPutResponse,
   UpdateNotificationSettingsApiV1UserSettingsNotificationsPutResponse);
  ("UpdateEditorSettingsApiV1UserSettingsEditorPutBody"%js, zUpdateEditorSettingsApiV1UserSettingsEditorPutBody,
   (ts_field "body"%js UpdateEditorSettingsApiV1UserSettingsEditorPutData));
  ("UpdateEditorSettingsApiV1UserSettingsEditorPutResponse"%js, zUpdateEditorSettingsApiV1UserSettingsEditorPutResponse,
   UpdateEditorSettingsApiV1UserSettingsEditorPutResponse);
  ("GetSettingsHistoryApiV1UserSettingsHistoryGetQuery"%js, zGetSettingsHistoryApiV1UserSettingsHistoryGetQuery,
   (ts_field "query"%js GetSettingsHistoryApiV1UserSettingsHistoryGetData));
  ("GetSettingsHistoryApiV1UserSettingsHistoryGetResponse"%js, zGetSettingsHistoryApiV1UserSettingsHistoryGetResponse,
   GetSettingsHistoryApiV1UserSettingsHistoryGetResponse);
  ("RestoreSettingsApiV1UserSettingsRestorePostBody"%js, zRestoreSettingsApiV1UserSettingsRestorePostBody,
   (ts_field "body"%js RestoreSettingsApiV1UserSettingsRestorePostData));
  ("RestoreSettingsApiV1UserSettingsRestorePostResponse"%js, zRestoreSettingsApiV1UserSettingsRestorePostResponse,
   RestoreSettingsApiV1UserSettingsRestorePostResponse);
  ("UpdateCustomSettingApiV1UserSettingsCustomKeyPutBody"%js, zUpdateCustomSettingApiV1UserSettingsCustomKeyPutBody,
   (ts_field "body"%js UpdateCustomSettingApiV1UserSettingsCustomKeyPutData));
  ("UpdateCustomSettingApiV1UserSettingsCustomKeyPutPath"%js, zUpdateCustomSettingApiV1UserSettingsCustomKeyPutPath,
   (ts_field "path"%js UpdateCustomSettingApiV1UserSettingsCustomKeyPutData));
  ("UpdateCustomSettingApiV1UserSettingsCustomKeyPutResponse"%js, zUpdateCustomSettingApiV1UserSettingsCustomKeyPutResponse,
   UpdateCustomSettingApiV1UserSettingsCustomKeyPutResponse);
  ("GetNotificationsApiV1NotificationsGetQuery"%js, zGetNotificationsApiV1NotificationsGetQuery,
   (ts_field "query"%js GetNotificationsApiV1NotificationsGetData));
  ("GetNotificationsApiV1NotificationsGetResponse"%js, zGetNotificationsApiV1NotificationsGetResponse,
   GetNotificationsApiV1NotificationsGetResponse);
  ("MarkNotificationReadApiV1NotificationsNotificationIdReadPutPath"%js, zMarkNotificationReadApiV1NotificationsNotificationIdReadPutPath,
   (ts_field "path"%js MarkNotificationReadApiV1NotificationsNotificationIdReadPutData));
  ("MarkNotificationReadApiV1NotificationsNotificationIdReadPutResponse"%js, zMarkNotificationReadApiV1NotificationsNotificationIdReadPutResponse,
   MarkNotificationReadApiV1NotificationsNotificationIdReadPutResponse);
  ("MarkAllReadApiV1NotificationsMarkAllReadPostResponse"%js, zMarkAllReadApiV1NotificationsMarkAllReadPostResponse,
   MarkAllReadApiV1NotificationsMarkAllReadPostResponse);
  ("GetUnreadCountApiV1NotificationsUnreadCountGetResponse"%js, zGetUnreadCountApiV1NotificationsUnreadCountGetResponse,
   GetUnreadCountApiV1NotificationsUnreadCountGetResponse);
  ("DeleteNotificationApiV1NotificationsNotificationIdDeletePath"%js, zDeleteNotificationApiV1NotificationsNotificationIdDeletePath,
   (ts_field "path"%js DeleteNotificationApiV1NotificationsNotificationIdDeleteData));
  ("DeleteNotificationApiV1NotificationsNotificationIdDeleteResponse"%js, zDeleteNotificationApiV1NotificationsNotificationIdDeleteResponse,
   DeleteNotificationApiV1NotificationsNotificationIdDeleteResponse)].

(** The bound on the depth of the types. *)
Definition type_depth : nat := 20.

Definition agree (e : jstr * schema * ts_type) : bool :=
  let '(_, s, t) := e in well_formed_schema s && subtype type_depth (infer s) t.

Lemma api_schemas_agree : forallb agree api_schemas = true.
Proof. vm_compute. reflexivity. Qed.

Section schemas.
Context {zod : Zod}.

(** C12. What a schema of the API lets through has the type the client is written against: for
    each schema of [zod.gen.ts], whatever value is parsed, the data it answers has the type of
    [types.gen.ts] (of the same name, or the part of the request it validates). *)
Theorem parsed_data_typed name s t v w :
  (name, s, t) ∈ api_schemas → safeParse s v = Some w → has_type t w = true.
Proof.
  intros Hin Hp. pose proof api_schemas_agree as H. rewrite forallb_true in H. specialize (H _ Hin).
  apply andb_prop in H as [Hwf Hsub].
  eapply subtype_sound; [exact Hsub|]. by eapply safeParse_typed_all.
Qed.

(** What [zErrorResponse] accepts, and what it answers: the two members, other ones dropped. *)
Lemma zErrorResponse_spec v w :
  safeParse zErrorResponse v = Some w ↔
  ∃ props m e d, v = VObj props ∧ obj_get "status" props = Some (VNum (Dec m e))
    ∧ safe_integer m e = true ∧ obj_get "detail" props = Some (VStr d)
    ∧ w = VObj [("status"%js, VNum (Dec m e)); ("detail"%js, VStr d)].
Proof.
  rewrite safeParse_spec. split.
  - destruct v as [| | | | | | | | | | | |props|]; try done. cbn [zod_step zErrorResponse parse_fields].
    rewrite !safeParse_spec. cbn [zod_step].
    destruct (obj_get "status" props) as [[| | |[| |m e]| | | | | | | | | |]|] eqn:Es; try done.
    cbn [from_option id forallb]. rewrite andb_true_r. destruct (safe_integer m e) eqn:Hi; [|done].
    cbn [mbind option_bind is_undefined andb].
    destruct (obj_get "detail" props) as [[| | | | |d| | | | | | | |]|] eqn:Ed; try done.
    cbn. intros [= <-]. by exists props, m, e, d.
  - intros (props & m & e & d & -> & Es & Hi & Ed & ->). cbn [zod_step zErrorResponse parse_fields].
    rewrite !safeParse_spec. cbn [zod_step]. rewrite Es. cbn [from_option id forallb]. rewrite Hi.
    cbn [mbind option_bind is_undefined andb]. by rewrite Ed.
Qed.
End schemas.

(** Formats that accept every text: enough for the examples, whose texts are dates. *)
Definition any_format : jstr → bool := λ _, true.
Definition example_zod : Zod := reference_zod any_format any_format.

Definition example_rule : jsval :=
  VObj [("endpoint_pattern"%js, VStr "/api/*"); ("group"%js, VStr "api"); ("requests"%js, VInt 5);
        ("extra"%js, VNull)].

Lemma parsed_data_typed_witness :
  let w := default VUndefined (@safeParse example_zod zRateLimitRuleRequest example_rule) in
  @safeParse example_zod zRateLimitRuleRequest example_rule = Some w
  ∧ has_type RateLimitRuleRequest w = true.
Proof.
  split; [vm_compute; reflexivity|].
  apply (@parsed_data_typed example_zod "RateLimitRuleRequest" zRateLimitRuleRequest RateLimitRuleRequest
           example_rule); [|vm_compute; reflexivity].
  apply (list_elem_of_lookup_2 _ 74). reflexivity.
Defined.
