(* ===== verification/SchemaStable.v ===== *)
(** * Parsing again

    The data that a schema answers is cached, edited in forms, sent back and
    parsed again.  A schema is stable when parsing its own answers changes
    nothing; [stable] decides this from the schema, and holds for every schema of
    [lib/api/zod.gen.ts] but the ones of a rate-limit rule, whose default its own
    check refuses. *)

From S2P Require Import Prelude JsString JsValue Zod ApiSchemas ApiTypes SchemaSpec.

(** ** Stable schemas *)

(** The schema answers its argument, if anything. *)
Definition atomic (s : schema) : bool :=
  match s with
  | ZString _ | ZInt _ | ZNumber _ | ZBoolean | ZNull | ZVoid | ZUnknown | ZLiteral _ | ZEnum _ | ZDatetime | ZEmail => true
  | _ => false
  end.

(** The schema answers this value with itself, whatever the formats. *)
Fixpoint fixed (s : schema) (v : jsval) : bool :=
  match s, v with
  | ZString cs, VStr t => forallb (string_ok t) cs
  | ZInt cs, VNum (Dec m e) => safe_integer m e && forallb (number_ok m e) cs
  | ZNumber cs, VNum (Dec m e) => forallb (number_ok m e) cs
  | ZBoolean, VBool _ => true
  | ZLiteral l, v => is_literal l v
  | ZEnum vs, VStr t => existsb (jeqb t) vs
  | ZArray _, VArr [] => true
  | ZUnion l, v => forallb atomic l && existsb (λ s, fixed s v) l
  | ZOptional s, v => is_undefined v || fixed s v
  | _, _ => false
  end.

Definition field_names (s : schema) : list jstr := match s with ZObject fs => map fst fs | _ => [] end.

(** Objects that a property tells apart: each requires a literal of it, and the literals differ. *)
Definition tagged_by (key : jstr) (l : list schema) : bool :=
  match mapM (discriminator key) l with Some ts => bool_decide (NoDup ts) | None => false end.
Definition tagged (l : list schema) : bool :=
  match l with s :: _ => existsb (λ key, tagged_by key l) (field_names s) | [] => true end.

Fixpoint stable (s : schema) : bool :=
  match s with
  | ZArray s | ZNullish s | ZNullable s | ZOptional s | ZReadonly s => stable s
  | ZRecord k s => stable k && stable s
  | ZUnion l => forallb stable l && (if forallb atomic l then true else tagged l)
  | ZDiscriminatedUnion _ l => forallb stable l
  | ZObject fs => forallb (λ f, stable f.2) fs && bool_decide (NoDup (map fst fs))
  | ZDefault s d => stable s && negb (is_undefined d) && fixed s d
  | _ => true
  end.

Lemma is_literal_unique a b v : is_literal a v = true → is_literal b v = true → a = b.
Proof.
  destruct a as [s|z], b as [t|y], v as [| | |[| |m e]| |u| | | | | | | |]; try done; cbn.
  - by intros ->%jeqb_eq ->%jeqb_eq.
  - unfold dec_le, dec_ge. intros [H1 H2]%andb_prop [H3 H4]%andb_prop. f_equal.
    destruct (0 <=? e)%Z eqn:E; [lia|]. apply Z.leb_gt in E. pose proof (Z.pow_pos_nonneg 10 (- e)). nia.
Qed.

Section stable.
Context {zod : Zod}.

Definition parses_again (s : schema) : Prop := ∀ v w, safeParse s v = Some w → safeParse s w = Some w.

Lemma atomic_same s v w : atomic s = true → safeParse s v = Some w → w = v.
Proof.
  intros Ha. rewrite safeParse_spec. destruct s; try discriminate Ha; cbn [zod_step]; intros Hp;
    repeat case_match; congruence.
Qed.

Lemma parse_options_fixed l v :
  (∀ s, s ∈ l → atomic s = true) → (∃ s, s ∈ l ∧ accepts s v) → parse_options safeParse l v = Some v.
Proof.
  induction l as [|s l IH]; intros Ha (t & Ht & Hv); [by apply not_elem_of_nil in Ht|]. cbn [parse_options].
  destruct (safeParse s v) as [w|] eqn:E.
  - apply atomic_same in E; [by subst|]. apply Ha. by left.
  - apply elem_of_cons in Ht as [->|Ht]; [destruct Hv as [w Hw]; congruence|].
    apply IH; [intros u Hu; apply Ha; by right|by exists t].
Qed.

Lemma fixed_parses s v : fixed s v = true → safeParse s v = Some v.
Proof.
  revert v. induction s using schema_nested_ind; intros v Hf; cbn [fixed] in Hf; rewrite safeParse_spec; cbn [zod_step];
    try (repeat case_match; congruence).
  - destruct v as [| | | | | | | | | | |[]| |]; try discriminate Hf. done.
  - apply andb_prop in Hf as [Ha Hf]. rewrite forallb_true in Ha. apply existsb_true in Hf as (s & Hin & Hf).
    rewrite Forall_forall in H. apply parse_options_fixed; [done|]. exists s. split; [done|]. exists v. by apply H.
  - destruct (is_undefined v); [done|]. by apply IHs.
Qed.

Lemma mapM_again s l ws :
  (∀ x w, x ∈ l → safeParse s x = Some w → safeParse s w = Some w) →
  mapM (safeParse s) l = Some ws → mapM (safeParse s) ws = Some ws.
Proof.
  intros Hs Hm. apply mapM_Some. apply mapM_Some_1 in Hm. induction Hm as [|x y l ws Hx _ IH]; [constructor|].
  constructor; [by apply (Hs x); [left|]|]. apply IH. intros z w Hz. apply Hs. by right.
Qed.

Lemma parse_entries_again k s l ws :
  parses_again k → parses_again s → parse_entries safeParse k s l = Some ws → parse_entries safeParse k s ws = Some ws.
Proof.
  intros Hk Hs. revert ws. induction l as [|[j x] l IH]; intros ws Hp; [by injection Hp as <-|]. cbn [parse_entries] in Hp.
  destruct (safeParse k (VStr j)) as [j'|] eqn:Ej; [|done]. cbn in Hp. destruct (safeParse s x) as [x'|] eqn:Ex; [|done].
  cbn in Hp. destruct (parse_entries _ k s l) as [rest|]; [|done]. injection Hp as <-. cbn [parse_entries].
  assert (∃ j'', safeParse k (VStr (match j' with VStr t => t | _ => j end)) = Some j''
                 ∧ match j'' with VStr t => t | _ => match j' with VStr t => t | _ => j end end
                   = match j' with VStr t => t | _ => j end) as (j'' & Hj & Hjj).
  { exists j'. pose proof (Hk _ _ Ej). by destruct j'. }
  rewrite Hj. cbn. rewrite (Hs _ _ Ex). cbn. rewrite (IH rest) by done. cbn. by rewrite Hjj.
Qed.

(** The fields of an answered object answer themselves, and what is missing stays away. *)
Lemma parse_fields_again fs l ws l' :
  NoDup (map fst fs) →
  (∀ f w, f ∈ fs → safeParse f.2 (default VUndefined (obj_get f.1 l)) = Some w → safeParse f.2 w = Some w) →
  parse_fields safeParse fs l = Some ws →
  (∀ f, f ∈ fs → obj_get f.1 l' = obj_get f.1 ws) → parse_fields safeParse fs l' = Some ws.
Proof.
  revert ws. induction fs as [|[k s] fs IH]; intros ws Hnd Hs Hp Hl; [by injection Hp as <-|].
  apply NoDup_cons in Hnd as [Hk Hnd]. cbn [map fst] in Hk. cbn [parse_fields] in *. unfold obj_has in *.
  destruct (safeParse s _) as [w|] eqn:Ew; [|done]. cbn [mbind option_bind] in Hp.
  destruct (parse_fields safeParse fs l) as [rest|] eqn:Er; [|done]. cbn [mbind option_bind] in Hp. injection Hp as Hws.
  pose proof (Hs (k, s) w ltac:(left) Ew) as Hw. cbn [fst snd] in Hw.
  pose proof (parse_fields_none fs l rest k Er Hk) as Hkr.
  assert (∀ f, f ∈ fs → obj_get f.1 l' = obj_get f.1 rest) as Hl'.
  { intros f Hf. rewrite Hl by (by right). subst ws. case_match; [done|]. cbn [obj_get].
    assert (f.1 ≠ k) as Hne%jeqb_neq; [|by rewrite Hne]. intros Hfk. apply Hk. rewrite <-Hfk. by apply (list_elem_of_fmap_2 fst). }
  rewrite (IH rest Hnd) by (try done; intros f x Hf; apply Hs; by right).
  specialize (Hl (k, s) ltac:(left)). cbn [fst] in Hl. rewrite Hl. subst ws.
  destruct (is_undefined w && _) eqn:E.
  - apply andb_prop in E as [E _]. destruct w; try discriminate E. rewrite Hkr. cbn [default from_option]. by rewrite Hw.
  - cbn [obj_get]. rewrite jeqb_refl. cbn [default from_option id]. rewrite Hw. cbn [mbind option_bind negb].
    by rewrite andb_false_r.
Qed.

(** ** Objects that are told apart *)

Lemma discriminator_field key s d :
  discriminator key s = Some d →
  ∃ fs t, s = ZObject fs ∧ (key, t) ∈ fs ∧ (t = ZLiteral d ∨ ∃ v, t = ZDefault (ZLiteral d) v).
Proof.
  destruct s; try discriminate. cbn. destruct (obj_get key fields) as [t|] eqn:E; [|done]. apply obj_get_elem in E.
  intros Hd. exists fields, t. split; [done|]. split; [done|]. destruct t as [| | | | | | |l| | | | | | | | | | | |[]|];
    try discriminate Hd; injection Hd as ->; eauto.
Qed.

(** An accepted object has the literal or leaves it out. *)
Lemma discriminator_required key s d props :
  discriminator key s = Some d → accepts s (VObj props) →
  is_literal d (default VUndefined (obj_get key props)) = true ∨ obj_get key props = None ∨ obj_get key props = Some VUndefined.
Proof.
  intros (fs & t & -> & Hin & Ht)%discriminator_field [w Hw]. rewrite safeParse_spec in Hw. cbn [zod_step] in Hw.
  destruct (parse_fields _ fs props) as [ws|] eqn:E; [|done].
  destruct (parse_fields_each fs props ws (key, t) E Hin) as [x Hx]. cbn [fst snd] in Hx. rewrite safeParse_spec in Hx.
  destruct Ht as [->|[v ->]]; cbn [zod_step] in Hx.
  - left. by destruct (is_literal _ _).
  - destruct (obj_get key props) as [y|]; [|by auto]. cbn [default from_option id] in *.
    destruct (is_undefined y) eqn:Ey; [destruct y; try discriminate Ey; by auto|]. left.
    rewrite safeParse_spec in Hx. cbn [zod_step] in Hx. by destruct (is_literal d y).
Qed.

(** An answered object has it. *)
Lemma discriminator_answered key s d v w :
  discriminator key s = Some d → stable s = true → safeParse s v = Some w →
  ∃ props ws, v = VObj props ∧ w = VObj ws ∧ is_literal d (default VUndefined (obj_get key ws)) = true
    ∧ (is_literal d (default VUndefined (obj_get key props)) = true →
       default VUndefined (obj_get key ws) = default VUndefined (obj_get key props)).
Proof.
  intros (fs & t & -> & Hin & Ht)%discriminator_field Hst Hp. rewrite safeParse_spec in Hp. cbn [zod_step] in Hp.
  destruct v as [| | | | | | | | | | | |props|]; try discriminate Hp.
  destruct (parse_fields _ fs props) as [ws|] eqn:E; [|done]. injection Hp as <-. cbn [stable] in Hst.
  apply andb_prop in Hst as [Hst Hnd%bool_decide_eq_true]. rewrite forallb_true in Hst. specialize (Hst _ Hin). cbn [snd] in Hst.
  destruct (parse_fields_get fs props ws key t Hnd E Hin) as (x & Hx & Hk). exists props, ws. split; [done|]. split; [done|].
  rewrite Hk. rewrite safeParse_spec in Hx. destruct Ht as [->|[u ->]]; cbn [zod_step stable fixed] in Hx, Hst.
  - destruct (is_literal d _) eqn:El; [|done]. injection Hx as <-. by split.
  - apply andb_prop in Hst as [_ Hu]. destruct (is_undefined (default VUndefined (obj_get key props))) eqn:Eu.
    + injection Hx as <-. split; [done|]. intros Hl. destruct (default _ _); try discriminate Eu. by destruct d.
    + rewrite safeParse_spec in Hx. cbn [zod_step] in Hx. destruct (is_literal d (default VUndefined (obj_get key props))) eqn:El; [|done].
      cbn [mbind option_bind] in Hx. rewrite Eu in Hx. injection Hx as <-. by split.
Qed.

Lemma parse_options_elem l v w : parse_options safeParse l v = Some w → ∃ s, s ∈ l ∧ safeParse s v = Some w.
Proof.
  induction l as [|s l IH]; [done|]. cbn [parse_options]. destruct (safeParse s v) as [x|] eqn:E.
  - intros [= ->]. exists s. split; [left|done].
  - intros Hp. destruct (IH Hp) as (t & Ht & Hv). exists t. split; [by right|done].
Qed.

Lemma parse_options_again key l ts v w :
  Forall2 (λ s d, discriminator key s = Some d) l ts → NoDup ts →
  (∀ s, s ∈ l → stable s = true) → (∀ s, s ∈ l → parses_again s) →
  parse_options safeParse l v = Some w → parse_options safeParse l w = Some w.
Proof.
  induction 1 as [|s d l ts Hd Hts IH]; intros Hnd Hst Hs Hp; [done|]. cbn [parse_options] in *.
  apply NoDup_cons in Hnd as [Hnin Hnd]. destruct (safeParse s v) as [w'|] eqn:E.
  { injection Hp as ->. rewrite (Hs s ltac:(left) v w E). done. }
  enough (safeParse s w = None) as ->.
  { apply IH; [done|intros t Ht; apply Hst; by right|intros t Ht; apply Hs; by right|done]. }
  destruct (parse_options_elem l v w Hp) as (t & Hin & Htw).
  apply list_elem_of_lookup_1 in Hin as [i Hi]. destruct (Forall2_lookup_l _ _ _ _ _ Hts Hi) as (dt & Hdt & Hdis).
  apply list_elem_of_lookup_2 in Hi. apply list_elem_of_lookup_2 in Hdt.
  destruct (discriminator_answered key t dt v w Hdis (Hst t ltac:(by right)) Htw) as (props & ws & -> & -> & Hlit & _).
  destruct (safeParse s (VObj ws)) as [x|] eqn:Ex; [|done].
  destruct (discriminator_required key s d ws Hd) as [Hl|[Hl|Hl]]; [by exists x| | |].
  - by rewrite (is_literal_unique d dt _ Hl Hlit) in Hnin.
  - rewrite Hl in Hlit. by destruct dt.
  - rewrite Hl in Hlit. by destruct dt.
Qed.

Lemma parses_again_all s : stable s = true → parses_again s.
Proof.
  induction s using schema_nested_ind; intros Hst v w Hp; pose proof Hp as Hp'; rewrite safeParse_spec in Hp |- *;
    cbn [zod_step stable] in *;
    try (rewrite safeParse_spec in Hp'; cbn [zod_step] in Hp'; repeat case_match; congruence).
  - (* array *) destruct v as [| | | | | | | | | | |l| |]; try discriminate Hp. destruct (mapM _ l) as [ws|] eqn:E; [|done].
    injection Hp as <-. rewrite (mapM_again s l ws); [done| |done]. intros x y _. by apply IHs.
  - (* record *) destruct v as [| | | | | | | | | | | |l|]; try discriminate Hp. apply andb_prop in Hst as [Hk Hs].
    destruct (parse_entries _ _ _ l) as [ws|] eqn:E; [|done]. injection Hp as <-. rewrite (parse_entries_again s1 s2 l); auto.
  - (* union *) apply andb_prop in Hst as [Hst Hl].
    rewrite forallb_true in Hst. rewrite Forall_forall in H.
    destruct (forallb atomic l) eqn:Ha.
    + rewrite forallb_true in Ha. destruct (parse_options_elem l v w Hp) as (s & Hin & Hs).
      pose proof (atomic_same s v w (Ha _ Hin) Hs) as ->.
      apply parse_options_fixed; [done|]. exists s. split; [done|by exists v].
    + unfold tagged in Hl. destruct l as [|s l]; [done|]. apply existsb_true in Hl as (key & _ & Hl).
      unfold tagged_by in Hl. destruct (mapM _ (s :: l)) as [ts|] eqn:Hts; [|done]. apply mapM_Some_1 in Hts.
      apply bool_decide_eq_true in Hl. apply (parse_options_again key (s :: l) ts v w); auto.
  - (* discriminated union *) destruct v as [| | | | | | | | | | | |props|]; try discriminate Hp.
    destruct (find_first _ l) as [s|] eqn:E; [|done]. cbn [mbind option_bind] in Hp.
    pose proof (find_first_Some _ _ _ E) as [Hd Hin]. rewrite forallb_true in Hst. specialize (Hst _ Hin).
    destruct (discriminator k s) as [d|] eqn:Hdis; [|done].
    destruct (discriminator_answered k s d _ w Hdis Hst Hp) as (props' & ws & [= <-] & -> & _ & Hsame).
    rewrite (Hsame Hd), E. cbn [mbind option_bind]. rewrite Forall_forall in H. by apply (H s Hin Hst (VObj props)).
  - (* object *) destruct v as [| | | | | | | | | | | |props|]; try discriminate Hp.
    destruct (parse_fields _ fs props) as [ws|] eqn:E; [|done]. injection Hp as <-.
    apply andb_prop in Hst as [Hst Hnd%bool_decide_eq_true]. rewrite forallb_true in Hst. rewrite Forall_forall in H.
    rewrite (parse_fields_again fs props ws); [done|done| |done|done]. intros f w Hf. apply H; auto.
  - (* nullish *) destruct (nullish v) eqn:E; [injection Hp as <-; by rewrite E|]. destruct (nullish w); [done|]. by apply (IHs Hst v).
  - (* nullable *) assert (safeParse s v = Some w ∨ w = VNull) as [Hw| ->]; [destruct v; auto; right; congruence| |done].
    destruct w; try done; by apply (IHs Hst v).
  - (* optional *) destruct (is_undefined v) eqn:E; [injection Hp as <-; by rewrite E|].
    destruct (is_undefined w); [done|]. by apply (IHs Hst v).
  - (* default *) apply andb_prop in Hst as [[Hst Hd]%andb_prop Hf]. apply negb_true_iff in Hd.
    assert (w = d ∨ safeParse s v = Some w ∧ is_undefined w = false) as [->|[Hw Hu]].
    { destruct (is_undefined v); [left; congruence|]. destruct (safeParse s v) as [x|] eqn:E; [|done]. cbn in Hp.
      injection Hp as <-. destruct (is_undefined x) eqn:Ex; auto. }
    + rewrite Hd, (fixed_parses _ _ Hf). cbn. by rewrite Hd.
    + rewrite Hu, (IHs Hst v w Hw). cbn. by rewrite Hu.
  - (* readonly *) by apply (IHs Hst v).
Qed.
End stable.

(** ** The schemas of the API *)

Definition unstable : list jstr :=
  ["RateLimitRuleRequest"; "RateLimitUpdateRequest"; "UpdateUserRateLimitsApiV1AdminRateLimitsUserIdPutBody"]%js.

Definition api_stable (e : jstr * schema * ts_type) : bool :=
  let '(name, s, _) := e in if stable s then true else existsb (jeqb name) unstable.

Lemma api_schemas_stable : forallb api_stable api_schemas = true.
Proof. vm_compute. reflexivity. Qed.

Definition schema_name (e : jstr * schema * ts_type) : jstr := e.1.1.
Lemma api_names : bool_decide (NoDup (map schema_name api_schemas)) = true.
Proof. vm_compute. reflexivity. Qed.

Section api.
Context {zod : Zod}.

Lemma api_parses_again name s t : (name, s, t) ∈ api_schemas → name ∉ unstable → parses_again s.
Proof.
  intros Hin Hn. pose proof api_schemas_stable as H. rewrite forallb_true in H. specialize (H _ Hin). unfold api_stable in H.
  destruct (stable s) eqn:E; [by apply parses_again_all|]. apply existsb_true in H as (n & Hu & ->%jeqb_eq). done.
Qed.

Lemma api_schema_unique name s t s' t' :
  (name, s, t) ∈ api_schemas → (name, s', t') ∈ api_schemas → s = s'.
Proof.
  pose proof (bool_decide_eq_true_1 _ api_names) as Hnd. intros H1 H2.
  apply list_elem_of_lookup_1 in H1 as [i Hi]. apply list_elem_of_lookup_1 in H2 as [j Hj].
  assert (i = j) as ->; [|congruence].
  eapply (NoDup_lookup _ i j name Hnd); unfold schema_name; rewrite list_lookup_fmap; [by rewrite Hi|by rewrite Hj].
Qed.

Definition default_rules : jsval := VObj [("rules"%js, VArr [VObj []])].

Lemma rule_refused : ∃ v w, safeParse zRateLimitRuleRequest v = Some w ∧ safeParse zRateLimitRuleRequest w = None.
Proof.
  exists (VObj []). eexists. split; [rewrite safeParse_reference; vm_compute; reflexivity|].
  rewrite safeParse_reference. vm_compute. reflexivity.
Qed.

Lemma rules_refused : ∃ v w, safeParse zRateLimitUpdateRequest v = Some w ∧ safeParse zRateLimitUpdateRequest w = None.
Proof.
  exists default_rules. eexists. split; [rewrite safeParse_reference; vm_compute; reflexivity|].
  rewrite safeParse_reference. vm_compute. reflexivity.
Qed.

(** C13. Data that a schema answered is left alone when it is parsed again: for every schema of the
    API but those of a rate-limit rule, whatever value is parsed, the answer parses to itself.  The
    three exceptions are real: each answers some data that it then refuses. *)
Theorem answers_parse_again name s t :
  (name, s, t) ∈ api_schemas →
  (name ∉ unstable → ∀ v w, safeParse s v = Some w → safeParse s w = Some w)
  ∧ (name ∈ unstable → ∃ v w, safeParse s v = Some w ∧ safeParse s w = None).
Proof.
  intros Hin. split; [by apply (api_parses_again name s t)|]. intros Hn.
  repeat (apply elem_of_cons in Hn as [->|Hn]).
  - rewrite (api_schema_unique _ _ _ zRateLimitRuleRequest RateLimitRuleRequest Hin); [apply rule_refused|].
    apply (list_elem_of_lookup_2 _ 74). reflexivity.
  - rewrite (api_schema_unique _ _ _ zRateLimitUpdateRequest RateLimitUpdateRequest Hin); [apply rules_refused|].
    apply (list_elem_of_lookup_2 _ 77). reflexivity.
  - rewrite (api_schema_unique _ _ _ zUpdateUserRateLimitsApiV1AdminRateLimitsUserIdPutBody
               (ts_field "body"%js UpdateUserRateLimitsApiV1AdminRateLimitsUserIdPutData) Hin); [apply rules_refused|].
    apply (list_elem_of_lookup_2 _ 205). reflexivity.
  - by apply not_elem_of_nil in Hn.
Qed.
End api.

Lemma answers_parse_again_witness :
  ("UserSettings"%js ∉ unstable → ∀ v w, @safeParse example_zod zUserSettings v = Some w → @safeParse example_zod zUserSettings w = Some w)
  ∧ ("UserSettings"%js ∈ unstable → ∃ v w, @safeParse example_zod zUserSettings v = Some w ∧ @safeParse example_zod zUserSettings w = None).
Proof.
  apply (@answers_parse_again example_zod "UserSettings" zUserSettings UserSettings).
  apply (list_elem_of_lookup_2 _ 133). reflexivity.
Defined.
