(* ===== verification/Faker.v ===== *)
(** * Fake data, the means

    What the functions of [lib/api/@faker-js/faker.gen.ts] are made of: its
    options, [resolveCondition], and the forms its expressions take, each as a
    combinator.  The functions are in [ApiFakes], what they promise in [FakeSpec].

    The library [@faker-js/faker] is the class [Faker]: a generator of random
    numbers and what is drawn from it.  The instance is [options?.faker ?? faker],
    the same all through a call; its state is threaded through the draws, in the
    order the code makes them. *)

From S2P Require Import Prelude JsString JsValue.

Class Faker := {
  rng : Type;
  datatype_boolean : option jsnum → rng → bool * rng; (* [{ probability }] *)
  string_sample : rng → jstr * rng;
  string_alpha : Z → Z → rng → jstr * rng; (* [{ length: { min, max } }] *)
  number_int : option Z → option Z → rng → Z * rng; (* [min] and [max] *)
  number_float : option Z → rng → (Z * Z) * rng; (* [min]; the decimal [m * 10^e] *)
  date_recent : rng → jstr * rng; (* as [toISOString()] writes it *)
  internet_username : rng → jstr * rng;
  internet_email : rng → jstr * rng;
  internet_password : rng → jstr * rng;
  internet_ip : rng → jstr * rng;
  internet_userAgent : rng → jstr * rng;
  location_state : rng → jstr * rng;
  location_timeZone : rng → jstr * rng;
  lorem_sentence : rng → jstr * rng;
  lorem_words : rng → jstr * rng;
  helpers_fromRegExp : jstr → rng → jstr * rng;
  helpers_arrayElement : list jsval → rng → jsval * rng;
  helpers_multiple : (rng → jsval * rng) → rng → list jsval * rng;
}.

(** [boolean | number]. *)
Inductive condition := Always (b : bool) | Probability (p : jsnum).

(** The options of a fake, [undefined] for one that is not given. *)
Record Options := mkOptions {
  includeOptional : option condition;
  useDefault : option condition;
}.

Definition no_options : Options := mkOptions None None.

Section faker.
Context `{Faker}.

Definition resolveCondition (c : condition) (r : rng) : bool * rng :=
  match c with
  | Always b => (b, r)
  | Probability p => datatype_boolean (Some p) r
  end.

(** A function of the module, or an expression of one. *)
Definition Fake := Options → rng → jsval * rng.

(** ** Draws *)

Definition text (draw : rng → jstr * rng) : Fake := λ _ r, let '(s, r) := draw r in (VStr s, r).
Definition f_boolean : Fake := λ _ r, let '(b, r) := datatype_boolean None r in (VBool b, r).
Definition f_int (min max : option Z) : Fake := λ _ r, let '(z, r) := number_int min max r in (VInt z, r).
Definition f_float (min : option Z) : Fake := λ _ r, let '((m, e), r) := number_float min r in (VNum (Dec m e), r).
Definition f_alpha (min max : Z) : Fake := text (string_alpha min max).
Definition f_sample : Fake := text string_sample.
Definition f_date : Fake := text date_recent.

(** ** Expressions *)

Definition constant (v : jsval) : Fake := λ _ r, (v, r).

(** [f.datatype.boolean() ? g : null] *)
Definition nullable (g : Fake) : Fake := λ o r,
  let '(b, r) := datatype_boolean None r in if b then g o r else (VNull, r).

(** [resolveCondition(options?.useDefault ?? false, f) ? v : g] *)
Definition default_or (v : jsval) (g : Fake) : Fake := λ o r,
  let '(b, r) := resolveCondition (default (Always false) (useDefault o)) r in
  if b then (v, r) else g o r.

(** [f.helpers.multiple(() => g)] *)
Definition multiple (g : Fake) : Fake := λ o r,
  let '(l, r) := helpers_multiple (g o) r in (VArr l, r).

(** The items of an array literal, evaluated in their order. *)
Fixpoint items (gs : list Fake) (o : Options) (r : rng) : list jsval * rng :=
  match gs with
  | [] => ([], r)
  | g :: gs => let '(v, r) := g o r in let '(vs, r) := items gs o r in (v :: vs, r)
  end.

(** [f.helpers.arrayElement([...])] *)
Definition arrayElement (gs : list Fake) : Fake := λ o r,
  let '(vs, r) := items gs o r in helpers_arrayElement vs r.

(** A member of an object literal, or the spread of an object that has the member only when optional
    ones are included: [...!resolveCondition(options?.includeOptional ?? true, f) ? {} : { k: g }]. *)
Inductive member := Member (k : jstr) (g : Fake) | Optional (k : jstr) (g : Fake).

Definition included (o : Options) (r : rng) : bool * rng :=
  resolveCondition (default (Always true) (includeOptional o)) r.

Fixpoint members (ms : list member) (o : Options) (props : list (jstr * jsval)) (r : rng)
  : list (jstr * jsval) * rng :=
  match ms with
  | [] => (props, r)
  | Member k g :: ms => let '(v, r) := g o r in members ms o (obj_set k v props) r
  | Optional k g :: ms =>
      let '(b, r) := included o r in
      if b then let '(v, r) := g o r in members ms o (obj_set k v props) r
      else members ms o props r
  end.

Definition object (ms : list member) : Fake := λ o r,
  let '(props, r) := members ms o [] r in (VObj props, r).

(** [!resolveCondition(options?.includeOptional ?? true, f) ? {} : g], a whole object. *)
Definition or_empty (g : Fake) : Fake := λ o r,
  let '(b, r) := included o r in if b then g o r else (VObj [], r).
End faker.

(** The combinators are not unfolded to find how a fake is built. *)
#[export] Hint Opaque text f_boolean f_int f_float f_alpha f_sample f_date constant nullable default_or multiple
  arrayElement object or_empty : typeclass_instances.
