(* ===== verification/ApiFakes.v ===== *)
(** * The fakes of the API

    [lib/api/@faker-js/faker.gen.ts], function by function: [Definition fakeX] is
    the function [fakeX] of the source. *)

From S2P Require Import Prelude JsString JsValue Faker.

Open Scope Z_scope.

Section fakes.
Context `{Faker}.

Definition fakeBodyLoginApiV1AuthLoginPost : Fake :=
  object [
    Optional "grant_type"%js (nullable (text (helpers_fromRegExp "^password$"%js)));
    Member "username"%js (text internet_username);
    Member "password"%js (text internet_password);
    Optional "scope"%js (default_or (VStr ""%js) f_sample);
    Optional "client_id"%js (nullable f_sample);
    Optional "client_secret"%js (nullable f_sample)].

Definition fakeCancelStatus : Fake :=
  arrayElement (map (λ s, constant (VStr s)) ["already_cancelled"%js; "cancellation_requested"%js]).

Definition fakeCancelResponse : Fake :=
  object [
    Member "execution_id"%js f_sample;
    Member "status"%js fakeCancelStatus;
    Member "message"%js f_sample;
    Member "event_id"%js (nullable f_sample)].

Definition fakeContainerStatusInfo : Fake :=
  object [
    Member "name"%js f_sample;
    Optional "ready"%js (default_or (VBool false) f_boolean);
    Optional "restart_count"%js (default_or (VInt 0) (f_int None None));
    Optional "state"%js (default_or (VStr "unknown"%js) (text location_state))].

Definition fakeDeleteNotificationResponse : Fake :=
  object [
    Member "message"%js f_sample].

Definition fakeDeleteResponse : Fake :=
  object [
    Member "message"%js f_sample;
    Member "execution_id"%js f_sample].

Definition fakeDeleteUserResponse : Fake :=
  object [
    Member "user_deleted"%js f_boolean;
    Member "executions"%js (default_or (VInt 0) (f_int None None));
    Member "saved_scripts"%js (default_or (VInt 0) (f_int None None));
    Member "notifications"%js (default_or (VInt 0) (f_int None None));
    Member "user_settings"%js (default_or (VInt 0) (f_int None None));
    Member "events"%js (default_or (VInt 0) (f_int None None))].

Definition fakeDerivedCounts : Fake :=
  object [
    Member "succeeded"%js (default_or (VInt 0) (f_int None None));
    Member "failed"%js (default_or (VInt 0) (f_int None None));
    Member "timeout"%js (default_or (VInt 0) (f_int None None));
    Member "cancelled"%js (default_or (VInt 0) (f_int None None));
    Member "terminal_total"%js (default_or (VInt 0) (f_int None None))].

Definition fakeEditorSettingsInput : Fake :=
  object [
    Optional "font_size"%js (default_or (VInt 14) (f_int (Some 8) (Some 32)));
    Optional "tab_size"%js (default_or (VInt 4) (arrayElement [(constant (VInt 2)); (constant
      (VInt 4)); (constant (VInt 8))]));
    Optional "use_tabs"%js (default_or (VBool false) f_boolean);
    Optional "word_wrap"%js (default_or (VBool true) f_boolean);
    Optional "show_line_numbers"%js (default_or (VBool true) f_boolean)].

Definition fakeEditorSettingsOutput : Fake :=
  object [
    Member "font_size"%js (default_or (VInt 14) (f_int (Some 8) (Some 32)));
    Member "tab_size"%js (default_or (VInt 4) (arrayElement [(constant (VInt 2)); (constant
      (VInt 4)); (constant (VInt 8))]));
    Member "use_tabs"%js (default_or (VBool false) f_boolean);
    Member "word_wrap"%js (default_or (VBool true) f_boolean);
    Member "show_line_numbers"%js (default_or (VBool true) f_boolean)].

Definition fakeEndpointGroup : Fake :=
  arrayElement (map (λ s, constant (VStr s)) ["execution"%js; "admin"%js; "sse"%js; "websocket"%js;
      "auth"%js; "public"%js; "api"%js]).

Definition fakeEnvironment : Fake :=
  arrayElement (map (λ s, constant (VStr s)) ["development"%js; "staging"%js; "production"%js;
      "test"%js]).

Definition fakeErrorResponse : Fake :=
  object [
    Member "status"%js (f_int None None);
    Member "detail"%js f_sample].

Definition fakeEventDeleteResponse : Fake :=
  object [
    Member "message"%js f_sample;
    Member "event_id"%js f_sample].

Definition fakeEventMetadata : Fake :=
  object [
    Member "service_name"%js f_sample;
    Member "service_version"%js f_sample;
    Member "user_id"%js f_sample;
    Optional "environment"%js fakeEnvironment].

Definition fakeAuthFailedEvent : Fake :=
  object [
    Member "event_id"%js f_sample;
    Member "event_type"%js (constant (VStr "auth_failed"%js));
    Member "event_version"%js (default_or (VStr "1.0"%js) f_sample);
    Member "timestamp"%js f_date;
    Optional "aggregate_id"%js (nullable f_sample);
    Member "metadata"%js fakeEventMetadata;
    Optional "username"%js (nullable (text internet_username));
    Optional "reason"%js f_sample;
    Optional "ip_address"%js (nullable (text internet_ip))].

Definition fakeEventReplayRequest : Fake :=
  object [
    Optional "event_ids"%js (nullable (multiple f_sample));
    Optional "aggregate_id"%js (nullable f_sample);
    Optional "start_time"%js (nullable f_date);
    Optional "end_time"%js (nullable f_date);
    Optional "dry_run"%js (default_or (VBool true) f_boolean)].

Definition fakeEventType : Fake :=
  arrayElement (map (λ s, constant (VStr s)) ["execution_requested"%js; "execution_accepted"%js;
      "execution_queued"%js; "execution_started"%js; "execution_running"%js;
      "execution_completed"%js; "execution_failed"%js; "execution_timeout"%js;
      "execution_cancelled"%js; "pod_created"%js; "pod_scheduled"%js; "pod_running"%js;
      "pod_succeeded"%js; "pod_failed"%js; "pod_terminated"%js; "pod_deleted"%js;
      "user_registered"%js; "user_login"%js; "user_logged_in"%js; "user_logged_out"%js;
      "user_updated"%js; "user_deleted"%js; "user_settings_updated"%js; "notification_created"%js;
      "notification_sent"%js; "notification_delivered"%js; "notification_failed"%js;
      "notification_read"%js; "notification_all_read"%js; "notification_clicked"%js;
      "notification_preferences_updated"%js; "script_saved"%js; "script_deleted"%js;
      "script_shared"%js; "security_violation"%js; "rate_limit_exceeded"%js; "auth_failed"%js;
      "resource_limit_exceeded"%js; "quota_exceeded"%js; "system_error"%js; "service_unhealthy"%js;
      "service_recovered"%js; "result_stored"%js; "result_failed"%js; "dlq_message_received"%js;
      "dlq_message_retried"%js; "dlq_message_discarded"%js]).

Definition fakeDlqMessageDiscardedEvent : Fake :=
  object [
    Member "event_id"%js f_sample;
    Member "event_type"%js (constant (VStr "dlq_message_discarded"%js));
    Member "event_version"%js (default_or (VStr "1.0"%js) f_sample);
    Member "timestamp"%js f_date;
    Optional "aggregate_id"%js (nullable f_sample);
    Member "metadata"%js fakeEventMetadata;
    Optional "dlq_event_id"%js f_sample;
    Optional "original_topic"%js f_sample;
    Optional "original_event_type"%js fakeEventType;
    Optional "reason"%js f_sample;
    Optional "retry_count"%js (f_int None None)].

Definition fakeDlqMessageReceivedEvent : Fake :=
  object [
    Member "event_id"%js f_sample;
    Member "event_type"%js (constant (VStr "dlq_message_received"%js));
    Member "event_version"%js (default_or (VStr "1.0"%js) f_sample);
    Member "timestamp"%js f_date;
    Optional "aggregate_id"%js (nullable f_sample);
    Member "metadata"%js fakeEventMetadata;
    Optional "dlq_event_id"%js f_sample;
    Optional "original_topic"%js f_sample;
    Optional "original_event_type"%js fakeEventType;
    Optional "error"%js f_sample;
    Optional "retry_count"%js (f_int None None);
    Optional "producer_id"%js f_sample;
    Optional "failed_at"%js f_date].

Definition fakeDlqMessageRetriedEvent : Fake :=
  object [
    Member "event_id"%js f_sample;
    Member "event_type"%js (constant (VStr "dlq_message_retried"%js));
    Member "event_version"%js (default_or (VStr "1.0"%js) f_sample);
    Member "timestamp"%js f_date;
    Optional "aggregate_id"%js (nullable f_sample);
    Member "metadata"%js fakeEventMetadata;
    Optional "dlq_event_id"%js f_sample;
    Optional "original_topic"%js f_sample;
    Optional "original_event_type"%js fakeEventType;
    Optional "retry_count"%js (f_int None None);
    Optional "retry_topic"%js f_sample].

Definition fakeEventFilter : Fake :=
  object [
    Optional "event_types"%js (nullable (multiple fakeEventType));
    Optional "aggregate_id"%js (nullable f_sample);
    Optional "user_id"%js (nullable f_sample);
    Optional "start_time"%js (nullable f_date);
    Optional "end_time"%js (nullable f_date);
    Optional "service_name"%js (nullable f_sample);
    Optional "search_text"%js (nullable f_sample)].

Definition fakeEventBrowseRequest : Fake :=
  object [
    Member "filters"%js fakeEventFilter;
    Optional "skip"%js (default_or (VInt 0) (f_int None None));
    Optional "limit"%js (default_or (VInt 50) (f_int None (Some 500)))].

Definition fakeEventSummary : Fake :=
  object [
    Member "event_id"%js f_sample;
    Member "event_type"%js fakeEventType;
    Member "timestamp"%js f_date;
    Optional "aggregate_id"%js (nullable f_sample)].

Definition fakeEventTypeCount : Fake :=
  object [
    Member "event_type"%js fakeEventType;
    Member "count"%js (f_int (Some 0) (Some 1000))].

Definition fakeExampleScripts : Fake :=
  object [
    Member "scripts"%js (or_empty (object [
    Member "additionalProp"%js f_sample]))].

Definition fakeExecutionCancelledEvent : Fake :=
  object [
    Member "event_id"%js f_sample;
    Member "event_type"%js (constant (VStr "execution_cancelled"%js));
    Member "event_version"%js (default_or (VStr "1.0"%js) f_sample);
    Member "timestamp"%js f_date;
    Optional "aggregate_id"%js (nullable f_sample);
    Member "metadata"%js fakeEventMetadata;
    Optional "execution_id"%js f_sample;
    Optional "cancelled_by"%js f_sample;
    Optional "force_terminated"%js (default_or (VBool false) f_boolean)].

Definition fakeExecutionErrorType : Fake :=
  arrayElement (map (λ s, constant (VStr s)) ["system_error"%js; "timeout"%js; "resource_limit"%js;
      "script_error"%js; "permission_denied"%js]).

Definition fakeExecutionQueuedEvent : Fake :=
  object [
    Member "event_id"%js f_sample;
    Member "event_type"%js (constant (VStr "execution_queued"%js));
    Member "event_version"%js (default_or (VStr "1.0"%js) f_sample);
    Member "timestamp"%js f_date;
    Optional "aggregate_id"%js (nullable f_sample);
    Member "metadata"%js fakeEventMetadata;
    Optional "execution_id"%js f_sample;
    Optional "position_in_queue"%js (nullable (f_int None None));
    Optional "estimated_start_time"%js (nullable f_date)].

Definition fakeExecutionRequest : Fake :=
  object [
    Member "script"%js (f_alpha 0 50000);
    Optional "lang"%js (default_or (VStr "python"%js) f_sample);
    Optional "lang_version"%js (default_or (VStr "3.14"%js) f_sample)].

Definition fakeExecutionRunningEvent : Fake :=
  object [
    Member "event_id"%js f_sample;
    Member "event_type"%js (constant (VStr "execution_running"%js));
    Member "event_version"%js (default_or (VStr "1.0"%js) f_sample);
    Member "timestamp"%js f_date;
    Optional "aggregate_id"%js (nullable f_sample);
    Member "metadata"%js fakeEventMetadata;
    Optional "execution_id"%js f_sample;
    Optional "pod_name"%js f_sample;
    Optional "progress_percentage"%js (nullable (f_int None None))].

Definition fakeExecutionStartedEvent : Fake :=
  object [
    Member "event_id"%js f_sample;
    Member "event_type"%js (constant (VStr "execution_started"%js));
    Member "event_version"%js (default_or (VStr "1.0"%js) f_sample);
    Member "timestamp"%js f_date;
    Optional "aggregate_id"%js (nullable f_sample);
    Member "metadata"%js fakeEventMetadata;
    Optional "execution_id"%js f_sample;
    Optional "pod_name"%js f_sample;
    Optional "node_name"%js (nullable f_sample);
    Optional "container_id"%js (nullable f_sample)].

Definition fakeExecutionStatus : Fake :=
  arrayElement (map (λ s, constant (VStr s)) ["queued"%js; "scheduled"%js; "running"%js;
      "completed"%js; "failed"%js; "timeout"%js; "cancelled"%js; "error"%js]).

Definition fakeExecutionResponse : Fake :=
  object [
    Member "execution_id"%js f_sample;
    Member "status"%js fakeExecutionStatus].

Definition fakeExportFormat : Fake :=
  arrayElement (map (λ s, constant (VStr s)) ["csv"%js; "json"%js]).

Definition fakeHourlyEventCount : Fake :=
  object [
    Member "hour"%js f_sample;
    Member "count"%js (f_int (Some 0) (Some 1000))].

Definition fakeLanguageInfo : Fake :=
  object [
    Member "versions"%js (multiple f_sample);
    Member "file_ext"%js f_sample].

Definition fakeLanguageLimits : Fake :=
  object [
    Member "cpu_limit"%js f_sample;
    Member "memory_limit"%js f_sample;
    Member "execution_timeout"%js (f_int None None)].

Definition fakeLivenessResponse : Fake :=
  object [
    Member "status"%js f_sample;
    Member "uptime_seconds"%js (f_int None None);
    Member "timestamp"%js f_date].

Definition fakeLoginMethod : Fake :=
  arrayElement (map (λ s, constant (VStr s)) ["password"%js; "oauth"%js; "sso"%js; "api_key"%js]).

Definition fakeMessageResponse : Fake :=
  object [
    Member "message"%js f_sample].

Definition fakeNotificationAllReadEvent : Fake :=
  object [
    Member "event_id"%js f_sample;
    Member "event_type"%js (constant (VStr "notification_all_read"%js));
    Member "event_version"%js (default_or (VStr "1.0"%js) f_sample);
    Member "timestamp"%js f_date;
    Optional "aggregate_id"%js (nullable f_sample);
    Member "metadata"%js fakeEventMetadata;
    Optional "user_id"%js f_sample;
    Optional "count"%js (f_int (Some 0) (Some 1000));
    Optional "read_at"%js f_date].

Definition fakeNotificationClickedEvent : Fake :=
  object [
    Member "event_id"%js f_sample;
    Member "event_type"%js (constant (VStr "notification_clicked"%js));
    Member "event_version"%js (default_or (VStr "1.0"%js) f_sample);
    Member "timestamp"%js f_date;
    Optional "aggregate_id"%js (nullable f_sample);
    Member "metadata"%js fakeEventMetadata;
    Optional "notification_id"%js f_sample;
    Optional "user_id"%js f_sample;
    Optional "clicked_at"%js f_date;
    Optional "action"%js (nullable f_sample)].

Definition fakeNotificationDeliveredEvent : Fake :=
  object [
    Member "event_id"%js f_sample;
    Member "event_type"%js (constant (VStr "notification_delivered"%js));
    Member "event_version"%js (default_or (VStr "1.0"%js) f_sample);
    Member "timestamp"%js f_date;
    Optional "aggregate_id"%js (nullable f_sample);
    Member "metadata"%js fakeEventMetadata;
    Optional "notification_id"%js f_sample;
    Optional "user_id"%js f_sample;
    Optional "delivered_at"%js f_date].

Definition fakeNotificationFailedEvent : Fake :=
  object [
    Member "event_id"%js f_sample;
    Member "event_type"%js (constant (VStr "notification_failed"%js));
    Member "event_version"%js (default_or (VStr "1.0"%js) f_sample);
    Member "timestamp"%js f_date;
    Optional "aggregate_id"%js (nullable f_sample);
    Member "metadata"%js fakeEventMetadata;
    Optional "notification_id"%js f_sample;
    Optional "user_id"%js f_sample;
    Optional "error"%js f_sample;
    Optional "retry_count"%js (default_or (VInt 0) (f_int None None))].

Definition fakeNotificationPreferencesUpdatedEvent : Fake :=
  object [
    Member "event_id"%js f_sample;
    Member "event_type"%js (constant (VStr "notification_preferences_updated"%js));
    Member "event_version"%js (default_or (VStr "1.0"%js) f_sample);
    Member "timestamp"%js f_date;
    Optional "aggregate_id"%js (nullable f_sample);
    Member "metadata"%js fakeEventMetadata;
    Optional "user_id"%js f_sample;
    Optional "changed_fields"%js (multiple f_sample)].

Definition fakeNotificationReadEvent : Fake :=
  object [
    Member "event_id"%js f_sample;
    Member "event_type"%js (constant (VStr "notification_read"%js));
    Member "event_version"%js (default_or (VStr "1.0"%js) f_sample);
    Member "timestamp"%js f_date;
    Optional "aggregate_id"%js (nullable f_sample);
    Member "metadata"%js fakeEventMetadata;
    Optional "notification_id"%js f_sample;
    Optional "user_id"%js f_sample;
    Optional "read_at"%js f_date].

Definition fakeNotificationSentEvent : Fake :=
  object [
    Member "event_id"%js f_sample;
    Member "event_type"%js (constant (VStr "notification_sent"%js));
    Member "event_version"%js (default_or (VStr "1.0"%js) f_sample);
    Member "timestamp"%js f_date;
    Optional "aggregate_id"%js (nullable f_sample);
    Member "metadata"%js fakeEventMetadata;
    Optional "notification_id"%js f_sample;
    Optional "user_id"%js f_sample;
    Optional "sent_at"%js f_date].

Definition fakeNotificationSettingsInput : Fake :=
  object [
    Optional "execution_completed"%js (default_or (VBool true) f_boolean);
    Optional "execution_failed"%js (default_or (VBool true) f_boolean)].

Definition fakeNotificationSettingsOutput : Fake :=
  object [
    Member "execution_completed"%js (default_or (VBool true) f_boolean);
    Member "execution_failed"%js (default_or (VBool true) f_boolean)].

Definition fakeNotificationSeverity : Fake :=
  arrayElement (map (λ s, constant (VStr s)) ["low"%js; "medium"%js; "high"%js; "urgent"%js]).

Definition fakeNotificationCreatedEvent : Fake :=
  object [
    Member "event_id"%js f_sample;
    Member "event_type"%js (constant (VStr "notification_created"%js));
    Member "event_version"%js (default_or (VStr "1.0"%js) f_sample);
    Member "timestamp"%js f_date;
    Optional "aggregate_id"%js (nullable f_sample);
    Member "metadata"%js fakeEventMetadata;
    Optional "notification_id"%js f_sample;
    Optional "user_id"%js f_sample;
    Optional "subject"%js f_sample;
    Optional "body"%js f_sample;
    Optional "severity"%js fakeNotificationSeverity;
    Optional "tags"%js (multiple f_sample)].

Definition fakeNotificationStatus : Fake :=
  arrayElement (map (λ s, constant (VStr s)) ["pending"%js; "queued"%js; "sending"%js;
      "delivered"%js; "failed"%js; "read"%js; "clicked"%js]).

Definition fakeNotificationResponse : Fake :=
  object [
    Member "notification_id"%js f_sample;
    Member "status"%js fakeNotificationStatus;
    Member "subject"%js f_sample;
    Member "body"%js f_sample;
    Member "action_url"%js f_sample;
    Member "created_at"%js f_date;
    Member "read_at"%js (nullable f_date);
    Member "severity"%js fakeNotificationSeverity;
    Member "tags"%js (multiple f_sample)].

Definition fakeNotificationListResponse : Fake :=
  object [
    Member "notifications"%js (multiple fakeNotificationResponse);
    Member "total"%js (f_int None None);
    Member "unread_count"%js (f_int None None)].

Definition fakePasswordResetRequest : Fake :=
  object [
    Member "new_password"%js (f_alpha 8 100)].

Definition fakePodCreatedEvent : Fake :=
  object [
    Member "event_id"%js f_sample;
    Member "event_type"%js (constant (VStr "pod_created"%js));
    Member "event_version"%js (default_or (VStr "1.0"%js) f_sample);
    Member "timestamp"%js f_date;
    Optional "aggregate_id"%js (nullable f_sample);
    Member "metadata"%js fakeEventMetadata;
    Optional "execution_id"%js f_sample;
    Optional "pod_name"%js f_sample;
    Optional "namespace"%js (default_or (VStr "default"%js) f_sample)].

Definition fakePodDeletedEvent : Fake :=
  object [
    Member "event_id"%js f_sample;
    Member "event_type"%js (constant (VStr "pod_deleted"%js));
    Member "event_version"%js (default_or (VStr "1.0"%js) f_sample);
    Member "timestamp"%js f_date;
    Optional "aggregate_id"%js (nullable f_sample);
    Member "metadata"%js fakeEventMetadata;
    Optional "execution_id"%js f_sample;
    Optional "pod_name"%js f_sample;
    Optional "reason"%js (nullable f_sample)].

Definition fakePodFailedEvent : Fake :=
  object [
    Member "event_id"%js f_sample;
    Member "event_type"%js (constant (VStr "pod_failed"%js));
    Member "event_version"%js (default_or (VStr "1.0"%js) f_sample);
    Member "timestamp"%js f_date;
    Optional "aggregate_id"%js (nullable f_sample);
    Member "metadata"%js fakeEventMetadata;
    Optional "execution_id"%js f_sample;
    Optional "pod_name"%js f_sample;
    Optional "exit_code"%js (default_or (VInt 1) (f_int None None));
    Optional "reason"%js (nullable f_sample);
    Optional "message"%js (nullable f_sample);
    Optional "stdout"%js (nullable f_sample);
    Optional "stderr"%js (nullable f_sample)].

Definition fakePodRunningEvent : Fake :=
  object [
    Member "event_id"%js f_sample;
    Member "event_type"%js (constant (VStr "pod_running"%js));
    Member "event_version"%js (default_or (VStr "1.0"%js) f_sample);
    Member "timestamp"%js f_date;
    Optional "aggregate_id"%js (nullable f_sample);
    Member "metadata"%js fakeEventMetadata;
    Optional "execution_id"%js f_sample;
    Optional "pod_name"%js f_sample;
    Optional "container_statuses"%js (multiple fakeContainerStatusInfo)].

Definition fakePodScheduledEvent : Fake :=
  object [
    Member "event_id"%js f_sample;
    Member "event_type"%js (constant (VStr "pod_scheduled"%js));
    Member "event_version"%js (default_or (VStr "1.0"%js) f_sample);
    Member "timestamp"%js f_date;
    Optional "aggregate_id"%js (nullable f_sample);
    Member "metadata"%js fakeEventMetadata;
    Optional "execution_id"%js f_sample;
    Optional "pod_name"%js f_sample;
    Optional "node_name"%js (default_or (VStr ""%js) f_sample)].

Definition fakePodSucceededEvent : Fake :=
  object [
    Member "event_id"%js f_sample;
    Member "event_type"%js (constant (VStr "pod_succeeded"%js));
    Member "event_version"%js (default_or (VStr "1.0"%js) f_sample);
    Member "timestamp"%js f_date;
    Optional "aggregate_id"%js (nullable f_sample);
    Member "metadata"%js fakeEventMetadata;
    Optional "execution_id"%js f_sample;
    Optional "pod_name"%js f_sample;
    Optional "exit_code"%js (default_or (VInt 0) (f_int None None));
    Optional "stdout"%js (nullable f_sample);
    Optional "stderr"%js (nullable f_sample)].

Definition fakePodTerminatedEvent : Fake :=
  object [
    Member "event_id"%js f_sample;
    Member "event_type"%js (constant (VStr "pod_terminated"%js));
    Member "event_version"%js (default_or (VStr "1.0"%js) f_sample);
    Member "timestamp"%js f_date;
    Optional "aggregate_id"%js (nullable f_sample);
    Member "metadata"%js fakeEventMetadata;
    Optional "execution_id"%js f_sample;
    Optional "pod_name"%js f_sample;
    Optional "exit_code"%js (default_or (VInt 0) (f_int None None));
    Optional "reason"%js (nullable f_sample);
    Optional "message"%js (nullable f_sample)].

Definition fakeQueuePriority : Fake :=
  arrayElement (map (λ s, constant (VStr s)) ["critical"%js; "high"%js; "normal"%js; "low"%js;
      "background"%js]).

Definition fakeAdminExecutionResponse : Fake :=
  object [
    Member "execution_id"%js f_sample;
    Member "script"%js f_sample;
    Member "status"%js fakeExecutionStatus;
    Member "lang"%js f_sample;
    Member "lang_version"%js f_sample;
    Member "stdout"%js (nullable f_sample);
    Member "stderr"%js (nullable f_sample);
    Member "exit_code"%js (nullable (f_int None None));
    Member "error_type"%js (nullable fakeExecutionErrorType);
    Member "priority"%js fakeQueuePriority;
    Member "user_id"%js (nullable f_sample);
    Member "created_at"%js f_date;
    Member "updated_at"%js f_date].

Definition fakeAdminExecutionListResponse : Fake :=
  object [
    Member "executions"%js (multiple fakeAdminExecutionResponse);
    Member "total"%js (f_int None None);
    Member "limit"%js (f_int None None);
    Member "skip"%js (f_int None None);
    Member "has_more"%js f_boolean].

Definition fakeExecutionAcceptedEvent : Fake :=
  object [
    Member "event_id"%js f_sample;
    Member "event_type"%js (constant (VStr "execution_accepted"%js));
    Member "event_version"%js (default_or (VStr "1.0"%js) f_sample);
    Member "timestamp"%js f_date;
    Optional "aggregate_id"%js (nullable f_sample);
    Member "metadata"%js fakeEventMetadata;
    Optional "execution_id"%js f_sample;
    Optional "queue_position"%js (f_int None None);
    Optional "estimated_wait_seconds"%js (nullable (f_float None));
    Optional "priority"%js fakeQueuePriority].

Definition fakeExecutionRequestedEvent : Fake :=
  object [
    Member "event_id"%js f_sample;
    Member "event_type"%js (constant (VStr "execution_requested"%js));
    Member "event_version"%js (default_or (VStr "1.0"%js) f_sample);
    Member "timestamp"%js f_date;
    Optional "aggregate_id"%js (nullable f_sample);
    Member "metadata"%js fakeEventMetadata;
    Optional "execution_id"%js f_sample;
    Optional "script"%js f_sample;
    Optional "language"%js f_sample;
    Optional "language_version"%js f_sample;
    Optional "runtime_image"%js f_sample;
    Optional "runtime_command"%js (multiple f_sample);
    Optional "runtime_filename"%js f_sample;
    Optional "timeout_seconds"%js (f_int None None);
    Optional "cpu_limit"%js f_sample;
    Optional "memory_limit"%js f_sample;
    Optional "cpu_request"%js f_sample;
    Optional "memory_request"%js f_sample;
    Optional "priority"%js fakeQueuePriority].

Definition fakePriorityUpdateRequest : Fake :=
  object [
    Member "priority"%js fakeQueuePriority].

Definition fakeQueueStatusResponse : Fake :=
  object [
    Member "queue_depth"%js (f_int None None);
    Member "active_count"%js (f_int None None);
    Member "max_concurrent"%js (f_int None None);
    Member "by_priority"%js (or_empty (object [
    Member "additionalProp"%js (f_int None None)]))].

Definition fakeQuotaExceededEvent : Fake :=
  object [
    Member "event_id"%js f_sample;
    Member "event_type"%js (constant (VStr "quota_exceeded"%js));
    Member "event_version"%js (default_or (VStr "1.0"%js) f_sample);
    Member "timestamp"%js f_date;
    Optional "aggregate_id"%js (nullable f_sample);
    Member "metadata"%js fakeEventMetadata;
    Optional "quota_type"%js f_sample;
    Optional "limit"%js (f_int None None);
    Optional "current_usage"%js (f_int None None);
    Optional "user_id"%js f_sample].

Definition fakeRateLimitAlgorithm : Fake :=
  arrayElement (map (λ s, constant (VStr s)) ["sliding_window"%js; "token_bucket"%js;
      "fixed_window"%js; "leaky_bucket"%js]).

Definition fakeEndpointUsageStats : Fake :=
  object [
    Member "algorithm"%js fakeRateLimitAlgorithm;
    Member "remaining"%js (f_int None None)].

Definition fakeRateLimitExceededEvent : Fake :=
  object [
    Member "event_id"%js f_sample;
    Member "event_type"%js (constant (VStr "rate_limit_exceeded"%js));
    Member "event_version"%js (default_or (VStr "1.0"%js) f_sample);
    Member "timestamp"%js f_date;
    Optional "aggregate_id"%js (nullable f_sample);
    Member "metadata"%js fakeEventMetadata;
    Optional "user_id"%js (nullable f_sample);
    Optional "endpoint"%js f_sample;
    Optional "limit"%js (f_int None None);
    Optional "window_seconds"%js (f_int None None)].

Definition fakeRateLimitRuleRequest : Fake :=
  object [
    Optional "endpoint_pattern"%js (default_or (VStr ""%js) (f_alpha 1 100));
    Optional "group"%js fakeEndpointGroup;
    Optional "requests"%js (default_or (VInt 60) (f_int (Some 1) None));
    Optional "window_seconds"%js (default_or (VInt 60) (f_int (Some 1) None));
    Optional "algorithm"%js fakeRateLimitAlgorithm;
    Optional "burst_multiplier"%js (default_or (VNum (Dec (15) (-1))) (f_float (Some 1)));
    Optional "priority"%js (default_or (VInt 0) (f_int None None));
    Optional "enabled"%js (default_or (VBool true) f_boolean)].

Definition fakeRateLimitRuleResponse : Fake :=
  object [
    Member "endpoint_pattern"%js f_sample;
    Member "group"%js fakeEndpointGroup;
    Member "requests"%js (f_int None None);
    Member "window_seconds"%js (f_int None None);
    Member "algorithm"%js fakeRateLimitAlgorithm;
    Member "burst_multiplier"%js (default_or (VNum (Dec (15) (-1))) (f_float None));
    Member "priority"%js (default_or (VInt 0) (f_int None None));
    Member "enabled"%js (default_or (VBool true) f_boolean)].

Definition fakeRateLimitSummary : Fake :=
  object [
    Member "bypass_rate_limit"%js f_boolean;
    Member "global_multiplier"%js (f_float None);
    Member "has_custom_limits"%js f_boolean].

Definition fakeRateLimitUpdateRequest : Fake :=
  object [
    Optional "bypass_rate_limit"%js (default_or (VBool false) f_boolean);
    Optional "global_multiplier"%js (default_or (VInt 1) (f_float (Some 0)));
    Optional "rules"%js (default_or (VArr []) (multiple fakeRateLimitRuleRequest));
    Optional "notes"%js (default_or (VStr ""%js) f_sample)].

Definition fakeReplayError : Fake :=
  object [
    Member "timestamp"%js f_date;
    Member "error"%js f_sample;
    Member "error_type"%js (nullable f_sample);
    Member "event_id"%js (nullable f_sample)].

Definition fakeReplayStatus : Fake :=
  arrayElement (map (λ s, constant (VStr s)) ["preview"%js; "scheduled"%js; "running"%js;
      "completed"%js; "failed"%js]).

Definition fakeEventReplayResponse : Fake :=
  object [
    Member "dry_run"%js f_boolean;
    Member "total_events"%js (f_int None None);
    Member "replay_id"%js f_sample;
    Member "session_id"%js (nullable f_sample);
    Member "status"%js fakeReplayStatus;
    Member "events_preview"%js (nullable (multiple fakeEventSummary))].

Definition fakeResourceLimitExceededEvent : Fake :=
  object [
    Member "event_id"%js f_sample;
    Member "event_type"%js (constant (VStr "resource_limit_exceeded"%js));
    Member "event_version"%js (default_or (VStr "1.0"%js) f_sample);
    Member "timestamp"%js f_date;
    Optional "aggregate_id"%js (nullable f_sample);
    Member "metadata"%js fakeEventMetadata;
    Optional "resource_type"%js f_sample;
    Optional "limit"%js (f_int None None);
    Optional "requested"%js (f_int None None);
    Optional "user_id"%js (nullable f_sample)].

Definition fakeResourceLimits : Fake :=
  object [
    Member "cpu_limit"%js f_sample;
    Member "memory_limit"%js f_sample;
    Member "cpu_request"%js f_sample;
    Member "memory_request"%js f_sample;
    Member "execution_timeout"%js (f_int None None);
    Member "supported_runtimes"%js (or_empty (object [
    Member "additionalProp"%js fakeLanguageInfo]));
    Member "language_limits"%js (or_empty (object [
    Member "additionalProp"%js fakeLanguageLimits]))].

Definition fakeResourceUsage : Fake :=
  object [
    Member "execution_time_wall_seconds"%js (default_or (VInt 0) (f_float None));
    Member "cpu_time_jiffies"%js (default_or (VInt 0) (f_int None None));
    Member "clk_tck_hertz"%js (default_or (VInt 0) (f_int None None));
    Member "peak_memory_kb"%js (default_or (VInt 0) (f_int None None))].

Definition fakeExecutionResult : Fake :=
  object [
    Member "execution_id"%js f_sample;
    Member "status"%js fakeExecutionStatus;
    Member "stdout"%js (nullable f_sample);
    Member "stderr"%js (nullable f_sample);
    Member "lang"%js f_sample;
    Member "lang_version"%js f_sample;
    Member "resource_usage"%js (nullable fakeResourceUsage);
    Member "exit_code"%js (nullable (f_int None None));
    Member "error_type"%js (nullable fakeExecutionErrorType);
    Member "priority"%js fakeQueuePriority].

Definition fakeEventReplayStatusResponse : Fake :=
  object [
    Member "session_id"%js f_sample;
    Member "status"%js fakeReplayStatus;
    Member "total_events"%js (f_int None None);
    Member "replayed_events"%js (f_int None None);
    Member "failed_events"%js (f_int None None);
    Member "skipped_events"%js (f_int None None);
    Member "replay_id"%js f_sample;
    Member "created_at"%js f_date;
    Member "started_at"%js (nullable f_date);
    Member "completed_at"%js (nullable f_date);
    Member "errors"%js (nullable (multiple fakeReplayError));
    Member "estimated_completion"%js (nullable f_date);
    Member "execution_results"%js (nullable (multiple fakeExecutionResult));
    Member "progress_percentage"%js (f_float None)].

Definition fakeExecutionListResponse : Fake :=
  object [
    Member "executions"%js (multiple fakeExecutionResult);
    Member "total"%js (f_int None None);
    Member "limit"%js (f_int None None);
    Member "skip"%js (f_int None None);
    Member "has_more"%js f_boolean].

Definition fakeResourceUsageDomain : Fake :=
  object [
    Optional "execution_time_wall_seconds"%js (default_or (VInt 0) (f_float None));
    Optional "cpu_time_jiffies"%js (default_or (VInt 0) (f_int None None));
    Optional "clk_tck_hertz"%js (default_or (VInt 0) (f_int None None));
    Optional "peak_memory_kb"%js (default_or (VInt 0) (f_int None None))].

Definition fakeExecutionCompletedEvent : Fake :=
  object [
    Member "event_id"%js f_sample;
    Member "event_type"%js (constant (VStr "execution_completed"%js));
    Member "event_version"%js (default_or (VStr "1.0"%js) f_sample);
    Member "timestamp"%js f_date;
    Optional "aggregate_id"%js (nullable f_sample);
    Member "metadata"%js fakeEventMetadata;
    Optional "execution_id"%js f_sample;
    Optional "exit_code"%js (f_int None None);
    Optional "resource_usage"%js fakeResourceUsageDomain;
    Optional "stdout"%js (default_or (VStr ""%js) f_sample);
    Optional "stderr"%js (default_or (VStr ""%js) f_sample)].

Definition fakeExecutionFailedEvent : Fake :=
  object [
    Member "event_id"%js f_sample;
    Member "event_type"%js (constant (VStr "execution_failed"%js));
    Member "event_version"%js (default_or (VStr "1.0"%js) f_sample);
    Member "timestamp"%js f_date;
    Optional "aggregate_id"%js (nullable f_sample);
    Member "metadata"%js fakeEventMetadata;
    Optional "execution_id"%js f_sample;
    Optional "exit_code"%js (default_or (VInt 1) (f_int None None));
    Optional "error_type"%js fakeExecutionErrorType;
    Optional "resource_usage"%js (nullable fakeResourceUsageDomain);
    Optional "stdout"%js (default_or (VStr ""%js) f_sample);
    Optional "stderr"%js (default_or (VStr ""%js) f_sample)].

Definition fakeExecutionTimeoutEvent : Fake :=
  object [
    Member "event_id"%js f_sample;
    Member "event_type"%js (constant (VStr "execution_timeout"%js));
    Member "event_version"%js (default_or (VStr "1.0"%js) f_sample);
    Member "timestamp"%js f_date;
    Optional "aggregate_id"%js (nullable f_sample);
    Member "metadata"%js fakeEventMetadata;
    Optional "execution_id"%js f_sample;
    Optional "timeout_seconds"%js (f_int None None);
    Optional "resource_usage"%js fakeResourceUsageDomain;
    Optional "stdout"%js (default_or (VStr ""%js) f_sample);
    Optional "stderr"%js (default_or (VStr ""%js) f_sample)].

Definition fakeRestoreSettingsRequest : Fake :=
  object [
    Member "timestamp"%js f_date;
    Optional "reason"%js (nullable f_sample)].

Definition fakeSseControlEvent : Fake :=
  constant (VStr "status"%js).

Definition fakeSseExecutionEventSchema : Fake :=
  object [
    Member "event_type"%js (arrayElement [fakeEventType; fakeSseControlEvent]);
    Member "execution_id"%js f_sample;
    Member "timestamp"%js (nullable f_date);
    Member "event_id"%js (nullable f_sample);
    Member "status"%js (nullable fakeExecutionStatus);
    Member "result"%js (nullable fakeExecutionResult)].

Definition fakeSavedScriptCreateRequest : Fake :=
  object [
    Member "name"%js f_sample;
    Member "script"%js f_sample;
    Optional "lang"%js (default_or (VStr "python"%js) f_sample);
    Optional "lang_version"%js (default_or (VStr "3.14"%js) f_sample);
    Optional "description"%js (nullable (text lorem_sentence))].

Definition fakeSavedScriptResponse : Fake :=
  object [
    Member "script_id"%js f_sample;
    Member "name"%js f_sample;
    Member "script"%js f_sample;
    Member "lang"%js f_sample;
    Member "lang_version"%js f_sample;
    Member "description"%js (nullable (text lorem_sentence));
    Member "created_at"%js f_date;
    Member "updated_at"%js f_date].

Definition fakeSavedScriptListResponse : Fake :=
  object [
    Member "scripts"%js (multiple fakeSavedScriptResponse)].

Definition fakeSavedScriptUpdate : Fake :=
  object [
    Optional "name"%js (nullable f_sample);
    Optional "script"%js (nullable f_sample);
    Optional "lang"%js (nullable f_sample);
    Optional "lang_version"%js (nullable f_sample);
    Optional "description"%js (nullable (text lorem_sentence));
    Optional "updated_at"%js f_date].

Definition fakeScriptDeletedEvent : Fake :=
  object [
    Member "event_id"%js f_sample;
    Member "event_type"%js (constant (VStr "script_deleted"%js));
    Member "event_version"%js (default_or (VStr "1.0"%js) f_sample);
    Member "timestamp"%js f_date;
    Optional "aggregate_id"%js (nullable f_sample);
    Member "metadata"%js fakeEventMetadata;
    Optional "script_id"%js f_sample;
    Optional "user_id"%js f_sample;
    Optional "deleted_by"%js (nullable f_sample)].

Definition fakeScriptSavedEvent : Fake :=
  object [
    Member "event_id"%js f_sample;
    Member "event_type"%js (constant (VStr "script_saved"%js));
    Member "event_version"%js (default_or (VStr "1.0"%js) f_sample);
    Member "timestamp"%js f_date;
    Optional "aggregate_id"%js (nullable f_sample);
    Member "metadata"%js fakeEventMetadata;
    Optional "script_id"%js f_sample;
    Optional "user_id"%js f_sample;
    Optional "title"%js (text lorem_words);
    Optional "language"%js f_sample].

Definition fakeScriptSharedEvent : Fake :=
  object [
    Member "event_id"%js f_sample;
    Member "event_type"%js (constant (VStr "script_shared"%js));
    Member "event_version"%js (default_or (VStr "1.0"%js) f_sample);
    Member "timestamp"%js f_date;
    Optional "aggregate_id"%js (nullable f_sample);
    Member "metadata"%js fakeEventMetadata;
    Optional "script_id"%js f_sample;
    Optional "shared_by"%js f_sample;
    Optional "shared_with"%js (multiple f_sample);
    Optional "permissions"%js f_sample].

Definition fakeSecurityViolationEvent : Fake :=
  object [
    Member "event_id"%js f_sample;
    Member "event_type"%js (constant (VStr "security_violation"%js));
    Member "event_version"%js (default_or (VStr "1.0"%js) f_sample);
    Member "timestamp"%js f_date;
    Optional "aggregate_id"%js (nullable f_sample);
    Member "metadata"%js fakeEventMetadata;
    Optional "user_id"%js (nullable f_sample);
    Optional "violation_type"%js f_sample;
    Optional "details"%js f_sample;
    Optional "ip_address"%js (nullable (text internet_ip))].

Definition fakeServiceEventCount : Fake :=
  object [
    Member "service_name"%js f_sample;
    Member "count"%js (f_int (Some 0) (Some 1000))].

Definition fakeServiceRecoveredEvent : Fake :=
  object [
    Member "event_id"%js f_sample;
    Member "event_type"%js (constant (VStr "service_recovered"%js));
    Member "event_version"%js (default_or (VStr "1.0"%js) f_sample);
    Member "timestamp"%js f_date;
    Optional "aggregate_id"%js (nullable f_sample);
    Member "metadata"%js fakeEventMetadata;
    Optional "service_name"%js f_sample;
    Optional "health_check"%js f_sample;
    Optional "downtime_seconds"%js (f_int None None)].

Definition fakeServiceUnhealthyEvent : Fake :=
  object [
    Member "event_id"%js f_sample;
    Member "event_type"%js (constant (VStr "service_unhealthy"%js));
    Member "event_version"%js (default_or (VStr "1.0"%js) f_sample);
    Member "timestamp"%js f_date;
    Optional "aggregate_id"%js (nullable f_sample);
    Member "metadata"%js fakeEventMetadata;
    Optional "service_name"%js f_sample;
    Optional "health_check"%js f_sample;
    Optional "reason"%js f_sample].

Definition fakeSettingsHistoryEntry : Fake :=
  object [
    Member "timestamp"%js f_date;
    Member "event_type"%js fakeEventType;
    Member "field"%js f_sample;
    Member "old_value"%js (constant VUndefined);
    Member "new_value"%js (constant VUndefined);
    Member "reason"%js (nullable f_sample)].

Definition fakeSettingsHistoryResponse : Fake :=
  object [
    Member "history"%js (multiple fakeSettingsHistoryEntry);
    Member "limit"%js (f_int None None)].

Definition fakeStorageType : Fake :=
  arrayElement (map (λ s, constant (VStr s)) ["database"%js; "s3"%js; "filesystem"%js; "redis"%js]).

Definition fakeResultFailedEvent : Fake :=
  object [
    Member "event_id"%js f_sample;
    Member "event_type"%js (constant (VStr "result_failed"%js));
    Member "event_version"%js (default_or (VStr "1.0"%js) f_sample);
    Member "timestamp"%js f_date;
    Optional "aggregate_id"%js (nullable f_sample);
    Member "metadata"%js fakeEventMetadata;
    Optional "execution_id"%js f_sample;
    Optional "storage_type"%js (nullable fakeStorageType)].

Definition fakeResultStoredEvent : Fake :=
  object [
    Member "event_id"%js f_sample;
    Member "event_type"%js (constant (VStr "result_stored"%js));
    Member "event_version"%js (default_or (VStr "1.0"%js) f_sample);
    Member "timestamp"%js f_date;
    Optional "aggregate_id"%js (nullable f_sample);
    Member "metadata"%js fakeEventMetadata;
    Optional "execution_id"%js f_sample;
    Optional "storage_type"%js (nullable fakeStorageType);
    Optional "storage_path"%js (default_or (VStr ""%js) f_sample);
    Optional "size_bytes"%js (default_or (VInt 0) (f_int None None))].

Definition fakeSystemErrorEvent : Fake :=
  object [
    Member "event_id"%js f_sample;
    Member "event_type"%js (constant (VStr "system_error"%js));
    Member "event_version"%js (default_or (VStr "1.0"%js) f_sample);
    Member "timestamp"%js f_date;
    Optional "aggregate_id"%js (nullable f_sample);
    Member "metadata"%js fakeEventMetadata;
    Optional "error_type"%js f_sample;
    Optional "message"%js f_sample;
    Optional "service_name"%js f_sample;
    Optional "stack_trace"%js (nullable f_sample)].

Definition fakeSystemSettingsSchemaInput : Fake :=
  object [
    Optional "max_timeout_seconds"%js (default_or (VInt 300) (f_int (Some 1) (Some 3600)));
    Optional "memory_limit"%js (default_or (VStr "512Mi"%js) f_sample);
    Optional "cpu_limit"%js (default_or (VStr "2000m"%js) f_sample);
    Optional "max_concurrent_executions"%js (default_or (VInt 10) (f_int (Some 1) (Some 100)));
    Optional "max_executions_per_user"%js (default_or (VInt 100) (f_int (Some 1) (Some 1000)));
    Optional "password_min_length"%js (default_or (VInt 8) (f_int (Some 8) (Some 32)));
    Optional "session_timeout_minutes"%js (default_or (VInt 60) (f_int (Some 5) (Some 1440)));
    Optional "max_login_attempts"%js (default_or (VInt 5) (f_int (Some 3) (Some 10)));
    Optional "lockout_duration_minutes"%js (default_or (VInt 15) (f_int (Some 5) (Some 60)))].

Definition fakeSystemSettingsSchemaOutput : Fake :=
  object [
    Member "max_timeout_seconds"%js (default_or (VInt 300) (f_int (Some 1) (Some 3600)));
    Member "memory_limit"%js (default_or (VStr "512Mi"%js) f_sample);
    Member "cpu_limit"%js (default_or (VStr "2000m"%js) f_sample);
    Member "max_concurrent_executions"%js (default_or (VInt 10) (f_int (Some 1) (Some 100)));
    Member "max_executions_per_user"%js (default_or (VInt 100) (f_int (Some 1) (Some 1000)));
    Member "password_min_length"%js (default_or (VInt 8) (f_int (Some 8) (Some 32)));
    Member "session_timeout_minutes"%js (default_or (VInt 60) (f_int (Some 5) (Some 1440)));
    Member "max_login_attempts"%js (default_or (VInt 5) (f_int (Some 3) (Some 10)));
    Member "lockout_duration_minutes"%js (default_or (VInt 15) (f_int (Some 5) (Some 60)))].

Definition fakeTheme : Fake :=
  arrayElement (map (λ s, constant (VStr s)) ["light"%js; "dark"%js; "system"%js]).

Definition fakeThemeUpdateRequest : Fake :=
  object [
    Member "theme"%js fakeTheme].

Definition fakeUnlockResponse : Fake :=
  object [
    Member "user_id"%js f_sample;
    Member "message"%js f_sample].

Definition fakeUnreadCountResponse : Fake :=
  object [
    Member "unread_count"%js (f_int None None)].

Definition fakeUserDeletedEvent : Fake :=
  object [
    Member "event_id"%js f_sample;
    Member "event_type"%js (constant (VStr "user_deleted"%js));
    Member "event_version"%js (default_or (VStr "1.0"%js) f_sample);
    Member "timestamp"%js f_date;
    Optional "aggregate_id"%js (nullable f_sample);
    Member "metadata"%js fakeEventMetadata;
    Optional "user_id"%js f_sample;
    Optional "deleted_by"%js (nullable f_sample);
    Optional "reason"%js (nullable f_sample)].

Definition fakeUserEventCount : Fake :=
  object [
    Member "user_id"%js f_sample;
    Member "event_count"%js (f_int None None)].

Definition fakeEventStatistics : Fake :=
  object [
    Member "total_events"%js (f_int None None);
    Member "events_by_type"%js (multiple fakeEventTypeCount);
    Member "events_by_service"%js (multiple fakeServiceEventCount);
    Member "events_by_hour"%js (multiple fakeHourlyEventCount);
    Member "top_users"%js (multiple fakeUserEventCount);
    Member "error_rate"%js (default_or (VInt 0) (f_float None));
    Member "avg_processing_time"%js (default_or (VInt 0) (f_float None));
    Member "start_time"%js (nullable f_date);
    Member "end_time"%js (nullable f_date)].

Definition fakeEventStatsResponse : Fake :=
  object [
    Member "total_events"%js (f_int None None);
    Member "events_by_type"%js (multiple fakeEventTypeCount);
    Member "events_by_hour"%js (multiple fakeHourlyEventCount);
    Member "top_users"%js (multiple fakeUserEventCount);
    Member "error_rate"%js (f_float None);
    Member "avg_processing_time"%js (f_float None)].

Definition fakeUserLoggedInEvent : Fake :=
  object [
    Member "event_id"%js f_sample;
    Member "event_type"%js (constant (VStr "user_logged_in"%js));
    Member "event_version"%js (default_or (VStr "1.0"%js) f_sample);
    Member "timestamp"%js f_date;
    Optional "aggregate_id"%js (nullable f_sample);
    Member "metadata"%js fakeEventMetadata;
    Optional "user_id"%js f_sample;
    Optional "login_method"%js fakeLoginMethod;
    Optional "ip_address"%js (nullable (text internet_ip));
    Optional "user_agent"%js (nullable (text internet_userAgent))].

Definition fakeUserLoggedOutEvent : Fake :=
  object [
    Member "event_id"%js f_sample;
    Member "event_type"%js (constant (VStr "user_logged_out"%js));
    Member "event_version"%js (default_or (VStr "1.0"%js) f_sample);
    Member "timestamp"%js f_date;
    Optional "aggregate_id"%js (nullable f_sample);
    Member "metadata"%js fakeEventMetadata;
    Optional "user_id"%js f_sample;
    Optional "logout_reason"%js (nullable f_sample)].

Definition fakeUserLoginEvent : Fake :=
  object [
    Member "event_id"%js f_sample;
    Member "event_type"%js (constant (VStr "user_login"%js));
    Member "event_version"%js (default_or (VStr "1.0"%js) f_sample);
    Member "timestamp"%js f_date;
    Optional "aggregate_id"%js (nullable f_sample);
    Member "metadata"%js fakeEventMetadata;
    Optional "user_id"%js f_sample;
    Optional "login_method"%js fakeLoginMethod;
    Optional "ip_address"%js (nullable (text internet_ip));
    Optional "user_agent"%js (nullable (text internet_userAgent))].

Definition fakeUserRateLimitConfigResponse : Fake :=
  object [
    Member "user_id"%js f_sample;
    Member "bypass_rate_limit"%js f_boolean;
    Member "global_multiplier"%js (f_float None);
    Member "rules"%js (multiple fakeRateLimitRuleResponse);
    Member "created_at"%js f_date;
    Member "updated_at"%js f_date;
    Member "notes"%js f_sample].

Definition fakeRateLimitUpdateResponse : Fake :=
  object [
    Member "user_id"%js f_sample;
    Member "updated"%js f_boolean;
    Member "config"%js fakeUserRateLimitConfigResponse].

Definition fakeUserRateLimitsResponse : Fake :=
  object [
    Member "user_id"%js f_sample;
    Member "rate_limit_config"%js fakeUserRateLimitConfigResponse;
    Member "current_usage"%js (or_empty (object [
    Member "additionalProp"%js fakeEndpointUsageStats]))].

Definition fakeUserRegisteredEvent : Fake :=
  object [
    Member "event_id"%js f_sample;
    Member "event_type"%js (constant (VStr "user_registered"%js));
    Member "event_version"%js (default_or (VStr "1.0"%js) f_sample);
    Member "timestamp"%js f_date;
    Optional "aggregate_id"%js (nullable f_sample);
    Member "metadata"%js fakeEventMetadata;
    Optional "user_id"%js f_sample;
    Optional "username"%js (text internet_username);
    Optional "email"%js (text internet_email)].

Definition fakeUserRole : Fake :=
  arrayElement (map (λ s, constant (VStr s)) ["user"%js; "admin"%js; "moderator"%js]).

Definition fakeLoginResponse : Fake :=
  object [
    Member "message"%js f_sample;
    Member "username"%js (text internet_username);
    Member "role"%js fakeUserRole;
    Member "csrf_token"%js f_sample].

Definition fakeUserCreate : Fake :=
  object [
    Member "username"%js (text internet_username);
    Member "email"%js (text internet_email);
    Optional "role"%js fakeUserRole;
    Optional "is_active"%js (default_or (VBool true) f_boolean)].

Definition fakeUserResponse : Fake :=
  object [
    Member "username"%js (text internet_username);
    Member "email"%js (text internet_email);
    Member "role"%js fakeUserRole;
    Member "is_active"%js f_boolean;
    Member "user_id"%js f_sample;
    Member "is_superuser"%js f_boolean;
    Member "created_at"%js f_date;
    Member "updated_at"%js f_date].

Definition fakeUserListResponse : Fake :=
  object [
    Member "users"%js (multiple fakeUserResponse);
    Member "total"%js (f_int None None);
    Member "offset"%js (f_int None None);
    Member "limit"%js (f_int None None)].

Definition fakeUserSettings : Fake :=
  object [
    Member "user_id"%js f_sample;
    Member "theme"%js fakeTheme;
    Member "timezone"%js (default_or (VStr "UTC"%js) (text location_timeZone));
    Member "date_format"%js (default_or (VStr "YYYY-MM-DD"%js) f_sample);
    Member "time_format"%js (default_or (VStr "24h"%js) f_sample);
    Member "notifications"%js fakeNotificationSettingsOutput;
    Member "editor"%js fakeEditorSettingsOutput;
    Member "custom_settings"%js (object []);
    Member "version"%js (default_or (VInt 1) (f_int None None));
    Member "created_at"%js f_date;
    Member "updated_at"%js f_date].

Definition fakeUserSettingsUpdate : Fake :=
  object [
    Optional "theme"%js (nullable fakeTheme);
    Optional "timezone"%js (nullable (text location_timeZone));
    Optional "date_format"%js (nullable f_sample);
    Optional "time_format"%js (nullable f_sample);
    Optional "notifications"%js (nullable fakeNotificationSettingsInput);
    Optional "editor"%js (nullable fakeEditorSettingsInput);
    Optional "custom_settings"%js (nullable (object []))].

Definition fakeUserSettingsUpdatedEvent : Fake :=
  object [
    Member "event_id"%js f_sample;
    Member "event_type"%js (constant (VStr "user_settings_updated"%js));
    Member "event_version"%js (default_or (VStr "1.0"%js) f_sample);
    Member "timestamp"%js f_date;
    Optional "aggregate_id"%js (nullable f_sample);
    Member "metadata"%js fakeEventMetadata;
    Optional "user_id"%js f_sample;
    Optional "changed_fields"%js (multiple f_sample);
    Optional "reason"%js (nullable f_sample)].

Definition fakeUserUpdate : Fake :=
  object [
    Optional "username"%js (nullable (text internet_username));
    Optional "email"%js (nullable (text internet_email));
    Optional "role"%js (nullable fakeUserRole);
    Optional "is_active"%js (nullable f_boolean);
    Optional "password"%js (constant VNull)].

Definition fakeUserUpdatedEvent : Fake :=
  object [
    Member "event_id"%js f_sample;
    Member "event_type"%js (constant (VStr "user_updated"%js));
    Member "event_version"%js (default_or (VStr "1.0"%js) f_sample);
    Member "timestamp"%js f_date;
    Optional "aggregate_id"%js (nullable f_sample);
    Member "metadata"%js fakeEventMetadata;
    Optional "user_id"%js f_sample;
    Optional "updated_fields"%js (multiple f_sample);
    Optional "updated_by"%js (nullable f_sample)].

Definition fakeAdminUserOverview : Fake :=
  object [
    Member "user"%js fakeUserResponse;
    Member "stats"%js fakeEventStatistics;
    Member "derived_counts"%js fakeDerivedCounts;
    Member "rate_limit_summary"%js fakeRateLimitSummary;
    Member "recent_events"%js (default_or (VArr []) (multiple
      (arrayElement [fakeExecutionRequestedEvent; fakeExecutionAcceptedEvent;
      fakeExecutionQueuedEvent; fakeExecutionStartedEvent; fakeExecutionRunningEvent;
      fakeExecutionCompletedEvent; fakeExecutionFailedEvent; fakeExecutionTimeoutEvent;
      fakeExecutionCancelledEvent; fakePodCreatedEvent; fakePodScheduledEvent; fakePodRunningEvent;
      fakePodSucceededEvent; fakePodFailedEvent; fakePodTerminatedEvent; fakePodDeletedEvent;
      fakeResultStoredEvent; fakeResultFailedEvent; fakeUserSettingsUpdatedEvent;
      fakeUserRegisteredEvent; fakeUserLoginEvent; fakeUserLoggedInEvent; fakeUserLoggedOutEvent;
      fakeUserUpdatedEvent; fakeUserDeletedEvent; fakeNotificationCreatedEvent;
      fakeNotificationSentEvent; fakeNotificationDeliveredEvent; fakeNotificationFailedEvent;
      fakeNotificationReadEvent; fakeNotificationAllReadEvent; fakeNotificationClickedEvent;
      fakeNotificationPreferencesUpdatedEvent; fakeScriptSavedEvent; fakeScriptDeletedEvent;
      fakeScriptSharedEvent; fakeSecurityViolationEvent; fakeRateLimitExceededEvent;
      fakeAuthFailedEvent; fakeResourceLimitExceededEvent; fakeQuotaExceededEvent;
      fakeSystemErrorEvent; fakeServiceUnhealthyEvent; fakeServiceRecoveredEvent;
      fakeDlqMessageReceivedEvent; fakeDlqMessageRetriedEvent; fakeDlqMessageDiscardedEvent])))].

Definition fakeEventBrowseResponse : Fake :=
  object [
    Member "events"%js (multiple (arrayElement [fakeExecutionRequestedEvent;
      fakeExecutionAcceptedEvent; fakeExecutionQueuedEvent; fakeExecutionStartedEvent;
      fakeExecutionRunningEvent; fakeExecutionCompletedEvent; fakeExecutionFailedEvent;
      fakeExecutionTimeoutEvent; fakeExecutionCancelledEvent; fakePodCreatedEvent;
      fakePodScheduledEvent; fakePodRunningEvent; fakePodSucceededEvent; fakePodFailedEvent;
      fakePodTerminatedEvent; fakePodDeletedEvent; fakeResultStoredEvent; fakeResultFailedEvent;
      fakeUserSettingsUpdatedEvent; fakeUserRegisteredEvent; fakeUserLoginEvent;
      fakeUserLoggedInEvent; fakeUserLoggedOutEvent; fakeUserUpdatedEvent; fakeUserDeletedEvent;
      fakeNotificationCreatedEvent; fakeNotificationSentEvent; fakeNotificationDeliveredEvent;
      fakeNotificationFailedEvent; fakeNotificationReadEvent; fakeNotificationAllReadEvent;
      fakeNotificationClickedEvent; fakeNotificationPreferencesUpdatedEvent; fakeScriptSavedEvent;
      fakeScriptDeletedEvent; fakeScriptSharedEvent; fakeSecurityViolationEvent;
      fakeRateLimitExceededEvent; fakeAuthFailedEvent; fakeResourceLimitExceededEvent;
      fakeQuotaExceededEvent; fakeSystemErrorEvent; fakeServiceUnhealthyEvent;
      fakeServiceRecoveredEvent; fakeDlqMessageReceivedEvent; fakeDlqMessageRetriedEvent;
      fakeDlqMessageDiscardedEvent]));
    Member "total"%js (f_int None None);
    Member "skip"%js (f_int None None);
    Member "limit"%js (f_int None None)].

Definition fakeEventDetailResponse : Fake :=
  object [
    Member "event"%js (arrayElement [fakeExecutionRequestedEvent; fakeExecutionAcceptedEvent;
      fakeExecutionQueuedEvent; fakeExecutionStartedEvent; fakeExecutionRunningEvent;
      fakeExecutionCompletedEvent; fakeExecutionFailedEvent; fakeExecutionTimeoutEvent;
      fakeExecutionCancelledEvent; fakePodCreatedEvent; fakePodScheduledEvent; fakePodRunningEvent;
      fakePodSucceededEvent; fakePodFailedEvent; fakePodTerminatedEvent; fakePodDeletedEvent;
      fakeResultStoredEvent; fakeResultFailedEvent; fakeUserSettingsUpdatedEvent;
      fakeUserRegisteredEvent; fakeUserLoginEvent; fakeUserLoggedInEvent; fakeUserLoggedOutEvent;
      fakeUserUpdatedEvent; fakeUserDeletedEvent; fakeNotificationCreatedEvent;
      fakeNotificationSentEvent; fakeNotificationDeliveredEvent; fakeNotificationFailedEvent;
      fakeNotificationReadEvent; fakeNotificationAllReadEvent; fakeNotificationClickedEvent;
      fakeNotificationPreferencesUpdatedEvent; fakeScriptSavedEvent; fakeScriptDeletedEvent;
      fakeScriptSharedEvent; fakeSecurityViolationEvent; fakeRateLimitExceededEvent;
      fakeAuthFailedEvent; fakeResourceLimitExceededEvent; fakeQuotaExceededEvent;
      fakeSystemErrorEvent; fakeServiceUnhealthyEvent; fakeServiceRecoveredEvent;
      fakeDlqMessageReceivedEvent; fakeDlqMessageRetriedEvent; fakeDlqMessageDiscardedEvent]);
    Member "related_events"%js (multiple fakeEventSummary);
    Member "timeline"%js (multiple fakeEventSummary)].

Definition fakeEventReplayStatusResponseWritable : Fake :=
  object [
    Member "session_id"%js f_sample;
    Member "status"%js fakeReplayStatus;
    Member "total_events"%js (f_int None None);
    Member "replayed_events"%js (f_int None None);
    Member "failed_events"%js (f_int None None);
    Member "skipped_events"%js (f_int None None);
    Member "replay_id"%js f_sample;
    Member "created_at"%js f_date;
    Member "started_at"%js (nullable f_date);
    Member "completed_at"%js (nullable f_date);
    Member "errors"%js (nullable (multiple fakeReplayError));
    Member "estimated_completion"%js (nullable f_date);
    Member "execution_results"%js (nullable (multiple fakeExecutionResult))].

Definition fakeUserCreateWritable : Fake :=
  object [
    Member "username"%js (text internet_username);
    Member "email"%js (text internet_email);
    Optional "role"%js fakeUserRole;
    Optional "is_active"%js (default_or (VBool true) f_boolean);
    Member "password"%js (text internet_password)].

Definition fakeUserUpdateWritable : Fake :=
  object [
    Optional "username"%js (nullable (text internet_username));
    Optional "email"%js (nullable (text internet_email));
    Optional "role"%js (nullable fakeUserRole);
    Optional "is_active"%js (nullable f_boolean);
    Optional "password"%js (nullable (text internet_password))].

Definition fakeLoginApiV1AuthLoginPostRequest : Fake :=
  object [
    Member "body"%js fakeBodyLoginApiV1AuthLoginPost].

Definition fakeLoginApiV1AuthLoginPostResponse200 : Fake :=
  fakeLoginResponse.

Definition fakeLoginApiV1AuthLoginPostResponse401 : Fake :=
  fakeErrorResponse.

Definition fakeLoginApiV1AuthLoginPostResponse403 : Fake :=
  fakeErrorResponse.

Definition fakeLoginApiV1AuthLoginPostResponse423 : Fake :=
  fakeErrorResponse.

Definition fakeLoginApiV1AuthLoginPostResponsedefault : Fake :=
  fakeErrorResponse.

Definition fakeRegisterApiV1AuthRegisterPostRequest : Fake :=
  object [
    Member "body"%js fakeUserCreateWritable].

Definition fakeRegisterApiV1AuthRegisterPostResponse200 : Fake :=
  fakeUserResponse.

Definition fakeRegisterApiV1AuthRegisterPostResponse409 : Fake :=
  fakeErrorResponse.

Definition fakeRegisterApiV1AuthRegisterPostResponse422 : Fake :=
  fakeErrorResponse.

Definition fakeRegisterApiV1AuthRegisterPostResponsedefault : Fake :=
  fakeErrorResponse.

Definition fakeGetCurrentUserProfileApiV1AuthMeGetResponse200 : Fake :=
  fakeUserResponse.

Definition fakeGetCurrentUserProfileApiV1AuthMeGetResponse401 : Fake :=
  fakeErrorResponse.

Definition fakeGetCurrentUserProfileApiV1AuthMeGetResponsedefault : Fake :=
  fakeErrorResponse.

Definition fakeLogoutApiV1AuthLogoutPostResponse200 : Fake :=
  fakeMessageResponse.

Definition fakeLogoutApiV1AuthLogoutPostResponse403 : Fake :=
  fakeErrorResponse.

Definition fakeLogoutApiV1AuthLogoutPostResponsedefault : Fake :=
  fakeErrorResponse.

Definition fakeCreateExecutionApiV1ExecutePostRequest : Fake :=
  object [
    Member "body"%js fakeExecutionRequest;
    Member "headers"%js (object [
    Optional "Idempotency-Key"%js (nullable f_sample)])].

Definition fakeCreateExecutionApiV1ExecutePostResponse200 : Fake :=
  fakeExecutionResponse.

Definition fakeCreateExecutionApiV1ExecutePostResponse409 : Fake :=
  fakeErrorResponse.

Definition fakeCreateExecutionApiV1ExecutePostResponse429 : Fake :=
  fakeErrorResponse.

Definition fakeCreateExecutionApiV1ExecutePostResponse500 : Fake :=
  fakeErrorResponse.

Definition fakeCreateExecutionApiV1ExecutePostResponsedefault : Fake :=
  fakeErrorResponse.

Definition fakeGetResultApiV1ExecutionsExecutionIdResultGetRequest : Fake :=
  object [
    Member "path"%js (object [
    Member "execution_id"%js f_sample])].

Definition fakeGetResultApiV1ExecutionsExecutionIdResultGetResponse200 : Fake :=
  fakeExecutionResult.

Definition fakeGetResultApiV1ExecutionsExecutionIdResultGetResponse403 : Fake :=
  fakeErrorResponse.

Definition fakeGetResultApiV1ExecutionsExecutionIdResultGetResponse404 : Fake :=
  fakeErrorResponse.

Definition fakeGetResultApiV1ExecutionsExecutionIdResultGetResponsedefault : Fake :=
  fakeErrorResponse.

Definition fakeCancelExecutionApiV1ExecutionsExecutionIdCancelPostRequest : Fake :=
  object [
    Member "path"%js (object [
    Member "execution_id"%js f_sample])].

Definition fakeCancelExecutionApiV1ExecutionsExecutionIdCancelPostResponse200 : Fake :=
  fakeCancelResponse.

Definition fakeCancelExecutionApiV1ExecutionsExecutionIdCancelPostResponse400 : Fake :=
  fakeErrorResponse.

Definition fakeCancelExecutionApiV1ExecutionsExecutionIdCancelPostResponse403 : Fake :=
  fakeErrorResponse.

Definition fakeCancelExecutionApiV1ExecutionsExecutionIdCancelPostResponse404 : Fake :=
  fakeErrorResponse.

Definition fakeCancelExecutionApiV1ExecutionsExecutionIdCancelPostResponsedefault : Fake :=
  fakeErrorResponse.

Definition fakeRetryExecutionApiV1ExecutionsExecutionIdRetryPostRequest : Fake :=
  object [
    Member "path"%js (object [
    Member "execution_id"%js f_sample])].

Definition fakeRetryExecutionApiV1ExecutionsExecutionIdRetryPostResponse200 : Fake :=
  fakeExecutionResponse.

Definition fakeRetryExecutionApiV1ExecutionsExecutionIdRetryPostResponse400 : Fake :=
  fakeErrorResponse.

Definition fakeRetryExecutionApiV1ExecutionsExecutionIdRetryPostResponse403 : Fake :=
  fakeErrorResponse.

Definition fakeRetryExecutionApiV1ExecutionsExecutionIdRetryPostResponse404 : Fake :=
  fakeErrorResponse.

Definition fakeRetryExecutionApiV1ExecutionsExecutionIdRetryPostResponse422 : Fake :=
  fakeErrorResponse.

Definition fakeRetryExecutionApiV1ExecutionsExecutionIdRetryPostResponse429 : Fake :=
  fakeErrorResponse.

Definition fakeRetryExecutionApiV1ExecutionsExecutionIdRetryPostResponsedefault : Fake :=
  fakeErrorResponse.

Definition fakeGetExecutionEventsApiV1ExecutionsExecutionIdEventsGetRequest : Fake :=
  object [
    Member "path"%js (object [
    Member "execution_id"%js f_sample]);
    Member "query"%js (object [
    Optional "event_types"%js (nullable (multiple fakeEventType));
    Optional "limit"%js (default_or (VInt 100) (f_int (Some 1) (Some 1000)))])].

Definition fakeGetExecutionEventsApiV1ExecutionsExecutionIdEventsGetResponse200 : Fake :=
  multiple (arrayElement [fakeExecutionRequestedEvent; fakeExecutionAcceptedEvent;
      fakeExecutionQueuedEvent; fakeExecutionStartedEvent; fakeExecutionRunningEvent;
      fakeExecutionCompletedEvent; fakeExecutionFailedEvent; fakeExecutionTimeoutEvent;
      fakeExecutionCancelledEvent; fakePodCreatedEvent; fakePodScheduledEvent; fakePodRunningEvent;
      fakePodSucceededEvent; fakePodFailedEvent; fakePodTerminatedEvent; fakePodDeletedEvent;
      fakeResultStoredEvent; fakeResultFailedEvent; fakeUserSettingsUpdatedEvent;
      fakeUserRegisteredEvent; fakeUserLoginEvent; fakeUserLoggedInEvent; fakeUserLoggedOutEvent;
      fakeUserUpdatedEvent; fakeUserDeletedEvent; fakeNotificationCreatedEvent;
      fakeNotificationSentEvent; fakeNotificationDeliveredEvent; fakeNotificationFailedEvent;
      fakeNotificationReadEvent; fakeNotificationAllReadEvent; fakeNotificationClickedEvent;
      fakeNotificationPreferencesUpdatedEvent; fakeScriptSavedEvent; fakeScriptDeletedEvent;
      fakeScriptSharedEvent; fakeSecurityViolationEvent; fakeRateLimitExceededEvent;
      fakeAuthFailedEvent; fakeResourceLimitExceededEvent; fakeQuotaExceededEvent;
      fakeSystemErrorEvent; fakeServiceUnhealthyEvent; fakeServiceRecoveredEvent;
      fakeDlqMessageReceivedEvent; fakeDlqMessageRetriedEvent; fakeDlqMessageDiscardedEvent]).

Definition fakeGetExecutionEventsApiV1ExecutionsExecutionIdEventsGetResponse403 : Fake :=
  fakeErrorResponse.

Definition fakeGetExecutionEventsApiV1ExecutionsExecutionIdEventsGetResponse404 : Fake :=
  fakeErrorResponse.

Definition fakeGetExecutionEventsApiV1ExecutionsExecutionIdEventsGetResponsedefault : Fake :=
  fakeErrorResponse.

Definition fakeGetUserExecutionsApiV1UserExecutionsGetRequest : Fake :=
  object [
    Member "query"%js (object [
    Optional "status"%js (nullable fakeExecutionStatus);
    Optional "lang"%js (nullable f_sample);
    Optional "start_time"%js (nullable f_date);
    Optional "end_time"%js (nullable f_date);
    Optional "limit"%js (default_or (VInt 50) (f_int (Some 1) (Some 200)));
    Optional "skip"%js (default_or (VInt 0) (f_int (Some 0) None))])].

Definition fakeGetUserExecutionsApiV1UserExecutionsGetResponse200 : Fake :=
  fakeExecutionListResponse.

Definition fakeGetUserExecutionsApiV1UserExecutionsGetResponsedefault : Fake :=
  fakeErrorResponse.

Definition fakeGetExampleScriptsApiV1ExampleScriptsGetResponse200 : Fake :=
  fakeExampleScripts.

Definition fakeGetExampleScriptsApiV1ExampleScriptsGetResponsedefault : Fake :=
  fakeErrorResponse.

Definition fakeGetK8sResourceLimitsApiV1K8sLimitsGetResponse200 : Fake :=
  fakeResourceLimits.

Definition fakeGetK8sResourceLimitsApiV1K8sLimitsGetResponsedefault : Fake :=
  fakeErrorResponse.

Definition fakeDeleteExecutionApiV1ExecutionsExecutionIdDeleteRequest : Fake :=
  object [
    Member "path"%js (object [
    Member "execution_id"%js f_sample])].

Definition fakeDeleteExecutionApiV1ExecutionsExecutionIdDeleteResponse200 : Fake :=
  fakeDeleteResponse.

Definition fakeDeleteExecutionApiV1ExecutionsExecutionIdDeleteResponsedefault : Fake :=
  fakeErrorResponse.

Definition fakeListSavedScriptsApiV1ScriptsGetResponse200 : Fake :=
  fakeSavedScriptListResponse.

Definition fakeListSavedScriptsApiV1ScriptsGetResponsedefault : Fake :=
  fakeErrorResponse.

Definition fakeCreateSavedScriptApiV1ScriptsPostRequest : Fake :=
  object [
    Member "body"%js fakeSavedScriptCreateRequest].

Definition fakeCreateSavedScriptApiV1ScriptsPostResponse200 : Fake :=
  fakeSavedScriptResponse.

Definition fakeCreateSavedScriptApiV1ScriptsPostResponse422 : Fake :=
  fakeErrorResponse.

Definition fakeCreateSavedScriptApiV1ScriptsPostResponsedefault : Fake :=
  fakeErrorResponse.

Definition fakeDeleteSavedScriptApiV1ScriptsScriptIdDeleteRequest : Fake :=
  object [
    Member "path"%js (object [
    Member "script_id"%js f_sample])].

Definition fakeDeleteSavedScriptApiV1ScriptsScriptIdDeleteResponse404 : Fake :=
  fakeErrorResponse.

Definition fakeDeleteSavedScriptApiV1ScriptsScriptIdDeleteResponsedefault : Fake :=
  fakeErrorResponse.

Definition fakeGetSavedScriptApiV1ScriptsScriptIdGetRequest : Fake :=
  object [
    Member "path"%js (object [
    Member "script_id"%js f_sample])].

Definition fakeGetSavedScriptApiV1ScriptsScriptIdGetResponse200 : Fake :=
  fakeSavedScriptResponse.

Definition fakeGetSavedScriptApiV1ScriptsScriptIdGetResponse404 : Fake :=
  fakeErrorResponse.

Definition fakeGetSavedScriptApiV1ScriptsScriptIdGetResponsedefault : Fake :=
  fakeErrorResponse.

Definition fakeUpdateSavedScriptApiV1ScriptsScriptIdPutRequest : Fake :=
  object [
    Member "body"%js fakeSavedScriptUpdate;
    Member "path"%js (object [
    Member "script_id"%js f_sample])].

Definition fakeUpdateSavedScriptApiV1ScriptsScriptIdPutResponse200 : Fake :=
  fakeSavedScriptResponse.

Definition fakeUpdateSavedScriptApiV1ScriptsScriptIdPutResponse404 : Fake :=
  fakeErrorResponse.

Definition fakeUpdateSavedScriptApiV1ScriptsScriptIdPutResponse422 : Fake :=
  fakeErrorResponse.

Definition fakeUpdateSavedScriptApiV1ScriptsScriptIdPutResponsedefault : Fake :=
  fakeErrorResponse.

Definition fakeLivenessApiV1HealthLiveGetResponse200 : Fake :=
  fakeLivenessResponse.

Definition fakeLivenessApiV1HealthLiveGetResponsedefault : Fake :=
  fakeErrorResponse.

Definition fakeNotificationStreamApiV1EventsNotificationsStreamGetResponse200 : Fake :=
  fakeNotificationResponse.

Definition fakeNotificationStreamApiV1EventsNotificationsStreamGetResponsedefault : Fake :=
  fakeErrorResponse.

Definition fakeExecutionEventsApiV1EventsExecutionsExecutionIdGetRequest : Fake :=
  object [
    Member "path"%js (object [
    Member "execution_id"%js f_sample])].

Definition fakeExecutionEventsApiV1EventsExecutionsExecutionIdGetResponse200 : Fake :=
  fakeSseExecutionEventSchema.

Definition fakeExecutionEventsApiV1EventsExecutionsExecutionIdGetResponsedefault : Fake :=
  fakeErrorResponse.

Definition fakeBrowseEventsApiV1AdminEventsBrowsePostRequest : Fake :=
  object [
    Member "body"%js fakeEventBrowseRequest].

Definition fakeBrowseEventsApiV1AdminEventsBrowsePostResponse200 : Fake :=
  fakeEventBrowseResponse.

Definition fakeBrowseEventsApiV1AdminEventsBrowsePostResponsedefault : Fake :=
  fakeErrorResponse.

Definition fakeGetEventStatsApiV1AdminEventsStatsGetRequest : Fake :=
  object [
    Member "query"%js (object [
    Optional "hours"%js (default_or (VInt 24) (f_int (Some 1) (Some 168)))])].

Definition fakeGetEventStatsApiV1AdminEventsStatsGetResponse200 : Fake :=
  fakeEventStatsResponse.

Definition fakeGetEventStatsApiV1AdminEventsStatsGetResponsedefault : Fake :=
  fakeErrorResponse.

Definition fakeExportEventsApiV1AdminEventsExportExportFormatGetRequest : Fake :=
  object [
    Member "path"%js (object [
    Member "export_format"%js fakeExportFormat]);
    Member "query"%js (object [
    Optional "event_types"%js (nullable (multiple fakeEventType));
    Optional "aggregate_id"%js (nullable f_sample);
    Optional "user_id"%js (nullable f_sample);
    Optional "service_name"%js (nullable f_sample);
    Optional "start_time"%js (nullable f_date);
    Optional "end_time"%js (nullable f_date);
    Optional "limit"%js (default_or (VInt 10000) (f_int (Some 1) (Some 50000)))])].

Definition fakeExportEventsApiV1AdminEventsExportExportFormatGetResponse200 : Fake :=
  constant VUndefined.

Definition fakeExportEventsApiV1AdminEventsExportExportFormatGetResponsedefault : Fake :=
  fakeErrorResponse.

Definition fakeDeleteEventApiV1AdminEventsEventIdDeleteRequest : Fake :=
  object [
    Member "path"%js (object [
    Member "event_id"%js f_sample])].

Definition fakeDeleteEventApiV1AdminEventsEventIdDeleteResponse200 : Fake :=
  fakeEventDeleteResponse.

Definition fakeDeleteEventApiV1AdminEventsEventIdDeleteResponse404 : Fake :=
  fakeErrorResponse.

Definition fakeDeleteEventApiV1AdminEventsEventIdDeleteResponsedefault : Fake :=
  fakeErrorResponse.

Definition fakeGetEventDetailApiV1AdminEventsEventIdGetRequest : Fake :=
  object [
    Member "path"%js (object [
    Member "event_id"%js f_sample])].

Definition fakeGetEventDetailApiV1AdminEventsEventIdGetResponse200 : Fake :=
  fakeEventDetailResponse.

Definition fakeGetEventDetailApiV1AdminEventsEventIdGetResponse404 : Fake :=
  fakeErrorResponse.

Definition fakeGetEventDetailApiV1AdminEventsEventIdGetResponsedefault : Fake :=
  fakeErrorResponse.

Definition fakeReplayEventsApiV1AdminEventsReplayPostRequest : Fake :=
  object [
    Member "body"%js fakeEventReplayRequest].

Definition fakeReplayEventsApiV1AdminEventsReplayPostResponse200 : Fake :=
  fakeEventReplayResponse.

Definition fakeReplayEventsApiV1AdminEventsReplayPostResponse404 : Fake :=
  fakeErrorResponse.

Definition fakeReplayEventsApiV1AdminEventsReplayPostResponse422 : Fake :=
  fakeErrorResponse.

Definition fakeReplayEventsApiV1AdminEventsReplayPostResponsedefault : Fake :=
  fakeErrorResponse.

Definition fakeStreamReplayStatusApiV1AdminEventsReplaySessionIdStatusGetRequest : Fake :=
  object [
    Member "path"%js (object [
    Member "session_id"%js f_sample])].

Definition fakeStreamReplayStatusApiV1AdminEventsReplaySessionIdStatusGetResponse200 : Fake :=
  fakeEventReplayStatusResponse.

Definition fakeStreamReplayStatusApiV1AdminEventsReplaySessionIdStatusGetResponsedefault : Fake :=
  fakeErrorResponse.

Definition fakeListExecutionsApiV1AdminExecutionsGetRequest : Fake :=
  object [
    Member "query"%js (object [
    Optional "status"%js (nullable fakeExecutionStatus);
    Optional "priority"%js (nullable fakeQueuePriority);
    Optional "user_id"%js (nullable f_sample);
    Optional "limit"%js (default_or (VInt 50) (f_int (Some 1) (Some 200)));
    Optional "skip"%js (default_or (VInt 0) (f_int (Some 0) None))])].

Definition fakeListExecutionsApiV1AdminExecutionsGetResponse200 : Fake :=
  fakeAdminExecutionListResponse.

Definition fakeListExecutionsApiV1AdminExecutionsGetResponse403 : Fake :=
  fakeErrorResponse.

Definition fakeListExecutionsApiV1AdminExecutionsGetResponsedefault : Fake :=
  fakeErrorResponse.

Definition fakeUpdatePriorityApiV1AdminExecutionsExecutionIdPriorityPutRequest : Fake :=
  object [
    Member "body"%js fakePriorityUpdateRequest;
    Member "path"%js (object [
    Member "execution_id"%js f_sample])].

Definition fakeUpdatePriorityApiV1AdminExecutionsExecutionIdPriorityPutResponse200 : Fake :=
  fakeAdminExecutionResponse.

Definition fakeUpdatePriorityApiV1AdminExecutionsExecutionIdPriorityPutResponse403 : Fake :=
  fakeErrorResponse.

Definition fakeUpdatePriorityApiV1AdminExecutionsExecutionIdPriorityPutResponse404 : Fake :=
  fakeErrorResponse.

Definition fakeUpdatePriorityApiV1AdminExecutionsExecutionIdPriorityPutResponsedefault : Fake :=
  fakeErrorResponse.

Definition fakeGetQueueStatusApiV1AdminExecutionsQueueGetResponse200 : Fake :=
  fakeQueueStatusResponse.

Definition fakeGetQueueStatusApiV1AdminExecutionsQueueGetResponse403 : Fake :=
  fakeErrorResponse.

Definition fakeGetQueueStatusApiV1AdminExecutionsQueueGetResponsedefault : Fake :=
  fakeErrorResponse.

Definition fakeGetDefaultRateLimitRulesApiV1AdminRateLimitsDefaultsGetResponse200 : Fake :=
  multiple fakeRateLimitRuleResponse.

Definition fakeGetDefaultRateLimitRulesApiV1AdminRateLimitsDefaultsGetResponsedefault : Fake :=
  fakeErrorResponse.

Definition fakeGetUserRateLimitsApiV1AdminRateLimitsUserIdGetRequest : Fake :=
  object [
    Member "path"%js (object [
    Member "user_id"%js f_sample])].

Definition fakeGetUserRateLimitsApiV1AdminRateLimitsUserIdGetResponse200 : Fake :=
  fakeUserRateLimitsResponse.

Definition fakeGetUserRateLimitsApiV1AdminRateLimitsUserIdGetResponsedefault : Fake :=
  fakeErrorResponse.

Definition fakeUpdateUserRateLimitsApiV1AdminRateLimitsUserIdPutRequest : Fake :=
  object [
    Member "body"%js fakeRateLimitUpdateRequest;
    Member "path"%js (object [
    Member "user_id"%js f_sample])].

Definition fakeUpdateUserRateLimitsApiV1AdminRateLimitsUserIdPutResponse200 : Fake :=
  fakeRateLimitUpdateResponse.

Definition fakeUpdateUserRateLimitsApiV1AdminRateLimitsUserIdPutResponsedefault : Fake :=
  fakeErrorResponse.

Definition fakeResetUserRateLimitsApiV1AdminRateLimitsUserIdResetPostRequest : Fake :=
  object [
    Member "path"%js (object [
    Member "user_id"%js f_sample])].

Definition fakeResetUserRateLimitsApiV1AdminRateLimitsUserIdResetPostResponse200 : Fake :=
  fakeMessageResponse.

Definition fakeResetUserRateLimitsApiV1AdminRateLimitsUserIdResetPostResponsedefault : Fake :=
  fakeErrorResponse.

Definition fakeGetSystemSettingsApiV1AdminSettingsGetResponse200 : Fake :=
  fakeSystemSettingsSchemaOutput.

Definition fakeGetSystemSettingsApiV1AdminSettingsGetResponse500 : Fake :=
  fakeErrorResponse.

Definition fakeGetSystemSettingsApiV1AdminSettingsGetResponsedefault : Fake :=
  fakeErrorResponse.

Definition fakeUpdateSystemSettingsApiV1AdminSettingsPutRequest : Fake :=
  object [
    Member "body"%js fakeSystemSettingsSchemaInput].

Definition fakeUpdateSystemSettingsApiV1AdminSettingsPutResponse200 : Fake :=
  fakeSystemSettingsSchemaOutput.

Definition fakeUpdateSystemSettingsApiV1AdminSettingsPutResponse400 : Fake :=
  fakeErrorResponse.

Definition fakeUpdateSystemSettingsApiV1AdminSettingsPutResponse422 : Fake :=
  fakeErrorResponse.

Definition fakeUpdateSystemSettingsApiV1AdminSettingsPutResponse500 : Fake :=
  fakeErrorResponse.

Definition fakeUpdateSystemSettingsApiV1AdminSettingsPutResponsedefault : Fake :=
  fakeErrorResponse.

Definition fakeResetSystemSettingsApiV1AdminSettingsResetPostResponse200 : Fake :=
  fakeSystemSettingsSchemaOutput.

Definition fakeResetSystemSettingsApiV1AdminSettingsResetPostResponse500 : Fake :=
  fakeErrorResponse.

Definition fakeResetSystemSettingsApiV1AdminSettingsResetPostResponsedefault : Fake :=
  fakeErrorResponse.

Definition fakeListUsersApiV1AdminUsersGetRequest : Fake :=
  object [
    Member "query"%js (object [
    Optional "limit"%js (default_or (VInt 100) (f_int (Some 1) (Some 1000)));
    Optional "offset"%js (default_or (VInt 0) (f_int (Some 0) None));
    Optional "search"%js (nullable f_sample);
    Optional "role"%js (nullable fakeUserRole);
    Optional "is_active"%js (nullable f_boolean);
    Optional "bypass_rate_limit"%js (nullable f_boolean);
    Optional "has_custom_limits"%js (nullable f_boolean);
    Optional "custom_multiplier"%js (nullable f_boolean)])].

Definition fakeListUsersApiV1AdminUsersGetResponse200 : Fake :=
  fakeUserListResponse.

Definition fakeListUsersApiV1AdminUsersGetResponsedefault : Fake :=
  fakeErrorResponse.

Definition fakeCreateUserApiV1AdminUsersPostRequest : Fake :=
  object [
    Member "body"%js fakeUserCreateWritable].

Definition fakeCreateUserApiV1AdminUsersPostResponse200 : Fake :=
  fakeUserResponse.

Definition fakeCreateUserApiV1AdminUsersPostResponse409 : Fake :=
  fakeErrorResponse.

Definition fakeCreateUserApiV1AdminUsersPostResponsedefault : Fake :=
  fakeErrorResponse.

Definition fakeDeleteUserApiV1AdminUsersUserIdDeleteRequest : Fake :=
  object [
    Member "path"%js (object [
    Member "user_id"%js f_sample]);
    Member "query"%js (object [
    Optional "cascade"%js (default_or (VBool true) f_boolean)])].

Definition fakeDeleteUserApiV1AdminUsersUserIdDeleteResponse200 : Fake :=
  fakeDeleteUserResponse.

Definition fakeDeleteUserApiV1AdminUsersUserIdDeleteResponse400 : Fake :=
  fakeErrorResponse.

Definition fakeDeleteUserApiV1AdminUsersUserIdDeleteResponse404 : Fake :=
  fakeErrorResponse.

Definition fakeDeleteUserApiV1AdminUsersUserIdDeleteResponsedefault : Fake :=
  fakeErrorResponse.

Definition fakeGetUserApiV1AdminUsersUserIdGetRequest : Fake :=
  object [
    Member "path"%js (object [
    Member "user_id"%js f_sample])].

Definition fakeGetUserApiV1AdminUsersUserIdGetResponse200 : Fake :=
  fakeUserResponse.

Definition fakeGetUserApiV1AdminUsersUserIdGetResponse404 : Fake :=
  fakeErrorResponse.

Definition fakeGetUserApiV1AdminUsersUserIdGetResponsedefault : Fake :=
  fakeErrorResponse.

Definition fakeUpdateUserApiV1AdminUsersUserIdPutRequest : Fake :=
  object [
    Member "body"%js fakeUserUpdateWritable;
    Member "path"%js (object [
    Member "user_id"%js f_sample])].

Definition fakeUpdateUserApiV1AdminUsersUserIdPutResponse200 : Fake :=
  fakeUserResponse.

Definition fakeUpdateUserApiV1AdminUsersUserIdPutResponse404 : Fake :=
  fakeErrorResponse.

Definition fakeUpdateUserApiV1AdminUsersUserIdPutResponse409 : Fake :=
  fakeErrorResponse.

Definition fakeUpdateUserApiV1AdminUsersUserIdPutResponsedefault : Fake :=
  fakeErrorResponse.

Definition fakeGetUserOverviewApiV1AdminUsersUserIdOverviewGetRequest : Fake :=
  object [
    Member "path"%js (object [
    Member "user_id"%js f_sample])].

Definition fakeGetUserOverviewApiV1AdminUsersUserIdOverviewGetResponse200 : Fake :=
  fakeAdminUserOverview.

Definition fakeGetUserOverviewApiV1AdminUsersUserIdOverviewGetResponse404 : Fake :=
  fakeErrorResponse.

Definition fakeGetUserOverviewApiV1AdminUsersUserIdOverviewGetResponsedefault : Fake :=
  fakeErrorResponse.

Definition fakeResetUserPasswordApiV1AdminUsersUserIdResetPasswordPostRequest : Fake :=
  object [
    Member "body"%js fakePasswordResetRequest;
    Member "path"%js (object [
    Member "user_id"%js f_sample])].

Definition fakeResetUserPasswordApiV1AdminUsersUserIdResetPasswordPostResponse200 : Fake :=
  fakeMessageResponse.

Definition fakeResetUserPasswordApiV1AdminUsersUserIdResetPasswordPostResponse404 : Fake :=
  fakeErrorResponse.

Definition fakeResetUserPasswordApiV1AdminUsersUserIdResetPasswordPostResponsedefault : Fake :=
  fakeErrorResponse.

Definition fakeUnlockUserApiV1AdminUsersUserIdUnlockPostRequest : Fake :=
  object [
    Member "path"%js (object [
    Member "user_id"%js f_sample])].

Definition fakeUnlockUserApiV1AdminUsersUserIdUnlockPostResponse200 : Fake :=
  fakeUnlockResponse.

Definition fakeUnlockUserApiV1AdminUsersUserIdUnlockPostResponse404 : Fake :=
  fakeErrorResponse.

Definition fakeUnlockUserApiV1AdminUsersUserIdUnlockPostResponsedefault : Fake :=
  fakeErrorResponse.

Definition fakeGetUserSettingsApiV1UserSettingsGetResponse200 : Fake :=
  fakeUserSettings.

Definition fakeGetUserSettingsApiV1UserSettingsGetResponsedefault : Fake :=
  fakeErrorResponse.

Definition fakeUpdateUserSettingsApiV1UserSettingsPutRequest : Fake :=
  object [
    Member "body"%js fakeUserSettingsUpdate].

Definition fakeUpdateUserSettingsApiV1UserSettingsPutResponse200 : Fake :=
  fakeUserSettings.

Definition fakeUpdateUserSettingsApiV1UserSettingsPutResponsedefault : Fake :=
  fakeErrorResponse.

Definition fakeUpdateThemeApiV1UserSettingsThemePutRequest : Fake :=
  object [
    Member "body"%js fakeThemeUpdateRequest].

Definition fakeUpdateThemeApiV1UserSettingsThemePutResponse200 : Fake :=
  fakeUserSettings.

Definition fakeUpdateThemeApiV1UserSettingsThemePutResponsedefault : Fake :=
  fakeErrorResponse.

Definition fakeUpdateNotificationSettingsApiV1UserSettingsNotificationsPutRequest : Fake :=
  object [
    Member "body"%js fakeNotificationSettingsInput].

Definition fakeUpdateNotificationSettingsApiV1UserSettingsNotificationsPutResponse200 : Fake :=
  fakeUserSettings.

Definition fakeUpdateNotificationSettingsApiV1UserSettingsNotificationsPutResponsedefault : Fake :=
  fakeErrorResponse.

Definition fakeUpdateEditorSettingsApiV1UserSettingsEditorPutRequest : Fake :=
  object [
    Member "body"%js fakeEditorSettingsInput].

Definition fakeUpdateEditorSettingsApiV1UserSettingsEditorPutResponse200 : Fake :=
  fakeUserSettings.

Definition fakeUpdateEditorSettingsApiV1UserSettingsEditorPutResponsedefault : Fake :=
  fakeErrorResponse.

Definition fakeGetSettingsHistoryApiV1UserSettingsHistoryGetRequest : Fake :=
  object [
    Member "query"%js (object [
    Optional "limit"%js (default_or (VInt 50) (f_int (Some 1) (Some 200)))])].

Definition fakeGetSettingsHistoryApiV1UserSettingsHistoryGetResponse200 : Fake :=
  fakeSettingsHistoryResponse.

Definition fakeGetSettingsHistoryApiV1UserSettingsHistoryGetResponsedefault : Fake :=
  fakeErrorResponse.

Definition fakeRestoreSettingsApiV1UserSettingsRestorePostRequest : Fake :=
  object [
    Member "body"%js fakeRestoreSettingsRequest].

Definition fakeRestoreSettingsApiV1UserSettingsRestorePostResponse200 : Fake :=
  fakeUserSettings.

Definition fakeRestoreSettingsApiV1UserSettingsRestorePostResponsedefault : Fake :=
  fakeErrorResponse.

Definition fakeUpdateCustomSettingApiV1UserSettingsCustomKeyPutRequest : Fake :=
  object [
    Member "body"%js (object []);
    Member "path"%js (object [
    Member "key"%js f_sample])].

Definition fakeUpdateCustomSettingApiV1UserSettingsCustomKeyPutResponse200 : Fake :=
  fakeUserSettings.

Definition fakeUpdateCustomSettingApiV1UserSettingsCustomKeyPutResponsedefault : Fake :=
  fakeErrorResponse.

Definition fakeGetNotificationsApiV1NotificationsGetRequest : Fake :=
  object [
    Member "query"%js (object [
    Optional "status"%js (nullable fakeNotificationStatus);
    Optional "include_tags"%js (nullable (multiple f_sample));
    Optional "exclude_tags"%js (nullable (multiple f_sample));
    Optional "tag_prefix"%js (nullable f_sample);
    Optional "limit"%js (default_or (VInt 50) (f_int (Some 1) (Some 100)));
    Optional "offset"%js (default_or (VInt 0) (f_int (Some 0) None))])].

Definition fakeGetNotificationsApiV1NotificationsGetResponse200 : Fake :=
  fakeNotificationListResponse.

Definition fakeGetNotificationsApiV1NotificationsGetResponsedefault : Fake :=
  fakeErrorResponse.

Definition fakeMarkNotificationReadApiV1NotificationsNotificationIdReadPutRequest : Fake :=
  object [
    Member "path"%js (object [
    Member "notification_id"%js f_sample])].

Definition fakeMarkNotificationReadApiV1NotificationsNotificationIdReadPutResponsedefault : Fake :=
  fakeErrorResponse.

Definition fakeMarkAllReadApiV1NotificationsMarkAllReadPostResponsedefault : Fake :=
  fakeErrorResponse.

Definition fakeGetUnreadCountApiV1NotificationsUnreadCountGetResponse200 : Fake :=
  fakeUnreadCountResponse.

Definition fakeGetUnreadCountApiV1NotificationsUnreadCountGetResponsedefault : Fake :=
  fakeErrorResponse.

Definition fakeDeleteNotificationApiV1NotificationsNotificationIdDeleteRequest : Fake :=
  object [
    Member "path"%js (object [
    Member "notification_id"%js f_sample])].

Definition fakeDeleteNotificationApiV1NotificationsNotificationIdDeleteResponse200 : Fake :=
  fakeDeleteNotificationResponse.

Definition fakeDeleteNotificationApiV1NotificationsNotificationIdDeleteResponsedefault : Fake :=
  fakeErrorResponse.

End fakes.
