(* ===== verification/FakeSpec.v ===== *)
(** * What fake data promises

    Every fake of [ApiFakes] against the type of [ApiTypes] and the schema of
    [ApiSchemas] for the same data.  A [shape] says what values a fake can give;
    [Shaped] finds the shape of a fake from the way it is built, and a shape is
    compared with types and schemas by computation. *)

From S2P Require Import Prelude JsString JsValue ApiEnums Zod ApiTypes ApiSchemas SchemaSpec Faker ApiFakes.

Open Scope Z_scope.

(** What the documentation of the library says of its draws.  Of texts that a schema takes in any
    form nothing is asked, nor of [fromRegExp], which takes anchors for characters it need not support. *)
Class FakerLaws {zod : Zod} `{Faker} := {
  string_alpha_spec min max r : 0 ≤ min ≤ max → min ≤ Z.of_nat (length (string_alpha min max r).1) ≤ max;
  number_int_spec min max r :
    default 0 min ≤ default (2 ^ 53 - 1) max →
    default 0 min ≤ (number_int min max r).1 ≤ default (2 ^ 53 - 1) max;
  number_float_spec min r :
    dec_le (default 0 min) (number_float min r).1.1 (number_float min r).1.2 = true;
  date_recent_spec r : is_datetime (date_recent r).1 = true;
  internet_email_spec r : is_email (internet_email r).1 = true;
  internet_password_spec r : length (internet_password r).1 = 15%nat; (* the default length *)
  helpers_arrayElement_spec l r : l ≠ [] → (helpers_arrayElement l r).1 ∈ l;
  helpers_multiple_spec g r v : v ∈ (helpers_multiple g r).1 → ∃ r', v = (g r').1;
}.

Ltac head_of t := lazymatch t with ?f _ => head_of f | _ => t end.

(** ** Shapes *)

Inductive shape :=
| SConst (v : jsval)
| SString (min : Z) (max : option Z)
| SDatetime
| SEmail
| SInt (min max : Z)
| SFloat (min : Z)
| SBool
| SOneOf (l : list shape)
| SList (s : shape)
| SObject (fields : list (jstr * bool * shape)). (* whether it may be missing *)

Section shapes.
Context {zod : Zod}.

Fixpoint in_shape (s : shape) (v : jsval) : Prop :=
  match s with
  | SConst w => v = w
  | SString lo hi => ∃ t, v = VStr t ∧ lo ≤ Z.of_nat (length t) ∧ match hi with Some hi => Z.of_nat (length t) ≤ hi | None => True end
  | SDatetime => ∃ t, v = VStr t ∧ is_datetime t = true
  | SEmail => ∃ t, v = VStr t ∧ is_email t = true
  | SInt lo hi => ∃ z, v = VInt z ∧ lo ≤ z ≤ hi
  | SFloat lo => ∃ m e, v = VNum (Dec m e) ∧ dec_le lo m e = true
  | SBool => ∃ b, v = VBool b
  | SOneOf l => (fix go l := match l with [] => False | s :: l => in_shape s v ∨ go l end) l
  | SList s => ∃ l, v = VArr l ∧ ∀ w, w ∈ l → in_shape s w
  | SObject fs => ∃ props, v = VObj props ∧ (∀ kw, kw ∈ props → kw.1 ∈ map (fst ∘ fst) fs)
      ∧ (fix go fs :=
           match fs with
           | [] => True
           | (k, o, s) :: fs =>
               ((∀ w, (k, w) ∈ props → in_shape s w) ∧ (o = false → obj_get k props ≠ None)) ∧ go fs
           end) fs
  end.

Lemma in_one_of l v : in_shape (SOneOf l) v ↔ ∃ s, s ∈ l ∧ in_shape s v.
Proof.
  cbn. induction l as [|s l IH]; [split; [done|intros (s & Hs & _); by apply not_elem_of_nil in Hs]|].
  rewrite IH. setoid_rewrite elem_of_cons. split.
  - intros [Hv|(s' & Hs & Hv)]; eauto.
  - intros (s' & [->|Hs] & Hv); eauto.
Qed.

Definition field_ok (props : list (jstr * jsval)) (f : jstr * bool * shape) : Prop :=
  (∀ w, (f.1.1, w) ∈ props → in_shape f.2 w) ∧ (f.1.2 = false → obj_get f.1.1 props ≠ None).

Lemma in_object fs v :
  in_shape (SObject fs) v ↔
  ∃ props, v = VObj props ∧ (∀ kw, kw ∈ props → kw.1 ∈ map (fst ∘ fst) fs) ∧ Forall (field_ok props) fs.
Proof.
  cbn. apply exist_proper. intros props. f_equiv. f_equiv.
  induction fs as [|[[k o] s] fs IH]; [split; [constructor|done]|]. rewrite IH, Forall_cons. done.
Qed.

(** ** Finding the shape of a fake *)

Context `{Faker}.

Class Shaped (g : Fake) (s : shape) : Prop := shaped o r : in_shape s (g o r).1.
Class ShapedAll (gs : list Fake) (ss : list shape) : Prop := shaped_all : Forall2 Shaped gs ss.

Definition key (m : member) : jstr := match m with Member k _ | Optional k _ => k end.

Inductive Field : member → jstr * bool * shape → Prop :=
| member_field k g s : Shaped g s → Field (Member k g) (k, false, s)
| optional_field k g s : Shaped g s → Field (Optional k g) (k, true, s).
Class Fields (ms : list member) (fs : list (jstr * bool * shape)) : Prop := fields : Forall2 Field ms fs.

Lemma Fields_keys ms fs : Fields ms fs → map key ms = map (fst ∘ fst) fs.
Proof. induction 1 as [|m f ms fs [] _ IH]; [done|..]; cbn; by f_equal. Qed.

Lemma obj_set_new {A} k (v : A) l : k ∉ map fst l → obj_set k v l = l ++ [(k, v)].
Proof.
  induction l as [|[j w] l IH]; [done|]. cbn [map fst]. intros [Hj Hl]%not_elem_of_cons.
  apply jeqb_neq in Hj. cbn. rewrite Hj. by rewrite IH.
Qed.

(** The members of an object in [ms] add properties that fit their fields. *)
Lemma members_fields ms fs o : Fields ms fs → NoDup (map key ms) → ∀ props r,
  (∀ k, k ∈ map key ms → k ∉ map fst props) →
  ∃ added, (members ms o props r).1 = props ++ added
    ∧ (∀ kw, kw ∈ added → kw.1 ∈ map (fst ∘ fst) fs) ∧ Forall (field_ok added) fs.
Proof.
  intros Hf. induction Hf as [|m f ms fs Hm Hf IH]; intros Hnd props r Hp.
  { exists []. rewrite app_nil_r. split; [done|]. split; [|constructor]. intros ? Hk. by apply not_elem_of_nil in Hk. }
  cbn [map] in Hnd. apply NoDup_cons in Hnd as [Hk Hnd].
  assert (∀ v r, ∃ added, (members ms o (obj_set (key m) v props) r).1 = props ++ (key m, v) :: added
    ∧ (∀ kw, kw ∈ added → kw.1 ∈ map (fst ∘ fst) fs) ∧ Forall (field_ok added) fs) as Hset.
  { intros v r'. rewrite obj_set_new by (apply Hp; left).
    destruct (IH Hnd (props ++ [(key m, v)]) r') as (added & -> & Ha & Hok).
    { intros k Hin. rewrite map_app. intros [Hin'|Hin']%elem_of_app.
      - by apply (Hp k); [right|].
      - apply list_elem_of_singleton in Hin' as ->. done. }
    exists added. by rewrite <-app_assoc. }
  assert (∀ v added, Forall (field_ok added) fs → Forall (field_ok ((key m, v) :: added)) fs) as Hcons.
  { intros v added. rewrite !Forall_forall. intros Hok f' Hf'. destruct (Hok f' Hf') as [H1 H2].
    assert (f'.1.1 ≠ key m) as Hne.
    { intros E. apply Hk. rewrite (Fields_keys ms fs Hf). apply list_elem_of_fmap. by exists f'. }
    split; [|].
    - intros w [[= E _]|Hw]%elem_of_cons; [done|]. by apply H1.
    - intros Ho. cbn. apply jeqb_neq in Hne. rewrite Hne. by apply H2. }
  assert (∀ v added, (∀ kw, kw ∈ added → kw.1 ∈ map (fst ∘ fst) fs) → key m = f.1.1 → in_shape f.2 v →
    field_ok ((key m, v) :: added) f) as Hhead.
  { intros v added Ha E Hv. split; rewrite <-E.
    - intros w [[= ->]|Hw]%elem_of_cons; [done|]. exfalso. apply Hk.
      rewrite (Fields_keys ms fs Hf). apply (Ha _ Hw).
    - cbn. by rewrite jeqb_refl. }
  destruct Hm as [k g s Hs|k g s Hs]; cbn [members].
  - pose proof (Hs o r) as Hv. destruct (g o r) as [v r1]. destruct (Hset v r1) as (added & E & Ha & Hok).
    exists ((k, v) :: added). split; [done|]. split; [|constructor; [by apply Hhead|by apply Hcons]].
    intros kw [->|Hin]%elem_of_cons; [left|]. right. by apply Ha.
  - destruct (included o r) as [[] r1].
    + pose proof (Hs o r1) as Hv. destruct (g o r1) as [v r2]. destruct (Hset v r2) as (added & E & Ha & Hok).
      exists ((k, v) :: added). split; [done|]. split.
      * intros kw [->|Hin]%elem_of_cons; [left|]. right. by apply Ha.
      * constructor; [|by apply Hcons]. destruct (Hhead v added Ha eq_refl Hv) as [H1 H2]. by split.
    + destruct (IH Hnd props r1) as (added & E & Ha & Hok); [intros k' Hin; apply Hp; by right|].
      exists added. split; [done|]. split; [intros kw Hin; right; by apply Ha|]. constructor; [|done].
      split; [|done]. intros w Hw. exfalso. apply Hk. rewrite (Fields_keys ms fs Hf). apply (Ha _ Hw).
Qed.

#[global] Instance object_shaped ms fs : Fields ms fs → TCEq (bool_decide (NoDup (map (fst ∘ fst) fs))) true →
  Shaped (object ms) (SObject fs).
Proof.
  intros Hf Hnd%TCEq_eq%bool_decide_eq_true o r. unfold object. rewrite <-(Fields_keys ms fs Hf) in Hnd.
  destruct (members_fields ms fs o Hf Hnd [] r) as (added & E & Ha & Hok).
  { intros k _ Hk. by apply not_elem_of_nil in Hk. }
  destruct (members ms o [] r) as [props r']. cbn [fst] in *. cbn [app] in E. subst props. apply in_object. eauto.
Qed.

#[global] Instance constant_shaped v : Shaped (constant v) (SConst v).
Proof. done. Qed.

#[global] Instance boolean_shaped : Shaped f_boolean SBool.
Proof. intros o r. unfold f_boolean. destruct (datatype_boolean None r) as [b ?]. by exists b. Qed.

#[global] Instance text_shaped d : Shaped (text d) (SString 0 None) | 10.
Proof. intros o r. unfold text. destruct (d r) as [t ?]. exists t. split; [done|]. split; [lia|done]. Qed.
#[global] Instance sample_shaped : Shaped f_sample (SString 0 None) := text_shaped _.

#[global] Instance nullable_shaped g s : Shaped g s → Shaped (nullable g) (SOneOf [s; SConst VNull]).
Proof.
  intros Hg o r. apply in_one_of. unfold nullable. destruct (datatype_boolean None r) as [[] r'].
  - exists s. split; [left|apply Hg].
  - exists (SConst VNull). split; [right; left|done].
Qed.

#[global] Instance default_or_shaped v g s : Shaped g s → Shaped (default_or v g) (SOneOf [SConst v; s]).
Proof.
  intros Hg o r. apply in_one_of. unfold default_or. destruct (resolveCondition _ r) as [[] r'].
  - exists (SConst v). split; [left|done].
  - exists s. split; [right; left|apply Hg].
Qed.

#[global] Instance or_empty_shaped g s : Shaped g s → Shaped (or_empty g) (SOneOf [s; SObject []]).
Proof.
  intros Hg o r. apply in_one_of. unfold or_empty. destruct (included o r) as [[] r'].
  - exists s. split; [left|apply Hg].
  - exists (SObject []). split; [right; left|]. apply in_object. exists []. split; [done|].
    split; [|constructor]. intros ? Hk. by apply not_elem_of_nil in Hk.
Qed.

#[global] Instance nil_shaped : ShapedAll [] [].
Proof. constructor. Qed.
#[global] Instance cons_shaped g s gs ss : Shaped g s → ShapedAll gs ss → ShapedAll (g :: gs) (s :: ss).
Proof. by constructor. Qed.
#[global] Instance constants_shaped l : ShapedAll (map (λ s, constant (VStr s)) l) (map (λ s, SConst (VStr s)) l).
Proof. induction l; constructor; [|done]. apply constant_shaped. Qed.

#[global] Instance nil_fields : Fields [] [].
Proof. constructor. Qed.
#[global] Instance cons_member k g s ms fs : Shaped g s → Fields ms fs → Fields (Member k g :: ms) ((k, false, s) :: fs).
Proof. by repeat constructor. Qed.
#[global] Instance cons_optional k g s ms fs : Shaped g s → Fields ms fs → Fields (Optional k g :: ms) ((k, true, s) :: fs).
Proof. by repeat constructor. Qed.

Lemma items_shaped gs ss o r : ShapedAll gs ss → Forall2 in_shape ss (items gs o r).1.
Proof.
  intros H'. revert r. induction H' as [|g s gs ss Hg _ IH]; intros r; [constructor|]. cbn [items].
  pose proof (Hg o r) as Hv. destruct (g o r) as [v r1]. specialize (IH r1). destruct (items gs o r1) as [vs r2].
  by constructor.
Qed.

Context `{!FakerLaws}.

#[global] Instance date_shaped : Shaped f_date SDatetime.
Proof.
  intros o r. unfold f_date, text. pose proof (date_recent_spec r) as Hd.
  destruct (date_recent r) as [t ?]. by exists t.
Qed.

#[global] Instance email_shaped : Shaped (text internet_email) SEmail.
Proof.
  intros o r. unfold text. pose proof (internet_email_spec r) as Hd.
  destruct (internet_email r) as [t ?]. by exists t.
Qed.

#[global] Instance password_shaped : Shaped (text internet_password) (SString 15 (Some 15)).
Proof.
  intros o r. unfold text. pose proof (internet_password_spec r) as Hd.
  destruct (internet_password r) as [t ?]. exists t. cbn in Hd. split; [done|]. lia.
Qed.

#[global] Instance alpha_shaped min max : TCEq (0 <=? min) true → TCEq (min <=? max) true →
  Shaped (f_alpha min max) (SString min (Some max)).
Proof.
  intros H1%TCEq_eq H2%TCEq_eq o r. unfold f_alpha, text.
  pose proof (string_alpha_spec min max r) as Hd. destruct (string_alpha min max r) as [t ?]. exists t. cbn in *.
  split; [done|]. lia.
Qed.

#[global] Instance int_shaped min max : TCEq (default 0 min <=? default (2 ^ 53 - 1) max) true →
  Shaped (f_int min max) (SInt (default 0 min) (default (2 ^ 53 - 1) max)).
Proof.
  intros H1%TCEq_eq o r. unfold f_int.
  pose proof (number_int_spec min max r ltac:(lia)) as Hd. destruct (number_int min max r) as [z ?]. by exists z.
Qed.

#[global] Instance float_shaped min : Shaped (f_float min) (SFloat (default 0 min)).
Proof.
  intros o r. unfold f_float. pose proof (number_float_spec min r) as Hd.
  destruct (number_float min r) as [[m e] ?]. by exists m, e.
Qed.

#[global] Instance multiple_shaped g s : Shaped g s → Shaped (multiple g) (SList s).
Proof.
  intros Hg o r. unfold multiple. pose proof (helpers_multiple_spec (g o) r) as Hd.
  destruct (helpers_multiple (g o) r) as [l ?]. exists l. split; [done|].
  intros w Hw. destruct (Hd w Hw) as (r' & ->). apply Hg.
Qed.

#[global] Instance arrayElement_shaped gs ss : ShapedAll gs ss → TCEq (bool_decide (ss = [])) false →
  Shaped (arrayElement gs) (SOneOf ss).
Proof.
  intros Hg Hn%TCEq_eq%bool_decide_eq_false o r. unfold arrayElement. pose proof (items_shaped gs ss o r Hg) as Hi.
  destruct (items gs o r) as [vs r']. cbn in Hi. pose proof (helpers_arrayElement_spec vs r') as He.
  assert (vs ≠ []) as Hvs by (intros ->; apply Forall2_nil_inv_r in Hi; done).
  specialize (He Hvs). destruct (helpers_arrayElement vs r') as [v r'']. cbn in *.
  apply in_one_of. apply list_elem_of_lookup in He as [i Hv].
  destruct (Forall2_lookup_r _ _ _ _ _ Hi Hv) as (s & Hs & Hin). exists s. split; [|done].
  by apply list_elem_of_lookup_2 in Hs.
Qed.

(** ** Shapes against types and schemas

    The fuel bounds the depth of the two. *)

Definition field (k : jstr) (fs : list (jstr * bool * shape)) : option (bool * shape) :=
  match find_first (λ f, k =js f.1.1) fs with Some f => Some (f.1.2, f.2) | None => None end.

Fixpoint shape_typed (n : nat) (s : shape) (t : ts_type) : bool :=
  match n with
  | O => false
  | S n =>
      match s, t with
      | _, TUnknown => true
      | SOneOf l, _ => forallb (λ s, shape_typed n s t) l
      | _, TIntersection a b => if shape_typed n s a then shape_typed n s b else false
      | _, TUnion l => existsb (shape_typed n s) l
      | SConst v, _ => has_type t v
      | SString _ _, TString | SDatetime, TString | SEmail, TString => true
      | SInt _ _, TNumber | SFloat _, TNumber | SBool, TBoolean => true
      | SList s, TArray t => shape_typed n s t
      | SObject fs, TObject gs =>
          forallb (λ g, match field g.1 fs with
                        | Some (o, s) => shape_typed n s g.2 && (negb o || has_type g.2 VUndefined)
                        | None => has_type g.2 VUndefined
                        end) gs
      | SObject fs, TRecord t => forallb (λ f, shape_typed n f.2 t) fs
      | _, _ => false
      end
  end.

(** Every text of a length between the bounds passes. *)
Definition length_check (lo : Z) (hi : option Z) (c : string_check) : bool :=
  match c, hi with
  | MinLength n, _ => n <=? lo
  | MaxLength n, Some hi => hi <=? n
  | _, _ => false
  end.

Definition range_check (lo hi : Z) (c : number_check) : bool :=
  match c with Gte z => z <=? lo | Lte z => hi <=? z | Gt z => z <? lo end.

Definition least_check (lo : Z) (c : number_check) : bool :=
  match c with Gte z => z <=? lo | _ => false end.

Definition may_be_null (s : shape) : bool := match s with SConst VNull => true | _ => false end.
Definition may_be_undefined (s : shape) : bool := match s with SConst VUndefined => true | _ => false end.

(** The literal that every object of a shape has under a key. *)
Definition tag (key : jstr) (fs : list (jstr * bool * shape)) : option jsval :=
  match field key fs with Some (false, SConst v) => Some v | _ => None end.

Fixpoint shape_accepted (n : nat) (s : shape) (z : schema) : bool :=
  match n with
  | O => false
  | S n =>
      match s with
      | SOneOf l => forallb (λ s, shape_accepted n s z) l
      | _ =>
          match z with
          | ZUnknown => true
          | ZUnion l => existsb (shape_accepted n s) l
          | ZNullish z => may_be_null s || may_be_undefined s || shape_accepted n s z
          | ZNullable z => may_be_null s || shape_accepted n s z
          | ZOptional z => may_be_undefined s || shape_accepted n s z
          | ZDefault z _ => may_be_undefined s || shape_accepted n s z
          | ZReadonly z => shape_accepted n s z
          | _ =>
              match s, z with
              | SConst (VArr []), ZArray _ => true
              | SConst (VStr t), ZString cs => forallb (string_ok t) cs
              | SConst (VStr t), ZEnum vs => existsb (jeqb t) vs
              | SConst (VNum (Dec m e)), ZInt cs => safe_integer m e && forallb (number_ok m e) cs
              | SConst (VNum (Dec m e)), ZNumber cs => forallb (number_ok m e) cs
              | SConst v, ZLiteral l => is_literal l v
              | SConst (VBool _), ZBoolean => true
              | SConst VNull, ZNull => true
              | SConst VUndefined, ZVoid => true
              | SString lo hi, ZString cs => forallb (length_check lo hi) cs
              | SDatetime, ZString [] | SEmail, ZString [] => true
              | SDatetime, ZDatetime | SEmail, ZEmail => true
              | SInt lo hi, ZInt cs => (0 <=? lo) && (hi <=? 2 ^ 53 - 1) && forallb (range_check lo hi) cs
              | SInt lo hi, ZNumber cs => forallb (range_check lo hi) cs
              | SFloat lo, ZNumber cs => forallb (least_check lo) cs
              | SBool, ZBoolean => true
              | SList s, ZArray z => shape_accepted n s z
              | SObject fs, ZObject gs =>
                  forallb (λ g, match field g.1 fs with
                                | Some (o, s) =>
                                    shape_accepted n s g.2 && (negb o || shape_accepted n (SConst VUndefined) g.2)
                                | None => shape_accepted n (SConst VUndefined) g.2
                                end) gs
              | SObject fs, ZRecord k z =>
                  forallb (λ f, shape_accepted n (SConst (VStr f.1.1)) k && shape_accepted n f.2 z) fs
              | SObject fs, ZDiscriminatedUnion key l =>
                  match tag key fs with
                  | Some v =>
                      match find_first (λ z, match discriminator key z with
                                             | Some d => is_literal d v
                                             | None => false
                                             end) l with
                      | Some z => shape_accepted n s z
                      | None => false
                      end
                  | None => false
                  end
              | _, _ => false
              end
          end
      end
  end.

(** The property that a field speaks of: there, or missing where it may be. *)
Lemma field_lookup fs props k :
  Forall (field_ok props) fs → (∀ kw, kw ∈ props → kw.1 ∈ map (fst ∘ fst) fs) →
  match field k fs with
  | Some (o, s) => (∃ w, obj_get k props = Some w ∧ in_shape s w) ∨ (o = true ∧ obj_get k props = None)
  | None => obj_get k props = None
  end.
Proof.
  intros Hok Hk. unfold field. destruct (find_first _ fs) as [[[j o] s]|] eqn:E.
  - apply find_first_Some in E as [->%jeqb_eq Hin]. rewrite Forall_forall in Hok.
    destruct (Hok _ Hin) as [H1 H2]. cbn in *. destruct (obj_get j props) as [w|] eqn:Ew.
    + left. exists w. split; [done|]. apply H1. by apply obj_get_elem.
    + right. destruct o; [done|]. by destruct (H2 eq_refl).
  - destruct (obj_get k props) as [w|] eqn:Ew; [|done]. exfalso.
    apply obj_get_elem, Hk, list_elem_of_fmap in Ew as (f & Hf & Hin). cbn in Hf.
    pose proof (find_first_None _ _ f E Hin) as Hne. cbn in Hne. by rewrite <-Hf, jeqb_refl in Hne.
Qed.

(** The value of a property as it is read: of the field's shape, or undefined where it may be. *)
Lemma field_read fs props k (P : jsval → Prop) :
  Forall (field_ok props) fs → (∀ kw, kw ∈ props → kw.1 ∈ map (fst ∘ fst) fs) →
  match field k fs with
  | Some (o, s) => (∀ w, in_shape s w → P w) ∧ (o = true → P VUndefined)
  | None => P VUndefined
  end → P (default VUndefined (obj_get k props)).
Proof.
  intros Hok Hk HP. pose proof (field_lookup fs props k Hok Hk) as Hl. destruct (field k fs) as [[o s]|].
  - destruct HP as [H1 H2]. destruct Hl as [(w & -> & Hw)|[Ho ->]]; cbn; auto.
  - by rewrite Hl.
Qed.

Lemma field_member fs props kw :
  Forall (field_ok props) fs → (∀ kw, kw ∈ props → kw.1 ∈ map (fst ∘ fst) fs) → kw ∈ props →
  ∃ f, f ∈ fs ∧ f.1.1 = kw.1 ∧ in_shape f.2 kw.2.
Proof.
  intros Hok Hk Hin. destruct (proj1 (list_elem_of_fmap _ _ _) (Hk _ Hin)) as (f & Hf & Hfs).
  exists f. split; [done|]. split; [done|]. rewrite Forall_forall in Hok. destruct (Hok f Hfs) as [H1 _].
  apply H1. cbn in Hf. rewrite <-Hf. by destruct kw.
Qed.

Lemma shape_typed_sound n s t v : shape_typed n s t = true → in_shape s v → has_type t v = true.
Proof.
  revert s t v. induction n as [|n IH]; [done|]. intros s t v Hs Hv.
  assert (∀ l, existsb (shape_typed n s) l = true → has_type (TUnion l) v = true) as Hu.
  { intros l (t' & Ht & Hts)%existsb_true. cbn. apply existsb_true. eauto. }
  assert (∀ a b, (if shape_typed n s a then shape_typed n s b else false) = true → has_type (TIntersection a b) v = true) as Hi.
  { intros a b. destruct (shape_typed n s a) eqn:H1; [intros H2|done]. cbn. by rewrite (IH s a v H1 Hv), (IH s b v H2 Hv). }
  destruct s as [w|lo hi| | |lo hi|lo| |l|s|fs].
  8: { apply in_one_of in Hv as (s & Hin & Hv). destruct t; try done; cbn in Hs;
         rewrite forallb_true in Hs; by apply (IH s); [apply Hs|]. }
  1: { cbn in Hv. subst w. destruct t; cbn [shape_typed] in Hs; auto. }
  all: destruct t; try done; cbn [shape_typed] in Hs; try by auto.
  all: try (by destruct Hv as (? & -> & _)); try (by destruct Hv as (? & ? & -> & _)); try (by destruct Hv as (? & ->)).
  - destruct Hv as (l & -> & Hl). cbn. apply forallb_true. intros w Hw. eapply IH; [done|]. by apply Hl.
  - apply in_object in Hv as (props & -> & Hk & Hok). cbn. apply forallb_true. intros kw Hkw.
    destruct (field_member fs props kw Hok Hk Hkw) as (f & Hf & _ & Hin).
    rewrite forallb_true in Hs. by apply (IH f.2); [apply Hs|].
  - apply in_object in Hv as (props & -> & Hk & Hok). cbn. apply forallb_true. intros g Hg.
    rewrite forallb_true in Hs. specialize (Hs g Hg).
    apply (field_read fs props g.1 (λ v, has_type g.2 v = true) Hok Hk).
    destruct (field g.1 fs) as [[o s]|]; [|done]. apply andb_prop in Hs as [H1 H2]. split; [by eauto|].
    intros ->. done.
Qed.

Lemma parse_entries_accepts k z props :
  (∀ kw, kw ∈ props → accepts k (VStr kw.1) ∧ accepts z kw.2) → is_Some (parse_entries safeParse k z props).
Proof.
  induction props as [|[j v] props IH]; intros Hp; [by eexists|]. cbn [parse_entries].
  destruct (Hp (j, v)) as [[j' Hj] [w Hw]]; [left|]. cbn in Hj, Hw. rewrite Hj, Hw. cbn.
  destruct IH as [rest ->]; [intros g Hin; apply Hp; by right|]. by eexists.
Qed.

Lemma parse_options_accepts l z v : z ∈ l → accepts z v → is_Some (parse_options safeParse l v).
Proof.
  intros Hz [w Hw]. induction l as [|y l IH]; [by apply not_elem_of_nil in Hz|]. cbn.
  destruct (safeParse y v) eqn:E; [done|]. apply elem_of_cons in Hz as [->|Hz]; [congruence|auto].
Qed.

(** The schemas around a schema accept what it accepts. *)
Lemma wrappers_accept z v :
  (accepts z v ∨ v = VNull → accepts (ZNullable z) v)
  ∧ (accepts z v ∨ v = VUndefined → accepts (ZOptional z) v)
  ∧ (accepts z v ∨ v = VNull ∨ v = VUndefined → accepts (ZNullish z) v)
  ∧ (accepts z v ∨ v = VUndefined → ∀ d, accepts (ZDefault z d) v)
  ∧ (accepts z v → accepts (ZReadonly z) v).
Proof.
  unfold accepts. split; [|split; [|split; [|split]]].
  - intros [Hv| ->]; rewrite safeParse_spec; cbn; [by destruct v|done].
  - intros [Hv| ->]; rewrite safeParse_spec; cbn; [by destruct (is_undefined v)|done].
  - intros [Hv|[->| ->]]; rewrite safeParse_spec; cbn; [by destruct (nullish v)|done|done].
  - intros [[w Hw]| ->] d; rewrite safeParse_spec; cbn; [rewrite Hw; by destruct (is_undefined v)|done].
  - intros Hv. by rewrite safeParse_spec.
Qed.

Lemma length_check_ok lo hi c t :
  length_check lo hi c = true → lo ≤ Z.of_nat (length t) →
  match hi with Some hi => Z.of_nat (length t) ≤ hi | None => True end → string_ok t c = true.
Proof. destruct c, hi; cbn; intros; try done; lia. Qed.

Lemma range_check_ok lo hi c z : range_check lo hi c = true → lo ≤ z ≤ hi → number_ok z 0 c = true.
Proof. destruct c; cbn; unfold dec_le, dec_ge; cbn; rewrite ?Z.mul_1_r; lia. Qed.

Lemma least_check_ok lo c m e : least_check lo c = true → dec_le lo m e = true → number_ok m e c = true.
Proof.
  destruct c as [z|z|z]; cbn; try done. unfold dec_le. intros Hz. destruct (0 <=? e); [lia|].
  intros Hm. apply Z.leb_le. apply Z.leb_le in Hm. pose proof (Z.pow_nonneg 10 (- e)). nia.
Qed.

Lemma forallb_ok {A} (f g : A → bool) l : (∀ x, f x = true → g x = true) → forallb f l = true → forallb g l = true.
Proof. intros Hfg. rewrite !forallb_true. auto. Qed.

Lemma may_be_null_spec s v : may_be_null s = true → in_shape s v → v = VNull.
Proof. by destruct s as [[]| | | | | | | | |]. Qed.

Lemma may_be_undefined_spec s v : may_be_undefined s = true → in_shape s v → v = VUndefined.
Proof. by destruct s as [[]| | | | | | | | |]. Qed.

(** A schema that is not built around others which take the same value. *)
Definition plain (z : schema) : bool :=
  match z with
  | ZUnknown | ZUnion _ | ZNullish _ | ZNullable _ | ZOptional _ | ZDefault _ _ | ZReadonly _ => false
  | _ => true
  end.

Lemma const_accepts n v z :
  plain z = true → shape_accepted (S n) (SConst v) z = true → accepts z v.
Proof.
  intros Hz Hs. unfold accepts. rewrite safeParse_spec.
  destruct z; try discriminate Hz; clear Hz; cbn [shape_accepted] in Hs;
    destruct v as [| | |[| |m e]| | | | | | | |[|? ?]| |]; try discriminate Hs; cbn [zod_step]; rewrite ?Hs; eexists; reflexivity.
Qed.

Definition leaf (s : shape) : bool :=
  match s with SString _ _ | SDatetime | SEmail | SInt _ _ | SFloat _ | SBool => true | _ => false end.

Lemma text_accepts n s v z :
  leaf s = true →
  plain z = true → shape_accepted (S n) s z = true → in_shape s v → accepts z v.
Proof.
  intros Hleaf Hz Hs Hv. unfold accepts. rewrite safeParse_spec.
  destruct s as [|lo hi| | |lo hi|lo| | | |]; try discriminate Hleaf; clear Hleaf; destruct z as [cs|cs|cs| | | | | | | | | | | | | | | | | |];
    try discriminate Hz; clear Hz; cbn [shape_accepted] in Hs; try discriminate Hs; cbn [zod_step].
  - destruct Hv as (t & -> & H1 & H2). rewrite (forallb_ok _ (string_ok t) cs (λ c Hc, length_check_ok lo hi c t Hc H1 H2) Hs).
    done.
  - destruct Hv as (t & -> & _). by destruct cs.
  - destruct Hv as (t & -> & Ht). by rewrite Ht.
  - destruct Hv as (t & -> & _). by destruct cs.
  - destruct Hv as (t & -> & Ht). by rewrite Ht.
  - destruct Hv as (z & -> & Hr). apply andb_prop in Hs as [Hb Hs]. cbn [VInt].
    rewrite (forallb_ok _ (number_ok z 0) cs (λ c Hc, range_check_ok lo hi c z Hc Hr) Hs).
    assert (safe_integer z 0 = true) as ->; [|done]. unfold safe_integer. cbn. lia.
  - destruct Hv as (z & -> & Hr). cbn [VInt].
    by rewrite (forallb_ok _ (number_ok z 0) cs (λ c Hc, range_check_ok lo hi c z Hc Hr) Hs).
  - destruct Hv as (m & e & -> & Hr).
    by rewrite (forallb_ok _ (number_ok m e) cs (λ c Hc, least_check_ok lo c m e Hc Hr) Hs).
  - by destruct Hv as (b & ->).
Qed.

Lemma object_accepts n fs v z :
  (∀ s z v, shape_accepted n s z = true → in_shape s v → accepts z v) →
  plain z = true → shape_accepted (S n) (SObject fs) z = true → in_shape (SObject fs) v → accepts z v.
Proof.
  intros IH Hz Hs Hv. pose proof Hv as (props & -> & Hk & Hok)%in_object. unfold accepts. rewrite safeParse_spec.
  destruct z as [| | | | | | | | | | | |kz z|l|key l|gs| | | | |]; try discriminate Hz; clear Hz;
    cbn [shape_accepted] in Hs; try discriminate Hs; cbn [zod_step].
  - rewrite forallb_true in Hs.
    destruct (parse_entries_accepts kz z props) as [w ->]; [|done]. intros kw Hkw.
    destruct (field_member fs props kw Hok Hk Hkw) as (f & Hf & Ek & Hw).
    specialize (Hs f Hf). apply andb_prop in Hs as [H1 H2]. rewrite Ek in H1. split; [by apply (IH _ _ _ H1)|].
    by apply (IH _ _ _ H2).
  - unfold tag in Hs. pose proof (field_lookup fs props key Hok Hk) as Hl.
    destruct (field key fs) as [[[] [w| | | | | | | | |]]|]; try done.
    destruct Hl as [(w' & -> & Hw)|[? _]]; [|done]. cbn in Hw. subst w'. cbn [default from_option id].
    destruct (find_first _ l) as [z|]; [|done]. cbn. by apply (IH (SObject fs)).
  - rewrite forallb_true in Hs. destruct (parse_fields_accepts gs props) as [w ->]; [|done].
    intros g Hg. specialize (Hs g Hg). apply (field_read fs props g.1 (accepts g.2) Hok Hk).
    destruct (field g.1 fs) as [[o s]|]; [|by apply (IH _ _ _ Hs)]. apply andb_prop in Hs as [H1 H2].
    split; [intros w Hw; by apply (IH _ _ _ H1)|]. intros ->. by apply (IH _ _ _ H2).
Qed.

Lemma list_accepts n s v z :
  (∀ s z v, shape_accepted n s z = true → in_shape s v → accepts z v) →
  plain z = true → shape_accepted (S n) (SList s) z = true → in_shape (SList s) v → accepts z v.
Proof.
  intros IH Hz Hs (l & -> & Hl). unfold accepts. rewrite safeParse_spec.
  destruct z as [| | | | | | | | | | |z| | | | | | | | |]; try discriminate Hz; cbn [shape_accepted] in Hs;
    try discriminate Hs. cbn [zod_step].
  assert (is_Some (mapM (safeParse z) l)) as [ws ->]; [|by eexists].
  apply mapM_is_Some, Forall_forall. intros w Hw. apply (IH _ _ _ Hs). by apply Hl.
Qed.

Definition one_of (s : shape) : option (list shape) := match s with SOneOf l => Some l | _ => None end.

Lemma wrapped_accepts n s v z :
  (∀ z, shape_accepted n s z = true → accepts z v) →
  plain z = false → one_of s = None → shape_accepted (S n) s z = true → in_shape s v → accepts z v.
Proof.
  intros IH Hz Ho Hs Hv.
  assert (match z with
          | ZUnknown => true
          | ZUnion l => existsb (shape_accepted n s) l
          | ZNullish z => may_be_null s || may_be_undefined s || shape_accepted n s z
          | ZNullable z => may_be_null s || shape_accepted n s z
          | ZOptional z | ZDefault z _ => may_be_undefined s || shape_accepted n s z
          | ZReadonly z => shape_accepted n s z
          | _ => true
          end = true) as Hs'.
  { destruct z; try discriminate Hz; destruct s; try discriminate Ho; exact Hs. }
  clear Hs. pose proof (λ H, may_be_null_spec s v H Hv) as Hn. pose proof (λ H, may_be_undefined_spec s v H Hv) as Hu.
  destruct z as [| | | | | | | | | | | | |l| | |z|z|z|z d|z]; try discriminate Hz.
  - unfold accepts. rewrite safeParse_spec. by eexists.
  - apply existsb_true in Hs' as (z' & Hin & Hs). unfold accepts. rewrite safeParse_spec.
    apply (parse_options_accepts _ z'); [done|]. by apply IH.
  - apply wrappers_accept. apply orb_prop in Hs' as [[Hs|Hs]%orb_prop|Hs]; auto.
  - apply wrappers_accept. apply orb_prop in Hs' as [Hs|Hs]; auto.
  - apply wrappers_accept. apply orb_prop in Hs' as [Hs|Hs]; auto.
  - apply wrappers_accept. apply orb_prop in Hs' as [Hs|Hs]; auto.
  - apply wrappers_accept. by apply IH.
Qed.

(** What fits a shape, a schema that accepts the shape accepts. *)
Lemma shape_accepted_sound n s z v : shape_accepted n s z = true → in_shape s v → accepts z v.
Proof.
  revert s z v. induction n as [|n IH]; [discriminate|]. intros s z v Hs Hv.
  destruct (one_of s) as [l|] eqn:Ho.
  { destruct s; try discriminate Ho. apply in_one_of in Hv as (s & Hin & Hv).
    cbn [shape_accepted] in Hs. rewrite forallb_true in Hs. exact (IH s z v (Hs s Hin) Hv). }
  destruct (plain z) eqn:Hz; [|exact (wrapped_accepts n s v z (λ z' Hz', IH s z' v Hz' Hv) Hz Ho Hs Hv)].
  destruct s as [w|min max| | |min max|min| |l|s|fs].
  - cbn in Hv. subst v. exact (const_accepts n w z Hz Hs).
  - exact (text_accepts n (SString min max) v z eq_refl Hz Hs Hv).
  - exact (text_accepts n SDatetime v z eq_refl Hz Hs Hv).
  - exact (text_accepts n SEmail v z eq_refl Hz Hs Hv).
  - exact (text_accepts n (SInt min max) v z eq_refl Hz Hs Hv).
  - exact (text_accepts n (SFloat min) v z eq_refl Hz Hs Hv).
  - exact (text_accepts n SBool v z eq_refl Hz Hs Hv).
  - discriminate Ho.
  - exact (list_accepts n s v z IH Hz Hs Hv).
  - exact (object_accepts n fs v z IH Hz Hs Hv).
Qed.

(** ** The fakes *)

(** [Omit<T, K>], and the schemas of the parts of a request. *)
Definition omit (k : jstr) (t : ts_type) : ts_type :=
  match t with TObject fs => TObject (obj_delete k fs) | t => t end.
Definition request_schema (parts : list (jstr * schema)) : schema := ZObject parts.

(** Each fake with its type and the schema of the same data (of a request, the schemas of its parts). *)
Definition api_fakes : list (Fake * ts_type * schema) := [
  (fakeCancelStatus,
   CancelStatus, zCancelStatus);
  (fakeCancelResponse,
   CancelResponse, zCancelResponse);
  (fakeContainerStatusInfo,
   ContainerStatusInfo, zContainerStatusInfo);
  (fakeDeleteNotificationResponse,
   DeleteNotificationResponse, zDeleteNotificationResponse);
  (fakeDeleteResponse,
   DeleteResponse, zDeleteResponse);
  (fakeDeleteUserResponse,
   DeleteUserResponse, zDeleteUserResponse);
  (fakeDerivedCounts,
   DerivedCounts, zDerivedCounts);
  (fakeEditorSettingsInput,
   EditorSettingsInput, zEditorSettingsInput);
  (fakeEditorSettingsOutput,
   EditorSettingsOutput, zEditorSettingsOutput);
  (fakeEndpointGroup,
   EndpointGroup, zEndpointGroup);
  (fakeEnvironment,
   Environment, zEnvironment);
  (fakeErrorResponse,
   ErrorResponse, zErrorResponse);
  (fakeEventDeleteResponse,
   EventDeleteResponse, zEventDeleteResponse);
  (fakeEventMetadata,
   EventMetadata, zEventMetadata);
  (fakeAuthFailedEvent,
   AuthFailedEvent, zAuthFailedEvent);
  (fakeEventReplayRequest,
   EventReplayRequest, zEventReplayRequest);
  (fakeEventType,
   EventType, zEventType);
  (fakeDlqMessageDiscardedEvent,
   DlqMessageDiscardedEvent, zDlqMessageDiscardedEvent);
  (fakeDlqMessageReceivedEvent,
   DlqMessageReceivedEvent, zDlqMessageReceivedEvent);
  (fakeDlqMessageRetriedEvent,
   DlqMessageRetriedEvent, zDlqMessageRetriedEvent);
  (fakeEventFilter,
   EventFilter, zEventFilter);
  (fakeEventBrowseRequest,
   EventBrowseRequest, zEventBrowseRequest);
  (fakeEventSummary,
   EventSummary, zEventSummary);
  (fakeEventTypeCount,
   EventTypeCount, zEventTypeCount);
  (fakeExampleScripts,
   ExampleScripts, zExampleScripts);
  (fakeExecutionCancelledEvent,
   ExecutionCancelledEvent, zExecutionCancelledEvent);
  (fakeExecutionErrorType,
   ExecutionErrorType, zExecutionErrorType);
  (fakeExecutionQueuedEvent,
   ExecutionQueuedEvent, zExecutionQueuedEvent);
  (fakeExecutionRequest,
   ExecutionRequest, zExecutionRequest);
  (fakeExecutionRunningEvent,
   ExecutionRunningEvent, zExecutionRunningEvent);
  (fakeExecutionStartedEvent,
   ExecutionStartedEvent, zExecutionStartedEvent);
  (fakeExecutionStatus,
   ExecutionStatus, zExecutionStatus);
  (fakeExecutionResponse,
   ExecutionResponse, zExecutionResponse);
  (fakeExportFormat,
   ExportFormat, zExportFormat);
  (fakeHourlyEventCount,
   HourlyEventCount, zHourlyEventCount);
  (fakeLanguageInfo,
   LanguageInfo, zLanguageInfo);
  (fakeLanguageLimits,
   LanguageLimits, zLanguageLimits);
  (fakeLivenessResponse,
   LivenessResponse, zLivenessResponse);
  (fakeLoginMethod,
   LoginMethod, zLoginMethod);
  (fakeMessageResponse,
   MessageResponse, zMessageResponse);
  (fakeNotificationAllReadEvent,
   NotificationAllReadEvent, zNotificationAllReadEvent);
  (fakeNotificationClickedEvent,
   NotificationClickedEvent, zNotificationClickedEvent);
  (fakeNotificationDeliveredEvent,
   NotificationDeliveredEvent, zNotificationDeliveredEvent);
  (fakeNotificationFailedEvent,
   NotificationFailedEvent, zNotificationFailedEvent);
  (fakeNotificationPreferencesUpdatedEvent,
   NotificationPreferencesUpdatedEvent, zNotificationPreferencesUpdatedEvent);
  (fakeNotificationReadEvent,
   NotificationReadEvent, zNotificationReadEvent);
  (fakeNotificationSentEvent,
   NotificationSentEvent, zNotificationSentEvent);
  (fakeNotificationSettingsInput,
   NotificationSettingsInput, zNotificationSettingsInput);
  (fakeNotificationSettingsOutput,
   NotificationSettingsOutput, zNotificationSettingsOutput);
  (fakeNotificationSeverity,
   NotificationSeverity, zNotificationSeverity);
  (fakeNotificationCreatedEvent,
   NotificationCreatedEvent, zNotificationCreatedEvent);
  (fakeNotificationStatus,
   NotificationStatus, zNotificationStatus);
  (fakeNotificationResponse,
   NotificationResponse, zNotificationResponse);
  (fakeNotificationListResponse,
   NotificationListResponse, zNotificationListResponse);
  (fakePasswordResetRequest,
   PasswordResetRequest, zPasswordResetRequest);
  (fakePodCreatedEvent,
   PodCreatedEvent, zPodCreatedEvent);
  (fakePodDeletedEvent,
   PodDeletedEvent, zPodDeletedEvent);
  (fakePodFailedEvent,
   PodFailedEvent, zPodFailedEvent);
  (fakePodRunningEvent,
   PodRunningEvent, zPodRunningEvent);
  (fakePodScheduledEvent,
   PodScheduledEvent, zPodScheduledEvent);
  (fakePodSucceededEvent,
   PodSucceededEvent, zPodSucceededEvent);
  (fakePodTerminatedEvent,
   PodTerminatedEvent, zPodTerminatedEvent);
  (fakeQueuePriority,
   QueuePriority, zQueuePriority);
  (fakeAdminExecutionResponse,
   AdminExecutionResponse, zAdminExecutionResponse);
  (fakeAdminExecutionListResponse,
   AdminExecutionListResponse, zAdminExecutionListResponse);
  (fakeExecutionAcceptedEvent,
   ExecutionAcceptedEvent, zExecutionAcceptedEvent);
  (fakeExecutionRequestedEvent,
   ExecutionRequestedEvent, zExecutionRequestedEvent);
  (fakePriorityUpdateRequest,
   PriorityUpdateRequest, zPriorityUpdateRequest);
  (fakeQueueStatusResponse,
   QueueStatusResponse, zQueueStatusResponse);
  (fakeQuotaExceededEvent,
   QuotaExceededEvent, zQuotaExceededEvent);
  (fakeRateLimitAlgorithm,
   RateLimitAlgorithm, zRateLimitAlgorithm);
  (fakeEndpointUsageStats,
   EndpointUsageStats, zEndpointUsageStats);
  (fakeRateLimitExceededEvent,
   RateLimitExceededEvent, zRateLimitExceededEvent);
  (fakeRateLimitRuleResponse,
   RateLimitRuleResponse, zRateLimitRuleResponse);
  (fakeRateLimitSummary,
   RateLimitSummary, zRateLimitSummary);
  (fakeReplayError,
   ReplayError, zReplayError);
  (fakeReplayStatus,
   ReplayStatus, zReplayStatus);
  (fakeEventReplayResponse,
   EventReplayResponse, zEventReplayResponse);
  (fakeResourceLimitExceededEvent,
   ResourceLimitExceededEvent, zResourceLimitExceededEvent);
  (fakeResourceLimits,
   ResourceLimits, zResourceLimits);
  (fakeResourceUsage,
   ResourceUsage, zResourceUsage);
  (fakeExecutionResult,
   ExecutionResult, zExecutionResult);
  (fakeEventReplayStatusResponse,
   EventReplayStatusResponse, zEventReplayStatusResponse);
  (fakeExecutionListResponse,
   ExecutionListResponse, zExecutionListResponse);
  (fakeResourceUsageDomain,
   ResourceUsageDomain, zResourceUsageDomain);
  (fakeExecutionCompletedEvent,
   ExecutionCompletedEvent, zExecutionCompletedEvent);
  (fakeExecutionFailedEvent,
   ExecutionFailedEvent, zExecutionFailedEvent);
  (fakeExecutionTimeoutEvent,
   ExecutionTimeoutEvent, zExecutionTimeoutEvent);
  (fakeRestoreSettingsRequest,
   RestoreSettingsRequest, zRestoreSettingsRequest);
  (fakeSseControlEvent,
   SseControlEvent, zSseControlEvent);
  (fakeSseExecutionEventSchema,
   SseExecutionEventSchema, zSseExecutionEventSchema);
  (fakeSavedScriptCreateRequest,
   SavedScriptCreateRequest, zSavedScriptCreateRequest);
  (fakeSavedScriptResponse,
   SavedScriptResponse, zSavedScriptResponse);
  (fakeSavedScriptListResponse,
   SavedScriptListResponse, zSavedScriptListResponse);
  (fakeSavedScriptUpdate,
   SavedScriptUpdate, zSavedScriptUpdate);
  (fakeScriptDeletedEvent,
   ScriptDeletedEvent, zScriptDeletedEvent);
  (fakeScriptSavedEvent,
   ScriptSavedEvent, zScriptSavedEvent);
  (fakeScriptSharedEvent,
   ScriptSharedEvent, zScriptSharedEvent);
  (fakeSecurityViolationEvent,
   SecurityViolationEvent, zSecurityViolationEvent);
  (fakeServiceEventCount,
   ServiceEventCount, zServiceEventCount);
  (fakeServiceRecoveredEvent,
   ServiceRecoveredEvent, zServiceRecoveredEvent);
  (fakeServiceUnhealthyEvent,
   ServiceUnhealthyEvent, zServiceUnhealthyEvent);
  (fakeSettingsHistoryEntry,
   SettingsHistoryEntry, zSettingsHistoryEntry);
  (fakeSettingsHistoryResponse,
   SettingsHistoryResponse, zSettingsHistoryResponse);
  (fakeStorageType,
   StorageType, zStorageType);
  (fakeResultFailedEvent,
   ResultFailedEvent, zResultFailedEvent);
  (fakeResultStoredEvent,
   ResultStoredEvent, zResultStoredEvent);
  (fakeSystemErrorEvent,
   SystemErrorEvent, zSystemErrorEvent);
  (fakeSystemSettingsSchemaInput,
   SystemSettingsSchemaInput, zSystemSettingsSchemaInput);
  (fakeSystemSettingsSchemaOutput,
   SystemSettingsSchemaOutput, zSystemSettingsSchemaOutput);
  (fakeTheme,
   Theme, zTheme);
  (fakeThemeUpdateRequest,
   ThemeUpdateRequest, zThemeUpdateRequest);
  (fakeUnlockResponse,
   UnlockResponse, zUnlockResponse);
  (fakeUnreadCountResponse,
   UnreadCountResponse, zUnreadCountResponse);
  (fakeUserDeletedEvent,
   UserDeletedEvent, zUserDeletedEvent);
  (fakeUserEventCount,
   UserEventCount, zUserEventCount);
  (fakeEventStatistics,
   EventStatistics, zEventStatistics);
  (fakeEventStatsResponse,
   EventStatsResponse, zEventStatsResponse);
  (fakeUserLoggedInEvent,
   UserLoggedInEvent, zUserLoggedInEvent);
  (fakeUserLoggedOutEvent,
   UserLoggedOutEvent, zUserLoggedOutEvent);
  (fakeUserLoginEvent,
   UserLoginEvent, zUserLoginEvent);
  (fakeUserRateLimitConfigResponse,
   UserRateLimitConfigResponse, zUserRateLimitConfigResponse);
  (fakeRateLimitUpdateResponse,
   RateLimitUpdateResponse, zRateLimitUpdateResponse);
  (fakeUserRateLimitsResponse,
   UserRateLimitsResponse, zUserRateLimitsResponse);
  (fakeUserRegisteredEvent,
   UserRegisteredEvent, zUserRegisteredEvent);
  (fakeUserRole,
   UserRole, zUserRole);
  (fakeLoginResponse,
   LoginResponse, zLoginResponse);
  (fakeUserCreate,
   UserCreate, zUserCreate);
  (fakeUserResponse,
   UserResponse, zUserResponse);
  (fakeUserListResponse,
   UserListResponse, zUserListResponse);
  (fakeUserSettings,
   UserSettings, zUserSettings);
  (fakeUserSettingsUpdate,
   UserSettingsUpdate, zUserSettingsUpdate);
  (fakeUserSettingsUpdatedEvent,
   UserSettingsUpdatedEvent, zUserSettingsUpdatedEvent);
  (fakeUserUpdate,
   UserUpdate, zUserUpdate);
  (fakeUserUpdatedEvent,
   UserUpdatedEvent, zUserUpdatedEvent);
  (fakeAdminUserOverview,
   AdminUserOverview, zAdminUserOverview);
  (fakeEventBrowseResponse,
   EventBrowseResponse, zEventBrowseResponse);
  (fakeEventDetailResponse,
   EventDetailResponse, zEventDetailResponse);
  (fakeEventReplayStatusResponseWritable,
   EventReplayStatusResponseWritable, zEventReplayStatusResponseWritable);
  (fakeUserCreateWritable,
   UserCreateWritable, zUserCreateWritable);
  (fakeUserUpdateWritable,
   UserUpdateWritable, zUserUpdateWritable);
  (fakeLoginApiV1AuthLoginPostResponse200,
   (ts_field "200"%js LoginApiV1AuthLoginPostResponses), zLoginApiV1AuthLoginPostResponse);
  (fakeLoginApiV1AuthLoginPostResponse401,
   (ts_field "401"%js LoginApiV1AuthLoginPostErrors), zErrorResponse);
  (fakeLoginApiV1AuthLoginPostResponse403,
   (ts_field "403"%js LoginApiV1AuthLoginPostErrors), zErrorResponse);
  (fakeLoginApiV1AuthLoginPostResponse423,
   (ts_field "423"%js LoginApiV1AuthLoginPostErrors), zErrorResponse);
  (fakeLoginApiV1AuthLoginPostResponsedefault,
   (ts_field "default"%js LoginApiV1AuthLoginPostErrors), zErrorResponse);
  (fakeRegisterApiV1AuthRegisterPostRequest,
   (omit "url"%js RegisterApiV1AuthRegisterPostData),
      (request_schema [("body"%js, zRegisterApiV1AuthRegisterPostBody)]));
  (fakeRegisterApiV1AuthRegisterPostResponse200,
   (ts_field "200"%js RegisterApiV1AuthRegisterPostResponses), zRegisterApiV1AuthRegisterPostResponse);
  (fakeRegisterApiV1AuthRegisterPostResponse409,
   (ts_field "409"%js RegisterApiV1AuthRegisterPostErrors), zErrorResponse);
  (fakeRegisterApiV1AuthRegisterPostResponse422,
   (ts_field "422"%js RegisterApiV1AuthRegisterPostErrors), zErrorResponse);
  (fakeRegisterApiV1AuthRegisterPostResponsedefault,
   (ts_field "default"%js RegisterApiV1AuthRegisterPostErrors), zErrorResponse);
  (fakeGetCurrentUserProfileApiV1AuthMeGetResponse200,
   (ts_field "200"%js GetCurrentUserProfileApiV1AuthMeGetResponses), zGetCurrentUserProfileApiV1AuthMeGetResponse);
  (fakeGetCurrentUserProfileApiV1AuthMeGetResponse401,
   (ts_field "401"%js GetCurrentUserProfileApiV1AuthMeGetErrors), zErrorResponse);
  (fakeGetCurrentUserProfileApiV1AuthMeGetResponsedefault,
   (ts_field "default"%js GetCurrentUserProfileApiV1AuthMeGetErrors), zErrorResponse);
  (fakeLogoutApiV1AuthLogoutPostResponse200,
   (ts_field "200"%js LogoutApiV1AuthLogoutPostResponses), zLogoutApiV1AuthLogoutPostResponse);
  (fakeLogoutApiV1AuthLogoutPostResponse403,
   (ts_field "403"%js LogoutApiV1AuthLogoutPostErrors), zErrorResponse);
  (fakeLogoutApiV1AuthLogoutPostResponsedefault,
   (ts_field "default"%js LogoutApiV1AuthLogoutPostErrors), zErrorResponse);
  (fakeCreateExecutionApiV1ExecutePostRequest,
   (omit "url"%js CreateExecutionApiV1ExecutePostData),
      (request_schema [("body"%js, zCreateExecutionApiV1ExecutePostBody);
      ("headers"%js, zCreateExecutionApiV1ExecutePostHeaders)]));
  (fakeCreateExecutionApiV1ExecutePostResponse200,
   (ts_field "200"%js CreateExecutionApiV1ExecutePostResponses), zCreateExecutionApiV1ExecutePostResponse);
  (fakeCreateExecutionApiV1ExecutePostResponse409,
   (ts_field "409"%js CreateExecutionApiV1ExecutePostErrors), zErrorResponse);
  (fakeCreateExecutionApiV1ExecutePostResponse429,
   (ts_field "429"%js CreateExecutionApiV1ExecutePostErrors), zErrorResponse);
  (fakeCreateExecutionApiV1ExecutePostResponse500,
   (ts_field "500"%js CreateExecutionApiV1ExecutePostErrors), zErrorResponse);
  (fakeCreateExecutionApiV1ExecutePostResponsedefault,
   (ts_field "default"%js CreateExecutionApiV1ExecutePostErrors), zErrorResponse);
  (fakeGetResultApiV1ExecutionsExecutionIdResultGetRequest,
   (omit "url"%js GetResultApiV1ExecutionsExecutionIdResultGetData),
      (request_schema [("path"%js, zGetResultApiV1ExecutionsExecutionIdResultGetPath)]));
  (fakeGetResultApiV1ExecutionsExecutionIdResultGetResponse200,
   (ts_field "200"%js GetResultApiV1ExecutionsExecutionIdResultGetResponses), zGetResultApiV1ExecutionsExecutionIdResultGetResponse);
  (fakeGetResultApiV1ExecutionsExecutionIdResultGetResponse403,
   (ts_field "403"%js GetResultApiV1ExecutionsExecutionIdResultGetErrors), zErrorResponse);
  (fakeGetResultApiV1ExecutionsExecutionIdResultGetResponse404,
   (ts_field "404"%js GetResultApiV1ExecutionsExecutionIdResultGetErrors), zErrorResponse);
  (fakeGetResultApiV1ExecutionsExecutionIdResultGetResponsedefault,
   (ts_field "default"%js GetResultApiV1ExecutionsExecutionIdResultGetErrors), zErrorResponse);
  (fakeCancelExecutionApiV1ExecutionsExecutionIdCancelPostRequest,
   (omit "url"%js CancelExecutionApiV1ExecutionsExecutionIdCancelPostData),
      (request_schema [("path"%js, zCancelExecutionApiV1ExecutionsExecutionIdCancelPostPath)]));
  (fakeCancelExecutionApiV1ExecutionsExecutionIdCancelPostResponse200,
   (ts_field "200"%js CancelExecutionApiV1ExecutionsExecutionIdCancelPostResponses), zCancelExecutionApiV1ExecutionsExecutionIdCancelPostResponse);
  (fakeCancelExecutionApiV1ExecutionsExecutionIdCancelPostResponse400,
   (ts_field "400"%js CancelExecutionApiV1ExecutionsExecutionIdCancelPostErrors), zErrorResponse);
  (fakeCancelExecutionApiV1ExecutionsExecutionIdCancelPostResponse403,
   (ts_field "403"%js CancelExecutionApiV1ExecutionsExecutionIdCancelPostErrors), zErrorResponse);
  (fakeCancelExecutionApiV1ExecutionsExecutionIdCancelPostResponse404,
   (ts_field "404"%js CancelExecutionApiV1ExecutionsExecutionIdCancelPostErrors), zErrorResponse);
  (fakeCancelExecutionApiV1ExecutionsExecutionIdCancelPostResponsedefault,
   (ts_field "default"%js CancelExecutionApiV1ExecutionsExecutionIdCancelPostErrors), zErrorResponse);
  (fakeRetryExecutionApiV1ExecutionsExecutionIdRetryPostRequest,
   (omit "url"%js RetryExecutionApiV1ExecutionsExecutionIdRetryPostData),
      (request_schema [("path"%js, zRetryExecutionApiV1ExecutionsExecutionIdRetryPostPath)]));
  (fakeRetryExecutionApiV1ExecutionsExecutionIdRetryPostResponse200,
   (ts_field "200"%js RetryExecutionApiV1ExecutionsExecutionIdRetryPostResponses), zRetryExecutionApiV1ExecutionsExecutionIdRetryPostResponse);
  (fakeRetryExecutionApiV1ExecutionsExecutionIdRetryPostResponse400,
   (ts_field "400"%js RetryExecutionApiV1ExecutionsExecutionIdRetryPostErrors), zErrorResponse);
  (fakeRetryExecutionApiV1ExecutionsExecutionIdRetryPostResponse403,
   (ts_field "403"%js RetryExecutionApiV1ExecutionsExecutionIdRetryPostErrors), zErrorResponse);
  (fakeRetryExecutionApiV1ExecutionsExecutionIdRetryPostResponse404,
   (ts_field "404"%js RetryExecutionApiV1ExecutionsExecutionIdRetryPostErrors), zErrorResponse);
  (fakeRetryExecutionApiV1ExecutionsExecutionIdRetryPostResponse422,
   (ts_field "422"%js RetryExecutionApiV1ExecutionsExecutionIdRetryPostErrors), zErrorResponse);
  (fakeRetryExecutionApiV1ExecutionsExecutionIdRetryPostResponse429,
   (ts_field "429"%js RetryExecutionApiV1ExecutionsExecutionIdRetryPostErrors), zErrorResponse);
  (fakeRetryExecutionApiV1ExecutionsExecutionIdRetryPostResponsedefault,
   (ts_field "default"%js RetryExecutionApiV1ExecutionsExecutionIdRetryPostErrors), zErrorResponse);
  (fakeGetExecutionEventsApiV1ExecutionsExecutionIdEventsGetRequest,
   (omit "url"%js GetExecutionEventsApiV1ExecutionsExecutionIdEventsGetData),
      (request_schema [("path"%js, zGetExecutionEventsApiV1ExecutionsExecutionIdEventsGetPath);
      ("query"%js, zGetExecutionEventsApiV1ExecutionsExecutionIdEventsGetQuery)]));
  (fakeGetExecutionEventsApiV1ExecutionsExecutionIdEventsGetResponse200,
   (ts_field "200"%js GetExecutionEventsApiV1ExecutionsExecutionIdEventsGetResponses), zGetExecutionEventsApiV1ExecutionsExecutionIdEventsGetResponse);
  (fakeGetExecutionEventsApiV1ExecutionsExecutionIdEventsGetResponse403,
   (ts_field "403"%js GetExecutionEventsApiV1ExecutionsExecutionIdEventsGetErrors), zErrorResponse);
  (fakeGetExecutionEventsApiV1ExecutionsExecutionIdEventsGetResponse404,
   (ts_field "404"%js GetExecutionEventsApiV1ExecutionsExecutionIdEventsGetErrors), zErrorResponse);
  (fakeGetExecutionEventsApiV1ExecutionsExecutionIdEventsGetResponsedefault,
   (ts_field "default"%js GetExecutionEventsApiV1ExecutionsExecutionIdEventsGetErrors), zErrorResponse);
  (fakeGetUserExecutionsApiV1UserExecutionsGetRequest,
   (omit "url"%js GetUserExecutionsApiV1UserExecutionsGetData),
      (request_schema [("query"%js, zGetUserExecutionsApiV1UserExecutionsGetQuery)]));
  (fakeGetUserExecutionsApiV1UserExecutionsGetResponse200,
   (ts_field "200"%js GetUserExecutionsApiV1UserExecutionsGetResponses), zGetUserExecutionsApiV1UserExecutionsGetResponse);
  (fakeGetUserExecutionsApiV1UserExecutionsGetResponsedefault,
   (ts_field "default"%js GetUserExecutionsApiV1UserExecutionsGetErrors), zErrorResponse);
  (fakeGetExampleScriptsApiV1ExampleScriptsGetResponse200,
   (ts_field "200"%js GetExampleScriptsApiV1ExampleScriptsGetResponses), zGetExampleScriptsApiV1ExampleScriptsGetResponse);
  (fakeGetExampleScriptsApiV1ExampleScriptsGetResponsedefault,
   (ts_field "default"%js GetExampleScriptsApiV1ExampleScriptsGetErrors), zErrorResponse);
  (fakeGetK8sResourceLimitsApiV1K8sLimitsGetResponse200,
   (ts_field "200"%js GetK8sResourceLimitsApiV1K8sLimitsGetResponses), zGetK8sResourceLimitsApiV1K8sLimitsGetResponse);
  (fakeGetK8sResourceLimitsApiV1K8sLimitsGetResponsedefault,
   (ts_field "default"%js GetK8sResourceLimitsApiV1K8sLimitsGetErrors), zErrorResponse);
  (fakeDeleteExecutionApiV1ExecutionsExecutionIdDeleteRequest,
   (omit "url"%js DeleteExecutionApiV1ExecutionsExecutionIdDeleteData),
      (request_schema [("path"%js, zDeleteExecutionApiV1ExecutionsExecutionIdDeletePath)]));
  (fakeDeleteExecutionApiV1ExecutionsExecutionIdDeleteResponse200,
   (ts_field "200"%js DeleteExecutionApiV1ExecutionsExecutionIdDeleteResponses), zDeleteExecutionApiV1ExecutionsExecutionIdDeleteResponse);
  (fakeDeleteExecutionApiV1ExecutionsExecutionIdDeleteResponsedefault,
   (ts_field "default"%js DeleteExecutionApiV1ExecutionsExecutionIdDeleteErrors), zErrorResponse);
  (fakeListSavedScriptsApiV1ScriptsGetResponse200,
   (ts_field "200"%js ListSavedScriptsApiV1ScriptsGetResponses), zListSavedScriptsApiV1ScriptsGetResponse);
  (fakeListSavedScriptsApiV1ScriptsGetResponsedefault,
   (ts_field "default"%js ListSavedScriptsApiV1ScriptsGetErrors), zErrorResponse);
  (fakeCreateSavedScriptApiV1ScriptsPostRequest,
   (omit "url"%js CreateSavedScriptApiV1ScriptsPostData),
      (request_schema [("body"%js, zCreateSavedScriptApiV1ScriptsPostBody)]));
  (fakeCreateSavedScriptApiV1ScriptsPostResponse200,
   (ts_field "200"%js CreateSavedScriptApiV1ScriptsPostResponses), zCreateSavedScriptApiV1ScriptsPostResponse);
  (fakeCreateSavedScriptApiV1ScriptsPostResponse422,
   (ts_field "422"%js CreateSavedScriptApiV1ScriptsPostErrors), zErrorResponse);
  (fakeCreateSavedScriptApiV1ScriptsPostResponsedefault,
   (ts_field "default"%js CreateSavedScriptApiV1ScriptsPostErrors), zErrorResponse);
  (fakeDeleteSavedScriptApiV1ScriptsScriptIdDeleteRequest,
   (omit "url"%js DeleteSavedScriptApiV1ScriptsScriptIdDeleteData),
      (request_schema [("path"%js, zDeleteSavedScriptApiV1ScriptsScriptIdDeletePath)]));
  (fakeDeleteSavedScriptApiV1ScriptsScriptIdDeleteResponse404,
   (ts_field "404"%js DeleteSavedScriptApiV1ScriptsScriptIdDeleteErrors), zErrorResponse);
  (fakeDeleteSavedScriptApiV1ScriptsScriptIdDeleteResponsedefault,
   (ts_field "default"%js DeleteSavedScriptApiV1ScriptsScriptIdDeleteErrors), zErrorResponse);
  (fakeGetSavedScriptApiV1ScriptsScriptIdGetRequest,
   (omit "url"%js GetSavedScriptApiV1ScriptsScriptIdGetData),
      (request_schema [("path"%js, zGetSavedScriptApiV1ScriptsScriptIdGetPath)]));
  (fakeGetSavedScriptApiV1ScriptsScriptIdGetResponse200,
   (ts_field "200"%js GetSavedScriptApiV1ScriptsScriptIdGetResponses), zGetSavedScriptApiV1ScriptsScriptIdGetResponse);
  (fakeGetSavedScriptApiV1ScriptsScriptIdGetResponse404,
   (ts_field "404"%js GetSavedScriptApiV1ScriptsScriptIdGetErrors), zErrorResponse);
  (fakeGetSavedScriptApiV1ScriptsScriptIdGetResponsedefault,
   (ts_field "default"%js GetSavedScriptApiV1ScriptsScriptIdGetErrors), zErrorResponse);
  (fakeUpdateSavedScriptApiV1ScriptsScriptIdPutRequest,
   (omit "url"%js UpdateSavedScriptApiV1ScriptsScriptIdPutData),
      (request_schema [("body"%js, zUpdateSavedScriptApiV1ScriptsScriptIdPutBody);
      ("path"%js, zUpdateSavedScriptApiV1ScriptsScriptIdPutPath)]));
  (fakeUpdateSavedScriptApiV1ScriptsScriptIdPutResponse200,
   (ts_field "200"%js UpdateSavedScriptApiV1ScriptsScriptIdPutResponses), zUpdateSavedScriptApiV1ScriptsScriptIdPutResponse);
  (fakeUpdateSavedScriptApiV1ScriptsScriptIdPutResponse404,
   (ts_field "404"%js UpdateSavedScriptApiV1ScriptsScriptIdPutErrors), zErrorResponse);
  (fakeUpdateSavedScriptApiV1ScriptsScriptIdPutResponse422,
   (ts_field "422"%js UpdateSavedScriptApiV1ScriptsScriptIdPutErrors), zErrorResponse);
  (fakeUpdateSavedScriptApiV1ScriptsScriptIdPutResponsedefault,
   (ts_field "default"%js UpdateSavedScriptApiV1ScriptsScriptIdPutErrors), zErrorResponse);
  (fakeLivenessApiV1HealthLiveGetResponse200,
   (ts_field "200"%js LivenessApiV1HealthLiveGetResponses), zLivenessApiV1HealthLiveGetResponse);
  (fakeLivenessApiV1HealthLiveGetResponsedefault,
   (ts_field "default"%js LivenessApiV1HealthLiveGetErrors), zErrorResponse);
  (fakeNotificationStreamApiV1EventsNotificationsStreamGetResponse200,
   (ts_field "200"%js NotificationStreamApiV1EventsNotificationsStreamGetResponses), zNotificationStreamApiV1EventsNotificationsStreamGetResponse);
  (fakeNotificationStreamApiV1EventsNotificationsStreamGetResponsedefault,
   (ts_field "default"%js NotificationStreamApiV1EventsNotificationsStreamGetErrors), zErrorResponse);
  (fakeExecutionEventsApiV1EventsExecutionsExecutionIdGetRequest,
   (omit "url"%js ExecutionEventsApiV1EventsExecutionsExecutionIdGetData),
      (request_schema [("path"%js, zExecutionEventsApiV1EventsExecutionsExecutionIdGetPath)]));
  (fakeExecutionEventsApiV1EventsExecutionsExecutionIdGetResponse200,
   (ts_field "200"%js ExecutionEventsApiV1EventsExecutionsExecutionIdGetResponses), zExecutionEventsApiV1EventsExecutionsExecutionIdGetResponse);
  (fakeExecutionEventsApiV1EventsExecutionsExecutionIdGetResponsedefault,
   (ts_field "default"%js ExecutionEventsApiV1EventsExecutionsExecutionIdGetErrors), zErrorResponse);
  (fakeBrowseEventsApiV1AdminEventsBrowsePostRequest,
   (omit "url"%js BrowseEventsApiV1AdminEventsBrowsePostData),
      (request_schema [("body"%js, zBrowseEventsApiV1AdminEventsBrowsePostBody)]));
  (fakeBrowseEventsApiV1AdminEventsBrowsePostResponse200,
   (ts_field "200"%js BrowseEventsApiV1AdminEventsBrowsePostResponses), zBrowseEventsApiV1AdminEventsBrowsePostResponse);
  (fakeBrowseEventsApiV1AdminEventsBrowsePostResponsedefault,
   (ts_field "default"%js BrowseEventsApiV1AdminEventsBrowsePostErrors), zErrorResponse);
  (fakeGetEventStatsApiV1AdminEventsStatsGetRequest,
   (omit "url"%js GetEventStatsApiV1AdminEventsStatsGetData),
      (request_schema [("query"%js, zGetEventStatsApiV1AdminEventsStatsGetQuery)]));
  (fakeGetEventStatsApiV1AdminEventsStatsGetResponse200,
   (ts_field "200"%js GetEventStatsApiV1AdminEventsStatsGetResponses), zGetEventStatsApiV1AdminEventsStatsGetResponse);
  (fakeGetEventStatsApiV1AdminEventsStatsGetResponsedefault,
   (ts_field "default"%js GetEventStatsApiV1AdminEventsStatsGetErrors), zErrorResponse);
  (fakeExportEventsApiV1AdminEventsExportExportFormatGetRequest,
   (omit "url"%js ExportEventsApiV1AdminEventsExportExportFormatGetData),
      (request_schema [("path"%js, zExportEventsApiV1AdminEventsExportExportFormatGetPath);
      ("query"%js, zExportEventsApiV1AdminEventsExportExportFormatGetQuery)]));
  (fakeExportEventsApiV1AdminEventsExportExportFormatGetResponse200,
   (ts_field "200"%js ExportEventsApiV1AdminEventsExportExportFormatGetResponses), ZUnknown);
  (fakeExportEventsApiV1AdminEventsExportExportFormatGetResponsedefault,
   (ts_field "default"%js ExportEventsApiV1AdminEventsExportExportFormatGetErrors), zErrorResponse);
  (fakeDeleteEventApiV1AdminEventsEventIdDeleteRequest,
   (omit "url"%js DeleteEventApiV1AdminEventsEventIdDeleteData),
      (request_schema [("path"%js, zDeleteEventApiV1AdminEventsEventIdDeletePath)]));
  (fakeDeleteEventApiV1AdminEventsEventIdDeleteResponse200,
   (ts_field "200"%js DeleteEventApiV1AdminEventsEventIdDeleteResponses), zDeleteEventApiV1AdminEventsEventIdDeleteResponse);
  (fakeDeleteEventApiV1AdminEventsEventIdDeleteResponse404,
   (ts_field "404"%js DeleteEventApiV1AdminEventsEventIdDeleteErrors), zErrorResponse);
  (fakeDeleteEventApiV1AdminEventsEventIdDeleteResponsedefault,
   (ts_field "default"%js DeleteEventApiV1AdminEventsEventIdDeleteErrors), zErrorResponse);
  (fakeGetEventDetailApiV1AdminEventsEventIdGetRequest,
   (omit "url"%js GetEventDetailApiV1AdminEventsEventIdGetData),
      (request_schema [("path"%js, zGetEventDetailApiV1AdminEventsEventIdGetPath)]));
  (fakeGetEventDetailApiV1AdminEventsEventIdGetResponse200,
   (ts_field "200"%js GetEventDetailApiV1AdminEventsEventIdGetResponses), zGetEventDetailApiV1AdminEventsEventIdGetResponse);
  (fakeGetEventDetailApiV1AdminEventsEventIdGetResponse404,
   (ts_field "404"%js GetEventDetailApiV1AdminEventsEventIdGetErrors), zErrorResponse);
  (fakeGetEventDetailApiV1AdminEventsEventIdGetResponsedefault,
   (ts_field "default"%js GetEventDetailApiV1AdminEventsEventIdGetErrors), zErrorResponse);
  (fakeReplayEventsApiV1AdminEventsReplayPostRequest,
   (omit "url"%js ReplayEventsApiV1AdminEventsReplayPostData),
      (request_schema [("body"%js, zReplayEventsApiV1AdminEventsReplayPostBody)]));
  (fakeReplayEventsApiV1AdminEventsReplayPostResponse200,
   (ts_field "200"%js ReplayEventsApiV1AdminEventsReplayPostResponses), zReplayEventsApiV1AdminEventsReplayPostResponse);
  (fakeReplayEventsApiV1AdminEventsReplayPostResponse404,
   (ts_field "404"%js ReplayEventsApiV1AdminEventsReplayPostErrors), zErrorResponse);
  (fakeReplayEventsApiV1AdminEventsReplayPostResponse422,
   (ts_field "422"%js ReplayEventsApiV1AdminEventsReplayPostErrors), zErrorResponse);
  (fakeReplayEventsApiV1AdminEventsReplayPostResponsedefault,
   (ts_field "default"%js ReplayEventsApiV1AdminEventsReplayPostErrors), zErrorResponse);
  (fakeStreamReplayStatusApiV1AdminEventsReplaySessionIdStatusGetRequest,
   (omit "url"%js StreamReplayStatusApiV1AdminEventsReplaySessionIdStatusGetData),
      (request_schema [("path"%js, zStreamReplayStatusApiV1AdminEventsReplaySessionIdStatusGetPath)]));
  (fakeStreamReplayStatusApiV1AdminEventsReplaySessionIdStatusGetResponse200,
   (ts_field "200"%js StreamReplayStatusApiV1AdminEventsReplaySessionIdStatusGetResponses), zStreamReplayStatusApiV1AdminEventsReplaySessionIdStatusGetResponse);
  (fakeStreamReplayStatusApiV1AdminEventsReplaySessionIdStatusGetResponsedefault,
   (ts_field "default"%js StreamReplayStatusApiV1AdminEventsReplaySessionIdStatusGetErrors), zErrorResponse);
  (fakeListExecutionsApiV1AdminExecutionsGetRequest,
   (omit "url"%js ListExecutionsApiV1AdminExecutionsGetData),
      (request_schema [("query"%js, zListExecutionsApiV1AdminExecutionsGetQuery)]));
  (fakeListExecutionsApiV1AdminExecutionsGetResponse200,
   (ts_field "200"%js ListExecutionsApiV1AdminExecutionsGetResponses), zListExecutionsApiV1AdminExecutionsGetResponse);
  (fakeListExecutionsApiV1AdminExecutionsGetResponse403,
   (ts_field "403"%js ListExecutionsApiV1AdminExecutionsGetErrors), zErrorResponse);
  (fakeListExecutionsApiV1AdminExecutionsGetResponsedefault,
   (ts_field "default"%js ListExecutionsApiV1AdminExecutionsGetErrors), zErrorResponse);
  (fakeUpdatePriorityApiV1AdminExecutionsExecutionIdPriorityPutRequest,
   (omit "url"%js UpdatePriorityApiV1AdminExecutionsExecutionIdPriorityPutData),
      (request_schema [("body"%js, zUpdatePriorityApiV1AdminExecutionsExecutionIdPriorityPutBody);
      ("path"%js, zUpdatePriorityApiV1AdminExecutionsExecutionIdPriorityPutPath)]));
  (fakeUpdatePriorityApiV1AdminExecutionsExecutionIdPriorityPutResponse200,
   (ts_field "200"%js UpdatePriorityApiV1AdminExecutionsExecutionIdPriorityPutResponses), zUpdatePriorityApiV1AdminExecutionsExecutionIdPriorityPutResponse);
  (fakeUpdatePriorityApiV1AdminExecutionsExecutionIdPriorityPutResponse403,
   (ts_field "403"%js UpdatePriorityApiV1AdminExecutionsExecutionIdPriorityPutErrors), zErrorResponse);
  (fakeUpdatePriorityApiV1AdminExecutionsExecutionIdPriorityPutResponse404,
   (ts_field "404"%js UpdatePriorityApiV1AdminExecutionsExecutionIdPriorityPutErrors), zErrorResponse);
  (fakeUpdatePriorityApiV1AdminExecutionsExecutionIdPriorityPutResponsedefault,
   (ts_field "default"%js UpdatePriorityApiV1AdminExecutionsExecutionIdPriorityPutErrors), zErrorResponse);
  (fakeGetQueueStatusApiV1AdminExecutionsQueueGetResponse200,
   (ts_field "200"%js GetQueueStatusApiV1AdminExecutionsQueueGetResponses), zGetQueueStatusApiV1AdminExecutionsQueueGetResponse);
  (fakeGetQueueStatusApiV1AdminExecutionsQueueGetResponse403,
   (ts_field "403"%js GetQueueStatusApiV1AdminExecutionsQueueGetErrors), zErrorResponse);
  (fakeGetQueueStatusApiV1AdminExecutionsQueueGetResponsedefault,
   (ts_field "default"%js GetQueueStatusApiV1AdminExecutionsQueueGetErrors), zErrorResponse);
  (fakeGetDefaultRateLimitRulesApiV1AdminRateLimitsDefaultsGetResponse200,
   (ts_field "200"%js GetDefaultRateLimitRulesApiV1AdminRateLimitsDefaultsGetResponses), zGetDefaultRateLimitRulesApiV1AdminRateLimitsDefaultsGetResponse);
  (fakeGetDefaultRateLimitRulesApiV1AdminRateLimitsDefaultsGetResponsedefault,
   (ts_field "default"%js GetDefaultRateLimitRulesApiV1AdminRateLimitsDefaultsGetErrors), zErrorResponse);
  (fakeGetUserRateLimitsApiV1AdminRateLimitsUserIdGetRequest,
   (omit "url"%js GetUserRateLimitsApiV1AdminRateLimitsUserIdGetData),
      (request_schema [("path"%js, zGetUserRateLimitsApiV1AdminRateLimitsUserIdGetPath)]));
  (fakeGetUserRateLimitsApiV1AdminRateLimitsUserIdGetResponse200,
   (ts_field "200"%js GetUserRateLimitsApiV1AdminRateLimitsUserIdGetResponses), zGetUserRateLimitsApiV1AdminRateLimitsUserIdGetResponse);
  (fakeGetUserRateLimitsApiV1AdminRateLimitsUserIdGetResponsedefault,
   (ts_field "default"%js GetUserRateLimitsApiV1AdminRateLimitsUserIdGetErrors), zErrorResponse);
  (fakeUpdateUserRateLimitsApiV1AdminRateLimitsUserIdPutResponse200,
   (ts_field "200"%js UpdateUserRateLimitsApiV1AdminRateLimitsUserIdPutResponses), zUpdateUserRateLimitsApiV1AdminRateLimitsUserIdPutResponse);
  (fakeUpdateUserRateLimitsApiV1AdminRateLimitsUserIdPutResponsedefault,
   (ts_field "default"%js UpdateUserRateLimitsApiV1AdminRateLimitsUserIdPutErrors), zErrorResponse);
  (fakeResetUserRateLimitsApiV1AdminRateLimitsUserIdResetPostRequest,
   (omit "url"%js ResetUserRateLimitsApiV1AdminRateLimitsUserIdResetPostData),
      (request_schema [("path"%js, zResetUserRateLimitsApiV1AdminRateLimitsUserIdResetPostPath)]));
  (fakeResetUserRateLimitsApiV1AdminRateLimitsUserIdResetPostResponse200,
   (ts_field "200"%js ResetUserRateLimitsApiV1AdminRateLimitsUserIdResetPostResponses), zResetUserRateLimitsApiV1AdminRateLimitsUserIdResetPostResponse);
  (fakeResetUserRateLimitsApiV1AdminRateLimitsUserIdResetPostResponsedefault,
   (ts_field "default"%js ResetUserRateLimitsApiV1AdminRateLimitsUserIdResetPostErrors), zErrorResponse);
  (fakeGetSystemSettingsApiV1AdminSettingsGetResponse200,
   (ts_field "200"%js GetSystemSettingsApiV1AdminSettingsGetResponses), zGetSystemSettingsApiV1AdminSettingsGetResponse);
  (fakeGetSystemSettingsApiV1AdminSettingsGetResponse500,
   (ts_field "500"%js GetSystemSettingsApiV1AdminSettingsGetErrors), zErrorResponse);
  (fakeGetSystemSettingsApiV1AdminSettingsGetResponsedefault,
   (ts_field "default"%js GetSystemSettingsApiV1AdminSettingsGetErrors), zErrorResponse);
  (fakeUpdateSystemSettingsApiV1AdminSettingsPutRequest,
   (omit "url"%js UpdateSystemSettingsApiV1AdminSettingsPutData),
      (request_schema [("body"%js, zUpdateSystemSettingsApiV1AdminSettingsPutBody)]));
  (fakeUpdateSystemSettingsApiV1AdminSettingsPutResponse200,
   (ts_field "200"%js UpdateSystemSettingsApiV1AdminSettingsPutResponses), zUpdateSystemSettingsApiV1AdminSettingsPutResponse);
  (fakeUpdateSystemSettingsApiV1AdminSettingsPutResponse400,
   (ts_field "400"%js UpdateSystemSettingsApiV1AdminSettingsPutErrors), zErrorResponse);
  (fakeUpdateSystemSettingsApiV1AdminSettingsPutResponse422,
   (ts_field "422"%js UpdateSystemSettingsApiV1AdminSettingsPutErrors), zErrorResponse);
  (fakeUpdateSystemSettingsApiV1AdminSettingsPutResponse500,
   (ts_field "500"%js UpdateSystemSettingsApiV1AdminSettingsPutErrors), zErrorResponse);
  (fakeUpdateSystemSettingsApiV1AdminSettingsPutResponsedefault,
   (ts_field "default"%js UpdateSystemSettingsApiV1AdminSettingsPutErrors), zErrorResponse);
  (fakeResetSystemSettingsApiV1AdminSettingsResetPostResponse200,
   (ts_field "200"%js ResetSystemSettingsApiV1AdminSettingsResetPostResponses), zResetSystemSettingsApiV1AdminSettingsResetPostResponse);
  (fakeResetSystemSettingsApiV1AdminSettingsResetPostResponse500,
   (ts_field "500"%js ResetSystemSettingsApiV1AdminSettingsResetPostErrors), zErrorResponse);
  (fakeResetSystemSettingsApiV1AdminSettingsResetPostResponsedefault,
   (ts_field "default"%js ResetSystemSettingsApiV1AdminSettingsResetPostErrors), zErrorResponse);
  (fakeListUsersApiV1AdminUsersGetRequest,
   (omit "url"%js ListUsersApiV1AdminUsersGetData),
      (request_schema [("query"%js, zListUsersApiV1AdminUsersGetQuery)]));
  (fakeListUsersApiV1AdminUsersGetResponse200,
   (ts_field "200"%js ListUsersApiV1AdminUsersGetResponses), zListUsersApiV1AdminUsersGetResponse);
  (fakeListUsersApiV1AdminUsersGetResponsedefault,
   (ts_field "default"%js ListUsersApiV1AdminUsersGetErrors), zErrorResponse);
  (fakeCreateUserApiV1AdminUsersPostRequest,
   (omit "url"%js CreateUserApiV1AdminUsersPostData),
      (request_schema [("body"%js, zCreateUserApiV1AdminUsersPostBody)]));
  (fakeCreateUserApiV1AdminUsersPostResponse200,
   (ts_field "200"%js CreateUserApiV1AdminUsersPostResponses), zCreateUserApiV1AdminUsersPostResponse);
  (fakeCreateUserApiV1AdminUsersPostResponse409,
   (ts_field "409"%js CreateUserApiV1AdminUsersPostErrors), zErrorResponse);
  (fakeCreateUserApiV1AdminUsersPostResponsedefault,
   (ts_field "default"%js CreateUserApiV1AdminUsersPostErrors), zErrorResponse);
  (fakeDeleteUserApiV1AdminUsersUserIdDeleteRequest,
   (omit "url"%js DeleteUserApiV1AdminUsersUserIdDeleteData),
      (request_schema [("path"%js, zDeleteUserApiV1AdminUsersUserIdDeletePath);
      ("query"%js, zDeleteUserApiV1AdminUsersUserIdDeleteQuery)]));
  (fakeDeleteUserApiV1AdminUsersUserIdDeleteResponse200,
   (ts_field "200"%js DeleteUserApiV1AdminUsersUserIdDeleteResponses), zDeleteUserApiV1AdminUsersUserIdDeleteResponse);
  (fakeDeleteUserApiV1AdminUsersUserIdDeleteResponse400,
   (ts_field "400"%js DeleteUserApiV1AdminUsersUserIdDeleteErrors), zErrorResponse);
  (fakeDeleteUserApiV1AdminUsersUserIdDeleteResponse404,
   (ts_field "404"%js DeleteUserApiV1AdminUsersUserIdDeleteErrors), zErrorResponse);
  (fakeDeleteUserApiV1AdminUsersUserIdDeleteResponsedefault,
   (ts_field "default"%js DeleteUserApiV1AdminUsersUserIdDeleteErrors), zErrorResponse);
  (fakeGetUserApiV1AdminUsersUserIdGetRequest,
   (omit "url"%js GetUserApiV1AdminUsersUserIdGetData),
      (request_schema [("path"%js, zGetUserApiV1AdminUsersUserIdGetPath)]));
  (fakeGetUserApiV1AdminUsersUserIdGetResponse200,
   (ts_field "200"%js GetUserApiV1AdminUsersUserIdGetResponses), zGetUserApiV1AdminUsersUserIdGetResponse);
  (fakeGetUserApiV1AdminUsersUserIdGetResponse404,
   (ts_field "404"%js GetUserApiV1AdminUsersUserIdGetErrors), zErrorResponse);
  (fakeGetUserApiV1AdminUsersUserIdGetResponsedefault,
   (ts_field "default"%js GetUserApiV1AdminUsersUserIdGetErrors), zErrorResponse);
  (fakeUpdateUserApiV1AdminUsersUserIdPutRequest,
   (omit "url"%js UpdateUserApiV1AdminUsersUserIdPutData),
      (request_schema [("body"%js, zUpdateUserApiV1AdminUsersUserIdPutBody);
      ("path"%js, zUpdateUserApiV1AdminUsersUserIdPutPath)]));
  (fakeUpdateUserApiV1AdminUsersUserIdPutResponse200,
   (ts_field "200"%js UpdateUserApiV1AdminUsersUserIdPutResponses), zUpdateUserApiV1AdminUsersUserIdPutResponse);
  (fakeUpdateUserApiV1AdminUsersUserIdPutResponse404,
   (ts_field "404"%js UpdateUserApiV1AdminUsersUserIdPutErrors), zErrorResponse);
  (fakeUpdateUserApiV1AdminUsersUserIdPutResponse409,
   (ts_field "409"%js UpdateUserApiV1AdminUsersUserIdPutErrors), zErrorResponse);
  (fakeUpdateUserApiV1AdminUsersUserIdPutResponsedefault,
   (ts_field "default"%js UpdateUserApiV1AdminUsersUserIdPutErrors), zErrorResponse);
  (fakeGetUserOverviewApiV1AdminUsersUserIdOverviewGetRequest,
   (omit "url"%js GetUserOverviewApiV1AdminUsersUserIdOverviewGetData),
      (request_schema [("path"%js, zGetUserOverviewApiV1AdminUsersUserIdOverviewGetPath)]));
  (fakeGetUserOverviewApiV1AdminUsersUserIdOverviewGetResponse200,
   (ts_field "200"%js GetUserOverviewApiV1AdminUsersUserIdOverviewGetResponses), zGetUserOverviewApiV1AdminUsersUserIdOverviewGetResponse);
  (fakeGetUserOverviewApiV1AdminUsersUserIdOverviewGetResponse404,
   (ts_field "404"%js GetUserOverviewApiV1AdminUsersUserIdOverviewGetErrors), zErrorResponse);
  (fakeGetUserOverviewApiV1AdminUsersUserIdOverviewGetResponsedefault,
   (ts_field "default"%js GetUserOverviewApiV1AdminUsersUserIdOverviewGetErrors), zErrorResponse);
  (fakeResetUserPasswordApiV1AdminUsersUserIdResetPasswordPostRequest,
   (omit "url"%js ResetUserPasswordApiV1AdminUsersUserIdResetPasswordPostData),
      (request_schema [("body"%js, zResetUserPasswordApiV1AdminUsersUserIdResetPasswordPostBody);
      ("path"%js, zResetUserPasswordApiV1AdminUsersUserIdResetPasswordPostPath)]));
  (fakeResetUserPasswordApiV1AdminUsersUserIdResetPasswordPostResponse200,
   (ts_field "200"%js ResetUserPasswordApiV1AdminUsersUserIdResetPasswordPostResponses), zResetUserPasswordApiV1AdminUsersUserIdResetPasswordPostResponse);
  (fakeResetUserPasswordApiV1AdminUsersUserIdResetPasswordPostResponse404,
   (ts_field "404"%js ResetUserPasswordApiV1AdminUsersUserIdResetPasswordPostErrors), zErrorResponse);
  (fakeResetUserPasswordApiV1AdminUsersUserIdResetPasswordPostResponsedefault,
   (ts_field "default"%js ResetUserPasswordApiV1AdminUsersUserIdResetPasswordPostErrors), zErrorResponse);
  (fakeUnlockUserApiV1AdminUsersUserIdUnlockPostRequest,
   (omit "url"%js UnlockUserApiV1AdminUsersUserIdUnlockPostData),
      (request_schema [("path"%js, zUnlockUserApiV1AdminUsersUserIdUnlockPostPath)]));
  (fakeUnlockUserApiV1AdminUsersUserIdUnlockPostResponse200,
   (ts_field "200"%js UnlockUserApiV1AdminUsersUserIdUnlockPostResponses), zUnlockUserApiV1AdminUsersUserIdUnlockPostResponse);
  (fakeUnlockUserApiV1AdminUsersUserIdUnlockPostResponse404,
   (ts_field "404"%js UnlockUserApiV1AdminUsersUserIdUnlockPostErrors), zErrorResponse);
  (fakeUnlockUserApiV1AdminUsersUserIdUnlockPostResponsedefault,
   (ts_field "default"%js UnlockUserApiV1AdminUsersUserIdUnlockPostErrors), zErrorResponse);
  (fakeGetUserSettingsApiV1UserSettingsGetResponse200,
   (ts_field "200"%js GetUserSettingsApiV1UserSettingsGetResponses), zGetUserSettingsApiV1UserSettingsGetResponse);
  (fakeGetUserSettingsApiV1UserSettingsGetResponsedefault,
   (ts_field "default"%js GetUserSettingsApiV1UserSettingsGetErrors), zErrorResponse);
  (fakeUpdateUserSettingsApiV1UserSettingsPutRequest,
   (omit "url"%js UpdateUserSettingsApiV1UserSettingsPutData),
      (request_schema [("body"%js, zUpdateUserSettingsApiV1UserSettingsPutBody)]));
  (fakeUpdateUserSettingsApiV1UserSettingsPutResponse200,
   (ts_field "200"%js UpdateUserSettingsApiV1UserSettingsPutResponses), zUpdateUserSettingsApiV1UserSettingsPutResponse);
  (fakeUpdateUserSettingsApiV1UserSettingsPutResponsedefault,
   (ts_field "default"%js UpdateUserSettingsApiV1UserSettingsPutErrors), zErrorResponse);
  (fakeUpdateThemeApiV1UserSettingsThemePutRequest,
   (omit "url"%js UpdateThemeApiV1UserSettingsThemePutData),
      (request_schema [("body"%js, zUpdateThemeApiV1UserSettingsThemePutBody)]));
  (fakeUpdateThemeApiV1UserSettingsThemePutResponse200,
   (ts_field "200"%js UpdateThemeApiV1UserSettingsThemePutResponses), zUpdateThemeApiV1UserSettingsThemePutResponse);
  (fakeUpdateThemeApiV1UserSettingsThemePutResponsedefault,
   (ts_field "default"%js UpdateThemeApiV1UserSettingsThemePutErrors), zErrorResponse);
  (fakeUpdateNotificationSettingsApiV1UserSettingsNotificationsPutRequest,
   (omit "url"%js UpdateNotificationSettingsApiV1UserSettingsNotificationsPutData),
      (request_schema [("body"%js, zUpdateNotificationSettingsApiV1UserSettingsNotificationsPutBody)]));
  (fakeUpdateNotificationSettingsApiV1UserSettingsNotificationsPutResponse200,
   (ts_field "200"%js UpdateNotificationSettingsApiV1UserSettingsNotificationsPutResponses), zUpdateNotificationSettingsApiV1UserSettingsNotificationsPutResponse);
  (fakeUpdateNotificationSettingsApiV1UserSettingsNotificationsPutResponsedefault,
   (ts_field "default"%js UpdateNotificationSettingsApiV1UserSettingsNotificationsPutErrors), zErrorResponse);
  (fakeUpdateEditorSettingsApiV1UserSettingsEditorPutRequest,
   (omit "url"%js UpdateEditorSettingsApiV1UserSettingsEditorPutData),
      (request_schema [("body"%js, zUpdateEditorSettingsApiV1UserSettingsEditorPutBody)]));
  (fakeUpdateEditorSettingsApiV1UserSettingsEditorPutResponse200,
   (ts_field "200"%js UpdateEditorSettingsApiV1UserSettingsEditorPutResponses), zUpdateEditorSettingsApiV1UserSettingsEditorPutResponse);
  (fakeUpdateEditorSettingsApiV1UserSettingsEditorPutResponsedefault,
   (ts_field "default"%js UpdateEditorSettingsApiV1UserSettingsEditorPutErrors), zErrorResponse);
  (fakeGetSettingsHistoryApiV1UserSettingsHistoryGetRequest,
   (omit "url"%js GetSettingsHistoryApiV1UserSettingsHistoryGetData),
      (request_schema [("query"%js, zGetSettingsHistoryApiV1UserSettingsHistoryGetQuery)]));
  (fakeGetSettingsHistoryApiV1UserSettingsHistoryGetResponse200,
   (ts_field "200"%js GetSettingsHistoryApiV1UserSettingsHistoryGetResponses), zGetSettingsHistoryApiV1UserSettingsHistoryGetResponse);
  (fakeGetSettingsHistoryApiV1UserSettingsHistoryGetResponsedefault,
   (ts_field "default"%js GetSettingsHistoryApiV1UserSettingsHistoryGetErrors), zErrorResponse);
  (fakeRestoreSettingsApiV1UserSettingsRestorePostRequest,
   (omit "url"%js RestoreSettingsApiV1UserSettingsRestorePostData),
      (request_schema [("body"%js, zRestoreSettingsApiV1UserSettingsRestorePostBody)]));
  (fakeRestoreSettingsApiV1UserSettingsRestorePostResponse200,
   (ts_field "200"%js RestoreSettingsApiV1UserSettingsRestorePostResponses), zRestoreSettingsApiV1UserSettingsRestorePostResponse);
  (fakeRestoreSettingsApiV1UserSettingsRestorePostResponsedefault,
   (ts_field "default"%js RestoreSettingsApiV1UserSettingsRestorePostErrors), zErrorResponse);
  (fakeUpdateCustomSettingApiV1UserSettingsCustomKeyPutRequest,
   (omit "url"%js UpdateCustomSettingApiV1UserSettingsCustomKeyPutData),
      (request_schema [("body"%js, zUpdateCustomSettingApiV1UserSettingsCustomKeyPutBody);
      ("path"%js, zUpdateCustomSettingApiV1UserSettingsCustomKeyPutPath)]));
  (fakeUpdateCustomSettingApiV1UserSettingsCustomKeyPutResponse200,
   (ts_field "200"%js UpdateCustomSettingApiV1UserSettingsCustomKeyPutResponses), zUpdateCustomSettingApiV1UserSettingsCustomKeyPutResponse);
  (fakeUpdateCustomSettingApiV1UserSettingsCustomKeyPutResponsedefault,
   (ts_field "default"%js UpdateCustomSettingApiV1UserSettingsCustomKeyPutErrors), zErrorResponse);
  (fakeGetNotificationsApiV1NotificationsGetRequest,
   (omit "url"%js GetNotificationsApiV1NotificationsGetData),
      (request_schema [("query"%js, zGetNotificationsApiV1NotificationsGetQuery)]));
  (fakeGetNotificationsApiV1NotificationsGetResponse200,
   (ts_field "200"%js GetNotificationsApiV1NotificationsGetResponses), zGetNotificationsApiV1NotificationsGetResponse);
  (fakeGetNotificationsApiV1NotificationsGetResponsedefault,
   (ts_field "default"%js GetNotificationsApiV1NotificationsGetErrors), zErrorResponse);
  (fakeMarkNotificationReadApiV1NotificationsNotificationIdReadPutRequest,
   (omit "url"%js MarkNotificationReadApiV1NotificationsNotificationIdReadPutData),
      (request_schema [("path"%js, zMarkNotificationReadApiV1NotificationsNotificationIdReadPutPath)]));
  (fakeMarkNotificationReadApiV1NotificationsNotificationIdReadPutResponsedefault,
   (ts_field "default"%js MarkNotificationReadApiV1NotificationsNotificationIdReadPutErrors), zErrorResponse);
  (fakeMarkAllReadApiV1NotificationsMarkAllReadPostResponsedefault,
   (ts_field "default"%js MarkAllReadApiV1NotificationsMarkAllReadPostErrors), zErrorResponse);
  (fakeGetUnreadCountApiV1NotificationsUnreadCountGetResponse200,
   (ts_field "200"%js GetUnreadCountApiV1NotificationsUnreadCountGetResponses), zGetUnreadCountApiV1NotificationsUnreadCountGetResponse);
  (fakeGetUnreadCountApiV1NotificationsUnreadCountGetResponsedefault,
   (ts_field "default"%js GetUnreadCountApiV1NotificationsUnreadCountGetErrors), zErrorResponse);
  (fakeDeleteNotificationApiV1NotificationsNotificationIdDeleteRequest,
   (omit "url"%js DeleteNotificationApiV1NotificationsNotificationIdDeleteData),
      (request_schema [("path"%js, zDeleteNotificationApiV1NotificationsNotificationIdDeletePath)]));
  (fakeDeleteNotificationApiV1NotificationsNotificationIdDeleteResponse200,
   (ts_field "200"%js DeleteNotificationApiV1NotificationsNotificationIdDeleteResponses), zDeleteNotificationApiV1NotificationsNotificationIdDeleteResponse);
  (fakeDeleteNotificationApiV1NotificationsNotificationIdDeleteResponsedefault,
   (ts_field "default"%js DeleteNotificationApiV1NotificationsNotificationIdDeleteErrors), zErrorResponse)].

(** The fakes whose values the schemas may refuse ([fakes_refused]). *)
Definition loose_fakes : list (Fake * ts_type * schema) := [
  (fakeBodyLoginApiV1AuthLoginPost,
   BodyLoginApiV1AuthLoginPost, ZUnknown);
  (fakeRateLimitRuleRequest,
   RateLimitRuleRequest, ZUnknown);
  (fakeRateLimitUpdateRequest,
   RateLimitUpdateRequest, ZUnknown);
  (fakeLoginApiV1AuthLoginPostRequest,
   (omit "url"%js LoginApiV1AuthLoginPostData), ZUnknown);
  (fakeUpdateUserRateLimitsApiV1AdminRateLimitsUserIdPutRequest,
   (omit "url"%js UpdateUserRateLimitsApiV1AdminRateLimitsUserIdPutData), ZUnknown)].

Definition depth_bound : nat := 24.

Definition conforms (e : Fake * ts_type * schema) : Prop :=
  ∀ o r, has_type e.1.2 (e.1.1 o r).1 = true ∧ accepts e.2 (e.1.1 o r).1.

Lemma conforms_shape g s t z :
  Shaped g s → shape_typed depth_bound s t && shape_accepted depth_bound s z = true → conforms (g, t, z).
Proof.
  intros Hg [Ht Hz]%andb_prop o r. split; [by eapply shape_typed_sound; [|apply Hg]|].
  by eapply shape_accepted_sound; [|apply Hg].
Qed.



#[local] Hint Extern 20 (Shaped ?g _) => (let h := head_of g in unfold h) : typeclass_instances.

Ltac conform := eapply conforms_shape; [typeclasses eauto|vm_cast_no_check (eq_refl true)].

(** The fakes that draw from every kind of event. *)
Lemma overview_conforms : conforms (fakeAdminUserOverview, AdminUserOverview, zAdminUserOverview).
Proof. conform. Qed.
Lemma browse_conforms : conforms (fakeEventBrowseResponse, EventBrowseResponse, zEventBrowseResponse).
Proof. conform. Qed.
Lemma detail_conforms : conforms (fakeEventDetailResponse, EventDetailResponse, zEventDetailResponse).
Proof. conform. Qed.

Lemma loose_fakes_conform : Forall conforms loose_fakes.
Proof. repeat (apply Forall_cons; split; [conform|]). apply Forall_nil_2. Qed.

Lemma api_fakes_conform : Forall conforms api_fakes.
Proof.
  repeat (apply Forall_cons; split;
    [lazymatch goal with
     | |- conforms (fakeAdminUserOverview, _, _) => exact overview_conforms
     | |- conforms (fakeGetUserOverviewApiV1AdminUsersUserIdOverviewGetResponse200, _, _) => exact overview_conforms
     | |- conforms (fakeEventBrowseResponse, _, _) => exact browse_conforms
     | |- conforms (fakeBrowseEventsApiV1AdminEventsBrowsePostResponse200, _, _) => exact browse_conforms
     | |- conforms (fakeEventDetailResponse, _, _) => exact detail_conforms
     | |- conforms (fakeGetEventDetailApiV1AdminEventsEventIdGetResponse200, _, _) => exact detail_conforms
     | |- _ => conform
     end|]).
  apply Forall_nil_2.
Qed.

(** C39. Fake data is data of the API: whatever the options and the random draws, each of the 353
    functions gives a value of its type, and all but five give one that the schema of the same data
    (of a request, the schemas of its body, path, query and headers) accepts. *)
Theorem fakes_conform g t z o r :
  ((g, t, z) ∈ api_fakes → has_type t (g o r).1 = true ∧ is_Some (safeParse z (g o r).1))
  ∧ ((g, t, z) ∈ loose_fakes → has_type t (g o r).1 = true).
Proof.
  pose proof api_fakes_conform as H1. pose proof loose_fakes_conform as H2. rewrite Forall_forall in H1, H2.
  split; [intros Hin; exact (H1 _ Hin o r)|]. intros Hin. exact (proj1 (H2 _ Hin o r)).
Qed.

End shapes.

(** ** A generator, concretely *)

Definition next {A} (v : A) (r : nat) : A * nat := (v, S r).

Definition counting_faker : Faker := {|
  rng := nat;
  datatype_boolean _ r := next (Nat.odd r) r;
  string_sample := next "sample"%js;
  string_alpha min _ := next (replicate (Z.to_nat min) 97%N);
  number_int min _ := next (default 0 min);
  number_float min := next (default 0 min, 0);
  date_recent := next "2024-05-06T07:08:09.000Z"%js;
  internet_username := next "ada"%js;
  internet_email := next "ada@example.org"%js;
  internet_password := next "fifteen letters"%js;
  internet_ip := next "127.0.0.1"%js;
  internet_userAgent := next "browser"%js;
  location_state := next "Ohio"%js;
  location_timeZone := next "Asia/Tokyo"%js;
  lorem_sentence := next "lorem ipsum"%js;
  lorem_words := next "lorem"%js;
  helpers_fromRegExp s := next s;
  helpers_arrayElement l r := next (default VUndefined (l !! (r mod length l)%nat)) r;
  helpers_multiple g r := let '(a, r) := g r in let '(b, r) := g r in ([a; b], r);
|}.

#[export] Instance counting_laws : @FakerLaws example_zod counting_faker.
Proof.
  split.
  - intros min max r Hr. cbn. rewrite length_replicate. lia.
  - intros min max r Hr. cbn in *. lia.
  - intros [min|] r; cbn; unfold dec_le; cbn; lia.
  - done.
  - done.
  - done.
  - intros l r Hl. cbn. destruct (lookup_lt_is_Some_2 l (r mod length l)%nat) as [v Hv].
    { apply Nat.mod_upper_bound. by destruct l. }
    rewrite Hv. by apply list_elem_of_lookup_2 in Hv.
  - intros g r v. cbn. destruct (g r) as [a r1] eqn:Ea. destruct (g r1) as [b r2] eqn:Eb. cbn.
    intros [->|Hv%list_elem_of_singleton]%elem_of_cons; [exists r; by rewrite Ea|exists r1; by rewrite Hv, Eb].
Qed.

Lemma fakes_conform_witness :
  let g := @fakeCancelResponse counting_faker in
  has_type CancelResponse (g no_options 0%nat).1 = true
  ∧ is_Some (@safeParse example_zod zCancelResponse (g no_options 0%nat).1).
Proof.
  apply (proj1 (@fakes_conform example_zod counting_faker counting_laws (@fakeCancelResponse counting_faker)
    CancelResponse zCancelResponse no_options 0%nat)).
  apply (list_elem_of_lookup_2 _ 1). reflexivity.
Defined.

Section refused.
Context {zod : Zod}.

Lemma short_pattern_refused props :
  obj_get "endpoint_pattern" props = Some (VStr []) → safeParse zRateLimitRuleRequest (VObj props) = None.
Proof.
  intros Hp. rewrite safeParse_spec. cbn [zod_step zRateLimitRuleRequest parse_fields]. rewrite Hp. cbn [default from_option id].
  assert (safeParse (ZDefault (ZOptional (ZString [MinLength 1])) (VStr [])) (VStr []) = None) as ->; [|done].
  rewrite safeParse_spec. cbn [zod_step is_undefined]. rewrite safeParse_spec. cbn [zod_step is_undefined].
  by rewrite safeParse_spec.
Qed.

Lemma default_rule :
  ∃ props, safeParse zRateLimitRuleRequest (VObj []) = Some (VObj props) ∧ obj_get "endpoint_pattern" props = Some (VStr []).
Proof.
  eexists. split. { rewrite safeParse_spec. cbn. rewrite !safeParse_spec. cbn. reflexivity. } reflexivity.
Qed.

(** The default of a rate-limit rule breaks its own schema: [zRateLimitRuleRequest] fills in an
    empty pattern where none is given, and refuses one that is given; so data it answered may not be
    parsed again, and the fake rule with default values, whatever the draws, is refused. *)
Theorem default_rule_refused :
  (∃ w, safeParse zRateLimitRuleRequest (VObj []) = Some w ∧ safeParse zRateLimitRuleRequest w = None)
  ∧ (∀ (f : Faker) r,
       safeParse zRateLimitRuleRequest (fakeRateLimitRuleRequest (mkOptions None (Some (Always true))) r).1 = None).
Proof.
  split.
  - destruct default_rule as (props & Hw & Hp). exists (VObj props). split; [done|]. by apply short_pattern_refused.
  - intros f r. unfold fakeRateLimitRuleRequest, object. cbn.
    destruct (helpers_arrayElement _ r) as [v r1]. destruct (helpers_arrayElement _ r1) as [v' r2].
    by apply short_pattern_refused.
Qed.
End refused.

(** [f.number.float({ min: 0 })] may be 0, which the schema of the multiplier excludes. *)
Example fake_multiplier_may_be_zero :
  @safeParse example_zod zRateLimitUpdateRequest (@fakeRateLimitUpdateRequest counting_faker no_options 0%nat).1 = None.
Proof. vm_compute. reflexivity. Qed.
