(* ===== verification/Sdk.v ===== *)
(** * The functions of the SDK

    Models [lib/api/sdk.gen.ts] (one [Endpoint] per function, with the options
    it passes on) and [lib/api/client.gen.ts] (the client they use when the
    options name none). *)

From S2P Require Import Prelude JsString JsValue Json UrlBuilder BodySerializer Headers Interceptors Client.

(** What a function fixes: the method of the client, whether it is one of [client.sse], the URL
    template, the content type and the serializer of its body. *)
Record Endpoint := mkEndpoint {
  ep_method : jstr;
  ep_sse : bool;
  ep_url : jstr;
  ep_contentType : option jstr;
  ep_form : bool;
}.

Definition loginApiV1AuthLoginPost : Endpoint :=
  mkEndpoint "POST" false "/api/v1/auth/login" (Some "application/x-www-form-urlencoded"%js) true.

Definition registerApiV1AuthRegisterPost : Endpoint :=
  mkEndpoint "POST" false "/api/v1/auth/register" (Some "application/json"%js) false.

Definition getCurrentUserProfileApiV1AuthMeGet : Endpoint :=
  mkEndpoint "GET" false "/api/v1/auth/me" None false.

Definition logoutApiV1AuthLogoutPost : Endpoint :=
  mkEndpoint "POST" false "/api/v1/auth/logout" None false.

Definition createExecutionApiV1ExecutePost : Endpoint :=
  mkEndpoint "POST" false "/api/v1/execute" (Some "application/json"%js) false.

Definition getResultApiV1ExecutionsExecutionIdResultGet : Endpoint :=
  mkEndpoint "GET" false "/api/v1/executions/{execution_id}/result" None false.

Definition cancelExecutionApiV1ExecutionsExecutionIdCancelPost : Endpoint :=
  mkEndpoint "POST" false "/api/v1/executions/{execution_id}/cancel" None false.

Definition retryExecutionApiV1ExecutionsExecutionIdRetryPost : Endpoint :=
  mkEndpoint "POST" false "/api/v1/executions/{execution_id}/retry" None false.

Definition getExecutionEventsApiV1ExecutionsExecutionIdEventsGet : Endpoint :=
  mkEndpoint "GET" false "/api/v1/executions/{execution_id}/events" None false.

Definition getUserExecutionsApiV1UserExecutionsGet : Endpoint :=
  mkEndpoint "GET" false "/api/v1/user/executions" None false.

Definition getExampleScriptsApiV1ExampleScriptsGet : Endpoint :=
  mkEndpoint "GET" false "/api/v1/example-scripts" None false.

Definition getK8sResourceLimitsApiV1K8sLimitsGet : Endpoint :=
  mkEndpoint "GET" false "/api/v1/k8s-limits" None false.

Definition deleteExecutionApiV1ExecutionsExecutionIdDelete : Endpoint :=
  mkEndpoint "DELETE" false "/api/v1/executions/{execution_id}" None false.

Definition listSavedScriptsApiV1ScriptsGet : Endpoint :=
  mkEndpoint "GET" false "/api/v1/scripts" None false.

Definition createSavedScriptApiV1ScriptsPost : Endpoint :=
  mkEndpoint "POST" false "/api/v1/scripts" (Some "application/json"%js) false.

Definition deleteSavedScriptApiV1ScriptsScriptIdDelete : Endpoint :=
  mkEndpoint "DELETE" false "/api/v1/scripts/{script_id}" None false.

Definition getSavedScriptApiV1ScriptsScriptIdGet : Endpoint :=
  mkEndpoint "GET" false "/api/v1/scripts/{script_id}" None false.

Definition updateSavedScriptApiV1ScriptsScriptIdPut : Endpoint :=
  mkEndpoint "PUT" false "/api/v1/scripts/{script_id}" (Some "application/json"%js) false.

Definition livenessApiV1HealthLiveGet : Endpoint :=
  mkEndpoint "GET" false "/api/v1/health/live" None false.

Definition notificationStreamApiV1EventsNotificationsStreamGet : Endpoint :=
  mkEndpoint "GET" true "/api/v1/events/notifications/stream" None false.

Definition executionEventsApiV1EventsExecutionsExecutionIdGet : Endpoint :=
  mkEndpoint "GET" true "/api/v1/events/executions/{execution_id}" None false.

Definition browseEventsApiV1AdminEventsBrowsePost : Endpoint :=
  mkEndpoint "POST" false "/api/v1/admin/events/browse" (Some "application/json"%js) false.

Definition getEventStatsApiV1AdminEventsStatsGet : Endpoint :=
  mkEndpoint "GET" false "/api/v1/admin/events/stats" None false.

Definition exportEventsApiV1AdminEventsExportExportFormatGet : Endpoint :=
  mkEndpoint "GET" false "/api/v1/admin/events/export/{export_format}" None false.

Definition deleteEventApiV1AdminEventsEventIdDelete : Endpoint :=
  mkEndpoint "DELETE" false "/api/v1/admin/events/{event_id}" None false.

Definition getEventDetailApiV1AdminEventsEventIdGet : Endpoint :=
  mkEndpoint "GET" false "/api/v1/admin/events/{event_id}" None false.

Definition replayEventsApiV1AdminEventsReplayPost : Endpoint :=
  mkEndpoint "POST" false "/api/v1/admin/events/replay" (Some "application/json"%js) false.

Definition streamReplayStatusApiV1AdminEventsReplaySessionIdStatusGet : Endpoint :=
  mkEndpoint "GET" true "/api/v1/admin/events/replay/{session_id}/status" None false.

Definition listExecutionsApiV1AdminExecutionsGet : Endpoint :=
  mkEndpoint "GET" false "/api/v1/admin/executions/" None false.

Definition updatePriorityApiV1AdminExecutionsExecutionIdPriorityPut : Endpoint :=
  mkEndpoint "PUT" false "/api/v1/admin/executions/{execution_id}/priority" (Some "application/json"%js) false.

Definition getQueueStatusApiV1AdminExecutionsQueueGet : Endpoint :=
  mkEndpoint "GET" false "/api/v1/admin/executions/queue" None false.

Definition getDefaultRateLimitRulesApiV1AdminRateLimitsDefaultsGet : Endpoint :=
  mkEndpoint "GET" false "/api/v1/admin/rate-limits/defaults" None false.

Definition getUserRateLimitsApiV1AdminRateLimitsUserIdGet : Endpoint :=
  mkEndpoint "GET" false "/api/v1/admin/rate-limits/{user_id}" None false.

Definition updateUserRateLimitsApiV1AdminRateLimitsUserIdPut : Endpoint :=
  mkEndpoint "PUT" false "/api/v1/admin/rate-limits/{user_id}" (Some "application/json"%js) false.

Definition resetUserRateLimitsApiV1AdminRateLimitsUserIdResetPost : Endpoint :=
  mkEndpoint "POST" false "/api/v1/admin/rate-limits/{user_id}/reset" None false.

Definition getSystemSettingsApiV1AdminSettingsGet : Endpoint :=
  mkEndpoint "GET" false "/api/v1/admin/settings/" None false.

Definition updateSystemSettingsApiV1AdminSettingsPut : Endpoint :=
  mkEndpoint "PUT" false "/api/v1/admin/settings/" (Some "application/json"%js) false.

Definition resetSystemSettingsApiV1AdminSettingsResetPost : Endpoint :=
  mkEndpoint "POST" false "/api/v1/admin/settings/reset" None false.

Definition listUsersApiV1AdminUsersGet : Endpoint :=
  mkEndpoint "GET" false "/api/v1/admin/users/" None false.

Definition createUserApiV1AdminUsersPost : Endpoint :=
  mkEndpoint "POST" false "/api/v1/admin/users/" (Some "application/json"%js) false.

Definition deleteUserApiV1AdminUsersUserIdDelete : Endpoint :=
  mkEndpoint "DELETE" false "/api/v1/admin/users/{user_id}" None false.

Definition getUserApiV1AdminUsersUserIdGet : Endpoint :=
  mkEndpoint "GET" false "/api/v1/admin/users/{user_id}" None false.

Definition updateUserApiV1AdminUsersUserIdPut : Endpoint :=
  mkEndpoint "PUT" false "/api/v1/admin/users/{user_id}" (Some "application/json"%js) false.

Definition getUserOverviewApiV1AdminUsersUserIdOverviewGet : Endpoint :=
  mkEndpoint "GET" false "/api/v1/admin/users/{user_id}/overview" None false.

Definition resetUserPasswordApiV1AdminUsersUserIdResetPasswordPost : Endpoint :=
  mkEndpoint "POST" false "/api/v1/admin/users/{user_id}/reset-password" (Some "application/json"%js) false.

Definition unlockUserApiV1AdminUsersUserIdUnlockPost : Endpoint :=
  mkEndpoint "POST" false "/api/v1/admin/users/{user_id}/unlock" None false.

Definition getUserSettingsApiV1UserSettingsGet : Endpoint :=
  mkEndpoint "GET" false "/api/v1/user/settings/" None false.

Definition updateUserSettingsApiV1UserSettingsPut : Endpoint :=
  mkEndpoint "PUT" false "/api/v1/user/settings/" (Some "application/json"%js) false.

Definition updateThemeApiV1UserSettingsThemePut : Endpoint :=
  mkEndpoint "PUT" false "/api/v1/user/settings/theme" (Some "application/json"%js) false.

Definition updateNotificationSettingsApiV1UserSettingsNotificationsPut : Endpoint :=
  mkEndpoint "PUT" false "/api/v1/user/settings/notifications" (Some "application/json"%js) false.

Definition updateEditorSettingsApiV1UserSettingsEditorPut : Endpoint :=
  mkEndpoint "PUT" false "/api/v1/user/settings/editor" (Some "application/json"%js) false.

Definition getSettingsHistoryApiV1UserSettingsHistoryGet : Endpoint :=
  mkEndpoint "GET" false "/api/v1/user/settings/history" None false.

Definition restoreSettingsApiV1UserSettingsRestorePost : Endpoint :=
  mkEndpoint "POST" false "/api/v1/user/settings/restore" (Some "application/json"%js) false.

Definition updateCustomSettingApiV1UserSettingsCustomKeyPut : Endpoint :=
  mkEndpoint "PUT" false "/api/v1/user/settings/custom/{key}" (Some "application/json"%js) false.

Definition getNotificationsApiV1NotificationsGet : Endpoint :=
  mkEndpoint "GET" false "/api/v1/notifications" None false.

Definition markNotificationReadApiV1NotificationsNotificationIdReadPut : Endpoint :=
  mkEndpoint "PUT" false "/api/v1/notifications/{notification_id}/read" None false.

Definition markAllReadApiV1NotificationsMarkAllReadPost : Endpoint :=
  mkEndpoint "POST" false "/api/v1/notifications/mark-all-read" None false.

Definition getUnreadCountApiV1NotificationsUnreadCountGet : Endpoint :=
  mkEndpoint "GET" false "/api/v1/notifications/unread-count" None false.

Definition deleteNotificationApiV1NotificationsNotificationIdDelete : Endpoint :=
  mkEndpoint "DELETE" false "/api/v1/notifications/{notification_id}" None false.

Section sdk.
Context {W : Type}.

(** [...options.headers]: the own enumerable properties, which a [Headers] instance has none of. *)
Definition spread_headers (h : option headers_init) : list (jstr * jsval) :=
  match h with Some (HObject v) => object_entries v | _ => [] end.

Definition with_headers (h : headers_init) (o : RequestOptions W) : RequestOptions W :=
  spread o (mkRequestOptions None None None None None None (Some h) None None None None None None None
              None None None None None).

(** The literal a function passes to the client: [{...serializer, url, ...options, headers}]. *)
Definition sdk_options (e : Endpoint) (options : RequestOptions W) : RequestOptions W :=
  let opts :=
    spread (mkRequestOptions None (Some (ep_url e)) None None None None None None None None
              (if ep_form e then Some (Some urlSearchParamsBodySerializer) else None)
              None None None None None None None None) options in
  match ep_contentType e with
  | Some contentType =>
      with_headers (HObject (VObj (obj_spread [("Content-Type"%js, VStr contentType)]
                                    (spread_headers (o_headers options))))) opts
  | None => opts
  end.

Lemma sdk_options_path e o : o_path (sdk_options e o) = o_path o.
Proof. unfold sdk_options. destruct (ep_contentType e); cbn; by destruct (o_path o). Qed.
Lemma sdk_options_query e o : o_query (sdk_options e o) = o_query o.
Proof. unfold sdk_options. destruct (ep_contentType e); cbn; by destruct (o_query o). Qed.
Lemma sdk_options_url e o : o_url o = None → o_url (sdk_options e o) = Some (ep_url e).
Proof. intros H. unfold sdk_options. destruct (ep_contentType e); cbn; by rewrite H. Qed.

(** [client], the client of the application. *)
Definition client : outcome jsval (client_state W) := createClient (createConfig no_request_options).
End sdk.

Section call.
Context {W : Type} (global_fetch : Request → M W jsval Response).
Context (btoa : jstr → option jstr) (valid_url : jstr → bool).
Context (request_fn : nat → Request → RequestOptions W → M W jsval Request).
Context (response_fn : nat → Response → Request → RequestOptions W → M W jsval Response).
Context (error_fn : nat → jsval → option Response → option Request → RequestOptions W → M W jsval jsval).

(** A call of the function (of the ones that are not streams) with a client. *)
Definition sdk_call (e : Endpoint) (c : client_state W) (options : RequestOptions W) : M W jsval request_result :=
  makeMethodFn global_fetch btoa valid_url request_fn response_fn error_fn (ep_method e) c (sdk_options e options).
End call.
