(* ===== verification/SdkSpec.v ===== *)
(** * Calls of the SDK reach their endpoints

    Each function of the SDK with the type of its options: a check of the whole
    table (the template is the one its type names, it is a route, and every
    placeholder is a string the type requires) and the theorem that a typed call
    has a URL its endpoint reads back. *)

From S2P Require Import Prelude JsString Uri JsValue UrlBuilder UrlSpec ApiEnums Zod ApiTypes.
From S2P Require Import Headers Interceptors Client Sdk.

Definition sdk_calls : list (Endpoint * ts_type) := [
  (loginApiV1AuthLoginPost, LoginApiV1AuthLoginPostData);
  (registerApiV1AuthRegisterPost, RegisterApiV1AuthRegisterPostData);
  (getCurrentUserProfileApiV1AuthMeGet, GetCurrentUserProfileApiV1AuthMeGetData);
  (logoutApiV1AuthLogoutPost, LogoutApiV1AuthLogoutPostData);
  (createExecutionApiV1ExecutePost, CreateExecutionApiV1ExecutePostData);
  (getResultApiV1ExecutionsExecutionIdResultGet, GetResultApiV1ExecutionsExecutionIdResultGetData);
  (cancelExecutionApiV1ExecutionsExecutionIdCancelPost, CancelExecutionApiV1ExecutionsExecutionIdCancelPostData);
  (retryExecutionApiV1ExecutionsExecutionIdRetryPost, RetryExecutionApiV1ExecutionsExecutionIdRetryPostData);
  (getExecutionEventsApiV1ExecutionsExecutionIdEventsGet, GetExecutionEventsApiV1ExecutionsExecutionIdEventsGetData);
  (getUserExecutionsApiV1UserExecutionsGet, GetUserExecutionsApiV1UserExecutionsGetData);
  (getExampleScriptsApiV1ExampleScriptsGet, GetExampleScriptsApiV1ExampleScriptsGetData);
  (getK8sResourceLimitsApiV1K8sLimitsGet, GetK8sResourceLimitsApiV1K8sLimitsGetData);
  (deleteExecutionApiV1ExecutionsExecutionIdDelete, DeleteExecutionApiV1ExecutionsExecutionIdDeleteData);
  (listSavedScriptsApiV1ScriptsGet, ListSavedScriptsApiV1ScriptsGetData);
  (createSavedScriptApiV1ScriptsPost, CreateSavedScriptApiV1ScriptsPostData);
  (deleteSavedScriptApiV1ScriptsScriptIdDelete, DeleteSavedScriptApiV1ScriptsScriptIdDeleteData);
  (getSavedScriptApiV1ScriptsScriptIdGet, GetSavedScriptApiV1ScriptsScriptIdGetData);
  (updateSavedScriptApiV1ScriptsScriptIdPut, UpdateSavedScriptApiV1ScriptsScriptIdPutData);
  (livenessApiV1HealthLiveGet, LivenessApiV1HealthLiveGetData);
  (notificationStreamApiV1EventsNotificationsStreamGet, NotificationStreamApiV1EventsNotificationsStreamGetData);
  (executionEventsApiV1EventsExecutionsExecutionIdGet, ExecutionEventsApiV1EventsExecutionsExecutionIdGetData);
  (browseEventsApiV1AdminEventsBrowsePost, BrowseEventsApiV1AdminEventsBrowsePostData);
  (getEventStatsApiV1AdminEventsStatsGet, GetEventStatsApiV1AdminEventsStatsGetData);
  (exportEventsApiV1AdminEventsExportExportFormatGet, ExportEventsApiV1AdminEventsExportExportFormatGetData);
  (deleteEventApiV1AdminEventsEventIdDelete, DeleteEventApiV1AdminEventsEventIdDeleteData);
  (getEventDetailApiV1AdminEventsEventIdGet, GetEventDetailApiV1AdminEventsEventIdGetData);
  (replayEventsApiV1AdminEventsReplayPost, ReplayEventsApiV1AdminEventsReplayPostData);
  (streamReplayStatusApiV1AdminEventsReplaySessionIdStatusGet, StreamReplayStatusApiV1AdminEventsReplaySessionIdStatusGetData);
  (listExecutionsApiV1AdminExecutionsGet, ListExecutionsApiV1AdminExecutionsGetData);
  (updatePriorityApiV1AdminExecutionsExecutionIdPriorityPut, UpdatePriorityApiV1AdminExecutionsExecutionIdPriorityPutData);
  (getQueueStatusApiV1AdminExecutionsQueueGet, GetQueueStatusApiV1AdminExecutionsQueueGetData);
  (getDefaultRateLimitRulesApiV1AdminRateLimitsDefaultsGet, GetDefaultRateLimitRulesApiV1AdminRateLimitsDefaultsGetData);
  (getUserRateLimitsApiV1AdminRateLimitsUserIdGet, GetUserRateLimitsApiV1AdminRateLimitsUserIdGetData);
  (updateUserRateLimitsApiV1AdminRateLimitsUserIdPut, UpdateUserRateLimitsApiV1AdminRateLimitsUserIdPutData);
  (resetUserRateLimitsApiV1AdminRateLimitsUserIdResetPost, ResetUserRateLimitsApiV1AdminRateLimitsUserIdResetPostData);
  (getSystemSettingsApiV1AdminSettingsGet, GetSystemSettingsApiV1AdminSettingsGetData);
  (updateSystemSettingsApiV1AdminSettingsPut, UpdateSystemSettingsApiV1AdminSettingsPutData);
  (resetSystemSettingsApiV1AdminSettingsResetPost, ResetSystemSettingsApiV1AdminSettingsResetPostData);
  (listUsersApiV1AdminUsersGet, ListUsersApiV1AdminUsersGetData);
  (createUserApiV1AdminUsersPost, CreateUserApiV1AdminUsersPostData);
  (deleteUserApiV1AdminUsersUserIdDelete, DeleteUserApiV1AdminUsersUserIdDeleteData);
  (getUserApiV1AdminUsersUserIdGet, GetUserApiV1AdminUsersUserIdGetData);
  (updateUserApiV1AdminUsersUserIdPut, UpdateUserApiV1AdminUsersUserIdPutData);
  (getUserOverviewApiV1AdminUsersUserIdOverviewGet, GetUserOverviewApiV1AdminUsersUserIdOverviewGetData);
  (resetUserPasswordApiV1AdminUsersUserIdResetPasswordPost, ResetUserPasswordApiV1AdminUsersUserIdResetPasswordPostData);
  (unlockUserApiV1AdminUsersUserIdUnlockPost, UnlockUserApiV1AdminUsersUserIdUnlockPostData);
  (getUserSettingsApiV1UserSettingsGet, GetUserSettingsApiV1UserSettingsGetData);
  (updateUserSettingsApiV1UserSettingsPut, UpdateUserSettingsApiV1UserSettingsPutData);
  (updateThemeApiV1UserSettingsThemePut, UpdateThemeApiV1UserSettingsThemePutData);
  (updateNotificationSettingsApiV1UserSettingsNotificationsPut, UpdateNotificationSettingsApiV1UserSettingsNotificationsPutData);
  (updateEditorSettingsApiV1UserSettingsEditorPut, UpdateEditorSettingsApiV1UserSettingsEditorPutData);
  (getSettingsHistoryApiV1UserSettingsHistoryGet, GetSettingsHistoryApiV1UserSettingsHistoryGetData);
  (restoreSettingsApiV1UserSettingsRestorePost, RestoreSettingsApiV1UserSettingsRestorePostData);
  (updateCustomSettingApiV1UserSettingsCustomKeyPut, UpdateCustomSettingApiV1UserSettingsCustomKeyPutData);
  (getNotificationsApiV1NotificationsGet, GetNotificationsApiV1NotificationsGetData);
  (markNotificationReadApiV1NotificationsNotificationIdReadPut, MarkNotificationReadApiV1NotificationsNotificationIdReadPutData);
  (markAllReadApiV1NotificationsMarkAllReadPost, MarkAllReadApiV1NotificationsMarkAllReadPostData);
  (getUnreadCountApiV1NotificationsUnreadCountGet, GetUnreadCountApiV1NotificationsUnreadCountGetData);
  (deleteNotificationApiV1NotificationsNotificationIdDelete, DeleteNotificationApiV1NotificationsNotificationIdDeleteData)].

(** ** The route of a template *)

Definition segment_of (p : jstr) : segment :=
  if startsWith "{" p then Param (js_slice 1 (-1) p) else Lit p.

Definition route_of (url : jstr) : list segment := map segment_of (drop 1 (js_split "/" url)).

#[local] Instance no_braces_dec s : Decision (no_braces s) := ltac:(unfold no_braces; apply _).
#[local] Instance segment_ok_dec s : Decision (segment_ok s).
Proof. destruct s; simpl; unfold in_path; apply _. Defined.

(** ** The table *)

(** The properties of [path] in the type of a function's options. *)
Definition path_fields (T : ts_type) : list (jstr * ts_type) :=
  match ts_field "path" T with TObject fs => fs | _ => [] end.

Definition placeholder_ok (T : ts_type) (s : segment) : bool :=
  match s with
  | Lit _ => true
  | Param n => match obj_get n (path_fields T) with Some t => subtype 20 t TString | None => false end
  end.

Definition call_ok (c : Endpoint * ts_type) : bool :=
  let route := route_of (ep_url c.1) in
  match ts_field "url" c.2 with TLiteral (LStr u) => u =js ep_url c.1 | _ => false end
  && (render_route route =js ep_url c.1)
  && match route with [] => false | _ => true end
  && forallb (λ s, bool_decide (segment_ok s)) route
  && forallb (placeholder_ok c.2) route.

Lemma sdk_calls_ok : forallb call_ok sdk_calls = true.
Proof. vm_compute. reflexivity. Qed.

(** ** A typed call *)

Section call.
Context {W : Type}.
Implicit Types o : RequestOptions W.

(** What the type of a function's options speaks of. *)
Definition call_data (e : Endpoint) o : list (jstr * jsval) :=
  match o_body o with Some b => [("body"%js, b)] | None => [] end
  ++ match o_path o with Some p => [("path"%js, VObj p)] | None => [] end
  ++ match o_query o with Some q => [("query"%js, VObj q)] | None => [] end
  ++ [("url"%js, VStr (ep_url e))].

Lemma call_data_path e o :
  obj_get "path" (call_data e o) = VObj <$> o_path o.
Proof. unfold call_data. destruct (o_body o), (o_path o), (o_query o); reflexivity. Qed.

Definition texts_ok (path : list (jstr * jsval)) : Prop :=
  Forall (λ kv, ∀ s, kv.2 = VStr s → text_ok s ∧ s ≠ []) path.

Lemma typed_placeholder T o e n t :
  has_type T (VObj (call_data e o)) = true → obj_get n (path_fields T) = Some t → subtype 20 t TString = true →
  ∃ s, obj_get n (default [] (o_path o)) = Some (VStr s).
Proof.
  unfold path_fields. intros HT Hn Hs. destruct T as [| | | | | | | | | | | |fs]; try done.
  cbn [ts_field] in Hn. destruct (obj_get "path" fs) as [tp|] eqn:Ep; [|done]. cbn [from_option id] in Hn.
  destruct tp as [| | | | | | | | | | | |pf]; try done. apply obj_get_elem in Ep, Hn.
  cbn [has_type] in HT. rewrite forallb_true in HT. specialize (HT _ Ep). cbn [fst snd] in HT.
  rewrite call_data_path in HT. destruct (o_path o) as [path|]; [|done]. cbn [fmap option_fmap option_map from_option id] in HT |- *.
  cbn [has_type] in HT. rewrite forallb_true in HT. specialize (HT _ Hn). cbn [fst snd] in HT.
  apply (subtype_sound 20 t TString) in HT; [|done]. destruct (obj_get n path) as [v|]; [|done].
  cbn [from_option id] in HT. destruct v; try done. eauto.
Qed.

Lemma typed_path_values T o e route :
  has_type T (VObj (call_data e o)) = true → forallb (placeholder_ok T) route = true →
  texts_ok (default [] (o_path o)) →
  ∃ vs, path_values route (default [] (o_path o)) = Some vs ∧ values_ok vs.
Proof.
  intros HT Hr Hok. induction route as [|s route IH]; [by exists []; split; [|constructor]|].
  cbn [forallb] in Hr. apply andb_prop in Hr as [Hs Hr]. destruct (IH Hr) as (vs & Hvs & Hvok).
  destruct s as [l|n].
  - exists vs. split; [|done]. unfold path_values in *. cbn [mapM]. destruct (mapM _ route); by simplify_eq/=.
  - cbn [placeholder_ok] in Hs. destruct (obj_get n (path_fields T)) as [t|] eqn:En; [|done].
    destruct (typed_placeholder T o e n t HT En Hs) as [v Hv]. exists ((n, v) :: vs). split.
    + unfold path_values in *. cbn [mapM]. rewrite Hv. cbn [scalar_text to_js_string mbind option_bind].
      destruct (mapM _ route); by simplify_eq/=.
    + constructor; [|done]. apply obj_get_elem in Hv. unfold texts_ok in Hok. rewrite Forall_forall in Hok.
      by apply (Hok _ Hv).
Qed.
End call.

(** The URL of a typed call. *)
Lemma typed_call_url {W} e T (o : RequestOptions W) base :
  (e, T) ∈ sdk_calls → o_url o = None → has_type T (VObj (call_data e o)) = true →
  no_braces base → texts_ok (default [] (o_path o)) → query_ok (default [] (o_query o)) →
  ∃ url, buildUrl (Some base) (o_path (sdk_options e o)) (o_query (sdk_options e o))
           (SerializerFunction defaultQuerySerializer) (default [] (o_url (sdk_options e o))) = Return url
         ∧ route_of_call base (route_of (ep_url e)) (default [] (o_path o)) (default [] (o_query o)) url.
Proof.
  intros Hin Hurl HT Hbase Hpath Hquery. pose proof sdk_calls_ok as Hok. rewrite forallb_true in Hok.
  specialize (Hok _ Hin). unfold call_ok in Hok. cbn [fst snd] in Hok.
  repeat (apply andb_prop in Hok as [Hok ?]). rename H into Hph, H0 into Hsegs, H1 into Hne, H2 into Hrender.
  destruct (typed_path_values T o e _ HT Hph Hpath) as (vs & Hvs & Hvok).
  rewrite sdk_options_path, sdk_options_query, sdk_options_url by done. cbn [from_option id].
  assert (Forall segment_ok (route_of (ep_url e))) as Hroute.
  { apply Forall_forall. intros s Hs. rewrite forallb_true in Hsegs. by apply (bool_decide_unpack _), Is_true_true, Hsegs. }
  assert (route_of (ep_url e) ≠ []) as Hnil by (by destruct (route_of (ep_url e))).
  pose proof (buildUrl_reads base _ _ _ vs Hbase Hnil Hroute Hvs Hvok Hquery) as H.
  apply jeqb_eq in Hrender. rewrite Hrender in H. by rewrite buildUrl_default.
Qed.

(** C2. Every function of the SDK reaches its endpoint: for any of them, options of the type the
    function declares, whose path values are well-formed texts that are not empty, and a query of
    scalars, the URL of the request is made, and a server that matches it against the function's
    template and decodes it reads exactly the path and query of the options. *)
Theorem typed_call_reaches_endpoint {W} e T (o : RequestOptions W) base :
  (e, T) ∈ sdk_calls → o_url o = None → has_type T (VObj (call_data e o)) = true →
  no_braces base → texts_ok (default [] (o_path o)) → query_ok (default [] (o_query o)) →
  ∃ url, buildUrl (Some base) (o_path (sdk_options e o)) (o_query (sdk_options e o))
           (SerializerFunction defaultQuerySerializer) (default [] (o_url (sdk_options e o))) = Return url
         ∧ route_of_call base (route_of (ep_url e)) (default [] (o_path o)) (default [] (o_query o)) url.
Proof. apply typed_call_url. Qed.

Definition example_options : RequestOptions unit :=
  mkRequestOptions None None None (Some [("execution_id"%js, VStr "a/b?")]) None None None None None None None None
    None None None None None None None.

Lemma typed_call_reaches_endpoint_witness :
  ∃ url, buildUrl (Some "http://h"%js)
           (o_path (sdk_options getResultApiV1ExecutionsExecutionIdResultGet example_options))
           (o_query (sdk_options getResultApiV1ExecutionsExecutionIdResultGet example_options))
           (SerializerFunction defaultQuerySerializer)
           (default [] (o_url (sdk_options getResultApiV1ExecutionsExecutionIdResultGet example_options))) = Return url
         ∧ route_of_call "http://h" (route_of (ep_url getResultApiV1ExecutionsExecutionIdResultGet))
             (default [] (o_path example_options)) (default [] (o_query example_options)) url.
Proof.
  apply (typed_call_reaches_endpoint getResultApiV1ExecutionsExecutionIdResultGet
           GetResultApiV1ExecutionsExecutionIdResultGetData).
  - do 5 right. left.
  - done.
  - vm_compute. reflexivity.
  - split; apply (bool_decide_unpack _); vm_compute; done.
  - apply Forall_cons_2; [|apply Forall_nil_2]. intros s [= <-]. split; [apply ascii_text; reflexivity|done].
  - apply Forall_nil_2.
Defined.
