(* ===== verification/Queries.v ===== *)
(** * Queries and mutations of the SDK

    Models [lib/api/@tanstack/svelte-query.gen.ts]: the key and the options of
    each query, the options of each mutation.  What TanStack Query does with
    them is not modelled; a query function is given the key it is stored under,
    a mutation function the options of one call.  [c] is the client the options
    name or the application's; the signal, which only [fetch] sees, is left
    out. *)

From S2P Require Import Prelude JsString JsValue Json UrlBuilder Headers Interceptors Client Sdk.

Open Scope js_monad_scope.

Section queries.
Context {W : Type}.

(** The object a query key holds; a property that is not set is [None]. *)
Record QueryKey := mkQueryKey {
  key_id : jstr;
  key_baseUrl : option jstr;
  key_infinite : bool;
  key_tags : option (list jstr);
  key_body : option jsval;
  key_headers : option headers_init;
  key_path : option (list (jstr * jsval));
  key_query : option (list (jstr * jsval));
}.

(** [c] is [(options?.client ?? client).getConfig()]. *)
Definition createQueryKey (id : jstr) (c : RequestOptions W) (options : RequestOptions W)
    (infinite : bool) (tags : option (list jstr)) : QueryKey :=
  mkQueryKey id
    match o_baseUrl options with Some (_ :: _) as b => b | _ => o_baseUrl c end
    infinite tags
    match o_body options with Some b => if truthy b then Some b else None | None => None end
    (o_headers options) (o_path options) (o_query options).

(** The key as the value TanStack Query is given: the object, with the properties [createQueryKey]
    sets, in an array. A [Headers] object has no property of its own. *)
Definition set_property (k : jstr) (v : option jsval) : list (jstr * jsval) :=
  match v with Some v => [(k, v)] | None => [] end.

Definition headers_value (h : headers_init) : jsval :=
  match h with HHeaders _ => VInstance [] | HObject v => v end.

Definition key_value (k : QueryKey) : jsval :=
  VArr [VObj (
    [("_id"%js, VStr (key_id k)); ("baseUrl"%js, default VUndefined (VStr <$> key_baseUrl k))]
    ++ set_property "_infinite" (if key_infinite k then Some (VBool true) else None)
    ++ set_property "tags" (VArr ∘ map VStr <$> key_tags k)
    ++ set_property "body" (key_body k)
    ++ set_property "headers" (headers_value <$> key_headers k)
    ++ set_property "path" (VObj <$> key_path k)
    ++ set_property "query" (VObj <$> key_query k))].

(** The key as a part of the options: what the client reads of it. *)
Definition key_options (k : QueryKey) : RequestOptions W :=
  mkRequestOptions (key_baseUrl k) None None (key_path k) (key_query k) (key_body k) (key_headers k)
    None None None None None None None None None None None None.

Definition throwing : RequestOptions W :=
  mkRequestOptions None None None None None None None None None None None None None None (Some true)
    None None None None.

(** [{...options, ...queryKey[0], signal, throwOnError: true}]. *)
Definition query_options (options : RequestOptions W) (k : QueryKey) : RequestOptions W :=
  spread (spread options (key_options k)) throwing.

(** [{...options, ...fnOptions, throwOnError: true}]. *)
Definition mutation_options (options fnOptions : RequestOptions W) : RequestOptions W :=
  spread (spread options fnOptions) throwing.

(** ** Pages *)

(** [{...a as any, ...b as any}]. *)
Definition spread_values (a b : jsval) : jsval := VObj (obj_spread (object_entries a) (object_entries b)).

Definition spread_maps (a b : option (list (jstr * jsval))) : option (list (jstr * jsval)) :=
  match b with Some b => Some (obj_spread (default [] a) b) | None => a end.

Definition createInfiniteParams (k : QueryKey) (page : RequestOptions W) : QueryKey :=
  mkQueryKey (key_id k) (key_baseUrl k) (key_infinite k) (key_tags k)
    match o_body page with
    | Some b => if truthy b then Some (spread_values (default VUndefined (key_body k)) b) else key_body k
    | None => key_body k
    end
    match o_headers page with
    | Some h => Some (HObject (VObj (obj_spread (spread_headers (key_headers k)) (spread_headers (Some h)))))
    | None => key_headers k
    end
    (spread_maps (key_path k) (o_path page)) (spread_maps (key_query k) (o_query page)).

(** [pageParam]: an object is the page, anything else its offset. *)
Inductive page_param := PageObject (page : RequestOptions W) | PageOffset (offset : jsval).

Definition page_of (name : jstr) (p : page_param) : RequestOptions W :=
  match p with
  | PageObject page => page
  | PageOffset v =>
      mkRequestOptions None None None None (Some [(name, v)]) None None None None None None None None None
        None None None None None
  end.

(** ** The keys *)

Definition getCurrentUserProfileApiV1AuthMeGetQueryKey (c : RequestOptions W) (options : RequestOptions W) : QueryKey :=
  createQueryKey "getCurrentUserProfileApiV1AuthMeGet" c options false None.
Definition getResultApiV1ExecutionsExecutionIdResultGetQueryKey (c : RequestOptions W) (options : RequestOptions W) : QueryKey :=
  createQueryKey "getResultApiV1ExecutionsExecutionIdResultGet" c options false None.
Definition getExecutionEventsApiV1ExecutionsExecutionIdEventsGetQueryKey (c : RequestOptions W) (options : RequestOptions W) : QueryKey :=
  createQueryKey "getExecutionEventsApiV1ExecutionsExecutionIdEventsGet" c options false None.
Definition getUserExecutionsApiV1UserExecutionsGetQueryKey (c : RequestOptions W) (options : RequestOptions W) : QueryKey :=
  createQueryKey "getUserExecutionsApiV1UserExecutionsGet" c options false None.
Definition getExampleScriptsApiV1ExampleScriptsGetQueryKey (c : RequestOptions W) (options : RequestOptions W) : QueryKey :=
  createQueryKey "getExampleScriptsApiV1ExampleScriptsGet" c options false None.
Definition getK8sResourceLimitsApiV1K8sLimitsGetQueryKey (c : RequestOptions W) (options : RequestOptions W) : QueryKey :=
  createQueryKey "getK8sResourceLimitsApiV1K8sLimitsGet" c options false None.
Definition listSavedScriptsApiV1ScriptsGetQueryKey (c : RequestOptions W) (options : RequestOptions W) : QueryKey :=
  createQueryKey "listSavedScriptsApiV1ScriptsGet" c options false None.
Definition getSavedScriptApiV1ScriptsScriptIdGetQueryKey (c : RequestOptions W) (options : RequestOptions W) : QueryKey :=
  createQueryKey "getSavedScriptApiV1ScriptsScriptIdGet" c options false None.
Definition livenessApiV1HealthLiveGetQueryKey (c : RequestOptions W) (options : RequestOptions W) : QueryKey :=
  createQueryKey "livenessApiV1HealthLiveGet" c options false None.
Definition browseEventsApiV1AdminEventsBrowsePostQueryKey (c : RequestOptions W) (options : RequestOptions W) : QueryKey :=
  createQueryKey "browseEventsApiV1AdminEventsBrowsePost" c options false None.
Definition getEventStatsApiV1AdminEventsStatsGetQueryKey (c : RequestOptions W) (options : RequestOptions W) : QueryKey :=
  createQueryKey "getEventStatsApiV1AdminEventsStatsGet" c options false None.
Definition exportEventsApiV1AdminEventsExportExportFormatGetQueryKey (c : RequestOptions W) (options : RequestOptions W) : QueryKey :=
  createQueryKey "exportEventsApiV1AdminEventsExportExportFormatGet" c options false None.
Definition getEventDetailApiV1AdminEventsEventIdGetQueryKey (c : RequestOptions W) (options : RequestOptions W) : QueryKey :=
  createQueryKey "getEventDetailApiV1AdminEventsEventIdGet" c options false None.
Definition listExecutionsApiV1AdminExecutionsGetQueryKey (c : RequestOptions W) (options : RequestOptions W) : QueryKey :=
  createQueryKey "listExecutionsApiV1AdminExecutionsGet" c options false None.
Definition getQueueStatusApiV1AdminExecutionsQueueGetQueryKey (c : RequestOptions W) (options : RequestOptions W) : QueryKey :=
  createQueryKey "getQueueStatusApiV1AdminExecutionsQueueGet" c options false None.
Definition getDefaultRateLimitRulesApiV1AdminRateLimitsDefaultsGetQueryKey (c : RequestOptions W) (options : RequestOptions W) : QueryKey :=
  createQueryKey "getDefaultRateLimitRulesApiV1AdminRateLimitsDefaultsGet" c options false None.
Definition getUserRateLimitsApiV1AdminRateLimitsUserIdGetQueryKey (c : RequestOptions W) (options : RequestOptions W) : QueryKey :=
  createQueryKey "getUserRateLimitsApiV1AdminRateLimitsUserIdGet" c options false None.
Definition getSystemSettingsApiV1AdminSettingsGetQueryKey (c : RequestOptions W) (options : RequestOptions W) : QueryKey :=
  createQueryKey "getSystemSettingsApiV1AdminSettingsGet" c options false None.
Definition listUsersApiV1AdminUsersGetQueryKey (c : RequestOptions W) (options : RequestOptions W) : QueryKey :=
  createQueryKey "listUsersApiV1AdminUsersGet" c options false None.
Definition listUsersApiV1AdminUsersGetInfiniteQueryKey (c : RequestOptions W) (options : RequestOptions W) : QueryKey :=
  createQueryKey "listUsersApiV1AdminUsersGet" c options true None.
Definition getUserApiV1AdminUsersUserIdGetQueryKey (c : RequestOptions W) (options : RequestOptions W) : QueryKey :=
  createQueryKey "getUserApiV1AdminUsersUserIdGet" c options false None.
Definition getUserOverviewApiV1AdminUsersUserIdOverviewGetQueryKey (c : RequestOptions W) (options : RequestOptions W) : QueryKey :=
  createQueryKey "getUserOverviewApiV1AdminUsersUserIdOverviewGet" c options false None.
Definition getUserSettingsApiV1UserSettingsGetQueryKey (c : RequestOptions W) (options : RequestOptions W) : QueryKey :=
  createQueryKey "getUserSettingsApiV1UserSettingsGet" c options false None.
Definition getSettingsHistoryApiV1UserSettingsHistoryGetQueryKey (c : RequestOptions W) (options : RequestOptions W) : QueryKey :=
  createQueryKey "getSettingsHistoryApiV1UserSettingsHistoryGet" c options false None.
Definition getNotificationsApiV1NotificationsGetQueryKey (c : RequestOptions W) (options : RequestOptions W) : QueryKey :=
  createQueryKey "getNotificationsApiV1NotificationsGet" c options false None.
Definition getNotificationsApiV1NotificationsGetInfiniteQueryKey (c : RequestOptions W) (options : RequestOptions W) : QueryKey :=
  createQueryKey "getNotificationsApiV1NotificationsGet" c options true None.
Definition getUnreadCountApiV1NotificationsUnreadCountGetQueryKey (c : RequestOptions W) (options : RequestOptions W) : QueryKey :=
  createQueryKey "getUnreadCountApiV1NotificationsUnreadCountGet" c options false None.
End queries.
Arguments page_param W : clear implicits.

(** [const { data } = await ...]. *)
Definition data_of (r : request_result) : outcome jsval jsval :=
  match r with
  | RData v => if nullish v then Throw js_type_error else Return (prop "data" v)
  | RFields data _ _ => Return data
  | RUndefinedData => Throw js_type_error
  | RError _ _ _ => Return VUndefined
  end.

Section functions.
Context {W : Type} (global_fetch : Request → M W jsval Response).
Context (btoa : jstr → option jstr) (valid_url : jstr → bool).
Context (request_fn : nat → Request → RequestOptions W → M W jsval Request).
Context (response_fn : nat → Response → Request → RequestOptions W → M W jsval Response).
Context (error_fn : nat → jsval → option Response → option Request → RequestOptions W → M W jsval jsval).

Local Abbreviation sdk_call := (sdk_call global_fetch btoa valid_url request_fn response_fn error_fn).

Definition call_data (e : Endpoint) (c : client_state W) (options : RequestOptions W) : M W jsval jsval :=
  let! r := sdk_call e c options in lift_outcome (data_of r).

Definition queryFn (e : Endpoint) (c : client_state W) (options : RequestOptions W) (k : QueryKey)
  : M W jsval jsval :=
  call_data e c (query_options options k).

Definition infiniteQueryFn (e : Endpoint) (name : jstr) (c : client_state W) (options : RequestOptions W)
    (k : QueryKey) (p : page_param W) : M W jsval jsval :=
  call_data e c (query_options options (createInfiniteParams k (page_of name p))).

Definition mutationFn (e : Endpoint) (c : client_state W) (options fnOptions : RequestOptions W)
  : M W jsval jsval :=
  call_data e c (mutation_options options fnOptions).

(** The options of a query: its key, and the function that answers it for a key. *)
Definition queryOptions (e : Endpoint) (c : client_state W) (options : RequestOptions W) (k : QueryKey)
  : QueryKey * (QueryKey → M W jsval jsval) :=
  (k, queryFn e c options).
Definition infiniteQueryOptions (e : Endpoint) (name : jstr) (c : client_state W) (options : RequestOptions W)
    (k : QueryKey) : QueryKey * (QueryKey → page_param W → M W jsval jsval) :=
  (k, infiniteQueryFn e name c options).
Definition mutationOptions (e : Endpoint) (c : client_state W) (options : RequestOptions W)
  : RequestOptions W → M W jsval jsval :=
  mutationFn e c options.

Definition loginApiV1AuthLoginPostMutation (c : client_state W) (options : RequestOptions W) :=
  mutationOptions loginApiV1AuthLoginPost c options.
Definition registerApiV1AuthRegisterPostMutation (c : client_state W) (options : RequestOptions W) :=
  mutationOptions registerApiV1AuthRegisterPost c options.
Definition getCurrentUserProfileApiV1AuthMeGetOptions (c : client_state W) (options : RequestOptions W) :=
  queryOptions getCurrentUserProfileApiV1AuthMeGet c options (getCurrentUserProfileApiV1AuthMeGetQueryKey (config c) options).
Definition logoutApiV1AuthLogoutPostMutation (c : client_state W) (options : RequestOptions W) :=
  mutationOptions logoutApiV1AuthLogoutPost c options.
Definition createExecutionApiV1ExecutePostMutation (c : client_state W) (options : RequestOptions W) :=
  mutationOptions createExecutionApiV1ExecutePost c options.
Definition getResultApiV1ExecutionsExecutionIdResultGetOptions (c : client_state W) (options : RequestOptions W) :=
  queryOptions getResultApiV1ExecutionsExecutionIdResultGet c options (getResultApiV1ExecutionsExecutionIdResultGetQueryKey (config c) options).
Definition cancelExecutionApiV1ExecutionsExecutionIdCancelPostMutation (c : client_state W) (options : RequestOptions W) :=
  mutationOptions cancelExecutionApiV1ExecutionsExecutionIdCancelPost c options.
Definition retryExecutionApiV1ExecutionsExecutionIdRetryPostMutation (c : client_state W) (options : RequestOptions W) :=
  mutationOptions retryExecutionApiV1ExecutionsExecutionIdRetryPost c options.
Definition getExecutionEventsApiV1ExecutionsExecutionIdEventsGetOptions (c : client_state W) (options : RequestOptions W) :=
  queryOptions getExecutionEventsApiV1ExecutionsExecutionIdEventsGet c options (getExecutionEventsApiV1ExecutionsExecutionIdEventsGetQueryKey (config c) options).
Definition getUserExecutionsApiV1UserExecutionsGetOptions (c : client_state W) (options : RequestOptions W) :=
  queryOptions getUserExecutionsApiV1UserExecutionsGet c options (getUserExecutionsApiV1UserExecutionsGetQueryKey (config c) options).
Definition getExampleScriptsApiV1ExampleScriptsGetOptions (c : client_state W) (options : RequestOptions W) :=
  queryOptions getExampleScriptsApiV1ExampleScriptsGet c options (getExampleScriptsApiV1ExampleScriptsGetQueryKey (config c) options).
Definition getK8sResourceLimitsApiV1K8sLimitsGetOptions (c : client_state W) (options : RequestOptions W) :=
  queryOptions getK8sResourceLimitsApiV1K8sLimitsGet c options (getK8sResourceLimitsApiV1K8sLimitsGetQueryKey (config c) options).
Definition deleteExecutionApiV1ExecutionsExecutionIdDeleteMutation (c : client_state W) (options : RequestOptions W) :=
  mutationOptions deleteExecutionApiV1ExecutionsExecutionIdDelete c options.
Definition listSavedScriptsApiV1ScriptsGetOptions (c : client_state W) (options : RequestOptions W) :=
  queryOptions listSavedScriptsApiV1ScriptsGet c options (listSavedScriptsApiV1ScriptsGetQueryKey (config c) options).
Definition createSavedScriptApiV1ScriptsPostMutation (c : client_state W) (options : RequestOptions W) :=
  mutationOptions createSavedScriptApiV1ScriptsPost c options.
Definition deleteSavedScriptApiV1ScriptsScriptIdDeleteMutation (c : client_state W) (options : RequestOptions W) :=
  mutationOptions deleteSavedScriptApiV1ScriptsScriptIdDelete c options.
Definition getSavedScriptApiV1ScriptsScriptIdGetOptions (c : client_state W) (options : RequestOptions W) :=
  queryOptions getSavedScriptApiV1ScriptsScriptIdGet c options (getSavedScriptApiV1ScriptsScriptIdGetQueryKey (config c) options).
Definition updateSavedScriptApiV1ScriptsScriptIdPutMutation (c : client_state W) (options : RequestOptions W) :=
  mutationOptions updateSavedScriptApiV1ScriptsScriptIdPut c options.
Definition livenessApiV1HealthLiveGetOptions (c : client_state W) (options : RequestOptions W) :=
  queryOptions livenessApiV1HealthLiveGet c options (livenessApiV1HealthLiveGetQueryKey (config c) options).
Definition browseEventsApiV1AdminEventsBrowsePostOptions (c : client_state W) (options : RequestOptions W) :=
  queryOptions browseEventsApiV1AdminEventsBrowsePost c options (browseEventsApiV1AdminEventsBrowsePostQueryKey (config c) options).
Definition getEventStatsApiV1AdminEventsStatsGetOptions (c : client_state W) (options : RequestOptions W) :=
  queryOptions getEventStatsApiV1AdminEventsStatsGet c options (getEventStatsApiV1AdminEventsStatsGetQueryKey (config c) options).
Definition exportEventsApiV1AdminEventsExportExportFormatGetOptions (c : client_state W) (options : RequestOptions W) :=
  queryOptions exportEventsApiV1AdminEventsExportExportFormatGet c options (exportEventsApiV1AdminEventsExportExportFormatGetQueryKey (config c) options).
Definition deleteEventApiV1AdminEventsEventIdDeleteMutation (c : client_state W) (options : RequestOptions W) :=
  mutationOptions deleteEventApiV1AdminEventsEventIdDelete c options.
Definition getEventDetailApiV1AdminEventsEventIdGetOptions (c : client_state W) (options : RequestOptions W) :=
  queryOptions getEventDetailApiV1AdminEventsEventIdGet c options (getEventDetailApiV1AdminEventsEventIdGetQueryKey (config c) options).
Definition replayEventsApiV1AdminEventsReplayPostMutation (c : client_state W) (options : RequestOptions W) :=
  mutationOptions replayEventsApiV1AdminEventsReplayPost c options.
Definition listExecutionsApiV1AdminExecutionsGetOptions (c : client_state W) (options : RequestOptions W) :=
  queryOptions listExecutionsApiV1AdminExecutionsGet c options (listExecutionsApiV1AdminExecutionsGetQueryKey (config c) options).
Definition updatePriorityApiV1AdminExecutionsExecutionIdPriorityPutMutation (c : client_state W) (options : RequestOptions W) :=
  mutationOptions updatePriorityApiV1AdminExecutionsExecutionIdPriorityPut c options.
Definition getQueueStatusApiV1AdminExecutionsQueueGetOptions (c : client_state W) (options : RequestOptions W) :=
  queryOptions getQueueStatusApiV1AdminExecutionsQueueGet c options (getQueueStatusApiV1AdminExecutionsQueueGetQueryKey (config c) options).
Definition getDefaultRateLimitRulesApiV1AdminRateLimitsDefaultsGetOptions (c : client_state W) (options : RequestOptions W) :=
  queryOptions getDefaultRateLimitRulesApiV1AdminRateLimitsDefaultsGet c options (getDefaultRateLimitRulesApiV1AdminRateLimitsDefaultsGetQueryKey (config c) options).
Definition getUserRateLimitsApiV1AdminRateLimitsUserIdGetOptions (c : client_state W) (options : RequestOptions W) :=
  queryOptions getUserRateLimitsApiV1AdminRateLimitsUserIdGet c options (getUserRateLimitsApiV1AdminRateLimitsUserIdGetQueryKey (config c) options).
Definition updateUserRateLimitsApiV1AdminRateLimitsUserIdPutMutation (c : client_state W) (options : RequestOptions W) :=
  mutationOptions updateUserRateLimitsApiV1AdminRateLimitsUserIdPut c options.
Definition resetUserRateLimitsApiV1AdminRateLimitsUserIdResetPostMutation (c : client_state W) (options : RequestOptions W) :=
  mutationOptions resetUserRateLimitsApiV1AdminRateLimitsUserIdResetPost c options.
Definition getSystemSettingsApiV1AdminSettingsGetOptions (c : client_state W) (options : RequestOptions W) :=
  queryOptions getSystemSettingsApiV1AdminSettingsGet c options (getSystemSettingsApiV1AdminSettingsGetQueryKey (config c) options).
Definition updateSystemSettingsApiV1AdminSettingsPutMutation (c : client_state W) (options : RequestOptions W) :=
  mutationOptions updateSystemSettingsApiV1AdminSettingsPut c options.
Definition resetSystemSettingsApiV1AdminSettingsResetPostMutation (c : client_state W) (options : RequestOptions W) :=
  mutationOptions resetSystemSettingsApiV1AdminSettingsResetPost c options.
Definition listUsersApiV1AdminUsersGetOptions (c : client_state W) (options : RequestOptions W) :=
  queryOptions listUsersApiV1AdminUsersGet c options (listUsersApiV1AdminUsersGetQueryKey (config c) options).
Definition listUsersApiV1AdminUsersGetInfiniteOptions (c : client_state W) (options : RequestOptions W) :=
  infiniteQueryOptions listUsersApiV1AdminUsersGet "offset" c options (listUsersApiV1AdminUsersGetInfiniteQueryKey (config c) options).
Definition createUserApiV1AdminUsersPostMutation (c : client_state W) (options : RequestOptions W) :=
  mutationOptions createUserApiV1AdminUsersPost c options.
Definition deleteUserApiV1AdminUsersUserIdDeleteMutation (c : client_state W) (options : RequestOptions W) :=
  mutationOptions deleteUserApiV1AdminUsersUserIdDelete c options.
Definition getUserApiV1AdminUsersUserIdGetOptions (c : client_state W) (options : RequestOptions W) :=
  queryOptions getUserApiV1AdminUsersUserIdGet c options (getUserApiV1AdminUsersUserIdGetQueryKey (config c) options).
Definition updateUserApiV1AdminUsersUserIdPutMutation (c : client_state W) (options : RequestOptions W) :=
  mutationOptions updateUserApiV1AdminUsersUserIdPut c options.
Definition getUserOverviewApiV1AdminUsersUserIdOverviewGetOptions (c : client_state W) (options : RequestOptions W) :=
  queryOptions getUserOverviewApiV1AdminUsersUserIdOverviewGet c options (getUserOverviewApiV1AdminUsersUserIdOverviewGetQueryKey (config c) options).
Definition resetUserPasswordApiV1AdminUsersUserIdResetPasswordPostMutation (c : client_state W) (options : RequestOptions W) :=
  mutationOptions resetUserPasswordApiV1AdminUsersUserIdResetPasswordPost c options.
Definition unlockUserApiV1AdminUsersUserIdUnlockPostMutation (c : client_state W) (options : RequestOptions W) :=
  mutationOptions unlockUserApiV1AdminUsersUserIdUnlockPost c options.
Definition getUserSettingsApiV1UserSettingsGetOptions (c : client_state W) (options : RequestOptions W) :=
  queryOptions getUserSettingsApiV1UserSettingsGet c options (getUserSettingsApiV1UserSettingsGetQueryKey (config c) options).
Definition updateUserSettingsApiV1UserSettingsPutMutation (c : client_state W) (options : RequestOptions W) :=
  mutationOptions updateUserSettingsApiV1UserSettingsPut c options.
Definition updateThemeApiV1UserSettingsThemePutMutation (c : client_state W) (options : RequestOptions W) :=
  mutationOptions updateThemeApiV1UserSettingsThemePut c options.
Definition updateNotificationSettingsApiV1UserSettingsNotificationsPutMutation (c : client_state W) (options : RequestOptions W) :=
  mutationOptions updateNotificationSettingsApiV1UserSettingsNotificationsPut c options.
Definition updateEditorSettingsApiV1UserSettingsEditorPutMutation (c : client_state W) (options : RequestOptions W) :=
  mutationOptions updateEditorSettingsApiV1UserSettingsEditorPut c options.
Definition getSettingsHistoryApiV1UserSettingsHistoryGetOptions (c : client_state W) (options : RequestOptions W) :=
  queryOptions getSettingsHistoryApiV1UserSettingsHistoryGet c options (getSettingsHistoryApiV1UserSettingsHistoryGetQueryKey (config c) options).
Definition restoreSettingsApiV1UserSettingsRestorePostMutation (c : client_state W) (options : RequestOptions W) :=
  mutationOptions restoreSettingsApiV1UserSettingsRestorePost c options.
Definition updateCustomSettingApiV1UserSettingsCustomKeyPutMutation (c : client_state W) (options : RequestOptions W) :=
  mutationOptions updateCustomSettingApiV1UserSettingsCustomKeyPut c options.
Definition getNotificationsApiV1NotificationsGetOptions (c : client_state W) (options : RequestOptions W) :=
  queryOptions getNotificationsApiV1NotificationsGet c options (getNotificationsApiV1NotificationsGetQueryKey (config c) options).
Definition getNotificationsApiV1NotificationsGetInfiniteOptions (c : client_state W) (options : RequestOptions W) :=
  infiniteQueryOptions getNotificationsApiV1NotificationsGet "offset" c options (getNotificationsApiV1NotificationsGetInfiniteQueryKey (config c) options).
Definition markNotificationReadApiV1NotificationsNotificationIdReadPutMutation (c : client_state W) (options : RequestOptions W) :=
  mutationOptions markNotificationReadApiV1NotificationsNotificationIdReadPut c options.
Definition markAllReadApiV1NotificationsMarkAllReadPostMutation (c : client_state W) (options : RequestOptions W) :=
  mutationOptions markAllReadApiV1NotificationsMarkAllReadPost c options.
Definition getUnreadCountApiV1NotificationsUnreadCountGetOptions (c : client_state W) (options : RequestOptions W) :=
  queryOptions getUnreadCountApiV1NotificationsUnreadCountGet c options (getUnreadCountApiV1NotificationsUnreadCountGetQueryKey (config c) options).
Definition deleteNotificationApiV1NotificationsNotificationIdDeleteMutation (c : client_state W) (options : RequestOptions W) :=
  mutationOptions deleteNotificationApiV1NotificationsNotificationIdDelete c options.
End functions.
