(* ===== verification/QueriesSpec.v ===== *)
(** * Queries: one key, one request

    What a query key identifies, that a query function performs the call its key
    was made from, and how queries and mutations settle. *)

From S2P Require Import Prelude JsString JsValue Json JsonSpec UrlBuilder Headers Interceptors Client ClientSpec.
From S2P Require Import Sdk Queries.

(** ** Keys *)

(** The key of every query function. *)
Definition query_keys {W} : list (RequestOptions W → RequestOptions W → QueryKey) := [
  (λ c o, getCurrentUserProfileApiV1AuthMeGetQueryKey c o);
  (λ c o, getResultApiV1ExecutionsExecutionIdResultGetQueryKey c o);
  (λ c o, getExecutionEventsApiV1ExecutionsExecutionIdEventsGetQueryKey c o);
  (λ c o, getUserExecutionsApiV1UserExecutionsGetQueryKey c o);
  (λ c o, getExampleScriptsApiV1ExampleScriptsGetQueryKey c o);
  (λ c o, getK8sResourceLimitsApiV1K8sLimitsGetQueryKey c o);
  (λ c o, listSavedScriptsApiV1ScriptsGetQueryKey c o);
  (λ c o, getSavedScriptApiV1ScriptsScriptIdGetQueryKey c o);
  (λ c o, livenessApiV1HealthLiveGetQueryKey c o);
  (λ c o, browseEventsApiV1AdminEventsBrowsePostQueryKey c o);
  (λ c o, getEventStatsApiV1AdminEventsStatsGetQueryKey c o);
  (λ c o, exportEventsApiV1AdminEventsExportExportFormatGetQueryKey c o);
  (λ c o, getEventDetailApiV1AdminEventsEventIdGetQueryKey c o);
  (λ c o, listExecutionsApiV1AdminExecutionsGetQueryKey c o);
  (λ c o, getQueueStatusApiV1AdminExecutionsQueueGetQueryKey c o);
  (λ c o, getDefaultRateLimitRulesApiV1AdminRateLimitsDefaultsGetQueryKey c o);
  (λ c o, getUserRateLimitsApiV1AdminRateLimitsUserIdGetQueryKey c o);
  (λ c o, getSystemSettingsApiV1AdminSettingsGetQueryKey c o);
  (λ c o, listUsersApiV1AdminUsersGetQueryKey c o);
  (λ c o, listUsersApiV1AdminUsersGetInfiniteQueryKey c o);
  (λ c o, getUserApiV1AdminUsersUserIdGetQueryKey c o);
  (λ c o, getUserOverviewApiV1AdminUsersUserIdOverviewGetQueryKey c o);
  (λ c o, getUserSettingsApiV1UserSettingsGetQueryKey c o);
  (λ c o, getSettingsHistoryApiV1UserSettingsHistoryGetQueryKey c o);
  (λ c o, getNotificationsApiV1NotificationsGetQueryKey c o);
  (λ c o, getNotificationsApiV1NotificationsGetInfiniteQueryKey c o);
  (λ c o, getUnreadCountApiV1NotificationsUnreadCountGetQueryKey c o)].

(** What tells the functions apart. *)
Definition key_name (k : QueryKey) : jstr * bool := (key_id k, key_infinite k).

Definition names {W} : list (jstr * bool) :=
  map (λ f : RequestOptions W → RequestOptions W → QueryKey, key_name (f no_request_options no_request_options))
    query_keys.

Lemma names_distinct {W} : NoDup (names (W := W)).
Proof. apply (bool_decide_unpack _). vm_compute. done. Qed.

(** Every function makes its key the same way, under its own name. *)
Lemma query_keys_made {W} (f : RequestOptions W → RequestOptions W → QueryKey) :
  f ∈ query_keys → ∀ c o,
  f c o = createQueryKey (key_name (f no_request_options no_request_options)).1 c o
            (key_name (f no_request_options no_request_options)).2 None.
Proof.
  revert f. rewrite <-Forall_forall. unfold query_keys. repeat (apply Forall_cons_2; [reflexivity|]). apply Forall_nil_2.
Qed.

Lemma key_name_made {W} (n : jstr * bool) (c o : RequestOptions W) t :
  key_name (createQueryKey n.1 c o n.2 t) = n.
Proof. by destruct n. Qed.

(** ** What a key identifies *)

(** TanStack Query stores an answer under the hash of its key, and its documentation says when two
    keys have the same: the order of the properties of an object does not matter, a property that is
    [undefined] is as good as none, and nothing else is ignored. [same_data] is that relation on
    values; numbers are the same when their values are. *)

(** [m * 10^e] and [m' * 10^e'] are equal. *)
Definition same_value (m e m' e' : Z) : Prop := (m * 10 ^ (e - Z.min e e') = m' * 10 ^ (e' - Z.min e e'))%Z.

(** A property that has a value. *)
Definition defined (k : jstr) (l : list (jstr * jsval)) : option jsval :=
  match obj_get k l with Some VUndefined => None | o => o end.

Inductive same_data : jsval → jsval → Prop :=
| same_null : same_data VNull VNull
| same_bool b : same_data (VBool b) (VBool b)
| same_num m e m' e' : same_value m e m' e' → same_data (VNum (Dec m e)) (VNum (Dec m' e'))
| same_str s : same_data (VStr s) (VStr s)
| same_arr l l' : Forall2 same_data l l' → same_data (VArr l) (VArr l')
| same_obj l l' :
    (∀ k, option_Forall2 same_data (defined k l) (defined k l')) → same_data (VObj l) (VObj l').

(** The keys the documentation speaks of, which can be written as JSON: JSON data, its numbers in
    whatever form, and properties that are [undefined]. *)
Inductive key_data : jsval → Prop :=
| key_null : key_data VNull
| key_bool b : key_data (VBool b)
| key_num m e : key_data (VNum (Dec m e))
| key_str s : wf_text s → key_data (VStr s)
| key_arr l : Forall key_data l → key_data (VArr l)
| key_obj l :
    NoDup (map fst l) →
    Forall (λ kv, wf_text kv.1 ∧ kv.1 ≠ ("__proto__"%js : jstr) ∧ (kv.2 = VUndefined ∨ key_data kv.2)) l →
    key_data (VObj l).

(** Options whose key can be written as JSON: their headers are not a [Headers] object. An empty
    base URL and a falsy body, which the key does not hold, are left out. *)
Record keyed {W} (c o : RequestOptions W) : Prop := {
  keyed_baseUrl : o_baseUrl o ≠ Some [] ∧ ∀ u, o_baseUrl (spread c o) = Some u → wf_text u;
  keyed_path : ∀ l, o_path o = Some l → key_data (VObj l);
  keyed_query : ∀ l, o_query o = Some l → key_data (VObj l);
  keyed_body : ∀ b, o_body o = Some b → truthy b = true ∧ key_data b;
  keyed_headers : ∀ h, o_headers o = Some h → ∃ l, h = HObject (VObj l) ∧ key_data (VObj l);
}.

(** The same base URL, path, query, body and headers. *)
Definition same_call {W} (c o c' o' : RequestOptions W) : Prop :=
  o_baseUrl (spread c o) = o_baseUrl (spread c' o')
  ∧ option_Forall2 same_data (VObj <$> o_path o) (VObj <$> o_path o')
  ∧ option_Forall2 same_data (VObj <$> o_query o) (VObj <$> o_query o')
  ∧ option_Forall2 same_data (o_body o) (o_body o')
  ∧ option_Forall2 same_data (headers_value <$> o_headers o) (headers_value <$> o_headers o').

(** The properties of the object in a key, by name. *)
Definition key_property (k : QueryKey) (name : jstr) : option jsval :=
  match key_value k with VArr [VObj l] => defined name l | _ => None end.

Definition key_names : list jstr :=
  ["_id"; "baseUrl"; "_infinite"; "tags"; "body"; "headers"; "path"; "query"].

Lemma obj_get_None {A} k (l : list (jstr * A)) : k ∉ map fst l → obj_get k l = None.
Proof.
  induction l as [|[k' v] r IH]; intros H; [done|]. apply not_elem_of_cons in H as [Hk H]. cbn [obj_get].
  rewrite (proj2 (jeqb_neq k k') Hk). by apply IH.
Qed.

Lemma set_property_names k v : Forall (λ kv, kv.1 = k) (set_property k v).
Proof. destruct v; repeat constructor. Qed.

(** The object of a key holds each of its properties under its name, and no others. *)
Lemma key_properties k :
  map (key_property k) key_names =
    [Some (VStr (key_id k)); VStr <$> key_baseUrl k; if key_infinite k then Some (VBool true) else None;
     VArr ∘ map VStr <$> key_tags k; match key_body k with Some VUndefined => None | b => b end;
     match headers_value <$> key_headers k with Some VUndefined => None | h => h end;
     VObj <$> key_path k; VObj <$> key_query k].
Proof. by destruct k as [id [u|] [] [t|] [b|] [h|] [p|] [q|]]. Qed.

Lemma key_property_other k name : name ∉ key_names → key_property k name = None.
Proof.
  intros H. unfold key_property, key_value, defined. rewrite obj_get_None; [done|].
  assert (∀ n v, n ∈ key_names → name ∉ map fst (set_property n v)) as Hs.
  { intros n [v|] Hn; cbn; [|apply not_elem_of_nil]. intros ->%list_elem_of_singleton. done. }
  rewrite !map_app, !not_elem_of_app. cbn [map fst].
  repeat split; try (apply Hs; apply (bool_decide_unpack _); by vm_compute).
  intros Hn. apply H. apply elem_of_cons in Hn as [-> | ->%list_elem_of_singleton];
    apply (bool_decide_unpack _); by vm_compute.
Qed.

Lemma same_key k k' :
  same_data (key_value k) (key_value k')
  ↔ Forall (λ name, option_Forall2 same_data (key_property k name) (key_property k' name)) key_names.
Proof.
  unfold key_value at 1 2. split.
  - intros H. inversion H as [| | | |? ? Hl|]; subst. inversion Hl as [|? ? ? ? Ho]; subst.
    inversion Ho as [| | | | |? ? Hk]; subst. apply Forall_forall. intros name _. apply Hk.
  - intros H. constructor. constructor; [|constructor]. constructor. intros name.
    change (option_Forall2 same_data (key_property k name) (key_property k' name)).
    destruct (decide (name ∈ key_names)) as [Hn|Hn]; [by rewrite Forall_forall in H; apply H|].
    rewrite !key_property_other by done. constructor.
Qed.

Lemma same_str_iff s s' : same_data (VStr s) (VStr s') ↔ s = s'.
Proof. split; [by inversion 1|intros ->; constructor]. Qed.

Lemma opt_same_iff {A B} (R : A → A → Prop) (f : B → A) (a b : option B) :
  (∀ x y, R (f x) (f y) ↔ x = y) → option_Forall2 R (f <$> a) (f <$> b) ↔ a = b.
Proof.
  intros H. split.
  - destruct a, b; inversion 1; subst; f_equal; by apply H.
  - intros ->. destruct b; constructor. by apply H.
Qed.

Lemma same_flag a b :
  option_Forall2 same_data (if a : bool then Some (VBool true) else None) (if b : bool then Some (VBool true) else None)
  ↔ a = b.
Proof. split; [destruct a, b; inversion 1; done|intros ->; destruct b; repeat constructor]. Qed.

(** What of the options goes into a key. *)
Lemma made_baseUrl {W} (c o : RequestOptions W) n :
  keyed c o → key_baseUrl (createQueryKey n.1 c o n.2 None) = o_baseUrl (spread c o).
Proof. intros [[Hb _] _ _ _ _]. cbn. by destruct (o_baseUrl o) as [[|x u]|]. Qed.

Lemma made_body {W} (c o : RequestOptions W) n :
  keyed c o → match key_body (createQueryKey n.1 c o n.2 None) with Some VUndefined => None | b => b end = o_body o.
Proof.
  intros [_ _ _ Hb _]. cbn. destruct (o_body o) as [b|]; [|done]. destruct (Hb b eq_refl) as [-> _].
  destruct (Hb b eq_refl) as [Ht _]. by destruct b.
Qed.

Lemma made_headers {W} (c o : RequestOptions W) n :
  keyed c o →
  match headers_value <$> key_headers (createQueryKey n.1 c o n.2 None) with Some VUndefined => None | h => h end
  = headers_value <$> o_headers o.
Proof.
  intros [_ _ _ _ Hh]. cbn. destruct (o_headers o) as [h|]; [|done]. by destruct (Hh h eq_refl) as (l & -> & _).
Qed.

Lemma Forall_map2 {A B} (R : B → B → Prop) (f g : A → B) l :
  Forall (λ x, R (f x) (g x)) l ↔ Forall2 R (map f l) (map g l).
Proof.
  induction l as [|x r IH]; cbn [map]; [split; constructor|]. by rewrite Forall_cons, Forall2_cons, IH.
Qed.

Lemma same_made {W} (c o c' o' : RequestOptions W) n n' :
  keyed c o → keyed c' o' →
  same_data (key_value (createQueryKey n.1 c o n.2 None)) (key_value (createQueryKey n'.1 c' o' n'.2 None))
  ↔ n = n' ∧ same_call c o c' o'.
Proof.
  intros K K'. rewrite same_key, (Forall_map2 (option_Forall2 same_data)), !key_properties.
  rewrite !made_body, !made_headers, !made_baseUrl by done. rewrite !Forall2_cons.
  cbn [key_id key_infinite key_tags key_path key_query createQueryKey].
  rewrite (opt_same_iff _ VStr) by apply same_str_iff. rewrite same_flag.
  assert (option_Forall2 same_data (Some (VStr n.1)) (Some (VStr n'.1)) ↔ n.1 = n'.1) as ->
    by (split; [inversion 1; by apply same_str_iff|intros ->; by repeat constructor]).
  assert (n = n' ↔ n.1 = n'.1 ∧ n.2 = n'.2) as -> by (destruct n, n'; cbn; naive_solver).
  assert (Forall2 (option_Forall2 same_data) [] []) by constructor.
  assert (option_Forall2 same_data (VArr ∘ map VStr <$> None) (VArr ∘ map VStr <$> None)) by constructor.
  unfold same_call. tauto.
Qed.

Lemma property_data k v : wf_text k ∧ k ≠ ("__proto__"%js : jstr) → (∀ x, v = Some x → key_data x) →
  Forall (λ kv, wf_text kv.1 ∧ kv.1 ≠ ("__proto__"%js : jstr) ∧ (kv.2 = VUndefined ∨ key_data kv.2)) (set_property k v).
Proof. intros [Hk Hp] Hv. destruct v as [x|]; constructor; [|constructor]. repeat split; auto. Qed.

Lemma set_property_sublist k v : map fst (set_property k v) `sublist_of` [k].
Proof. destruct v; [done|apply sublist_nil_l]. Qed.

Lemma key_names_distinct k :
  match key_value k with VArr [VObj l] => NoDup (map fst l) | _ => True end.
Proof.
  cbn [key_value]. apply (sublist_NoDup _ key_names); [apply (bool_decide_unpack _); by vm_compute|].
  rewrite !map_app. change key_names with (["_id"%js; "baseUrl"%js] ++ ["_infinite"%js] ++ ["tags"%js] ++ ["body"%js]
    ++ ["headers"%js] ++ ["path"%js] ++ ["query"%js] : list jstr).
  repeat apply sublist_app; try apply set_property_sublist. done.
Qed.

Lemma made_key_data {W} (c o : RequestOptions W) n :
  keyed c o → wf_text n.1 → key_data (key_value (createQueryKey n.1 c o n.2 None)).
Proof.
  intros K Hn. pose proof (made_baseUrl c o n K) as Hu. destruct K as [[_ Ku] Kp Kq Kb Kh].
  assert (∀ s, bool_decide (Forall (λ c, c < 65536)%N s ∧ s ≠ ("__proto__"%js : jstr)) = true →
    wf_text s ∧ s ≠ ("__proto__"%js : jstr)) as Hs by (intros s H; by apply bool_decide_eq_true in H).
  unfold key_value. apply key_arr. apply Forall_singleton, key_obj.
  - apply key_names_distinct.
  - repeat (apply Forall_app; split); try apply property_data; try (apply Hs; by vm_compute).
    + apply Forall_cons. split; [|apply Forall_singleton]; cbn [fst snd];
        (split; [apply Hs; by vm_compute|split; [apply Hs; by vm_compute|]]); [right; by constructor|].
      rewrite Hu. destruct (o_baseUrl (spread c o)) as [u|]; [right|by left]. constructor. by apply Ku.
    + cbn. destruct n.2; intros x [= <-]. constructor.
    + done.
    + cbn. destruct (o_body o) as [b|]; [|done]. destruct (Kb b eq_refl) as [Ht Hb]. rewrite Ht. by intros x [= <-].
    + cbn. destruct (o_headers o) as [h|]; [|done]. destruct (Kh h eq_refl) as (l & -> & Hl). by intros x [= <-].
    + cbn. destruct (o_path o) as [l|]; [|done]. intros x [= <-]. by apply Kp.
    + cbn. destruct (o_query o) as [l|]; [|done]. intros x [= <-]. by apply Kq.
Qed.
Lemma query_keys_named {W} (f : RequestOptions W → RequestOptions W → QueryKey) :
  f ∈ query_keys → wf_text (key_name (f no_request_options no_request_options)).1.
Proof.
  revert f. rewrite <-Forall_forall. unfold query_keys.
  repeat (apply Forall_cons_2; [by apply (bool_decide_unpack _); vm_compute|]). apply Forall_nil_2.
Qed.

(** C16. A cached answer is never another request's, and the same request finds it: for the hash
    of the query library, which its documentation describes, the keys two query functions of the
    SDK make hash alike exactly when they are the same function called with the same base URL, path,
    query, body and headers, up to the order of properties and the properties that are [undefined].
    The options are JSON data ([keyed]): there is no [Headers] object among them, nor an empty base
    URL or a falsy body, which a key does not hold. *)
Theorem query_key_identifies {W} (hashKey : jsval → jstr) i j (f g : RequestOptions W → RequestOptions W → QueryKey)
    c c' o o' :
  (∀ k k', key_data k → key_data k' → hashKey k = hashKey k' ↔ same_data k k') →
  query_keys !! i = Some f → query_keys !! j = Some g → keyed c o → keyed c' o' →
  hashKey (key_value (f c o)) = hashKey (key_value (g c' o')) ↔ i = j ∧ same_call c o c' o'.
Proof.
  intros Hhash Hf Hg K K'.
  pose proof (list_elem_of_lookup_2 _ _ _ Hf) as If. pose proof (list_elem_of_lookup_2 _ _ _ Hg) as Ig.
  rewrite (query_keys_made f If c o), (query_keys_made g Ig c' o').
  rewrite Hhash, same_made by (done || (apply made_key_data; [done|by apply query_keys_named])).
  f_equiv. split.
  - intros Hn. eapply NoDup_lookup; [apply (names_distinct (W := W))| |];
      unfold names; rewrite list_lookup_fmap; [by rewrite Hf|by rewrite Hg, Hn].
  - intros <-. rewrite Hf in Hg. by injection Hg as <-.
Qed.

(** The condition on headers is needed: a key has nothing of a [Headers] object. *)
Lemma headers_share_keys {W} h h' (c : RequestOptions W) :
  key_value (createQueryKey "listUsersApiV1AdminUsersGet" c
    (spread no_request_options (mkRequestOptions None None None None None None (Some (HHeaders h))
       None None None None None None None None None None None None)) false None)
  = key_value (createQueryKey "listUsersApiV1AdminUsersGet" c
    (spread no_request_options (mkRequestOptions None None None None None None (Some (HHeaders h'))
       None None None None None None None None None None None None)) false None).
Proof. reflexivity. Qed.

(** ** A hash

    One hash of the kind the documentation describes: the JSON text of the value, its numbers in
    their shortest form and its properties in an order that their names decide. *)

Definition shortest (m e : Z) : jsnum := normalize_dec (S (Z.to_nat (Z.log2 (Z.abs m)))) m e.

Lemma normalize_dec_shortens n m e :
  (m ≠ 0)%Z → (Z.log2 (Z.abs m) < Z.of_nat n)%Z →
  ∃ m' e', normalize_dec n m e = Dec m' e' ∧ (m' mod 10 ≠ 0)%Z ∧ (e ≤ e')%Z ∧ (m = m' * 10 ^ (e' - e))%Z.
Proof.
  revert m e. induction n as [|n IH]; intros m e Hm Hn; [pose proof (Z.log2_nonneg (Z.abs m)); lia|].
  cbn [normalize_dec]. rewrite (proj2 (Z.eqb_neq m 0) Hm). destruct (m mod 10 =? 0)%Z eqn:E.
  - pose proof (Z.div_mod m 10 ltac:(lia)) as Hd.
    destruct (IH (m / 10)%Z (e + 1)%Z) as (m' & e' & -> & H1 & H2 & H3); [lia| |].
    + enough (Z.log2 (Z.abs (m / 10)) < Z.log2 (Z.abs m))%Z by lia.
      assert (Z.log2 (2 * Z.abs (m / 10)) ≤ Z.log2 (Z.abs m))%Z as Hl by (apply Z.log2_le_mono; lia).
      rewrite Z.log2_double in Hl by lia. lia.
    + exists m', e'. split; [done|]. split; [done|]. split; [lia|].
      replace (e' - e)%Z with (Z.succ (e' - (e + 1)))%Z by lia. rewrite Z.pow_succ_r by lia. lia.
  - exists m, e. split; [done|]. split; [lia|]. split; [lia|]. rewrite Z.sub_diag. lia.
Qed.

Lemma shortest_spec m e :
  (m ≠ 0)%Z →
  ∃ m' e', shortest m e = Dec m' e' ∧ (m' mod 10 ≠ 0)%Z ∧ (e ≤ e')%Z ∧ (m = m' * 10 ^ (e' - e))%Z.
Proof.
  intros Hm. apply normalize_dec_shortens; [done|]. pose proof (Z.log2_nonneg (Z.abs m)). lia.
Qed.

Lemma shortest_zero e : shortest 0 e = Dec 0 0.
Proof. reflexivity. Qed.

Lemma shortest_canonical m e : ∃ m' e', shortest m e = Dec m' e' ∧ canonical m' e'.
Proof.
  destruct (Z.eq_dec m 0%Z) as [->|Hm]; [exists 0%Z, 0%Z; split; [done|by left]|].
  destruct (shortest_spec m e Hm) as (m' & e' & H & Hm' & _). exists m', e'. split; [done|by right].
Qed.

(** Two decimals without trailing zeros and with one value are the same. *)
Lemma decimals_unique m m' a b :
  (m mod 10 ≠ 0 → m' mod 10 ≠ 0 → 0 ≤ a → 0 ≤ b → m * 10 ^ a = m' * 10 ^ b → m = m' ∧ a = b)%Z.
Proof.
  assert (∀ m m' a b, m mod 10 ≠ 0 → 0 ≤ a → a < b → m * 10 ^ a = m' * 10 ^ b → False)%Z as Hlt.
  { intros x y i j Hx Hi Hij E. apply Hx. replace j with (i + Z.succ (j - i - 1))%Z in E by lia.
    rewrite Z.pow_add_r, Z.pow_succ_r in E by lia.
    assert (x = 10 ^ (j - i - 1) * y * 10)%Z as -> by (pose proof (Z.pow_pos_nonneg 10 i ltac:(lia) Hi); nia).
    by apply Z.mod_mul. }
  intros Hm Hm' Ha Hb E. destruct (Z.lt_trichotomy a b) as [H|[->|H]].
  - by destruct (Hlt m m' a b).
  - split; [|done]. pose proof (Z.pow_pos_nonneg 10 b ltac:(lia) Hb). nia.
  - by destruct (Hlt m' m b a).
Qed.

Lemma shortest_same m e m' e' : shortest m e = shortest m' e' ↔ same_value m e m' e'.
Proof.
  unfold same_value. set (k := Z.min e e').
  assert (0 < 10 ^ (e - k))%Z as P by (apply Z.pow_pos_nonneg; lia).
  assert (0 < 10 ^ (e' - k))%Z as P' by (apply Z.pow_pos_nonneg; lia).
  destruct (Z.eq_dec m 0%Z) as [->|Hm], (Z.eq_dec m' 0%Z) as [->|Hm'].
  - by rewrite !shortest_zero.
  - destruct (shortest_spec m' e' Hm') as (x & y & -> & Hx & _). rewrite shortest_zero. split; [by intros [= <- _]|nia].
  - destruct (shortest_spec m e Hm) as (x & y & -> & Hx & _). rewrite shortest_zero. split; [by intros [= -> _]|nia].
  - destruct (shortest_spec m e Hm) as (x & y & -> & Hx & Hy & ->).
    destruct (shortest_spec m' e' Hm') as (x' & y' & -> & Hx' & Hy' & ->).
    rewrite <-!Z.mul_assoc, <-!Z.pow_add_r by lia.
    replace (y - e + (e - k))%Z with (y - k)%Z by lia. replace (y' - e' + (e' - k))%Z with (y' - k)%Z by lia. split.
    + by intros [= -> ->].
    + intros E. destruct (decimals_unique x x' (y - k) (y' - k)) as [-> Hk]; [done|done|lia|lia|done|]. f_equal. lia.
Qed.

Fixpoint sorted_value (v : jsval) : jsval :=
  match v with
  | VNum (Dec m e) => VNum (shortest m e)
  | VArr l => VArr (map sorted_value l)
  | VObj l =>
      VObj (map_to_list (list_to_map
        (flat_map (λ kv, if is_undefined kv.2 then [] else [(kv.1, sorted_value kv.2)]) l) : gmap jstr jsval))
  | _ => v
  end.

Definition sorted_hash (v : jsval) : jstr := json_text (sorted_value v).

Definition sorted_members (l : list (jstr * jsval)) : gmap jstr jsval :=
  list_to_map (flat_map (λ kv, if is_undefined kv.2 then [] else [(kv.1, sorted_value kv.2)]) l).

Lemma sorted_members_lookup l k :
  NoDup (map fst l) → sorted_members l !! k = sorted_value <$> defined k l.
Proof.
  unfold sorted_members, defined. induction l as [|[k' v] r IH]; intros Hl; [apply lookup_empty|].
  apply NoDup_cons in Hl as [Hk Hl]. cbn [flat_map obj_get fst snd].
  destruct (k =js k') eqn:E; [apply jeqb_eq in E as <-|apply jeqb_neq in E].
  - destruct v; cbn [is_undefined app list_to_map foldr fst snd]; try by rewrite lookup_insert_eq.
    rewrite IH, obj_get_None by done. done.
  - rewrite <-IH by done. destruct (is_undefined v); [done|]. cbn [app list_to_map foldr fst snd].
    by rewrite lookup_insert_ne by congruence.
Qed.

Lemma defined_elem k l v : defined k l = Some v → v ≠ VUndefined ∧ (k, v) ∈ l.
Proof.
  unfold defined. intros H. assert (obj_get k l = Some v ∧ v ≠ VUndefined) as [G Hv]
    by (destruct (obj_get k l) as [[]|]; naive_solver).
  split; [done|]. clear H Hv. induction l as [|[k' w] r IH]; [done|]. cbn [obj_get] in G.
  destruct (k =js k') eqn:E; [apply jeqb_eq in E as <-; injection G as ->; left|right; auto].
Qed.

Lemma member_data k l v : key_data (VObj l) → defined k l = Some v → key_data v.
Proof.
  inversion 1 as [| | | | |? Hl Kl]; subst. intros [Hv Hk]%defined_elem. rewrite Forall_forall in Kl.
  destruct (Kl _ Hk) as (_ & _ & [E|E]); [by destruct Hv|done].
Qed.

Lemma key_data_arr l : key_data (VArr l) → Forall key_data l.
Proof. by inversion 1. Qed.

Lemma key_data_nodup l : key_data (VObj l) → NoDup (map fst l).
Proof. by inversion 1. Qed.

Definition agrees (v : jsval) : Prop :=
  ∀ v', key_data v → key_data v' → sorted_value v = sorted_value v' ↔ same_data v v'.

Lemma agrees_arr l : Forall agrees l → agrees (VArr l).
Proof.
  intros Hl v' Kl%key_data_arr Kv'.
  assert (∀ l', Forall key_data l' → map sorted_value l = map sorted_value l' ↔ Forall2 same_data l l') as Hm.
  { clear v' Kv'. induction Hl as [|x r Hx _ IH]; intros [|y l'] Kl'; try (by split; inversion 1).
    apply Forall_cons in Kl as [Kx Kr], Kl' as [Ky Kl']. rewrite Forall2_cons, <-(IH Kr l' Kl'), <-(Hx y Kx Ky).
    cbn [map]. split; [by intros [= ? ?]|by intros [-> ->]]. }
  split.
  - destruct v' as [| | |[]| | | | | | | |l'| |]; try done. cbn [sorted_value]. intros [= E]. constructor.
    apply Hm; [by apply key_data_arr|done].
  - inversion 1 as [| | | |? l' H2|]; subst. cbn [sorted_value]. f_equal. apply Hm; [by apply key_data_arr|done].
Qed.

Lemma agrees_obj l : Forall (λ kv, agrees kv.2) l → agrees (VObj l).
Proof.
  intros Hl v' Kl Kv'.
  assert (∀ l', key_data (VObj l') →
    sorted_members l = sorted_members l' ↔ ∀ k, option_Forall2 same_data (defined k l) (defined k l')) as Hm.
  { intros l' Kl'. rewrite map_eq_iff. apply forall_proper. intros k.
    rewrite !sorted_members_lookup by (by apply key_data_nodup).
    destruct (defined k l) as [x|] eqn:Ex, (defined k l') as [y|] eqn:Ey; cbn.
    - assert (agrees x) as Hx by (rewrite Forall_forall in Hl; apply (Hl (k, x)); by apply defined_elem).
      specialize (Hx y (member_data _ _ _ Kl Ex) (member_data _ _ _ Kl' Ey)).
      split; [intros [= E]; constructor; by apply Hx|inversion 1; f_equal; by apply Hx].
    - split; [done|inversion 1].
    - split; [done|inversion 1].
    - split; [constructor|done]. }
  split.
  - destruct v' as [| | |[]| | | | | | | | |l'|]; try done. cbn [sorted_value]. intros [= E]. constructor.
    apply Hm; [done|]. apply map_to_list_inj. unfold sorted_members. by rewrite E.
  - inversion 1 as [| | | | |? l' H2]; subst. apply (Hm l' Kv') in H2. unfold sorted_members in H2.
    cbn [sorted_value]. by rewrite H2.
Qed.

Lemma agrees_num n : agrees (VNum n).
Proof.
  intros v' Kv Kv'. inversion Kv; subst. split.
  - destruct v' as [| | |n| | | | | | | | | |]; try done. inversion Kv'; subst. cbn [sorted_value].
    intros [= E]. constructor. by apply shortest_same.
  - inversion 1; subst. cbn [sorted_value]. f_equal. by apply shortest_same.
Qed.

Lemma sorted_same v : agrees v.
Proof.
  induction v using jsval_nested_ind; try (by apply agrees_arr); try (by apply agrees_obj); try (by apply agrees_num);
    intros v' Kv Kv'; try (by exfalso; inversion Kv);
    (split; [destruct v' as [| | |[]| | | | | | | | | |]; try done; by (intros [= <-] || intros _); constructor
            |by inversion 1]).
Qed.

Lemma sorted_data v : key_data v → JsonSpec.json_data (sorted_value v).
Proof.
  induction v using jsval_nested_ind; intros Kv; inversion Kv; subst; try done; cbn [sorted_value].
  - by destruct (shortest_canonical m e) as (m' & e' & -> & Hc).
  - apply json_data_arr. apply Forall_map. rewrite Forall_forall in *. auto.
  - apply json_data_obj. split; [apply NoDup_fst_map_to_list|]. apply Forall_forall. intros [k x] Hk.
    apply elem_of_map_to_list in Hk. fold (sorted_members l) in Hk. rewrite sorted_members_lookup in Hk by done.
    apply fmap_Some in Hk as (y & Hy & ->). cbn [fst snd]. pose proof (defined_elem _ _ _ Hy) as [_ Hin].
    rewrite Forall_forall in H, H2. split; [by apply (H2 _ Hin)|]. apply (H _ Hin). by apply (member_data _ _ _ Kv Hy).
Qed.

Lemma sorted_hash_same k k' : key_data k → key_data k' → sorted_hash k = sorted_hash k' ↔ same_data k k'.
Proof.
  intros K K'. rewrite <-(sorted_same k k' K K'). unfold sorted_hash. split; [|by intros ->].
  intros E. apply (f_equal JSON_parse) in E. rewrite !JSON_parse_text in E by (by apply sorted_data). by injection E.
Qed.

(** ** Requests *)

Section requests.
Context {W : Type}.
Context (global_fetch : Request → M W jsval Response).
Context (btoa : jstr → option jstr) (valid_url : jstr → bool).
Context (request_fn : nat → Request → RequestOptions W → M W jsval Request).
Context (response_fn : nat → Response → Request → RequestOptions W → M W jsval Response).
Context (error_fn : nat → jsval → option Response → option Request → RequestOptions W → M W jsval jsval).

Local Abbreviation request := (request global_fetch btoa valid_url request_fn response_fn error_fn).
Local Abbreviation attempt_request := (attempt_request global_fetch btoa valid_url request_fn response_fn).
Local Abbreviation sdk_call := (sdk_call global_fetch btoa valid_url request_fn response_fn error_fn).
Local Abbreviation call_data := (call_data global_fetch btoa valid_url request_fn response_fn error_fn).
Local Abbreviation queryFn := (queryFn global_fetch btoa valid_url request_fn response_fn error_fn).
Local Abbreviation mutationFn := (mutationFn global_fetch btoa valid_url request_fn response_fn error_fn).

(** The options a call passes on to [request]. *)
Definition passed (e : Endpoint) (o : RequestOptions W) : RequestOptions W :=
  set_method (ep_method e) (sdk_options e o).

(** An attempt sees its options through the configuration, and their headers. *)
Lemma attempt_options c a b v :
  spread (config c) a = spread (config c) b → o_headers a = o_headers b →
  attempt_request c a v = attempt_request c b v.
Proof. intros Hs Hh. unfold Client.attempt_request, beforeRequest. by rewrite Hs, Hh. Qed.

Lemma passed_set_baseUrl e u o : passed e (set_baseUrl u o) = set_baseUrl u (passed e o).
Proof.
  destruct o. unfold passed, sdk_options, with_headers. destruct (ep_contentType e); cbn -[over]; destruct u; reflexivity.
Qed.

Lemma spread_set_baseUrl a u (o : RequestOptions W) :
  spread a (set_baseUrl u o) = set_baseUrl (over (o_baseUrl a) u) (spread a o).
Proof. done. Qed.

(** The key gives back the options it was made from, but for the base URL it adds. *)
Lemma query_options_key (o c : RequestOptions W) id inf :
  (∀ b, o_body o = Some b → truthy b = true) →
  query_options o (createQueryKey id c o inf None)
  = set_baseUrl (over (o_baseUrl o) (key_baseUrl (createQueryKey id c o inf None))) (spread o throwing).
Proof.
  intros Hbody. destruct o as [base url m p q body h]. cbn in Hbody.
  assert (match body with Some b => if truthy b then Some b else None | None => None end = body) as Hb.
  { destruct body as [b|]; [by rewrite (Hbody b eq_refl)|reflexivity]. }
  unfold query_options, createQueryKey. cbn -[over]. rewrite Hb.
  destruct p, q, body, h; reflexivity.
Qed.

(** C36. A query performs the call it was made for: with options whose base URL is not empty and
    whose body is not a falsy value, the query function, given the key made from them, builds and
    sends the same request, and treats the response the same way, as the function of the SDK called
    with these options and [throwOnError]. *)
Theorem query_is_call e id inf (c : client_state W) o v :
  o_baseUrl o ≠ Some [] → (∀ b, o_body o = Some b → truthy b = true) →
  attempt_request c (passed e (query_options o (createQueryKey id (config c) o inf None))) v
  = attempt_request c (passed e (spread o throwing)) v.
Proof.
  intros Hbase Hbody. rewrite query_options_key by done. apply attempt_options; rewrite passed_set_baseUrl; [|done].
  rewrite spread_set_baseUrl. assert (∀ u x : RequestOptions W, o_baseUrl x = o_baseUrl u → set_baseUrl (o_baseUrl u) x = x) as Hset
    by (by intros u [] <-).
  rewrite <-(Hset (spread (config c) (passed e (spread o throwing))) (spread (config c) (passed e (spread o throwing)))) by done.
  unfold set_baseUrl. f_equal.
  assert (o_baseUrl (passed e (spread o throwing)) = o_baseUrl o) as Hp.
  { unfold passed, sdk_options, with_headers. destruct (ep_contentType e); cbn; by destruct (o_baseUrl o). }
  cbn [o_baseUrl spread]. rewrite Hp. unfold createQueryKey. cbn [key_baseUrl].
  destruct (o_baseUrl o) as [[|x u]|], (o_baseUrl (config c)); done.
Qed.

Lemma request_throwing c o w w' r :
  o_throwOnError o = Some true → request c o w = (w', Return r) →
  ∃ v, attempt_request c o (mkVars w None None) = (v, Return r) ∧ w' = world v.
Proof.
  intros Ho. unfold Client.request, catch. destruct (attempt_request c o _) as [v [x|x]]; [intros [= <- <-]; eauto|].
  unfold handle_error, bind. destruct (run_error_fns _ _ _ _ _) as [v' [x'|x']]; [|done].
  rewrite Ho. destruct (o_throwOnError (config c)); done.
Qed.

Lemma attempt_ok c o v v' r :
  attempt_request c o v = (v', Return r) → default false (o_responseStyle (spread (config c) o)) = false →
  ∃ d q p, r = RFields d q p ∧ s_ok p = true.
Proof.
  unfold Client.attempt_request. intros H Hstyle. apply bind_Return in H as (v1 & b & Hb & H).
  assert (default false (o_responseStyle (opts b)) = false) as Hs.
  { unfold in_world in Hb. destruct (beforeRequest _ _ _ _) as [w [b'|e]] eqn:E; [|done]. injection Hb as _ <-.
    unfold beforeRequest in E. repeat (apply bind_Return in E as (? & ? & _ & E)). by injection E as _ <-. }
  repeat (apply bind_Return in H as (? & ? & _ & H)). destruct (s_ok _) eqn:Hok.
  - apply bind_Return in H as (? & ? & _ & [= _ <-]). unfold with_style. rewrite Hs. eauto.
  - by apply bind_Return in H as (? & ? & _ & ?).
Qed.

Definition plain_style (c : client_state W) (o : RequestOptions W) : Prop :=
  default false (o_responseStyle (spread (config c) o)) = false.

(** How a call of a query or mutation function settles, in terms of the function of the SDK. *)
Definition settles_as (e : Endpoint) (c : client_state W) (o : RequestOptions W) (w : W) (out : W * outcome jsval jsval)
  : Prop :=
  match out.2 with
  | Return d => ∃ q p, sdk_call e c o w = (out.1, Return (RFields d q p)) ∧ s_ok p = true
  | Throw err => sdk_call e c o w = (out.1, Throw err)
  end.

Lemma call_data_settles e c o w :
  o_throwOnError o = Some true → plain_style c o → settles_as e c o w (call_data e c o w).
Proof.
  intros Ho Hstyle. unfold settles_as, Queries.call_data, bind.
  destruct (sdk_call e c o w) as [w' [r|err]] eqn:E; [|done].
  unfold Sdk.sdk_call, makeMethodFn in E. fold (passed e o) in E.
  assert (o_throwOnError (passed e o) = Some true) as Ht.
  { unfold passed, sdk_options, with_headers. destruct (ep_contentType e); cbn; by rewrite Ho. }
  assert (o_responseStyle (passed e o) = o_responseStyle o) as Hrs.
  { unfold passed, sdk_options, with_headers. destruct (ep_contentType e); cbn; by destruct (o_responseStyle o). }
  apply request_throwing in E as (v & E & ->); [|done]. apply attempt_ok in E as (d & q & p & -> & Hp).
  - cbn. eauto.
  - unfold plain_style in Hstyle. cbn in *. by rewrite Hrs.
Qed.

(** C4. Queries and mutations answer only with the data of a response that is ok: whenever the
    function of one returns, the client's call returned that data with such a response, and every
    other way it ends is a rejection with the client's error, so no failure is cached as an answer. *)
Theorem queries_answer_ok e (c : client_state W) o fnOptions k w :
  plain_style c (query_options o k) → plain_style c (mutation_options o fnOptions) →
  settles_as e c (query_options o k) w (queryFn e c o k w)
  ∧ settles_as e c (mutation_options o fnOptions) w (mutationFn e c o fnOptions w).
Proof. intros H1 H2. split; by apply call_data_settles. Qed.
End requests.

(** ** Concrete queries *)

Definition user_options : RequestOptions nat :=
  mkRequestOptions None None None (Some [("user_id"%js, VStr "u1")]) None (Some (VObj [])) None None None None None
    None None None None None None None None.

Definition list_options (query : list (jstr * jsval)) : RequestOptions nat :=
  mkRequestOptions None None None None (Some query) None None None None None None None None None None None None None
    None.

Lemma list_options_keyed c query :
  o_baseUrl c = None → key_data (VObj query) → keyed (W := nat) c (list_options query).
Proof.
  intros Hc Hq. split; try done; cbn; [by rewrite Hc|]. by intros l [= <-].
Qed.

Lemma query_key_identifies_witness :
  let f c o := listUsersApiV1AdminUsersGetQueryKey (W := nat) c o in
  let g c o := listUsersApiV1AdminUsersGetInfiniteQueryKey (W := nat) c o in
  let first := list_options [("limit"%js, VInt 10); ("search"%js, VUndefined); ("role"%js, VStr "admin")] in
  let again := list_options [("role"%js, VStr "admin"); ("limit"%js, VInt 10)] in
  let next := list_options [("role"%js, VStr "admin"); ("limit"%js, VInt 20)] in
  let c := no_request_options in
  (sorted_hash (key_value (f c first)) = sorted_hash (key_value (f c again)) ↔ 18 = 18 ∧ same_call c first c again)
  ∧ (sorted_hash (key_value (f c first)) = sorted_hash (key_value (f c next)) ↔ 18 = 18 ∧ same_call c first c next)
  ∧ (sorted_hash (key_value (f c first)) = sorted_hash (key_value (g c first)) ↔ 18 = 19 ∧ same_call c first c first)
  ∧ sorted_hash (key_value (f c first)) = sorted_hash (key_value (f c again))
  ∧ sorted_hash (key_value (f c first)) ≠ sorted_hash (key_value (f c next))
  ∧ sorted_hash (key_value (f c first)) ≠ sorted_hash (key_value (g c first)).
Proof.
  intros f g first again next c.
  assert (keyed c first ∧ keyed c again ∧ keyed c next) as (K1 & K2 & K3).
  { assert (∀ s : jstr, bool_decide (Forall (λ c, c < 65536)%N s) = true → wf_text s) as Hs
      by (intros s H; by apply bool_decide_eq_true in H).
    split; [|split]; apply list_options_keyed; try done; apply key_obj;
      try (apply (bool_decide_unpack _); by vm_compute);
      repeat (apply Forall_cons_2); try apply Forall_nil_2;
      (split; [apply Hs; by vm_compute|split; [done|]]); try (by left); right;
      (apply key_str, Hs; by vm_compute) || apply key_num. }
  split; [|split; [|split; [|split; [|split]]]].
  - by apply (query_key_identifies sorted_hash 18 18 f f c c first again sorted_hash_same).
  - by apply (query_key_identifies sorted_hash 18 18 f f c c first next sorted_hash_same).
  - by apply (query_key_identifies sorted_hash 18 19 f g c c first first sorted_hash_same).
  - by vm_compute.
  - by vm_compute.
  - by vm_compute.
Defined.

Lemma query_is_call_witness :
  attempt_request (counting_fetch (json_response 200 "{}")) (λ _, None) (λ _, true) no_request_fn no_response_fn
    example_client
    (passed getUserApiV1AdminUsersUserIdGet
       (query_options user_options (getUserApiV1AdminUsersUserIdGetQueryKey (config example_client) user_options)))
    (mkVars 0 None None)
  = attempt_request (counting_fetch (json_response 200 "{}")) (λ _, None) (λ _, true) no_request_fn no_response_fn
      example_client (passed getUserApiV1AdminUsersUserIdGet (spread user_options throwing)) (mkVars 0 None None).
Proof. apply query_is_call; [done|by intros b [= <-]]. Defined.

Lemma queries_answer_ok_witness :
  let fetch := counting_fetch (json_response 500 "{}") in
  let k := getUserApiV1AdminUsersUserIdGetQueryKey (config example_client) user_options in
  settles_as fetch (λ _, None) (λ _, true) no_request_fn no_response_fn no_error_fn getUserApiV1AdminUsersUserIdGet
    example_client (query_options user_options k) 0
    (queryFn fetch (λ _, None) (λ _, true) no_request_fn no_response_fn no_error_fn getUserApiV1AdminUsersUserIdGet
       example_client user_options k 0)
  ∧ settles_as fetch (λ _, None) (λ _, true) no_request_fn no_response_fn no_error_fn getUserApiV1AdminUsersUserIdGet
    example_client (mutation_options user_options user_options) 0
    (mutationFn fetch (λ _, None) (λ _, true) no_request_fn no_response_fn no_error_fn getUserApiV1AdminUsersUserIdGet
       example_client user_options user_options 0).
Proof. intros fetch k. by apply queries_answer_ok. Defined.
