(* ===== verification/ApiErrors.v ===== *)
(** * Errors and CSRF: the application's interceptors

    Models [lib/api-interceptors.ts] (the error and request interceptors, and
    what the user sees of an error) and [lib/query-client.ts] (which failures a
    query retries, and who is told of one). *)

From S2P Require Import Prelude JsString JsValue Json UrlBuilder Headers Interceptors Client Zod.
From S2P Require Import ApiSchemas SchemaSpec.

Open Scope js_monad_scope.

(** ** Errors *)

Record ErrorResponse := mkErrorResponse {
  status : Z;
  detail : jstr;
}.

#[export] Instance ErrorResponse_eq_dec : EqDecision ErrorResponse.
Proof. solve_decision. Defined.

(** The object an [ErrorResponse] is, in the client's data. *)
Definition error_value (e : ErrorResponse) : jsval :=
  VObj [("status"%js, VInt (status e)); ("detail"%js, VStr (detail e))].

(** ** What the user sees *)

Inductive toast_kind := ToastError | ToastWarning.

(** The calls that show an error or act on it. *)
Inductive ui_call :=
| Toast (kind : toast_kind) (message : jstr) (id : option jstr)
| ClearQueries    (* [queryClient.clear()] *)
| RefreshAll.     (* [refreshAll()] *)

#[export] Instance toast_kind_eq_dec : EqDecision toast_kind.
Proof. solve_decision. Defined.
#[export] Instance ui_call_eq_dec : EqDecision ui_call.
Proof. solve_decision. Defined.

Definition STATUS_MESSAGES (status : Z) : option (jstr * toast_kind) :=
  if (status =? 403)%Z then Some ("Access denied."%js, ToastError)
  else if (status =? 423)%Z then
    Some ("Your account has been temporarily locked due to too many failed login attempts. Please try again later."%js, ToastWarning)
  else if (status =? 429)%Z then Some ("Too many requests. Please slow down."%js, ToastWarning)
  else None.

(** [signed_in] is [page.data.user]. *)
Definition handle401 (signed_in : bool) : list ui_call :=
  if negb signed_in then []
  else [Toast ToastWarning "Session expired. Please log in again." (Some "session-expired"%js);
        ClearQueries; RefreshAll].

Definition showApiError (signed_in : bool) (e : ErrorResponse) (inlineErrors : bool) : list ui_call :=
  if (status e =? 401)%Z then if negb inlineErrors then handle401 signed_in else []
  else match STATUS_MESSAGES (status e) with
       | Some (message, kind) => [Toast kind message None]
       | None =>
           if (status e =? 422)%Z then [Toast ToastError ("Validation error: " ++ detail e) None]
           else if (500 <=? status e)%Z then [Toast ToastError "Server error. Please try again later." None]
           else if negb inlineErrors then [Toast ToastError (detail e) None]
           else []
       end.

(** ** [query-client.ts] *)

Definition MAX_RETRIES : nat := 2.

(** [failures] is how many times the query has failed before. *)
Definition retry (failures : nat) (error : ErrorResponse) : bool :=
  (failures <? MAX_RETRIES)%nat && ((status error =? 0)%Z || (500 <=? status error)%Z).

(** The handler that [setQueryErrorHandler] installs is told of a failed query, and of a failed
    mutation with the form's wish to show the error itself. *)
Definition error_handler : Type := ErrorResponse → bool → list ui_call.
Definition no_handler : error_handler := λ _ _, [].
Definition query_onError (handleError : error_handler) (e : ErrorResponse) : list ui_call := handleError e false.
Definition mutation_onError (handleError : error_handler) (e : ErrorResponse) (inlineErrors : option bool)
  : list ui_call :=
  handleError e (match inlineErrors with Some b => b | None => false end).

(** ** The interceptors *)

(** The search for the token in the cookies: the name at the start of the text, or after a semicolon
    and blanks; the value is what follows it up to a semicolon. *)
Definition csrf_name : jstr := "csrf_token=".
Definition csrf_at (s : jstr) : option jstr :=
  if startsWith csrf_name s then Some (take_while (λ c, negb (c =? 59)%N) (drop (length csrf_name) s))
  else None.

(** The matches that start with a semicolon, from the left. *)
Fixpoint csrf_scan (s : jstr) : option jstr :=
  match s with
  | [] => None
  | c :: r => match (if (c =? 59)%N then csrf_at (trim_start r) else None) with
              | Some t => Some t
              | None => csrf_scan r
              end
  end.

Definition csrf_token (cookie : jstr) : option jstr :=
  match csrf_at cookie with Some t => Some t | None => csrf_scan cookie end.

Section interceptors.
Context {zod : Zod} {W : Type}.
(** [document.cookie]; the logger, whose lines say whether they are errors. *)
Context (cookie : W → jstr) (log : bool → jstr → jstr → ErrorResponse → W → W).

Definition response_error_of (response : option Response) : ErrorResponse :=
  match response with
  | Some r => mkErrorResponse (s_status r) ("HTTP " ++ string_of_Z (s_status r))
  | None => mkErrorResponse 0 "Network error. Check your connection."
  end.

(** [problem.data] read as an [ErrorResponse]. *)
Definition error_of_value (v : jsval) : option ErrorResponse :=
  match prop "status" v, prop "detail" v with
  | VNum (Dec m e), VStr d => Some (mkErrorResponse (m * 10 ^ e) d)
  | _, _ => None
  end.

(** What the error becomes: the value zod answers, or the substitute. *)
Definition normalize_error (error : jsval) (response : option Response) : jsval :=
  match safeParse zErrorResponse error with
  | Some data => data
  | None => error_value (response_error_of response)
  end.

Definition error_interceptor (error : jsval) (response : option Response) (request : option Request)
    (opts : RequestOptions W) : M W jsval jsval :=
  let failure := normalize_error error response in
  let e := default (response_error_of response) (error_of_value failure) in
  let method := match request with Some q => r_method q | None => default [] (o_method opts) end in
  let url := match request with Some q => r_url q | None => default [] (o_url opts) end in
  do! modify (log ((status e =? 0)%Z || (500 <=? status e)%Z) method url e) in ret failure.

Definition csrf_interceptor (request : Request) (opts : RequestOptions W) : M W jsval Request :=
  fun w =>
    match csrf_token (cookie w) with
    | Some (c :: t) =>
        if r_method request =js "GET" then (w, Return request)
        else match headers_set "X-CSRF-Token" (c :: t) (r_headers request) with
             | Return h => (w, Return (mkRequest (r_method request) (r_url request) h (r_body request)
                                         (r_credentials request)))
             | Throw e => (w, Throw e)
             end
    | _ => (w, Return request)
    end.

(** The one interceptor of each kind, as the client's functions of number 0. *)
Definition api_request_fn (n : nat) : Request → RequestOptions W → M W jsval Request := csrf_interceptor.
Definition api_error_fn (n : nat)
  : jsval → option Response → option Request → RequestOptions W → M W jsval jsval := error_interceptor.
Definition api_response_fn (n : nat) (r : Response) (q : Request) (o : RequestOptions W)
  : M W jsval Response := ret r.

Definition api_config : RequestOptions W :=
  mkRequestOptions (Some []) None None None None None None (Some "include"%js) None None None None None
    None None None None None None.

(** The client and the handler after [initializeApiInterceptors]. *)
Definition initializeApiInterceptors (signed_in : bool) (c : client_state W)
  : outcome jsval (client_state W * error_handler) :=
  c ← setConfig c api_config;
  Return (mkClient (config c) (use (request_fns c) 0).1 (response_fns c) (use (error_fns c) 0).1,
          showApiError signed_in).
End interceptors.
