(* ===== verification/ApiErrorsSpec.v ===== *)
(** * Errors and CSRF: what the application relies on

    Every failure of a call is an [ErrorResponse], shown once and retried only
    when that can help; every request that may change something carries the
    token of the CSRF cookie, which is read exactly. *)

From S2P Require Import Prelude JsString JsValue Json UrlBuilder Headers Interceptors Client ClientSpec.
From S2P Require Import ApiEnums Zod ApiTypes ApiSchemas SchemaSpec ApiErrors.

(** ** Retries *)

(** The errors of the attempts of one query, when it is tried again only as [retry] says. *)
Definition attempts (errors : list ErrorResponse) : Prop :=
  ∀ i e, errors !! i = Some e → S i < length errors → retry i e = true.

(** A query is tried at most three times, and only a network error or a server error is tried
    again: each failure but the last is one, and whatever is retried has status 0 or at least 500,
    so that no answer of 4xx ever is. *)
Theorem retries_bounded errors :
  attempts errors →
  length errors ≤ S MAX_RETRIES
  ∧ ∀ i e, errors !! i = Some e → S i < length errors → status e = 0%Z ∨ (500 <= status e)%Z.
Proof.
  intros H. assert (∀ i e, errors !! i = Some e → S i < length errors →
    i < MAX_RETRIES ∧ (status e = 0%Z ∨ (500 <= status e)%Z)) as Hr.
  { intros i e Hi Hlt. specialize (H i e Hi Hlt). unfold retry in H. lia. }
  split; [|intros i e Hi Hlt; by apply (Hr i e)].
  destruct (decide (length errors ≤ 1)); [unfold MAX_RETRIES; lia|].
  destruct (lookup_lt_is_Some_2 errors (length errors - 2)) as [e He]; [lia|].
  destruct (Hr _ _ He); lia.
Qed.

(** ** What the user sees *)

(** The user is told of every error exactly once, the form's own errors apart: an error shows
    one toast, except a 401, which warns a signed-in user of the expired session, clears what the
    previous user loaded and reloads (and only that), and except what the form shows itself
    (401s, network errors and the 4xx with no message of their own). *)
Theorem showApiError_cases signed_in e inlineErrors :
  let calls := showApiError signed_in e inlineErrors in
  (status e = 401%Z →
     calls = if negb inlineErrors && signed_in
             then [Toast ToastWarning "Session expired. Please log in again." (Some "session-expired"%js);
                   ClearQueries; RefreshAll]
             else [])
  ∧ (status e ≠ 401%Z →
       (∃ kind message, calls = [Toast kind message None])
       ∨ calls = [] ∧ inlineErrors = true ∧ (status e < 500)%Z ∧ status e ≠ 422%Z
         ∧ status e ∉ ([403; 423; 429]%Z : list Z)).
Proof.
  unfold showApiError, handle401. split.
  - intros ->. simpl. by destruct inlineErrors, signed_in.
  - intros H. apply Z.eqb_neq in H as ->. unfold STATUS_MESSAGES.
    destruct (status e =? 403)%Z eqn:H1; [eauto|]. destruct (status e =? 423)%Z eqn:H2; [eauto|].
    destruct (status e =? 429)%Z eqn:H3; [eauto|]. destruct (status e =? 422)%Z eqn:H4; [eauto|].
    destruct (500 <=? status e)%Z eqn:H5; [eauto|]. destruct inlineErrors; [|eauto].
    right. split; [done|]. split; [done|]. split; [lia|]. split; [lia|].
    rewrite !elem_of_cons. intros [?|[?|[?|?%not_elem_of_nil]]]; [lia..|done].
Qed.

(** ** Every failure is an [ErrorResponse] *)

Section failures.
Context {zod : Zod} {W : Type}.
Context (cookie : W → jstr) (log : bool → jstr → jstr → ErrorResponse → W → W).
Context (global_fetch : Request → M W jsval Response) (btoa : jstr → option jstr) (valid_url : jstr → bool).

Local Abbreviation api_request :=
  (request global_fetch btoa valid_url (api_request_fn cookie) api_response_fn (api_error_fn log)).

(** A value with exactly the two members, which the schema accepts. *)
Definition is_error_response (v : jsval) : Prop :=
  has_type ApiTypes.ErrorResponse v = true
  ∧ ∃ m e d, v = VObj [("status"%js, VNum (Dec m e)); ("detail"%js, VStr d)].

Lemma normalize_is_error error response : is_error_response (normalize_error error response).
Proof.
  unfold normalize_error. destruct (safeParse zErrorResponse error) as [w|] eqn:E.
  - apply zErrorResponse_spec in E as (props & m & e & d & -> & _ & Hi & _ & ->).
    split; [done|]. by exists m, e, d.
  - split; [done|]. by exists (status (response_error_of response)), 0%Z, (detail (response_error_of response)).
Qed.

(** What the substitute says, when the error is not the API's own: the response's status, or 0
    when there was none. *)
Definition expected_error (error : jsval) (response : option Response) (v : jsval) : Prop :=
  match safeParse zErrorResponse error with
  | Some w => v = w
  | None => v = error_value (response_error_of response)
  end.

(** The request that is sent, as the application's client makes it of the options. *)
Definition prepare (c : client_state W) (options : RequestOptions W) : M W jsval (resolved * Request) :=
  let! b := beforeRequest btoa (config c) options in
  let! q := lift_outcome
    (new_Request valid_url (resolved_url b) (default "GET" (o_method (opts b))) (opts_headers b)
       (getValidRequestBody (opts_body b) (match serializer_of (opts b) with Some _ => true | None => false end)
          (Some (serializedBody b)))
       (default "same-origin" (o_credentials (opts b)))) in
  let! q := csrf_interceptor cookie q (opts b) in
  ret (b, q).

(** What goes wrong with a call: the error, and the response that came. *)
Inductive fails (c : client_state W) (options : RequestOptions W) (w : W) : jsval → option Response → Prop :=
| unsent w1 e : prepare c options w = (w1, Throw e) → fails c options w e None
| rejected w1 w2 b q e :
    prepare c options w = (w1, Return (b, q)) → default global_fetch (o_fetch (opts b)) q w1 = (w2, Throw e) →
    fails c options w e None
| refused w1 w2 b q r e :
    prepare c options w = (w1, Return (b, q)) → default global_fetch (o_fetch (opts b)) q w1 = (w2, Return r) →
    s_ok r = false → response_error r = Return e ∨ response_error r = Throw e →
    fails c options w e (Some r)
| unread w1 w2 w3 b q r e :
    prepare c options w = (w1, Return (b, q)) → default global_fetch (o_fetch (opts b)) q w1 = (w2, Return r) →
    s_ok r = true → ok_data (opts b) r w2 = (w3, Throw e) →
    fails c options w e (Some r).

(** A client with the one interceptor of requests, and none of responses. *)
Definition app_fns (c : client_state W) : Prop := request_fns c = [Some 0] ∧ response_fns c = [].

Lemma attempt_fails c options w v error :
  app_fns c →
  attempt_request global_fetch btoa valid_url (api_request_fn cookie) api_response_fn c options (mkVars w None None)
  = (v, Throw error) →
  fails c options w error (v_response v).
Proof.
  intros [Hq Hr]. unfold attempt_request. rewrite Hq, Hr.
  unfold bind at 1, in_world at 1. cbn [world v_request v_response].
  destruct (beforeRequest btoa (config c) options w) as [w1 [b|e]] eqn:Eb.
  2: { intros [= <- <-]. apply (unsent _ _ _ w1). unfold prepare, bind at 1. by rewrite Eb. }
  unfold bind at 1, lift_outcome at 1. destruct (new_Request _ _ _ _ _ _) as [q|e] eqn:Eq.
  2: { intros [= <- <-]. apply (unsent _ _ _ w1). unfold prepare, bind at 1. rewrite Eb. unfold bind, lift_outcome. by rewrite Eq. }
  unfold bind at 1, assign_request at 1, modify at 1. cbn [run_request_fns].
  unfold bind at 1 2, in_world at 1. cbn [world v_request v_response]. unfold api_request_fn at 1.
  destruct (csrf_interceptor cookie q (opts b) w1) as [w2 [q'|e]] eqn:Ei.
  2: { intros [= <- <-]. apply (unsent _ _ _ w2). unfold prepare, bind at 1. rewrite Eb. unfold bind at 1, lift_outcome. rewrite Eq.
       unfold bind. by rewrite Ei. }
  assert (prepare c options w = (w2, Return (b, q'))) as Hp.
  { unfold prepare, bind at 1. rewrite Eb. unfold bind at 1, lift_outcome. rewrite Eq. unfold bind. by rewrite Ei. }
  unfold bind at 1 2, assign_request at 1, modify at 1. cbn [world v_request v_response].
  unfold ret at 1. unfold in_world at 1. cbn [world v_request v_response].
  destruct (default global_fetch (o_fetch (opts b)) q' w2) as [w3 [r|e]] eqn:Ef.
  2: { intros [= <- <-]. by eapply rejected. }
  unfold bind at 1, assign_response at 1, modify at 1. cbn [run_response_fns world v_request v_response].
  unfold bind at 1, ret at 1. destruct (s_ok r) eqn:Eo.
  - unfold bind, in_world. cbn [world v_request v_response]. destruct (ok_data (opts b) r w3) as [w4 [d|e]] eqn:Ed; [done|].
    intros [= <- <-]. by eapply unread.
  - unfold bind, lift_outcome. destruct (response_error r) as [e|e] eqn:Ee; intros [= <- <-]; eapply refused; eauto.
Qed.

(** C11. Whatever goes wrong with a request of the application, whose client has no interceptors but
    the application's, the caller gets an [ErrorResponse]: the value thrown, or the [error] returned, has that type, and is made of what went wrong ([fails]: the
    request could not be built, [fetch] rejected, the answer was not ok or could not be read).  It is
    that error itself when the schema of the API's errors accepts it, as it does an API's answer;
    otherwise it says the status of the response that came, or status 0 when none did. *)
Theorem failure_is_ErrorResponse c0 signed_in c handler options w w' out :
  initializeApiInterceptors signed_in c0 = Return (c, handler) →
  request_fns c0 = [] → response_fns c0 = [] → error_fns c0 = [] →
  api_request c options w = (w', out) →
  match out with
  | Throw v => is_error_response v ∧ ∃ error response, fails c options w error response ∧ expected_error error response v
  | Return (RError v request response) =>
      is_error_response v ∧ ∃ error, fails c options w error response ∧ expected_error error response v
  | Return _ => True
  end.
Proof.
  intros Hinit Hq Hr He. unfold initializeApiInterceptors in Hinit.
  apply obind_Return in Hinit as (c1 & Hc1 & [= <- _]).
  unfold setConfig in Hc1. apply obind_Return in Hc1 as (cfg & _ & [= <-]).
  cbn [config request_fns response_fns error_fns]. rewrite Hq, Hr, He. set (c := mkClient _ _ _ _).
  unfold request, catch. destruct (attempt_request _ _ _ _ _ _ _ _) as [v [r|error]] eqn:E.
  - intros [= <- <-]. apply attempt_data in E. by destruct r.
  - apply attempt_fails in E; [|done].
    unfold handle_error, bind. cbn [error_fns use fst c app run_error_fns].
    unfold in_world, api_error_fn, error_interceptor, bind, modify, ret.
    pose proof (normalize_is_error error (v_response v)) as (Ht & m & e & d & Hv).
    assert (expected_error error (v_response v) (normalize_error error (v_response v))) as Hx
      by (unfold expected_error, normalize_error; by destruct (safeParse zErrorResponse error)).
    rewrite Hv in *. cbn [truthy v_response v_request].
    destruct (default false _); [intros [= <- <-]|].
    + split; [split; [done|eauto]|eauto].
    + destruct (default false _); intros [= <- <-]; [done|]. split; [split; [done|eauto]|eauto].
Qed.
End failures.

(** ** The CSRF token *)

(** [document.cookie]: the cookies the script may read, joined by a semicolon and a blank. *)
Definition render_cookies (cookies : list (jstr * jstr)) : jstr :=
  js_join "; " (map (λ c, c.1 ++ "=" ++ c.2) cookies).

(** A cookie as the browser stores it: no semicolon, no equals sign in the name, no blank around. *)
Definition cookie_ok (c : jstr * jstr) : Prop :=
  (59%N ∉ c.1) ∧ (61%N ∉ c.1) ∧ c.1 ≠ [] ∧ not_space_head c.1 ∧ (59%N ∉ c.2).

Lemma take_while_stop p a r :
  Forall (λ c, p c = true) a → match r with [] => True | c :: _ => p c = false end →
  take_while p (a ++ r) = a.
Proof.
  intros Ha Hr. induction Ha as [|c a Hc Ha IH]; simpl.
  - destruct r; [done|]. simpl. by rewrite Hr.
  - by rewrite Hc, IH.
Qed.

Lemma name_equals (a n r : jstr) :
  61%N ∉ a → 61%N ∉ n → startsWith (a ++ "=") (n ++ "=" ++ r) = true → a = n.
Proof.
  revert n. induction a as [|x a IH]; intros [|y n] Ha Hn H; try done; cbn [app startsWith] in H.
  - apply not_elem_of_cons in Hn as [Hy _]. apply andb_prop in H as [H%N.eqb_eq _]. congruence.
  - apply not_elem_of_cons in Ha as [Hx _]. apply andb_prop in H as [H%N.eqb_eq _]. congruence.
  - apply not_elem_of_cons in Ha as [_ Ha], Hn as [_ Hn]. apply andb_prop in H as [->%N.eqb_eq H].
    f_equal. by apply IH.
Qed.

Lemma csrf_at_cookie c rest :
  cookie_ok c → match rest with [] => True | d :: _ => d = 59%N end →
  csrf_at ((c.1 ++ "=" ++ c.2) ++ rest) = if "csrf_token" =js c.1 then Some c.2 else None.
Proof.
  destruct c as [n v]. intros (Hn59 & Hn61 & _ & _ & Hv) Hrest. simpl in *. unfold csrf_at.
  rewrite <-app_assoc. change ("=" ++ v) with (61%N :: v). cbn [app].
  change csrf_name with ("csrf_token" ++ "="). destruct ("csrf_token" =js n) eqn:E.
  - apply jeqb_eq in E as <-. change ("csrf_token" ++ 61%N :: v ++ rest) with (("csrf_token" ++ "=") ++ v ++ rest).
    rewrite startsWith_app, drop_app_length. f_equal. apply take_while_stop.
    + apply Forall_forall. intros c Hc. destruct (c =? 59)%N eqn:Ec; [|done].
      apply N.eqb_eq in Ec as ->. done.
    + destruct rest; [done|]. by subst.
  - destruct (startsWith ("csrf_token" ++ "=") (n ++ 61%N :: v ++ rest)) eqn:Es; [|done].
    apply jeqb_neq in E. destruct E.
    apply (name_equals _ _ (v ++ rest)); [apply (bool_decide_unpack _); vm_compute; done|done|exact Es].
Qed.

Lemma csrf_scan_skip p rest : 59%N ∉ p → csrf_scan (p ++ rest) = csrf_scan rest.
Proof.
  induction p as [|c p IH]; [done|]. intros [Hc Hp]%not_elem_of_cons. cbn [app csrf_scan].
  rewrite (proj2 (N.eqb_neq c 59)) by congruence. by apply IH.
Qed.

Lemma cookie_text_no_semicolon c : cookie_ok c → 59%N ∉ c.1 ++ "=" ++ c.2.
Proof.
  intros (H1 & _ & _ & _ & H2). rewrite !elem_of_app, list_elem_of_singleton.
  by intros [?|[?|?]].
Qed.

Lemma render_head cookies :
  Forall cookie_ok cookies → not_space_head (render_cookies cookies).
Proof.
  intros H. destruct H as [|[n v] cs (_ & _ & Hne & Hsp & _) Hcs]; [done|]. simpl in *.
  destruct n as [|x n]; [done|]. by destruct cs.
Qed.

(** The token the client sends is the one the login set: from any cookies the browser may
    show, it is the value of the cookie named [csrf_token], and there is none when there is no such
    cookie; no other cookie's name or value can pass for it. *)
Theorem csrf_token_reads_cookie cookies :
  Forall cookie_ok cookies → csrf_token (render_cookies cookies) = obj_get "csrf_token" cookies.
Proof.
  induction 1 as [|c cs Hc Hcs IH]; [done|]. unfold csrf_token, render_cookies. cbn [map].
  destruct c as [n v]. destruct cs as [|c' cs].
  - cbn [map js_join obj_get]. pose proof (csrf_at_cookie (n, v) [] Hc I) as H. rewrite app_nil_r in H.
    rewrite H. cbn [fst snd]. destruct ("csrf_token" =js n); [done|].
    pose proof (csrf_scan_skip _ [] (cookie_text_no_semicolon _ Hc)) as Hs. by rewrite app_nil_r in Hs.
  - cbn [map]. rewrite js_join_cons. rewrite (csrf_at_cookie (n, v) _ Hc) by done.
    cbn [fst snd obj_get]. destruct ("csrf_token" =js n); [done|].
    rewrite (csrf_scan_skip _ _ (cookie_text_no_semicolon _ Hc)).
    change ("; " ++ ?t) with (59%N :: 32%N :: t). cbn [csrf_scan]. rewrite N.eqb_refl.
    change (js_join "; " ((c'.1 ++ "=" ++ c'.2) :: map (λ c, c.1 ++ "=" ++ c.2) cs))
      with (render_cookies (c' :: cs)).
    change (trim_start (32%N :: render_cookies (c' :: cs))) with (trim_start (render_cookies (c' :: cs))).
    rewrite trim_start_id by (by apply render_head).
    change (32 =? 59)%N with false. unfold csrf_token in IH.
    destruct (csrf_at (render_cookies (c' :: cs))); exact IH.
Qed.

Section csrf.
Context {zod : Zod} {W : Type}.
Context (cookie : W → jstr) (log : bool → jstr → jstr → ErrorResponse → W → W).
Context (btoa : jstr → option jstr) (valid_url : jstr → bool).
(** What the network answers to a request, in the world it finds. *)
Context (answer : Request → W → outcome jsval Response).

(** The world with the requests that reached the network, and the cookies each found. *)
Definition recorded : Type := W * list (Request * jstr).
Definition recording_fetch (q : Request) : M recorded jsval Response :=
  fun w => ((w.1, w.2 ++ [(q, cookie w.1)]), answer q w.1).

(** A request of another method than GET carries the token there is. *)
Definition carries_token (sent : Request * jstr) : Prop :=
  r_method sent.1 ≠ "GET" → ∀ t, csrf_token sent.2 = Some t → t ≠ [] →
  headers_get "X-CSRF-Token" (r_headers sent.1) = Return (header_value t).

Definition no_callbacks (o : RequestOptions recorded) : Prop :=
  o_fetch o = None ∧ o_requestValidator o = None ∧ o_responseValidator o = None
  ∧ o_responseTransformer o = None.

Local Abbreviation csrf_request :=
  (request recording_fetch btoa valid_url (api_request_fn (λ w : recorded, cookie w.1)) api_response_fn
     (api_error_fn (λ b m u e (w : recorded), (log b m u e w.1, w.2)))).

Lemma csrf_interceptor_carries q o (w w' : recorded) q' :
  csrf_interceptor (λ w : recorded, cookie w.1) q o w = (w', Return q') →
  w' = w ∧ carries_token (q', cookie w.1).
Proof.
  unfold csrf_interceptor, carries_token. simpl.
  destruct (csrf_token (cookie w.1)) as [[|c t]|] eqn:E.
  - intros [= <- <-]. split; [done|]. intros _ t [= <-]. done.
  - destruct (r_method q =js "GET") eqn:Eg.
    + intros [= <- <-]. split; [done|]. apply jeqb_eq in Eg. congruence.
    + destruct (headers_set _ _ _) as [h|] eqn:Eh; [|done]. intros [= <- <-]. split; [done|].
      intros _ t' [= <-] _. simpl. by eapply headers_set_get.
  - intros [= <- <-]. done.
Qed.

(** A computation that leaves the world as it finds it. *)
Definition keeps {V A} (m : M V jsval A) : Prop := ∀ v, (m v).1 = v.

Lemma keeps_bind {V A B} (m : M V jsval A) (f : A → M V jsval B) :
  keeps m → (∀ a, keeps (f a)) → keeps (bind m f).
Proof.
  intros Hm Hf v. unfold bind. specialize (Hm v). destruct (m v) as [v' [a|e]]; simpl in Hm; subst; [apply Hf|done].
Qed.

Lemma keeps_lift {V A} (o : outcome jsval A) : keeps (V := V) (lift_outcome o).
Proof. done. Qed.

Lemma keeps_ret {V A} (a : A) : keeps (V := V) (ret a).
Proof. done. Qed.

Lemma keeps_in_world {A} (m : M recorded jsval A) : keeps m → keeps (in_world m).
Proof. intros Hm [w q r]. unfold in_world. simpl. specialize (Hm w). destruct (m w). simpl in *. by subst. Qed.

Lemma before_keeps c o : no_callbacks c → no_callbacks o → keeps (beforeRequest btoa c o).
Proof.
  intros (_ & C2 & _) (_ & O2 & _). unfold beforeRequest.
  assert (o_requestValidator (spread c o) = None) as -> by (simpl; by rewrite C2, O2).
  repeat (apply keeps_bind; [apply keeps_lift || apply keeps_ret|intros ?]). apply keeps_ret.
Qed.

Lemma before_no_callbacks c o (w w' : recorded) b :
  no_callbacks c → no_callbacks o → beforeRequest btoa c o w = (w', Return b) → no_callbacks (opts b).
Proof.
  intros (C1 & C2 & C3 & C4) (O1 & O2 & O3 & O4) H. unfold beforeRequest in H.
  repeat (apply bind_Return in H as (? & ? & _ & H)). injection H as _ <-. unfold no_callbacks. simpl.
  rewrite C1, C2, C3, C4, O1, O2, O3, O4. done.
Qed.

Lemma ok_data_keeps o r : no_callbacks o → keeps (V := recorded) (ok_data o r).
Proof.
  intros (_ & _ & O3 & O4). unfold ok_data. rewrite O3, O4.
  case_match; [apply keeps_lift|].
  case_match; try (apply keeps_lift || apply keeps_ret);
    (repeat (apply keeps_bind; [apply keeps_lift || apply keeps_ret|intros ?])); apply keeps_ret.
Qed.

(** The clients that [initializeApiInterceptors] makes of one without interceptors. *)
Definition csrf_client (cfg : RequestOptions recorded) : client_state recorded := mkClient cfg [Some 0] [] [Some 0].

Lemma csrf_attempt cfg options (w : recorded) v o :
  no_callbacks cfg → no_callbacks options →
  attempt_request recording_fetch btoa valid_url (api_request_fn (λ w : recorded, cookie w.1)) api_response_fn
    (csrf_client cfg) options (mkVars w None None) = (v, o) →
  ∃ sent, (world v).2 = w.2 ++ sent ∧ length sent ≤ 1 ∧ Forall carries_token sent.
Proof.
  intros Hc Ho.
  assert (∃ sent, w.2 = w.2 ++ sent ∧ length sent ≤ 1 ∧ Forall carries_token sent) as Hnone
    by (exists []; rewrite app_nil_r; split; [done|]; split; [simpl; lia|constructor]).
  unfold attempt_request, csrf_client. cbn [config request_fns response_fns]. unfold bind at 1. unfold in_world at 1. cbn [world v_request v_response].
  pose proof (before_keeps cfg options Hc Ho w) as Hw.
  destruct (beforeRequest btoa cfg options w) as [w1 [b|e]] eqn:Eb; simpl in Hw; subst w1;
    [|intros [= <- _]; exact Hnone].
  pose proof (before_no_callbacks cfg options w w b Hc Ho Eb) as Hb. destruct Hb as (B1 & B234).
  unfold bind at 1, lift_outcome at 1. destruct (new_Request _ _ _ _ _ _) as [q|e];
    [|intros [= <- _]; exact Hnone].
  unfold bind at 1, assign_request at 1, modify at 1. cbn [use fst app run_request_fns].
  unfold bind at 1 2, in_world at 1. cbn [world v_request v_response]. unfold api_request_fn at 1.
  destruct (csrf_interceptor _ q (opts b) w) as [w1 [q'|e]] eqn:Ei.
  2: { assert (w1 = w) as -> by (unfold csrf_interceptor in Ei; by repeat (case_match; simplify_eq/=)).
       intros [= <- _]. exact Hnone. }
  apply csrf_interceptor_carries in Ei as [-> Hcar].
  unfold bind at 1 2, assign_request at 1, modify at 1. cbn [world v_request v_response].
  unfold ret at 1. unfold in_world at 1. rewrite B1. cbn [from_option id world v_request v_response].
  unfold recording_fetch at 1. intros E.
  exists [(q', cookie w.1)]. split; [|split; [simpl; lia|by repeat constructor]].
  revert E. destruct (answer q' w.1) as [r|e]; [|by intros [= <- _]].
  unfold bind at 1, assign_response at 1, modify at 1. cbn [run_response_fns world].
  unfold bind at 1, ret at 1. intros E.
  match type of E with ?m ?v0 = _ => assert (keeps m) as Hk end.
  { destruct (s_ok r).
    - apply keeps_bind; [apply keeps_in_world, ok_data_keeps; done|intros d; apply keeps_ret].
    - apply keeps_bind; [apply keeps_lift|done]. }
  match type of E with ?m ?v0 = _ => specialize (Hk v0) end. rewrite E in Hk. simpl in Hk. by rewrite Hk.
Qed.

(** C19. A request that may change something is protected: once the interceptors are installed, a
    call of the client sends at most one request, and one of any method but GET carries the CSRF
    token of the cookies at that moment in its X-CSRF-Token header. *)
Theorem csrf_on_every_request c0 signed_in c handler options (w w' : recorded) out :
  initializeApiInterceptors signed_in c0 = Return (c, handler) →
  request_fns c0 = [] → error_fns c0 = [] → response_fns c0 = [] →
  no_callbacks (config c) → no_callbacks options →
  csrf_request c options w = (w', out) →
  ∃ sent, w'.2 = w.2 ++ sent ∧ length sent ≤ 1 ∧ Forall carries_token sent.
Proof.
  intros Hinit Hq He Hp Hc Ho. unfold initializeApiInterceptors in Hinit.
  apply obind_Return in Hinit as (c1 & Hc1 & [= <- _]).
  unfold setConfig in Hc1. apply obind_Return in Hc1 as (cfg & _ & [= <-]).
  cbn [config request_fns response_fns error_fns] in *. rewrite Hq, He, Hp.
  change (mkClient cfg (use [] 0).1 [] (use [] 0).1) with (csrf_client cfg).
  unfold request, catch. intros H. destruct (attempt_request _ _ _ _ _ _ _ _) as [v o] eqn:E.
  destruct (csrf_attempt cfg options w v o Hc Ho E) as (sent & Hv & Hl & Hs). exists sent. split; [|done].
  destruct o as [r|e]; [by injection H as <- _|].
  assert ((handle_error (api_error_fn (λ b m u e (w : recorded), (log b m u e w.1, w.2))) (csrf_client cfg)
             options e v).1.(world).2 = (world v).2) as Herr.
  { unfold handle_error, bind. simpl. unfold in_world, bind, modify, ret. simpl. by repeat case_match. }
  destruct (handle_error _ _ _ _ _) as [v' o']. injection H as <- _. simpl in Herr. by rewrite Herr.
Qed.
End csrf.

Lemma retries_bounded_witness :
  let errors := [mkErrorResponse 0 "down"; mkErrorResponse 503 "busy"; mkErrorResponse 404 "gone"] in
  attempts errors
  ∧ length errors ≤ S MAX_RETRIES
  ∧ ∀ i e, errors !! i = Some e → S i < length errors → status e = 0%Z ∨ (500 <= status e)%Z.
Proof.
  assert (attempts [mkErrorResponse 0 "down"; mkErrorResponse 503 "busy"; mkErrorResponse 404 "gone"]) as H.
  { intros [|[|[|i]]] e He Hlt; simpl in *; simplify_eq; try reflexivity; lia. }
  split; [exact H|]. by apply retries_bounded.
Defined.

(** ** Witnesses *)

(** The application's client: created, then set up. The world is the cookies. *)
Definition app_headers : headers := {["content-type"%js := "application/json"%js]}.
Definition app_client (W : Type) : client_state W :=
  mkClient (set_headers app_headers (createConfig no_request_options)) [] [] [].
Definition ready_client (W : Type) : client_state W :=
  mkClient (set_headers app_headers (set_baseUrl (Some []) (spread (config (app_client W)) api_config)))
    [Some 0] [] [Some 0].

Lemma app_client_created W : createClient no_request_options = Return (app_client W).
Proof.
  unfold createClient, mergeConfigs.
  assert (mergeHeaders [o_headers (createConfig (@no_request_options W)); o_headers (@no_request_options W)]
          = Return app_headers) as -> by (vm_compute; reflexivity).
  reflexivity.
Qed.

Lemma ready_client_initialized W signed_in :
  initializeApiInterceptors signed_in (app_client W) = Return (ready_client W, showApiError signed_in).
Proof.
  unfold initializeApiInterceptors, setConfig, mergeConfigs.
  assert (mergeHeaders [o_headers (config (app_client W)); o_headers (@api_config W)]
          = Return app_headers) as -> by (vm_compute; reflexivity).
  reflexivity.
Qed.

Definition save_options {W} : RequestOptions W :=
  set_method "POST" (mkRequestOptions None (Some "/api/v1/scripts"%js) None None None
    (Some (VObj [("name"%js, VStr "x")])) None None None None None None None None (Some true)
    None None None None).
Definition example_cookies : list (jstr * jstr) :=
  [("xcsrf_token"%js, "no"%js); ("theme"%js, "csrf_token=no"%js); ("csrf_token"%js, "t0k3n"%js)].

Lemma failure_is_ErrorResponse_witness :
  let fetch : Request → M jstr jsval Response := λ _ w, (w, Throw VNull) in
  let out := (@request jstr fetch (λ _, None) (λ _, true) (api_request_fn id)
                api_response_fn (@api_error_fn example_zod jstr (λ _ _ _ _ w, w)) (ready_client jstr)
                save_options "a=b") in
  let fails := fails id fetch (λ _, None) (λ _, true) (ready_client jstr) save_options "a=b"%js in
  match out.2 with
  | Throw v => is_error_response v ∧ ∃ error response, fails error response ∧ @expected_error example_zod error response v
  | Return (RError v request response) =>
      is_error_response v ∧ ∃ error, fails error response ∧ @expected_error example_zod error response v
  | Return _ => True
  end.
Proof.
  intros fetch out fails.
  apply (@failure_is_ErrorResponse example_zod jstr id (λ _ _ _ _ w, w) fetch
           (λ _, None) (λ _, true) (app_client jstr) true (ready_client jstr) (showApiError true)
           save_options "a=b" out.1 out.2).
  - apply ready_client_initialized.
  - reflexivity.
  - reflexivity.
  - reflexivity.
  - apply surjective_pairing.
Defined.

Lemma csrf_token_reads_cookie_witness :
  Forall cookie_ok example_cookies
  ∧ csrf_token (render_cookies example_cookies) = Some "t0k3n"%js.
Proof.
  assert (Forall cookie_ok example_cookies) as H
    by (repeat constructor; (apply (bool_decide_unpack _); vm_compute; done) || done).
  split; [exact H|]. exact (csrf_token_reads_cookie example_cookies H).
Defined.

Lemma csrf_on_every_request_witness :
  let run := @request (recorded (W := jstr)) (recording_fetch id (λ _ _, Return (json_response 200 [])))
               (λ _, None) (λ _, true) (api_request_fn (λ w, id w.1)) api_response_fn
               (@api_error_fn example_zod (recorded (W := jstr)) (λ _ _ _ _ w, (w.1, w.2))) (ready_client _)
               save_options (render_cookies example_cookies, []) in
  ∃ sent, run.1.2 = [] ++ sent ∧ length sent ≤ 1 ∧ Forall carries_token sent.
Proof.
  intros run.
  apply (@csrf_on_every_request example_zod jstr id (λ _ _ _ _ w, w) (λ _, None) (λ _, true)
           (λ _ _, Return (json_response 200 [])) (app_client _) true (ready_client _) (showApiError true)
           save_options (render_cookies example_cookies, []) run.1 run.2).
  - apply ready_client_initialized.
  - reflexivity.
  - reflexivity.
  - reflexivity.
  - repeat split.
  - repeat split.
  - unfold run. apply surjective_pairing.
Defined.
