(* ===== verification/Startup.v ===== *)
(** * Start-up of the application

    Models [hooks.client.ts]: the logging that [init] configures, the listeners it adds, and the
    interceptors it installs on the client; and what the handlers of unexpected errors log.  The
    exporters that LogTape and OpenTelemetry are given are theirs. *)

From S2P Require Import Prelude JsString JsValue Headers Interceptors Client Zod ApiErrors ApiErrorsSpec.

(** ** Logging *)

Record logger := mkLogger { category : list jstr; lowestLevel : option jstr; sinks : list jstr }.

(** The [loggers] of [configure]. *)
Definition loggers : list logger :=
  [mkLogger ["integr8scode"%js] None ["otel"%js];
   mkLogger ["logtape"; "meta"]%js (Some "warning"%js) ["otel"%js]].

(** A call of [log.error]: the template and what fills it. *)
Record log_line := mkLine { template : jstr; properties : list (jstr * jsval) }.

(** The listener of [error] events. *)
Definition on_error (error : jsval) : list log_line :=
  if truthy error then [mkLine "Uncaught error: {error}" [("error"%js, error)]] else [].

(** The listener of [unhandledrejection] events. *)
Definition on_unhandledrejection (reason : jsval) : list log_line :=
  [mkLine "Unhandled rejection: {reason}" [("reason"%js, reason)]].

Definition handleError (kind path : jstr) (error : jsval) : list log_line :=
  [mkLine "Unexpected {kind} error on {path}: {error}" [("kind"%js, VStr kind); ("path"%js, VStr path); ("error"%js, error)]].

(** ** [init] *)

Inductive boot_step := Configured | Listens (event : jstr) | Installed.

Section init.
Context {W : Type}.

(** [configured] is how LogTape's [configure] settles; the client is the one the module made. *)
Definition init (configured : outcome jsval unit) (signed_in : bool) (c : client_state W)
  : list boot_step * outcome jsval (client_state W * error_handler) :=
  match configured with
  | Throw e => ([], Throw e)
  | Return tt =>
      match initializeApiInterceptors signed_in c with
      | Return r => ([Configured; Listens "error"; Listens "unhandledrejection"; Installed], Return r)
      | Throw e => ([Configured; Listens "error"; Listens "unhandledrejection"], Throw e)
      end
  end.

(** Once logging is configured, the application is ready: it has its interceptors, failed queries are
    told to the user, and what goes wrong unseen is logged; it fails before any of it otherwise. *)
Theorem init_installs signed_in configured :
  init configured signed_in (app_client W)
  = match configured with
    | Return _ => ([Configured; Listens "error"; Listens "unhandledrejection"; Installed],
                   Return (ready_client W, showApiError signed_in))
    | Throw e => ([], Throw e)
    end.
Proof. unfold init. destruct configured as [[]|e]; [|done]. by rewrite ready_client_initialized. Qed.
End init.

(** The browser's own reports, which carry no error, are not logged; every rejection is. *)
Theorem own_reports_unlogged error : on_error error = [] ↔ truthy error = false.
Proof. unfold on_error. by destruct (truthy error). Qed.
