(* ===== verification/Stream.v ===== *)
(** * Streams of the API

    Models [makeSseFn] of [lib/api/client/client.gen.ts] and the functions of
    [lib/api/sdk.gen.ts] that use it: the event stream of [Sse] over the requests
    of [Client].

    The generator runs between other code (it hands its data to a consumer, it
    sleeps), so what an attempt finds is given for each attempt: the world and
    the interceptors registered at that [moment]. *)

From S2P Require Import Prelude JsString Uri JsValue Json UrlBuilder UrlSpec Headers Sse SseSpec Interceptors Client ClientSpec.
From S2P Require Import Zod ApiTypes Sdk SdkSpec ApiErrors ApiErrorsSpec.

Open Scope js_monad_scope.

Section stream.
Context {W : Type}.
(** The platform, as in [Client], and what a stream reads of a response: its status text, and its
    body as text, when there is one: the values read, then the error that breaks it off. *)
Context (global_fetch : Request → M W jsval Response).
Context (btoa : jstr → option jstr) (valid_url : jstr → bool).
Context (request_fn : nat → Request → RequestOptions W → M W jsval Request).
Context (statusText : Response → jstr) (text_body : Response → option (list jstr * option jsval)).

(** ** The requests of a stream *)

(** The loop of [onRequest]. *)
Fixpoint run_sse_fns (fns : list (option nat)) (o : RequestOptions W) (r : Request) : M W jsval Request :=
  match fns with
  | [] => ret r
  | None :: fns => run_sse_fns fns o r
  | Some f :: fns => let! r := request_fn f r o in run_sse_fns fns o r
  end.

(** [new Request(url, requestInit)]. *)
Definition sse_request (method : jstr) (b : resolved (W := W)) (h : headers) : outcome jsval Request :=
  new_Request valid_url (resolved_url b) method h
    (getValidRequestBody (opts_body b) (match serializer_of (opts b) with Some _ => true | None => false end)
       (Some (serializedBody b)))
    (default "same-origin" (o_credentials (opts b))).

(** The interceptors get the resolved options, whose headers are the object the attempts share. *)
Definition onRequest (method : jstr) (b : resolved (W := W)) (fns : list (option nat)) (h : headers) : M W jsval Request :=
  let! request := lift_outcome (sse_request method b h) in
  run_sse_fns fns (set_headers h (opts b)) request.

Definition connection_of (r : Response) : connection :=
  if negb (s_ok r) then NotOk (s_status r) (statusText r)
  else match text_body r with
       | None => NoBody
       | Some (values, broken) => Body values broken
       end.

(** One attempt: a request that is not used, the one of [onRequest], the fetch. *)
Definition sse_attempt (method : jstr) (b : resolved (W := W)) (fns : list (option nat)) (h : headers)
  : M W jsval connection :=
  do! lift_outcome (sse_request method b h) in
  let! request := onRequest method b fns h in
  let! response := default global_fetch (o_fetch (opts b)) request in
  ret (connection_of response).

(** What an attempt finds: the world and the interceptors of the moment. *)
Record moment := mkMoment { m_world : W; m_fns : list (option nat) }.

Definition sse_network (method : jstr) (b : resolved (W := W)) (at_ : nat → moment) (n : nat) (h : headers) : connection :=
  match (sse_attempt method b (m_fns (at_ n)) h (m_world (at_ n))).2 with
  | Return c => c
  | Throw e => RequestFails e
  end.

(** The stream of the resolved options: its runs. *)
Definition sse_stream (method : jstr) (b : resolved (W := W)) (s : ServerSentEventsOptions) (at_ : nat → moment)
    (aborted : nat → bool) (fuel : nat) : option (list action) :=
  createSseClient s (sse_network method b at_) aborted fuel (HeadersObject (opts_headers b)).

(** [makeSseFn]; [s] holds the settings of the stream, its validator and transformer as they answer. *)
Definition makeSseFn (method : jstr) (c : client_state W) (options : RequestOptions W)
  : M W jsval (ServerSentEventsOptions → (nat → moment) → (nat → bool) → nat → option (list action)) :=
  let! b := beforeRequest btoa (config c) options in
  ret (sse_stream method b).

(** A call of a function of the SDK whose method is one of [client.sse]. *)
Definition sdk_stream (e : Endpoint) (c : client_state W) (options : RequestOptions W)
  : M W jsval (ServerSentEventsOptions → (nat → moment) → (nat → bool) → nat → option (list action)) :=
  makeSseFn (ep_method e) c (sdk_options e options).

(** ** What a stream requests *)

Lemma before_resolved (c o : RequestOptions W) (w w' : W) (b : resolved (W := W)) :
  beforeRequest btoa c o w = (w', Return b) → o_security (spread c o) = None →
  buildUrl (o_baseUrl (spread c o)) (o_path (spread c o)) (o_query (spread c o))
    (default (SerializerSettings default_settings) (o_querySerializer (spread c o)))
    (default [] (o_url (spread c o))) = Return (resolved_url b)
  ∧ opts_body b = default VUndefined (o_body (spread c o))
  ∧ o_credentials (opts b) = o_credentials (spread c o).
Proof.
  intros H Hsec. unfold beforeRequest in H. rewrite Hsec in H.
  apply bind_Return in H as (w1 & h & _ & H). apply bind_Return in H as (w2 & hq & [= _ <-] & H).
  apply bind_Return in H as (w3 & u & _ & H). apply bind_Return in H as (w4 & v & _ & H).
  apply bind_Return in H as (w5 & h' & _ & H). apply bind_Return in H as (w6 & url & Hurl & H).
  injection Hurl as _ Hurl. injection H as _ <-. done.
Qed.

Lemma sse_request_get (b : resolved (W := W)) h :
  opts_body b = VUndefined → valid_url (resolved_url b) = true →
  sse_request "GET" b h
  = Return (mkRequest "GET" (resolved_url b) h VUndefined (default "same-origin" (o_credentials (opts b)))).
Proof. intros Hb Hv. unfold sse_request, new_Request. by rewrite Hb, Hv. Qed.

Lemma sse_endpoints_get : forallb (λ c, negb (ep_sse c.1) || (ep_method c.1 =js "GET")) sdk_calls = true.
Proof. vm_compute. reflexivity. Qed.

Lemma sse_endpoint_get e T : (e, T) ∈ sdk_calls → ep_sse e = true → ep_method e = "GET"%js.
Proof.
  intros Hin Hs. pose proof sse_endpoints_get as H. rewrite forallb_true in H. specialize (H _ Hin).
  cbn [fst] in H. rewrite Hs in H. by apply jeqb_eq in H.
Qed.

(** Options that only say what the call is about, over a client set up like the application's. *)
Definition plain_config (base : jstr) (c : RequestOptions W) : Prop :=
  o_baseUrl c = Some base ∧ o_path c = None ∧ o_query c = None ∧ o_body c = None ∧ o_security c = None
  ∧ o_querySerializer c = Some (SerializerFunction defaultQuerySerializer) ∧ o_credentials c = Some "include"%js.
Definition plain_call (o : RequestOptions W) : Prop :=
  o_url o = None ∧ o_baseUrl o = None ∧ o_body o = None ∧ o_security o = None ∧ o_querySerializer o = None
  ∧ o_credentials o = None.

Lemma plain_resolved e o c w w' b base :
  plain_config base (config c) → plain_call o →
  beforeRequest btoa (config c) (sdk_options e o) w = (w', Return b) →
  buildUrl (Some base) (o_path (sdk_options e o)) (o_query (sdk_options e o))
    (SerializerFunction defaultQuerySerializer) (default [] (o_url (sdk_options e o))) = Return (resolved_url b)
  ∧ opts_body b = VUndefined ∧ o_credentials (opts b) = Some "include"%js.
Proof.
  intros (C1 & C2 & C3 & C4 & C5 & C6 & C7) (O1 & O2 & O3 & O4 & O5 & O6) Hb.
  assert (o_baseUrl (sdk_options e o) = None ∧ o_body (sdk_options e o) = None ∧
          o_security (sdk_options e o) = None ∧ o_querySerializer (sdk_options e o) = None ∧
          o_credentials (sdk_options e o) = None) as (S1 & S2 & S3 & S4 & S5).
  { unfold sdk_options. destruct (ep_contentType e); cbn; by rewrite O2, O3, O4, O5, O6. }
  pose proof (sdk_options_url e o O1) as Hu.
  apply before_resolved in Hb as (Hurl & Hbody & Hcred); [|unfold spread; cbn [o_security]; by rewrite S3, C5].
  unfold spread in Hurl, Hbody, Hcred.
  cbn [o_baseUrl o_path o_query o_querySerializer o_url o_body o_credentials] in Hurl, Hbody, Hcred.
  rewrite S1, C1, C2, C3, S4, C6 in Hurl. rewrite S2, C4 in Hbody. rewrite S5, C7 in Hcred.
  split; [|done].
  rewrite Hu in Hurl |- *. cbn [over from_option id] in Hurl.
  by destruct (o_path (sdk_options e o)), (o_query (sdk_options e o)).
Qed.

End stream.

(** The interceptor of the application lets a GET pass as it is, in any state of the cookies. *)
Lemma api_fns_leave_get {W} (cookie : W → jstr) fns o r w :
  r_method r = "GET"%js → run_sse_fns (api_request_fn cookie) fns o r w = (w, Return r).
Proof.
  intros Hr. induction fns as [|[f|] fns IH]; cbn [run_sse_fns]; [done| |done].
  unfold bind, api_request_fn, csrf_interceptor. destruct (csrf_token (cookie w)) as [[|c t]|]; try done.
  by rewrite Hr.
Qed.

Lemma sse_attempt_get {W} global_fetch valid_url statusText text_body (cookie : W → jstr) b fns h w :
  opts_body b = VUndefined → valid_url (resolved_url b) = true →
  sse_attempt global_fetch valid_url (api_request_fn cookie) statusText text_body "GET" b fns h w
  = (let! response := default global_fetch (o_fetch (opts b))
       (mkRequest "GET" (resolved_url b) h VUndefined (default "same-origin" (o_credentials (opts b)))) in
     ret (connection_of statusText text_body response)) w.
Proof.
  intros Hb Hv. unfold sse_attempt, onRequest, lift_outcome. rewrite sse_request_get by done.
  unfold bind at 1 2 3. cbn -[bind run_sse_fns]. by rewrite api_fns_leave_get.
Qed.

(** C22. Every stream of the API asks its endpoint, and asks to resume. For a function of the SDK
    that is a stream, with options of its type that only say what the call is about, over a client
    set up like the application's with the application's interceptor: whatever the cookies and the
    list of registered interceptors are at an attempt, the attempt hands to [fetch] one request, a
    GET with the cookies and without a body, with exactly the attempt's headers, of the one URL that
    the endpoint's route reads back as the options' path and query; and in every run of a stream
    without a validator and a transformer (no caller of the SDK gives one) each attempt's headers
    carry the Last-Event-ID in force, the first none. *)
Theorem stream_reaches_endpoint {W} global_fetch btoa valid_url statusText text_body (cookie : W → jstr)
    e T o c w w' stream base :
  (e, T) ∈ sdk_calls → ep_sse e = true → has_type T (VObj (call_data e o)) = true →
  plain_config base (config c) → plain_call o →
  no_braces base → texts_ok (default [] (o_path o)) → query_ok (default [] (o_query o)) →
  sdk_stream global_fetch btoa valid_url (api_request_fn cookie) statusText text_body e c o w = (w', Return stream) →
  ∃ b, stream = sse_stream global_fetch valid_url (api_request_fn cookie) statusText text_body "GET" b
    ∧ route_of_call base (route_of (ep_url e)) (default [] (o_path o)) (default [] (o_query o)) (resolved_url b)
    ∧ (valid_url (resolved_url b) = true → ∀ fns h w1,
         sse_attempt global_fetch valid_url (api_request_fn cookie) statusText text_body "GET" b fns h w1
         = (let! response := default global_fetch (o_fetch (opts b))
              (mkRequest "GET" (resolved_url b) h VUndefined "include") in
            ret (connection_of statusText text_body response)) w1)
    ∧ ∀ s at_ aborted fuel l, plain_data s → stream s at_ aborted fuel = Some l →
        resumes (HeadersObject (opts_headers b)) None l.
Proof.
  intros Hin Hsse HT Hc Ho Hbase Hpath Hquery H.
  unfold sdk_stream, makeSseFn in H. apply bind_Return in H as (w1 & b & Hb & [= _ <-]).
  rewrite (sse_endpoint_get e T Hin Hsse). exists b. split; [done|].
  destruct (plain_resolved btoa e o c w w1 b base Hc Ho Hb) as (Hurl & Hbody & Hcred).
  destruct (typed_call_url e T o base Hin (proj1 Ho) HT Hbase Hpath Hquery) as (url & Hurl' & Hroute).
  rewrite Hurl in Hurl'. injection Hurl' as <-. split; [done|]. split.
  - intros Hv fns h w2. rewrite sse_attempt_get by done. by rewrite Hcred.
  - intros s at_ aborted fuel l Hs Hl.
    by apply (createStream_resumes s _ aborted fuel _ _ (initial_vars s) l Hs eq_refl Hl).
Qed.

(** ** A stream of the application *)

(** The world is the cookies. *)
Definition watch_options : RequestOptions jstr :=
  mkRequestOptions None None None (Some [("execution_id"%js, VStr "a/b?")]) None None None None None None None None
    None None None None None None None.

Definition watch : M jstr jsval (ServerSentEventsOptions → (nat → moment) → (nat → bool) → nat → option (list action)) :=
  sdk_stream (λ _ w, (w, Throw js_type_error)) (λ _, None) (λ _, true) (api_request_fn id) (λ _, []) (λ _, None)
    executionEventsApiV1EventsExecutionsExecutionIdGet (ready_client jstr) watch_options.

Lemma stream_reaches_endpoint_witness :
  ∃ stream, (watch "csrf_token=t").2 = Return stream
  ∧ ∃ b, stream = sse_stream (λ _ w, (w, Throw js_type_error)) (λ _, true) (api_request_fn id) (λ _, []) (λ _, None) "GET" b
    ∧ route_of_call [] (route_of "/api/v1/events/executions/{execution_id}") [("execution_id"%js, VStr "a/b?")] []
        (resolved_url b)
    ∧ (true = true → ∀ fns h w1,
         sse_attempt (λ _ w, (w, Throw js_type_error)) (λ _, true) (api_request_fn id) (λ _, []) (λ _, None) "GET" b
           fns h w1
         = (let! response := default (λ _ w, (w, Throw js_type_error)) (o_fetch (opts b))
              (mkRequest "GET" (resolved_url b) h VUndefined "include") in
            ret (connection_of (λ _, []) (λ _, None) response)) w1)
    ∧ ∀ s at_ aborted fuel l, plain_data s → stream s at_ aborted fuel = Some l →
        resumes (HeadersObject (opts_headers b)) None l.
Proof.
  destruct (watch "csrf_token=t") as [w' [stream|e]] eqn:E.
  - exists stream. split; [done|].
    apply (stream_reaches_endpoint (λ _ w, (w, Throw js_type_error)) (λ _, None) (λ _, true) (λ _, [])
      (λ _, None) id
      executionEventsApiV1EventsExecutionsExecutionIdGet ExecutionEventsApiV1EventsExecutionsExecutionIdGetData
      watch_options (ready_client jstr) "csrf_token=t" w' stream []).
    + do 20 right. left.
    + reflexivity.
    + vm_compute. reflexivity.
    + repeat split.
    + repeat split.
    + split; apply not_elem_of_nil.
    + apply Forall_cons_2; [|apply Forall_nil_2]. intros s [= <-]. split; [apply ascii_text; reflexivity|done].
    + apply Forall_nil_2.
    + exact E.
  - exfalso. assert (match (watch "csrf_token=t").2 with Return _ => true | Throw _ => false end = true) as H
      by (vm_compute; reflexivity).
    rewrite E in H. discriminate H.
Defined.
