(* ===== verification/Execution.v ===== *)
(** * Running a script

    Models the class [ExecutionState] of [lib/editor/execution.svelte.ts]: the
    phase, result and error the editor shows, and the two asynchronous parts of
    [execute], the mutation that starts the execution and [#follow], which reads
    the execution's event stream.

    Calls of [execute] are numbered; a run is a sequence of [label]s: what the
    user does, and what the server's answers make each call do next.  Between
    two labels of one call any other label may happen, as between two [await]s
    of the source.  The mutation of TanStack Query is an interface ([Mutation])
    with the documented laws the class relies on. *)

From S2P Require Import Prelude JsString JsValue ApiEnums.

(** ** The mutation that starts an execution *)

(** What [createMutation] gives: the state of the last call since the last [reset].  A call that
    was superseded or reset away still resolves for its caller, without changing that state. *)
Class Mutation (Mut : Type) := {
  mut_idle : Mut;
  isPending : Mut → bool;
  mut_error : Mut → option jstr; (* [error.detail] *)
  mut_call : Mut → option nat;   (* the call observed *)
  mut_reset : Mut → Mut;
  mut_mutate : nat → Mut → Mut;
  mut_settle : nat → option jstr → Mut → Mut; (* [None]: success *)
}.

Class MutationLaws (Mut : Type) `{Mutation Mut} := {
  mut_idle_call : mut_call (mut_idle : Mut) = None;
  mut_reset_call m : mut_call (mut_reset m) = None;
  mut_none m : mut_call m = None → isPending m = false ∧ mut_error m = None;
  mut_mutate_spec i m :
    mut_call (mut_mutate i m) = Some i ∧ isPending (mut_mutate i m) = true ∧ mut_error (mut_mutate i m) = None;
  mut_settle_own i e m :
    mut_call m = Some i →
    mut_call (mut_settle i e m) = Some i ∧ isPending (mut_settle i e m) = false
    ∧ mut_error (mut_settle i e m) = e;
  mut_settle_other i e m : mut_call m ≠ Some i → mut_settle i e m = m;
}.

(** ** Statuses *)

Definition ACTIVE_STATUSES : list ExecutionStatus :=
  [ExecutionStatus_QUEUED; ExecutionStatus_SCHEDULED; ExecutionStatus_RUNNING].

Definition isActivePhase (s : ExecutionStatus) : bool := bool_decide (s ∈ ACTIVE_STATUSES).

(** The type of an event of the stream. *)
Inductive sse_type := TEvent (t : EventType) | TControl (t : SseControlEvent).

#[export] Instance sse_type_eq_dec : EqDecision sse_type.
Proof. solve_decision. Defined.

Definition FAILURE_MESSAGES (t : sse_type) : option jstr :=
  match t with
  | TEvent EventType_EXECUTION_FAILED => Some "Execution failed."
  | TEvent EventType_EXECUTION_TIMEOUT => Some "Execution timed out."
  | TEvent EventType_RESULT_FAILED => Some "Failed to store execution results."
  | _ => None
  end.

(** [ExecutionPhase]. *)
Inductive ExecutionPhase := idle | starting | active (s : ExecutionStatus).

#[export] Instance ExecutionPhase_eq_dec : EqDecision ExecutionPhase.
Proof. solve_decision. Defined.

Section execution.
Context {Mut : Type} `{!Mutation Mut}.
(** [ExecutionResult]; the class only passes it on. *)
Context {R : Type}.

(** An item of the stream: an event, or other data that has none of its fields (raw text), or
    [null], whose fields cannot be read. *)
Inductive stream_item :=
| SEvent (status : option ExecutionStatus) (event_type : sse_type) (result : option R)
| SText
| SNull.

(** ** The state *)

(** [controller] is the number of the call that made the [AbortController]; [aborted] is the set
    of the calls whose controller has been aborted. *)
Record ExecutionState := mkExecution {
  phase_ : option ExecutionStatus; (* [None]: ['idle'] *)
  result : option R;
  streamError : option jstr;
  controller : option nat;
  start : Mut;
  aborted : gset nat;
}.

Definition new_state : ExecutionState := mkExecution None None None None mut_idle ∅.

Definition phase (s : ExecutionState) : ExecutionPhase :=
  if isPending (start s) then starting
  else match phase_ s with Some p => active p | None => idle end.

Definition error (s : ExecutionState) : option jstr :=
  match streamError s with Some (c :: e) => Some (c :: e) | _ => mut_error (start s) end.

Definition isExecuting (s : ExecutionState) : bool := negb (bool_decide (phase s = idle)).

Definition set_phase (p : option ExecutionStatus) (s : ExecutionState) : ExecutionState :=
  mkExecution p (result s) (streamError s) (controller s) (start s) (aborted s).

Definition reset (s : ExecutionState) : ExecutionState :=
  mkExecution None None None (controller s) (mut_reset (start s)) (aborted s).

Definition abort (s : ExecutionState) : ExecutionState :=
  mkExecution None (result s) (streamError s) None (start s)
    (match controller s with Some i => {[i]} ∪ aborted s | None => aborted s end).

(** [execute] up to its [await]. *)
Definition execute (i : nat) (s : ExecutionState) : ExecutionState :=
  let s := reset (abort s) in
  mkExecution (phase_ s) (result s) (streamError s) (controller s) (mut_mutate i (start s)) (aborted s).

Definition settle (i : nat) (e : option jstr) (s : ExecutionState) : ExecutionState :=
  mkExecution (phase_ s) (result s) (streamError s) (controller s) (mut_settle i e (start s)) (aborted s).

(** [#follow] up to its loop. *)
Definition follow (i : nat) (status : ExecutionStatus) (s : ExecutionState) : ExecutionState :=
  mkExecution (Some (if isActivePhase status then status else ExecutionStatus_QUEUED))
    (result s) (streamError s) (Some i) (start s) (aborted s).

Inductive turn := Continue | Terminal | Raised.

(** One turn of the loop over the stream. *)
Definition on_item (it : stream_item) (s : ExecutionState) : ExecutionState * turn :=
  match it with
  | SNull => (s, Raised)
  | SText => (s, Continue)
  | SEvent status event_type r =>
      let s := match status with
               | Some p => if isActivePhase p then set_phase (Some p) s else s
               | None => s
               end in
      if decide (event_type = TEvent EventType_RESULT_STORED) then
        (mkExecution (phase_ s) r (streamError s) (controller s) (start s) (aborted s), Terminal)
      else match FAILURE_MESSAGES event_type with
           | Some failure =>
               (mkExecution (phase_ s) r (Some failure) (controller s) (start s) (aborted s), Terminal)
           | None => (s, Continue)
           end
  end.

Definition CONNECTION_LOST : jstr := "Connection to server lost.".

(** The end of [#follow], after its loop. *)
Definition finish (i : nat) (terminalReceived : bool) (s : ExecutionState) : ExecutionState :=
  mkExecution None (result s)
    (if negb terminalReceived && negb (bool_decide (i ∈ aborted s)) then Some CONNECTION_LOST else streamError s)
    None (start s) (aborted s).

(** ** Interleaved runs *)

(** Where a call of [execute] is: waiting for the mutation, for the next item, or for the stream
    to close after a terminal event. *)
Inductive activity := Starting | Following | Closing.

#[export] Instance activity_eq_dec : EqDecision activity.
Proof. solve_decision. Defined.

Record system := mkSystem {
  exec : ExecutionState;
  activities : gmap nat activity; (* the calls that have not returned *)
  calls : nat;                    (* how many calls there have been *)
}.

Definition initial_system : system := mkSystem new_state ∅ 0.

Inductive label :=
| LExecute                               (* the user runs the script *)
| LReset                                 (* the user replaces the script *)
| LAbort
| LStarted (i : nat) (status : ExecutionStatus)
| LStartFailed (i : nat) (detail : jstr)
| LItem (i : nat) (it : stream_item)
| LStreamEnd (i : nat)                   (* the stream has no more items *)
| LClosed (i : nat)                      (* the stream is closed after a terminal event *)
| LRaised (i : nat).                     (* the stream cannot be opened, or reading on rejects *)

(** [None]: the label cannot happen. *)
Definition step (w : system) (l : label) : option system :=
  match l with
  | LExecute => Some (mkSystem (execute (calls w) (exec w)) (<[calls w := Starting]> (activities w)) (S (calls w)))
  | LReset => Some (mkSystem (reset (exec w)) (activities w) (calls w))
  | LAbort => Some (mkSystem (abort (exec w)) (activities w) (calls w))
  | LStarted i status =>
      match activities w !! i with
      | Some Starting =>
          Some (mkSystem (follow i status (settle i None (exec w))) (<[i := Following]> (activities w)) (calls w))
      | _ => None
      end
  | LStartFailed i detail =>
      match activities w !! i with
      | Some Starting => Some (mkSystem (settle i (Some detail) (exec w)) (delete i (activities w)) (calls w))
      | _ => None
      end
  | LItem i it =>
      match activities w !! i with
      | Some Following =>
          let '(s, t) := on_item it (exec w) in
          Some (mkSystem s
                  (match t with
                   | Continue => activities w
                   | Terminal => <[i := Closing]> (activities w)
                   | Raised => delete i (activities w)
                   end) (calls w))
      | _ => None
      end
  | LStreamEnd i =>
      match activities w !! i with
      | Some Following => Some (mkSystem (finish i false (exec w)) (delete i (activities w)) (calls w))
      | _ => None
      end
  | LClosed i =>
      match activities w !! i with
      | Some Closing => Some (mkSystem (finish i true (exec w)) (delete i (activities w)) (calls w))
      | _ => None
      end
  | LRaised i =>
      match activities w !! i with
      | Some Following => Some (mkSystem (exec w) (delete i (activities w)) (calls w))
      | _ => None
      end
  end.

Fixpoint run (w : system) (ls : list label) : option system :=
  match ls with
  | [] => Some w
  | l :: ls => w ← step w l; run w ls
  end.

Lemma run_app w ls ks : run w (ls ++ ks) = (w' ← run w ls; run w' ks).
Proof. revert w. induction ls as [|l ls IH]; intros w; simpl; [done|]. destruct (step w l); simpl; auto. Qed.
End execution.
Arguments stream_item : clear implicits.
Arguments ExecutionState : clear implicits.
Arguments system : clear implicits.
Arguments label : clear implicits.

(** ** The mutation, concretely *)

(** The observer of TanStack Query as its documentation describes it. *)
Record observer := mkObserver {
  observed : option nat;
  pending : bool;
  failure : option jstr;
}.

#[export] Instance observer_mutation : Mutation observer := {
  mut_idle := mkObserver None false None;
  isPending m := match observed m with Some _ => pending m | None => false end;
  mut_error m := match observed m with Some _ => failure m | None => None end;
  mut_call := observed;
  mut_reset _ := mkObserver None false None;
  mut_mutate i _ := mkObserver (Some i) true None;
  mut_settle i e m := if decide (observed m = Some i) then mkObserver (Some i) false e else m;
}.

#[export] Instance observer_laws : MutationLaws observer.
Proof.
  split; simpl; try done.
  - intros m ->. done.
  - intros i e m H. by rewrite decide_True.
  - intros i e m H. by rewrite decide_False.
Qed.
