(* ===== verification/ExecutionSpec.v ===== *)
(** * Running a script: what the editor shows

    The outcome of a run that nothing disturbs, the invariant that the editor
    shows a run exactly while one is live, or after one that raised, when the user
    waits for a run to end, and what happens when the script is replaced while it runs. *)

From S2P Require Import Prelude JsString JsValue ApiEnums Execution.

Section execution_spec.
Context {Mut : Type} `{!Mutation Mut, !MutationLaws Mut}.
Context {R : Type}.
Local Abbreviation state := (ExecutionState Mut R).
Local Abbreviation sys := (system Mut R).
Local Abbreviation item := (stream_item R).

(** ** One run, undisturbed *)

(** What an event settles: the result and the error, when it ends the run. *)
Definition terminal_of (it : item) : option (option R * option jstr) :=
  match it with
  | SEvent _ t r =>
      if decide (t = TEvent EventType_RESULT_STORED) then Some (r, None)
      else match FAILURE_MESSAGES t with Some m => Some (r, Some m) | None => None end
  | _ => None
  end.

(** The outcome the items of a stream decide: that of the first terminal event, or a lost
    connection. *)
Fixpoint outcome_of (items : list item) : option R * option jstr :=
  match items with
  | [] => (None, Some CONNECTION_LOST)
  | it :: items => match terminal_of it with Some o => o | None => outcome_of items end
  end.

(** The items up to the first terminal event. *)
Fixpoint items_read (items : list item) : list item :=
  match items with
  | [] => []
  | it :: items => match terminal_of it with Some _ => [it] | None => it :: items_read items end
  end.

Fixpoint has_terminal (items : list item) : bool :=
  match items with
  | [] => false
  | it :: items => match terminal_of it with Some _ => true | None => has_terminal items end
  end.

(** What the phase has been set to after some items. *)
Fixpoint phase_after (p : ExecutionStatus) (items : list item) : ExecutionStatus :=
  match items with
  | [] => p
  | SEvent (Some q) _ _ :: items => phase_after (if isActivePhase q then q else p) items
  | _ :: items => phase_after p items
  end.

Definition readable (it : item) : Prop := it ≠ SNull.

(** The labels of one run, from the click to the end of its stream. *)
Definition one_run (i : nat) (status : ExecutionStatus) (items : list item) : list (label R) :=
  LExecute :: LStarted i status :: map (LItem i) (items_read items)
  ++ [if has_terminal items then LClosed i else LStreamEnd i].

Lemma on_item_continue it (s : state) :
  readable it → terminal_of it = None →
  ∃ p, on_item it s = (set_phase p s, Continue)
       ∧ ∀ q, phase_ s = Some q → p = Some (phase_after q [it]).
Proof.
  destruct it as [status t r| |]; intros Hr Ht; [|exists (phase_ s); by destruct s|done].
  simpl in Ht |- *. destruct (decide _); [done|]. destruct (FAILURE_MESSAGES t); [done|].
  destruct status as [q|]; [|exists (phase_ s); by destruct s].
  destruct (isActivePhase q).
  - exists (Some q). done.
  - exists (phase_ s). by destruct s.
Qed.

Lemma on_item_terminal it (s : state) r e :
  terminal_of it = Some (r, e) →
  ∃ p, on_item it s =
    (mkExecution p r (match e with Some m => Some m | None => streamError s end)
       (controller s) (start s) (aborted s), Terminal).
Proof.
  destruct it as [status t x| |]; intros Ht; [|done..]. simpl in Ht |- *.
  destruct (decide _).
  - simplify_eq. destruct status as [q|]; [destruct (isActivePhase q)|]; by eexists.
  - destruct (FAILURE_MESSAGES t); [|done]. simplify_eq.
    destruct status as [q|]; [destruct (isActivePhase q)|]; by eexists.
Qed.

(** The loop of [#follow] and its end, from a state with an empty error. *)
Lemma follow_run (w : sys) i items :
  activities w !! i = Some Following → i ∉ aborted (exec w) → streamError (exec w) = None →
  result (exec w) = None → Forall readable items →
  run w (map (LItem i) (items_read items) ++ [if has_terminal items then LClosed i else LStreamEnd i])
  = Some (mkSystem (mkExecution None (outcome_of items).1 (outcome_of items).2 None (start (exec w)) (aborted (exec w)))
            (delete i (activities w)) (calls w)).
Proof.
  intros Ha Hi He Hr Hitems. revert w Ha Hi He Hr. induction Hitems as [|it items Hit Hitems IH]; intros w Ha Hi He Hr.
  - simpl. rewrite Ha. simpl. unfold finish. rewrite bool_decide_eq_false_2 by done. simpl. by rewrite Hr.
  - cbn [items_read outcome_of has_terminal].
    destruct (terminal_of it) as [[r e]|] eqn:Ht.
    + destruct (on_item_terminal it (exec w) r e Ht) as (p & Hon).
      cbn [map app run step mbind option_bind]. rewrite Ha, Hon. cbn [activities mbind option_bind].
      rewrite lookup_insert_eq. cbn [mbind option_bind run]. unfold finish. simpl. rewrite delete_insert_eq.
      rewrite He. by destruct e.
    + destruct (on_item_continue it (exec w) Hit Ht) as (p & Hon & _).
      cbn [map app run step mbind option_bind]. rewrite Ha, Hon. cbn [mbind option_bind].
      destruct w as [s a n]. cbn [activities exec calls] in *. destruct s. unfold set_phase. simpl in *.
      specialize (IH (mkSystem (mkExecution p result streamError controller start aborted) a n)).
      cbn [activities exec calls] in IH. by rewrite IH.
Qed.

Lemma run_outcome (w : sys) status items :
  activities w !! calls w = None → calls w ∉ aborted (exec w) → controller (exec w) ≠ Some (calls w) →
  Forall readable items →
  ∃ w', run w (one_run (calls w) status items) = Some w'
        ∧ phase (exec w') = idle ∧ isExecuting (exec w') = false
        ∧ result (exec w') = (outcome_of items).1 ∧ error (exec w') = (outcome_of items).2
        ∧ activities w' = activities w.
Proof.
  intros Hfresh Hab Hc Hitems. unfold one_run. cbn [run step mbind option_bind activities exec calls].
  rewrite lookup_insert_eq. cbn [mbind option_bind]. rewrite follow_run; cbn [activities exec calls].
  - eexists. split; [done|]. cbn [exec activities].
    destruct (mut_mutate_spec (calls w) (mut_reset (start (exec w)))) as (Hcall & _ & _).
    destruct (mut_settle_own (calls w) None _ Hcall) as (_ & Hp & Herr).
    assert (phase (mkExecution (Mut := Mut) None (outcome_of items).1 (outcome_of items).2 None
             (start (follow (calls w) status (settle (calls w) None (execute (calls w) (exec w)))))
             (aborted (follow (calls w) status (settle (calls w) None (execute (calls w) (exec w)))))) = idle) as Hph.
    { unfold phase. cbn [start phase_ follow settle execute]. unfold settle, execute. simpl. by rewrite Hp. }
    split; [done|]. split; [unfold isExecuting; by rewrite Hph|]. split; [done|]. split.
    + unfold error. cbn [streamError start follow settle execute]. unfold settle, execute. simpl start.
      rewrite Herr. assert (∀ e, (outcome_of items).2 = Some e → ∃ c r, e = c :: r) as He.
      { clear. induction items as [|[st t r| |] items IH]; simpl.
        - intros e [= <-]. unfold CONNECTION_LOST. by eexists _, _.
        - destruct (decide _); [done|]. destruct (FAILURE_MESSAGES t) eqn:E; [|done].
          intros e [= <-]. destruct t as [[]|]; simpl in E; simplify_eq; by eexists _, _.
        - done.
        - done. }
      destruct (outcome_of items).2 as [e|]; [|done]. by destruct (He e eq_refl) as (c & r & ->).
    + rewrite !delete_insert_eq. by apply delete_id.
  - by rewrite lookup_insert_eq.
  - simpl. destruct (controller (exec w)) as [j|] eqn:E; [|done].
    apply not_elem_of_union. split; [|done]. rewrite elem_of_singleton. congruence.
  - done.
  - done.
  - done.
Qed.

(** The labels of a run whose stream raises after some items that end nothing. *)
Definition raised_run (i : nat) (status : ExecutionStatus) (items : list item) (last : label R) : list (label R) :=
  LExecute :: LStarted i status :: map (LItem i) items ++ [last].

Lemma read_on (w : sys) i items :
  activities w !! i = Some Following → is_Some (phase_ (exec w)) → Forall readable items → has_terminal items = false →
  ∃ w', run w (map (LItem i) items) = Some w' ∧ activities w' = activities w
        ∧ start (exec w') = start (exec w) ∧ is_Some (phase_ (exec w')).
Proof.
  intros Ha Hp Hr Ht. revert w Ha Hp Ht. induction Hr as [|it items Hit Hr IH]; intros w Ha Hp Ht; [by exists w|].
  cbn [has_terminal] in Ht. destruct (terminal_of it) eqn:E; [done|].
  destruct (on_item_continue it (exec w) Hit E) as (q & Hon & Hq).
  cbn [map run step mbind option_bind]. rewrite Ha, Hon. cbn [mbind option_bind].
  destruct Hp as [p Hp]. apply (IH (mkSystem (set_phase q (exec w)) (activities w) (calls w))); [exact Ha| |exact Ht].
  cbn [exec set_phase phase_]. rewrite (Hq p Hp). by eexists.
Qed.

Lemma run_raised (w : sys) status items last :
  activities w !! calls w = None → Forall readable items → has_terminal items = false →
  last = LRaised (calls w) ∨ last = LItem (calls w) SNull →
  ∃ w', run w (raised_run (calls w) status items last) = Some w' ∧ isExecuting (exec w') = true ∧ activities w' = activities w.
Proof.
  intros Hfresh Hr Ht Hlast. unfold raised_run. cbn [run step mbind option_bind activities exec calls].
  rewrite lookup_insert_eq. cbn [mbind option_bind]. rewrite run_app.
  edestruct (read_on (mkSystem (follow (calls w) status (settle (calls w) None (execute (calls w) (exec w))))
    (<[calls w:=Following]> (<[calls w:=Starting]> (activities w))) (S (calls w))) (calls w) items) as (w1 & -> & Ha & Hs & Hp).
  - cbn [activities]. by rewrite lookup_insert_eq.
  - cbn. by eexists.
  - done.
  - done.
  - cbn [mbind option_bind activities exec] in *.
    assert (∀ s : state, start s = start (exec w1) → is_Some (phase_ s) → isExecuting s = true) as Hx.
    { intros s _ [q Hq]. apply not_false_iff_true. unfold isExecuting, phase. rewrite Hq. by destruct (isPending (start s)). }
    exists (mkSystem (exec w1) (delete (calls w) (activities w1)) (calls w1)). split_and!.
    + destruct Hlast as [-> | ->]; cbn [run step mbind option_bind]; rewrite Ha, lookup_insert_eq; done.
    + by apply Hx.
    + cbn [activities]. rewrite Ha, !delete_insert_eq. by apply delete_id.
Qed.


(** ** Runs where the user waits *)

(** The user runs a script when none is shown as running (the button is disabled otherwise), and
    replaces it when no call is live. *)
Definition allowed (w : sys) (l : label R) : Prop :=
  match l with
  | LExecute => isExecuting (exec w) = false
  | LReset | LAbort => activities w = ∅
  | _ => True
  end.

(** A call ends by raising: its stream cannot be opened or read on, or an item has no fields. *)
Definition raises (l : label R) : bool :=
  match l with LRaised _ | LItem _ SNull => true | _ => false end.

(** Did the last call end so, with nothing done about it since? *)
Definition stuck_next (stuck : bool) (l : label R) : bool :=
  match l with LExecute | LReset | LAbort => false | _ => stuck || raises l end.

Inductive reachable : bool → sys → Prop :=
| reach_initial : reachable false initial_system
| reach_step b w l w' : reachable b w → allowed w l → step w l = Some w' → reachable (stuck_next b l) w'.

Fixpoint allowed_run (w : sys) (ls : list (label R)) : Prop :=
  match ls with
  | [] => True
  | l :: ls => allowed w l ∧ ∀ w', step w l = Some w' → allowed_run w' ls
  end.

Lemma reachable_run b w ls w' : reachable b w → allowed_run w ls → run w ls = Some w' → reachable (foldl stuck_next b ls) w'.
Proof.
  revert b w. induction ls as [|l ls IH]; intros b w Hw Ha Hr; simpl in Hr; [by injection Hr as <-|].
  destruct Ha as [Hl Ha]. destruct (step w l) as [w1|] eqn:E; [|done].
  apply (IH (stuck_next b l) w1); [by eapply reach_step|by apply Ha|done].
Qed.

(** The state of the editor for each state of the one live call. *)
Definition shows (s : state) (i : nat) (a : activity) : Prop :=
  match a with
  | Starting => mut_call (start s) = Some i ∧ isPending (start s) = true ∧ phase_ s = None ∧ controller s = None
  | Following | Closing =>
      isPending (start s) = false ∧ is_Some (phase_ s) ∧ controller s = Some i
  end.

Definition idle_state (s : state) : Prop := isPending (start s) = false ∧ phase_ s = None.

(** Nothing is live and the editor is idle; or one call is live and shown; or nothing is live and the
    editor still shows a call that raised. *)
Definition one_live (stuck : bool) (w : sys) : Prop :=
  if stuck then activities w = ∅ ∧ isPending (start (exec w)) = false ∧ is_Some (phase_ (exec w))
  else (activities w = ∅ ∧ idle_state (exec w)) ∨ ∃ i a, activities w = {[i := a]} ∧ shows (exec w) i a.

Lemma isExecuting_idle (s : state) :
  isExecuting s = false ↔ isPending (start s) = false ∧ phase_ s = None.
Proof.
  unfold isExecuting, phase. rewrite negb_false_iff, bool_decide_eq_true.
  destruct (isPending (start s)), (phase_ s); split; (done || by intros []).
Qed.

Lemma shows_executing s i a : shows s i a → isExecuting s = true.
Proof.
  intros H. apply not_false_iff_true. rewrite isExecuting_idle. intros [Hp Hn].
  destruct a; simpl in H; destruct H as (H1 & H2 & H3); [congruence|..]; rewrite Hn in H2; by destruct H2.
Qed.

Lemma reset_pending m : isPending (mut_reset m : Mut) = false.
Proof. by destruct (mut_none (mut_reset m) (mut_reset_call m)). Qed.

Definition by_user (l : label R) : Prop := match l with LExecute | LReset | LAbort => True | _ => False end.

Lemma user_step b w l w' :
  one_live b w → allowed w l → by_user l → step w l = Some w' → one_live (stuck_next b l) w'.
Proof.
  intros Hw Hl Hu Hs. destruct l; try done; injection Hs as <-; cbn [stuck_next one_live allowed] in *.
  - apply isExecuting_idle in Hl as [Hp Hn]. right. exists (calls w), Starting. cbn [activities exec].
    assert (activities w = ∅) as ->.
    { destruct b; [by destruct Hw|]. destruct Hw as [[Ha _]|(i & a & _ & H)]; [done|].
      apply shows_executing in H. apply not_false_iff_true in H. destruct H. by apply isExecuting_idle. }
    split; [done|]. simpl. destruct (mut_mutate_spec (calls w) (mut_reset (start (exec w)))) as (? & ? & _). done.
  - left. split; [done|]. simpl. split; [apply reset_pending|]. done.
  - left. split; [done|]. simpl. split; [|done].
    destruct b; [by destruct Hw as (_ & ? & _)|]. destruct Hw as [[_ [? _]]|(i & a & Ha & _)]; [done|].
    rewrite Hl in Ha. apply (f_equal (lookup i)) in Ha. by rewrite lookup_empty, lookup_singleton_eq in Ha.
Qed.

Lemma singleton_act {i j : nat} {a b : activity} : ({[i := a]} : gmap nat activity) !! j = Some b → i = j ∧ a = b.
Proof. intros H. by apply lookup_singleton_Some in H. Qed.

Lemma item_shows it s i :
  shows s i Following →
  match on_item it s with
  | (s', Continue) => shows s' i Following
  | (s', Terminal) => shows s' i Closing
  | (s', Raised) => s' = s ∧ it = SNull
  end.
Proof.
  intros (Hp & Hph & Hc). destruct it as [st t r| |]; [|done..]. simpl.
  destruct st as [q|]; [destruct (isActivePhase q)|]; (destruct (decide _); [|destruct (FAILURE_MESSAGES t)]); done.
Qed.

Lemma server_step b w l w' :
  one_live b w → ¬ by_user l → step w l = Some w' → one_live (stuck_next b l) w'.
Proof.
  intros Hw Hu Hstep.
  assert (∀ j, is_Some (activities w !! j) → b = false ∧ ∃ a, activities w = {[j := a]} ∧ shows (exec w) j a) as Hlive.
  { intros j [x Hj]. destruct b; [destruct Hw as (Ha & _); by rewrite Ha, lookup_empty in Hj|]. split; [done|].
    destruct Hw as [[Ha _]|(i & a & Ha & Hs)]; rewrite Ha in Hj; [by rewrite lookup_empty in Hj|].
    apply singleton_act in Hj as [-> ->]. by exists x. }
  destruct l as [| | |j st|j d|j it|j|j|j]; try by destruct Hu. all: simpl in Hstep.
  all: destruct (activities w !! j) as [x|] eqn:Hj; [|done].
  all: destruct (Hlive j ltac:(by eexists)) as (-> & a & Ha & Hs); clear Hlive Hw.
  all: rewrite Ha, lookup_singleton_eq in Hj; injection Hj as <-; destruct a; try done.
  all: cbn [stuck_next orb raises one_live].
  - injection Hstep as <-. right. exists j, Following. cbn [activities exec]. rewrite Ha. split; [apply insert_singleton_eq|].
    destruct Hs as (Hcall & _ & _ & _). destruct (mut_settle_own j None _ Hcall) as (_ & Hp & _).
    simpl. split; [done|]. by eexists.
  - injection Hstep as <-. left. cbn [activities exec]. rewrite Ha. split; [apply delete_singleton_eq|].
    destruct Hs as (Hcall & _ & ? & ?). destruct (mut_settle_own j (Some d) _ Hcall) as (_ & Hp & _). done.
  - pose proof (item_shows it _ j Hs) as Hit.
    destruct (on_item it (exec w)) as [s' t] eqn:E. injection Hstep as <-. destruct t.
    + assert (raises (LItem j it) = false) as Hr by (by destruct it). cbn in Hr. rewrite Hr.
      right. exists j, Following. done.
    + assert (raises (LItem j it) = false) as Hr by (by destruct it). cbn in Hr. rewrite Hr.
      right. exists j, Closing. cbn [activities exec]. rewrite Ha. by rewrite insert_singleton_eq.
    + destruct Hit as [-> ->]. cbn [activities exec]. rewrite Ha, delete_singleton_eq. by destruct Hs as (? & ? & _).
  - injection Hstep as <-. left. cbn [activities exec]. rewrite Ha. split; [apply delete_singleton_eq|]. by destruct Hs as (? & _ & _).
  - injection Hstep as <-. left. cbn [activities exec]. rewrite Ha. split; [apply delete_singleton_eq|]. by destruct Hs as (? & _ & _).
  - injection Hstep as <-. cbn [activities exec]. rewrite Ha, delete_singleton_eq. by destruct Hs as (? & ? & _).
Qed.

Lemma reachable_one_live b w : reachable b w → one_live b w.
Proof.
  induction 1 as [|b w l w' Hw IH Hl Hs].
  - left. split; [done|]. simpl. split; [|done]. by destruct (mut_none (mut_idle : Mut) mut_idle_call).
  - destruct l; first [eapply user_step; [exact IH|exact Hl|exact I|exact Hs]|eapply server_step; [exact IH|by intros []|exact Hs]].
Qed.

Lemma empty_or_lookup {A} (m : gmap nat A) : m = ∅ ∨ ∃ i x, m !! i = Some x.
Proof.
  destruct (decide (m = ∅)) as [H|H]; [by left|right]. apply map_choose in H as (i & x & H). eauto.
Qed.

Lemma reachable_executing b w : reachable b w → isExecuting (exec w) = true ↔ activities w ≠ ∅ ∨ b = true.
Proof.
  intros H%reachable_one_live. assert (∀ s : state, isPending (start s) = false → is_Some (phase_ s) → isExecuting s = true) as Hx.
  { intros s Hp [q Hq]. apply not_false_iff_true. intros [_ Hn]%isExecuting_idle. congruence. }
  destruct b; cbn [one_live] in H.
  - destruct H as (Ha & Hp & Hq). rewrite Ha. split; [by right|]. intros _. by apply Hx.
  - destruct H as [[Ha (Hp & Hph)]|(i & a & Ha & Hs)]; rewrite Ha.
    + split; [|by intros [?|?]]. intros H. apply not_false_iff_true in H. destruct H. by apply isExecuting_idle.
    + split; [|intros _; by eapply shows_executing]. intros _. left. intros H.
      apply (f_equal (lookup i)) in H. by rewrite lookup_empty, lookup_singleton_eq in H.
Qed.

(** What is live is one call, and shown. *)
Lemma reachable_live b w i a : reachable b w → activities w !! i = Some a → b = false ∧ activities w = {[i := a]} ∧ shows (exec w) i a.
Proof.
  intros H%reachable_one_live Hi. destruct b; cbn [one_live] in H.
  - destruct H as (Ha & _). by rewrite Ha, lookup_empty in Hi.
  - destruct H as [[Ha _]|(j & x & Ha & Hs)]; rewrite Ha in Hi; [by rewrite lookup_empty in Hi|].
    apply singleton_act in Hi as [-> ->]. done.
Qed.

Lemma reachable_one_call b w i j :
  reachable b w → is_Some (activities w !! i) → is_Some (activities w !! j) → i = j.
Proof.
  intros H [x Hi] [y Hj]. destruct (reachable_live b w i x H Hi) as (_ & Ha & _).
  rewrite Ha in Hj. by apply singleton_act in Hj as [-> _].
Qed.

(** C3. The editor says a script is running exactly while one is, or after one raised.  The user runs
    a script only when none is shown as running and replaces it, or aborts, only when no call is live;
    the answers of the server come in any order, and a stream may fail to open or reject ([b]: the last call ended
    so).  Then there is at most one live call; [isExecuting] is true exactly while there is one, and
    after a call that raised, until the script is replaced; it says 'starting' exactly until the
    execution is created; and [abort] reaches the stream that is being read. *)
Theorem executing_iff_live b w :
  reachable b w →
  (isExecuting (exec w) = true ↔ activities w ≠ ∅ ∨ b = true)
  ∧ (phase (exec w) = starting ↔ ∃ i, activities w = {[i := Starting]})
  ∧ (∀ i j, is_Some (activities w !! i) → is_Some (activities w !! j) → i = j)
  ∧ (∀ i, activities w !! i = Some Following → i ∈ aborted (abort (exec w))).
Proof.
  intros Hw. split; [by apply reachable_executing|]. split; [|split; [by intros i j; apply (reachable_one_call b)|]].
  - unfold phase. destruct (empty_or_lookup (activities w)) as [Ha|(i & a & Hi)].
    + rewrite Ha. split; [|intros [i H]; apply (f_equal (lookup i)) in H; by rewrite lookup_empty, lookup_singleton_eq in H].
      pose proof (reachable_one_live b w Hw) as H. destruct b; cbn [one_live] in H.
      * destruct H as (_ & Hp & [q Hq]). by rewrite Hp, Hq.
      * destruct H as [[_ (Hp & Hq)]|(i & a & Hi & _)]; [by rewrite Hp, Hq|].
        rewrite Ha in Hi. apply (f_equal (lookup i)) in Hi. by rewrite lookup_empty, lookup_singleton_eq in Hi.
    + destruct (reachable_live b w i a Hw Hi) as (_ & Ha & Hs). rewrite Ha.
      assert (∀ j b, ({[i := b]} : gmap nat activity) = {[j := Starting]} → b = Starting) as Hst.
      { intros j x H. apply (f_equal (lookup j)) in H. rewrite lookup_singleton_eq in H. by apply singleton_act in H as [_ ?]. }
      destruct a; simpl in Hs.
      * destruct Hs as (_ & -> & _). split; [by eexists|done].
      * destruct Hs as (-> & [p ->] & _). split; [done|]. by intros [j H%Hst].
      * destruct Hs as (-> & [p ->] & _). split; [done|]. by intros [j H%Hst].
  - intros j Hj. destruct (reachable_live b w j Following Hw Hj) as (_ & _ & _ & _ & Hc). simpl. rewrite Hc. set_solver.
Qed.

(** ** A new run and the one before *)

Lemma on_item_aborted (it : item) (s : state) : aborted (on_item it s).1 = aborted s.
Proof.
  destruct it as [st ty r| |]; [|done..]. simpl.
  destruct st as [q|]; [destruct (isActivePhase q)|];
    (destruct (decide _); [|destruct (FAILURE_MESSAGES ty)]); done.
Qed.

Lemma aborted_step (w : sys) l w' i : step w l = Some w' → i ∈ aborted (exec w) → i ∈ aborted (exec w').
Proof.
  intros Hs Hi. destruct l as [| | |j st|j d|j it|j|j|j]; simpl in Hs.
  - injection Hs as <-. simpl. case_match; set_solver.
  - by injection Hs as <-.
  - injection Hs as <-. simpl. case_match; set_solver.
  - case_match; [|done]. case_match; try done. by injection Hs as <-.
  - case_match; [|done]. case_match; try done. by injection Hs as <-.
  - case_match; [|done]. case_match; try done. destruct (on_item it (exec w)) as [s t] eqn:E.
    injection Hs as <-. simpl. by rewrite <-(on_item_aborted it (exec w)), E in Hi.
  - case_match; [|done]. case_match; try done. by injection Hs as <-.
  - case_match; [|done]. case_match; try done. by injection Hs as <-.
  - case_match; [|done]. case_match; try done. by injection Hs as <-.
Qed.

Lemma aborted_run (w : sys) ls w' i : run w ls = Some w' → i ∈ aborted (exec w) → i ∈ aborted (exec w').
Proof.
  revert w. induction ls as [|l ls IH]; intros w H Hi; simpl in H; [by injection H as <-|].
  destruct (step w l) eqn:E; [|done]. simpl in H. eapply IH; [exact H|]. by eapply aborted_step.
Qed.

(** C37. Running a script again aborts the stream of the run before it for good, whatever happens
    after: the stream's end never reports a lost connection over the new run. *)
Theorem rerun_aborts_previous (w : sys) w1 ls w2 i :
  controller (exec w) = Some i →
  step w LExecute = Some w1 → run w1 ls = Some w2 →
  i ∈ aborted (exec w2)
  ∧ ∀ w3, step w2 (LStreamEnd i) = Some w3 → streamError (exec w3) = streamError (exec w2).
Proof.
  intros Hc Hs Hr. assert (i ∈ aborted (exec w2)) as Hi.
  { eapply aborted_run; [exact Hr|]. injection Hs as <-. simpl. rewrite Hc. set_solver. }
  split; [done|]. intros w3 H. simpl in H. case_match; [|done]. case_match; try done.
  injection H as <-. simpl. by rewrite bool_decide_eq_true_2.
Qed.

(** ** Replacing the script while it runs *)

(** Replacing the script clears what the editor shows but does not stop the run: the stream
    that is being read is not aborted, and its result shows up under the new script. *)
Theorem reset_leaves_stream (r : R) :
  let before := [LExecute; LStarted 0 ExecutionStatus_RUNNING; LReset] in
  let stored := SEvent None (TEvent EventType_RESULT_STORED) (Some r) in
  ∃ w w', run (initial_system : sys) before = Some w
    ∧ phase_ (exec w) = None ∧ result (exec w) = None ∧ (0 ∉ aborted (exec w))
    ∧ run w [LItem 0 stored; LClosed 0] = Some w' ∧ result (exec w') = Some r.
Proof.
  cbn [run step mbind option_bind]. eexists _, _. split; [reflexivity|].
  split; [reflexivity|]. split; [reflexivity|]. split; [set_solver|]. split; reflexivity.
Qed.

(** Replacing the script while its execution is being created and running the new one leaves
    two streams being read: [abort] reaches only the later one, and the end of the earlier one
    makes the editor idle while the later one still runs. *)
Theorem reset_while_starting_overlaps :
  let labels := [LExecute; LReset; LExecute; LStarted 0 ExecutionStatus_QUEUED;
                 LStarted 1 ExecutionStatus_QUEUED] in
  ∃ w w', run (initial_system : sys) labels = Some w
    ∧ activities w !! 0 = Some Following ∧ activities w !! 1 = Some Following
    ∧ aborted (abort (exec w)) = {[1]}
    ∧ run w [LStreamEnd 0] = Some w'
    ∧ isExecuting (exec w') = false ∧ activities w' !! 1 = Some Following
    ∧ error (exec w') = Some CONNECTION_LOST ∧ controller (exec w') = None.
Proof.
  cbn [run step mbind option_bind]. eexists _, _. split; [reflexivity|].
  split; [reflexivity|]. split; [reflexivity|]. split; [simpl; set_solver|]. split; [reflexivity|].
  split; [|done]. apply isExecuting_idle. split; [|done]. simpl.
  destruct (mut_mutate_spec 1 (mut_reset (mut_reset (mut_mutate 0 (mut_reset (mut_idle : Mut)))))) as (H & _ & _).
  rewrite (mut_settle_other 0) by (rewrite H; done).
  by destruct (mut_settle_own 1 None _ H) as (_ & ? & _).
Qed.
End execution_spec.

(** ** Witnesses *)

Definition example_items : list (stream_item nat) :=
  [SText; SEvent (Some ExecutionStatus_RUNNING) (TControl SseControlEvent_STATUS) None;
   SEvent None (TEvent EventType_EXECUTION_COMPLETED) None;
   SEvent None (TEvent EventType_RESULT_STORED) (Some 42);
   SEvent None (TEvent EventType_EXECUTION_FAILED) (Some 7)].


Lemma executing_iff_live_witness :
  ∃ w : system observer nat,
    run initial_system [LExecute; LStarted 0 ExecutionStatus_RUNNING; LItem 0 SText] = Some w
    ∧ (isExecuting (exec w) = true ↔ activities w ≠ ∅ ∨ false = true)
    ∧ (phase (exec w) = starting ↔ ∃ i, activities w = {[i := Starting]})
    ∧ (∀ i j, is_Some (activities w !! i) → is_Some (activities w !! j) → i = j)
    ∧ (∀ i, activities w !! i = Some Following → i ∈ aborted (abort (exec w))).
Proof.
  eexists. split; [reflexivity|]. apply executing_iff_live.
  apply (reachable_run false initial_system
           [LExecute; LStarted 0 ExecutionStatus_RUNNING; LItem 0 SText]); [apply reach_initial| |reflexivity].
  split; [reflexivity|intros ? [= <-]]. split; [done|intros ? [= <-]]. split; [done|intros ? [= <-]; done].
Defined.

Definition example_running : system observer nat :=
  default initial_system (run initial_system [LExecute; LStarted 0 ExecutionStatus_RUNNING]).

Lemma rerun_aborts_previous_witness :
  ∃ w1 w2, step example_running LExecute = Some w1
    ∧ run w1 [LStarted 1 ExecutionStatus_RUNNING] = Some w2
    ∧ 0 ∈ aborted (exec w2)
    ∧ ∀ w3, step w2 (LStreamEnd 0) = Some w3 → streamError (exec w3) = streamError (exec w2).
Proof.
  eexists _, _. split; [reflexivity|]. split; [reflexivity|].
  eapply (rerun_aborts_previous example_running _ [LStarted 1 ExecutionStatus_RUNNING] _ 0);
    [reflexivity| |]; reflexivity.
Defined.

Lemma reset_leaves_stream_witness :
  let before := [LExecute; LStarted 0 ExecutionStatus_RUNNING; LReset] in
  let stored := SEvent None (TEvent EventType_RESULT_STORED) (Some 42) in
  ∃ w w', run (initial_system : system observer nat) before = Some w
    ∧ phase_ (exec w) = None ∧ result (exec w) = None ∧ (0 ∉ aborted (exec w))
    ∧ run w [LItem 0 stored; LClosed 0] = Some w' ∧ result (exec w') = Some 42.
Proof. exact (reset_leaves_stream (Mut := observer) 42). Defined.

Lemma reset_while_starting_overlaps_witness :
  let labels := [LExecute; LReset; LExecute; LStarted 0 ExecutionStatus_QUEUED;
                 LStarted 1 ExecutionStatus_QUEUED] in
  ∃ w w', run (initial_system : system observer nat) labels = Some w
    ∧ activities w !! 0 = Some Following ∧ activities w !! 1 = Some Following
    ∧ aborted (abort (exec w)) = {[1]}
    ∧ run w [LStreamEnd 0] = Some w'
    ∧ isExecuting (exec w') = false ∧ activities w' !! 1 = Some Following
    ∧ error (exec w') = Some CONNECTION_LOST ∧ controller (exec w') = None.
Proof. exact (reset_while_starting_overlaps (Mut := observer)). Defined.
