(* ===== verification/Editor.v ===== *)
(** * The editor's draft and its runtime

    Models [lib/editor/runtime.ts] and [lib/editor/draft.svelte.ts].  The draft
    is a value that [PersistedState] keeps; how it is stored is the library's.
    [languages.ts], which loads editor modes, is only its table of names. *)

From S2P Require Import Prelude JsString JsValue Json Zod ApiSchemas.

(** ** [runtime.ts] *)

Record LanguageInfo := mkLanguageInfo { versions : list jstr; file_ext : jstr }.

Record Runtime := mkRuntime { lang : jstr; lang_version : jstr }.

#[export] Instance Runtime_eq_dec : EqDecision Runtime.
Proof. solve_decision. Defined.

(** The names of an object that [Object.prototype] has are functions, without [versions]. *)
Definition pickRuntime (r : Runtime) (offered : list (jstr * LanguageInfo)) : Runtime :=
  match versions <$> obj_get (lang r) offered with
  | Some vs => mkRuntime (lang r) (if existsb (jeqb (lang_version r)) vs then lang_version r else default [] (head vs))
  | None =>
      match offered with
      | (name, info) :: _ => mkRuntime name (default [] (head (versions info)))
      | [] => r
      end
  end.

(** ** [draft.svelte.ts] *)

Record Draft := mkDraft {
  script_id : option jstr;
  name : jstr;
  script : jstr;
  runtime : Runtime;
}.

(** [z.pick(schema, keys)]. *)
Definition pick_schema (keys : list jstr) (s : schema) : schema :=
  match s with ZObject fs => ZObject (List.filter (λ f, existsb (jeqb f.1) keys) fs) | s => s end.

(** The initial draft; [None] would be the exception of [parse]. *)
Definition initial_draft {zod : Zod} : option Draft :=
  d ← safeParse (pick_schema ["lang"; "lang_version"] zExecutionRequest) (VObj []);
  match prop "lang" d, prop "lang_version" d with
  | VStr l, VStr v => Some (mkDraft None [] [] (mkRuntime l v))
  | _, _ => None
  end.

(** A saved script, of which the draft takes what it has a place for. *)
Record SavedScript := mkSavedScript {
  saved_id : jstr;
  saved_name : jstr;
  saved_script : jstr;
  saved_runtime : Runtime;
}.

Definition openScript (s : SavedScript) (current : Draft) : Draft :=
  mkDraft (Some (saved_id s)) (saved_name s) (saved_script s) (saved_runtime s).

Definition newScript (current : Draft) : Draft := mkDraft None [] [] (runtime current).

(** ** [languages.ts] *)

Inductive editor_mode := ModePython | ModeJavaScript | ModeGo | ModeRuby | ModeShell.

Definition loaders : list (jstr * editor_mode) :=
  [("python"%js, ModePython); ("node"%js, ModeJavaScript); ("go"%js, ModeGo); ("ruby"%js, ModeRuby);
   ("bash"%js, ModeShell)].

(** The mode a language is edited in; [None] is no extension. *)
Definition loadLanguage (lang : jstr) : option editor_mode := obj_get lang loaders.

(** ** The runtime that is used *)

Definition offers (offered : list (jstr * LanguageInfo)) (r : Runtime) : Prop :=
  ∃ info, obj_get (lang r) offered = Some info ∧ lang_version r ∈ versions info.

Lemma existsb_jeqb x l : existsb (jeqb x) l = true ↔ x ∈ l.
Proof.
  rewrite existsb_exists. split.
  - intros (y & Hy & ->%jeqb_eq). by apply list_elem_of_In.
  - intros H. exists x. split; [by apply list_elem_of_In|apply jeqb_refl].
Qed.

Lemma pickRuntime_offered r offered : offers offered r → pickRuntime r offered = r.
Proof.
  intros (info & Hi & Hv). unfold pickRuntime. rewrite Hi. cbn [fmap option_fmap option_map].
  rewrite (proj2 (existsb_jeqb _ _) Hv). by destruct r.
Qed.

Lemma head_elem {A} (l : list A) d : l ≠ [] → default d (head l) ∈ l.
Proof. destruct l; [done|]. intros _. left. Qed.

Lemma pickRuntime_offers_one r offered :
  offered ≠ [] → Forall (λ e, versions e.2 ≠ []) offered → offers offered (pickRuntime r offered).
Proof.
  intros Hne Hall. unfold pickRuntime. destruct (obj_get (lang r) offered) as [info|] eqn:E; cbn [fmap option_fmap option_map].
  - exists info. split; [done|]. cbn [lang_version]. destruct (existsb _ _) eqn:Ev; [by apply existsb_jeqb|].
    apply head_elem. apply obj_get_elem in E. rewrite Forall_forall in Hall. apply (Hall _ E).
  - destruct offered as [|[n info] rest]; [done|]. exists info. cbn [lang lang_version obj_get]. rewrite jeqb_refl.
    split; [done|]. apply head_elem. by apply Forall_cons in Hall as [Hn _].
Qed.

(** The runtime the editor shows and runs is one the API offers: whatever runtime the stored
    draft names, as long as every offered language has a version; the draft's own runtime when it is
    offered, a version of the draft's language while that language is offered, and picking again
    changes nothing. *)
Theorem pickRuntime_offers r offered :
  offered ≠ [] → Forall (λ e, versions e.2 ≠ []) offered →
  offers offered (pickRuntime r offered)
  ∧ (offers offered r → pickRuntime r offered = r)
  ∧ (is_Some (obj_get (lang r) offered) → lang (pickRuntime r offered) = lang r)
  ∧ pickRuntime (pickRuntime r offered) offered = pickRuntime r offered.
Proof.
  intros Hne Hall. pose proof (pickRuntime_offers_one r offered Hne Hall) as Ho.
  split; [done|]. split; [apply pickRuntime_offered|]. split; [|by apply pickRuntime_offered].
  intros [info Hi]. unfold pickRuntime. by rewrite Hi.
Qed.

Definition example_offered : list (jstr * LanguageInfo) :=
  [("python"%js, mkLanguageInfo ["3.14"%js; "3.13"%js] "py"); ("go"%js, mkLanguageInfo ["1.23"%js] "go")].

Lemma pickRuntime_offers_witness :
  offers example_offered (mkRuntime "python" "3.14")
  ∧ (offers example_offered (mkRuntime "python" "2.7") → mkRuntime "python" "3.14" = mkRuntime "python" "2.7")
  ∧ (is_Some (obj_get "python"%js example_offered) → ("python"%js : jstr) = "python"%js)
  ∧ pickRuntime (mkRuntime "python" "3.14") example_offered = mkRuntime "python" "3.14".
Proof.
  apply (pickRuntime_offers (mkRuntime "python" "2.7") example_offered); [done|].
  by repeat constructor.
Defined.

Example initial_draft_example :
  @initial_draft (reference_zod (λ _, true) (λ _, true)) = Some (mkDraft None [] [] (mkRuntime "python" "3.14")).
Proof. vm_compute. reflexivity. Qed.
