(* ===== verification/CodeEditor.v ===== *)
(** * The code editor

    Models [components/editor/CodeMirrorEditor.svelte]: the text that the page and the
    editor share, the configuration that follows the user's settings, and the mode of
    the language, which is loaded.

    CodeMirror is not part of the repository: a document is the text it was given with
    its line ends made uniform ([norm], a parameter), and a compartment holds what it was
    last configured with. *)

From S2P Require Import Prelude JsString Editor.

(** [EditorSettingsOutput]. *)
Record EditorSettings := mkEditorSettings {
  font_size : Z;
  tab_size : Z;
  use_tabs : bool;
  word_wrap : bool;
  show_line_numbers : bool;
}.

(** The compartments of the view: the mode of the language is [None] for no extension. *)
Record view_config := mkConfig {
  c_dark : bool;
  c_fontSize : jstr;
  c_tabSize : Z;
  c_lineNumbers : bool;
  c_lineWrapping : bool;
  c_language : option editor_mode;
}.

(** [getStaticExtensions] with the theme. *)
Definition static_config (dark : bool) (s : EditorSettings) : view_config :=
  mkConfig dark (string_of_Z (font_size s) ++ "px") (tab_size s) (show_line_numbers s) (word_wrap s) None.

Definition set_theme (dark : bool) (c : view_config) : view_config :=
  mkConfig dark (c_fontSize c) (c_tabSize c) (c_lineNumbers c) (c_lineWrapping c) (c_language c).
Definition set_language (mode : option editor_mode) (c : view_config) : view_config :=
  mkConfig (c_dark c) (c_fontSize c) (c_tabSize c) (c_lineNumbers c) (c_lineWrapping c) mode.

Definition applySettings (dark : bool) (s : EditorSettings) (c : view_config) : view_config :=
  let c := set_theme dark c in
  let c := mkConfig (c_dark c) (string_of_Z (font_size s) ++ "px") (c_tabSize c) (c_lineNumbers c) (c_lineWrapping c) (c_language c) in
  let c := mkConfig (c_dark c) (c_fontSize c) (tab_size s) (c_lineNumbers c) (c_lineWrapping c) (c_language c) in
  let c := mkConfig (c_dark c) (c_fontSize c) (c_tabSize c) (show_line_numbers s) (c_lineWrapping c) (c_language c) in
  mkConfig (c_dark c) (c_fontSize c) (c_tabSize c) (c_lineNumbers c) (word_wrap s) (c_language c).

Record view := mkView {
  doc : jstr;
  config : view_config;
  replaced : nat;             (* how often the whole text was replaced, which puts the cursor first *)
}.

Record code_editor := mkCodeEditor {
  content : jstr;             (* the bound text of the page *)
  ce_view : option view;      (* [null] before [onMount] and after [onDestroy] *)
  ce_settings : EditorSettings;
  dark : bool;
  ce_lang : jstr;
  loading : gmap nat jstr;    (* the loads of modes that have not answered *)
  current_load : nat;         (* the load whose effect was not cleaned up *)
  next_load : nat;
}.

Section editor.
Context (norm : jstr → jstr).

Definition set_view (v : option view) (e : code_editor) : code_editor :=
  mkCodeEditor (content e) v (ce_settings e) (dark e) (ce_lang e) (loading e) (current_load e) (next_load e).
Definition set_content (t : jstr) (e : code_editor) : code_editor :=
  mkCodeEditor t (ce_view e) (ce_settings e) (dark e) (ce_lang e) (loading e) (current_load e) (next_load e).

(** [view?.dispatch] of a reconfiguration. *)
Definition reconfigure (f : view_config → view_config) (e : code_editor) : code_editor :=
  set_view ((λ v, mkView (doc v) (f (config v)) (replaced v)) <$> ce_view e) e.

Definition onMount (e : code_editor) : code_editor :=
  set_view (Some (mkView (norm (content e)) (static_config (dark e) (ce_settings e)) 0)) e.

(** The user changes the document; the listener writes it to the page. *)
Definition type_text (t : jstr) (e : code_editor) : code_editor :=
  match ce_view e with
  | Some v => set_content (norm t) (set_view (Some (mkView (norm t) (config v) (replaced v))) e)
  | None => e
  end.

(** The last effect: a script replaced from outside goes into the editor, and the listener writes
    the document back. *)
Definition content_effect (e : code_editor) : code_editor :=
  match ce_view e with
  | Some v =>
      if content e =js doc v then e
      else let t := norm (content e) in set_content t (set_view (Some (mkView t (config v) (S (replaced v)))) e)
  | None => e
  end.

(** An effect runs again when the text it read was changed. *)
Fixpoint flush (n : nat) (e : code_editor) : code_editor :=
  match n with
  | O => e
  | S n => let e' := content_effect e in if content e' =js content e then e' else flush n e'
  end.

(** The effect of the language: it loads the mode, and its cleanup drops an older load. *)
Definition language_effect (lang : jstr) (e : code_editor) : code_editor :=
  mkCodeEditor (content e) (ce_view e) (ce_settings e) (dark e) lang (<[next_load e := lang]> (loading e)) (next_load e)
    (S (next_load e)).

Definition language_loaded (n : nat) (e : code_editor) : option code_editor :=
  lang ← loading e !! n;
  let e := mkCodeEditor (content e) (ce_view e) (ce_settings e) (dark e) (ce_lang e) (delete n (loading e)) (current_load e)
             (next_load e) in
  Some (if decide (n = current_load e) then reconfigure (set_language (loadLanguage lang)) e else e).

Definition settings_effect (s : EditorSettings) (e : code_editor) : code_editor :=
  let e := mkCodeEditor (content e) (ce_view e) s (dark e) (ce_lang e) (loading e) (current_load e) (next_load e) in
  reconfigure (applySettings (dark e) s) e.

Definition theme_effect (d : bool) (e : code_editor) : code_editor :=
  let e := mkCodeEditor (content e) (ce_view e) (ce_settings e) d (ce_lang e) (loading e) (current_load e) (next_load e) in
  reconfigure (set_theme d) e.

(** ** Runs *)

Inductive editor_label :=
| LType (t : jstr)
| LReplace (t : jstr)        (* the page writes the text: a script is opened *)
| LLanguage (lang : jstr)
| LLoaded (n : nat)
| LSettings (s : EditorSettings)
| LTheme (d : bool).

Definition editor_step (e : code_editor) (l : editor_label) : option code_editor :=
  match l with
  | LType t => Some (flush 2 (type_text t e))
  | LReplace t => Some (flush 2 (set_content t e))
  | LLanguage lang => Some (language_effect lang e)
  | LLoaded n => language_loaded n e
  | LSettings s => Some (settings_effect s e)
  | LTheme d => Some (theme_effect d e)
  end.

Fixpoint editor_run (e : code_editor) (ls : list editor_label) : option code_editor :=
  match ls with [] => Some e | l :: ls => e ← editor_step e l; editor_run e ls end.

(** The component is mounted, its effects run. *)
Definition opened (t : jstr) (s : EditorSettings) (d : bool) (lang : jstr) : code_editor :=
  let e := onMount (mkCodeEditor t None s d lang ∅ 0 0) in
  flush 2 (settings_effect s (language_effect lang e)).

(** ** The text settles *)

Context (norm_idem : ∀ t, norm (norm t) = norm t).

Definition in_sync (t : jstr) (v : view) (e : code_editor) : Prop :=
  ce_view e = Some v ∧ content e = norm t ∧ doc v = norm t.

Lemma content_effect_synced t v e : in_sync t v e → content_effect e = e.
Proof. intros (Hv & Hc & Hd). unfold content_effect. by rewrite Hv, Hc, Hd, jeqb_refl. Qed.

Lemma flush_synced n t v e : in_sync t v e → flush n e = e.
Proof. intros H. destruct n; cbn [flush]; [done|]. rewrite (content_effect_synced t v e H), jeqb_refl. done. Qed.

(** One replacement brings the two together; what the editor holds already is not replaced. *)
Lemma flush_settles n v e :
  ce_view e = Some v → norm (doc v) = doc v →
  ∃ v', flush (S (S n)) e = set_content (norm (content e)) (set_view (Some v') e)
    ∧ doc v' = norm (content e) ∧ config v' = config v
    ∧ replaced v' = if content e =js doc v then replaced v else S (replaced v).
Proof.
  intros Hv Hn. cbn [flush Nat.add]. destruct (content e =js doc v) eqn:E.
  - assert (content_effect e = e) as -> by (unfold content_effect; by rewrite Hv, E). rewrite jeqb_refl.
    apply jeqb_eq in E. exists v. rewrite E, Hn. split; [|done]. destruct e; cbn in *. by subst.
  - set (v' := mkView (norm (content e)) (config v) (S (replaced v))). exists v'.
    set (e' := set_content (norm (content e)) (set_view (Some v') e)).
    assert (content_effect e = e') as -> by (unfold content_effect; by rewrite Hv, E).
    assert (content_effect e' = e') as -> by (apply (content_effect_synced (content e) v'); by repeat split).
    rewrite jeqb_refl. split; [|done]. by destruct (content e' =js content e).
Qed.

(** ** What every run keeps *)

Definition last_text (t : jstr) (l : editor_label) : jstr := match l with LType t | LReplace t => t | _ => t end.

Record follows (t : jstr) (n : nat) (e : code_editor) : Prop := {
  f_view : ∃ v, in_sync t v e ∧ set_language None (config v) = static_config (dark e) (ce_settings e) ∧ replaced v <= n
           ∧ (loading e !! current_load e = None → c_language (config v) = loadLanguage (ce_lang e));
  f_current : current_load e < next_load e ∧ ∀ l, loading e !! current_load e = Some l → l = ce_lang e;
  f_loads : ∀ i, is_Some (loading e !! i) → i < next_load e;
}.

Definition puts (l : editor_label) : nat := match l with LReplace _ => 1 | _ => 0 end.

Lemma static_reconfigured d s c : set_language None (applySettings d s c) = static_config d s.
Proof. done. Qed.

Lemma static_themed d d' s : set_theme d' (static_config d s) = static_config d' s.
Proof. done. Qed.

Lemma step_follows t n e l e' :
  editor_step e l = Some e' → follows t n e → follows (last_text t l) (puts l + n) e'.
Proof.
  intros Hs [(v & (Hv & Hc & Hd) & Hcfg & Hr & Hm) [Hcur Hlang] Hloads].
  destruct l as [u|u|lang|i|s|d]; cbn [editor_step last_text puts Nat.add] in *.
  - apply (inj Some) in Hs as <-. unfold type_text. rewrite Hv. set (v' := mkView (norm u) (config v) (replaced v)).
    rewrite (flush_synced 2 u v') by (by repeat split; cbn). split; [|done|done]. exists v'. by repeat split.
  - apply (inj Some) in Hs as <-. destruct (flush_settles 0 v (set_content u e)) as (v' & -> & Hd' & Hc' & Hr').
    { done. }
    { by rewrite Hd, norm_idem. }
    split; [|done|done]. exists v'. split; [by repeat split|]. rewrite Hc'. split; [done|]. split; [|done].
    rewrite Hr'. destruct (_ =js _); lia.
  - injection Hs as <-. split.
    + exists v. split; [done|]. split; [done|]. split; [done|]. cbn. rewrite lookup_insert_eq. done.
    + cbn. split; [lia|]. rewrite lookup_insert_eq. congruence.
    + intros i. cbn. intros Hi. destruct (decide (i = next_load e)) as [->|Hne]; [lia|]. rewrite lookup_insert_ne in Hi by done.
      apply Hloads in Hi. lia.
  - unfold language_loaded in Hs. destruct (loading e !! i) as [lang|] eqn:E; [|done]. injection Hs as <-. cbn [current_load]. destruct (decide (i = current_load e)) as [->|Hne].
    + split.
      * eexists. split; [split; [cbn; by rewrite Hv|done]|]. split; [done|]. split; [done|]. intros _. cbn.
        by rewrite (Hlang lang E).
      * cbn. split; [lia|]. by rewrite lookup_delete_eq.
      * intros j. cbn. intros [Hj Hl]%lookup_delete_is_Some. by apply Hloads.
    + split.
      * exists v. split; [done|]. split; [done|]. split; [done|]. cbn. by rewrite lookup_delete_ne.
      * cbn. split; [lia|]. rewrite lookup_delete_ne by done. apply Hlang.
      * intros j. cbn. intros [Hj Hl]%lookup_delete_is_Some. by apply Hloads.
  - injection Hs as <-. split; [|done|done]. eexists. split; [split; [cbn; by rewrite Hv|done]|]. done.
  - injection Hs as <-. split; [|done|done]. eexists. split; [split; [cbn; by rewrite Hv|done]|]. cbn.
    split; [|done]. rewrite <-static_themed with (d := dark e). by rewrite <-Hcfg.
Qed.
Lemma run_follows t n e ls e' :
  editor_run e ls = Some e' → follows t n e →
  follows (foldl last_text t ls) (length (List.filter (λ l, match l with LReplace _ => true | _ => false end) ls) + n) e'.
Proof.
  revert t n e. induction ls as [|l ls IH]; intros t n e Hr Hf; [by injection Hr as <-|].
  cbn [editor_run] in Hr. destruct (editor_step e l) as [e1|] eqn:E; [|done].
  pose proof (IH _ _ e1 Hr (step_follows t n e l e1 E Hf)) as H. cbn [foldl List.filter].
  destruct l; cbn [puts] in H; try exact H. cbn [length]. by rewrite <-plus_n_Sm in H.
Qed.

Lemma opened_follows t s d lang : follows t 1 (opened t s d lang).
Proof.
  unfold opened.
  set (e := settings_effect s (language_effect lang (onMount (mkCodeEditor t None s d lang ∅ 0 0)))).
  assert (ce_view e = Some (mkView (norm t) (applySettings d s (static_config d s)) 0)) as Hv by done.
  destruct (flush_settles 0 _ e Hv) as (v' & -> & Hd & Hc & Hr); [apply norm_idem|]. split.
  - exists v'. split; [by repeat split|]. rewrite Hc. split; [done|]. split.
    + rewrite Hr. destruct (_ =js _); cbn; lia.
    + cbn. rewrite lookup_insert_eq. done.
  - cbn. split; [lia|]. rewrite lookup_insert_eq. congruence.
  - intros i. cbn. intros Hi. destruct (decide (i = 0)) as [->|Hne]; [lia|]. rewrite lookup_insert_ne in Hi by done.
    by destruct Hi.
Qed.

(** C15. The editor follows the page and the page the editor: however the user types, scripts are
    opened, languages, settings and theme change and modes arrive, in whatever order, the document is
    the text of the page, the one that was typed or opened last; the whole text is replaced for the
    first text and for opened scripts only, never while the user types; the configuration is that of
    the settings and theme of the moment; and once the mode of the chosen language has arrived it is
    the one in use, whatever older loads answer later. *)
Theorem editor_follows_page t s d lang ls e :
  editor_run (opened t s d lang) ls = Some e →
  ∃ v, ce_view e = Some v
    ∧ content e = norm (foldl last_text t ls) ∧ doc v = content e
    ∧ replaced v <= 1 + length (List.filter (λ l, match l with LReplace _ => true | _ => false end) ls)
    ∧ set_language None (config v) = static_config (dark e) (ce_settings e)
    ∧ (loading e !! current_load e = None → c_language (config v) = loadLanguage (ce_lang e)).
Proof.
  intros Hr. destruct (run_follows t 1 _ ls e Hr (opened_follows t s d lang)) as [(v & (Hv & Hc & Hd) & Hcfg & Hn & Hm) _ _].
  exists v. split; [done|]. split; [done|]. split; [congruence|]. split; [|done]. by rewrite Nat.add_comm.
Qed.
End editor.

(** The setting [use_tabs] changes nothing: the editor is configured the same with and without it. *)
Theorem use_tabs_ignored dark s c b :
  let s' := mkEditorSettings (font_size s) (tab_size s) b (word_wrap s) (show_line_numbers s) in
  static_config dark s' = static_config dark s ∧ applySettings dark s' c = applySettings dark s c.
Proof. done. Qed.

(** ** The theorem, concretely *)

(** Line ends made uniform. *)
Fixpoint uniform (t : jstr) : jstr :=
  match t with
  | [] => []
  | c :: r =>
      if (c =? 13)%N then match r with d :: r' => if (d =? 10)%N then 10%N :: uniform r' else 10%N :: uniform r | [] => [10%N] end
      else c :: uniform r
  end.

Lemma uniform_no_return n t : length t <= n → 13%N ∉ uniform t.
Proof.
  revert t. induction n as [|n IH]; intros [|c r] Hl; cbn [uniform length] in *; try apply not_elem_of_nil; [lia|].
  destruct (N.eqb_spec c 13) as [->|Hc].
  - destruct r as [|d r']; [by intros H%list_elem_of_singleton|]. cbn [length] in Hl.
    destruct (d =? 10)%N; (apply not_elem_of_cons; split; [done|]; apply IH; cbn [length]; lia).
  - apply not_elem_of_cons. split; [done|]. apply IH. lia.
Qed.

Lemma uniform_same t : 13%N ∉ t → uniform t = t.
Proof.
  induction t as [|c r IH]; [done|]. intros [Hc Hr]%not_elem_of_cons. cbn [uniform].
  destruct (N.eqb_spec c 13) as [->|_]; [done|]. by rewrite IH.
Qed.

Lemma uniform_idem t : uniform (uniform t) = uniform t.
Proof. apply uniform_same, (uniform_no_return (length t)), le_n. Qed.

Definition example_settings : EditorSettings := mkEditorSettings 14 4 false true true.

(** Two languages are chosen before the mode of the first has arrived, which answers last. *)
Definition example_run : list editor_label :=
  [LLanguage "go"; LType "a"; LLanguage "ruby"; LLoaded 2; LReplace ("b"%js ++ [13%N; 10%N]); LLoaded 1].

Definition example_editor : code_editor :=
  default (opened uniform [] example_settings false "python") (editor_run uniform (opened uniform [] example_settings false "python") example_run).

Lemma editor_follows_page_witness :
  ∃ v, ce_view example_editor = Some v
    ∧ content example_editor = uniform (foldl last_text [] example_run) ∧ doc v = content example_editor
    ∧ replaced v <= 2
    ∧ set_language None (config v) = static_config (dark example_editor) (ce_settings example_editor)
    ∧ (loading example_editor !! current_load example_editor = None →
       c_language (config v) = loadLanguage (ce_lang example_editor)).
Proof.
  apply (editor_follows_page uniform uniform_idem [] example_settings false "python" example_run).
  vm_compute. reflexivity.
Defined.

Example example_mode : (c_language ∘ config) <$> ce_view example_editor = Some (Some ModeRuby).
Proof. vm_compute. reflexivity. Qed.
