(* ===== verification/Session.v ===== *)
(** * Who may see a page

    Models the layout loads under [routes/]: [+layout.ts] (who is signed in),
    [(auth)/+layout.ts] and [admin/+layout.ts] (the guards), [admin/+page.ts].
    [redirect] and [error] of SvelteKit throw.  [resolve] (of [$app/paths]) is
    a parameter; a page's URL is its path and its search text. *)

From S2P Require Import Prelude JsString Uri JsValue Json ApiEnums Zod UrlBuilder UrlSpec BodySerializer BodySpec.
From S2P Require Import Headers Interceptors Client ApiErrors.

(** ** The source *)

(** What a load throws: [redirect(status, location)] or [error(status, detail)]. *)
Inductive thrown := Redirect (status : Z) (location : jstr) | HttpError (status detail : jsval).

Record page_url := mkUrl { pathname : jstr; search : jstr }.

(** [const { data, error: failure } = await getCurrentUser...()]. *)
Definition data_and_error (r : request_result) : jsval * jsval :=
  match r with
  | RFields data _ _ => (data, VUndefined)
  | RError e _ _ => (VUndefined, e)
  | RData v => (prop "data" v, prop "error" v)
  | RUndefinedData => (VUndefined, VUndefined)
  end.

(** The root layout's load, with the answer of the profile request: the user, or [null]. *)
Definition root_load (r : request_result) : outcome thrown jsval :=
  let '(data, failure) := data_and_error r in
  let status := prop "status" failure in
  if truthy failure && negb (is_literal (LNum 401) status) && negb (is_literal (LNum 0) status)
  then Throw (HttpError status (prop "detail" failure))
  else Return (if nullish data then VNull else data).

Section guards.
Context (resolve : jstr → jstr).

(** [`${resolve('/login')}?${new URLSearchParams({ redirect: ... })}`]. *)
Definition login_location (url : page_url) : jstr :=
  resolve "/login" ++ "?" ++ search_params_text [("redirect"%js, to_usv (pathname url ++ search url))].

Definition auth_load (user : jsval) (url : page_url) : outcome thrown jsval :=
  if negb (truthy user) then Throw (Redirect 307 (login_location url)) else Return user.

(** With the toasts it shows. *)
Definition admin_load (user : jsval) (url : page_url) : list ui_call * outcome thrown jsval :=
  if negb (truthy user) then ([], Throw (Redirect 307 (login_location url)))
  else if negb (is_literal (LStr (UserRole_value UserRole_ADMIN)) (prop "role" user)) then
    ([Toast ToastError "Admin access required" None], Throw (Redirect 307 (resolve "/")))
  else ([], Return user).

(** The load of [/admin] itself. *)
Definition admin_page_load : outcome thrown jsval := Throw (Redirect 307 "/admin/events").

(** A page under a guard: the root load runs first, and the guard awaits it. *)
Definition auth_page (r : request_result) (url : page_url) : outcome thrown jsval :=
  user ← root_load r; auth_load user url.

Definition admin_page (r : request_result) (url : page_url) : list ui_call * outcome thrown jsval :=
  match root_load r with Return user => admin_load user url | Throw e => ([], Throw e) end.
End guards.

(** ** What the guards admit *)

(** An error of the API in the client's data. *)
Definition api_error (v : jsval) (e : ErrorResponse) : Prop :=
  truthy v = true
  ∧ (∃ m x, prop "status" v = VNum (Dec m x) ∧ (0 <= x)%Z ∧ status e = (m * 10 ^ x)%Z)
  ∧ prop "detail" v = VStr (detail e).

Lemma error_value_api e : api_error (error_value e) e.
Proof. split; [done|]. split; [|done]. exists (status e), 0%Z. change (10 ^ 0)%Z with 1%Z. split; [done|lia]. Qed.

Lemma is_literal_int z m x : (0 <= x)%Z → is_literal (LNum z) (VNum (Dec m x)) = (m * 10 ^ x =? z)%Z.
Proof.
  intros Hx. unfold is_literal, dec_le, dec_ge. rewrite (proj2 (Z.leb_le 0 x) Hx).
  destruct (Z.eqb_spec (m * 10 ^ x) z); lia.
Qed.

(** Nobody is signed in: the API says so, or it does not answer. *)
Definition signed_out (e : ErrorResponse) : bool := ((status e =? 401) || (status e =? 0))%Z.

Lemma root_load_error v e q p :
  api_error v e →
  root_load (RError v q p)
  = if signed_out e then Return VNull else Throw (HttpError (prop "status" v) (VStr (detail e))).
Proof.
  intros (Ht & (m & x & Hs & Hx & He) & Hd). unfold root_load, data_and_error, signed_out.
  rewrite Ht, Hs, Hd, !is_literal_int, <-He by done. cbn [nullish andb].
  by destruct (status e =? 401)%Z, (status e =? 0)%Z.
Qed.

Definition is_admin (user : jsval) : bool :=
  is_literal (LStr (UserRole_value UserRole_ADMIN)) (prop "role" user).

(** C20. The guards admit exactly whom the API says: a guarded page loads for the user the profile
    request answered with, an admin page only for one whose role is admin (anyone else signed in is
    told so and sent home); nobody signed in, or no answer, goes to the login page; any other failure
    is an error page and never a sign-out. *)
Theorem guards_admit resolve r url :
  match r with
  | RFields user _ _ =>
      if truthy user then
        auth_page resolve r url = Return user
        ∧ admin_page resolve r url
          = if is_admin user then ([], Return user)
            else ([Toast ToastError "Admin access required" None], Throw (Redirect 307 (resolve "/")))
      else auth_page resolve r url = Throw (Redirect 307 (login_location resolve url))
           ∧ admin_page resolve r url = ([], Throw (Redirect 307 (login_location resolve url)))
  | RError v _ _ =>
      ∀ e, api_error v e →
      let out := if signed_out e then Redirect 307 (login_location resolve url)
                 else HttpError (prop "status" v) (VStr (detail e)) in
      auth_page resolve r url = Throw out ∧ admin_page resolve r url = ([], Throw out)
  | _ => True
  end.
Proof.
  destruct r as [|user q p| |v q p]; try done; unfold auth_page, admin_page, auth_load, admin_load.
  - change (root_load (RFields user q p)) with (Return (E := thrown) (if nullish user then VNull else user)).
    unfold is_admin. destruct (truthy user) eqn:E.
    + assert (nullish user = false) as -> by (by destruct user). cbn [mbind outcome_bind]. rewrite E.
      split; [done|]. by destruct (is_literal _ _).
    + assert (truthy (if nullish user then VNull else user) = false) as Ht by (by destruct (nullish user)).
      cbn [mbind outcome_bind]. by rewrite Ht.
  - intros e He. rewrite (root_load_error v e) by done. by destruct (signed_out e).
Qed.

(** The text after a location's question mark, read as a form. *)
Definition location_params (location : jstr) : jstr * option (list (jstr * jstr)) :=
  let '(path, query) := cut 63 location in (path, query ≫= parse_form).

Lemma login_location_reads resolve url :
  63%N ∉ resolve "/login" → well_formed (pathname url ++ search url) →
  location_params (login_location resolve url) = (resolve "/login", Some [("redirect"%js, pathname url ++ search url)]).
Proof.
  intros Hlogin Hurl. unfold location_params, login_location.
  change (resolve "/login" ++ "?" ++ ?t) with (resolve "/login" ++ 63%N :: t). rewrite cut_at by done.
  rewrite to_usv_id by done. cbn [mbind option_bind]. rewrite parse_form_text; [done|].
  constructor; [|constructor]. split; [apply ascii_text; reflexivity|done].
Qed.

(** C21. An expired session costs no place: when a signed-in user's call fails with a 401, the user
    is told once, what the queries hold is cleared and the loads run again; the profile request then
    fails the same way, and the guard sends the page to the login page with a parameter that reads
    back as the path and search of the page the user was on. *)
Theorem session_expiry_returns resolve v e q p url :
  api_error v e → status e = 401%Z → 63%N ∉ resolve "/login" → well_formed (pathname url ++ search url) →
  showApiError true e false
  = [Toast ToastWarning "Session expired. Please log in again." (Some "session-expired"%js); ClearQueries; RefreshAll]
  ∧ ∃ location, auth_page resolve (RError v q p) url = Throw (Redirect 307 location)
                ∧ location_params location = (resolve "/login", Some [("redirect"%js, pathname url ++ search url)]).
Proof.
  intros Hv He Hlogin Hurl. split; [unfold showApiError; by rewrite He|].
  exists (login_location resolve url). split; [|by apply login_location_reads].
  unfold auth_page. rewrite (root_load_error v e) by done. unfold signed_out. by rewrite He.
Qed.

Lemma session_expiry_returns_witness :
  showApiError true (mkErrorResponse 401 "Not authenticated") false
  = [Toast ToastWarning "Session expired. Please log in again." (Some "session-expired"%js); ClearQueries; RefreshAll]
  ∧ ∃ location,
      auth_page (λ p, p) (RError (error_value (mkErrorResponse 401 "Not authenticated")) None None)
        (mkUrl "/editor" "?tab=1&x=a+b") = Throw (Redirect 307 location)
      ∧ location_params location = ("/login"%js, Some [("redirect"%js, "/editor?tab=1&x=a+b"%js)]).
Proof.
  apply (session_expiry_returns (λ p, p) (error_value (mkErrorResponse 401 "Not authenticated"))
           (mkErrorResponse 401 "Not authenticated") None None (mkUrl "/editor" "?tab=1&x=a+b"));
    [apply error_value_api|done| |apply ascii_text; reflexivity].
  apply (bool_decide_unpack _). by vm_compute.
Defined.

Example login_location_example :
  login_location (λ p, p) (mkUrl "/editor" "?tab=1") = "/login?redirect=%2Feditor%3Ftab%3D1".
Proof. vm_compute. reflexivity. Qed.

Lemma guards_admit_witness :
  auth_page (λ p, p) (RError (error_value (mkErrorResponse 429 "slow")) None None) (mkUrl "/admin/users" [])
  = Throw (HttpError (VInt 429) (VStr "slow"))
  ∧ admin_page (λ p, p) (RError (error_value (mkErrorResponse 429 "slow")) None None) (mkUrl "/admin/users" [])
    = ([], Throw (HttpError (VInt 429) (VStr "slow"))).
Proof.
  apply (guards_admit (λ p, p) (RError (error_value (mkErrorResponse 429 "slow")) None None)
           (mkUrl "/admin/users" []) (mkErrorResponse 429 "slow") (error_value_api _)).
Defined.
