(* ===== verification/Shell.v ===== *)
(** * The shell of the application: signing in and out, theme and menu

    Models [routes/login/+page.svelte] (where a sign-in goes), [components/Header.svelte]
    (theme, menu, sign-out), the theme of [routes/+layout.svelte], and the links of
    [routes/admin/+layout.svelte] with [lib/admin/constants.ts].

    [match] and [resolve] of SvelteKit are parameters: [match] knows the pages of this
    application only, and looks at the path of what it is given. *)

From S2P Require Import Prelude JsString Uri JsValue UrlSpec ApiEnums ApiErrors Session.

(** ** Signing in *)

Definition editor_page : jstr := "/(auth)/editor".

Section login.
Context (resolve : jstr → jstr) (match_ : jstr → option jstr).

(** [redirect] is [page.url.searchParams.get('redirect')]. *)
Definition login_destination (redirect : option jstr) : jstr :=
  resolve (default editor_page (match_ (default (resolve editor_page) redirect))).

(** The first value of a parameter of the location's search text. *)
Definition location_param (name location : jstr) : option jstr := (location_params location).2 ≫= obj_get name.
End login.

(** ** Theme *)

(** [themes[(themes.indexOf(current) + 1) % themes.length]]. *)
Definition next_theme (current : Theme) : Theme :=
  let i := match list_find (eq current) Theme_all with Some (i, _) => S i | None => 0 end in
  default current (Theme_all !! (i mod length Theme_all)).

(** The mode shown, the theme of the settings in the cache, and the themes that were sent and not
    yet answered, oldest first. *)
Record shell := mkShell {
  mode : Theme;
  settings_theme : option Theme;
  saving : list Theme;
}.

Definition setMode (t : Theme) (s : shell) : shell := mkShell t (settings_theme s) (saving s).

(** New settings in the cache, whose theme the root layout shows. *)
Definition settings_changed (t : Theme) (s : shell) : shell := setMode t (mkShell (mode s) (Some t) (saving s)).

Definition handleToggleTheme (signed_in : bool) (s : shell) : shell :=
  let next := next_theme (mode s) in
  let s := setMode next s in
  if signed_in then mkShell (mode s) (settings_theme s) (saving s ++ [next]) else s.

(** [onSuccess] of [saveTheme], for the save at place [i]: the API answers the settings with the theme
    it was sent. *)
Definition theme_saved (i : nat) (s : shell) : option shell :=
  t ← saving s !! i; Some (settings_changed t (mkShell (mode s) (settings_theme s) (delete i (saving s)))).

(** ** Menu and sign-out *)

Definition isMenuActive (requested desktop : bool) : bool := requested && negb desktop.
Definition toggleMenu (requested desktop : bool) : bool := negb (isMenuActive requested desktop).
Definition closeMenu : bool := false.

Inductive shell_call := ClearCache | CloseMenu | Goto (location : jstr).

(** [onSettled] of [logout]: also when it failed. *)
Definition logged_out (resolve : jstr → jstr) : list shell_call := [ClearCache; CloseMenu; Goto (resolve "/login")].

(** ** The links of the administration *)

Record AdminRoute := mkAdminRoute { path : jstr; sidebarLabel : jstr; pageHeading : jstr }.

Definition ADMIN_ROUTES : list AdminRoute := [
  mkAdminRoute "/admin/events" "Event Browser" "Event Browser";
  mkAdminRoute "/admin/executions" "Executions" "Execution Management";
  mkAdminRoute "/admin/users" "Users" "User Management";
  mkAdminRoute "/admin/settings" "Settings" "System Settings"].

(** The links, with the one that is marked as the current page. *)
Definition admin_links (resolve : jstr → jstr) (pathname : jstr) : list (jstr * bool) :=
  map (λ r, (resolve (path r), pathname =js resolve (path r))) ADMIN_ROUTES.

(** ** Signing in again returns to the page *)

Section login_spec.
Context (resolve : jstr → jstr) (match_ : jstr → option jstr) (pages : list jstr).
Context (match_knows : ∀ u id, match_ u = Some id → id ∈ pages).

(** C40. Signing in leads to a page of the application, whatever the address asks for; and from the
    guard of a page it leads back to that page: the location the guard redirects to carries the page,
    and the destination read from it is the page's own path, when [match] finds the page by its path
    and search and [resolve] names it again.  The search text is not part of it. *)
Theorem login_returns :
  editor_page ∈ pages →
  (∀ redirect, ∃ id, id ∈ pages ∧ login_destination resolve match_ redirect = resolve id)
  ∧ ∀ url id, match_ (pathname url ++ search url) = Some id → resolve id = pathname url →
      63%N ∉ resolve "/login" → well_formed (pathname url ++ search url) →
      auth_load resolve JsValue.VNull url = Throw (Redirect 307 (login_location resolve url))
      ∧ login_destination resolve match_ (location_param "redirect" (login_location resolve url)) = pathname url.
Proof.
  intros Heditor. split.
  - intros redirect. unfold login_destination.
    destruct (match_ (default (resolve editor_page) redirect)) as [id|] eqn:E; [|by exists editor_page].
    exists id. split; [by eapply match_knows|done].
  - intros url id Hm Hr Hq Hwf. split; [done|]. unfold login_destination, location_param.
    rewrite (login_location_reads resolve url Hq Hwf). cbn. rewrite jeqb_refl. cbn. by rewrite Hm.
Qed.
End login_spec.

(** ** The theme that is shown *)

Inductive shell_label := LToggle (signed_in : bool) | LSaved (i : nat) | LSaveFailed (i : nat) | LSettings (t : Theme).

Definition shell_step (s : shell) (l : shell_label) : option shell :=
  match l with
  | LToggle signed_in => Some (handleToggleTheme signed_in s)
  | LSaved i => theme_saved i s
  | LSaveFailed i => if decide (i < length (saving s)) then Some (mkShell (mode s) (settings_theme s) (delete i (saving s))) else None
  | LSettings t => Some (settings_changed t s)
  end.

Fixpoint shell_run (s : shell) (ls : list shell_label) : option shell :=
  match ls with [] => Some s | l :: ls => s ← shell_step s l; shell_run s ls end.

(** Saves are answered, and in the order they were made. *)
Definition in_order (l : shell_label) : bool := match l with LToggle b => b | LSaved 0 => true | _ => false end.

(** The theme that was chosen last. *)
Fixpoint chosen (c : Theme) (s : shell) (ls : list shell_label) : Theme :=
  match ls with
  | [] => c
  | l :: ls =>
      let c := match l with LToggle _ => next_theme (mode s) | _ => c end in
      match shell_step s l with Some s => chosen c s ls | None => c end
  end.

(** It is the last theme that is being saved, or the one of the settings and of the page. *)
Definition settling (c : Theme) (s : shell) : Prop :=
  match last (saving s) with Some t => t = c | None => settings_theme s = Some c ∧ mode s = c end.

Lemma step_settling c s l s' :
  in_order l = true → shell_step s l = Some s' → settling c s →
  settling (match l with LToggle _ => next_theme (mode s) | _ => c end) s'.
Proof.
  unfold settling. destruct l as [[]|[|i]|i|t]; intros Hl Hs Hset; try discriminate Hl.
  - injection Hs as <-. cbn. by rewrite last_snoc.
  - cbn in Hs. unfold theme_saved in Hs. destruct (saving s) as [|t ts] eqn:E; [done|]. injection Hs as <-. cbn.
    rewrite last_cons in Hset. destruct (last ts); [done|]. by rewrite Hset.
Qed.

Lemma run_settling c s ls s' :
  forallb in_order ls = true → shell_run s ls = Some s' → settling c s → settling (chosen c s ls) s'.
Proof.
  revert c s. induction ls as [|l ls IH]; intros c s Hl Hr Hset; [by injection Hr as <-|].
  cbn [forallb shell_run chosen] in *. apply andb_prop in Hl as [Hl Hls]. destruct (shell_step s l) as [s1|] eqn:E; [|done].
  apply (IH _ s1 Hls Hr). by apply (step_settling c s).
Qed.

(** The theme settles: a signed-in user may toggle the theme as often and as fast as he likes; when
    the saves are answered in their order and none is left, the page shows the theme that was chosen
    last, and the settings hold it. *)
Theorem theme_settles s ls s' :
  settings_theme s = Some (mode s) → saving s = [] → forallb in_order ls = true → shell_run s ls = Some s' →
  saving s' = [] →
  mode s' = chosen (mode s) s ls ∧ settings_theme s' = Some (chosen (mode s) s ls).
Proof.
  intros Hset Hs Hl Hr Hs'. assert (settling (chosen (mode s) s ls) s') as H.
  { apply run_settling; [done|done|]. unfold settling. by rewrite Hs. }
  unfold settling in H. rewrite Hs' in H. by destruct H.
Qed.

(** An answer undoes a later toggle: while the second of two saves is under way, the answer to the
    first shows its theme again, so the next toggle chooses the theme of the second once more instead
    of the third. *)
Theorem early_answer_undoes t :
  let s := mkShell t (Some t) [] in
  let t1 := next_theme t in
  ∃ s2 s3, shell_run s [LToggle true; LToggle true] = Some s2 ∧ mode s2 = next_theme t1
    ∧ shell_run s2 [LSaved 0] = Some s3 ∧ mode s3 = t1
    ∧ mode (handleToggleTheme true s3) = next_theme t1
    ∧ mode (handleToggleTheme true s2) = t.
Proof. eexists _, _. split; [reflexivity|]. split; [reflexivity|]. split; [reflexivity|]. by destruct t. Qed.

(** ** The theorems, concretely *)

Definition example_pages : list jstr := ["/(auth)/editor"; "/admin/users"]%js.
Definition example_match (u : jstr) : option jstr :=
  match cut 63 u with
  | (p, _) => if p =js "/editor" then Some editor_page else if p =js "/admin/users" then Some "/admin/users"%js else None
  end.
Definition example_resolve (id : jstr) : jstr := if id =js editor_page then "/editor"%js else id.

Lemma example_match_knows u id : example_match u = Some id → id ∈ example_pages.
Proof.
  unfold example_match. destruct (cut 63 u) as [p q]. destruct (p =js "/editor"); [intros [= <-]; left|].
  destruct (p =js "/admin/users"); [intros [= <-]; right; left|done].
Qed.

Lemma login_returns_witness :
  (∀ redirect, ∃ id, id ∈ example_pages ∧ login_destination example_resolve example_match redirect = example_resolve id)
  ∧ ∀ url id, example_match (pathname url ++ search url) = Some id → example_resolve id = pathname url →
      63%N ∉ example_resolve "/login" → well_formed (pathname url ++ search url) →
      auth_load example_resolve JsValue.VNull url = Throw (Redirect 307 (login_location example_resolve url))
      ∧ login_destination example_resolve example_match (location_param "redirect" (login_location example_resolve url))
        = pathname url.
Proof. apply (login_returns example_resolve example_match example_pages example_match_knows). by left. Defined.

Lemma login_returns_example :
  login_destination example_resolve example_match
    (location_param "redirect" (login_location example_resolve (mkUrl "/admin/users" "?page=2"))) = "/admin/users".
Proof. vm_compute. reflexivity. Qed.

Definition lit_page : shell := mkShell Theme_LIGHT (Some Theme_LIGHT) [].

Lemma theme_settles_witness :
  let ls := [LToggle true; LToggle true; LSaved 0; LSaved 0] in
  let s' := mkShell Theme_SYSTEM (Some Theme_SYSTEM) [] in
  mode s' = chosen Theme_LIGHT lit_page ls ∧ settings_theme s' = Some (chosen Theme_LIGHT lit_page ls).
Proof. by apply (theme_settles lit_page [LToggle true; LToggle true; LSaved 0; LSaved 0]). Defined.
