(* ===== verification/Formatters.v ===== *)
(** * How values read in the interface

    Models [lib/formatters.ts].  A number is an IEEE double ([spec_float] of
    the standard library, with its operations); [Math.floor], [Math.round],
    [toFixed] and [%] are defined on the exact value.  Parsing a date, the
    locale's formats and the differences of date-fns are parameters. *)

From Stdlib Require Import SpecFloat.
From S2P Require Import Prelude JsString.

(** ** Doubles *)

Definition double : Type := spec_float.
Definition double_of_Z (z : Z) : double := binary_normalize 53 1024 z 0 false.
Definition fmul : double → double → double := SFmul 53 1024.
Definition fdiv : double → double → double := SFdiv 53 1024.

Definition signed_mantissa (s : bool) (m : positive) : Z := if s then Z.neg m else Z.pos m.

(** The integers below, nearest to (halves up), and nearest to ten times [z * 2^e]. *)
Definition floor_of (z e : Z) : Z := (if 0 <=? e then z * 2 ^ e else z / 2 ^ (- e))%Z.
Definition round_of (z e : Z) : Z := (if 0 <=? e then z * 2 ^ e else (z + 2 ^ (- e - 1)) / 2 ^ (- e))%Z.

(** [`${Math.floor(x)}`] and [`${Math.round(x)}`], for integers below 10^21. *)
Definition integer_text (f : Z → Z → Z) (x : double) : jstr :=
  match x with
  | S754_nan => "NaN"
  | S754_infinity s => if s then "-Infinity" else "Infinity"
  | S754_zero _ => "0"
  | S754_finite s m e => string_of_Z (f (signed_mantissa s m) e)
  end.
Definition floor_text : double → jstr := integer_text floor_of.
Definition round_text : double → jstr := integer_text round_of.

(** [Math.floor(x) > 0]. *)
Definition floor_positive (x : double) : bool :=
  match x with
  | S754_finite s m e => (0 <? floor_of (signed_mantissa s m) e)%Z
  | S754_infinity s => negb s
  | _ => false
  end.

(** [x.toFixed(1)] for a number that is not negative and below 10^21. *)
Definition toFixed1 (x : double) : jstr :=
  let n := match x with S754_finite _ m e => round_of (10 * Z.pos m) e | _ => 0%Z end in
  string_of_Z (n / 10) ++ "." ++ string_of_Z (n mod 10).

(** [x % n] for an [x] that is not negative and an integer [n]: the remainder is exact. *)
Definition fmod (x : double) (n : Z) : double :=
  match x with
  | S754_finite s m e =>
      binary_normalize 53 1024
        (if 0 <=? e then (Z.pos m * 2 ^ e) mod n else Z.pos m mod (n * 2 ^ (- e)))%Z (Z.min e 0) s
  | S754_zero s => S754_zero s
  | _ => S754_nan
  end.

(** ** Durations *)

Definition formatDuration (seconds : option double) : jstr :=
  match seconds with
  | None => "N/A"
  | Some seconds =>
      if SFltb seconds (double_of_Z 0) then "N/A"
      else if SFltb seconds (double_of_Z 1) then round_text (fmul seconds (double_of_Z 1000)) ++ "ms"
      else if SFltb seconds (double_of_Z 60) then toFixed1 seconds ++ "s"
      else if SFltb seconds (double_of_Z 3600) then
        let mins := fdiv seconds (double_of_Z 60) in
        let secs := fmod seconds 60 in
        if floor_positive secs then floor_text mins ++ "m " ++ floor_text secs ++ "s" else floor_text mins ++ "m"
      else
        let hours := fdiv seconds (double_of_Z 3600) in
        let mins := fdiv (fmod seconds 3600) (double_of_Z 60) in
        if floor_positive mins then floor_text hours ++ "h " ++ floor_text mins ++ "m" else floor_text hours ++ "h"
  end.

Section dates.
(** The time of [new Date(s)] in milliseconds, [None] when it is invalid; the formats of the locale. *)
Context (parse_date : jstr → option Z) (toLocaleString toLocaleDateString toLocaleTimeString : Z → jstr).
(** The differences of date-fns, and the present time. *)
Context (differenceInSeconds differenceInMinutes differenceInHours differenceInDays : Z → Z → Z) (now : Z).

Definition validDate (timestamp : option jstr) : option Z :=
  match timestamp with Some ((_ :: _) as s) => parse_date s | _ => None end.

Definition formatTimestamp (timestamp : option jstr) : jstr :=
  match validDate timestamp with Some d => toLocaleString d | None => "N/A" end.
Definition formatDateOnly (timestamp : option jstr) : jstr :=
  match validDate timestamp with Some d => toLocaleDateString d | None => "N/A" end.
Definition formatTimeOnly (timestamp : option jstr) : jstr :=
  match validDate timestamp with Some d => toLocaleTimeString d | None => "N/A" end.

Definition formatDurationBetween (startDate endDate : option jstr) : jstr :=
  match validDate startDate, validDate endDate with
  | Some s, Some e =>
      let durationMs := (e - s)%Z in
      if (durationMs <? 0)%Z then "N/A" else formatDuration (Some (fdiv (double_of_Z durationMs) (double_of_Z 1000)))
  | _, _ => "N/A"
  end.

Definition formatRelativeTime (timestamp : option jstr) : jstr :=
  match validDate timestamp with
  | None => "N/A"
  | Some date =>
      if (now <? date)%Z then toLocaleDateString date
      else if (differenceInSeconds now date <? 60)%Z then "just now"
      else if (differenceInMinutes now date <? 60)%Z then string_of_Z (differenceInMinutes now date) ++ "m ago"
      else if (differenceInHours now date <? 24)%Z then string_of_Z (differenceInHours now date) ++ "h ago"
      else if (differenceInDays now date <? 7)%Z then string_of_Z (differenceInDays now date) ++ "d ago"
      else toLocaleDateString date
  end.
End dates.

(** ** Texts *)

Definition truncate (str : option jstr) (maxLength : Z) : jstr :=
  match str with
  | None | Some [] => []
  | Some s =>
      if (Z.of_nat (length s) <=? maxLength)%Z then s
      else js_slice 0 (maxLength - 3) s ++ "..."
  end.

Definition formatBoolean (value : bool) : jstr := if value then "Yes" else "No".

(** The replacement of every word [[a-z]+] (either case) by its capitalised form: [inside] says
    whether the last character was a letter. *)
Fixpoint title_words (inside : bool) (s : jstr) : jstr :=
  match s with
  | [] => []
  | c :: r =>
      if is_letter c then (if inside then lower_ascii c else upper_ascii c) :: title_words true r
      else c :: title_words false r
  end.

Definition fieldTitle (key : jstr) : jstr :=
  map (λ c, if (c =? 95)%N then 32%N else c) (title_words false key).

Example formatDuration_examples :
  map (λ z, formatDuration (Some (double_of_Z z))) [0; 30; 90; 120; 3660; 3600; -5]%Z
  = ["0ms"; "30.0s"; "1m 30s"; "2m"; "1h 1m"; "1h"; "N/A"]%js.
Proof. vm_compute. reflexivity. Qed.
Example fieldTitle_example : map fieldTitle ["created_at"; "k8s_limit"; "userID"] = ["Created At"; "K8S Limit"; "Userid"].
Proof. reflexivity. Qed.

(** ** Titles *)

(** The key a title stands for. *)
Definition title_key (t : jstr) : jstr := map (λ c, if (c =? 32)%N then 95%N else lower_ascii c) t.

Definition key_char (c : N) : bool := is_lower c || is_digit c || (c =? 95)%N.

Lemma lower_key_char c inside :
  key_char c = true → is_letter c = true →
  let d := if inside : bool then lower_ascii c else upper_ascii c in
  (d =? 95)%N = false ∧ (d =? 32)%N = false ∧ lower_ascii d = c.
Proof.
  unfold key_char, is_letter, is_upper, is_lower, is_digit, lower_ascii, upper_ascii. unfold is_upper, is_lower.
  intros Hc Hl. assert ((97 <=? c) && (c <=? 122) = true)%N as H by lia. rewrite H.
  assert ((65 <=? c) && (c <=? 90) = false)%N as -> by lia.
  destruct inside; repeat split; try lia.
  - by assert ((65 <=? c) && (c <=? 90) = false)%N as -> by lia.
  - assert ((65 <=? c - 32) && (c - 32 <=? 90) = true)%N as -> by lia. lia.
Qed.

Lemma upper_not_lower c : is_lower (upper_ascii c) = false.
Proof. unfold upper_ascii. destruct (is_lower c) eqn:E; [unfold is_lower in *; lia|done]. Qed.

(** A field's label names its key: capitalising the words of a key and writing spaces for its
    underscores can be undone, so different keys have different labels; and the label starts with no
    lower-case letter. *)
Theorem fieldTitle_roundtrip k :
  forallb key_char k = true →
  title_key (fieldTitle k) = k ∧ match fieldTitle k with c :: _ => is_lower c = false | [] => True end.
Proof.
  intros Hk. split.
  - unfold fieldTitle, title_key. generalize false as inside. induction k as [|c k IH]; intros inside; [done|].
    cbn [forallb] in Hk. apply andb_prop in Hk as [Hc Hk]. cbn [title_words]. destruct (is_letter c) eqn:El; cbn [map].
    + rewrite IH by done. f_equal.
      destruct (lower_key_char c inside Hc El) as (-> & -> & ?). done.
    + rewrite IH by done. f_equal.
      unfold key_char, is_letter, is_upper, is_lower, is_digit, lower_ascii in *. unfold is_upper.
      repeat case_match; lia.
  - unfold fieldTitle. destruct k as [|c k]; [done|]. cbn [forallb] in Hk. apply andb_prop in Hk as [Hc _].
    cbn [title_words]. destruct (is_letter c) eqn:El; cbn [map].
    + destruct (lower_key_char c false Hc El) as (H & _). cbn iota in H. rewrite H. apply upper_not_lower.
    + destruct (c =? 95)%N; [done|]. by apply orb_false_iff in El as [_ ?].
Qed.

(** ** Truncation *)

Lemma truncate_long s m :
  (Z.of_nat (length s) > m)%Z → s ≠ [] → truncate (Some s) m = js_slice 0 (m - 3) s ++ "...".
Proof.
  intros Hm Hs. unfold truncate. destruct s as [|c s]; [done|].
  by rewrite (proj2 (Z.leb_gt _ _)) by lia.
Qed.

Lemma js_slice_prefix s n :
  (0 <= n <= Z.of_nat (length s))%Z → js_slice 0 n s = take (Z.to_nat n) s.
Proof.
  intros Hn. unfold js_slice, slice_index. rewrite (proj2 (Z.ltb_ge 0 0)), (proj2 (Z.ltb_ge n 0)) by lia.
  rewrite !Z.min_l by lia. destruct (0 <? n)%Z eqn:E.
  - by rewrite drop_0, Z.sub_0_r.
  - by replace (Z.to_nat n) with 0 by lia.
Qed.

(** A truncated text fits, and only loses its end: for a maximum of at least three characters
    (the ellipsis), the result is no longer than the maximum, a text that fits is unchanged, and a
    longer one becomes its first characters and an ellipsis, exactly as long as the maximum. *)
Theorem truncate_fits s m :
  (3 <= m)%Z →
  (Z.of_nat (length (truncate (Some s) m)) <= m)%Z
  ∧ ((Z.of_nat (length s) <= m)%Z → truncate (Some s) m = s)
  ∧ ((Z.of_nat (length s) > m)%Z →
     truncate (Some s) m = take (Z.to_nat (m - 3)) s ++ "..."
     ∧ Z.of_nat (length (truncate (Some s) m)) = m).
Proof.
  intros Hm. assert ((Z.of_nat (length s) <= m)%Z → truncate (Some s) m = s) as Hfit.
  { intros H. unfold truncate. destruct s as [|c s]; [done|]. by rewrite (proj2 (Z.leb_le _ _)) by lia. }
  assert ((Z.of_nat (length s) > m)%Z → truncate (Some s) m = take (Z.to_nat (m - 3)) s ++ "..."
          ∧ Z.of_nat (length (truncate (Some s) m)) = m) as Hcut.
  { intros H. assert (s ≠ []) by (intros ->; simpl in H; lia).
    rewrite truncate_long, js_slice_prefix by (done || lia). split; [done|].
    rewrite length_app, length_take. change (length "...") with 3. lia. }
  split; [|done]. destruct (Z.le_gt_cases (Z.of_nat (length s)) m) as [H|H]; [by rewrite Hfit|].
  destruct Hcut as [_ ->]; lia.
Qed.

Lemma truncate_fits_witness :
  (Z.of_nat (length (truncate (Some "execution_0123"%js) 12)) <= 12)%Z
  ∧ ((Z.of_nat (length "execution_0123") <= 12)%Z → truncate (Some "execution_0123"%js) 12 = "execution_0123")
  ∧ ((Z.of_nat (length "execution_0123") > 12)%Z →
     truncate (Some "execution_0123"%js) 12 = take (Z.to_nat (12 - 3)) ("execution_0123"%js) ++ "..."
     ∧ Z.of_nat (length (truncate (Some "execution_0123"%js) 12)) = 12%Z).
Proof. apply (truncate_fits "execution_0123" 12). lia. Defined.

Lemma fieldTitle_roundtrip_witness :
  title_key (fieldTitle "created_at") = "created_at"
  ∧ match fieldTitle "created_at" with c :: _ => is_lower c = false | [] => True end.
Proof. apply (fieldTitle_roundtrip "created_at"). reflexivity. Defined.

(** Below three the slice counts from the end, and the text outgrows its maximum. *)
Lemma truncate_small s m :
  (0 <= m < 3)%Z → (2 < Z.of_nat (length s))%Z → (m < Z.of_nat (length (truncate (Some s) m)))%Z.
Proof.
  intros Hm Hs. rewrite truncate_long by (lia || (intros ->; simpl in Hs; lia)). rewrite length_app.
  change (length "...") with 3. lia.
Qed.

(** ** Durations *)

Definition range (a b : Z) : list Z := map (λ i, a + Z.of_nat i)%Z (seq 0 (Z.to_nat (b - a))).

Lemma range_all (p : Z → bool) a b n : forallb p (range a b) = true → (a <= n < b)%Z → p n = true.
Proof.
  intros H Hn. rewrite forallb_forall in H. apply H. unfold range. apply in_map_iff.
  exists (Z.to_nat (n - a)). split; [lia|]. apply in_seq. lia.
Qed.

Definition of_milliseconds (ms : Z) : jstr := formatDuration (Some (fdiv (double_of_Z ms) (double_of_Z 1000))).

Lemma almost_a_minute_ok : forallb (λ ms, of_milliseconds ms =js "60.0s") (range 59950 60000) = true.
Proof. vm_compute. reflexivity. Qed.

(** A duration of up to a twentieth of a second less than a minute reads as 60.0s: the number
    is compared with 60 before it is rounded, so these do not get the form of a minute, which one
    second later and one earlier are 1m 1s, 59.0s. *)
Theorem almost_a_minute parse_date start end_ s e :
  validDate parse_date start = Some s → validDate parse_date end_ = Some e → (59950 <= e - s < 60000)%Z →
  formatDurationBetween parse_date start end_ = "60.0s"
  ∧ of_milliseconds 60000 = "1m" ∧ of_milliseconds 61000 = "1m 1s" ∧ of_milliseconds 59000 = "59.0s".
Proof.
  intros Hs He Hms. split; [|split; [|split]; vm_compute; reflexivity].
  unfold formatDurationBetween. rewrite Hs, He. rewrite (proj2 (Z.ltb_ge (e - s) 0)) by lia.
  pose proof (range_all _ _ _ _ almost_a_minute_ok Hms) as H. by apply jeqb_eq in H.
Qed.

Lemma almost_a_minute_witness :
  formatDurationBetween (λ s, Some (Z.of_nat (length s) * 59990)%Z) (Some "a"%js) (Some "bb"%js) = "60.0s"
  ∧ of_milliseconds 60000 = "1m" ∧ of_milliseconds 61000 = "1m 1s" ∧ of_milliseconds 59000 = "59.0s".
Proof.
  apply (almost_a_minute (λ s, Some (Z.of_nat (length s) * 59990)%Z) (Some "a"%js) (Some "bb"%js) 59990 119980);
    [reflexivity|reflexivity|lia].
Defined.
