(* ===== verification/Validation.v ===== *)
(** * What a form says of a value

    Models [lib/validation.ts] and the schema helpers of [lib/forms.ts]: our
    wording for the issues zod raises.  An issue is zod's; the fields that the
    wording reads are kept. *)

From S2P Require Import Prelude JsString JsValue ApiEnums Zod Formatters.

(** ** Issues *)

(** [$ZodRawIssue], by code; a code without wording keeps its name. *)
Inductive raw_issue :=
| TooSmall (origin : jstr) (minimum : jsval)
| TooBig (origin : jstr) (maximum : jsval)
| InvalidFormat (format : jstr)
| InvalidType (expected : jstr) (input : jsval)
| InvalidUnion (errors : list (list raw_issue))
| InvalidValue
| OtherIssue (code : jstr).

(** [`${v}`] of a limit, which is a number, a bigint or a date. *)
Definition limit_text (v : jsval) : jstr := default [] (to_js_string v).

Fixpoint issueMessage (issue : raw_issue) : option jstr :=
  match issue with
  | TooSmall origin minimum =>
      if negb (origin =js "string") then Some ("Must be at least " ++ limit_text minimum)
      else if is_literal (LNum 1) minimum then Some "Required"%js
      else Some ("Must be at least " ++ limit_text minimum ++ " characters")
  | TooBig origin maximum =>
      if origin =js "string" then Some ("Must be at most " ++ limit_text maximum ++ " characters")
      else Some ("Must be at most " ++ limit_text maximum)
  | InvalidFormat format => Some ("Must be a valid " ++ format)
  | InvalidType expected input =>
      if is_undefined input then Some "Required"%js else Some ("Must be a " ++ expected)
  | InvalidUnion errors =>
      (fix go (errors : list (list raw_issue)) : option jstr :=
         match errors with
         | [] => None
         | branch :: r =>
             match branch with
             | [] => go r
             | InvalidValue :: _ => go r
             | first :: _ => issueMessage first
             end
         end) errors
  | InvalidValue | OtherIssue _ => None
  end.

Inductive path_key := KeyName (s : jstr) | KeyIndex (i : N).

(** An issue of a parse: its place in the value, and zod's own message. *)
Record issue := mkIssue {
  raw : raw_issue;
  path : list path_key;
  message : jstr;
}.

(** [`${message.charAt(0).toLowerCase()}${message.slice(1)}`]: the messages start with an ASCII
    letter. *)
Definition lower_first (s : jstr) : jstr := match s with c :: r => lower_ascii c :: r | [] => [] end.

Definition firstIssue (issues : list issue) : jstr :=
  match issues with
  | [] => "Invalid input"
  | i :: _ =>
      let field := match last (path i) with Some (KeyName k) => fieldTitle k | _ => "Value"%js end in
      match issueMessage (raw i) with
      | None | Some [] => field ++ ": " ++ message i
      | Some m => if m =js "Required" then field ++ " is required" else field ++ " " ++ lower_first m
      end
  end.

(** ** [forms.ts] *)

(** [schema.check(z.minLength(1))] and [z.union([z.literal(''), schema])]. The formats (an email, a
    time) never accept the empty text, so the check adds nothing to them. *)
Definition filled (s : schema) : schema :=
  match s with ZString checks => ZString (checks ++ [MinLength 1]) | s => s end.
Definition optionalText (s : schema) : schema := ZUnion [ZLiteral (LStr []); s].

(** An option of [superForm]: a flag, a word, a schema with our wording of its issues, or a callback. *)
Inductive form_option :=
| OptFlag (b : bool)
| OptWord (w : jstr)
| OptSchema (s : schema) (error : raw_issue → option jstr)
| OptCallback.

(** What [apiForm] passes to [superForm]: a page's own options come last. *)
Definition apiForm_options (s : schema) (options : list (jstr * form_option)) : list (jstr * form_option) :=
  obj_spread [("SPA"%js, OptFlag true); ("dataType"%js, OptWord "json"); ("applyAction"%js, OptFlag false);
              ("invalidateAll"%js, OptFlag false); ("resetForm"%js, OptFlag false);
              ("validators"%js, OptSchema s issueMessage)] options.

(** A page that gives callbacks only keeps the form in the browser, under the schema and our wording,
    and what was entered in it after it is sent. *)
Lemma apiForm_keeps s options :
  NoDup (map fst options) → Forall (λ o, o.1 ∈ ["onSubmit"; "onUpdate"]%js) options →
  ∀ k v, (k, v) ∈ apiForm_options s [] → obj_get k (apiForm_options s options) = Some v.
Proof.
  intros Hd Ho k v Hk. unfold apiForm_options in *. rewrite obj_get_spread by done.
  assert (obj_get k options = None) as ->.
  { destruct (obj_get k options) as [x|] eqn:E; [|done]. exfalso.
    assert (k ∈ ["onSubmit"; "onUpdate"]%js) as Hc.
    { revert E. induction Ho as [|[k' y] l Hy _ IH]; [done|]. cbn [obj_get]. destruct (k =js k') eqn:E'.
      - by apply jeqb_eq in E' as ->.
      - intros E. apply NoDup_cons in Hd as [_ Hd]. by apply IH. }
    rewrite !elem_of_cons, elem_of_nil in Hc. cbn in Hk. rewrite !elem_of_cons, elem_of_nil in Hk.
    destruct Hc as [->|[->|[]]]; repeat (destruct Hk as [[=]|Hk]; []); done. }
  cbn in Hk. rewrite !elem_of_cons, elem_of_nil in Hk.
  repeat (destruct Hk as [[= -> ->]|Hk]; [reflexivity|]). done.
Qed.

Example firstIssue_example :
  firstIssue [mkIssue (InvalidUnion [[InvalidValue]; [TooSmall "string" (VInt 8)]]) [KeyName "new_password"] "x"]
  = "New Password must be at least 8 characters".
Proof. vm_compute. reflexivity. Qed.

(** ** Fields *)

Section fields.
Context {zod : Zod}.

Lemma string_checks checks v :
  safeParse (ZString checks) v = match v with VStr s => if forallb (string_ok s) checks then Some v else None | _ => None end.
Proof. rewrite safeParse_spec. by destruct v. Qed.

(** The two kinds of text field are the API's rule with the empty text excluded or allowed: a
    field that must be filled accepts the texts its rule accepts that are not empty, an optional one
    the empty text and the texts its rule accepts, and both leave what they accept unchanged. *)
Theorem text_fields checks v :
  safeParse (filled (ZString checks)) v
    = (if is_literal (LStr []) v then None else safeParse (ZString checks) v)
  ∧ safeParse (optionalText (ZString checks)) v
    = (if is_literal (LStr []) v then Some v else safeParse (ZString checks) v).
Proof.
  unfold filled, optionalText. split.
  - rewrite !string_checks. destruct v as [| | | | |s| | | | | | | |]; try done. rewrite forallb_app.
    destruct s as [|c s]; cbn.
    + by rewrite andb_false_r.
    + assert ((1 <=? Z.of_nat (S (length s)))%Z = true) as -> by lia. by rewrite !andb_true_r.
  - rewrite (safeParse_spec (ZUnion _)). cbn [zod_step parse_options].
    rewrite (safeParse_spec (ZLiteral _)). cbn [zod_step]. destruct (is_literal (LStr []) v); [done|].
    by destruct (safeParse (ZString checks) v).
Qed.
End fields.

Lemma text_fields_witness :
  @safeParse (reference_zod (λ _, true) (λ _, true)) (filled (ZString [MaxLength 3])) (VStr "ab")
    = (if is_literal (LStr []) (VStr "ab") then None
       else @safeParse (reference_zod (λ _, true) (λ _, true)) (ZString [MaxLength 3]) (VStr "ab"))
  ∧ @safeParse (reference_zod (λ _, true) (λ _, true)) (optionalText (ZString [MaxLength 3])) (VStr "ab")
    = (if is_literal (LStr []) (VStr "ab") then Some (VStr "ab")
       else @safeParse (reference_zod (λ _, true) (λ _, true)) (ZString [MaxLength 3]) (VStr "ab")).
Proof. apply (@text_fields (reference_zod (λ _, true) (λ _, true))). Defined.
