(* ===== verification/Forms.v ===== *)
(** * The forms

    Models the forms that save through the API: sign-in ([routes/login]), registration
    ([routes/register]), a user ([components/admin/users/UserFormModal.svelte]), rate limits
    ([RateLimitsModal.svelte]), the settings of the user and of the system
    ([routes/(auth)/settings], [routes/admin/settings]) and the deletion of a user
    ([DeleteUserModal.svelte]).  Each has a schema, built from the API's, and says what is sent when
    its data is valid.

    superforms is not part of the repository: [Superforms] is what [apiForm] relies on, that a
    submission is valid when the schema lets the data through and then carries what it answers. *)

From S2P Require Import Prelude JsString JsValue UrlBuilder UrlSpec Client Zod ApiEnums ApiTypes ApiSchemas SchemaSpec SchemaStable Sdk SdkSpec Formatters Validation.

Record submitted := mkSubmitted { valid : bool; data : jsval }.

Class Superforms := {
  submit : (jsval → option jsval) → jsval → submitted;
  submit_valid parse v w : parse v = Some w → submit parse v = mkSubmitted true w;
  submit_invalid parse v : parse v = None → valid (submit parse v) = false;
}.

(** [schema.shape.k] *)
Definition shape (s : schema) (k : jstr) : schema :=
  match s with ZObject fs => default ZUnknown (obj_get k fs) | _ => ZUnknown end.

Inductive form_effect (W : Type) :=
| Mutate (e : Endpoint) (o : RequestOptions W)
| ToastInfo (message : jstr).
Arguments Mutate {W}. Arguments ToastInfo {W}.

(** [{ path, query, body }] of a mutation. *)
Definition mutate_options {W} (path query : option (list (jstr * jsval))) (body : option jsval) : RequestOptions W :=
  mkRequestOptions None None None path query body None None None None None None None None None None None None None.

Section forms.
Context {W : Type}.
Implicit Types sub : submitted.

Definition send (e : Endpoint) (path : option (list (jstr * jsval))) (body : jsval) : list (form_effect W) :=
  [Mutate e (mutate_options path None (Some body))].

(** The form of every page but the settings' sends its data, if valid. *)
Definition when_valid (f : jsval → list (form_effect W)) sub : list (form_effect W) :=
  if valid sub then f (data sub) else [].

(** ** Sign-in and registration *)

Definition zLogin : schema :=
  ZObject [("username"%js, filled (shape zBodyLoginApiV1AuthLoginPost "username"));
           ("password"%js, filled (shape zBodyLoginApiV1AuthLoginPost "password"))].

Definition login_onUpdate : submitted → list (form_effect W) :=
  when_valid (send loginApiV1AuthLoginPost None).

Definition zRegister_fields : schema :=
  ZObject [("email"%js, shape zUserCreateWritable "email"); ("password"%js, shape zUserCreateWritable "password");
           ("username"%js, filled (shape zUserCreateWritable "username")); ("confirm_password"%js, ZString [])].

Definition same_text (a b : jsval) : bool := match a, b with VStr s, VStr t => s =js t | _, _ => false end.

Definition passwords_match (v : jsval) : bool := same_text (prop "password" v) (prop "confirm_password" v).

(** The fields, then the refinement of what they answer. *)
Definition zRegister {zod : Zod} (v : jsval) : option jsval :=
  w ← safeParse zRegister_fields v; if passwords_match w then Some w else None.

Definition register_onUpdate : submitted → list (form_effect W) :=
  when_valid (λ v, send registerApiV1AuthRegisterPost None
    (VObj [("username"%js, prop "username" v); ("email"%js, prop "email" v); ("password"%js, prop "password" v)])).

(** ** Users *)

Inductive user_mode := Create | Edit (user_id : jstr).

Definition zUser (mode : user_mode) : schema :=
  let password := shape zUserCreateWritable "password" in
  ZObject [("username"%js, filled (shape zUserCreateWritable "username")); ("email"%js, shape zUserCreateWritable "email");
           ("password"%js, match mode with Edit _ => optionalText password | Create => password end);
           ("role"%js, shape zUserCreateWritable "role"); ("is_active"%js, shape zUserCreateWritable "is_active")].

Definition user_body (v : jsval) : jsval :=
  VObj ([("username"%js, prop "username" v); ("email"%js, prop "email" v); ("role"%js, prop "role" v);
         ("is_active"%js, prop "is_active" v)]
        ++ (if truthy (prop "password" v) then [("password"%js, prop "password" v)] else [])).

Definition user_onUpdate (mode : user_mode) : submitted → list (form_effect W) :=
  when_valid (λ v, match mode with
                   | Create => send createUserApiV1AdminUsersPost None v
                   | Edit user_id => send updateUserApiV1AdminUsersUserIdPut (Some [("user_id"%js, VStr user_id)]) (user_body v)
                   end).

Definition delete_user (user_id : jstr) (cascade : bool) : list (form_effect W) :=
  [Mutate deleteUserApiV1AdminUsersUserIdDelete
     (mutate_options (Some [("user_id"%js, VStr user_id)]) (Some [("cascade"%js, VBool cascade)]) None)].

(** ** Rate limits *)

Definition limits_onUpdate (user_id : jstr) : submitted → list (form_effect W) :=
  when_valid (send updateUserRateLimitsApiV1AdminRateLimitsUserIdPut (Some [("user_id"%js, VStr user_id)])).

Definition limits_reset (user_id : jstr) : list (form_effect W) :=
  [Mutate resetUserRateLimitsApiV1AdminRateLimitsUserIdResetPost
     (mutate_options (Some [("user_id"%js, VStr user_id)]) None None)].

Section rules.
Context {zod : Zod}.

(** [zRateLimitUpdateRequest.parse({}).global_multiplier]; the parse cannot fail. *)
Definition DEFAULT_MULTIPLIER : jsval :=
  prop "global_multiplier" (default VUndefined (safeParse zRateLimitUpdateRequest (VObj []))).

Definition form_rules (form : list (jstr * jsval)) : list jsval :=
  match obj_get "rules" form with Some (VArr rules) => rules | _ => [] end.
Definition set_rules (rules : list jsval) (form : list (jstr * jsval)) : list (jstr * jsval) :=
  obj_set "rules" (VArr rules) form.

Definition new_rule : jsval := default VUndefined (safeParse zRateLimitRuleRequest (VObj [])).

Definition addRule (form : list (jstr * jsval)) : list (jstr * jsval) := set_rules (form_rules form ++ [new_rule]) form.

Definition removeRule (index : nat) (form : list (jstr * jsval)) : list (jstr * jsval) :=
  set_rules (map snd (List.filter (λ ir : nat * jsval, negb (ir.1 =? index)%nat) (imap pair (form_rules form)))) form.

(** [`${Math.floor(requests * multiplier)}`], in doubles. *)
Definition effectiveRequests (requests : Z) (global_multiplier : Formatters.double) : jstr :=
  Formatters.floor_text (Formatters.fmul (Formatters.double_of_Z requests) global_multiplier).

(** An input of a rule. *)
Definition edit_rule (index : nat) (key : jstr) (v : jsval) (form : list (jstr * jsval)) : list (jstr * jsval) :=
  set_rules (alter (λ r, match r with VObj props => VObj (obj_set key v props) | r => r end) index (form_rules form)) form.
End rules.

(** ** Settings *)

Definition zSettings : schema :=
  ZObject [("theme"%js, shape zUserSettings "theme"); ("notifications"%js, zNotificationSettingsInput);
           ("editor"%js, zEditorSettingsInput)].

Definition sections : list jstr := ["theme"; "notifications"; "editor"]%js.
Definition tabs : list jstr := ["general"; "editor"; "notifications"]%js.

Record settings_page := mkSettings {
  activeTab : jstr;
  showHistory : bool;
  loaded : jsval;             (* the data of the query, which the form starts over from *)
}.

Section settings.
(** [isTainted(path)]: does what is entered there differ from what the form started from? *)
Context (tainted : jsval → jsval → bool).

(** [entered] is the data of the form, [errors] the fields that have some. *)
Definition isTainted (entered : jsval) (p : settings_page) (k : jstr) : bool :=
  tainted (prop k (loaded p)) (prop k entered).

Definition settings_body (entered : jsval) (p : settings_page) (v : jsval) : jsval :=
  VObj (map (λ k, (k, if isTainted entered p k then prop k v else VNull)) sections).

Definition settings_onUpdate (entered : jsval) (errors : list jstr) sub (p : settings_page)
  : settings_page * list (form_effect W) :=
  if negb (valid sub) then
    (mkSettings (default (activeTab p) (find_first (λ tab, existsb (jeqb tab) errors) tabs)) (showHistory p) (loaded p), [])
  else if negb (existsb (isTainted entered p) sections) then (p, [ToastInfo "No changes to save"])
  else (p, send updateUserSettingsApiV1UserSettingsPut None (settings_body entered p (data sub))).
End settings.

Definition restoreSettings (confirmed : bool) (timestamp : jstr) : list (form_effect W) :=
  if confirmed then send restoreSettingsApiV1UserSettingsRestorePost None (VObj [("timestamp"%js, VStr timestamp)]) else [].

Definition system_onUpdate : submitted → list (form_effect W) :=
  when_valid (send updateSystemSettingsApiV1AdminSettingsPut None).

Definition resetSettings (confirmed : bool) : list (form_effect W) :=
  if confirmed then [Mutate resetSystemSettingsApiV1AdminSettingsResetPost (mutate_options None None None)] else [].
End forms.
