(* ===== verification/FormsSpec.v ===== *)
(** * What the forms send

    The forms of [Forms] only send what the API takes, and send what was entered:
    users keep a password that is not typed, rules of a rate limit need a pattern,
    and settings send the sections that changed. *)

From S2P Require Import Prelude JsString JsValue UrlBuilder UrlSpec Client Zod ApiEnums ApiTypes ApiSchemas SchemaSpec SchemaStable Sdk SdkSpec Validation Forms.

(** ** Objects and their fields *)

Section fields.
Context {zod : Zod}.

Lemma has_type_fields gs l :
  Forall (λ g, has_type g.2 (prop g.1 (VObj l)) = true) gs → has_type (TObject gs) (VObj l) = true.
Proof. intros H. cbn [has_type]. apply forallb_true. rewrite Forall_forall in H. exact H. Qed.

Lemma accepts_fields gs l : Forall (λ g, accepts g.2 (prop g.1 (VObj l))) gs → accepts (ZObject gs) (VObj l).
Proof.
  intros H. rewrite Forall_forall in H. destruct (parse_fields_accepts gs l H) as [ws Hws]. exists (VObj ws).
  rewrite safeParse_spec. cbn [zod_step]. by rewrite Hws.
Qed.

Definition names_ok (fs : list (jstr * schema)) : bool := bool_decide (NoDup (map fst fs)).

(** What an object schema says of the fields of what it answers. *)
Lemma parse_answers fs v w :
  safeParse (ZObject fs) v = Some w → names_ok fs = true →
  (∃ ws, w = VObj ws) ∧ Forall (λ f, safeParse f.2 (prop f.1 v) = Some (prop f.1 w)) fs
  ∧ ∀ k, k ∉ map fst fs → prop k w = VUndefined.
Proof.
  intros Hp Hnd%bool_decide_eq_true. rewrite safeParse_spec in Hp. cbn [zod_step] in Hp.
  destruct v as [| | | | | | | | | | | |props|]; try discriminate Hp.
  destruct (parse_fields _ fs props) as [ws|] eqn:E; [|done]. injection Hp as <-. split; [by exists ws|]. split.
  - apply Forall_forall. intros [k s] Hin. destruct (parse_fields_get fs props ws k s Hnd E Hin) as (x & Hx & Hk).
    cbn [fst snd prop]. by rewrite Hx, Hk.
  - intros k Hk. cbn [prop]. by rewrite (parse_fields_none fs props ws k E Hk).
Qed.

Lemma string_parsed cs v w : safeParse (ZString cs) v = Some w → ∃ s, w = VStr s ∧ v = VStr s ∧ forallb (string_ok s) cs = true.
Proof.
  rewrite string_checks. destruct v as [| | | | |s| | | | | | | |]; try done. destruct (forallb _ cs) eqn:E; [|done].
  intros [= <-]. by exists s.
Qed.

Lemma email_parsed v w : safeParse ZEmail v = Some w → ∃ s, w = VStr s ∧ safeParse ZEmail (VStr s) = Some (VStr s).
Proof.
  intros Hp. pose proof Hp as Hp'. rewrite safeParse_spec in Hp'. cbn [zod_step] in Hp'.
  destruct v as [| | | | |s| | | | | | | |]; try done. destruct (is_email s); [|done]. injection Hp' as <-. by exists s.
Qed.

(** A field with a default answers what its schema accepts. *)
Lemma default_parsed s d v w :
  stable s = true → is_undefined d = false → fixed s d = true → safeParse (ZDefault (ZOptional s) d) v = Some w →
  safeParse s w = Some w.
Proof.
  intros Hs Hd Hf Hp. rewrite safeParse_spec in Hp. cbn [zod_step] in Hp. destruct (is_undefined v) eqn:Ev.
  { injection Hp as <-. by apply fixed_parses. }
  rewrite safeParse_spec in Hp. cbn [zod_step] in Hp. rewrite Ev in Hp. destruct (safeParse s v) as [x|] eqn:Ex; [|done].
  cbn [mbind option_bind] in Hp. injection Hp as <-. destruct (is_undefined x); [by apply fixed_parses|].
  by apply (parses_again_all s Hs v).
Qed.

Lemma nullish_accepts s v : accepts s v → accepts (ZNullish s) v.
Proof. intros [w Hw]. unfold accepts. rewrite safeParse_spec. cbn [zod_step]. destruct (nullish v); eauto. Qed.

Lemma nullish_null s : accepts (ZNullish s) VNull.
Proof. unfold accepts. rewrite safeParse_spec. by eexists. Qed.

Lemma nullish_undefined s : accepts (ZNullish s) VUndefined.
Proof. unfold accepts. rewrite safeParse_spec. by eexists. Qed.

Lemma default_accepts s d v : accepts s v → accepts (ZDefault (ZOptional s) d) v.
Proof.
  intros [w Hw]. unfold accepts. rewrite safeParse_spec. cbn [zod_step]. destruct (is_undefined v) eqn:Ev; [by eexists|].
  rewrite safeParse_spec. cbn [zod_step]. rewrite Ev, Hw. by eexists.
Qed.

Lemma string_accepts cs s : forallb (string_ok s) cs = true → accepts (ZString cs) (VStr s).
Proof. intros H. unfold accepts. rewrite string_checks, H. by eexists. Qed.

Lemma self_accepts s v : safeParse s v = Some v → accepts s v.
Proof. by exists v. Qed.
End fields.

Create HintDb forms.
#[export] Hint Resolve nullish_accepts nullish_null nullish_undefined default_accepts string_accepts self_accepts : forms.

(** ** What the forms send is what the API takes *)

Ltac each_field := repeat (apply Forall_cons_2; [cbn [fst snd]|]); [..|apply Forall_nil_2].
Ltac not_named := apply (bool_decide_unpack _); vm_compute; exact I.

Section sends.
Context {zod : Zod} {W : Type}.

(** A call of the type its endpoint declares, whose body the endpoint's schema accepts. *)
Definition call_accepted (s : schema) (eff : form_effect W) : Prop :=
  match eff with
  | Mutate e o =>
      ∃ T b, (e, T) ∈ sdk_calls ∧ has_type T (VObj (call_data e o)) = true ∧ o_body o = Some b ∧ accepts s b
  | ToastInfo _ => True
  end.

Lemma call_accepted_body e T s path body :
  (e, T) ∈ sdk_calls → has_type T (VObj (call_data e (@mutate_options W path None (Some body)))) = true → accepts s body →
  Forall (call_accepted s) (send e path body).
Proof. intros. repeat constructor. exists T, body. auto. Qed.

Lemma has_type_opt t v : has_type t v = true → has_type (opt t) v = true.
Proof. intros H. cbn [has_type opt existsb]. by rewrite H. Qed.

Lemma has_type_or_null t v : has_type t v = true → has_type (TUnion [t; TNull]) v = true.
Proof. intros H. cbn [has_type existsb]. by rewrite H. Qed.

Lemma default_undefined s d : accepts (ZDefault (ZOptional s) d) VUndefined.
Proof. unfold accepts. rewrite safeParse_spec. by eexists. Qed.

Lemma default_itself s d : is_undefined d = false → fixed s d = true → safeParse (ZDefault s d) d = Some d.
Proof. intros Hd Hf. rewrite safeParse_spec. cbn [zod_step]. rewrite Hd, (fixed_parses _ _ Hf). cbn. by rewrite Hd. Qed.

(** A property's value, and that a nullish field takes it. *)
Lemma nullish_accepts_at s v : (∃ x, v = x ∧ (nullish x = true ∨ accepts s x)) → accepts (ZNullish s) v.
Proof.
  intros (x & -> & [Hx|Hx]); [|by apply nullish_accepts]. unfold accepts. rewrite safeParse_spec. cbn [zod_step].
  rewrite Hx. by eexists.
Qed.

Lemma filled_parsed v w : safeParse (ZString [MinLength 1]) v = Some w → ∃ c s, v = VStr (c :: s) ∧ w = VStr (c :: s).
Proof. intros ([|c s] & -> & -> & Hs)%string_parsed; [discriminate Hs|]. by exists c, s. Qed.

Lemma zLogin_answers v w :
  safeParse zLogin v = Some w →
  ∃ u p, prop "username" v = VStr u ∧ prop "password" v = VStr p ∧ u ≠ [] ∧ p ≠ []
    ∧ (∃ ws, w = VObj ws) ∧ prop "username" w = VStr u ∧ prop "password" w = VStr p
    ∧ ∀ k, k ∉ ["username"; "password"]%js → prop k w = VUndefined.
Proof.
  intros Hp. pose proof (parse_answers _ _ _ Hp eq_refl) as (Hw & Hf & Hno).
  apply Forall_cons in Hf as [Hu Hf]. apply Forall_cons in Hf as [Hpw _]. cbn [fst snd] in *.
  apply filled_parsed in Hu as (c & u & Hu & Hu'). apply filled_parsed in Hpw as (d & p & Hpw & Hpw').
  exists (c :: u), (d :: p). by repeat split.
Qed.

Lemma login_accepted v w :
  safeParse zLogin v = Some w → Forall (call_accepted zLoginApiV1AuthLoginPostBody) (send loginApiV1AuthLoginPost None w).
Proof.
  intros (u & p & _ & _ & _ & _ & [ws ->] & Hu & Hp & Hno)%zLogin_answers.
  apply (call_accepted_body _ LoginApiV1AuthLoginPostData).
  - by left.
  - apply has_type_fields. each_field; try reflexivity. apply has_type_fields.
    each_field; rewrite ?Hu, ?Hp; try reflexivity; rewrite Hno by not_named; reflexivity.
  - apply accepts_fields. each_field; rewrite ?Hu, ?Hp; auto with forms; rewrite Hno by not_named; auto with forms.
    unfold accepts. rewrite safeParse_spec. by eexists.
Qed.

Lemma role_parsed v w :
  safeParse (shape zUserCreateWritable "role") v = Some w → has_type UserRole w = true ∧ safeParse zUserRole w = Some w.
Proof.
  intros Hp. split; [|by apply (default_parsed zUserRole (VStr "user") v)].
  eapply (subtype_sound 10); [|by eapply safeParse_typed_all; [|exact Hp]]. reflexivity.
Qed.

Lemma active_parsed v w : safeParse (shape zUserCreateWritable "is_active") v = Some w → ∃ b, w = VBool b.
Proof.
  intros Hp%default_parsed; try reflexivity. rewrite safeParse_spec in Hp. cbn [zod_step] in Hp.
  destruct w; try discriminate Hp. by eexists.
Qed.

Definition password_schema : schema := ZString [MinLength 8].

(** The text of the password field, and whether the mode takes it. *)
Definition password_taken (mode : user_mode) (p : jstr) : Prop :=
  match mode with
  | Create => safeParse password_schema (VStr p) = Some (VStr p)
  | Edit _ => p = [] ∨ safeParse password_schema (VStr p) = Some (VStr p)
  end.

Lemma password_parsed mode v w :
  safeParse (match mode with Edit _ => optionalText password_schema | Create => password_schema end) v = Some w →
  ∃ p, v = VStr p ∧ w = VStr p ∧ password_taken mode p.
Proof.
  assert (∀ v w, safeParse password_schema v = Some w →
                 ∃ p, v = VStr p ∧ w = VStr p ∧ safeParse password_schema (VStr p) = Some (VStr p)) as Hps.
  { intros v' w' Hp. pose proof Hp as (p & -> & -> & _)%string_parsed. by exists p. }
  destruct mode as [|id]; [apply Hps|]. intros Hp. rewrite safeParse_spec in Hp. cbn [zod_step optionalText parse_options] in Hp.
  destruct (safeParse (ZLiteral _) v) as [x|] eqn:El.
  - injection Hp as ->. rewrite safeParse_spec in El. cbn [zod_step] in El. destruct v as [| | | | |p| | | | | | | |]; try discriminate El.
    cbn [is_literal] in El. destruct ([] =js p) eqn:E; [|discriminate El]. apply jeqb_eq in E as <-. injection El as <-.
    exists []. split; [done|]. split; [done|]. by left.
  - destruct (safeParse password_schema v) as [x|] eqn:Ex; [|done]. injection Hp as ->.
    destruct (Hps v w Ex) as (p & -> & -> & H). exists p. split; [done|]. split; [done|]. by right.
Qed.

(** What a user form answers. *)
Record user_answer (mode : user_mode) (v w : jsval) := {
  ua_object : ∃ ws, w = VObj ws;
  ua_username : ∃ u, u ≠ [] ∧ prop "username" v = VStr u ∧ prop "username" w = VStr u;
  ua_email : ∃ em, prop "email" w = VStr em ∧ safeParse ZEmail (VStr em) = Some (VStr em);
  ua_role : has_type UserRole (prop "role" w) = true ∧ safeParse zUserRole (prop "role" w) = Some (prop "role" w);
  ua_active : ∃ b, prop "is_active" w = VBool b;
  ua_password : ∃ p, prop "password" v = VStr p ∧ prop "password" w = VStr p ∧ password_taken mode p;
}.

Lemma zUser_answers mode v w : safeParse (zUser mode) v = Some w → user_answer mode v w.
Proof.
  intros Hp. pose proof (parse_answers _ _ _ Hp (ltac:(by destruct mode))) as (Hw & Hf & _).
  repeat (apply Forall_cons in Hf as [? Hf]). cbn [fst snd] in *. split.
  - done.
  - destruct (filled_parsed (prop "username" v) (prop "username" w)) as (c & u & Hu & Hu'); [done|]. by exists (c :: u).
  - by apply (email_parsed (prop "email" v)).
  - by apply (role_parsed (prop "role" v)).
  - by apply (active_parsed (prop "is_active" v)).
  - by apply password_parsed.
Qed.

Lemma create_accepted v w :
  safeParse (zUser Create) v = Some w →
  Forall (call_accepted zCreateUserApiV1AdminUsersPostBody) (send createUserApiV1AdminUsersPost None w).
Proof.
  intros [[ws ->] (u & _ & _ & Hu) (em & He & Hem) [Hr Hrp] [b Hb] (p & _ & Hp & Hpp)]%zUser_answers.
  apply (call_accepted_body _ CreateUserApiV1AdminUsersPostData).
  - apply (list_elem_of_lookup_2 _ 39). reflexivity.
  - apply has_type_fields. each_field; try reflexivity. apply has_type_fields.
    each_field; rewrite ?Hu, ?He, ?Hb, ?Hp; try reflexivity. by apply has_type_opt.
  - apply accepts_fields. each_field; rewrite ?Hu, ?He, ?Hb, ?Hp; auto with forms.
    apply default_accepts. unfold accepts. rewrite safeParse_spec. by eexists.
Qed.

Lemma update_accepted user_id v w :
  safeParse (zUser (Edit user_id)) v = Some w →
  Forall (call_accepted zUpdateUserApiV1AdminUsersUserIdPutBody)
    (send updateUserApiV1AdminUsersUserIdPut (Some [("user_id"%js, VStr user_id)]) (user_body w)).
Proof.
  intros [_ (u & _ & _ & Hu) (em & He & Hem) [Hr Hrp] [b Hb] (p & _ & Hp & Hpp)]%zUser_answers.
  unfold user_body. rewrite Hu, He, Hb, Hp. apply (call_accepted_body _ UpdateUserApiV1AdminUsersUserIdPutData).
  - apply (list_elem_of_lookup_2 _ 42). reflexivity.
  - apply has_type_fields. each_field; try reflexivity. apply has_type_fields.
    each_field; try reflexivity; [by apply has_type_opt, has_type_or_null|]. by destruct p.
  - apply accepts_fields. each_field; apply nullish_accepts_at.
    + exists (VStr u). split; [reflexivity|]. by right; apply string_accepts.
    + exists (VStr em). split; [reflexivity|]. right. by apply self_accepts.
    + exists (prop "role" w). split; [reflexivity|]. right. by apply self_accepts.
    + exists (VBool b). split; [reflexivity|]. right. unfold accepts. rewrite safeParse_spec. by eexists.
    + destruct p as [|c p]; [exists VUndefined|exists (VStr (c :: p))]; (split; [reflexivity|]); [by left|].
      right. destruct Hpp as [[=]|Hpp]. by apply self_accepts.
Qed.

Lemma zRegister_answers v w :
  zRegister v = Some w →
  ∃ u em p, u ≠ [] ∧ prop "username" w = VStr u ∧ prop "email" w = VStr em ∧ safeParse ZEmail (VStr em) = Some (VStr em)
    ∧ prop "password" w = VStr p ∧ safeParse password_schema (VStr p) = Some (VStr p)
    ∧ prop "username" v = VStr u ∧ prop "password" v = VStr p ∧ prop "confirm_password" v = VStr p.
Proof.
  unfold zRegister. intros Hp. destruct (safeParse zRegister_fields v) as [x|] eqn:E; [|done]. cbn [mbind option_bind] in Hp.
  destruct (passwords_match x) eqn:Em; [|done]. injection Hp as <-.
  pose proof (parse_answers _ _ _ E eq_refl) as (_ & Hf & _).
  apply Forall_cons in Hf as [He Hf]. apply Forall_cons in Hf as [Hp Hf]. apply Forall_cons in Hf as [Hu Hf].
  apply Forall_cons in Hf as [Hc _]. cbn [fst snd] in *.
  destruct (email_parsed (prop "email" v) (prop "email" x) He) as (em & Hem & Hemp).
  destruct (password_parsed Create (prop "password" v) (prop "password" x) Hp) as (p & Hpv & Hpx & Hpp).
  destruct (filled_parsed (prop "username" v) (prop "username" x) Hu) as (c & u & Huv & Hux).
  apply string_parsed in Hc as (p' & Hcx & Hcv & _). unfold passwords_match, same_text in Em. rewrite Hpx, Hcx in Em.
  apply jeqb_eq in Em as <-. exists (c :: u), em, p. by repeat split.
Qed.

Lemma register_accepted v w :
  zRegister v = Some w →
  Forall (call_accepted zRegisterApiV1AuthRegisterPostBody) (register_onUpdate (mkSubmitted true w)).
Proof.
  intros (u & em & p & _ & Hu & He & Hem & Hp & Hpp & _)%zRegister_answers.
  unfold register_onUpdate, when_valid. cbn [valid data]. rewrite Hu, He, Hp.
  apply (call_accepted_body _ RegisterApiV1AuthRegisterPostData).
  - apply (list_elem_of_lookup_2 _ 1). reflexivity.
  - reflexivity.
  - apply accepts_fields. each_field.
    + by apply (string_accepts [] u).
    + by exists (VStr em).
    + by apply (default_undefined zUserRole (VStr "user")).
    + by apply (default_undefined ZBoolean (VBool true)).
    + by exists (VStr p).
Qed.

Lemma system_accepted v w :
  safeParse zSystemSettingsSchemaInput v = Some w →
  Forall (call_accepted zUpdateSystemSettingsApiV1AdminSettingsPutBody) (send updateSystemSettingsApiV1AdminSettingsPut None w).
Proof.
  intros Hp. apply (call_accepted_body _ UpdateSystemSettingsApiV1AdminSettingsPutData).
  - apply (list_elem_of_lookup_2 _ 36). reflexivity.
  - apply has_type_fields. each_field; try reflexivity.
    apply (subtype_sound 10 (infer zSystemSettingsSchemaInput)); [reflexivity|]. by eapply safeParse_typed_all; [|exact Hp].
  - exists w. by apply (parses_again_all zSystemSettingsSchemaInput eq_refl v).
Qed.

Lemma theme_parsed v w :
  safeParse (shape zUserSettings "theme") v = Some w → has_type Theme w = true ∧ safeParse zTheme w = Some w.
Proof.
  intros Hp. split.
  - eapply (subtype_sound 10); [|by eapply safeParse_typed_all; [|exact Hp]]. reflexivity.
  - change (shape zUserSettings "theme") with (ZDefault zTheme (VStr "system")) in Hp. rewrite safeParse_spec in Hp.
    cbn [zod_step] in Hp. destruct (is_undefined v).
    + injection Hp as <-. by apply fixed_parses.
    + destruct (safeParse zTheme v) as [x|] eqn:E; [|done]. pose proof (atomic_same zTheme v x eq_refl E) as ->.
      cbn [mbind option_bind] in Hp. destruct (is_undefined v); injection Hp as <-; [by apply fixed_parses|done].
Qed.

(** ** Rules of a rate limit *)

Definition rules_of (v : jsval) : list jsval := match prop "rules" v with VArr l => l | _ => [] end.

(** Every rule says its pattern, if only an empty one: so do the rules the page makes and loads. *)
Definition rules_named (v : jsval) : Prop := ∀ r, r ∈ rules_of v → is_undefined (prop "endpoint_pattern" r) = false.

Lemma object_again fs v w :
  safeParse (ZObject fs) v = Some w → names_ok fs = true →
  (∀ k s x, (k, s) ∈ fs → safeParse s (prop k v) = Some x → safeParse s x = Some x) →
  safeParse (ZObject fs) w = Some w.
Proof.
  intros Hp Hnd%bool_decide_eq_true Hs. rewrite safeParse_spec in Hp. cbn [zod_step] in Hp.
  destruct v as [| | | | | | | | | | | |props|]; try discriminate Hp.
  destruct (parse_fields _ fs props) as [ws|] eqn:E; [|done]. injection Hp as <-. rewrite safeParse_spec. cbn [zod_step].
  rewrite (parse_fields_again fs props ws); [done|done| |done|done]. intros [k s] x Hin. by apply Hs.
Qed.

Lemma rule_again v w :
  safeParse zRateLimitRuleRequest v = Some w → is_undefined (prop "endpoint_pattern" v) = false →
  safeParse zRateLimitRuleRequest w = Some w.
Proof.
  intros Hp Hv. apply (object_again _ v w Hp eq_refl). intros k s x Hin Hx.
  apply elem_of_cons in Hin as [[= -> ->]|Hin].
  - rewrite safeParse_spec in Hx. cbn [zod_step] in Hx. rewrite Hv in Hx. rewrite (safeParse_spec (ZOptional _)) in Hx.
    cbn [zod_step] in Hx. rewrite Hv in Hx. destruct (safeParse (ZString _) _) as [y|] eqn:E; [|done].
    apply string_parsed in E as (t & -> & Ht & E). cbn [mbind option_bind is_undefined] in Hx. injection Hx as <-.
    rewrite safeParse_spec. cbn [zod_step is_undefined]. rewrite (safeParse_spec (ZOptional _)). cbn [zod_step is_undefined].
    by rewrite string_checks, E.
  - eapply parses_again_all; [|exact Hx]. clear -Hin. repeat (apply elem_of_cons in Hin as [[= -> ->]|Hin]; [reflexivity|]).
    by apply not_elem_of_nil in Hin.
Qed.

Lemma limits_again v w :
  safeParse zRateLimitUpdateRequest v = Some w → rules_named v → safeParse zRateLimitUpdateRequest w = Some w.
Proof.
  intros Hp Hn. apply (object_again _ v w Hp eq_refl). intros k s x Hin Hx.
  assert ((k = "rules"%js ∧ s = ZDefault (ZOptional (ZArray zRateLimitRuleRequest)) (VArr [])) ∨ stable s = true)
    as [[-> ->]|Hst]; [| |by apply (parses_again_all s Hst _ _ Hx)].
  { repeat (apply elem_of_cons in Hin as [[= -> ->]|Hin]; [first [by left|by right]|]). by apply not_elem_of_nil in Hin. }
  rewrite safeParse_spec in Hx. cbn [zod_step] in Hx. destruct (is_undefined (prop "rules" v)) eqn:Ev.
  { injection Hx as <-. by apply default_itself. }
  rewrite (safeParse_spec (ZOptional _)) in Hx. cbn [zod_step] in Hx. rewrite Ev in Hx.
  rewrite (safeParse_spec (ZArray _)) in Hx. cbn [zod_step] in Hx. unfold rules_named, rules_of in Hn.
  destruct (prop "rules" v) as [| | | | | | | | | | |l| |]; try discriminate Hx.
  destruct (mapM _ l) as [ws|] eqn:E; [|done]. cbn in Hx. injection Hx as <-.
  rewrite safeParse_spec. cbn [zod_step is_undefined]. rewrite (safeParse_spec (ZOptional _)). cbn [zod_step is_undefined].
  rewrite (safeParse_spec (ZArray _)). cbn [zod_step]. rewrite (mapM_again _ l ws); [done| |done].
  intros y z Hy Hz. apply (rule_again y z Hz). by apply Hn.
Qed.

Lemma limits_accepted user_id v w :
  safeParse zRateLimitUpdateRequest v = Some w → rules_named v →
  Forall (call_accepted zUpdateUserRateLimitsApiV1AdminRateLimitsUserIdPutBody)
    (send updateUserRateLimitsApiV1AdminRateLimitsUserIdPut (Some [("user_id"%js, VStr user_id)]) w).
Proof.
  intros Hp Hn. apply (call_accepted_body _ UpdateUserRateLimitsApiV1AdminRateLimitsUserIdPutData).
  - apply (list_elem_of_lookup_2 _ 33). reflexivity.
  - apply has_type_fields. each_field; try reflexivity.
    apply (subtype_sound 10 (infer zRateLimitUpdateRequest)); [reflexivity|]. by eapply safeParse_typed_all; [|exact Hp].
  - exists w. by apply (limits_again v).
Qed.

(** ** Settings *)

Lemma zSettings_answers v w :
  safeParse zSettings v = Some w →
  has_type Theme (prop "theme" w) = true ∧ safeParse zTheme (prop "theme" w) = Some (prop "theme" w)
  ∧ has_type NotificationSettingsInput (prop "notifications" w) = true
  ∧ safeParse zNotificationSettingsInput (prop "notifications" w) = Some (prop "notifications" w)
  ∧ has_type EditorSettingsInput (prop "editor" w) = true
  ∧ safeParse zEditorSettingsInput (prop "editor" w) = Some (prop "editor" w).
Proof.
  intros Hp. pose proof (parse_answers _ _ _ Hp eq_refl) as (_ & Hf & _).
  apply Forall_cons in Hf as [Ht Hf]. apply Forall_cons in Hf as [Hn Hf]. apply Forall_cons in Hf as [He _]. cbn [fst snd] in *.
  destruct (theme_parsed _ _ Ht) as [Ht1 Ht2].
  split; [exact Ht1|]. split; [exact Ht2|]. split; [|split; [|split]].
  - apply (subtype_sound 10 (infer zNotificationSettingsInput)); [reflexivity|]. by eapply safeParse_typed_all; [|exact Hn].
  - by apply (parses_again_all zNotificationSettingsInput eq_refl (prop "notifications" v)).
  - apply (subtype_sound 10 (infer zEditorSettingsInput)); [reflexivity|]. by eapply safeParse_typed_all; [|exact He].
  - by apply (parses_again_all zEditorSettingsInput eq_refl (prop "editor" v)).
Qed.

Lemma settings_accepted tainted entered p v w :
  safeParse zSettings v = Some w →
  Forall (call_accepted zUpdateUserSettingsApiV1UserSettingsPutBody)
    (send updateUserSettingsApiV1UserSettingsPut None (settings_body tainted entered p w)).
Proof.
  intros (Ht & Hta & Hn & Hna & He & Hea)%zSettings_answers. unfold settings_body, sections. cbn [map].
  apply (call_accepted_body _ UpdateUserSettingsApiV1UserSettingsPutData).
  - apply (list_elem_of_lookup_2 _ 47). reflexivity.
  - apply has_type_fields. each_field; try reflexivity. apply has_type_fields.
    each_field; try reflexivity; apply has_type_opt.
    + change (has_type (TUnion [Theme; TNull]) (if isTainted tainted entered p "theme" then prop "theme" w else VNull) = true).
      destruct (isTainted _ _ _ _); [by apply has_type_or_null|done].
    + change (has_type (TUnion [NotificationSettingsInput; TNull])
                (if isTainted tainted entered p "notifications" then prop "notifications" w else VNull) = true).
      destruct (isTainted _ _ _ _); [by apply has_type_or_null|done].
    + change (has_type (TUnion [EditorSettingsInput; TNull])
                (if isTainted tainted entered p "editor" then prop "editor" w else VNull) = true).
      destruct (isTainted _ _ _ _); [by apply has_type_or_null|done].
  - apply accepts_fields. each_field; apply nullish_accepts_at.
    + exists (if isTainted tainted entered p "theme" then prop "theme" w else VNull). split; [reflexivity|].
      destruct (isTainted _ _ _ _); [right; by apply self_accepts|by left].
    + by exists VUndefined; split; [reflexivity|left].
    + by exists VUndefined; split; [reflexivity|left].
    + by exists VUndefined; split; [reflexivity|left].
    + exists (if isTainted tainted entered p "notifications" then prop "notifications" w else VNull). split; [reflexivity|].
      destruct (isTainted _ _ _ _); [right; by apply self_accepts|by left].
    + exists (if isTainted tainted entered p "editor" then prop "editor" w else VNull). split; [reflexivity|].
      destruct (isTainted _ _ _ _); [right; by apply self_accepts|by left].
    + by exists VUndefined; split; [reflexivity|left].
Qed.

(** ** The theorems *)

Context {sf : Superforms}.

(** What submitting [v] asks for, with the schema of the endpoint's body. *)
Inductive form_sends (v : jsval) : schema → list (form_effect W) → Prop :=
| SendsLogin : form_sends v zLoginApiV1AuthLoginPostBody (login_onUpdate (submit (safeParse zLogin) v))
| SendsRegister : form_sends v zRegisterApiV1AuthRegisterPostBody (register_onUpdate (submit zRegister v))
| SendsCreate :
    form_sends v zCreateUserApiV1AdminUsersPostBody (user_onUpdate Create (submit (safeParse (zUser Create)) v))
| SendsUpdate id :
    form_sends v zUpdateUserApiV1AdminUsersUserIdPutBody (user_onUpdate (Edit id) (submit (safeParse (zUser (Edit id))) v))
| SendsLimits id :
    rules_named v →
    form_sends v zUpdateUserRateLimitsApiV1AdminRateLimitsUserIdPutBody
      (limits_onUpdate id (submit (safeParse zRateLimitUpdateRequest) v))
| SendsSettings tainted errors p :
    form_sends v zUpdateUserSettingsApiV1UserSettingsPutBody
      (settings_onUpdate tainted v errors (submit (safeParse zSettings) v) p).2
| SendsSystem :
    form_sends v zUpdateSystemSettingsApiV1AdminSettingsPutBody
      (system_onUpdate (submit (safeParse zSystemSettingsSchemaInput) v)).

Lemma when_valid_submit parse v f (P : form_effect W → Prop) :
  (∀ w, parse v = Some w → Forall P (f w)) → Forall P (when_valid f (submit parse v)).
Proof.
  intros Hf. unfold when_valid. destruct (parse v) as [w|] eqn:E.
  - rewrite (submit_valid _ _ _ E). by apply Hf.
  - rewrite (submit_invalid _ _ E). constructor.
Qed.

(** C17. What a form sends is what the API takes: whatever is entered and submitted, each form sends
    only calls of the type its endpoint declares, with a body that the endpoint's own schema accepts
    (for rate limits, when each rule entered has a pattern property, if only an empty one). *)
Theorem forms_send_accepted v s effs : form_sends v s effs → Forall (call_accepted s) effs.
Proof.
  intros [].
  - apply when_valid_submit. apply login_accepted.
  - unfold register_onUpdate. apply when_valid_submit. apply register_accepted.
  - apply when_valid_submit. apply create_accepted.
  - apply when_valid_submit. apply update_accepted.
  - apply when_valid_submit. intros w Hw. by apply (limits_accepted id v).
  - unfold settings_onUpdate. destruct (safeParse zSettings v) as [w|] eqn:E.
    + rewrite (submit_valid _ _ _ E). cbn [valid data negb]. destruct (existsb _ _); [|by repeat constructor].
      by apply (settings_accepted tainted v p v).
    + rewrite (submit_invalid _ _ E). constructor.
  - apply when_valid_submit. apply system_accepted.
Qed.

(** A user is saved as entered: the form that creates one sends its name and password, and the
    one that edits sends a password only when one is typed, so leaving the field empty keeps the old
    one; a typed password shorter than the API's eight characters, or an empty name, sends nothing. *)
Theorem user_saved_as_entered mode v :
  match safeParse (zUser mode) v with
  | Some w =>
      ∃ body, user_onUpdate (W := W) mode (submit (safeParse (zUser mode)) v)
              = match mode with
                | Create => send createUserApiV1AdminUsersPost None body
                | Edit id => send updateUserApiV1AdminUsersUserIdPut (Some [("user_id"%js, VStr id)]) body
                end
        ∧ (∀ k, k ∈ ["username"; "email"; "role"; "is_active"]%js → prop k body = prop k w)
        ∧ prop "username" body = prop "username" v
        ∧ prop "password" body
          = match mode with
            | Edit _ => if truthy (prop "password" v) then prop "password" v else VUndefined
            | Create => prop "password" v
            end
  | None => user_onUpdate (W := W) mode (submit (safeParse (zUser mode)) v) = []
  end
  ∧ (∀ p, prop "password" v = VStr p → (0 < length p < 8)%nat → safeParse (zUser mode) v = None)
  ∧ (prop "username" v = VStr [] → safeParse (zUser mode) v = None).
Proof.
  split; [|split].
  - destruct (safeParse (zUser mode) v) as [w|] eqn:E.
    + pose proof (zUser_answers _ _ _ E) as [_ (u & _ & Hu & Huw) _ _ _ (p & Hp & Hpw & _)].
      unfold user_onUpdate, when_valid. rewrite (submit_valid _ _ _ E). cbn [valid data]. destruct mode as [|id].
      * exists w. rewrite Hp, Hpw, Hu, Huw. done.
      * exists (user_body w). split; [done|]. split; [|split].
        { intros k Hk. repeat (apply elem_of_cons in Hk as [->|Hk]; [reflexivity|]). by apply not_elem_of_nil in Hk. }
        { rewrite Hu, <-Huw. reflexivity. }
        { unfold user_body. rewrite Hp, Hpw. by destruct p. }
    + unfold user_onUpdate, when_valid. by rewrite (submit_invalid _ _ E).
  - intros p Hp Hl. destruct (safeParse (zUser mode) v) as [w|] eqn:E; [|done].
    pose proof (zUser_answers _ _ _ E) as [_ _ _ _ _ (p' & Hp' & _ & Ht)].
    rewrite Hp in Hp'. injection Hp' as <-.
    assert (safeParse password_schema (VStr p) = Some (VStr p)) as Hs.
    { destruct mode; [done|]. destruct Ht as [->|Ht]; [cbn in Hl; lia|done]. }
    unfold password_schema in Hs. rewrite string_checks in Hs. cbn [forallb string_ok] in Hs.
    destruct (8 <=? Z.of_nat (length p))%Z eqn:E8; [lia|discriminate Hs].
  - intros Hu. destruct (safeParse (zUser mode) v) as [w|] eqn:E; [|done].
    pose proof (zUser_answers _ _ _ E) as [_ (u & Hne & Hu' & _) _ _ _ _]. congruence.
Qed.
(** ** Rate limits *)

Lemma new_rule_parsed :
  new_rule = VObj [("endpoint_pattern"%js, VStr []); ("group"%js, VStr "api"); ("requests"%js, VInt 60);
                   ("window_seconds"%js, VInt 60); ("algorithm"%js, VStr "sliding_window");
                   ("burst_multiplier"%js, VNum (Dec 15 (-1))); ("priority"%js, VInt 0); ("enabled"%js, VBool true)].
Proof. unfold new_rule. rewrite safeParse_reference. vm_compute. reflexivity. Qed.

Lemma new_rule_refused : safeParse zRateLimitRuleRequest new_rule = None.
Proof. rewrite new_rule_parsed, safeParse_reference. vm_compute. reflexivity. Qed.

(** A new rule with a pattern. *)
Definition named_rule (pattern : jstr) : jsval :=
  match new_rule with VObj props => VObj (obj_set "endpoint_pattern" (VStr pattern) props) | r => r end.

Lemma default_string_parsed cs d t w : safeParse (ZDefault (ZOptional (ZString cs)) d) (VStr t) = Some w → w = VStr t.
Proof.
  rewrite safeParse_spec. cbn [zod_step is_undefined]. rewrite safeParse_spec. cbn [zod_step is_undefined].
  rewrite string_checks. by destruct (forallb _ cs); [intros [= <-]|].
Qed.

Lemma named_rule_parsed c s :
  ∃ r, safeParse zRateLimitRuleRequest (named_rule (c :: s)) = Some r ∧ prop "endpoint_pattern" r = VStr (c :: s).
Proof.
  assert (accepts zRateLimitRuleRequest (named_rule (c :: s))) as [r Hr].
  { unfold named_rule. rewrite new_rule_parsed. apply accepts_fields. each_field.
    { apply default_accepts. apply (string_accepts _ (c :: s)). cbn [forallb string_ok length]. rewrite andb_true_r. lia. }
    all: unfold accepts; rewrite safeParse_reference; vm_compute; by eexists. }
  exists r. split; [exact Hr|]. pose proof (parse_answers _ _ _ Hr eq_refl) as (_ & Hf & _).
  apply Forall_cons in Hf as [Hf _]. cbn [fst snd] in Hf. unfold named_rule in Hf. rewrite new_rule_parsed in Hf.
  by apply (default_string_parsed _ _ (c :: s)) in Hf.
Qed.

Lemma set_rules_get rules form k :
  obj_get k (set_rules rules form) = if k =js "rules" then Some (VArr rules) else obj_get k form.
Proof. apply obj_get_set. Qed.

Lemma form_rules_set rules form : form_rules (set_rules rules form) = rules.
Proof. unfold form_rules. by rewrite set_rules_get. Qed.

Definition rules_schema : schema := ZDefault (ZOptional (ZArray zRateLimitRuleRequest)) (VArr []).

Lemma rules_parsed rules : safeParse rules_schema (VArr rules) = VArr <$> mapM (safeParse zRateLimitRuleRequest) rules.
Proof.
  unfold rules_schema. rewrite safeParse_spec. cbn [zod_step is_undefined]. rewrite safeParse_spec. cbn [zod_step is_undefined].
  rewrite safeParse_spec. cbn [zod_step]. by destruct (mapM _ rules).
Qed.

Definition limits_fields : list (jstr * schema) :=
  match zRateLimitUpdateRequest with ZObject fs => fs | _ => [] end.

(** A form whose other fields are accepted is judged by its rules. *)
Lemma rules_judged form rules w :
  safeParse zRateLimitUpdateRequest (VObj form) = Some w →
  match mapM (safeParse zRateLimitRuleRequest) rules with
  | Some ws => ∃ w', safeParse zRateLimitUpdateRequest (VObj (set_rules rules form)) = Some w' ∧ prop "rules" w' = VArr ws
                     ∧ ∀ k, k ≠ "rules"%js → prop k w' = prop k w
  | None => safeParse zRateLimitUpdateRequest (VObj (set_rules rules form)) = None
  end.
Proof.
  intros Hp. pose proof (parse_answers limits_fields _ _ Hp eq_refl) as (_ & Hf & Hno).
  assert (∀ k s, (k, s) ∈ limits_fields →
            safeParse s (prop k (VObj (set_rules rules form)))
            = if k =js "rules" then VArr <$> mapM (safeParse zRateLimitRuleRequest) rules else Some (prop k w)) as Hs.
  { intros k s Hin. rewrite Forall_forall in Hf. specialize (Hf (k, s) Hin). cbn [fst snd prop] in *. rewrite set_rules_get.
    destruct (k =js "rules") eqn:E; [|done]. apply jeqb_eq in E as ->. cbn [default from_option id].
    rewrite <-rules_parsed. assert (s = rules_schema) as ->; [|done]. unfold rules_schema.
    repeat (apply elem_of_cons in Hin as [Hin|Hin]; [injection Hin; congruence|]). by apply not_elem_of_nil in Hin. }
  destruct (mapM _ rules) as [ws|] eqn:Em.
  - assert (accepts zRateLimitUpdateRequest (VObj (set_rules rules form))) as [w' Hw'].
    { apply accepts_fields. apply Forall_forall. intros [k s] Hin. cbn [fst snd]. unfold accepts. rewrite (Hs k s Hin).
      destruct (k =js "rules"); by eexists. }
    exists w'. split; [done|]. pose proof (parse_answers limits_fields _ _ Hw' eq_refl) as (_ & Hf' & Hno'). rewrite Forall_forall in Hf'.
    assert (∀ k s, (k, s) ∈ limits_fields → Some (prop k w') = if k =js "rules" then Some (VArr ws) else Some (prop k w)) as Hw.
    { intros k s Hin. pose proof (Hf' (k, s) Hin) as Hk. cbn [fst snd] in Hk. rewrite (Hs k s Hin) in Hk.
      rewrite <-Hk. by destruct (k =js "rules"). }
    split.
    + specialize (Hw "rules"%js rules_schema ltac:(do 2 right; left)). by injection Hw.
    + intros k Hk. destruct (decide (k ∈ ["bypass_rate_limit"; "global_multiplier"; "rules"; "notes"]%js)) as [Hin|Hin].
      * apply jeqb_neq in Hk. apply (list_elem_of_fmap_1 fst limits_fields) in Hin as ([k' s] & -> & Hin).
        specialize (Hw k' s Hin). cbn [fst] in *. rewrite Hk in Hw. by injection Hw.
      * by rewrite Hno, Hno'.
  - destruct (safeParse zRateLimitUpdateRequest (VObj (set_rules rules form))) as [w'|] eqn:E; [|done].
    pose proof (parse_answers limits_fields _ _ E eq_refl) as (_ & Hf' & _). rewrite Forall_forall in Hf'.
    specialize (Hf' ("rules"%js, rules_schema) ltac:(do 2 right; left)).
    specialize (Hs "rules"%js rules_schema ltac:(do 2 right; left)). cbn [fst snd] in Hf'. rewrite Hf' in Hs. discriminate Hs.
Qed.
Lemma mapM_snoc {A B} (f : A → option B) l x : mapM f (l ++ [x]) = (ys ← mapM f l; y ← f x; Some (ys ++ [y])).
Proof.
  induction l as [|z l IH]; cbn [app mapM]; [by destruct (f x)|]. rewrite IH. destruct (f z); [|done]. cbn.
  destruct (mapM f l); [|done]. cbn. by destruct (f x).
Qed.

Lemma obj_set_set {A} k (v w : A) l : obj_set k v (obj_set k w l) = obj_set k v l.
Proof.
  induction l as [|[j x] l IH]; cbn [obj_set]; [by rewrite jeqb_refl|].
  destruct (k =js j) eqn:E; cbn [obj_set]; rewrite E; [done|by rewrite IH].
Qed.

Lemma removed_last {A} (l : list A) r :
  map snd (List.filter (λ ir : nat * A, negb (ir.1 =? length l)%nat) (imap pair (l ++ [r]))) = l.
Proof.
  rewrite imap_app, List.filter_app, map_app. cbn [imap List.filter fst]. rewrite Nat.add_0_r, Nat.eqb_refl, app_nil_r.
  rewrite forallb_filter_id.
  - apply list_eq. intros i. rewrite list_lookup_fmap, list_lookup_imap. by destruct (l !! i).
  - apply forallb_true. intros ir [i Hi]%list_elem_of_lookup_1. rewrite list_lookup_imap in Hi. destruct (l !! i) eqn:E; [|done].
    injection Hi as <-. cbn. apply lookup_lt_Some in E. apply negb_true_iff, Nat.eqb_neq. lia.
Qed.

(** A new rule needs a pattern: adding one to a form that could be saved makes it one that is
    refused, and nothing is sent; once a pattern is typed in it the form can be saved again, with the
    rules it had and the new one last; and removing it gives back the form as it was. *)
Theorem added_rule_needs_pattern user_id form rules w c s :
  obj_get "rules" form = Some (VArr rules) → safeParse zRateLimitUpdateRequest (VObj form) = Some w →
  limits_onUpdate (W := W) user_id (submit (safeParse zRateLimitUpdateRequest) (VObj (addRule form))) = []
  ∧ (∃ w' r, safeParse zRateLimitUpdateRequest
               (VObj (edit_rule (length rules) "endpoint_pattern" (VStr (c :: s)) (addRule form))) = Some w'
             ∧ rules_of w' = rules_of w ++ [r] ∧ prop "endpoint_pattern" r = VStr (c :: s)
             ∧ ∀ k, k ≠ "rules"%js → prop k w' = prop k w)
  ∧ form_rules (removeRule (length rules) (addRule form)) = rules.
Proof.
  intros Hrules Hp.
  assert (form_rules form = rules) as Hform by (unfold form_rules; by rewrite Hrules).
  assert (∃ ws, mapM (safeParse zRateLimitRuleRequest) rules = Some ws ∧ rules_of w = ws) as (ws & Hws & Hrw).
  { pose proof (parse_answers limits_fields _ _ Hp eq_refl) as (_ & Hf & _). rewrite Forall_forall in Hf.
    specialize (Hf ("rules"%js, rules_schema) ltac:(do 2 right; left)). cbn [fst snd prop] in Hf. rewrite Hrules in Hf.
    cbn [default from_option id] in Hf. rewrite rules_parsed in Hf. destruct (mapM _ rules) as [ws|]; [|discriminate Hf].
    exists ws. split; [done|]. unfold rules_of. by injection Hf as <-. }
  unfold addRule. rewrite Hform. split; [|split].
  - pose proof (rules_judged form (rules ++ [new_rule]) w Hp) as H. rewrite mapM_snoc, Hws in H. cbn in H.
    rewrite new_rule_refused in H. cbn in H. unfold limits_onUpdate, when_valid. by rewrite (submit_invalid _ _ H).
  - destruct (named_rule_parsed c s) as (r & Hr & Hpat).
    pose proof (rules_judged form (rules ++ [named_rule (c :: s)]) w Hp) as H. rewrite mapM_snoc, Hws in H. cbn in H.
    rewrite Hr in H. cbn in H. destruct H as (w' & Hw' & Hrs & Hk). exists w', r. unfold edit_rule. rewrite form_rules_set.
    rewrite alter_app_r_alt by lia. rewrite Nat.sub_diag. unfold set_rules. rewrite obj_set_set.
    split; [|split; [|done]].
    { rewrite <-Hw'. unfold named_rule. by rewrite new_rule_parsed. }
    unfold rules_of at 1. by rewrite Hrs, Hrw.
  - unfold removeRule. rewrite !form_rules_set. apply removed_last.
Qed.
(** ** Settings *)

(** The settings after a save, on a server that keeps the sections that are null. *)
Definition merged (p : settings_page) (body : jsval) (k : jstr) : jsval :=
  match prop k body with VNull => prop k (loaded p) | x => x end.

(** C27. What is saved is what was entered: a valid submission of the settings sends, in one call,
    exactly the sections that differ from what was loaded, so that settings with those sections
    replaced are the ones entered; when none differs it sends nothing and says so.  An invalid one
    sends nothing and opens the first tab with an error, if there is one. *)
Theorem settings_save_what_changed tainted entered errors p :
  (∀ v, tainted v v = false) →
  (safeParse zSettings entered = Some entered →
   ∃ effs, settings_onUpdate (W := W) tainted entered errors (submit (safeParse zSettings) entered) p = (p, effs)
     ∧ if existsb (isTainted tainted entered p) sections
       then ∃ body, effs = send updateUserSettingsApiV1UserSettingsPut None body
            ∧ ∀ k, k ∈ sections →
                (prop k body = VNull ↔ isTainted tainted entered p k = false)
                ∧ tainted (merged p body k) (prop k entered) = false
       else effs = [ToastInfo "No changes to save"])
  ∧ (safeParse zSettings entered = None →
     ∃ p', settings_onUpdate (W := W) tainted entered errors (submit (safeParse zSettings) entered) p = (p', [])
       ∧ activeTab p' = default (activeTab p) (find_first (λ tab, existsb (jeqb tab) errors) tabs)
       ∧ loaded p' = loaded p).
Proof.
  intros Hrefl. split.
  - intros Hp. unfold settings_onUpdate. rewrite (submit_valid _ _ _ Hp). cbn [valid data negb].
    destruct (existsb (isTainted tainted entered p) sections); cbn [negb]; eexists; (split; [reflexivity|]); [|done].
    eexists. split; [reflexivity|]. destruct (zSettings_answers _ _ Hp) as (Ht & _ & Hn & _ & He & _).
    assert (∀ k, k ∈ sections → prop k entered ≠ VNull
              ∧ prop k (settings_body tainted entered p entered)
                = if isTainted tainted entered p k then prop k entered else VNull) as Hk.
    { intros k Hk. repeat (apply elem_of_cons in Hk as [->|Hk]; [split; [|reflexivity]|]);
        [intros H; rewrite H in Ht; discriminate Ht|intros H; rewrite H in Hn; discriminate Hn
        |intros H; rewrite H in He; discriminate He|by apply not_elem_of_nil in Hk]. }
    intros k Hin. destruct (Hk k Hin) as [Hne ->]. unfold merged. destruct (Hk k Hin) as [_ ->].
    destruct (isTainted tainted entered p k) eqn:E; [|done]. split; [by split|]. destruct (prop k entered); try apply Hrefl. done.
  - intros Hp. eexists. unfold settings_onUpdate. rewrite (submit_invalid _ _ Hp). by split.
Qed.
End sends.

(** ** The theorems, concretely *)

#[refine] Instance plain_superforms : Superforms := {
  submit parse v := match parse v with Some w => mkSubmitted true w | None => mkSubmitted false v end;
}.
Proof.
  - intros parse v w H. by rewrite H.
  - intros parse v H. by rewrite H.
Defined.

Definition entered_user : jsval :=
  VObj [("username"%js, VStr "ann"); ("email"%js, VStr "a@b.c"); ("password"%js, VStr ""); ("role"%js, VStr "admin");
        ("is_active"%js, VBool true)].

Lemma forms_send_accepted_witness :
  let _ := example_zod in
  Forall (call_accepted (W := unit) zUpdateUserApiV1AdminUsersUserIdPutBody)
    (user_onUpdate (Edit "u1") (submit (safeParse (zUser (Edit "u1"))) entered_user)).
Proof.
  apply (@forms_send_accepted example_zod unit plain_superforms entered_user). apply (@SendsUpdate example_zod).
Defined.

Definition entered_limits : list (jstr * jsval) := [("rules"%js, VArr [])].

Lemma added_rule_needs_pattern_witness :
  let _ := example_zod in
  limits_onUpdate (W := unit) "u1" (submit (safeParse zRateLimitUpdateRequest) (VObj (addRule entered_limits))) = []
  ∧ (∃ w' r, safeParse zRateLimitUpdateRequest
               (VObj (edit_rule 0 "endpoint_pattern" (VStr "/api") (addRule entered_limits))) = Some w'
             ∧ rules_of w' = [r] ∧ prop "endpoint_pattern" r = VStr "/api"
             ∧ ∀ k, k ≠ "rules"%js → prop k w' = prop k (default VUndefined (safeParse zRateLimitUpdateRequest (VObj entered_limits))))
  ∧ form_rules (removeRule 0 (addRule entered_limits)) = [].
Proof.
  apply (@added_rule_needs_pattern example_zod unit plain_superforms "u1" entered_limits []
           (default VUndefined (@safeParse example_zod zRateLimitUpdateRequest (VObj entered_limits))) 47%N "api");
    vm_compute; reflexivity.
Defined.

Definition text_differs (a b : jsval) : bool :=
  match a, b with VStr s, VStr t => negb (s =js t) | _, _ => false end.

Definition settings_of (theme : jstr) : jsval :=
  VObj [("theme"%js, VStr theme);
        ("notifications"%js, VObj [("execution_completed"%js, VBool true); ("execution_failed"%js, VBool true)]);
        ("editor"%js, VObj [("font_size"%js, VInt 14); ("tab_size"%js, VInt 4); ("use_tabs"%js, VBool false);
                            ("word_wrap"%js, VBool true); ("show_line_numbers"%js, VBool true)])].

Definition shown_settings : settings_page := mkSettings "general" false (settings_of "light").

Lemma settings_save_what_changed_witness :
  let _ := example_zod in
  ∃ effs, settings_onUpdate (W := unit) text_differs (settings_of "dark") []
            (submit (safeParse zSettings) (settings_of "dark")) shown_settings = (shown_settings, effs)
    ∧ ∃ body, effs = send updateUserSettingsApiV1UserSettingsPut None body
      ∧ ∀ k, k ∈ sections →
          (prop k body = VNull ↔ isTainted text_differs (settings_of "dark") shown_settings k = false)
          ∧ text_differs (merged shown_settings body k) (prop k (settings_of "dark")) = false.
Proof.
  intros zod.
  apply (proj1 (@settings_save_what_changed zod unit plain_superforms text_differs (settings_of "dark") [] shown_settings
                  ltac:(intros []; try reflexivity; cbn; by rewrite jeqb_refl))).
  vm_compute. reflexivity.
Defined.
