(* ===== verification/Workbench.v ===== *)
(** * The editor page: scripts

    Models what the editor page does with its script: [components/editor/]
    [ScriptActions.svelte] (new, save, upload, download), [SavedScripts.svelte]
    (open, delete), [LoadExample.svelte], [LanguageSelect.svelte],
    [EditorToolbar.svelte] and [run] of [routes/(auth)/editor/+page.svelte].

    A handler maps the state of the page to its next state and the list of what
    it asks for ([effect]).  Calls of the API are numbered; a call is pending
    until its answer is handled, and anything else may happen in between. *)

From S2P Require Import Prelude JsString JsValue Zod ApiSchemas Editor Validation.

(** The body of a request that saves: the draft without its id, with the runtime. *)
Record ScriptBody := mkBody {
  body_name : jstr;
  body_script : jstr;
  body_runtime : Runtime;
}.

Inductive notice := Success | Info_ | Warning | Error_.

Inductive effect :=
| Toast (kind : notice) (message : jstr)
| SendCreate (call : nat) (body : ScriptBody)
| SendUpdate (call : nat) (id : jstr) (body : ScriptBody)
| SendDelete (call : nat) (id : jstr)
| RefreshScripts                             (* [invalidateQueries] *)
| RefetchScripts
| ResetExecution                             (* [execution.reset()] *)
| Execute (script : jstr) (r : Runtime)      (* [execution.execute(...)] *)
| SaveFile (name text : jstr).

Inductive call := CreateCall (body : ScriptBody) | UpdateCall (id : jstr) (body : ScriptBody) | DeleteCall (id : jstr).

(** [observed_update] is the call the update mutation observes: only for it are the callbacks that
    [mutate] itself was given run. *)
Record bench := mkBench {
  draft : Draft;
  pending : gmap nat call;
  observed_update : option nat;
  next_call : nat;
  show : bool; (* are the saved scripts shown? *)
}.

Definition set_draft (d : Draft) (b : bench) : bench :=
  mkBench d (pending b) (observed_update b) (next_call b) (show b).

(** ** [ScriptActions.svelte] *)

Definition create_mutate (body : ScriptBody) (b : bench) : bench * list effect :=
  (mkBench (draft b) (<[next_call b := CreateCall body]> (pending b)) (observed_update b) (S (next_call b)) (show b),
   [SendCreate (next_call b) body]).

Definition update_mutate (id : jstr) (body : ScriptBody) (b : bench) : bench * list effect :=
  (mkBench (draft b) (<[next_call b := UpdateCall id body]> (pending b)) (Some (next_call b)) (S (next_call b)) (show b),
   [SendUpdate (next_call b) id body]).

Definition settled (i : nat) (b : bench) : bench :=
  mkBench (draft b) (delete i (pending b)) (observed_update b) (next_call b) (show b).

(** [onSuccess] of [create]. *)
Definition created (saved_id : jstr) (b : bench) : bench * list effect :=
  (set_draft (mkDraft (Some saved_id) (name (draft b)) (script (draft b)) (runtime (draft b))) b,
   [Toast Success "Script saved successfully."; RefreshScripts]).

(** [onSuccess] of [update]. *)
Definition updated (b : bench) : bench * list effect :=
  (b, [Toast Success "Script updated successfully."; RefreshScripts]).

(** [onError] of the call of [update.mutate]: a script deleted elsewhere is saved as a new one. *)
Definition update_failed (i : nat) (status : Z) (body : ScriptBody) (b : bench) : bench * list effect :=
  if bool_decide (observed_update b = Some i) && (status =? 404)%Z then create_mutate body b else (b, []).

Definition startNew (b : bench) : bench * list effect :=
  (set_draft (newScript (draft b)) b, [ResetExecution; Toast Info_ "New script started."]).

Definition save (offered : list (jstr * LanguageInfo)) (b : bench) : bench * list effect :=
  let d := draft b in
  let body := mkBody (name d) (script d) (pickRuntime (runtime d) offered) in
  match js_trim (body_name body) with
  | [] => (b, [Toast Warning "Please provide a name for your script."])
  | _ => match script_id d with
         | None | Some [] => create_mutate body b
         | Some id => update_mutate id body b
         end
  end.

Definition extensions (offered : list (jstr * LanguageInfo)) : list jstr :=
  map (λ e, "." ++ file_ext e.2) offered.

(** The language of a file name. *)
Definition file_lang (offered : list (jstr * LanguageInfo)) (file_name : jstr) : option (jstr * LanguageInfo) :=
  let ext := toLowerCase (List.last (js_split "." file_name) []) in
  find_first (λ e, file_ext e.2 =js ext) offered.

Section upload.
Context {zod : Zod}.
(** The issues zod reports of a script it refuses. *)
Context (script_issues : jstr → list issue).

(** [z.pick(zExecutionRequest, { script: true }).safeParse({ script: text })]. *)
Definition parse_script (text : jstr) : option jstr :=
  match safeParse (pick_schema ["script"] zExecutionRequest) (VObj [("script"%js, VStr text)]) with
  | Some data => match prop "script" data with VStr s => Some s | _ => None end
  | None => None
  end.

(** A file has a name and a text, which cannot be read when it is [None]. *)
Definition upload (offered : list (jstr * LanguageInfo)) (file : option (jstr * option jstr)) (b : bench)
  : bench * list effect :=
  match file with
  | None => (b, [])
  | Some (file_name, text) =>
      match file_lang offered file_name with
      | None | Some ([], _) =>
          (b, [Toast Error_ ("Unsupported file type. Allowed: " ++ js_join ", " (extensions offered))])
      | Some (l, info) =>
          match text with
          | None => (b, [Toast Error_ "Failed to read the selected file."])
          | Some text =>
              match parse_script text with
              | None => (b, [Toast Error_ (firstIssue (script_issues text))])
              | Some s =>
                  let version := match versions <$> obj_get l offered with Some vs => default [] (head vs) | None => [] end in
                  (set_draft (mkDraft None file_name s (mkRuntime l version)) b,
                   [ResetExecution; Toast Info_ ("Loaded " ++ l ++ " script from " ++ file_name)])
              end
          end
      end
  end.
End upload.

(** [replace(/\.[^.]+$/, '')]: the last dot and what follows it, unless nothing does. *)
Definition strip_extension (s : jstr) : jstr :=
  match js_split "." s with
  | [] | [_] => s
  | parts => match List.last parts [] with [] => s | _ => js_join "." (removelast parts) end
  end.

Definition download_name (offered : list (jstr * LanguageInfo)) (d : Draft) : jstr :=
  let ext := match obj_get (lang (pickRuntime (runtime d) offered)) offered with
             | Some info => file_ext info
             | None => "txt"
             end in
  let base := match strip_extension (js_trim (name d)) with [] => "script"%js | base => base end in
  base ++ "." ++ ext.

Definition download (offered : list (jstr * LanguageInfo)) (b : bench) : bench * list effect :=
  (b, [SaveFile (download_name offered (draft b)) (script (draft b))]).

(** ** [SavedScripts.svelte] *)

Definition toggle (b : bench) : bench * list effect :=
  (mkBench (draft b) (pending b) (observed_update b) (next_call b) (negb (show b)),
   if negb (show b) then [RefetchScripts] else []).

Definition open_ (saved : SavedScript) (b : bench) : bench * list effect :=
  (set_draft (openScript saved (draft b)) b, [ResetExecution; Toast Info_ ("Loaded script: " ++ saved_name saved)]).

Definition confirmDelete (confirmed : bool) (saved : SavedScript) (b : bench) : bench * list effect :=
  if negb confirmed then (b, [])
  else (mkBench (draft b) (<[next_call b := DeleteCall (saved_id saved)]> (pending b)) (observed_update b)
          (S (next_call b)) (show b),
        [SendDelete (next_call b) (saved_id saved)]).

(** [onSuccess] of [remove]. *)
Definition deleted (id : jstr) (b : bench) : bench * list effect :=
  (if bool_decide (script_id (draft b) = Some id) then set_draft (newScript (draft b)) b else b,
   [Toast Success "Script deleted successfully."; RefreshScripts]).

(** ** The rest of the page *)

(** [load] of [LoadExample.svelte]; an empty example is none. *)
Definition load_example (examples : list (jstr * jstr)) (b : bench) : bench * list effect :=
  let d := draft b in
  match obj_get (lang (runtime d)) examples with
  | None | Some [] => (b, [Toast Warning ("No example script available for " ++ lang (runtime d) ++ ".")])
  | Some example =>
      (set_draft (mkDraft (script_id d) (name d) example (runtime d)) b,
       [ResetExecution; Toast Info_ ("Loaded example script for " ++ lang (runtime d) ++ ".")])
  end.

(** [select] of [LanguageSelect.svelte]; the text fields bound to the draft. *)
Definition select (r : Runtime) (b : bench) : bench * list effect :=
  let d := draft b in (set_draft (mkDraft (script_id d) (name d) (script d) r) b, []).
Definition edit (new_name new_script : jstr) (b : bench) : bench * list effect :=
  let d := draft b in (set_draft (mkDraft (script_id d) new_name new_script (runtime d)) b, []).

(** [run]: the draft takes the runtime it is run with. *)
Definition run_script (offered : list (jstr * LanguageInfo)) (b : bench) : bench * list effect :=
  let d := draft b in
  let r := pickRuntime (runtime d) offered in
  let switched := (lang r =js lang (runtime d)) && negb (lang_version r =js lang_version (runtime d)) in
  (set_draft (mkDraft (script_id d) (name d) (script d) r) b,
   (if switched
    then [Toast Info_ ("Version " ++ lang_version (runtime d) ++ " of " ++ lang r
                       ++ " is no longer available, switched to " ++ lang_version r ++ ".")]
    else [])
   ++ [Execute (script d) r]).

(** The run button. *)
Definition run_enabled (isExecuting : bool) (offered : list (jstr * LanguageInfo)) : bool :=
  negb (isExecuting || match offered with [] => true | _ => false end).
