(* ===== verification/WorkbenchSpec.v ===== *)
(** * The editor page: what saving promises

    The page of [Workbench] with the server's scripts, as interleaved steps.
    A document is what the user works on between two changes of script (new,
    open, upload); ghost numbers say which document each script was created for
    and which one was last written into it. *)

From S2P Require Import Prelude JsString JsValue Zod ApiSchemas Editor Validation Workbench.

Section system.
Context {zod : Zod} (script_issues : jstr → list issue).

(** [doc] is the document in the editor, [docs] the number of documents so far, [call_docs] the
    document each call was made for, [origins] the one each script was created for (deleted ones
    too), [scripts] the server's scripts with the document last written into each. *)
Record system := mkSystem {
  page : bench;
  doc : nat;
  docs : nat;
  call_docs : gmap nat nat;
  origins : gmap jstr nat;
  scripts : gmap jstr (nat * ScriptBody);
}.

Inductive label :=
| LSave (offered : list (jstr * LanguageInfo))
| LNew
| LOpen (saved : SavedScript)
| LUpload (offered : list (jstr * LanguageInfo)) (file : option (jstr * option jstr))
| LExample (examples : list (jstr * jstr))
| LEdit (new_name new_script : jstr)
| LSelect (r : Runtime)
| LRun (offered : list (jstr * LanguageInfo))
| LDelete (confirmed : bool) (saved : SavedScript)
| LCreated (i : nat) (id : jstr)       (* answers: the server has done it *)
| LUpdated (i : nat)
| LDeleted (i : nat)
| LFailed (i : nat) (status : Z).

Definition set_page (b : bench) (w : system) : system :=
  mkSystem b (doc w) (docs w) (call_docs w) (origins w) (scripts w).

(** A handler that stays in the document; the calls it makes are the document's. *)
Definition stay (d : nat) (r : bench * list effect) (w : system) : system :=
  mkSystem r.1 (doc w) (docs w)
    (if bool_decide (next_call r.1 = next_call (page w)) then call_docs w
     else <[next_call (page w) := d]> (call_docs w))
    (origins w) (scripts w).

(** A handler that brings another document into the editor. *)
Definition switch (d : nat) (b : bench) (w : system) : system :=
  mkSystem b d (S (docs w)) (call_docs w) (origins w) (scripts w).

Definition call_of (i : nat) (w : system) : option (call * nat) :=
  c ← pending (page w) !! i; d ← call_docs w !! i; Some (c, d).

(** [None]: the step cannot happen. *)
Definition step (w : system) (l : label) : option system :=
  let b := page w in
  match l with
  | LSave offered => Some (stay (doc w) (save offered b) w)
  | LNew => Some (switch (docs w) (startNew b).1 w)
  | LOpen saved =>
      d ← origins w !! saved_id saved; Some (switch d (open_ saved b).1 w)
  | LUpload offered file =>
      let r := upload script_issues offered file b in
      Some (match r.2 with ResetExecution :: _ => switch (docs w) r.1 w | _ => stay (doc w) r w end)
  | LExample examples => Some (stay (doc w) (load_example examples b) w)
  | LEdit n s => Some (stay (doc w) (edit n s b) w)
  | LSelect r => Some (stay (doc w) (select r b) w)
  | LRun offered => Some (stay (doc w) (run_script offered b) w)
  | LDelete confirmed saved => Some (stay (doc w) (confirmDelete confirmed saved b) w)
  | LCreated i id =>
      match call_of i w, origins w !! id with
      | Some (CreateCall body, d), None =>
          Some (mkSystem (created id (settled i b)).1 (doc w) (docs w) (call_docs w)
                  (<[id := d]> (origins w)) (<[id := (d, body)]> (scripts w)))
      | _, _ => None
      end
  | LUpdated i =>
      match call_of i w with
      | Some (UpdateCall id body, d) =>
          _ ← scripts w !! id;
          Some (mkSystem (updated (settled i b)).1 (doc w) (docs w) (call_docs w) (origins w)
                  (<[id := (d, body)]> (scripts w)))
      | _ => None
      end
  | LDeleted i =>
      match call_of i w with
      | Some (DeleteCall id, _) =>
          let w' := mkSystem (deleted id (settled i b)).1 (doc w) (docs w) (call_docs w) (origins w)
                      (delete id (scripts w)) in
          Some (if bool_decide (script_id (draft b) = Some id) then switch (docs w) (page w') w' else w')
      | _ => None
      end
  | LFailed i status =>
      match call_of i w with
      | Some (UpdateCall _ body, d) =>
          Some (stay d (update_failed i status body (settled i b)) (set_page (settled i b) w))
      | Some _ => Some (set_page (settled i b) w)
      | None => None
      end
  end.

Fixpoint run (w : system) (ls : list label) : option system :=
  match ls with [] => Some w | l :: ls => w ← step w l; run w ls end.

(** ** Every script keeps its document *)

Definition is_save (c : call) : bool := match c with DeleteCall _ => false | _ => true end.

(** No save is under way. *)
Definition saved_up (w : system) : Prop := ∀ i c, pending (page w) !! i = Some c → is_save c = false.

(** The user changes to another document only when no save is under way. *)
Fixpoint patient (w : system) (ls : list label) : Prop :=
  match ls with
  | [] => True
  | l :: ls => match step w l with
               | Some w' => (docs w' = docs w ∨ saved_up w) ∧ patient w' ls
               | None => False
               end
  end.

(** The same as a check. *)
Definition saved_upb (w : system) : bool :=
  forallb (λ ic, negb (is_save ic.2)) (map_to_list (pending (page w))).
Fixpoint patientb (w : system) (ls : list label) : bool :=
  match ls with
  | [] => true
  | l :: ls => match step w l with
               | Some w' => ((docs w' =? docs w)%nat || saved_upb w) && patientb w' ls
               | None => false
               end
  end.

Lemma patientb_ok w ls : patientb w ls = true → patient w ls.
Proof.
  revert w. induction ls as [|l ls IH]; intros w; [done|]. cbn [patientb patient].
  destruct (step w l) as [w'|]; [|done]. intros [Hd Hp]%andb_prop. split; [|auto].
  apply orb_prop in Hd as [Hd%Nat.eqb_eq|Hd]; [by left|right].
  intros i c Hc%elem_of_map_to_list. unfold saved_upb in Hd. rewrite forallb_true in Hd.
  specialize (Hd _ Hc). cbn in Hd. by destruct (is_save c).
Qed.

Record system_ok (w : system) : Prop := {
  ok_draft id : script_id (draft (page w)) = Some id → id ≠ [] → origins w !! id = Some (doc w);
  ok_call i c : pending (page w) !! i = Some c → i < next_call (page w) ∧ is_Some (call_docs w !! i);
  ok_save i c : pending (page w) !! i = Some c → is_save c = true → call_docs w !! i = Some (doc w);
  ok_update i id body : pending (page w) !! i = Some (UpdateCall id body) → origins w !! id = Some (doc w);
  ok_scripts id d body : scripts w !! id = Some (d, body) → origins w !! id = Some d;
  ok_docs : doc w < docs w ∧ ∀ id d, origins w !! id = Some d → d < docs w;
}.

(** A page where nothing has been asked for yet. *)
Definition fresh_bench (d : Draft) : bench := mkBench d ∅ None 0 false.

(** What the handlers that stay in a document do: they keep the draft's id, and make one call at
    most, an update only of the draft's own script. *)
Definition stays (r : bench * list effect) (b : bench) : Prop :=
  script_id (draft r.1) = script_id (draft b) ∧
  ((pending r.1 = pending b ∧ next_call r.1 = next_call b) ∨
   ∃ c, pending r.1 = <[next_call b := c]> (pending b) ∧ next_call r.1 = S (next_call b) ∧
     ∀ id body, c = UpdateCall id body → script_id (draft b) = Some id ∧ id ≠ []).

Lemma quiet_stays (r : bench * list effect) b :
  script_id (draft r.1) = script_id (draft b) → pending r.1 = pending b → next_call r.1 = next_call b → stays r b.
Proof. by split; [|left]. Qed.

Lemma create_stays body b : stays (create_mutate body b) b.
Proof. split; [done|]. right. exists (CreateCall body). done. Qed.

Lemma save_stays offered b : stays (save offered b) b.
Proof.
  unfold save. destruct (js_trim _); [by apply quiet_stays|].
  destruct (script_id (draft b)) as [[|c id]|] eqn:E; try apply create_stays.
  split; [done|]. right. eexists (UpdateCall _ _). split; [done|]. split; [done|]. by intros ? ? [= <- _].
Qed.

Lemma upload_stays offered file b :
  match (upload script_issues offered file b).2 with
  | ResetExecution :: _ => pending (upload script_issues offered file b).1 = pending b
                           ∧ next_call (upload script_issues offered file b).1 = next_call b
                           ∧ script_id (draft (upload script_issues offered file b).1) = None
  | _ => stays (upload script_issues offered file b) b
  end.
Proof.
  unfold upload. destruct file as [[f t]|]; [|by apply quiet_stays].
  destruct (file_lang offered f) as [[[|c l] info]|]; [by apply quiet_stays| |by apply quiet_stays].
  destruct t as [t|]; [|by apply quiet_stays]. by destruct (parse_script t); [|apply quiet_stays].
Qed.

Lemma update_failed_stays i status body b : stays (update_failed i status body b) b.
Proof. unfold update_failed. destruct (_ && _); [apply create_stays|by apply quiet_stays]. Qed.

Lemma delete_stays confirmed saved b : stays (confirmDelete confirmed saved b) b.
Proof.
  unfold confirmDelete. destruct confirmed; [|by apply quiet_stays]. split; [done|]. right.
  eexists (DeleteCall _). done.
Qed.

Lemma example_stays examples b : stays (load_example examples b) b.
Proof. unfold load_example. destruct (obj_get _ _) as [[|c e]|]; by apply quiet_stays. Qed.

Lemma stay_ok r w : system_ok w → stays r (page w) → system_ok (stay (doc w) r w).
Proof.
  intros [H1 H2 H3 H4 H5 H6] [Hid [[Hp Hn]|(c & Hp & Hn & Hc)]]; unfold stay.
  - rewrite Hn, bool_decide_true by done.
    split; cbn [page doc docs call_docs origins scripts]; rewrite ?Hid, ?Hp, ?Hn; done.
  - rewrite Hn, bool_decide_false by lia.
    split; cbn [page doc docs call_docs origins scripts]; rewrite ?Hid, ?Hp, ?Hn; [exact H1| | | |exact H5|exact H6].
    + intros j c' [[-> ->]|[Hne Hj]]%lookup_insert_Some; [by rewrite lookup_insert_eq; split; [lia|eauto]|].
      destruct (H2 j c' Hj) as [? ?]. split; [lia|]. by rewrite lookup_insert_ne by lia.
    + intros j c' [[-> ->]|[Hne Hj]]%lookup_insert_Some Hs; [by rewrite lookup_insert_eq|].
      rewrite lookup_insert_ne by done. eauto.
    + intros j id body [[_ ->]|[Hne Hj]]%lookup_insert_Some; [|eauto].
      destruct (Hc id body eq_refl) as [Hd Hne]. auto.
Qed.

Lemma settled_pending i b j c : pending (settled i b) !! j = Some c → pending b !! j = Some c.
Proof. unfold settled. cbn [pending]. by intros [_ H]%lookup_delete_Some. Qed.

Lemma settled_ok i w : system_ok w → system_ok (set_page (settled i (page w)) w).
Proof.
  intros [H1 H2 H3 H4 H5 H6].
  split; cbn [page doc docs call_docs origins scripts set_page settled draft pending next_call].
  - exact H1.
  - intros j c [_ Hj]%lookup_delete_Some. exact (H2 j c Hj).
  - intros j c [_ Hj]%lookup_delete_Some. eauto.
  - intros j id body [_ Hj]%lookup_delete_Some. eauto.
  - exact H5.
  - exact H6.
Qed.

Lemma switch_ok d b w :
  system_ok w → saved_up w → d ≤ docs w → pending b = pending (page w) → next_call b = next_call (page w) →
  (∀ id, script_id (draft b) = Some id → id ≠ [] → origins w !! id = Some d) → system_ok (switch d b w).
Proof.
  intros [H1 H2 H3 H4 H5 [H6 H7]] Hs Hle Hp Hn Hd.
  split; cbn [page doc docs call_docs origins scripts switch]; rewrite ?Hp, ?Hn; [exact Hd|exact H2| | |exact H5|].
  - intros j c Hj Hc. apply Hs in Hj. congruence.
  - intros j id body Hj. by apply Hs in Hj.
  - split; [lia|]. intros id d' Hid. apply H7 in Hid. lia.
Qed.

Lemma call_of_Some i w c d : call_of i w = Some (c, d) → pending (page w) !! i = Some c ∧ call_docs w !! i = Some d.
Proof.
  unfold call_of. destruct (pending (page w) !! i) eqn:E; simpl; [|done].
  destruct (call_docs w !! i) eqn:F; simpl; [|done]. by intros [= <- <-].
Qed.

Lemma created_ok w i id body :
  system_ok w → pending (page w) !! i = Some (CreateCall body) → call_docs w !! i = Some (doc w) →
  origins w !! id = None →
  system_ok (mkSystem (created id (settled i (page w))).1 (doc w) (docs w) (call_docs w)
               (<[id := doc w]> (origins w)) (<[id := (doc w, body)]> (scripts w))).
Proof.
  intros Hw Hi Hd Ho. pose proof (settled_ok i w Hw) as [_ H2 H3 H4 _ _]. destruct Hw as [H1 _ _ _ H5 [H6 H7]].
  assert (∀ id' d, origins w !! id' = Some d → <[id := doc w]> (origins w) !! id' = Some d) as Hkeep.
  { intros id' d Hid'. rewrite lookup_insert_ne; [done|congruence]. }
  split; cbn [page doc docs call_docs origins scripts created fst draft set_draft script_id pending next_call].
  - intros id' [= <-] _. apply lookup_insert_eq.
  - exact H2.
  - exact H3.
  - intros j id' body' Hj. apply Hkeep. exact (H4 j id' body' Hj).
  - intros id' d body' [[<- [= <- <-]]|[_ H]]%lookup_insert_Some; [apply lookup_insert_eq|]. eauto.
  - split; [done|]. intros id' d [[_ <-]|[_ H]]%lookup_insert_Some; [done|eauto].
Qed.

Lemma updated_ok w i id body :
  system_ok w → pending (page w) !! i = Some (UpdateCall id body) →
  system_ok (mkSystem (updated (settled i (page w))).1 (doc w) (docs w) (call_docs w) (origins w)
               (<[id := (doc w, body)]> (scripts w))).
Proof.
  intros Hw Hi. pose proof (settled_ok i w Hw) as [H1 H2 H3 H4 _ H6].
  split; cbn [page doc docs call_docs origins scripts updated fst]; [exact H1|exact H2|exact H3|exact H4| |exact H6].
  intros id' d body' [[<- [= <- <-]]|[_ H]]%lookup_insert_Some; [by eapply ok_update|by eapply ok_scripts].
Qed.

Lemma deleted_ok w i id :
  system_ok w → pending (page w) !! i = Some (DeleteCall id) →
  (script_id (draft (page w)) = Some id → saved_up w) →
  let w' := mkSystem (deleted id (settled i (page w))).1 (doc w) (docs w) (call_docs w) (origins w)
              (delete id (scripts w)) in
  system_ok (if bool_decide (script_id (draft (page w)) = Some id) then switch (docs w) (page w') w' else w').
Proof.
  intros Hw Hi Hs w'. pose proof (settled_ok i w Hw) as [H1 H2 H3 H4 H5 [H6 H7]].
  assert (∀ id' d body, delete id (scripts w) !! id' = Some (d, body) → origins w !! id' = Some d) as H5'.
  { intros id' d body [_ H]%lookup_delete_Some. by eapply ok_scripts. }
  unfold w', deleted. cbn [fst draft settled]. case_bool_decide as Hd.
  - split; cbn [page doc docs call_docs origins scripts switch set_draft draft pending next_call newScript script_id].
    + done.
    + exact H2.
    + intros j c Hj%settled_pending Hc. apply (Hs Hd) in Hj. congruence.
    + intros j id' body Hj%settled_pending. by apply (Hs Hd) in Hj.
    + exact H5'.
    + split; [lia|]. intros id' d Hd'. apply H7 in Hd'. cbn in *. lia.
  - split; [exact H1|exact H2|exact H3|exact H4|exact H5'|by split].
Qed.

Lemma bench_step_ok w l w' : system_ok w → step w l = Some w' → docs w' = docs w ∨ saved_up w → system_ok w'.
Proof.
  intros Hw Hl Hp.
  destruct l as [offered| |saved|offered file|examples|n t|r|offered|confirmed saved|i id|i|i|i status];
    cbn [step] in Hl.
  - injection Hl as <-. apply stay_ok, save_stays. done.
  - injection Hl as <-. destruct Hp as [Hp|Hp]; [cbn in Hp; lia|]. by apply switch_ok; [| |lia|..].
  - destruct (origins w !! saved_id saved) as [d|] eqn:Ho; simpl in Hl; [|done]. injection Hl as <-.
    destruct Hp as [Hp|Hp]; [cbn in Hp; lia|]. destruct (ok_docs w Hw) as [_ Hlt]. specialize (Hlt _ _ Ho).
    apply switch_ok; try done; [lia|]. by intros id [= <-].
  - injection Hl as <-. pose proof (upload_stays offered file (page w)) as Hu.
    destruct (upload script_issues offered file (page w)) as [b' es]. cbn [fst snd] in Hu |- *.
    destruct es as [|[] es]; try (by apply stay_ok). destruct Hu as (H1 & H2 & H3).
    destruct Hp as [Hp|Hp]; [cbn in Hp; lia|]. apply switch_ok; try done. by rewrite H3.
  - injection Hl as <-. apply stay_ok, example_stays. done.
  - injection Hl as <-. apply stay_ok; [done|]. by apply quiet_stays.
  - injection Hl as <-. apply stay_ok; [done|]. by apply quiet_stays.
  - injection Hl as <-. apply stay_ok; [done|]. by apply quiet_stays.
  - injection Hl as <-. apply stay_ok, delete_stays. done.
  - destruct (call_of i w) as [[[body| |] d]|] eqn:Hc; try done. apply call_of_Some in Hc as [Hi Hd].
    destruct (origins w !! id) eqn:Ho; [done|]. injection Hl as <-.
    pose proof (ok_save w Hw i _ Hi eq_refl) as Hd'. rewrite Hd in Hd'. injection Hd' as ->.
    by apply created_ok.
  - destruct (call_of i w) as [[[|id body|] d]|] eqn:Hc; try done. apply call_of_Some in Hc as [Hi Hd].
    destruct (scripts w !! id); simpl in Hl; [|done]. injection Hl as <-.
    pose proof (ok_save w Hw i _ Hi eq_refl) as Hd'. rewrite Hd in Hd'. injection Hd' as ->.
    by apply updated_ok.
  - destruct (call_of i w) as [[[| |id] d]|] eqn:Hc; try done. apply call_of_Some in Hc as [Hi Hd].
    injection Hl as <-. apply (deleted_ok w i id Hw Hi). intros Hid.
    rewrite bool_decide_true in Hp by done. destruct Hp as [Hp|Hp]; [cbn in Hp; lia|done].
  - destruct (call_of i w) as [[c d]|] eqn:Hc; [|done]. apply call_of_Some in Hc as [Hi Hd].
    destruct c as [body|id body|id]; injection Hl as <-; try (by apply settled_ok).
    pose proof (ok_save w Hw i _ Hi eq_refl) as Hd'. rewrite Hd in Hd'. injection Hd' as ->.
    change (doc w) with (doc (set_page (settled i (page w)) w)).
    apply stay_ok; [by apply settled_ok|apply update_failed_stays].
Qed.

Lemma run_ok w ls w' : system_ok w → patient w ls → run w ls = Some w' → system_ok w'.
Proof.
  revert w. induction ls as [|l ls IH]; intros w Hw Hp Hr; [by injection Hr as <-|]. cbn [run patient] in Hr, Hp.
  destruct (step w l) as [w1|] eqn:E; [|done]. destruct Hp as [Hp1 Hp2]. cbn [mbind option_bind] in Hr.
  apply (IH w1); [by eapply bench_step_ok|done|done].
Qed.

(** The page as it opens: the stored draft and the server's scripts, each a document of its own
    (numbered by [f]), the draft a new one unless it has an id. *)
Definition opened (f : jstr → nat) (stored : gmap jstr ScriptBody) (n : nat) (d : Draft) : system :=
  let origins := (λ b, b.1) <$> map_imap (λ id body, Some (f id, body)) stored in
  mkSystem (fresh_bench d)
    (match script_id d with Some id => f id | None => n end) (S n) ∅
    (match script_id d with Some id => <[id := f id]> origins | None => origins end)
    (map_imap (λ id body, Some (f id, body)) stored).

Lemma opened_ok f stored n d : (∀ id, f id < n) → system_ok (opened f stored n d).
Proof.
  intros Hf. unfold opened.
  assert (∀ id x, ((λ b : nat * ScriptBody, b.1) <$> map_imap (λ id body, Some (f id, body)) stored) !! id = Some x →
                  x = f id) as Ho.
  { intros id x. rewrite lookup_fmap, map_lookup_imap. destruct (stored !! id); simpl; congruence. }
  assert (∀ id d b, map_imap (λ id body, Some (f id, body)) stored !! id = Some (d, b) → d = f id ∧ is_Some (stored !! id)) as Hs.
  { intros id x b. rewrite map_lookup_imap. destruct (stored !! id); simpl; [|done]. intros [= <- <-]. eauto. }
  split; cbn [page doc docs call_docs origins scripts fresh_bench draft pending next_call]; try done.
  - intros id Hid _. rewrite Hid. apply lookup_insert_eq.
  - intros id x b Hx. pose proof Hx as [-> _]%Hs.
    assert (((λ b : nat * ScriptBody, b.1) <$> map_imap (λ id body, Some (f id, body)) stored) !! id = Some (f id)) as H
      by (by rewrite lookup_fmap, Hx).
    destruct (script_id d) as [id'|]; [|done]. destruct (decide (id' = id)) as [->|]; [apply lookup_insert_eq|].
    by rewrite lookup_insert_ne.
  - split; [destruct (script_id d); [etrans; [apply Hf|lia]|lia]|].
    intros id x Hx. enough (x = f id) as -> by (etrans; [apply Hf|lia]).
    destruct (script_id d) as [id'|]; [|by apply Ho]. apply lookup_insert_Some in Hx as [[<- <-]|[_ Hx]]; [done|by apply Ho].
Qed.

(** C14. Saving never writes over another script: as long as the user changes to another document
    (new, open, upload, the deletion of the open script) only when no save is under way, every script
    on the server holds a text of the document it was created for, and the draft carries the id of
    its own document's script, through any interleaving of edits, saves, runs, deletions and answers. *)
Theorem scripts_keep_their_document f stored n d ls w :
  (∀ id, f id < n) → patient (opened f stored n d) ls → run (opened f stored n d) ls = Some w →
  (∀ id x body, scripts w !! id = Some (x, body) → origins w !! id = Some x)
  ∧ (∀ id, script_id (draft (page w)) = Some id → id ≠ [] → origins w !! id = Some (doc w))
  ∧ doc w < docs w.
Proof.
  intros Hf Hp Hr. pose proof (run_ok _ ls w (opened_ok f stored n d Hf) Hp Hr) as Hw.
  split; [apply Hw|]. split; [apply Hw|]. apply (ok_docs w Hw).
Qed.

(** A save that the server answers has stored the draft: under its id when it has one, under the
    new id otherwise, which the draft then carries, so that the next save is of the same script; a
    script deleted elsewhere is saved again as a new one. *)
Theorem save_stores w offered :
  let d := draft (page w) in
  let i := next_call (page w) in
  let body := mkBody (name d) (script d) (pickRuntime (runtime d) offered) in
  js_trim (name d) ≠ [] →
  ∃ w1, step w (LSave offered) = Some w1 ∧
  match script_id d with
  | None | Some [] =>
      ∀ id, origins w !! id = None →
      ∃ w2, step w1 (LCreated i id) = Some w2
            ∧ scripts w2 !! id = Some (doc w, body) ∧ script_id (draft (page w2)) = Some id
  | Some id =>
      (is_Some (scripts w !! id) →
       ∃ w2, step w1 (LUpdated i) = Some w2
             ∧ scripts w2 !! id = Some (doc w, body) ∧ script_id (draft (page w2)) = Some id)
      ∧ ∀ id', origins w !! id' = None →
        ∃ w2 w3, step w1 (LFailed i 404) = Some w2 ∧ step w2 (LCreated (S i) id') = Some w3
                 ∧ scripts w3 !! id' = Some (doc w, body) ∧ script_id (draft (page w3)) = Some id'
  end.
Proof.
  intros d i body Hn. eexists; split; [done|]. unfold save, stay. fold d. fold body.
  change (js_trim (body_name body)) with (js_trim (name d)). destruct (js_trim (name d)); [done|].
  assert (bool_decide (S (next_call (page w)) = next_call (page w)) = false) as Hb by (apply bool_decide_false; lia).
  destruct (script_id d) as [[|c id]|] eqn:Hid.
  1, 3: intros id Ho; unfold create_mutate; cbn [fst next_call]; rewrite Hb;
    cbn [step]; unfold call_of; cbn [page pending call_docs origins]; fold i; rewrite !lookup_insert_eq, Ho;
    eexists; split; [done|]; cbn; by rewrite lookup_insert_eq.
  unfold update_mutate. cbn [fst next_call]. rewrite Hb. split.
  - intros [x Hx]. cbn [step]. unfold call_of. cbn [page pending call_docs scripts]. fold i.
    rewrite !lookup_insert_eq. cbn [mbind option_bind]. rewrite Hx. cbn [mbind option_bind].
    eexists; split; [done|]. cbn [scripts page updated fst draft settled]. by rewrite lookup_insert_eq.
  - intros id' Ho. cbn [step]. unfold call_of at 1. cbn [page pending call_docs]. fold i.
    rewrite !lookup_insert_eq. cbn [mbind option_bind]. eexists _, _. split; [done|].
    unfold update_failed. cbn [observed_update settled]. rewrite bool_decide_true by done. cbn [andb Z.eqb Pos.eqb].
    unfold stay, create_mutate. cbn [fst next_call page settled set_page]. fold i.
    rewrite bool_decide_false by lia. unfold call_of. cbn [page pending call_docs origins set_page].
    rewrite !lookup_insert_eq. cbn [mbind option_bind origins set_page]. rewrite Ho. split; [done|]. cbn. by rewrite lookup_insert_eq.
Qed.
End system.

(** ** Files *)

Section files.
Context {zod : Zod} (script_issues : jstr → list issue).

Lemma parse_script_spec text :
  parse_script text = if (Z.of_nat (length text) <=? 50000)%Z then Some text else None.
Proof.
  unfold parse_script. rewrite safeParse_spec.
  change (pick_schema ["script"] zExecutionRequest) with (ZObject [("script"%js, ZString [MaxLength 50000])]).
  cbn [zod_step parse_fields].
  assert (obj_get "script" [("script"%js, VStr text)] = Some (VStr text)) as -> by reflexivity.
  cbn [default from_option id]. rewrite safeParse_spec. cbn [zod_step forallb string_ok].
  rewrite andb_true_r. by destruct (_ <=? _)%Z.
Qed.

Lemma file_lang_download offered d info :
  let l := lang (pickRuntime (runtime d) offered) in
  obj_get l offered = Some info →
  46%N ∉ file_ext info → toLowerCase (file_ext info) = file_ext info →
  Forall (λ e, file_ext e.2 = file_ext info → e.1 = l) offered →
  ∃ info', file_lang offered (download_name offered d) = Some (l, info').
Proof.
  intros l Hl Hdot Hlow Hall. unfold file_lang, download_name. fold l. rewrite Hl.
  set (base := match strip_extension _ with [] => "script"%js | b => b end).
  change (base ++ "." ++ file_ext info) with (base ++ 46%N :: file_ext info).
  rewrite js_split_snoc, List.last_last, Hlow by done.
  destruct (find_first _ offered) as [[l' info']|] eqn:Hf.
  - apply find_first_Some in Hf as [He Hin]. cbn [snd] in He. apply jeqb_eq in He.
    rewrite Forall_forall in Hall. pose proof (Hall _ Hin He) as Hl'. cbn [fst] in Hl'. subst l'. by exists info'.
  - exfalso. apply obj_get_elem in Hl. apply (find_first_None _ _ _ Hf) in Hl. cbn [snd] in Hl.
    by rewrite jeqb_refl in Hl.
Qed.

(** An exported script comes back: uploading the file that the export of a draft wrote gives a
    new draft with the same text in the same language (its first version on offer, the name of the
    file), as long as the languages on offer have file extensions of their own, in lower case and
    without a dot, and the text is one the API takes. *)
Theorem upload_reads_download offered b info :
  let d := draft b in
  let l := lang (pickRuntime (runtime d) offered) in
  let file := download_name offered d in
  obj_get l offered = Some info → l ≠ [] →
  46%N ∉ file_ext info → toLowerCase (file_ext info) = file_ext info →
  Forall (λ e, file_ext e.2 = file_ext info → e.1 = l) offered →
  (Z.of_nat (length (script d)) <= 50000)%Z →
  download offered b = (b, [SaveFile file (script d)])
  ∧ upload script_issues offered (Some (file, Some (script d))) b
    = (set_draft (mkDraft None file (script d) (mkRuntime l (default [] (head (versions info))))) b,
       [ResetExecution; Toast Info_ ("Loaded " ++ l ++ " script from " ++ file)]).
Proof.
  intros d l file Hl Hne Hdot Hlow Hall Hlen. split; [done|]. unfold upload.
  destruct (file_lang_download offered d info Hl Hdot Hlow Hall) as [info' Hf]. fold l file in Hf. rewrite Hf.
  rewrite parse_script_spec, (proj2 (Z.leb_le _ _) Hlen), Hl. by destruct l.
Qed.
End files.

(** ** Answers that come late *)

Definition bench_zod : Zod := reference_zod (λ _, true) (λ _, true).

Definition example_runtime : Runtime := mkRuntime "python" "3.14".
Definition named (n s : jstr) : Draft := mkDraft None n s example_runtime.
Definition empty_page : system := opened (λ _, 0) ∅ 1 (named "one" "print(1)").
Abbreviation run_page := (@run bench_zod (λ _, [])).

(** Without patience a save misfiles: a new script started while the first save of another is
    under way takes that one's id when the answer comes, so that saving the new script writes over
    the other, whose text is lost; and saving twice before the answer makes two scripts of one draft. *)
Theorem late_create_misfiles :
  (∃ w, run_page empty_page
          [LSave example_offered; LNew; LEdit "two" "print(2)"; LCreated 0 "s1"; LSave example_offered; LUpdated 1] = Some w
        ∧ scripts w = {["s1"%js := (2, mkBody "two" "print(2)" example_runtime)]}
        ∧ origins w = {["s1"%js := 1]})
  ∧ (∃ w, run_page empty_page
            [LSave example_offered; LSave example_offered; LCreated 0 "s1"; LCreated 1 "s2"] = Some w
          ∧ ∃ body, scripts w = {["s1"%js := (1, body); "s2"%js := (1, body)]}).
Proof.
  split.
  - eexists. split; [vm_compute; reflexivity|]. split; vm_compute; reflexivity.
  - eexists. split; [vm_compute; reflexivity|]. exists (mkBody "one" "print(1)" example_runtime).
    vm_compute. reflexivity.
Qed.

(** ** Witnesses *)

Lemma scripts_keep_their_document_witness :
  ∃ w, run_page (opened (λ _, 0) {["a"%js := mkBody "old" "x" example_runtime]} 1 (named "one" "print(1)"))
         [LSave example_offered; LCreated 0 "s1"; LNew; LEdit "two" "print(2)"; LSave example_offered;
          LCreated 1 "s2"; LOpen (mkSavedScript "a" "old" "x" example_runtime); LSave example_offered; LUpdated 2]
       = Some w
  ∧ ((∀ id x body, scripts w !! id = Some (x, body) → origins w !! id = Some x)
     ∧ (∀ id, script_id (draft (page w)) = Some id → id ≠ [] → origins w !! id = Some (doc w))
     ∧ doc w < docs w).
Proof.
  eexists. split; [vm_compute; reflexivity|].
  eapply (@scripts_keep_their_document bench_zod (λ _, []) (λ _, 0)
    {["a"%js := mkBody "old" "x" example_runtime]} 1 (named "one" "print(1)")
    [LSave example_offered; LCreated 0 "s1"; LNew; LEdit "two" "print(2)"; LSave example_offered;
     LCreated 1 "s2"; LOpen (mkSavedScript "a" "old" "x" example_runtime); LSave example_offered; LUpdated 2]).
  - intros id. lia.
  - apply patientb_ok. vm_compute. reflexivity.
  - vm_compute. reflexivity.
Defined.

Lemma save_stores_witness :
  let w := opened (λ _, 0) {["a"%js := mkBody "old" "x" example_runtime]} 1
             (mkDraft (Some "a"%js) "one" "print(1)" (mkRuntime "python" "2.7")) in
  let body := mkBody "one" "print(1)" example_runtime in
  ∃ w1, @step bench_zod (λ _, []) w (LSave example_offered) = Some w1
  ∧ (is_Some (scripts w !! "a"%js) →
     ∃ w2, @step bench_zod (λ _, []) w1 (LUpdated 0) = Some w2
           ∧ scripts w2 !! "a"%js = Some (0, body) ∧ script_id (draft (page w2)) = Some "a"%js)
  ∧ ∀ id', origins w !! id' = None →
      ∃ w2 w3, @step bench_zod (λ _, []) w1 (LFailed 0 404) = Some w2
               ∧ @step bench_zod (λ _, []) w2 (LCreated 1 id') = Some w3
               ∧ scripts w3 !! id' = Some (0, body) ∧ script_id (draft (page w3)) = Some id'.
Proof.
  apply (@save_stores bench_zod (λ _, [])
    (opened (λ _, 0) {["a"%js := mkBody "old" "x" example_runtime]} 1
       (mkDraft (Some "a"%js) "one" "print(1)" (mkRuntime "python" "2.7"))) example_offered).
  vm_compute. discriminate.
Defined.

Lemma upload_reads_download_witness :
  let b := fresh_bench (named " my.script.txt " "print(1)") in
  download example_offered b = (b, [SaveFile "my.script.py" "print(1)"])
  ∧ @upload bench_zod (λ _, []) example_offered (Some ("my.script.py"%js, Some "print(1)"%js)) b
    = (set_draft (mkDraft None "my.script.py" "print(1)" example_runtime) b,
       [ResetExecution; Toast Info_ "Loaded python script from my.script.py"]).
Proof.
  apply (@upload_reads_download bench_zod (λ _, []) example_offered (fresh_bench (named " my.script.txt " "print(1)"))
    (mkLanguageInfo ["3.14"%js; "3.13"%js] "py")).
  - reflexivity.
  - discriminate.
  - apply (bool_decide_unpack _). vm_compute. exact I.
  - reflexivity.
  - repeat constructor; intros H; first [reflexivity | discriminate H].
  - vm_compute. discriminate.
Defined.
