(* ===== verification/EventFilters.v ===== *)
(** * Event filters and colours

    Models [lib/admin/events/eventTypes.ts] and the tables of colours:
    [lib/badges.ts], [lib/admin/rate-limits/rateLimits.ts] and
    [lib/notifications/display.ts]. *)

From S2P Require Import Prelude JsString JsValue ApiEnums Zod ApiSchemas ApiTypes Formatters.

(** ** [eventTypes.ts] *)

Definition EVENT_TYPES : list ApiEnums.EventType := EventType_all.

Definition getEventTypeColor (eventType : ApiEnums.EventType) : jstr :=
  let has p := includes p (EventType_value eventType) in
  if has "_completed"%js || has "_succeeded"%js then "text-success"
  else if has "_failed"%js || has "_timeout"%js then "text-danger"
  else if has "_started"%js || has "_running"%js then "text-info"
  else if has "_requested"%js then "text-purple"
  else if has "_created"%js then "text-indigo"
  else if has "_terminated"%js then "text-orange"
  else "text-fg-muted".

(** [Object.keys(zEventFilter.shape)]. *)
Definition shape_keys (s : schema) : list jstr := match s with ZObject fs => map fst fs | _ => [] end.
Definition FILTER_KEYS : list jstr := shape_keys zEventFilter.

Definition is_active (value : jsval) : bool :=
  match value with VArr l => match l with [] => false | _ => true end | v => truthy v end.

Definition activeFilterKeys (filters : jsval) : list jstr :=
  List.filter (λ key, is_active (prop key filters)) FILTER_KEYS.

Definition hasActiveFilters (filters : jsval) : bool := (0 <? length (activeFilterKeys filters))%nat.
Definition getActiveFilterCount (filters : jsval) : nat := length (activeFilterKeys filters).
Definition getActiveFilterSummary (filters : jsval) : list jstr := map fieldTitle (activeFilterKeys filters).

(** ** Tables *)

Definition EXECUTION_STATUS_BADGE (s : ApiEnums.ExecutionStatus) : jstr :=
  match s with
  | ExecutionStatus_QUEUED | ExecutionStatus_SCHEDULED | ExecutionStatus_CANCELLED => "badge-neutral"
  | ExecutionStatus_RUNNING => "badge-info"
  | ExecutionStatus_COMPLETED => "badge-success"
  | ExecutionStatus_FAILED | ExecutionStatus_ERROR => "badge-danger"
  | ExecutionStatus_TIMEOUT => "badge-warning"
  end.

Definition GROUP_COLORS (g : ApiEnums.EndpointGroup) : jstr :=
  match g with
  | EndpointGroup_EXECUTION => "bg-purple-soft text-purple"
  | EndpointGroup_ADMIN => "bg-danger-soft text-danger"
  | EndpointGroup_SSE => "bg-warning-soft text-warning"
  | EndpointGroup_WEBSOCKET => "bg-success-soft text-success"
  | EndpointGroup_AUTH => "bg-info-soft text-info"
  | EndpointGroup_API => "bg-muted"
  | EndpointGroup_PUBLIC => "bg-indigo-soft text-indigo"
  end.

Definition SEVERITY_COLORS (s : ApiEnums.NotificationSeverity) : jstr :=
  match s with
  | NotificationSeverity_LOW => "text-fg-muted"
  | NotificationSeverity_MEDIUM => "text-info"
  | NotificationSeverity_HIGH => "text-orange"
  | NotificationSeverity_URGENT => "text-danger"
  end.

Inductive icon := CircleAlert | TriangleAlert | CircleCheck | Info.

Definition notificationIcon (tags : list jstr) : icon :=
  let has t := existsb (jeqb t) tags in
  if has "failed"%js || has "error"%js || has "security"%js then CircleAlert
  else if has "timeout"%js || has "warning"%js then TriangleAlert
  else if has "completed"%js || has "success"%js then CircleCheck
  else Info.

(** ** Filters *)

(** A filter's value that asks for nothing. *)
Definition blank (v : jsval) : Prop := v = VUndefined ∨ v = VNull ∨ v = VStr [] ∨ v = VArr [].

Definition filter_value : ts_type := TUnion [TUndefined; TNull; TString; TArray TUnknown].

(** Every field of the type of filters is one of these. *)
Lemma filter_fields_ok :
  forallb (λ k, match ts_field k EventFilter with TNever => false | t => subtype 20 t filter_value end)
    FILTER_KEYS = true.
Proof. vm_compute. reflexivity. Qed.

Lemma filter_typed f k :
  has_type EventFilter f = true → k ∈ FILTER_KEYS → has_type filter_value (prop k f) = true.
Proof.
  intros Hf Hk. pose proof filter_fields_ok as H. rewrite forallb_true in H. specialize (H k Hk).
  apply (subtype_sound 20 (ts_field k EventFilter)); [by destruct (ts_field k EventFilter)|].
  unfold EventFilter, ts_field in *. cbn [has_type] in Hf.
  destruct f as [| | | | | | | | | | | |l|]; try done. cbn [prop].
  destruct (obj_get k _) as [t|] eqn:E; [|done]. rewrite forallb_true in Hf.
  apply obj_get_elem in E. apply (Hf _ E).
Qed.

Lemma filter_value_active v : has_type filter_value v = true → is_active v = false ↔ blank v.
Proof.
  intros Hv. unfold blank. destruct v as [| | | | |s| | | | | |l| |]; try done.
  - split; [tauto|done].
  - split; [tauto|done].
  - destruct s as [|c s]; cbn; [tauto|]. by split; [|intros [?|[?|[?|?]]]].
  - destruct l as [|x l]; cbn; [tauto|]. by split; [|intros [?|[?|[?|?]]]].
Qed.

Lemma titles_distinct : NoDup (map fieldTitle FILTER_KEYS).
Proof. apply (bool_decide_unpack _). vm_compute. done. Qed.

Lemma NoDup_map_filter {A B} (g : A → B) p (l : list A) : NoDup (map g l) → NoDup (map g (List.filter p l)).
Proof.
  induction l as [|x l IH]; intros H; [done|]. cbn [map List.filter] in *. apply NoDup_cons in H as [Hx Hl].
  destruct (p x); [|auto]. cbn [map]. apply NoDup_cons. split; [|auto]. intros Hin. apply Hx.
  apply list_elem_of_In, in_map_iff in Hin as (y & <- & Hy). apply filter_In in Hy as [Hy _].
  apply list_elem_of_In, in_map_iff. eauto.
Qed.

(** The filter bar tells the truth: for filters of the API's type, the summary has one label per
    filter that asks for something, no label twice, as many as the count, and there are none exactly
    when every filter is absent, null, empty text or an empty list. *)
Theorem filter_summary_faithful f :
  has_type EventFilter f = true →
  NoDup (getActiveFilterSummary f)
  ∧ length (getActiveFilterSummary f) = getActiveFilterCount f
  ∧ (∀ k, k ∈ FILTER_KEYS → (k ∈ activeFilterKeys f ↔ ¬ blank (prop k f)))
  ∧ (hasActiveFilters f = false ↔ ∀ k, k ∈ FILTER_KEYS → blank (prop k f)).
Proof.
  intros Hf. assert (∀ k, k ∈ FILTER_KEYS → (k ∈ activeFilterKeys f ↔ ¬ blank (prop k f))) as Hk.
  { intros k Hk. rewrite <-(filter_value_active _ (filter_typed f k Hf Hk)). unfold activeFilterKeys.
    rewrite list_elem_of_In, filter_In, <-list_elem_of_In. destruct (is_active _).
    - by split.
    - split; [by intros [_ ?]|intros H; by destruct H]. }
  split; [apply NoDup_map_filter, titles_distinct|]. split; [apply length_map|]. split; [done|].
  unfold hasActiveFilters. rewrite Nat.ltb_ge. split.
  - intros Hn k Hin. destruct (activeFilterKeys f) eqn:E; [|simpl in Hn; lia].
    apply (filter_value_active _ (filter_typed f k Hf Hin)). apply not_true_is_false. intros Ha.
    assert (k ∈ activeFilterKeys f) as H; [|rewrite E in H; by apply not_elem_of_nil in H].
    unfold activeFilterKeys. apply list_elem_of_In, filter_In. by rewrite <-list_elem_of_In.
  - intros Hb. destruct (activeFilterKeys f) as [|k r] eqn:E; [simpl; lia|]. exfalso.
    assert (k ∈ activeFilterKeys f) as Hin by (rewrite E; left).
    assert (k ∈ FILTER_KEYS) as Hkk by (rewrite list_elem_of_In in Hin |- *; apply filter_In in Hin; tauto).
    rewrite <-E in Hk. apply (Hk k Hkk) in Hin. by apply Hin, Hb.
Qed.

Definition example_filters : jsval :=
  VObj [("event_types"%js, VArr [VStr "execution_failed"]); ("user_id"%js, VStr []); ("service_name"%js, VStr "api")].

Lemma filter_summary_faithful_witness :
  NoDup (getActiveFilterSummary example_filters)
  ∧ length (getActiveFilterSummary example_filters) = getActiveFilterCount example_filters
  ∧ (∀ k, k ∈ FILTER_KEYS → (k ∈ activeFilterKeys example_filters ↔ ¬ blank (prop k example_filters)))
  ∧ (hasActiveFilters example_filters = false ↔ ∀ k, k ∈ FILTER_KEYS → blank (prop k example_filters)).
Proof. apply (filter_summary_faithful example_filters). vm_compute. reflexivity. Defined.

Example filter_summary_example : getActiveFilterSummary example_filters = ["Event Types"; "Service Name"].
Proof. vm_compute. reflexivity. Qed.
