(* ===== verification/Html.v ===== *)
(** * Markup

    A component of Svelte shows its state as a tree of elements.  The files [*View]
    translate that markup, element by element; this file holds the tree and what a user can
    do with it ([offers]), the events of the controls that are shown and enabled, and the texts it
    shows ([visible]).

    An element that is not HTML's is a component of a library (an icon, a dialog of
    bits-ui, a field of formsnap) and keeps its name.  White space between elements,
    transitions and references to the DOM ([bind:this]) are left out. *)

From S2P Require Import Prelude JsString.

(** ** The tree *)

(** [E] is what a handler asks of the page.  [OnInput] is a handler that reads the text of the
    input, [OnCheck] one that reads whether the box is ticked, [OnFile] one that reads the file that
    was chosen (its name and its text, when it can be read); [Flag] is an attribute that is there
    or not; [Spread] is what a library gives an element. *)
Abbreviation chosen_file := (option (jstr * option jstr)).

Inductive attr (E : Type) :=
| Attr (name value : jstr)
| Opt (name : jstr) (value : option jstr)
| Flag (name : jstr) (b : bool)
| On (name : jstr) (e : E)
| OnInput (name : jstr) (f : jstr → E)
| OnCheck (name : jstr) (f : bool → E)
| OnFile (name : jstr) (f : chosen_file → E)
| Spread (name : jstr).
Arguments Attr {E} name value.
Arguments Opt {E} name value.
Arguments Flag {E} name b.
Arguments On {E} name e.
Arguments OnInput {E} name f.
Arguments OnCheck {E} name f.
Arguments OnFile {E} name f.
Arguments Spread {E} name.

(** [Keyed] is one block of [{#each list as x (key)}]. *)
Inductive node (E : Type) :=
| Text (t : jstr)
| El (tag : jstr) (attrs : list (attr E)) (children : list (node E))
| Keyed (key : jstr) (children : list (node E)).
Arguments Text {E} t.
Arguments El {E} tag attrs children.
Arguments Keyed {E} key children.

Abbreviation html E := (list (node E)).

Section tree.
Context {E : Type}.

(** [{#if b} x {/if}] and [{#each l as x (key x)}]. *)
Definition when (b : bool) (x : html E) : html E := if b then x else [].
Definition each {A} (key : A → jstr) (l : list A) (f : A → html E) : html E := map (λ x, Keyed (key x) (f x)) l.

(** [class={[...]}]: the classes that are there. *)
Definition class_list (l : list (option jstr)) : jstr := js_join " " (omap id l).

Lemma node_ind' (P : node E → Prop) :
  (∀ t, P (Text t)) → (∀ tag attrs ch, Forall P ch → P (El tag attrs ch)) → (∀ k ch, Forall P ch → P (Keyed k ch)) →
  ∀ n, P n.
Proof.
  intros Ht He Hk. fix IH 1. intros [t|tag attrs ch|k ch]; [apply Ht|apply He|apply Hk];
    (induction ch as [|n ch IHch]; constructor; [apply IH|exact IHch]).
Qed.

(** ** Attributes *)

(** Names are compared by computation. *)
Fixpoint same (a b : jstr) : bool :=
  match a, b with
  | [], [] => true
  | c :: a, d :: b => (c =? d)%N && same a b
  | _, _ => false
  end.

Definition is_one_of (l : list jstr) (a : jstr) : bool := existsb (same a) l.

Definition attr_text (name : jstr) (a : attr E) : option jstr :=
  match a with
  | Attr n v => if same n name then Some v else None
  | Opt n v => if same n name then v else None
  | _ => None
  end.
Definition get_attr (name : jstr) (attrs : list (attr E)) : option jstr := head (omap (attr_text name) attrs).

Definition says_attr (name value : jstr) (attrs : list (attr E)) : bool :=
  match get_attr name attrs with Some v => same v value | None => false end.

Definition flag_value (name : jstr) (a : attr E) : option bool :=
  match a with Flag n b => if same n name then Some b else None | _ => None end.
Definition get_flag (name : jstr) (attrs : list (attr E)) : option bool := head (omap (flag_value name) attrs).
Definition has_flag (name : jstr) (attrs : list (attr E)) : bool := default false (get_flag name attrs).

(** ** What the user can do *)

Inductive act := Press (e : E) | Enter (f : jstr → E) | Tick (f : bool → E) | Give (f : chosen_file → E).

Definition fires (a : act) (e : E) : Prop :=
  match a with Press e' => e = e' | Enter f => ∃ t, e = f t | Tick f => ∃ b, e = f b | Give f => ∃ c, e = f c end.

(** A closed dialog cannot be closed. *)
Definition shut (attrs : list (attr E)) : bool := match get_flag "open" attrs with Some b => negb b | None => false end.

Definition attr_act (closed : bool) (a : attr E) : option act :=
  match a with
  | On n e => if same n "submit" then None else if same n "Close" && closed then None else Some (Press e)
  | OnInput _ f => Some (Enter f)
  | OnCheck _ f => Some (Tick f)
  | OnFile _ f => Some (Give f)
  | _ => None
  end.

Definition attr_submit (a : attr E) : option act :=
  match a with On n e => if same n "submit" then Some (Press e) else None | _ => None end.

(** The enabled submit buttons: of the form they name, or of the one they are in. *)
Fixpoint submits (n : node E) : list (option jstr) :=
  match n with
  | Text _ => []
  | El tag attrs ch =>
      (if same tag "button" && says_attr "type" "submit" attrs && negb (has_flag "disabled" attrs)
       then [get_attr "form" attrs] else [])
      ++ flat_map submits ch
  | Keyed _ ch => flat_map submits ch
  end.

Definition can_submit (page : list (option jstr)) (attrs : list (attr E)) (ch : html E) : bool :=
  existsb (λ f, match f with None => true | Some _ => false end) (flat_map submits ch)
  || match get_attr "id" attrs with
     | Some i => existsb (λ f, match f with Some j => same i j | None => false end) page
     | None => false
     end.

(** The part of a library's root that is shown only while the root is open. *)
Definition popup (tag : jstr) : bool := endsWith ".Content" tag.

(** What cannot be reached: the part of a root that is closed, the options of a list that is disabled. *)
Definition blocked (tag : jstr) (attrs : list (attr E)) (opened : bool) : bool :=
  popup tag && negb opened || same tag "select" && has_flag "disabled" attrs.

(** [page] are the submit buttons of the page; [opened]: is the nearest root open?  One that does not
    say can be opened. *)
Fixpoint acts (page : list (option jstr)) (opened : bool) (n : node E) : list act :=
  match n with
  | Text _ => []
  | El tag attrs ch =>
      if blocked tag attrs opened then []
      else (if has_flag "disabled" attrs then [] else omap (attr_act (shut attrs)) attrs)
           ++ (if can_submit page attrs ch then omap attr_submit attrs else [])
           ++ flat_map (acts page (default opened (get_flag "open" attrs))) ch
  | Keyed _ ch => flat_map (acts page opened) ch
  end.

(** The tree has an enabled control that asks for [e]. *)
Definition does (page : list (option jstr)) (opened : bool) (p : html E) (e : E) : Prop :=
  Exists (λ a, fires a e) (flat_map (acts page opened) p).

Definition offers (p : html E) : E → Prop := does (flat_map submits p) true p.

(** The texts that are shown, in order, while every popup is closed. *)
Fixpoint visible (n : node E) : list jstr :=
  match n with
  | Text t => [t]
  | El tag _ ch => if popup tag then [] else flat_map visible ch
  | Keyed _ ch => flat_map visible ch
  end.

(** ** Lemmas *)

Lemma same_eq a b : same a b = true ↔ a = b.
Proof.
  revert b. induction a as [|c a IH]; intros [|d b]; cbn [same]; try done.
  rewrite andb_true_iff, N.eqb_eq, IH. split; [by intros [-> ->]|by intros [= -> ->]].
Qed.

Lemma flat_map_each {A B} (g : node E → list B) (key : A → jstr) l (f : A → html E) :
  (∀ k ch, g (Keyed k ch) = flat_map g ch) → flat_map g (each key l f) = flat_map (λ x, flat_map g (f x)) l.
Proof. intros H. unfold each. induction l as [|x l IH]; [done|]. cbn [map flat_map]. by rewrite H, IH. Qed.

Lemma fires_flat_map {A} (g : A → list act) l e :
  Exists (λ a, fires a e) (flat_map g l) ↔ ∃ x, x ∈ l ∧ Exists (λ a, fires a e) (g x).
Proof.
  induction l as [|x l IH]; cbn [flat_map].
  - split; [intros H; inversion H|intros (? & H & _); by apply not_elem_of_nil in H].
  - rewrite Exists_app, IH. split.
    + intros [H|(y & Hy & H)]; [exists x|exists y]; (split; [by (left || right)|done]).
    + intros (y & [->|Hy]%elem_of_cons & H); [by left|right; eauto].
Qed.

Section does.
Context (page : list (option jstr)) (o : bool).

Lemma does_nil e : does page o [] e ↔ False.
Proof. unfold does. cbn. by rewrite Exists_nil. Qed.
Lemma does_text t r e : does page o (Text t :: r) e ↔ does page o r e.
Proof. done. Qed.
Lemma does_app p q e : does page o (p ++ q) e ↔ does page o p e ∨ does page o q e.
Proof. unfold does. by rewrite flat_map_app, Exists_app. Qed.
Lemma does_when b p e : does page o (when b p) e ↔ b = true ∧ does page o p e.
Proof. destruct b; cbn [when]; [by split; [|intros [? ?]]|]. rewrite does_nil. by split; [|intros [? ?]]. Qed.
Lemma does_each {A} (key : A → jstr) l f e : does page o (each key l f) e ↔ ∃ x, x ∈ l ∧ does page o (f x) e.
Proof. unfold does. by rewrite flat_map_each, fires_flat_map. Qed.

(** What an element itself asks for. *)
Definition own_acts (attrs : list (attr E)) : list act := if has_flag "disabled" attrs then [] else omap (attr_act (shut attrs)) attrs.
Definition own_submits (attrs : list (attr E)) (ch : html E) : list act :=
  match omap attr_submit attrs with [] => [] | l => if can_submit page attrs ch then l else [] end.

Lemma does_el tag attrs ch r e :
  does page o (El tag attrs ch :: r) e ↔
  (negb (blocked tag attrs o) = true
   ∧ (Exists (λ a, fires a e) (own_acts attrs) ∨ Exists (λ a, fires a e) (own_submits attrs ch)
      ∨ does page (default o (get_flag "open" attrs)) ch e))
  ∨ does page o r e.
Proof.
  unfold does. cbn [flat_map acts]. rewrite Exists_app. destruct (blocked tag attrs o); cbn [negb].
  - rewrite Exists_nil. by split; (intros [H|H]; [destruct H|by right]).
  - rewrite !Exists_app. unfold own_acts, own_submits. destruct (can_submit _ _ _), (omap attr_submit attrs); tauto.
Qed.
End does.

(** A tree has an enabled submit button of the form [f] (of the one it is in, for [None]). *)
Definition has_submit (p : html E) (f : option jstr) : Prop := f ∈ flat_map submits p.

Lemma elem_of_flat_map {A B} (g : A → list B) l x : x ∈ flat_map g l ↔ ∃ a, a ∈ l ∧ x ∈ g a.
Proof. rewrite list_elem_of_In, in_flat_map. setoid_rewrite list_elem_of_In. done. Qed.

Lemma has_submit_nil f : has_submit [] f ↔ False.
Proof. unfold has_submit. cbn. by rewrite elem_of_nil. Qed.
Lemma has_submit_text t r f : has_submit (Text t :: r) f ↔ has_submit r f.
Proof. done. Qed.
Lemma has_submit_app p q f : has_submit (p ++ q) f ↔ has_submit p f ∨ has_submit q f.
Proof. unfold has_submit. by rewrite flat_map_app, elem_of_app. Qed.
Lemma has_submit_when b p f : has_submit (when b p) f ↔ b = true ∧ has_submit p f.
Proof. destruct b; cbn [when]; [by split; [|intros [? ?]]|]. rewrite has_submit_nil. by split; [|intros [? ?]]. Qed.
Lemma has_submit_each {A} (key : A → jstr) l g f : has_submit (each key l g) f ↔ ∃ x, x ∈ l ∧ has_submit (g x) f.
Proof. unfold has_submit. rewrite flat_map_each by done. by rewrite elem_of_flat_map. Qed.

Definition submit_button (tag : jstr) (attrs : list (attr E)) : bool :=
  same tag "button" && says_attr "type" "submit" attrs && negb (has_flag "disabled" attrs).

Lemma has_submit_el tag attrs ch r f :
  has_submit (El tag attrs ch :: r) f ↔
  (submit_button tag attrs = true ∧ f = get_attr "form" attrs) ∨ has_submit ch f ∨ has_submit r f.
Proof.
  unfold has_submit, submit_button. cbn [flat_map submits]. rewrite !elem_of_app.
  destruct (_ && _ && _); [rewrite list_elem_of_singleton|rewrite elem_of_nil]; [tauto|].
  split; [by intros [[[]|?]|?]; auto|]. intros [[? _]|[?|?]]; [done|auto..].
Qed.

Lemma can_submit_true page attrs ch :
  can_submit page attrs ch = true ↔ has_submit ch None ∨ ∃ i, get_attr "id" attrs = Some i ∧ Some i ∈ page.
Proof.
  unfold can_submit, has_submit. rewrite orb_true_iff. f_equiv.
  - rewrite existsb_exists. setoid_rewrite <-list_elem_of_In. split; [by intros ([] & H & ?)|intros H; by exists None].
  - destruct (get_attr "id" attrs) as [i|]; [|by split; [|intros (? & ? & _)]]. rewrite existsb_exists.
    setoid_rewrite <-list_elem_of_In. split.
    + intros ([j|] & H & Hj); [|done]. apply same_eq in Hj as ->. eauto.
    + intros (j & [= <-] & H). exists (Some i). split; [done|]. by apply same_eq.
Qed.
End tree.
Arguments act : clear implicits.

#[global] Opaque does has_submit.

(** What components ask for, as equivalences. *)
Create Rewrite HintDb offers.

Lemma reached b : negb (negb b || false) = true → b = true.
Proof. by destruct b. Qed.

(** What is reached is not in a list that is disabled. *)
Ltac reach O :=
  unfold blocked, has_flag in O;
  cbn [same N.eqb Pos.eqb andb get_flag omap list_omap flag_value head default] in O;
  first
    [change (true = true) in O; clear O
    |lazymatch type of O with
     | negb (_ && negb ?b || false) = true => change (negb (negb b || false) = true) in O; apply reached in O
     | negb (_ || ?b) = true => change (negb b = true) in O; apply negb_true_iff in O; unfold id in O
     end
    |idtac].

(** [offers_inv H]: one goal for each control that [H : does page o p e] can come from. *)
Ltac offers_step H :=
  lazymatch type of H with
  | does _ _ [] _ => apply does_nil in H; destruct H
  | does _ _ (Text _ :: _) _ => apply does_text in H
  | does _ _ (_ ++ _) _ => apply does_app in H; destruct H as [H|H]
  | does _ _ (when _ _) _ => let B := fresh "Hif" in apply does_when in H; destruct H as [B H]
  | does _ _ (each _ _ _) _ => let x := fresh "x" in let I := fresh "Hin" in apply does_each in H; destruct H as (x & I & H)
  | does _ _ (El _ _ _ :: _) _ =>
      let O := fresh "Hopen" in
      apply does_el in H; destruct H as [[O [H|[H|H]]]|H];
      [try (cbn in O; discriminate O); reach O; unfold own_acts, has_flag, shut in H;
       cbn [get_flag omap list_omap flag_value attr_act head default same N.eqb Pos.eqb andb negb] in H|try (cbn in O; discriminate O); reach O; unfold own_submits in H; cbn [omap list_omap attr_submit same N.eqb Pos.eqb andb] in H|
       try (cbn in O; discriminate O); reach O; cbn [get_flag omap list_omap flag_value head same N.eqb Pos.eqb andb default] in H|]
  | does _ _ (if ?b then _ else _) _ => let B := fresh "Hif" in destruct b eqn:B
  | does _ _ (match ?x with _ => _ end) _ => let B := fresh "Hif" in destruct x eqn:B
  | does _ _ _ _ => progress (autorewrite with offers in H)
  | False => destruct H
  | Exists _ (if ?b then _ else _) => let B := fresh "Hif" in destruct b eqn:B
  | Exists _ [] => apply Exists_nil in H; destruct H
  | Exists _ (_ :: _) => apply Exists_cons in H; destruct H as [H|H]; [cbn [fires] in H|]
  end.

Ltac offers_inv H := repeat offers_step H.

(** [submit_inv H]: one goal for each button that [H : has_submit p f] can come from. *)
Create Rewrite HintDb submits.
Create Rewrite HintDb words.

Ltac submit_step H :=
  lazymatch type of H with
  | has_submit [] _ => apply has_submit_nil in H; destruct H
  | has_submit (Text _ :: _) _ => apply has_submit_text in H
  | has_submit (_ ++ _) _ => apply has_submit_app in H; destruct H as [H|H]
  | has_submit (when _ _) _ => let B := fresh "Hif" in apply has_submit_when in H; destruct H as [B H]
  | has_submit (each _ _ _) _ =>
      let x := fresh "x" in let I := fresh "Hin" in apply has_submit_each in H; destruct H as (x & I & H)
  | has_submit (El _ _ _ :: _) _ =>
      apply has_submit_el in H; destruct H as [[H ?]|[H|H]];
      [unfold submit_button, says_attr, has_flag in H;
       cbn [same N.eqb Pos.eqb get_attr get_flag omap list_omap attr_text flag_value head default id andb negb] in H;
       try discriminate H|..]
  | has_submit (if ?b then _ else _) _ => let B := fresh "Hif" in destruct b eqn:B
  | has_submit (match ?x with _ => _ end) _ => let B := fresh "Hif" in destruct x eqn:B
  | has_submit _ _ => progress (autorewrite with submits in H)
  | False => destruct H
  end.

Ltac submit_inv H := repeat submit_step H.

(** [offers_find]: the control of the goal [does page o p e], by search. *)
Ltac find_act :=
  apply Exists_cons; first [left; cbn [fires]; first [reflexivity | eexists; reflexivity] | right; find_act].

Ltac offers_find :=
  lazymatch goal with
  | |- does _ _ (_ ++ _) _ => apply does_app; first [left; offers_find | right; offers_find]
  | |- does _ _ (Text _ :: _) _ => apply does_text; offers_find
  | |- does _ _ (El _ _ _ :: _) _ =>
      apply does_el;
      first [left; split; [reflexivity|];
             first [left; unfold own_acts; cbn [has_flag shut get_flag omap list_omap flag_value attr_act head default same N.eqb Pos.eqb andb negb]; find_act
                   |right; right; cbn [get_flag omap list_omap flag_value head same N.eqb Pos.eqb andb default]; offers_find]
            |right; offers_find]
  | |- does _ _ (when _ _) _ => apply does_when; split; [first [assumption | reflexivity]|offers_find]
  | |- does _ _ (each _ _ _) _ => apply does_each; eexists; split; [eassumption|offers_find]
  | |- does _ _ _ _ => first [assumption | progress (autorewrite with offers); solve [eauto]]
  end.

Ltac submit_find :=
  lazymatch goal with
  | |- has_submit (_ ++ _) _ => apply has_submit_app; first [left; submit_find | right; submit_find]
  | |- has_submit (Text _ :: _) _ => apply has_submit_text; submit_find
  | |- has_submit (El _ _ _ :: _) _ =>
      apply has_submit_el;
      first [left; split; [reflexivity|reflexivity] | right; left; submit_find | right; right; submit_find]
  | |- has_submit (when _ _) _ => apply has_submit_when; split; [first [assumption | reflexivity]|submit_find]
  | |- has_submit _ _ => first [assumption | progress (autorewrite with submits); solve [eauto]]
  end.

(** The form that [does page o p e] is about, with the button that submits it inside it. *)
Ltac offers_form :=
  lazymatch goal with
  | |- does _ _ (_ ++ _) _ => apply does_app; first [left; offers_form | right; offers_form]
  | |- does _ _ (El _ _ _ :: _) _ =>
      apply does_el;
      first [left; split; [reflexivity|right; left; unfold own_submits; cbn [omap list_omap attr_submit same N.eqb Pos.eqb andb];
                           rewrite (proj2 (can_submit_true _ _ _)); [find_act|left; submit_find]]
            |left; split; [reflexivity|right; right; offers_form]
            |right; offers_form]
  end.

(** What the control of [H] asks for: an event, or one with what was entered. *)
Ltac asked H := lazymatch type of H with ∃ _, _ => let t := fresh "t" in destruct H as [t ->] | _ => subst end.

(** The button of a form is enabled. *)
Ltac submitted H := apply can_submit_true in H as [H|(? & ? & _)]; [submit_inv H|discriminate].

(** The texts of concrete markup. *)
Ltac words :=
  repeat first
    [ match goal with |- context [popup ?t] => let b := eval vm_compute in (popup t) in change (popup t) with b; cbv iota end
    | rewrite flat_map_app
    | progress autorewrite with words
    | progress cbn [flat_map app visible map fst snd] ];
  rewrite ?app_nil_r; cbn [app].
