(* ===== verification/Output.v ===== *)
(** * What a run and an error show

    Models [components/editor/OutputPanel.svelte], with the state of [Execution] that
    the editor page gives it, [components/ErrorDisplay.svelte] with [routes/+error.svelte],
    and the values of [components/settings/SettingsHistoryTable.svelte].  What is shown
    is data here; the elements it is shown in are [EditorView] and [PagesView]. *)

From Stdlib Require Import SpecFloat.
From S2P Require Import Prelude JsString JsValue Json ApiEnums Formatters EventFilters Execution ExecutionSpec.

(** ** The output panel *)

Record ResourceUsage := mkUsage {
  execution_time_wall_seconds : double;
  cpu_time_jiffies : Z;
  peak_memory_kb : Z;
}.

Record ExecutionResult := mkResult {
  execution_id : jstr;
  status : ExecutionStatus;
  stdout : option jstr;
  stderr : option jstr;
  resource_usage : option ResourceUsage;
}.

Inductive block :=
| Badge (class title text : jstr)
| CopyId (text : jstr)
| OutputText (title text : jstr)       (* with a button that copies the text *)
| ErrorText (title text : jstr)
| UsageFields (fields : list (jstr * jstr)).

Inductive panel :=
| Working (label : jstr)
| Failed (message : jstr)
| Shown (blocks : list block)
| Hint.

Definition phaseLabel (phase : ExecutionPhase) : jstr :=
  match phase with
  | starting => "Starting..."
  | active ExecutionStatus_QUEUED => "Queued..."
  | active ExecutionStatus_SCHEDULED => "Scheduled..."
  | active ExecutionStatus_RUNNING => "Running..."
  | _ => "Executing..."
  end.

(** [x.toFixed(3)] for a number that is not negative and below 10^21. *)
Definition toFixed3 (x : double) : jstr :=
  let n := match x with S754_finite _ m e => round_of (1000 * Z.pos m) e | _ => 0%Z end in
  string_of_Z (n / 1000) ++ "." ++ string_of_Z (n mod 1000 / 100) ++ string_of_Z (n mod 100 / 10) ++ string_of_Z (n mod 10).

(** [{#if text}]: a text that is missing or empty is not shown. *)
Definition text_block (f : jstr → block) (text : option jstr) : list block :=
  match text with Some ((_ :: _) as t) => [f t] | _ => [] end.

Definition result_blocks (r : ExecutionResult) : list block :=
  [Badge (EXECUTION_STATUS_BADGE (status r)) (fieldTitle "status") (ExecutionStatus_value (status r))]
  ++ text_block CopyId (Some (execution_id r))
  ++ text_block (OutputText (fieldTitle "stdout")) (stdout r)
  ++ text_block (ErrorText (fieldTitle "stderr")) (stderr r)
  ++ match resource_usage r with
     | Some usage =>
         [UsageFields [(fieldTitle "execution_time_wall_seconds", toFixed3 (execution_time_wall_seconds usage));
                       (fieldTitle "cpu_time_jiffies", string_of_Z (cpu_time_jiffies usage));
                       (fieldTitle "peak_memory_kb", string_of_Z (peak_memory_kb usage))]]
     | None => []
     end.

Definition OutputPanel (phase : ExecutionPhase) (result : option ExecutionResult) (error : option jstr) : panel :=
  if negb (bool_decide (phase = idle)) then Working (phaseLabel phase)
  else match error, result with
       | Some ((_ :: _) as message), None => Failed message
       | _, Some r => Shown (result_blocks r)
       | _, None => Hint
       end.

(** The label is one of three, in ASCII. *)
Definition copyToClipboard (written : bool) (label : jstr) : jstr * bool :=
  if written then (label ++ " copied to clipboard", true) else ("Failed to copy " ++ toLowerCase label, false).

(** ** The error page *)

Definition isNetworkError (message : jstr) : bool :=
  includes "network" (toLowerCase message) || includes "fetch" (toLowerCase message)
  || includes "connection" (toLowerCase message).

Definition userMessage (message : jstr) : jstr :=
  if isNetworkError message
  then "Unable to connect to the server. Please check your internet connection and try again."
  else "Something went wrong. Our team has been notified and is working on it.".

(** The page for a status and the error's message, which may be missing: its title and its text. *)
Definition error_page (status : Z) (message : option jstr) : jstr * jstr :=
  (if (status =? 404)%Z then "Page not found"%js else "Something went wrong"%js, userMessage (default "Unknown error"%js message)).

(** ** A value of the settings' history *)

(** [typeof value === 'object' ? JSON.stringify(value) : String(value)], of JSON data. *)
Definition show (value : jsval) : outcome jsval jstr :=
  match value with
  | VNull | VArr _ | VObj _ => default [] <$> JSON_stringify value
  | v => match to_js_string v with Some s => Return s | None => Throw js_type_error end
  end.

(** ** The panel shows the run *)

Section panel_spec.
Context {Mut : Type} `{!Mutation Mut, !MutationLaws Mut}.
Local Abbreviation sys := (system Mut ExecutionResult).

(** What the editor page passes on. *)
Definition editor_panel (s : ExecutionState Mut ExecutionResult) : panel := OutputPanel (phase s) (result s) (error s).

Lemma editor_panel_working s : (∃ l, editor_panel s = Working l) ↔ isExecuting s = true.
Proof.
  unfold editor_panel, OutputPanel, isExecuting. destruct (bool_decide _); cbn [negb].
  - split; [intros [l H]|done]. destruct (error s) as [[|]|], (result s); done.
  - split; [done|]. intros _. by eexists.
Qed.

(** What the panel shows of an outcome. *)
Definition outcome_panel (o : option ExecutionResult * option jstr) : panel :=
  match o with
  | (Some r, _) => Shown (result_blocks r)
  | (None, Some message) => Failed message
  | (None, None) => Hint
  end.

Lemma outcome_error_text (items : list (stream_item ExecutionResult)) e : (outcome_of items).2 = Some e → e ≠ [].
Proof.
  induction items as [|[st t r| |] items IH]; cbn [outcome_of terminal_of].
  - by intros [= <-].
  - destruct (decide _); [done|]. destruct (FAILURE_MESSAGES t) eqn:E; [|done]. intros [= <-].
    destruct t as [[]|]; cbn in E; simplify_eq; done.
  - done.
  - done.
Qed.

(** C7. The output panel shows the run.  When the user waits for a run to end, the panel says that a
    script is running exactly while a call is live, or after one that raised ([b]).  Whatever it showed
    before: after a run that nothing disturbs and all of whose items can be read, it shows the result
    of the first terminal event, else the failure of that event or of the connection; and after one
    whose stream raises before a terminal event, or sends [null], it says for good that the script is
    running. *)
Theorem panel_shows_run b (w : sys) :
  (reachable b w → (∃ l, editor_panel (exec w) = Working l) ↔ activities w ≠ ∅ ∨ b = true)
  ∧ (∀ status items,
      activities w !! calls w = None → calls w ∉ aborted (exec w) → controller (exec w) ≠ Some (calls w) →
      Forall readable items →
      ∃ w', run w (one_run (calls w) status items) = Some w' ∧ editor_panel (exec w') = outcome_panel (outcome_of items))
  ∧ ∀ status items last,
      activities w !! calls w = None → Forall readable items → has_terminal items = false →
      last = LRaised (calls w) ∨ last = LItem (calls w) SNull →
      ∃ w', run w (raised_run (calls w) status items last) = Some w' ∧ activities w' = activities w
            ∧ ∃ l, editor_panel (exec w') = Working l.
Proof.
  split_and!.
  - intros Hw. rewrite editor_panel_working. by apply reachable_executing.
  - intros status items H1 H2 H3 H4. destruct (run_outcome w status items H1 H2 H3 H4) as (w' & Hr & Hp & _ & Hres & He & _).
    exists w'. split; [done|]. unfold editor_panel, OutputPanel. rewrite Hp, Hres, He, bool_decide_eq_true_2 by done.
    cbn [negb]. pose proof (outcome_error_text items) as Hne.
    destruct (outcome_of items) as [[r|] [e|]]; cbn [fst snd outcome_panel] in *; try done.
    + by destruct e.
    + destruct e; [by destruct (Hne [] eq_refl)|done].
  - intros status items last H1 H2 H3 H4. destruct (run_raised w status items last H1 H2 H3 H4) as (w' & Hr & Hx & Ha).
    exists w'. split; [done|]. split; [done|]. by apply editor_panel_working.
Qed.
End panel_spec.

(** The error page says nothing of the error but whether it is about the network. *)
Theorem error_page_reveals_nothing status m m' :
  isNetworkError (default "Unknown error"%js m) = isNetworkError (default "Unknown error"%js m') →
  error_page status m = error_page status m'.
Proof. intros H. unfold error_page, userMessage. by rewrite H. Qed.

Definition example_result : ExecutionResult :=
  mkResult "e1" ExecutionStatus_COMPLETED (Some "hi"%js) (Some []) (Some (mkUsage (fdiv (double_of_Z 1) (double_of_Z 8)) 3 2048)).

Example example_blocks :
  result_blocks example_result
  = [Badge "badge-success" "Status" "completed"; CopyId "e1"; OutputText "Stdout" "hi";
     UsageFields [("Execution Time Wall Seconds"%js, "0.125"%js); ("Cpu Time Jiffies"%js, "3"%js); ("Peak Memory Kb"%js, "2048"%js)]].
Proof. vm_compute. reflexivity. Qed.

Definition fresh_system : system observer ExecutionResult := initial_system.

Lemma panel_shows_run_witness :
  ((∃ l, editor_panel (exec fresh_system) = Working l) ↔ activities fresh_system ≠ ∅ ∨ false = true)
  ∧ (∃ w', run fresh_system (one_run 0 ExecutionStatus_QUEUED
                              [SEvent None (TEvent EventType_EXECUTION_FAILED) None]) = Some w'
           ∧ editor_panel (exec w') = Failed "Execution failed.")
  ∧ ∃ w', run fresh_system (raised_run 0 ExecutionStatus_QUEUED [SText] (LItem 0 SNull)) = Some w'
          ∧ activities w' = activities fresh_system ∧ ∃ l, editor_panel (exec w') = Working l.
Proof.
  destruct (panel_shows_run false fresh_system) as (H1 & H2 & H3). split; [apply H1, reach_initial|]. split.
  - apply (H2 ExecutionStatus_QUEUED [SEvent None (TEvent EventType_EXECUTION_FAILED) None]);
      [reflexivity|set_solver|done|repeat constructor; done].
  - apply (H3 ExecutionStatus_QUEUED [SText] (LItem 0 SNull)); [reflexivity|repeat constructor; done|reflexivity|by right].
Defined.
