(* ===== verification/EventsPage.v ===== *)
(** * The events page of the administration

    Models [routes/admin/events/+page.svelte] (filters, dialogs, deletion, replay,
    export) with the components that act on its state:
    [components/admin/events/EventFilters.svelte], [ReplayPreviewModal.svelte],
    [EventDetailsModal.svelte] and [ReplayProgressBanner.svelte].

    As in [Workbench], a handler maps the state to its next state and what it asks
    for; calls are numbered, pending until their answer is handled, and the
    callbacks given to [mutate] itself run only for the call it made last. *)

From S2P Require Import Prelude JsString Uri JsValue UrlBuilder UrlSpec Client Zod ApiEnums ApiSchemas ApiTypes SdkSpec.

(** ** The state *)

Record ReplayPreview := mkPreview { eventId : jstr; total_events : Z; events_preview : list jsval }.

Inductive page_dialog :=
| Closed
| Details (event_id : jstr)
| Overview (user_id : jstr)
| Preview (preview : ReplayPreview).

Inductive call := ReplayCall (event_id : jstr) (dry_run : bool) | RemoveCall (event_id : jstr).

Inductive effect :=
| SendReplay (call : nat) (event_id : jstr) (dry_run : bool)
| SendRemove (call : nat) (event_id : jstr)
| ToastSuccess (message : jstr)
| ToastError (message : jstr)
| ToastInfo (message : jstr)
| RefetchLists                (* [refresh] *)
| OpenWindow (url : jstr).

Record events_page := mkEventsPage {
  filters : list (jstr * jsval);
  applied : list (jstr * jsval);
  dialog : page_dialog;
  replaySessionId : jstr;
  pending : gmap nat call;
  observed_replay : option nat;
  next_call : nat;
}.

Definition set_dialog (d : page_dialog) (p : events_page) : events_page :=
  mkEventsPage (filters p) (applied p) d (replaySessionId p) (pending p) (observed_replay p) (next_call p).
Definition set_session (s : jstr) (p : events_page) : events_page :=
  mkEventsPage (filters p) (applied p) (dialog p) s (pending p) (observed_replay p) (next_call p).
Definition settled (i : nat) (p : events_page) : events_page :=
  mkEventsPage (filters p) (applied p) (dialog p) (replaySessionId p) (delete i (pending p)) (observed_replay p) (next_call p).

(** ** Filters *)

Definition set_filter (key : jstr) (v : jsval) (p : events_page) : events_page :=
  mkEventsPage (obj_set key v (filters p)) (applied p) (dialog p) (replaySessionId p) (pending p) (observed_replay p)
    (next_call p).

(** The inputs of [EventFilters]: a list is null when nothing is selected, a text when it is empty. *)
Definition select_types (sel : list ApiEnums.EventType) : events_page → events_page :=
  set_filter "event_types" (match sel with [] => VNull | _ => VArr (map (λ t, VStr (EventType_value t)) sel) end).

Definition input_text (key value : jstr) : events_page → events_page :=
  set_filter key (match value with [] => VNull | _ => VStr value end).

Section dates.
(** [parseISO(value).toISOString()], and [format(parseISO(timestamp), LOCAL_DATETIME)]. *)
Context (parseISO_toISOString : jstr → jstr) (format_local : jstr → jstr).

Definition fromInput (value : jstr) : jsval :=
  match value with [] => VNull | _ => VStr (parseISO_toISOString value) end.
Definition inputValue (timestamp : jsval) : jstr :=
  match timestamp with VStr ((_ :: _) as t) => format_local t | _ => [] end.
Definition input_time (key value : jstr) : events_page → events_page := set_filter key (fromInput value).
End dates.

Definition applyFilters (p : events_page) : events_page :=
  mkEventsPage (filters p) (filters p) (dialog p) (replaySessionId p) (pending p) (observed_replay p) (next_call p).

Definition clearFilters (p : events_page) : events_page :=
  applyFilters (mkEventsPage [] (applied p) (dialog p) (replaySessionId p) (pending p) (observed_replay p) (next_call p)).

(** ** Deletion and replay *)

(** [confirmed] is the user's answer to the browser's question. *)
Definition deleteEvent (confirmed : bool) (event_id : jstr) (p : events_page) : events_page * list effect :=
  if confirmed then
    (mkEventsPage (filters p) (applied p) (dialog p) (replaySessionId p)
       (<[next_call p := RemoveCall event_id]> (pending p)) (observed_replay p) (S (next_call p)),
     [SendRemove (next_call p) event_id])
  else (p, []).

(** [onSuccess] of [remove]. *)
Definition removed (p : events_page) : events_page * list effect :=
  (p, [ToastSuccess "Event deleted successfully"; RefetchLists]).

Definition replay_mutate (event_id : jstr) (dry_run : bool) (p : events_page) : events_page * list effect :=
  (mkEventsPage (filters p) (applied p) (dialog p) (replaySessionId p)
     (<[next_call p := ReplayCall event_id dry_run]> (pending p)) (Some (next_call p)) (S (next_call p)),
   [SendReplay (next_call p) event_id dry_run]).

Definition replayEvent (confirmed : bool) (event_id : jstr) (dryRun : bool) (p : events_page)
  : events_page * list effect :=
  if negb dryRun && negb confirmed then (p, []) else replay_mutate event_id dryRun p.

(** The response of a replay: [events_preview] and [session_id] may be null or absent. *)
Record replay_response := mkResponse {
  r_total_events : Z;
  r_events_preview : option (list jsval);
  r_session_id : option jstr;
}.

(** [onSuccess] of the call [i] of [replay.mutate]. *)
Definition replayed (i : nat) (event_id : jstr) (dryRun : bool) (r : replay_response) (p : events_page)
  : events_page * list effect :=
  if bool_decide (observed_replay p = Some i) then
    if negb dryRun then
      (set_session (default [] (r_session_id r)) p, [ToastSuccess "Replay scheduled! Tracking progress..."])
    else match r_events_preview r with
         | Some ((_ :: _) as events) => (set_dialog (Preview (mkPreview event_id (r_total_events r) events)) p, [])
         | _ => (p, [ToastInfo ("Dry run: " ++ string_of_Z (r_total_events r) ++ " events would be replayed")])
         end
  else (p, []).

(** ** Dialogs *)

Definition close_dialog : events_page → events_page := set_dialog Closed.

(** [handleConfirm] of the preview: the properties of a component are read from the page when they are
    used, so what the preview is of is read before it is closed.  [None]: there is no preview. *)
Definition handleConfirm (confirmed : bool) (p : events_page) : option (events_page * list effect) :=
  match dialog p with
  | Preview preview =>
      let event_id := eventId preview in
      let p := close_dialog p in
      Some (replayEvent confirmed event_id false p)
  | _ => None
  end.

(** [onReplay] of the details. *)
Definition details_replay (confirmed : bool) (event_id : jstr) (p : events_page) : events_page * list effect :=
  replayEvent confirmed event_id false (close_dialog p).

(** [onViewUser]: an event may have no user. *)
Definition onViewUser (user_id : jstr) (p : events_page) : events_page :=
  match user_id with [] => p | _ => set_dialog (Overview user_id) p end.

(** The effect of [EventDetailsModal] when its query fails. *)
Definition details_failed (p : events_page) : events_page :=
  match dialog p with Details _ => close_dialog p | _ => p end.

(** ** The banner: what a status of the replay says *)

Definition follow_status (status : ApiEnums.ReplayStatus) (replayed_events : Z) (errors : option (list jstr)) : list effect :=
  match status with
  | ReplayStatus_COMPLETED =>
      [ToastSuccess ("Replay completed! Processed " ++ string_of_Z replayed_events ++ " events successfully.")]
  | ReplayStatus_FAILED =>
      [ToastError ("Replay failed: "
                   ++ match errors with Some (((_ :: _) as e) :: _) => e | _ => "Unknown error" end)]
  | _ => []
  end.

(** ** Export *)

Definition export_url : jstr := "/api/v1/admin/events/export/{export_format}".

Section export.
Context {zod : Zod} {W : Type}.
(** The error zod throws for data it refuses. *)
Context (zod_error : jsval).

Definition export_options (query : list (jstr * jsval)) (format : ApiEnums.ExportFormat) : RequestOptions W :=
  mkRequestOptions None (Some export_url) None (Some [("export_format"%js, VStr (ExportFormat_value format))])
    (Some query) None None None None None None None None None None None None None None.

Definition exportEvents (c : client_state W) (format : ApiEnums.ExportFormat) (p : events_page)
  : outcome jsval (list effect) :=
  match safeParse zExportEventsApiV1AdminEventsExportExportFormatGetQuery (VObj (applied p)) with
  | Some (VObj query) =>
      url ← client_buildUrl c (export_options query format);
      Return [OpenWindow url; ToastInfo ("Starting " ++ ExportFormat_value format ++ " export...")]
  | _ => Throw zod_error
  end.
End export.

(** ** The export follows the applied filters *)

Section export_spec.
Context {zod : Zod} {W : Type} (zod_error : jsval).
Implicit Types c : client_state W.

(** Schemas that answer what they accept. *)
Fixpoint keeps (s : schema) : bool :=
  match s with
  | ZString _ | ZEnum _ | ZDatetime => true
  | ZNullish s | ZArray s => keeps s
  | _ => false
  end.

Lemma keeps_same s v w : keeps s = true → safeParse s v = Some w → w = v.
Proof.
  revert v w. induction s using schema_nested_ind; intros v w Hk Hp; try discriminate Hk; rewrite safeParse_spec in Hp;
    cbn [zod_step keeps] in *.
  - destruct v; try discriminate Hp. destruct (forallb _ cs) in Hp; congruence.
  - destruct v; try discriminate Hp. destruct (existsb _ vs) in Hp; congruence.
  - destruct v as [| | | | |t| | | | | | | |]; try discriminate Hp. destruct (is_datetime t); congruence.
  - destruct v as [| | | | | | | | | | |l| |]; try discriminate Hp. destruct (mapM _ l) as [ws|] eqn:E; [|discriminate Hp].
    injection Hp as <-. f_equal. apply mapM_Some_1 in E. induction E as [|x y l ws Hx _ IH]; [done|].
    f_equal; [by apply IHs|done].
  - destruct (nullish v); [congruence|auto].
Qed.

(** The properties that are read of an object. *)
Definition read_fields (ks : list jstr) (props : list (jstr * jsval)) : list (jstr * jsval) :=
  map (λ k, (k, default VUndefined (obj_get k props))) ks.

Lemma parse_fields_kept fs props q :
  forallb (λ f, keeps f.2) fs = true → parse_fields safeParse fs props = Some q →
  query_pairs q = query_pairs (read_fields (map fst fs) props)
  ∧ (query_ok (read_fields (map fst fs) props) → query_ok q).
Proof.
  revert q. induction fs as [|[k s] fs IH]; intros q Hk Hp; [by injection Hp as <-|].
  cbn [forallb snd] in Hk. apply andb_prop in Hk as [Hk Hks]. cbn [parse_fields] in Hp.
  destruct (safeParse s _) as [w|] eqn:Ew; [|done]. cbn [mbind option_bind] in Hp.
  destruct (parse_fields _ fs props) as [rest|] eqn:Er; [|done]. cbn [mbind option_bind] in Hp.
  destruct (IH rest Hks eq_refl) as [Hpairs Hq]. apply (keeps_same s _ w Hk) in Ew. subst w.
  injection Hp as <-. cbn [map fst]. unfold read_fields in *. cbn [map]. unfold query_pairs in *. cbn [flat_map fst snd].
  destruct (obj_has k props) eqn:Eh; cbn [negb]; rewrite ?andb_false_r, ?andb_true_r.
  - cbn [flat_map fst snd]. rewrite Hpairs. split; [done|]. intros [H1 H2]%Forall_cons. constructor; [done|exact (Hq H2)].
  - unfold obj_has in Eh. destruct (obj_get k props) as [v|]; [done|].
    cbn [default from_option id is_undefined]. rewrite Hpairs. split; [done|]. intros [H1 H2]%Forall_cons. exact (Hq H2).
Qed.

Definition exported : list jstr :=
  ["event_types"; "aggregate_id"; "user_id"; "service_name"; "start_time"; "end_time"]%js.

(** The query of the export: the applied filters but the search text, and the limit of the schema. *)
Definition export_query (props : list (jstr * jsval)) : list (jstr * jsval) :=
  read_fields exported props ++ [("limit"%js, VInt 10000)].

Definition texts_well_formed (props : list (jstr * jsval)) : Prop := ∀ k s, obj_get k props = Some (VStr s) → text_ok s.

Lemma event_types_text s : existsb (jeqb s) (map EventType_value EventType_all) = true → text_ok s.
Proof.
  intros (t & Ht & ->%jeqb_eq)%existsb_true. apply list_elem_of_fmap in Ht as (e & -> & _). apply ascii_text. by destruct e.
Qed.

Lemma enum_elements_ok l vs ws :
  mapM (safeParse (ZEnum vs)) l = Some ws → (∀ s, existsb (jeqb s) vs = true → text_ok s) → query_value_ok (VArr l).
Proof.
  intros Hm Ht. apply mapM_Some_1 in Hm. cbn. induction Hm as [|x y l ws Hx _ IH]; [constructor|].
  constructor; [|done]. rewrite safeParse_spec in Hx. destruct x as [| | | | |s| | | | | | | |]; try discriminate Hx.
  cbn in Hx. destruct (existsb _ vs) eqn:E; [|discriminate Hx]. right. exists s. split; [done|auto].
Qed.

(** What the fields of the filters accept goes into a URL. *)
Lemma filter_value_ok s v :
  (∃ t, (t = ZString [] ∨ t = ZDatetime ∨ t = ZArray zEventType) ∧ s = ZNullish t) →
  accepts s v → (∀ t, v = VStr t → text_ok t) → query_value_ok v.
Proof.
  intros (t & Ht & ->) [w Hw] Hv. rewrite safeParse_spec in Hw. cbn [zod_step] in Hw.
  destruct (nullish v) eqn:En; [destruct v; try discriminate En; by left|]. rewrite safeParse_spec in Hw.
  destruct Ht as [->|[->| ->]]; cbn [zod_step] in Hw; destruct v as [| | | | |u| | | | | |l| |]; try discriminate Hw.
  - right. exists u. split; [done|auto].
  - right. exists u. split; [done|auto].
  - unfold zEventType in Hw. destruct (mapM _ l) as [ws|] eqn:E; [|discriminate Hw].
    eapply enum_elements_ok; [exact E|]. intros s Hs. by apply event_types_text.
Qed.

(** The fields of the schema of the export's query that filter, and the one that limits. *)
Definition filter_fields : list (jstr * schema) :=
  match zExportEventsApiV1AdminEventsExportExportFormatGetQuery with ZObject fs => take 6 fs | _ => [] end.

Lemma filter_fields_shared f :
  f ∈ filter_fields →
  (∃ t, (t = ZString [] ∨ t = ZDatetime ∨ t = ZArray zEventType) ∧ f.2 = ZNullish t)
  ∧ f ∈ match zEventFilter with ZObject fs => fs | _ => [] end ∧ query_name f.1.
Proof.
  intros Hf. cbn in Hf. repeat (apply elem_of_cons in Hf as [->|Hf]); [..|by apply not_elem_of_nil in Hf].
  all: split; [first [by exists (ZString []); split; [tauto|] | by exists ZDatetime; split; [tauto|]
                     | by exists (ZArray zEventType); split; [tauto|]]|].
  all: split; [cbn; rewrite !elem_of_cons; tauto|repeat constructor].
Qed.

(** The query that the schema makes of the applied filters. *)
Lemma export_query_parsed props :
  accepts zEventFilter (VObj props) → obj_get "limit" props = None → texts_well_formed props →
  ∃ q, safeParse zExportEventsApiV1AdminEventsExportExportFormatGetQuery (VObj props) = Some (VObj q)
       ∧ query_pairs q = query_pairs (export_query props) ∧ query_ok q.
Proof.
  intros [w Hw] Hl Ht. rewrite safeParse_spec in Hw. cbn [zod_step zEventFilter] in Hw.
  destruct (parse_fields _ _ props) as [ws|] eqn:Ew; [|discriminate Hw]. clear Hw.
  assert (∀ f, f ∈ filter_fields → accepts f.2 (default VUndefined (obj_get f.1 props))) as Ha.
  { intros f Hf. apply (parse_fields_each _ _ _ f Ew). by apply filter_fields_shared. }
  destruct (parse_fields_accepts filter_fields props Ha) as [a Hpa].
  assert (parse_fields safeParse [("limit"%js, ZDefault (ZOptional (ZInt [Gte 1; Lte 50000])) (VInt 10000))] props
          = Some [("limit"%js, VInt 10000)]) as Hpl.
  { cbn [parse_fields]. rewrite Hl. cbn [default from_option id]. by rewrite safeParse_spec. }
  destruct (parse_fields_kept filter_fields props a eq_refl Hpa) as [Hpairs Hok].
  exists (a ++ [("limit"%js, VInt 10000)]). split; [|split].
  - rewrite safeParse_spec. unfold zExportEventsApiV1AdminEventsExportExportFormatGetQuery. cbn [zod_step].
    change (VObj <$> parse_fields safeParse (filter_fields ++ [("limit"%js, ZDefault (ZOptional (ZInt [Gte 1; Lte 50000])) (VInt 10000))]) props
            = Some (VObj (a ++ [("limit"%js, VInt 10000)]))).
    by rewrite parse_fields_app, Hpa, Hpl.
  - unfold export_query, query_pairs in *. rewrite !flat_map_app, Hpairs. done.
  - apply Forall_app. split; [apply Hok|].
    + apply Forall_forall. intros kv Hkv. unfold read_fields in Hkv. apply list_elem_of_fmap in Hkv as (k & -> & Hk).
      apply list_elem_of_fmap in Hk as (f & -> & Hf). destruct (filter_fields_shared f Hf) as (Hs & _ & Hn).
      split; [done|]. apply (filter_value_ok f.2); [done|by apply Ha|]. intros t Hv. cbn [fst snd] in Hv.
      destruct (obj_get f.1 props) as [v|] eqn:E; [|done]. cbn in Hv. subst v. by apply (Ht f.1).
    + constructor; [|constructor]. split; [repeat constructor|]. right. exists "10000"%js.
      split; [reflexivity|by apply ascii_text].
Qed.

Lemma parse_fields_read fs l l' :
  (∀ f, f ∈ fs → obj_get f.1 l = obj_get f.1 l') → parse_fields safeParse fs l = parse_fields safeParse fs l'.
Proof.
  induction fs as [|[k s] fs IH]; intros H; [done|]. cbn [parse_fields]. unfold obj_has.
  pose proof (H (k, s) ltac:(left)) as Hk. cbn [fst] in Hk. rewrite Hk. rewrite IH; [done|]. intros f Hf. apply H. by right.
Qed.

Lemma search_ignored search props :
  safeParse zExportEventsApiV1AdminEventsExportExportFormatGetQuery (VObj (obj_set "search_text" search props))
  = safeParse zExportEventsApiV1AdminEventsExportExportFormatGetQuery (VObj props).
Proof.
  rewrite !safeParse_spec. cbn [zod_step zExportEventsApiV1AdminEventsExportExportFormatGetQuery]. f_equal.
  apply parse_fields_read. intros f Hf. apply obj_get_set_ne.
  repeat (apply elem_of_cons in Hf as [->|Hf]; [done|]). by apply not_elem_of_nil in Hf.
Qed.

Lemma export_built c base q format :
  o_baseUrl (config c) = Some base → o_querySerializer (config c) = Some (SerializerFunction defaultQuerySerializer) →
  client_buildUrl c (export_options q format)
  = buildUrl (Some base) (Some [("export_format"%js, VStr (ExportFormat_value format))]) (Some q)
      (SerializerFunction defaultQuerySerializer) export_url.
Proof.
  intros Hbase Hser. unfold client_buildUrl, export_options, spread.
  cbn [o_baseUrl o_path o_query o_querySerializer o_url over]. by rewrite Hbase, Hser.
Qed.

(** C35. The export asks for what the list shows, but for the search text: for applied filters that
    the API accepts, the export opens a URL from which the endpoint reads the format, each of the six
    filters as it is applied and the limit of the schema; and it is the same whatever text is
    searched for. *)
Theorem export_follows_filters c base p format :
  o_baseUrl (config c) = Some base → no_braces base →
  o_querySerializer (config c) = Some (SerializerFunction defaultQuerySerializer) →
  accepts zEventFilter (VObj (applied p)) → obj_get "limit" (applied p) = None → texts_well_formed (applied p) →
  (∃ url, exportEvents zod_error c format p
          = Return [OpenWindow url; ToastInfo ("Starting " ++ ExportFormat_value format ++ " export...")]
          ∧ route_of_call base (route_of export_url) [("export_format"%js, VStr (ExportFormat_value format))]
              (export_query (applied p)) url)
  ∧ (∀ search p', applied p' = obj_set "search_text" search (applied p) →
       exportEvents zod_error c format p' = exportEvents zod_error c format p).
Proof.
  intros Hbase Hbraces Hser Ha Hl Ht. split.
  - destruct (export_query_parsed (applied p) Ha Hl Ht) as (q & Hq & Hpairs & Hok).
    destruct (buildUrl_reads base (route_of export_url) [("export_format"%js, VStr (ExportFormat_value format))] q
                [("export_format"%js, ExportFormat_value format)]) as (url & Hurl & Hroute).
    + done.
    + done.
    + repeat constructor; try (apply (bool_decide_unpack _); vm_compute; done); done.
    + done.
    + constructor; [|constructor]. split; [apply ascii_text; by destruct format|by destruct format].
    + done.
    + exists url. unfold exportEvents. rewrite Hq, (export_built c base q format Hbase Hser).
      unfold route_of_call in *. rewrite <-Hpairs. split; [|done].
      change (render_route (route_of export_url)) with export_url in Hurl. by rewrite Hurl.
  - intros search p' Hp'. unfold exportEvents. rewrite Hp'. by rewrite search_ignored.
Qed.
End export_spec.

(** ** Replays are followed *)

Inductive label :=
| LFilter (key : jstr) (v : jsval)
| LApply
| LClear
| LDelete (confirmed : bool) (event_id : jstr)
| LRemoved (i : nat)
| LReplay (confirmed : bool) (event_id : jstr) (dry_run : bool)
| LReplayed (i : nat) (r : replay_response)
| LFailed (i : nat)                     (* either call *)
| LConfirm (confirmed : bool)
| LDetails (event_id : jstr)
| LDetailsReplay (confirmed : bool) (event_id : jstr)
| LDetailsFailed
| LUser (user_id : jstr)
| LClose
| LCloseBanner.

(** [None]: the step cannot happen. *)
Definition step (p : events_page) (l : label) : option (events_page * list effect) :=
  match l with
  | LFilter key v => Some (set_filter key v p, [])
  | LApply => Some (applyFilters p, [])
  | LClear => Some (clearFilters p, [])
  | LDelete confirmed event_id => Some (deleteEvent confirmed event_id p)
  | LRemoved i => match pending p !! i with Some (RemoveCall _) => Some (removed (settled i p)) | _ => None end
  | LReplay confirmed event_id dry_run => Some (replayEvent confirmed event_id dry_run p)
  | LReplayed i r =>
      match pending p !! i with
      | Some (ReplayCall event_id dry_run) => Some (replayed i event_id dry_run r (settled i p))
      | _ => None
      end
  | LFailed i => match pending p !! i with Some _ => Some (settled i p, []) | None => None end
  | LConfirm confirmed => handleConfirm confirmed p
  | LDetails event_id => Some (set_dialog (Details event_id) p, [])
  | LDetailsReplay confirmed event_id => Some (details_replay confirmed event_id p)
  | LDetailsFailed => Some (details_failed p, [])
  | LUser user_id => Some (onViewUser user_id p, [])
  | LClose => Some (close_dialog p, [])
  | LCloseBanner => Some (set_session [] p, [])
  end.

Fixpoint run (p : events_page) (ls : list label) : option (events_page * list effect) :=
  match ls with
  | [] => Some (p, [])
  | l :: ls => '(p', es) ← step p l; '(p'', es') ← run p' ls; Some (p'', es ++ es')
  end.

(** Steps that ask for no replay and do not answer the call [i]. *)
Definition waits (i : nat) (l : label) : bool :=
  match l with
  | LReplay _ _ _ | LConfirm _ | LDetailsReplay _ _ => false
  | LReplayed j _ | LFailed j => negb (bool_decide (i = j))
  | _ => true
  end.

(** The call [i] is the replay that is observed, and its answer is awaited. *)
Definition awaits (i : nat) (event_id : jstr) (dry_run : bool) (p : events_page) : Prop :=
  pending p !! i = Some (ReplayCall event_id dry_run) ∧ observed_replay p = Some i ∧ (i < next_call p)%nat.

Lemma replay_mutate_awaits event_id dry_run p :
  awaits (next_call p) event_id dry_run (replay_mutate event_id dry_run p).1.
Proof. split; [|split]; cbn; [apply lookup_insert_eq|done|lia]. Qed.

Lemma settled_awaits i j event_id dry_run p : i ≠ j → awaits i event_id dry_run p → awaits i event_id dry_run (settled j p).
Proof. intros Hne (H1 & H2 & H3). split; [|done]. cbn. by rewrite lookup_delete_ne. Qed.

Lemma step_awaits i event_id dry_run p l p' es :
  waits i l = true → step p l = Some (p', es) → awaits i event_id dry_run p → awaits i event_id dry_run p'.
Proof.
  intros Hl Hs Ha. destruct l as [k v| | |[] e|j|b e d|j r|j|b|e|b e| |u| |]; try discriminate Hl; cbn [step] in Hs.
  - by injection Hs as <- _.
  - by injection Hs as <- _.
  - by injection Hs as <- _.
  - injection Hs as <- _. destruct Ha as (H1 & H2 & H3). split; [|split]; cbn; [|done|lia].
    rewrite lookup_insert_ne by lia. done.
  - by injection Hs as <- _.
  - destruct (pending p !! j) as [[|e]|] eqn:E; try discriminate Hs. unfold removed in Hs. injection Hs as <- _.
    apply settled_awaits; [|done]. intros ->. destruct Ha as [H _]. congruence.
  - cbn [waits] in Hl. destruct (pending p !! j) as [[e d|]|] eqn:E; try discriminate Hs.
    destruct (bool_decide_reflect (i = j)) as [->|Hne]; [discriminate Hl|].
    pose proof (settled_awaits i j event_id dry_run p Hne Ha) as Ha'. destruct Ha as (_ & Ho & _).
    unfold replayed in Hs. cbn [observed_replay settled] in Hs. rewrite Ho, bool_decide_eq_false_2 in Hs by congruence.
    by injection Hs as <- _.
  - cbn [waits] in Hl. destruct (pending p !! j); [|discriminate Hs]. injection Hs as <- _.
    destruct (bool_decide_reflect (i = j)) as [->|Hne]; [discriminate Hl|]. by apply settled_awaits.
  - by injection Hs as <- _.
  - injection Hs as <- _. unfold details_failed. by destruct (dialog p).
  - injection Hs as <- _. by destruct u.
  - by injection Hs as <- _.
  - by injection Hs as <- _.
Qed.

Lemma run_awaits i event_id dry_run p ls p' es :
  forallb (waits i) ls = true → run p ls = Some (p', es) → awaits i event_id dry_run p → awaits i event_id dry_run p'.
Proof.
  revert p es. induction ls as [|l ls IH]; intros p es Hl Hr Ha; [by injection Hr as <- _|].
  cbn [forallb run] in *. apply andb_prop in Hl as [Hl Hls].
  destruct (step p l) as [[p1 es1]|] eqn:E; [|done]. cbn in Hr.
  destruct (run p1 ls) as [[p2 es2]|] eqn:E2; [|done]. injection Hr as <- _.
  eapply IH; [done|exact E2|]. by eapply step_awaits.
Qed.

(** C25. A replay is followed to its end, when it is the only one: as long as the user asks for no
    other preview or replay before the answer ([waits]; what that does is [late_replay_is_lost]), the
    user who asks for a preview of an event is shown it, if the answer has events (if it has none
    there is a toast); who confirms the preview, and the browser's question, sends the replay of
    exactly that event; and, again with no other asked for before it, the answer to that replay opens
    the banner of its session. Anything else may happen on the page in between. *)
Theorem replay_is_followed p event_id confirmed ls p1 es1 r :
  run (replay_mutate event_id true p).1 ls = Some (p1, es1) → forallb (waits (next_call p)) ls = true →
  r_events_preview r ≠ None → r_events_preview r ≠ Some [] →
  step p (LReplay confirmed event_id true) = Some (replay_mutate event_id true p)
  ∧ ∃ p2 p3, step p1 (LReplayed (next_call p) r) = Some (p2, [])
    ∧ (∃ events, dialog p2 = Preview (mkPreview event_id (r_total_events r) events))
    ∧ step p2 (LConfirm false) = Some (close_dialog p2, [])
    ∧ step p2 (LConfirm true) = Some (p3, [SendReplay (next_call p2) event_id false])
    ∧ dialog p3 = Closed
    ∧ ∀ ls' p4 es4 r', run p3 ls' = Some (p4, es4) → forallb (waits (next_call p2)) ls' = true →
        ∃ p5, step p4 (LReplayed (next_call p2) r')
              = Some (p5, [ToastSuccess "Replay scheduled! Tracking progress..."])
              ∧ replaySessionId p5 = default [] (r_session_id r').
Proof.
  intros Hr Hw Hn He. split; [reflexivity|].
  pose proof (run_awaits _ _ _ _ _ _ _ Hw Hr (replay_mutate_awaits event_id true p)) as (Hp & Ho & _).
  destruct (r_events_preview r) as [[|ev events]|] eqn:Ee; [done| |done].
  set (p2 := set_dialog (Preview (mkPreview event_id (r_total_events r) (ev :: events))) (settled (next_call p) p1)).
  exists p2, (replay_mutate event_id false (close_dialog p2)).1. split; [|split; [|split; [|split; [|split]]]].
  - cbn [step]. rewrite Hp. unfold replayed. cbn [observed_replay settled]. rewrite Ho, bool_decide_eq_true_2 by done.
    cbn [negb]. by rewrite Ee.
  - by exists (ev :: events).
  - done.
  - done.
  - done.
  - intros ls' p4 es4 r' Hr' Hw'.
    pose proof (run_awaits _ _ _ _ _ _ _ Hw' Hr' (replay_mutate_awaits event_id false (close_dialog p2))) as (Hp' & Ho' & _).
    exists (set_session (default [] (r_session_id r')) (settled (next_call p2) p4)). split; [|done]. cbn [step].
    change (next_call (close_dialog p2)) with (next_call p2) in *. rewrite Hp'. unfold replayed.
    cbn [observed_replay settled]. by rewrite Ho', bool_decide_eq_true_2.
Qed.

(** A replay whose answer is late is lost: when the user asks for a preview before a replay is
    answered, the answer changes nothing, so the replay runs with no banner and no word of it. *)
Theorem late_replay_is_lost p a b r :
  ∃ p1 p2, step p (LReplay true a false) = Some (p1, [SendReplay (next_call p) a false])
           ∧ step p1 (LReplay false b true) = Some (p2, [SendReplay (S (next_call p)) b true])
           ∧ step p2 (LReplayed (next_call p) r) = Some (settled (next_call p) p2, [])
           ∧ replaySessionId (settled (next_call p) p2) = replaySessionId p.
Proof.
  eexists _, _. split; [reflexivity|]. split; [reflexivity|]. split; [|reflexivity].
  cbn [step replayEvent replay_mutate negb andb pending]. cbn. rewrite lookup_insert_ne by lia.
  rewrite lookup_insert_eq. unfold replayed. cbn. rewrite bool_decide_eq_false_2; [done|]. intros H. injection H. lia.
Qed.

(** ** The theorems, concretely *)

Definition fresh_page : events_page := mkEventsPage [] [] Closed [] ∅ None 0.

Definition example_client : client_state unit :=
  mkClient (set_baseUrl (Some "http://h"%js) (createConfig no_request_options)) [] [] [].

Definition example_page : events_page :=
  set_dialog Closed (applyFilters (input_text "search_text" "boom" (input_text "user_id" "a&b"
    (select_types [ApiEnums.EventType_POD_CREATED; ApiEnums.EventType_POD_FAILED] fresh_page)))).

Lemma export_follows_filters_witness :
  let zod := reference_zod (λ _, true) (λ _, true) in
  (∃ url, @exportEvents zod unit VNull example_client ApiEnums.ExportFormat_CSV example_page
          = Return [OpenWindow url; ToastInfo "Starting csv export..."]
          ∧ route_of_call "http://h" (route_of export_url) [("export_format"%js, VStr "csv")]
              (export_query (applied example_page)) url)
  ∧ (∀ search p', applied p' = obj_set "search_text" search (applied example_page) →
       @exportEvents zod unit VNull example_client ApiEnums.ExportFormat_CSV p'
       = @exportEvents zod unit VNull example_client ApiEnums.ExportFormat_CSV example_page).
Proof.
  apply (@export_follows_filters (reference_zod (λ _, true) (λ _, true)) unit VNull example_client "http://h"
           example_page ApiEnums.ExportFormat_CSV).
  - reflexivity.
  - split; apply (bool_decide_unpack _); vm_compute; done.
  - reflexivity.
  - apply (bool_decide_unpack _). vm_compute. done.
  - reflexivity.
  - intros k s H%obj_get_elem. cbn in H.
    repeat (apply elem_of_cons in H as [H|H]; [first [discriminate H | injection H as -> ->; apply ascii_text; reflexivity]|]).
    by apply not_elem_of_nil in H.
Defined.

Definition preview_answer : replay_response := mkResponse 1 (Some [VStr "event"]) None.

Lemma replay_is_followed_witness :
  step fresh_page (LReplay false "e" true) = Some (replay_mutate "e" true fresh_page)
  ∧ ∃ p2 p3, step (set_dialog (Details "f") (replay_mutate "e" true fresh_page).1) (LReplayed 0 preview_answer) = Some (p2, [])
    ∧ (∃ events, dialog p2 = Preview (mkPreview "e" 1 events))
    ∧ step p2 (LConfirm false) = Some (close_dialog p2, [])
    ∧ step p2 (LConfirm true) = Some (p3, [SendReplay (next_call p2) "e" false])
    ∧ dialog p3 = Closed
    ∧ ∀ ls' p4 es4 r', run p3 ls' = Some (p4, es4) → forallb (waits (next_call p2)) ls' = true →
        ∃ p5, step p4 (LReplayed (next_call p2) r')
              = Some (p5, [ToastSuccess "Replay scheduled! Tracking progress..."])
              ∧ replaySessionId p5 = default [] (r_session_id r').
Proof. by apply (replay_is_followed fresh_page "e" false [LDetails "f"] _ [] preview_answer). Defined.
