(* ===== verification/Notifications.v ===== *)
(** * The notification stream

    Models the class [NotificationStream] of [lib/notifications/stream.svelte.ts]
    as a step relation: the page connects and disconnects, and the event stream
    each connection follows delivers notifications (what that stream does on the
    network is [Sse]).  A stream's controller is the number of its connection; an
    aborted stream may still deliver what it had already read. *)

From S2P Require Import Prelude JsString JsValue Sse.

Record Notification := mkNotification { subject : jstr; body : jstr }.

(** A connection: its callback, by number, and whether its stream can still deliver. *)
Record connection_state := mkConnection { callback : nat; open : bool }.

Record NotificationStream := mkStream {
  abortController : option nat;
  connections : list connection_state;
  aborted : gset nat;
}.

Definition new_stream : NotificationStream := mkStream None [] ∅.

(** What a delivery does: the callback, and the browser's notification when that is granted. *)
Inductive effect := Callback (f : nat) (data : Notification) | Browser (subject body : jstr).

Definition disconnect (s : NotificationStream) : NotificationStream :=
  match abortController s with
  | Some i => mkStream None (connections s) ({[i]} ∪ aborted s)
  | None => mkStream None (connections s) (aborted s)
  end.

Definition connect (onNotification : nat) (s : NotificationStream) : NotificationStream :=
  let s := disconnect s in
  let i := length (connections s) in
  mkStream (Some i) (connections s ++ [mkConnection onNotification true]) (aborted s).

(** The settings of the stream the connection opens. *)
Definition notification_settings : ServerSentEventsOptions :=
  SseOptions None None (Some 5000)%Z (Some 3)%Z (Some 20000)%Z.

(** The body of the loop over the stream; [granted] is [Notification.permission]. *)
Definition deliver (granted : bool) (f : nat) (data : Notification) : list effect :=
  Callback f data :: (if granted then [Browser (subject data) (body data)] else []).

(** The stream of a connection ends: it is exhausted, or it rejects, which is only logged. *)
Definition finish (i : nat) (s : NotificationStream) : NotificationStream :=
  mkStream (abortController s) (alter (λ c, mkConnection (callback c) false) i (connections s)) (aborted s).

(** [onSseError]: is the error logged? *)
Definition logs_error (s : NotificationStream) (i : nat) : bool := negb (bool_decide (i ∈ aborted s)).

Inductive label :=
| LConnect (f : nat)
| LDisconnect
| LDeliver (i : nat) (granted : bool) (data : Notification)
| LEnd (i : nat).

Inductive step : NotificationStream → label → NotificationStream → list effect → Prop :=
| step_connect s f : step s (LConnect f) (connect f s) []
| step_disconnect s : step s LDisconnect (disconnect s) []
| step_deliver s i c granted data :
    connections s !! i = Some c → open c = true →
    step s (LDeliver i granted data) s (deliver granted (callback c) data)
| step_end s i c :
    connections s !! i = Some c → open c = true → step s (LEnd i) (finish i s) [].

Inductive runs : NotificationStream → list label → NotificationStream → list effect → Prop :=
| runs_nil s : runs s [] s []
| runs_cons s l s' es ls s'' es' :
    step s l s' es → runs s' ls s'' es' → runs s (l :: ls) s'' (es ++ es').

(** ** At most one live stream *)

(** A connection that nothing has told to stop. *)
Definition live (s : NotificationStream) (i : nat) : Prop := i < length (connections s) ∧ i ∉ aborted s.

Definition stream_ok (s : NotificationStream) : Prop :=
  (∀ i, live s i ↔ abortController s = Some i) ∧ (∀ i, i ∈ aborted s → i < length (connections s)).

Lemma new_stream_ok : stream_ok new_stream.
Proof. split; unfold live; simpl; [|set_solver]. intros i. split; [intros []; lia|done]. Qed.

Lemma disconnect_ok s : stream_ok s → stream_ok (disconnect s) ∧ (∀ i, ¬ live (disconnect s) i).
Proof.
  intros [Hlive Hab]. unfold stream_ok, live, disconnect in *. destruct (abortController s) as [j|] eqn:E; simpl.
  - assert (j < length (connections s) ∧ j ∉ aborted s) as [Hj Hj'] by (by apply Hlive).
    assert (∀ i, ¬ (i < length (connections s) ∧ i ∉ {[j]} ∪ aborted s)) as Hnone.
    { intros i [Hi Hn]. apply not_elem_of_union in Hn as [Hn Hn']. rewrite not_elem_of_singleton in Hn.
      assert (Some j = Some i) as [= ->] by (by apply Hlive). done. }
    split; [|done]. split; [|intros i [->%elem_of_singleton|Hi]%elem_of_union; auto]. intros i. split; [|done]. intros H. by apply Hnone in H.
  - assert (∀ i, ¬ (i < length (connections s) ∧ i ∉ aborted s)) as Hnone by (intros i H; by apply Hlive in H).
    split; [|done]. split; [|done]. intros i. split; [|done]. intros H. by apply Hnone in H.
Qed.

Lemma connect_ok f s : stream_ok s → stream_ok (connect f s) ∧ abortController (connect f s) = Some (length (connections s)).
Proof.
  intros Hs. destruct (disconnect_ok s Hs) as [[Hlive Hab] Hnone]. unfold connect.
  assert (connections (disconnect s) = connections s) as Hc by (unfold disconnect; by destruct (abortController s)).
  unfold stream_ok, live in *. cbn [connections abortController aborted]. rewrite length_app, Hc in *. simpl.
  split; [|done]. split.
  - intros i. split.
    + intros [Hi Hn]. f_equal. destruct (decide (i < length (connections s))); [|lia]. by destruct (Hnone i).
    + intros [= <-]. split; [lia|]. intros Hin. apply Hab in Hin. lia.
  - intros i Hin. apply Hab in Hin. lia.
Qed.

Lemma finish_ok i s : stream_ok s → stream_ok (finish i s).
Proof. unfold stream_ok, live, finish. cbn [connections abortController aborted]. by rewrite length_alter. Qed.

Lemma step_ok s l s' es : stream_ok s → step s l s' es → stream_ok s'.
Proof.
  intros Hs. destruct 1; [by apply connect_ok|by apply disconnect_ok|done|by apply finish_ok].
Qed.

Lemma runs_ok s ls s' es : stream_ok s → runs s ls s' es → stream_ok s'.
Proof. intros Hs H. induction H; [done|]. apply IHruns. by eapply step_ok. Qed.

(** C38. There is never more than one live notification stream: whatever the page and the streams
    have done, the streams that have not been told to stop are exactly the one the class holds, so
    after [disconnect] there is none, after [connect] only the new one, whose callback gets what it
    delivers, and no connection is lost track of. *)
Theorem one_notification_stream ls s es :
  runs new_stream ls s es →
  (∀ i, live s i ↔ abortController s = Some i)
  ∧ (∀ i, ¬ live (disconnect s) i)
  ∧ (∀ f i, live (connect f s) i ↔ i = length (connections s))
  ∧ (∀ f, callback <$> connections (connect f s) !! length (connections s) = Some f).
Proof.
  intros H. assert (stream_ok s) as Hs by (eapply runs_ok; [apply new_stream_ok|exact H]).
  split; [apply Hs|]. split; [by apply disconnect_ok|]. split.
  - intros f i. destruct (connect_ok f s Hs) as [[Hl _] Hc]. rewrite Hl, Hc. split; [by intros [= ->]|by intros ->].
  - intros f. unfold connect. cbn [connections].
    assert (connections (disconnect s) = connections s) as -> by (unfold disconnect; by destruct (abortController s)).
    rewrite lookup_app_r, Nat.sub_diag by done. done.
Qed.

Lemma one_notification_stream_witness :
  let s := finish 0 (connect 7 (connect 7 new_stream)) in
  (∀ i, live s i ↔ abortController s = Some i)
  ∧ (∀ i, ¬ live (disconnect s) i)
  ∧ (∀ f i, live (connect f s) i ↔ i = length (connections s))
  ∧ (∀ f, callback <$> connections (connect f s) !! length (connections s) = Some f).
Proof.
  intros s. apply (one_notification_stream [LConnect 7; LConnect 7; LDeliver 0 true (mkNotification "s" "b"); LEnd 0] s
    (deliver true 7 (mkNotification "s" "b"))).
  change (deliver true 7 (mkNotification "s" "b")) with ([] ++ [] ++ deliver true 7 (mkNotification "s" "b") ++ ([] : list effect) ++ []).
  eapply runs_cons; [apply step_connect|]. eapply runs_cons; [apply step_connect|].
  eapply runs_cons; [by apply (step_deliver _ 0 (mkConnection 7 true))|].
  eapply runs_cons; [by apply (step_end _ 0 (mkConnection 7 true))|]. apply runs_nil.
Defined.
