(* ===== verification/NotificationCenter.v ===== *)
(** * The notification centre and page

    Models [components/NotificationCenter.svelte] (the dropdown that marks what
    it shows as read after two seconds) and the script of
    [routes/(auth)/notifications/+page.svelte] (filters by tag, deletions).

    The dropdown's effect is run again when a value it read has changed; time
    passes in milliseconds, and a timer that is due fires before more of it
    passes. *)

From S2P Require Import Prelude JsString ApiEnums.

Record notification := mkNotification {
  notification_id : jstr;
  status : NotificationStatus;
  action_url : option jstr;
}.

#[export] Instance NotificationStatus_eq_dec : EqDecision NotificationStatus.
Proof. solve_decision. Defined.

(** The data of the list's query. *)
Record list_data := mkListData { items : list notification; unread_count : Z }.

Definition AUTO_READ_DELAY_MS : Z := 2000.

Inductive effect :=
| MarkRead (id : jstr)      (* [markRead.mutate] *)
| MarkAllRead
| Refresh                   (* [refreshNotifications] *)
| Goto (location : jstr).

#[export] Instance effect_eq_dec : EqDecision effect.
Proof. solve_decision. Defined.

(** ** The dropdown *)

(** [timer] is when the timeout of the effect fires; [matching] are the URLs [openPage] awaits the
    routes of. *)
Record center := mkCenter {
  showDropdown : bool;
  data : option list_data;
  timer : option Z;
  now : Z;
  matching : list jstr;
}.

Definition notifications (c : center) : list notification :=
  match data c with Some d => items d | None => [] end.
Definition unreadCount (c : center) : Z := match data c with Some d => unread_count d | None => 0 end.

(** What the effect reads: the count only when the dropdown is shown. *)
Definition effect_reads (c : center) : bool * option Z :=
  (showDropdown c, if showDropdown c then Some (unreadCount c) else None).

(** The effect: its cleanup clears the timeout, and a new one is set when there is something to read. *)
Definition auto_read_effect (c : center) : center :=
  mkCenter (showDropdown c) (data c)
    (if negb (showDropdown c) || (unreadCount c =? 0)%Z then None else Some (now c + AUTO_READ_DELAY_MS)%Z)
    (now c) (matching c).

(** A change of the state, after which the effect runs if something it read has changed. *)
Definition changed (before after : center) : center :=
  if bool_decide (effect_reads before = effect_reads after) then after else auto_read_effect after.

Definition set_open (b : bool) (c : center) : center := changed c (mkCenter b (data c) (timer c) (now c) (matching c)).
Definition set_data (d : option list_data) (c : center) : center :=
  changed c (mkCenter (showDropdown c) d (timer c) (now c) (matching c)).

Definition markAsRead (n : notification) : list effect :=
  if bool_decide (status n = NotificationStatus_READ) then [] else [MarkRead (notification_id n)].

(** The body of the timeout. *)
Definition fire (c : center) : center * list effect :=
  (mkCenter (showDropdown c) (data c) None (now c) (matching c),
   if negb (showDropdown c) then [] else flat_map markAsRead (take 5 (notifications c))).

Section pages.
(** What [match] of [$app/paths] resolves to, the route of a URL when it is a page of the application;
    [resolve]. *)
Context (match_ : jstr → option jstr) (resolve : jstr → jstr).

Definition set_matching (urls : list jstr) (c : center) : center :=
  mkCenter (showDropdown c) (data c) (timer c) (now c) urls.

(** Up to the [await] of [match]; what comes after it is [pageMatched]. *)
Definition openPage (url : jstr) (c : center) : center := set_matching (matching c ++ [url]) c.

Definition pageMatched (url : jstr) (c : center) : center * list effect :=
  match match_ url with
  | None => (c, [])
  | Some route => (set_open false c, [Goto (resolve route)])
  end.

Definition handleNotificationClick (n : notification) (c : center) : center * list effect :=
  (match action_url n with Some ((_ :: _) as url) => openPage url c | _ => c end, markAsRead n).

(** [onSuccess] of [markAllRead]. *)
Definition all_read (c : center) : center * list effect := (set_open false c, [Refresh]).

(** The badge on the bell. *)
Definition badge (c : center) : option jstr :=
  if (0 <? unreadCount c)%Z
  then Some (if (9 <? unreadCount c)%Z then "9+"%js else string_of_Z (unreadCount c))
  else None.

Inductive label :=
| LOpen (b : bool)
| LData (d : option list_data)
| LWait (ms : Z)
| LFire
| LClick (n : notification)
| LMatched (url : jstr)     (* [match(url)] resolves *)
| LAllRead.

(** [None]: the step cannot happen. *)
Definition step (c : center) (l : label) : option (center * list effect) :=
  match l with
  | LOpen b => Some (set_open b c, [])
  | LData d => Some (set_data d c, [])
  | LWait ms =>
      if (0 <=? ms)%Z && match timer c with Some t => (now c + ms <=? t)%Z | None => true end
      then Some (mkCenter (showDropdown c) (data c) (timer c) (now c + ms)%Z (matching c), [])
      else None
  | LFire => match timer c with
             | Some t => if (t <=? now c)%Z then Some (fire c) else None
             | None => None
             end
  | LClick n => Some (handleNotificationClick n c)
  | LMatched url => '(i, _) ← list_find (eq url) (matching c); Some (pageMatched url (set_matching (delete i (matching c)) c))
  | LAllRead => Some (all_read c)
  end.

Fixpoint run (c : center) (ls : list label) : option (center * list (label * effect)) :=
  match ls with
  | [] => Some (c, [])
  | l :: ls =>
      '(c', es) ← step c l; '(c'', rest) ← run c' ls; Some (c'', map (pair l) es ++ rest)
  end.

(** ** Reading what is shown *)

(** The dropdown is left alone: it stays as it is and the list's data too. *)
Definition left_alone (l : label) : bool :=
  match l with LWait _ | LFire => true | _ => false end.

(** The unread among the five that are shown first. *)
Definition shown_unread (c : center) : list jstr :=
  map notification_id
    (List.filter (λ n, negb (bool_decide (status n = NotificationStatus_READ))) (take 5 (notifications c))).

Lemma flat_map_marks l :
  flat_map markAsRead l
  = map (λ n, MarkRead (notification_id n))
      (List.filter (λ n, negb (bool_decide (status n = NotificationStatus_READ))) l).
Proof.
  induction l as [|n l IH]; [done|]. cbn [flat_map List.filter]. unfold markAsRead at 1.
  destruct (bool_decide _); cbn [negb map app]; [done|]. by rewrite IH.
Qed.

Lemma fire_marks c : showDropdown c = true → (fire c).2 = map MarkRead (shown_unread c).
Proof. intros H. unfold fire, shown_unread. rewrite H. cbn [negb snd]. by rewrite flat_map_marks, map_map. Qed.

Lemma run_time c ls c' es :
  run c ls = Some (c', es) → forallb left_alone ls = true → (now c ≤ now c')%Z.
Proof.
  revert c es. induction ls as [|l ls IH]; intros c es Hr Hl; [injection Hr as <- _; lia|].
  cbn [run forallb] in Hr, Hl. apply andb_prop in Hl as [Hl Hls].
  destruct (step c l) as [[c1 es1]|] eqn:E; [|done]. cbn [mbind option_bind] in Hr.
  destruct (run c1 ls) as [[c2 rest]|] eqn:Hrun; [|done]. injection Hr as <- _.
  apply (IH _ _ Hrun) in Hls. enough (now c ≤ now c1)%Z by lia.
  destruct l as [| |ms| | | |]; try done; cbn [step] in E.
  - destruct (0 <=? ms)%Z eqn:Ems; [|done]. cbn [andb] in E.
    destruct (match timer c with Some t => _ | None => _ end); [|done]. injection E as <- _. cbn [now]. lia.
  - destruct (timer c) as [t|]; [|done]. destruct (t <=? now c)%Z; [|done]. injection E as <- _. cbn [fire now fst]. lia.
Qed.

(** Left alone, the dropdown waits for its timer and fires it once. *)
Lemma run_left_alone c ls c' es :
  forallb left_alone ls = true → run c ls = Some (c', es) →
  showDropdown c' = showDropdown c ∧ data c' = data c ∧
  match timer c with
  | None => timer c' = None ∧ es = []
  | Some t =>
      (now c ≤ t)%Z →
      (timer c' = Some t ∧ es = [] ∧ now c' ≤ t)%Z
      ∨ (timer c' = None ∧ es = map (pair LFire) (fire c).2 ∧ t ≤ now c')%Z
  end.
Proof.
  revert c es. induction ls as [|l ls IH]; intros c es Hl Hr.
  - injection Hr as <- <-. split; [done|]. split; [done|]. destruct (timer c) as [t|]; [by left|done].
  - cbn [forallb] in Hl. apply andb_prop in Hl as [Hl Hls]. cbn [run] in Hr.
    destruct l as [| |ms| | | |]; try done; cbn [step] in Hr.
    + destruct ((0 <=? ms)%Z && _) eqn:E; [|done]. cbn [mbind option_bind] in Hr.
      destruct (run _ ls) as [[c2 rest]|] eqn:Hrun; [|done]. injection Hr as <- <-.
      specialize (IH _ _ Hls Hrun) as (H1 & H2 & H3). cbn [showDropdown data timer now] in H1, H2, H3.
      split; [done|]. split; [done|]. destruct (timer c) as [t|]; [|done]. intros Ht. apply H3. lia.
    + destruct (timer c) as [t|] eqn:Et; [|done]. destruct (t <=? now c)%Z eqn:E; [|done].
      cbn [mbind option_bind fire] in Hr. destruct (run _ ls) as [[c2 rest]|] eqn:Hrun; [|done].
      injection Hr as <- <-. specialize (IH _ _ Hls Hrun) as (H1 & H2 & H3).
      cbn [showDropdown data timer now] in H1, H2, H3. destruct H3 as [H3 ->].
      split; [done|]. split; [done|]. intros Ht. right. split; [done|].
      split; [by rewrite app_nil_r|].
      apply (run_time _ _ _ _ Hrun) in Hls. cbn [now] in Hls. lia.
Qed.

(** C31. The first five notifications of the dropdown are marked as read: opened when the count of
    unread ones is not zero and then left alone, with the same data, for more than two seconds, it has
    asked, once for each, to mark every unread one of the first five notifications of its list, and
    nothing else; left alone for less, or closed on the way, it has not asked for any. The others of
    the list, up to fifteen more, are shown but not marked. *)
Theorem dropdown_marks_shown c ls c' es :
  showDropdown c = false → unreadCount c ≠ 0%Z →
  forallb left_alone ls = true → run (set_open true c) ls = Some (c', es) →
  ((now c + 2000 < now c')%Z → es = map (λ id, (LFire, MarkRead id)) (shown_unread c))
  ∧ ((now c' < now c + 2000)%Z → es = [] ∧ (∃ c2, run c' [LOpen false; LWait 5000] = Some (c2, []))
                              ∧ step (set_open false c') LFire = None).
Proof.
  intros Hs Hu Hl Hr.
  assert (set_open true c = mkCenter true (data c) (Some (now c + 2000)%Z) (now c) (matching c)) as Hopen.
  { unfold set_open, changed, effect_reads. rewrite Hs. cbn [showDropdown]. rewrite bool_decide_false by done.
    unfold auto_read_effect. cbn [showDropdown data now negb orb].
    assert ((unreadCount (mkCenter true (data c) (timer c) (now c) (matching c)) =? 0)%Z = false) as -> by (by apply Z.eqb_neq).
    done. }
  rewrite Hopen in Hr. apply run_left_alone in Hr as (H1 & H2 & H3); [|done].
  cbn [showDropdown data timer now] in H1, H2, H3.
  assert (now c ≤ now c + 2000)%Z as Hle by lia. specialize (H3 Hle). clear Hle.
  split; intros Ht; destruct H3 as [(H3 & -> & H5)|(H3 & -> & H5)]; try lia.
  - rewrite fire_marks by done. by rewrite map_map.
  - split; [done|].
    assert (set_open false c' = mkCenter false (data c') None (now c') (matching c')) as Hclose.
    { unfold set_open, changed, effect_reads. rewrite H1. cbn [showDropdown]. by rewrite bool_decide_false. }
    split; [|cbn [step]; by rewrite Hclose].
    cbn [run step]. rewrite Hclose. by eexists.
Qed.
End pages.

Lemma dropdown_marks_shown_witness :
  let c := mkCenter false (Some (mkListData [mkNotification "a" NotificationStatus_PENDING None;
                                             mkNotification "b" NotificationStatus_READ None] 1)) None 0 [] in
  ((0 + 2000 < 2500)%Z → [(LFire, MarkRead "a")] = map (λ id, (LFire, MarkRead id)) (shown_unread c))
  ∧ ((2500 < 0 + 2000)%Z → [(LFire, MarkRead "a")] = []
     ∧ (∃ c2, run (λ _, None) id (mkCenter true (data c) None 2500 []) [LOpen false; LWait 5000] = Some (c2, []))
     ∧ step (λ _, None) id (set_open false (mkCenter true (data c) None 2500 [])) LFire = None).
Proof.
  apply (dropdown_marks_shown (λ _, None) id
    (mkCenter false (Some (mkListData [mkNotification "a" NotificationStatus_PENDING None;
                                       mkNotification "b" NotificationStatus_READ None] 1)) None 0 [])
    [LWait 2000; LFire; LWait 500]
    (mkCenter true (Some (mkListData [mkNotification "a" NotificationStatus_PENDING None;
                                      mkNotification "b" NotificationStatus_READ None] 1)) None 2500 [])
    [(LFire, MarkRead "a")]); [reflexivity|done|reflexivity|vm_compute; reflexivity].
Defined.

(** A count that keeps changing starts the delay over each time. *)
Example new_notifications_restart_the_delay :
  let d n := Some (mkListData [mkNotification "a" NotificationStatus_PENDING None] n) in
  (λ r, (timer r.1, r.2)) <$>
    run (λ _, None) id (mkCenter false (d 1%Z) None 0 []) [LOpen true; LWait 1900; LData (d 2%Z); LWait 1900; LData (d 3%Z)]
  = Some (Some 5800%Z, []).
Proof. vm_compute. reflexivity. Qed.

(** ** The page *)

(** [/[\s,]+/] *)
Definition tag_separator (c : N) : bool := is_space c || (c =? 44)%N.

(** [split] by runs of separators; [insep] says that a run has begun. *)
Fixpoint split_runs (p : N → bool) (insep : bool) (s : jstr) : list jstr :=
  match s with
  | [] => [[]]
  | c :: r =>
      if p c then (if insep then split_runs p true r else [] :: split_runs p true r)
      else match split_runs p false r with x :: xs => (c :: x) :: xs | [] => [[c]] end
  end.

Definition parseTags (input : jstr) : list jstr :=
  List.filter (λ s, negb (jeqb s [])) (map js_trim (split_runs tag_separator false input)).

Record tag_filters := mkFilters {
  include_tags : list jstr;
  exclude_tags : list jstr;
  tag_prefix : option jstr;
}.

Definition applyFilters (includeTagsInput excludeTagsInput tagPrefixInput : jstr) : tag_filters :=
  mkFilters (parseTags includeTagsInput) (parseTags excludeTagsInput)
    (match js_trim tagPrefixInput with [] => None | s => Some s end).

(** The mutation [remove]: the calls under way; the last one is observed. *)
Record removal := mkRemoval { observed : option jstr; requested : list jstr }.

Definition isDeleting (r : removal) (id : jstr) : bool := bool_decide (observed r = Some id).
Definition deleteNotification (id : jstr) (r : removal) : removal :=
  if isDeleting r id then r else mkRemoval (Some id) (requested r ++ [id]).

(** A text that is one tag. *)
Definition is_tag (t : jstr) : Prop := t ≠ [] ∧ Forall (λ c, tag_separator c = false) t.

Lemma split_runs_pieces p b s : Forall (Forall (λ c, p c = false)) (split_runs p b s).
Proof.
  revert b. induction s as [|c s IH]; intros b; cbn [split_runs]; [repeat constructor|].
  destruct (p c) eqn:E.
  - destruct b; [apply IH|]. constructor; [constructor|apply IH].
  - specialize (IH false). destruct (split_runs p false s) as [|x xs]; [by repeat constructor|].
    apply Forall_cons in IH as [Hx Hxs]. by repeat constructor.
Qed.

Lemma js_trim_id s : Forall (λ c, is_space c = false) s → js_trim s = s.
Proof.
  intros H. unfold js_trim, trim_start.
  assert (∀ t, Forall (λ c, is_space c = false) t → drop_while is_space t = t) as Hd.
  { intros [|c t]; [done|]. intros [Hc _]%Forall_cons. by apply drop_while_id. }
  rewrite (Hd s) by done. rewrite Hd; [apply rev_involutive|]. by apply List.Forall_rev.
Qed.

Lemma not_separator_space t : Forall (λ c, tag_separator c = false) t → Forall (λ c, is_space c = false) t.
Proof. intros H. eapply Forall_impl; [exact H|]. intros c Hc. by apply orb_false_iff in Hc as [? _]. Qed.

Lemma parseTags_eq s : parseTags s = List.filter (λ s, negb (jeqb s [])) (split_runs tag_separator false s).
Proof.
  unfold parseTags. f_equal. pose proof (split_runs_pieces tag_separator false s) as H.
  induction H as [|x l Hx Hl IH]; [done|]. cbn [map]. rewrite IH, js_trim_id; [done|]. by apply not_separator_space.
Qed.

Lemma parseTags_tags s : Forall is_tag (parseTags s).
Proof.
  rewrite parseTags_eq. pose proof (split_runs_pieces tag_separator false s) as H.
  induction H as [|x l Hx Hl IH]; [constructor|]. cbn [List.filter]. destruct (jeqb x []) eqn:E; [done|].
  constructor; [|done]. split; [by apply jeqb_neq|done].
Qed.

Lemma split_runs_text p b t r :
  Forall (λ c, p c = false) t → t ≠ [] →
  split_runs p b (t ++ r) = match split_runs p false r with x :: xs => (t ++ x) :: xs | [] => [t] end.
Proof.
  intros H Hne. revert b. induction H as [|c t Hc Ht IH]; [done|]; intros b. cbn [app split_runs]. rewrite Hc.
  destruct t as [|d t]; [cbn [app]; by destruct (split_runs p false r)|]. rewrite IH by done.
  by destruct (split_runs p false r).
Qed.

Lemma split_runs_run p sep r : Forall (λ c, p c = true) sep → split_runs p true (sep ++ r) = split_runs p true r.
Proof. induction 1 as [|c sep Hc Hsep IH]; [done|]. cbn [app split_runs]. by rewrite Hc. Qed.

Lemma split_runs_join p b sep ts :
  sep ≠ [] → Forall (λ c, p c = true) sep → ts ≠ [] → Forall (λ t, t ≠ [] ∧ Forall (λ c, p c = false) t) ts →
  split_runs p b (js_join sep ts) = ts.
Proof.
  intros Hne Hsep Hts H. revert b. induction H as [|t ts [Ht Htc] H IH]; [done|]; intros b.
  destruct ts as [|u ts].
  - cbn [js_join]. rewrite <-(app_nil_r t) at 1. rewrite split_runs_text by done. cbn [split_runs]. by rewrite app_nil_r.
  - rewrite js_join_cons, split_runs_text by done. destruct sep as [|c sep]; [done|].
    apply Forall_cons in Hsep as [Hc Hsep]. cbn [app split_runs]. rewrite Hc. rewrite split_runs_run by done.
    rewrite app_nil_r. f_equal. by apply IH.
Qed.

(** The tag filters mean what is typed: tags typed with any blanks and commas between them are
    read as exactly those tags; whatever is typed, only tags are read (not empty, without blanks or
    commas), and typing them back gives the same filter. *)
Theorem parseTags_reads sep ts :
  sep ≠ [] → Forall (λ c, tag_separator c = true) sep → Forall is_tag ts →
  parseTags (js_join sep ts) = ts
  ∧ ∀ s, Forall is_tag (parseTags s) ∧ parseTags (js_join sep (parseTags s)) = parseTags s.
Proof.
  intros Hne Hsep Hts.
  assert (∀ ts, Forall is_tag ts → parseTags (js_join sep ts) = ts) as H.
  { clear ts Hts. intros ts Hts. rewrite parseTags_eq. destruct ts as [|t ts]; [done|].
    rewrite split_runs_join by done. generalize (t :: ts) Hts. clear. intros l H.
    induction H as [|t ts [Ht _] Hts IH]; [done|]. cbn [List.filter]. rewrite (proj2 (jeqb_neq t [])) by done.
    cbn [negb]. by rewrite IH. }
  split; [by apply H|]. intros s. split; [apply parseTags_tags|]. apply H, parseTags_tags.
Qed.

Lemma parseTags_reads_witness :
  parseTags (js_join ", " ["exec:1"; "failed"]) = ["exec:1"; "failed"]%js
  ∧ ∀ s, Forall is_tag (parseTags s) ∧ parseTags (js_join ", " (parseTags s)) = parseTags s.
Proof.
  apply (parseTags_reads ", " ["exec:1"; "failed"]); [discriminate| |].
  - repeat constructor.
  - repeat (constructor; [split; [discriminate|repeat constructor]|]). constructor.
Defined.

Example parseTags_example : parseTags " a,,b ,, c" = ["a"; "b"; "c"]%js.
Proof. vm_compute. reflexivity. Qed.

(** Only the last deletion is remembered: a second click on an earlier one asks again. *)
Example deletion_asked_twice :
  requested (deleteNotification "a" (deleteNotification "b" (deleteNotification "a" (mkRemoval None []))))
  = ["a"; "b"; "a"]%js.
Proof. vm_compute. reflexivity. Qed.
