(* ===== verification/Pager.v ===== *)
(** * Lists that the server pages

    Models [lib/data-table.ts] ([createServerTable]), [components/Pagination.svelte]
    and the state of the three administration lists that use them, the scripts of
    [routes/admin/users/+page.svelte], [routes/admin/executions/+page.svelte] and
    [routes/admin/events/+page.svelte] (filters, page, the window each asks for).

    TanStack Table is a class: what its documentation says of paging a table whose
    rows are counted by the server. *)

From S2P Require Import Prelude JsString JsValue.

Open Scope Z_scope.

Record PaginationState := mkPagination { pageIndex : Z; pageSize : Z }.

(** The updater that the table hands to [onPaginationChange]: a value or a function. *)
Inductive updater := Value (p : PaginationState) | Update (f : PaginationState → PaginationState).

Definition functionalUpdate (u : updater) (p : PaginationState) : PaginationState :=
  match u with Value q => q | Update f => f p end.

(** ** The table *)

Class TablePaging := {
  getPageCount : Z → PaginationState → Z; (* of the row count *)
  firstPage : updater;
  previousPage : updater;
  nextPage : Z → updater;
  lastPage : Z → updater;
  setPageSize : Z → updater;
  getCanPreviousPage : PaginationState → bool;
  getCanNextPage : Z → PaginationState → bool;
  getCanLastPage : Z → PaginationState → bool;
}.

(** The laws: pages are counted upwards from the rows; the buttons move within them; a new size
    keeps the first row of the page in view. *)
Class TableLaws `{TablePaging} := {
  getPageCount_spec n p : 0 < pageSize p → 0 ≤ n → getPageCount n p = (n + pageSize p - 1) / pageSize p;
  firstPage_spec p : functionalUpdate firstPage p = mkPagination 0 (pageSize p);
  previousPage_spec p : 0 < pageIndex p →
    functionalUpdate previousPage p = mkPagination (pageIndex p - 1) (pageSize p);
  nextPage_spec n p : pageIndex p + 1 < getPageCount n p →
    functionalUpdate (nextPage n) p = mkPagination (pageIndex p + 1) (pageSize p);
  lastPage_spec n p : 0 < getPageCount n p →
    functionalUpdate (lastPage n) p = mkPagination (getPageCount n p - 1) (pageSize p);
  setPageSize_spec k p : 0 < k → 0 ≤ pageIndex p → 0 < pageSize p →
    functionalUpdate (setPageSize k) p = mkPagination (pageIndex p * pageSize p / k) k;
  getCanPreviousPage_spec p : getCanPreviousPage p = (0 <? pageIndex p);
  getCanNextPage_spec n p : getCanNextPage n p = (pageIndex p + 1 <? getPageCount n p);
  getCanLastPage_spec n p : getCanLastPage n p = getCanNextPage n p;
}.

Section pager.
Context `{!TablePaging}.

(** ** [Pagination.svelte] *)

(** The first and last row that is shown, as it is written. *)
Definition start (p : PaginationState) (rowCount : Z) : Z := Z.min (pageIndex p * pageSize p + 1) rowCount.
Definition end_ (p : PaginationState) (rowCount : Z) : Z := Z.min ((pageIndex p + 1) * pageSize p) rowCount.

(** What the component shows: nothing without rows; the buttons only with more than one page. *)
Record pagination_view := mkView {
  info : jstr;
  page_buttons : option (bool * bool * jstr); (* may go back, may go on, page and pages *)
}.

Definition Pagination (itemName : jstr) (p : PaginationState) (rowCount : Z) : option pagination_view :=
  if 0 <? rowCount then
    Some (mkView
      ("Showing " ++ string_of_Z (start p rowCount) ++ " - " ++ string_of_Z (end_ p rowCount) ++ " of "
       ++ string_of_Z rowCount ++ " " ++ itemName)
      (let pageCount := getPageCount rowCount p in
       if 1 <? pageCount
       then Some (getCanPreviousPage p, getCanNextPage rowCount p,
                  string_of_Z (pageIndex p + 1) ++ " / " ++ string_of_Z pageCount)
       else None))
  else None.

(** ** The lists *)

Context {F : Type}.

(** [filters] are those the query uses; [total] is the row count of the data that is shown, which
    [keepPreviousData] keeps until the next answer. *)
Record listing := mkListing { filters : F; pagination : PaginationState; total : Z }.

(** A write to the filters makes the derived page index start over. *)
Definition set_filters (f : F) (l : listing) : listing :=
  mkListing f (mkPagination 0 (pageSize (pagination l))) (total l).

(** The setter of the bound [pagination]. *)
Definition set_pagination (next : PaginationState) (l : listing) : listing :=
  mkListing (filters l) (mkPagination (pageIndex next) (pageSize next)) (total l).

(** [onPaginationChange]. *)
Definition onPaginationChange (u : updater) (l : listing) : listing :=
  set_pagination (functionalUpdate u (pagination l)) l.

Definition answer (n : Z) (l : listing) : listing := mkListing (filters l) (pagination l) n.

(** The rows a query asks for: how many to skip, and at most how many. *)
Definition query_window (l : listing) : Z * Z :=
  (pageIndex (pagination l) * pageSize (pagination l), pageSize (pagination l)).

Inductive label :=
| LFilters (f : F)
| LFirst | LPrevious | LNext | LLast
| LSize (k : Z)
| LAnswer (n : Z). (* the total of the answer to the query of the present filters and page *)

(** [None]: the button is disabled or not there. *)
Definition step (l : listing) (a : label) : option listing :=
  let p := pagination l in
  let buttons := 1 <? getPageCount (total l) p in
  match a with
  | LFilters f => Some (set_filters f l)
  | LFirst => if buttons && getCanPreviousPage p then Some (onPaginationChange firstPage l) else None
  | LPrevious => if buttons && getCanPreviousPage p then Some (onPaginationChange previousPage l) else None
  | LNext => if buttons && getCanNextPage (total l) p then Some (onPaginationChange (nextPage (total l)) l) else None
  | LLast => if buttons && getCanLastPage (total l) p then Some (onPaginationChange (lastPage (total l)) l) else None
  | LSize k => if (0 <? total l) && (0 <? k) then Some (onPaginationChange (setPageSize k) l) else None
  | LAnswer n => if 0 <=? n then Some (answer n l) else None
  end.

Fixpoint run (l : listing) (ls : list label) : option listing :=
  match ls with [] => Some l | a :: ls => l ← step l a; run l ls end.

(** ** The pages *)

Context `{!TableLaws}.

Lemma getCanLastPage_next n p : getCanNextPage n p = true → 0 ≤ pageIndex p → 0 < getPageCount n p.
Proof. rewrite getCanNextPage_spec. lia. Qed.

(** A page is one of the pages exactly when its first row is there. *)
Lemma page_exists n p :
  0 < pageSize p → 0 ≤ n → pageIndex p < getPageCount n p ↔ pageIndex p * pageSize p < n.
Proof.
  intros Hs Hn. rewrite getPageCount_spec by done. split; intros Hlt.
  - assert (pageIndex p * pageSize p ≤ ((n + pageSize p - 1) / pageSize p - 1) * pageSize p) by nia.
    pose proof (Z.mul_div_le (n + pageSize p - 1) (pageSize p) Hs). nia.
  - enough (pageIndex p + 1 ≤ (n + pageSize p - 1) / pageSize p) by lia.
    apply Z.div_le_lower_bound; [done|]. nia.
Qed.

Definition listing_ok (l : listing) : Prop :=
  0 < pageSize (pagination l) ∧ 0 ≤ pageIndex (pagination l) ∧ 0 ≤ total l.

(** The page is the first one or has rows. *)
Definition in_range (l : listing) : Prop :=
  pageIndex (pagination l) = 0 ∨ pageIndex (pagination l) * pageSize (pagination l) < total l.

Lemma step_in_range l a l' :
  listing_ok l → in_range l → step l a = Some l' → (∀ n, a = LAnswer n → total l ≤ n) →
  listing_ok l' ∧ in_range l'.
Proof.
  intros (Hs & Hi & Hn) Hr Hl Ha. unfold listing_ok, in_range in *.
  destruct a as [f| | | | |k|n]; cbn [step] in Hl.
  - injection Hl as <-. cbn. split; [done|]. by left.
  - destruct (_ && _); [|done]. injection Hl as <-. unfold onPaginationChange. rewrite firstPage_spec. cbn.
    split; [done|]. by left.
  - destruct (1 <? _); [|done]. cbn [andb] in Hl. rewrite getCanPreviousPage_spec in Hl.
    destruct (0 <? pageIndex (pagination l)) eqn:E; [|done]. injection Hl as <-. unfold onPaginationChange.
    rewrite previousPage_spec by lia. cbn. split; [lia|]. right. nia.
  - destruct (1 <? _); [|done]. cbn [andb] in Hl. rewrite getCanNextPage_spec in Hl.
    destruct (_ <? _) eqn:E in Hl; [|done]. injection Hl as <-. unfold onPaginationChange.
    rewrite nextPage_spec by lia. cbn. split; [lia|]. right.
    apply (page_exists (total l) (mkPagination (pageIndex (pagination l) + 1) (pageSize (pagination l)))); [done|done|].
    rewrite getPageCount_spec in E |- * by done. cbn in *. lia.
  - destruct (1 <? _); [|done]. cbn [andb] in Hl. rewrite getCanLastPage_spec in Hl.
    destruct (getCanNextPage _ _) eqn:E; [|done]. injection Hl as <-.
    apply getCanLastPage_next in E; [|done]. unfold onPaginationChange. rewrite lastPage_spec by done. cbn.
    split; [lia|]. right.
    apply (page_exists (total l) (mkPagination (getPageCount (total l) (pagination l) - 1) (pageSize (pagination l)))); [done|done|].
    rewrite !getPageCount_spec by done. cbn. lia.
  - destruct ((0 <? total l) && (0 <? k)) eqn:E; [|done]. injection Hl as <-. unfold onPaginationChange.
    rewrite setPageSize_spec by lia. cbn. apply andb_prop in E as [E1 E2].
    split; [split; [lia|]; split; [|done]; apply Z.div_pos; nia|].
    destruct Hr as [->|Hr]; [left; by rewrite Z.mul_0_l, Z.div_0_l by lia|]. right.
    pose proof (Z.mul_div_le (pageIndex (pagination l) * pageSize (pagination l)) k). nia.
  - destruct (0 <=? n) eqn:E; [|done]. injection Hl as <-. cbn. specialize (Ha n eq_refl).
    split; [lia|]. destruct Hr as [Hr|Hr]; [by left|right; lia].
Qed.

Lemma listing_step_ok l a l' : listing_ok l → step l a = Some l' → listing_ok l'.
Proof.
  intros (Hs & Hi & Hn) Hl. unfold listing_ok. destruct a as [f| | | | |k|n]; cbn [step] in Hl.
  - by injection Hl as <-.
  - destruct (_ && _); [|done]. injection Hl as <-. unfold onPaginationChange. by rewrite firstPage_spec.
  - destruct (1 <? _); [|done]. cbn [andb] in Hl. rewrite getCanPreviousPage_spec in Hl.
    destruct (0 <? pageIndex (pagination l)) eqn:E; [|done]. injection Hl as <-. unfold onPaginationChange.
    rewrite previousPage_spec by lia. cbn. lia.
  - destruct (1 <? _); [|done]. cbn [andb] in Hl. rewrite getCanNextPage_spec in Hl.
    destruct (_ <? _) eqn:E in Hl; [|done]. injection Hl as <-. unfold onPaginationChange.
    rewrite nextPage_spec by lia. cbn. lia.
  - destruct (1 <? _); [|done]. cbn [andb] in Hl. rewrite getCanLastPage_spec in Hl.
    destruct (getCanNextPage _ _) eqn:E; [|done]. injection Hl as <-. apply getCanLastPage_next in E; [|done].
    unfold onPaginationChange. rewrite lastPage_spec by done. cbn. lia.
  - destruct ((0 <? total l) && (0 <? k)) eqn:E; [|done]. injection Hl as <-. unfold onPaginationChange.
    rewrite setPageSize_spec by lia. cbn. split; [lia|]. split; [|done]. apply Z.div_pos; nia.
  - destruct (0 <=? n) eqn:E; [|done]. injection Hl as <-. cbn. lia.
Qed.

(** The totals the answers give, in order, with the one before: none is smaller. *)
Fixpoint never_shrinks (before : Z) (ls : list label) : Prop :=
  match ls with
  | [] => True
  | LAnswer n :: ls => before ≤ n ∧ never_shrinks n ls
  | _ :: ls => never_shrinks before ls
  end.

Lemma run_in_range l ls l' :
  listing_ok l → in_range l → never_shrinks (total l) ls → run l ls = Some l' → listing_ok l' ∧ in_range l'.
Proof.
  revert l. induction ls as [|a ls IH]; intros l Hok Hr Hs Hl; [by injection Hl as <-|]. cbn [run] in Hl.
  destruct (step l a) as [l1|] eqn:E; [|done]. cbn [mbind option_bind] in Hl.
  destruct (step_in_range l a l1 Hok Hr E) as [Hok1 Hr1].
  { intros n ->. by destruct Hs as [? _]. }
  apply (IH l1); [done|done| |done]. destruct a as [f| | | | |k|n]; cbn [step] in E; cbn [never_shrinks] in Hs.
  1-6: repeat case_match; simplify_eq; exact Hs.
  destruct (0 <=? n); [|done]. injection E as <-. by destruct Hs.
Qed.

(** The rows a window is on, of all that match. *)
Definition rows_in {A} (window : Z * Z) (rows : list A) : list A :=
  take (Z.to_nat window.2) (drop (Z.to_nat window.1) rows).

(** The same list on another page. *)
Definition on_page (i : nat) (l : listing) : listing :=
  mkListing (filters l) (mkPagination (Z.of_nat i) (pageSize (pagination l))) (total l).

Lemma rows_in_upto {A} w (rows : list A) :
  0 ≤ w.1 → 0 ≤ w.2 → rows_in (w.1, Z.min w.2 (Z.of_nat (length rows) - w.1)) rows = rows_in w rows.
Proof.
  intros H1 H2. unfold rows_in. cbn [fst snd].
  destruct (Z.min_spec w.2 (Z.of_nat (length rows) - w.1)) as [[_ ->]|[Hle ->]]; [done|].
  rewrite !take_ge; [done| |]; rewrite length_drop; lia.
Qed.

Lemma rows_in_pages {A} l k (rows : list A) :
  0 < pageSize (pagination l) →
  concat (map (λ i, rows_in (query_window (on_page i l)) rows) (seq 0 k))
  = take (k * Z.to_nat (pageSize (pagination l))) rows.
Proof.
  intros Hs. induction k as [|k IH]; [done|].
  rewrite seq_S, map_app, concat_app, IH. cbn [map concat Nat.add]. rewrite app_nil_r.
  unfold rows_in, query_window, on_page. cbn [pagination pageIndex pageSize fst snd].
  rewrite Z2Nat.inj_mul, Nat2Z.id by lia. rewrite take_take_drop. f_equal. lia.
Qed.

Lemma Pagination_announces {A} item p (rows : list A) :
  0 < pageSize p → 0 ≤ pageIndex p → let n := Z.of_nat (length rows) in
  pageIndex p = 0 ∨ pageIndex p * pageSize p < n →
  let window := (pageIndex p * pageSize p, pageSize p) in
  match Pagination item p n with
  | None => rows = []
  | Some v => ∃ first last_,
      info v = "Showing " ++ string_of_Z first ++ " - " ++ string_of_Z last_ ++ " of " ++ string_of_Z n ++ " " ++ item
      ∧ 1 ≤ first ≤ last_ ∧ last_ ≤ n
      ∧ rows_in window rows = rows_in (first - 1, last_ - first + 1) rows
      ∧ page_buttons v =
          if n <=? pageSize p then None
          else Some (1 <? first, last_ <? n,
                     string_of_Z (pageIndex p + 1) ++ " / " ++ string_of_Z (getPageCount n p))
  end.
Proof.
  intros Hs Hi n Hr window. unfold Pagination. destruct (0 <? n) eqn:En.
  2: { destruct rows; [done|]. unfold n in En. cbn in En. lia. }
  assert (pageIndex p * pageSize p < n) as Hlt by (destruct Hr as [->|]; lia).
  exists (pageIndex p * pageSize p + 1), (Z.min ((pageIndex p + 1) * pageSize p) n).
  cbn [info page_buttons]. unfold start, end_. rewrite (Z.min_l (_ + 1)) by lia.
  split; [done|]. split; [nia|]. split; [lia|]. split.
  - rewrite <-(rows_in_upto window rows) by (cbn; nia). cbn [window fst snd]. f_equal. fold n. f_equal; nia.
  - rewrite getCanPreviousPage_spec, getCanNextPage_spec.
    assert (∀ i, 0 ≤ i → (i <? getPageCount n p) = (i * pageSize p <? n)) as Hpages.
    { intros i Hi'. pose proof (page_exists n (mkPagination i (pageSize p)) Hs ltac:(cbn; lia)) as He. cbn in He.
      rewrite getPageCount_spec in He |- * by (cbn; lia). cbn in He. lia. }
    rewrite !Hpages by lia. rewrite Z.mul_1_l.
    destruct (pageSize p <? n) eqn:E1, (n <=? pageSize p) eqn:E2; try lia; [|done].
    f_equal. f_equal. f_equal; [nia|lia].
Qed.

(** C32. The pages cut the list exactly, and the component announces the page that is asked for.
    From a list on its first page, whatever filters, pages and sizes the user picks and whatever the
    answers, as long as none counts fewer rows than the one before: the text under the table names
    the first and last of the rows the query asks for, which are there, out of all of them; it offers
    to go back exactly when rows come before these, and on when rows follow; there is no text exactly
    when there are no rows. And the windows of all the pages, put together, are the list. *)
Theorem pages_cut_the_list {A} l ls l' (rows : list A) item :
  listing_ok l → pageIndex (pagination l) = 0 → never_shrinks (total l) ls → run l ls = Some l' →
  Z.of_nat (length rows) = total l' →
  match Pagination item (pagination l') (total l') with
  | None => rows = []
  | Some v => ∃ first last_,
      info v = "Showing " ++ string_of_Z first ++ " - " ++ string_of_Z last_ ++ " of " ++ string_of_Z (total l')
               ++ " " ++ item
      ∧ 1 ≤ first ≤ last_ ∧ last_ ≤ total l'
      ∧ rows_in (query_window l') rows = rows_in (first - 1, last_ - first + 1) rows
      ∧ page_buttons v =
          if total l' <=? pageSize (pagination l') then None
          else Some (1 <? first, last_ <? total l',
                     string_of_Z (pageIndex (pagination l') + 1) ++ " / "
                     ++ string_of_Z (getPageCount (total l') (pagination l')))
  end
  ∧ concat (map (λ i, rows_in (query_window (on_page i l')) rows)
      (seq 0 (Z.to_nat (getPageCount (total l') (pagination l'))))) = rows.
Proof.
  intros Hok Hp Hsh Hr Hrows.
  destruct (run_in_range l ls l' Hok (or_introl Hp) Hsh Hr) as [(Hs & Hi & Hn) Hin].
  unfold in_range in Hin. rewrite <-Hrows in *.
  split; [exact (Pagination_announces item (pagination l') rows Hs Hi Hin)|].
  rewrite rows_in_pages by done. apply take_ge. rewrite getPageCount_spec by done.
  pose proof (Z.mul_succ_div_gt (Z.of_nat (length rows) + pageSize (pagination l') - 1) (pageSize (pagination l')) Hs).
  assert (0 ≤ (Z.of_nat (length rows) + pageSize (pagination l') - 1) / pageSize (pagination l'))
    by (apply Z.div_pos; lia).
  apply Nat2Z.inj_le. rewrite Nat2Z.inj_mul, !Z2Nat.id by lia. lia.
Qed.
End pager.
Arguments listing : clear implicits.
Arguments label : clear implicits.

(** ** The table, concretely *)

#[export] Instance reference_paging : TablePaging := {
  getPageCount n p := (n + pageSize p - 1) / pageSize p;
  firstPage := Update (λ p, mkPagination 0 (pageSize p));
  previousPage := Update (λ p, mkPagination (Z.max 0 (pageIndex p - 1)) (pageSize p));
  nextPage n := Update (λ p, mkPagination (pageIndex p + 1) (pageSize p));
  lastPage n := Update (λ p, mkPagination ((n + pageSize p - 1) / pageSize p - 1) (pageSize p));
  setPageSize k := Update (λ p, mkPagination (pageIndex p * pageSize p / k) k);
  getCanPreviousPage p := 0 <? pageIndex p;
  getCanNextPage n p := pageIndex p + 1 <? (n + pageSize p - 1) / pageSize p;
  getCanLastPage n p := pageIndex p + 1 <? (n + pageSize p - 1) / pageSize p;
}.

#[export] Instance reference_laws : TableLaws.
Proof. split; try done. intros p Hp. cbn. by rewrite Z.max_r by lia. Qed.

Lemma pages_cut_the_list_witness :
  let l := mkListing tt (mkPagination 2 10) 25 in
  let rows := replicate 25 tt in
  match Pagination "users" (pagination l) (total l) with
  | None => rows = []
  | Some v => ∃ first last_,
      info v = "Showing " ++ string_of_Z first ++ " - " ++ string_of_Z last_ ++ " of " ++ string_of_Z (total l)
               ++ " " ++ "users"
      ∧ 1 ≤ first ≤ last_ ∧ last_ ≤ total l
      ∧ rows_in (query_window l) rows = rows_in (first - 1, last_ - first + 1) rows
      ∧ page_buttons v =
          if total l <=? pageSize (pagination l) then None
          else Some (1 <? first, last_ <? total l,
                     string_of_Z (pageIndex (pagination l) + 1) ++ " / "
                     ++ string_of_Z (getPageCount (total l) (pagination l)))
  end
  ∧ concat (map (λ i, rows_in (query_window (on_page i l)) rows)
      (seq 0 (Z.to_nat (getPageCount (total l) (pagination l))))) = rows.
Proof.
  apply (pages_cut_the_list (mkListing tt (mkPagination 0 10) 0) [LAnswer 25; LNext; LNext; LAnswer 25]
    (mkListing tt (mkPagination 2 10) 25)); [split; [reflexivity|split; done]|done|cbn; lia|reflexivity|reflexivity].
Defined.

Example last_page_announced :
  Pagination "users" (mkPagination 2 10) 25
  = Some (mkView "Showing 21 - 25 of 25 users" (Some (true, false, "3 / 3"%js))).
Proof. vm_compute. reflexivity. Qed.

(** ** The lists of the administration *)

(** [noFilters] of the users' page, its filters and query. *)
Record UserListFilters := mkUserFilters {
  u_search : option jstr;
  u_role : option jstr;
  u_is_active : option bool;
  u_bypass_rate_limit : option bool;
  u_has_custom_limits : option bool;
  u_custom_multiplier : option bool;
}.

Definition no_user_filters : UserListFilters := mkUserFilters None None None None None None.

Definition or_null (s : option jstr) : jsval := match s with Some ((_ :: _) as s) => VStr s | _ => VNull end.
Definition nullable {A} (f : A → jsval) (o : option A) : jsval := match o with Some x => f x | None => VNull end.

Definition users_query (l : listing UserListFilters) : list (jstr * jsval) :=
  let f := filters l in
  [("search"%js, or_null (u_search f)); ("role"%js, nullable VStr (u_role f));
   ("is_active"%js, nullable VBool (u_is_active f)); ("bypass_rate_limit"%js, nullable VBool (u_bypass_rate_limit f));
   ("has_custom_limits"%js, nullable VBool (u_has_custom_limits f));
   ("custom_multiplier"%js, nullable VBool (u_custom_multiplier f));
   ("limit"%js, VInt (query_window l).2); ("offset"%js, VInt (query_window l).1)].

(** [hasFiltersActive]. *)
Definition hasFiltersActive (f : UserListFilters) : bool :=
  match u_search f with Some (_ :: _) => true | _ => false end
  || bool_decide (is_Some (u_role f)) || bool_decide (is_Some (u_is_active f))
  || bool_decide (is_Some (u_bypass_rate_limit f)) || bool_decide (is_Some (u_has_custom_limits f))
  || bool_decide (is_Some (u_custom_multiplier f)).

(** The same of the executions' page. *)
Record ExecutionFilters := mkExecutionFilters {
  x_status : option jstr;
  x_priority : option jstr;
  x_user_id : option jstr;
}.

Definition no_execution_filters : ExecutionFilters := mkExecutionFilters None None None.

Definition executions_query (l : listing ExecutionFilters) : list (jstr * jsval) :=
  let f := filters l in
  [("status"%js, nullable VStr (x_status f)); ("priority"%js, nullable VStr (x_priority f));
   ("user_id"%js, or_null (x_user_id f)); ("limit"%js, VInt (query_window l).2); ("skip"%js, VInt (query_window l).1)].

(** The body of the events' query; its filters are the applied ones. *)
Definition events_body (l : listing jsval) : jsval :=
  VObj [("filters"%js, filters l); ("skip"%js, VInt (query_window l).1); ("limit"%js, VInt (query_window l).2)].

Definition users_list : listing UserListFilters := mkListing no_user_filters (mkPagination 0 10) 0.
Definition executions_list : listing ExecutionFilters := mkListing no_execution_filters (mkPagination 0 20) 0.
Definition events_list : listing jsval := mkListing (VObj []) (mkPagination 0 10) 0.

(** A list that shrinks strands the user: on the second page of eleven rows, the deletion of the
    only row there leaves a page past the end, for which the server has no rows, while the component
    announces row 10 of 10 and shows no buttons to go back; going on under a new filter before its
    answer is there does the same. *)
Theorem shrinking_list_strands :
  (∃ l, run events_list [LAnswer 11; LNext; LAnswer 10] = Some l
        ∧ query_window l = (10, 10)
        ∧ Pagination "events" (pagination l) (total l) = Some (mkView "Showing 10 - 10 of 10 events" None)
        ∧ Forall (λ a, step l a = None) [LFirst; LPrevious; LNext; LLast])
  ∧ (∃ l, run users_list [LAnswer 50; LFilters (mkUserFilters (Some "x"%js) None None None None None); LNext; LAnswer 3]
          = Some l
          ∧ query_window l = (10, 10)
          ∧ Pagination "users" (pagination l) (total l) = Some (mkView "Showing 3 - 3 of 3 users" None)).
Proof.
  split; eexists; (split; [vm_compute; reflexivity|]).
  - split; [reflexivity|]. split; [vm_compute; reflexivity|]. repeat constructor.
  - split; [reflexivity|]. vm_compute. reflexivity.
Qed.
