(* ===== verification/CommonView.v ===== *)
(** * Parts that pages share

    The markup of [Spinner], [Modal], [EventTypeIcon], [Footer], [DataTable] and [Pagination]
    of [components/], and of [components/admin].  A column of a table is what [createTable] is
    given: its name, its classes, and what its cell shows of a row; TanStack Table names rows by
    their place and has one group of headers. *)

From Stdlib Require Import SpecFloat.
From S2P Require Import Prelude JsString JsValue ApiEnums Formatters Pager Html.

Record event_stats := mkStats {
  total_events : Z;
  error_rate : double;
  avg_processing_time : double;
  top_users : list jstr;
}.

Record column (A E : Type) := mkColumn { col_id : jstr; col_class : jstr; col_cell : A → html E }.
Arguments mkColumn {A E} col_id col_class col_cell.
Arguments col_id {A E} c.
Arguments col_class {A E} c.
Arguments col_cell {A E} c row.

Definition no_rows {A} (rows : list A) : bool := match rows with [] => true | _ => false end.
Definition row_id (i : nat) : jstr := string_of_Z (Z.of_nat i).
Definition cell_id {A E} (i : nat) (c : column A E) : jstr := row_id i ++ "_" ++ col_id c.

Definition positive (x : double) : bool :=
  match x with S754_finite false _ _ | S754_infinity false => true | _ => false end.

(** [x.toFixed(2)] for a number that is not negative and below 10^21. *)
Definition toFixed2 (x : double) : jstr :=
  let n := match x with S754_finite _ m e => round_of (100 * Z.pos m) e | _ => 0%Z end in
  string_of_Z (n / 100) ++ "." ++ string_of_Z (n mod 100 / 10) ++ string_of_Z (n mod 10).

(** ** [components/Spinner.svelte] *)

Section Spinner_view.
Context {E : Type} (size color className : jstr).

Definition sizeClasses : list (jstr * jstr) :=
  [("small", "size-4"); ("medium", "size-6"); ("large", "size-8"); ("xlarge", "size-12")]%js.
Definition colorClasses : list (jstr * jstr) :=
  [("primary", "text-accent"); ("white", "text-white"); ("current", "text-current"); ("muted", "text-fg-subtle")]%js.
(** [size] and [color] are keys of these objects by their types. *)
Definition sizeClass : jstr := default "size-6" (obj_get size sizeClasses).
Definition colorClass : jstr := default "text-accent" (obj_get color colorClasses).

Definition Spinner_view : html E :=
  [El "svg" [Attr "class" ("animate-spin " ++ sizeClass ++ " " ++ colorClass ++ " " ++ className);
             Attr "xmlns" "http://www.w3.org/2000/svg"; Attr "fill" "none"; Attr "viewBox" "0 0 24 24";
             Attr "role" "status"; Attr "aria-label" "Loading"]
    [El "circle" [Attr "class" "opacity-20"; Attr "cx" "12"; Attr "cy" "12"; Attr "r" "10";
                  Attr "stroke" "currentColor"; Attr "stroke-width" "2"] [];
     El "path" [Attr "class" "opacity-75"; Attr "fill" "currentColor";
                Attr "d" "M12 2a10 10 0 00-10 10h2a8 8 0 018-8V2z"] []]].

End Spinner_view.

(** ** [components/Modal.svelte] *)

Section Modal_view.
Context {E : Type} (open_ : bool) (title : jstr) (onClose : E) (size : jstr) (children footer : html E).

Definition modalSizes : list (jstr * jstr) :=
  [("sm", "max-w-md"); ("md", "max-w-2xl"); ("lg", "max-w-4xl"); ("xl", "max-w-6xl")]%js.

Definition Modal_view : html E :=
  [El "Dialog.Root" [Flag "open" open_; On "Close" onClose]
    [El "Dialog.Portal" []
      [El "Dialog.Overlay" [Attr "class" "fixed inset-0 z-50 bg-backdrop data-[state=open]:animate-in data-[state=open]:fade-in-0 data-[state=closed]:animate-out data-[state=closed]:fade-out-0"] [];
       El "Dialog.Content" [Attr "class" ("fixed left-1/2 top-1/2 z-50 flex max-h-[95vh] sm:max-h-[90vh] w-[calc(100%-1rem)] sm:w-[calc(100%-2rem)] -translate-x-1/2 -translate-y-1/2 flex-col rounded-lg bg-surface shadow-xl outline-none data-[state=open]:animate-in data-[state=open]:fade-in-0 data-[state=open]:zoom-in-95 data-[state=closed]:animate-out data-[state=closed]:fade-out-0 data-[state=closed]:zoom-out-95 " ++ (default [] (obj_get size modalSizes)))]
        ([El "div" [Attr "class" "flex shrink-0 items-center justify-between border-b p-4 sm:p-6"]
          [El "Dialog.Title" [Attr "class" "text-lg sm:text-xl font-semibold"]
            [Text title];
           El "Dialog.Close" [Attr "aria-label" "Close dialog";
                              Attr "class" "rounded-md text-fg-muted hover:text-fg"]
            [El "X" [Attr "size" "24"] []]];
         El "div" [Attr "class" "min-h-0 flex-1 overflow-y-auto p-4 sm:p-6"]
          (children)]
        ++ when (negb (no_rows footer)) (
            [El "div" [Attr "class" "flex shrink-0 justify-end gap-3 border-t p-4 sm:p-6"]
              (footer)]))]]].

End Modal_view.

(** ** [components/EventTypeIcon.svelte] *)

Section EventTypeIcon_view.
Context {E : Type} (eventType : ApiEnums.EventType) (size : Z).

Definition eventIcon (t : ApiEnums.EventType) : jstr :=
  match t with
  | EventType_EXECUTION_REQUESTED => "FileInput"
  | EventType_EXECUTION_STARTED => "CirclePlay"
  | EventType_EXECUTION_COMPLETED => "CircleCheckBig"
  | EventType_EXECUTION_FAILED => "CircleX"
  | EventType_EXECUTION_TIMEOUT => "Clock"
  | EventType_POD_CREATED | EventType_POD_RUNNING => "Zap"
  | EventType_POD_SUCCEEDED => "Check"
  | EventType_POD_FAILED => "X"
  | EventType_POD_TERMINATED => "CircleMinus"
  | _ => "CircleQuestionMark"
  end.

Definition EventTypeIcon_view : html E :=
  [El (eventIcon eventType) [Attr "size" (string_of_Z size)] []].

End EventTypeIcon_view.

(** ** [components/Footer.svelte] *)

Section Footer_view.
Context {E : Type} (resolve : jstr → jstr) (currentYear : Z) (is_admin : bool).

Definition Footer_view : html E :=
  [El "footer" [Attr "class" "relative z-30 mt-8 pt-8 pb-6 bg-surface border-t"]
    [El "div" [Attr "class" "app-container py-6"]
      [El "div" [Attr "class" "grid grid-cols-1 md:grid-cols-12 gap-8 mb-8"]
        [El "div" [Attr "class" "md:col-span-5 lg:col-span-6"]
          [El "h2" [Attr "class" "mb-2"]
            [Text "Integr8sCode"];
           El "p" [Attr "class" "text-fg-muted"]
            [Text "Run code online with ease and security, powered by Kubernetes."]];
         El "div" [Attr "class" "md:col-span-7 lg:col-span-6 grid grid-cols-2 gap-8"]
          [El "div" []
            [El "h3" [Attr "class" "section-label mb-4"]
              [Text "Navigation"];
             El "ul" [Attr "class" "link-list space-y-3 text-sm"]
              [El "li" []
                [El "a" [Attr "href" (resolve "/")]
                  [Text "Home"]];
               El "li" []
                [El "a" [Attr "href" (resolve "/(auth)/editor")]
                  [Text "Code Editor"]]]];
           El "div" []
            [El "h3" [Attr "class" "section-label mb-4"]
              [Text "Tools & Info"];
             El "ul" [Attr "class" "link-list space-y-3 text-sm"]
              (when is_admin (
                  [El "li" []
                    [El "a" [Attr "href" "/grafana"; Attr "target" "_blank";
                             Attr "rel" "external noopener noreferrer"]
                      [Text "Grafana"]]])
              ++ [El "li" []
                [El "a" [Attr "href" (resolve "/privacy")]
                  [Text "Privacy Policy"]]])]]];
       El "div" [Attr "class" "mt-8 pt-8 border-t flex flex-col sm:flex-row items-center justify-between gap-4"]
        [El "p" [Attr "class" "text-xs text-fg-muted text-center sm:text-left"]
          [Text ([169%N] ++ " ");
           Text (string_of_Z currentYear);
           Text " Integr8sCode. Built by Max Azatian. All rights reserved."];
         El "div" [Attr "class" "link-list flex gap-5"]
          [El "a" [Attr "href" "https://t.me/MaxAzatian"; Attr "target" "_blank";
                   Attr "rel" "noopener noreferrer"; Attr "title" "Telegram"; Attr "class" "text-fg-muted"]
            [El "span" [Attr "class" "sr-only"]
              [Text "Telegram"];
             El "Send" [Attr "size" "20"] []];
           El "a" [Attr "href" "https://github.com/HardMax71/Integr8sCode"; Attr "target" "_blank";
                   Attr "rel" "noopener noreferrer"; Attr "title" "GitHub"; Attr "class" "text-fg-muted"]
            [El "span" [Attr "class" "sr-only"]
              [Text "GitHub"];
             El "Icon" [Attr "icon" "github"; Attr "size" "20"] []]]]]]].

End Footer_view.

(** ** [components/admin/FilterPanel.svelte] *)

Section FilterPanel_view.
Context {E : Type} (open_ hasActiveFilters showToggleButton : bool) (activeFilterCount : Z) (title : jstr).
Context (handleToggle : E) (onClear onApply : option E) (children : html E).

Definition FilterPanel_view : html E :=
  when showToggleButton (
      [El "button" [Attr "type" "button"; On "click" handleToggle; Flag "aria-expanded" open_;
                    Attr "class" (class_list [Some "btn btn-sm gap-1 sm:gap-2"; Some (if open_ then "btn-primary ring-2 ring-primary ring-offset-2 ring-offset-page" else "btn-secondary-outline")])]
        ([El "span" [Attr "class" "transition-transform duration-200"; Flag "class:rotate-180" open_]
          [El "Funnel" [Attr "size" "16"] []];
         El "span" [Attr "class" "hidden sm:inline"]
          [Text "Filters"]]
        ++ when hasActiveFilters (
            [El "span" [Attr "class" ("inline-flex items-center justify-center min-w-[1.25rem] h-5 px-1.5 rounded-full text-xs font-bold " ++ (if open_ then "bg-surface text-accent" else "bg-primary text-white"))]
              [Text (string_of_Z activeFilterCount)]]))])
  ++ when open_ (
      [El "div" [Attr "class" "card mb-6"]
        [El "div" [Attr "class" "p-4"]
          ([El "div" [Attr "class" "flex items-center justify-between mb-3"]
            [El "h3" [Attr "class" "text-sm font-semibold uppercase tracking-wide"]
              [Text title];
             El "div" [Attr "class" "flex gap-2"]
              ((match onClear with Some onClear =>
                  [El "button" [Attr "type" "button"; On "click" onClear; Attr "class" "btn btn-ghost btn-sm"]
                    [Text "Clear All"]]
              | _ => [] end)
              ++ (match onApply with Some onApply =>
                  [El "button" [Attr "type" "button"; On "click" onApply; Attr "class" "btn btn-primary btn-sm"]
                    [Text "Apply"]]
              | _ => [] end))]]
          ++ children)]]).

End FilterPanel_view.

(** ** [components/admin/AutoRefreshControl.svelte] *)

Section AutoRefreshControl_view.
Context {E : Type} (enabled loading : bool) (rate : Z) (rateOptions : list (Z * jstr)).
Context (setEnabled : bool → E) (setRate : Z → E) (onRefresh : E).

Definition default_rates : list (Z * jstr) :=
  [(5%Z, "5 seconds"); (10%Z, "10 seconds"); (30%Z, "30 seconds"); (60%Z, "1 minute")]%js.

Definition AutoRefreshControl_view : html E :=
  [El "div" [Attr "class" "card"]
    [El "div" [Attr "class" "p-3 sm:p-4 flex flex-col sm:flex-row sm:items-center gap-2 sm:gap-4"]
      ([El "div" [Attr "class" "flex items-center gap-2"]
        [El "input" [Attr "type" "checkbox"; OnCheck "checked" setEnabled; Attr "aria-label" "Auto-refresh";
                     Attr "class" "size-4 rounded text-accent focus:ring-primary"] [];
         El "span" [Attr "aria-hidden" "true"; Attr "class" "text-sm font-medium"]
          [Text "Auto-refresh"]]]
      ++ when enabled (
          [El "div" [Attr "class" "flex items-center gap-2 flex-1 sm:flex-initial"]
            [El "span" [Attr "aria-hidden" "true"; Attr "class" "text-xs sm:text-sm text-fg-muted"]
              [Text "Every:"];
             El "select" [Attr "id" "refresh-rate"; Attr "aria-label" "Refresh every";
                          Attr "value" (string_of_Z rate); Attr "class" "form-select-standard"]
              (each (λ o, string_of_Z o.1) rateOptions (λ o,
                  [El "option" [On "value" (setRate o.1)]
                    [Text o.2]]))]])
      ++ [El "button" [Attr "type" "button"; On "click" onRefresh;
                    Attr "class" "sm:ml-auto btn btn-primary btn-sm w-full sm:w-auto"; Flag "disabled" loading]
        ((if loading then
            Spinner_view "small" "white" "-ml-1 mr-2"
            ++ [Text "Refreshing..."]
          else [El "RefreshCw" [Attr "class" "size-4 mr-1.5"] [];
             Text "Refresh Now"]))])]].

End AutoRefreshControl_view.

(** ** [components/admin/events/EventStatsCards.svelte] *)

Section EventStatsCards_view.
Context {E : Type} (toLocaleString : Z → jstr) (show_number : double → jstr) (stats : option event_stats) (totalEvents : Z).

Definition EventStatsCards_view : html E :=
  (match stats with Some stats =>
      [El "p" [Attr "class" "text-xs text-fg-muted mb-2"]
        [Text "Last 24 hours"];
       El "div" [Attr "class" "grid grid-cols-2 lg:grid-cols-4 gap-4 mb-6"]
        [El "dl" [Attr "class" "card stat p-4"]
          [El "dt" []
            [Text (fieldTitle "total_events")];
           El "dd" []
            [Text (toLocaleString (total_events stats))];
           El "dd" [Attr "class" "mt-0 text-xs font-normal text-fg-muted"]
            [Text "of ";
             Text (toLocaleString totalEvents);
             Text " total"]];
         El "dl" [Attr "class" "card stat p-4"]
          [El "dt" []
            [Text (fieldTitle "error_rate")];
           El "dd" [Attr "class" (if (positive (error_rate stats)) then "text-danger" else "text-success")]
            [Text (show_number (error_rate stats));
             Text "%"]];
         El "dl" [Attr "class" "card stat p-4"]
          [El "dt" []
            [Text (fieldTitle "avg_processing_time")];
           El "dd" []
            [Text (toFixed2 (avg_processing_time stats));
             Text "s"]];
         El "dl" [Attr "class" "card stat p-4"]
          [El "dt" []
            [Text (fieldTitle "top_users")];
           El "dd" []
            [Text (string_of_Z (Z.of_nat (length (top_users stats))))]]]]
  | _ => [] end).

End EventStatsCards_view.

(** ** [components/DataTable.svelte] *)

Section DataTable_view.
Context {E A : Type} (columns : list (column A E)) (rows : list A) (label : jstr) (loading : bool) (emptyText : jstr) (dense cards : bool).

Definition headerCell : jstr := if dense then "table-header-cell-sm" else "table-header-cell".
Definition bodyCell : jstr := if dense then "table-cell-sm" else "table-cell".

Definition table_view : html E :=
  [El "div" [Attr "class" ("overflow-x-auto " ++ (if cards then "hidden lg:block" else []))]
    [El "table" [Attr "class" "table"; Attr "aria-label" label]
      [El "thead" [Attr "class" "table-header"]
        (each (λ group, group) ["0"%js] (λ group,
            [El "tr" []
              (each (λ header, col_id header) columns (λ header,
                  [El "th" [Attr "scope" "col"; Attr "class" (headerCell ++ " " ++ (col_class header))]
                    (when true (
                        [Text (fieldTitle (col_id header))]))]))]));
       El "tbody" [Attr "class" "table-body"]
        (each (λ '(i, row), row_id i) (imap pair rows) (λ '(i, row),
            [El "tr" [Attr "class" "table-row"]
              (each (λ cell, cell_id i cell) columns (λ cell,
                  [El "td" [Attr "class" (bodyCell ++ " " ++ (col_class cell))]
                    (col_cell cell row)]))]))]]].

Definition cards_view : html E :=
  [El "ul" [Attr "class" "lg:hidden divide-y"; Attr "aria-label" label]
    (each (λ '(i, row), row_id i) (imap pair rows) (λ '(i, row),
        [El "li" [Attr "class" "p-4"]
          [El "dl" [Attr "class" "details items-center gap-x-4"]
            (each (λ cell, cell_id i cell) columns (λ cell,
                [El "dt" []
                  [Text (fieldTitle (col_id cell))];
                 El "dd" [Attr "class" "min-w-0 wrap-anywhere"]
                  (col_cell cell row)]))]]))].

Definition DataTable_view : html E :=
  (if (loading && no_rows rows) then
      [El "div" [Attr "class" "empty-state"]
        (Spinner_view "large" "primary" "mx-auto mb-4"
        ++ [El "p" []
          [Text "Loading ";
           Text (toLowerCase label);
           Text "..."]])]
    else if (no_rows rows) then
      [El "p" [Attr "class" "empty-state"]
        [Text emptyText]]
    else table_view
      ++ when cards (
          cards_view)).

End DataTable_view.

(** ** [components/Pagination.svelte] *)

Section Pagination_markup.
Context `{!TablePaging} {E : Type} (p : PaginationState) (rowCount : Z) (itemName : jstr) (pageSizeOptions : list Z).
Context (first previous next last : E) (size : Z → E).

Definition pageCount : Z := getPageCount rowCount p.

Definition Pagination_markup : html E :=
  when ((0 <? rowCount)%Z) (
      [El "div" [Attr "class" "pagination-container"]
        [El "div" [Attr "class" "pagination-info"]
          [Text "Showing ";
           Text (string_of_Z (start p rowCount));
           Text " - ";
           Text (string_of_Z (end_ p rowCount));
           Text " of ";
           Text (string_of_Z rowCount);
           Text " ";
           Text itemName];
         El "div" [Attr "class" "flex items-center gap-4"]
          ([El "select" [Attr "class" "pagination-selector"; Attr "value" (string_of_Z (pageSize p));
                        Attr "aria-label" "Items per page"]
            (each (λ k, string_of_Z k) pageSizeOptions (λ k,
                [El "option" [On "value" (size k)]
                  [Text (string_of_Z k);
                   Text " / page"]]))]
          ++ when ((1 <? pageCount)%Z) (
              [El "div" [Attr "class" "pagination-controls"]
                [El "button" [Attr "type" "button"; Attr "class" "pagination-button"; On "click" first;
                              Flag "disabled" (negb (getCanPreviousPage p)); Attr "aria-label" "First page"]
                  [El "ChevronsLeft" [Attr "size" "16"] []];
                 El "button" [Attr "type" "button"; Attr "class" "pagination-button"; On "click" previous;
                              Flag "disabled" (negb (getCanPreviousPage p)); Attr "aria-label" "Previous page"]
                  [El "ChevronLeft" [Attr "size" "16"] []];
                 El "span" [Attr "class" "pagination-text"]
                  [El "span" [Attr "class" "font-medium"]
                    [Text (string_of_Z (pageIndex p + 1))];
                   Text " / ";
                   El "span" [Attr "class" "font-medium"]
                    [Text (string_of_Z pageCount)]];
                 El "button" [Attr "type" "button"; Attr "class" "pagination-button"; On "click" next;
                              Flag "disabled" (negb (getCanNextPage rowCount p)); Attr "aria-label" "Next page"]
                  [El "ChevronRight" [Attr "size" "16"] []];
                 El "button" [Attr "type" "button"; Attr "class" "pagination-button"; On "click" last;
                              Flag "disabled" (negb (getCanLastPage rowCount p)); Attr "aria-label" "Last page"]
                  [El "ChevronsRight" [Attr "size" "16"] []]]]))]]).

End Pagination_markup.
