(* ===== verification/CommonSpec.v ===== *)
(** * What the shared parts let the user do *)

From S2P Require Import Prelude JsString JsValue ApiEnums Formatters Pager Html CommonView.

Section common.
Context {E : Type} (pg : list (option jstr)) (o : bool) (e : E).

Lemma does_Spinner size color cls : does pg o (Spinner_view size color cls) e ↔ False.
Proof. unfold Spinner_view. split; [|done]. intros H. offers_inv H. Qed.

Lemma does_EventTypeIcon t size : does pg o (EventTypeIcon_view t size) e ↔ False.
Proof. unfold EventTypeIcon_view. split; [|done]. intros H. offers_inv H. Qed.

Lemma does_FilterPanel op act sh n title toggle onClear onApply ch :
  does pg o (FilterPanel_view op act sh n title toggle onClear onApply ch) e ↔
  (sh = true ∧ e = toggle) ∨ (op = true ∧ (onClear = Some e ∨ onApply = Some e ∨ does pg o ch e)).
Proof.
  unfold FilterPanel_view. split.
  - intros H. offers_inv H; subst; auto.
  - intros [[-> ->]|[-> [->|[->|H]]]].
    + offers_find.
    + offers_find.
    + offers_find.
    + apply does_app. right. apply does_when. split; [done|].
      do 2 (apply does_el; left; split; [done|]; right; right). apply does_app. right. apply H.
Qed.

(** An open dialog: what is in it, and closing it. *)
Lemma does_Modal title onClose size ch footer :
  does pg o (Modal_view true title onClose size ch footer) e ↔
  e = onClose ∨ does pg true ch e ∨ does pg true footer e.
Proof.
  unfold Modal_view. split.
  - intros H. offers_inv H; subst; auto.
  - intros [->|[H|H]]; [offers_find|..]; do 2 (apply does_el; left; split; [done|]; right; right);
      (apply does_el; right; apply does_el; left; split; [done|]; right; right); apply does_app.
    + left. apply does_el. right. apply does_el. left. split; [done|]. right. right. apply H.
    + right. destruct footer; [by apply does_nil in H|]. cbn [no_rows negb when].
      apply does_el. left. split; [done|]. right. right. apply H.
Qed.

(** A closed one lets the user do nothing. *)
Lemma does_closed_Modal title onClose size ch footer :
  does pg o (Modal_view false title onClose size ch footer) e ↔ False.
Proof. unfold Modal_view. split; [|done]. intros H. offers_inv H. Qed.

Lemma does_EventStatsCards f g stats n : does pg o (EventStatsCards_view f g stats n) e ↔ False.
Proof. unfold EventStatsCards_view. split; [|done]. intros H. offers_inv H. Qed.

Lemma elem_of_imap_pair {A} (l : list A) i x : (i, x) ∈ imap pair l → x ∈ l.
Proof. intros (j & y & H & Hl)%elem_of_lookup_imap. injection H as -> ->. by apply list_elem_of_lookup_2 in Hl. Qed.

Lemma elem_of_imap_pair_2 {A} (l : list A) x : x ∈ l → ∃ i, (i, x) ∈ imap pair l.
Proof. intros [i Hi]%list_elem_of_lookup. exists i. apply elem_of_lookup_imap. eauto. Qed.

(** A table lets the user do what its cells do. *)
Lemma does_DataTable {A} (columns : list (column A E)) rows label loading empty dense cards :
  does pg o (DataTable_view columns rows label loading empty dense cards) e ↔
  ∃ row c, row ∈ rows ∧ c ∈ columns ∧ does pg o (col_cell c row) e.
Proof.
  unfold DataTable_view. split.
  - intros H. destruct (loading && no_rows rows).
    { offers_step H; [by offers_step H..| |by offers_step H]. apply does_app in H as [H|H]; [by apply does_Spinner in H|offers_inv H]. }
    destruct (no_rows rows); [offers_inv H|]. apply does_app in H as [H|H].
    + unfold table_view in H. offers_inv H. destruct x as [i row]. apply elem_of_imap_pair in Hin.
      offers_inv H. eauto.
    + apply does_when in H as [_ H]. unfold cards_view in H. offers_inv H. destruct x as [i row]. apply elem_of_imap_pair in Hin.
      offers_inv H. eauto.
  - intros (row & c & Hr & Hc & H). assert (no_rows rows = false) as -> by (destruct rows; [by apply not_elem_of_nil in Hr|done]).
    rewrite andb_false_r. apply does_app. left. unfold table_view.
    do 2 (apply does_el; left; split; [done|]; right; right). apply does_el. right. apply does_el. left.
    split; [done|]. right. right. apply does_each. apply elem_of_imap_pair_2 in Hr as [i Hi]. exists (i, row). split; [done|].
    apply does_el. left. split; [done|]. right. right. apply does_each. exists c. split; [done|].
    apply does_el. left. split; [done|]. right. right. exact H.
Qed.

(** The sizes whenever there are rows, the buttons when there is more than one page, each where it
    leads somewhere. *)
Definition pagination_does {TP : TablePaging} (p : PaginationState) (rowCount : Z) (sizes : list Z) (first previous next last : E)
    (size : Z → E) : Prop :=
  (0 < rowCount)%Z
  ∧ ((∃ k, k ∈ sizes ∧ e = size k)
     ∨ ((1 < getPageCount rowCount p)%Z
        ∧ ((getCanPreviousPage p = true ∧ (e = first ∨ e = previous))
           ∨ (getCanNextPage rowCount p = true ∧ e = next)
           ∨ (getCanLastPage rowCount p = true ∧ e = last)))).

Lemma does_Pagination {TP : TablePaging} p rowCount item sizes first previous next last size :
  does pg o (Pagination_markup p rowCount item sizes first previous next last size) e ↔
  pagination_does p rowCount sizes first previous next last size.
Proof.
  unfold Pagination_markup, pagination_does, pageCount. split.
  - intros H. offers_inv H; unfold id in *; rewrite ?negb_false_iff in *; (split; [lia|]); [left; by eauto|..];
      (right; split; [lia|]; tauto).
  - intros [Hn H]. apply does_when. split; [lia|]. apply does_el. left. split; [done|]. right. right.
    apply does_el. right. apply does_el. left. split; [done|]. right. right. apply does_app. destruct H as [(k & Hk & ->)|[Hp H]].
    + left. apply does_el. left. split; [done|]. right. right. apply does_each. exists k. split; [done|]. offers_find.
    + right. apply does_when. split; [lia|]. apply does_el. left. split; [done|]. right. right.
      destruct H as [[Hc [->| ->]]|[[Hc ->]|[Hc ->]]]; rewrite Hc; cbn [negb]; offers_find.
Qed.
End common.

(** ** Their submit buttons *)

Section submits.
Context {E : Type} (f : option jstr).

Lemma submit_Spinner size color cls : has_submit (E := E) (Spinner_view size color cls) f ↔ False.
Proof. unfold Spinner_view. split; [|done]. intros H. submit_inv H. Qed.

Lemma submit_Modal b title (onClose : E) size ch footer :
  has_submit (Modal_view b title onClose size ch footer) f ↔ has_submit ch f ∨ has_submit footer f.
Proof.
  unfold Modal_view. split; [intros H; submit_inv H; auto|]. intros H.
  do 2 (apply has_submit_el; right; left). apply has_submit_el. right. right. apply has_submit_el. right. left.
  apply has_submit_app. destruct H as [H|H].
  - left. apply has_submit_el. right. right. apply has_submit_el. right. by left.
  - right. destruct footer; [by apply has_submit_nil in H|]. apply has_submit_when. split; [done|].
    apply has_submit_el. right. by left.
Qed.

Lemma submit_Pagination {TP : TablePaging} p n item sizes (first previous next last : E) size :
  has_submit (Pagination_markup p n item sizes first previous next last size) f ↔ False.
Proof. unfold Pagination_markup. split; [|done]. intros H. submit_inv H. Qed.

Lemma submit_DataTable {A} (columns : list (column A E)) rows label loading empty dense cards :
  has_submit (DataTable_view columns rows label loading empty dense cards) f →
  ∃ row c, row ∈ rows ∧ c ∈ columns ∧ has_submit (col_cell c row) f.
Proof.
  unfold DataTable_view. intros H. destruct (loading && no_rows rows).
  { submit_step H; [by submit_step H..| |by submit_step H]. apply has_submit_app in H as [H|H]; [by apply submit_Spinner in H|submit_inv H]. }
  destruct (no_rows rows); [submit_inv H|]. apply has_submit_app in H as [H|H].
  - unfold table_view in H. submit_inv H. destruct x as [i row]. apply elem_of_imap_pair in Hin. submit_inv H. eauto.
  - apply has_submit_when in H as [_ H]. unfold cards_view in H. submit_inv H. destruct x as [i row].
    apply elem_of_imap_pair in Hin. submit_inv H. eauto.
Qed.
End submits.

(** ** Paging *)

(** The ways to page that a component shows. *)
Definition page_label {F} (sizes : list Z) (a : label F) : Prop :=
  match a with
  | LFirst | LPrevious | LNext | LLast => True
  | LSize k => k ∈ sizes
  | LFilters _ | LAnswer _ => False
  end.

(** What the component below a list offers is what is a step of the list. *)
Lemma pagination_does_steps {TP : TablePaging} {TL : TableLaws} {F E} (wrap : label F → E) {IW : Inj (=) (=) wrap} sizes l a :
  listing_ok l → Forall (λ k, 0 < k)%Z sizes →
  pagination_does (wrap a) (pagination l) (total l) sizes (wrap LFirst) (wrap LPrevious) (wrap LNext) (wrap LLast)
    (λ k, wrap (LSize k))
  ↔ page_label sizes a ∧ is_Some (step l a).
Proof.
  intros (Hs & Hi & Hn) Hsizes. unfold pagination_does.
  assert (1 < getPageCount (total l) (pagination l) → 0 < total l)%Z as Hrows.
  { rewrite getPageCount_spec by done. intros H. destruct (decide (total l = 0%Z)) as [H0|]; [|lia].
    rewrite H0, Z.div_small in H by lia. lia. }
  split.
  - intros (Ht & [(k & Hk & ->%(inj wrap))|(Hp & H)]).
    + split; [done|]. cbn [step]. rewrite Forall_forall in Hsizes. specialize (Hsizes k Hk).
      by assert ((0 <? total l) && (0 <? k) = true)%Z as -> by lia.
    + assert ((1 <? getPageCount (total l) (pagination l)) = true)%Z as Hb by lia.
      destruct H as [[Hc [->%(inj wrap)| ->%(inj wrap)]]|[[Hc ->%(inj wrap)]|[Hc ->%(inj wrap)]]];
        (split; [done|]; cbn [step]; by rewrite Hb, Hc).
  - intros [Hl [l' Hstep]]. destruct a as [f| | | | |k|n]; try done; cbn [step] in Hstep.
    1-4: destruct (1 <? _)%Z eqn:Hb; [|done]; cbn [andb] in Hstep; case_match; [|done]; split; [lia|]; right; (split; [lia|]); tauto.
    destruct ((0 <? total l) && _)%Z eqn:Hb; [|done]. split; [lia|]. left. eauto.
Qed.

#[export] Hint Rewrite @submit_Spinner @submit_Modal @submit_Pagination : submits.
#[export] Hint Rewrite @does_Spinner @does_EventTypeIcon @does_EventStatsCards @does_Modal @does_closed_Modal @does_DataTable @does_Pagination : offers.
Lemma visible_Spinner {E} size color cls : flat_map visible (Spinner_view (E := E) size color cls) = [].
Proof. reflexivity. Qed.
#[export] Hint Rewrite @visible_Spinner : words.
#[global] Opaque Spinner_view EventTypeIcon_view EventStatsCards_view Modal_view DataTable_view Pagination_markup.
