(* ===== verification/EditorView.v ===== *)
(** * The editor page's markup

    [routes/(auth)/editor/+page.svelte] and the components of [components/editor], with what
    each control asks for ([editor_event], performed by [Workbench] and [Execution]).  A choice of a
    list carries the event of that choice.  [CodeMirrorEditor] is [CodeEditor]. *)

From S2P Require Import Prelude JsString JsValue ApiEnums Formatters EventFilters Execution Editor Workbench Html Output CommonView.

Inductive editor_event :=
| RunScript
| ToggleOptions
| EditName (t : jstr)
| EditScript (t : jstr)
| SelectRuntime (r : Runtime)
| LoadExample
| StartNew | ChooseFile | UploadFile (file : chosen_file) | SaveScript | DownloadScript
| ToggleSaved | OpenScript (saved : SavedScript) | DeleteScript (saved : SavedScript)
| CopyText (text label : jstr).

(** A part of a text as Anser cuts it at its escape sequences. *)
Record ansi_part := mkPart {
  part_content : jstr;
  part_fg : option jstr;
  part_bg : option jstr;
  part_decorations : list jstr;
}.

Definition part_class (p : ansi_part) : jstr :=
  class_list ([(λ c, c ++ "-fg") <$> part_fg p; (λ c, c ++ "-bg") <$> part_bg p]
              ++ map (λ d, Some ("ansi-" ++ d)) (part_decorations p)).

Record ResourceLimit := mkLimit { cpu_limit : jstr; memory_limit : jstr; execution_timeout : Z }.

(** ** [components/editor/OutputPanel.svelte] *)

Section OutputPanel_view.
Context (ansiToJson : jstr → list ansi_part) (phase : ExecutionPhase) (result : option ExecutionResult) (error : option jstr).

Definition ansi (text : jstr) : html editor_event :=
  each (λ '(i, part), string_of_Z (Z.of_nat i)) (imap pair (ansiToJson text)) (λ '(i, part),
      [El "span" [Attr "class" (part_class part)]
        [Text (part_content part)]]).

Definition copyButton (text label ariaLabel tip tone : jstr) : html editor_event :=
  [El "Tooltip.Root" []
    [El "Tooltip.Trigger" [Attr "class" ("inline-flex items-center p-1.5 rounded-lg opacity-70 hover:opacity-100 transition-colors " ++ tone);
                           Attr "aria-label" ariaLabel; On "click" (CopyText text label)]
      [El "Copy" [Attr "class" "size-4"] []];
     El "Tooltip.Portal" []
      [El "Tooltip.Content" [Attr "side" "top"; Attr "sideOffset" "6"; Attr "class" "tooltip-content"]
        [Text tip]]]].

Definition usageField (key value : jstr) : html editor_event :=
  [El "div" []
    [El "dt" []
      [Text (fieldTitle key)];
     El "dd" [Attr "class" "font-medium"]
      [Text value]]].

Definition result_view (result : ExecutionResult) : html editor_event :=
  [El "div" [Attr "class" "space-y-5 animate-fly-in"]
    ([El "div" [Attr "class" "flex flex-wrap items-center justify-between gap-x-4 gap-y-1 text-xs"]
      ([El "span" [Attr "class" ("badge whitespace-nowrap " ++ (EXECUTION_STATUS_BADGE (Output.status result)))]
        [El "span" [Attr "class" "mr-1 opacity-75"]
          [Text (fieldTitle "status")];
         Text (ExecutionStatus_value (Output.status result))]]
      ++ (match execution_id result with (_ :: _) as executionId =>
          [El "Tooltip.Root" []
            [El "Tooltip.Trigger" [Attr "class" "inline-flex items-center p-1.5 rounded-lg text-fg-muted hover:text-fg hover:bg-muted transition-colors";
                                   Attr "aria-label" "Click to copy execution ID";
                                   On "click" (CopyText executionId "Execution ID")]
              [El "FileText" [Attr "class" "size-4"] []];
             El "Tooltip.Portal" []
              [El "Tooltip.Content" [Attr "side" "bottom"; Attr "align" "end"; Attr "sideOffset" "6";
                                     Attr "class" "tooltip-content"]
                [Text (fieldTitle "execution_id");
                 El "br" [] [];
                 Text executionId;
                 El "br" [] [];
                 El "span" [Attr "class" "opacity-75"]
                  [Text "Click to copy"]]]]]
      | _ => [] end))]
    ++ (match stdout result with Some ((_ :: _) as stdout) =>
        [El "div" []
          [El "h4" [Attr "class" "section-label mb-1"]
            [Text (fieldTitle "stdout")];
           El "div" [Attr "class" "relative"]
            [El "pre" [Attr "class" "output-pre custom-scrollbar"; Attr "data-testid" "output-pre"]
              (ansi stdout);
             El "div" [Attr "class" "absolute bottom-2 right-2"]
              (copyButton stdout "Output" "Copy output to clipboard" "Copy output" "text-fg-muted hover:text-fg hover:bg-muted")]]]
    | _ => [] end)
    ++ (match stderr result with Some ((_ :: _) as stderr) =>
        [El "div" []
          [El "h4" [Attr "class" "section-label text-danger mb-1"]
            [Text (fieldTitle "stderr")];
           El "div" [Attr "class" "relative"]
            [El "div" [Attr "class" "p-3 rounded-lg bg-danger-soft border border-danger/30"]
              [El "pre" [Attr "class" "text-xs text-danger whitespace-pre-wrap break-words font-mono bg-transparent p-0 pr-8"]
                (ansi stderr)];
             El "div" [Attr "class" "absolute bottom-2 right-2"]
              (copyButton stderr "Error text" "Copy error text to clipboard" "Copy errors" "text-danger hover:bg-danger-soft")]]]
    | _ => [] end)
    ++ (match resource_usage result with Some usage =>
        [El "div" [Attr "class" "p-3 rounded-lg bg-info-soft border border-info/30 text-xs space-y-1"]
          [El "h4" [Attr "class" "section-label text-info mb-2"]
            [Text (fieldTitle "resource_usage")];
           El "dl" [Attr "class" "facts sm:grid-cols-3 gap-x-3 gap-y-1"]
            (usageField "execution_time_wall_seconds" (toFixed3 (execution_time_wall_seconds usage))
            ++ usageField "cpu_time_jiffies" (string_of_Z (cpu_time_jiffies usage))
            ++ usageField "peak_memory_kb" (string_of_Z (peak_memory_kb usage)))]]
    | _ => [] end))].

Definition OutputPanel_view : html editor_event :=
  [El "div" [Attr "class" "output-container flex flex-col h-full"]
    [El "h3" [Attr "class" "text-base font-medium mb-3 border-b pb-3 shrink-0"]
      [Text "Execution Output"];
     El "div" [Attr "class" "output-content flex-grow overflow-auto pr-2 text-sm custom-scrollbar"]
      ((if negb (bool_decide (phase = idle)) then
          [El "div" [Attr "class" "flex flex-col items-center justify-center h-full text-center p-4 animate-fade-in"]
            (Spinner_view "medium" "primary" []
            ++ [El "p" [Attr "class" "mt-3 text-sm font-medium text-accent"]
              [Text (phaseLabel phase)]])]
        else match (error, result) with
        | (Some ((_ :: _) as message), None) => [El "div" [Attr "class" "flex flex-col items-center justify-center h-full text-center p-4 animate-fade-in"]
            [El "div" [Attr "class" "size-12 rounded-full bg-danger-soft flex items-center justify-center mb-3"]
              [El "TriangleAlert" [Attr "class" "size-6 text-danger"] []];
             El "p" [Attr "class" "text-sm font-medium text-danger"]
              [Text "Execution Failed"];
             El "p" [Attr "class" "mt-1 text-xs text-fg-muted max-w-xs"]
              [Text message]]]
        | _ => match result with
        | Some result => result_view result
        | _ => [El "div" [Attr "class" "flex items-center justify-center h-full text-center text-fg-muted italic p-4"]
            [Text ("Write some code and click " ++ [34%N] ++ "Run Script" ++ [34%N] ++ " to see the output.")]]
        end
        end))]].

End OutputPanel_view.

(** ** [components/editor/ResourceLimits.svelte] *)

Section ResourceLimits_view.
Context (effective : option ResourceLimit).

Definition limit (Icon key value : jstr) : html editor_event :=
  [El "div" [Attr "class" "flex items-center justify-between"]
    [El "dt" [Attr "class" "inline-flex items-center gap-2 text-fg-muted"]
      [El Icon [Attr "class" "size-4"] [];
       Text (fieldTitle key)];
     El "dd" [Attr "class" "font-semibold tabular-nums"]
      [Text value]]].

Definition ResourceLimits_view : html editor_event :=
  (match effective with Some effective =>
      [El "Popover.Root" []
        [El "Popover.Trigger" [Attr "class" "btn btn-secondary-outline btn-sm gap-1.5 w-full sm:w-auto shrink-0 group"]
          [El "MessageSquare" [Attr "class" "size-4"] [];
           El "span" []
            [Text "Resource Limits"];
           El "ChevronDown" [Attr "class" "size-4 transition-transform group-data-[state=open]:-rotate-180"] []];
         El "Popover.Portal" []
          [El "Popover.Content" [Attr "align" "end"; Attr "sideOffset" "8";
                                 Attr "class" "floating-panel w-64 sm:w-72 p-5"]
            [El "dl" [Attr "class" "space-y-4 text-sm"]
              (limit "Cpu" "cpu_limit" (cpu_limit effective)
              ++ limit "MemoryStick" "memory_limit" (memory_limit effective)
              ++ limit "Clock" "execution_timeout" ((string_of_Z (execution_timeout effective)) ++ "s"))]]]]
  | _ => [] end).

End ResourceLimits_view.

(** ** [components/editor/LoadExample.svelte] *)

Section LoadExample_view.
Context (className : jstr) (children : html editor_event).

Definition LoadExample_view : html editor_event :=
  [El "button" [Attr "type" "button"; Attr "class" className; On "click" LoadExample;
                Attr "title" "Load an example script for the selected language"]
    (children)].

End LoadExample_view.

(** ** [components/editor/EditorToolbar.svelte] *)

Section EditorToolbar_view.
Context (current : Draft).

Definition EditorToolbar_view : html editor_event :=
  [El "div" [Attr "class" "editor-toolbar flex items-center justify-between px-3 py-1 bg-page border-b shrink-0"]
    [El "div" []
      [El "label" [Attr "for" "scriptNameInput"; Attr "class" "sr-only"]
        [Text (fieldTitle "name")];
       El "input" [Attr "id" "scriptNameInput"; Attr "type" "text"; Attr "class" "form-input-bare";
                   Attr "placeholder" "Unnamed Script"; OnInput "value" EditName] []];
     El "div" [Attr "class" "flex items-center gap-x-2"]
      (LoadExample_view "btn btn-secondary-outline btn-sm gap-1.5"
        ([El "Lightbulb" [Attr "class" "size-4"] [];
         El "span" [Attr "class" "hidden sm:inline"]
          [Text "Example"]]))]].

End EditorToolbar_view.

(** ** [components/editor/LanguageSelect.svelte] *)

Section LanguageSelect_view.
Context (offered : list (jstr * LanguageInfo)) (current : Runtime).

Definition available : bool := match offered with [] => false | _ => true end.
(** bits-ui checks the item whose value is the group's. *)
Definition checked (l v : jstr) : bool := v =js (if l =js lang current then lang_version current else []).

Definition version_items (l : jstr) (info : LanguageInfo) : html editor_event :=
  [El "ChevronRight" [Attr "class" "size-4 text-fg-muted"] []].

Definition LanguageSelect_view : html editor_event :=
  [El "DropdownMenu.Root" []
    [El "DropdownMenu.Trigger" [Flag "disabled" (negb available);
                                Attr "aria-label" "Select language and version";
                                Attr "class" "btn btn-secondary-outline btn-sm w-36 justify-between text-left disabled:opacity-50 disabled:cursor-not-allowed group"]
      [El "span" [Attr "class" "capitalize truncate"]
        [Text (if available then ((lang current) ++ " " ++ (lang_version current)) else "Unavailable")];
       El "ChevronDown" [Attr "class" "ml-2 size-5 shrink-0 text-fg-muted transition-transform group-data-[state=open]:-rotate-180"] []];
     El "DropdownMenu.Portal" []
      [El "DropdownMenu.Content" [Attr "side" "top"; Attr "align" "start"; Attr "sideOffset" "8";
                                  Attr "class" "floating-panel w-36";
                                  Attr "aria-label" "Select language and version"]
        (each (λ '(l, info), l) offered (λ '(l, info),
            [El "DropdownMenu.Sub" []
              [El "DropdownMenu.SubTrigger" [Attr "class" "floating-item justify-between capitalize font-medium"]
                ([Text l]
                ++ version_items l info);
               El "DropdownMenu.Portal" []
                [El "DropdownMenu.SubContent" [Attr "sideOffset" "4";
                                               Attr "class" "floating-panel min-w-24 max-h-60 overflow-y-auto";
                                               Attr "aria-label" (l ++ " versions")]
                  [El "DropdownMenu.RadioGroup" [Attr "value" (if l =js lang current then lang_version current else [])]
                    (each (λ v, v) (versions info) (λ v,
                        [El "DropdownMenu.RadioItem" [On "value" (SelectRuntime (mkRuntime l v));
                                                      Attr "class" "floating-item justify-between"]
                          ([El "span" [Flag "class:font-semibold" (checked l v)]
                            [Text v]]
                          ++ when (checked l v) (
                              [El "Check" [Attr "class" "size-4 text-accent"] []]))]))]]]]))]]].

End LanguageSelect_view.

(** ** [components/editor/SavedScripts.svelte] *)

Section SavedScripts_view.
Context (scripts : list SavedScript) (show : bool).

Definition SavedScripts_view : html editor_event :=
  [El "div" [Attr "class" "space-y-3"]
    ([El "h4" [Attr "class" "section-label"]
      [Text "Saved Scripts"];
     El "div" []
      [El "button" [Attr "type" "button"; Attr "class" "btn btn-secondary-outline btn-sm w-full gap-1.5";
                    On "click" ToggleSaved; Flag "aria-expanded" show;
                    Attr "title" (if show then "Hide Saved Scripts" else "Show Saved Scripts")]
        [El "List" [Attr "class" "size-4"] [];
         El "span" []
          [Text (if show then "Hide" else "Show");
           Text " Saved Scripts"]]]]
    ++ when show (
        [El "div" [Attr "class" "mt-2"]
          ((if negb (no_rows scripts) then
              [El "div" [Attr "class" "saved-scripts-container border rounded-lg bg-page shadow-inner"]
                [El "ul" [Attr "class" "divide-y"]
                  (each (λ item, saved_id item) scripts (λ item,
                      [El "li" [Attr "class" "flex items-center justify-between hover:bg-muted text-sm group transition-colors duration-100"]
                        [El "button" [Attr "type" "button";
                                      Attr "class" "flex-grow text-left px-3 py-2 hover:text-accent font-medium min-w-0";
                                      On "click" (OpenScript item);
                                      Attr "title" ("Load " ++ (saved_name item) ++ " (" ++ (lang (saved_runtime item)) ++ " " ++ (lang_version (saved_runtime item)) ++ ")")]
                          [El "div" [Attr "class" "flex flex-col min-w-0"]
                            [El "span" [Attr "class" "truncate"]
                              [Text (saved_name item)];
                             El "span" [Attr "class" "text-xs text-fg-muted font-normal capitalize"]
                              [Text (lang (saved_runtime item));
                               Text " ";
                               Text (lang_version (saved_runtime item))]]];
                         El "button" [Attr "type" "button";
                                      Attr "class" "p-2 text-fg-subtle hover:text-danger shrink-0 opacity-60 group-hover:opacity-100 transition-opacity duration-150 mr-1";
                                      On "click" (DeleteScript item);
                                      Attr "aria-label" ("Delete " ++ (saved_name item));
                                      Attr "title" ("Delete " ++ (saved_name item))]
                          [El "Trash" [Attr "class" "size-4"] []]]]))]]
            else [El "p" [Attr "class" "p-4 text-xs text-fg-muted italic text-center border rounded-lg"]
                [Text "No saved scripts yet."]]))]))].

End SavedScripts_view.

(** ** [components/editor/ScriptActions.svelte] *)

Section ScriptActions_view.
Context (offered : list (jstr * LanguageInfo)).

Definition ScriptActions_view : html editor_event :=
  [El "input" [Attr "type" "file"; Attr "accept" (js_join "," (extensions offered)); Attr "class" "hidden";
               OnFile "change" UploadFile] [];
   El "div" [Attr "class" "space-y-3"]
    [El "h4" [Attr "class" "section-label"]
      [Text "File Actions"];
     El "div" [Attr "class" "grid grid-cols-2 gap-2"]
      [El "button" [Attr "type" "button"; Attr "class" "btn btn-secondary-outline btn-sm gap-1";
                    On "click" StartNew; Attr "title" "Start a new script"]
        [El "FilePlus" [Attr "class" "size-4"] [];
         El "span" []
          [Text "New"]];
       El "button" [Attr "type" "button"; Attr "class" "btn btn-secondary-outline btn-sm gap-1";
                    On "click" ChooseFile; Attr "title" "Upload a file"]
        [El "Upload" [Attr "class" "size-4"] [];
         El "span" []
          [Text "Upload"]];
       El "button" [Attr "type" "button"; Attr "class" "btn btn-primary btn-sm gap-1"; On "click" SaveScript;
                    Attr "title" "Save current script"]
        [El "Save" [Attr "class" "size-4"] [];
         El "span" []
          [Text "Save"]];
       El "button" [Attr "type" "button"; Attr "class" "btn btn-secondary-outline btn-sm gap-1";
                    On "click" DownloadScript; Attr "title" "Download current script"]
        [El "Download" [Attr "class" "size-4"] [];
         El "span" []
          [Text "Export"]]]]].

End ScriptActions_view.

(** ** [routes/(auth)/editor/+page.svelte] *)

Section EditorPage_view.
Context (ansiToJson : jstr → list ansi_part) (offered : list (jstr * LanguageInfo)) (language_limits : list (jstr * ResourceLimit)).
Context (scripts : list SavedScript) (b : bench) (phase : ExecutionPhase) (result : option ExecutionResult) (error : option jstr).
Context (isExecuting showOptions : bool).

Definition page_runtime : Runtime := pickRuntime (runtime (draft b)) offered.
Definition runtimesAvailable : bool := match offered with [] => false | _ => true end.

Definition controls_view : html editor_event :=
  [El "div" [Attr "class" "editor-controls"]
    [El "div" [Attr "class" "flex flex-col gap-y-3"]
      ([El "div" [Attr "class" "flex items-center gap-x-2 flex-wrap gap-y-2"]
        (LanguageSelect_view offered page_runtime
        ++ [El "button" [Attr "type" "button";
                      Attr "class" "btn btn-primary btn-sm flex-grow sm:flex-grow-0 min-w-32.5";
                      On "click" RunScript; Flag "disabled" (isExecuting || (negb runtimesAvailable))]
          [El "CirclePlay" [Attr "class" "size-5"] [];
           El "span" [Attr "class" "ml-1.5"]
            [Text (if isExecuting then "Executing..." else "Run Script")]];
         El "button" [Attr "type" "button";
                      Attr "class" "btn btn-secondary-outline btn-sm btn-icon ml-auto sm:ml-2";
                      On "click" ToggleOptions; Flag "aria-expanded" showOptions;
                      Attr "title" (if showOptions then "Hide Options" else "Show Options")]
          [El "span" [Attr "class" "sr-only"]
            [Text "Toggle Script Options"];
           El "div" [Attr "class" "transition-transform duration-300 ease-out-expo";
                     Flag "class:rotate-90" showOptions]
            [El "Settings" [Attr "class" "size-5"] []]]])]
      ++ when showOptions (
          [El "div" [Attr "class" "p-4 bg-surface border rounded-lg flex gap-x-4"]
            [El "div" [Attr "class" "w-1/2"]
              (ScriptActions_view offered);
             El "div" [Attr "class" "border-l"] [];
             El "div" [Attr "class" "w-1/2"]
              (SavedScripts_view scripts (Workbench.show b))]]))]].

Definition EditorPage_view : html editor_event :=
  [El "svelte:head" []
    [El "title" []
      [Text "Code Editor - Integr8sCode"];
     El "meta" [Attr "name" "description";
                Attr "content" "Online code editor with syntax highlighting, multi-language support, and real-time compilation. Write and test your code instantly in the browser"] []];
   El "div" [Attr "class" "editor-grid-container space-y-4 md:space-y-0 md:gap-6"]
    ([El "div" [Attr "class" "editor-header flex flex-col sm:flex-row sm:items-center sm:justify-between gap-4"]
      ([El "h2" [Attr "class" "sm:text-2xl whitespace-nowrap"]
        [Text "Code Editor"]]
      ++ ResourceLimits_view (obj_get (lang page_runtime) language_limits));
     El "div" [Attr "class" "editor-main-code flex flex-col rounded-lg overflow-hidden shadow-md border"]
      (EditorToolbar_view
      ++ [El "div" [Attr "class" "editor-wrapper h-full w-full relative"]
        ([El "CodeMirrorEditor" [OnInput "content" EditScript; Attr "lang" (lang page_runtime)] []]
        ++ when (bool_decide (js_trim (script (draft b)) = [])) (
            [El "div" [Attr "class" "absolute inset-0 flex flex-col items-center justify-center p-4 text-center pointer-events-none"]
              ([El "h3" [Attr "class" "text-lg font-semibold"]
                [Text "Editor is Empty"];
               El "p" [Attr "class" "text-sm text-fg-muted mt-1 mb-4"]
                [Text "Start typing, upload a file, or use an example to begin."]]
              ++ LoadExample_view "btn btn-primary gap-2 pointer-events-auto"
                ([El "Lightbulb" [Attr "class" "size-4"] [];
                 El "span" []
                  [Text "Start with an Example"]]))]))]);
     El "div" [Attr "class" "editor-main-output"]
      (OutputPanel_view ansiToJson phase result error)]
    ++ controls_view)].

End EditorPage_view.
