(* ===== verification/EditorPage.v ===== *)
(** * The editor page: what it lets the user do

    [EditorView] shows the page, [Workbench] changes its scripts and [Execution] runs
    them; this file puts the three together.  The user acts through the controls that the
    page shows enabled, and what a handler asks of the execution is done at once. *)

From S2P Require Import Prelude JsString JsValue Zod ApiEnums ApiSchemas Validation Formatters EventFilters.
From S2P Require Import Execution ExecutionSpec Editor Workbench Output Html CommonView CommonSpec EditorView.

(** The answers to the page's queries, none yet when they are empty. *)
Record queries := mkQueries {
  offered : list (jstr * LanguageInfo);
  language_limits : list (jstr * ResourceLimit);
  examples : list (jstr * jstr);
  stored : list SavedScript;
}.

(** ** What the output panel shows *)

Section shown.
Context (ansiToJson : jstr → list ansi_part).

(** The texts of what [Output] calls blocks and panels; a text of the script is cut at its escape
    sequences. *)
Definition block_words (b : block) : list jstr :=
  match b with
  | Badge _ title text => [title; text]
  | CopyId _ => []
  | OutputText title text | ErrorText title text => title :: map part_content (ansiToJson text)
  | UsageFields fields => fieldTitle "resource_usage" :: flat_map (λ f, [f.1; f.2]) fields
  end.

Definition panel_words (p : panel) : list jstr :=
  match p with
  | Working label => [label]
  | Failed message => ["Execution Failed"%js; message]
  | Shown blocks => flat_map block_words blocks
  | Hint => ["Write some code and click " ++ [34%N] ++ "Run Script" ++ [34%N] ++ " to see the output."]%js
  end.

Lemma flat_map_imap {A B} (h : nat * A → list B) (g : A → B) f (l : list A) :
  (∀ i x, (f i x).2 = x) → (∀ q, h q = [g q.2]) → flat_map h (imap f l) = map g l.
Proof.
  revert f. induction l as [|x l IH]; intros f Hf Hh; [done|]. rewrite imap_cons. cbn [flat_map map].
  rewrite Hh, Hf. cbn. f_equal. apply IH; [|done]. intros i y. apply Hf.
Qed.

Lemma visible_ansi text : flat_map visible (ansi ansiToJson text) = map part_content (ansiToJson text).
Proof.
  unfold ansi. rewrite flat_map_each by done. by apply flat_map_imap; [|intros []].
Qed.
Hint Rewrite visible_ansi : words.

Lemma visible_result r : flat_map visible (result_view ansiToJson r) = flat_map block_words (result_blocks r).
Proof.
  unfold result_view, result_blocks, text_block, copyButton, usageField.
  destruct (execution_id r), (stdout r) as [[|]|], (stderr r) as [[|]|], (resource_usage r);
    cbn [flat_map block_words app]; words; done.
Qed.

(** The markup of the panel reads as the panel of [Output]. *)
Lemma visible_panel phase result error :
  flat_map visible (OutputPanel_view ansiToJson phase result error)
  = "Execution Output"%js :: panel_words (OutputPanel phase result error).
Proof.
  unfold OutputPanel_view, OutputPanel.
  destruct (bool_decide (phase = idle)); cbn [negb]; [|words; done].
  destruct error as [[|c t]|], result as [r|]; words; rewrite ?visible_result; words; done.
Qed.
End shown.

(** ** What each component offers *)

Section output.
Context (ansiToJson : jstr → list ansi_part) (pg : list (option jstr)).

Lemma does_ansi o text e : does pg o (ansi ansiToJson text) e ↔ False.
Proof. unfold ansi. split; [|done]. intros H. offers_inv H. Qed.
Hint Rewrite does_ansi : offers.
#[local] Opaque ansi.

Lemma does_copyButton o text label al tip tone e :
  does pg o (copyButton text label al tip tone) e ↔ e = CopyText text label.
Proof. unfold copyButton. split; [intros H; offers_inv H; done|intros ->; offers_find]. Qed.
Hint Rewrite does_copyButton : offers.
#[local] Opaque copyButton.

Lemma does_usageField o key value e : does pg o (usageField key value) e ↔ False.
Proof. unfold usageField. split; [|done]. intros H. offers_inv H. Qed.
Hint Rewrite does_usageField : offers.
#[local] Opaque usageField.

(** The texts that the output panel lets the user copy, with what the message calls them. *)
Definition result_copies (r : ExecutionResult) : list (jstr * jstr) :=
  match execution_id r with _ :: _ => [(execution_id r, "Execution ID"%js)] | [] => [] end
  ++ match stdout r with Some ((_ :: _) as t) => [(t, "Output"%js)] | _ => [] end
  ++ match stderr r with Some ((_ :: _) as t) => [(t, "Error text"%js)] | _ => [] end.

Definition copies (phase : ExecutionPhase) (result : option ExecutionResult) : list (jstr * jstr) :=
  match phase, result with idle, Some r => result_copies r | _, _ => [] end.

Lemma does_result_view o r e :
  does pg o (result_view ansiToJson r) e ↔ ∃ t l, e = CopyText t l ∧ (t, l) ∈ result_copies r.
Proof.
  unfold result_view, result_copies. split.
  - intros H. offers_inv H; subst; eexists _, _; (split; [reflexivity|set_solver]).
  - intros (t & l & -> & H). rewrite !elem_of_app in H. destruct H as [H|[H|H]].
    + destruct (execution_id r); [by apply not_elem_of_nil in H|]. apply list_elem_of_singleton in H as [= -> ->]. offers_find.
    + destruct (stdout r) as [[|]|]; try by apply not_elem_of_nil in H. apply list_elem_of_singleton in H as [= -> ->]. offers_find.
    + destruct (stderr r) as [[|]|]; try by apply not_elem_of_nil in H. apply list_elem_of_singleton in H as [= -> ->]. offers_find.
Qed.
Hint Rewrite does_result_view : offers.
#[local] Opaque result_view.

Lemma does_OutputPanel o phase result error e :
  does pg o (OutputPanel_view ansiToJson phase result error) e ↔ ∃ t l, e = CopyText t l ∧ (t, l) ∈ copies phase result.
Proof.
  unfold OutputPanel_view, copies. destruct (bool_decide (phase = idle)) eqn:E; cbn [negb].
  - apply bool_decide_eq_true in E as ->. split.
    + intros H. offers_inv H; simplify_eq; destruct H as (t & l & -> & H); eauto.
    + intros (t & l & -> & H). destruct result as [r|]; [|by apply not_elem_of_nil in H].
      apply does_el. left. split; [done|]. right. right. apply does_el. right. apply does_el. left. split; [done|]. right. right.
      destruct error as [[|]|]; apply does_result_view; eauto.
  - split; [intros H; offers_inv H|]. intros (t & l & -> & H). destruct phase; [done|by apply not_elem_of_nil in H..].
Qed.

End output.

Section components.
Context (pg : list (option jstr)).

Lemma does_SavedScripts o scripts shown e :
  does pg o (SavedScripts_view scripts shown) e ↔
  e = ToggleSaved ∨ (shown = true ∧ ∃ saved, saved ∈ scripts ∧ (e = OpenScript saved ∨ e = DeleteScript saved)).
Proof.
  unfold SavedScripts_view. split.
  - intros H. offers_inv H. all: try (by left). all: right; split; [done|]. all: naive_solver.
  - intros [->|(-> & saved & Hin & He)]; [offers_find|].
    assert (negb (no_rows scripts) = true) as -> by (by destruct scripts; [apply not_elem_of_nil in Hin|]).
    destruct He as [-> | ->]; offers_find.
Qed.

Lemma does_ScriptActions o offered e :
  does pg o (ScriptActions_view offered) e ↔
  match e with StartNew | ChooseFile | UploadFile _ | SaveScript | DownloadScript => True | _ => False end.
Proof.
  unfold ScriptActions_view. split.
  - intros H. offers_inv H. all: try by subst. destruct H as [f ->]. done.
  - destruct e; try done; intros _; offers_find.
Qed.

Lemma does_LanguageSelect offered current e :
  does pg true (LanguageSelect_view offered current) e ↔
  ∃ l info v, (l, info) ∈ offered ∧ v ∈ versions info ∧ e = SelectRuntime (mkRuntime l v).
Proof.
  unfold LanguageSelect_view, version_items. split.
  - intros H. offers_inv H; try (destruct x as [l info]; offers_inv H); naive_solver.
  - intros (l & info & v & Hl & Hv & ->).
    apply does_el. left. split; [done|]. right. right.
    apply does_el. right. apply does_el. left. split; [done|]. right. right.
    apply does_el. left. split; [done|]. right. right.
    apply does_each. exists (l, info). split; [done|]. offers_find.
Qed.

Lemma does_LoadExample o cls ch e :
  (∀ o, ¬ does pg o ch e) → does pg o (LoadExample_view cls ch) e ↔ e = LoadExample.
Proof.
  intros Hch. unfold LoadExample_view. split; [|intros ->; offers_find].
  intros H. repeat ((by destruct (Hch _ H)) || offers_step H). done.
Qed.

Lemma does_ResourceLimits o effective e : does pg o (ResourceLimits_view effective) e ↔ False.
Proof. unfold ResourceLimits_view, limit. split; [|done]. intros H. offers_inv H. Qed.
Hint Rewrite does_ResourceLimits does_SavedScripts does_ScriptActions does_LanguageSelect : offers.
#[local] Opaque ResourceLimits_view SavedScripts_view ScriptActions_view LanguageSelect_view.

Lemma does_EditorToolbar o e :
  does pg o EditorToolbar_view e ↔ e = LoadExample ∨ ∃ t, e = EditName t.
Proof.
  unfold EditorToolbar_view. split.
  - intros H. offers_inv H; eauto. apply does_LoadExample in H; [by left|]. intros o' Hc. offers_inv Hc.
  - intros [->|[t ->]]; [|offers_find].
    apply does_el. left. split; [done|]. right. right. apply does_el. right. apply does_el. left. split; [done|]. right. right.
    apply does_LoadExample; [|done]. intros o' Hc. offers_inv Hc.
Qed.
Hint Rewrite does_EditorToolbar : offers.
#[local] Opaque EditorToolbar_view LoadExample_view.

Lemma does_controls q b executing shown e :
  does pg true (controls_view (offered q) (stored q) b executing shown) e ↔
  match e with
  | RunScript => executing = false ∧ offered q ≠ []
  | ToggleOptions => True
  | SelectRuntime r => ∃ info, (lang r, info) ∈ offered q ∧ lang_version r ∈ versions info
  | StartNew | ChooseFile | UploadFile _ | SaveScript | DownloadScript | ToggleSaved => shown = true
  | OpenScript saved | DeleteScript saved => shown = true ∧ Workbench.show b = true ∧ saved ∈ stored q
  | _ => False
  end.
Proof.
  unfold controls_view. split.
  - intros H. offers_inv H; subst; try done.
    + destruct H as (l & info & v & Hl & Hv & ->). by exists info.
    + unfold id, runtimesAvailable in *. apply orb_false_iff in Hif as [-> Hr]. by destruct (offered q).
    + by destruct e.
    + destruct H as [->|(Hs & saved & Hin & [-> | ->])]; done.
  - destruct e as [| |t|t|r| | | |f| | | |saved|saved|t l]; try done.
    + intros [-> Hq]. assert (runtimesAvailable (offered q) = true) as -> by (unfold runtimesAvailable; by destruct (offered q)).
      offers_find.
    + intros _. offers_find.
    + intros (info & Hl & Hv). assert (does pg true (LanguageSelect_view (offered q) (page_runtime (offered q) b)) (SelectRuntime r)).
      { apply does_LanguageSelect. exists (lang r), info, (lang_version r). by destruct r. }
      offers_find.
    + intros ->. offers_find.
    + intros ->. offers_find.
    + intros ->. offers_find.
    + intros ->. offers_find.
    + intros ->. offers_find.
    + intros ->. offers_find.
    + intros (-> & Hs & Hin). assert (does pg true (SavedScripts_view (stored q) (Workbench.show b)) (OpenScript saved)).
      { apply does_SavedScripts. right. split; [done|]. exists saved. auto. }
      offers_find.
    + intros (-> & Hs & Hin). assert (does pg true (SavedScripts_view (stored q) (Workbench.show b)) (DeleteScript saved)).
      { apply does_SavedScripts. right. split; [done|]. exists saved. auto. }
      offers_find.
Qed.
Hint Rewrite does_controls : offers.
#[local] Opaque controls_view.
End components.
#[export] Hint Rewrite does_controls does_EditorToolbar does_ResourceLimits : offers.

(** ** The page *)

Section page.
Context {zod : Zod} (script_issues : jstr → list issue) (ansiToJson : jstr → list ansi_part).
Context {Mut : Type} `{!Mutation Mut, !MutationLaws Mut}.

Record editor_page := mkPage {
  data : queries;
  bench_ : bench;
  exec_ : system Mut ExecutionResult;
  showOptions : bool;
}.

Definition view (p : editor_page) : html editor_event :=
  EditorPage_view ansiToJson (offered (data p)) (language_limits (data p)) (stored (data p)) (bench_ p)
    (phase (exec (exec_ p))) (result (exec (exec_ p))) (error (exec (exec_ p))) (isExecuting (exec (exec_ p))) (showOptions p).

(** Closing the options takes the components in them away: the list of scripts is hidden again, and
    the callbacks that [update.mutate] was given are not run any more. *)
Definition close_options (b : bench) : bench := mkBench (draft b) (pending b) None (next_call b) false.

Definition handler (confirmed : bool) (q : queries) (e : editor_event) (b : bench) : bench * list effect :=
  match e with
  | RunScript => run_script (offered q) b
  | ToggleOptions => (close_options b, [])
  | EditName t => edit t (script (draft b)) b
  | EditScript t => edit (name (draft b)) t b
  | SelectRuntime r => select r b
  | LoadExample => load_example (examples q) b
  | StartNew => startNew b
  | ChooseFile => (b, [])
  | UploadFile file => upload script_issues (offered q) file b
  | SaveScript => save (offered q) b
  | DownloadScript => download (offered q) b
  | ToggleSaved => toggle b
  | OpenScript saved => open_ saved b
  | DeleteScript saved => confirmDelete confirmed saved b
  | CopyText _ _ => (b, [])
  end.

(** What a handler asks of the execution. *)
Definition perform (w : system Mut ExecutionResult) (f : effect) : system Mut ExecutionResult :=
  match f with
  | ResetExecution => default w (step w LReset)
  | Execute _ _ => default w (step w LExecute)
  | _ => w
  end.

Definition act (confirmed : bool) (e : editor_event) (p : editor_page) : editor_page :=
  let r := handler confirmed (data p) e (bench_ p) in
  mkPage (data p) r.1 (foldl perform (exec_ p) r.2)
    (match e with ToggleOptions => negb (showOptions p) | _ => showOptions p end).

(** Answers of the scripts' API; [None] when the call is not pending. *)
Inductive answer := Created (i : nat) (id : jstr) | Updated (i : nat) | Deleted (i : nat) | Failed_ (i : nat) (status : Z).

Definition answered (a : answer) (b : bench) : option (bench * list effect) :=
  match a with
  | Created i id => c ← pending b !! i; match c with CreateCall _ => Some (created id (settled i b)) | _ => None end
  | Updated i => c ← pending b !! i; match c with UpdateCall _ _ => Some (updated (settled i b)) | _ => None end
  | Deleted i => c ← pending b !! i; match c with DeleteCall id => Some (deleted id (settled i b)) | _ => None end
  | Failed_ i status =>
      c ← pending b !! i;
      match c with
      | UpdateCall _ body => Some (update_failed i status body (settled i b))
      | _ => Some (settled i b, [])
      end
  end.

(** What the server does in a run. *)
Definition of_server (l : label ExecutionResult) : Prop :=
  match l with LExecute | LReset | LAbort => False | _ => True end.

(** The user acts through a control that is offered; the rest goes on by itself. *)
Inductive page_label :=
| User (confirmed : bool) (e : editor_event)
| Run (l : label ExecutionResult)
| Answer (a : answer)
| Query (q : queries).

Inductive page_step : editor_page → page_label → editor_page → Prop :=
| user_acts p confirmed e : offers (view p) e → page_step p (User confirmed e) (act confirmed e p)
| run_goes_on p l w : of_server l → step (exec_ p) l = Some w →
    page_step p (Run l) (mkPage (data p) (bench_ p) w (showOptions p))
| call_answered p a r : answered a (bench_ p) = Some r →
    page_step p (Answer a) (mkPage (data p) r.1 (foldl perform (exec_ p) r.2) (showOptions p))
| query_answered p q : page_step p (Query q) (mkPage q (bench_ p) (exec_ p) (showOptions p)).

(** The page as it is opened on a stored draft. *)
Definition opened_page (d : Draft) : editor_page :=
  mkPage (mkQueries [] [] [] []) (mkBench d ∅ None 0 false) initial_system false.

(** What the page lets the user do. *)
Definition permitted (p : editor_page) (e : editor_event) : Prop :=
  match e with
  | RunScript => isExecuting (exec (exec_ p)) = false ∧ offered (data p) ≠ []
  | ToggleOptions | LoadExample | EditName _ | EditScript _ => True
  | SelectRuntime r => ∃ info, (lang r, info) ∈ offered (data p) ∧ lang_version r ∈ versions info
  | StartNew | ChooseFile | UploadFile _ | SaveScript | DownloadScript | ToggleSaved => showOptions p = true
  | OpenScript saved | DeleteScript saved => showOptions p = true ∧ Workbench.show (bench_ p) = true ∧ saved ∈ stored (data p)
  | CopyText t l => (t, l) ∈ copies (phase (exec (exec_ p))) (result (exec (exec_ p)))
  end.

End page.

Section offers.
Context {zod : Zod} (script_issues : jstr → list issue) (ansiToJson : jstr → list ansi_part).
Context {Mut : Type} `{!Mutation Mut, !MutationLaws Mut}.
Local Abbreviation page := (editor_page (Mut := Mut)).

(** The page offers what is permitted, no more and no less. *)
Lemma offers_view (p : page) e : offers (view ansiToJson p) e ↔ permitted p e.
Proof.
  unfold offers. set (pg := flat_map submits _). clearbody pg. unfold view, EditorPage_view, permitted.
  set (x := exec (exec_ p)).
  set (panel := OutputPanel_view ansiToJson (phase x) (result x) (error x)).
  assert (∀ o e, does pg o panel e ↔ ∃ t l, e = CopyText t l ∧ (t, l) ∈ copies (phase x) (result x)) as Hpanel
    by (intros; apply does_OutputPanel). clearbody panel.
  split.
  - intros H. offers_inv H.
    + destruct H as [->|[t ->]]; exact I.
    + destruct H as [t ->]. exact I.
    + apply does_LoadExample in H as ->; [exact I|]. intros o Hc. offers_inv Hc.
    + apply Hpanel in H as (t & l & -> & H). exact H.
    + destruct e; first [exact H|exact I|destruct H].
  - intros H.
    assert (∀ ps, does pg true (controls_view (offered (data p)) (stored (data p)) (bench_ p) (isExecuting x) (showOptions p)) e →
      does pg true (ps ++ controls_view (offered (data p)) (stored (data p)) (bench_ p) (isExecuting x) (showOptions p)) e) as Hc.
    { intros ps Hd. apply does_app. by right. }
    destruct e as [| |t|t|r| | | |f| | | |saved|saved|t l].
    all: try (apply does_el; right; apply does_el; left; split; [reflexivity|]; right; right; apply Hc, does_controls; exact H).
    + assert (does pg true EditorToolbar_view (EditName t)) by (apply does_EditorToolbar; eauto). offers_find.
    + offers_find.
    + assert (does pg true EditorToolbar_view LoadExample) by (apply does_EditorToolbar; eauto). offers_find.
    + assert (does pg true panel (CopyText t l)) by (apply Hpanel; eauto). offers_find.
Qed.

(** ** Runs of the page *)

(** The events that replace the script and clear the execution. *)
Definition replaces (e : editor_event) : bool :=
  match e with LoadExample | StartNew | UploadFile _ | OpenScript _ => true | _ => false end.

(** The user does not replace the script while a call is live. *)
Definition careful (p : page) (l : page_label) : Prop :=
  match l with User _ e => replaces e = true → activities (exec_ p) = ∅ | _ => True end.

(** What the handlers ask of the execution. *)
Definition to_execution (f : effect) : option (label ExecutionResult) :=
  match f with ResetExecution => Some LReset | Execute _ _ => Some LExecute | _ => None end.

(** Did the last call raise, with no other and no reset since? *)
Definition page_stuck (stuck : bool) (p : page) (l : page_label) : bool :=
  match l with
  | User c e => foldl stuck_next stuck (omap to_execution (handler script_issues c (data p) e (bench_ p)).2)
  | Run r => stuck_next stuck r
  | _ => stuck
  end.

Inductive careful_run (d : Draft) : bool → page → Prop :=
| run_opened : careful_run d false (opened_page d)
| run_step b p l p' :
    careful_run d b p → careful p l → page_step script_issues ansiToJson p l p' → careful_run d (page_stuck b p l) p'.

Lemma perform_run (w : system Mut ExecutionResult) es : run w (omap to_execution es) = Some (foldl perform w es).
Proof. revert w. induction es as [|f es IH]; intros w; [done|]. destruct f; cbn; apply IH. Qed.

Lemma handler_calls confirmed q e b :
  let calls := omap to_execution (handler script_issues confirmed q e b).2 in
  calls = [] ∨ (replaces e = true ∧ calls = [LReset]) ∨ (e = RunScript ∧ calls = [LExecute]).
Proof.
  destruct e; cbn [handler replaces]; unfold run_script, load_example, upload, save, toggle, confirmDelete, create_mutate, update_mutate;
    cbn -[pickRuntime parse_script]; repeat case_match; cbn; auto.
Qed.

Lemma answered_calls a b r : answered a b = Some r → omap to_execution r.2 = [].
Proof.
  destruct a; cbn [answered]; (destruct (pending b !! i) as [c|]; [|done]); cbn [mbind option_bind]; destruct c; try done;
    intros [= <-]; try done. unfold update_failed. by destruct (_ && _).
Qed.

Lemma careful_reachable d b p : careful_run d b p → reachable b (exec_ p).
Proof.
  induction 1 as [|b p l p' _ IH Hc Hs]; [apply reach_initial|].
  destruct Hs as [p c e Ho|p l w Hl Hs|p a r Ha|p q]; cbn [act exec_ page_stuck].
  - eapply reachable_run; [exact IH| |apply perform_run].
    destruct (handler_calls c (data p) e (bench_ p)) as [->|[[Hr ->]|[-> ->]]]; [done|..]; (split; [|by intros ? [= <-]]).
    + by apply Hc.
    + apply (proj1 (offers_view p RunScript)) in Ho. by destruct Ho.
  - eapply reach_step; [exact IH| |exact Hs]. destruct l; cbn in *; done.
  - change b with (foldl (stuck_next (R := ExecutionResult)) b []). rewrite <- (answered_calls _ _ _ Ha).
    eapply reachable_run; [exact IH| |apply perform_run]. by rewrite (answered_calls _ _ _ Ha).
  - exact IH.
Qed.

(** The output is one piece of what the page shows. *)
Lemma view_reads (p : page) : ∃ above below,
  flat_map visible (view ansiToJson p)
  = above ++ ("Execution Output"%js :: panel_words ansiToJson (editor_panel (exec (exec_ p)))) ++ below.
Proof.
  unfold view, EditorPage_view, editor_panel. words. rewrite visible_panel. cbn [app].
  match goal with |- ∃ _ _, ?x :: ?y :: ?A ++ (?B ++ ?C) ++ ?w :: ?W ++ ?D = _ => exists (x :: y :: A ++ B ++ C), D end.
  cbn [app]. by rewrite <- !app_assoc.
Qed.

(** C8. The editor page, its markup, its handlers and the execution together.  The user acts with the
    controls that are enabled, and neither starts a new script, opens or uploads one, nor loads an
    example while a call is live; the server answers in whatever order, and streams may raise ([b]: the
    last call ended so).  Then there never are two live calls, and the run button is enabled exactly
    when no call is live, the last one did not raise, and there is a runtime to run. *)
Theorem page_runs_one_at_a_time d b p :
  careful_run d b p →
  (offers (view ansiToJson p) RunScript ↔ activities (exec_ p) = ∅ ∧ b = false ∧ offered (data p) ≠ [])
  ∧ ∀ i j, is_Some (activities (exec_ p) !! i) → is_Some (activities (exec_ p) !! j) → i = j.
Proof.
  intros Hp%careful_reachable. split; [|by intros i j; apply (reachable_one_call b)].
  rewrite offers_view. cbn [permitted]. pose proof (reachable_executing _ _ Hp) as He.
  split.
  - intros [Hx Hq]. rewrite Hx in He. split_and!; [|destruct b; [discriminate (proj2 He (or_intror eq_refl))|done]|done].
    destruct (decide (activities (exec_ p) = ∅)) as [Ha|Ha]; [done|]. discriminate (proj2 He (or_introl Ha)).
  - intros (Ha & -> & Hq). split; [|done]. apply not_true_iff_false. by intros [?|?]%He.
Qed.

(** C9. The page offers exactly what is permitted: every control of its markup that is enabled asks for
    something permitted, and everything permitted has such a control; and the markup of its output
    reads, in its place, as the panel that [Output] shows of the execution. *)
Theorem editor_page_offers (p : page) e :
  (offers (view ansiToJson p) e ↔ permitted p e)
  ∧ ∃ above below, flat_map visible (view ansiToJson p)
    = above ++ ("Execution Output"%js :: panel_words ansiToJson (editor_panel (exec (exec_ p)))) ++ below.
Proof. split; [apply offers_view|apply view_reads]. Qed.
End offers.

(** ** Replacing the script while it runs *)

Definition lit_queries : queries :=
  mkQueries example_offered [] [("python"%js, "print(2)"%js)] [].

Definition page_zod : Zod := reference_zod (λ _, true) (λ _, true).

Definition drafted : Draft := mkDraft None "one" "print(1)" (mkRuntime "python" "3.14").

(** A text with no escape sequences is one part. *)
Definition plain_ansi (t : jstr) : list ansi_part := [mkPart t None None []].

Section example.
Local Abbreviation ansiToJson := plain_ansi.
Local Abbreviation page := (editor_page (Mut := observer)).
Local Abbreviation next := (@page_step page_zod (λ _, []) ansiToJson observer _).
Local Abbreviation user e p := (@act page_zod (λ _, []) observer _ false e p).

Definition loaded_page : page := mkPage lit_queries (bench_ (opened_page drafted : page)) initial_system false.
Definition started_page : page := user RunScript loaded_page.

(** Executions that go on; the calls' answers arrive. *)
Definition with_exec (ls : list (label ExecutionResult)) (p : page) : page :=
  mkPage (data p) (bench_ p) (default (exec_ p) (run (exec_ p) ls)) (showOptions p).

Inductive page_runs : page → page → Prop :=
| runs_refl p : page_runs p p
| runs_step p l p' p'' : page_runs p p' → next p' l p'' → page_runs p p''.

Lemma user_runs p p' e : page_runs p p' → permitted p' e → page_runs p (user e p').
Proof. intros H He. eapply runs_step; [exact H|]. apply user_acts. by apply offers_view. Qed.

Lemma server_runs p p' l w : page_runs p p' → of_server l → step (exec_ p') l = Some w →
  page_runs p (mkPage (data p') (bench_ p') w (showOptions p')).
Proof. intros H Hl Hs. eapply runs_step; [exact H|]. eapply run_goes_on; [exact Hl|exact Hs]. Qed.

(** The page lets the script be replaced while an execution is being created, and the new script be
    run at once: two streams are read, and only the later one can be stopped. *)
Theorem page_lets_runs_overlap :
  let p1 := user LoadExample started_page in
  let p2 := with_exec [LStarted 0 ExecutionStatus_RUNNING; LStarted 1 ExecutionStatus_RUNNING] (user RunScript p1) in
  isExecuting (exec (exec_ started_page)) = true
  ∧ offers (view ansiToJson started_page) LoadExample ∧ offers (view ansiToJson p1) RunScript
  ∧ page_runs loaded_page p2
  ∧ activities (exec_ p2) = {[0 := Following; 1 := Following]} ∧ aborted (abort (exec (exec_ p2))) = {[1]}.
Proof.
  cbn zeta. split; [vm_compute; reflexivity|]. split; [by apply offers_view|].
  split; [apply offers_view; split; [vm_compute; reflexivity|done]|]. split; [|split; vm_compute; reflexivity].
  set (q := user RunScript (user LoadExample started_page)).
  assert (page_runs loaded_page q) as Hq.
  { apply user_runs; [|split; [vm_compute; reflexivity|done]]. apply user_runs; [|done].
    apply user_runs; [apply runs_refl|split; [vm_compute; reflexivity|done]]. }
  assert (page_runs loaded_page (with_exec [LStarted 0 ExecutionStatus_RUNNING] q)) as Hq'.
  { apply (server_runs _ q (LStarted 0 ExecutionStatus_RUNNING)); [exact Hq|exact I|vm_compute; reflexivity]. }
  apply (server_runs _ (with_exec [LStarted 0 ExecutionStatus_RUNNING] q) (LStarted 1 ExecutionStatus_RUNNING));
    [exact Hq'|exact I|vm_compute; reflexivity].
Qed.

Lemma page_runs_one_at_a_time_witness :
  (offers (view ansiToJson started_page) RunScript
   ↔ activities (exec_ started_page) = ∅ ∧ false = false ∧ offered (data started_page) ≠ [])
  ∧ ∀ i j, is_Some (activities (exec_ started_page) !! i) → is_Some (activities (exec_ started_page) !! j) → i = j.
Proof.
  apply (@page_runs_one_at_a_time page_zod (λ _, []) ansiToJson observer _ _ drafted false started_page).
  apply (run_step _ _ _ false loaded_page (User false RunScript));
    [apply (run_step _ _ _ false (opened_page drafted) (Query lit_queries)); [apply run_opened|exact I|apply query_answered]|done|].
  apply user_acts. apply offers_view. split; [vm_compute; reflexivity|done].
Defined.
End example.
