(* ===== verification/UsersView.v ===== *)
(** * The users' administration: markup

    [routes/admin/users/+page.svelte] with the components of [components/admin/users]. *)

From S2P Require Import Prelude JsString JsValue ApiEnums Formatters EventFilters Pager Html CommonView.

Record user := mkUser {
  user_id : jstr;
  user_name : jstr;
  user_email : jstr;
  user_role : UserRole;
  user_created_at : jstr;
  user_is_active : bool;
}.

Definition is_admin_role (r : UserRole) : bool := match r with UserRole_ADMIN => true | _ => false end.

(** [dialog] of the page. *)
Inductive user_dialog := Closed | Creating | Editing (u : user) | Deleting (u : user) | Limiting (u : user).

Inductive users_event :=
| OpenDialog (d : user_dialog) | CloseDialog
| Refetch
| SetFilters (f : UserListFilters) | ToggleAdvanced
| Paging (l : label UserListFilters)
| EnterUser (field t : jstr) | TickUser (b : bool) | SubmitUser
| TickCascade (b : bool) | ConfirmDelete (user_id : jstr) (cascade : bool)
| TickLimit (field : jstr) (b : bool) | EnterLimit (field t : jstr)
| AddRule | RemoveRule (index : nat) | EnterRule (index : nat) (field t : jstr) | TickRule (index : nat) (b : bool)
| ResetLimits (user_id : jstr) | SubmitLimits.

Definition nullable_text (b : option bool) : jstr :=
  match b with Some true => "true" | Some false => "false" | None => [] end.

(** Writes to one filter. *)
Definition with_search (t : jstr) (f : UserListFilters) : UserListFilters :=
  mkUserFilters (Some t) (u_role f) (u_is_active f) (u_bypass_rate_limit f) (u_has_custom_limits f) (u_custom_multiplier f).
Definition with_role (r : option jstr) (f : UserListFilters) : UserListFilters :=
  mkUserFilters (u_search f) r (u_is_active f) (u_bypass_rate_limit f) (u_has_custom_limits f) (u_custom_multiplier f).
Definition with_is_active (b : option bool) (f : UserListFilters) : UserListFilters :=
  mkUserFilters (u_search f) (u_role f) b (u_bypass_rate_limit f) (u_has_custom_limits f) (u_custom_multiplier f).
Definition with_bypass (b : option bool) (f : UserListFilters) : UserListFilters :=
  mkUserFilters (u_search f) (u_role f) (u_is_active f) b (u_has_custom_limits f) (u_custom_multiplier f).
Definition with_custom_limits (b : option bool) (f : UserListFilters) : UserListFilters :=
  mkUserFilters (u_search f) (u_role f) (u_is_active f) (u_bypass_rate_limit f) b (u_custom_multiplier f).
Definition with_multiplier (b : option bool) (f : UserListFilters) : UserListFilters :=
  mkUserFilters (u_search f) (u_role f) (u_is_active f) (u_bypass_rate_limit f) (u_has_custom_limits f) b.

Record rate_rule := mkRule {
  rule_pattern : jstr;
  rule_group : EndpointGroup;
  rule_requests : Z;
  rule_window : Z;
  rule_algorithm : RateLimitAlgorithm;
}.

(** A rule of the form, of which the markup reads two numbers. *)
Record form_rule := mkFormRule { form_requests : Z; form_window : Z }.

Record usage := mkUsage { usage_algorithm : RateLimitAlgorithm; usage_remaining : Z }.

(** What the dialog of the limits shows. *)
Record limits_state := mkLimits {
  limits_pending : bool;
  bypass : bool;
  multiplied : bool;
  defaultRules : list rate_rule;
  form_rules : list form_rule;
  current_usage : list (jstr * usage);
}.

(** ** [components/admin/users/UsersTable.svelte] *)

Section UsersTable_view.
Context `{!TablePaging} (formatTimestamp : option jstr → jstr) (users : list user) (p : PaginationState) (rowCount : Z) (loading : bool).

Definition roleCell (u : user) : html users_event :=
  [El "span" [Attr "class" ("badge " ++ (if (is_admin_role (user_role u)) then "badge-info" else "badge-neutral"))]
    [Text (UserRole_value (user_role u))]].

Definition statusCell (u : user) : html users_event :=
  [El "span" [Attr "class" ("badge " ++ (if (user_is_active u) then "badge-success" else "badge-danger"))]
    [Text (formatBoolean (user_is_active u))]].

Definition actionsCell (u : user) : html users_event :=
  [El "div" [Attr "class" "flex flex-wrap gap-2"]
    [El "button" [Attr "type" "button"; On "click" (OpenDialog (Editing u));
                  Attr "class" "p-1 hover:bg-muted rounded text-success hover:text-success";
                  Attr "title" "Edit User"; Attr "aria-label" "Edit User"]
      [El "Pencil" [Attr "class" "size-5"] []];
     El "button" [Attr "type" "button"; On "click" (OpenDialog (Limiting u));
                  Attr "class" "p-1 hover:bg-muted rounded text-info hover:text-info";
                  Attr "title" "Manage Rate Limits"; Attr "aria-label" "Manage Rate Limits"]
      [El "Clock" [Attr "class" "size-5"] []];
     El "button" [Attr "type" "button"; On "click" (OpenDialog (Deleting u));
                  Attr "class" "p-1 hover:bg-muted rounded text-danger hover:text-danger";
                  Attr "title" "Delete User"; Attr "aria-label" "Delete User"]
      [El "Trash" [Attr "class" "size-5"] []]]].

(** The columns that are given to [createServerTable]. *)
Definition users_columns : list (column user users_event) :=
  [mkColumn "username" "font-medium" (λ u, [Text (user_name u)]);
   mkColumn "email" [] (λ u, [Text (user_email u)]);
   mkColumn "role" [] roleCell;
   mkColumn "created_at" [] (λ u, [Text (formatTimestamp (Some (user_created_at u)))]);
   mkColumn "is_active" [] statusCell;
   mkColumn "actions" [] actionsCell].

Definition UsersTable_view : html users_event :=
  DataTable_view users_columns users "Users" loading "No users found matching filters" false true
  ++ when ((0 <? rowCount)%Z) (
      [El "div" [Attr "class" "mt-4 border-t divider pt-4"]
        (Pagination_markup p rowCount "users" [5; 10; 20; 50]%Z (Paging LFirst) (Paging LPrevious) (Paging LNext) (Paging LLast) (λ k, Paging (LSize k)))]).

End UsersTable_view.

(** ** [components/admin/users/UserFilters.svelte] *)

Section UserFilters_view.
Context (f : UserListFilters) (showAdvancedFilters active : bool).

Definition booleanFilter (key : jstr) (current : option bool) (set_filter : option bool → UserListFilters) : html users_event :=
  [El "label" [Attr "for" (key ++ "-filter")]
    [Text (fieldTitle key)];
   El "select" [Attr "id" (key ++ "-filter"); Attr "value" (nullable_text current);
                Attr "class" "form-select-standard w-full"]
    [El "option" [On "value" (SetFilters (set_filter None))]
      [Text "All"];
     El "option" [On "value" (SetFilters (set_filter (Some true)))]
      [Text (formatBoolean true)];
     El "option" [On "value" (SetFilters (set_filter (Some false)))]
      [Text (formatBoolean false)]]].

Definition UserFilters_view : html users_event :=
  [El "div" [Attr "class" "card mb-4"]
    [El "div" [Attr "class" "p-3 sm:p-4"]
      ([El "div" [Attr "class" "flex flex-col lg:flex-row gap-3 lg:gap-4 lg:items-end"]
        [El "div" [Attr "class" "field w-full lg:flex-1 lg:max-w-md"]
          [El "label" [Attr "for" "search-filter"]
            [Text (fieldTitle "search")];
           El "input" [Attr "id" "search-filter"; Attr "type" "text";
                       OnInput "value" (λ t, SetFilters (with_search t f)); Attr "class" "w-full";
                       Attr "autocomplete" "off"; Attr "autocorrect" "off"; Attr "autocapitalize" "off";
                       Attr "spellcheck" "false"] []];
         El "div" [Attr "class" "field w-full sm:w-auto sm:min-w-35"]
          [El "label" [Attr "for" "role-filter"]
            [Text (fieldTitle "role")];
           El "select" [Attr "id" "role-filter"; Attr "value" (default [] (u_role f));
                        Attr "class" "form-select-standard w-full"]
            ([El "option" [On "value" (SetFilters (with_role None f))]
              [Text "All"]]
            ++ each (λ role, UserRole_value role) UserRole_all (λ role,
                [El "option" [On "value" (SetFilters (with_role (Some (UserRole_value role)) f))]
                  [Text (UserRole_value role)]]))];
         El "div" [Attr "class" "field w-full sm:w-auto sm:min-w-35"]
          (booleanFilter "is_active" (u_is_active f) (λ b, with_is_active b f));
         El "button" [Attr "type" "button"; On "click" ToggleAdvanced;
                      Attr "class" "btn btn-secondary-outline gap-2 w-full sm:w-auto"]
          [El "ChevronDown" [Attr "class" ("size-4 transition-transform " ++ (if showAdvancedFilters then "rotate-180" else []))] [];
           Text " Advanced"];
         El "button" [Attr "type" "button"; On "click" (SetFilters no_user_filters);
                      Attr "class" "btn btn-secondary-outline w-full sm:w-auto"; Flag "disabled" (negb active)]
          [Text "Reset"]]]
      ++ when showAdvancedFilters (
          [El "div" [Attr "class" "mt-4 pt-4 border-t"]
            [El "h4" [Attr "class" "text-sm font-medium text-fg-muted mb-3"]
              [Text "Rate Limit Filters"];
             El "div" [Attr "class" "grid grid-cols-1 sm:grid-cols-3 gap-3"]
              [El "div" []
                (booleanFilter "bypass_rate_limit" (u_bypass_rate_limit f) (λ b, with_bypass b f));
               El "div" []
                (booleanFilter "has_custom_limits" (u_has_custom_limits f) (λ b, with_custom_limits b f));
               El "div" []
                (booleanFilter "custom_multiplier" (u_custom_multiplier f) (λ b, with_multiplier b f))]]]))]].

End UserFilters_view.

(** ** [components/admin/users/UserFormModal.svelte] *)

Section UserFormModal_view.
Context (editing saving : bool).

Definition textField (name type autocomplete : jstr) (placeholder : option jstr) : html users_event :=
  [El "Field" [Spread "form"; Attr "name" name]
    [El "div" [Attr "class" "field"]
      ([El "Control" [Attr "id" ("user-form-" ++ name)]
        [El "Label" []
          ([Text (fieldTitle name)]
          ++ when (negb (name =js "password") || negb editing) (
              [El "span" [Attr "class" "text-danger"]
                [Text "*"]]));
         El "input" [Spread "props"; Spread "$constraints[name]"; Attr "type" type;
                     Opt "placeholder" placeholder; Attr "autocomplete" autocomplete;
                     OnInput "value" (EnterUser name); Attr "class" "form-input-standard";
                     Flag "disabled" saving; Attr "autocapitalize" "off"; Attr "spellcheck" "false"] []]]
      ++ when ((name =js "password") && editing) (
          [El "Description" []
            [Text "Leave empty to keep the current password"]])
      ++ [El "FieldErrors" [] []])]].

Definition UserFormModal_view : html users_event :=
  Modal_view true (if editing then "Edit User" else "Create New User") CloseDialog "sm"
    ([El "form" [Attr "method" "post"; On "submit" SubmitUser; Flag "novalidate" true; Attr "autocomplete" "off"]
      [El "div" [Attr "class" "space-y-4"]
        (textField "username" "text" "username" (Some "johndoe")
        ++ textField "email" "email" "email" (Some "john@example.com")
        ++ textField "password" "password" "new-password" None
        ++ [El "Field" [Spread "form"; Attr "name" "role"]
          [El "div" [Attr "class" "field"]
            [El "Control" [Attr "id" "user-form-role"]
              [El "Label" []
                [Text (fieldTitle "role")];
               El "select" [Spread "props"; Spread "value"; Attr "class" "form-select-standard";
                            Flag "disabled" saving]
                (each (λ role, UserRole_value role) UserRole_all (λ role,
                    [El "option" [On "value" (EnterUser "role" (UserRole_value role))]
                      [Text (UserRole_value role)]]))]]];
         El "Field" [Spread "form"; Attr "name" "is_active"]
          [El "Control" []
            [El "div" [Attr "class" "flex items-center gap-2"]
              [El "input" [Spread "props"; Attr "type" "checkbox"; OnCheck "checked" TickUser;
                           Flag "disabled" saving] [];
               El "Label" [Attr "class" "cursor-pointer"]
                [Text (fieldTitle "is_active")]]]]]);
       El "div" [Attr "class" "flex justify-end gap-2 mt-6"]
        [El "button" [Attr "type" "button"; On "click" CloseDialog; Attr "class" "btn btn-secondary-outline";
                      Flag "disabled" saving]
          [Text "Cancel"];
         El "button" [Attr "type" "submit"; Attr "class" "btn btn-primary gap-2"; Flag "disabled" saving]
          ((if saving then
              Spinner_view "small" "primary" []
              ++ [Text "Saving..."]
            else [Text (if editing then "Update User" else "Create User")]))]]]) [].

End UserFormModal_view.

(** ** [components/admin/users/DeleteUserModal.svelte] *)

Section DeleteUserModal_view.
Context (u : user) (cascade pending : bool).

Definition DeleteUserModal_view : html users_event :=
  Modal_view true "Delete User" CloseDialog "sm"
    ([El "p" [Attr "class" "mb-4"]
      [Text "Are you sure you want to delete user ";
       El "strong" []
        [Text (user_name u)];
       Text "?"];
     El "div" [Attr "class" "mb-4"]
      [El "label" [Attr "class" "flex items-center gap-2"]
        [El "input" [Attr "type" "checkbox"; OnCheck "checked" TickCascade;
                     Attr "aria-describedby" "cascade-description"; Attr "class" "rounded"] [];
         El "span" [Attr "class" "text-sm"]
          [Text (fieldTitle "cascade")]];
       El "p" [Attr "id" "cascade-description"; Attr "class" "mt-1 text-xs text-fg-muted"]
        [Text "Also deletes the user's executions, scripts and other data"]]]
    ++ when cascade (
        [El "div" [Attr "class" "mb-4 p-3 alert alert-warning"]
          [El "strong" []
            [Text "Warning:"];
           Text " This will permanently delete all data associated with this user."]])
    ++ [El "div" [Attr "class" "flex gap-3 justify-end"]
      [El "button" [Attr "type" "button"; On "click" CloseDialog; Attr "class" "btn btn-secondary";
                    Flag "disabled" pending]
        [Text "Cancel"];
       El "button" [Attr "type" "button"; On "click" (ConfirmDelete (user_id u) cascade);
                    Attr "class" "btn btn-danger gap-2"; Flag "disabled" pending]
        ((if pending then
            Spinner_view "small" "primary" []
            ++ [Text "Deleting..."]
          else [Text "Delete User"]))]]) [].

End DeleteUserModal_view.

(** ** [components/admin/users/RateLimitsModal.svelte] *)

Section RateLimitsModal_view.
Context (effectiveRequests : Z → jstr) (default_multiplier : jstr) (u : user) (saving : bool) (ls : limits_state).

Definition field_errors : html users_event :=
  [El "FieldErrors" [Attr "class" "mt-1 text-xs"] []].

Definition quick_settings : html users_event :=
  [El "div" [Attr "class" "border rounded-lg p-4 bg-muted"]
    [El "div" [Attr "class" "flex items-center justify-between mb-3"]
      [El "h4" [Attr "class" "font-semibold"]
        [Text "Quick Settings"];
       El "Field" [Spread "form"; Attr "name" "bypass_rate_limit"]
        [El "Control" []
          [El "div" [Attr "class" "flex items-center gap-2"]
            [El "input" [Spread "props"; Attr "type" "checkbox";
                         OnCheck "checked" (TickLimit "bypass_rate_limit"); Attr "class" "rounded"] [];
             El "Label" []
              [Text (fieldTitle "bypass_rate_limit")]]]]];
     El "div" [Attr "class" "grid grid-cols-1 sm:grid-cols-2 gap-4"]
      [El "Field" [Spread "form"; Attr "name" "global_multiplier"]
        [El "Control" []
          [El "div" [Attr "class" "field"]
            ([El "Label" []
              [Text (fieldTitle "global_multiplier")];
             El "input" [Spread "props"; Spread "$constraints.global_multiplier"; Attr "type" "number";
                         Attr "step" "0.1"; OnInput "value" (EnterLimit "global_multiplier");
                         Attr "class" "w-full"; Flag "disabled" (bypass ls)] [];
             El "Description" []
              [Text "Multiplies all limits; ";
               Text default_multiplier;
               Text " keeps them as they are"]]
            ++ field_errors)]];
       El "Field" [Spread "form"; Attr "name" "notes"]
        [El "Control" []
          [El "div" [Attr "class" "field"]
            [El "Label" []
              [Text (fieldTitle "notes")];
             El "textarea" [Spread "props"; OnInput "value" (EnterLimit "notes"); Attr "rows" "2";
                            Attr "class" "w-full"] []]]]]]].

Definition default_rule (rule : rate_rule) : html users_event :=
  [El "dl" [Attr "class" "facts grid-cols-2 lg:grid-cols-5 lg:gap-4 items-center p-3 bg-muted rounded-lg text-sm"]
    [El "div" []
      [El "dt" []
        [Text (fieldTitle "endpoint_pattern")];
       El "dd" [Attr "class" "font-mono"]
        [Text (rule_pattern rule)]];
     El "div" []
      [El "dt" []
        [Text (fieldTitle "requests")];
       El "dd" []
        ((if (multiplied ls) then
            [El "span" [Attr "class" "line-through text-fg-subtle"]
              [Text (string_of_Z (rule_requests rule))];
             El "span" [Attr "class" "font-semibold text-info"]
              [Text (effectiveRequests (rule_requests rule))]]
          else [Text (string_of_Z (rule_requests rule))]))];
     El "div" []
      [El "dt" []
        [Text (fieldTitle "window_seconds")];
       El "dd" []
        [Text (string_of_Z (rule_window rule))]];
     El "div" []
      [El "dt" []
        [Text (fieldTitle "group")];
       El "dd" []
        [El "span" [Attr "class" ("badge rounded-full " ++ (GROUP_COLORS (rule_group rule)))]
          [Text (EndpointGroup_value (rule_group rule))]]];
     El "div" []
      [El "dt" []
        [Text (fieldTitle "algorithm")];
       El "dd" []
        [Text (RateLimitAlgorithm_value (rule_algorithm rule))]]]].

Definition rule_row (index : nat) (rule : form_rule) : html users_event :=
  [El "div" [Attr "class" "p-3 bg-info-soft border border-info/30 rounded-lg"]
    [El "div" [Attr "class" "flex flex-col lg:flex-row items-start lg:items-center gap-3"]
      [El "ElementField" [Spread "form"; Attr "name" ("rules[" ++ (row_id index) ++ "].endpoint_pattern")]
        [El "Control" []
          [El "div" [Attr "class" "w-full lg:flex-1 lg:min-w-50"]
            ([El "input" [Spread "props"; Attr "type" "text";
                         OnInput "value" (EnterRule index "endpoint_pattern");
                         Attr "aria-label" (fieldTitle "endpoint_pattern"); Attr "class" "input-sm w-full";
                         Flag "disabled" (bypass ls)] []]
            ++ field_errors)]];
       El "div" [Attr "class" "flex items-center gap-1 flex-wrap"]
        ([El "ElementField" [Spread "form"; Attr "name" ("rules[" ++ (row_id index) ++ "].requests")]
          ([El "Control" []
            [El "input" [Spread "props"; Spread "$constraints.rules?.requests"; Attr "type" "number";
                         OnInput "value" (EnterRule index "requests"); Attr "aria-label" (fieldTitle "requests");
                         Attr "class" "input-sm w-16"; Flag "disabled" (bypass ls)] []]]
          ++ field_errors);
         El "span" [Attr "class" "text-xs text-fg-muted"]
          [Text "/"];
         El "ElementField" [Spread "form"; Attr "name" ("rules[" ++ (row_id index) ++ "].window_seconds")]
          ([El "Control" []
            [El "input" [Spread "props"; Spread "$constraints.rules?.window_seconds"; Attr "type" "number";
                         OnInput "value" (EnterRule index "window_seconds");
                         Attr "aria-label" (fieldTitle "window_seconds"); Attr "class" "input-sm w-16";
                         Flag "disabled" (bypass ls)] []]]
          ++ field_errors);
         El "span" [Attr "class" "text-xs text-fg-muted"]
          [Text "s"]]
        ++ when (multiplied ls) (
            [El "span" [Attr "class" "text-xs text-info ml-2"]
              [Text "(effective ";
               Text (effectiveRequests (form_requests rule));
               Text "/";
               Text (string_of_Z (form_window rule));
               Text "s)"]]));
       El "ElementField" [Spread "form"; Attr "name" ("rules[" ++ (row_id index) ++ "].group")]
        [El "Control" []
          [El "select" [Spread "props"; Spread "value"; Attr "aria-label" (fieldTitle "group");
                        Attr "class" "input-sm"; Flag "disabled" (bypass ls)]
            (each (λ group, EndpointGroup_value group) EndpointGroup_all (λ group,
                [El "option" [On "value" (EnterRule index "group" (EndpointGroup_value group))]
                  [Text (EndpointGroup_value group)]]))]];
       El "ElementField" [Spread "form"; Attr "name" ("rules[" ++ (row_id index) ++ "].algorithm")]
        [El "Control" []
          [El "select" [Spread "props"; Spread "value"; Attr "aria-label" (fieldTitle "algorithm");
                        Attr "class" "input-sm"; Flag "disabled" (bypass ls)]
            (each (λ algorithm, RateLimitAlgorithm_value algorithm) RateLimitAlgorithm_all (λ algorithm,
                [El "option" [On "value" (EnterRule index "algorithm" (RateLimitAlgorithm_value algorithm))]
                  [Text (RateLimitAlgorithm_value algorithm)]]))]];
       El "ElementField" [Spread "form"; Attr "name" ("rules[" ++ (row_id index) ++ "].enabled")]
        [El "Control" []
          [El "div" [Attr "class" "flex items-center gap-2"]
            [El "input" [Spread "props"; Attr "type" "checkbox"; OnCheck "checked" (TickRule index);
                         Attr "class" "rounded text-info"; Flag "disabled" (bypass ls)] [];
             El "Label" [Attr "class" "cursor-pointer"]
              [Text (fieldTitle "enabled")]]]];
       El "button" [Attr "type" "button"; On "click" (RemoveRule index); Attr "class" "text-danger p-1";
                    Flag "disabled" (bypass ls); Attr "title" "Remove rule"]
        [El "X" [Attr "class" "size-4"] []]]]].

Definition RateLimitsModal_view : html users_event :=
  Modal_view true ("Rate Limits for " ++ (user_name u)) CloseDialog "xl"
    ((if limits_pending ls then
        [El "div" [Attr "class" "flex justify-center py-8"]
          (Spinner_view "medium" "primary" [])]
      else [El "form" [Attr "id" "rate-limits-form"; Attr "method" "post"; On "submit" SubmitLimits;
                    Flag "novalidate" true; Attr "class" "space-y-4"]
          (quick_settings
          ++ [El "div" [Attr "class" "border rounded-lg p-4"]
            ([El "div" [Attr "class" "flex justify-between items-center mb-4"]
              [El "h4" [Attr "class" "font-semibold"]
                [Text "Endpoint Rate Limits"];
               El "button" [Attr "type" "button"; On "click" AddRule;
                            Attr "class" "btn btn-sm btn-primary gap-1"; Flag "disabled" (bypass ls)]
                [El "Plus" [Attr "class" "size-4"] [];
                 Text "Add Rule"]];
             El "div" [Attr "class" "mb-4"]
              [El "h5" [Attr "class" "section-label mb-2"]
                [Text "Default Global Rules"];
               El "div" [Attr "class" "space-y-2"]
                (each (λ rule, rule_pattern rule) (defaultRules ls) (λ rule,
                    default_rule rule))]]
            ++ when (negb (no_rows (form_rules ls))) (
                [El "div" []
                  [El "h5" [Attr "class" "section-label mb-2"]
                    [Text (fieldTitle "rules")];
                   El "div" [Attr "class" "space-y-2"]
                    (each (λ '(index, rule), row_id index) (imap pair (form_rules ls)) (λ '(index, rule),
                        rule_row index rule))]]))]
          ++ when (negb (no_rows (current_usage ls))) (
              [El "div" [Attr "class" "border rounded-lg p-4"]
                [El "div" [Attr "class" "flex justify-between items-center mb-3"]
                  [El "h4" [Attr "class" "font-semibold"]
                    [Text (fieldTitle "current_usage")];
                   El "button" [Attr "type" "button"; On "click" (ResetLimits (user_id u));
                                Attr "class" "btn btn-sm btn-secondary"]
                    [Text "Reset All Counters"]];
                 El "div" [Attr "class" "grid grid-cols-1 sm:grid-cols-2 gap-2"]
                  (each (λ '(endpoint, usageData), endpoint) (current_usage ls) (λ '(endpoint, usageData),
                      [El "div" [Attr "class" "flex justify-between items-center p-2 bg-muted rounded"]
                        [El "span" [Attr "class" "text-sm font-mono text-fg-muted"]
                          [Text endpoint];
                         El "div" [Attr "class" "flex items-center gap-2"]
                          [El "span" [Attr "class" "text-xs text-fg-muted"]
                            [Text (RateLimitAlgorithm_value (usage_algorithm usageData))];
                           El "span" [Attr "class" "text-xs text-fg-muted"]
                            [Text (fieldTitle "remaining")];
                           El "span" [Attr "class" "text-sm font-semibold"]
                            [Text (string_of_Z (usage_remaining usageData))]]]]))]]));
         El "div" [Attr "class" "flex gap-3 justify-end mt-6"]
          [El "button" [Attr "type" "button"; On "click" CloseDialog; Attr "class" "btn btn-secondary";
                        Flag "disabled" saving]
            [Text "Cancel"];
           El "button" [Attr "type" "submit"; Attr "form" "rate-limits-form";
                        Attr "class" "btn btn-primary gap-2"; Flag "disabled" saving]
            ((if saving then
                Spinner_view "small" "primary" []
                ++ [Text "Saving..."]
              else [Text "Save Changes"]))]])) [].

End RateLimitsModal_view.

(** ** [routes/admin/users/+page.svelte] *)

Section UsersPage_view.
Context `{!TablePaging} (formatTimestamp : option jstr → jstr) (l : listing UserListFilters) (users : list user).
Context (fetching pending showAdvanced : bool) (dialog : user_dialog) (cascade saving : bool).
Context (effectiveRequests : Z → jstr) (default_multiplier : jstr) (ls : limits_state).

Definition UsersPage_view : html users_event :=
  [El "div" [Attr "class" "container mx-auto px-2 sm:px-4 pb-8"]
    ([El "div" [Attr "class" "flex flex-col sm:flex-row justify-between items-start sm:items-center gap-4 mb-6"]
      [El "h1" []
        [Text "User Management"];
       El "div" [Attr "class" "flex gap-2 w-full sm:w-auto"]
        [El "button" [Attr "type" "button"; On "click" (OpenDialog Creating);
                      Attr "class" "btn btn-primary gap-2 flex-1 sm:flex-initial"]
          [El "Plus" [Attr "class" "size-4"] [];
           Text "Create User"];
         El "button" [Attr "type" "button"; On "click" Refetch;
                      Attr "class" "btn btn-secondary-outline gap-2 flex-1 sm:flex-initial";
                      Flag "disabled" fetching]
          ((if fetching then
              Spinner_view "small" "primary" []
            else [El "RefreshCw" [Attr "class" "size-4"] []])
          ++ [Text "Refresh"])]]]
    ++ UserFilters_view (filters l) showAdvanced (hasFiltersActive (filters l))
    ++ [El "div" [Attr "class" "card"]
      [El "div" [Attr "class" "p-3 sm:p-6"]
        ([El "h3" [Attr "class" "text-lg font-semibold mb-4"]
          [Text "Users (";
           Text (string_of_Z (total l));
           Text ")"]]
        ++ UsersTable_view formatTimestamp users (pagination l) (total l) pending)]])]
  ++ (match dialog with
    | Deleting u => DeleteUserModal_view u cascade saving
    | _ => match dialog with
    | Limiting u => RateLimitsModal_view effectiveRequests default_multiplier u saving ls
    | _ => match dialog with
    | Creating | Editing _ => UserFormModal_view (match dialog with Editing _ => true | _ => false end) saving
    | _ => []
    end
    end
    end).

End UsersPage_view.
