(* ===== verification/ExecutionsView.v ===== *)
(** * The executions' administration: markup

    [routes/admin/executions/+page.svelte] with [components/admin/executions/ExecutionsTable.svelte]. *)

From S2P Require Import Prelude JsString JsValue ApiEnums Formatters EventFilters Pager Html CommonView.

Record execution_row := mkExecutionRow {
  x_execution_id : jstr;
  x_row_user_id : option jstr;
  x_lang : jstr;
  x_lang_version : jstr;
  x_row_status : ExecutionStatus;
  x_row_priority : QueuePriority;
  x_created_at : option jstr;
}.

Record queue_status := mkQueueStatus {
  queue_depth : Z;
  active_count : Z;
  max_concurrent : Z;
  by_priority : list (jstr * Z);
}.

Inductive executions_event :=
| RefreshLists
| SetFilters (f : ExecutionFilters)
| Paging (l : label ExecutionFilters)
| SetPriority (execution_id : jstr) (priority : QueuePriority).

(** Writes to one filter. *)
Definition with_status (s : option jstr) (f : ExecutionFilters) : ExecutionFilters :=
  mkExecutionFilters s (x_priority f) (x_user_id f).
Definition with_priority (s : option jstr) (f : ExecutionFilters) : ExecutionFilters :=
  mkExecutionFilters (x_status f) s (x_user_id f).
Definition with_user (s : option jstr) (f : ExecutionFilters) : ExecutionFilters :=
  mkExecutionFilters (x_status f) (x_priority f) s.

(** ** [components/admin/executions/ExecutionsTable.svelte] *)

Section ExecutionsTable_view.
Context `{!TablePaging} (formatTimestamp : option jstr → jstr) (executions : list execution_row) (p : PaginationState) (rowCount : Z) (loading : bool).

Definition statusCell (status : ExecutionStatus) : html executions_event :=
  [El "span" [Attr "class" ("badge " ++ (EXECUTION_STATUS_BADGE status))]
    [Text (ExecutionStatus_value status)]].

Definition priorityCell (x : execution_row) : html executions_event :=
  [El "select" [Attr "value" (QueuePriority_value (x_row_priority x));
                Attr "class" "form-select-standard text-xs py-1 px-2";
                Attr "aria-label" ("Priority for " ++ (x_execution_id x))]
    (each (λ priority, QueuePriority_value priority) QueuePriority_all (λ priority,
        [El "option" [On "value" (SetPriority (x_execution_id x) priority)]
          [Text (QueuePriority_value priority)]]))].

(** The columns that are given to [createServerTable]. *)
Definition executions_columns : list (column execution_row executions_event) :=
  [mkColumn "execution_id" "font-mono text-xs" (λ x, [Text (truncate (Some (x_execution_id x)) 12)]);
   mkColumn "user_id" "text-xs" (λ x, [Text (match x_row_user_id x with
                                              | Some ((_ :: _) as u) => truncate (Some u) 12
                                              | _ => "-"
                                              end)]);
   mkColumn "lang" [] (λ x, [Text (x_lang x ++ " " ++ x_lang_version x)]);
   mkColumn "status" [] (λ x, statusCell (x_row_status x));
   mkColumn "priority" [] priorityCell;
   mkColumn "created_at" "text-xs" (λ x, [Text (formatTimestamp (x_created_at x))])].

Definition ExecutionsTable_view : html executions_event :=
  DataTable_view executions_columns executions "Executions" loading "No executions found" true true
  ++ when ((0 <? rowCount)%Z) (
      [El "div" [Attr "class" "mt-4 border-t divider pt-4"]
        (Pagination_markup p rowCount "executions" [10; 20; 50; 100]%Z (Paging LFirst) (Paging LPrevious) (Paging LNext) (Paging LLast) (λ k, Paging (LSize k)))]).

End ExecutionsTable_view.

(** ** [routes/admin/executions/+page.svelte] *)

Section ExecutionsPage_view.
Context `{!TablePaging} (formatTimestamp : option jstr → jstr) (l : listing ExecutionFilters) (executions : list execution_row) (queue : option queue_status).
Context (fetching pending : bool).

Definition ExecutionsPage_view : html executions_event :=
  [El "div" [Attr "class" "container mx-auto px-2 sm:px-4 pb-8"]
    ([El "div" [Attr "class" "flex flex-col sm:flex-row justify-between items-start sm:items-center gap-4 mb-6"]
      [El "h1" []
        [Text "Execution Management"];
       El "button" [Attr "type" "button"; On "click" RefreshLists;
                    Attr "class" "btn btn-secondary-outline gap-2"; Flag "disabled" fetching]
        ((if fetching then
            Spinner_view "small" "primary" []
          else [El "RefreshCw" [Attr "class" "size-4"] []])
        ++ [Text "Refresh"])]]
    ++ (match queue with Some queueStatus =>
        [El "div" [Attr "class" "grid grid-cols-1 sm:grid-cols-3 gap-4 mb-6"]
          [El "dl" [Attr "class" "card stat p-4 bg-info-soft"]
            [El "dt" [Attr "class" "font-medium text-info"]
              [Text (fieldTitle "queue_depth")];
             El "dd" []
              [Text (string_of_Z (queue_depth queueStatus))]];
           El "dl" [Attr "class" "card stat p-4 bg-success-soft"]
            [El "dt" [Attr "class" "font-medium text-success"]
              [Text (fieldTitle "active_count")];
             El "dd" []
              [Text (string_of_Z (active_count queueStatus));
               Text " / ";
               Text (string_of_Z (max_concurrent queueStatus))]];
           El "dl" [Attr "class" "card stat p-4 bg-purple-soft"]
            [El "dt" [Attr "class" "font-medium text-purple"]
              [Text (fieldTitle "by_priority")];
             El "dd" [Attr "class" "text-sm font-normal"]
              ((if no_rows (by_priority queueStatus) then
                  [El "span" [Attr "class" "text-fg-muted"]
                    [Text "Empty"]]
              else each (λ '(priority, count), priority) (by_priority queueStatus) (λ '(priority, count),
                  [El "span" [Attr "class" "mr-2"]
                    [Text priority;
                     Text ": ";
                     Text (string_of_Z count)]])))]]]
    | _ => [] end)
    ++ [El "div" [Attr "class" "card mb-6"]
      [El "div" [Attr "class" "p-4 flex flex-wrap gap-4 items-end"]
        [El "div" [Attr "class" "field"]
          [El "label" [Attr "for" "status-filter"]
            [Text (fieldTitle "status")];
           El "select" [Attr "id" "status-filter"; Attr "value" (default [] (x_status (filters l)));
                        Attr "class" "form-select-standard"]
            ([El "option" [On "value" (SetFilters (with_status None (filters l)))]
              [Text "All"]]
            ++ each (λ status, ExecutionStatus_value status) ExecutionStatus_all (λ status,
                [El "option" [On "value" (SetFilters (with_status (Some (ExecutionStatus_value status)) (filters l)))]
                  [Text (ExecutionStatus_value status)]]))];
         El "div" [Attr "class" "field"]
          [El "label" [Attr "for" "priority-filter"]
            [Text (fieldTitle "priority")];
           El "select" [Attr "id" "priority-filter"; Attr "value" (default [] (x_priority (filters l)));
                        Attr "class" "form-select-standard"]
            ([El "option" [On "value" (SetFilters (with_priority None (filters l)))]
              [Text "All"]]
            ++ each (λ p, QueuePriority_value p) QueuePriority_all (λ p,
                [El "option" [On "value" (SetFilters (with_priority (Some (QueuePriority_value p)) (filters l)))]
                  [Text (QueuePriority_value p)]]))];
         El "div" [Attr "class" "field"]
          [El "label" [Attr "for" "user-search"]
            [Text (fieldTitle "user_id")];
           El "input" [Attr "id" "user-search"; Attr "type" "text";
                       OnInput "value" (λ t, SetFilters (with_user (Some t) (filters l)));
                       Attr "class" "form-input-standard"] []];
         El "button" [Attr "type" "button"; On "click" (SetFilters no_execution_filters);
                      Attr "class" "btn btn-secondary-outline text-sm"]
          [Text "Reset"]]];
     El "div" [Attr "class" "card"]
      [El "div" [Attr "class" "p-3 sm:p-6"]
        ([El "h3" [Attr "class" "text-lg font-semibold mb-4"]
          [Text "Executions (";
           Text (string_of_Z (total l));
           Text ")"]]
        ++ ExecutionsTable_view formatTimestamp executions (pagination l) (total l) pending)]])].

End ExecutionsPage_view.
