(* ===== verification/AdminView.v ===== *)
(** * The administration: system settings and frame

    The markup of [routes/admin/settings/+page.svelte] and [routes/admin/+layout.svelte]. *)

From S2P Require Import Prelude JsString JsValue Formatters Shell Html CommonView.

Inductive system_event := EnterSetting (name t : jstr) | SubmitSettings | ResetSettings.

(** ** [routes/admin/settings/+page.svelte] *)

Section SystemSettingsPage_view.
Context (pending saving resetting : bool).

Definition setting (name type : jstr) : html system_event :=
  [El "Field" [Spread "form"; Attr "name" name]
    [El "Control" []
      [El "div" [Attr "class" "field"]
        [El "Label" []
          [Text (fieldTitle name)];
         El "input" [Spread "props"; Spread "$constraints[name]"; Attr "type" type;
                     OnInput "value" (EnterSetting name); Attr "class" "form-input-standard"] [];
         El "FieldErrors" [Attr "class" "mt-1"] []]]]].

Definition SystemSettingsPage_view : html system_event :=
  [El "div" [Attr "class" "container mx-auto px-4 pb-8"]
    [El "div" [Attr "class" "flex justify-between items-center mb-6"]
      [El "h1" [Attr "class" "text-3xl"]
        [Text "System Settings"]];
     El "div" [Attr "class" "card"]
      [El "div" [Attr "class" "p-6"]
        ([El "h3" [Attr "class" "text-lg font-semibold mb-4"]
          [Text "Configuration"]]
        ++ (if pending then
            [El "div" [Attr "class" "flex justify-center items-center h-64"]
              (Spinner_view "xlarge" "primary" [])]
          else [El "form" [Attr "method" "post"; On "submit" SubmitSettings; Flag "novalidate" true;
                        Attr "class" "space-y-6"]
              [El "div" []
                [El "h4" [Attr "class" "font-semibold mb-3"]
                  [Text "Execution Limits"];
                 El "div" [Attr "class" "grid grid-cols-1 md:grid-cols-2 gap-4"]
                  (setting "max_timeout_seconds" "number"
                  ++ setting "memory_limit" "text"
                  ++ setting "cpu_limit" "text"
                  ++ setting "max_concurrent_executions" "number"
                  ++ setting "max_executions_per_user" "number")];
               El "div" []
                [El "h4" [Attr "class" "font-semibold mb-3"]
                  [Text "Security Settings"];
                 El "div" [Attr "class" "grid grid-cols-1 md:grid-cols-2 gap-4"]
                  (setting "password_min_length" "number"
                  ++ setting "session_timeout_minutes" "number"
                  ++ setting "max_login_attempts" "number"
                  ++ setting "lockout_duration_minutes" "number")];
               El "div" [Attr "class" "flex justify-end gap-3 pt-4 border-t"]
                [El "button" [Attr "type" "button"; On "click" ResetSettings; Attr "class" "btn btn-ghost";
                              Flag "disabled" (saving || resetting)]
                  [Text (if resetting then "Resetting..." else "Reset to Defaults")];
                 El "button" [Attr "type" "submit"; Attr "class" "btn btn-primary";
                              Flag "disabled" (saving || resetting)]
                  [Text (if saving then "Saving..." else "Save Settings")]]]]))]]].

End SystemSettingsPage_view.

(** ** [routes/admin/+layout.svelte] *)

Section AdminLayout_view.
Context {E : Type} (resolve : jstr → jstr) (path_now username : jstr) (children : html E).

Definition AdminLayout_view : html E :=
  [El "div" [Attr "class" "lg:flex"]
    [El "aside" [Attr "class" "bg-sidebar border-b lg:border-b-0 lg:shadow-lg lg:fixed lg:left-0 lg:top-16 lg:bottom-0 lg:w-64 lg:overflow-y-auto lg:z-10"]
      [El "div" [Attr "class" "p-3 lg:p-4"]
        [El "div" [Attr "class" "hidden lg:flex items-center gap-2 mb-8"]
          [El "ShieldCheck" [Attr "class" "size-6 text-accent"] [];
           El "h2" [Attr "class" "font-bold"]
            [Text "Admin Panel"]];
         El "nav" [Attr "aria-label" "Admin"; Attr "class" "flex gap-2 overflow-x-auto lg:flex-col"]
          (each (λ navItem, path navItem) ADMIN_ROUTES (λ navItem,
              [El "a" [Attr "href" (resolve (path navItem));
                       Opt "aria-current" (if (path_now =js resolve (path navItem)) then Some "page" else None);
                       Attr "class" (class_list [Some "flex shrink-0 items-center gap-3 whitespace-nowrap px-4 py-2 rounded-lg transition-colors"; Some (if path_now =js resolve (path navItem) then "bg-primary text-white" else "hover:bg-fg/10")])]
                [El "span" []
                  [Text (sidebarLabel navItem)]]]));
         El "div" [Attr "class" "hidden lg:block mt-8 p-4 bg-surface rounded-lg border"]
          [El "p" [Attr "class" "text-sm text-fg-muted"]
            [Text "Logged in as:"];
           El "p" [Attr "class" "font-semibold truncate"]
            [Text username]]]];
     El "div" [Attr "class" "flex-1 lg:ml-64 pb-16"]
      (children)]].

End AdminLayout_view.
