(* ===== verification/SettingsView.v ===== *)
(** * The user's settings: markup

    [routes/(auth)/settings/+page.svelte] with [components/settings/SettingsHistoryTable.svelte]. *)

From S2P Require Import Prelude JsString JsValue ApiEnums Formatters Html Output CommonView.

(** The new value is kept in [settings.history] as it was. *)
Record history_entry := mkEntry {
  timestamp : jstr;
  changed_field : jstr;
  old_value : jsval;
  new_value : jsval;
}.

(** [show] of a value of the API, which is JSON and never throws. *)
Definition shown (v : jsval) : jstr := match Output.show v with Return s => s | Throw _ => [] end.

Inductive settings_event :=
| OpenHistory | CloseHistory | Restore (timestamp : jstr)
| OpenTab (id : jstr)
| PickTheme (t : Theme)
| EnterNumber (field t : jstr) | PickTabSize (size : Z)
| TickEditor (key : jstr) (b : bool) | TickNotifications (key : jstr) (b : bool)
| SubmitSettings.

(** [tabs], with their labels; the choices and the switches of the form. *)
Definition tab_labels : list (jstr * jstr) :=
  [("general"%js, "General"%js); ("editor"%js, fieldTitle "editor"); ("notifications"%js, fieldTitle "notifications")].
Definition tabSizes : list Z := [2; 4; 8]%Z.
Definition editorToggles : list jstr := ["use_tabs"; "word_wrap"; "show_line_numbers"]%js.
Definition notificationToggles : list jstr := ["execution_completed"; "execution_failed"]%js.

(** ** [components/settings/SettingsHistoryTable.svelte] *)

Section SettingsHistoryTable_view.
Context (formatTimestamp : option jstr → jstr) (history : list history_entry) (loading : bool).

Definition changeCell (item : history_entry) : html settings_event :=
  [El "div" [Attr "class" "flex flex-wrap items-center gap-1 text-fg-muted"]
    [El "span" [Attr "class" "text-danger break-all"]
      [Text (shown (old_value item))];
     El "span" [Attr "class" "mx-1"]
      [Text [8594%N]];
     El "span" [Attr "class" "text-success break-all"]
      [Text (shown (new_value item))]]].

Definition restoreCell (item : history_entry) : html settings_event :=
  [El "button" [Attr "type" "button"; On "click" (Restore (timestamp item)); Attr "class" "btn btn-ghost btn-xs"]
    [Text "Restore"]].

(** The columns that are given to [createTable]. *)
Definition history_columns : list (column history_entry settings_event) :=
  [mkColumn "timestamp" "w-36 whitespace-nowrap" (λ x, [Text (formatTimestamp (Some (timestamp x)))]);
   mkColumn "field" "w-32" (λ x, [Text (changed_field x)]);
   mkColumn "change" "font-mono" changeCell;
   mkColumn "actions" "w-20" restoreCell].

Definition SettingsHistoryTable_view : html settings_event :=
  DataTable_view history_columns history "Settings history" loading "No settings changes recorded yet. Make some changes to your settings to see history." true false.

End SettingsHistoryTable_view.

(** ** [routes/(auth)/settings/+page.svelte] *)

Section SettingsPage_view.
Context (formatTimestamp : option jstr → jstr) (history : list history_entry).
Context (pending loading_history saving showHistory : bool) (activeTab : jstr) (formTheme : Theme).

Definition SettingsPage_view : html settings_event :=
  [El "svelte:head" []
    [El "title" []
      [Text "Settings - Integr8sCode"];
     El "meta" [Attr "name" "description";
                Attr "content" "Manage your Integr8sCode account settings, editor preferences, and notification configuration"] []];
   El "div" [Attr "class" "page max-w-4xl"]
    ((if pending then
        [El "div" [Attr "class" "flex justify-center items-center h-64"]
          (Spinner_view "xlarge" "primary" [])]
      else [El "div" [Attr "class" "hero-animate-fly-in"; Attr "style" "--fly-y: -20px; --fly-delay: 100ms;"]
          [El "div" [Attr "class" "flex justify-between items-center mb-8"]
            [El "h1" [Attr "class" "lg:text-4xl"]
              [Text "Settings"];
             El "button" [Attr "type" "button"; On "click" OpenHistory;
                          Attr "class" "btn btn-secondary-outline btn-sm"]
              [Text "View History"]]];
         El "div" [Attr "class" "flex gap-x-1 mb-6 bg-muted p-1 rounded-lg"]
          (each (λ '(id, label), id) tab_labels (λ '(id, label),
              [El "button" [Attr "type" "button";
                            Attr "class" (class_list [Some "flex-1 px-4 py-2 text-sm font-medium rounded-md transition-colors"; Some (if activeTab =js id then "bg-surface shadow-xs text-accent" else "text-fg-muted hover:text-fg")]);
                            On "click" (OpenTab id)]
                [Text label]]));
         El "form" [Attr "method" "post"; On "submit" SubmitSettings; Flag "novalidate" true; Attr "class" "card"]
          [El "div" [Attr "class" "p-6"]
            ((if (activeTab =js "general") then
                [El "h2" [Attr "class" "mb-4"]
                  [Text "General"];
                 El "Field" [Spread "form"; Attr "name" "theme"]
                  [El "div" [Attr "class" "field"]
                    [El "Control" []
                      [El "Label" []
                        [Text (fieldTitle "theme")];
                       El "Select.Root" [Attr "type" "single"; Attr "value" (Theme_value formTheme)]
                        [El "Select.Trigger" [Spread "props";
                                              Attr "class" "form-control-base flex items-center justify-between text-left group"]
                          [El "span" [Attr "class" "truncate"]
                            [Text (Theme_value formTheme)];
                           El "ChevronDown" [Attr "class" "size-5 ml-2 shrink-0 text-fg-muted transition-transform group-data-[state=open]:-rotate-180"] []];
                         El "Select.Portal" []
                          [El "Select.Content" [Attr "sideOffset" "4";
                                                Attr "class" "floating-panel w-(--bits-select-anchor-width)"]
                            [El "Select.Viewport" []
                              (each (λ theme, Theme_value theme) Theme_all (λ theme,
                                  [El "Select.Item" [On "value" (PickTheme theme);
                                                     Attr "label" (Theme_value theme);
                                                     Attr "class" "floating-item justify-between"]
                                    ([Text (Theme_value theme)]
                                    ++ when (Theme_value theme =js Theme_value formTheme) (
                                        [El "Check" [Attr "class" "size-4 text-accent"] []]))]))]]]]]]]
              else if (activeTab =js "editor") then
                [El "h2" [Attr "class" "mb-4"]
                  [Text (fieldTitle "editor")];
                 El "div" [Attr "class" "flex flex-wrap gap-4"]
                  [El "Field" [Spread "form"; Attr "name" "editor.font_size"]
                    [El "Control" []
                      [El "div" [Attr "class" "field flex-1 min-w-25"]
                        [El "Label" []
                          [Text (fieldTitle "font_size")];
                         El "input" [Spread "props"; Spread "$constraints.editor?.font_size";
                                     Attr "type" "number"; OnInput "value" (EnterNumber "font_size");
                                     Attr "class" "form-input-standard"] [];
                         El "FieldErrors" [Attr "class" "mt-1"] []]]];
                   El "Field" [Spread "form"; Attr "name" "editor.tab_size"]
                    [El "Control" []
                      [El "div" [Attr "class" "field flex-1 min-w-25"]
                        [El "Label" []
                          [Text (fieldTitle "tab_size")];
                         El "select" [Spread "props"; Spread "value"; Attr "class" "form-select-standard"]
                          (each (λ size, string_of_Z size) tabSizes (λ size,
                              [El "option" [On "value" (PickTabSize size)]
                                [Text (string_of_Z size)]]))]]]];
                 El "div" [Attr "class" "my-6 border-t"] [];
                 El "div" [Attr "class" "space-y-3"]
                  (each (λ key, key) editorToggles (λ key,
                      [El "Field" [Spread "form"; Attr "name" ("editor." ++ key)]
                        [El "Control" []
                          [El "Label" [Attr "class" "settings-toggle"]
                            [El "span" [Attr "class" "text-sm font-medium"]
                              [Text (fieldTitle key)];
                             El "input" [Spread "props"; Attr "type" "checkbox"; OnCheck "checked" (TickEditor key)] []]]]]))]
              else if (activeTab =js "notifications") then
                [El "h2" [Attr "class" "mb-4"]
                  [Text (fieldTitle "notifications")];
                 El "h3" [Attr "class" "font-semibold mb-2"]
                  [Text "Notification Types"];
                 El "div" [Attr "class" "space-y-3"]
                  (each (λ key, key) notificationToggles (λ key,
                      [El "Field" [Spread "form"; Attr "name" ("notifications." ++ key)]
                        [El "Control" []
                          [El "Label" [Attr "class" "settings-toggle"]
                            [El "span" [Attr "class" "text-sm font-medium"]
                              [Text (fieldTitle key)];
                             El "input" [Spread "props"; Attr "type" "checkbox";
                                         OnCheck "checked" (TickNotifications key)] []]]]]))]
              else [])
            ++ [El "div" [Attr "class" "flex justify-end mt-6"]
              [El "button" [Attr "type" "submit"; Attr "class" "btn btn-primary"; Flag "disabled" saving]
                ((if saving then
                    Spinner_view "small" "white" "mr-2 inline-block"
                    ++ [Text " Saving..."]
                  else [Text "Save Settings"]))]])]]))]
  ++ Modal_view showHistory "Settings History" CloseHistory "lg"
    ([El "div" [Attr "class" "overflow-y-auto max-h-96"]
      (SettingsHistoryTable_view formatTimestamp history loading_history)])
    ([El "button" [Attr "type" "button"; On "click" CloseHistory; Attr "class" "btn btn-secondary-outline"]
      [Text "Close"]]).

End SettingsPage_view.
