(* ===== verification/PagesView.v ===== *)
(** * The frame of the application and its public pages: markup

    [routes/+layout.svelte] with [components/Header.svelte], the pages for signing in and
    registering, the home page, the privacy page and the error page.  The root layout is for events
    of any type: it is around every page. *)

From S2P Require Import Prelude JsString JsValue ApiEnums Formatters Html Output CommonView.

Record account := mkAccount { account_name : jstr; account_email : jstr; account_role : UserRole }.

Definition is_admin (u : account) : bool := match account_role u with UserRole_ADMIN => true | _ => false end.
Definition is_light (t : Theme) : bool := match t with Theme_LIGHT => true | _ => false end.
Definition is_dark (t : Theme) : bool := match t with Theme_DARK => true | _ => false end.

Inductive form_event := EnterField (name t : jstr) | SubmitForm.

Inductive error_event := Reload | GoHome.

(** ** [components/Header.svelte] *)

Section Header_view.
Context {E : Type} (resolve toUpperCase : jstr → jstr) (user : option account) (mode : Theme) (isMenuActive : bool) (center : html E).
Context (toggleTheme toggleMenu closeMenu logout : E).

Definition mobile_menu : html E :=
  [El "div" [Attr "data-testid" "mobile-menu";
             Attr "class" "lg:hidden absolute top-16 left-0 right-0 bg-surface shadow-lg border-t px-2 py-3 sm:px-3"]
    ((match user with
      | Some u => [El "div" [Attr "class" "px-3 py-2"]
          [El "div" [Attr "class" "text-sm font-medium"]
            [Text (account_name u)];
           El "div" [Attr "class" "text-xs text-fg-muted"]
            [Text (UserRole_value (account_role u))]]]
        ++ when (is_admin u) (
            [El "a" [Attr "href" (resolve "/admin/events"); On "click" closeMenu; Attr "class" "menu-link"]
              [El "Settings" [Attr "class" "size-5"] [];
               Text " Admin Panel"]])
        ++ [El "a" [Attr "href" (resolve "/(auth)/settings"); On "click" closeMenu; Attr "class" "menu-link"]
          [Text "Settings"];
         El "button" [Attr "type" "button"; On "click" logout;
                      Attr "class" "menu-link w-full text-danger hover:bg-danger-soft"]
          [El "LogOut" [Attr "class" "size-5"] [];
           Text " Logout"]]
      | _ => [El "a" [Attr "href" (resolve "/login"); On "click" closeMenu; Attr "class" "menu-link"]
          [El "LogIn" [Attr "class" "size-5"] [];
           Text " Login"];
         El "a" [Attr "href" (resolve "/register"); On "click" closeMenu; Attr "class" "menu-link"]
          [El "UserPlus" [Attr "class" "size-5"] [];
           Text " Register"]]
      end))].

Definition Header_view : html E :=
  [El "header" [Attr "class" "fixed top-0 left-0 right-0 bg-surface/80 backdrop-blur-md border-b shadow-xs z-50 h-16"]
    ([El "div" [Attr "class" "app-container h-full"]
      [El "nav" [Attr "class" "flex items-center justify-between h-full"]
        [El "a" [Attr "href" (resolve "/"); On "click" closeMenu;
                 Attr "class" "group flex shrink-0 items-center gap-2"]
          [El "img" [Attr "src" "/favicon.png"; Attr "alt" "Integr8sCode Logo";
                     Attr "class" "h-8 w-auto transition-transform group-hover:scale-110"] [];
           El "span" [Attr "class" "font-semibold text-xl tracking-tight transition-colors group-hover:text-accent"]
            [Text "Integr8sCode"]];
         El "div" [Attr "class" "flex items-center gap-3"]
          [El "button" [Attr "type" "button"; On "click" toggleTheme; Attr "title" "Toggle theme";
                        Attr "aria-label" "Toggle theme";
                        Attr "class" "btn btn-ghost btn-icon text-fg-muted hover:text-fg"]
            ((if (is_light mode) then
                [El "Sun" [Attr "class" "size-5"] []]
              else if (is_dark mode) then
                [El "Moon" [Attr "class" "size-5"] []]
              else [El "MonitorCog" [Attr "class" "size-5"] []]));
           El "div" [Attr "class" "hidden lg:flex items-center gap-3"]
            ((match user with
              | Some u => center
                ++ [El "DropdownMenu.Root" []
                  [El "DropdownMenu.Trigger" [Attr "aria-label" "User menu";
                                              Attr "class" "btn btn-ghost btn-sm group gap-2"]
                    [El "User" [Attr "class" "size-5"] [];
                     El "span" [Attr "class" "hidden xl:inline font-medium"]
                      [Text (account_name u)];
                     El "ChevronDown" [Attr "class" "size-4 transition-transform duration-200 group-data-[state=open]:rotate-180"] []];
                   El "DropdownMenu.Portal" []
                    [El "DropdownMenu.Content" [Attr "align" "end"; Attr "sideOffset" "8";
                                                Attr "class" "floating-panel w-64"]
                      ([El "div" [Attr "class" "flex items-center gap-3 px-2 py-1.5"]
                        [El "span" [Attr "class" "size-7 rounded-full bg-primary/20 flex items-center justify-center shrink-0 text-xs font-semibold text-accent"]
                          [Text (toUpperCase (take 1 (account_name u)))];
                         El "span" [Attr "class" "min-w-0"]
                          [El "span" [Attr "class" "block text-sm font-medium truncate"]
                            ([Text (account_name u)]
                            ++ when (is_admin u) (
                                [El "span" [Attr "class" "text-xs text-accent font-medium ml-1"]
                                  [Text (UserRole_value (account_role u))]]));
                           El "span" [Attr "class" "block text-xs text-fg-muted truncate"]
                            [Text (account_email u)]]];
                       El "DropdownMenu.Separator" [Attr "class" "my-1 h-px bg-border"] []]
                      ++ when (is_admin u) (
                          [El "DropdownMenu.Item" [Attr "class" "floating-item"]
                            [El "a" [Attr "href" (resolve "/admin/events"); Spread "props"]
                              [El "Settings" [Attr "class" "size-4"] [];
                               Text "Admin"]]])
                      ++ [El "DropdownMenu.Item" [Attr "class" "floating-item"]
                        [El "a" [Attr "href" (resolve "/(auth)/settings"); Spread "props"]
                          [El "User" [Attr "class" "size-4"] [];
                           Text "Settings"]];
                       El "DropdownMenu.Separator" [Attr "class" "my-1 h-px bg-border"] [];
                       El "DropdownMenu.Item" [Attr "class" "floating-item text-danger"; On "select" logout]
                        [El "LogOut" [Attr "class" "size-4"] [];
                         Text "Logout"]])]]]
              | _ => [El "a" [Attr "href" (resolve "/login"); On "click" closeMenu;
                         Attr "class" "btn btn-secondary-outline btn-sm"]
                  [Text "Login"];
                 El "a" [Attr "href" (resolve "/register"); On "click" closeMenu;
                         Attr "class" "btn btn-primary btn-sm"]
                  [Text "Register"]]
              end));
           El "div" [Attr "data-testid" "mobile-menu-toggle"; Attr "class" "lg:hidden"]
            [El "button" [Attr "type" "button"; On "click" toggleMenu;
                          Attr "aria-label" (if isMenuActive then "Close menu" else "Open menu");
                          Attr "class" "btn btn-ghost btn-icon text-fg-muted hover:text-fg"]
              ((if isMenuActive then
                  [El "X" [Attr "class" "size-5"] []]
                else [El "Menu" [Attr "class" "size-5"] []]))]]]]]
    ++ when isMenuActive (
        mobile_menu))].

End Header_view.

(** ** [routes/+layout.svelte] *)

Section RootLayout_view.
Context {E : Type} (header children footer : html E).

Definition RootLayout_view : html E :=
  [El "ModeWatcher" [Attr "modeStorageKey" "app-theme"; Flag "disableHeadScriptInjection" true;
                     Attr "disableTransitions" "false"] [];
   El "QueryClientProvider" [Spread "client"]
    [El "Tooltip.Provider" [Attr "delayDuration" "300"]
      [El "div" [Attr "class" "flex flex-col min-h-dvh pt-16"]
        (header
        ++ [El "Toaster" [Flag "richColors" true; Attr "position" "top-right"] [];
         El "main" [Attr "class" "flex-grow"]
          (children)]
        ++ footer)]]].

End RootLayout_view.

(** ** [routes/login/+page.svelte] *)

Section LoginPage_view.
Context (resolve : jstr → jstr) (loading : bool) (failure : option jstr).

Definition login_field (name type autocomplete : jstr) : html form_event :=
  [El "Field" [Spread "form"; Attr "name" name]
    [El "Control" [Attr "id" name]
      [El "Label" [Attr "class" "sr-only"]
        [Text (fieldTitle name)];
       El "input" [Spread "props"; Spread "$constraints[name]"; Attr "type" type;
                   Attr "autocomplete" autocomplete; Attr "placeholder" (fieldTitle name);
                   OnInput "value" (EnterField name); Attr "class" "form-input-standard"] []];
     El "FieldErrors" [Attr "class" "mt-1"] []]].

Definition LoginPage_view : html form_event :=
  [El "svelte:head" []
    [El "title" []
      [Text "Login - Integr8sCode"];
     El "meta" [Attr "name" "description";
                Attr "content" "Sign in to Integr8sCode to access your saved projects, code snippets, and personalized development environment"] []];
   El "div" [Attr "class" "min-h-[60vh] flex items-center justify-center py-12 px-4 sm:px-6 lg:px-8"]
    [El "div" [Attr "class" "max-w-md w-full space-y-8"]
      [El "div" [Attr "class" "text-center"]
        [El "h2" [Attr "class" "text-3xl font-bold"]
          [Text "Sign in to your account"];
         El "p" [Attr "class" "mt-2 text-sm text-fg-muted"]
          [Text "Or ";
           El "a" [Attr "href" (resolve "/register"); Attr "class" "link font-medium"]
            [Text "create a new account"]]];
       El "form" [Attr "method" "post"; On "submit" SubmitForm; Flag "novalidate" true;
                  Attr "class" "mt-8 space-y-6 bg-surface p-8 rounded-lg shadow-md border"]
        ([El "input" [Attr "type" "hidden"; Attr "name" "remember"; Attr "value" "true"; Flag "hidden" true] []]
        ++ (match failure with Some ((_ :: _) as error) =>
            [El "p" [Attr "class" "mt-0 text-sm text-danger text-center"; Attr "data-testid" "error-message"]
              [Text error]]
        | _ => [] end)
        ++ [El "div" [Attr "class" "space-y-2"]
          (login_field "username" "text" "username"
          ++ login_field "password" "password" "current-password");
         El "div" []
          [El "button" [Attr "type" "submit"; Flag "disabled" loading; Attr "class" "btn btn-primary w-full"]
            ((if loading then
                [El "span" [Attr "class" "absolute left-0 inset-y-0 flex items-center pl-3"]
                  (Spinner_view "small" "primary" "text-info");
                 Text " Logging in..."]
              else [Text "Sign in"]))]])]]].

End LoginPage_view.

(** ** [routes/register/+page.svelte] *)

Section RegisterPage_view.
Context (resolve : jstr → jstr) (loading : bool) (failure : option jstr).

Definition register_field (name id type autocomplete : jstr) : html form_event :=
  [El "Field" [Spread "form"; Attr "name" name]
    [El "Control" [Attr "id" id]
      [El "Label" [Attr "class" "sr-only"]
        [Text (fieldTitle name)];
       El "input" [Spread "props"; Spread "$constraints[name]"; Attr "type" type;
                   Attr "autocomplete" autocomplete; Attr "placeholder" (fieldTitle name);
                   OnInput "value" (EnterField name); Attr "class" "form-input-standard"] []];
     El "FieldErrors" [Attr "class" "mt-1"] []]].

Definition RegisterPage_view : html form_event :=
  [El "svelte:head" []
    [El "title" []
      [Text "Register - Integr8sCode"];
     El "meta" [Attr "name" "description";
                Attr "content" "Create a free Integr8sCode account to save your projects, collaborate with others, and access advanced coding features"] []];
   El "div" [Attr "class" "min-h-[60vh] flex items-center justify-center py-12 px-4 sm:px-6 lg:px-8"]
    [El "div" [Attr "class" "max-w-md w-full space-y-8"]
      [El "div" [Attr "class" "text-center"]
        [El "h2" [Attr "class" "text-3xl font-bold"]
          [Text "Create a new account"];
         El "p" [Attr "class" "mt-2 text-sm text-fg-muted"]
          [Text "Or ";
           El "a" [Attr "href" (resolve "/login"); Attr "class" "link font-medium"]
            [Text "sign in to your existing account"]]];
       El "form" [Attr "method" "post"; On "submit" SubmitForm; Flag "novalidate" true;
                  Attr "class" "mt-8 space-y-6 bg-surface p-8 rounded-lg shadow-md border"]
        ((match failure with Some ((_ :: _) as error) =>
            [El "p" [Attr "class" "mt-0 text-sm text-danger text-center"; Attr "data-testid" "error-message"]
              [Text error]]
        | _ => [] end)
        ++ [El "div" [Attr "class" "space-y-2"]
          (register_field "username" "username" "text" "username"
          ++ register_field "email" "email" "email" "email"
          ++ register_field "password" "password" "password" "new-password"
          ++ register_field "confirm_password" "confirm-password" "password" "new-password");
         El "div" []
          [El "button" [Attr "type" "submit"; Flag "disabled" loading; Attr "class" "btn btn-primary w-full"]
            ((if loading then
                [El "span" [Attr "class" "absolute left-0 inset-y-0 flex items-center pl-3"]
                  (Spinner_view "small" "primary" "text-info");
                 Text " Registering..."]
              else [Text "Create Account"]))]])]]].

End RegisterPage_view.

(** ** [routes/+page.svelte] *)

Section HomePage_view.
Context {E : Type} (resolve : jstr → jstr) (ready : bool).

Record feature := mkFeature { feature_icon : jstr; feature_title : jstr; feature_content : jstr }.

Definition features : list feature :=
  [mkFeature "Zap" "Instant Execution"
     "Run code online effortlessly in isolated Kubernetes pods with near-native speed.";
   mkFeature "ShieldCheck" "Secure & Efficient"
     "Strict resource limits (CPU, Memory, Time) and network restrictions ensure safe code execution.";
   mkFeature "Clock" "Real-time Results"
     "Get immediate feedback with live execution status updates and detailed output upon completion."].

Definition features_section : html E :=
  [El "section" [Attr "class" "app-container pt-14 pb-20 lg:pb-28"]
    [El "div" [Attr "class" "text-center mb-12 sm:mb-16"]
      [El "p" [Attr "class" "section-label text-sm text-accent hero-animate-fly-in";
               Attr "style" "--fly-delay: 600ms;"]
        [Text "Core Features"];
       El "h2" [Attr "class" "mt-2 text-2xl sm:text-3xl lg:text-4xl font-bold tracking-tight hero-animate-fly-in";
                Attr "style" "--fly-delay: 700ms;"]
        [Text "Everything you need for quick execution."]];
     El "div" [Attr "class" "features-grid mx-auto max-w-5xl grid sm:grid-cols-2 lg:grid-cols-3 gap-5"]
      (each (λ '(i, feature), feature_title feature) (imap pair features) (λ '(i, feature),
          [El "div" [Attr "class" "feature-card group hero-animate-fly-in";
                     Attr "style" ("--fly-y: 24px; --fly-delay: " ++ (string_of_Z (800 + Z.of_nat i * 120)) ++ "ms;")]
            [El "h3" [Attr "class" "flex items-center gap-2 text-lg sm:text-xl font-semibold mb-2 transition-colors group-hover:text-accent"]
              ([El (feature_icon feature) [Attr "class" "size-5 shrink-0 text-accent"] []]
              ++ [Text (feature_title feature)]);
             El "p" [Attr "class" "text-fg-muted"]
              [Text (feature_content feature)]]]))]].

Definition HomePage_view : html E :=
  [El "svelte:head" []
    [El "title" []
      [Text "Home - Integr8sCode"];
     El "meta" [Attr "name" "description";
                Attr "content" "Integr8sCode - Write, compile, and manage code directly in your browser with our powerful online development environment"] []]]
  ++ when ready (
      [El "div" [Attr "class" "bg-page"]
        ([El "section" [Attr "class" "gradient-bg relative isolate overflow-x-clip min-h-dvh -mt-16 pt-16 flex items-center justify-center px-4 sm:px-6 lg:px-8"]
          [El "div" [Attr "class" "relative z-10 text-center w-full -mt-4 sm:-mt-6"]
            [El "div" [Attr "class" "hero-animate-fly-in"; Attr "style" "--fly-y: -20px; --fly-delay: 100ms;"]
              [El "h1" [Attr "class" "mx-auto max-w-7xl text-4xl sm:text-5xl lg:text-7xl tracking-tight leading-tight px-2"]
                [Text "Code, Run, ";
                 El "span" [Attr "class" "text-accent"]
                  [Text "Integrate"];
                 Text ". Instantly."]];
             El "div" [Attr "class" "hero-animate-fly-in"; Attr "style" "--fly-y: 15px; --fly-delay: 300ms;"]
              [El "p" [Attr "class" "mx-auto mt-6 max-w-4xl text-lg sm:text-xl leading-relaxed text-fg-muted px-4"]
                [Text ("Welcome to Integr8sCode " ++ [8211%N] ++ " the seamless online execution environment built on Kubernetes. Paste your script, hit run, and get results securely and efficiently.")]];
             El "div" [Attr "class" "mt-8 sm:mt-10 hero-animate-fly-in";
                       Attr "style" "--fly-y: 15px; --fly-delay: 500ms;"]
              [El "a" [Attr "href" (resolve "/(auth)/editor");
                       Attr "class" "btn btn-primary btn-lg font-semibold shadow-lg"]
                [Text "Start Coding Now"]]]]]
        ++ features_section)]).

End HomePage_view.

(** ** [routes/privacy/+page.svelte] *)

Section PrivacyPage_view.
Context {E : Type}.

Definition lastUpdated : jstr := "August 30, 2025".
Definition operatorName : jstr := "Max Azatian".
Definition operatorEmail : jstr := "max.azatian@gmail.com".
Definition operatorLocation : jstr := "Germany".

Definition PrivacyPage_view : html E :=
  [El "svelte:head" []
    [El "title" []
      [Text "Privacy Policy - Integr8sCode"];
     El "meta" [Attr "name" "description";
                Attr "content" "Privacy policy for Integr8sCode - how we handle your data, GDPR compliance, and your rights"] []];
   El "div" [Attr "class" "page max-w-4xl"]
    [El "div" [Attr "class" "bg-surface rounded-xl shadow-xs border p-6 sm:p-8 lg:p-10"]
      [El "div" [Attr "class" "hero-animate-fly-in"; Attr "style" "--fly-y: -20px; --fly-delay: 100ms;"]
        [El "h1" [Attr "class" "lg:text-4xl mb-2"]
          [Text "Privacy Policy"];
         El "p" [Attr "class" "text-sm text-fg-muted mb-8"]
          [Text "Last updated: ";
           Text lastUpdated]];
       El "div" [Attr "class" "prose max-w-none"]
        [El "section" []
          [El "h2" []
            [Text "Hi there!"];
           El "p" []
            [Text "I'm ";
             Text operatorName;
             Text ", and I built Integr8sCode as a personal project. This is an online code execution platform that lets you run Python scripts in isolated environments. Since I'm handling your data, I want to be transparent about what information I collect and how I use it."];
           El "p" []
            [Text "This privacy policy complies with GDPR and other data protection laws. If you have any questions, just drop me an email at ";
             El "a" [Attr "href" ("mailto:" ++ operatorEmail)]
              [Text operatorEmail];
             Text "."]];
         El "section" []
          [El "h2" []
            [Text "Who's responsible for your data?"];
           El "p" []
            [Text "That would be me:"];
           El "p" []
            [Text operatorName;
             El "br" [] [];
             El "a" [Attr "href" ("mailto:" ++ operatorEmail)]
              [Text operatorEmail];
             El "br" [] [];
             Text " Based in ";
             Text operatorLocation];
           El "p" []
            [Text ("Since this is a personal project, I handle all privacy matters myself. No corporate bureaucracy here " ++ [8211%N] ++ " just email me directly if you have concerns.")]];
         El "section" []
          [El "h2" []
            [Text "What information do I collect?"];
           El "p" []
            [Text "When you create an account, I store your username, email address, and a securely hashed version of your password. I also keep track of when you created your account and when it was last updated."];
           El "p" []
            [Text ("When you run code, I temporarily store the script you submitted, which programming language you chose, and the output it generates. I also track basic metrics like how long your code took to run and how much memory it used " ++ [8211%N] ++ " this helps prevent abuse and shows you performance information.")];
           El "p" []
            [Text "For security purposes, server logs capture your IP address and browser information. This helps me detect and prevent attacks, enforce rate limits, and keep the service running smoothly. These logs are automatically deleted after 7 days."];
           El "p" []
            [Text "I don't use any analytics services like Google Analytics, and I don't track you around the web. The only cookies I use are essential ones for keeping you logged in and remembering your theme preference."]];
         El "section" []
          [El "h2" []
            [Text "Why do I need this information?"];
           El "p" []
            [Text ("Pretty straightforward " ++ [8211%N] ++ " I need your email and password to create your account and let you log in. The code execution data is necessary to, well, execute your code and show you the results. The security logs help me keep the platform safe from abuse and attacks.")];
           El "p" []
            [Text "Under GDPR terms, I process your data based on our contract (providing you the service), legitimate interests (security and preventing abuse), and legal obligations (when required by law)."]];
         El "section" []
          [El "h2" []
            [Text "How long do I keep your data?"];
           El "p" []
            [Text "Your account information stays as long as you have an account, plus 30 days after deletion (in case you change your mind or there are legal issues). Code execution data is kept for 90 days to help with debugging and support. Security logs are automatically purged after 7 days. Performance metrics are aggregated and anonymized after 30 days."]];
         El "section" []
          [El "h2" []
            [Text "Who else sees your data?"];
           El "p" []
            [Text "Almost nobody. The server hosting provider has physical access to the infrastructure, but they can't access your actual data. I might have to share information if legally required (court order, etc.), but that hasn't happened and hopefully never will."];
           El "p" []
            [Text "I don't sell your data. I don't share it with advertisers. I don't even have advertisers. This is a personal project, not a data harvesting operation."]];
         El "section" []
          [El "h2" []
            [Text "How do I protect your data?"];
           El "p" []
            [Text "I use industry-standard security measures: HTTPS encryption for all connections, bcrypt for password hashing, isolated Kubernetes pods for code execution, and regular security updates. Your code runs in a sandboxed environment that's destroyed after execution."];
           El "p" []
            [Text ("That said, no system is 100% secure. I do my best to protect your data, but I can't guarantee absolute security " ++ [8211%N] ++ " nobody can, really.")]];
         El "section" []
          [El "h2" []
            [Text "Your rights (GDPR stuff)"];
           El "p" []
            [Text "Under GDPR, you have several rights regarding your data. You can request a copy of your data, ask me to correct mistakes, delete your account and data, restrict how I process your data, export your data in a portable format, object to certain processing, or withdraw consent at any time."];
           El "p" []
            [Text "To exercise any of these rights, just email me at ";
             El "a" [Attr "href" ("mailto:" ++ operatorEmail ++ "?subject=GDPR%20Request")]
              [Text operatorEmail];
             Text ". I'll handle your request personally and respond within the GDPR-required timeframe."]];
         El "section" []
          [El "h2" []
            [Text "Where's your data stored?"];
           El "p" []
            [Text "Everything is hosted on servers in ";
             Text operatorLocation;
             Text ", which is in the EU. Your data doesn't leave the EU, so it's protected by GDPR. If you're accessing this from outside the EU, your data gets transferred here for processing."]];
         El "section" []
          [El "h2" []
            [Text "About cookies"];
           El "p" []
            [Text ("I only use essential cookies " ++ [8211%N] ++ " the ones needed to keep you logged in and remember if you prefer dark mode. No tracking cookies, no advertising cookies, no third-party cookies. Just the bare minimum to make the site work.")]];
         El "section" []
          [El "h2" []
            [Text "Kids and this service"];
           El "p" []
            [Text "This service isn't for anyone under 16. If you're a parent and think your child has created an account, please ";
             El "a" [Attr "href" ("mailto:" ++ operatorEmail ++ "?subject=Minor%20Account%20Concern")]
              [Text "let me know"];
             Text " and I'll delete it."]];
         El "section" []
          [El "h2" []
            [Text "The tech stack"];
           El "p" []
            [Text ("I use various open-source tools to run this service, all self-hosted on my own infrastructure. This includes MongoDB for data storage, Kubernetes for code execution, Kafka for event processing, and several monitoring tools. These all run locally " ++ [8211%N] ++ " your data never goes to the companies that make these tools.")];
           El "p" []
            [Text "Everything runs on my server. No external services get your data. No telemetry gets sent to third parties. It's all self-contained."]];
         El "section" []
          [El "h2" []
            [Text "Changes to this policy"];
           El "p" []
            [Text "If I need to update this privacy policy, I'll post the new version here and update the date at the top. I recommend checking back occasionally, especially if privacy is important to you."]];
         El "section" []
          [El "h2" []
            [Text "Get in touch"];
           El "p" []
            [Text "Questions? Concerns? Just want to chat about privacy? Email me at ";
             El "a" [Attr "href" ("mailto:" ++ operatorEmail ++ "?subject=Privacy%20Question")]
              [Text operatorEmail];
             Text ". I usually respond within 72 hours."];
           El "p" []
            [Text "If you're in the EU and I can't resolve your privacy concern, you can also contact your local data protection authority. But I'd appreciate it if you'd ";
             El "a" [Attr "href" ("mailto:" ++ operatorEmail ++ "?subject=Privacy%20Concern")]
              [Text "talk to me first"];
             Text (" " ++ [8211%N] ++ " I'm pretty reasonable and want to help.")]];
         El "section" []
          [El "p" []
            [Text ("This privacy policy was written in plain English because legal jargon helps nobody. If something isn't clear, just ask. Thanks for trusting me with your data " ++ [8211%N] ++ " I take that responsibility seriously.")]]]]]].

End PrivacyPage_view.

(** ** [components/ErrorDisplay.svelte] *)

Section ErrorDisplay_view.
Context (message title : jstr).

Definition ErrorDisplay_view : html error_event :=
  [El "div" [Attr "class" "min-h-dvh flex items-center justify-center p-4"]
    [El "div" [Attr "class" "max-w-lg w-full bg-surface rounded-xl border border-danger/30 shadow-lg p-6 sm:p-8"]
      [El "div" [Attr "class" "flex justify-center mb-6"]
        [El "div" [Attr "class" "size-16 rounded-full bg-danger-soft flex items-center justify-center"]
          [El "TriangleAlert" [Attr "class" "size-8 text-danger"] []]];
       El "h1" [Attr "class" "text-xl sm:text-2xl text-center mb-2"]
        [Text title];
       El "p" [Attr "class" "text-center text-fg-muted mb-6"]
        [Text (userMessage message)];
       El "div" [Attr "class" "flex flex-col sm:flex-row gap-3"]
        [El "button" [Attr "type" "button"; On "click" Reload;
                      Attr "class" "flex-1 btn btn-primary py-2.5 text-sm font-medium"]
          [Text "Reload Page"];
         El "button" [Attr "type" "button"; On "click" GoHome;
                      Attr "class" "flex-1 btn py-2.5 text-sm font-medium bg-page border hover:bg-muted transition-colors"]
          [Text "Go to Home"]];
       El "p" [Attr "class" "mt-6 text-xs text-center text-fg-muted"]
        [Text "If this problem persists, please contact support."]]]].

End ErrorDisplay_view.

(** ** [routes/+error.svelte] *)

Section ErrorPage_view.
Context (status : Z) (message : option jstr).

Definition ErrorPage_view : html error_event :=
  [El "svelte:head" []
    [El "title" []
      [Text (if (status =? 404)%Z then "Page not found" else "Error");
       Text " - Integr8sCode"]]]
  ++ ErrorDisplay_view (default "Unknown error" message) (if (status =? 404)%Z then "Page not found" else "Something went wrong").

End ErrorPage_view.
