(* ===== verification/NotificationsView.v ===== *)
(** * Notifications: markup

    [components/NotificationCenter.svelte] and [routes/(auth)/notifications/+page.svelte]. *)

From S2P Require Import Prelude JsString ApiEnums EventFilters NotificationCenter Formatters Html CommonView.

(** A notification with what is shown of it. *)
Record shown_notification := mkShown {
  about : notification;
  subject : jstr;
  body : jstr;
  severity : NotificationSeverity;
  tags : list jstr;
  created_at : jstr;
}.

Definition unread (n : shown_notification) : bool := negb (bool_decide (status (about n) = NotificationStatus_READ)).

Definition icon_tag (i : icon) : jstr :=
  match i with
  | CircleAlert => "CircleAlert" | TriangleAlert => "TriangleAlert" | CircleCheck => "CircleCheck" | Info => "Info"
  end.

Inductive center_event :=
| SetOpen (b : bool) | ReadAll | AskPermission | Click (n : shown_notification) | ViewAll.

Inductive notifications_event :=
| EnterInput (field t : jstr) | ApplyFilters | MarkAll | MarkOne (n : shown_notification) | DeleteOne (id : jstr).

(** ** [components/NotificationCenter.svelte] *)

Section NotificationCenter_view.
Context (formatRelativeTime : option jstr → jstr) (shown : list shown_notification) (unreadCount : Z) (pending showDropdown ask : bool).

Definition center_item (notification : shown_notification) : html center_event :=
  [El "button" [Attr "type" "button";
                Attr "class" (class_list [Some "block w-full text-left p-4 border-b border-border/50 hover:bg-muted cursor-pointer transition-colors"; if (unread notification) then Some "bg-info-soft" else None]);
                On "click" (Click notification);
                Attr "aria-label" ("View notification: " ++ (subject notification))]
    [El "span" [Attr "class" "flex items-start gap-x-3"]
      ([El "span" [Attr "class" ("mt-1 " ++ (SEVERITY_COLORS (severity notification)))]
        [El (icon_tag (notificationIcon (tags notification))) [Attr "class" "size-5"] []];
       El "span" [Attr "class" "flex-1 min-w-0"]
        [El "span" [Attr "class" "block font-medium text-sm"]
          [Text (subject notification)];
         El "span" [Attr "class" "block text-sm text-fg-muted mt-1"]
          [Text (body notification)];
         El "span" [Attr "class" "block text-xs text-fg-subtle mt-2"]
          [Text (formatRelativeTime (Some (created_at notification)))]]]
      ++ when (unread notification) (
          [El "span" [Attr "class" "size-2 bg-accent rounded-full mt-2"] []]))]].

Definition NotificationCenter_view : html center_event :=
  [El "Popover.Root" [Flag "open" showDropdown; On "openChange" (SetOpen (negb showDropdown))]
    [El "Popover.Trigger" [Attr "class" "btn btn-ghost btn-icon relative"; Attr "aria-label" "Notifications"]
      ([El "Bell" [Attr "class" "size-5"] []]
      ++ when ((0 <? unreadCount)%Z) (
          [El "span" [Attr "class" "absolute -top-1 -right-1 bg-danger-solid text-white text-xs rounded-full size-5 flex items-center justify-center"]
            [Text (if (9 <? unreadCount)%Z then "9+" else (string_of_Z unreadCount))]]));
     El "Popover.Portal" []
      [El "Popover.Content" [Attr "align" "end"; Attr "sideOffset" "8"; Attr "class" "floating-panel w-96 p-0"]
        [El "div" [Attr "class" "p-4 border-b"]
          ([El "div" [Attr "class" "flex justify-between items-center"]
            ([El "h3" [Attr "class" "font-semibold text-lg"]
              [Text "Notifications"]]
            ++ when ((0 <? unreadCount)%Z) (
                [El "button" [Attr "type" "button"; On "click" ReadAll;
                              Attr "class" "text-sm text-info hover:underline"]
                  [Text "Mark all as read"]]))]
          ++ when ask (
              [El "button" [Attr "type" "button"; On "click" AskPermission;
                            Attr "class" "mt-2 w-full text-xs text-fg-muted hover:text-info flex items-center justify-center gap-1"]
                [El "Bell" [Attr "class" "size-3"] [];
                 Text " Enable desktop notifications"]]));
         El "div" [Attr "class" "max-h-96 overflow-y-auto"]
          ((if pending then
              [El "div" [Attr "class" "p-8 text-center"]
                (Spinner_view "small" "primary" [])]
            else if (no_rows shown) then
              [El "div" [Attr "class" "p-8 text-center text-fg-muted"]
                [Text "No notifications yet"]]
            else each (λ notification, notification_id (about notification)) shown (λ notification,
                  center_item notification)));
         El "div" [Attr "class" "p-3 border-t"]
          [El "button" [Attr "type" "button"; On "click" ViewAll;
                        Attr "class" "block w-full text-center text-sm text-info hover:underline bg-transparent border-none cursor-pointer"]
            [Text "View all notifications"]]]]]].

End NotificationCenter_view.

(** ** [routes/(auth)/notifications/+page.svelte] *)

Section NotificationsPage_view.
Context (formatRelativeTime : option jstr → jstr) (shown : list shown_notification) (unreadCount : Z) (pending : bool) (deletions : removal).

Definition message (notification : shown_notification) : html notifications_event :=
  [El "h3" [Attr "class" "font-semibold"]
    [Text (subject notification)];
   El "p" [Attr "class" "text-sm text-fg-muted mt-1"]
    [Text (body notification)]].

Definition notification_article (notification : shown_notification) : html notifications_event :=
  [El "article" [Attr "class" (class_list [Some "card flex items-start gap-4 p-4"; if (unread notification) then Some "bg-info-soft border-info/30" else None])]
    ([El (icon_tag (notificationIcon (tags notification))) [Attr "class" ("size-5 mt-1 shrink-0 " ++ SEVERITY_COLORS (severity notification))] []]
    ++ [El "div" [Attr "class" "flex-1"]
      [El "div" [Attr "class" "flex items-start justify-between"]
        ((if (unread notification) then
            [El "button" [Attr "type" "button"; Attr "class" "flex-1 text-left"; Attr "title" "Mark as read";
                          On "click" (MarkOne notification)]
              (message notification)]
          else [El "div" [Attr "class" "flex-1"]
              (message notification)])
        ++ [El "button" [Attr "type" "button"; On "click" (DeleteOne (notification_id (about notification)));
                      Attr "class" "btn btn-ghost btn-sm text-danger hover:bg-danger-soft ml-4";
                      Flag "disabled" (isDeleting deletions (notification_id (about notification)));
                      Attr "aria-label" "Delete notification"]
          ((if (isDeleting deletions (notification_id (about notification))) then
              Spinner_view "small" "primary" []
            else [El "Trash" [Attr "class" "size-4"] []]))]);
       El "div" [Attr "class" "flex items-center gap-4 mt-3"]
        ([El "span" [Attr "class" "inline-flex items-center gap-1 text-xs text-fg-subtle"]
          [El "Clock" [Attr "class" "size-4"] [];
           Text (formatRelativeTime (Some (created_at notification)))];
         El "span" [Attr "class" ("badge badge-neutral " ++ (SEVERITY_COLORS (severity notification)))]
          [Text (NotificationSeverity_value (severity notification))]]
        ++ when (negb (no_rows (tags notification))) (
            [El "span" [Attr "class" "flex flex-wrap gap-1"]
              (each (λ tag, tag) (take 6 (tags notification)) (λ tag,
                  [El "span" [Attr "class" "badge badge-neutral border px-1.5 text-fg-muted"]
                    [Text tag]]))])
        ++ when (negb (unread notification)) (
            [El "span" [Attr "class" "text-xs text-success"]
              [Text (NotificationStatus_value (status (about notification)))]]))]])].

Definition NotificationsPage_view : html notifications_event :=
  [El "div" [Attr "class" "page max-w-5xl"]
    ([El "div" [Attr "class" "card p-4 mb-6"]
      [El "div" [Attr "class" "grid grid-cols-1 md:grid-cols-4 gap-3"]
        [El "div" [Attr "class" "field"]
          [El "label" [Attr "for" "include-tags"]
            [Text (fieldTitle "include_tags")];
           El "input" [Attr "id" "include-tags"; Attr "class" "w-full";
                       Attr "placeholder" "e.g. execution,completed"; OnInput "value" (EnterInput "include")] []];
         El "div" [Attr "class" "field"]
          [El "label" [Attr "for" "exclude-tags"]
            [Text (fieldTitle "exclude_tags")];
           El "input" [Attr "id" "exclude-tags"; Attr "class" "w-full"; Attr "placeholder" "e.g. external_alert";
                       OnInput "value" (EnterInput "exclude")] []];
         El "div" [Attr "class" "field"]
          [El "label" [Attr "for" "tag-prefix"]
            [Text (fieldTitle "tag_prefix")];
           El "input" [Attr "id" "tag-prefix"; Attr "class" "w-full"; Attr "placeholder" "e.g. exec:";
                       OnInput "value" (EnterInput "prefix")] []];
         El "div" [Attr "class" "flex items-end"]
          [El "button" [Attr "type" "button"; Attr "class" "btn btn-primary w-full"; On "click" ApplyFilters]
            [Text "Filter"]]]];
     El "div" [Attr "class" "flex justify-between items-center mb-8"]
      ([El "h1" []
        [Text "Notifications"]]
      ++ when (negb (no_rows shown) && (0 <? unreadCount)%Z) (
          [El "button" [Attr "type" "button"; On "click" MarkAll; Attr "class" "btn btn-secondary-outline btn-sm"]
            [Text "Mark all as read"]]))]
    ++ (if pending then
        [El "div" [Attr "class" "flex justify-center items-center h-64"]
          (Spinner_view "xlarge" "primary" [])]
      else if (no_rows shown) then
        [El "div" [Attr "class" "card p-12 text-center"]
          [El "Bell" [Attr "class" "size-16 mx-auto mb-4 text-fg-subtle"] [];
           El "h3" [Attr "class" "text-lg font-semibold mb-2"]
            [Text "No notifications yet"];
           El "p" [Attr "class" "text-fg-muted"]
            [Text "You'll see notifications here when there are updates about your executions or system events."]]]
      else [El "div" [Attr "class" "space-y-3"]
          (each (λ notification, notification_id (about notification)) shown (λ notification,
              notification_article notification))]))].

End NotificationsPage_view.
