(* ===== verification/EventsView.v ===== *)
(** * The events' administration: markup

    [routes/admin/events/+page.svelte] with the components of [components/admin/events]. *)

From Stdlib Require Import SpecFloat.
From S2P Require Import Prelude JsString JsValue ApiEnums Formatters Pager Html CommonView EventFilters EventsPage.

Record browsed_event := mkBrowsed {
  event_id : jstr;
  event_type : EventType;
  event_time : jstr;
  event_user : option jstr;
  event_service : option jstr;
}.

Record event_detail := mkDetail {
  detail_id : jstr;
  detail_type : EventType;
  detail_time : jstr;
  detail_aggregate : option jstr;
}.

Record related_event := mkRelated { related_id : jstr; related_type : EventType; related_time : jstr }.

(** A result's time is there when it is not zero. *)
Record replay_result := mkReplayResult {
  result_id : jstr;
  result_status : ExecutionStatus;
  wall_seconds : option double;
  result_stdout : option jstr;
  result_stderr : option jstr;
}.

(** An error is the event it is about and what went wrong. *)
Record replay_session := mkSession {
  session_status : ReplayStatus;
  replayed_events : Z;
  session_total : Z;
  progress_percentage : double;
  session_errors : list (option jstr * jstr);
  execution_results : list replay_result;
}.

Record user_overview := mkOverview {
  o_user_id : jstr; o_username : jstr; o_email : jstr; o_role : UserRole; o_is_active : bool; o_is_superuser : bool;
  o_bypass : bool; o_multiplier : double; o_custom_limits : bool;
  o_succeeded : Z; o_failed : Z; o_timeout : Z; o_cancelled : Z; o_terminal_total : Z; o_total_events : Z;
  o_recent : list event_detail;
}.

(** The data of the page's queries, of its dialogs' and of its banner's stream. *)
Record events_data := mkEventsData {
  events : list browsed_event;
  event_total : Z;
  fetching : bool;
  loading : bool;
  stats : option event_stats;
  session : option replay_session;
  shown_event : option event_detail;
  related : list related_event;
  overview_loading : bool;
  overview : option user_overview;
}.

Inductive events_event :=
| ToggleFilters | Refetch | Export (f : ApiEnums.ExportFormat)
| ApplyFilters | ClearFilters | SelectTypes (sel : list EventType) | EnterText (key t : jstr) | EnterTime (key t : jstr)
| Paging (l : Pager.label jsval)
| ViewDetails (event_id : jstr) | ViewUser (user_id : jstr)
| AskReplay (event_id : jstr) (dry_run : bool) | AskDelete (event_id : jstr)
| DetailsReplay (event_id : option jstr) | ConfirmReplay | CloseDialog | CloseBanner.

Definition or_dash (s : option jstr) : jstr := match s with Some ((_ :: _) as s) => s | _ => "-" end.

Definition field_text (key : jstr) (v : jsval) : jstr := match prop key v with VStr s => s | _ => [] end.

(** [Math.min(x, 100)]. *)
Definition min100 (x : double) : double := if SFltb (double_of_Z 100) x then double_of_Z 100 else x.

(** What the filters hold. *)
Definition filter_value_of (key : jstr) (f : list (jstr * jsval)) : jsval := default VUndefined (obj_get key f).
Definition filter_text (key : jstr) (f : list (jstr * jsval)) : jstr :=
  match filter_value_of key f with VStr s => s | _ => [] end.

Definition type_selected (t : EventType) (f : list (jstr * jsval)) : bool :=
  match filter_value_of "event_types" f with
  | VArr l => existsb (λ v, match v with VStr s => s =js EventType_value t | _ => false end) l
  | _ => false
  end.

(** The selection in which one option is the other way round; every selection is some of these. *)
Definition toggled (t : EventType) (f : list (jstr * jsval)) : list EventType :=
  List.filter (λ u, xorb (type_selected u f) (EventType_value u =js EventType_value t)) EVENT_TYPES.

(** ** [components/admin/events/EventDetailsModal.svelte] *)

Section EventDetailsModal_view.
Context (formatTimestamp : option jstr → jstr) (pretty : event_detail → jstr) (eventData : option event_detail) (relatedEvents : list related_event).

Definition EventDetailsModal_view : html events_event :=
  Modal_view true "Event Details" CloseDialog "lg"
    ((match eventData with Some d =>
        [El "div" [Attr "class" "space-y-4"]
          ([El "div" []
            [El "h4" [Attr "class" "font-semibold mb-2"]
              [Text "Basic Information"];
             El "dl" [Attr "class" "grid grid-cols-[auto_1fr] *:px-4 *:py-2 *:border-b *:border-border [&>dt]:font-semibold"]
              [El "dt" []
                [Text (fieldTitle "event_id")];
               El "dd" [Attr "class" "font-mono text-sm"]
                [Text (detail_id d)];
               El "dt" []
                [Text (fieldTitle "event_type")];
               El "dd" []
                [El "div" [Attr "class" "flex items-center gap-2"]
                  [El "span" [Attr "class" ((getEventTypeColor (detail_type d)) ++ " shrink-0");
                              Attr "title" (EventType_value (detail_type d))]
                    (EventTypeIcon_view (detail_type d) 20);
                   El "span" [Attr "class" (getEventTypeColor (detail_type d))]
                    [Text (EventType_value (detail_type d))]]];
               El "dt" []
                [Text (fieldTitle "timestamp")];
               El "dd" [Attr "class" "text-sm"]
                [Text (formatTimestamp (Some (detail_time d)))];
               El "dt" []
                [Text (fieldTitle "aggregate_id")];
               El "dd" [Attr "class" "font-mono text-sm"]
                [Text (or_dash (detail_aggregate d))]]];
           El "div" []
            [El "h4" [Attr "class" "font-semibold mb-2"]
              [Text (fieldTitle "event")];
             El "pre" [Attr "class" "bg-muted p-3 rounded overflow-auto text-sm font-mono max-h-96"]
              [Text (pretty d)]]]
          ++ when (negb (no_rows relatedEvents)) (
              [El "div" []
                [El "h4" [Attr "class" "font-semibold mb-2"]
                  [Text (fieldTitle "related_events")];
                 El "div" [Attr "class" "space-y-1"]
                  (each (λ related, related_id related) relatedEvents (λ related,
                      [El "button" [Attr "type" "button"; On "click" (ViewDetails (related_id related));
                                    Attr "class" "flex justify-between items-center w-full p-2 bg-muted rounded hover:bg-fg/10 transition-colors"]
                        [El "span" [Attr "class" (getEventTypeColor (related_type related))]
                          [Text (EventType_value (related_type related))];
                         El "span" [Attr "class" "text-sm text-fg-muted"]
                          [Text (formatTimestamp (Some (related_time related)))]]]))]]))]
    | _ => [] end))
    ([El "button" [Attr "type" "button"; On "click" (DetailsReplay (detail_id <$> eventData));
                  Attr "class" "btn btn-primary"]
      [Text "Replay Event"];
     El "button" [Attr "type" "button"; On "click" CloseDialog; Attr "class" "btn btn-secondary-outline"]
      [Text "Close"]]).

End EventDetailsModal_view.

(** ** [components/admin/events/EventFilters.svelte] *)

Section EventFilters_view.
Context (format_local : jstr → jstr) (f : list (jstr * jsval)).

Definition EventFilters_view : html events_event :=
  [El "div" [Attr "class" "card mb-6"]
    [El "div" [Attr "class" "p-4"]
      [El "div" [Attr "class" "flex items-center justify-between mb-3"]
        [El "h3" [Attr "class" "text-sm font-semibold uppercase tracking-wide"]
          [Text "Filter Events"];
         El "div" [Attr "class" "flex gap-2"]
          [El "button" [Attr "type" "button"; On "click" ClearFilters; Attr "class" "btn btn-ghost btn-sm"]
            [Text "Clear All"];
           El "button" [Attr "type" "button"; On "click" ApplyFilters; Attr "class" "btn btn-primary btn-sm"]
            [Text "Apply"]]];
       El "div" [Attr "class" "space-y-3"]
        [El "div" [Attr "class" "grid grid-cols-1 sm:grid-cols-2 lg:grid-cols-4 xl:grid-cols-5 gap-3"]
          [El "div" [Attr "class" "field lg:col-span-1"]
            [El "label" [Attr "for" "event-types-filter"]
              [Text (fieldTitle "event_types")];
             El "select" [Attr "id" "event-types-filter"; Flag "multiple" true;
                          Attr "class" "form-select-standard text-sm h-20";
                          Attr "title" "Hold Ctrl/Cmd to select multiple"]
              (each (λ type, EventType_value type) EVENT_TYPES (λ type,
                  [El "option" [On "value" (SelectTypes (toggled type f));
                                Flag "selected" (type_selected type f); Attr "class" "text-xs"]
                    [Text (EventType_value type)]]))];
           El "div" [Attr "class" "field"]
            [El "label" [Attr "for" "search-filter"]
              [Text (fieldTitle "search_text")];
             El "input" [Attr "id" "search-filter"; Attr "type" "text";
                         Attr "value" (filter_text "search_text" f); OnInput "input" (EnterText "search_text");
                         Attr "class" "form-input-standard text-sm"] []];
           El "div" [Attr "class" "field"]
            [El "label" [Attr "for" "aggregate-filter"]
              [Text (fieldTitle "aggregate_id")];
             El "input" [Attr "id" "aggregate-filter"; Attr "type" "text";
                         Attr "value" (filter_text "aggregate_id" f); OnInput "input" (EnterText "aggregate_id");
                         Attr "placeholder" "exec_id"; Attr "class" "form-input-standard text-sm font-mono"] []];
           El "div" [Attr "class" "field"]
            [El "label" [Attr "for" "user-filter"]
              [Text (fieldTitle "user_id")];
             El "input" [Attr "id" "user-filter"; Attr "type" "text"; Attr "value" (filter_text "user_id" f);
                         OnInput "input" (EnterText "user_id"); Attr "placeholder" "user_123";
                         Attr "class" "form-input-standard text-sm font-mono"] []]];
         El "div" [Attr "class" "grid grid-cols-1 sm:grid-cols-2 lg:grid-cols-3 gap-3"]
          [El "div" [Attr "class" "field"]
            [El "label" [Attr "for" "service-filter"]
              [Text (fieldTitle "service_name")];
             El "input" [Attr "id" "service-filter"; Attr "type" "text";
                         Attr "value" (filter_text "service_name" f); OnInput "input" (EnterText "service_name");
                         Attr "placeholder" "execution-service"; Attr "class" "form-input-standard text-sm"] []];
           El "div" [Attr "class" "field"]
            [El "label" [Attr "for" "start-time-filter"]
              [Text (fieldTitle "start_time")];
             El "input" [Attr "id" "start-time-filter"; Attr "type" "datetime-local";
                         Attr "value" (inputValue format_local (filter_value_of "start_time" f));
                         OnInput "input" (EnterTime "start_time"); Attr "class" "form-input-standard text-sm"] []];
           El "div" [Attr "class" "field"]
            [El "label" [Attr "for" "end-time-filter"]
              [Text (fieldTitle "end_time")];
             El "input" [Attr "id" "end-time-filter"; Attr "type" "datetime-local";
                         Attr "value" (inputValue format_local (filter_value_of "end_time" f));
                         OnInput "input" (EnterTime "end_time"); Attr "class" "form-input-standard text-sm"] []]]]]]].

End EventFilters_view.

(** ** [components/admin/events/EventsTable.svelte] *)

Section EventsTable_view.
Context `{!TablePaging} (formatDateOnly formatTimeOnly : option jstr → jstr) (events : list browsed_event) (p : PaginationState) (rowCount : Z) (loading : bool).

Definition timeCell (event : browsed_event) : html events_event :=
  [El "button" [Attr "type" "button"; Attr "class" "text-left hover:underline";
                On "click" (ViewDetails (event_id event));
                Attr "aria-label" ("View details for event " ++ (js_slice 0 8 (event_id event)))]
    [El "div" [Attr "class" "text-xs text-fg-muted"]
      [Text (formatDateOnly (Some (event_time event)))];
     El "div" [Attr "class" "text-sm"]
      [Text (formatTimeOnly (Some (event_time event)))]]].

Definition typeCell (event : browsed_event) : html events_event :=
  [El "Tooltip.Root" []
    [El "Tooltip.Trigger" [Attr "class" "cursor-help rounded";
                           Attr "aria-label" (EventType_value (event_type event))]
      [El "span" [Attr "class" (getEventTypeColor (event_type event)); Attr "data-testid" "event-type-icon";
                  Attr "data-event-type" (EventType_value (event_type event))]
        (EventTypeIcon_view (event_type event) 20)];
     El "Tooltip.Portal" []
      [El "Tooltip.Content" [Attr "side" "bottom"; Attr "align" "start"; Attr "sideOffset" "6";
                             Attr "class" "tooltip-content"]
        [El "div" [Attr "class" "font-medium"]
          [Text (EventType_value (event_type event))];
         El "div" [Attr "class" "text-fg-subtle text-xs font-mono mt-0.5"]
          [Text (js_slice 0 8 (event_id event));
           Text "..."]]]]].

Definition userCell (event : browsed_event) : html events_event :=
  (match event_user event with
    | Some ((_ :: _) as userId) => [El "button" [Attr "type" "button";
                    Attr "class" "text-info hover:underline text-left font-mono text-xs truncate";
                    Attr "title" "View user overview"; On "click" (ViewUser userId)]
        [Text userId]]
    | _ => [El "span" [Attr "class" "text-fg-muted"]
        [Text "-"]]
    end).

Definition serviceCell (event : browsed_event) : html events_event :=
  [El "div" [Attr "class" "truncate"; Attr "title" (or_dash (event_service event))]
    [Text (or_dash (event_service event))]].

Definition actionsCell (event : browsed_event) : html events_event :=
  [El "div" [Attr "class" "flex flex-wrap gap-1 justify-center"]
    [El "button" [Attr "type" "button"; On "click" (AskReplay (event_id event) true);
                  Attr "class" "p-1 hover:bg-muted rounded"; Attr "title" "Preview replay";
                  Attr "aria-label" "Preview replay"]
      [El "Eye" [Attr "size" "16"] []];
     El "button" [Attr "type" "button"; On "click" (AskReplay (event_id event) false);
                  Attr "class" "p-1 hover:bg-muted rounded text-info"; Attr "title" "Replay";
                  Attr "aria-label" "Replay"]
      [El "Play" [Attr "size" "16"] []];
     El "button" [Attr "type" "button"; On "click" (AskDelete (event_id event));
                  Attr "class" "p-1 hover:bg-muted rounded text-danger"; Attr "title" "Delete";
                  Attr "aria-label" "Delete"]
      [El "Trash" [Attr "size" "16"] []]]].

(** The columns that are given to [createServerTable]. *)
Definition events_columns : list (column browsed_event events_event) :=
  [mkColumn "timestamp" [] timeCell;
   mkColumn "event_type" [] typeCell;
   mkColumn "user_id" [] userCell;
   mkColumn "service_name" "hidden xl:table-cell" serviceCell;
   mkColumn "actions" "text-center" actionsCell].

Definition EventsTable_view : html events_event :=
  DataTable_view events_columns events "Events" loading "No events found" true true
  ++ Pagination_markup p rowCount "events" [10; 25; 50; 100]%Z (Paging LFirst) (Paging LPrevious) (Paging LNext) (Paging LLast) (λ k, Paging (LSize k)).

End EventsTable_view.

(** ** [components/admin/events/ReplayPreviewModal.svelte] *)

Section ReplayPreviewModal_view.
Context (formatTimestamp : option jstr → jstr) (preview : ReplayPreview).

Definition ReplayPreviewModal_view : html events_event :=
  Modal_view true "Replay Preview" CloseDialog "md"
    ([El "p" [Attr "class" "text-sm text-fg-muted -mt-2 mb-4"]
      [Text "Review the events that will be replayed"];
     El "div" [Attr "class" "mb-4"]
      [El "div" [Attr "class" "bg-info-soft border border-info/30 rounded-lg p-4"]
        [El "div" [Attr "class" "flex items-center justify-between"]
          [El "span" [Attr "class" "font-semibold text-info"]
            [Text (string_of_Z (EventsPage.total_events preview));
             Text " event";
             Text (if (negb (EventsPage.total_events preview =? 1)%Z) then "s" else []);
             Text " will be replayed"];
           El "span" [Attr "class" "text-sm text-info"]
            [Text (fieldTitle "dry_run")]]]]]
    ++ when (negb (no_rows (events_preview preview))) (
        [El "div" [Attr "class" "space-y-3"]
          ([El "h3" [Attr "class" "font-medium mb-2"]
            [Text (fieldTitle "events_preview")]]
          ++ each (λ event, field_text "event_id" event) (events_preview preview) (λ event,
              [El "div" [Attr "class" "bg-muted rounded-lg p-3"]
                [El "div" [Attr "class" "flex justify-between items-start"]
                  [El "div" []
                    ([El "div" [Attr "class" "font-mono text-xs text-fg-muted mb-1"]
                      [Text (field_text "event_id" event)];
                     El "div" [Attr "class" "font-medium"]
                      [Text (field_text "event_type" event)]]
                    ++ when (truthy (prop "aggregate_id" event)) (
                        [El "dl" [Attr "class" "flex gap-2 text-sm text-fg-muted mt-1"]
                          [El "dt" []
                            [Text (fieldTitle "aggregate_id")];
                           El "dd" [Attr "class" "font-mono"]
                            [Text (field_text "aggregate_id" event)]]]));
                   El "div" [Attr "class" "text-sm text-fg-muted"]
                    [Text (formatTimestamp (Some (field_text "timestamp" event)))]]]]))])
    ++ [El "div" [Attr "class" "mt-6 bg-warning-soft border border-warning/30 rounded-lg p-4"]
      [El "div" [Attr "class" "flex"]
        [El "TriangleAlert" [Attr "size" "20"; Attr "class" "text-warning mt-0.5 shrink-0"] [];
         El "div" [Attr "class" "ml-3"]
          [El "h3" [Attr "class" "text-sm font-medium text-warning"]
            [Text "Warning"];
           El "div" [Attr "class" "mt-1 text-sm text-warning"]
            [Text "Replaying events will re-process them through the system. This may trigger new executions and create duplicate results if the events have already been processed."]]]]])
    ([El "button" [Attr "type" "button"; On "click" ConfirmReplay; Attr "class" "btn btn-primary"]
      [Text "Proceed with Replay"];
     El "button" [Attr "type" "button"; On "click" CloseDialog; Attr "class" "btn btn-secondary-outline"]
      [Text "Cancel"]]).

End ReplayPreviewModal_view.

(** ** [components/admin/events/ReplayProgressBanner.svelte] *)

Section ReplayProgressBanner_view.
Context (show_number : double → jstr) (session : option replay_session).

Definition result_row (result : replay_result) : html events_event :=
  [El "div" [Attr "class" "bg-surface rounded p-2 text-sm"]
    [El "div" [Attr "class" "flex justify-between items-start"]
      ([El "div" []
        [El "span" [Attr "class" "font-mono text-xs text-fg-muted"]
          [Text (result_id result)];
         El "div" [Attr "class" "flex items-center gap-2 mt-1"]
          ([El "span" [Attr "class" ("badge " ++ (EXECUTION_STATUS_BADGE (result_status result)))]
            [Text (ExecutionStatus_value (result_status result))]]
          ++ (match wall_seconds result with Some t =>
              [El "span" [Attr "class" "text-fg-muted"]
                [Text (toFixed2 t);
                 Text "s"]]
          | _ => [] end))]]
      ++ when (negb (no_rows (default [] (result_stdout result))) || negb (no_rows (default [] (result_stderr result)))) (
          [El "div" [Attr "class" "text-right"]
            ((match result_stdout result with Some ((_ :: _) as out) =>
                [El "div" [Attr "class" "font-mono text-success"]
                  [Text out]]
            | _ => [] end)
            ++ (match result_stderr result with Some ((_ :: _) as out) =>
                [El "div" [Attr "class" "font-mono text-danger"]
                  [Text out]]
            | _ => [] end))]))]].

Definition ReplayProgressBanner_view : html events_event :=
  (match session with Some s =>
      [El "div" [Attr "class" "bg-info-soft border border-info/30 rounded-lg p-4 mb-6 relative"]
        ([El "button" [Attr "type" "button"; On "click" CloseBanner;
                      Attr "class" "absolute top-2 right-2 p-1 hover:bg-info-soft rounded-lg transition-colors";
                      Attr "title" "Close"]
          [El "X" [Attr "size" "20"; Attr "class" "text-info"] []];
         El "div" [Attr "class" "flex items-center justify-between mb-2 pr-8"]
          [El "h3" [Attr "class" "font-semibold text-info"]
            [Text "Replay in Progress"];
           El "span" [Attr "class" "text-sm text-info"]
            [Text (ReplayStatus_value (session_status s))]];
         El "div" [Attr "class" "mb-2"]
          [El "div" [Attr "class" "flex justify-between text-sm text-info mb-1"]
            [El "span" []
              [Text "Progress: ";
               Text (string_of_Z (replayed_events s));
               Text " / ";
               Text (string_of_Z (session_total s));
               Text " events"];
             El "span" []
              [Text (show_number (progress_percentage s));
               Text "%"]];
           El "div" [Attr "class" "w-full bg-info/25 rounded-full h-2 overflow-hidden"]
            [El "div" [Attr "class" "bg-info h-2 rounded-full transition-[width] duration-300";
                       Attr "style" ("width: " ++ (show_number (min100 (progress_percentage s))) ++ "%")] []]]]
        ++ when (negb (no_rows (session_errors s))) (
            [El "div" [Attr "class" "mt-2 space-y-1"]
              (each (λ '(i, err), row_id i) (imap pair (session_errors s)) (λ '(i, err),
                  [El "div" [Attr "class" "p-2 bg-danger-soft border border-danger/30 rounded text-xs"]
                    ((match err.1 with Some ((_ :: _) as failed) =>
                        [El "div" [Attr "class" "font-mono text-fg-muted"]
                          [Text failed]]
                    | _ => [] end)
                    ++ [El "div" [Attr "class" "text-danger"]
                      [Text err.2]])]))])
        ++ when (negb (no_rows (execution_results s))) (
            [El "div" [Attr "class" "mt-4 border-t border-info/30 pt-3"]
              [El "h4" [Attr "class" "text-sm font-semibold text-info mb-2"]
                [Text (fieldTitle "execution_results")];
               El "div" [Attr "class" "space-y-2"]
                (each (λ result, result_id result) (execution_results s) (λ result,
                    result_row result))]]))]
  | _ => [] end).

End ReplayProgressBanner_view.

(** ** [components/admin/events/UserOverviewModal.svelte] *)

Section UserOverviewModal_view.
Context (resolve : jstr → jstr) (formatTimestamp : option jstr → jstr) (show_number : double → jstr) (loading : bool) (overview : option user_overview).

Definition UserOverviewModal_view : html events_event :=
  Modal_view true "User Overview" CloseDialog "lg"
    ((if loading then
        [El "div" [Attr "class" "flex items-center justify-center py-10"]
          (Spinner_view "medium" "primary" [])]
      else match overview with
      | Some o => [El "div" [Attr "class" "grid grid-cols-1 md:grid-cols-2 gap-6"]
          [El "div" []
            [El "h3" [Attr "class" "font-semibold mb-3"]
              [Text (fieldTitle "user")];
             El "dl" [Attr "class" "details"]
              [El "dt" []
                [Text (fieldTitle "user_id")];
               El "dd" [Attr "class" "font-mono"]
                [Text (o_user_id o)];
               El "dt" []
                [Text (fieldTitle "username")];
               El "dd" []
                [Text (o_username o)];
               El "dt" []
                [Text (fieldTitle "email")];
               El "dd" []
                [Text (o_email o)];
               El "dt" []
                [Text (fieldTitle "role")];
               El "dd" []
                [Text (UserRole_value (o_role o))];
               El "dt" []
                [Text (fieldTitle "is_active")];
               El "dd" []
                [Text (formatBoolean (o_is_active o))];
               El "dt" []
                [Text (fieldTitle "is_superuser")];
               El "dd" []
                [Text (formatBoolean (o_is_superuser o))]];
             El "div" [Attr "class" "mt-4"]
              [El "h4" [Attr "class" "font-medium mb-2"]
                [Text (fieldTitle "rate_limit_summary")];
               El "dl" [Attr "class" "details gap-y-1"]
                [El "dt" []
                  [Text (fieldTitle "bypass_rate_limit")];
                 El "dd" []
                  [Text (formatBoolean (o_bypass o))];
                 El "dt" []
                  [Text (fieldTitle "global_multiplier")];
                 El "dd" []
                  [Text (show_number (o_multiplier o))];
                 El "dt" []
                  [Text (fieldTitle "has_custom_limits")];
                 El "dd" []
                  [Text (formatBoolean (o_custom_limits o))]]]];
           El "div" []
            [El "h3" [Attr "class" "font-semibold"]
              [Text (fieldTitle "derived_counts")];
             El "p" [Attr "class" "text-xs text-fg-muted mb-3"]
              [Text "Last 24 hours"];
             El "div" [Attr "class" "grid grid-cols-2 gap-3"]
              [El "div" [Attr "class" "p-3 rounded-lg bg-success-soft"]
                [El "div" [Attr "class" "text-xs text-success"]
                  [Text (fieldTitle "succeeded")];
                 El "div" [Attr "class" "text-xl font-semibold text-success"]
                  [Text (string_of_Z (o_succeeded o))]];
               El "div" [Attr "class" "p-3 rounded-lg bg-danger-soft"]
                [El "div" [Attr "class" "text-xs text-danger"]
                  [Text (fieldTitle "failed")];
                 El "div" [Attr "class" "text-xl font-semibold text-danger"]
                  [Text (string_of_Z (o_failed o))]];
               El "div" [Attr "class" "p-3 rounded-lg bg-warning-soft"]
                [El "div" [Attr "class" "text-xs text-warning"]
                  [Text (fieldTitle "timeout")];
                 El "div" [Attr "class" "text-xl font-semibold text-warning"]
                  [Text (string_of_Z (o_timeout o))]];
               El "div" [Attr "class" "p-3 rounded-lg bg-muted"]
                [El "div" [Attr "class" "text-xs"]
                  [Text (fieldTitle "cancelled")];
                 El "div" [Attr "class" "text-xl font-semibold"]
                  [Text (string_of_Z (o_cancelled o))]]];
             El "dl" [Attr "class" "details mt-3 [&>dd]:font-semibold"]
              [El "dt" []
                [Text (fieldTitle "terminal_total")];
               El "dd" []
                [Text (string_of_Z (o_terminal_total o))];
               El "dt" []
                [Text (fieldTitle "total_events")];
               El "dd" []
                [Text (string_of_Z (o_total_events o))]]]]]
        ++ when (negb (no_rows (o_recent o))) (
            [El "div" [Attr "class" "mt-6"]
              [El "h3" [Attr "class" "font-semibold mb-2"]
                [Text (fieldTitle "recent_events")];
               El "div" [Attr "class" "space-y-1 max-h-48 overflow-auto"]
                (each (λ ev, detail_id ev) (o_recent o) (λ ev,
                    [El "div" [Attr "class" "flex justify-between items-center p-2 bg-muted rounded"]
                      [El "div" [Attr "class" "text-sm"]
                        [El "span" [Attr "class" (getEventTypeColor (detail_type ev))]
                          [Text (EventType_value (detail_type ev))];
                         El "span" [Attr "class" "ml-2 font-mono text-xs text-fg-muted"]
                          [Text (or_dash (detail_aggregate ev))]];
                       El "div" [Attr "class" "text-xs text-fg-muted"]
                        [Text (formatTimestamp (Some (detail_time ev)))]]]))]])
      | _ => [El "div" [Attr "class" "text-sm text-fg-muted"]
          [Text "No data available"]]
      end))
    ([El "a" [Attr "href" (resolve "/admin/users"); Attr "class" "btn btn-secondary-outline"]
      [Text "Open User Management"]]).

End UserOverviewModal_view.

(** ** [routes/admin/events/+page.svelte] *)

Section EventsPage_view.
Context `{!TablePaging} (resolve format_local : jstr → jstr) (formatTimestamp formatDateOnly formatTimeOnly : option jstr → jstr) (show_number : double → jstr) (show_count : Z → jstr).
Context (pretty : event_detail → jstr) (p : events_page) (d : events_data) (pages : PaginationState) (showFilters : bool).

Definition export_icon (f : ApiEnums.ExportFormat) : jstr := match f with ExportFormat_CSV => "FileText" | ExportFormat_JSON => "Code" end.
Definition export_color (f : ApiEnums.ExportFormat) : jstr := match f with ExportFormat_CSV => "text-success" | ExportFormat_JSON => "text-info" end.

Definition EventsPage_view : html events_event :=
  [El "div" [Attr "class" "container mx-auto px-4 pb-8"]
    ([El "div" [Attr "class" "flex flex-col sm:flex-row sm:justify-between sm:items-center gap-4 mb-6"]
      [El "h1" []
        [Text "Event Browser"];
       El "div" [Attr "class" "flex flex-wrap gap-2"]
        [El "button" [Attr "type" "button"; On "click" ToggleFilters;
                      Attr "class" (class_list [Some "btn btn-sm gap-1 sm:gap-2"; Some (if showFilters then "btn-primary ring-2 ring-primary ring-offset-2 ring-offset-page" else "btn-secondary-outline")])]
          ([El "span" [Attr "class" "transition-transform duration-200"; Flag "class:rotate-180" showFilters]
            [El "Funnel" [Attr "size" "16"] []];
           El "span" [Attr "class" "hidden sm:inline"]
            [Text "Filters"]]
          ++ when (hasActiveFilters (VObj (applied p))) (
              [El "span" [Attr "class" ("inline-flex items-center justify-center min-w-[1.25rem] h-5 px-1.5 rounded-full text-xs font-bold " ++ (if showFilters then "bg-surface text-accent" else "bg-primary text-white"))]
                [Text (string_of_Z (Z.of_nat (getActiveFilterCount (VObj (applied p)))))]]));
         El "DropdownMenu.Root" []
          [El "DropdownMenu.Trigger" [Attr "class" "btn btn-sm btn-secondary-outline gap-1 sm:gap-2"]
            [El "Download" [Attr "size" "16"] [];
             El "span" [Attr "class" "hidden sm:inline"]
              [Text "Export"];
             El "ChevronRight" [Attr "size" "12"; Attr "class" "ml-1 rotate-90"] []];
           El "DropdownMenu.Portal" []
            [El "DropdownMenu.Content" [Attr "align" "end"; Attr "sideOffset" "8";
                                        Attr "class" "floating-panel w-48"]
              (each (λ format, ExportFormat_value format) ExportFormat_all (λ format,
                  [El "DropdownMenu.Item" [Attr "class" "floating-item"; On "select" (Export format)]
                    ([El (export_icon format) [Attr "size" "16"; Attr "class" (export_color format)] []]
                    ++ [Text "Export as ";
                     Text (ExportFormat_value format)])]))]];
         El "button" [Attr "type" "button"; On "click" Refetch;
                      Attr "class" "btn btn-sm btn-primary gap-1 sm:gap-2"; Flag "disabled" (fetching d)]
          ((if (fetching d) then
              Spinner_view "small" "primary" []
            else [El "RefreshCw" [Attr "size" "16"] []])
          ++ [El "span" [Attr "class" "hidden sm:inline"]
            [Text "Refresh"]])]]]
    ++ when (negb (no_rows (replaySessionId p))) (
        ReplayProgressBanner_view show_number (session d))
    ++ EventStatsCards_view show_count show_number (stats d) (event_total d)
    ++ when ((negb showFilters) && (hasActiveFilters (VObj (applied p)))) (
        [El "div" [Attr "class" "mb-4 flex flex-wrap items-center gap-2"]
          ([El "span" [Attr "class" "text-xs font-medium text-fg-muted"]
            [Text "Active filters:"]]
          ++ each (λ filter, filter) (getActiveFilterSummary (VObj (applied p))) (λ filter,
              [El "span" [Attr "class" "inline-flex items-center px-2 py-1 rounded-full text-xs font-medium bg-primary/10 text-accent"]
                [Text filter]])
          ++ [El "button" [Attr "type" "button"; On "click" ClearFilters;
                        Attr "class" "inline-flex items-center px-2 py-1 rounded-full text-xs font-medium bg-danger-soft text-danger hover:bg-danger/25 transition-colors"]
            [El "X" [Attr "size" "12"; Attr "class" "mr-1"] [];
             Text " Clear all"]])])
    ++ when showFilters (
        EventFilters_view format_local (filters p))
    ++ [El "div" [Attr "class" "card"]
      [El "div" [Attr "class" "p-6"]
        ([El "div" [Attr "class" "mb-4"]
          [El "h3" [Attr "class" "text-lg font-semibold mb-2"]
            [Text "Events"]]]
        ++ EventsTable_view formatDateOnly formatTimeOnly (events d) pages (event_total d) (loading d))]])]
  ++ (match dialog p with
    | Details _ => EventDetailsModal_view formatTimestamp pretty (shown_event d) (related d)
    | _ => match dialog p with
    | Preview preview => ReplayPreviewModal_view formatTimestamp preview
    | _ => match dialog p with
    | Overview _ => UserOverviewModal_view resolve formatTimestamp show_number (overview_loading d) (overview d)
    | _ => []
    end
    end
    end).

End EventsPage_view.
