(* ===== verification/UsersSpec.v ===== *)
(** * The users' administration: what each component offers

    The controls of the components of [UsersView], as equivalences. *)

From S2P Require Import Prelude JsString JsValue ApiEnums Formatters EventFilters Pager Html CommonView CommonSpec UsersView.

Section components.
Context (pg : list (option jstr)).

Lemma does_booleanFilter o key current f e :
  does pg o (booleanFilter key current f) e ↔ ∃ b, e = SetFilters (f b).
Proof.
  unfold booleanFilter. split; [intros H; offers_inv H; subst; eauto|].
  intros [[[]|] ->]; offers_find.
Qed.
Hint Rewrite does_booleanFilter : offers.

Lemma submit_booleanFilter key current f g : has_submit (booleanFilter key current f) g ↔ False.
Proof. unfold booleanFilter. split; [|done]. intros H. submit_inv H. Qed.
Hint Rewrite submit_booleanFilter : submits.
#[local] Opaque booleanFilter.

(** The filters that can be chosen next. *)
Inductive choice (f : UserListFilters) (advanced : bool) : UserListFilters → Prop :=
| choose_search t : choice f advanced (with_search t f)
| choose_any_role : choice f advanced (with_role None f)
| choose_role r : r ∈ UserRole_all → choice f advanced (with_role (Some (UserRole_value r)) f)
| choose_active b : choice f advanced (with_is_active b f)
| choose_none : hasFiltersActive f = true → choice f advanced no_user_filters
| choose_bypass b : advanced = true → choice f advanced (with_bypass b f)
| choose_custom_limits b : advanced = true → choice f advanced (with_custom_limits b f)
| choose_multiplier b : advanced = true → choice f advanced (with_multiplier b f).

Lemma does_UserFilters o f advanced e :
  does pg o (UserFilters_view f advanced (hasFiltersActive f)) e ↔
  e = ToggleAdvanced ∨ ∃ g, e = SetFilters g ∧ choice f advanced g.
Proof.
  unfold UserFilters_view. split.
  - intros H. offers_inv H; unfold id in *; rewrite ?negb_false_iff in *.
    all: asked H.
    all: first [by left|right; eexists; split; [reflexivity|econstructor; eassumption]].
  - intros [->|(g & -> & Hg)]; [offers_find|]. destruct Hg as [t| |r Hr|b|Ha|b ->|b ->|b ->].
    + offers_find.
    + offers_find.
    + offers_find.
    + assert (does pg o (booleanFilter "is_active" (u_is_active f) (λ b, with_is_active b f)) (SetFilters (with_is_active b f)))
        by (apply does_booleanFilter; eauto). offers_find.
    + rewrite Ha. cbn [negb]. offers_find.
    + assert (does pg o (booleanFilter "bypass_rate_limit" (u_bypass_rate_limit f) (λ b, with_bypass b f)) (SetFilters (with_bypass b f)))
        by (apply does_booleanFilter; eauto). offers_find.
    + assert (does pg o (booleanFilter "has_custom_limits" (u_has_custom_limits f) (λ b, with_custom_limits b f)) (SetFilters (with_custom_limits b f)))
        by (apply does_booleanFilter; eauto). offers_find.
    + assert (does pg o (booleanFilter "custom_multiplier" (u_custom_multiplier f) (λ b, with_multiplier b f)) (SetFilters (with_multiplier b f)))
        by (apply does_booleanFilter; eauto). offers_find.
Qed.
Lemma submit_UserFilters f advanced active g : has_submit (UserFilters_view f advanced active) g ↔ False.
Proof. unfold UserFilters_view. split; [|done]. intros H. submit_inv H. Qed.

Hint Rewrite does_UserFilters : offers.
#[local] Opaque UserFilters_view.

Lemma does_textField o editing saving name type autocomplete placeholder e :
  does pg o (textField editing saving name type autocomplete placeholder) e ↔ saving = false ∧ ∃ t, e = EnterUser name t.
Proof.
  unfold textField. split; [intros H; offers_inv H; auto|]. intros [-> [t ->]]. offers_find.
Qed.
Hint Rewrite does_textField : offers.

Lemma submit_textField editing saving name type autocomplete placeholder f :
  has_submit (textField editing saving name type autocomplete placeholder) f ↔ False.
Proof. unfold textField. split; [|done]. intros H. submit_inv H. Qed.
Hint Rewrite submit_textField : submits.
#[local] Opaque textField.

(** What a form for a user asks for. *)
Definition form_does (saving : bool) (e : users_event) : Prop :=
  e = CloseDialog
  ∨ saving = false
    ∧ match e with
      | EnterUser field t => field ∈ ["username"; "email"; "password"]%js ∨ field = "role" ∧ t ∈ map UserRole_value UserRole_all
      | TickUser _ | SubmitUser => True
      | _ => False
      end.

Lemma does_UserFormModal o editing saving e :
  does pg o (UserFormModal_view editing saving) e ↔ form_does saving e.
Proof.
  unfold UserFormModal_view, form_does. split.
  - intros H. apply does_Modal in H as [->|[H|H]]; [by left|..]; offers_inv H; unfold id in *.
    + subst. right. split; [|done]. submitted Hif. by apply negb_true_iff.
    + right. destruct H as (-> & t & ->). rewrite !elem_of_cons. tauto.
    + right. destruct H as (-> & t & ->). rewrite !elem_of_cons. tauto.
    + right. destruct H as (-> & t & ->). rewrite !elem_of_cons. tauto.
    + subst. right. split; [done|]. right. split; [done|]. by apply list_elem_of_fmap_2.
    + destruct H as [b ->]. by right.
    + by left.
  - intros H. apply does_Modal. destruct H as [->|[-> H]]; [by left|]. right. left. destruct e; try done.
    + assert (∀ n ty a ph, does pg true (textField editing false n ty a ph) (EnterUser n t)) as Ht
        by (intros; apply does_textField; eauto).
      destruct H as [H|[-> (r & -> & Hr)%list_elem_of_fmap]]; [|offers_find].
      repeat (apply elem_of_cons in H as [->|H]; [offers_find|]). by apply not_elem_of_nil in H.
    + offers_find.
    + offers_form.
Qed.

Lemma does_DeleteUserModal o u cascade pending e :
  does pg o (DeleteUserModal_view u cascade pending) e ↔
  e = CloseDialog ∨ (∃ b, e = TickCascade b) ∨ (pending = false ∧ e = ConfirmDelete (user_id u) cascade).
Proof.
  unfold DeleteUserModal_view. split.
  - intros H. apply does_Modal in H as [->|[H|H]]; [by left|..]; offers_inv H; unfold id in *; auto.
  - intros H. apply does_Modal. destruct H as [->|[[b ->]|[-> ->]]]; [by left|right; left; offers_find..].
Qed.

(** What the dialog of the limits asks for, once the limits are there. *)
Definition limits_does (u : user) (ls : limits_state) (e : users_event) : Prop :=
  let rule index := (index < length (form_rules ls))%nat ∧ bypass ls = false in
  match e with
  | TickLimit field _ => field = "bypass_rate_limit"%js
  | EnterLimit field _ => field = "notes"%js ∨ field = "global_multiplier"%js ∧ bypass ls = false
  | AddRule => bypass ls = false
  | RemoveRule index | TickRule index _ => rule index
  | EnterRule index field t =>
      rule index ∧ (field ∈ ["endpoint_pattern"; "requests"; "window_seconds"]%js
                    ∨ field = "group" ∧ t ∈ map EndpointGroup_value EndpointGroup_all
                    ∨ field = "algorithm" ∧ t ∈ map RateLimitAlgorithm_value RateLimitAlgorithm_all)
  | ResetLimits id => id = user_id u ∧ current_usage ls ≠ []
  | SubmitLimits => Some "rate-limits-form"%js ∈ pg
  | _ => False
  end.

Lemma does_field_errors o e : does pg o field_errors e ↔ False.
Proof. unfold field_errors. split; [|done]. intros H. offers_inv H. Qed.
Lemma does_default_rule o m ls r e : does pg o (default_rule m ls r) e ↔ False.
Proof. unfold default_rule. split; [|done]. intros H. offers_inv H. Qed.
Hint Rewrite does_field_errors does_default_rule : offers.

Lemma submit_field_errors f : has_submit field_errors f ↔ False.
Proof. unfold field_errors. split; [|done]. intros H. submit_inv H. Qed.
Lemma submit_default_rule m ls r f : has_submit (default_rule m ls r) f ↔ False.
Proof. unfold default_rule. split; [|done]. intros H. submit_inv H. Qed.
Hint Rewrite submit_field_errors submit_default_rule : submits.
#[local] Opaque field_errors default_rule.

Lemma does_quick_settings o m ls e :
  does pg o (quick_settings m ls) e ↔
  match e with
  | TickLimit field _ => field = "bypass_rate_limit"%js
  | EnterLimit field _ => field = "notes"%js ∨ field = "global_multiplier"%js ∧ bypass ls = false
  | _ => False
  end.
Proof.
  unfold quick_settings. split; [intros H; offers_inv H; destruct H as [t ->]; auto|].
  destruct e; try done; [intros ->; offers_find|]. intros [->|[-> Hb]]; [offers_find|]. rewrite Hb. offers_find.
Qed.

Lemma submit_quick_settings m ls f : has_submit (quick_settings m ls) f ↔ False.
Proof. unfold quick_settings. split; [|done]. intros H. submit_inv H. Qed.

Lemma does_rule_row o er ls index r e :
  does pg o (rule_row er ls index r) e ↔
  bypass ls = false
  ∧ match e with
    | RemoveRule i | TickRule i _ => i = index
    | EnterRule i field t =>
        i = index ∧ (field ∈ ["endpoint_pattern"; "requests"; "window_seconds"]%js
                     ∨ field = "group" ∧ t ∈ map EndpointGroup_value EndpointGroup_all
                     ∨ field = "algorithm" ∧ t ∈ map RateLimitAlgorithm_value RateLimitAlgorithm_all)
    | _ => False
    end.
Proof.
  unfold rule_row. split.
  - intros H. offers_inv H; unfold id in *; (split; [done|]).
    all: asked H; try done.
    all: split; [done|]; first [left; rewrite !elem_of_cons; tauto|right].
    + left. split; [done|]. by apply list_elem_of_fmap_2.
    + right. split; [done|]. by apply list_elem_of_fmap_2.
  - intros [Hb H]. rewrite Hb. destruct e; try done.
    + subst. offers_find.
    + destruct H as [-> [H|[[-> (x & -> & Hx)%list_elem_of_fmap]|[-> (x & -> & Hx)%list_elem_of_fmap]]]]; [|offers_find..].
      repeat (apply elem_of_cons in H as [->|H]; [offers_find|]). by apply not_elem_of_nil in H.
    + subst. offers_find.
Qed.

Lemma submit_rule_row er ls index r f : has_submit (rule_row er ls index r) f ↔ False.
Proof. unfold rule_row. split; [|done]. intros H. submit_inv H. Qed.
Hint Rewrite does_quick_settings does_rule_row : offers.
Hint Rewrite submit_quick_settings submit_rule_row : submits.
#[local] Opaque quick_settings rule_row.

(** The goal is what a rule's row asks for. *)
Ltac find_row Hi :=
  let r := fresh "r" in let Hr := fresh "Hr" in
  apply lookup_lt_is_Some in Hi as [r Hr];
  lazymatch type of Hr with form_rules ?ls !! ?i = _ =>
  lazymatch goal with |- does ?pg _ ?p ?e =>
  lazymatch p with context [rule_row ?er ls] =>
    assert (does pg true (rule_row er ls i r) e) by (by apply does_rule_row);
    assert ((i, r) ∈ imap pair (form_rules ls)) by (apply elem_of_lookup_imap; eauto);
    assert (negb (no_rows (form_rules ls)) = true) by (by destruct (form_rules ls)); offers_find
  end end end.

Lemma does_RateLimitsModal o er m u saving ls e :
  does pg o (RateLimitsModal_view er m u saving ls) e ↔
  e = CloseDialog ∨ (limits_pending ls = false ∧ limits_does u ls e).
Proof.
  unfold RateLimitsModal_view. split.
  - intros H. apply does_Modal in H as [->|[H|H]]; [by left| |offers_inv H].
    destruct (limits_pending ls); [offers_inv H|]. offers_inv H; unfold id in *.
    + subst. right. split; [done|]. apply can_submit_true in Hif as [Hif|(i & [= <-] & Hi)]; [submit_inv Hif|exact Hi].
    + right. split; [done|]. destruct e; try done; exact H.
    + subst. by right.
    + destruct x as [index r]. autorewrite with offers in H. destruct H as [Hb H].
      apply elem_of_lookup_imap in Hin as (j & y & [= -> ->] & Hj%lookup_lt_Some). right. split; [done|].
      destruct e; try done; cbn [limits_does]; destruct_and?; subst; auto.
    + subst. right. split; [done|]. split; [done|]. by destruct (current_usage ls).
    + by left.
  - intros [->|[Hp H]]; apply does_Modal; [by left|right; left]. rewrite Hp.
    destruct e as [| | | | | | | | | | |field b|field t| |i|i field t|i b|id|]; try done; cbn [limits_does] in H.
    + assert (does pg true (quick_settings m ls) (TickLimit field b)) by (by apply does_quick_settings). offers_find.
    + assert (does pg true (quick_settings m ls) (EnterLimit field t)) by (by apply does_quick_settings). offers_find.
    + rewrite H. offers_find.
    + destruct H as [Hi H]. find_row Hi.
    + destruct H as [[Hi H] Hf]. find_row Hi.
    + destruct H as [Hi H]. find_row Hi.
    + destruct H as [-> H]. assert (negb (no_rows (current_usage ls)) = true) by (by destruct (current_usage ls)). offers_find.
    + apply does_el. left. split; [done|]. right. left. unfold own_submits.
      rewrite (proj2 (can_submit_true _ _ _)); [by apply Exists_cons_hd|]. right. eauto.
Qed.

Lemma submit_RateLimitsModal er m u saving ls f :
  has_submit (RateLimitsModal_view er m u saving ls) f ↔
  limits_pending ls = false ∧ saving = false ∧ f = Some "rate-limits-form"%js.
Proof.
  unfold RateLimitsModal_view. rewrite submit_Modal. split.
  - intros [H|H]; [|submit_inv H]. destruct (limits_pending ls); submit_inv H; [by destruct x; submit_inv H..|].
    by apply negb_true_iff in H.
  - intros (-> & -> & ->). left. submit_find.
Qed.

Lemma submit_UserFormModal editing saving i : has_submit (UserFormModal_view editing saving) (Some i) ↔ False.
Proof. unfold UserFormModal_view. rewrite submit_Modal. split; [|done]. intros [H|H]; submit_inv H; done. Qed.

Lemma submit_DeleteUserModal u cascade pending i : has_submit (DeleteUserModal_view u cascade pending) (Some i) ↔ False.
Proof. unfold DeleteUserModal_view. rewrite submit_Modal. split; [|done]. intros [H|H]; submit_inv H; done. Qed.

#[local] Instance Paging_inj : Inj (=) (=) Paging.
Proof. by intros a b [= ->]. Qed.

Context {TP : TablePaging} {TL : TableLaws}.

Lemma does_UsersTable o ft users (l : listing UserListFilters) loading e :
  listing_ok l →
  does pg o (UsersTable_view ft users (pagination l) (total l) loading) e ↔
  (∃ u, u ∈ users ∧ (e = OpenDialog (Editing u) ∨ e = OpenDialog (Limiting u) ∨ e = OpenDialog (Deleting u)))
  ∨ ∃ a, e = Paging a ∧ page_label [5; 10; 20; 50]%Z a ∧ is_Some (step l a).
Proof.
  intros Hl.
  pose proof (λ a, pagination_does_steps Paging [5; 10; 20; 50]%Z l a Hl ltac:(by repeat constructor)) as Hsteps.
  unfold UsersTable_view. rewrite does_app, does_DataTable, does_when. f_equiv.
  - split.
    + intros (u & c & Hu & Hc & H). exists u. split; [done|]. unfold users_columns in Hc.
      repeat (apply elem_of_cons in Hc as [->|Hc]; [cbn [col_cell] in H; unfold roleCell, statusCell, actionsCell in H; offers_inv H; subst; auto|]).
      by apply not_elem_of_nil in Hc.
    + intros (u & Hu & H). exists u, (mkColumn "actions" [] actionsCell). split; [done|].
      split; [unfold users_columns; rewrite !elem_of_cons; tauto|]. cbn [col_cell]. unfold actionsCell.
      destruct H as [->|[->| ->]]; offers_find.
  - split.
    + intros [_ H]. offers_inv H. assert (∃ a, e = Paging a) as [a ->].
      { destruct H as (_ & [(k & _ & ->)|(_ & [[_ [->| ->]]|[[_ ->]|[_ ->]]])]); eauto. }
      exists a. split; [done|]. by apply Hsteps.
    + intros (a & -> & H). apply Hsteps in H. split; [destruct H; lia|].
      apply does_el. left. split; [done|]. right. right. by apply does_Pagination.
Qed.

Lemma submit_UsersTable ft users p n loading f : has_submit (UsersTable_view ft users p n loading) f ↔ False.
Proof.
  unfold UsersTable_view. split; [|done]. intros H. apply has_submit_app in H as [H|H].
  - apply submit_DataTable in H as (u & c & _ & Hc & H). unfold users_columns in Hc.
    repeat (apply elem_of_cons in Hc as [->|Hc]; [cbn [col_cell] in H; unfold roleCell, statusCell, actionsCell in H; submit_inv H|]).
    by apply not_elem_of_nil in Hc.
  - submit_inv H.
Qed.
End components.
