(* ===== verification/UsersPage.v ===== *)
(** * The users' administration: what the page lets the admin do

    [UsersView] shows the page of [routes/admin/users], [UsersSpec] says what its components offer, and
    [Pager] keeps its list.  This file puts them together: what the page offers, each paging control a
    step of the list, and the dialogs with their saves, which are answered in any order. *)

From S2P Require Import Prelude JsString JsValue ApiEnums Formatters EventFilters Pager Html CommonView CommonSpec UsersView UsersSpec.

(** ** What the page offers *)

Section page.
Context {TP : TablePaging} {TL : TableLaws}.
Context (formatTimestamp : option jstr → jstr) (effectiveRequests : Z → jstr) (default_multiplier : jstr).

Local Abbreviation page_view l users fetching pending advanced d cascade saving ls :=
  (UsersPage_view formatTimestamp l users fetching pending advanced d cascade saving effectiveRequests default_multiplier ls).

(** What a dialog asks for; a closed one is not there. *)
Definition dialog_does (d : user_dialog) (cascade saving : bool) (ls : limits_state) (e : users_event) : Prop :=
  match d with
  | Closed => False
  | Creating | Editing _ => form_does saving e
  | Deleting u => e = CloseDialog ∨ (∃ b, e = TickCascade b) ∨ (saving = false ∧ e = ConfirmDelete (user_id u) cascade)
  | Limiting u => e = CloseDialog ∨ (limits_pending ls = false
      ∧ limits_does (if saving then [] else [Some "rate-limits-form"%js]) u ls e)
  end.

(** What the page asks for besides. *)
Definition list_does (l : listing UserListFilters) (users : list user) (fetching advanced : bool) (e : users_event) : Prop :=
  match e with
  | OpenDialog d => match d with Closed => False | Creating => True | Editing u | Deleting u | Limiting u => u ∈ users end
  | Refetch => fetching = false
  | ToggleAdvanced => True
  | SetFilters f => choice (filters l) advanced f
  | Paging a => page_label [5; 10; 20; 50]%Z a ∧ is_Some (step l a)
  | _ => False
  end.

Lemma submit_page l users fetching pending advanced d cascade saving ls i :
  has_submit (page_view l users fetching pending advanced d cascade saving ls) (Some i) ↔
  (∃ u, d = Limiting u) ∧ limits_pending ls = false ∧ saving = false ∧ i = "rate-limits-form"%js.
Proof.
  unfold UsersPage_view. rewrite has_submit_app. split.
  - intros [H|H].
    + submit_inv H; [by apply submit_UserFilters in H|by apply submit_UsersTable in H].
    + destruct d; [by apply has_submit_nil in H|by apply submit_UserFormModal in H..|by apply submit_DeleteUserModal in H|].
      apply submit_RateLimitsModal in H as (? & ? & [= ->]). eauto.
  - intros ([u ->] & Hp & Hs & ->). right. by apply submit_RateLimitsModal.
Qed.

Lemma limits_does_page pg pg' u ls e :
  (Some "rate-limits-form"%js ∈ pg ↔ Some "rate-limits-form"%js ∈ pg') → limits_does pg u ls e ↔ limits_does pg' u ls e.
Proof. intros H. by destruct e; cbn [limits_does]; rewrite ?H. Qed.

(** The page offers exactly what its list and its dialog ask for. *)
Lemma offers_page l users fetching pending advanced d cascade saving ls e :
  listing_ok l →
  offers (page_view l users fetching pending advanced d cascade saving ls) e ↔
  list_does l users fetching advanced e ∨ dialog_does d cascade saving ls e.
Proof.
  intros Hl. unfold offers.
  pose proof (submit_page l users fetching pending advanced d cascade saving ls "rate-limits-form") as Hsub.
  set (pg := flat_map submits _). change (has_submit _ _) with (Some "rate-limits-form"%js ∈ pg) in Hsub. clearbody pg.
  unfold UsersPage_view. rewrite does_app. f_equiv.
  - pose proof (does_UsersTable pg true formatTimestamp users l pending e Hl) as Htable.
    pose proof (does_UserFilters pg true (filters l) advanced e) as Hfilters.
    revert Htable Hfilters. generalize (UsersTable_view formatTimestamp users (pagination l) (total l) pending).
    generalize (UserFilters_view (filters l) advanced (hasFiltersActive (filters l))). intros fv tv Htable Hfilters. split.
    + intros H. offers_inv H; unfold id in *; subst; try done.
      * apply Hfilters in H as [->|(g & -> & H)]; done.
      * apply Htable in H as [(u & Hu & [->|[->| ->]])|(a & -> & H)]; done.
    + destruct e as [[| |u|u|u]| | |f| |a| | | | | | | | | | | | |]; intros H; try done; cbn [list_does] in H.
      * offers_find.
      * assert (does pg true tv (OpenDialog (Editing u))) by (apply Htable; eauto). offers_find.
      * assert (does pg true tv (OpenDialog (Deleting u))) by (apply Htable; eauto 6). offers_find.
      * assert (does pg true tv (OpenDialog (Limiting u))) by (apply Htable; eauto 6). offers_find.
      * rewrite H. offers_find.
      * assert (does pg true fv (SetFilters f)) by (apply Hfilters; eauto). offers_find.
      * assert (does pg true fv ToggleAdvanced) by (apply Hfilters; eauto). offers_find.
      * assert (does pg true tv (Paging a)) by (apply Htable; eauto). offers_find.
  - destruct d as [| |u|u|u]; cbn [dialog_does].
    + apply does_nil.
    + apply does_UserFormModal.
    + apply does_UserFormModal.
    + apply does_DeleteUserModal.
    + rewrite does_RateLimitsModal. f_equiv.
      enough (limits_pending ls = false → limits_does pg u ls e ↔ limits_does (if saving then [] else [Some "rate-limits-form"%js]) u ls e)
        by tauto.
      intros Hp. apply limits_does_page. rewrite Hsub, Hp. destruct saving.
      * rewrite elem_of_nil. by split; [intros (_ & _ & ? & _)|].
      * rewrite list_elem_of_singleton. split; [done|eauto].
Qed.

(** C33. The users' page offers exactly what its list and its open dialog allow: every enabled control
    asks for something on this list, and everything on it has such a control; the paging controls are
    the steps of the paged list, so none leads past its pages; and while a dialog saves, nothing that
    saves is offered. *)
Theorem users_page_offers l users fetching pending advanced d cascade saving ls e :
  listing_ok l →
  (offers (page_view l users fetching pending advanced d cascade saving ls) e ↔
   list_does l users fetching advanced e ∨ dialog_does d cascade saving ls e)
  ∧ (∀ a, offers (page_view l users fetching pending advanced d cascade saving ls) (Paging a) ↔
       page_label [5; 10; 20; 50]%Z a ∧ is_Some (step l a))
  ∧ (saving = true → offers (page_view l users fetching pending advanced d cascade saving ls) e →
     match e with SubmitUser | SubmitLimits | ConfirmDelete _ _ => False | _ => True end).
Proof.
  intros Hl. split; [by apply offers_page|]. split.
  - intros a. rewrite offers_page by done. cbn [list_does]. split; [|by left]. intros [H|H]; [done|].
    destruct d; cbn [dialog_does] in H; unfold form_does in H; [done|by destruct H as [?|[_ ?]]..| |].
    + by destruct H as [?|[[b ?]|[_ ?]]].
    + by destruct H as [?|[_ ?]].
  - intros -> H. apply offers_page in H as [H|H]; [by destruct e| |done].
    destruct d; cbn [dialog_does] in H; unfold form_does in H; [done|by destruct H as [->|[? _]]..| |].
    + by destruct H as [->|[[b ->]|[? _]]].
    + destruct H as [->|[_ H]]; [done|]. destruct e; try done. by apply elem_of_nil in H.
Qed.

(** ** Dialogs and their saves *)

(** The page with the dialog that is open, the number of those that were, and the saves that are not
    answered, each with the dialog it was made in. *)
Record users_page := mkUsersPage {
  list_ : listing UserListFilters;
  rows : list user;
  fetching_ : bool;
  pending_ : bool;
  showAdvancedFilters : bool;
  dialog : user_dialog;
  cascade_ : bool;
  limits : limits_state;
  mounted : nat;
  saves : gmap nat nat;
  next : nat;
}.

Implicit Types p : users_page.

(** [isPending] of the mutations of the dialog that is open. *)
Definition saving_ p : bool := existsb (λ im : nat * nat, im.2 =? mounted p)%nat (map_to_list (saves p)).

Definition view p : html users_event :=
  page_view (list_ p) (rows p) (fetching_ p) (pending_ p) (showAdvancedFilters p) (dialog p) (cascade_ p) (saving_ p) (limits p).

Definition set_list l p : users_page :=
  mkUsersPage l (rows p) (fetching_ p) (pending_ p) (showAdvancedFilters p) (dialog p) (cascade_ p) (limits p) (mounted p)
    (saves p) (next p).
Definition set_dialog d p : users_page :=
  mkUsersPage (list_ p) (rows p) (fetching_ p) (pending_ p) (showAdvancedFilters p) d (cascade_ p) (limits p) (mounted p)
    (saves p) (next p).
Definition set_saves m p : users_page :=
  mkUsersPage (list_ p) (rows p) (fetching_ p) (pending_ p) (showAdvancedFilters p) (dialog p) (cascade_ p) (limits p)
    (mounted p) m (next p).

Definition no_limits : limits_state := mkLimits true false false [] [] [].

(** A dialog is mounted anew each time it is opened. *)
Definition open_dialog d p : users_page :=
  mkUsersPage (list_ p) (rows p) (fetching_ p) (pending_ p) (showAdvancedFilters p) d false no_limits (S (mounted p))
    (saves p) (next p).

Definition onClose : users_page → users_page := set_dialog Closed.

(** [mutate] of a mutation whose success closes the dialog. *)
Definition save p : users_page :=
  mkUsersPage (list_ p) (rows p) (fetching_ p) (pending_ p) (showAdvancedFilters p) (dialog p) (cascade_ p) (limits p)
    (mounted p) (<[next p := mounted p]> (saves p)) (S (next p)).

(** What the controls do; a form is sent when it is valid, and what is entered in it is [Forms]'s. *)
Definition act (valid : bool) (e : users_event) p : users_page :=
  match e with
  | OpenDialog d => open_dialog d p
  | CloseDialog => onClose p
  | SetFilters f => set_list (set_filters f (list_ p)) p
  | ToggleAdvanced =>
      mkUsersPage (list_ p) (rows p) (fetching_ p) (pending_ p) (negb (showAdvancedFilters p)) (dialog p) (cascade_ p)
        (limits p) (mounted p) (saves p) (next p)
  | Paging a => set_list (default (list_ p) (step (list_ p) a)) p
  | TickCascade b =>
      mkUsersPage (list_ p) (rows p) (fetching_ p) (pending_ p) (showAdvancedFilters p) (dialog p) b (limits p) (mounted p)
        (saves p) (next p)
  | SubmitUser | SubmitLimits => if valid then save p else p
  | ConfirmDelete _ _ => save p
  | _ => p
  end.

(** An open dialog covers the page. *)
Definition in_dialog (e : users_event) : bool :=
  match e with OpenDialog _ | Refetch | SetFilters _ | ToggleAdvanced | Paging _ => false | _ => true end.

Inductive users_label :=
| User (valid : bool) (e : users_event)
| Saved (i : nat)
| SaveFailed (i : nat)
| Rows (n : Z) (us : list user) (fetching : bool)  (* the query of the list *)
| Limits (ls : limits_state).              (* the queries and the form of the limits *)

Inductive users_step : users_page → users_label → users_page → Prop :=
| user_acts p valid e :
    offers (view p) e → (dialog p = Closed ∨ in_dialog e = true) → users_step p (User valid e) (act valid e p)
| save_answered p i m : saves p !! i = Some m → users_step p (Saved i) (onClose (set_saves (delete i (saves p)) p))
| save_failed p i m : saves p !! i = Some m → users_step p (SaveFailed i) (set_saves (delete i (saves p)) p)
| rows_answered p n us f : (0 ≤ n)%Z →
    users_step p (Rows n us f)
      (mkUsersPage (answer n (list_ p)) us f false (showAdvancedFilters p) (dialog p) (cascade_ p) (limits p) (mounted p)
         (saves p) (next p))
| limits_shown p ls :
    users_step p (Limits ls)
      (mkUsersPage (list_ p) (rows p) (fetching_ p) (pending_ p) (showAdvancedFilters p) (dialog p) (cascade_ p) ls (mounted p)
         (saves p) (next p)).

Definition opened_users : users_page := mkUsersPage users_list [] true true false Closed false no_limits 0 ∅ 0.

(** The user leaves a dialog open while it saves. *)
Definition patient p (l : users_label) : Prop := match l with User _ CloseDialog => saving_ p = false | _ => True end.

Inductive patient_run : users_page → Prop :=
| run_opened : patient_run opened_users
| run_step p l p' : patient_run p → patient p l → users_step p l p' → patient_run p'.

Definition is_save (e : users_event) : bool := match e with SubmitUser | SubmitLimits | ConfirmDelete _ _ => true | _ => false end.

Lemma saving_true p : saving_ p = true ↔ ∃ i, saves p !! i = Some (mounted p).
Proof.
  unfold saving_. rewrite existsb_exists. setoid_rewrite <-list_elem_of_In. split.
  - intros ([i m] & H%elem_of_map_to_list & Hm%Nat.eqb_eq). cbn in Hm. subst. eauto.
  - intros [i H%elem_of_map_to_list]. exists (i, mounted p). split; [done|apply Nat.eqb_refl].
Qed.

(** A save is offered by an open dialog that is not saving. *)
Lemma save_offered p e :
  listing_ok (list_ p) → offers (view p) e → is_save e = true → saving_ p = false ∧ dialog p ≠ Closed.
Proof.
  intros Hl H%offers_page He; [|done]. destruct H as [H|H]; [by destruct e|].
  destruct (dialog p); cbn [dialog_does] in H; unfold form_does in H; [done|by destruct H as [->|[? _]]..| |].
  - by destruct H as [->|[[b ->]|[? _]]].
  - destruct H as [->|[_ H]]; [done|]. split; [|done]. destruct e; try done. destruct (saving_ p); [|done]. by apply elem_of_nil in H.
Qed.

(** Pending saves are of the dialog that is open, and there is at most one. *)
Definition orderly p : Prop :=
  listing_ok (list_ p)
  ∧ (∀ i m, saves p !! i = Some m → m = mounted p ∧ dialog p ≠ Closed)
  ∧ (∀ i j, is_Some (saves p !! i) → is_Some (saves p !! j) → i = j).

Lemma orderly_idle p : orderly p → saving_ p = false → saves p = ∅.
Proof.
  intros (_ & Hm & _) Hs. apply map_eq. intros i. rewrite lookup_empty. destruct (saves p !! i) as [m|] eqn:E; [|done].
  destruct (Hm i m E) as [-> _]. enough (saving_ p = true) by congruence. apply saving_true. eauto.
Qed.

Lemma orderly_fewer p q i :
  orderly p → list_ q = list_ p → mounted q = mounted p → saves q = delete i (saves p) →
  is_Some (saves p !! i) → orderly q.
Proof.
  intros (Hl & Hm & H1) Hlist Hmount Hsaves Hi. unfold orderly. rewrite Hlist, Hmount, Hsaves. split; [done|]. split.
  - intros j m Hj. apply lookup_delete_Some in Hj as [Hne Hj]. destruct Hne. apply H1; [done|by exists m].
  - intros j k [m Hj] [m' Hk]. apply lookup_delete_Some in Hj as [_ Hj], Hk as [_ Hk]. eauto.
Qed.

Lemma orderly_save p : orderly p → saving_ p = false → dialog p ≠ Closed → orderly (save p).
Proof.
  intros Ho Hs Hd. pose proof (orderly_idle p Ho Hs) as He. destruct Ho as (Hl & _ & _). unfold orderly, save. cbn.
  rewrite He, insert_empty. split; [done|]. split.
  - intros i m Hi. by apply lookup_singleton_Some in Hi as [<- <-].
  - intros i j [m Hi] [m' Hj]. apply lookup_singleton_Some in Hi as [<- _], Hj as [<- _]. done.
Qed.

Lemma orderly_act p valid e :
  orderly p → offers (view p) e → (dialog p = Closed ∨ in_dialog e = true) → (e = CloseDialog → saving_ p = false) →
  orderly (act valid e p).
Proof.
  intros Ho Hoff Hdlg Hpat. pose proof Ho as (Hl & Hm & H1).
  destruct e; cbn [act]; try exact Ho.
  - destruct Hdlg as [Hd|Hd]; [|done]. split; [done|]. split; [|done]. intros i m Hi. by destruct (Hm i m Hi).
  - specialize (Hpat eq_refl). pose proof (orderly_idle p Ho Hpat) as He.
    split; [done|]. unfold onClose, set_dialog. cbn. rewrite He. by split; [intros i m Hi|intros i j [m Hi]].
  - split; [|done]. cbn. by destruct Hl as (? & ? & ?).
  - split; [|done]. cbn. destruct (step (list_ p) _) as [l'|] eqn:E; [|done]. by eapply listing_step_ok.
  - destruct valid; [|done]. eapply save_offered in Hoff as [? ?]; [by apply orderly_save|done|done].
  - eapply save_offered in Hoff as [? ?]; [by apply orderly_save|done|done].
  - destruct valid; [|done]. eapply save_offered in Hoff as [? ?]; [by apply orderly_save|done|done].
Qed.

Lemma patient_orderly p : patient_run p → orderly p.
Proof.
  induction 1 as [|p l p' _ IH Hp Hs].
  - split; [repeat split; cbn; lia|]. by split; [intros i m Hi|intros i j [m Hi]].
  - pose proof IH as (Hl & Hm & H1). destruct Hs as [p valid e Ho Hd|p i m Hi|p i m Hi|p n us f Hn|p ls].
    + apply orderly_act; [done..|]. intros ->. exact Hp.
    + by apply (orderly_fewer p _ i).
    + by apply (orderly_fewer p _ i).
    + split; [|done]. by destruct Hl as (? & ? & ?).
    + by split.
Qed.

(** C34. A save closes the dialog it was made in, and no other: as long as the user leaves a dialog
    open while it saves, in whatever order the page is used and the server answers, there is at most
    one save under way, it was made in the dialog that is open now, which its answer closes, and no
    further one is offered. *)
Theorem saves_close_their_dialog p :
  patient_run p →
  (∀ i m, saves p !! i = Some m → m = mounted p ∧ dialog p ≠ Closed)
  ∧ (∀ i j, is_Some (saves p !! i) → is_Some (saves p !! j) → i = j)
  ∧ (∀ e, offers (view p) e → is_save e = true → saves p = ∅ ∧ dialog p ≠ Closed)
  ∧ (∀ i p', users_step p (Saved i) p' → dialog p' = Closed ∧ saves p' = ∅ ∧ mounted p' = mounted p).
Proof.
  intros Hp%patient_orderly. pose proof Hp as (Hl & Hm & H1). split; [done|]. split; [done|]. split.
  - intros e Ho He. destruct (save_offered p e Hl Ho He) as [Hs Hd]. split; [by apply orderly_idle|done].
  - intros i p' Hs. inversion Hs as [|? ? m Hi| | |]; subst. cbn. split; [done|]. split; [|done].
    apply map_eq. intros j. rewrite lookup_empty. apply lookup_delete_None. destruct (decide (i = j)) as [|Hne]; [by left|right].
    destruct (saves p !! j) as [k|] eqn:E; [|done]. destruct Hne. apply H1; eauto.
Qed.

(** ** A save that is answered late *)

Inductive users_runs : users_page → users_page → Prop :=
| runs_refl p : users_runs p p
| runs_step p p' l p'' : users_runs p p' → users_step p' l p'' → users_runs p p''.

Definition ann : user := mkUser "u1" "ann" "ann@example.com" UserRole_USER "2025-01-01" true.

Definition listed_users : users_page :=
  mkUsersPage (answer 1 users_list) [ann] false false false Closed false no_limits 0 ∅ 0.

(** The cross of a dialog is enabled while the dialog saves, and the answer to its save closes whatever
    dialog is open by then: the admin who changes a user, closes the dialog and starts to create
    another one loses what was entered. *)
Theorem late_save_closes_other_dialog :
  ∃ p1 p2 p3,
    users_runs listed_users p1 ∧ dialog p1 = Editing ann ∧ saves p1 = {[0%nat := 1%nat]} ∧ offers (view p1) CloseDialog
    ∧ users_runs (act false CloseDialog p1) p2 ∧ dialog p2 = Creating ∧ mounted p2 = 2%nat ∧ saving_ p2 = false
    ∧ users_step p2 (Saved 0) p3 ∧ dialog p3 = Closed.
Proof.
  set (q1 := act false (OpenDialog (Editing ann)) listed_users). set (q2 := act true SubmitUser q1).
  set (q3 := act false CloseDialog q2). set (q4 := act false (OpenDialog Creating) q3).
  assert (listing_ok (list_ listed_users)) as Hl by (repeat split; cbn; lia).
  exists q2, q4, (onClose (set_saves (delete 0%nat (saves q4)) q4)).
  assert (users_runs listed_users q1).
  { eapply runs_step; [apply runs_refl|]. apply user_acts; [|by left]. apply offers_page; [exact Hl|left]. by left. }
  split; [|split; [done|split; [done|split; [|split; [|split; [done|split; [done|split; [vm_compute; reflexivity|split; [|done]]]]]]]]].
  - eapply runs_step; [done|]. apply user_acts; [|by right]. apply offers_page; [exact Hl|right]. right. by split.
  - apply offers_page; [exact Hl|right]. by left.
  - eapply runs_step; [apply runs_refl|]. apply user_acts; [|by left]. apply offers_page; [exact Hl|left]. done.
  - eapply save_answered. vm_compute. reflexivity.
Qed.
End page.

Section witness.
Local Abbreviation time := (λ _ : option jstr, "now"%js).
Local Abbreviation number := string_of_Z.

Lemma users_page_offers_witness :
  let l := mkListing no_user_filters (mkPagination 0 10) 25 in
  let page := UsersPage_view time l [ann] false false false (Editing ann) false true number "1" no_limits in
  (offers page (Paging LNext) ↔ list_does l [ann] false false (Paging LNext) ∨ dialog_does (Editing ann) false true no_limits (Paging LNext))
  ∧ (∀ a, offers page (Paging a) ↔ page_label [5; 10; 20; 50]%Z a ∧ is_Some (step l a))
  ∧ (true = true → offers page (Paging LNext) →
     match Paging LNext with SubmitUser | SubmitLimits | ConfirmDelete _ _ => False | _ => True end).
Proof.
  apply (users_page_offers time number "1" (mkListing no_user_filters (mkPagination 0 10) 25) [ann] false false false
           (Editing ann) false true no_limits (Paging LNext)).
  repeat split; cbn; lia.
Defined.

Lemma saves_close_their_dialog_witness :
  let p := act true SubmitUser (act false (OpenDialog (Editing ann)) listed_users) in
  (∀ i m, saves p !! i = Some m → m = mounted p ∧ dialog p ≠ Closed)
  ∧ (∀ i j, is_Some (saves p !! i) → is_Some (saves p !! j) → i = j)
  ∧ (∀ e, offers (view time number "1" p) e → is_save e = true → saves p = ∅ ∧ dialog p ≠ Closed)
  ∧ (∀ i p', users_step time number "1" p (Saved i) p' → dialog p' = Closed ∧ saves p' = ∅ ∧ mounted p' = mounted p).
Proof.
  apply (saves_close_their_dialog time number "1" (act true SubmitUser (act false (OpenDialog (Editing ann)) listed_users))).
  assert (listing_ok (list_ listed_users)) as Hl by (repeat split; cbn; lia).
  eapply run_step with (l := User true SubmitUser); [|done|].
  - eapply run_step with (l := User false (OpenDialog (Editing ann))); [|done|].
    + eapply run_step; [apply run_opened| |apply (rows_answered time number "1" opened_users 1 [ann] false); lia]. done.
    + apply user_acts; [|by left]. apply offers_page; [exact Hl|left]. by left.
  - apply user_acts; [|by right]. apply offers_page; [exact Hl|right]. right. by split.
Defined.
End witness.
