(* ===== verification/EventsSpec.v ===== *)
(** * The events' administration: what each component offers

    The controls of the components of [EventsView], as equivalences. *)

From S2P Require Import Prelude JsString JsValue ApiEnums Formatters Pager Html CommonView CommonSpec EventFilters EventsPage EventsView.

Section components.
Context (pg : list (option jstr)).

Lemma does_EventDetailsModal o ft pretty eventData related e :
  does pg o (EventDetailsModal_view ft pretty eventData related) e ↔
  e = CloseDialog ∨ e = DetailsReplay (detail_id <$> eventData)
  ∨ (is_Some eventData ∧ ∃ r, r ∈ related ∧ e = ViewDetails (related_id r)).
Proof.
  unfold EventDetailsModal_view. split.
  - intros H. apply does_Modal in H as [->|[H|H]]; [by left|..]; offers_inv H; eauto 8.
  - intros H. apply does_Modal. destruct H as [->|[->|[[d ->] (r & Hr & ->)]]]; [by left|right; right; offers_find|right; left].
    assert (negb (no_rows related) = true) by (destruct related; [by apply not_elem_of_nil in Hr|done]). offers_find.
Qed.

Lemma does_EventFilters o fl f e :
  does pg o (EventFilters_view fl f) e ↔
  match e with
  | ApplyFilters | ClearFilters => True
  | SelectTypes sel => ∃ t, t ∈ EVENT_TYPES ∧ sel = toggled t f
  | EnterText k _ => k ∈ ["search_text"; "aggregate_id"; "user_id"; "service_name"]%js
  | EnterTime k _ => k ∈ ["start_time"; "end_time"]%js
  | _ => False
  end.
Proof.
  unfold EventFilters_view. split.
  - intros H. offers_inv H; asked H; try done; first [by eauto|rewrite !elem_of_cons; tauto].
  - destruct e; try done; intros H; try offers_find.
    + destruct H as (t & Ht & ->). offers_find.
    + repeat (apply elem_of_cons in H as [->|H]; [offers_find|]). by apply not_elem_of_nil in H.
    + repeat (apply elem_of_cons in H as [->|H]; [offers_find|]). by apply not_elem_of_nil in H.
Qed.

Lemma does_ReplayPreviewModal o ft preview e :
  does pg o (ReplayPreviewModal_view ft preview) e ↔ e = CloseDialog ∨ e = ConfirmReplay.
Proof.
  unfold ReplayPreviewModal_view. split.
  - intros H. apply does_Modal in H as [->|[H|H]]; [by left|..]; offers_inv H; auto.
  - intros [->| ->]; apply does_Modal; [by left|right; right; offers_find].
Qed.

Lemma does_ReplayProgressBanner o sn session e :
  does pg o (ReplayProgressBanner_view sn session) e ↔ is_Some session ∧ e = CloseBanner.
Proof.
  unfold ReplayProgressBanner_view, result_row. split.
  - intros H. offers_inv H; subst; eauto.
  - intros [[s ->] ->]. offers_find.
Qed.

Lemma does_UserOverviewModal o re ft sn loading overview e :
  does pg o (UserOverviewModal_view re ft sn loading overview) e ↔ e = CloseDialog.
Proof.
  unfold UserOverviewModal_view. split.
  - intros H. apply does_Modal in H as [->|[H|H]]; [done|..]; offers_inv H.
  - intros ->. apply does_Modal. by left.
Qed.

(** What a row of the table asks for. *)
Definition row_does (event : browsed_event) (e : events_event) : Prop :=
  match e with
  | ViewDetails id | AskReplay id _ | AskDelete id => id = event_id event
  | ViewUser u => event_user event = Some u ∧ u ≠ []
  | _ => False
  end.

#[local] Instance Paging_inj : Inj (=) (=) Paging.
Proof. by intros a b [= ->]. Qed.

Context {TP : TablePaging} {TL : TableLaws}.

Lemma does_EventsTable o fd ft events (l : listing jsval) loading e :
  listing_ok l →
  does pg o (EventsTable_view fd ft events (pagination l) (total l) loading) e ↔
  (∃ event, event ∈ events ∧ row_does event e)
  ∨ ∃ a, e = Paging a ∧ page_label [10; 25; 50; 100]%Z a ∧ is_Some (Pager.step l a).
Proof.
  intros Hl.
  pose proof (λ a, pagination_does_steps Paging [10; 25; 50; 100]%Z l a Hl ltac:(by repeat constructor)) as Hsteps.
  unfold EventsTable_view. rewrite does_app, does_DataTable, does_Pagination. f_equiv.
  - split.
    + intros (event & c & Hu & Hc & H). exists event. split; [done|]. unfold events_columns in Hc.
      repeat (apply elem_of_cons in Hc as [->|Hc];
              [cbn [col_cell] in H; unfold timeCell, typeCell, userCell, serviceCell, actionsCell in H; offers_inv H; subst; done|]).
      by apply not_elem_of_nil in Hc.
    + intros (event & Hu & H). destruct e as [| | | | | | | | |id|u|id dry|id| | | |]; try done; cbn [row_does] in H.
      * subst id. exists event, (mkColumn "timestamp" [] (timeCell fd ft)). split; [done|].
        split; [unfold events_columns; rewrite !elem_of_cons; tauto|]. cbn [col_cell]. unfold timeCell. offers_find.
      * destruct H as [H Hne]. exists event, (mkColumn "user_id" [] userCell). split; [done|].
        split; [unfold events_columns; rewrite !elem_of_cons; tauto|]. cbn [col_cell]. unfold userCell. rewrite H.
        destruct u; [done|]. offers_find.
      * subst id. exists event, (mkColumn "actions" "text-center" actionsCell). split; [done|].
        split; [unfold events_columns; rewrite !elem_of_cons; tauto|]. cbn [col_cell]. unfold actionsCell. destruct dry; offers_find.
      * subst id. exists event, (mkColumn "actions" "text-center" actionsCell). split; [done|].
        split; [unfold events_columns; rewrite !elem_of_cons; tauto|]. cbn [col_cell]. unfold actionsCell. offers_find.
  - split.
    + intros H. assert (∃ a, e = Paging a) as [a ->].
      { destruct H as (_ & [(k & _ & ->)|(_ & [[_ [->| ->]]|[[_ ->]|[_ ->]]])]); eauto. }
      exists a. split; [done|]. by apply Hsteps.
    + intros (a & -> & H). by apply Hsteps.
Qed.
End components.
