(* ===== verification/EventsAdmin.v ===== *)
(** * The events' administration: what the page lets the admin do

    [EventsView] shows the page of [routes/admin/events], [EventsPage] is its state and its handlers:
    this file says what the page offers, and that each control has a handler that can run. *)

From S2P Require Import Prelude JsString JsValue ApiEnums Formatters Pager Html CommonView CommonSpec EventFilters EventsPage EventsView EventsSpec.

Section page.
Context {TP : TablePaging} {TL : TableLaws}.
Context (resolve format_local : jstr → jstr) (formatTimestamp formatDateOnly formatTimeOnly : option jstr → jstr).
Context (show_number : double → jstr) (show_count : Z → jstr) (pretty : event_detail → jstr).
(** [parseISO(value).toISOString()]. *)
Context (parseISO_toISOString : jstr → jstr).

Local Abbreviation page_view p d pages showFilters :=
  (EventsPage_view resolve format_local formatTimestamp formatDateOnly formatTimeOnly show_number show_count pretty p d pages showFilters).

(** The list as [Pager] knows it: its filters are the applied ones. *)
Definition browsed (p : events_page) (d : events_data) (pages : PaginationState) : listing jsval :=
  mkListing (VObj (applied p)) pages (event_total d).

(** What the page lets the admin do. *)
Definition permitted (p : events_page) (d : events_data) (pages : PaginationState) (showFilters : bool) (e : events_event) : Prop :=
  match e with
  | ToggleFilters | Export _ => True
  | Refetch => fetching d = false
  | ApplyFilters => showFilters = true
  | ClearFilters => showFilters = true ∨ hasActiveFilters (VObj (applied p)) = true
  | SelectTypes sel => showFilters = true ∧ ∃ t, t ∈ EVENT_TYPES ∧ sel = toggled t (filters p)
  | EnterText k _ => showFilters = true ∧ k ∈ ["search_text"; "aggregate_id"; "user_id"; "service_name"]%js
  | EnterTime k _ => showFilters = true ∧ k ∈ ["start_time"; "end_time"]%js
  | Paging a => page_label [10; 25; 50; 100]%Z a ∧ is_Some (Pager.step (browsed p d pages) a)
  | ViewDetails id =>
      (∃ event, event ∈ events d ∧ id = event_id event)
      ∨ ((∃ i, dialog p = Details i) ∧ is_Some (shown_event d) ∧ ∃ r, r ∈ related d ∧ id = related_id r)
  | AskReplay id _ | AskDelete id => ∃ event, event ∈ events d ∧ id = event_id event
  | ViewUser u => ∃ event, event ∈ events d ∧ event_user event = Some u ∧ u ≠ []
  | DetailsReplay id => (∃ i, dialog p = Details i) ∧ id = detail_id <$> shown_event d
  | ConfirmReplay => ∃ preview, dialog p = Preview preview
  | CloseDialog => dialog p ≠ Closed
  | CloseBanner => replaySessionId p ≠ [] ∧ is_Some (session d)
  end.

Lemma offers_events_page p d pages showFilters e :
  listing_ok (browsed p d pages) →
  offers (page_view p d pages showFilters) e ↔ permitted p d pages showFilters e.
Proof.
  intros Hl. unfold offers. set (pg := flat_map submits _). clearbody pg. unfold EventsPage_view. rewrite does_app.
  pose proof (does_EventsTable pg true formatDateOnly formatTimeOnly (events d) (browsed p d pages) (loading d) e Hl) as Htable.
  pose proof (does_EventFilters pg true format_local (filters p) e) as Hfilters.
  pose proof (does_ReplayProgressBanner pg true show_number (session d) e) as Hbanner.
  cbn [pagination total browsed] in Htable. revert Htable Hfilters Hbanner.
  generalize (EventsTable_view formatDateOnly formatTimeOnly (events d) pages (event_total d) (loading d)).
  generalize (EventFilters_view format_local (filters p)). generalize (ReplayProgressBanner_view show_number (session d)).
  intros bv fv tv Htable Hfilters Hbanner. split.
  - intros [H|H].
    + offers_inv H; unfold id in *; subst; try done.
      * apply Hbanner in H as [Hs ->]. split; [|done]. by destruct (replaySessionId p).
      * right. by apply andb_prop in Hif as [_ ?].
      * apply Hfilters in H. destruct e; try done. by left.
      * apply Htable in H as [(event & He & H)|(a & -> & H)]; [|done]. destruct e; try done; cbn [row_does permitted] in *; eauto.
    + destruct (dialog p) eqn:E; [by apply does_nil in H|..].
      * apply does_EventDetailsModal in H as [->|[->|(Hd & r & Hr & ->)]]; cbn [permitted]; [congruence|eauto 8..].
      * apply does_UserOverviewModal in H as ->. cbn. congruence.
      * apply does_ReplayPreviewModal in H as [->| ->]; cbn; [congruence|eauto].
  - assert (∀ event, event ∈ events d → row_does event e → does pg true tv e) as Hrow by (intros; apply Htable; eauto).
    intros H. destruct e as [| | | | | | | | |id|u|id dry|id| | | |]; cbn [permitted] in H.
    + left. offers_find.
    + left. rewrite H. offers_find.
    + left. assert (f ∈ ExportFormat_all) by (unfold ExportFormat_all; destruct f; rewrite !elem_of_cons; tauto). offers_find.
    + left. assert (does pg true fv ApplyFilters) by (by apply Hfilters). offers_find.
    + left. destruct showFilters; [assert (does pg true fv ClearFilters) by (by apply Hfilters); offers_find|].
      destruct H as [H|H]; [done|]. rewrite H. cbn [negb andb]. offers_find.
    + left. destruct H as [Hs H]. assert (does pg true fv (SelectTypes sel)) by (by apply Hfilters). offers_find.
    + left. destruct H as [Hs H]. assert (does pg true fv (EnterText key t)) by (by apply Hfilters). offers_find.
    + left. destruct H as [Hs H]. assert (does pg true fv (EnterTime key t)) by (by apply Hfilters). offers_find.
    + left. assert (does pg true tv (Paging l)) by (apply Htable; eauto). offers_find.
    + destruct H as [(event & He & H)|([i Hd] & Hs & Hr)].
      * left. assert (does pg true tv (ViewDetails id)) by (by eapply Hrow). offers_find.
      * right. rewrite Hd. apply does_EventDetailsModal. right. right. split; [done|]. destruct Hr as (r & Hr & ->). eauto.
    + left. destruct H as (event & He & H). assert (does pg true tv (ViewUser u)) by (by eapply Hrow). offers_find.
    + left. destruct H as (event & He & H). assert (does pg true tv (AskReplay id dry)) by (by eapply Hrow). offers_find.
    + left. destruct H as (event & He & H). assert (does pg true tv (AskDelete id)) by (by eapply Hrow). offers_find.
    + right. destruct H as [[i Hd] ->]. rewrite Hd. apply does_EventDetailsModal. auto.
    + right. destruct H as [preview Hd]. rewrite Hd. apply does_ReplayPreviewModal. auto.
    + right. destruct (dialog p); [done|apply does_EventDetailsModal|apply does_UserOverviewModal|apply does_ReplayPreviewModal]; auto.
    + left. destruct H as [Hr Hs]. assert (negb (no_rows (replaySessionId p)) = true) by (by destruct (replaySessionId p)).
      assert (does pg true bv CloseBanner) by (by apply Hbanner). offers_find.
Qed.

(** The step of [EventsPage] that a control asks for; [confirmed] is the user's answer when the browser
    asks.  The others only change what is shown, list rows anew, or open the export. *)
Definition label_of (confirmed : bool) (e : events_event) : option EventsPage.label :=
  match e with
  | ApplyFilters => Some LApply
  | ClearFilters => Some LClear
  | SelectTypes sel => Some (LFilter "event_types" (match sel with [] => VNull | _ => VArr (map (λ t, VStr (EventType_value t)) sel) end))
  | EnterText key t => Some (LFilter key (match t with [] => VNull | _ => VStr t end))
  | EnterTime key t => Some (LFilter key (fromInput parseISO_toISOString t))
  | ViewDetails id => Some (LDetails id)
  | ViewUser u => Some (LUser u)
  | AskReplay id dry => Some (LReplay confirmed id dry)
  | AskDelete id => Some (LDelete confirmed id)
  | DetailsReplay (Some ((_ :: _) as id)) => Some (LDetailsReplay confirmed id)
  | ConfirmReplay => Some (LConfirm confirmed)
  | CloseDialog => Some LClose
  | CloseBanner => Some LCloseBanner
  | ToggleFilters | Refetch | Export _ | Paging _ | DetailsReplay _ => None
  end.

(** C26. The events' page offers exactly what is permitted, and nothing that fails: every enabled
    control asks for something permitted and everything permitted has a control; each asks for a step
    that the page can take, whatever the admin answers the browser; and the replay that the preview's
    button sends is of the event whose preview is shown. *)
Theorem events_page_offers p d pages showFilters e :
  listing_ok (browsed p d pages) →
  (offers (page_view p d pages showFilters) e ↔ permitted p d pages showFilters e)
  ∧ (∀ confirmed l, offers (page_view p d pages showFilters) e → label_of confirmed e = Some l → is_Some (step p l))
  ∧ (offers (page_view p d pages showFilters) ConfirmReplay →
     ∃ preview, dialog p = Preview preview
       ∧ snd <$> step p (LConfirm true) = Some [SendReplay (next_call p) (eventId preview) false]
       ∧ snd <$> step p (LConfirm false) = Some []).
Proof.
  intros Hl. split; [by apply offers_events_page|]. split.
  - intros confirmed l Ho%offers_events_page Hlab; [|done].
    destruct e as [| | | | | | | | | | | | |[[|]|]| | |]; try discriminate Hlab; injection Hlab as <-; cbn [step]; eauto.
    destruct Ho as [preview Hd]. cbn [step]. unfold handleConfirm. rewrite Hd. eauto.
  - intros [preview Hd]%offers_events_page; [|done]. exists preview. split; [done|]. cbn [step]. unfold handleConfirm.
    by rewrite Hd.
Qed.
End page.

Lemma events_page_offers_witness :
  let show := λ _ : option jstr, "now"%js in
  let p := set_dialog (Preview (mkPreview "e1" 2 [VObj []; VObj []])) fresh_page in
  let d := mkEventsData [mkBrowsed "e1" EventType_POD_CREATED "2025-01-01" None None] 1 false false None None None [] false None in
  let page := EventsPage_view id id show show show (λ _, "1"%js) string_of_Z (λ _, "{}"%js) p d (mkPagination 0 10) true in
  (offers page ConfirmReplay ↔ permitted p d (mkPagination 0 10) true ConfirmReplay)
  ∧ (∀ confirmed l, offers page ConfirmReplay → label_of id confirmed ConfirmReplay = Some l → is_Some (step p l))
  ∧ (offers page ConfirmReplay →
     ∃ preview, dialog p = Preview preview
       ∧ snd <$> step p (LConfirm true) = Some [SendReplay (next_call p) (eventId preview) false]
       ∧ snd <$> step p (LConfirm false) = Some []).
Proof.
  apply (events_page_offers id id (λ _, "now"%js) (λ _, "now"%js) (λ _, "now"%js) (λ _, "1"%js) string_of_Z (λ _, "{}"%js) id
           (set_dialog (Preview (mkPreview "e1" 2 [VObj []; VObj []])) fresh_page)
           (mkEventsData [mkBrowsed "e1" EventType_POD_CREATED "2025-01-01" None None] 1 false false None None None [] false None)
           (mkPagination 0 10) true ConfirmReplay).
  repeat split; cbn; lia.
Defined.
