(* ===== verification/NotificationsSpec.v ===== *)
(** * Notifications: what the dropdown and the page let the user do

    The controls of [NotificationsView], and what the handlers of [NotificationCenter] do with them. *)

From S2P Require Import Prelude JsString ApiEnums EventFilters NotificationCenter Formatters Html CommonView CommonSpec NotificationsView.

(** ** The dropdown *)

Section center.
Context (formatRelativeTime : option jstr → jstr).

Definition center_does (shown : list shown_notification) (c : center) (pending ask : bool) (e : center_event) : Prop :=
  match e with
  | SetOpen b => b = negb (showDropdown c)
  | ReadAll => showDropdown c = true ∧ (0 < unreadCount c)%Z
  | AskPermission => showDropdown c = true ∧ ask = true
  | Click n => showDropdown c = true ∧ pending = false ∧ n ∈ shown
  | ViewAll => showDropdown c = true
  end.

Lemma offers_center shown c pending ask e :
  offers (NotificationCenter_view formatRelativeTime shown (unreadCount c) pending (showDropdown c) ask) e ↔
  center_does shown c pending ask e.
Proof.
  unfold offers. set (pg := flat_map submits _). clearbody pg. unfold NotificationCenter_view, center_item. split.
  - intros H. offers_inv H; subst; try done; cbn [center_does]; first [done|split; [done|lia]|auto].
  - intros H. destruct e as [b| | |n|]; cbn [center_does] in H.
    + subst. offers_find.
    + destruct H as [-> H]. assert ((0 <? unreadCount c)%Z = true) by lia. offers_find.
    + destruct H as [-> ->]. offers_find.
    + destruct H as (-> & -> & H). assert (no_rows shown = false) as -> by (destruct shown; [by apply not_elem_of_nil in H|done]).
      offers_find.
    + rewrite H. offers_find.
Qed.
End center.

(** ** The page *)

Section page.
Context (formatRelativeTime : option jstr → jstr).

Definition page_does (shown : list shown_notification) (unreadCount : Z) (pending : bool) (r : removal) (e : notifications_event) : Prop :=
  match e with
  | EnterInput field _ => field ∈ ["include"; "exclude"; "prefix"]%js
  | ApplyFilters => True
  | MarkAll => shown ≠ [] ∧ (0 < unreadCount)%Z
  | MarkOne n => pending = false ∧ n ∈ shown ∧ unread n = true
  | DeleteOne id => pending = false ∧ isDeleting r id = false ∧ ∃ n, n ∈ shown ∧ id = notification_id (about n)
  end.

Lemma does_message pg o n e : does pg o (message n) e ↔ False.
Proof. unfold message. split; [|done]. intros H. offers_inv H. Qed.
Hint Rewrite does_message : offers.
#[local] Opaque message.

Lemma does_article pg o r n e :
  does pg o (notification_article formatRelativeTime r n) e ↔
  (unread n = true ∧ e = MarkOne n)
  ∨ (isDeleting r (notification_id (about n)) = false ∧ e = DeleteOne (notification_id (about n))).
Proof.
  unfold notification_article. split.
  - intros H. offers_inv H; unfold id in *; auto.
  - intros [[-> ->]|[Hd ->]]; [offers_find|]. rewrite Hd. offers_find.
Qed.
Hint Rewrite does_article : offers.
#[local] Opaque notification_article.

Lemma offers_notifications shown unreadCount pending r e :
  offers (NotificationsPage_view formatRelativeTime shown unreadCount pending r) e ↔ page_does shown unreadCount pending r e.
Proof.
  unfold offers. set (pg := flat_map submits _). clearbody pg. unfold NotificationsPage_view. split.
  - intros H. offers_inv H; unfold id in *.
    all: try (asked H; cbn [page_does]; rewrite ?elem_of_cons; tauto).
    + subst. apply andb_prop in Hif as [Hn Hu]. split; [by destruct shown|lia].
    + destruct H as [[Hu ->]|[Hd ->]]; cbn [page_does]; eauto.
  - intros H. destruct e as [field t| | |n|i]; cbn [page_does] in H.
    + repeat (apply elem_of_cons in H as [->|H]; [offers_find|]). by apply not_elem_of_nil in H.
    + offers_find.
    + destruct H as [Hn Hu]. assert (negb (no_rows shown) && (0 <? unreadCount)%Z = true) by (destruct shown; [done|cbn; lia]).
      offers_find.
    + destruct H as (-> & Hin & Hu). assert (no_rows shown = false) as -> by (destruct shown; [by apply not_elem_of_nil in Hin|done]).
      assert (does pg true (notification_article formatRelativeTime r n) (MarkOne n)) by (apply does_article; auto). offers_find.
    + destruct H as (-> & Hd & n & Hin & ->).
      assert (no_rows shown = false) as -> by (destruct shown; [by apply not_elem_of_nil in Hin|done]).
      assert (does pg true (notification_article formatRelativeTime r n) (DeleteOne (notification_id (about n))))
        by (apply does_article; auto). offers_find.
Qed.

(** The page's controls do what they say: marking is offered for what is unread only, so it always
    asks; deletion is offered for what is not being deleted as far as the page knows, so it always asks
    for one more. *)
Theorem notifications_page_acts shown unreadCount pending r :
  (∀ n, offers (NotificationsPage_view formatRelativeTime shown unreadCount pending r) (MarkOne n) →
     n ∈ shown ∧ markAsRead (about n) = [MarkRead (notification_id (about n))])
  ∧ (∀ i, offers (NotificationsPage_view formatRelativeTime shown unreadCount pending r) (DeleteOne i) →
       requested (deleteNotification i r) = requested r ++ [i] ∧ isDeleting (deleteNotification i r) i = true).
Proof.
  split.
  - intros n (_ & Hin & Hu)%offers_notifications. split; [done|]. unfold markAsRead. unfold unread in Hu.
    by destruct (bool_decide _).
  - intros i (_ & Hd & _)%offers_notifications. unfold deleteNotification. rewrite Hd. split; [done|].
    unfold isDeleting. cbn. by apply bool_decide_eq_true.
Qed.
End page.

(** ** Clicking a notification *)

(** What the dropdown offers, it does: its notifications can be clicked while it is open and loaded;
    a click asks to mark the notification exactly when it is unread, and has the route of its URL
    looked up, with the dropdown still there; when that is known, the dropdown is closed and left for
    the page, if it is one of the application, and otherwise nothing happens. *)
Theorem dropdown_clicks formatRelativeTime (match_ : jstr → option jstr) resolve shown c pending ask n :
  offers (NotificationCenter_view formatRelativeTime shown (unreadCount c) pending (showDropdown c) ask) (Click n) →
  let r := handleNotificationClick (about n) c in
  n ∈ shown
  ∧ r.2 = (if unread n then [MarkRead (notification_id (about n))] else [])
  ∧ showDropdown r.1 = showDropdown c
  ∧ (∀ url, action_url (about n) = Some url → url ≠ [] → url ∈ matching r.1)
  ∧ ∀ c' url c'' es, step match_ resolve c' (LMatched url) = Some (c'', es) →
      match match_ url with
      | None => showDropdown c'' = showDropdown c' ∧ es = []
      | Some route => showDropdown c'' = false ∧ es = [Goto (resolve route)]
      end.
Proof.
  intros (_ & _ & Hin)%offers_center. cbn zeta. split; [done|]. unfold handleNotificationClick, markAsRead, unread.
  split; [cbn; by destruct (bool_decide _)|]. split; [by destruct (action_url (about n)) as [[|]|]|]. split.
  - intros url -> Hu. destruct url; [done|]. cbn. apply elem_of_app. right. by apply list_elem_of_singleton.
  - intros c' url c'' es Hs. cbn [step] in Hs. destruct (list_find (eq url) (matching c')) as [[i x]|]; [|done].
    cbn [mbind option_bind] in Hs. unfold pageMatched in Hs. destruct (match_ url); injection Hs as <- <-; [|done].
    split; [|done]. unfold set_open, changed. by case_bool_decide.
Qed.
