(* ===== verification/ExecutionsPage.v ===== *)
(** * The executions' administration: what the page lets the admin do

    [ExecutionsView] shows the page of [routes/admin/executions] and [Pager] keeps its list; this file
    says what the page offers, and that a priority it offers is one the API takes. *)

From S2P Require Import Prelude JsString JsValue ApiEnums Zod ApiTypes ApiSchemas SchemaSpec Sdk SdkSpec Client Forms FormsSpec.
From S2P Require Import Formatters EventFilters Pager Html CommonView CommonSpec ExecutionsView.

(** ** What the handlers do *)

Section handlers.
Context {zod : Zod} {W : Type}.

Inductive executions_effect := Sends (f : form_effect W) | Says (message : jstr) | Invalidates (e : Endpoint).

(** [updatePriority.mutate] of the choice of a row, and what its answer does. *)
Definition update_priority (execution_id : jstr) (priority : ApiEnums.QueuePriority) : list (form_effect W) :=
  send updatePriorityApiV1AdminExecutionsExecutionIdPriorityPut (Some [("execution_id"%js, VStr execution_id)])
    (VObj [("priority"%js, VStr (QueuePriority_value priority))]).

Definition refresh : list executions_effect :=
  [Invalidates listExecutionsApiV1AdminExecutionsGet; Invalidates getQueueStatusApiV1AdminExecutionsQueueGet].

Definition priority_updated (priority : ApiEnums.QueuePriority) : list executions_effect :=
  Says ("Priority updated to " ++ QueuePriority_value priority) :: refresh.

Context `{!TablePaging}.

Definition executions_act (e : executions_event) (l : listing ExecutionFilters)
  : listing ExecutionFilters * list executions_effect :=
  match e with
  | RefreshLists => (l, refresh)
  | SetFilters f => (set_filters f l, [])
  | Paging a => (default l (step l a), [])
  | SetPriority id priority => (l, Sends <$> update_priority id priority)
  end.

Lemma priority_accepted id priority :
  Forall (call_accepted zUpdatePriorityApiV1AdminExecutionsExecutionIdPriorityPutBody) (update_priority id priority).
Proof.
  apply (call_accepted_body _ UpdatePriorityApiV1AdminExecutionsExecutionIdPriorityPutData).
  - apply (list_elem_of_lookup_2 _ 29). reflexivity.
  - apply has_type_fields. each_field; try reflexivity; by destruct priority.
  - apply accepts_fields. each_field. unfold accepts. rewrite safeParse_spec. destruct priority; by eexists.
Qed.
End handlers.

(** ** What the page offers *)

Section page.
Context {TP : TablePaging} {TL : TableLaws} (formatTimestamp : option jstr → jstr).

#[local] Instance Paging_inj : Inj (=) (=) Paging.
Proof. by intros a b [= ->]. Qed.

Lemma does_ExecutionsTable pg o rows (l : listing ExecutionFilters) loading e :
  listing_ok l →
  does pg o (ExecutionsTable_view formatTimestamp rows (pagination l) (total l) loading) e ↔
  (∃ x priority, x ∈ rows ∧ e = SetPriority (x_execution_id x) priority)
  ∨ ∃ a, e = Paging a ∧ page_label [10; 20; 50; 100]%Z a ∧ is_Some (step l a).
Proof.
  intros Hl.
  pose proof (λ a, pagination_does_steps Paging [10; 20; 50; 100]%Z l a Hl ltac:(by repeat constructor)) as Hsteps.
  unfold ExecutionsTable_view. rewrite does_app, does_DataTable, does_when. f_equiv.
  - split.
    + intros (x & c & Hx & Hc & H). unfold executions_columns in Hc.
      repeat (apply elem_of_cons in Hc as [->|Hc]; [cbn [col_cell] in H; unfold statusCell, priorityCell in H; offers_inv H; subst; eauto|]).
      by apply not_elem_of_nil in Hc.
    + intros (x & priority & Hx & ->). exists x, (mkColumn "priority" [] priorityCell). split; [done|].
      split; [unfold executions_columns; rewrite !elem_of_cons; tauto|]. cbn [col_cell]. unfold priorityCell.
      assert (priority ∈ QueuePriority_all) by (unfold QueuePriority_all; destruct priority; rewrite !elem_of_cons; tauto).
      offers_find.
  - split.
    + intros [_ H]. offers_inv H. assert (∃ a, e = Paging a) as [a ->].
      { destruct H as (_ & [(k & _ & ->)|(_ & [[_ [->| ->]]|[[_ ->]|[_ ->]]])]); eauto. }
      exists a. split; [done|]. by apply Hsteps.
    + intros (a & -> & H). apply Hsteps in H. split; [destruct H; lia|].
      apply does_el. left. split; [done|]. right. right. by apply does_Pagination.
Qed.

(** The filters that can be chosen next. *)
Inductive filter_choice (f : ExecutionFilters) : ExecutionFilters → Prop :=
| any_status : filter_choice f (with_status None f)
| one_status s : s ∈ ExecutionStatus_all → filter_choice f (with_status (Some (ExecutionStatus_value s)) f)
| any_priority : filter_choice f (with_priority None f)
| one_priority q : q ∈ QueuePriority_all → filter_choice f (with_priority (Some (QueuePriority_value q)) f)
| one_user t : filter_choice f (with_user (Some t) f)
| no_choice : filter_choice f no_execution_filters.

Definition executions_does (l : listing ExecutionFilters) (rows : list execution_row) (fetching : bool) (e : executions_event) : Prop :=
  match e with
  | RefreshLists => fetching = false
  | SetFilters g => filter_choice (filters l) g
  | Paging a => page_label [10; 20; 50; 100]%Z a ∧ is_Some (step l a)
  | SetPriority id _ => ∃ x, x ∈ rows ∧ id = x_execution_id x
  end.

Lemma offers_executions l rows queue fetching pending e :
  listing_ok l →
  offers (ExecutionsPage_view formatTimestamp l rows queue fetching pending) e ↔ executions_does l rows fetching e.
Proof.
  intros Hl. unfold offers. set (pg := flat_map submits _). clearbody pg. unfold ExecutionsPage_view.
  pose proof (does_ExecutionsTable pg true rows l pending e Hl) as Htable. revert Htable.
  generalize (ExecutionsTable_view formatTimestamp rows (pagination l) (total l) pending). intros tv Htable. split.
  - intros H. offers_inv H; unfold id in *.
    all: try (apply Htable in H as [(x & priority & Hx & ->)|(a & -> & Ha)]; cbn [executions_does]; eauto; fail).
    all: asked H; cbn [executions_does]; first [done|by constructor].
  - intros H. destruct e as [|g|a|id priority]; cbn [executions_does] in H.
    + rewrite H. offers_find.
    + destruct H; offers_find.
    + assert (does pg true tv (Paging a)) by (apply Htable; eauto). offers_find.
    + destruct H as (x & Hx & ->). assert (does pg true tv (SetPriority (x_execution_id x) priority)) by (apply Htable; eauto).
      offers_find.
Qed.

(** The page of the executions offers exactly what its state permits: to refresh when nothing is on its
    way, the filters of the API's statuses and priorities, the steps of the list, and every priority
    for every execution that is listed; choosing one is a call that the endpoint takes, of that
    execution, and its answer has the list and the queue loaded anew. *)
Theorem executions_page_offers {zod : Zod} {W : Type} l rows queue fetching pending e :
  listing_ok l →
  (offers (ExecutionsPage_view formatTimestamp l rows queue fetching pending) e ↔ executions_does l rows fetching e)
  ∧ (∀ id priority, e = SetPriority id priority →
       offers (ExecutionsPage_view formatTimestamp l rows queue fetching pending) e →
       (executions_act (W := W) e l).2 = Sends <$> update_priority id priority
       ∧ Forall (call_accepted zUpdatePriorityApiV1AdminExecutionsExecutionIdPriorityPutBody) (update_priority (W := W) id priority))
  ∧ (offers (ExecutionsPage_view formatTimestamp l rows queue fetching pending) e → listing_ok (executions_act (W := W) e l).1).
Proof.
  intros Hl. split; [by apply offers_executions|]. split.
  - intros id priority -> _. split; [done|apply priority_accepted].
  - intros Ho%offers_executions; [|done]. destruct e as [|g|a|id priority]; try exact Hl.
    + destruct Hl as (Hs & _ & Hn). split; [exact Hs|]. split; [cbn; lia|exact Hn].
    + destruct Ho as [Ha [l' Hs]]. cbn. rewrite Hs. cbn. exact (listing_step_ok _ _ _ Hl Hs).
Qed.
End page.
