(* ===== verification/SettingsPages.v ===== *)
(** * The settings: what is shown, entered and saved

    The page of the system's settings ([routes/admin/settings/+page.svelte]) as its markup, its form
    and its queries together, in runs where the answers come in any order. *)

From S2P Require Import Prelude JsString JsValue UrlBuilder UrlSpec Client Zod ApiEnums ApiSchemas SchemaSpec SchemaStable Sdk Formatters Validation Forms FormsSpec.
From S2P Require Import Html CommonView CommonSpec AdminView.

(** ** What the page of the system's settings offers *)

(** The fields of the schema, as the form shows them. *)
Definition SETTINGS : list jstr :=
  match zSystemSettingsSchemaInput with ZObject fs => map fst fs | _ => [] end.

Section offers.
Context (pg : list (option jstr)).

Lemma does_setting o name type e : does pg o (setting name type) e ↔ ∃ t, e = EnterSetting name t.
Proof. unfold setting. split; [intros H; offers_inv H; done|]. intros [t ->]. offers_find. Qed.
Lemma submit_setting name type f : has_submit (setting name type) f ↔ False.
Proof. unfold setting. split; [|done]. intros H. submit_inv H. Qed.
End offers.
Hint Rewrite does_setting : offers.
Hint Rewrite submit_setting : submits.
#[local] Opaque setting.

Lemma offers_system pending saving resetting e :
  offers (SystemSettingsPage_view pending saving resetting) e ↔
  pending = false
  ∧ match e with
    | EnterSetting name _ => name ∈ SETTINGS
    | SubmitSettings | ResetSettings => saving = false ∧ resetting = false
    end.
Proof.
  unfold offers. set (pg := flat_map submits _). clearbody pg. unfold SystemSettingsPage_view.
  destruct pending; [split; [intros H; offers_inv H|by intros [? _]]|].
  split.
  - intros H. split; [done|]. offers_inv H; unfold id in *.
    all: try (lazymatch type of H with ∃ _, _ => destruct H as [t ->] end; apply (bool_decide_unpack _); vm_compute; exact I).
    + subst. submitted Hif. by apply negb_true_iff, orb_false_iff in Hif.
    + subst. by apply orb_false_iff in Hif.
  - intros [_ H]. destruct e as [name t| |].
    + assert (∀ ty, does pg true (setting name ty) (EnterSetting name t)) by (intros; apply does_setting; eauto).
      cbn in H. repeat (apply elem_of_cons in H as [->|H]; [offers_find|]). by apply not_elem_of_nil in H.
    + destruct H as [-> ->]. offers_form.
    + destruct H as [-> ->]. offers_find.
Qed.

(** ** Its runs *)

Inductive query_state := Pending | Loaded (v : jsval) | LoadFailed.

(** [edited] are the fields that were entered since the form last started over, for the theorems. *)
Record system_page := mkSystem {
  query : query_state;
  entered : list (jstr * jsval);
  edited : list jstr;
  saving : bool;
  resetting : bool;
}.

Section system.
Context {zod : Zod} {W : Type} {SF : Superforms}.
(** What the input of a field makes of a text, a number or a text; and when the query keeps the data
    it has because an answer says the same, so that the effect has no reason to run. *)
Context (read : jstr → jstr → jsval) (shares : jsval → jsval → bool).
Implicit Types p : system_page.

(** What [apiForm] starts a form from: the defaults of its schema. *)
Definition form_defaults : list (jstr * jsval) :=
  match safeParse zSystemSettingsSchemaInput (VObj []) with Some (VObj l) => l | _ => [] end.

Definition opened_system : system_page := mkSystem Pending form_defaults [] false false.

Definition is_pending p : bool := match query p with Pending => true | _ => false end.
Definition system_view p : html system_event := SystemSettingsPage_view (is_pending p) (saving p) (resetting p).

(** [storeSettings], and a load: the effect starts the form over from new data in the query. *)
Definition store (v : list (jstr * jsval)) p : system_page :=
  if match query p with Loaded w => shares w (VObj v) | _ => false end then p
  else mkSystem (Loaded (VObj v)) v [] (saving p) (resetting p).

(** The form as it is submitted, what [onUpdate] sends of it, and what the form shows afterwards. *)
Definition submitted_form p : submitted := submit (safeParse zSystemSettingsSchemaInput) (VObj (entered p)).
Definition submission p : list (form_effect W) := system_onUpdate (submitted_form p).
Definition resubmitted p : list (jstr * jsval) :=
  match data (submitted_form p) with VObj l => if valid (submitted_form p) then l else entered p | _ => entered p end.

Definition system_act (confirmed : bool) (e : system_event) p : system_page :=
  match e with
  | EnterSetting name t =>
      mkSystem (query p) (obj_set name (read name t) (entered p)) (name :: edited p) (saving p) (resetting p)
  | SubmitSettings =>
      mkSystem (query p) (resubmitted p) (edited p) (match submission p with [] => saving p | _ => true end) (resetting p)
  | ResetSettings => mkSystem (query p) (entered p) (edited p) (saving p) (confirmed || resetting p)
  end.

Inductive system_label :=
| SUser (confirmed : bool) (e : system_event)
| SLoaded (v : list (jstr * jsval)) | SLoadFailed | SRefetch
| SSaved (v : list (jstr * jsval)) | SSaveFailed
| SReset (v : list (jstr * jsval)) | SResetFailed.

(** A query that has no data is pending again when it is fetched again, and its form is hidden; one
    that has data keeps it. *)
Inductive system_step : system_page → system_label → system_page → Prop :=
| system_user p c e : offers (system_view p) e → system_step p (SUser c e) (system_act c e p)
| system_loaded p v : system_step p (SLoaded v) (store v p)
| system_load_failed p : query p = Pending →
    system_step p SLoadFailed (mkSystem LoadFailed (entered p) (edited p) (saving p) (resetting p))
| system_refetch p : query p = LoadFailed →
    system_step p SRefetch (mkSystem Pending (entered p) (edited p) (saving p) (resetting p))
| system_saved p v : saving p = true →
    system_step p (SSaved v) (store v (mkSystem (query p) (entered p) (edited p) false (resetting p)))
| system_save_failed p : saving p = true →
    system_step p SSaveFailed (mkSystem (query p) (entered p) (edited p) false (resetting p))
| system_reset p v : resetting p = true →
    system_step p (SReset v) (store v (mkSystem (query p) (entered p) (edited p) (saving p) false))
| system_reset_failed p : resetting p = true →
    system_step p SResetFailed (mkSystem (query p) (entered p) (edited p) (saving p) false).

Inductive system_run : system_page → Prop :=
| system_opened : system_run opened_system
| system_next p l p' : system_run p → system_step p l p' → system_run p'.

(** The fields of the schema keep what they let through, when there is something. *)
Lemma system_kept v w k :
  safeParse zSystemSettingsSchemaInput v = Some w → k ∈ SETTINGS → is_undefined (prop k v) = false → prop k w = prop k v.
Proof.
  intros Hp Hk Hv. destruct (parse_answers _ _ _ Hp) as (_ & Hf & _); [reflexivity|]. rewrite Forall_forall in Hf.
  unfold SETTINGS in Hk. cbn [zSystemSettingsSchemaInput] in Hk, Hf. apply list_elem_of_fmap in Hk as ([k' s] & -> & Hin).
  specialize (Hf _ Hin). cbn [fst snd] in *.
  assert (∃ t d, s = ZDefault (ZOptional t) d ∧ ((∃ cs, t = ZInt cs) ∨ t = ZString [])) as (t & d & -> & Ht).
  { repeat (apply elem_of_cons in Hin as [[= -> ->]|Hin]; [eexists _, _; split; [reflexivity|]; eauto|]).
    by apply not_elem_of_nil in Hin. }
  rewrite safeParse_spec in Hf. cbn [zod_step] in Hf. rewrite Hv in Hf. rewrite safeParse_spec in Hf. cbn [zod_step] in Hf.
  rewrite Hv in Hf. destruct Ht as [[cs ->] | ->]; rewrite safeParse_spec in Hf; cbn [zod_step] in Hf.
  - destruct (prop k' v) as [| | |n| | | | | | | | | |] eqn:E; try discriminate Hf. destruct n as [| |m e]; try discriminate Hf.
    destruct (safe_integer m e && _); [|discriminate Hf]. by injection Hf as <-.
  - destruct (prop k' v) eqn:E; try discriminate Hf. by injection Hf as <-.
Qed.

Lemma submission_sends p ef :
  ef ∈ submission p →
  ∃ w, safeParse zSystemSettingsSchemaInput (VObj (entered p)) = Some w
       ∧ ef = Mutate updateSystemSettingsApiV1AdminSettingsPut (mutate_options None None (Some w)).
Proof.
  unfold submission, submitted_form, system_onUpdate, when_valid, send. intros H.
  destruct (safeParse zSystemSettingsSchemaInput (VObj (entered p))) as [w|] eqn:E.
  - rewrite (submit_valid _ _ _ E) in H. cbn [valid data] in H. apply list_elem_of_singleton in H as ->. by exists w.
  - rewrite (submit_invalid _ _ E) in H. by apply not_elem_of_nil in H.
Qed.

Lemma mutate_body e (v w : jsval) :
  Mutate (W := W) e (mutate_options None None (Some v)) = Mutate e (mutate_options None None (Some w)) → v = w.
Proof. by intros [= ->]. Qed.

Lemma resubmitted_keeps p k :
  k ∈ SETTINGS → is_undefined (prop k (VObj (entered p))) = false →
  prop k (VObj (resubmitted p)) = prop k (VObj (entered p)).
Proof.
  intros Hk Hv. unfold resubmitted, submitted_form.
  destruct (safeParse zSystemSettingsSchemaInput (VObj (entered p))) as [w|] eqn:E.
  - rewrite (submit_valid _ _ _ E). cbn [valid data].
    destruct w; try done. exact (system_kept _ _ _ E Hk Hv).
  - rewrite (submit_invalid _ _ E). by destruct (data _).
Qed.

(** What the query has, or the defaults while it has nothing: what the form shows, but for the
    fields that were entered. *)
Definition source p : jsval := match query p with Loaded v => v | _ => VObj form_defaults end.
Definition follows p : Prop :=
  ∀ k, k ∈ SETTINGS → k ∉ edited p → is_undefined (prop k (source p)) = false →
  prop k (VObj (entered p)) = prop k (source p).

Lemma store_follows v p : follows p → follows (store v p).
Proof. intros H. unfold store. destruct (match query p with Loaded _ => _ | _ => _ end); [exact H|done]. Qed.

Lemma system_follows p : system_run p → follows p.
Proof.
  induction 1 as [|p l p' _ IH Hs]; [done|].
  destruct Hs as [p c e _| |p H|p H| | | |]; try (apply store_follows); try exact IH.
  - destruct e as [name t| |]; [| |exact IH]; intros k Hk He Hv; cbn [system_act edited entered] in *.
    + apply not_elem_of_cons in He as [Hne He]. cbn [prop]. rewrite obj_get_set_ne by done. by apply IH.
    + pose proof (IH k Hk He Hv) as Heq. change (prop k (VObj (resubmitted p)) = prop k (source p)).
    rewrite <- Heq. apply resubmitted_keeps; [done|]. by rewrite Heq.
  - unfold follows, source in *. cbn [query entered edited]. by rewrite H in IH.
  - unfold follows, source in *. cbn [query entered edited]. by rewrite H in IH.
Qed.

(** C28. The settings are submitted only when they were asked for, and while nothing is saved or
    reset; and what is then sent says of every setting that was not entered since the form last
    started over what the answers last said of it: a load, a save or a reset that answers in between
    starts the form over, and one that says nothing new leaves it. *)
Theorem system_settings_sent p p' c (Hrun : system_run p) (Hs : system_step p (SUser c SubmitSettings) p') :
  query p ≠ Pending ∧ saving p = false ∧ resetting p = false
  ∧ ∀ ef, ef ∈ submission p →
    ∃ w, ef = Mutate updateSystemSettingsApiV1AdminSettingsPut (mutate_options None None (Some w))
      ∧ saving p' = true
      ∧ ∀ k, k ∈ SETTINGS → k ∉ edited p → is_undefined (prop k (source p)) = false →
          prop k w = prop k (source p) ∧ prop k (VObj (entered p')) = prop k (source p).
Proof.
  inversion Hs; subst. match goal with H : offers _ _ |- _ => apply offers_system in H as (Hp & Hsv & Hrs) end.
  split_and!; try done. { unfold is_pending in Hp. by destruct (query p). }
  intros ef Hef. destruct (submission_sends _ _ Hef) as (w & Hw & ->). exists w. split; [done|]. split.
  { cbn [system_act saving]. destruct (submission p); [by apply not_elem_of_nil in Hef|done]. }
  intros k Hk He Hv. pose proof (system_follows _ Hrun k Hk He Hv) as Hsame.
  assert (is_undefined (prop k (VObj (entered p))) = false) as Hd by (by rewrite Hsame).
  split; [rewrite <- Hsame; exact (system_kept _ _ _ Hw Hk Hd)|].
  cbn [system_act entered]. rewrite resubmitted_keeps; done.
Qed.
End system.

(** ** A run, concretely *)

Definition read_number (name t : jstr) : jsval := if name =js "memory_limit" then VStr t else VInt 20.
Definition loaded_settings : list (jstr * jsval) := obj_set "lockout_duration_minutes" (VInt 45) (form_defaults (zod := example_zod)).

Definition opened_page : system_page := opened_system (zod := example_zod).
Definition loaded_page : system_page := store (λ _ _, false) loaded_settings opened_page.
Definition edited_page : system_page :=
  system_act (zod := example_zod) (W := unit) (SF := plain_superforms) read_number false (EnterSetting "memory_limit" "1Gi") loaded_page.
Definition sent_settings : jsval :=
  VObj (resubmitted (zod := example_zod) (SF := plain_superforms) edited_page).

Lemma system_settings_sent_witness :
  submission (zod := example_zod) (W := unit) (SF := plain_superforms) edited_page
  = [Mutate updateSystemSettingsApiV1AdminSettingsPut (mutate_options None None (Some sent_settings))]
  ∧ prop "memory_limit" sent_settings = VStr "1Gi" ∧ prop "lockout_duration_minutes" sent_settings = VInt 45.
Proof.
  assert (submission (zod := example_zod) (W := unit) (SF := plain_superforms) edited_page
  = [Mutate updateSystemSettingsApiV1AdminSettingsPut (mutate_options None None (Some sent_settings))]) as Hsent
    by (vm_compute; reflexivity).
  split; [exact Hsent|]. split; [vm_compute; reflexivity|].
  destruct (@system_settings_sent example_zod unit plain_superforms read_number (λ _ _, false) edited_page
              (system_act (zod := example_zod) (W := unit) (SF := plain_superforms) read_number false SubmitSettings edited_page) false)
    as (_ & _ & _ & H).
  - eapply system_next; [eapply system_next; [apply system_opened|apply (system_loaded _ _ _ loaded_settings)]|].
    apply system_user. apply offers_system. split; [reflexivity|]. apply (bool_decide_unpack _); vm_compute; exact I.
  - apply system_user. apply offers_system. repeat split.
  - destruct (H (Mutate updateSystemSettingsApiV1AdminSettingsPut (mutate_options None None (Some sent_settings)))) as (w & Heq & _ & Hk).
    { rewrite Hsent. by apply list_elem_of_singleton. }
    apply mutate_body in Heq as <-.
    apply (Hk "lockout_duration_minutes"%js); [apply (bool_decide_unpack _)|apply (bool_decide_unpack _)|]; by vm_compute.
Defined.

(** A load that fails leaves the defaults of the schema in the form, where they can be saved: the
    settings, which nobody has seen, are then overwritten by them. *)
Theorem failed_load_saves_defaults :
  let failed := mkSystem LoadFailed (entered opened_page) [] false false in
  system_run (zod := example_zod) (W := unit) (SF := plain_superforms) read_number (λ _ _, false) failed
  ∧ offers (system_view failed) SubmitSettings
  ∧ submission (zod := example_zod) (W := unit) (SF := plain_superforms) failed
    = [Mutate updateSystemSettingsApiV1AdminSettingsPut (mutate_options None None (Some (VObj (form_defaults (zod := example_zod)))))].
Proof.
  cbv zeta. split_and!.
  - eapply system_next; [apply system_opened|]. by apply (system_load_failed _ _ opened_page).
  - apply offers_system. repeat split.
  - vm_compute. reflexivity.
Qed.
